(* ===== verification/_CoqProject ===== *)
-Q . S2P
Prelude.v
Utils.v
FlashStore.v
InternalFlash.v
SpiFlash.v
ParamLayout.v
Params.v
HwCrc.v
FlashLayout.v
Fwup.v
Timers.v
HwTimers.v
Dma.v
Efuse.v
Network.v
Dhcp.v
Dns.v
Lsd.v
Uart.v
UartRun.v
UartSpec.v
SerialTask.v
SerialSpec.v
SerialData.v
AtToken.v
AtCmdp.v
AtExec.v
AtSpec.v
SerialFwup.v
SerialAt.v
