(* ===== verification/Prelude.v ===== *)
(** * Verification of the WM600 SDK

    The WM600 SDK is the firmware kit of a Wi-Fi microcontroller.  This
    development models the SDK's own logic: the flash driver and what is kept
    in the flash (parameters, firmware images, factory data), the timers and
    message tasks, the serial ports, the DHCP and name servers of the access
    point mode, and the one-shot configuration of a module that is in no network
    yet.

    ** Parts and files

    - [Utils]: [src/Platform/Common/utils/utils.c].  CRC-8, CRC-32, conversions.
    - [FlashStore]: the interface of the flash, classes [FlashDev] (read, write,
      erase) and [FlashDevOk] (they act on an array of bytes, or fail and leave
      it alone); [array_dev] is an array that meets it.
    - [InternalFlash]: [src/Platform/Drivers/internalflash/wm_internal_fls.c].
      The record [fls] is the driver's globals; the controller's registers are
      the class [FlashBus] with the laws [FlashBusOk] of the flash commands, met
      by the simulator [sim]; the second flash is the class [SpiFls].  The
      instance [fls_dev_ok] discharges [FlashDevOk], so what is proved of the
      clients below holds over this driver.
    - [SpiFlash]: [src/Platform/Drivers/flash/] ([wm_fls.c], [wm_fls_gd25qxx.c]),
      the record [spifls] its globals.  The SPI master with the part is the
      class [SpiMaster] with the laws [SpiMasterOk] of the part's commands, met
      by the simulator [spisim].  Instance [spifls_dev_ok] makes the driver a
      flash, [spifls_second] the second flash of the internal driver.
    - [ParamLayout], [Params]: [src/Platform/Common/Params/wm_param.c] with the
      layout of [struct tls_sys_param] computed from its members.  The record
      [pst] is the globals (the running parameters, the flash record, the lock)
      over any [FlashDev].
    - [HwCrc]: the CRC part of [src/Platform/Common/crypto/wm_crypto_hard.c]; the
      unit is the class [CrcEngine] with the law [CrcEngineOk].
    - [FlashLayout], [Fwup]: [src/Platform/Common/fwup/wm_fwup.c].  The record
      [fw_state] holds the session [fwup_t], the flash, the crypto unit's users
      and the Wi-Fi library (class [Wifi]).  [process_request] is the body of
      the update task for one request, [scheduler_loop] its loop over the list,
      [serve_during] the loop while another task hands over a request, [fw_calls]
      a sequence of calls on the module.
    - [Timers]: [src/Platform/Common/task/]: [wm_wl_timers.c], [wm_wl_mbox.c],
      [wm_wl_task.c].  The operating system is the class [Os] with the laws
      [OsOk]; the handlers the module calls are the class [Calls].
    - [HwTimers], [Dma]: [src/Platform/Drivers/timer/wm_timer.c] and
      [src/Platform/Drivers/dma/wm_dma.c].  The records [hwtimers] and [dmas] are
      the tables of callbacks and owners; the registers are the classes
      [TimerRegs] and [DmaRegs] with laws ([TimerRegsOk], [DmaRegsOk]) for bits
      that a written one clears, met by [tsim] and [dsim]; callbacks and the
      interrupt controller are the classes [TimerEnv] and [DmaEnv].
    - [Efuse]: [src/Platform/Drivers/efuse/wm_efuse.c].  The flash is a [FlashDev]
      with the class [Otp] for protection and security registers ([OtpOk]).
    - [Network]: what the two servers use of lwIP and the Wi-Fi library: byte
      order and the calls of the stack, the class [NetEnv].
    - [Dhcp]: [src/Src/App/dhcpserver/dhcp_server.c], the record [dhcp] its globals.
    - [Dns]: [src/Src/App/dnsserver/dns_server.c], the server that answers for the
      access point's own name, the record [dns] its globals.
    - [Lsd]: [src/Src/App/oneshotconfig/wm_oneshot_lsd.c], the configuration
      carried by packet lengths; the record [lsd] is the globals, [recv_guide]
      and [recv_data] the two states of [tls_lsd_recv].
    - [Uart], [UartRun], [UartSpec]: [src/Platform/Drivers/uart/wm_uart.c].  The
      record [uarts] is the three ports, the heap and what the port's users own.
      The registers and FIFOs are the class [UartRegs] with the laws
      [UartRegsOk], met by the simulator [usim]; callbacks, semaphores and the
      DMA channel are the class [UartEnv] ([UartEnvOk], met by [quiet_env]).
      [Uart] is the code, [UartRun] its rings as queues and what each function
      does, [UartSpec] the theorems over runs of interrupts and calls.
    - [AtToken]: of [src/Src/App/wm_atcmd/wm_cmdp_hostif.c], the syntax of AT
      commands: [tls_atcmd_parse] with the line and the token as state,
      [atcmd_filter_quotation], the table [at_ri_cmd_tbl].
    - [AtCmdp], [AtExec], [AtSpec]: the commands themselves.  [AtCmdp] is what
      they do to the parameter store ([wm_cmdp.c]); the record [at_st] holds the
      store, the options of the host interface and the buffers of the command.
      [AtExec] is the way of a line ([wm_cmdp_hostif.c]): [at_parse_func], the
      procedures, [at_format_func], [tls_hostif_atcmd_exec] and the handler of
      the serial ports.  The Wi-Fi library, the network interface and the room
      in the line to the host are the class [AtNet], the commands whose bodies
      are not modelled the class [AtOther].  [AtSpec] is the theorems.
    - [SerialTask], [SerialSpec], [SerialData], [SerialFwup], [SerialAt]:
      [src/Src/App/wm_atcmd/wm_uart_task.c], between the ports of [Uart] and what
      uses their characters.  [SerialTask] is the code: [uart_rx] with a mode of
      a port each for command lines, the transparent stream to a socket, a count
      of characters for a socket, firmware blocks and binary commands, [uart_tx]
      for messages, the start-up.  Its globals are the record [tasks], the users'
      part of the state of [Uart]; what it calls is the classes [TaskEnv] and
      [TaskInit].  [SerialSpec] is the lines, against an interpreter that notes
      what it gets ([TaskAtOk]); [SerialData] the blocks and the stream
      ([TaskFwupOk], [TaskNetOk]); [SerialFwup] puts [Fwup] behind the task
      ([FwTask]), [SerialAt] puts [AtExec] there ([AtTask]).

    Clients meet devices only through the classes: [Params], [Fwup] and [Efuse]
    require [FlashStore] and not [InternalFlash]; [Fwup] and [Efuse] share
    [HwCrc]; [Params] uses the CRC-32 of [Utils]; the AT commands run over
    [Params] and read numbers with [Utils], so that what is proved of them holds
    over any flash, and from the characters of a serial line on.

    ** How the code is modelled

    A function of the source is a definition of the same name.  This file holds
    what they share: machine integers as [Z] with their wraps written out, byte
    buffers as [list Z] with partial accesses, [switch], and the monad [M S] of
    stateful code.  [None] is undefined behaviour (an access outside a buffer),
    a wait nothing can end, or a loop past its fuel.  [wp m Q s] says that [m]
    returns from [s] and [Q] holds after it: memory safety, termination and the
    postcondition in one statement.  [wlp], which drops the first two, is used
    where the program itself may fail (the DHCP server under arbitrary messages)
    or not end (the transparent stream while a socket has no memory), and for
    what calls on the firmware update leave alone if they return.  An allocation takes its result from an arbitrary stream [heap]
    of failures and of blocks with arbitrary contents.

    Loops that are not structural take fuel, chosen from the code's own bound
    so that it never runs out: [crc_rounds] of [Fwup] is one more than the
    sectors of the image ([crc_rounds_enough]); [tls_fls_write_loop] and
    [fast_write_loop] get the number of sectors; [scan_loop] of [Params] two
    passes over both partitions; [parse_loop] of [Dhcp] 310 rounds for the 308
    bytes of options, each round eating one; [cmp_loop] of [Dns] one round more
    than the message has bytes; [tls_timeouts_mbox_fetch_p] takes
    its fuel as an argument and [fetch_fires_in_order] shows that one more than
    the number of timers is enough; the waits of [SpiFlash] look at the status
    once more than a part of the class may say it is busy ([patience]); a loop
    of [Uart] that empties or fills a FIFO and is not over after [loops] rounds
    counts as one that does not return, and [swift] says when it does;
    [arg_loop] of [AtToken] has ten rounds, one more than the arguments it takes;
    the answer to a command waits [room_polls] rounds for room in the line, and
    [AtNetOk] says that there is room before; the loop over the lines of a ring
    has as many rounds as the ring has places ([line_rounds]), which is enough
    but where the program hangs ([serial_progress], [long_line_hangs]);
    [net_send_loop] has a round for each block of its count; the waits of
    [HwTimers] and [Dma] look [timer_polls] and [dma_polls] times at a register,
    more often than a timer or channel of their classes may take.

    ** What is proved

    - Flash.  The driver refines an array of bytes ([driver_refines_array]): any
      sequence of requests reads what an array would hold, errors change
      nothing; so does the SPI driver, from its start ([spifls_refines_array]),
      and both together over one address space ([two_flashes_array]), apart from
      what goes wrong: a long write over the boundary, a request that ends at it
      and a second flash of more than 1 MByte; the lock lost by a failed write.
    - Parameters.  An update is atomic across a power cut and lasts over a
      restart, until the count of updates wraps ([param_update_atomic]); members read back and do not disturb each
      other; start-up from blank flash; error codes; the places where a count
      wraps or a copy overruns.
    - Firmware update.  A delivered image, the last block perhaps filled up, is
      installed, or refused if what follows the header is a multiple of a sector
      ([fwup_installs]), and a damaged one is never activated
      ([fwup_refuses_bad_image]); what the header check promises
      ([header_check_sound]) and where it does not see the running image
      ([header_check_misses_running]); a session keeps others out until it is
      closed ([fwup_sessions_exclusive]); errors stick, with a restart for each
      refused block when all has been received ([fwup_error_sticky]); the layouts
      partition the flash; the lost wake-up ([fwup_lost_wakeup]) and the other
      flaws of the task.
    - Timers.  The relative list refines a schedule of alarms
      ([timers_refine_schedule]); a wait ends, after handlers in order of expiry,
      and takes the time of its last part off the timers left
      ([fetch_fires_in_order]); times too long expire early
      ([long_timeout_early]).
    - Hardware timers and DMA.  The drivers refine a table of owners
      ([timers_refine_owners], [dma_refine_owners]): nobody's timer or channel is
      touched by others, but for channel 0, which is given out when nothing is
      free; an interrupt calls what was registered for it
      ([dma_interrupt_calls]); registers written back as they were read lose
      interrupts ([interrupts_lost], [dma_free_clears_all]); waits end.
    - Factory data.  Either copy recovers the other; a set is atomic.
    - DHCP.  Over all steps of a started server no address is leased twice and
      offers and leases are running ([leases_distinct]); a station gets a lease
      in one exchange ([dhcp_handshake]); the pool and where it wraps; options
      are read back.
    - DNS.  Which questions are for the server's name ([dns_compare]) and what
      each is answered ([dns_answers]).
    - One-shot configuration.  What a sender means is what the machine decodes,
      over a channel that loses, repeats and mixes frames ([lsd_decodes]); the
      state stays well formed ([lsd_safe]) but for a pair number that is not
      checked ([lsd_seq_overrun]).
    - Serial ports.  Over any run of interrupts, writes that do not wait, reads and
      stops of the receiver the streams keep their order, and are complete but
      for line errors and a full ring ([port_streams]); interrupts drain the
      list of messages and wake who waits for it ([tx_drains]); what the handlers
      do when a ring is full; the baud rates; a loop that does not end when the
      line is faster than the handler ([tx_chars_spins]).
    - AT commands.  A line is cut into the arguments it was made of
      ([atcmd_parse_line]) and any line is parsed in bounds
      ([atcmd_parse_safe]); the quotes that go wrong.  From the line of the host
      to the line that answers: what is refused and how ([at_refused]), the
      commands for a number ([at_number]), also over a restart with what is
      proved of the parameters ([at_number_lasts]), the name of the network
      ([at_ssid]); the commands that write or read past their blocks
      ([long_text_overruns], [key_query_overruns], [bssid_off_reads_junk]).
    - Serial port task.  Whatever the portions in which characters arrive, the
      interpreter gets the commands of the stream in order, each once
      ([serial_lines]), and none waits for ever ([serial_progress]), as long as
      lines are short and no beginning of a line is looked at too early ([calm]);
      with the interpreter behind it, from the characters to the flash and the answer
      ([serial_number]).  A firmware image reaches the update in order whatever
      comes in between ([fwup_over_serial]), and is installed, or nothing is
      ([serial_update]); the transparent mode loses nothing but the blocks a socket
      refuses for good ([transparent_stream]).  A long line hangs the task ([long_line_hangs]) and
      a bare prefix brings old characters back ([bare_prefix]).
    - Checksums and text: table and bit-sliced CRCs are the polynomial division,
      printers and parsers are inverse.

    A theorem with hypotheses is followed, at the end of its file, by a run of
    the same definitions on concrete data that meets them.

    ** Not modelled

    The Wi-Fi library, the boot loader and the hardware behind the registers are
    binary or undocumented here and appear as classes. lwIP, mbedTLS, MatrixSSL
    and the other libraries under [src/Src] are third-party. Preemption inside a
    function is not modelled; the interleavings that are (messages and ticks of
    the DHCP server, interrupts and calls of the serial ports, calls on the
    firmware update) are step relations or sequences of calls, and one call is put
    into the loop of the update task ([serve_during]). Freeing memory has no effect in the model
    except where a pointer is used after it ([fwup_ptr]). Debug prints are left
    out, as are the public wrappers that only pass a call on. The AirKiss decoder
    is compiled out ([AIRKISS_USE_SELF_WRITE] of [wm_wifi_oneshot.h] is 0). The AT
    commands of sockets, radio tests, scanning and joining, the binary protocol of
    the host interface, its task for the SPI port, the control task of the
    one-shot configuration, the other peripheral drivers and the socket clients
    are not modelled. *)
From Stdlib Require Export ZArith Lia ZifyBool.
From stdpp Require Export base tactics numbers list option.

#[export] Set Default Goal Selector "!".
#[global] Open Scope Z_scope.

(** ** Machine integers

    A C object of an unsigned type of [n] bits is the integer [0 <= x < 2^n]
    of its value; every arithmetic operation of the source that can leave the
    range is followed by the matching wrap. *)

Definition wrap (n x : Z) : Z := x mod 2 ^ n.
Definition u8 (x : Z) : Z := wrap 8 x.
Definition u16 (x : Z) : Z := wrap 16 x.
Definition u32 (x : Z) : Z := wrap 32 x.
Definition u64 (x : Z) : Z := wrap 64 x.
(** The value of a 32-bit pattern read as a signed [int]. *)
Definition s32 (x : Z) : Z := (x + 2 ^ 31) mod 2 ^ 32 - 2 ^ 31.
Definition s8 (x : Z) : Z := (x + 2 ^ 7) mod 2 ^ 8 - 2 ^ 7.

Definition is_u8 (x : Z) : Prop := 0 <= x < 256.
Definition is_u16 (x : Z) : Prop := 0 <= x < 65536.
Definition is_u32 (x : Z) : Prop := 0 <= x < 4294967296.
Definition is_s32 (x : Z) : Prop := -2147483648 <= x < 2147483648.

(** A C truth value. *)
Definition truth (x : Z) : bool := negb (x =? 0).
Definition BIT (n : Z) : Z := Z.shiftl 1 n.

(** [lia] with the division and remainder facts of the goal and hypotheses. *)
Ltac dlia := Z.div_mod_to_equations; lia.

Lemma u8_range x : is_u8 (u8 x).
Proof. unfold is_u8, u8, wrap. change (2 ^ 8) with 256. dlia. Qed.
Lemma u16_range x : is_u16 (u16 x).
Proof. unfold is_u16, u16, wrap. change (2 ^ 16) with 65536. dlia. Qed.
Lemma u32_range x : is_u32 (u32 x).
Proof. unfold is_u32, u32, wrap. change (2 ^ 32) with 4294967296. dlia. Qed.
Lemma u8_id x : is_u8 x → u8 x = x.
Proof. apply Z.mod_small. Qed.
Lemma u16_id x : is_u16 x → u16 x = x.
Proof. apply Z.mod_small. Qed.
Lemma u32_id x : is_u32 x → u32 x = x.
Proof. apply Z.mod_small. Qed.
Lemma s32_id x : is_s32 x → s32 x = x.
Proof.
  unfold is_s32, s32. change (2 ^ 31) with 2147483648.
  change (2 ^ 32) with 4294967296. intros H. rewrite Z.mod_small; lia.
Qed.

(** Unfold the ranges and wraps so that [lia] sees plain arithmetic. *)
Ltac unfold_ints :=
  unfold is_u8, is_u16, is_u32, is_s32, u8, u16, u32, u64, s32, s8, wrap in *;
  change (2 ^ 8) with 256 in *; change (2 ^ 16) with 65536 in *;
  change (2 ^ 31) with 2147483648 in *; change (2 ^ 32) with 4294967296 in *;
  change (2 ^ 64) with 18446744073709551616 in *; change (2 ^ 7) with 128 in *.
Ltac ints := unfold_ints; dlia.

(** Masks. *)
Lemma land_ones_mod x n : 0 <= n → Z.land x (Z.ones n) = x mod 2 ^ n.
Proof. apply Z.land_ones. Qed.
Lemma testbit_high x n k : 0 <= x < 2 ^ n → 0 <= n <= k → Z.testbit x k = false.
Proof.
  intros Hx Hk. rewrite <- (Z.mod_small x (2 ^ n)) by done.
  apply Z.mod_pow2_bits_high. lia.
Qed.
(** Clearing the low [n] bits of a 32-bit word. *)
Lemma land_not_ones x n : is_u32 x → 0 <= n <= 32 →
  Z.land x (u32 (Z.lnot (Z.ones n))) = x / 2 ^ n * 2 ^ n.
Proof.
  intros Hx Hn. rewrite <- Z.shiftr_div_pow2, <- Z.shiftl_mul_pow2 by lia.
  apply Z.bits_inj'. intros k Hk. unfold u32, wrap.
  rewrite <- (Z.land_ones _ 32), !Z.land_spec, Z.lnot_spec by lia.
  destruct (Z.lt_ge_cases k n).
  - rewrite Z.shiftl_spec_low, (Z.ones_spec_low n) by lia. apply andb_false_r.
  - rewrite Z.shiftl_spec_high, Z.shiftr_spec, (Z.ones_spec_high n) by lia.
    replace (k - n + n) with k by lia. destruct (Z.lt_ge_cases k 32).
    + by rewrite Z.ones_spec_low, andb_true_r by lia.
    + rewrite (testbit_high x 32) by (unfold is_u32 in Hx; lia). done.
Qed.

(** Case analysis on the number of a bit of a word. *)
Lemma nat_below_32 (P : Z → Prop) : (∀ i : nat, (i < 32)%nat → P (Z.of_nat i)) →
  ∀ n, 0 <= n < 32 → P n.
Proof. intros HP n Hn. rewrite <- (Z2Nat.id n) by lia. apply HP. lia. Qed.

Create HintDb ints.
#[export] Hint Resolve u8_range u16_range u32_range : ints.

(** Turn the boolean tests of the code into arithmetic. *)
Ltac zbool :=
  repeat match goal with
  | H : (_ && _)%bool = true |- _ => apply andb_true_iff in H as [? ?]
  | H : (_ || _)%bool = false |- _ => apply orb_false_iff in H as [? ?]
  | H : (_ || _)%bool = true |- _ => apply orb_true_iff in H
  | H : negb _ = true |- _ => apply negb_true_iff in H
  | H : negb _ = false |- _ => apply negb_false_iff in H
  | H : (_ <? _) = true |- _ => apply Z.ltb_lt in H
  | H : (_ <? _) = false |- _ => apply Z.ltb_ge in H
  | H : (_ <=? _) = true |- _ => apply Z.leb_le in H
  | H : (_ <=? _) = false |- _ => apply Z.leb_gt in H
  | H : (_ =? _) = true |- _ => apply Z.eqb_eq in H
  | H : (_ =? _) = false |- _ => apply Z.eqb_neq in H
  end.

(** Case analysis on the test of the leftmost conditional of the goal. *)
Ltac case_if :=
  match goal with
  | |- context [if ?b then _ else _] =>
      lazymatch type of b with
      | bool => let E := fresh "E" in destruct b eqn:E; zbool
      end
  end.

(** ** The C [switch] statement over integer labels *)

Fixpoint switch {A} (x : Z) (cases : list (Z * A)) (default : A) : A :=
  match cases with
  | [] => default
  | (k, a) :: cases' => if x =? k then a else switch x cases' default
  end.

Lemma switch_ind {A} (P : A → Prop) x cases d :
  Forall (λ c, P (snd c)) cases → P d → P (switch x cases d).
Proof.
  induction 1 as [|[k a] cs Ha Hcs IH]; simpl; [done|].
  intros Hd. case_if; auto.
Qed.

Lemma switch_ind_key {A} (P : A → Prop) x cases d :
  Forall (λ c, x = fst c → P (snd c)) cases →
  (Forall (λ c, x ≠ fst c) cases → P d) → P (switch x cases d).
Proof.
  induction cases as [|[k a] cs IH]; simpl; intros Hc Hd.
  - apply Hd. constructor.
  - inversion Hc; subst. case_if; [auto|].
    apply IH; [done|]. intros HF. apply Hd. by constructor.
Qed.

(** ** Stateful code that can get stuck

    [M S A] is a computation over the state [S].  [None] is undefined
    behaviour of the C program (an access outside a buffer), a wait that
    nothing can end (a semaphore the same task already holds) or a loop that
    runs past its fuel; a theorem of the form [wp m Q s] therefore states
    memory safety, termination and the postcondition at once. *)

Definition M (S A : Type) : Type := S → option (A * S).

Section monad.
Context {S : Type}.
Definition ret {A} (a : A) : M S A := λ s, Some (a, s).
Definition bind {A B} (m : M S A) (k : A → M S B) : M S B :=
  λ s, match m s with Some (a, s') => k a s' | None => None end.
Definition get : M S S := λ s, Some (s, s).
Definition gets {A} (f : S → A) : M S A := λ s, Some (f s, s).
Definition modify (f : S → S) : M S unit := λ s, Some (tt, f s).
Definition stuck {A} : M S A := λ _, None.
Definition of_opt {A} (o : option A) : M S A :=
  λ s, match o with Some a => Some (a, s) | None => None end.

(** [for (i = i0; n more times; i++) body(i)] *)
Fixpoint for_loop (n : nat) (i : Z) (body : Z → M S unit) : M S unit :=
  match n with
  | O => ret tt
  | Datatypes.S n' => bind (body i) (λ _, for_loop n' (i + 1) body)
  end.

(** The same loop, threading the local variables [a] it changes. *)
Fixpoint for_acc {A} (n : nat) (i : Z) (body : Z → A → M S A) (a : A) : M S A :=
  match n with
  | O => ret a
  | Datatypes.S n' => bind (body i a) (λ a', for_acc n' (i + 1) body a')
  end.

Definition wp {A} (m : M S A) (Q : A → S → Prop) (s : S) : Prop :=
  match m s with Some (a, s') => Q a s' | None => False end.

Lemma wp_ret {A} (a : A) Q s : Q a s → wp (ret a) Q s.
Proof. done. Qed.
Lemma wp_bind {A B} (m : M S A) (k : A → M S B) Q s :
  wp m (λ a s', wp (k a) Q s') s → wp (bind m k) Q s.
Proof. unfold wp, bind. destruct (m s) as [[a s']|]; done. Qed.
Lemma wp_mono {A} (m : M S A) (P Q : A → S → Prop) s :
  wp m P s → (∀ a s', P a s' → Q a s') → wp m Q s.
Proof. unfold wp. destruct (m s) as [[a s']|]; [|done]. eauto. Qed.
Lemma wp_get Q s : Q s s → wp get Q s.
Proof. done. Qed.
Lemma wp_gets {A} (f : S → A) Q s : Q (f s) s → wp (gets f) Q s.
Proof. done. Qed.
Lemma wp_modify f Q s : Q tt (f s) → wp (modify f) Q s.
Proof. done. Qed.
Lemma wp_of_opt {A} (o : option A) a Q s : o = Some a → Q a s → wp (of_opt o) Q s.
Proof. unfold wp, of_opt. intros ->. done. Qed.
Lemma wp_seq {A B} (m : M S A) (k : A → M S B) P Q s :
  wp m P s → (∀ a s', P a s' → wp (k a) Q s') → wp (bind m k) Q s.
Proof. intros Hm Hk. apply wp_bind. by apply (wp_mono _ P). Qed.
(** Run the first command, whose result is known. *)
Lemma wp_run {A B} (m : M S A) (k : A → M S B) Q s a s' :
  m s = Some (a, s') → wp (k a) Q s' → wp (bind m k) Q s.
Proof. intros Hm Hk. unfold wp, bind in *. by rewrite Hm. Qed.
Lemma bind_run {A B} (m : M S A) (k : A → M S B) s a s' : m s = Some (a, s') → bind m k s = k a s'.
Proof. unfold bind. by intros ->. Qed.
(** Two computations that do the same from here on. *)
Lemma wp_same {A} (m m' : M S A) Q s s' : m s = m' s' → wp m' Q s' → wp m Q s.
Proof. unfold wp. by intros ->. Qed.
Lemma wp_total {A} (m : M S A) Q s : wp m Q s ↔ ∃ a s', m s = Some (a, s') ∧ Q a s'.
Proof.
  unfold wp. destruct (m s) as [[a s']|]; split; [by eauto| |done|].
  - intros (? & ? & [= <- <-] & ?). done.
  - intros (? & ? & [=] & _).
Qed.

(** The invariant rule of the counting loop: [I i] holds before round [i]. *)
Lemma wp_for_loop (I : Z → S → Prop) n i body (Q : unit → S → Prop) s :
  I i s →
  (∀ j s', i ≤ j < i + Z.of_nat n → I j s' → wp (body j) (λ _, I (j + 1)) s') →
  (∀ s', I (i + Z.of_nat n) s' → Q tt s') →
  wp (for_loop n i body) Q s.
Proof.
  revert i s. induction n as [|n IH]; intros i s Hi Hb HQ.
  - apply wp_ret, HQ. by rewrite Z.add_0_r.
  - simpl. apply (wp_seq _ _ (λ _, I (i + 1))); [apply Hb; [lia|done]|].
    intros _ s' Hs'. apply IH; [done| |].
    + intros j s'' Hj. apply Hb. lia.
    + intros s'' H. apply HQ. by replace (i + Z.of_nat (Datatypes.S n))
        with (i + 1 + Z.of_nat n) by lia.
Qed.

(** The same rule for the loop with local variables. *)
Lemma wp_for_acc {A} (I : Z → A → S → Prop) n i body a (Q : A → S → Prop) s :
  I i a s →
  (∀ j a' s', i ≤ j < i + Z.of_nat n → I j a' s' → wp (body j a') (λ a'', I (j + 1) a'') s') →
  (∀ a' s', I (i + Z.of_nat n) a' s' → Q a' s') →
  wp (for_acc n i body a) Q s.
Proof.
  revert i a s. induction n as [|n IH]; intros i a s Hi Hb HQ.
  - apply wp_ret, HQ. by rewrite Z.add_0_r.
  - simpl. apply (wp_seq _ _ (λ a', I (i + 1) a')); [apply Hb; [lia|done]|].
    intros a' s' Hs'. apply IH; [done| |].
    + intros j a'' s'' Hj. apply Hb. lia.
    + intros a'' s'' H. apply HQ. by replace (i + Z.of_nat (Datatypes.S n))
        with (i + 1 + Z.of_nat n) by lia.
Qed.
End monad.

(** Run a computation on a component of a larger state. *)
Definition lift {S T A} (pr : T → S) (up : S → T → T) (m : M S A) : M T A :=
  λ t, match m (pr t) with Some (a, s) => Some (a, up s t) | None => None end.

Lemma wp_lift {S T A} (pr : T → S) (up : S → T → T) (m : M S A) Q t :
  wp m (λ a s, Q a (up s t)) (pr t) → wp (lift pr up m) Q t.
Proof. unfold wp, lift. destruct (m (pr t)) as [[a s]|]; done. Qed.

(** Partial correctness: what holds if the computation returns. *)
Section partial.
Context {S : Type}.
Definition wlp {A} (m : M S A) (Q : A → S → Prop) (s : S) : Prop :=
  match m s with Some (a, s') => Q a s' | None => True end.

Lemma wlp_ret {A} (a : A) Q s : Q a s → wlp (ret a) Q s.
Proof. done. Qed.
Lemma wlp_bind {A B} (m : M S A) (k : A → M S B) Q s :
  wlp m (λ a s', wlp (k a) Q s') s → wlp (bind m k) Q s.
Proof. unfold wlp, bind. destruct (m s) as [[a s']|]; done. Qed.
Lemma wlp_mono {A} (m : M S A) (P Q : A → S → Prop) s :
  wlp m P s → (∀ a s', P a s' → Q a s') → wlp m Q s.
Proof. unfold wlp. destruct (m s) as [[a s']|]; [|done]. eauto. Qed.
Lemma wlp_seq {A B} (m : M S A) (k : A → M S B) P Q s :
  wlp m P s → (∀ a s', P a s' → wlp (k a) Q s') → wlp (bind m k) Q s.
Proof. intros Hm Hk. apply wlp_bind. by apply (wlp_mono _ P). Qed.
Lemma wlp_gets {A} (f : S → A) Q s : Q (f s) s → wlp (gets f) Q s.
Proof. done. Qed.
Lemma wlp_modify f Q s : Q tt (f s) → wlp (modify f) Q s.
Proof. done. Qed.
Lemma wlp_of_opt {A} (o : option A) Q s : (∀ a, o = Some a → Q a s) → wlp (of_opt o) Q s.
Proof. unfold wlp, of_opt. destruct o; auto. Qed.
Lemma wlp_wp {A} (m : M S A) Q s : wp m Q s → wlp m Q s.
Proof. unfold wp, wlp. by destruct (m s) as [[a s']|]. Qed.
Lemma wlp_run {A} (m : M S A) Q s a s' : wlp m Q s → m s = Some (a, s') → Q a s'.
Proof. unfold wlp. intros H Hr. by rewrite Hr in H. Qed.

(** The counting loop, with an invariant. *)
Lemma wlp_for_loop (I : Z → S → Prop) n i body (Q : unit → S → Prop) s :
  I i s →
  (∀ j s', i ≤ j < i + Z.of_nat n → I j s' → wlp (body j) (λ _, I (j + 1)) s') →
  (∀ s', I (i + Z.of_nat n) s' → Q tt s') →
  wlp (for_loop n i body) Q s.
Proof.
  revert i s. induction n as [|n IH]; intros i s Hi Hb HQ.
  - apply wlp_ret, HQ. by rewrite Z.add_0_r.
  - simpl. apply (wlp_seq _ _ (λ _, I (i + 1))); [apply Hb; [lia|done]|].
    intros _ s' Hs'. apply IH; [done| |].
    + intros j s'' Hj. apply Hb. lia.
    + intros s'' H. apply HQ. by replace (i + Z.of_nat (Datatypes.S n))
        with (i + 1 + Z.of_nat n) by lia.
Qed.
End partial.

Lemma wlp_lift {S T A} (pr : T → S) (up : S → T → T) (m : M S A) Q t :
  (∀ a s, m (pr t) = Some (a, s) → Q a (up s t)) → wlp (lift pr up m) Q t.
Proof. unfold wlp, lift. destruct (m (pr t)) as [[a s]|]; auto. Qed.

(** One bit of a word. *)
Lemma testbit_one n j : 0 <= n → 0 <= j → Z.testbit (Z.shiftl 1 n) j = (j =? n).
Proof. intros Hn Hj. rewrite Z.shiftl_1_l, Z.pow2_bits_eqb by done. by rewrite Z.eqb_sym. Qed.
Lemma truth_bit x n : 0 <= n → truth (Z.land x (Z.shiftl 1 n)) = Z.testbit x n.
Proof.
  intros Hn. unfold truth. destruct (Z.testbit x n) eqn:E.
  - apply negb_true_iff, Z.eqb_neq. intros E0. apply (f_equal (λ y, Z.testbit y n)) in E0.
    rewrite Z.land_spec, E, testbit_one, Z.eqb_refl, Z.bits_0 in E0 by done. discriminate.
  - apply negb_false_iff, Z.eqb_eq, Z.bits_inj'. intros j Hj. rewrite Z.land_spec, testbit_one, Z.bits_0 by done.
    destruct (Z.eqb_spec j n) as [->|]; [by rewrite E|by rewrite andb_false_r].
Qed.

(** Running a computation on concrete data. *)
Definition ran {S A} (m : M S A) (s : S) : bool := match m s with Some _ => true | None => false end.
Definition exec {S A} (m : M S A) (s : S) : S := match m s with Some (_, s') => s' | None => s end.
Definition result {S A} (d : A) (m : M S A) (s : S) : A := match m s with Some (a, _) => a | None => d end.

(** ** The allocator

    [tls_mem_alloc] is an oracle: the stream of its answers, a failure or the
    arbitrary contents of the block it returns. *)
Definition heap : Type := nat → option (Z → Z).
Definition malloc (n : Z) : M heap (option (list Z)) := λ h,
  Some ((λ junk, (λ i, u8 (junk i)) <$> seqZ 0 n) <$> h O, λ k, h (S k)).

Declare Scope c_scope.
Delimit Scope c_scope with C.
Notation "'let*' x := m 'in' k" := (bind m%C (λ x, k%C))
  (at level 10, x name, m at level 200, k at level 200) : c_scope.
Notation "'let*' ' p := m 'in' k" := (bind m%C (λ p, k%C))
  (at level 10, p strict pattern, m at level 200, k at level 200) : c_scope.
Notation "m ;; k" := (bind m%C (λ _, k%C))
  (at level 100, right associativity) : c_scope.

(** One step of symbolic execution of straight-line code. *)
Ltac wp_step :=
  lazymatch goal with
  | |- wp (bind _ _) _ _ => apply wp_bind
  | |- wp (ret _) _ _ => apply wp_ret
  | |- wp get _ _ => apply wp_get
  | |- wp (gets _) _ _ => apply wp_gets
  | |- wp (modify _) _ _ => apply wp_modify
  end; cbv beta.
Ltac wp_steps := repeat wp_step.
Ltac wlp_step :=
  lazymatch goal with
  | |- wlp (bind _ _) _ _ => apply wlp_bind
  | |- wlp (ret _) _ _ => apply wlp_ret
  | |- wlp (gets _) _ _ => apply wlp_gets
  | |- wlp (modify _) _ _ => apply wlp_modify
  end; cbv beta.
Ltac wlp_steps := repeat wlp_step.

(** ** Byte buffers

    A buffer is the list of the bytes from the address a pointer holds to the
    end of its object; an access outside it is undefined. *)

Definition byte_at (l : list Z) (i : Z) : option Z :=
  if i <? 0 then None else l !! Z.to_nat i.

(** [n] bytes from offset [i]. *)
Definition slice (l : list Z) (i n : Z) : list Z :=
  take (Z.to_nat n) (drop (Z.to_nat i) l).

(** [dst] with the bytes [b] stored at offset [i] (which must fit). *)
Definition splice (dst : list Z) (i : Z) (b : list Z) : list Z :=
  take (Z.to_nat i) dst ++ b ++ drop (Z.to_nat i + length b) dst.

Definition blen (l : list Z) : Z := Z.of_nat (length l).

(** [memcpy(dst + di, src + si, n)] *)
Definition memcpy (dst : list Z) (di : Z) (src : list Z) (si n : Z) : option (list Z) :=
  if (0 <=? n) && (0 <=? di) && (di + n <=? blen dst)
     && (0 <=? si) && (si + n <=? blen src)
  then Some (splice dst di (slice src si n)) else None.

Definition memset (dst : list Z) (di : Z) (v n : Z) : option (list Z) :=
  memcpy dst di (replicate (Z.to_nat n) v) 0 n.

(** [dst[i] = v] *)
Definition store8 (dst : list Z) (i v : Z) : option (list Z) :=
  memcpy dst i [v] 0 1.

(** Little-endian words. *)
Definition le32 (x : Z) : list Z :=
  [u8 x; u8 (Z.shiftr x 8); u8 (Z.shiftr x 16); u8 (Z.shiftr x 24)].
Definition le16 (x : Z) : list Z := [u8 x; u8 (Z.shiftr x 8)].
Definition of_le (l : list Z) : Z := foldr (λ b acc, b + 256 * acc) 0 l.

Definition bytes_ok (l : list Z) : Prop := Forall is_u8 l.

(** ** Lemmas on buffers *)

Section buffers.
Implicit Types l b : list Z.

Lemma blen_nonneg l : 0 <= blen l.
Proof. unfold blen. lia. Qed.
Lemma blen_app l1 l2 : blen (l1 ++ l2) = blen l1 + blen l2.
Proof. unfold blen. rewrite length_app. lia. Qed.
Lemma blen_cons x l : blen (x :: l) = blen l + 1.
Proof. unfold blen. cbn. lia. Qed.
Lemma blen_replicate n x : blen (replicate n x) = Z.of_nat n.
Proof. unfold blen. by rewrite length_replicate. Qed.

Lemma byte_at_lookup l i : 0 <= i → byte_at l i = l !! Z.to_nat i.
Proof. intros. unfold byte_at. case_if; [lia|done]. Qed.
Lemma byte_at_neg l i : i < 0 → byte_at l i = None.
Proof. intros. unfold byte_at. case_if; [done|lia]. Qed.
Lemma byte_at_Some l i x : byte_at l i = Some x → 0 <= i < blen l.
Proof.
  unfold byte_at, blen. case_if; [done|]. intros ?%lookup_lt_Some. lia.
Qed.
Lemma byte_at_is_Some l i : 0 <= i < blen l → ∃ x, byte_at l i = Some x.
Proof.
  unfold blen. intros. rewrite byte_at_lookup by lia.
  apply lookup_lt_is_Some. lia.
Qed.
Lemma byte_at_None l i : blen l <= i → byte_at l i = None.
Proof.
  unfold blen. intros. rewrite byte_at_lookup by lia. apply lookup_ge_None. lia.
Qed.
Lemma byte_at_ok l i x : bytes_ok l → byte_at l i = Some x → is_u8 x.
Proof.
  intros Hl. unfold byte_at. case_if; [done|]. apply Forall_lookup_1. done.
Qed.

(** Two buffers with the same bytes are equal. *)
Lemma byte_at_ext l1 l2 :
  blen l1 = blen l2 → (∀ i, 0 <= i < blen l1 → byte_at l1 i = byte_at l2 i) → l1 = l2.
Proof.
  unfold blen. intros Hlen H. apply list_eq_same_length with (length l2); [done|lia|].
  intros i x y Hi Hx Hy. specialize (H (Z.of_nat i)).
  rewrite !byte_at_lookup, Nat2Z.id in H by lia. rewrite Hx, Hy in H.
  by assert (Some x = Some y) as [= ->] by (apply H; lia).
Qed.

Lemma blen_slice l i n : 0 <= i → 0 <= n → i + n <= blen l → blen (slice l i n) = n.
Proof. unfold blen, slice. rewrite length_take, length_drop. lia. Qed.
Lemma byte_at_slice l i n j : 0 <= i → 0 <= j < n → byte_at (slice l i n) j = byte_at l (i + j).
Proof.
  intros. rewrite !byte_at_lookup by lia. unfold slice.
  rewrite lookup_take_lt by lia. rewrite lookup_drop. f_equal. lia.
Qed.
Lemma blen_splice l i b :
  0 <= i → i + blen b <= blen l → blen (splice l i b) = blen l.
Proof.
  unfold blen, splice. intros. rewrite !length_app, length_take, length_drop. lia.
Qed.
Lemma byte_at_splice l i b j : 0 <= i → i + blen b <= blen l →
  byte_at (splice l i b) j =
    if (i <=? j) && (j <? i + blen b) then byte_at b (j - i) else byte_at l j.
Proof.
  unfold blen, splice. intros Hi Hb. destruct (Z.ltb_spec j 0).
  { rewrite !(byte_at_neg _ j) by lia. case_if; [lia|done]. }
  rewrite (byte_at_lookup _ j) by lia.
  assert (length (take (Z.to_nat i) l) = Z.to_nat i) as Hl by (rewrite length_take; lia).
  destruct (Z.ltb_spec j i).
  { rewrite lookup_app_l by lia. rewrite lookup_take_lt by lia.
    case_if; [lia|]. by rewrite byte_at_lookup by lia. }
  rewrite lookup_app_r by lia. rewrite Hl.
  destruct (Z.ltb_spec j (i + Z.of_nat (length b))).
  - rewrite lookup_app_l by lia. case_if.
    + rewrite byte_at_lookup by lia. f_equal. lia.
    + apply andb_false_iff in E. destruct E; zbool; lia.
  - rewrite lookup_app_r by lia. rewrite lookup_drop. case_if.
    { lia. } rewrite byte_at_lookup by lia. f_equal. lia.
Qed.

Lemma memcpy_Some dst di src si n :
  0 <= n → 0 <= di → di + n <= blen dst → 0 <= si → si + n <= blen src →
  memcpy dst di src si n = Some (splice dst di (slice src si n)).
Proof.
  intros. unfold memcpy. case_if; [done|].
  exfalso. rewrite !andb_false_iff in E. intuition (zbool; lia).
Qed.
Lemma memcpy_inv dst di src si n r : memcpy dst di src si n = Some r →
  0 <= n ∧ 0 <= di ∧ di + n <= blen dst ∧ 0 <= si ∧ si + n <= blen src
  ∧ r = splice dst di (slice src si n).
Proof. unfold memcpy. case_if; [|done]. intros [= <-]. auto 10. Qed.

(** A decision procedure for concrete buffers. *)
Lemma bytes_ok_b l : forallb (λ x, (0 <=? x) && (x <? 256)) l = true → bytes_ok l.
Proof.
  rewrite forallb_forall. intros H. apply List.Forall_forall. intros x Hx.
  specialize (H x Hx). unfold is_u8. lia.
Qed.
Lemma bytes_ok_slice l i n : bytes_ok l → bytes_ok (slice l i n).
Proof. intros. unfold slice. by apply Forall_take, Forall_drop. Qed.
Lemma bytes_ok_splice l i b : bytes_ok l → bytes_ok b → bytes_ok (splice l i b).
Proof.
  intros. unfold splice. unfold bytes_ok in *. rewrite !Forall_app.
  eauto using Forall_take, Forall_drop.
Qed.

Lemma slice_all l n : n = blen l → slice l 0 n = l.
Proof. intros ->. unfold slice, blen. apply take_ge. simpl. lia. Qed.
Lemma splice_all l b : blen b = blen l → splice l 0 b = b.
Proof.
  unfold splice, blen. intros. simpl. rewrite drop_ge by lia. apply app_nil_r.
Qed.
End buffers.

Lemma slice_app l i n m : 0 <= i → 0 <= n → 0 <= m →
  slice l i n ++ slice l (i + n) m = slice l i (n + m).
Proof.
  intros. unfold slice. rewrite !Z2Nat.inj_add by lia.
  rewrite <- drop_drop. rewrite <- (take_drop (Z.to_nat n) (take (Z.to_nat n + Z.to_nat m) (drop (Z.to_nat i) l))).
  rewrite take_take, skipn_firstn_comm. f_equal; f_equal; lia.
Qed.

(** What stands after, and before, another buffer. *)
Lemma byte_at_pre pre l i : 0 <= i → byte_at (pre ++ l) (blen pre + i) = byte_at l i.
Proof.
  intros Hi. unfold blen. rewrite !byte_at_lookup by lia. rewrite lookup_app_r by lia. f_equal. lia.
Qed.
Lemma slice_pre pre l i n : 0 <= i → slice (pre ++ l) (blen pre + i) n = slice l i n.
Proof. intros Hi. unfold slice, blen. rewrite drop_app_ge by lia. do 2 f_equal. lia. Qed.
Lemma slice_front l r n : n <= blen l → slice (l ++ r) 0 n = slice l 0 n.
Proof. unfold slice, blen. intros Hn. rewrite !drop_0, take_app_le by lia. done. Qed.
(** What a store does to the bytes read elsewhere. *)
Lemma slice_splice_same l i b n : 0 <= i → i + blen b <= blen l → n = blen b →
  slice (splice l i b) i n = b.
Proof.
  intros Hi Hb ->. pose proof (blen_nonneg b). pose proof (blen_splice l i b Hi Hb).
  apply byte_at_ext; rewrite blen_slice by lia; [done|].
  intros j Hj. rewrite byte_at_slice, byte_at_splice by lia.
  replace ((i <=? i + j) && (i + j <? i + blen b))%bool with true by lia. f_equal. lia.
Qed.
Lemma slice_splice_disj l i b j n : 0 <= i → i + blen b <= blen l → 0 <= j → 0 <= n →
  j + n <= blen l → j + n <= i ∨ i + blen b <= j →
  slice (splice l i b) j n = slice l j n.
Proof.
  intros Hi Hb Hj Hn Hjn Hd. pose proof (blen_splice l i b Hi Hb).
  apply byte_at_ext; rewrite !blen_slice by lia; [done|].
  intros k Hk. rewrite !byte_at_slice, byte_at_splice by lia.
  by replace ((i <=? j + k) && (j + k <? i + blen b))%bool with false by lia.
Qed.
(** A slice of a slice, and a store inside a larger slice. *)
Lemma slice_slice l i n j m : 0 <= i → 0 <= j → 0 <= m → j + m <= n → i + n <= blen l →
  slice (slice l i n) j m = slice l (i + j) m.
Proof.
  intros. assert (blen (slice l i n) = n) as Hl by (apply blen_slice; lia).
  apply byte_at_ext; rewrite !blen_slice by lia; [done|].
  intros k Hk. rewrite !byte_at_slice by lia. f_equal. lia.
Qed.
Lemma bytes_ok_le16 x : bytes_ok (le16 x).
Proof. repeat constructor; apply u8_range. Qed.
Lemma of_le_range2 b : bytes_ok b → blen b = 2 → is_u16 (of_le b).
Proof.
  intros Hb Hl. unfold blen in Hl. destruct b as [|x [|y [|]]]; simpl in Hl; try lia.
  inversion Hb as [|?? H1 H2]; subst. inversion H2; subst. cbn [of_le foldr]. unfold_ints. lia.
Qed.

Lemma of_le_range4 b : bytes_ok b → blen b = 4 → is_u32 (of_le b).
Proof.
  intros Hb Hl. unfold blen in Hl.
  destruct b as [|x [|y [|z [|w [|]]]]]; simpl in Hl; try lia.
  repeat (inversion Hb as [|?? ? Hb']; subst; clear Hb; rename Hb' into Hb).
  cbn [of_le foldr]. unfold_ints. lia.
Qed.

(** The bytes of a memory [m]. *)
Lemma byte_at_fmap_seqZ (m : Z → Z) o n i :
  0 <= i < n → byte_at (m <$> seqZ o n) i = Some (m (o + i)).
Proof.
  intros. rewrite byte_at_lookup by lia. rewrite list_lookup_fmap, lookup_seqZ_lt by lia.
  simpl. do 2 f_equal. lia.
Qed.
Lemma blen_fmap_seqZ (m : Z → Z) o n : 0 <= n → blen (m <$> seqZ o n) = n.
Proof. intros. unfold blen. rewrite length_fmap, length_seqZ. lia. Qed.
Lemma bytes_ok_fmap (m : Z → Z) l : (∀ i, is_u8 (m i)) → bytes_ok (m <$> l).
Proof. intros Hm. apply Forall_fmap. induction l; constructor; [apply Hm|done]. Qed.

(** Words and their bytes. *)
Lemma le32_of_le l : bytes_ok l → length l = 4%nat → le32 (of_le l) = l.
Proof.
  intros Hl Hlen. destruct l as [|a [|b [|c [|d [|]]]]]; try discriminate Hlen.
  repeat match goal with H : bytes_ok _ |- _ => inversion H as [|?? ? Hl']; subst; clear H; rename Hl' into Hl
    | H : Forall _ (_ :: _) |- _ => inversion H; subst; clear H end.
  unfold le32, of_le. cbn [foldr]. unfold_ints. rewrite !Z.shiftr_div_pow2 by lia.
  change (2 ^ 16) with 65536. change (2 ^ 24) with 16777216. change (2 ^ 8) with 256.
  repeat f_equal; dlia.
Qed.
Lemma of_le_le32 x : is_u32 x → of_le (le32 x) = x.
Proof.
  unfold le32, of_le. cbn [foldr]. unfold_ints. rewrite !Z.shiftr_div_pow2 by lia.
  change (2 ^ 16) with 65536. change (2 ^ 24) with 16777216. change (2 ^ 8) with 256. intros. dlia.
Qed.
Lemma of_le_le16 x : is_u16 x → of_le (le16 x) = x.
Proof.
  unfold le16, of_le. cbn [foldr]. unfold_ints. rewrite !Z.shiftr_div_pow2 by lia.
  change (2 ^ 8) with 256. intros. dlia.
Qed.
Lemma bytes_ok_le32 x : bytes_ok (le32 x).
Proof. repeat constructor; apply u8_range. Qed.

Create Rewrite HintDb buf.
#[export] Hint Rewrite blen_app blen_replicate : buf.
