(* ===== verification/Utils.v ===== *)
(** * [src/Platform/Common/utils/utils.c]: checksums and text conversions

    The CRC-8 and CRC-32 routines that guard the parameter partitions and the
    download packets, the additive checksum, and the conversions between text
    and numbers the command parser uses. *)
From Stdlib Require Import Btauto.
From S2P Require Import Prelude.

Local Notation "a ⊕ b" := (Z.lxor a b) (at level 50, left associativity).

(** ** CRC-8 *)
Definition crc8_tbl : list Z :=
  [0; 145; 227; 114; 7; 150; 228; 117; 14; 159; 237; 124; 9; 152; 234; 123;
   28; 141; 255; 110; 27; 138; 248; 105; 18; 131; 241; 96; 21; 132; 246; 103;
   56; 169; 219; 74; 63; 174; 220; 77; 54; 167; 213; 68; 49; 160; 210; 67;
   36; 181; 199; 86; 35; 178; 192; 81; 42; 187; 201; 88; 45; 188; 206; 95;
   112; 225; 147; 2; 119; 230; 148; 5; 126; 239; 157; 12; 121; 232; 154; 11;
   108; 253; 143; 30; 107; 250; 136; 25; 98; 243; 129; 16; 101; 244; 134; 23;
   72; 217; 171; 58; 79; 222; 172; 61; 70; 215; 165; 52; 65; 208; 162; 51;
   84; 197; 183; 38; 83; 194; 176; 33; 90; 203; 185; 40; 93; 204; 190; 47;
   224; 113; 3; 146; 231; 118; 4; 149; 238; 127; 13; 156; 233; 120; 10; 155;
   252; 109; 31; 142; 251; 106; 24; 137; 242; 99; 17; 128; 245; 100; 22; 135;
   216; 73; 59; 170; 223; 78; 60; 173; 214; 71; 53; 164; 209; 64; 50; 163;
   196; 85; 39; 182; 195; 82; 32; 177; 202; 91; 41; 184; 205; 92; 46; 191;
   144; 1; 115; 226; 151; 6; 116; 229; 158; 15; 125; 236; 153; 8; 122; 235;
   140; 29; 111; 254; 139; 26; 104; 249; 130; 19; 97; 240; 133; 20; 102; 247;
   168; 57; 75; 218; 175; 62; 76; 221; 166; 55; 69; 212; 161; 48; 66; 211;
   180; 37; 87; 198; 179; 34; 80; 193; 186; 43; 89; 200; 189; 44; 94; 207].

(** [calculate_crc8(crc8, ptr, len)]; the byte read past the object is
    undefined. *)
Fixpoint calculate_crc8 (crc8 : Z) (ptr : list Z) (len : nat) : option Z :=
  match len with
  | O => Some crc8
  | S len' =>
      match ptr with
      | data :: ptr' =>
          crc8' ← byte_at crc8_tbl (crc8 ⊕ data);
          calculate_crc8 crc8' ptr' len'
      | [] => None
      end
  end.

Definition get_crc8 (ptr : list Z) (len : nat) : option Z := calculate_crc8 0 ptr len.

Definition chk_crc8 (ptr : list Z) (len : nat) : option Z :=
  crc8 ← calculate_crc8 0 ptr len;
  Some (if crc8 =? 0 then 0 else -1).

(** ** CRC-32 *)

(** The 32 next-state equations of [_cal_crc32]: [d i] is [in_data_buf[i]]
    and [c i] is [crc_buf[i]]. *)
Definition crc_out (d c : Z → Z) : list Z :=
  [ (d 1) ⊕ (d 7) ⊕ (c 30) ⊕ (c 24);
    (d 0) ⊕ (d 1) ⊕ (d 6) ⊕ (d 7) ⊕ (c 31) ⊕ (c 30) ⊕ (c 25) ⊕ (c 24);
    (d 0) ⊕ (d 1) ⊕ (d 5) ⊕ (d 6) ⊕ (d 7) ⊕ (c 31) ⊕ (c 30) ⊕ (c 26) ⊕ (c 25) ⊕ (c 24);
    (d 0) ⊕ (d 4) ⊕ (d 5) ⊕ (d 6) ⊕ (c 31) ⊕ (c 27) ⊕ (c 26) ⊕ (c 25);
    (d 1) ⊕ (d 3) ⊕ (d 4) ⊕ (d 5) ⊕ (d 7) ⊕ (c 30) ⊕ (c 28) ⊕ (c 27) ⊕ (c 26) ⊕ (c 24);
    (d 0) ⊕ (d 1) ⊕ (d 2) ⊕ (d 3) ⊕ (d 4) ⊕ (d 6) ⊕ (d 7) ⊕ (c 31) ⊕ (c 30) ⊕ (c 29) ⊕ (c 28) ⊕ (c 27) ⊕ (c 25) ⊕ (c 24);
    (d 0) ⊕ (d 1) ⊕ (d 2) ⊕ (d 3) ⊕ (d 5) ⊕ (d 6) ⊕ (c 31) ⊕ (c 30) ⊕ (c 29) ⊕ (c 28) ⊕ (c 26) ⊕ (c 25);
    (d 0) ⊕ (d 2) ⊕ (d 4) ⊕ (d 5) ⊕ (d 7) ⊕ (c 31) ⊕ (c 29) ⊕ (c 27) ⊕ (c 26) ⊕ (c 24);
    (d 3) ⊕ (d 4) ⊕ (d 6) ⊕ (d 7) ⊕ (c 28) ⊕ (c 27) ⊕ (c 25) ⊕ (c 24) ⊕ (c 0);
    (d 2) ⊕ (d 3) ⊕ (d 5) ⊕ (d 6) ⊕ (c 29) ⊕ (c 28) ⊕ (c 26) ⊕ (c 25) ⊕ (c 1);
    (d 2) ⊕ (d 4) ⊕ (d 5) ⊕ (d 7) ⊕ (c 29) ⊕ (c 27) ⊕ (c 26) ⊕ (c 24) ⊕ (c 2);
    (d 3) ⊕ (d 4) ⊕ (d 6) ⊕ (d 7) ⊕ (c 28) ⊕ (c 27) ⊕ (c 25) ⊕ (c 24) ⊕ (c 3);
    (d 1) ⊕ (d 2) ⊕ (d 3) ⊕ (d 5) ⊕ (d 6) ⊕ (d 7) ⊕ (c 30) ⊕ (c 29) ⊕ (c 28) ⊕ (c 26) ⊕ (c 25) ⊕ (c 24) ⊕ (c 4);
    (d 0) ⊕ (d 1) ⊕ (d 2) ⊕ (d 4) ⊕ (d 5) ⊕ (d 6) ⊕ (c 31) ⊕ (c 30) ⊕ (c 29) ⊕ (c 27) ⊕ (c 26) ⊕ (c 25) ⊕ (c 5);
    (d 0) ⊕ (d 1) ⊕ (d 3) ⊕ (d 4) ⊕ (d 5) ⊕ (c 31) ⊕ (c 30) ⊕ (c 28) ⊕ (c 27) ⊕ (c 26) ⊕ (c 6);
    (d 0) ⊕ (d 2) ⊕ (d 3) ⊕ (d 4) ⊕ (c 31) ⊕ (c 29) ⊕ (c 28) ⊕ (c 27) ⊕ (c 7);
    (d 2) ⊕ (d 3) ⊕ (d 7) ⊕ (c 29) ⊕ (c 28) ⊕ (c 24) ⊕ (c 8);
    (d 1) ⊕ (d 2) ⊕ (d 6) ⊕ (c 30) ⊕ (c 29) ⊕ (c 25) ⊕ (c 9);
    (d 0) ⊕ (d 1) ⊕ (d 5) ⊕ (c 31) ⊕ (c 30) ⊕ (c 26) ⊕ (c 10);
    (d 0) ⊕ (d 4) ⊕ (c 31) ⊕ (c 27) ⊕ (c 11);
    (d 3) ⊕ (c 28) ⊕ (c 12);
    (d 2) ⊕ (c 29) ⊕ (c 13);
    (d 7) ⊕ (c 24) ⊕ (c 14);
    (d 1) ⊕ (d 6) ⊕ (d 7) ⊕ (c 30) ⊕ (c 25) ⊕ (c 24) ⊕ (c 15);
    (d 0) ⊕ (d 5) ⊕ (d 6) ⊕ (c 31) ⊕ (c 26) ⊕ (c 25) ⊕ (c 16);
    (d 4) ⊕ (d 5) ⊕ (c 27) ⊕ (c 26) ⊕ (c 17);
    (d 1) ⊕ (d 3) ⊕ (d 4) ⊕ (d 7) ⊕ (c 30) ⊕ (c 28) ⊕ (c 27) ⊕ (c 24) ⊕ (c 18);
    (d 0) ⊕ (d 2) ⊕ (d 3) ⊕ (d 6) ⊕ (c 31) ⊕ (c 29) ⊕ (c 28) ⊕ (c 25) ⊕ (c 19);
    (d 1) ⊕ (d 2) ⊕ (d 5) ⊕ (c 30) ⊕ (c 29) ⊕ (c 26) ⊕ (c 20);
    (d 0) ⊕ (d 1) ⊕ (d 4) ⊕ (c 31) ⊕ (c 30) ⊕ (c 27) ⊕ (c 21);
    (d 0) ⊕ (d 3) ⊕ (c 31) ⊕ (c 28) ⊕ (c 22);
    (d 2) ⊕ (c 23) ⊕ (c 29) ].

(** [crc_result = 0; for (i = 0; i < 32; i++) if (crc_out[i]) crc_result |= (1<<i);] *)
Fixpoint pack_bits (i : Z) (out : list Z) (crc_result : Z) : Z :=
  match out with
  | [] => crc_result
  | o :: out' =>
      pack_bits (i + 1) out' (if truth o then Z.lor crc_result (Z.shiftl 1 i) else crc_result)
  end.

Definition _cal_crc32 (crc_result data_8 : Z) : Z :=
  let flag := 1 in
  let in_data_buf i := Z.land (Z.shiftr data_8 i) flag in
  let crc_buf i := Z.land (u8 (Z.shiftr crc_result i)) flag in
  pack_bits 0 (crc_out in_data_buf crc_buf) 0.

(** [val = 0; for (i = 0; i < 32; i++) if ((crc_result>>i) & 1) val |= 1 << (31-i);] *)
Definition reverse_bits (crc_result : Z) : Z :=
  foldl (λ val i, if truth (Z.land (Z.shiftr crc_result i) 1)
                  then Z.lor val (Z.shiftl 1 (31 - i)) else val) 0 (seqZ 0 32).

(** [get_crc32(data, data_size)] *)
Definition get_crc32 (data : list Z) (data_size : Z) : option Z :=
  if (0 <=? data_size) && (data_size <=? blen data) then
    let crc_result := foldl _cal_crc32 4294967295 (take (Z.to_nat data_size) data) in
    Some (u32 (Z.lnot (reverse_bits crc_result)))
  else None.

(** ** The additive checksum

    [sum] is the function's static variable. *)
Definition checksum (data : list Z) (len init sum : Z) : option (Z * Z) :=
  let sum := if truth init then sum else 0 in
  if len <=? blen data then
    let sum := foldl (λ s d, s + d) sum (take (Z.to_nat len) data) in
    Some (u32 (Z.lnot (u32 (Z.shiftr sum 32) + u32 sum)), sum)
  else None.

(** ** Characters and digits *)

Definition in_range (c lo up : Z) : bool := (lo <=? u8 c) && (u8 c <=? up).
Definition isdigit (c : Z) : bool := in_range c 48 57.

Definition atodec (ch : Z) : Z :=
  if (48 <=? ch) && (ch <=? 57) then ch - 48 else -1.

Definition atohex (ch : Z) : Z :=
  if (48 <=? ch) && (ch <=? 57) then ch - 48
  else if (97 <=? ch) && (ch <=? 102) then ch - 97 + 10
  else if (65 <=? ch) && (ch <=? 70) then ch - 65 + 10
  else -1.

Definition hex_to_digit (c : Z) : Z :=
  if (48 <=? c) && (c <=? 57) then c - 48
  else if (65 <=? c) && (c <=? 70) then c - (65 - 10)
  else if (97 <=? c) && (c <=? 102) then c - (97 - 10)
  else -1.

Definition digit_to_hex (c : Z) : Z :=
  if (0 <=? c) && (c <=? 9) then c + 48
  else if (10 <=? c) && (c <=? 15) then c - 10 + 65
  else -1.

(** ** Parsers

    A parser returns the C return value and, where the C writes through its
    result pointer, the value written; reading past the buffer is [None]. *)

Fixpoint strtodec_loop (str : list Z) (i dd : Z) : option (Z * option (Z * Z)) :=
  match str with
  | [] => None
  | 0 :: _ => Some (0, Some (i, dd))
  | c :: str' =>
      let i := atodec c in
      if i <? 0 then Some (-1, None) else strtodec_loop str' i (s32 (dd * 10 + i))
  end.

Definition strtodec (str : list Z) : option (Z * option Z) :=
  c ← byte_at str 0;
  let '(str, sign) := if c =? 45 then (tail str, -1) else (str, 1) in
  r ← strtodec_loop str (-1) 0;
  match r with
  | (_, Some (i, dd)) => Some (if i <? 0 then -1 else 0, Some (s32 (dd * sign)))
  | (e, None) => Some (e, None)
  end.

Fixpoint strtohex_loop (str : list Z) (n i dd : Z) : option (Z * option Z) :=
  match str with
  | [] => None
  | 0 :: _ => Some (if n <? 0 then -1 else 0, Some dd)
  | c :: str' =>
      let n := atohex c in
      if n <? 0 then Some (-1, None)
      else
        let dd := u32 (u32 (Z.shiftl dd 4) + n) in
        if 8 <? i + 1 then Some (-1, None) else strtohex_loop str' n (i + 1) dd
  end.
Definition strtohex (str : list Z) : option (Z * option Z) := strtohex_loop str (-1) 0 0.

(** [array] is the list of the bytes stored so far, in order. *)
Fixpoint strtohexarray (cnt : nat) (str : list Z) (array : list Z) : option (Z * list Z) :=
  match cnt with
  | O => c ← byte_at str 0; Some (if c =? 0 then 0 else -1, array)
  | S cnt' =>
      match str with
      | [] => None
      | c1 :: str1 =>
          let hex := atohex c1 in
          if hex <? 0 then Some (-1, array)
          else
            let tmp := Z.land (Z.shiftl hex 4) 240 in
            match str1 with
            | [] => None
            | c2 :: str2 =>
                let hex := atohex c2 in
                if hex <? 0 then Some (-1, array)
                else
                  let tmp := Z.lor tmp (Z.land hex 15) in
                  strtohexarray cnt' str2 (array ++ [u8 tmp])
            end
      end
  end.

(** The body of [strtoip]'s loop over the characters: [head] and [tail] are
    offsets into the buffer [str], which the code modifies and restores. *)
Fixpoint strtoip_loop (fuel : nat) (i ip head tail : Z) (str : list Z)
  : option (Z * Z * Z * list Z) :=
  if i <? 3 then
    match fuel with
    | O => None
    | S fuel' =>
        c ← byte_at str tail;
        if c =? 46 then
          let i := i + 1 in
          str0 ← store8 str tail 0;
          let ip := u32 (Z.shiftl ip 8) in
          r ← strtodec (drop (Z.to_nat head) str0);
          match r with
          | (e, Some n) =>
              if e <? 0 then Some (-1, ip, head, str0)
              else if (n <? 0) || (255 <? n) then Some (-1, ip, head, str0)
              else
                let ip := u32 (ip + n) in
                str1 ← store8 str0 tail 46;
                strtoip_loop fuel' i ip (tail + 1) (tail + 1) str1
          | (_, None) => Some (-1, ip, head, str0)
          end
        else strtoip_loop fuel' i ip head (tail + 1) str
    end
  else Some (0, ip, head, str).

(** The return value, the address if written, and the buffer left behind.
    One round of the loop reads one more character, so the number of
    characters of the buffer bounds the rounds. *)
Definition strtoip (str : list Z) : option (Z * option Z * list Z) :=
  r ← strtoip_loop (S (length str)) 0 0 0 0 str;
  let '(e, ip, head, str) := r in
  if e <? 0 then Some (-1, None, str)
  else
    let ip := u32 (Z.shiftl ip 8) in
    r ← strtodec (drop (Z.to_nat head) str);
    match r with
    | (e, Some n) =>
        if e <? 0 then Some (-1, None, str)
        else if (n <? 0) || (255 <? n) then Some (-1, None, str)
        else
          let ip := u32 (ip + n) in
          Some (if ip =? 0 then -1 else 0, Some ip, str)
    | (_, None) => Some (-1, None, str)
    end.

(** The C library's [strlen], on a buffer. *)
Fixpoint strlen (s : list Z) : option Z :=
  match s with
  | [] => None
  | 0 :: _ => Some 0
  | _ :: s' => n ← strlen s'; Some (n + 1)
  end.

Fixpoint hexstr_loop (s : list Z) (len : nat) (d : Z) {struct len} : option (Z * Z) :=
  match len with
  | O => Some (0, d)
  | S len' =>
      match s with
      | [] => None
      | b :: s' =>
          let c := hex_to_digit b in
          if c <? 0 then Some (-1, d)
          else hexstr_loop s' len' (Z.lor (u8 c) (u32 (Z.shiftl d 4)))
      end
  end.
(** [hexstr_to_unit(buf, &d)]: [d] is written from the start. *)
Definition hexstr_to_unit (buf : list Z) : option (Z * Z) :=
  len ← strlen buf;
  if 8 <? len then Some (-1, 0) else hexstr_loop buf (Z.to_nat len) 0.

(** The C library's [atoi] on a string of digits: the value, when it is an
    [int]. *)
Definition atoi_digits (s : list Z) : option Z :=
  let v := foldl (λ v c, v * 10 + (c - 48)) 0 s in
  if v <? 2147483648 then Some v else None.
Definition string_to_uint (buf : list Z) : option (Z * option Z) :=
  len ← strlen buf;
  if (11 <? len) || (len =? 0) then Some (-1, None)
  else if forallb isdigit (take (Z.to_nat len) buf)
  then d ← atoi_digits (take (Z.to_nat len) buf); Some (0, Some (u32 d))
  else Some (-1, None).

(** [string_to_ipaddr] reads with [sscanf] and "%u.%u.%u.%u%c".  A [%u] skips
    white space and takes a sign and digits; a value that does not fit is
    undefined.  [Some None] is a conversion that fails. *)
Definition isspace (c : Z) : bool := (c =? 32) || in_range c 9 13.
Fixpoint skip_space (s : list Z) : option (list Z) :=
  match s with [] => None | c :: s' => if isspace c then skip_space s' else Some s end.
Fixpoint take_digits (s : list Z) (seen : bool) (v : Z) : option (option (Z * list Z)) :=
  match s with
  | [] => None
  | c :: s' =>
      if isdigit c then take_digits s' true (v * 10 + (c - 48))
      else Some (if seen then Some (v, s) else None)
  end.
Definition scan_u (s : list Z) : option (option (Z * list Z)) :=
  s ← skip_space s;
  c ← byte_at s 0;
  let '(minus, s) := if c =? 45 then (true, tail s) else if c =? 43 then (false, tail s) else (false, s) in
  r ← take_digits s false 0;
  match r with
  | None => Some None
  | Some (v, s) => if v <? 2 ^ 32 then Some (Some (u32 (if minus : bool then - v else v), s)) else None
  end.
(** [n] numbers with dots between them. *)
Fixpoint scan_dotted (n : nat) (s : list Z) : option (option (list Z * list Z)) :=
  match n with
  | O => Some (Some ([], s))
  | S n' =>
      r ← scan_u s;
      match r, n' with
      | None, _ => Some None
      | Some (v, s), O => Some (Some ([v], s))
      | Some (v, s), _ =>
          c ← byte_at s 0;
          if c =? 46 then
            r ← scan_dotted n' (tail s);
            Some (match r with Some (vs, s) => Some (v :: vs, s) | None => None end)
          else Some None
      end
  end.
(** The address, if the return value is 0; the numbers are compared as [int]s. *)
Definition string_to_ipaddr (buf : list Z) : option (option (list Z)) :=
  r ← scan_dotted 4 buf;
  match r with
  | None => Some None
  | Some (i, s) =>
      c ← byte_at s 0;
      if negb (c =? 0) && negb (c =? 10) then Some None
      else if existsb (λ v, 255 <? s32 v) i then Some None
      else Some (Some (u8 <$> i))
  end.

(** ** Printers

    [fmt_u] is [sprintf]'s [%u], [fmt_x] its [%0nx] for a value that has no
    more digits. *)
Fixpoint dec_digits (fuel : nat) (n : Z) (acc : list Z) : list Z :=
  match fuel with
  | O => acc
  | S fuel' =>
      let acc := 48 + n mod 10 :: acc in
      if n <? 10 then acc else dec_digits fuel' (n / 10) acc
  end.
Definition fmt_u (n : Z) : list Z := dec_digits 10 n [].
Definition fmt_x (n : nat) (v : Z) : list Z :=
  (λ i, let d := v / 16 ^ (Z.of_nat n - 1 - i) mod 16 in if d <? 10 then 48 + d else 97 + (d - 10)) <$> seqZ 0 (Z.of_nat n).

(** [fmt_d] is [sprintf]'s [%d] for the values below 1000 the source prints
    with it, [fmt_02x] its [%02x] for a byte. *)
Definition fmt_d (n : Z) : list Z :=
  if n <? 10 then [48 + n]
  else if n <? 100 then [48 + n / 10; 48 + n mod 10]
  else [48 + n / 100; 48 + (n / 10) mod 10; 48 + n mod 10].
Definition hexchar (n : Z) : Z := if n <? 10 then 48 + n else 97 + (n - 10).
Definition fmt_02x (n : Z) : list Z := [hexchar (n / 16); hexchar (n mod 16)].

Definition iptostr (ip : Z) : list Z :=
  fmt_d (Z.land (Z.shiftr ip 24) 255) ++ [46] ++
  fmt_d (Z.land (Z.shiftr ip 16) 255) ++ [46] ++
  fmt_d (Z.land (Z.shiftr ip 8) 255) ++ [46] ++
  fmt_d (Z.land (Z.shiftr ip 0) 255) ++ [0].

(** [mac] holds the six bytes. *)
Definition mactostr (mac : list Z) : list Z := (mac ≫= fmt_02x) ++ [0].

(** [strdup]: [ret] is the block [tls_mem_alloc(len)] returned. *)
Definition strdup (s : option (list Z)) (alloc : Z → option (list Z)) : option (option (list Z)) :=
  match s with
  | None => Some None
  | Some s =>
      len ← strlen s;
      let len := len + 1 in
      match alloc len with
      | None => Some None
      | Some ret =>
          ret ← memset ret 0 0 len;
          ret ← memcpy ret 0 s 0 (len - 1);
          Some (Some ret)
      end
  end.

Definition strndup (s : option (list Z)) (len : Z) (alloc : Z → option (list Z))
  : option (option (list Z)) :=
  match s with
  | None => Some None
  | Some s =>
      match alloc (len + 1) with
      | None => Some None
      | Some ret =>
          ret ← memset ret 0 0 (len + 1);
          ret ← memcpy ret 0 s 0 len;
          Some (Some ret)
      end
  end.

(** [gettimeofday]: seconds and microseconds of the 100 Hz tick. *)
Definition gettimeofday (current_tick : Z) : Z * Z :=
  (current_tick / 100, 10000 * (current_tick mod 100)).

(** ** CRC-32: the parallel equations are the bitwise division

    [crc32_ref] is the usual CRC-32 (reflected polynomial 0xEDB88320, initial
    value and final exclusive-or all ones). *)

Definition crc32_shift (r : Z) : Z :=
  if Z.odd r then Z.lxor (Z.shiftr r 1) 3988292384 else Z.shiftr r 1.
Definition crc32_byte (r d : Z) : Z := Nat.iter 8 crc32_shift (Z.lxor r d).
Definition crc32_ref (data : list Z) : Z :=
  Z.lxor (foldl crc32_byte 4294967295 data) 4294967295.

Section crc32.
Lemma testbit_1_pos n : 0 < n → Z.testbit 1 n = false.
Proof. intros. rewrite <- (Z.pow_0_r 2), Z.pow2_bits_eqb by lia. lia. Qed.
Lemma land1_b2z x i : 0 <= i → Z.land (Z.shiftr x i) 1 = Z.b2z (Z.testbit x i).
Proof.
  intros. change 1 with (Z.ones 1). rewrite Z.land_ones by lia.
  by rewrite <- Z.bit0_mod, Z.shiftr_spec.
Qed.
Lemma land1_u8_b2z x i : 0 <= i → Z.land (u8 (Z.shiftr x i)) 1 = Z.b2z (Z.testbit x i).
Proof.
  intros. unfold u8, wrap. rewrite <- Z.land_ones by lia.
  rewrite <- Z.land_assoc. change (Z.land (Z.ones 8) 1) with 1. by apply land1_b2z.
Qed.
Lemma lxor_b2z a b : Z.lxor (Z.b2z a) (Z.b2z b) = Z.b2z (xorb a b).
Proof. by destruct a, b. Qed.
Lemma truth_b2z b : truth (Z.b2z b) = b.
Proof. by destruct b. Qed.

Lemma pack_bits_spec out : ∀ i acc j, 0 <= i → (∀ k, i <= k → Z.testbit acc k = false) →
  Z.testbit (pack_bits i out acc) j =
    if (i <=? j) && (j <? i + Z.of_nat (length out))
    then default false (truth <$> out !! Z.to_nat (j - i)) else Z.testbit acc j.
Proof.
  induction out as [|o out IH]; intros i acc j Hi Hacc; simpl.
  { case_if; [lia|done]. }
  assert (∀ k, i + 1 <= k → Z.testbit (if truth o then Z.lor acc (Z.shiftl 1 i) else acc) k = false)
    as Hacc'.
  { intros k Hk. case_if; [|apply Hacc; lia].
    rewrite Z.lor_spec, Hacc, Z.shiftl_spec by lia.
    by rewrite testbit_1_pos by lia. }
  rewrite IH by (lia || done). clear IH.
  destruct (Z.eqb_spec j i) as [->|].
  - replace (i - i) with 0 by lia. simpl.
    assert ((i + 1 <=? i) = false) as -> by lia. simpl.
    assert (((i <=? i) && (i <? i + Z.of_nat (S (length out))))%bool = true) as -> by lia.
    destruct (truth o).
    + rewrite Z.lor_spec, Hacc, Z.shiftl_spec by lia.
      by replace (i - i) with 0 by lia.
    + apply Hacc. lia.
  - replace ((i + 1 <=? j) && (j <? i + 1 + Z.of_nat (length out)))%bool
      with ((i <=? j) && (j <? i + Z.of_nat (S (length out))))%bool by lia.
    case_if.
    + replace (Z.to_nat (j - i)) with (S (Z.to_nat (j - (i + 1)))) by lia. done.
    + case_if; [|done]. rewrite Z.lor_spec.
      destruct (Z.ltb_spec j 0); [by rewrite !Z.testbit_neg_r by lia|].
      rewrite Z.shiftl_spec by lia. destruct (Z.ltb_spec j i).
      * rewrite (Z.testbit_neg_r _ (j - i)) by lia. apply orb_false_r.
      * rewrite testbit_1_pos by lia. apply orb_false_r.
Qed.

(** The bit functions of the two algorithms. *)
Definition crc_bits (td tc : Z → bool) (j : Z) : bool :=
  default false (truth <$> crc_out (λ i, Z.b2z (td i)) (λ i, Z.b2z (tc i)) !! Z.to_nat j).
Definition shift_bits (f : Z → bool) (i : Z) : bool :=
  xorb (f (i + 1)) (f 0 && Z.testbit 3988292384 i).

Lemma cal_crc32_bits c d j : Z.testbit (_cal_crc32 c d) j =
  if (0 <=? j) && (j <? 32) then crc_bits (Z.testbit d) (Z.testbit c) j else false.
Proof.
  unfold _cal_crc32. rewrite pack_bits_spec by (lia || (intros; apply Z.bits_0)).
  change (0 + Z.of_nat (length (crc_out _ _))) with 32. rewrite Z.sub_0_r, Z.bits_0.
  case_if; [|done]. unfold crc_bits. f_equal. f_equal. f_equal.
  unfold crc_out. rewrite !land1_b2z, !land1_u8_b2z by lia. done.
Qed.
Lemma crc32_shift_bits r i : 0 <= i → Z.testbit (crc32_shift r) i = shift_bits (Z.testbit r) i.
Proof.
  intros Hi. unfold crc32_shift, shift_bits. rewrite Z.bit0_odd.
  destruct (Z.odd r); [rewrite Z.lxor_spec|]; rewrite Z.shiftr_spec by done; simpl;
    [done|by rewrite xorb_false_r].
Qed.
End crc32.

Section crc32_eq.
Lemma reverse_bits_spec c i :
  Z.testbit (reverse_bits c) i = if (0 <=? i) && (i <? 32) then Z.testbit c (31 - i) else false.
Proof.
  unfold reverse_bits. change (seqZ 0 32) with
    [0;1;2;3;4;5;6;7;8;9;10;11;12;13;14;15;16;17;18;19;20;21;22;23;24;25;26;27;28;29;30;31].
  assert (∀ l acc, Forall (λ k, 0 <= k < 32) l →
    Z.testbit (foldl (λ val k, if truth (Z.land (Z.shiftr c k) 1)
                then Z.lor val (Z.shiftl 1 (31 - k)) else val) acc l) i =
    (Z.testbit acc i || (existsb (λ k, i =? 31 - k) l && Z.testbit c (31 - i)))%bool) as H.
  { intros l. induction l as [|k l IH]; intros acc Hl; simpl; [by rewrite orb_false_r|].
    inversion Hl; subst. rewrite IH by done. rewrite land1_b2z, truth_b2z by lia.
    assert (Z.testbit (Z.shiftl 1 (31 - k)) i = (i =? 31 - k)) as Hs.
    { destruct (Z.ltb_spec i 0).
      { rewrite Z.testbit_neg_r by lia. lia. }
      rewrite Z.shiftl_1_l, Z.pow2_bits_eqb by lia. lia. }
    destruct (Z.testbit c k) eqn:Hc.
    - rewrite Z.lor_spec, Hs. destruct (Z.eqb_spec i (31 - k)) as [->|].
      + replace (31 - (31 - k)) with k by lia. rewrite Hc. by destruct (Z.testbit acc _).
      + rewrite orb_false_r. done.
    - destruct (Z.eqb_spec i (31 - k)) as [->|]; [|done].
      replace (31 - (31 - k)) with k by lia. rewrite Hc. by rewrite !andb_false_r. }
  rewrite H by (repeat constructor; lia). rewrite Z.bits_0. clear H.
  match goal with |- context [existsb ?f ?l] =>
    assert (existsb f l = ((0 <=? i) && (i <? 32))%bool) as -> by (simpl; lia) end.
  simpl. by case_if.
Qed.

Lemma crc32_byte_bits r d i : 0 <= i →
  Z.testbit (crc32_byte r d) i =
  Nat.iter 8 shift_bits (λ k, xorb (Z.testbit r k) (Z.testbit d k)) i.
Proof.
  unfold crc32_byte. intros Hi.
  assert (∀ n x f, (∀ k, 0 <= k → Z.testbit x k = f k) → ∀ k, 0 <= k →
    Z.testbit (Nat.iter n crc32_shift x) k = Nat.iter n shift_bits f k) as H.
  { intros n. induction n as [|n IH]; intros x f Hx k Hk; [by apply Hx|].
    simpl. rewrite crc32_shift_bits by done. unfold shift_bits.
    by rewrite !(IH x f) by (done || lia). }
  apply H; [|done]. intros k Hk. apply Z.lxor_spec.
Qed.

Lemma iter_shift_bits_ext n f g :
  (∀ k, 0 <= k → f k = g k) → ∀ k, 0 <= k →
  Nat.iter n shift_bits f k = Nat.iter n shift_bits g k.
Proof.
  intros H. induction n as [|n IH]; intros k Hk; [by apply H|].
  simpl. unfold shift_bits at 1 3. by rewrite !IH by lia.
Qed.
Lemma iter_shift_bits_high n f :
  (∀ k, 32 <= k → f k = false) → ∀ k, 32 <= k → Nat.iter n shift_bits f k = false.
Proof.
  intros H. induction n as [|n IH]; intros k Hk; [by apply H|].
  simpl. unfold shift_bits at 1. rewrite IH by lia.
  rewrite (Z.bits_above_log2 3988292384 k); [by rewrite andb_false_r|done|].
  apply Z.lt_le_trans with 32; [vm_compute; done|done].
Qed.
Lemma testbit_u8_high d k : is_u8 d → 8 <= k → Z.testbit d k = false.
Proof.
  intros Hd Hk. rewrite <- (Z.mod_small d (2 ^ 8)) by (unfold_ints; lia).
  apply Z.mod_pow2_bits_high. lia.
Qed.

(** The equations against eight rounds of the shift register, bit by bit. *)
Lemma crc_bits_step td tc : Forall (λ i, crc_bits td tc (31 - i) =
  Nat.iter 8 shift_bits (λ k, xorb
      (if (0 <=? k) && (k <? 32) then tc (31 - k) else false)
      (if k <? 8 then td k else false)) i) (seqZ 0 32).
Proof.
  cbv [crc_bits]. repeat apply Forall_cons_2; [..|apply Forall_nil_2].
  all: cbv -[xorb Z.b2z Z.lxor truth]; rewrite !lxor_b2z, truth_b2z; btauto.
Qed.

(** One table-free byte step, seen through the bit reversal. *)
Lemma cal_crc32_step c d : is_u8 d →
  reverse_bits (_cal_crc32 c d) = crc32_byte (reverse_bits c) d.
Proof.
  intros Hd. apply Z.bits_inj'. intros i Hi.
  rewrite reverse_bits_spec, crc32_byte_bits by done.
  destruct (Z.lt_ge_cases i 32).
  - rewrite cal_crc32_bits.
    replace ((0 <=? i) && (i <? 32))%bool with true by lia.
    replace ((0 <=? 31 - i) && (31 - i <? 32))%bool with true by lia.
    pose proof (crc_bits_step (Z.testbit d) (Z.testbit c)) as Hs.
    rewrite List.Forall_forall in Hs. rewrite (Hs i) by (apply list_elem_of_In, elem_of_seqZ; lia).
    apply iter_shift_bits_ext; [|done]. intros k Hk. rewrite reverse_bits_spec. f_equal.
    case_if; [done|]. symmetry. by apply testbit_u8_high.
  - replace ((0 <=? i) && (i <? 32))%bool with false by lia. symmetry.
    apply iter_shift_bits_high; [|done]. intros k Hk.
    rewrite reverse_bits_spec, (testbit_u8_high d) by (done || lia).
    by replace ((0 <=? k) && (k <? 32))%bool with false by lia.
Qed.

Lemma foldl_cal_crc32 l : ∀ c, bytes_ok l →
  reverse_bits (foldl _cal_crc32 c l) = foldl crc32_byte (reverse_bits c) l.
Proof.
  induction l as [|d l IH]; intros c Hl; cbn [foldl]; [reflexivity|].
  inversion Hl; subst. rewrite IH, cal_crc32_step by assumption. reflexivity.
Qed.
End crc32_eq.

(** The register at the end, turned round and inverted. *)
Lemma final_crc32 l : bytes_ok l → u32 (Z.lnot (reverse_bits (foldl _cal_crc32 4294967295 l))) = crc32_ref l.
Proof.
  intros Hl. unfold crc32_ref. apply Z.bits_inj'. intros i Hi. unfold u32, wrap.
  rewrite <- Z.land_ones, Z.land_spec, Z.lnot_spec, Z.lxor_spec by done.
  change 4294967295 with (Z.ones 32) at 3.
  change 4294967295 with (reverse_bits 4294967295) at 2. rewrite <- foldl_cal_crc32 by done.
  destruct (Z.lt_ge_cases i 32).
  - rewrite Z.ones_spec_low by lia. by rewrite andb_true_r, xorb_true_r.
  - rewrite Z.ones_spec_high by lia. rewrite andb_false_r, xorb_false_r, reverse_bits_spec.
    by replace ((0 <=? i) && (i <? 32))%bool with false by lia.
Qed.

(** C35: [get_crc32] computes the standard CRC-32 of the bytes it is given. *)
Theorem get_crc32_correct data data_size :
  bytes_ok data → 0 <= data_size <= blen data →
  get_crc32 data data_size = Some (crc32_ref (slice data 0 data_size)).
Proof.
  intros Hd Hs. unfold get_crc32, slice. rewrite drop_0.
  replace ((0 <=? data_size) && (data_size <=? blen data))%bool with true by lia.
  cbv zeta. by rewrite final_crc32 by by apply Forall_take.
Qed.

(** CRC-32 of the check string "123456789". *)
Lemma get_crc32_correct_witness :
  get_crc32 [49;50;51;52;53;54;55;56;57] 9 =
    Some (crc32_ref [49;50;51;52;53;54;55;56;57]) ∧
  get_crc32 [49;50;51;52;53;54;55;56;57] 9 = Some 3421780262.
Proof.
  split; [|vm_compute; reflexivity].
  apply (get_crc32_correct [49;50;51;52;53;54;55;56;57] 9).
  - repeat constructor; unfold is_u8; lia.
  - vm_compute. split; discriminate.
Defined.

(** ** CRC-8: the table is the bitwise division

    [crc8_ref] is the reflected CRC-8 of the polynomial x^8 + x^2 + x + 1. *)
Definition crc8_shift (r : Z) : Z :=
  if Z.odd r then Z.lxor (Z.shiftr r 1) 224 else Z.shiftr r 1.
Definition crc8_byte (r d : Z) : Z := Nat.iter 8 crc8_shift (Z.lxor r d).
Definition crc8_ref (crc : Z) (data : list Z) : Z := foldl crc8_byte crc data.

(** Every byte is one of the 256 of [seqZ 0 256]. *)
Lemma u8_forall (P : Z → Prop) : Forall P (seqZ 0 256) → ∀ x, is_u8 x → P x.
Proof.
  rewrite List.Forall_forall. intros H x Hx. apply H, list_elem_of_In, elem_of_seqZ.
  unfold is_u8 in Hx. lia.
Qed.
Lemma u8_forallb (f : Z → bool) : forallb f (seqZ 0 256) = true → ∀ x, is_u8 x → f x = true.
Proof.
  rewrite forallb_forall. intros H x Hx. apply H, list_elem_of_In, elem_of_seqZ.
  unfold is_u8 in Hx. lia.
Qed.
Lemma is_u8_lxor a b : is_u8 a → is_u8 b → is_u8 (Z.lxor a b).
Proof.
  intros Ha Hb. assert (Z.lxor a b = u8 (Z.lxor a b)) as ->; [|apply u8_range].
  apply Z.bits_inj'. intros k Hk. unfold u8, wrap.
  rewrite <- Z.land_ones, Z.land_spec, Z.lxor_spec by lia.
  destruct (Z.lt_ge_cases k 8).
  - by rewrite Z.ones_spec_low, andb_true_r by lia.
  - by rewrite !(testbit_u8_high _ k) by done.
Qed.

Lemma crc8_tbl_entry x : is_u8 x →
  byte_at crc8_tbl x = Some (Nat.iter 8 crc8_shift x) ∧ is_u8 (Nat.iter 8 crc8_shift x).
Proof.
  intros Hx. assert (bool_decide (byte_at crc8_tbl x = Some (Nat.iter 8 crc8_shift x))
      && (0 <=? Nat.iter 8 crc8_shift x) && (Nat.iter 8 crc8_shift x <? 256) = true)%bool as H.
  { revert x Hx. apply u8_forallb. vm_compute. reflexivity. }
  zbool. apply bool_decide_eq_true in H. unfold is_u8. auto.
Qed.
Lemma crc8_tbl_inj x y : is_u8 x → is_u8 y →
  Nat.iter 8 crc8_shift x = Nat.iter 8 crc8_shift y → x = y.
Proof.
  intros Hx Hy He. assert (forallb (λ y, implb (Nat.iter 8 crc8_shift x =? Nat.iter 8 crc8_shift y)
    (x =? y)) (seqZ 0 256) = true) as H.
  { clear y Hy He. revert x Hx. apply u8_forallb. vm_compute. reflexivity. }
  pose proof (u8_forallb _ H y Hy) as H'. cbv beta in H'.
  rewrite He, Z.eqb_refl in H'. simpl in H'. lia.
Qed.

Lemma crc8_byte_u8 r d : is_u8 r → is_u8 d → is_u8 (crc8_byte r d).
Proof. intros. unfold crc8_byte. by apply crc8_tbl_entry, is_u8_lxor. Qed.
Lemma crc8_ref_u8 l : ∀ r, is_u8 r → bytes_ok l → is_u8 (crc8_ref r l).
Proof.
  induction l as [|d l IH]; intros r Hr Hl; [done|].
  inversion Hl; subst. apply IH; [by apply crc8_byte_u8|done].
Qed.
Lemma lxor_cancel_l r x y : Z.lxor r x = Z.lxor r y → x = y.
Proof.
  intros H. rewrite <- (Z.lxor_0_l x), <- (Z.lxor_0_l y), <- (Z.lxor_nilpotent r).
  by rewrite !Z.lxor_assoc, H.
Qed.
Lemma crc8_byte_inj r s c d : is_u8 r → is_u8 s → is_u8 c → is_u8 d →
  crc8_byte r c = crc8_byte s d → Z.lxor r c = Z.lxor s d.
Proof. intros. apply crc8_tbl_inj; auto using is_u8_lxor. Qed.
Lemma crc8_ref_inj l : ∀ r s, is_u8 r → is_u8 s → bytes_ok l →
  crc8_ref r l = crc8_ref s l → r = s.
Proof.
  induction l as [|d l IH]; intros r s Hr Hs Hl H; [done|].
  inversion Hl; subst. apply IH in H; auto using crc8_byte_u8.
  apply crc8_byte_inj in H; auto.
  rewrite (Z.lxor_comm r), (Z.lxor_comm s) in H. by apply lxor_cancel_l in H.
Qed.

Lemma calculate_crc8_ref ptr : ∀ crc len, is_u8 crc → bytes_ok ptr → (len ≤ length ptr)%nat →
  calculate_crc8 crc ptr len = Some (crc8_ref crc (take len ptr)).
Proof.
  induction ptr as [|d ptr IH]; intros crc [|len] Hc Hp Hl; try done; [simpl in Hl; lia|].
  inversion Hp; subst. simpl calculate_crc8.
  destruct (crc8_tbl_entry (Z.lxor crc d)) as [-> ?]; [by apply is_u8_lxor|].
  cbn [mbind option_bind]. rewrite IH; [done|done|done|simpl in Hl; lia].
Qed.

(** The table-driven CRC-8 is the bitwise polynomial division, a message
    followed by its CRC passes [chk_crc8], and a message in which one byte was
    changed never does. *)
Theorem crc8_detects_byte l1 b b' l2 :
  bytes_ok (l1 ++ b :: l2) → is_u8 b' →
  let n := length (l1 ++ b :: l2) in
  let crc := crc8_ref 0 (l1 ++ b :: l2) in
  get_crc8 (l1 ++ b :: l2) n = Some crc ∧
  chk_crc8 ((l1 ++ b :: l2) ++ [crc]) (S n) = Some 0 ∧
  (b ≠ b' → chk_crc8 ((l1 ++ b' :: l2) ++ [crc]) (S n) = Some (-1)).
Proof.
  intros Hl Hb' n crc.
  assert (is_u8 0) as H0 by (unfold is_u8; lia).
  assert (is_u8 crc) as Hcrc by by apply crc8_ref_u8.
  apply Forall_app in Hl as H12. destruct H12 as [Hl1 Hl2]. inversion Hl2; subst.
  assert (∀ m, bytes_ok m → length m = n →
    chk_crc8 (m ++ [crc]) (S n) = Some (if crc8_byte (crc8_ref 0 m) crc =? 0 then 0 else -1)) as Hchk.
  { intros m Hm Hlen. unfold chk_crc8. rewrite calculate_crc8_ref; [|done| |].
    - simpl. rewrite take_ge by (rewrite length_app; simpl; lia).
      unfold crc8_ref. by rewrite foldl_app.
    - apply Forall_app. split; [done|]. by constructor.
    - rewrite length_app. simpl. lia. }
  split; [|split].
  - unfold get_crc8. rewrite calculate_crc8_ref by done. by rewrite take_ge by done.
  - rewrite Hchk by done. fold crc. unfold crc8_byte. by rewrite Z.lxor_nilpotent.
  - intros Hne. assert (bytes_ok (l1 ++ b' :: l2)).
    { apply Forall_app. split; [done|]. by constructor. }
    rewrite Hchk; [|done|unfold n; rewrite !length_app; done].
    case_if; [exfalso|done]. apply Hne.
    assert (crc8_byte (crc8_ref 0 (l1 ++ b' :: l2)) crc = crc8_byte crc crc) as Heq.
    { rewrite E. unfold crc8_byte. by rewrite Z.lxor_nilpotent. }
    apply crc8_byte_inj in Heq; auto using crc8_ref_u8.
    rewrite (Z.lxor_comm _ crc) in Heq. apply lxor_cancel_l in Heq.
    unfold crc, crc8_ref in Heq. rewrite !foldl_app in Heq. simpl in Heq.
    apply (crc8_ref_inj l2) in Heq; [|auto using crc8_byte_u8, crc8_ref_u8..|done].
    apply crc8_byte_inj in Heq; auto using crc8_ref_u8. by apply lxor_cancel_l in Heq.
Qed.

Lemma crc8_detects_byte_witness :
  get_crc8 [1; 2; 3] 3 = Some 120 ∧ chk_crc8 [1; 2; 3; 120] 4 = Some 0 ∧
  chk_crc8 [1; 9; 3; 120] 4 = Some (-1).
Proof.
  assert (is_u8 1 ∧ is_u8 2 ∧ is_u8 3 ∧ is_u8 9) as (? & ? & ? & ?) by (unfold is_u8; lia).
  destruct (crc8_detects_byte [1] 2 9 [3]) as (Hg & Hc & Hx); [by repeat constructor|done|].
  split; [exact Hg|split; [exact Hc|apply Hx; discriminate]].
Defined.

(** ** IP addresses: [strtoip] reads back what [iptostr] prints *)

Lemma fmt_d_bytes n : is_u8 n →
  Forall (λ c, 48 <= c <= 57) (fmt_d n) ∧ fmt_d n ≠ [].
Proof.
  unfold is_u8. intros Hn. unfold fmt_d.
  repeat case_if; (split; [repeat constructor; dlia|done]).
Qed.

Lemma strtodec_fmt_d n rest : is_u8 n → strtodec (fmt_d n ++ 0 :: rest) = Some (0, Some n).
Proof.
  intros Hn. revert n Hn. apply u8_forall.
  repeat (apply Forall_cons_2; [reflexivity|]). apply Forall_nil_2.
Qed.

(** Scanning a field of the dotted notation. *)
Lemma byte_at_app_r l1 l2 i : byte_at (l1 ++ l2) (blen l1 + Z.of_nat i) = l2 !! i.
Proof.
  unfold blen. rewrite byte_at_lookup by lia. rewrite lookup_app_r by lia. f_equal. lia.
Qed.
Lemma drop_blen l1 l2 : drop (Z.to_nat (blen l1)) (l1 ++ l2) = l2.
Proof. unfold blen. by rewrite Nat2Z.id, drop_app_length. Qed.
Lemma splice_mid l1 x l2 y : splice (l1 ++ x :: l2) (blen l1) [y] = l1 ++ y :: l2.
Proof.
  unfold splice, blen. rewrite Nat2Z.id. rewrite take_app_length. f_equal. simpl. f_equal.
  replace (length l1 + 1)%nat with (length (l1 ++ [x])) by (rewrite length_app; simpl; lia).
  rewrite (cons_middle x l1 l2), app_assoc. by rewrite drop_app_length.
Qed.
Lemma store8_mid l1 x l2 y : store8 (l1 ++ x :: l2) (blen l1) y = Some (l1 ++ y :: l2).
Proof.
  unfold store8. rewrite memcpy_Some; [by rewrite slice_all, splice_mid|..].
  all: unfold blen; rewrite ?length_app; simpl; lia.
Qed.

Lemma strtoip_scan ds : ∀ fuel i ip head pre rest,
  i < 3 → Forall (λ c, 48 <= c <= 57) ds →
  strtoip_loop (length ds + fuel) i ip head (blen pre) (pre ++ ds ++ rest) =
  strtoip_loop fuel i ip head (blen (pre ++ ds)) (pre ++ ds ++ rest).
Proof.
  induction ds as [|d ds IH]; intros fuel i ip head pre rest Hi Hds; [by rewrite app_nil_r|].
  inversion Hds; subst. simpl strtoip_loop.
  replace (i <? 3) with true by lia.
  replace (blen pre) with (blen pre + Z.of_nat 0) at 1 by lia. rewrite byte_at_app_r.
  cbn [lookup list_lookup app mbind option_bind].
  replace (d =? 46) with false by lia.
  replace (blen pre + 1) with (blen (pre ++ [d])) by (rewrite blen_app; done).
  change ((d :: ds) ++ rest) with (d :: (ds ++ rest)).
  replace (pre ++ d :: ds ++ rest) with ((pre ++ [d]) ++ ds ++ rest) by by rewrite <- app_assoc.
  rewrite IH by done. by rewrite <- (app_assoc pre [d] ds).
Qed.

(** One whole field: the digits, then the dot. *)
Lemma strtoip_field n : ∀ fuel i ip pre rest, i < 3 → is_u8 n → 0 <= ip < 16777216 →
  strtoip_loop (length (fmt_d n) + S fuel) i ip (blen pre) (blen pre) (pre ++ fmt_d n ++ 46 :: rest) =
  strtoip_loop fuel (i + 1) (256 * ip + n) (blen (pre ++ fmt_d n ++ [46]))
    (blen (pre ++ fmt_d n ++ [46])) (pre ++ fmt_d n ++ 46 :: rest).
Proof.
  intros fuel i ip pre rest Hi Hn Hip.
  rewrite strtoip_scan by (done || by apply fmt_d_bytes). simpl strtoip_loop.
  replace (i <? 3) with true by lia.
  rewrite app_assoc. replace (blen (pre ++ fmt_d n)) with (blen (pre ++ fmt_d n) + Z.of_nat 0) at 1 by lia.
  rewrite byte_at_app_r. cbn [lookup list_lookup mbind option_bind].
  replace (46 =? 46) with true by lia. rewrite store8_mid. cbn [mbind option_bind].
  rewrite <- (app_assoc pre), drop_blen, strtodec_fmt_d by done.
  cbn [mbind option_bind]. unfold is_u8 in Hn.
  replace (0 <? 0) with false by lia. replace ((n <? 0) || (255 <? n))%bool with false by lia.
  rewrite app_assoc, store8_mid. cbn [mbind option_bind].
  replace (blen (pre ++ fmt_d n ++ [46])) with (blen (pre ++ fmt_d n) + 1)
    by (rewrite !blen_app; change (blen [46]) with 1; lia).
  rewrite Z.shiftl_mul_pow2 by lia. f_equal. change (2 ^ 8) with 256. ints.
Qed.

(** The last field, after the loop. *)
Lemma strtoip_done fuel ip head tail str : strtoip_loop fuel 3 ip head tail str = Some (0, ip, head, str).
Proof. by destruct fuel. Qed.

Lemma ip_octets ip : is_u32 ip →
  let a := Z.land (Z.shiftr ip 24) 255 in let b := Z.land (Z.shiftr ip 16) 255 in
  let c := Z.land (Z.shiftr ip 8) 255 in let d := Z.land (Z.shiftr ip 0) 255 in
  is_u8 a ∧ is_u8 b ∧ is_u8 c ∧ is_u8 d ∧ ip = 256 * (256 * (256 * a + b) + c) + d.
Proof.
  intros Hip. change 255 with (Z.ones 8). cbv zeta. rewrite !Z.land_ones, !Z.shiftr_div_pow2 by lia.
  change (2 ^ 0) with 1. change (2 ^ 8) with 256. change (2 ^ 16) with 65536.
  change (2 ^ 24) with 16777216. unfold is_u32, is_u8 in *.
  repeat split; dlia.
Qed.

(** [strtoip] parses every address [iptostr] prints back to the address,
    whatever follows the string, leaves the buffer as it was and reports an
    error for the zero address only. *)
Theorem strtoip_iptostr ip rest : is_u32 ip →
  strtoip (iptostr ip ++ rest) =
    Some (if ip =? 0 then -1 else 0, Some ip, iptostr ip ++ rest).
Proof.
  intros Hip. destruct (ip_octets ip Hip) as (Ha & Hb & Hc & Hd & Heq).
  unfold iptostr. revert Ha Hb Hc Hd Heq.
  generalize (Z.land (Z.shiftr ip 24) 255) (Z.land (Z.shiftr ip 16) 255)
    (Z.land (Z.shiftr ip 8) 255) (Z.land (Z.shiftr ip 0) 255). intros a b c d Ha Hb Hc Hd Heq.
  rewrite <- !app_assoc. cbn [app].
  set (sd := fmt_d d ++ 0 :: rest).
  set (str := fmt_d a ++ 46 :: fmt_d b ++ 46 :: fmt_d c ++ 46 :: sd).
  assert (∃ k, S (length str) = length (fmt_d a) + S (length (fmt_d b) + S (length (fmt_d c) + S k)))%nat
    as [k Hk].
  { exists (S (length sd)). unfold str. repeat (rewrite length_app; cbn [length]). lia. }
  unfold is_u8 in *.
  set (p1 := fmt_d a ++ [46]). set (p2 := p1 ++ fmt_d b ++ [46]). set (p3 := p2 ++ fmt_d c ++ [46]).
  assert (str = p1 ++ fmt_d b ++ 46 :: fmt_d c ++ 46 :: sd) as H1 by (unfold p1; by rewrite <- !app_assoc).
  assert (str = p2 ++ fmt_d c ++ 46 :: sd) as H2 by (unfold p2; rewrite H1; by rewrite <- !app_assoc).
  assert (str = p3 ++ sd) as H3 by (unfold p3; rewrite H2; by rewrite <- !app_assoc).
  assert (strtoip_loop (S (length str)) 0 0 0 0 str =
    Some (0, 256 * (256 * (256 * 0 + a) + b) + c, blen p3, str)) as Hloop.
  { rewrite Hk. etransitivity; [apply (strtoip_field a _ 0 0 []); unfold is_u8; lia|].
    change (strtoip_loop (length (fmt_d b) + S (length (fmt_d c) + S k)) 1 (256 * 0 + a)
      (blen p1) (blen p1) str = Some (0, 256 * (256 * (256 * 0 + a) + b) + c, blen p3, str)).
    clearbody str. rewrite H1 at 1. rewrite strtoip_field by (unfold is_u8; lia).
    fold p2. rewrite <- H1, H2 at 1. rewrite strtoip_field by (unfold is_u8; lia).
    fold p3. rewrite <- H2. apply strtoip_done. }
  unfold strtoip. rewrite Hloop. cbn [mbind option_bind].
  change (0 <? 0) with false. cbv iota. rewrite H3 at 1. rewrite drop_blen. unfold sd at 1.
  rewrite strtodec_fmt_d by (unfold is_u8; lia). cbn [mbind option_bind].
  change (0 <? 0) with false. replace ((d <? 0) || (255 <? d))%bool with false by lia. cbv iota.
  rewrite Z.shiftl_mul_pow2 by lia. change (2 ^ 8) with 256.
  assert (u32 (u32 ((256 * (256 * (256 * 0 + a) + b) + c) * 256) + d) = ip) as -> by ints.
  reflexivity.
Qed.

(** 192.168.1.1 *)
Lemma strtoip_iptostr_witness :
  strtoip (iptostr 3232235777 ++ [88]) = Some (0, Some 3232235777, iptostr 3232235777 ++ [88]).
Proof. apply (strtoip_iptostr 3232235777 [88]). unfold is_u32. lia. Defined.

(** ** Hexadecimal *)

Lemma fmt_02x_parse n : is_u8 n → ∃ h l, fmt_02x n = [hexchar h; hexchar l] ∧
  atohex (hexchar h) = h ∧ atohex (hexchar l) = l ∧ 0 <= h < 16 ∧ 0 <= l < 16 ∧
  u8 (Z.lor (Z.land (Z.shiftl h 4) 240) (Z.land l 15)) = n.
Proof.
  intros Hn. assert (0 <= n / 16 < 16 ∧ 0 <= n mod 16 < 16) as [Hh Hl]
    by (unfold is_u8 in Hn; dlia).
  exists (n / 16), (n mod 16). split; [done|].
  assert (∀ x, 0 <= x < 16 → atohex (hexchar x) = x) as Hx.
  { intros x Hx. unfold hexchar. case_if; unfold atohex.
    - replace ((48 <=? 48 + x) && (48 + x <=? 57))%bool with true by lia. lia.
    - replace ((48 <=? 97 + (x - 10)) && (97 + (x - 10) <=? 57))%bool with false by lia.
      replace ((97 <=? 97 + (x - 10)) && (97 + (x - 10) <=? 102))%bool with true by lia. lia. }
  do 2 (split; [by apply Hx|]). do 2 (split; [done|]). clear Hx Hh Hl.
  revert n Hn. apply u8_forall. repeat constructor.
Qed.

(** [strtohexarray] reads back every byte string that [mactostr] prints. *)
Theorem strtohexarray_mactostr mac : bytes_ok mac →
  strtohexarray (length mac) (mactostr mac) [] = Some (0, mac).
Proof.
  intros Hm. unfold mactostr.
  assert (∀ acc, strtohexarray (length mac) ((mac ≫= fmt_02x) ++ [0]) acc = Some (0, acc ++ mac))
    as H; [|apply H].
  induction mac as [|b mac IH]; intros acc; [by rewrite app_nil_r|].
  inversion Hm; subst.
  destruct (fmt_02x_parse b) as (h & l & Hf & Ah & Al & Hh & Hl & Hb); [done|].
  simpl length. rewrite bind_cons, Hf. cbn [app strtohexarray]. rewrite Ah, Al.
  replace (h <? 0) with false by lia. replace (l <? 0) with false by lia.
  rewrite Hb, IH by done. by rewrite <- app_assoc.
Qed.

Lemma strtohexarray_mactostr_witness :
  strtohexarray 6 (mactostr [0; 37; 8; 9; 1; 15]) [] = Some (0, [0; 37; 8; 9; 1; 15]).
Proof.
  apply (strtohexarray_mactostr [0; 37; 8; 9; 1; 15]).
  repeat constructor; unfold is_u8; lia.
Defined.


(** The value of a string of hexadecimal digits. *)
Definition hexval (ds : list Z) : Z := foldl (λ v c, 16 * v + atohex c) 0 ds.

Lemma atohex_digit c : atohex c = hex_to_digit c.
Proof. unfold atohex, hex_to_digit. repeat case_if; lia. Qed.
Lemma atohex_range c : 0 <= atohex c → 0 <= atohex c < 16 ∧ c ≠ 0.
Proof. unfold atohex. repeat case_if; lia. Qed.

Lemma hexval_range ds v : Forall (λ c, 0 <= atohex c) ds → 0 <= v →
  v * 16 ^ Z.of_nat (length ds) <= foldl (λ v c, 16 * v + atohex c) v ds
    < (v + 1) * 16 ^ Z.of_nat (length ds).
Proof.
  intros Hds. revert v. induction Hds as [|c ds Hc Hds IH]; intros v Hv; cbn [foldl length].
  { change (16 ^ Z.of_nat 0) with 1. lia. }
  apply atohex_range in Hc as [Hc _]. specialize (IH (16 * v + atohex c) ltac:(lia)).
  rewrite Nat2Z.inj_succ, Z.pow_succ_r by lia. nia.
Qed.

(** The step both parsers take. *)
Lemma hex_step d c : 0 <= d < 268435456 → 0 <= atohex c →
  u32 (u32 (Z.shiftl d 4) + atohex c) = 16 * d + atohex c ∧
  Z.lor (u8 (atohex c)) (u32 (Z.shiftl d 4)) = 16 * d + atohex c.
Proof.
  intros Hd Hc. apply atohex_range in Hc as [Hc _].
  rewrite Z.shiftl_mul_pow2 by lia. change (2 ^ 4) with 16.
  rewrite (u8_id (atohex c)), (u32_id (d * 16)) by (unfold is_u8, is_u32; lia).
  split; [unfold_ints; rewrite Z.mod_small by lia; lia|].
  rewrite (Z.lor_comm (atohex c)), (Z.mul_comm d), <- Z.add_lor_land.
  assert (Z.land (16 * d) (atohex c) = 0) as ->; [|lia].
  apply Z.bits_inj'. intros k Hk. rewrite Z.land_spec, Z.bits_0.
  rewrite Z.mul_comm. change 16 with (2 ^ 4). destruct (Z.lt_ge_cases k 4).
  - by rewrite Z.mul_pow2_bits_low by lia.
  - rewrite <- (Z.mod_small (atohex c) (2 ^ 4)) by (change (2 ^ 4) with 16; lia).
    rewrite Z.mod_pow2_bits_high by lia. apply andb_false_r.
Qed.

Lemma pow16_bound n : (n < 8)%nat → 16 ^ Z.of_nat n * 16 <= 16 ^ 8.
Proof.
  intros H. rewrite <- (Z.pow_add_r 16 _ 1) by lia. apply Z.pow_le_mono_r; lia.
Qed.

Lemma strtohex_loop_digits ds rest : ∀ n i dd k,
  Forall (λ c, 0 <= atohex c) ds → 0 <= n → i = Z.of_nat k →
  (k + length ds ≤ 8)%nat → 0 <= dd < 16 ^ Z.of_nat k →
  strtohex_loop (ds ++ 0 :: rest) n i dd =
    Some (0, Some (foldl (λ v c, 16 * v + atohex c) dd ds)).
Proof.
  induction ds as [|c ds IH]; intros n i dd k Hds Hn Hi Hk Hdd; cbn [app foldl].
  { simpl. by replace (n <? 0) with false by lia. }
  inversion Hds; subst. destruct (atohex_range c) as [Hc Hc0]; [done|].
  simpl in Hk. pose proof (pow16_bound k ltac:(lia)) as Hb. change (16 ^ 8) with 4294967296 in Hb.
  assert (strtohex_loop (c :: ds ++ 0 :: rest) n (Z.of_nat k) dd =
    strtohex_loop (ds ++ 0 :: rest) (atohex c) (Z.of_nat k + 1) (16 * dd + atohex c)) as ->.
  { cbn [strtohex_loop]. replace (8 <? Z.of_nat k + 1) with false by lia.
    replace (atohex c <? 0) with false by lia.
    rewrite (proj1 (hex_step dd c ltac:(lia) ltac:(lia))). by destruct c. }
  apply (IH _ _ _ (S k)); [done|lia|lia|lia|].
  rewrite Nat2Z.inj_succ, Z.pow_succ_r by lia. nia.
Qed.

Lemma strtohex_loop_long ds rest : ∀ n i dd, 0 <= i <= 8 → 8 < i + blen ds →
  Forall (λ c, 0 <= atohex c) ds → strtohex_loop (ds ++ rest) n i dd = Some (-1, None).
Proof.
  unfold blen. induction ds as [|c ds IH]; intros n i dd Hi Hl Hds; simpl in Hl; [lia|].
  inversion Hds; subst. destruct (atohex_range c) as [Hc Hc0]; [done|].
  cbn [app strtohex_loop]. replace (atohex c <? 0) with false by lia.
  destruct (Z.ltb_spec 8 (i + 1)); [by destruct c|].
  rewrite IH by (done || lia). by destruct c.
Qed.

Lemma hexstr_loop_digits ds rest : ∀ dd k,
  Forall (λ c, 0 <= atohex c) ds → (k + length ds ≤ 8)%nat → 0 <= dd < 16 ^ Z.of_nat k →
  hexstr_loop (ds ++ rest) (length ds) dd = Some (0, foldl (λ v c, 16 * v + atohex c) dd ds).
Proof.
  induction ds as [|c ds IH]; intros dd k Hds Hk Hdd; [done|].
  inversion Hds; subst. destruct (atohex_range c) as [Hc _]; [done|].
  simpl in Hk. pose proof (pow16_bound k ltac:(lia)) as Hb. change (16 ^ 8) with 4294967296 in Hb.
  cbn [app length hexstr_loop foldl]. rewrite <- atohex_digit.
  replace (atohex c <? 0) with false by lia.
  rewrite (proj2 (hex_step dd c ltac:(lia) ltac:(lia))).
  apply (IH _ (S k)); [done|lia|].
  rewrite Nat2Z.inj_succ, Z.pow_succ_r by lia. nia.
Qed.

Lemma strlen_app ds rest : Forall (λ c, c ≠ 0) ds → strlen (ds ++ 0 :: rest) = Some (blen ds).
Proof.
  unfold blen. induction 1 as [|c ds Hc Hds IH]; [done|].
  cbn [app strlen length]. rewrite IH. cbn [mbind option_bind].
  rewrite Nat2Z.inj_succ. destruct c; [done|f_equal; lia..].
Qed.

(** On every string of hexadecimal digits, [strtohex] and [hexstr_to_unit]
    agree: up to eight digits give the value, which never wraps, and nine or
    more are refused (the empty string is an error for [strtohex] only). *)
Theorem hex_parsers_agree ds rest : Forall (λ c, 0 <= atohex c) ds →
  let str := ds ++ 0 :: rest in
  if 8 <? blen ds then strtohex str = Some (-1, None) ∧ hexstr_to_unit str = Some (-1, 0)
  else is_u32 (hexval ds) ∧ hexstr_to_unit str = Some (0, hexval ds)
       ∧ strtohex str = Some (if blen ds =? 0 then -1 else 0, Some (hexval ds)).
Proof.
  intros Hds str. assert (strlen str = Some (blen ds)) as Hlen.
  { apply strlen_app. eapply List.Forall_impl; [|exact Hds]. intros c Hc. by apply atohex_range. }
  unfold hexstr_to_unit. rewrite Hlen. cbn [mbind option_bind].
  destruct (Z.ltb_spec 8 (blen ds)).
  - split; [|done]. apply strtohex_loop_long; [lia|lia|done].
  - unfold blen in *. rewrite Nat2Z.id. split; [|split].
    + unfold hexval, is_u32. pose proof (hexval_range ds 0 Hds ltac:(lia)).
      assert (16 ^ Z.of_nat (length ds) <= 16 ^ 8) by (apply Z.pow_le_mono_r; lia).
      change (16 ^ 8) with 4294967296 in *. lia.
    + apply (hexstr_loop_digits ds (0 :: rest) 0 0); [done|lia|lia].
    + unfold strtohex, str. destruct ds as [|c ds]; [done|].
      inversion Hds; subst. destruct (atohex_range c) as [Hc Hc0]; [done|].
      assert (strtohex_loop ((c :: ds) ++ 0 :: rest) (-1) 0 0 =
        strtohex_loop ((c :: ds) ++ 0 :: rest) 0 0 0) as -> by (simpl; by destruct c).
      by rewrite (strtohex_loop_digits (c :: ds) rest 0 0 0 0) by (done || simpl in *; lia).
Qed.

(** "fFfFfFfF" *)
Lemma hex_parsers_agree_witness :
  strtohex [102;70;102;70;102;70;102;70;0] = Some (0, Some 4294967295).
Proof.
  destruct (hex_parsers_agree [102;70;102;70;102;70;102;70] []) as (_ & _ & H).
  - repeat constructor; vm_compute; discriminate.
  - exact H.
Defined.

(** ** Decimal numbers are read back *)

Definition dec_value (ds : list Z) : Z := foldl (λ v c, v * 10 + (c - 48)) 0 ds.
Definition is_digit (c : Z) : Prop := 48 <= c <= 57.

Lemma dec_digits_spec fuel : ∀ n acc, 0 <= n < 10 ^ Z.of_nat fuel → (0 < fuel)%nat →
  ∃ ds, dec_digits fuel n acc = ds ++ acc ∧ Forall is_digit ds ∧ ds ≠ [] ∧ (length ds <= fuel)%nat ∧ dec_value ds = n.
Proof.
  induction fuel as [|fuel IH]; intros n acc Hn Hf; [lia|]. cbn [dec_digits].
  assert (is_digit (48 + n mod 10)) as Hd by (unfold is_digit; pose proof (Z.mod_pos_bound n 10 ltac:(lia)); lia).
  destruct (Z.ltb_spec n 10).
  - exists [48 + n mod 10]. split; [done|]. split; [by constructor|]. split; [done|]. split; [cbn; lia|].
    unfold dec_value. cbn [foldl]. rewrite Z.mod_small by lia. lia.
  - rewrite Nat2Z.inj_succ, Z.pow_succ_r in Hn by lia.
    assert (0 <= n / 10 < 10 ^ Z.of_nat fuel) as Hdiv by (split; [apply Z.div_pos; lia|apply Z.div_lt_upper_bound; lia]).
    destruct fuel as [|fuel]; [change (10 ^ Z.of_nat 0) with 1 in Hn; lia|].
    destruct (IH (n / 10) (48 + n mod 10 :: acc)) as (ds & -> & Hds & Hne & Hlen & Hv); [done|lia|].
    exists (ds ++ [48 + n mod 10]). split; [by rewrite <- app_assoc|]. split; [apply Forall_app; split; [done|by constructor]|].
    split; [by destruct ds|]. split; [rewrite length_app; cbn [length]; lia|].
    unfold dec_value in *. rewrite foldl_app, Hv. cbn [foldl]. pose proof (Z.div_mod n 10). lia.
Qed.
Lemma fmt_u_spec n : 0 <= n < 10 ^ 10 →
  Forall is_digit (fmt_u n) ∧ fmt_u n ≠ [] ∧ (length (fmt_u n) <= 10)%nat ∧ dec_value (fmt_u n) = n.
Proof.
  intros Hn. destruct (dec_digits_spec 10 n []) as (ds & Hds & Hd & Hne & Hlen & Hv); [exact Hn|lia|].
  rewrite app_nil_r in Hds. unfold fmt_u. by rewrite Hds.
Qed.
Lemma isdigit_iff c : is_u8 c → isdigit c = true ↔ is_digit c.
Proof. intros Hc. unfold isdigit, in_range, is_digit. rewrite u8_id by done. lia. Qed.
Lemma is_digit_isdigit c : is_digit c → isdigit c = true.
Proof. intros Hc. apply isdigit_iff; [|done]. unfold is_digit, is_u8 in *. lia. Qed.

Lemma string_to_uint_fmt_u n rest : 0 <= n < 2 ^ 31 → string_to_uint (fmt_u n ++ 0 :: rest) = Some (0, Some n).
Proof.
  intros Hn. change (2 ^ 31) with 2147483648 in Hn.
  destruct (fmt_u_spec n) as (Hd & Hne & Hlen & Hv); [change (10 ^ 10) with 10000000000; lia|].
  unfold string_to_uint. rewrite strlen_app by (eapply List.Forall_impl; [|exact Hd]; unfold is_digit; intros; lia).
  cbn [mbind option_bind]. assert (0 < blen (fmt_u n)) by (destruct (fmt_u n); [done|unfold blen; cbn [length]; lia]).
  replace ((11 <? blen (fmt_u n)) || (blen (fmt_u n) =? 0)) with false by (unfold blen in *; lia).
  unfold blen. rewrite Nat2Z.id, take_app_length. replace (forallb isdigit (fmt_u n)) with true.
  2:{ symmetry. apply forallb_forall. intros c Hc. apply is_digit_isdigit. rewrite List.Forall_forall in Hd. by apply Hd. }
  unfold atoi_digits. fold (dec_value (fmt_u n)). rewrite Hv. replace (n <? 2147483648) with true by lia. cbn [mbind option_bind].
  by rewrite u32_id by (unfold is_u32; lia).
Qed.

Lemma take_digits_app ds : ∀ seen v c rest, Forall is_digit ds → isdigit c = false →
  take_digits (ds ++ c :: rest) seen v =
    Some (if seen || negb (bool_decide (ds = [])) then Some (foldl (λ v c, v * 10 + (c - 48)) v ds, c :: rest) else None).
Proof.
  induction ds as [|d ds IH]; intros seen v c rest Hds Hc; cbn [take_digits app foldl].
  - rewrite Hc. by rewrite bool_decide_eq_true_2, orb_false_r by done.
  - apply Forall_cons_1 in Hds as [Hd Hds]. rewrite is_digit_isdigit, IH by done.
    rewrite orb_true_l, bool_decide_eq_false_2, orb_true_r by done. done.
Qed.
Lemma scan_u_fmt_u n c rest : 0 <= n < 2 ^ 32 → isdigit c = false →
  scan_u (fmt_u n ++ c :: rest) = Some (Some (n, c :: rest)).
Proof.
  intros Hn Hc. change (2 ^ 32) with 4294967296 in Hn.
  destruct (fmt_u_spec n) as (Hd & Hne & Hlen & Hv); [change (10 ^ 10) with 10000000000; lia|].
  unfold scan_u. destruct (fmt_u n) as [|x ds] eqn:Hx; [done|]. pose proof Hd as [Hx0 _]%Forall_cons_1.
  assert (isspace x = false) as Hs.
  { unfold isspace, in_range, is_digit in *. rewrite u8_id by (unfold is_u8; lia). lia. }
  cbn [app skip_space]. rewrite Hs. cbn [mbind option_bind].
  assert (∀ y l, byte_at (y :: l) 0 = Some y) as -> by done. cbn [mbind option_bind]. unfold is_digit in Hx0. replace (x =? 45) with false by lia. replace (x =? 43) with false by lia.
  cbn iota beta. rewrite (app_comm_cons ds), take_digits_app by done. cbn [mbind option_bind].
  rewrite bool_decide_eq_false_2 by done. cbn [orb negb]. unfold dec_value in Hv. rewrite Hv.
  change (2 ^ 32) with 4294967296. replace (n <? 4294967296) with true by lia. by rewrite u32_id by (unfold is_u32; lia).
Qed.

(** A dotted address. *)
Definition fmt_ip (ip : list Z) : list Z :=
  match ip with [a; b; c; d] => fmt_u a ++ 46 :: fmt_u b ++ 46 :: fmt_u c ++ 46 :: fmt_u d | _ => [] end.
Lemma string_to_ipaddr_fmt_ip a b c d rest : is_u8 a → is_u8 b → is_u8 c → is_u8 d →
  string_to_ipaddr (fmt_ip [a; b; c; d] ++ 0 :: rest) = Some (Some [a; b; c; d]).
Proof.
  intros Ha Hb Hc Hd. unfold is_u8 in *. unfold string_to_ipaddr, fmt_ip.
  rewrite <- !app_assoc, <- !app_comm_cons, <- !app_assoc, <- !app_comm_cons, <- !app_assoc, <- !app_comm_cons.
  cbn [scan_dotted]. rewrite scan_u_fmt_u by (try done; change (2 ^ 32) with 4294967296; lia). cbn [mbind option_bind].
  assert (∀ l, byte_at (46 :: l) 0 = Some 46) as H46 by done. rewrite H46. cbn [mbind option_bind tail].
  replace (46 =? 46) with true by done. rewrite scan_u_fmt_u by (try done; change (2 ^ 32) with 4294967296; lia).
  cbn [mbind option_bind]. rewrite H46. cbn [mbind option_bind tail]. replace (46 =? 46) with true by done.
  rewrite scan_u_fmt_u by (try done; change (2 ^ 32) with 4294967296; lia). cbn [mbind option_bind]. rewrite H46.
  cbn [mbind option_bind tail]. replace (46 =? 46) with true by done.
  rewrite scan_u_fmt_u by (try done; change (2 ^ 32) with 4294967296; lia). cbn [mbind option_bind].
  assert (∀ l, byte_at (0 :: l) 0 = Some 0) as -> by done. cbn [mbind option_bind].
  replace (negb (0 =? 0) && negb (0 =? 10)) with false by done. cbn [existsb fmap list_fmap].
  rewrite !s32_id by (unfold is_s32; lia). replace (_ || _) with false by lia. by rewrite !u8_id by (unfold is_u8; lia).
Qed.
