(* ===== verification/FlashStore.v ===== *)
(** * The flash as its clients see it

    The parameter store and the firmware update call [tls_fls_read],
    [tls_fls_write] and [tls_fls_erase] and rely on nothing else of the flash
    drivers.  [FlashDev] is that interface and [FlashDevOk] what it promises;
    file [InternalFlash] discharges the promise for the internal flash. *)
From S2P Require Import Prelude.

(** The three operations: addresses are absolute, a read returns the status
    and the caller's buffer, an erase takes a sector number. *)
Class FlashDev (F : Type) := {
  fls_read : Z → list Z → Z → M F (Z * list Z);
  fls_write : Z → list Z → Z → M F Z;
  fls_erase : Z → M F Z;
}.

(** Inside the area [[fd_lo, fd_hi)] a request of at least one byte succeeds;
    a write changes the bytes of its range and no other, an erase sets one
    sector to 0xFF; a write of no bytes is refused with
    [TLS_FLS_STATUS_EINVAL]. *)
Class FlashDevOk (F : Type) `{!FlashDev F} := {
  fd_ok : F → Prop;
  fd_mem : F → Z → Z;
  fd_lo : Z;
  fd_hi : Z;
  fd_lo_pos : 0 <= fd_lo;
  fd_hi_u32 : fd_hi < 0x100000000;
  fd_mem_u8 f a : is_u8 (fd_mem f a);
  fls_read_ok a buf n f : fd_ok f → fd_lo <= a → a + n <= fd_hi → 0 < n <= blen buf →
    wp (fls_read a buf n) (λ r f', r = (0, splice buf 0 (fd_mem f <$> seqZ a n)) ∧
      fd_ok f' ∧ ∀ x, fd_lo <= x < fd_hi → fd_mem f' x = fd_mem f x) f;
  fls_write_ok a buf n f : fd_ok f → fd_lo <= a → a + n <= fd_hi → 0 < n <= blen buf →
    bytes_ok buf →
    wp (fls_write a buf n) (λ r f', r = 0 ∧ fd_ok f' ∧
      ∀ x, fd_lo <= x < fd_hi → fd_mem f' x =
        if (a <=? x) && (x <? a + n) then default 0 (byte_at buf (x - a)) else fd_mem f x) f;
  fls_write_empty a buf f : fd_ok f → fd_lo <= a < fd_hi → fls_write a buf 0 f = Some (1, f);
  fls_erase_ok sec f : fd_ok f → fd_lo <= sec * 4096 → sec * 4096 + 4096 <= fd_hi →
    wp (fls_erase sec) (λ r f', r = 0 ∧ fd_ok f' ∧
      ∀ x, fd_lo <= x < fd_hi →
        fd_mem f' x = if x / 4096 =? sec then 255 else fd_mem f x) f;
}.

Section store.
Context {F : Type} `{FlashDevOk F}.

(** The bytes from the address [a]. *)
Definition fd_bytes (f : F) (a n : Z) : list Z := fd_mem f <$> seqZ a n.

Lemma bytes_ok_fd f a n : bytes_ok (fd_bytes f a n).
Proof. apply bytes_ok_fmap. apply fd_mem_u8. Qed.
Lemma blen_fd f a n : 0 <= n → blen (fd_bytes f a n) = n.
Proof. apply blen_fmap_seqZ. Qed.

(** A list of bytes is what the flash holds when it is byte by byte. *)
Lemma fd_bytes_eq f a l : (∀ i, 0 <= i < blen l → byte_at l i = Some (fd_mem f (a + i))) →
  fd_bytes f a (blen l) = l.
Proof.
  intros Hl. apply byte_at_ext; [apply blen_fd, blen_nonneg|].
  intros i Hi. rewrite blen_fd in Hi by apply blen_nonneg.
  unfold fd_bytes. by rewrite byte_at_fmap_seqZ, Hl.
Qed.
Lemma fd_bytes_ext f f' a n : (∀ x, a <= x < a + n → fd_mem f' x = fd_mem f x) →
  fd_bytes f' a n = fd_bytes f a n.
Proof.
  intros Hm. apply list_fmap_ext. intros i x Hx. apply Hm.
  apply lookup_seqZ in Hx. lia.
Qed.
End store.

(** ** Sequences of requests against an array of bytes *)

Inductive fls_op :=
  | OpRead (addr len : Z)
  | OpWrite (addr : Z) (data : list Z)
  | OpErase (sector : Z).

Definition upd_bytes (m : Z → Z) (a : Z) (data : list Z) : Z → Z := λ x,
  if (a <=? x) && (x <? a + blen data) then default 0 (byte_at data (x - a)) else m x.

(** The array: what a request answers and what it leaves. *)
Definition spec_op (op : fls_op) (m : Z → Z) : list Z * (Z → Z) :=
  match op with
  | OpRead a n => (m <$> seqZ a n, m)
  | OpWrite a data => ([], upd_bytes m a data)
  | OpErase sec => ([], λ x, if x / 4096 =? sec then 255 else m x)
  end.
Fixpoint spec_ops (ops : list fls_op) (m : Z → Z) : list (list Z) * (Z → Z) :=
  match ops with
  | [] => ([], m)
  | op :: ops' =>
      let (out, m1) := spec_op op m in
      let (outs, m2) := spec_ops ops' m1 in (out :: outs, m2)
  end.

(** Requests one after the other, whoever answers them; a server that
    represents the array after every request does so after a sequence. *)
Section run_all.
Context {S : Type} (answer : fls_op → M S (Z * list Z)).
Local Open Scope c_scope.

Fixpoint run_all (ops : list fls_op) : M S (list (Z * list Z)) :=
  match ops with
  | [] => ret []
  | op :: ops' => let* r := answer op in let* rs := run_all ops' in ret (r :: rs)
  end.

Lemma run_all_ok (valid : fls_op → Prop) (rel : S → (Z → Z) → Prop) :
  (∀ op s m, rel s m → valid op →
     wp (answer op) (λ r s', r = (0, (spec_op op m).1) ∧ rel s' (spec_op op m).2) s) →
  ∀ ops s m, rel s m → Forall valid ops →
    wp (run_all ops) (λ rs s', rs = (λ out, (0, out)) <$> (spec_ops ops m).1 ∧ rel s' (spec_ops ops m).2) s.
Proof.
  intros Hop ops. induction ops as [|op ops IH]; intros s m Hs Hv; [done|]. inversion Hv; subst.
  cbn [run_all spec_ops]. eapply wp_seq; [by apply Hop|].
  intros r s1 (-> & Hs1). destruct (spec_op op m) as [out m1]. cbn [fst snd] in *.
  eapply wp_seq; [by apply IH|]. intros rs s2 (-> & Hs2).
  destruct (spec_ops ops m1) as [outs m2]. by apply wp_ret.
Qed.
End run_all.

Section requests.
Context {F : Type} `{FlashDevOk F}.
Local Open Scope c_scope.

Definition valid_op (op : fls_op) : Prop :=
  match op with
  | OpRead a n => fd_lo <= a ∧ a + n <= fd_hi ∧ 0 < n
  | OpWrite a data => fd_lo <= a ∧ a + blen data <= fd_hi ∧ 0 < blen data ∧ bytes_ok data
  | OpErase sec => fd_lo <= sec * 4096 ∧ sec * 4096 + 4096 <= fd_hi
  end.
(** The device's answer: the status and the bytes read. *)
Definition run_op (op : fls_op) : M F (Z * list Z) :=
  match op with
  | OpRead a n => fls_read a (replicate (Z.to_nat n) 0) n
  | OpWrite a data => let* r := fls_write a data (blen data) in ret (r, [])
  | OpErase sec => let* r := fls_erase sec in ret (r, [])
  end.
Definition run_ops : list fls_op → M F (list (Z * list Z)) := run_all run_op.

Definition agrees (f : F) (m : Z → Z) : Prop := ∀ x, fd_lo <= x < fd_hi → fd_mem f x = m x.

Lemma run_op_ok op f m : fd_ok f → valid_op op → agrees f m →
  wp (run_op op) (λ r f', r = (0, (spec_op op m).1) ∧ fd_ok f' ∧ agrees f' (spec_op op m).2) f.
Proof.
  intros Hf Hv Hm. destruct op as [a n|a data|sec]; cbn [run_op spec_op valid_op fst snd] in *.
  - destruct Hv as (Hlo & Hhi & Hn).
    assert (blen (replicate (Z.to_nat n) 0) = n) as Hl by (rewrite blen_replicate; lia).
    eapply wp_mono; [apply fls_read_ok; rewrite ?Hl; lia || done|].
    intros r f' (-> & Hf' & Hm'). split.
    + rewrite splice_all by (rewrite blen_fmap_seqZ; lia). f_equal. apply list_fmap_ext.
      intros i x Hx. apply Hm. apply lookup_seqZ in Hx. lia.
    + split; [done|]. intros x Hx. rewrite Hm' by done. by apply Hm.
  - destruct Hv as (Hlo & Hhi & Hn & Hok).
    eapply wp_seq; [apply fls_write_ok; done || lia|]. intros r f' (-> & Hf' & Hm').
    apply wp_ret. split; [done|]. split; [done|]. intros x Hx. rewrite Hm' by done.
    unfold upd_bytes. case_if; [done|]. by apply Hm.
  - destruct Hv as [Hlo Hhi]. eapply wp_seq; [by apply fls_erase_ok|].
    intros r f' (-> & Hf' & Hm'). apply wp_ret. split; [done|]. split; [done|].
    intros x Hx. rewrite Hm' by done. case_if; [done|]. by apply Hm.
Qed.

Lemma run_ops_ok ops f m : fd_ok f → Forall valid_op ops → agrees f m →
  wp (run_ops ops) (λ rs f', rs = (λ out, (0, out)) <$> (spec_ops ops m).1 ∧
    fd_ok f' ∧ agrees f' (spec_ops ops m).2) f.
Proof.
  intros Hf Hv Hm. apply (run_all_ok run_op valid_op (λ f m, fd_ok f ∧ agrees f m)); [|done|done].
  intros op g m' [Hg Hm'] Hop. by apply run_op_ok.
Qed.
End requests.

(** ** A device

    An array of bytes that never fails: the interface can be met, and its
    clients can be run. *)
Definition array : Type := Z → Z.

#[export] Instance array_dev : FlashDev array := {
  fls_read a buf n := λ m, Some ((0, splice buf 0 ((λ x, u8 (m x)) <$> seqZ a n)), m);
  fls_write a buf n := λ m, if n =? 0 then Some (1, m) else Some (0, λ x,
    if (a <=? x) && (x <? a + n) then default 0 (byte_at buf (x - a)) else m x);
  fls_erase sec := λ m, Some (0, λ x, if x / 4096 =? sec then 255 else m x);
}.
#[export] Program Instance array_dev_ok : FlashDevOk array := {
  fd_ok m := True;
  fd_mem m x := u8 (m x);
  fd_lo := 0x8000000;
  fd_hi := 0x8200000;
}.
Next Obligation. done. Qed.
Next Obligation. done. Qed.
Next Obligation. intros. apply u8_range. Qed.
Next Obligation. intros a buf n m _ _ _ _. done. Qed.
Next Obligation.
  intros a buf n m _ Ha Hn Hl Hok. unfold wp. cbn [fls_write array_dev].
  rewrite (proj2 (Z.eqb_neq n 0)) by lia. split; [done|]. split; [done|]. intros x Hx.
  case_if; [|done]. destruct (byte_at_is_Some buf (x - a)) as [v Hv]; [lia|].
  rewrite Hv. eapply u8_id, byte_at_ok; done.
Qed.
Next Obligation. done. Qed.
Next Obligation. intros sec m _ _ _. split; [done|]. split; [done|]. intros x Hx. by case_if. Qed.
