(* ===== verification/InternalFlash.v ===== *)
(** * [src/Platform/Drivers/internalflash/wm_internal_fls.c]: the internal flash

    The driver of the flash inside the chip: the commands it sends through the
    flash controller's registers, the byte-granular read, write and erase
    operations over the two flashes, the write cache and the initialisation.
    The controller is the class [FlashBus] of its register accesses with the
    laws of the commands the driver sends, the second (SPI) flash the class
    [SpiFls]. *)
From S2P Require Import Prelude FlashStore.

(** ** Constants of [wm_internal_flash.h], [wm_flash.h], [wm_flash_map.h] *)

Definition TLS_FLS_STATUS_OK := 0.
Definition TLS_FLS_STATUS_EINVAL := 1.
Definition TLS_FLS_STATUS_EBUSY := 2.
Definition TLS_FLS_STATUS_EPERM := 3.
Definition TLS_FLS_STATUS_ENOSUPPORT := 4.
Definition TLS_FLS_STATUS_EEXIST := 5.
Definition TLS_FLS_STATUS_ENOMEM := 6.
Definition TLS_FLS_STATUS_EIO := 10.
Definition TLS_FLS_STATUS_ENODRV := 11.

Definition TLS_FLS_PARAM_TYPE_ID := 0.
Definition TLS_FLS_PARAM_TYPE_SIZE := 1.
Definition TLS_FLS_PARAM_TYPE_PAGE_SIZE := 2.
Definition TLS_FLS_PARAM_TYPE_PROG_SIZE := 3.
Definition TLS_FLS_PARAM_TYPE_SECTOR_SIZE := 4.

Definition INSIDE_FLS_SECTOR_SIZE := 4096.
Definition INSIDE_FLS_PAGE_SIZE := 256.
Definition INSIDE_FLS_BASE_ADDR := 0x8000000.
Definition INSIDE_FLS_SECBOOT_ADDR := INSIDE_FLS_BASE_ADDR + 0x02000.
Definition FLASH_BASE_ADDR := 0x8000000.
Definition FLASH_1M_END_ADDR := 0x8100000.

Definition SPIFLASH_MID_GD := 0xC8.
Definition SPIFLASH_MID_ESMT := 0x1C.
Definition SPIFLASH_MID_PUYA := 0x85.

(** The registers of the flash controller. *)
Definition FLS_CMD := 0x40002000.
Definition FLS_GO := 0x40002004.
Definition FLS_WIN := 0x40002200.

(** ** The flash controller *)

(** [M32(adr) = v] and [M32(adr)]. *)
Class FlashBus (B : Type) := {
  bus_wr : Z → Z → B → B;
  bus_rd : Z → B → Z;
}.

(** What the driver relies on.  The controller holds a command word, a window
    of data words, the write-enable latch, the flash's status register and its
    bytes; writing the go register runs the command.  An erase sets a sector
    to 0xFF and a program can only clear bits; both need the latch and a
    sector the status register does not protect. *)
Class FlashBusOk (B : Type) `{!FlashBus B} := {
  fb_cmd : B → Z;
  fb_win : B → Z → Z;          (* the k-th data word *)
  fb_wel : B → bool;
  fb_status : B → Z;
  fb_mem : B → Z → Z;          (* the byte at an offset below 2^20 *)
  fb_id : Z;                   (* manufacturer, device and density bytes *)
  fb_prot : Z → Z → bool;      (* is the offset protected under this status *)

  fb_mem_u8 b a : is_u8 (fb_mem b a);

  wr_cmd c b : let b' := bus_wr FLS_CMD c b in
    fb_cmd b' = c ∧ (∀ k, fb_win b' k = fb_win b k) ∧ fb_wel b' = fb_wel b ∧
    fb_status b' = fb_status b ∧ (∀ a, fb_mem b' a = fb_mem b a);
  wr_win k v b : 0 <= k < 256 → let b' := bus_wr (FLS_WIN + 4 * k) v b in
    fb_cmd b' = fb_cmd b ∧
    (∀ j, fb_win b' j = if j =? k then v else fb_win b j) ∧
    fb_wel b' = fb_wel b ∧ fb_status b' = fb_status b ∧
    (∀ a, fb_mem b' a = fb_mem b a);
  rd_win k b : 0 <= k < 256 → bus_rd (FLS_WIN + 4 * k) b = fb_win b k;

  (** 0x06: write enable *)
  go_wren b : fb_cmd b = 6 → let b' := bus_wr FLS_GO 0x10000000 b in
    fb_wel b' = true ∧ (∀ k, fb_win b' k = fb_win b k) ∧
    fb_status b' = fb_status b ∧ (∀ a, fb_mem b' a = fb_mem b a);
  (** 0x20: sector erase *)
  go_erase b a : fb_cmd b = 0x80000820 → fb_wel b = true → 0 <= a < 0x100000 →
    fb_prot (fb_status b) a = false →
    let b' := bus_wr FLS_GO (Z.lor 0x10000000 (Z.shiftl a 8)) b in
    fb_status b' = fb_status b ∧
    (∀ x, 0 <= x < 0x100000 →
       fb_mem b' x = if x / 4096 =? a / 4096 then 255 else fb_mem b x);
  (** 0x02: program one whole page from the window *)
  go_program b a : fb_cmd b = Z.lor 0x80009002 (Z.shiftl 255 16) → fb_wel b = true →
    0 <= a < 0x100000 → a mod 256 = 0 → fb_prot (fb_status b) a = false →
    let b' := bus_wr FLS_GO (Z.lor 0x10000000 (Z.shiftl a 8)) b in
    fb_status b' = fb_status b ∧
    (∀ x, 0 <= x < 0x100000 → fb_mem b' x =
       if x / 256 =? a / 256
       then Z.land (fb_mem b x)
              (default 0 (byte_at (le32 (fb_win b ((x mod 256) / 4))) (x mod 4)))
       else fb_mem b x);
  (** 0x0B: read [n] bytes into the window *)
  go_read b a n : 1 <= n <= 1024 → fb_cmd b = Z.lor 0xBC00C00B (Z.shiftl (n - 1) 16) →
    0 <= a → a + n <= 0x100000 →
    let b' := bus_wr FLS_GO (Z.lor 0x10000000 (Z.shiftl a 8)) b in
    fb_status b' = fb_status b ∧ (∀ x, fb_mem b' x = fb_mem b x) ∧
    (∀ i, 0 <= i < n →
       byte_at (le32 (fb_win b' (i / 4))) (i mod 4) = Some (fb_mem b (a + i)));
  (** 0x9F: read the identification bytes *)
  go_rdid b : fb_cmd b = 0x2C09F → let b' := bus_wr FLS_GO 0x10000000 b in
    fb_win b' 0 = fb_id ∧ fb_status b' = fb_status b ∧
    (∀ a, fb_mem b' a = fb_mem b a);
  (** 0x05 and 0x35: read the low and the high status byte *)
  go_rdsr1 b : fb_cmd b = 0x0C005 → let b' := bus_wr FLS_GO 0x10000000 b in
    Z.land (fb_win b' 0) 255 = Z.land (fb_status b) 255 ∧
    fb_status b' = fb_status b ∧ (∀ a, fb_mem b' a = fb_mem b a);
  go_rdsr2 b : fb_cmd b = 0x0C035 → let b' := bus_wr FLS_GO 0x10000000 b in
    Z.land (fb_win b' 0) 255 = Z.land (Z.shiftr (fb_status b) 8) 255 ∧
    fb_status b' = fb_status b ∧ (∀ a, fb_mem b' a = fb_mem b a);
  (** 0x01: write the two status bytes *)
  go_wrsr b : fb_cmd b = 0x1A001 → fb_wel b = true →
    let b' := bus_wr FLS_GO 0x10000000 b in
    fb_status b' = u16 (fb_win b 0) ∧ (∀ a, fb_mem b' a = fb_mem b a);
}.

(** The second flash, behind the SPI driver (file [SpiFlash]): the operations
    the internal driver calls.  A read returns the caller's buffer as the call
    leaves it, the identification call the word it stores. *)
Class SpiFls (T : Type) := {
  tls_spifls_read : Z → option (list Z) → Z → M T (Z * option (list Z));
  tls_spifls_write : Z → option (list Z) → Z → M T Z;
  tls_spifls_erase : Z → M T Z;
  tls_spifls_chip_erase : M T Z;
  tls_spifls_read_id : M T (Z * Z);
}.

(** ** Low-level commands *)

Section commands.
Context {B : Type} `{!FlashBus B}.
Local Open Scope c_scope.

Definition m32_wr (adr v : Z) : M B unit := modify (bus_wr adr v).
Definition m32_rd (adr : Z) : M B Z := gets (bus_rd adr).

Definition writeEnable : M B unit :=
  m32_wr 0x40002000 0x6 ;;
  m32_wr 0x40002004 0x10000000.

Definition readRID : M B Z :=
  m32_wr 0x40002000 0x2C09F ;;
  m32_wr 0x40002004 0x10000000 ;;
  let* w := m32_rd 0x40002200 in
  ret (Z.land w 0xFF).

Definition bp_bits (bp4 bp3 bp2 bp1 bp0 : Z) : Z :=
  Z.lor (Z.lor (Z.lor (Z.lor (Z.shiftl bp4 6) (Z.shiftl bp3 5)) (Z.shiftl bp2 4))
    (Z.shiftl bp1 3)) (Z.shiftl bp0 2).

Definition writeGDBpBit (cmp bp4 bp3 bp2 bp1 bp0 : Z) : M B unit :=
  m32_wr 0x40002000 0x0C005 ;;
  m32_wr 0x40002004 0x10000000 ;;
  let* w := m32_rd 0x40002200 in
  let status := Z.land w 0xFF in
  m32_wr 0x40002000 0x0C035 ;;
  m32_wr 0x40002004 0x10000000 ;;
  let* w := m32_rd 0x40002200 in
  let status := Z.lor status (Z.shiftl (Z.land w 0xFF) 8) in
  m32_wr 0x40002000 0x6 ;;
  m32_wr 0x40002004 0x10000000 ;;
  let bpstatus := bp_bits bp4 bp3 bp2 bp1 bp0 in
  let status := Z.lor (Z.lor (Z.land status 0xBF83) bpstatus) (Z.shiftl cmp 14) in
  m32_wr 0x40002200 status ;;
  m32_wr 0x40002000 0x1A001 ;;
  m32_wr 0x40002004 0x10000000.

Definition writeESMTBpBit (cmp bp4 bp3 bp2 bp1 bp0 : Z) : M B unit :=
  m32_wr 0x40002000 0x0C005 ;;
  m32_wr 0x40002004 0x10000000 ;;
  let* w := m32_rd 0x40002200 in
  let status := Z.land w 0xFF in
  let bpstatus := bp_bits bp4 bp3 bp2 bp1 bp0 in
  let status := Z.lor (Z.land status 0x83) bpstatus in
  m32_wr 0x40002000 0x6 ;;
  m32_wr 0x40002004 0x10000000 ;;
  let status := Z.lor (Z.lor (Z.land status 0x83) bpstatus) (Z.shiftl cmp 14) in
  m32_wr 0x40002200 status ;;
  m32_wr 0x40002000 0x0A001 ;;
  m32_wr 0x40002004 0x10000000 ;;
  m32_wr 0x40002000 0x0C085 ;;
  m32_wr 0x40002004 0x10000000 ;;
  let* w := m32_rd 0x40002200 in
  let status := Z.land w 0xFF in
  m32_wr 0x40002000 0x6 ;;
  m32_wr 0x40002004 0x10000000 ;;
  let status := Z.lor (Z.land status 0xBF) (Z.shiftl cmp 6) in
  m32_wr 0x40002200 status ;;
  m32_wr 0x40002000 0x0A0C1 ;;
  m32_wr 0x40002004 0x10000000.

Definition flashunlock : M B Z :=
  let* rid := readRID in
  switch rid
    [(SPIFLASH_MID_GD, writeGDBpBit 0 0 0 0 0 0 ;; ret 0);
     (SPIFLASH_MID_PUYA, writeGDBpBit 0 0 0 0 0 0 ;; ret 0);
     (SPIFLASH_MID_ESMT, writeESMTBpBit 0 0 0 0 0 0 ;; ret 0)]
    (ret (-1)).

Definition flashlock : M B Z :=
  let* rid := readRID in
  switch rid
    [(SPIFLASH_MID_GD, writeGDBpBit 0 1 1 0 1 0 ;; ret 0);
     (SPIFLASH_MID_PUYA, writeGDBpBit 0 1 1 0 1 0 ;; ret 0);
     (SPIFLASH_MID_ESMT, writeESMTBpBit 0 1 1 0 1 0 ;; ret 0)]
    (ret (-1)).

(** The word a pointer into the buffer [buf] reads, and the buffer after a
    word is stored through it. *)
Definition load32 (buf : list Z) (off : Z) : option Z :=
  if (0 <=? off) && (off + 4 <=? blen buf) then Some (of_le (slice buf off 4)) else None.
Definition store32 (buf : list Z) (off v : Z) : option (list Z) :=
  memcpy buf off (le32 v) 0 4.

(** [while (size)] of [programSR]; [off] is how far [buf] has advanced. *)
Fixpoint programSR_loop (fuel : nat) (base_addr : Z) (buf : list Z) (off size : Z) : M B unit :=
  if size =? 0 then ret tt
  else match fuel with
  | O => stuck
  | S fuel' =>
      let* w := of_opt (load32 buf off) in
      m32_wr base_addr w ;;
      programSR_loop fuel' (base_addr + 4) buf (off + 4) (u32 (size - 4))
  end.

(** At most a page is programmed, so 64 rounds end the loop. *)
Definition programSR (cmd addr : Z) (buf : list Z) (sz : Z) : M B Z :=
  let sz := if INSIDE_FLS_PAGE_SIZE <? sz then INSIDE_FLS_PAGE_SIZE else sz in
  programSR_loop 64 0x40002200 buf 0 sz ;;
  writeEnable ;;
  m32_wr 0x40002000 (Z.lor cmd (u32 (Z.shiftl (u32 (sz - 1)) 16))) ;;
  m32_wr 0x40002004 (Z.lor 0x10000000 (Z.shiftl (Z.land addr 0xFFFFF) 8)) ;;
  ret 0.

Definition programPage (adr sz : Z) (buf : list Z) : M B Z :=
  programSR 0x80009002 adr buf sz ;; ret 0.

Definition eraseSR (cmd addr : Z) : M B Z :=
  writeEnable ;;
  m32_wr 0x40002000 cmd ;;
  m32_wr 0x40002004 (Z.lor 0x10000000 (Z.shiftl (Z.land addr 0xFFFFF) 8)) ;;
  ret 0.

Definition eraseSector (adr : Z) : M B Z := eraseSR 0x80000820 adr ;; ret 0.

Definition getFlashDensity : M B Z :=
  m32_wr 0x40002000 0x2C09F ;;
  m32_wr 0x40002004 0x10000000 ;;
  let* w := m32_rd 0x40002200 in
  let density := Z.land (Z.shiftr (Z.land w 0xFFFFFF) 16) 0xFF in
  if (density =? 0x14) || (density =? 0x13) then ret (Z.shiftl 1 density) else ret 0.

(** [for (i = 0; i < word; i++) { M32(buf) = M32(addr_read); ... }] *)
Fixpoint read_words (word : nat) (buf : list Z) (off addr_read : Z) : M B (list Z) :=
  match word with
  | O => ret buf
  | S word' =>
      let* v := m32_rd addr_read in
      let* buf := of_opt (store32 buf off v) in
      read_words word' buf (off + 4) (addr_read + 4)
  end.

(** [while (byte) { *buf = 0; buf--; byte--; }] from the last byte down. *)
Fixpoint zero_down (byte : nat) (buf : list Z) (off : Z) : option (list Z) :=
  match byte with
  | O => Some buf
  | S byte' => buf ← store8 buf off 0; zero_down byte' buf (off - 1)
  end.

Definition readSR (cmd addr : Z) (buf : list Z) (sz : Z) : M B (list Z) :=
  let word := sz / 4 in
  let byte := sz mod 4 in
  m32_wr 0x40002000 (Z.lor cmd (u32 (Z.shiftl (u32 (sz - 1)) 16))) ;;
  m32_wr 0x40002004 (Z.lor 0x10000000 (Z.shiftl (Z.land addr 0xFFFFF) 8)) ;;
  let* buf := read_words (Z.to_nat word) buf 0 0x40002200 in
  if 0 <? byte then
    let* v := m32_rd (0x40002200 + 4 * word) in
    let* buf := of_opt (store32 buf (4 * word) v) in
    of_opt (zero_down (Z.to_nat byte) buf (4 * word + 3))
  else ret buf.

Definition readByCMD (addr : Z) (buf : list Z) (sz mode : Z) : M B (list Z) :=
  let word := sz / 4 in
  let byte := sz mod 4 in
  let addr_read := if truth (Z.land mode 0x1) then 0xEC00C0EB else 0xBC00C00B in
  m32_wr 0x40002000 (Z.lor addr_read (Z.shiftl (Z.land (u32 (sz - 1)) 0x3FF) 16)) ;;
  m32_wr 0x40002004 (Z.lor 0x10000000 (Z.shiftl (Z.land addr 0xFFFFF) 8)) ;;
  let* buf := read_words (Z.to_nat word) buf 0 0x40002200 in
  if 0 <? byte then
    let* v := m32_rd (0x40002200 + 4 * word) in
    let* buf := of_opt (store32 buf (4 * word) v) in
    of_opt (zero_down (Z.to_nat (4 - byte)) buf (4 * word + 3))
  else ret buf.
End commands.

(** ** The one-time-programmable registers *)

Section otp.
Context {B : Type} `{!FlashBus B}.
Local Open Scope c_scope.

(** Call [f] with the pointer [buf + off]. *)
Definition with_off {S} (buf : list Z) (off : Z) (f : list Z → M S (list Z)) : M S (list Z) :=
  if (0 <=? off) && (off <=? blen buf) then
    let* sub := f (drop (Z.to_nat off) buf) in
    ret (take (Z.to_nat off) buf ++ sub)
  else stuck.

(** [flashSRRW(offset, buf, sz, backbuf, backlen, rd)]: the buffers the
    pointers [buf] and [backbuf] leave behind. *)
Definition flashSRRW (offset : Z) (buf : option (list Z)) (sz : Z)
    (backbuf : option (list Z)) (backlen rd : Z)
    : M B (option (list Z) * option (list Z)) :=
  match buf, backbuf with
  | None, _ => ret (buf, backbuf)
  | _, None => if rd =? 0 then ret (buf, backbuf) else stuck
  | Some b, Some bb =>
      if (rd =? 0) && (backlen <? 512) then ret (buf, backbuf) else
      let* flashid := readRID in
      let* ' (baseaddr, sectoroffset, sectorsize, sectornum, erasecmd, readcmd, writecmd) :=
        switch flashid
          [(SPIFLASH_MID_GD,
             ret (0x0, 256, 256, 2, 0x80000844, 0xBC00C048, 0x80009042));
           (SPIFLASH_MID_ESMT,
             m32_wr 0x40002000 0x3A ;;
             m32_wr 0x40002004 0x10000000 ;;
             ret (0xFF000, 0, 512, 1, 0x80000820, 0xBC00C00B, 0x80009002));
           (SPIFLASH_MID_PUYA,
             ret (0x1000, 0, 512, 1, 0x80000844, 0xBC00C048, 0x80009042))]
          (ret (0, 0, 0, 0, 0, 0, 0)) in
      let* bb := for_acc (Z.to_nat sectornum) 0 (λ i bb,
        with_off bb (i * sectorsize) (λ sub,
          readSR readcmd (baseaddr + sectoroffset * i) sub sectorsize)) bb in
      let* ' (b, bb) :=
        if truth rd then
          let* b := of_opt (memcpy b 0 bb offset sz) in
          ret (b, bb)
        else
          for_loop (Z.to_nat sectornum) 0 (λ i,
            eraseSR erasecmd (baseaddr + sectoroffset * i) ;; ret tt) ;;
          let remainsz := if sz <? u32 (512 - offset) then sz else u32 (512 - offset) in
          let* bb := of_opt (memcpy bb offset b 0 remainsz) in
          for_loop (Z.to_nat sectornum) 0 (λ i,
            for_loop (Z.to_nat (sectorsize / 256)) 0 (λ j,
              programSR writecmd (baseaddr + sectoroffset * i + j * 256)
                (drop (Z.to_nat ((i * (sectorsize / 256) + j) * 256)) bb) 256 ;;
              ret tt)) ;;
          ret (b, bb) in
      if SPIFLASH_MID_ESMT =? flashid then
        m32_wr 0x40002000 0x4 ;;
        m32_wr 0x40002004 0x10000000 ;;
        ret (Some b, Some bb)
      else ret (Some b, Some bb)
  end.
End otp.

(** ** The driver's state

    [inside_fls] is the driver block, of which only the semaphore's count
    matters; [bus] the controller, [spi] the second flash's driver. *)
Record fls (B T : Type) := mk_fls {
  bus : B;
  spi : T;
  hp : heap;
  inside_fls : option Z;
  inner1flashsize : Z;
  inner2flashsize : Z;
  flashtotalsize : Z;
  gsflscache : option (list Z);
  gsSector : Z;
}.
Arguments mk_fls {B T}.
Arguments bus {B T}.
Arguments spi {B T}.
Arguments hp {B T}.
Arguments inside_fls {B T}.
Arguments inner1flashsize {B T}.
Arguments inner2flashsize {B T}.
Arguments flashtotalsize {B T}.
Arguments gsflscache {B T}.
Arguments gsSector {B T}.

Section setters.
Context {B T : Type}.
Implicit Type s : fls B T.
Definition set_bus (x : B) s := mk_fls x (spi s) (hp s) (inside_fls s) (inner1flashsize s)
  (inner2flashsize s) (flashtotalsize s) (gsflscache s) (gsSector s).
Definition set_spi (x : T) s := mk_fls (bus s) x (hp s) (inside_fls s) (inner1flashsize s)
  (inner2flashsize s) (flashtotalsize s) (gsflscache s) (gsSector s).
Definition set_hp (x : heap) s := mk_fls (bus s) (spi s) x (inside_fls s) (inner1flashsize s)
  (inner2flashsize s) (flashtotalsize s) (gsflscache s) (gsSector s).
Definition set_inside_fls (x : option Z) s := mk_fls (bus s) (spi s) (hp s) x (inner1flashsize s)
  (inner2flashsize s) (flashtotalsize s) (gsflscache s) (gsSector s).
Definition set_sizes (x y z : Z) s := mk_fls (bus s) (spi s) (hp s) (inside_fls s) x y z
  (gsflscache s) (gsSector s).
Definition set_cache (x : option (list Z)) s := mk_fls (bus s) (spi s) (hp s) (inside_fls s)
  (inner1flashsize s) (inner2flashsize s) (flashtotalsize s) x (gsSector s).
Definition set_gsSector (x : Z) s := mk_fls (bus s) (spi s) (hp s) (inside_fls s)
  (inner1flashsize s) (inner2flashsize s) (flashtotalsize s) (gsflscache s) x.
End setters.

(** ** The driver's operations *)

Section driver.
Context {B T : Type} `{!FlashBus B} `{!SpiFls T}.
Local Open Scope c_scope.
Local Abbreviation MF := (M (fls B T)).

Definition on_bus {A} (m : M B A) : MF A := lift bus set_bus m.
Definition on_spi {A} (m : M T A) : MF A := lift spi set_spi m.
Definition alloc (n : Z) : MF (option (list Z)) := lift hp set_hp (malloc n).

(** [tls_os_sem_acquire(lock, 0)] waits for ever: a count that is not
    positive blocks the only task.  Both need the driver block. *)
Definition sem_acquire : MF unit :=
  let* l := gets inside_fls in
  match l with
  | Some c => if 0 <? c then modify (set_inside_fls (Some (c - 1))) else stuck
  | None => stuck
  end.
Definition sem_release : MF unit :=
  let* l := gets inside_fls in
  match l with Some c => modify (set_inside_fls (Some (c + 1))) | None => stuck end.

(** [flashRead(addr, buf, sz)]: the status and the caller's buffer. *)
Definition flashRead (addr : Z) (buf : list Z) (sz : Z) : MF (Z * list Z) :=
  let page_offset := Z.land addr (256 - 1) in
  let* cache := alloc INSIDE_FLS_SECTOR_SIZE in
  match cache with
  | None => ret (TLS_FLS_STATUS_ENOMEM, buf)
  | Some cache =>
      let flash_addr := Z.land addr (u32 (Z.lnot (256 - 1))) in
      let* cache := on_bus (readByCMD flash_addr cache 256 0) in
      if 256 - page_offset <? sz then
        let* buf := of_opt (memcpy buf 0 cache page_offset (256 - page_offset)) in
        let off := 256 - page_offset in
        let flash_addr := u32 (flash_addr + 256) in
        let sz_1k := (sz - (256 - page_offset)) / 256 in
        let sz_remain := (sz - (256 - page_offset)) mod 256 in
        let* ' (cache, buf) := for_acc (Z.to_nat sz_1k) 0 (λ i '(cache, buf),
          let* cache := on_bus (readByCMD (u32 (flash_addr + i * 256)) cache 256 0) in
          let* buf := of_opt (memcpy buf (off + i * 256) cache 0 256) in
          ret (cache, buf)) (cache, buf) in
        if truth sz_remain then
          let* cache := on_bus (readByCMD (u32 (flash_addr + sz_1k * 256)) cache sz_remain 0) in
          let* buf := of_opt (memcpy buf (off + sz_1k * 256) cache 0 sz_remain) in
          ret (0, buf)
        else ret (0, buf)
      else
        let* buf := of_opt (memcpy buf 0 cache page_offset sz) in
        ret (0, buf)
  end.

Definition tls_flash_unlock : MF Z := on_bus flashunlock.
Definition tls_flash_lock : MF Z := on_bus flashlock.

Definition tls_fls_sem_lock : MF unit :=
  let* l := gets inside_fls in
  match l with None => ret tt | Some _ => sem_acquire end.
Definition tls_fls_sem_unlock : MF unit :=
  let* l := gets inside_fls in
  match l with None => ret tt | Some _ => sem_release end.

(** The part of a request that lies in the second flash: the first address
    and the number of bytes, [lenfor1M] being what the first flash took. *)
Definition second_part (addr len lenfor1M total : Z) : option (Z * Z) :=
  let addrfor2M :=
    if FLASH_1M_END_ADDR <=? addr then addr
    else if FLASH_1M_END_ADDR <=? u32 (addr + len) then FLASH_1M_END_ADDR
    else 0xFFFFFFFF in
  if addrfor2M =? 0xFFFFFFFF then None
  else
    let lenfor2M := u32 (len - lenfor1M) in
    let lenfor2M :=
      if u32 (addrfor2M + lenfor2M) <=? Z.lor FLASH_BASE_ADDR total then lenfor2M
      else u32 (Z.lor FLASH_BASE_ADDR total - addrfor2M) in
    Some (addrfor2M, lenfor2M).

(** [buf + n], a null pointer staying null for [n = 0] only. *)
Definition ptr_add (buf : option (list Z)) (n : Z) : option (option (list Z)) :=
  match buf with
  | None => if n =? 0 then Some None else None
  | Some b => if (0 <=? n) && (n <=? blen b) then Some (Some (drop (Z.to_nat n) b)) else None
  end.

(** [tls_fls_read(addr, buf, len)]: the status and the caller's buffer. *)
Definition tls_fls_read (addr : Z) (buf : option (list Z)) (len : Z)
    : MF (Z * option (list Z)) :=
  let read2 (err lenfor1M : Z) (buf : option (list Z)) : MF (Z * option (list Z)) :=
    let* inner2 := gets inner2flashsize in
    let* total := gets flashtotalsize in
    if truth inner2 then
      match second_part addr len lenfor1M total with
      | Some (addrfor2M, lenfor2M) =>
          let* p := of_opt (ptr_add buf lenfor1M) in
          let* ' (err, p') := on_spi (tls_spifls_read (Z.land addrfor2M 0xFFFFF) p lenfor2M) in
          ret (err, match buf, p' with
                    | Some b, Some b' => Some (take (Z.to_nat lenfor1M) b ++ b')
                    | _, _ => buf
                    end)
      | None => ret (err, buf)
      end
    else ret (err, buf) in
  if addr <? FLASH_1M_END_ADDR then
    let lenfor1M := if u32 (addr + len) <=? FLASH_1M_END_ADDR then len
                    else FLASH_1M_END_ADDR - addr in
    let* installed := gets inside_fls in
    let* inner1 := gets inner1flashsize in
    match installed with
    | None => ret (TLS_FLS_STATUS_EPERM, buf)
    | Some _ =>
        match buf with
        | Some b =>
            if (inner1 <=? Z.land addr (INSIDE_FLS_BASE_ADDR - 1)) || (lenfor1M =? 0)
            then ret (TLS_FLS_STATUS_EINVAL, buf)
            else
              sem_acquire ;;
              let* ' (_, b) := flashRead addr b lenfor1M in
              sem_release ;;
              read2 TLS_FLS_STATUS_OK lenfor1M (Some b)
        | None => ret (TLS_FLS_STATUS_EINVAL, buf)
        end
    end
  else read2 TLS_FLS_STATUS_EINVAL 0 buf.

(** The 16 page programs of a whole sector. *)
Definition program_sector (sector : Z) (cache : list Z) : MF unit :=
  for_loop 16 0 (λ i,
    on_bus (programPage (u32 (sector * INSIDE_FLS_SECTOR_SIZE + i * INSIDE_FLS_PAGE_SIZE))
      INSIDE_FLS_PAGE_SIZE (drop (Z.to_nat (i * INSIDE_FLS_PAGE_SIZE)) cache)) ;;
    ret tt).

(** [while (1)] of [tls_fls_write]; [boff] is how far [buf] has advanced.  The
    result is the final [boff] and [lenfor1M]. *)
Fixpoint tls_fls_write_loop (fuel : nat) (secpos secoff secremain lenfor1M : Z)
    (buf : list Z) (boff : Z) (cache : list Z) : MF (Z * Z) :=
  match fuel with
  | O => stuck
  | S fuel' =>
      let* ' (_, cache) := flashRead (u32 (secpos * INSIDE_FLS_SECTOR_SIZE)) cache
                             INSIDE_FLS_SECTOR_SIZE in
      on_bus (eraseSector (u32 (secpos * INSIDE_FLS_SECTOR_SIZE))) ;;
      let* cache := of_opt (memcpy cache secoff buf boff secremain) in
      program_sector secpos cache ;;
      if lenfor1M =? secremain then ret (boff, lenfor1M)
      else
        let boff := boff + secremain in
        let lenfor1M := lenfor1M - secremain in
        let secremain := if INSIDE_FLS_SECTOR_SIZE <? lenfor1M
                         then INSIDE_FLS_SECTOR_SIZE else lenfor1M in
        tls_fls_write_loop fuel' (u32 (secpos + 1)) 0 secremain lenfor1M buf boff cache
  end.

(** [tls_fls_write(addr, buf, len)]; every round but the first writes a whole
    sector or the rest, so [len / 4096 + 2] rounds are enough. *)
Definition tls_fls_write (addr : Z) (buf : option (list Z)) (len : Z) : MF Z :=
  let write2 (boff lenfor1M : Z) : MF Z :=
    let* inner2 := gets inner2flashsize in
    let* total := gets flashtotalsize in
    if truth inner2 then
      match second_part addr len lenfor1M total with
      | Some (addrfor2M, lenfor2M) =>
          let* p := of_opt (ptr_add buf (boff + lenfor1M)) in
          on_spi (tls_spifls_write (Z.land addrfor2M 0xFFFFF) p lenfor2M)
      | None => ret TLS_FLS_STATUS_OK
      end
    else ret TLS_FLS_STATUS_OK in
  if addr <? FLASH_1M_END_ADDR then
    let lenfor1M := if u32 (addr + len) <=? FLASH_1M_END_ADDR then len
                    else FLASH_1M_END_ADDR - addr in
    let* installed := gets inside_fls in
    let* inner1 := gets inner1flashsize in
    match installed with
    | None => ret TLS_FLS_STATUS_EPERM
    | Some _ =>
        match buf with
        | Some b =>
            if (inner1 <=? Z.land addr (INSIDE_FLS_BASE_ADDR - 1)) || (lenfor1M =? 0)
            then ret TLS_FLS_STATUS_EINVAL
            else
              sem_acquire ;;
              let* cache := alloc INSIDE_FLS_SECTOR_SIZE in
              match cache with
              | None => sem_release ;; ret TLS_FLS_STATUS_ENOMEM
              | Some cache =>
                  let offaddr := Z.land addr (INSIDE_FLS_BASE_ADDR - 1) in
                  let secpos := offaddr / INSIDE_FLS_SECTOR_SIZE in
                  let secoff := offaddr mod INSIDE_FLS_SECTOR_SIZE in
                  let secremain := INSIDE_FLS_SECTOR_SIZE - secoff in
                  let secremain := if lenfor1M <=? secremain then lenfor1M else secremain in
                  let* ' (boff, lenfor1M) :=
                    tls_fls_write_loop (Z.to_nat (lenfor1M / INSIDE_FLS_SECTOR_SIZE + 2))
                      secpos secoff secremain lenfor1M b 0 cache in
                  sem_release ;;
                  write2 boff lenfor1M
              end
        | None => ret TLS_FLS_STATUS_EINVAL
        end
    end
  else write2 0 0.

Definition tls_fls_erase (sector : Z) : MF Z :=
  let* inner1 := gets inner1flashsize in
  let* total := gets flashtotalsize in
  let* installed := gets inside_fls in
  let base := INSIDE_FLS_BASE_ADDR / INSIDE_FLS_SECTOR_SIZE in
  if sector <? inner1 / INSIDE_FLS_SECTOR_SIZE + base then
    match installed with
    | None => ret TLS_FLS_STATUS_EPERM
    | Some _ =>
        sem_acquire ;;
        on_bus (eraseSector (u32 (sector * INSIDE_FLS_SECTOR_SIZE))) ;;
        sem_release ;;
        ret TLS_FLS_STATUS_OK
    end
  else if sector <? total / INSIDE_FLS_SECTOR_SIZE + base then
    on_spi (tls_spifls_erase (Z.land sector 0xFF))
  else ret TLS_FLS_STATUS_OK.
End driver.

(** ** The write cache *)

Section fast_write.
Context {B T : Type} `{!FlashBus B} `{!SpiFls T}.
Local Open Scope c_scope.
Local Abbreviation MF := (M (fls B T)).

(** The cache pointer, which the callers below have checked or dereference. *)
Definition cache_buf : MF (list Z) :=
  let* c := gets gsflscache in of_opt c.

Definition tls_fls_flush_sector : MF unit :=
  let* sector := gets gsSector in
  let* inner1 := gets inner1flashsize in
  let* total := gets flashtotalsize in
  let base := INSIDE_FLS_BASE_ADDR / INSIDE_FLS_SECTOR_SIZE in
  let addr := u32 (sector * INSIDE_FLS_SECTOR_SIZE) in
  if sector <? inner1 / INSIDE_FLS_SECTOR_SIZE + base then
    on_bus (eraseSector addr) ;;
    let* cache := cache_buf in
    program_sector sector cache
  else if sector <? total / INSIDE_FLS_SECTOR_SIZE + base then
    let* cache := gets gsflscache in
    on_spi (tls_spifls_write (Z.land addr 0xFFFFF) cache INSIDE_FLS_SECTOR_SIZE) ;;
    ret tt
  else ret tt.

Definition tls_fls_fast_write_init : MF Z :=
  let* installed := gets inside_fls in
  match installed with
  | None => ret TLS_FLS_STATUS_EPERM
  | Some _ =>
      let* cache := gets gsflscache in
      match cache with
      | Some _ => ret (-1)
      | None =>
          let* cache := alloc INSIDE_FLS_SECTOR_SIZE in
          modify (set_cache cache) ;;
          match cache with None => ret (-1) | Some _ => ret TLS_FLS_STATUS_OK end
      end
  end.

Definition tls_fls_fast_write_destroy : MF unit :=
  let* cache := gets gsflscache in
  match cache with
  | None => ret tt
  | Some _ =>
      let* installed := gets inside_fls in
      match installed with
      | None => ret tt
      | Some _ =>
          sem_acquire ;;
          tls_fls_flush_sector ;;
          sem_release ;;
          modify (set_cache None)
      end
  end.

(** [while (length > 0)]: [boff] is how far [buf] has advanced. *)
Fixpoint fast_write_loop (fuel : nat) (offset maxlen : Z) (buf : list Z) (boff length : Z)
    : MF unit :=
  if length <=? 0 then ret tt
  else match fuel with
  | O => stuck
  | S fuel' =>
      let len := if maxlen <? length then maxlen else length in
      let* cache := cache_buf in
      let* cache := of_opt (memcpy cache offset buf boff len) in
      modify (set_cache (Some cache)) ;;
      (if INSIDE_FLS_SECTOR_SIZE <=? offset + len then
         tls_fls_flush_sector ;;
         let* s := gets gsSector in
         modify (set_gsSector (u32 (s + 1)))
       else ret tt) ;;
      fast_write_loop fuel' 0 INSIDE_FLS_SECTOR_SIZE buf (boff + len) (length - len)
  end.

Definition tls_fls_fast_write (addr : Z) (buf : option (list Z)) (length : Z) : MF Z :=
  let* installed := gets inside_fls in
  let* total := gets flashtotalsize in
  match installed with
  | None => ret TLS_FLS_STATUS_EPERM
  | Some _ =>
      match buf with
      | Some b =>
          if (total <=? Z.land addr (INSIDE_FLS_BASE_ADDR - 1)) || (length =? 0)
          then ret TLS_FLS_STATUS_EINVAL
          else
            sem_acquire ;;
            let sector := addr / INSIDE_FLS_SECTOR_SIZE in
            let offset := addr mod INSIDE_FLS_SECTOR_SIZE in
            let* gs := gets gsSector in
            (if negb (sector =? gs) && negb (gs =? 0) then tls_fls_flush_sector else ret tt) ;;
            modify (set_gsSector sector) ;;
            let maxlen := if 0 <? offset then INSIDE_FLS_SECTOR_SIZE - offset
                          else INSIDE_FLS_SECTOR_SIZE in
            fast_write_loop (Z.to_nat (length / INSIDE_FLS_SECTOR_SIZE + 2))
              offset maxlen b 0 length ;;
            sem_release ;;
            ret TLS_FLS_STATUS_OK
      | None => ret TLS_FLS_STATUS_EINVAL
      end
  end.

(** ** Chip erase, parameters and initialisation *)

(** The sectors after the second boot loader that are not blank are erased. *)
Definition tls_fls_chip_erase : MF Z :=
  let* installed := gets inside_fls in
  match installed with
  | None => ret TLS_FLS_STATUS_EPERM
  | Some _ =>
      sem_acquire ;;
      let* cache := alloc INSIDE_FLS_SECTOR_SIZE in
      match cache with
      | None => sem_release ;; ret TLS_FLS_STATUS_ENOMEM
      | Some cache =>
          let* inner1 := gets inner1flashsize in
          let n := u32 (inner1 - Z.land INSIDE_FLS_SECBOOT_ADDR 0xFFFFF) / INSIDE_FLS_SECTOR_SIZE in
          for_acc (Z.to_nat n) 0 (λ i cache,
            let a := INSIDE_FLS_SECBOOT_ADDR + i * INSIDE_FLS_SECTOR_SIZE in
            let* ' (_, cache) := flashRead a cache INSIDE_FLS_SECTOR_SIZE in
            if existsb (λ c, negb (c =? 0xFF)) cache
            then on_bus (eraseSector a) ;; ret cache
            else ret cache) cache ;;
          let* inner2 := gets inner2flashsize in
          (if truth inner2 then on_spi tls_spifls_chip_erase ;; ret tt else ret tt) ;;
          sem_release ;;
          ret TLS_FLS_STATUS_OK
      end
  end.

(** [param] tells whether the pointer is not null; the result is the status
    and the word stored, if any. *)
Definition tls_fls_get_param (type : Z) (param : bool) : MF (Z * option Z) :=
  let* installed := gets inside_fls in
  match installed with
  | None => ret (TLS_FLS_STATUS_EPERM, None)
  | Some _ =>
      if negb param then ret (TLS_FLS_STATUS_EINVAL, None)
      else
        sem_acquire ;;
        let* total := gets flashtotalsize in
        let r := switch type
          [(TLS_FLS_PARAM_TYPE_ID, (TLS_FLS_STATUS_OK, Some 0x2013));
           (TLS_FLS_PARAM_TYPE_SIZE, (TLS_FLS_STATUS_OK, Some total));
           (TLS_FLS_PARAM_TYPE_PAGE_SIZE, (TLS_FLS_STATUS_OK, Some INSIDE_FLS_PAGE_SIZE));
           (TLS_FLS_PARAM_TYPE_PROG_SIZE, (TLS_FLS_STATUS_OK, Some INSIDE_FLS_PAGE_SIZE));
           (TLS_FLS_PARAM_TYPE_SECTOR_SIZE, (TLS_FLS_STATUS_OK, Some INSIDE_FLS_SECTOR_SIZE))]
          (TLS_FLS_STATUS_EINVAL, None) in
        sem_release ;;
        ret r
  end.

(** [sem_ok]: [tls_os_sem_create] succeeds. *)
Definition tls_fls_init (sem_ok : bool) : MF Z :=
  let* installed := gets inside_fls in
  match installed with
  | Some _ => ret TLS_FLS_STATUS_EBUSY
  | None =>
      let* fls := alloc 4 in
      match fls with
      | None => ret TLS_FLS_STATUS_ENOMEM
      | Some _ =>
          if negb sem_ok then ret TLS_FLS_STATUS_ENOMEM
          else
            modify (set_inside_fls (Some 1)) ;;
            let* inner1 := on_bus getFlashDensity in
            let* ' (err, id) := on_spi tls_spifls_read_id in
            let* inner2 := gets inner2flashsize in
            let inner2 :=
              if err =? TLS_FLS_STATUS_OK then
                let id := Z.land (Z.shiftr id 16) 0xFF in
                if truth id then u32 (Z.shiftl 1 id) else 0
              else inner2 in
            modify (set_sizes inner1 inner2 (u32 (inner1 + inner2))) ;;
            ret TLS_FLS_STATUS_OK
      end
  end.
Definition tls_fls_exit : MF Z := ret TLS_FLS_STATUS_EPERM.
End fast_write.

(** ** What the commands do *)

Section commands_ok.
Context {B : Type} `{FlashBusOk B}.
Implicit Types (b : B) (buf : list Z).

(** The controller with the same status register and the same flash. *)
Definition same_flash b b' : Prop :=
  fb_status b' = fb_status b ∧ ∀ a, fb_mem b' a = fb_mem b a.
Lemma same_flash_trans b1 b2 b3 : same_flash b1 b2 → same_flash b2 b3 → same_flash b1 b3.
Proof. intros [? H1] [? H2]. split; [congruence|]. intros a. by rewrite H2, H1. Qed.
Lemma wr_cmd_same c b : same_flash b (bus_wr FLS_CMD c b).
Proof. destruct (wr_cmd c b) as (_ & _ & _ & ? & ?). done. Qed.

Lemma wp_writeEnable b :
  wp writeEnable (λ _ b', fb_wel b' = true ∧ (∀ k, fb_win b' k = fb_win b k) ∧ same_flash b b') b.
Proof.
  unfold writeEnable, m32_wr. wp_steps.
  destruct (wr_cmd 0x6 b) as (Hc & Hw & _ & Hs & Hm).
  destruct (go_wren _ Hc) as (Hwel & Hw' & Hs' & Hm').
  split; [done|]. split; [intros k; unfold FLS_GO, FLS_CMD in *; congruence|].
  split; unfold FLS_GO, FLS_CMD in *; [congruence|]. intros a. by rewrite Hm'.
Qed.

(** [off < 2^20] is an offset into the flash and [adr] an address of it. *)
Definition flash_off (adr : Z) : Z := Z.land adr 0xFFFFF.
Lemma flash_off_mod adr : flash_off adr = adr mod 0x100000.
Proof. unfold flash_off. change 0xFFFFF with (Z.ones 20). by rewrite Z.land_ones. Qed.
Lemma flash_off_range adr : 0 <= flash_off adr < 0x100000.
Proof. rewrite flash_off_mod. dlia. Qed.

Lemma wp_eraseSector adr b : fb_prot (fb_status b) (flash_off adr) = false →
  wp (eraseSector adr) (λ _ b', fb_status b' = fb_status b ∧
    ∀ x, 0 <= x < 0x100000 →
      fb_mem b' x = if x / 4096 =? flash_off adr / 4096 then 255 else fb_mem b x) b.
Proof.
  intros Hp. unfold eraseSector, eraseSR. apply wp_bind, (wp_seq _ _ _ _ _ (wp_writeEnable b)).
  intros _ b1 (Hwel & _ & Hs1 & Hm1). unfold m32_wr. wp_steps.
  destruct (wr_cmd 0x80000820 b1) as (Hc & _ & Hwel2 & Hs2 & Hm2).
  destruct (go_erase _ _ Hc (eq_trans Hwel2 Hwel) (flash_off_range adr)) as [Hs3 Hm3];
    [by rewrite Hs2, Hs1|].
  fold (flash_off adr). unfold FLS_GO, FLS_CMD in *. split; [congruence|].
  intros x Hx. rewrite Hm3 by done. by rewrite Hm2, Hm1.
Qed.

Lemma load32_Some buf off : 0 <= off → off + 4 <= blen buf →
  load32 buf off = Some (of_le (slice buf off 4)).
Proof. intros. unfold load32. case_if; [done|lia]. Qed.

(** Filling the window: [n] words from the [k]-th on. *)
Lemma wp_programSR_loop n : ∀ fuel k buf off b, (n ≤ fuel)%nat → 0 <= k →
  k + Z.of_nat n <= 64 → 0 <= off → off + 4 * Z.of_nat n <= blen buf →
  wp (programSR_loop fuel (FLS_WIN + 4 * k) buf off (4 * Z.of_nat n)) (λ _ b',
    same_flash b b' ∧
    ∀ j, fb_win b' j = if (k <=? j) && (j <? k + Z.of_nat n)
                       then of_le (slice buf (off + 4 * (j - k)) 4) else fb_win b j) b.
Proof.
  induction n as [|n IH]; intros fuel k buf off b Hf Hk Hkn Ho Hl.
  { replace (programSR_loop _ _ _ _ _) with (ret (S:=B) tt) by by destruct fuel.
    apply wp_ret. split; [done|]. intros j. case_if; [lia|done]. }
  destruct fuel as [|fuel]; [lia|]. cbn [programSR_loop].
  replace (4 * Z.of_nat (S n) =? 0) with false by lia.
  rewrite load32_Some by lia. wp_step. eapply wp_of_opt; [done|].
  unfold m32_wr. wp_steps.
  replace (u32 (4 * Z.of_nat (S n) - 4)) with (4 * Z.of_nat n) by (ints).
  replace (FLS_WIN + 4 * k + 4) with (FLS_WIN + 4 * (k + 1)) by lia.
  destruct (wr_win k (of_le (slice buf off 4)) b ltac:(lia)) as (_ & Hw & _ & Hs & Hm).
  eapply wp_mono; [apply IH; lia|]. intros _ b' [Hsame Hw'].
  split; [eapply same_flash_trans; [|done]; by split|]. intros j. rewrite Hw', Hw.
  destruct (Z.eqb_spec j k) as [->|].
  - replace ((k + 1 <=? k) && (k <? k + 1 + Z.of_nat n))%bool with false by lia.
    replace ((k <=? k) && (k <? k + Z.of_nat (S n)))%bool with true by lia.
    by replace (off + 4 * (k - k)) with off by lia.
  - replace ((k + 1 <=? j) && (j <? k + 1 + Z.of_nat n))%bool
      with ((k <=? j) && (j <? k + Z.of_nat (S n)))%bool by lia.
    case_if; [|done]. by replace (off + 4 + 4 * (j - (k + 1))) with (off + 4 * (j - k)) by lia.
Qed.

Lemma wp_programPage adr buf b : 256 <= blen buf → bytes_ok buf →
  flash_off adr mod 256 = 0 → fb_prot (fb_status b) (flash_off adr) = false →
  wp (programPage adr INSIDE_FLS_PAGE_SIZE buf) (λ _ b', fb_status b' = fb_status b ∧
    ∀ x, 0 <= x < 0x100000 → fb_mem b' x =
      if x / 256 =? flash_off adr / 256
      then Z.land (fb_mem b x) (default 0 (byte_at buf (x mod 256))) else fb_mem b x) b.
Proof.
  intros Hl Hok Ha Hp. unfold programPage, programSR.
  change (INSIDE_FLS_PAGE_SIZE <? INSIDE_FLS_PAGE_SIZE) with false. cbv iota.
  wp_step. eapply wp_seq; [apply (wp_programSR_loop 64 64 0 buf 0); lia|].
  intros _ b1 [[Hs1 Hm1] Hw1]. eapply wp_seq; [apply wp_writeEnable|].
  intros _ b2 (Hwel2 & Hw2 & Hs2 & Hm2). unfold m32_wr. wp_steps.
  change (Z.lor 0x80009002 _) with (Z.lor 0x80009002 (Z.shiftl 255 16)).
  destruct (wr_cmd (Z.lor 0x80009002 (Z.shiftl 255 16)) b2) as (Hc & Hw3 & Hwel3 & Hs3 & Hm3).
  destruct (go_program _ _ Hc (eq_trans Hwel3 Hwel2) (flash_off_range adr) Ha) as [Hs4 Hm4];
    [by rewrite Hs3, Hs2, Hs1|].
  fold (flash_off adr). unfold FLS_GO, FLS_CMD in *. split; [congruence|].
  intros x Hx. rewrite Hm4 by done. rewrite Hm3, Hm2, Hm1.
  case_if; [|done]. f_equal. f_equal. rewrite Hw3, Hw2, Hw1.
  assert (0 <= x mod 256 < 256) by dlia.
  replace ((0 <=? x mod 256 / 4) && (x mod 256 / 4 <? 0 + Z.of_nat 64))%bool with true by dlia.
  rewrite le32_of_le.
  - rewrite byte_at_slice by dlia. f_equal.
    assert (x mod 4 = x mod 256 mod 4) as -> by dlia. dlia.
  - by apply bytes_ok_slice.
  - pose proof (blen_slice buf (0 + 4 * (x mod 256 / 4 - 0)) 4) as Hsl. unfold blen in Hsl at 2.
    assert (Z.of_nat (length (slice buf (0 + 4 * (x mod 256 / 4 - 0)) 4)) = 4); [|lia].
    apply Hsl; dlia.
Qed.
End commands_ok.

(** ** Reads *)

Section reads_ok.
Context {B : Type} `{FlashBusOk B}.
Implicit Types (b : B) (buf : list Z).

Lemma blen_le32 v : blen (le32 v) = 4.
Proof. done. Qed.
Lemma store32_Some buf off v : 0 <= off → off + 4 <= blen buf →
  store32 buf off v = Some (splice buf off (le32 v)).
Proof.
  intros. unfold store32. rewrite memcpy_Some by (rewrite ?blen_le32; lia).
  by rewrite slice_all by done.
Qed.

Lemma wp_read_words n : ∀ k buf b, 0 <= k → k + Z.of_nat n <= 256 →
  4 * (k + Z.of_nat n) <= blen buf →
  wp (read_words n buf (4 * k) (FLS_WIN + 4 * k)) (λ buf' b', b' = b ∧ blen buf' = blen buf ∧
    ∀ i, byte_at buf' i = if (4 * k <=? i) && (i <? 4 * (k + Z.of_nat n))
                          then byte_at (le32 (fb_win b (i / 4))) (i mod 4) else byte_at buf i) b.
Proof.
  induction n as [|n IH]; intros k buf b Hk Hn Hl; cbn [read_words].
  { apply wp_ret. split; [done|]. split; [done|]. intros i. case_if; [lia|done]. }
  wp_step. unfold m32_rd. wp_step. rewrite rd_win by lia.
  rewrite store32_Some by lia. wp_step. eapply wp_of_opt; [done|].
  replace (4 * k + 4) with (4 * (k + 1)) by lia.
  replace (FLS_WIN + 4 * k + 4) with (FLS_WIN + 4 * (k + 1)) by lia.
  assert (blen (splice buf (4 * k) (le32 (fb_win b k))) = blen buf) as Hb
    by (apply blen_splice; rewrite ?blen_le32; lia).
  eapply wp_mono; [apply IH; lia|]. intros buf' b' (-> & Hl' & Hbytes).
  split; [done|]. split; [congruence|]. intros i. rewrite Hbytes.
  rewrite byte_at_splice by (rewrite ?blen_le32; lia). rewrite blen_le32.
  destruct (decide (4 * k <= i < 4 * k + 4)) as [Hi|Hi].
  - replace ((4 * (k + 1) <=? i) && (i <? 4 * (k + 1 + Z.of_nat n)))%bool with false by lia.
    replace ((4 * k <=? i) && (i <? 4 * k + 4))%bool with true by lia.
    replace ((4 * k <=? i) && (i <? 4 * (k + Z.of_nat (S n))))%bool with true by lia.
    replace (i / 4) with k by dlia. f_equal. dlia.
  - replace ((4 * k <=? i) && (i <? 4 * k + 4))%bool with false by lia.
    by replace ((4 * (k + 1) <=? i) && (i <? 4 * (k + 1 + Z.of_nat n)))%bool
      with ((4 * k <=? i) && (i <? 4 * (k + Z.of_nat (S n))))%bool by lia.
Qed.

Lemma zero_down_Some n : ∀ buf off, Z.of_nat n <= off + 1 → off < blen buf →
  ∃ buf', zero_down n buf off = Some buf' ∧ blen buf' = blen buf ∧
    ∀ i, i <= off - Z.of_nat n → byte_at buf' i = byte_at buf i.
Proof.
  induction n as [|n IH]; intros buf off Ho Hl; [by exists buf|]. cbn [zero_down].
  unfold store8. rewrite memcpy_Some by (unfold blen in *; simpl; lia).
  cbn [mbind option_bind]. rewrite slice_all by done.
  assert (blen (splice buf off [0]) = blen buf) as Hb by (apply blen_splice; unfold blen in *; simpl; lia).
  destruct (IH (splice buf off [0]) (off - 1)) as (buf' & -> & Hl' & Hi); [lia..|].
  exists buf'. split; [done|]. split; [congruence|]. intros i Hi'.
  rewrite Hi by lia. rewrite byte_at_splice by (unfold blen in *; simpl; lia).
  change (blen [0]) with 1. by replace ((off <=? i) && (i <? off + 1))%bool with false by lia.
Qed.

(** Reading [sz] bytes leaves them at the start of the buffer. *)
Lemma wp_readByCMD adr buf sz b : 1 <= sz <= 1024 → flash_off adr + sz <= 0x100000 →
  sz + 3 <= blen buf →
  wp (readByCMD adr buf sz 0) (λ buf' b', same_flash b b' ∧ blen buf' = blen buf ∧
    ∀ i, 0 <= i < sz → byte_at buf' i = Some (fb_mem b (flash_off adr + i))) b.
Proof.
  intros Hsz Ha Hl. unfold readByCMD. change (truth (Z.land 0 0x1)) with false. cbv iota zeta.
  unfold m32_wr. wp_step. wp_step. wp_step. wp_step. fold (flash_off adr).
  replace (Z.land (u32 (sz - 1)) 0x3FF) with (sz - 1).
  2:{ change 0x3FF with (Z.ones 10). rewrite Z.land_ones by lia.
      rewrite u32_id by (unfold is_u32; lia). rewrite Z.mod_small; [done|].
      change (2 ^ 10) with 1024. lia. }
  destruct (wr_cmd (Z.lor 0xBC00C00B (Z.shiftl (sz - 1) 16)) b) as (Hc & _ & _ & Hs & Hm).
  pose proof (flash_off_range adr).
  destruct (go_read _ (flash_off adr) sz Hsz Hc ltac:(lia) Ha) as (Hs' & Hm' & Hw').
  unfold FLS_CMD, FLS_GO in *.
  set (b2 := bus_wr 0x40002004 _ _) in *.
  assert (same_flash b b2) as Hsame by (split; [congruence|intros a; by rewrite Hm', Hm]).
  wp_step. eapply wp_mono; [apply (wp_read_words _ 0); dlia|].
  intros buf1 b' (-> & Hl1 & Hb1). rewrite Z2Nat.id in Hb1 by dlia.
  assert (∀ i, 0 <= i < sz →
    byte_at (le32 (fb_win b2 (i / 4))) (i mod 4) = Some (fb_mem b (flash_off adr + i))) as Hw.
  { intros i Hi. rewrite Hw' by done. by rewrite Hm. }
  case_if.
  - wp_step. unfold m32_rd. wp_step. rewrite (rd_win (sz / 4)) by dlia.
    rewrite store32_Some by dlia. wp_step. eapply wp_of_opt; [done|].
    assert (blen (splice buf1 (4 * (sz / 4)) (le32 (fb_win b2 (sz / 4)))) = blen buf1) as Hl2
      by (apply blen_splice; rewrite ?blen_le32; dlia).
    destruct (zero_down_Some (Z.to_nat (4 - sz mod 4))
      (splice buf1 (4 * (sz / 4)) (le32 (fb_win b2 (sz / 4)))) (4 * (sz / 4) + 3))
      as (buf3 & Hz & Hl3 & Hb3); [dlia..|].
    eapply wp_of_opt; [done|]. split; [done|]. split; [lia|].
    intros i Hi. rewrite Hb3 by dlia. rewrite byte_at_splice by (rewrite ?blen_le32; dlia).
    rewrite blen_le32. rewrite <- Hw by done. case_if.
    + replace (i / 4) with (sz / 4) by dlia. f_equal. dlia.
    + rewrite Hb1. by replace ((4 * 0 <=? i) && (i <? 4 * (0 + sz / 4)))%bool with true by dlia.
  - apply wp_ret. split; [done|]. split; [done|]. intros i Hi. rewrite Hb1, <- Hw by done.
    by replace ((4 * 0 <=? i) && (i <? 4 * (0 + sz / 4)))%bool with true by dlia.
Qed.
End reads_ok.

Section driver_ok.
Context {B T : Type} `{FlashBusOk B} `{!SpiFls T}.
Implicit Types (s : fls B T) (buf : list Z).

Definition mem s : Z → Z := fb_mem (bus s).
Definition flash_bytes s (o n : Z) : list Z := mem s <$> seqZ o n.
(** The allocator's next answer and the rest of its stream. *)
Definition next_heap s : heap := λ k, hp s (S k).

(** Only the controller moved, keeping the status register and the flash. *)
Definition bus_only s s' : Prop := ∃ b', s' = set_bus b' s ∧ same_flash (bus s) b'.
Lemma bus_only_refl s : bus_only s s.
Proof. exists (bus s). by destruct s. Qed.
Lemma bus_only_trans s1 s2 s3 : bus_only s1 s2 → bus_only s2 s3 → bus_only s1 s3.
Proof.
  intros (b2 & -> & H2) (b3 & -> & H3). exists b3. split; [done|].
  by apply (same_flash_trans _ b2).
Qed.
Lemma bus_only_mem s s' a : bus_only s s' → mem s' a = mem s a.
Proof. intros (b' & -> & _ & Hm). apply Hm. Qed.

Lemma wp_alloc n (Q : option (list Z) → fls B T → Prop) s :
  match hp s O with
  | Some _ => ∀ c, blen c = Z.max 0 n → bytes_ok c → Q (Some c) (set_hp (next_heap s) s)
  | None => Q None (set_hp (next_heap s) s)
  end → wp (alloc n) Q s.
Proof.
  intros HQ. unfold alloc. apply wp_lift. unfold malloc. unfold wp.
  destruct (hp s O) as [junk|]; [|done]. apply HQ.
  - unfold blen. rewrite length_fmap, length_seqZ. lia.
  - apply Forall_fmap, Forall_true. intros i. apply u8_range.
Qed.

Lemma wp_sem_acquire (Q : unit → fls B T → Prop) s c :
  inside_fls s = Some c → 0 < c → Q tt (set_inside_fls (Some (c - 1)) s) → wp sem_acquire Q s.
Proof.
  intros Hl Hc HQ. unfold sem_acquire. wp_steps. rewrite Hl.
  replace (0 <? c) with true by lia. by apply wp_modify.
Qed.
Lemma wp_sem_release (Q : unit → fls B T → Prop) s c :
  inside_fls s = Some c → Q tt (set_inside_fls (Some (c + 1)) s) → wp sem_release Q s.
Proof. intros Hl HQ. unfold sem_release. wp_steps. rewrite Hl. by apply wp_modify. Qed.

Lemma flash_off_u32 x : flash_off (u32 x) = x mod 0x100000.
Proof. rewrite flash_off_mod. unfold_ints. dlia. Qed.

(** One read of the driver into a scratch buffer. *)
Lemma wp_read_page adr cache sz s (Q : list Z → fls B T → Prop) :
  1 <= sz <= 1024 → flash_off adr + sz <= 0x100000 → sz + 3 <= blen cache →
  (∀ cache' s', bus_only s s' → blen cache' = blen cache →
     (∀ i, 0 <= i < sz → byte_at cache' i = Some (mem s (flash_off adr + i))) → Q cache' s') →
  wp (on_bus (readByCMD adr cache sz 0)) Q s.
Proof.
  intros Hsz Ha Hl HQ. unfold on_bus. apply wp_lift.
  eapply wp_mono; [by apply wp_readByCMD|]. intros c b' (Hsame & Hb & Hi).
  apply HQ; [by exists b'|done|done].
Qed.

(** Copying the bytes read, the target having them up to [d]. *)
Definition read_upto s (buf0 buf : list Z) (o d : Z) : Prop :=
  blen buf = blen buf0 ∧
  ∀ i, byte_at buf i = if (0 <=? i) && (i <? d) then Some (mem s (o + i)) else byte_at buf0 i.

Lemma read_upto_copy s buf0 buf o d cache si n :
  read_upto s buf0 buf o d → 0 <= d → 0 <= n → d + n <= blen buf0 →
  0 <= si → si + n <= blen cache →
  (∀ i, 0 <= i < n → byte_at cache (si + i) = Some (mem s (o + d + i))) →
  ∃ buf', memcpy buf d cache si n = Some buf' ∧ read_upto s buf0 buf' o (d + n).
Proof.
  intros [Hl Hb] Hd Hn Hdn Hsi Hc Hi. eexists. split; [apply memcpy_Some; lia|].
  assert (blen (slice cache si n) = n) as Hsl by (apply blen_slice; lia).
  split; [rewrite blen_splice; lia|]. intros i.
  rewrite byte_at_splice by lia. rewrite Hsl, Hb. case_if.
  - rewrite byte_at_slice, Hi by lia. replace ((0 <=? i) && (i <? d + n))%bool with true by lia.
    do 2 f_equal. lia.
  - by replace ((0 <=? i) && (i <? d + n))%bool with ((0 <=? i) && (i <? d))%bool by lia.
Qed.
Lemma read_upto_done s buf0 buf o d : 0 <= d <= blen buf0 →
  read_upto s buf0 buf o d → buf = splice buf0 0 (flash_bytes s o d).
Proof.
  intros Hd [Hl Hb]. assert (blen (flash_bytes s o d) = d) as Hf by (apply blen_fmap_seqZ; lia).
  apply byte_at_ext; [rewrite blen_splice; lia|]. intros i Hi.
  rewrite Hb, byte_at_splice by lia. rewrite Hf.
  replace ((0 <=? i) && (i <? 0 + d))%bool with ((0 <=? i) && (i <? d))%bool by lia.
  case_if; [|done]. unfold flash_bytes. by rewrite byte_at_fmap_seqZ, Z.sub_0_r by lia.
Qed.

Lemma read_upto_0 s buf o : read_upto s buf buf o 0.
Proof. split; [done|]. intros i. case_if; [lia|done]. Qed.
Lemma read_upto_bus s s' buf0 buf o d : bus_only s s' →
  read_upto s buf0 buf o d ↔ read_upto s' buf0 buf o d.
Proof.
  intros Hs. unfold read_upto. apply and_iff_compat_l.
  split; intros Hb i; rewrite Hb; case_if; try done; by rewrite (bus_only_mem s s').
Qed.

Lemma page_split addr : is_u32 addr → Z.land addr (256 - 1) = addr mod 256 ∧
  Z.land addr (u32 (Z.lnot (256 - 1))) = addr - addr mod 256.
Proof.
  intros Ha. change (256 - 1) with (Z.ones 8). rewrite Z.land_ones, land_not_ones by (done || lia).
  change (2 ^ 8) with 256. dlia.
Qed.

(** [flashRead] copies the bytes at the offset of [addr] and changes nothing
    else but the allocator's state. *)
Lemma wp_flashRead addr buf sz s (Q : Z * list Z → fls B T → Prop) :
  is_u32 addr → 0 <= sz <= blen buf → flash_off addr + sz <= 0x100000 →
  (hp s O ≠ None → ∀ s', bus_only (set_hp (next_heap s) s) s' →
     Q (0, splice buf 0 (flash_bytes s (flash_off addr) sz)) s') →
  (hp s O = None → Q (TLS_FLS_STATUS_ENOMEM, buf) (set_hp (next_heap s) s)) →
  wp (flashRead addr buf sz) Q s.
Proof.
  intros Haddr Hsz Ho HQ HQn. unfold flashRead. destruct (page_split addr Haddr) as [-> ->].
  wp_step. apply wp_alloc. destruct (hp s O) as [junk|]; [|by apply wp_ret, HQn].
  intros c0 Hc0 _. change (Z.max 0 INSIDE_FLS_SECTOR_SIZE) with 4096 in Hc0.
  set (s0 := set_hp (next_heap s) s) in *. set (o := flash_off addr) in *.
  pose proof (flash_off_mod addr) as Hom. fold o in Hom.
  assert (flash_off (addr - addr mod 256) = o - o mod 256) as Hfp
    by (rewrite flash_off_mod, Hom; dlia).
  assert (o mod 256 = addr mod 256) as Hpo by (rewrite Hom; dlia).
  assert (0 <= o) as Hopos by (rewrite Hom; dlia).
  assert (∀ buf' s', read_upto s0 buf buf' o sz → bus_only s0 s' → Q (0, buf') s') as Hend.
  { intros buf' s' Hr Hs'. rewrite (read_upto_done s0 buf buf' o sz) by done.
    by apply HQ. }
  wp_step. apply wp_read_page; [lia|rewrite Hfp; dlia|lia|].
  intros c1 s1 Hs1 Hl1 Hc1. rewrite Hfp in Hc1. set (p := addr mod 256) in *.
  assert (0 <= p < 256) as Hp by (unfold p; dlia).
  assert (∀ i, 0 <= i < 256 - p → byte_at c1 (p + i) = Some (mem s0 (o + 0 + i))) as Hc1'.
  { intros i Hi. rewrite Hc1 by lia. do 2 f_equal. lia. }
  case_if; cycle 1.
  { destruct (read_upto_copy s0 buf buf o 0 c1 p sz) as (buf1 & Hm & Hr); try lia.
    - apply read_upto_0.
    - intros i Hi. apply Hc1'. lia.
    - wp_step. eapply wp_of_opt; [done|]. by apply wp_ret, Hend. }
  destruct (read_upto_copy s0 buf buf o 0 c1 p (256 - p)) as (buf1 & Hm & Hr); try lia.
  { apply read_upto_0. } { apply Hc1'. }
  wp_step. eapply wp_of_opt; [done|].
  set (N := sz - (256 - p)) in *. wp_step.
  apply wp_for_acc with (I := λ j '(c, bf) s', bus_only s0 s' ∧ blen c = 4096 ∧
    read_upto s0 buf bf o (256 - p + j * 256)).
  - split; [done|]. split; [lia|]. by replace (256 - p + 0 * 256) with (0 + (256 - p)) by lia.
  - rewrite Z2Nat.id by dlia. intros j [c bf] s' Hj (Hs' & Hcl & Hrj).
    assert (flash_off (u32 (u32 (addr - p + 256) + j * 256)) = o + (256 - p + j * 256)) as Hfo.
    { rewrite flash_off_u32, Hom. unfold u32, wrap. change (2 ^ 32) with 4294967296.
      revert Hj Ho. unfold N. intros. dlia. }
    wp_step. apply wp_read_page; [lia|rewrite Hfo; dlia|lia|].
    intros c' s'' Hs'' Hl' Hc'. rewrite Hfo in Hc'.
    destruct (read_upto_copy s0 buf bf o (256 - p + j * 256) c' 0 256) as (bf' & Hm' & Hr');
      try (done || dlia).
    { intros i Hi. rewrite Hc' by lia. rewrite (bus_only_mem s0 s') by done. do 2 f_equal; lia. }
    wp_step. eapply wp_of_opt; [done|]. apply wp_ret.
    split; [by eapply bus_only_trans|]. split; [lia|].
    by replace (256 - p + (j + 1) * 256) with (256 - p + j * 256 + 256) by lia.
  - rewrite Z2Nat.id by dlia. intros [c bf] s' (Hs' & Hcl & Hrj). rewrite Z.add_0_l in Hrj.
    unfold truth. case_if.
    + assert (flash_off (u32 (u32 (addr - p + 256) + N / 256 * 256)) = o + (256 - p + N / 256 * 256)) as Hfo.
      { rewrite flash_off_u32, Hom. unfold u32, wrap. change (2 ^ 32) with 4294967296.
        revert Ho E0. unfold N. intros. dlia. }
      wp_step. apply wp_read_page; [dlia|rewrite Hfo; dlia|dlia|].
      intros c' s'' Hs'' Hl' Hc'. rewrite Hfo in Hc'.
      destruct (read_upto_copy s0 buf bf o (256 - p + N / 256 * 256) c' 0 (N mod 256))
        as (bf' & Hm' & Hr'); try (done || dlia).
      { intros i Hi. rewrite Hc' by lia. rewrite (bus_only_mem s0 s') by done. do 2 f_equal; lia. }
      wp_step. eapply wp_of_opt; [done|]. apply wp_ret, Hend; [|by eapply bus_only_trans].
      by replace sz with (256 - p + N / 256 * 256 + N mod 256) by dlia.
    + apply wp_ret, Hend; [|done].
      by replace sz with (256 - p + N / 256 * 256) by dlia.
Qed.
End driver_ok.

(** ** Writes *)

Section writes_ok.
Context {B T : Type} `{FlashBusOk B} `{!SpiFls T}.
Implicit Types (s : fls B T) (buf : list Z).

(** [sector_write s s' sec f]: the sector [sec] of the flash now holds
    [f old offset], everything else is as it was. *)
Definition sector_write s s' (sec : Z) (f : Z → Z → Z) : Prop :=
  ∃ b', s' = set_bus b' s ∧ fb_status b' = fb_status (bus s) ∧
  ∀ x, 0 <= x < 0x100000 →
    fb_mem b' x = if x / 4096 =? sec then f (mem s x) (x mod 4096) else mem s x.

Definition unprotected s (sec : Z) : Prop :=
  ∀ x, x / 4096 = sec → fb_prot (fb_status (bus s)) x = false.

Lemma sector_addr n : 0 <= n < 256 → ∀ base, 0 <= base → base mod 256 = 0 →
  flash_off (u32 ((base + n) * INSIDE_FLS_SECTOR_SIZE)) = n * 4096.
Proof.
  intros Hn base Hb Hm. rewrite flash_off_u32. unfold INSIDE_FLS_SECTOR_SIZE. dlia.
Qed.

Lemma wp_erase_sector sec s (Q : Z → fls B T → Prop) : 0 <= sec < 256 →
  ∀ adr, flash_off adr = sec * 4096 → unprotected s sec →
  (∀ r s', sector_write s s' sec (λ _ _, 255) → Q r s') →
  wp (on_bus (eraseSector adr)) Q s.
Proof.
  intros Hsec adr Ha Hp HQ. unfold on_bus. apply wp_lift.
  eapply wp_mono; [apply wp_eraseSector; apply Hp; rewrite Ha; dlia|].
  intros r b' [Hs Hm]. apply HQ. exists b'. split; [done|]. split; [done|].
  intros x Hx. rewrite Hm by done. by rewrite Ha, Z.div_mul by lia.
Qed.

(** Programming only clears bits. *)
Lemma wp_program_sector sec n cache s (Q : unit → fls B T → Prop) : 0 <= sec < 256 →
  flash_off (u32 (n * INSIDE_FLS_SECTOR_SIZE)) = sec * 4096 →
  blen cache = 4096 → bytes_ok cache → unprotected s sec →
  (∀ s', sector_write s s' sec (λ old i, Z.land old (default 0 (byte_at cache i))) → Q tt s') →
  wp (program_sector n cache) Q s.
Proof.
  intros Hsec Hn Hl Hok Hp HQ. rewrite flash_off_u32 in Hn. unfold INSIDE_FLS_SECTOR_SIZE in Hn.
  unfold program_sector. apply wp_for_loop with (I := λ i s', ∃ b', s' = set_bus b' s ∧
    fb_status b' = fb_status (bus s) ∧ ∀ x, 0 <= x < 0x100000 →
      fb_mem b' x = if (x / 4096 =? sec) && (x mod 4096 <? i * 256)
        then Z.land (mem s x) (default 0 (byte_at cache (x mod 4096))) else mem s x).
  - exists (bus s). split; [by destruct s|]. split; [done|]. intros x Hx.
    by replace ((x / 4096 =? sec) && (x mod 4096 <? 0 * 256))%bool with false by dlia.
  - intros i s' Hi (b' & -> & Hst & Hm). wp_step. unfold on_bus. apply wp_lift.
    cbn [bus set_bus]. unfold INSIDE_FLS_SECTOR_SIZE, INSIDE_FLS_PAGE_SIZE.
    assert (flash_off (u32 (n * 4096 + i * 256)) = sec * 4096 + i * 256) as Ho
      by (rewrite flash_off_u32; dlia).
    eapply wp_mono; [apply wp_programPage|].
    + unfold blen in *. rewrite length_drop. lia.
    + by apply Forall_drop.
    + rewrite Ho. dlia.
    + rewrite Hst. apply Hp. rewrite Ho. dlia.
    + intros _ b2 [Hst2 Hm2]. apply wp_ret. exists b2. split; [done|].
      split; [congruence|]. intros x Hx. rewrite Hm2, Hm, Ho by done. clear Hm2 Hm.
      destruct (Z.eqb_spec (x / 256) ((sec * 4096 + i * 256) / 256)).
      * replace ((x / 4096 =? sec) && (x mod 4096 <? i * 256))%bool with false by dlia.
        replace ((x / 4096 =? sec) && (x mod 4096 <? (i + 1) * 256))%bool with true by dlia.
        do 2 f_equal. rewrite !byte_at_lookup by dlia. rewrite lookup_drop. f_equal. dlia.
      * by replace ((x / 4096 =? sec) && (x mod 4096 <? (i + 1) * 256))%bool with
          ((x / 4096 =? sec) && (x mod 4096 <? i * 256))%bool by dlia.
  - intros s' (b' & -> & Hst & Hm). apply HQ. exists b'. split; [done|]. split; [done|].
    intros x Hx. rewrite Hm by done.
    by replace ((x / 4096 =? sec) && (x mod 4096 <? (0 + Z.of_nat 16) * 256))%bool
      with (x / 4096 =? sec) by dlia.
Qed.

Lemma land_255_u8 x : is_u8 x → Z.land 255 x = x.
Proof.
  intros Hx. rewrite Z.land_comm. change 255 with (Z.ones 8). rewrite Z.land_ones by lia.
  by apply u8_id.
Qed.

(** Erasing and programming a sector makes it the cache. *)
Lemma sector_rewrite s s1 s2 sec cache : bytes_ok cache → blen cache = 4096 →
  sector_write s s1 sec (λ _ _, 255) →
  sector_write s1 s2 sec (λ old i, Z.land old (default 0 (byte_at cache i))) →
  sector_write s s2 sec (λ _ i, default 0 (byte_at cache i)).
Proof.
  intros Hok Hl (b1 & -> & Hs1 & Hm1) (b2 & -> & Hs2 & Hm2). exists b2.
  split; [done|]. split; [by rewrite Hs2|]. intros x Hx. rewrite Hm2 by done.
  change (mem (set_bus b1 s) x) with (fb_mem b1 x). rewrite Hm1 by done. case_if; [|done].
  destruct (byte_at_is_Some cache (x mod 4096)) as [v Hv]; [rewrite Hl; dlia|].
  rewrite Hv. simpl. eapply land_255_u8, byte_at_ok; done.
Qed.

(** The rest of the driver's state, the allocator's aside. *)
Definition heap_ok s : Prop := ∀ k, hp s k ≠ None.
Definition wrote s s' (o : Z) (data : list Z) : Prop :=
  ∃ b' h', s' = set_hp h' (set_bus b' s) ∧ heap_ok s' ∧ fb_status b' = fb_status (bus s) ∧
  ∀ x, 0 <= x < 0x100000 →
    mem s' x = if (o <=? x) && (x <? o + blen data)
               then default 0 (byte_at data (x - o)) else mem s x.

Lemma wrote_nil s o : heap_ok s → wrote s s o [].
Proof.
  intros Hh. exists (bus s), (hp s). split; [by destruct s|]. do 2 (split; [done|]).
  intros x Hx. change (blen []) with 0. by replace ((o <=? x) && (x <? o + 0))%bool with false by lia.
Qed.

(** One round: the sector read, the new bytes laid over it and written back
    extend what has been written. *)
Lemma wrote_sector s s1 s2 s3 o data new :
  let c := (o + blen data) mod 4096 in
  let sec := (o + blen data) / 4096 in
  wrote s s1 o data → 0 <= o → o + blen data + blen new <= 0x100000 →
  c + blen new <= 4096 → 0 < blen new → heap_ok s2 →
  bus_only (set_hp (next_heap s1) s1) s2 →
  sector_write s2 s3 sec (λ _ i, default 0
    (byte_at (splice (flash_bytes s1 (sec * 4096) 4096) c new) i)) →
  wrote s s3 o (data ++ new).
Proof.
  intros c sec (b1 & h1 & -> & Hh1 & Hst1 & Hm1) Ho Hlen Hc Hnew Hh2 (b2 & -> & Hst2 & Hm2)
    (b3 & -> & Hst3 & Hm3).
  exists b3, (hp (set_bus b2 (set_hp (next_heap (set_hp h1 (set_bus b1 s))) (set_hp h1 (set_bus b1 s))))).
  split; [done|]. split; [exact Hh2|].
  cbn [bus set_bus set_hp] in *. split; [congruence|]. intros x Hx.
  unfold mem at 1. cbn [bus set_bus set_hp]. rewrite Hm3 by done. clear Hm3.
  pose proof (blen_nonneg data). rewrite blen_app.
  assert (c = (o + blen data) mod 4096) as Hceq by done. assert (sec = (o + blen data) / 4096) as Hseq by done.
  clearbody c sec.
  assert (mem (set_bus b2 (set_hp (next_heap (set_hp h1 (set_bus b1 s))) (set_hp h1 (set_bus b1 s)))) x
    = mem (set_hp h1 (set_bus b1 s)) x) as -> by apply Hm2.
  destruct (Z.eqb_spec (x / 4096) sec) as [Hsec|Hsec].
  - rewrite byte_at_splice by (unfold flash_bytes; rewrite ?blen_fmap_seqZ by lia; dlia).
    destruct (decide (o + blen data <= x < o + blen data + blen new)) as [Hin|Hin].
    + replace ((c <=? x mod 4096) && (x mod 4096 <? c + blen new))%bool with true by dlia.
      replace ((o <=? x) && (x <? o + (blen data + blen new)))%bool with true by lia.
      f_equal. rewrite !byte_at_lookup by dlia. rewrite lookup_app_r by (unfold blen in *; lia).
      f_equal. unfold blen in *. dlia.
    + replace ((c <=? x mod 4096) && (x mod 4096 <? c + blen new))%bool with false by dlia.
      unfold flash_bytes. rewrite byte_at_fmap_seqZ by dlia. simpl.
      replace (sec * 4096 + x mod 4096) with x by dlia. rewrite Hm1 by done.
      replace ((o <=? x) && (x <? o + (blen data + blen new)))%bool with
        ((o <=? x) && (x <? o + blen data))%bool by lia. case_if; [|done].
      f_equal. rewrite !byte_at_lookup by lia. by rewrite lookup_app_l by (unfold blen in *; lia).
  - rewrite Hm1 by done.
    replace ((o <=? x) && (x <? o + (blen data + blen new)))%bool with
      ((o <=? x) && (x <? o + blen data))%bool by dlia. case_if; [|done].
    f_equal. rewrite !byte_at_lookup by lia. by rewrite lookup_app_l by (unfold blen in *; lia).
Qed.
End writes_ok.

Section write_loop.
Context {B T : Type} `{FlashBusOk B} `{!SpiFls T}.
Implicit Types (s : fls B T) (buf : list Z).

Lemma heap_ok_next s s1 : heap_ok s → bus_only (set_hp (next_heap s) s) s1 → heap_ok s1.
Proof. intros Hh (b' & -> & _) k. apply (Hh (S k)). Qed.
Lemma sector_write_hp s s' sec f : sector_write s s' sec f → hp s' = hp s.
Proof. by intros (b' & -> & _). Qed.
Lemma sector_write_unprotected s s' sec f n :
  sector_write s s' sec f → unprotected s n → unprotected s' n.
Proof. intros (b' & -> & Hst & _) Hu x Hx. cbn [bus set_bus]. rewrite Hst. by apply Hu. Qed.
Lemma bus_only_unprotected s s' h n :
  bus_only (set_hp h s) s' → unprotected s n → unprotected s' n.
Proof. intros (b' & -> & Hst & _) Hu x Hx. cbn [bus set_bus set_hp] in *. rewrite Hst. by apply Hu. Qed.
Lemma wrote_unprotected s s' o data n : wrote s s' o data → unprotected s n → unprotected s' n.
Proof.
  intros (b' & h' & -> & _ & Hst & _) Hu x Hx. cbn [bus set_bus set_hp]. rewrite Hst. by apply Hu.
Qed.

(** One round of the loop, up to the test that ends it. *)
Lemma wp_write_round s0 s o buf d n cache (Q : list Z → fls B T → Prop) :
  let c := (o + d) mod 4096 in let sec := (o + d) / 4096 in
  wrote s0 s o (slice buf 0 d) → 0 <= o → 0 <= d → d + n <= blen buf → 0 < n → c + n <= 4096 →
  o + d + n <= 0x100000 → bytes_ok buf → blen cache = 4096 → unprotected s0 sec →
  (∀ cache' s', blen cache' = 4096 → wrote s0 s' o (slice buf 0 (d + n)) → Q cache' s') →
  wp (let* ' (_, cache) := flashRead (u32 (sec * INSIDE_FLS_SECTOR_SIZE)) cache
                             INSIDE_FLS_SECTOR_SIZE in
      on_bus (eraseSector (u32 (sec * INSIDE_FLS_SECTOR_SIZE))) ;;
      let* cache := of_opt (memcpy cache c buf d n) in
      program_sector sec cache ;; ret cache)%C Q s.
Proof.
  intros c sec Hw Ho Hd Hdn Hn Hcn Hmax Hok Hl Hu HQ.
  assert (c = (o + d) mod 4096 ∧ sec = (o + d) / 4096) as [Hc Hsec] by done. clearbody c sec.
  assert (flash_off (u32 (sec * INSIDE_FLS_SECTOR_SIZE)) = sec * 4096) as Hfo
    by (rewrite flash_off_u32; unfold INSIDE_FLS_SECTOR_SIZE; dlia).
  assert (heap_ok s) as Hh by by destruct Hw as (? & ? & ? & ? & ?).
  wp_step. apply wp_flashRead; [apply u32_range|rewrite Hl; unfold INSIDE_FLS_SECTOR_SIZE; lia| | |].
  { rewrite Hfo. unfold INSIDE_FLS_SECTOR_SIZE. dlia. }
  2:{ intros Hnone. by destruct (Hh O). }
  intros _ s2 Hs2. rewrite Hfo. change (flash_bytes s (sec * 4096) INSIDE_FLS_SECTOR_SIZE) with (flash_bytes s (sec * 4096) 4096).
  assert (blen (flash_bytes s (sec * 4096) 4096) = 4096) as Hfb by by apply blen_fmap_seqZ.
  rewrite splice_all by lia.
  assert (unprotected s2 sec) as Hu2 by eauto using bus_only_unprotected, wrote_unprotected.
  wp_step. apply (wp_erase_sector sec); [dlia|exact Hfo|done|]. intros _ s3 Hs3.
  assert (blen (slice buf d n) = n) as Hsl by (apply blen_slice; lia).
  rewrite memcpy_Some by dlia.
  set (cache' := splice (flash_bytes s (sec * 4096) 4096) c (slice buf d n)).
  assert (blen cache' = 4096) as Hl' by (unfold cache'; rewrite blen_splice; dlia).
  assert (bytes_ok cache') as Hok'.
  { apply bytes_ok_splice; [apply bytes_ok_fmap; intros; apply fb_mem_u8|by apply bytes_ok_slice]. }
  wp_step. eapply wp_of_opt; [done|]. wp_step.
  apply (wp_program_sector sec); [dlia|exact Hfo|done|done|by eapply sector_write_unprotected|].
  intros s4 Hs4. apply wp_ret, HQ; [done|].
  pose proof (sector_rewrite _ _ _ _ _ Hok' Hl' Hs3 Hs4) as Hs24.
  assert (blen (slice buf 0 d) = d) as Hsd by (apply blen_slice; lia).
  rewrite <- (slice_app buf 0 d n) by lia. rewrite Z.add_0_l.
  eapply (wrote_sector s0 s s2); rewrite ?Hsd; subst c sec; eauto; try lia.
  eapply heap_ok_next; eauto.
Qed.

Lemma wp_write_loop fuel : ∀ s0 s o buf d L secremain cache,
  wrote s0 s o (slice buf 0 d) → 0 <= o → 0 <= d < L → L <= blen buf → o + L <= 0x100000 →
  bytes_ok buf → blen cache = 4096 → (∀ x, o <= x < o + L → unprotected s0 (x / 4096)) →
  secremain = Z.min (L - d) (4096 - (o + d) mod 4096) →
  L - d + (o + d) mod 4096 <= 4096 * Z.of_nat fuel →
  wp (tls_fls_write_loop fuel ((o + d) / 4096) ((o + d) mod 4096) secremain (L - d) buf d cache)
    (λ r s', (r.1 + r.2 = L ∧ d <= r.1 ∧ 0 < r.2 <= 4096 ∧ (r.1 = d ∨ (o + r.1) mod 4096 = 0)) ∧
      wrote s0 s' o (slice buf 0 L)) s.
Proof.
  induction fuel as [|fuel IH]; intros s0 s o buf d L n cache Hw Ho Hd HL Hmax Hok Hl Hu Hn Hf;
    [dlia|].
  cbn [tls_fls_write_loop].
  pose proof (wp_write_round s0 s o buf d n cache
    (λ _ s', ∃ cache', blen cache' = 4096 ∧ wrote s0 s' o (slice buf 0 (d + n)))) as Hround.
  assert (∀ (k : list Z → M (fls B T) (Z * Z)) Q,
    (∀ c s', blen c = 4096 → wrote s0 s' o (slice buf 0 (d + n)) → wp (k c) Q s') →
    wp (let* ' (_, cache) := flashRead (u32 ((o + d) / 4096 * INSIDE_FLS_SECTOR_SIZE)) cache
                               INSIDE_FLS_SECTOR_SIZE in
        on_bus (eraseSector (u32 ((o + d) / 4096 * INSIDE_FLS_SECTOR_SIZE))) ;;
        let* cache := of_opt (memcpy cache ((o + d) mod 4096) buf d n) in
        program_sector ((o + d) / 4096) cache ;; k cache)%C Q s) as Hk.
  { intros k Q Hk. clear Hround.
    assert (∀ (m : M (fls B T) (Z * list Z)) (e : M (fls B T) Z) (cp : list Z → option (list Z))
        (pr : list Z → M (fls B T) unit) s,
      wp (let* c := (let* ' (_, cache) := m in e ;; let* cache := of_opt (cp cache) in
                     pr cache ;; ret cache) in k c)%C Q s →
      wp (let* ' (_, cache) := m in e ;; let* cache := of_opt (cp cache) in pr cache ;; k cache)%C Q s)
      as Hassoc.
    { intros m e cp pr s1. unfold wp, bind, of_opt, ret. destruct (m s1) as [[[? c] s2]|]; [|done].
      destruct (e s2) as [[? s3]|]; [|done]. destruct (cp c) as [c'|]; [|done].
      by destruct (pr c' s3) as [[? s4]|]. }
    apply (Hassoc _ _ (λ cache, memcpy cache ((o + d) mod 4096) buf d n) (program_sector ((o + d) / 4096))).
    wp_step. apply (wp_write_round s0 s o buf d n); try dlia; try done; apply Hu; lia. }
  apply Hk. clear Hk Hround. intros c s' Hc Hs'. case_if.
  { apply wp_ret. simpl. replace L with (d + n) by lia. split; [dlia|done]. }
  assert (n = 4096 - (o + d) mod 4096) as Hn' by lia.
  replace (u32 ((o + d) / 4096 + 1)) with ((o + (d + n)) / 4096) by (unfold u32, wrap; change (2 ^ 32) with 4294967296; dlia).
  assert ((o + (d + n)) mod 4096 = 0) as Hz by dlia.
  replace (L - d - n) with (L - (d + n)) by lia.
  pose proof (IH s0 s' o buf (d + n) L) as IH'. rewrite Hz in IH'.
  eapply wp_mono; [apply IH'; try done; try lia; unfold INSIDE_FLS_SECTOR_SIZE;
    [dlia|case_if; lia]|].
  intros r s'' [Hr Hw'']. split; [dlia|done].
Qed.
End write_loop.

(** ** Reads, writes and erases of the first flash *)

Section fls_ok.
Context {B T : Type} `{FlashBusOk B} `{!SpiFls T}.
Implicit Types (s : fls B T) (buf : list Z).

(** The driver is installed, its lock is free and memory is not exhausted. *)
Definition ready s : Prop :=
  inside_fls s = Some 1 ∧ inner1flashsize s <= 0x100000 ∧ heap_ok s.
(** The offset of an address, as the driver masks it. *)
Definition offaddr (addr : Z) : Z := Z.land addr (INSIDE_FLS_BASE_ADDR - 1).
(** A request the first flash serves alone. *)
Definition in_first s (addr len : Z) : Prop :=
  is_u32 addr ∧ addr < FLASH_1M_END_ADDR ∧ 0 < len ∧
  offaddr addr + len <= inner1flashsize s ∧
  (inner2flashsize s = 0 ∨ addr + len < FLASH_1M_END_ADDR).

Lemma offaddr_mod addr : offaddr addr = addr mod 0x8000000.
Proof.
  unfold offaddr, INSIDE_FLS_BASE_ADDR. change (0x8000000 - 1) with (Z.ones 27).
  by rewrite Z.land_ones.
Qed.
Lemma in_first_facts s addr len : ready s → in_first s addr len →
  flash_off addr = offaddr addr ∧ 0 <= offaddr addr ∧ offaddr addr + len <= 0x100000 ∧
  u32 (addr + len) = addr + len ∧ addr + len <= FLASH_1M_END_ADDR.
Proof.
  intros (_ & Hs & _) (Ha & Hend & Hl & Ho & _). rewrite flash_off_mod, offaddr_mod in *.
  unfold FLASH_1M_END_ADDR, is_u32 in *.
  assert (addr + len <= 0x8100000) by dlia.
  repeat split; try dlia. apply u32_id. unfold is_u32. lia.
Qed.

(** The second flash has no part in such a request. *)
Lemma second_part_none s addr len total : ready s → in_first s addr len →
  inner2flashsize s = 0 ∨ second_part addr len len total = None.
Proof.
  intros Hs Hin. destruct (in_first_facts s addr len Hs Hin) as (_ & _ & _ & Hu & _).
  destruct Hin as (Ha & Hend & Hl & Ho & [?|Hlt]); [by left|]. right.
  unfold second_part. rewrite Hu.
  replace (FLASH_1M_END_ADDR <=? addr) with false by lia.
  by replace (FLASH_1M_END_ADDR <=? addr + len) with false by lia.
Qed.

(** The part of a read the first flash takes, [L] bytes; what follows is the
    request to the second flash. *)
Definition read_second (addr len err L : Z) (buf : option (list Z)) : M (fls B T) (Z * option (list Z)) :=
  (let* inner2 := gets inner2flashsize in
   let* total := gets flashtotalsize in
   if truth inner2 then
     match second_part addr len L total with
     | Some (a2, l2) =>
         let* p := of_opt (ptr_add buf L) in
         let* ' (err, p') := on_spi (tls_spifls_read (Z.land a2 0xFFFFF) p l2) in
         ret (err, match buf, p' with
                   | Some b, Some b' => Some (take (Z.to_nat L) b ++ b')
                   | _, _ => buf
                   end)
     | None => ret (err, buf)
     end
   else ret (err, buf))%C.
Lemma wp_read_first addr buf len L s (Q : Z * option (list Z) → fls B T → Prop) :
  ready s → is_u32 addr → addr < FLASH_1M_END_ADDR → flash_off addr = offaddr addr →
  L = (if u32 (addr + len) <=? FLASH_1M_END_ADDR then len else FLASH_1M_END_ADDR - addr) →
  0 < L → offaddr addr < inner1flashsize s → offaddr addr + L <= 0x100000 → L <= blen buf →
  (∀ s', bus_only (set_hp (next_heap s) s) s' →
     wp (read_second addr len TLS_FLS_STATUS_OK L (Some (splice buf 0 (flash_bytes s (offaddr addr) L)))) Q s') →
  wp (tls_fls_read addr (Some buf) len) Q s.
Proof.
  intros (Hsem & Hi1 & Hh) Ha Hlt Hfo HL Hpos Ho1 Hmax Hl HQ.
  unfold tls_fls_read. rewrite (proj2 (Z.ltb_lt _ _)) by done. rewrite <- HL.
  wp_steps. rewrite Hsem. fold (offaddr addr).
  rewrite (proj2 (Z.leb_gt _ _)), (proj2 (Z.eqb_neq _ _)) by lia. cbn [orb].
  wp_step. eapply wp_sem_acquire; [done|lia|].
  set (s1 := set_inside_fls (Some (1 - 1)) s).
  wp_step. apply wp_flashRead; [done|lia|by rewrite Hfo| |intros Hn; by destruct (Hh O)].
  rewrite Hfo. intros _ s2 Hs2. destruct Hs2 as (b' & -> & Hb').
  wp_step. eapply wp_sem_release; [done|]. apply HQ.
  exists b'. split; [|exact Hb']. destruct s. cbn in *. by subst.
Qed.

(** A read the first flash serves copies the flash's bytes to the buffer,
    reports success, leaves the flash as it was and the lock free. *)
Lemma wp_tls_fls_read addr buf len s : ready s → in_first s addr len → len <= blen buf →
  wp (tls_fls_read addr (Some buf) len) (λ r s',
    r = (TLS_FLS_STATUS_OK, Some (splice buf 0 (flash_bytes s (offaddr addr) len))) ∧
    bus_only (set_hp (next_heap s) s) s') s.
Proof.
  intros Hs Hin Hl. destruct (in_first_facts s addr len Hs Hin) as (Hfo & Ho & Hmax & Hu & Hend).
  pose proof (second_part_none s addr len (flashtotalsize s) Hs Hin) as H2.
  destruct Hin as (Ha & Hlt & Hpos & Ho1 & _).
  apply (wp_read_first _ _ _ len); try done; [rewrite Hu; case_if; [done|lia]|lia|].
  intros s' Hs'. unfold read_second. wp_steps.
  assert (inner2flashsize s' = inner2flashsize s ∧ flashtotalsize s' = flashtotalsize s) as [-> ->].
  { by destruct Hs' as (b' & -> & _). }
  destruct H2 as [-> | ->]; [done|]. case_if; by apply wp_ret.
Qed.

(** The part of a write the first flash takes, [L] bytes; what follows is the
    request to the second flash. *)
Definition write_second (addr len : Z) (buf : list Z) (boff rest : Z) (s : fls B T)
    : option (Z * fls B T) :=
  if truth (inner2flashsize s) then
    match second_part addr len rest (flashtotalsize s) with
    | Some (a2, l2) =>
        match ptr_add (Some buf) (boff + rest) with
        | Some p => on_spi (tls_spifls_write (Z.land a2 0xFFFFF) p l2) s
        | None => None
        end
    | None => Some (TLS_FLS_STATUS_OK, s)
    end
  else Some (TLS_FLS_STATUS_OK, s).

Lemma write_first addr buf len L s :
  ready s → is_u32 addr → addr < FLASH_1M_END_ADDR → flash_off addr = offaddr addr →
  L = (if u32 (addr + len) <=? FLASH_1M_END_ADDR then len else FLASH_1M_END_ADDR - addr) →
  0 < L → offaddr addr < inner1flashsize s → offaddr addr + L <= 0x100000 → L <= blen buf →
  bytes_ok buf → (∀ x, offaddr addr <= x < offaddr addr + L → unprotected s (x / 4096)) →
  ∃ boff rest s', (boff + rest = L ∧ 0 <= boff ∧ 0 < rest <= 4096 ∧
      (boff = 0 ∨ (offaddr addr + boff) mod 4096 = 0)) ∧
    wrote s s' (offaddr addr) (slice buf 0 L) ∧
    tls_fls_write addr (Some buf) len s = write_second addr len buf boff rest s'.
Proof.
  intros (Hsem & Hi1 & Hh) Ha Hlt Hfo HL Hpos Ho1 Hmax Hl Hok Hup.
  assert (0 <= offaddr addr) as Ho by (rewrite <- Hfo; apply flash_off_range).
  assert (wp (alloc INSIDE_FLS_SECTOR_SIZE) (λ c s2, s2 = set_hp (next_heap s) (set_inside_fls (Some 0) s)
    ∧ ∃ cache, c = Some cache ∧ blen cache = 4096) (set_inside_fls (Some 0) s)) as Halloc.
  { apply wp_alloc. change (hp (set_inside_fls _ s) O) with (hp s O).
    destruct (hp s O) eqn:Hhp; [|by destruct (Hh O)]. intros c Hc _. eauto. }
  apply wp_total in Halloc as (c & s1 & Halloc & -> & cache & -> & Hcl). set (s1 := set_hp _ _) in *.
  assert (wrote s1 s1 (offaddr addr) (slice buf 0 0)) as Hw0 by (apply wrote_nil; intros k; apply Hh).
  pose proof (wp_write_loop (Z.to_nat (L / 4096 + 2)) s1 s1 (offaddr addr) buf 0 L
    (if L <=? 4096 - offaddr addr mod 4096 then L else 4096 - offaddr addr mod 4096) cache
    Hw0 Ho ltac:(lia) Hl Hmax Hok Hcl Hup ltac:(rewrite Z.add_0_r; case_if; lia) ltac:(dlia)) as Hloop.
  rewrite !Z.add_0_r, Z.sub_0_r in Hloop.
  apply wp_total in Hloop as ([boff rest] & s2 & Hloop & Hr & (b2 & h2 & -> & Hh2 & Hst2 & Hm2)).
  cbn [fst snd] in Hr. exists boff, rest, (set_hp h2 (set_bus b2 s)).
  split; [done|]. split; [by exists b2, h2|].
  unfold tls_fls_write, bind, gets. replace (addr <? FLASH_1M_END_ADDR) with true by lia.
  rewrite <- HL, Hsem. fold (offaddr addr).
  replace ((inner1flashsize s <=? offaddr addr) || (L =? 0))%bool with false by lia.
  unfold sem_acquire at 1. unfold bind, gets, modify. rewrite Hsem. change (0 <? 1) with true.
  change (1 - 1) with 0. cbv beta iota. rewrite Halloc. unfold INSIDE_FLS_SECTOR_SIZE.
  cbv beta iota zeta. rewrite Hloop.
  unfold sem_release, bind, gets, modify. cbn [inside_fls set_hp set_bus s1 set_inside_fls].
  change (0 + 1) with 1. replace (set_inside_fls (Some 1) _) with (set_hp h2 (set_bus b2 s))
    by (unfold s1; destruct s; cbn in *; by subst).
  unfold write_second. destruct (truth _); [|done].
  destruct (second_part _ _ _ _) as [[a2 l2]|]; [|done]. unfold of_opt.
  by destruct (ptr_add _ _).
Qed.

(** A write the first flash serves changes the bytes of its range to the
    buffer's and no other byte, whatever sectors the range straddles, reports
    success and frees the lock. *)
Lemma wp_tls_fls_write addr buf len s : ready s → in_first s addr len → len <= blen buf →
  bytes_ok buf → (∀ x, offaddr addr <= x < offaddr addr + len → unprotected s (x / 4096)) →
  wp (tls_fls_write addr (Some buf) len) (λ r s',
    r = TLS_FLS_STATUS_OK ∧ wrote s s' (offaddr addr) (slice buf 0 len)) s.
Proof.
  intros Hs Hin Hl Hok Hup. destruct (in_first_facts s addr len Hs Hin) as (Hfo & Ho & Hmax & Hu & Hend).
  pose proof (second_part_none s addr len (flashtotalsize s) Hs Hin) as H2.
  destruct Hs as (Hsem & Hi1 & Hh), Hin as (Ha & Hlt & Hpos & Ho1 & H2').
  destruct (write_first addr buf len len s) as (boff & rest & s2 & _ & Hw & Hrun);
    try done; try lia; [rewrite Hu; case_if; lia|].
  unfold wp. rewrite Hrun. clear Hrun. destruct Hw as (b2 & h2 & -> & Hw).
  assert (inner2flashsize s = 0 ∨ second_part addr len rest (flashtotalsize s) = None) as H2r.
  { destruct H2' as [?|Hlt2]; [by left|right]. unfold second_part. rewrite Hu.
    replace (FLASH_1M_END_ADDR <=? addr) with false by lia.
    by replace (FLASH_1M_END_ADDR <=? addr + len) with false by lia. }
  unfold write_second. cbn [inner2flashsize flashtotalsize set_bus set_hp].
  assert (wrote s (set_hp h2 (set_bus b2 s)) (offaddr addr) (slice buf 0 len)) by by exists b2, h2.
  destruct H2r as [-> | ->]; [done|]. by case_if.
Qed.

(** An erase of a sector of the first flash sets its 4096 bytes to 0xFF
    and changes nothing else. *)
Lemma wp_tls_fls_erase sector s : ready s → 0x8000 <= sector →
  (sector - 0x8000 + 1) * 4096 <= inner1flashsize s → unprotected s (sector - 0x8000) →
  wp (tls_fls_erase sector) (λ r s', r = TLS_FLS_STATUS_OK ∧
    sector_write s s' (sector - 0x8000) (λ _ _, 255)) s.
Proof.
  intros (Hsem & Hi1 & Hh) Hlo Hhi Hu. unfold tls_fls_erase. wp_steps.
  change (INSIDE_FLS_BASE_ADDR / INSIDE_FLS_SECTOR_SIZE) with 0x8000.
  unfold INSIDE_FLS_SECTOR_SIZE. replace (sector <? inner1flashsize s / 4096 + 0x8000) with true by dlia.
  rewrite Hsem. wp_step. eapply wp_sem_acquire; [done|lia|]. wp_step.
  apply (wp_erase_sector (sector - 0x8000)); [lia| |exact Hu|].
  { rewrite flash_off_u32. dlia. }
  intros _ s2 (b' & -> & Hb'). wp_step. eapply wp_sem_release; [done|]. apply wp_ret.
  split; [done|]. exists b'. split; [destruct s; cbn in *; by subst|exact Hb'].
Qed.

(** The requests the driver refuses leave the driver and the flash as they
    were: before the driver is installed, with a null buffer, an offset past
    the first flash or no bytes, and when the sector cache cannot be had (only
    the allocator moves then). *)
Theorem tls_fls_write_errors addr obuf len s : addr < FLASH_1M_END_ADDR →
  let lenfor1M := if u32 (addr + len) <=? FLASH_1M_END_ADDR then len
                  else FLASH_1M_END_ADDR - addr in
  match inside_fls s with
  | None => tls_fls_write addr obuf len s = Some (TLS_FLS_STATUS_EPERM, s)
  | Some sem =>
      match obuf with
      | None => tls_fls_write addr obuf len s = Some (TLS_FLS_STATUS_EINVAL, s)
      | Some _ =>
          if (inner1flashsize s <=? offaddr addr) || (lenfor1M =? 0)
          then tls_fls_write addr obuf len s = Some (TLS_FLS_STATUS_EINVAL, s)
          else 0 < sem → hp s O = None →
            tls_fls_write addr obuf len s = Some (TLS_FLS_STATUS_ENOMEM, set_hp (next_heap s) s)
      end
  end.
Proof.
  intros Ha l1. unfold tls_fls_write, bind, gets, ret.
  replace (addr <? FLASH_1M_END_ADDR) with true by lia. fold l1 (offaddr addr).
  destruct (inside_fls s) as [sem|] eqn:Hsem; [|done]. destruct obuf as [buf|]; [|done].
  case_if; [done|]. intros Hpos Hnone. unfold sem_acquire, bind, gets, modify. rewrite Hsem.
  replace (0 <? sem) with true by lia. unfold alloc, lift, malloc. cbn [hp set_inside_fls].
  rewrite Hnone. unfold sem_release, bind, gets, modify, next_heap. cbn [inside_fls set_hp set_inside_fls fmap option_fmap option_map].
  replace (sem - 1 + 1) with sem by lia. by destruct s; cbn in *; subst.
Qed.
End fls_ok.

(** ** A flash controller

    A concrete controller with a whole flash part behind it: the laws can be
    met, and the driver runs on it. *)
Record sim := mk_sim {
  s_cmd : Z;
  s_win : Z → Z;
  s_wel : bool;
  s_status : Z;
  s_mem : Z → Z;
}.

(** Block-protect bits protect the boot loader's sectors. *)
Definition sim_prot (status a : Z) : bool := truth (Z.land status 0x7C) && (a <? 0x2000).
Definition sim_id : Z := 0x1440C8.

Definition sim_go (v : Z) (b : sim) : sim :=
  let a := Z.land (Z.shiftr v 8) 0xFFFFF in
  let c := s_cmd b in
  let set_mem m := mk_sim c (s_win b) false (s_status b) m in
  let set_win0 w := mk_sim c (λ k, if k =? 0 then w else s_win b k) (s_wel b) (s_status b) (s_mem b) in
  if c =? 0x6 then mk_sim c (s_win b) true (s_status b) (s_mem b)
  else if c =? 0x80000820 then
    if s_wel b && negb (sim_prot (s_status b) a)
    then set_mem (λ x, if x / 4096 =? a / 4096 then 255 else s_mem b x) else b
  else if c =? Z.lor 0x80009002 (Z.shiftl 255 16) then
    if s_wel b && negb (sim_prot (s_status b) a)
    then set_mem (λ x, if x / 256 =? a / 256
      then Z.land (u8 (s_mem b x)) (default 0 (byte_at (le32 (s_win b (x mod 256 / 4))) (x mod 4)))
      else s_mem b x) else b
  else if c =? 0x2C09F then set_win0 sim_id
  else if c =? 0x0C005 then set_win0 (s_status b)
  else if c =? 0x0C035 then set_win0 (Z.shiftr (s_status b) 8)
  else if c =? 0x1A001 then
    if s_wel b then mk_sim c (s_win b) false (u16 (s_win b 0)) (s_mem b) else b
  else if Z.land c 0xFC00FFFF =? 0xBC00C00B then
    mk_sim c (λ k, of_le ((λ x, u8 (s_mem b x)) <$> seqZ (a + 4 * k) 4)) (s_wel b)
      (s_status b) (s_mem b)
  else b.

#[export] Instance sim_bus : FlashBus sim := {
  bus_wr a v b :=
    if a =? FLS_CMD then mk_sim v (s_win b) (s_wel b) (s_status b) (s_mem b)
    else if a =? FLS_GO then sim_go v b
    else if (FLS_WIN <=? a) && (a <? FLS_WIN + 1024) && (a mod 4 =? 0) then
      mk_sim (s_cmd b) (λ k, if k =? (a - FLS_WIN) / 4 then v else s_win b k)
        (s_wel b) (s_status b) (s_mem b)
    else b;
  bus_rd a b := s_win b ((a - FLS_WIN) / 4);
}.

Lemma go_addr a : 0 <= a < 0x100000 →
  Z.land (Z.shiftr (Z.lor 0x10000000 (Z.shiftl a 8)) 8) 0xFFFFF = a.
Proof.
  intros Ha. rewrite Z.shiftr_lor, Z.shiftr_shiftl_l, Z.sub_diag, Z.shiftl_0_r by lia.
  rewrite Z.land_lor_distr_l. change (Z.land (Z.shiftr 0x10000000 8) 0xFFFFF) with 0.
  rewrite Z.lor_0_l. change 0xFFFFF with (Z.ones 20). rewrite Z.land_ones by lia.
  by apply Z.mod_small.
Qed.
Lemma read_cmd n : 1 <= n <= 1024 → let c := Z.lor 0xBC00C00B (Z.shiftl (n - 1) 16) in
  Z.land c 0xFC00FFFF = 0xBC00C00B ∧ c ≠ 0x6 ∧ c ≠ 0x80000820 ∧
  c ≠ Z.lor 0x80009002 (Z.shiftl 255 16) ∧ c ≠ 0x2C09F ∧ c ≠ 0x0C005 ∧ c ≠ 0x0C035 ∧ c ≠ 0x1A001.
Proof.
  intros Hn. cbv zeta. assert (forallb (λ n, let c := Z.lor 0xBC00C00B (Z.shiftl (n - 1) 16) in
    bool_decide (Z.land c 0xFC00FFFF = 0xBC00C00B ∧ c ≠ 0x6 ∧ c ≠ 0x80000820 ∧
    c ≠ Z.lor 0x80009002 (Z.shiftl 255 16) ∧ c ≠ 0x2C09F ∧ c ≠ 0x0C005 ∧ c ≠ 0x0C035 ∧ c ≠ 0x1A001))
    (seqZ 1 1024) = true) as Hall by (vm_compute; reflexivity).
  rewrite forallb_forall in Hall. specialize (Hall n). cbv zeta beta in Hall.
  rewrite bool_decide_eq_true in Hall. apply Hall.
  apply list_elem_of_In, elem_of_seqZ. lia.
Qed.

Ltac sim_step :=
  unfold FLS_CMD, FLS_GO, FLS_WIN in *; cbn -[Z.mul Z.add Z.sub Z.div Z.modulo Z.lor Z.land Z.shiftl Z.shiftr sim_prot le32 seqZ u8] in *.

#[export] Program Instance sim_bus_ok : FlashBusOk sim := {
  fb_cmd := s_cmd; fb_win := s_win; fb_wel := s_wel; fb_status := s_status;
  fb_mem b a := u8 (s_mem b a); fb_id := sim_id; fb_prot := sim_prot;
}.
Next Obligation. intros. apply u8_range. Qed.
Next Obligation. done. Qed.
Next Obligation.
  intros k v b Hk. cbn. unfold FLS_WIN, FLS_CMD, FLS_GO.
  replace (0x40002200 + 4 * k =? 0x40002000) with false by lia.
  replace (0x40002200 + 4 * k =? 0x40002004) with false by lia.
  replace (_ && _ && _)%bool with true by dlia. cbn. repeat split.
  intros j. by replace ((0x40002200 + 4 * k - 0x40002200) / 4) with k by dlia.
Qed.
Next Obligation. intros k b Hk. cbn. unfold FLS_WIN. f_equal. dlia. Qed.
Next Obligation. intros b Hc. cbn. unfold sim_go. rewrite Hc. done. Qed.
Next Obligation.
  intros b a Hc Hw Ha Hp. cbn. unfold sim_go. rewrite Hc, go_addr, Hw, Hp by done. cbn.
  split; [done|]. intros x Hx. by destruct (_ =? _).
Qed.
Next Obligation.
  intros b a Hc Hw Ha Hal Hp. cbn. unfold sim_go. rewrite Hc.
  change (Z.lor 0x80009002 (Z.shiftl 255 16)) with 0x80FF9002. rewrite go_addr by exact Ha. rewrite Hw. rewrite Hp. cbn.
  split; [done|]. intros x Hx. destruct (x / 256 =? a / 256); [|done].
  assert (∀ p q, is_u8 p → is_u8 (Z.land p q)) as Hland; [|by apply u8_id, Hland, u8_range].
  intros p q Hpu. assert (Z.land p q = u8 (Z.land p q)) as ->; [|apply u8_range].
  unfold u8, wrap. rewrite <- Z.land_ones by lia. rewrite <- Z.land_assoc, (Z.land_comm q), Z.land_assoc.
  f_equal. rewrite Z.land_ones by lia. symmetry. by apply u8_id.
Qed.
Next Obligation.
  intros b a n Hn Hc Ha Hmax. destruct (read_cmd n Hn) as (Hr & H1 & H2 & H3 & H4 & H5 & H6 & H7).
  cbn. unfold sim_go. rewrite Hc, go_addr, Hr by lia.
  repeat match goal with |- context [?x =? ?y] =>
    first [replace (x =? y) with false by (symmetry; by apply Z.eqb_neq) | rewrite Z.eqb_refl] end.
  cbn [s_status s_mem s_win]. do 2 (split; [done|]). intros i Hi.
  rewrite le32_of_le; [|apply bytes_ok_fmap; intros; apply u8_range|by rewrite length_fmap, length_seqZ].
  rewrite (byte_at_fmap_seqZ (λ x, u8 (s_mem b x))) by dlia. do 3 f_equal. dlia.
Qed.
Next Obligation. intros b Hc. cbn. unfold sim_go. rewrite Hc. done. Qed.
Next Obligation. intros b Hc. cbn. unfold sim_go. rewrite Hc. done. Qed.
Next Obligation. intros b Hc. cbn. unfold sim_go. rewrite Hc. done. Qed.
Next Obligation. intros b Hc Hw. cbn. unfold sim_go. rewrite Hc, Hw. done. Qed.

(** ** The protection bits *)

Section protect.
Context {B : Type} `{FlashBusOk B}.
Implicit Types b : B.

Lemma split16 x : is_u16 x → Z.lor (Z.land x 255) (Z.shiftl (Z.land (Z.shiftr x 8) 255) 8) = x.
Proof.
  intros Hx. apply Z.bits_inj'. intros k Hk. change 255 with (Z.ones 8).
  rewrite Z.lor_spec, Z.land_spec. destruct (Z.lt_ge_cases k 8).
  - rewrite Z.ones_spec_low, Z.shiftl_spec_low by lia. by rewrite andb_true_r, orb_false_r.
  - rewrite Z.ones_spec_high, Z.shiftl_spec_high, Z.land_spec, Z.shiftr_spec by lia.
    rewrite andb_false_r. replace (k - 8 + 8) with k by lia.
    destruct (Z.lt_ge_cases k 16).
    + by rewrite Z.ones_spec_low, andb_true_r by lia.
    + by rewrite (testbit_high x 16) by (unfold is_u16 in Hx; lia).
Qed.

(** The status register with the protect bits replaced. *)
Definition gd_status (status cmp bp : Z) : Z :=
  u16 (Z.lor (Z.lor (Z.land status 0xBF83) bp) (Z.shiftl cmp 14)).

Lemma wp_cmd_go c b (Q : unit → B → Prop) :
  (fb_cmd (bus_wr FLS_CMD c b) = c → Q tt (bus_wr FLS_GO 0x10000000 (bus_wr FLS_CMD c b))) →
  wp (m32_wr 0x40002000 c ;; m32_wr 0x40002004 0x10000000)%C Q b.
Proof. intros HQ. unfold m32_wr. wp_steps. apply HQ. apply wr_cmd. Qed.

Lemma wp_writeGDBpBit cmp bp4 bp3 bp2 bp1 bp0 b : is_u16 (fb_status b) →
  wp (writeGDBpBit cmp bp4 bp3 bp2 bp1 bp0) (λ _ b',
    fb_status b' = gd_status (fb_status b) cmp (bp_bits bp4 bp3 bp2 bp1 bp0) ∧
    ∀ a, fb_mem b' a = fb_mem b a) b.
Proof.
  intros Hst. unfold writeGDBpBit, m32_wr, m32_rd. wp_steps.
  change 0x40002000 with FLS_CMD. change 0x40002004 with FLS_GO.
  change 0x40002200 with (FLS_WIN + 4 * 0). rewrite !rd_win by lia.
  destruct (wr_cmd 0x0C005 b) as (C1 & _ & _ & S1 & M1). set (b1 := bus_wr FLS_CMD _ b) in *.
  destruct (go_rdsr1 b1 C1) as (W2 & S2 & M2). set (b2 := bus_wr FLS_GO _ b1) in *.
  destruct (wr_cmd 0x0C035 b2) as (C3 & _ & _ & S3 & M3). set (b3 := bus_wr FLS_CMD _ b2) in *.
  destruct (go_rdsr2 b3 C3) as (W4 & S4 & M4). set (b4 := bus_wr FLS_GO _ b3) in *.
  destruct (wr_cmd 0x6 b4) as (C5 & _ & _ & S5 & M5). set (b5 := bus_wr FLS_CMD _ b4) in *.
  destruct (go_wren b5 C5) as (E6 & _ & S6 & M6). set (b6 := bus_wr FLS_GO _ b5) in *.
  set (v := Z.lor _ (Z.shiftl cmp 14)).
  destruct (wr_win 0 v b6 ltac:(lia)) as (_ & W7 & E7 & S7 & M7). set (b7 := bus_wr _ v b6) in *.
  destruct (wr_cmd 0x1A001 b7) as (C8 & W8 & E8 & S8 & M8). set (b8 := bus_wr FLS_CMD _ b7) in *.
  destruct (go_wrsr b8 C8) as (S9 & M9); [congruence|].
  split; [|intros a; congruence].
  rewrite S9, W8, W7. change (0 =? 0) with true. cbv iota. unfold gd_status, v.
  do 4 f_equal. change (0xFF) with 255. rewrite W2, W4, S3, S2, S1. by apply split16.
Qed.
End protect.

(** On a GigaDevice part [tls_flash_lock] sets the block-protect bits
    BP4, BP3 and BP1 and [tls_flash_unlock] clears them all; both keep every
    other status bit, the flash and the driver. *)
Theorem flash_lock_unlock {B T} `{FlashBusOk B} (s : fls B T) :
  Z.land fb_id 0xFF = SPIFLASH_MID_GD → is_u16 (fb_status (bus s)) →
  let st := fb_status (bus s) in
  (∃ b', tls_flash_lock s = Some (0, set_bus b' s) ∧
     fb_status b' = u16 (Z.lor (Z.land st 0xBF83) 0x68) ∧ ∀ a, fb_mem b' a = fb_mem (bus s) a) ∧
  (∃ b', tls_flash_unlock s = Some (0, set_bus b' s) ∧
     fb_status b' = u16 (Z.land st 0xBF83) ∧ ∀ a, fb_mem b' a = fb_mem (bus s) a).
Proof.
  intros Hid Hst st.
  assert (∀ cmp bp4 bp3 bp2 bp1 bp0 rest d, wp
    (let* rid := readRID in switch rid ((SPIFLASH_MID_GD,
       writeGDBpBit cmp bp4 bp3 bp2 bp1 bp0 ;; ret 0) :: rest) d)%C
    (λ r b', r = 0 ∧ fb_status b' = gd_status st cmp (bp_bits bp4 bp3 bp2 bp1 bp0) ∧
       ∀ a, fb_mem b' a = fb_mem (bus s) a) (bus s)) as Hrun.
  { intros. unfold readRID, m32_wr, m32_rd. wp_steps.
    change 0x40002000 with FLS_CMD. change 0x40002004 with FLS_GO.
    change 0x40002200 with (FLS_WIN + 4 * 0). rewrite rd_win by lia.
    destruct (wr_cmd 0x2C09F (bus s)) as (C1 & _ & _ & S1 & M1).
    destruct (go_rdid _ C1) as (W2 & S2 & M2). rewrite W2, Hid. cbn [switch].
    rewrite Z.eqb_refl. eapply wp_seq; [apply wp_writeGDBpBit; by rewrite S2, S1|].
    intros _ b' [Hs Hm]. apply wp_ret. split; [done|].
    split; [by rewrite Hs, S2, S1|]. intros a. by rewrite Hm, M2, M1. }
  split.
  - specialize (Hrun 0 1 1 0 1 0 [(SPIFLASH_MID_PUYA, writeGDBpBit 0 1 1 0 1 0 ;; ret 0);
       (SPIFLASH_MID_ESMT, writeESMTBpBit 0 1 1 0 1 0 ;; ret 0)]%C (ret (-1))).
    apply wp_total in Hrun as (r & b' & Hb & -> & Hs & Hm). exists b'.
    split; [unfold tls_flash_lock, on_bus, lift, flashlock; by rewrite Hb|]. split; [|done].
    rewrite Hs. unfold gd_status. change (bp_bits 1 1 0 1 0) with 0x68. by rewrite Z.lor_0_r.
  - specialize (Hrun 0 0 0 0 0 0 [(SPIFLASH_MID_PUYA, writeGDBpBit 0 0 0 0 0 0 ;; ret 0);
       (SPIFLASH_MID_ESMT, writeESMTBpBit 0 0 0 0 0 0 ;; ret 0)]%C (ret (-1))).
    apply wp_total in Hrun as (r & b' & Hb & -> & Hs & Hm). exists b'.
    split; [unfold tls_flash_unlock, on_bus, lift, flashunlock; by rewrite Hb|]. split; [|done].
    rewrite Hs. unfold gd_status. change (bp_bits 0 0 0 0 0) with 0. by rewrite !Z.lor_0_r.
Qed.

(** ** The promises of the driver *)

(** The part a write leaves alone: lock free, sizes, cache and second flash. *)
Definition same_driver {B T} (s s' : fls B T) : Prop :=
  inside_fls s' = inside_fls s ∧ spi s' = spi s ∧ gsflscache s' = gsflscache s ∧
  gsSector s' = gsSector s ∧ inner1flashsize s' = inner1flashsize s ∧
  inner2flashsize s' = inner2flashsize s ∧ flashtotalsize s' = flashtotalsize s.

(** A write the first flash serves (whatever sectors it straddles) reports
    success, makes the bytes of its range those of the buffer, keeps every
    other byte of the flash, frees the lock and keeps the rest of the driver. *)
Theorem tls_fls_write_ok {B T} `{FlashBusOk B} `{!SpiFls T} addr buf len (s : fls B T) :
  ready s → in_first s addr len → len <= blen buf → bytes_ok buf →
  (∀ x, offaddr addr <= x < offaddr addr + len → unprotected s (x / 4096)) →
  ∃ s', tls_fls_write addr (Some buf) len s = Some (TLS_FLS_STATUS_OK, s') ∧ same_driver s s' ∧
    ∀ x, 0 <= x < 0x100000 → mem s' x =
      if (offaddr addr <=? x) && (x <? offaddr addr + len)
      then default 0 (byte_at buf (x - offaddr addr)) else mem s x.
Proof.
  intros Hs Hin Hl Hok Hup.
  pose proof (wp_tls_fls_write addr buf len s Hs Hin Hl Hok Hup) as Hw.
  apply wp_total in Hw as (r & s' & Hrun & -> & (b' & h' & -> & _ & _ & Hm)).
  assert (0 < len) as Hpos by apply Hin.
  exists (set_hp h' (set_bus b' s)). split; [done|]. split; [done|].
  intros x Hx. rewrite Hm by done. rewrite blen_slice by lia. case_if; [|done].
  f_equal. by rewrite byte_at_slice by lia.
Qed.

(** A write that runs past the first flash hands the second flash a
    request of the wrong length: after more than one sector of the first part
    the remaining length is what the last sector left, so the second write is
    given [len - 4096] bytes to take from a buffer of which only [len - L1]
    are left, [L1 > 4096] being the bytes already written. *)
Theorem tls_fls_write_straddle {B T} `{FlashBusOk B} `{!SpiFls T} addr buf len (s : fls B T) :
  ready s → is_u32 addr → inner1flashsize s = 0x100000 →
  let L1 := FLASH_1M_END_ADDR - addr in
  4096 < L1 <= offaddr 0x80FFFFF → L1 <= len → len = blen buf → bytes_ok buf →
  (∀ x, 0x100000 - L1 <= x < 0x100000 → unprotected s (x / 4096)) →
  0 < inner2flashsize s → len < 0x1000000 →
  FLASH_1M_END_ADDR + len <= Z.lor FLASH_BASE_ADDR (flashtotalsize s) →
  ∃ s1, wrote s s1 (offaddr addr) (slice buf 0 L1) ∧
    tls_fls_write addr (Some buf) len s =
      on_spi (tls_spifls_write 0 (Some (drop (Z.to_nat L1) buf)) (len - 4096)) s1 ∧
    blen (drop (Z.to_nat L1) buf) < len - 4096.
Proof.
  intros Hs Ha Hi1 L1 HL1 HL Hlen Hok Hup Hi2 Hmax Htot.
  change (offaddr 0x80FFFFF) with 0xFFFFF in HL1. unfold FLASH_1M_END_ADDR in L1.
  assert (offaddr addr = 0x100000 - L1) as Ho
    by (rewrite offaddr_mod; unfold L1 in *; unfold is_u32 in Ha; dlia).
  assert (flash_off addr = offaddr addr) as Hfo
    by (rewrite Ho, flash_off_mod; unfold L1 in *; unfold is_u32 in Ha; dlia).
  assert (addr = 0x8100000 - L1) as Haddr by (unfold L1; lia). clearbody L1.
  assert (u32 (addr + len) = addr + len) as Hu by (apply u32_id; unfold is_u32 in *; lia).
  cut (∃ s1, wrote s s1 (offaddr addr) (slice buf 0 L1) ∧
    tls_fls_write addr (Some buf) len s =
      on_spi (tls_spifls_write 0 (Some (drop (Z.to_nat L1) buf)) (len - 4096)) s1).
  { intros (s1 & Hw & He). exists s1. do 2 (split; [done|]).
    unfold blen in *. rewrite length_drop. lia. }
  destruct (write_first addr buf len L1 s) as (boff & rest & s1 & Hr & Hw & He);
    try done; rewrite ?Ho; unfold FLASH_1M_END_ADDR; try lia;
    [rewrite Hu; case_if; lia|intros x Hx; apply Hup; lia|].
  exists s1. rewrite <- Ho. split; [done|]. rewrite He. clear He.
  destruct Hw as (b' & h' & -> & _). unfold write_second. cbn [inner2flashsize flashtotalsize set_hp set_bus].
  replace (truth (inner2flashsize s)) with true by (unfold truth; lia).
  assert (rest = 4096) as -> by (rewrite Ho in Hr; dlia).
  unfold second_part, FLASH_1M_END_ADDR in *. rewrite Hu.
  replace (0x8100000 <=? addr) with false by lia.
  replace (0x8100000 <=? addr + len) with true by lia.
  change (0x8100000 =? 0xFFFFFFFF) with false. cbv iota.
  rewrite (u32_id (len - 4096)) by (unfold is_u32; lia).
  rewrite (u32_id (0x8100000 + (len - 4096))) by (unfold is_u32; lia).
  replace (0x8100000 + (len - 4096) <=? Z.lor FLASH_BASE_ADDR (flashtotalsize s)) with true by lia.
  replace (boff + 4096) with L1 by lia. unfold ptr_add.
  by replace ((0 <=? L1) && (L1 <=? blen buf))%bool with true by lia.
Qed.

(** ** The driver as the flash store of its clients *)

Section store.
Context {B T : Type} `{FlashBusOk B} `{!SpiFls T}.
Local Open Scope c_scope.

#[export] Instance fls_dev : FlashDev (fls B T) := {
  fls_read a buf n :=
    let* ' (err, b) := tls_fls_read a (Some buf) n in ret (err, default buf b);
  fls_write a buf n := tls_fls_write a (Some buf) n;
  fls_erase sec := tls_fls_erase sec;
}.

(** A 1 MByte part alone, its boot loader's two sectors being the only ones
    the status register may protect. *)
Definition store_ok (s : fls B T) : Prop :=
  ready s ∧ inner1flashsize s = 0x100000 ∧ inner2flashsize s = 0 ∧
  ∀ x, 0x2000 <= x → fb_prot (fb_status (bus s)) x = false.

Lemma store_offaddr a : 0x8002000 <= a < 0x8100000 → offaddr a = a - 0x8000000.
Proof. intros Ha. rewrite offaddr_mod. dlia. Qed.
Lemma store_in_first s a n : store_ok s → 0x8002000 <= a → a + n <= 0x8100000 → 0 < n →
  in_first s a n.
Proof.
  intros (_ & Hi1 & Hi2 & _) Ha Hn Hpos.
  unfold in_first, is_u32, FLASH_1M_END_ADDR. rewrite store_offaddr, Hi1 by lia.
  repeat split; lia.
Qed.

#[export] Program Instance fls_dev_ok : FlashDevOk (fls B T) := {
  fd_ok := store_ok;
  fd_mem s a := mem s (a - 0x8000000);
  fd_lo := 0x8002000;
  fd_hi := 0x8100000;
}.
Next Obligation. done. Qed.
Next Obligation. done. Qed.
Next Obligation. intros. apply fb_mem_u8. Qed.
Next Obligation.
  intros a buf n s Hs Ha Hn Hl. cbn.
  pose proof (store_in_first s a n Hs Ha Hn ltac:(lia)) as Hin.
  destruct Hs as (Hr & Hi1 & Hi2 & Hp).
  eapply wp_seq; [apply wp_tls_fls_read; done || lia|]. intros [err b] s' ([= -> ->] & Hs').
  assert (flash_bytes s (offaddr a) n = (λ x, mem s (x - 0x8000000)) <$> seqZ a n) as Hb.
  { apply byte_at_ext; unfold flash_bytes; rewrite !blen_fmap_seqZ by lia; [done|].
    intros i Hi. rewrite !byte_at_fmap_seqZ by done. rewrite store_offaddr by lia. do 2 f_equal; lia. }
  apply wp_ret. cbn [default]. split; [by rewrite Hb|].
  destruct Hs' as (b' & -> & Hst & Hm). destruct Hr as (Hsem & Hle & Hh).
  split; [|intros x Hx; apply Hm]. split; [|split; [done|split; [done|]]].
  - split; [done|]. split; [done|]. intros k. apply (Hh (S k)).
  - intros x Hx. cbn [bus set_bus]. rewrite Hst. by apply Hp.
Qed.
Next Obligation.
  intros a buf n s Hs Ha Hn Hl Hok. cbn.
  pose proof (store_in_first s a n Hs Ha Hn ltac:(lia)) as Hin.
  destruct Hs as (Hr & Hi1 & Hi2 & Hp).
  assert (offaddr a = a - 0x8000000) as Ho by (apply store_offaddr; lia).
  eapply wp_mono; [apply wp_tls_fls_write; try done; try lia|].
  { intros x Hx y Hy. apply Hp. rewrite Ho in Hx. dlia. }
  intros r s' (-> & (b' & h' & -> & Hh' & Hst & Hm)). split; [done|].
  destruct Hr as (Hsem & Hle & _). split.
  - split; [done|]. split; [done|]. split; [done|]. intros x Hx. cbn [bus set_bus set_hp].
    rewrite Hst. by apply Hp.
  - intros x Hx. rewrite Hm by lia. rewrite Ho, blen_slice by lia.
    replace ((a - 0x8000000 <=? x - 0x8000000) && (x - 0x8000000 <? a - 0x8000000 + n))%bool
      with ((a <=? x) && (x <? a + n))%bool by lia.
    case_if; [|done]. f_equal. rewrite byte_at_slice by lia. f_equal. lia.
Qed.
Next Obligation.
  intros a buf s ((Hsem & Hle & _) & Hi1 & Hi2 & _) Ha. cbn. unfold tls_fls_write.
  rewrite (proj2 (Z.ltb_lt a FLASH_1M_END_ADDR)) by (unfold FLASH_1M_END_ADDR; lia).
  unfold bind, gets. rewrite Hsem. cbv iota beta.
  replace (u32 (a + 0) <=? FLASH_1M_END_ADDR) with true
    by (rewrite Z.add_0_r, u32_id by (unfold is_u32; lia); unfold FLASH_1M_END_ADDR; lia).
  cbv iota. by rewrite orb_true_r.
Qed.
Next Obligation.
  intros sec s (Hr & Hi1 & Hi2 & Hp) Hlo Hhi. cbn.
  eapply wp_mono; [apply wp_tls_fls_erase; try done; try lia|].
  { intros y Hy. apply Hp. dlia. }
  intros r s' (-> & (b' & -> & Hst & Hm)). split; [done|].
  destruct Hr as (Hsem & Hle & Hh). split.
  - split; [done|]. split; [done|]. split; [done|]. intros x Hx. cbn [bus set_bus].
    rewrite Hst. by apply Hp.
  - intros x Hx. change (fb_mem b' (x - 0x8000000) = if x / 4096 =? sec then 255 else mem s (x - 0x8000000)).
    rewrite Hm by lia.
    by replace ((x - 0x8000000) / 4096 =? sec - 0x8000) with (x / 4096 =? sec) by dlia.
Qed.

(** The driver's answer to one request. *)
Definition driver_op (op : fls_op) : M (fls B T) (Z * list Z) :=
  match op with
  | OpRead a n =>
      let buf := replicate (Z.to_nat n) 0 in
      let* ' (err, b) := tls_fls_read a (Some buf) n in ret (err, default buf b)
  | OpWrite a data => let* r := tls_fls_write a (Some data) (blen data) in ret (r, [])
  | OpErase sec => let* r := tls_fls_erase sec in ret (r, [])
  end.
Definition driver_ops : list fls_op → M (fls B T) (list (Z * list Z)) := run_all driver_op.
End store.

(** A request inside the flash, past the boot loader. *)
Definition op_in_flash (op : fls_op) : Prop :=
  match op with
  | OpRead a n => 0x8002000 <= a ∧ a + n <= 0x8100000 ∧ 0 < n
  | OpWrite a data => 0x8002000 <= a ∧ a + blen data <= 0x8100000 ∧ 0 < blen data ∧ bytes_ok data
  | OpErase sec => 0x8002 <= sec < 0x8100
  end.

(** C1: on any sequence of reads, writes and erases past the boot loader the
    driver behaves as an array of bytes: every request succeeds, every read
    answers what the array holds, and the flash ends as the array does. *)
Theorem driver_refines_array {B T} `{FlashBusOk B} `{!SpiFls T} ops (s : fls B T) (m : Z → Z) :
  store_ok s → Forall op_in_flash ops →
  (∀ x, 0x8002000 <= x < 0x8100000 → mem s (x - 0x8000000) = m x) →
  ∃ s', driver_ops ops s = Some ((λ out, (0, out)) <$> (spec_ops ops m).1, s') ∧ store_ok s' ∧
    ∀ x, 0x8002000 <= x < 0x8100000 → mem s' (x - 0x8000000) = (spec_ops ops m).2 x.
Proof.
  intros Hs Hv Hm.
  assert (Forall (valid_op (F := fls B T)) ops) as Hv'.
  { eapply List.Forall_impl; [|exact Hv]. intros [a n|a data|sec]; cbn; lia || tauto. }
  assert (∀ l, driver_ops (B := B) (T := T) l = run_ops l) as Heq.
  { unfold driver_ops, run_ops. induction l as [|[] l IH]; cbn [run_all]; try rewrite IH; done. }
  pose proof (run_ops_ok ops s m Hs Hv' Hm) as Hrun.
  apply wp_total in Hrun as (r & s' & Hrun & -> & Hs' & Hm').
  exists s'. rewrite Heq. done.
Qed.

(** ** The driver on the concrete controller *)

(** A second flash that is not there: every call reports it. *)
#[export] Instance no_spi : SpiFls unit := {
  tls_spifls_read a buf n := ret (TLS_FLS_STATUS_EPERM, buf);
  tls_spifls_write a buf n := ret TLS_FLS_STATUS_EPERM;
  tls_spifls_erase sec := ret TLS_FLS_STATUS_EPERM;
  tls_spifls_chip_erase := ret TLS_FLS_STATUS_EPERM;
  tls_spifls_read_id := ret (TLS_FLS_STATUS_EIO, 0);
}.
Definition sim_part (status : Z) : sim := mk_sim 0 (λ _, 0) false status (λ a, u8 (a / 16)).
(** The chip after [tls_fls_init], with memory to spare. *)
Definition demo (inner2 : Z) : fls sim unit :=
  mk_fls (sim_part 0) tt (λ _, Some (λ _, 0xAA)) (Some 1) 0x100000 inner2 (0x100000 + inner2) None 0.

Lemma demo_ready inner2 : ready (demo inner2).
Proof. split; [done|]. split; [done|]. intros k. discriminate. Qed.
Lemma demo_unprotected inner2 n : unprotected (demo inner2) n.
Proof. intros x _. reflexivity. Qed.
Lemma demo_store_ok : store_ok (demo 0).
Proof. split; [apply demo_ready|]. do 2 (split; [done|]). intros x _. reflexivity. Qed.

(** Initialisation reads the part's density and finds no second flash. *)
Example demo_init :
  (fst <$> tls_fls_init true (mk_fls (sim_part 0) tt (λ _, Some (λ _, 0xAA)) None 0 0 0 None 0),
   (λ r, (inside_fls r.2, inner1flashsize r.2, flashtotalsize r.2)) <$>
     tls_fls_init true (mk_fls (sim_part 0) tt (λ _, Some (λ _, 0xAA)) None 0 0 0 None 0))
  = (Some 0, Some (Some 1, 0x100000, 0x100000)).
Proof. vm_compute. reflexivity. Qed.

(** Four bytes over a sector boundary. *)
Lemma tls_fls_write_ok_witness :
  ∃ s', tls_fls_write 0x8010FFE (Some [1; 2; 3; 4]) 4 (demo 0) = Some (0, s') ∧
    mem s' 0x10FFF = 2 ∧ mem s' 0x11000 = 3 ∧ mem s' 0x11002 = 0.
Proof.
  destruct (tls_fls_write_ok 0x8010FFE [1; 2; 3; 4] 4 (demo 0)) as (s' & Hrun & _ & Hm).
  - apply demo_ready.
  - repeat split; try done. by left.
  - done.
  - repeat constructor; done.
  - intros x _. apply demo_unprotected.
  - exists s'. split; [exact Hrun|]. split; [|split]; rewrite Hm by lia; vm_compute; reflexivity.
Defined.

(** 12 KBytes of which the last four belong to the second flash. *)
Lemma tls_fls_write_straddle_witness :
  ∃ s1, tls_fls_write 0x80FE000 (Some (replicate (Z.to_nat 12288) 7)) 12288 (demo 0x100000) =
    on_spi (tls_spifls_write 0 (Some (drop (Z.to_nat 8192) (replicate (Z.to_nat 12288) 7))) 8192) s1 ∧
    blen (drop (Z.to_nat 8192) (replicate (Z.to_nat 12288) 7)) < 8192.
Proof.
  destruct (tls_fls_write_straddle 0x80FE000 (replicate (Z.to_nat 12288) 7) 12288 (demo 0x100000))
    as (s1 & _ & Hrun & Hl).
  - apply demo_ready.
  - done.
  - done.
  - vm_compute. split; [reflexivity|discriminate].
  - vm_compute. discriminate.
  - vm_compute. reflexivity.
  - by apply Forall_replicate.
  - intros x _. apply demo_unprotected.
  - vm_compute. reflexivity.
  - vm_compute. reflexivity.
  - vm_compute. discriminate.
  - exists s1. split; [exact Hrun|exact Hl].
Defined.

Lemma driver_refines_array_witness : ∃ s',
  driver_ops [OpWrite 0x8010FFE [1; 2; 3; 4]; OpRead 0x8010FFD 6; OpErase 0x8011;
              OpRead 0x8010FFD 6] (demo 0)
  = Some ([(0, []); (0, [255; 1; 2; 3; 4; 0]); (0, []); (0, [255; 1; 2; 255; 255; 255])], s').
Proof.
  destruct (driver_refines_array [OpWrite 0x8010FFE [1; 2; 3; 4]; OpRead 0x8010FFD 6;
    OpErase 0x8011; OpRead 0x8010FFD 6] (demo 0) (λ x, u8 (u8 ((x - 0x8000000) / 16))))
    as (s' & Hrun & _).
  - apply demo_store_ok.
  - repeat constructor; done.
  - done.
  - exists s'. rewrite Hrun. f_equal; vm_compute; reflexivity.
Defined.

(** Nothing installed, no buffer, an offset past the flash, no memory. *)
Lemma tls_fls_write_errors_witness :
  let s := mk_fls (sim_part 0) tt (λ _, None) (Some 1) 0x80000 0 0x80000 None 0 in
  tls_fls_write 0x8000000 None 4 s = Some (1, s) ∧
  tls_fls_write 0x8080000 (Some [1]) 1 s = Some (1, s) ∧
  tls_fls_write 0x8000000 (Some [1]) 1 s = Some (6, set_hp (next_heap s) s).
Proof.
  intros s.
  pose proof (tls_fls_write_errors 0x8000000 None 4 s eq_refl) as H1.
  pose proof (tls_fls_write_errors 0x8080000 (Some [1]) 1 s eq_refl) as H2.
  pose proof (tls_fls_write_errors 0x8000000 (Some [1]) 1 s eq_refl) as H3.
  revert H1 H2 H3. generalize (tls_fls_write 0x8000000 None 4 s)
    (tls_fls_write 0x8080000 (Some [1]) 1 s) (tls_fls_write 0x8000000 (Some [1]) 1 s).
  intros r1 r2 r3 H1 H2 H3. split; [exact H1|]. split; [exact H2|].
  exact (H3 eq_refl eq_refl).
Defined.

Lemma flash_lock_unlock_witness :
  ∃ b', tls_flash_lock (demo 0) = Some (0, set_bus b' (demo 0)) ∧ s_status b' = 0x68.
Proof.
  destruct (flash_lock_unlock (demo 0)) as [(b' & Hrun & Hs & _) _].
  - vm_compute. reflexivity.
  - vm_compute. split; [discriminate|reflexivity].
  - exists b'. split; [exact Hrun|]. etransitivity; [exact Hs|]. vm_compute. reflexivity.
Defined.
