(* ===== verification/SpiFlash.v ===== *)
(** * [src/Platform/Drivers/flash]: the flash behind the SPI master

    [wm_fls.c] is the driver module, [wm_fls_gd25qxx.c] the driver of the parts
    of the GD25Q family.  The SPI master with the part behind it is the class
    [SpiMaster] of the transactions the driver makes, [SpiMasterOk] the laws of
    the part's commands.  The driver is in turn a [FlashDev], and the second
    flash ([SpiFls]) of the internal driver. *)
From S2P Require Import Prelude FlashStore InternalFlash.

(** ** Constants of [wm_fls_gd25qxx.h], [wm_flash.h], [wm_hostspi.h] *)

Definition SPI_SCLK := 10000000.
Definition FLASH_TOTAL_SIZE := 1024 * 1024.
Definition PAGE_SIZE := 256.
Definition PROGRAM_SIZE := 256.
Definition SECTOR_SIZE := 4096.
Definition EXSPIFLASH_WRITE_ENABLE := 0x06.
Definition EXSPIFLASH_READ_SR1 := 0x05.
Definition EXSPIFLASH_PAGE_PROGRAM := 0x02.
Definition EXSPIFLASH_DATA_READ := 0x03.
Definition EXSPIFLASH_SECTOR_ERASE := 0x20.
Definition EXSPIFLASH_CHIP_ERASE := 0xc7.
Definition FLASH_STATUS_BUSY := Z.shiftl 1 0.
Definition FLASH_STATUS_WEL := Z.shiftl 1 1.
Definition FLS_CMD_READ_DEV_ID := 0x9F.
Definition TLS_FLS_FLAG_FAST_READ := Z.shiftl 1 1.
Definition TLS_SPI_STATUS_OK := 0.
Definition TLS_SPI_MODE_0 := 0.
Definition TLS_SPI_CS_LOW := 0.

(** ** The part behind the master *)

(** The transactions: the bytes sent; a read returns the status and the
    caller's buffer as the call leaves it.  [patience] is how often a part may
    answer that it is busy. *)
Class SpiMaster (T : Type) := {
  tls_spi_write : list Z → M T Z;
  tls_spi_write_with_cmd : list Z → list Z → M T Z;
  tls_spi_read_with_cmd : list Z → list Z → Z → M T (Z * list Z);
  tls_spi_setup : Z → Z → Z → M T Z;
  patience : nat;
}.

(** The 24 bits of an address, high byte first. *)
Definition addr24 (a : Z) : list Z := [u8 (Z.shiftr a 16); u8 (Z.shiftr a 8); u8 a].

(** A part of [2 ^ chip_log] bytes whose transactions succeed: it programs by
    clearing bits, erases sectors to 0xFF, and both only when writes have been
    enabled; afterwards it is busy for a while, which its status tells. *)
Class SpiMasterOk (T : Type) `{!SpiMaster T} := {
  chip_ok : T → Prop;
  chip_mem : T → Z → Z;
  chip_wel : T → bool;
  chip_busy : T → nat;
  chip_log : Z;
  chip_id : Z;
  chip_log_range : 12 <= chip_log <= 24;
  chip_id_range : 0 < chip_id < 2 ^ 24;
  chip_id_log : Z.shiftr chip_id 16 = chip_log;
  chip_mem_u8 t a : is_u8 (chip_mem t a);
  chip_busy_le t : chip_ok t → (chip_busy t ≤ patience)%nat;
  spi_setup_ok mode cs clk t : chip_ok t →
    wp (tls_spi_setup mode cs clk) (λ _ t', chip_ok t' ∧ chip_busy t' = chip_busy t ∧ chip_mem t' = chip_mem t) t;
  spi_rdid_ok buf t : chip_ok t → chip_busy t = O → 3 <= blen buf →
    wp (tls_spi_read_with_cmd [FLS_CMD_READ_DEV_ID; 0; 0; 0] buf 3) (λ r t',
      r = (TLS_SPI_STATUS_OK, splice buf 0 (slice (le32 chip_id) 0 3)) ∧
      chip_ok t' ∧ chip_busy t' = O ∧ chip_mem t' = chip_mem t) t;
  spi_wren_ok t : chip_ok t → chip_busy t = O →
    wp (tls_spi_write [EXSPIFLASH_WRITE_ENABLE]) (λ r t', r = TLS_SPI_STATUS_OK ∧
      chip_ok t' ∧ chip_busy t' = O ∧ chip_wel t' = true ∧ chip_mem t' = chip_mem t) t;
  spi_rdsr_ok t : chip_ok t →
    wp (tls_spi_read_with_cmd [EXSPIFLASH_READ_SR1] [0] 1) (λ r t', ∃ sr, r = (TLS_SPI_STATUS_OK, [sr]) ∧
      Z.testbit sr 0 = (0 <? chip_busy t)%nat ∧ Z.testbit sr 1 = chip_wel t ∧
      chip_ok t' ∧ chip_busy t' = pred (chip_busy t) ∧ chip_wel t' = chip_wel t ∧ chip_mem t' = chip_mem t) t;
  spi_read_ok a n buf t : chip_ok t → chip_busy t = O → 0 <= a → 0 < n <= blen buf → a + n <= 2 ^ chip_log →
    wp (tls_spi_read_with_cmd (EXSPIFLASH_DATA_READ :: addr24 a) buf n) (λ r t',
      r = (TLS_SPI_STATUS_OK, splice buf 0 (chip_mem t <$> seqZ a n)) ∧
      chip_ok t' ∧ chip_busy t' = O ∧ chip_mem t' = chip_mem t) t;
  spi_program_ok a data t : chip_ok t → chip_busy t = O → chip_wel t = true →
    0 <= a → a mod 256 = 0 → a + 256 <= 2 ^ chip_log → blen data = 256 → bytes_ok data →
    wp (tls_spi_write_with_cmd (EXSPIFLASH_PAGE_PROGRAM :: addr24 a) data) (λ r t', r = TLS_SPI_STATUS_OK ∧
      chip_ok t' ∧ ∀ x, chip_mem t' x = if (a <=? x) && (x <? a + 256)
        then Z.land (chip_mem t x) (default 0 (byte_at data (x - a))) else chip_mem t x) t;
  spi_erase_ok a t : chip_ok t → chip_busy t = O → chip_wel t = true →
    0 <= a → a mod 4096 = 0 → a + 4096 <= 2 ^ chip_log →
    wp (tls_spi_write (EXSPIFLASH_SECTOR_ERASE :: addr24 a)) (λ r t', r = TLS_SPI_STATUS_OK ∧
      chip_ok t' ∧ ∀ x, chip_mem t' x = if (a <=? x) && (x <? a + 4096) then 255 else chip_mem t x) t;
  spi_erase_all_ok t : chip_ok t → chip_busy t = O → chip_wel t = true →
    wp (tls_spi_write [EXSPIFLASH_CHIP_ERASE]) (λ r t', r = TLS_SPI_STATUS_OK ∧
      chip_ok t' ∧ ∀ x, 0 <= x < 2 ^ chip_log → chip_mem t' x = 255) t;
}.

(** ** State *)

(** What [struct tls_fls_drv] says of a part, and the only driver there is:
    a pointer to [exspi_fls]. *)
Record tls_fls_drv := mk_drv {
  drv_id : Z;
  total_size : Z;
  page_size : Z;
  program_size : Z;
  sector_size : Z;
}.
Inductive drv_ptr := EXSPI_FLS.
Record tls_fls := mk_tls_fls {
  fls_drvs : list drv_ptr;
  current_drv : option drv_ptr;
  fls_lock : Z;
}.
(** [spi_bus] is the master with the part, [exspifls_drv] whether that pointer
    of [wm_fls_gd25qxx.c] is set. *)
Record spifls (T : Type) := mk_spifls {
  spi_bus : T;
  spi_hp : heap;
  spi_fls : option tls_fls;
  exspi_fls : tls_fls_drv;
  exspifls_drv : bool;
}.
Arguments mk_spifls {T}.
Arguments spi_bus {T}.
Arguments spi_hp {T}.
Arguments spi_fls {T}.
Arguments exspi_fls {T}.
Arguments exspifls_drv {T}.

Section spi_setters.
Context {T : Type}.
Implicit Type s : spifls T.
Definition set_spi_bus (x : T) s := mk_spifls x (spi_hp s) (spi_fls s) (exspi_fls s) (exspifls_drv s).
Definition set_spi_hp x s := mk_spifls (spi_bus s) x (spi_fls s) (exspi_fls s) (exspifls_drv s).
Definition set_spi_fls x s := mk_spifls (spi_bus s) (spi_hp s) x (exspi_fls s) (exspifls_drv s).
Definition set_exspi_fls x s := mk_spifls (spi_bus s) (spi_hp s) (spi_fls s) x (exspifls_drv s).
Definition set_exspifls_drv x s := mk_spifls (spi_bus s) (spi_hp s) (spi_fls s) (exspi_fls s) x.
End spi_setters.

Section code.
Context {T : Type} `{!SpiMaster T}.
Local Open Scope c_scope.
Local Abbreviation MS := (M (spifls T)).

Definition on_master {A} (m : M T A) : MS A := lift spi_bus set_spi_bus m.
Definition spi_alloc (n : Z) : MS (option (list Z)) := lift spi_hp set_spi_hp (malloc n).

(** ** [wm_fls_gd25qxx.c] *)

Definition swap32 (v : Z) : Z :=
  Z.lor (Z.lor (Z.lor (u32 (Z.shiftl (Z.land v 0xff) 24)) (u32 (Z.shiftl (Z.land v 0xff00) 8)))
    (Z.shiftr (Z.land v 0xff0000) 8)) (Z.shiftr v 24).
(** The word of a command with an address. *)
Definition cmd_word (cmd addr : Z) : Z := Z.lor (Z.lor 0 cmd) (Z.land (swap32 addr) 0xffffff00).
(** A member of the block [exspifls_drv] points to. *)
Definition exspi (f : tls_fls_drv → Z) : MS Z :=
  let* p := gets exspifls_drv in if p then gets (f ∘ exspi_fls) else stuck.

Definition tls_spifls_drv_write_enable : MS Z :=
  let* err := on_master (tls_spi_write [EXSPIFLASH_WRITE_ENABLE]) in
  ret (if negb (err =? TLS_SPI_STATUS_OK) then TLS_FLS_STATUS_EIO else TLS_FLS_STATUS_OK).
(** Both waits read the status until [stop] holds of it. *)
Fixpoint wait_loop (fuel : nat) (stop : Z → bool) : MS Z :=
  match fuel with
  | O => stuck
  | S fuel' =>
      let* ' (err, b) := on_master (tls_spi_read_with_cmd [EXSPIFLASH_READ_SR1] [0] 1) in
      if negb (err =? TLS_SPI_STATUS_OK) then ret TLS_FLS_STATUS_EIO
      else
        let* sr := of_opt (byte_at b 0) in
        if stop sr then ret TLS_FLS_STATUS_OK else wait_loop fuel' stop
  end.
Definition tls_spifls_drv_wait_write_enable : MS Z :=
  wait_loop (S patience) (λ sr, truth (Z.land sr FLASH_STATUS_WEL)).
Definition tls_spifls_drv_wait_flash_ready : MS Z :=
  wait_loop (S patience) (λ sr, Z.land sr FLASH_STATUS_BUSY =? 0).
Definition tls_spifls_drv_read (addr : Z) (buf : list Z) (len : Z) : MS (Z * list Z) :=
  let* ' (err, buf) := on_master (tls_spi_read_with_cmd (le32 (cmd_word EXSPIFLASH_DATA_READ addr)) buf len) in
  ret (if negb (err =? TLS_SPI_STATUS_OK) then TLS_FLS_STATUS_EIO else TLS_FLS_STATUS_OK, buf).
Definition tls_spifls_drv_fast_read (addr : Z) (buf : list Z) (len : Z) : MS (Z * list Z) :=
  ret (TLS_FLS_STATUS_ENOSUPPORT, buf).
(** Enabling writes, then [m], then waiting until the part is ready. *)
Definition modifying (m : MS Z) : MS Z :=
  let* err := tls_spifls_drv_write_enable in
  if negb (err =? TLS_SPI_STATUS_OK) then ret TLS_FLS_STATUS_EIO
  else
    let* err := tls_spifls_drv_wait_write_enable in
    if negb (err =? TLS_SPI_STATUS_OK) then ret TLS_FLS_STATUS_EIO
    else
      let* err := m in
      if negb (err =? TLS_SPI_STATUS_OK) then ret TLS_FLS_STATUS_EIO
      else
        let* err := tls_spifls_drv_wait_flash_ready in
        ret (if negb (err =? TLS_SPI_STATUS_OK) then TLS_FLS_STATUS_EIO else TLS_FLS_STATUS_OK).
Definition tls_spifls_drv_page_write (page : Z) (buf : list Z) : MS Z :=
  modifying (
    let* psize := exspi page_size in
    let* bytes := of_opt (memcpy (replicate (Z.to_nat psize) 0) 0 buf 0 psize) in
    on_master (tls_spi_write_with_cmd (le32 (cmd_word EXSPIFLASH_PAGE_PROGRAM (u32 (page * psize)))) bytes)).
Definition tls_spifls_drv_erase (sector : Z) : MS Z :=
  modifying (
    let* ssize := exspi sector_size in
    on_master (tls_spi_write (le32 (cmd_word EXSPIFLASH_SECTOR_ERASE (u32 (sector * ssize)))))).
Definition tls_spifls_drv_chip_erase : MS Z :=
  modifying (on_master (tls_spi_write [EXSPIFLASH_CHIP_ERASE])).
(** The shift of an [int] is undefined for the sign bit and beyond. *)
Definition tls_spifls_drv_probe (id : Z) : MS Z :=
  if id =? 0 then ret TLS_FLS_STATUS_EINVAL
  else
    let cap := Z.shiftr id 16 in
    let* size := (if truth (Z.land cap 0xFF)
                  then (if cap <? 31 then ret (Z.shiftl 1 cap) else stuck)
                  else ret FLASH_TOTAL_SIZE) in
    modify (set_exspi_fls (mk_drv id size PAGE_SIZE PROGRAM_SIZE SECTOR_SIZE)) ;;
    modify (set_exspifls_drv true) ;;
    ret TLS_FLS_STATUS_OK.
Definition tls_spifls_drv_remove : MS unit := modify (set_exspifls_drv false).

(** ** [wm_fls.c] *)

Definition drv_field (f : tls_fls_drv → Z) (d : drv_ptr) : MS Z :=
  match d with EXSPI_FLS => gets (f ∘ exspi_fls) end.
Definition drv_read (d : drv_ptr) := match d with EXSPI_FLS => tls_spifls_drv_read end.
Definition drv_fast_read (d : drv_ptr) := match d with EXSPI_FLS => tls_spifls_drv_fast_read end.
Definition drv_page_write (d : drv_ptr) := match d with EXSPI_FLS => tls_spifls_drv_page_write end.
Definition drv_erase (d : drv_ptr) := match d with EXSPI_FLS => tls_spifls_drv_erase end.
Definition drv_chip_erase (d : drv_ptr) := match d with EXSPI_FLS => tls_spifls_drv_chip_erase end.
Definition drv_probe (d : drv_ptr) := match d with EXSPI_FLS => tls_spifls_drv_probe end.

(** [tls_os_sem_acquire(lock, 0)] waits for ever. *)
Definition lock_acquire : MS unit :=
  let* p := gets spi_fls in
  match p with
  | Some f => if 0 <? fls_lock f
              then modify (set_spi_fls (Some (mk_tls_fls (fls_drvs f) (current_drv f) (fls_lock f - 1))))
              else stuck
  | None => stuck
  end.
Definition lock_release : MS unit :=
  let* p := gets spi_fls in
  match p with
  | Some f => modify (set_spi_fls (Some (mk_tls_fls (fls_drvs f) (current_drv f) (fls_lock f + 1))))
  | None => stuck
  end.
(** The first checks of the operations. *)
Definition with_drv {A} (bad : Z → A) (k : drv_ptr → MS A) : MS A :=
  let* p := gets spi_fls in
  match p with
  | None => ret (bad TLS_FLS_STATUS_EPERM)
  | Some f => match current_drv f with None => ret (bad TLS_FLS_STATUS_ENODRV) | Some d => k d end
  end.

Definition tls_spifls_read_id : MS (Z * Z) :=
  let* ' (err, b) := on_master (tls_spi_read_with_cmd (le32 FLS_CMD_READ_DEV_ID) (le32 0) 3) in
  ret (if negb (err =? TLS_SPI_STATUS_OK) then TLS_FLS_STATUS_EIO else TLS_FLS_STATUS_OK, of_le b).

(** The length of a request, cut at the end of the part. *)
Definition clip (addr len total : Z) : Z := if total <? u32 (addr + len) then u32 (total - addr) else len.

Definition tls_spifls_read (addr : Z) (buf : option (list Z)) (len : Z) : MS (Z * option (list Z)) :=
  with_drv (λ e, (e, buf)) (λ d,
    let* total := drv_field total_size d in
    match buf with
    | Some b =>
        if (total <=? addr) || (len =? 0) then ret (TLS_FLS_STATUS_EINVAL, buf)
        else
          lock_acquire ;;
          let* total := drv_field total_size d in
          let* ' (err, b) := drv_read d addr b (clip addr len total) in
          lock_release ;;
          ret (err, Some b)
    | None => ret (TLS_FLS_STATUS_EINVAL, buf)
    end).
(** [flags] of the driver is 0. *)
Definition exspi_flags := 0.
Definition tls_spifls_fast_read (addr : Z) (buf : option (list Z)) (len : Z) : MS (Z * option (list Z)) :=
  with_drv (λ e, (e, buf)) (λ d,
    let* total := drv_field total_size d in
    match buf with
    | Some b =>
        if (total <=? addr) || (len =? 0) then ret (TLS_FLS_STATUS_EINVAL, buf)
        else if negb (Z.land exspi_flags TLS_FLS_FLAG_FAST_READ =? TLS_FLS_FLAG_FAST_READ)
        then ret (TLS_FLS_STATUS_ENOSUPPORT, buf)
        else
          let* ' (err, b) := drv_fast_read d addr b (clip addr len total) in ret (err, Some b)
    | None => ret (TLS_FLS_STATUS_EINVAL, buf)
    end).

Fixpoint page_loop (n : nat) (d : drv_ptr) (i page : Z) (buf : list Z) : MS Z :=
  match n with
  | O => ret TLS_FLS_STATUS_OK
  | S n' =>
      let* psize := drv_field page_size d in
      let* err := drv_page_write d (u32 (page + i)) (drop (Z.to_nat (i * psize)) buf) in
      if negb (err =? TLS_FLS_STATUS_OK) then ret err else page_loop n' d (i + 1) page buf
  end.
Definition tls_spifls_page_write (page : Z) (buf : option (list Z)) (page_cnt : Z) : MS Z :=
  with_drv (λ e, e) (λ d,
    let* total := drv_field total_size d in
    let* psize := drv_field page_size d in
    match buf with
    | Some b =>
        if (total / psize <=? page) || (page_cnt =? 0) then ret TLS_FLS_STATUS_EINVAL
        else
          let write_pages := if total / psize <? u32 (page + page_cnt) then u32 (total / psize - page) else page_cnt in
          page_loop (Z.to_nat write_pages) d 0 page b
    | None => ret TLS_FLS_STATUS_EINVAL
    end).

(** A sector read, changed from [di] on, erased and written back; [bp] is the
    place in the caller's buffer.  The status and the cache. *)
Definition rewrite_sector (d : drv_ptr) (sec di cnt bp : Z) (buf cache : list Z) : MS (Z * list Z) :=
  let* ss := drv_field sector_size d in
  let* ps := drv_field page_size d in
  let* ' (err, cache) := drv_read d (u32 (sec * ss)) cache ss in
  if negb (err =? TLS_FLS_STATUS_OK) then ret (err, cache)
  else
    let* cache := of_opt (memcpy cache di buf bp cnt) in
    let* err := drv_erase d sec in
    if negb (err =? TLS_FLS_STATUS_OK) then ret (err, cache)
    else
      let* err := tls_spifls_page_write (u32 (sec * (ss / ps))) (Some cache) (ss / ps) in
      ret (err, cache).
(** Where the bytes for sector [i] go and how many they are; [wb] is what is
    left to write. *)
Definition sector_span (sector_num i off ss wb : Z) : Z * Z :=
  if 1 =? sector_num then (off, wb)
  else if i =? 0 then (off, ss - off)
  else if i =? sector_num - 1 then (0, wb)
  else (0, ss).
Fixpoint write_sectors (n : nat) (d : drv_ptr) (addr sector_addr sector_num i bp wb : Z) (buf cache : list Z)
    : MS Z :=
  match n with
  | O => ret TLS_FLS_STATUS_OK
  | S n' =>
      let* ss := drv_field sector_size d in
      let (di, cnt) := sector_span sector_num i (addr mod ss) ss wb in
      let* ' (err, cache) := rewrite_sector d (u32 (sector_addr + i)) di cnt bp buf cache in
      if negb (err =? TLS_FLS_STATUS_OK) then lock_release ;; ret err
      else write_sectors n' d addr sector_addr sector_num (i + 1) (bp + cnt) (u32 (wb - cnt)) buf cache
  end.
Definition tls_spifls_write (addr : Z) (buf : option (list Z)) (len : Z) : MS Z :=
  with_drv (λ e, e) (λ d,
    let* total := drv_field total_size d in
    match buf with
    | Some b =>
        if (total <=? addr) || (len =? 0) then ret TLS_FLS_STATUS_EINVAL
        else
          lock_acquire ;;
          let* total := drv_field total_size d in
          let* ss := drv_field sector_size d in
          let write_bytes := clip addr len total in
          let sector_addr := addr / ss in
          let sector_num := u32 (u32 (addr + write_bytes - 1) / ss - sector_addr + 1) in
          let* cache := spi_alloc ss in
          match cache with
          | None => lock_release ;; ret TLS_FLS_STATUS_ENOMEM
          | Some cache =>
              let* err := write_sectors (Z.to_nat sector_num) d addr sector_addr sector_num 0 0 write_bytes b cache in
              lock_release ;;
              ret err
          end
    | None => ret TLS_FLS_STATUS_EINVAL
    end).
Definition tls_spifls_erase (sector : Z) : MS Z :=
  with_drv (λ e, e) (λ d,
    let* total := drv_field total_size d in
    let* ss := drv_field sector_size d in
    if total / ss <=? sector then ret TLS_FLS_STATUS_EINVAL
    else
      lock_acquire ;;
      let* err := drv_erase d sector in
      lock_release ;;
      ret err).
Definition tls_spifls_chip_erase : MS Z := with_drv (λ e, e) drv_chip_erase.
(** [*param] is the word of the result; [None]: a null pointer. *)
Definition tls_spifls_get_param (type : Z) (param : option Z) : MS (Z * option Z) :=
  with_drv (λ e, (e, param)) (λ d,
    match param with
    | None => ret (TLS_FLS_STATUS_EINVAL, param)
    | Some _ =>
        lock_acquire ;;
        let member f := let* x := drv_field f d in ret (TLS_FLS_STATUS_OK, Some x) in
        let* r := switch type
          [(TLS_FLS_PARAM_TYPE_ID, member drv_id);
           (TLS_FLS_PARAM_TYPE_SIZE, member total_size);
           (TLS_FLS_PARAM_TYPE_PAGE_SIZE, member page_size);
           (TLS_FLS_PARAM_TYPE_PROG_SIZE, member program_size);
           (TLS_FLS_PARAM_TYPE_SECTOR_SIZE, member sector_size)]
          (ret (TLS_FLS_STATUS_EINVAL, param)) in
        lock_release ;;
        ret r
    end).

(** Whether a registered driver has the number [id]. *)
Fixpoint drv_exists (id : Z) (l : list drv_ptr) : MS bool :=
  match l with
  | [] => ret false
  | d :: l' => let* x := drv_field drv_id d in if x =? id then ret true else drv_exists id l'
  end.
Definition tls_spifls_drv_register (fls_drv : option drv_ptr) : MS Z :=
  match fls_drv with
  | None => ret TLS_FLS_STATUS_EINVAL
  | Some d =>
      let* p := gets spi_fls in
      match p with
      | None => stuck
      | Some f =>
          let* id := drv_field drv_id d in
          let* e := drv_exists id (fls_drvs f) in
          if e then ret TLS_FLS_STATUS_EEXIST
          else
            modify (set_spi_fls (Some (mk_tls_fls (fls_drvs f ++ [d]) (current_drv f) (fls_lock f)))) ;;
            ret TLS_FLS_STATUS_OK
      end
  end.
Definition tls_spifls_drv_unregister (fls_drv : option drv_ptr) : MS Z := ret TLS_FLS_STATUS_EPERM.
(** The first driver that is registered, if it takes the part. *)
Definition tls_spifls_probe : MS Z :=
  let* p := gets spi_fls in
  match p with
  | None => ret TLS_FLS_STATUS_EPERM
  | Some f =>
      match current_drv f with
      | Some _ => ret TLS_FLS_STATUS_EBUSY
      | None =>
          let* ' (err, id) := tls_spifls_read_id in
          if negb (err =? TLS_FLS_STATUS_OK) then ret err
          else
            match fls_drvs f with
            | [] => ret TLS_FLS_STATUS_ENODRV
            | d :: _ =>
                let* err := drv_probe d id in
                if negb (err =? TLS_FLS_STATUS_OK) then ret err
                else
                  on_master (tls_spi_setup TLS_SPI_MODE_0 TLS_SPI_CS_LOW SPI_SCLK) ;;
                  modify (set_spi_fls (Some (mk_tls_fls (fls_drvs f) (Some d) (fls_lock f)))) ;;
                  ret TLS_FLS_STATUS_OK
            end
      end
  end.
Definition tls_spifls_drv_install : MS Z :=
  let* err := tls_spifls_drv_register (Some EXSPI_FLS) in
  if err =? TLS_FLS_STATUS_EEXIST then ret err else tls_spifls_probe.
Definition sizeof_tls_fls := 16.
Definition tls_spifls_init (sem_ok : bool) : MS Z :=
  let* p := gets spi_fls in
  match p with
  | Some _ => ret TLS_FLS_STATUS_EBUSY
  | None =>
      let* fls := spi_alloc sizeof_tls_fls in
      match fls with
      | None => ret TLS_FLS_STATUS_ENOMEM
      | Some _ =>
          if negb sem_ok then ret TLS_FLS_STATUS_ENOMEM
          else
            modify (set_spi_fls (Some (mk_tls_fls [] None 1))) ;;
            tls_spifls_drv_install ;;
            ret TLS_FLS_STATUS_OK
      end
  end.
Definition tls_spifls_exit : MS Z := ret TLS_FLS_STATUS_EPERM.
End code.

(** ** Commands as bytes *)

Lemma cmd_word_bit cmd v j : is_u8 cmd → is_u32 v → 0 <= j < 32 → Z.testbit (cmd_word cmd v) j =
  if j <? 8 then Z.testbit cmd j else Z.testbit v (8 * (3 - j / 8) + j mod 8).
Proof.
  intros Hc Hv Hj. unfold cmd_word, swap32, u32, wrap. rewrite !Z.lor_spec, !Z.land_spec, !Z.lor_spec.
  rewrite !Z.mod_pow2_bits_low, !Z.shiftl_spec, !Z.shiftr_spec, !Z.land_spec, Z.bits_0 by lia. cbn [orb].
  destruct (Z.ltb_spec j 8) as [Hlt|Hge].
  - replace (Z.testbit 0xffffff00 j) with false; [by rewrite andb_false_r, orb_false_r|].
    revert j Hj Hlt. apply (nat_below_32 (λ j, j < 8 → _)). intros i Hi Hlt.
    do 8 (destruct i as [|i]; [done|]). lia.
  - rewrite (testbit_high cmd 8) by (done || lia). cbn [orb]. rewrite (testbit_high v 32 (j + 24)) by (done || lia).
    revert j Hj Hge. apply (nat_below_32 (λ j, 8 <= j → _)). intros i Hi Hge.
    do 32 (destruct i as [|i]; [cbn -[Z.testbit]; cbn; rewrite ?andb_false_r, ?andb_true_r, ?orb_false_r; done || lia|]).
    lia.
Qed.
Lemma le32_cmd cmd v : is_u8 cmd → is_u32 v → le32 (cmd_word cmd v) = cmd :: addr24 v.
Proof.
  intros Hc Hv. unfold le32, addr24, u8, wrap.
  assert (∀ k j, 0 <= k < 4 → 0 <= j → Z.testbit (Z.shiftr (cmd_word cmd v) (8 * k) mod 2 ^ 8) j =
    (j <? 8) && if k =? 0 then Z.testbit cmd j else Z.testbit v (8 * (3 - k) + j)) as Hb.
  { intros k j Hk Hj. destruct (Z.ltb_spec j 8); cbn [andb].
    - rewrite Z.mod_pow2_bits_low, Z.shiftr_spec, cmd_word_bit by (done || lia).
      destruct (Z.eqb_spec k 0) as [->|].
      + rewrite (proj2 (Z.ltb_lt _ _)) by lia. f_equal. lia.
      + rewrite (proj2 (Z.ltb_ge _ _)) by lia. f_equal. dlia.
    - by rewrite Z.mod_pow2_bits_high by lia. }
  assert (∀ k j, 0 <= j → Z.testbit (Z.shiftr v (8 * k) mod 2 ^ 8) j = (j <? 8) && Z.testbit v (8 * k + j)) as Hv8.
  { intros k j Hj. destruct (Z.ltb_spec j 8); cbn [andb].
    - rewrite Z.mod_pow2_bits_low, Z.shiftr_spec by lia. f_equal. lia.
    - by rewrite Z.mod_pow2_bits_high by lia. }
  f_equal; [|f_equal; [|f_equal; [|f_equal]]]; apply Z.bits_inj'; intros j Hj.
  - pose proof (Hb 0 j ltac:(lia) Hj) as H0. change (8 * 0) with 0 in H0. rewrite Z.shiftr_0_r in H0. rewrite H0.
    change (0 =? 0) with true. cbv iota. destruct (Z.ltb_spec j 8); [done|].
    symmetry. apply (testbit_high cmd 8); [done|lia].
  - pose proof (Hb 1 j ltac:(lia) Hj) as H0. change (8 * 1) with 8 in H0. rewrite H0.
    pose proof (Hv8 2 j Hj) as H1. change (8 * 2) with 16 in H1. by rewrite H1.
  - pose proof (Hb 2 j ltac:(lia) Hj) as H0. change (8 * 2) with 16 in H0. rewrite H0.
    pose proof (Hv8 1 j Hj) as H1. change (8 * 1) with 8 in H1. by rewrite H1.
  - pose proof (Hb 3 j ltac:(lia) Hj) as H0. change (8 * 3) with 24 in H0. rewrite H0.
    pose proof (Hv8 0 j Hj) as H1. change (8 * 0) with 0 in H1. rewrite Z.shiftr_0_r in H1. by rewrite H1.
Qed.

(** ** The driver of the part *)

Section driver_ok.
Context {T : Type} `{SpiMasterOk T}.
Implicit Type s : spifls T.

Definition capacity : Z := 2 ^ chip_log.
Definition part_drv : tls_fls_drv := mk_drv chip_id capacity 256 256 4096.
(** The part is ready and known to the driver. *)
Record part_ok s : Prop := {
  pt_ok : chip_ok (spi_bus s);
  pt_ready : chip_busy (spi_bus s) = O;
  pt_ptr : exspifls_drv s = true;
  pt_drv : exspi_fls s = part_drv;
}.
Definition ext_mem s : Z → Z := chip_mem (spi_bus s).
(** Only the part has changed, and it is ready again. *)
Definition part_step (m : Z → Z) s s' : Prop :=
  ∃ t, s' = set_spi_bus t s ∧ chip_ok t ∧ chip_busy t = O ∧ ∀ x, 0 <= x < capacity → chip_mem t x = m x.

Lemma capacity_range : 4096 <= capacity <= 0x1000000 ∧ capacity mod 4096 = 0.
Proof.
  pose proof chip_log_range as Hl. unfold capacity.
  assert (2 ^ chip_log = 4096 * 2 ^ (chip_log - 12)) as ->.
  { change 4096 with (2 ^ 12). rewrite <- Z.pow_add_r by lia. f_equal. lia. }
  assert (2 ^ 0 <= 2 ^ (chip_log - 12) <= 2 ^ 12) as [H1 H2] by (split; apply Z.pow_le_mono_r; lia).
  change (2 ^ 0) with 1 in H1. change (2 ^ 12) with 4096 in H2. split; [lia|].
  rewrite Z.mul_comm. apply Z.mod_mul. lia.
Qed.
Lemma part_ok_bus s t : part_ok s → chip_ok t → chip_busy t = O → part_ok (set_spi_bus t s).
Proof. intros [] ? ?. by constructor. Qed.
Lemma part_ok_step m s s' : part_ok s → part_step m s s' → part_ok s' ∧ ∀ x, 0 <= x < capacity → ext_mem s' x = m x.
Proof. intros Hp (t & -> & Ht & Hb & Hm). split; [by apply part_ok_bus|done]. Qed.
Lemma part_step_trans m m' s s1 s2 : part_step m s s1 → part_step m' s1 s2 → part_step m' s s2.
Proof. intros (t1 & -> & _) (t2 & -> & ? & ? & ?). by exists t2. Qed.
Lemma part_step_ext m m' s s' : part_step m s s' → (∀ x, 0 <= x < capacity → m x = m' x) → part_step m' s s'.
Proof. intros (t & -> & ? & ? & Hm) Hx. exists t. repeat split; try done. intros x Hr. by rewrite Hm, Hx. Qed.

Lemma wp_on_master {A} (m : M T A) (Q : A → spifls T → Prop) s :
  wp m (λ a t, Q a (set_spi_bus t s)) (spi_bus s) → wp (on_master m) Q s.
Proof. apply wp_lift. Qed.

Lemma wp_write_enable s (Q : Z → spifls T → Prop) : part_ok s →
  (∀ t, chip_ok t → chip_busy t = O → chip_wel t = true → chip_mem t = ext_mem s →
     Q TLS_FLS_STATUS_OK (set_spi_bus t s)) → wp tls_spifls_drv_write_enable Q s.
Proof.
  intros Hp HQ. unfold tls_spifls_drv_write_enable. apply wp_bind, wp_on_master.
  eapply wp_mono; [by apply spi_wren_ok; apply Hp|]. intros r t (-> & H1 & H2 & H3 & H4). by apply wp_ret, HQ.
Qed.
Lemma wp_wait_wel s (Q : Z → spifls T → Prop) : chip_ok (spi_bus s) → chip_busy (spi_bus s) = O →
  chip_wel (spi_bus s) = true →
  (∀ t, chip_ok t → chip_busy t = O → chip_wel t = true → chip_mem t = ext_mem s →
     Q TLS_FLS_STATUS_OK (set_spi_bus t s)) → wp tls_spifls_drv_wait_write_enable Q s.
Proof.
  intros Hok Hb Hw HQ. unfold tls_spifls_drv_wait_write_enable. cbn [wait_loop]. apply wp_bind, wp_on_master.
  eapply wp_mono; [by apply spi_rdsr_ok|]. intros r t (sr & -> & _ & H1 & Ht & Hb' & Hw' & Hm). rewrite Hw in H1.
  rewrite Z.eqb_refl. cbn [negb]. apply wp_bind. eapply wp_of_opt; [reflexivity|].
  assert (truth (Z.land sr FLASH_STATUS_WEL) = true) as ->.
  { unfold truth. apply negb_true_iff, Z.eqb_neq. intros E. apply (f_equal (λ x, Z.testbit x 1)) in E.
    rewrite Z.land_spec, H1 in E. discriminate E. }
  apply wp_ret, HQ; [done|by rewrite Hb', Hb|by rewrite Hw'|done].
Qed.
(** However long the part is busy, the wait sees it ready. *)
Lemma wp_wait_ready_loop fuel : ∀ s (Q : Z → spifls T → Prop), chip_ok (spi_bus s) → (chip_busy (spi_bus s) < fuel)%nat →
  (∀ t, chip_ok t → chip_busy t = O → chip_mem t = ext_mem s → Q TLS_FLS_STATUS_OK (set_spi_bus t s)) →
  wp (wait_loop fuel (λ sr, Z.land sr FLASH_STATUS_BUSY =? 0)) Q s.
Proof.
  induction fuel as [|fuel IH]; intros s Q Hok Hb HQ; [lia|]. cbn [wait_loop]. apply wp_bind, wp_on_master.
  eapply wp_mono; [by apply spi_rdsr_ok|]. intros r t (sr & -> & H0 & _ & Ht & Hb' & _ & Hm).
  rewrite Z.eqb_refl. cbn [negb]. apply wp_bind. eapply wp_of_opt; [reflexivity|].
  assert ((Z.land sr FLASH_STATUS_BUSY =? 0) = negb (0 <? chip_busy (spi_bus s))%nat) as ->.
  { rewrite <- H0. change FLASH_STATUS_BUSY with (Z.ones 1). rewrite Z.land_ones by lia. change (2 ^ 1) with 2.
    rewrite <- Z.bit0_mod. by destruct (Z.testbit sr 0). }
  destruct (chip_busy (spi_bus s)) as [|n] eqn:En; cbn [negb].
  - by apply wp_ret, HQ.
  - apply IH; [done|cbn in *; lia|]. intros t' Ht' Hb'' Hm'. cbn in Hm'.
    replace (set_spi_bus t' (set_spi_bus t s)) with (set_spi_bus t' s) by done. apply HQ; [done|done|].
    unfold ext_mem in *. cbn in *. congruence.
Qed.

(** A modifying command, between enabling writes and waiting. *)
Lemma wp_modifying m s (mem' : Z → Z) (Q : Z → spifls T → Prop) : part_ok s →
  (∀ t, chip_ok t → chip_busy t = O → chip_wel t = true → chip_mem t = ext_mem s →
     wp m (λ r s', r = TLS_SPI_STATUS_OK ∧ ∃ t', s' = set_spi_bus t' s ∧ chip_ok t' ∧
       ∀ x, 0 <= x < capacity → chip_mem t' x = mem' x) (set_spi_bus t s)) →
  (∀ s', part_step mem' s s' → Q TLS_FLS_STATUS_OK s') → wp (modifying m) Q s.
Proof.
  intros Hp Hm HQ. unfold modifying. apply wp_bind, wp_write_enable; [done|]. intros t1 A1 A2 A3 A4.
  change (TLS_FLS_STATUS_OK =? TLS_SPI_STATUS_OK) with true. cbn [negb].
  apply wp_bind, wp_wait_wel; [done|done|done|]. intros t2 B1 B2 B3 B4. cbn in B4.
  replace (set_spi_bus t2 (set_spi_bus t1 s)) with (set_spi_bus t2 s) by done.
  change (TLS_FLS_STATUS_OK =? TLS_SPI_STATUS_OK) with true. cbn [negb]. apply wp_bind.
  eapply wp_mono; [apply Hm; [done|done|done|unfold ext_mem in *; cbn in *; congruence]|].
  intros r s3 (-> & t3 & -> & C1 & C2). rewrite Z.eqb_refl. cbn [negb]. apply wp_bind.
  apply wp_wait_ready_loop; [done| |].
  { pose proof (chip_busy_le t3 C1). cbn. lia. }
  intros t4 D1 D2 D3. change (TLS_FLS_STATUS_OK =? TLS_SPI_STATUS_OK) with true. cbn [negb].
  apply wp_ret, HQ. exists t4. unfold ext_mem in D3. cbn in D3. rewrite D3. done.
Qed.

Lemma addr_u32 a : 0 <= a <= capacity → is_u32 a.
Proof. pose proof capacity_range. unfold is_u32. lia. Qed.
Lemma wp_exspi f s (Q : Z → spifls T → Prop) : exspifls_drv s = true → Q (f (exspi_fls s)) s → wp (exspi f) Q s.
Proof. intros Hp HQ. unfold exspi. wp_steps. rewrite Hp. by apply wp_gets. Qed.

Definition programmed (m : Z → Z) (a : Z) (data : list Z) : Z → Z := λ x,
  if (a <=? x) && (x <? a + 256) then Z.land (m x) (default 0 (byte_at data (x - a))) else m x.
Lemma wp_drv_page_write page buf s (Q : Z → spifls T → Prop) : part_ok s → 0 <= page → page * 256 + 256 <= capacity →
  256 <= blen buf → bytes_ok buf →
  (∀ s', part_step (programmed (ext_mem s) (page * 256) buf) s s' → Q TLS_FLS_STATUS_OK s') →
  wp (tls_spifls_drv_page_write page buf) Q s.
Proof.
  intros Hp Hpg Hcap Hl Hok HQ. unfold tls_spifls_drv_page_write.
  apply (wp_modifying _ _ (programmed (ext_mem s) (page * 256) buf)); [done| |done].
  intros t A1 A2 A3 A4. apply wp_bind, wp_exspi; [apply Hp|]. cbn [exspi_fls set_spi_bus]. rewrite (pt_drv _ Hp).
  cbn [page_size part_drv]. apply wp_bind.
  eapply wp_of_opt; [apply memcpy_Some; rewrite ?blen_replicate; lia|].
  pose proof (addr_u32 (page * 256) ltac:(lia)) as Hu. rewrite u32_id, le32_cmd by done.
  rewrite splice_all by (rewrite blen_slice, blen_replicate; lia).
  apply wp_on_master. eapply wp_mono; [apply spi_program_ok; try done|].
  - lia.
  - by apply Z.mod_mul.
  - apply blen_slice; lia.
  - by apply bytes_ok_slice.
  - intros r t' (-> & B1 & B2). split; [done|]. exists t'. split; [done|]. split; [done|]. intros x _.
    rewrite B2. unfold programmed. cbn. rewrite A4. case_if; [|done]. by rewrite byte_at_slice, Z.add_0_l by lia.
Qed.
Definition erased (m : Z → Z) (sector : Z) : Z → Z := λ x, if x / 4096 =? sector then 255 else m x.
Lemma wp_drv_erase sector s (Q : Z → spifls T → Prop) : part_ok s → 0 <= sector → sector * 4096 + 4096 <= capacity →
  (∀ s', part_step (erased (ext_mem s) sector) s s' → Q TLS_FLS_STATUS_OK s') → wp (tls_spifls_drv_erase sector) Q s.
Proof.
  intros Hp Hs Hcap HQ. unfold tls_spifls_drv_erase.
  apply (wp_modifying _ _ (erased (ext_mem s) sector)); [done| |done].
  intros t A1 A2 A3 A4. apply wp_bind, wp_exspi; [apply Hp|]. cbn [exspi_fls set_spi_bus]. rewrite (pt_drv _ Hp).
  cbn [sector_size part_drv]. pose proof (addr_u32 (sector * 4096) ltac:(lia)) as Hu. rewrite u32_id, le32_cmd by done.
  apply wp_on_master. eapply wp_mono; [apply spi_erase_ok; try done|].
  - lia.
  - by apply Z.mod_mul.
  - intros r t' (-> & B1 & B2). split; [done|]. exists t'. split; [done|]. split; [done|]. intros x Hx.
    rewrite B2. unfold erased. cbn. rewrite A4.
    destruct (Z.eqb_spec (x / 4096) sector); case_if; try done; exfalso; zbool.
    + rewrite andb_false_iff in E. destruct E; zbool; dlia.
    + dlia.
Qed.
Lemma wp_drv_chip_erase s (Q : Z → spifls T → Prop) : part_ok s →
  (∀ s', part_step (λ _, 255) s s' → Q TLS_FLS_STATUS_OK s') → wp tls_spifls_drv_chip_erase Q s.
Proof.
  intros Hp HQ. apply (wp_modifying _ _ (λ _, 255)); [done| |done].
  intros t A1 A2 A3 A4. apply wp_on_master. eapply wp_mono; [by apply spi_erase_all_ok|].
  intros r t' (-> & B1 & B2). split; [done|]. by exists t'.
Qed.
Lemma wp_drv_read addr buf n s (Q : Z * list Z → spifls T → Prop) : part_ok s → 0 <= addr → 0 < n <= blen buf →
  addr + n <= capacity →
  (∀ s', part_step (ext_mem s) s s' → Q (TLS_FLS_STATUS_OK, splice buf 0 (ext_mem s <$> seqZ addr n)) s') →
  wp (tls_spifls_drv_read addr buf n) Q s.
Proof.
  intros Hp Ha Hn Hcap HQ. unfold tls_spifls_drv_read. pose proof (addr_u32 addr ltac:(lia)) as Hu.
  rewrite le32_cmd by done. apply wp_bind, wp_on_master.
  eapply wp_mono; [apply spi_read_ok; try done; apply Hp|]. intros r t (-> & B1 & B2 & B3).
  rewrite Z.eqb_refl. cbn [negb]. apply wp_ret, HQ. exists t. rewrite B3. done.
Qed.
End driver_ok.

(** ** The module *)

Section module_ok.
Context {T : Type} `{SpiMasterOk T}.
Implicit Type s : spifls T.

(** The module runs with the part; [c] is the count of the lock. *)
Definition running (c : Z) s : Prop := ∃ l, spi_fls s = Some (mk_tls_fls l (Some EXSPI_FLS) c).

Lemma wp_with_drv {A} (bad : Z → A) k c s (Q : A → spifls T → Prop) : running c s → wp (k EXSPI_FLS) Q s →
  wp (with_drv bad k) Q s.
Proof. intros [l Hl] HQ. unfold with_drv. wp_steps. by rewrite Hl. Qed.
Lemma wp_field f s (Q : Z → spifls T → Prop) : part_ok s → Q (f part_drv) s → wp (drv_field f EXSPI_FLS) Q s.
Proof. intros Hp HQ. apply wp_gets. cbn. by rewrite (pt_drv _ Hp). Qed.
Definition set_lock (c : Z) s : spifls T := set_spi_fls ((λ f, mk_tls_fls (fls_drvs f) (current_drv f) c) <$> spi_fls s) s.
Lemma wp_lock_acquire c s (Q : unit → spifls T → Prop) : running c s → 0 < c → Q tt (set_lock (c - 1) s) →
  wp lock_acquire Q s.
Proof.
  intros [l Hl] Hc HQ. unfold lock_acquire, set_lock in *. wp_steps. rewrite Hl in *. cbn [fls_lock].
  rewrite (proj2 (Z.ltb_lt _ _)) by done. by apply wp_modify.
Qed.
Lemma wp_lock_release c s (Q : unit → spifls T → Prop) : running c s → Q tt (set_lock (c + 1) s) →
  wp lock_release Q s.
Proof. intros [l Hl] HQ. unfold lock_release, set_lock in *. wp_steps. rewrite Hl in *. by apply wp_modify. Qed.
Lemma running_lock c c' s : running c s → running c' (set_lock c' s).
Proof. intros [l Hl]. exists l. unfold set_lock. by rewrite Hl. Qed.
Lemma running_step c m s s' : running c s → part_step m s s' → running c s'.
Proof. intros [l Hl] (t & -> & _). by exists l. Qed.
Lemma part_ok_lock c s : part_ok s → part_ok (set_lock c s).
Proof. intros []. by constructor. Qed.
(** The lock is taken and given back. *)
Lemma locked_step m c c' s s' : running c s → part_step m (set_lock c' s) s' → part_step m s (set_lock c s').
Proof.
  intros [l Hl] (t & -> & Ht). exists t. split; [|done]. unfold set_lock. cbn. rewrite Hl. cbn.
  rewrite <- Hl. by destruct s.
Qed.

(** *** Pages *)

Definition pages_written (m : Z → Z) (lo hi base : Z) (buf : list Z) : Z → Z := λ x,
  if (lo <=? x) && (x <? hi) then Z.land (m x) (default 0 (byte_at buf (x - base))) else m x.
Lemma wp_page_loop n : ∀ i page buf s (Q : Z → spifls T → Prop), part_ok s → 0 <= page → 0 <= i →
  (page + i + Z.of_nat n) * 256 <= capacity → (i + Z.of_nat n) * 256 <= blen buf → bytes_ok buf →
  (∀ s', part_step (pages_written (ext_mem s) ((page + i) * 256) ((page + i + Z.of_nat n) * 256) (page * 256) buf) s s' →
     Q TLS_FLS_STATUS_OK s') →
  wp (page_loop n EXSPI_FLS i page buf) Q s.
Proof.
  pose proof capacity_range as [Hcr _]. induction n as [|n IH]; intros i page buf s Q Hp Hpg Hi Hcap Hl Hok HQ; cbn [page_loop].
  - apply wp_ret, HQ. exists (spi_bus s). split; [by destruct s|]. split; [apply Hp|]. split; [apply Hp|].
    intros x _. unfold pages_written. case_if; [lia|done].
  - apply wp_bind, wp_field; [done|]. cbn [page_size part_drv].
    rewrite u32_id by (unfold is_u32; lia).
    assert (blen (drop (Z.to_nat (i * 256)) buf) = blen buf - i * 256) as Hdl.
    { unfold blen in *. rewrite length_drop. lia. }
    apply wp_bind. cbn [drv_page_write]. apply wp_drv_page_write; [done|lia|lia|lia|by apply Forall_drop|].
    intros s1 H1. change (TLS_FLS_STATUS_OK =? TLS_FLS_STATUS_OK) with true. cbn [negb].
    destruct (part_ok_step _ _ _ Hp H1) as [Hp1 Hm1].
    apply IH; [done|lia|lia|lia|lia|done|]. intros s2 H2. apply HQ. eapply part_step_trans; [exact H1|].
    eapply part_step_ext; [exact H2|]. intros x Hx. unfold pages_written. rewrite Hm1 by done. unfold programmed.
    assert (∀ y, 0 <= y → byte_at (drop (Z.to_nat (i * 256)) buf) y = byte_at buf (i * 256 + y)) as Hdrop.
    { intros y Hy. rewrite !byte_at_lookup by lia. rewrite lookup_drop. f_equal. lia. }
    destruct (Z.leb_spec ((page + i) * 256) x), (Z.ltb_spec x ((page + i) * 256 + 256)),
      (Z.leb_spec ((page + (i + 1)) * 256) x), (Z.ltb_spec x ((page + (i + 1) + Z.of_nat n) * 256)),
      (Z.ltb_spec x ((page + i + Z.of_nat (S n)) * 256)); try lia; cbn [andb]; try done.
    all: rewrite Hdrop by lia; do 3 f_equal; lia.
Qed.
Lemma wp_spifls_page_write c page buf n s (Q : Z → spifls T → Prop) : running c s → part_ok s → 0 <= page → 0 < n →
  (page + n) * 256 <= capacity → n * 256 <= blen buf → bytes_ok buf →
  (∀ s', part_step (pages_written (ext_mem s) (page * 256) ((page + n) * 256) (page * 256) buf) s s' →
     Q TLS_FLS_STATUS_OK s') →
  wp (tls_spifls_page_write page (Some buf) n) Q s.
Proof.
  intros Hr Hp Hpg Hn Hcap Hl Hok HQ. pose proof capacity_range as [Hcr Hcm]. unfold tls_spifls_page_write.
  eapply wp_with_drv; [done|]. do 2 (apply wp_bind, wp_field; [done|]). cbn [total_size page_size part_drv].
  assert (capacity / 256 * 256 = capacity) as Hdiv by dlia.
  rewrite (proj2 (Z.leb_gt _ _)), (proj2 (Z.eqb_neq _ _)) by lia. cbn [orb].
  rewrite (u32_id (page + n)) by (unfold is_u32; lia).
  rewrite (proj2 (Z.ltb_ge _ _)) by lia.
  apply wp_page_loop; [done|done|lia|lia|lia|done|]. intros s' Hs'. apply HQ. eapply part_step_ext; [exact Hs'|].
  intros x _. unfold pages_written. by rewrite Z.add_0_r, Z2Nat.id by lia.
Qed.

(** *** Sectors *)

Definition written (m : Z → Z) (lo hi base : Z) (buf : list Z) : Z → Z := λ x,
  if (lo <=? x) && (x <? hi) then default 0 (byte_at buf (x - base)) else m x.

Lemma in_range lo hi x : lo <= x < hi → (lo <=? x) && (x <? hi) = true.
Proof. intros. apply andb_true_iff. lia. Qed.
Lemma out_range lo hi x : ¬ lo <= x < hi → (lo <=? x) && (x <? hi) = false.
Proof. intros. apply andb_false_iff. lia. Qed.

(** A sector read, changed from [di] on, erased and written back. *)
Lemma sector_rewritten m sec di cnt bp buf : (∀ x, is_u8 (m x)) → bytes_ok buf → 0 <= sec → 0 <= di → 0 <= cnt →
  di + cnt <= 4096 → 0 <= bp → bp + cnt <= blen buf →
  let cache := splice (m <$> seqZ (sec * 4096) 4096) di (slice buf bp cnt) in
  blen cache = 4096 ∧ bytes_ok cache ∧
  ∀ x, pages_written (erased m sec) (sec * 4096) (sec * 4096 + 4096) (sec * 4096) cache x =
    written m (sec * 4096 + di) (sec * 4096 + di + cnt) (sec * 4096 + di - bp) buf x.
Proof.
  intros Hm Hok Hs Hdi Hcnt He Hbp Hb cache.
  assert (blen (m <$> seqZ (sec * 4096) 4096) = 4096) as Hl0 by (apply blen_fmap_seqZ; lia).
  assert (blen (slice buf bp cnt) = cnt) as Hl1 by (apply blen_slice; lia).
  assert (blen cache = 4096) as Hl by (unfold cache; rewrite blen_splice; lia).
  assert (bytes_ok cache) as Hcok by (apply bytes_ok_splice; [by apply bytes_ok_fmap|by apply bytes_ok_slice]).
  split; [done|]. split; [done|]. intros x. unfold pages_written, erased, written.
  destruct (decide (sec * 4096 <= x < sec * 4096 + 4096)) as [Hin|Hout].
  - rewrite (proj2 (Z.eqb_eq (x / 4096) sec)) by dlia.
    rewrite (in_range (sec * 4096)) by lia.
    destruct (byte_at_is_Some cache (x - sec * 4096)) as [v Hv]; [lia|]. rewrite Hv. cbn [default].
    rewrite land_255_u8 by (eapply byte_at_ok; done). unfold cache in Hv.
    rewrite byte_at_splice in Hv by lia. rewrite Hl1 in Hv. case_if.
    + rewrite in_range in Hv by lia.
      rewrite byte_at_slice in Hv by lia. replace (x - (sec * 4096 + di - bp)) with (bp + (x - sec * 4096 - di)) by lia.
      by rewrite Hv.
    + rewrite out_range in Hv by (apply andb_false_iff in E as [?|?]; zbool; lia).
      rewrite byte_at_fmap_seqZ in Hv by lia. injection Hv as <-. unfold id. f_equal. lia.
  - rewrite (proj2 (Z.eqb_neq (x / 4096) sec)) by dlia.
    rewrite (out_range (sec * 4096)) by lia.
    by rewrite out_range by lia.
Qed.

Lemma wp_rewrite_sector c sec di cnt bp buf cache s (Q : Z * list Z → spifls T → Prop) : running c s → part_ok s →
  0 <= sec → sec * 4096 + 4096 <= capacity → blen cache = 4096 → bytes_ok buf →
  0 <= di → 0 <= cnt → di + cnt <= 4096 → 0 <= bp → bp + cnt <= blen buf →
  (∀ cache' s', blen cache' = 4096 →
     part_step (written (ext_mem s) (sec * 4096 + di) (sec * 4096 + di + cnt) (sec * 4096 + di - bp) buf) s s' →
     Q (TLS_FLS_STATUS_OK, cache') s') →
  wp (rewrite_sector EXSPI_FLS sec di cnt bp buf cache) Q s.
Proof.
  intros Hr Hp Hs Hcap Hlc Hok Hdi Hcnt He Hbp Hb HQ. unfold rewrite_sector.
  do 2 (apply wp_bind, wp_field; [done|]). cbn [sector_size page_size part_drv drv_read].
  change (4096 / 256) with 16. assert (is_u32 (sec * 4096)) as Hu1 by (apply addr_u32; lia). rewrite (u32_id (sec * 4096)) by done.
  apply wp_bind, wp_drv_read; [done|lia|lia|lia|]. intros s1 H1. destruct (part_ok_step _ _ _ Hp H1) as [Hp1 Hm1].
  rewrite Z.eqb_refl. cbn [negb]. rewrite splice_all by (rewrite blen_fmap_seqZ; lia).
  apply wp_bind. eapply wp_of_opt; [apply memcpy_Some; rewrite ?blen_fmap_seqZ; lia|].
  destruct (sector_rewritten (ext_mem s) sec di cnt bp buf) as (Hl & Hcok & Hw); try done.
  { intros x. apply chip_mem_u8. }
  set (new := splice _ _ _) in *.
  apply wp_bind. cbn [drv_erase]. apply wp_drv_erase; [done|done|done|]. intros s2 H2.
  destruct (part_ok_step _ _ _ Hp1 H2) as [Hp2 Hm2]. rewrite Z.eqb_refl. cbn [negb].
  assert (is_u32 (sec * 16)) as Hu2 by (apply addr_u32; lia). rewrite u32_id by done.
  apply wp_bind. eapply wp_spifls_page_write; [|done|lia|lia|lia|lia|done|].
  { eapply running_step; [|done]. by eapply running_step. }
  intros s3 H3. apply wp_ret, HQ; [done|]. eapply part_step_trans; [|eapply part_step_trans]; [exact H1|exact H2|].
  eapply part_step_ext; [exact H3|]. intros x Hx. rewrite <- Hw.
  unfold pages_written. replace (sec * 16 * 256) with (sec * 4096) by lia.
  replace ((sec * 16 + 16) * 256) with (sec * 4096 + 4096) by lia. rewrite Hm2 by done. unfold erased. by rewrite Hm1.
Qed.

(** How much of [W] bytes is written before sector [i]. *)
Definition written_before (addr W i : Z) : Z := Z.max 0 (Z.min W (i * 4096 - addr mod 4096)).
Definition sectors_of (addr W : Z) : Z := (addr + W - 1) / 4096 - addr / 4096 + 1.
Lemma sector_span_ok addr W i : 0 <= addr → 0 < W → 0 <= i < sectors_of addr W →
  let bp := written_before addr W i in
  let di := (sector_span (sectors_of addr W) i (addr mod 4096) 4096 (W - bp)).1 in
  let cnt := (sector_span (sectors_of addr W) i (addr mod 4096) 4096 (W - bp)).2 in
  (addr / 4096 + i) * 4096 + di = addr + bp ∧ 0 <= di ∧ 0 < cnt ∧ di + cnt <= 4096 ∧
  bp + cnt = written_before addr W (i + 1) ∧ 0 <= bp ∧ bp + cnt <= W.
Proof.
  intros Ha HW Hi. unfold sector_span, written_before. unfold sectors_of in *.
  assert (0 <= addr mod 4096 < 4096 ∧ addr = 4096 * (addr / 4096) + addr mod 4096) as [Ho He] by dlia.
  assert (0 <= (addr + W - 1) mod 4096 < 4096 ∧
    addr + W - 1 = 4096 * ((addr + W - 1) / 4096) + (addr + W - 1) mod 4096) as [Ho' He'] by dlia.
  generalize dependent (addr mod 4096). generalize dependent (addr / 4096).
  generalize dependent ((addr + W - 1) mod 4096). generalize dependent ((addr + W - 1) / 4096).
  intros q r Hr Hq q0 Hi r0 Hr0 Hq0. repeat case_if; cbn [fst snd]; lia.
Qed.
Lemma written_trans m a b c base buf x : a <= b <= c →
  written (written m a b base buf) b c base buf x = written m a c base buf x.
Proof.
  intros Hb. unfold written.
  destruct (Z.leb_spec a x), (Z.ltb_spec x b), (Z.leb_spec b x), (Z.ltb_spec x c); try lia; done.
Qed.
Lemma wp_write_sectors n : ∀ c i bp wb addr W buf cache s (Q : Z → spifls T → Prop), running c s → part_ok s →
  0 <= addr → 0 < W → addr + W <= capacity → W <= blen buf → bytes_ok buf → blen cache = 4096 →
  0 <= i → Z.of_nat n = sectors_of addr W - i → bp = written_before addr W i → wb = W - bp →
  (∀ s', part_step (written (ext_mem s) (addr + written_before addr W i) (addr + W) addr buf) s s' →
     Q TLS_FLS_STATUS_OK s') →
  wp (write_sectors n EXSPI_FLS addr (addr / 4096) (sectors_of addr W) i bp wb buf cache) Q s.
Proof.
  pose proof capacity_range as [Hcr Hcm].
  induction n as [|n IH]; intros c i bp wb addr W buf cache s Q Hr Hp Ha HW Hcap HWb Hok Hlc Hi Hn -> -> HQ;
    cbn [write_sectors].
  - apply wp_ret, HQ. exists (spi_bus s). split; [by destruct s|]. split; [apply Hp|]. split; [apply Hp|].
    intros x _. unfold written. rewrite out_range; [done|].
    unfold written_before. unfold sectors_of in *. dlia.
  - apply wp_bind, wp_field; [done|]. cbn [sector_size part_drv].
    destruct (sector_span_ok addr W i ltac:(lia) HW ltac:(lia)) as (H1 & H2 & H3 & H4 & H5 & H6 & H7).
    assert ((addr / 4096 + i) * 4096 + 4096 <= capacity) as Hsec by (unfold sectors_of in *; dlia).
    destruct (sector_span _ _ _ _ _) as [di cnt] eqn:Esp. cbn [fst snd] in *.
    assert (0 <= addr / 4096) by dlia.
    rewrite (u32_id (addr / 4096 + i)) by (apply addr_u32; lia).
    apply wp_bind. eapply wp_rewrite_sector; try done; try lia. intros cache' s1 Hlc' Hs1.
    rewrite Z.eqb_refl. cbn [negb]. destruct (part_ok_step _ _ _ Hp Hs1) as [Hp1 Hm1].
    rewrite u32_id by (apply addr_u32; lia).
    eapply IH; try done; try lia; [by eapply running_step|]. intros s2 Hs2. apply HQ.
    eapply part_step_trans; [exact Hs1|]. eapply part_step_ext; [exact Hs2|]. intros x Hx.
    rewrite <- (written_trans (ext_mem s) _ (addr + written_before addr W (i + 1))) by lia.
    unfold written at 1 2. case_if; [done|]. rewrite Hm1 by done. rewrite H1, <- H5. unfold written.
    replace (addr + written_before addr W i - written_before addr W i) with addr by lia.
    by rewrite Z.add_assoc.
Qed.
End module_ok.

(** ** The operations *)

Section operations.
Context {T : Type} `{SpiMasterOk T}.
Implicit Type s : spifls T.

(** What a request for [len] bytes covers. *)
Definition within (addr len : Z) : Z := Z.min len (capacity - addr).
Lemma clip_within addr len : 0 <= addr < capacity → 0 < len → addr + len < 0x100000000 → clip addr len capacity = within addr len.
Proof.
  intros Ha Hl Hs. pose proof capacity_range as [Hc _]. unfold clip, within.
  rewrite (u32_id (addr + len)) by (unfold is_u32; lia). case_if; [|lia].
  rewrite u32_id by (apply addr_u32; lia). lia.
Qed.

(** The module runs, nobody holds its lock, and memory is never short. *)
Record spifls_ok s : Prop := {
  so_running : running 1 s;
  so_part : part_ok s;
  so_heap : ∀ k, spi_hp s k ≠ None;
}.
(** The part now holds [m]; the heap may have been asked. *)
Definition ext_step (m : Z → Z) s s' : Prop :=
  ∃ h, (∀ k, h k ≠ None) ∧ part_step m (set_spi_hp h s) s'.
Lemma ext_step_ok m s s' : spifls_ok s → ext_step m s s' →
  spifls_ok s' ∧ ∀ x, 0 <= x < capacity → ext_mem s' x = m x.
Proof.
  intros [[l Hr] [] Hh] (h & Hh' & t & -> & Ht & Hb & Hm). split; [|done]. split; [by exists l|by split|done].
Qed.

Lemma wp_spi_alloc n (Q : option (list Z) → spifls T → Prop) s : 0 <= n → (∀ k, spi_hp s k ≠ None) →
  (∀ c h, blen c = n → (∀ k, h k ≠ None) → Q (Some c) (set_spi_hp h s)) → wp (spi_alloc n) Q s.
Proof.
  intros Hn Hh HQ. unfold spi_alloc. apply wp_lift. unfold malloc, wp. destruct (spi_hp s O) as [junk|] eqn:E; [|by destruct (Hh O)].
  cbn. apply HQ; [|done]. apply blen_fmap_seqZ. lia.
Qed.

Lemma wp_spifls_read addr buf len s (Q : Z * option (list Z) → spifls T → Prop) : spifls_ok s →
  0 <= addr < capacity → 0 < len → addr + len < 0x100000000 → within addr len <= blen buf →
  (∀ s', ext_step (ext_mem s) s s' →
     Q (TLS_FLS_STATUS_OK, Some (splice buf 0 (ext_mem s <$> seqZ addr (within addr len)))) s') →
  wp (tls_spifls_read addr (Some buf) len) Q s.
Proof.
  intros [Hr Hp Hh] Ha Hl Hs Hb HQ. unfold tls_spifls_read. eapply wp_with_drv; [done|].
  apply wp_bind, wp_field; [done|]. cbn [total_size part_drv].
  rewrite (proj2 (Z.leb_gt _ _)), (proj2 (Z.eqb_neq _ _)) by lia. cbn [orb].
  apply wp_bind. eapply wp_lock_acquire; [done|lia|]. apply wp_bind, wp_field; [by apply part_ok_lock|].
  cbn [total_size part_drv drv_read]. rewrite clip_within by done.
  apply wp_bind, wp_drv_read; [by apply part_ok_lock|lia|unfold within in *; lia|unfold within; lia|].
  intros s1 Hs1. apply wp_bind. eapply wp_lock_release; [eapply running_step; [by eapply running_lock|done]|].
  apply wp_ret, HQ. exists (spi_hp s). split; [done|].
  replace (set_spi_hp (spi_hp s) s) with s by (by destruct s). by eapply locked_step.
Qed.

Lemma wp_spifls_write addr buf len s (Q : Z → spifls T → Prop) : spifls_ok s →
  0 <= addr < capacity → 0 < len → addr + len < 0x100000000 → within addr len <= blen buf → bytes_ok buf →
  (∀ s', ext_step (written (ext_mem s) addr (addr + within addr len) addr buf) s s' → Q TLS_FLS_STATUS_OK s') →
  wp (tls_spifls_write addr (Some buf) len) Q s.
Proof.
  intros [Hr Hp Hh] Ha Hl Hs Hb Hok HQ. unfold tls_spifls_write. eapply wp_with_drv; [done|].
  apply wp_bind, wp_field; [done|]. cbn [total_size part_drv].
  rewrite (proj2 (Z.leb_gt _ _)), (proj2 (Z.eqb_neq _ _)) by lia. cbn [orb].
  apply wp_bind. eapply wp_lock_acquire; [done|lia|]. pose proof (part_ok_lock (1 - 1) _ Hp) as Hpl.
  pose proof (running_lock _ (1 - 1) _ Hr) as Hrl.
  do 2 (apply wp_bind, wp_field; [done|]). cbn [total_size sector_size part_drv]. rewrite clip_within by done.
  assert (0 < within addr len ∧ addr + within addr len <= capacity) as [HW Hcap] by (unfold within; lia).
  generalize dependent (within addr len). intros W Hb HQ HW Hcap.
  rewrite (u32_id (addr + W - 1)) by (apply addr_u32; lia). fold (sectors_of addr W).
  assert (0 < sectors_of addr W <= capacity) as Hn by (unfold sectors_of; dlia).
  assert (is_u32 (sectors_of addr W)) as Hnu.
  { unfold is_u32. pose proof capacity_range as [? _]. lia. }
  rewrite (u32_id (sectors_of addr W)) by done.
  apply wp_bind, wp_spi_alloc; [lia|done|]. intros cache h Hlc Hh'. cbn iota.
  apply wp_bind. eapply wp_write_sectors; try done; try lia; try (unfold written_before; dlia).
  { by destruct Hpl; split. }
  intros s1 Hs1. apply wp_bind. eapply wp_lock_release; [eapply running_step; [|done]; exact Hrl|].
  apply wp_ret, HQ. exists h. split; [done|].
  replace (addr + written_before addr W 0) with addr in Hs1 by (unfold written_before; dlia).
  eapply locked_step; [exact Hr|exact Hs1].
Qed.

Lemma wp_spifls_erase sector s (Q : Z → spifls T → Prop) : spifls_ok s → 0 <= sector → sector * 4096 + 4096 <= capacity →
  (∀ s', ext_step (erased (ext_mem s) sector) s s' → Q TLS_FLS_STATUS_OK s') →
  wp (tls_spifls_erase sector) Q s.
Proof.
  intros [Hr Hp Hh] Hs Hcap HQ. unfold tls_spifls_erase. eapply wp_with_drv; [done|].
  do 2 (apply wp_bind, wp_field; [done|]). cbn [total_size sector_size part_drv drv_erase].
  rewrite (proj2 (Z.leb_gt _ _)) by dlia.
  apply wp_bind. eapply wp_lock_acquire; [done|lia|].
  apply wp_bind, wp_drv_erase; [by apply part_ok_lock|done|done|].
  intros s1 Hs1. apply wp_bind. eapply wp_lock_release; [eapply running_step; [by eapply running_lock|done]|].
  apply wp_ret, HQ. exists (spi_hp s). split; [done|].
  replace (set_spi_hp (spi_hp s) s) with s by (by destruct s). by eapply locked_step.
Qed.
End operations.

(** ** Start-up *)

Section init.
Context {T : Type} `{SpiMasterOk T}.
Implicit Type s : spifls T.

Lemma read_id_word : of_le (splice (le32 0) 0 (slice (le32 chip_id) 0 3)) = chip_id.
Proof.
  pose proof chip_id_range as Hr. change (2 ^ 24) with 0x1000000 in Hr.
  change (u8 chip_id + 256 * (u8 (Z.shiftr chip_id 8) + 256 * (u8 (Z.shiftr chip_id 16) + 0)) = chip_id).
  unfold u8, wrap. rewrite !Z.shiftr_div_pow2 by lia. change (2 ^ 8) with 256. change (2 ^ 16) with 65536. dlia.
Qed.
(** The part tells its identification; the sizes follow from it. *)
Lemma wp_probe id s (Q : Z → spifls T → Prop) : id = chip_id →
  Q TLS_FLS_STATUS_OK (set_exspifls_drv true (set_exspi_fls part_drv s)) → wp (tls_spifls_drv_probe id) Q s.
Proof.
  intros -> HQ. pose proof chip_id_range. pose proof chip_log_range as Hl. unfold tls_spifls_drv_probe.
  rewrite (proj2 (Z.eqb_neq _ _)) by lia. rewrite chip_id_log.
  assert (truth (Z.land chip_log 255) = true) as ->.
  { change 255 with (Z.ones 8). rewrite Z.land_ones by lia. unfold truth. apply negb_true_iff, Z.eqb_neq.
    rewrite Z.mod_small by lia. lia. }
  rewrite (proj2 (Z.ltb_lt _ _)) by lia. rewrite Z.shiftl_1_l. wp_steps. exact HQ.
Qed.
Lemma wp_spifls_init s (Q : Z → spifls T → Prop) : spi_fls s = None → chip_ok (spi_bus s) → chip_busy (spi_bus s) = O →
  (∀ k, spi_hp s k ≠ None) →
  (∀ s', spifls_ok s' → ext_mem s' = ext_mem s → Q TLS_FLS_STATUS_OK s') → wp (tls_spifls_init true) Q s.
Proof.
  intros Hn Hok Hb Hh HQ. unfold tls_spifls_init. wp_steps. rewrite Hn. wp_step.
  apply wp_spi_alloc; [done|done|]. intros c h _ Hh'. cbn [negb]. wp_steps.
  unfold tls_spifls_drv_install. wp_step. unfold tls_spifls_drv_register. wp_steps.
  cbn [spi_fls set_spi_fls fls_drvs drv_exists drv_field]. wp_steps. change (TLS_FLS_STATUS_OK =? TLS_FLS_STATUS_EEXIST) with false.
  cbv iota. unfold tls_spifls_probe. wp_steps. cbn [spi_fls set_spi_fls current_drv fls_drvs fls_lock app].
  unfold tls_spifls_read_id. wp_steps. apply wp_on_master. eapply wp_mono; [by apply spi_rdid_ok|].
  intros r t1 (-> & A1 & A2 & A3). wp_steps. rewrite Z.eqb_refl. cbn [negb]. rewrite read_id_word.
  cbn [drv_probe]. apply wp_bind.
  apply wp_probe; [done|]. rewrite Z.eqb_refl. cbn [negb]. wp_steps. apply wp_on_master.
  eapply wp_mono; [by apply spi_setup_ok|]. intros _ t2 (B1 & B2 & B3). wp_steps.
  apply HQ.
  - split; [by eexists|split; cbn; try done; by rewrite B2|done].
  - etransitivity; [exact B3|exact A3].
Qed.
End init.

(** ** The driver as a flash of its own, and as the second flash *)

Section dev.
Context {T : Type} `{SpiMasterOk T}.
Implicit Type s : spifls T.
Local Open Scope c_scope.

#[export] Instance spifls_second : SpiFls (spifls T) := {
  InternalFlash.tls_spifls_read := tls_spifls_read;
  InternalFlash.tls_spifls_write := tls_spifls_write;
  InternalFlash.tls_spifls_erase := tls_spifls_erase;
  InternalFlash.tls_spifls_chip_erase := tls_spifls_chip_erase;
  InternalFlash.tls_spifls_read_id := tls_spifls_read_id;
}.
#[export] Instance spifls_dev : FlashDev (spifls T) := {
  fls_read a buf n := let* ' (err, b) := tls_spifls_read a (Some buf) n in ret (err, default buf b);
  fls_write a buf n := tls_spifls_write a (Some buf) n;
  fls_erase sec := tls_spifls_erase sec;
}.
#[export] Program Instance spifls_dev_ok : FlashDevOk (spifls T) := {
  fd_ok := spifls_ok;
  fd_mem := ext_mem;
  fd_lo := 0;
  fd_hi := capacity;
}.
Next Obligation. done. Qed.
Next Obligation. pose proof capacity_range. lia. Qed.
Next Obligation. intros. apply chip_mem_u8. Qed.
Next Obligation.
  intros a buf n s Hs Ha Hn Hl. pose proof capacity_range. cbn.
  assert (within a n = n) as Hw by (unfold within; lia).
  apply wp_bind, wp_spifls_read; rewrite ?Hw; try done; try lia. intros s' Hs'. apply wp_ret. split; [done|].
  by apply ext_step_ok with s.
Qed.
Next Obligation.
  intros a buf n s Hs Ha Hn Hl Hok. pose proof capacity_range. cbn.
  assert (within a n = n) as Hw by (unfold within; lia).
  apply wp_spifls_write; rewrite ?Hw; try done; try lia. intros s' Hs'. split; [done|].
  destruct (ext_step_ok _ _ _ Hs Hs') as [? Hm]. split; [done|]. intros x Hx. by rewrite Hm.
Qed.
Next Obligation.
  intros a buf s [[l Hr] [] _] Ha. cbn. unfold tls_spifls_write, with_drv, bind, gets. rewrite Hr.
  cbn [current_drv drv_field]. unfold gets.
  change (0 =? 0) with true. by rewrite orb_true_r.
Qed.
Next Obligation.
  intros sec s Hs Hlo Hhi. cbn. apply wp_spifls_erase; [done|lia|done|]. intros s' Hs'. split; [done|].
  by apply ext_step_ok with s.
Qed.
End dev.

(** ** A part

    A part of [2 ^ lg] bytes that is busy for three looks at its status after
    every command that changes it: the laws can be met and the driver run. *)

Record spisim (lg : Z) := mk_spisim {
  ch_mem : Z → Z;
  ch_wel : bool;
  ch_busy : nat;
}.
Arguments mk_spisim {lg}.
Arguments ch_mem {lg}.
Arguments ch_wel {lg}.
Arguments ch_busy {lg}.
Class CapacityLog (lg : Z) : Prop := capacity_log : 12 <= lg <= 24.
Definition word24 (a b c : Z) : Z := a * 65536 + b * 256 + c.
Definition sim_id (lg : Z) : Z := lg * 65536 + 0x40C8.
Definition sim_programmed (m : Z → Z) (a : Z) (data : list Z) : Z → Z := λ x,
  if (a <=? x) && (x <? a + 256) then Z.land (m x) (default 0 (byte_at data (x - a))) else m x.

#[export] Instance spisim_master lg : SpiMaster (spisim lg) := {
  tls_spi_write l := λ t, Some (0,
    match l with
    | [c] => if c =? 0x06 then mk_spisim (ch_mem t) true (ch_busy t)
             else if (c =? 0xC7) && ch_wel t then mk_spisim (λ _, 255) false 3
             else t
    | [c; a1; a2; a3] =>
        if (c =? 0x20) && ch_wel t
        then mk_spisim (λ x, if x / 4096 =? word24 a1 a2 a3 / 4096 then 255 else ch_mem t x) false 3
        else t
    | _ => t
    end);
  tls_spi_write_with_cmd l data := λ t, Some (0,
    match l with
    | [c; a1; a2; a3] =>
        if (c =? 0x02) && ch_wel t
        then mk_spisim (sim_programmed (ch_mem t) (word24 a1 a2 a3) data) false 3 else t
    | _ => t
    end);
  tls_spi_read_with_cmd l buf n := λ t, Some (
    match l with
    | [c] => ((0, splice buf 0 [(if ch_wel t then 2 else 0) + (if (0 <? ch_busy t)%nat then 1 else 0)]),
              mk_spisim (ch_mem t) (ch_wel t) (pred (ch_busy t)))
    | [c; a1; a2; a3] =>
        if c =? 0x9F then ((0, splice buf 0 (slice (le32 (sim_id lg)) 0 n)), t)
        else ((0, splice buf 0 ((λ x, u8 (ch_mem t x)) <$> seqZ (word24 a1 a2 a3) n)), t)
    | _ => ((0, buf), t)
    end);
  tls_spi_setup mode cs clk := λ t, Some (0, t);
  patience := 3;
}.

Lemma word24_addr24 a : 0 <= a < 0x1000000 →
  word24 (u8 (Z.shiftr a 16)) (u8 (Z.shiftr a 8)) (u8 a) = a.
Proof.
  intros Ha. unfold word24, u8, wrap. rewrite !Z.shiftr_div_pow2 by lia.
  change (2 ^ 8) with 256. change (2 ^ 16) with 65536. dlia.
Qed.
#[export] Program Instance spisim_ok lg `{Hlg : !CapacityLog lg} : SpiMasterOk (spisim lg) := {
  chip_ok t := (ch_busy t ≤ 3)%nat;
  chip_mem t x := u8 (ch_mem t x);
  chip_wel := ch_wel;
  chip_busy := ch_busy;
  chip_log := lg;
  chip_id := sim_id lg;
}.
Next Obligation. by intros. Qed.
Next Obligation. intros lg Hlg. unfold CapacityLog, sim_id in *. lia. Qed.
Next Obligation.
  intros lg Hlg. unfold CapacityLog, sim_id in *. rewrite Z.shiftr_div_pow2 by lia. change (2 ^ 16) with 65536. dlia.
Qed.
Next Obligation. intros. apply u8_range. Qed.
Next Obligation. done. Qed.
Next Obligation. done. Qed.
Next Obligation. intros lg Hlg buf t Hok Hb Hn. done. Qed.
Next Obligation. intros lg Hlg t Hok Hb. done. Qed.
Next Obligation.
  intros lg Hlg [m w b] Hok. unfold wp. cbn in *. eexists. split; [reflexivity|].
  split; [by destruct w, b|]. split; [by destruct w, b|]. split; [destruct b; cbn; lia|done].
Qed.
Next Obligation.
  intros lg Hlg a n buf t Hok Hb Ha Hn Hend. unfold wp. cbn.
  assert (2 ^ lg <= 2 ^ 24) as Hp by (apply Z.pow_le_mono_r; unfold CapacityLog in *; lia).
  change (2 ^ 24) with 0x1000000 in Hp. by rewrite word24_addr24 by lia.
Qed.
Next Obligation.
  intros lg Hlg a data t Hok Hb Hw Ha Ha' Hend Hl Hd. unfold wp. cbn. rewrite Hw. cbn.
  assert (2 ^ lg <= 2 ^ 24) as Hp by (apply Z.pow_le_mono_r; unfold CapacityLog in *; lia).
  change (2 ^ 24) with 0x1000000 in Hp. rewrite word24_addr24 by lia.
  split; [done|]. split; [lia|]. intros x. unfold sim_programmed. case_if; [|done].
  destruct (byte_at_is_Some data (x - a)) as [v Hv]; [lia|]. rewrite Hv. cbn.
  unfold id, u8, wrap.
  rewrite <- !Z.land_ones by lia. rewrite <- !Z.land_assoc. f_equal. apply Z.land_comm.
Qed.
Next Obligation.
  intros lg Hlg a t Hok Hb Hw Ha Ha' Hend. unfold wp. cbn. rewrite Hw. cbn.
  assert (2 ^ lg <= 2 ^ 24) as Hp by (apply Z.pow_le_mono_r; unfold CapacityLog in *; lia).
  change (2 ^ 24) with 0x1000000 in Hp. rewrite word24_addr24 by lia.
  split; [done|]. split; [lia|]. intros x.
  destruct (Z.eqb_spec (x / 4096) (a / 4096)); case_if; try done; exfalso.
  - apply andb_false_iff in E as [?|?]; zbool; dlia.
  - dlia.
Qed.
Next Obligation. intros lg Hlg t Hok Hb Hw. unfold wp. cbn. rewrite Hw. cbn. split; [done|]. split; [lia|done]. Qed.
#[export] Instance log20 : CapacityLog 20.
Proof. unfold CapacityLog. lia. Qed.
#[export] Instance log21 : CapacityLog 21.
Proof. unfold CapacityLog. lia. Qed.
(** A part as it comes: every sector [s] full of the byte [s]. *)
Definition spi_part lg : spisim lg := mk_spisim (λ x, x / 4096) false 0.
Definition spi_start lg : spifls (spisim lg) :=
  mk_spifls (spi_part lg) (λ _, Some (λ _, 0xAA)) None (mk_drv 0 0 0 0 0) false.

(** ** Two flashes as one

    The internal driver over both flashes, the second behind this driver. *)

Section two.
Context {B T : Type} `{FlashBusOk B} `{SpiMasterOk T}.
Implicit Type s : fls B (spifls T).

(** Both are up, the boot loader's sectors being the only ones that may be
    protected, and the sizes are those of the parts. *)
Record two_ok s : Prop := {
  to_ready : ready s;
  to_inner1 : inner1flashsize s = 0x100000;
  to_inner2 : inner2flashsize s = capacity;
  to_total : flashtotalsize s = 0x100000 + capacity;
  to_unprot x : 0x2000 <= x → fb_prot (fb_status (bus s)) x = false;
  to_spi : spifls_ok (spi s);
}.
Definition two_mem s (a : Z) : Z :=
  if a <? FLASH_1M_END_ADDR then mem s (a - 0x8000000) else ext_mem (spi s) (a - FLASH_1M_END_ADDR).
Definition two_hi : Z := FLASH_1M_END_ADDR + capacity.
(** The array [m] is what both hold. *)
Definition two_rel s (m : Z → Z) : Prop := two_ok s ∧ ∀ x, 0x8002000 <= x < two_hi → two_mem s x = m x.

(** The second flash has at most 1 MByte. *)
Hypothesis small : capacity <= 0x100000.

Lemma lor_total t : 0 <= t < 0x8000000 → Z.lor FLASH_BASE_ADDR t = 0x8000000 + t.
Proof.
  intros Ht. assert (Z.land 0x8000000 t = 0) as Hl.
  { apply Z.bits_inj'. intros j Hj. rewrite Z.land_spec, Z.bits_0.
    change 0x8000000 with (2 ^ 27). rewrite Z.pow2_bits_eqb by lia. destruct (Z.eqb_spec 27 j) as [<-|]; [|done].
    cbn [andb]. apply (testbit_high t 27); [|lia]. done. }
  unfold FLASH_BASE_ADDR. rewrite <- Z.add_lor_land, Hl. lia.
Qed.
(** A request from [addr] on, [L] bytes of it being the first flash's. *)
Lemma second_part_in s addr len L : two_ok s → 0x8000000 <= addr → 0 <= L <= len → addr + len <= two_hi →
  addr + L = Z.max addr FLASH_1M_END_ADDR → second_part addr len L (flashtotalsize s) =
    Some (Z.max addr FLASH_1M_END_ADDR, len - L) ∧
  Z.land (Z.max addr FLASH_1M_END_ADDR) 0xFFFFF = (Z.max addr FLASH_1M_END_ADDR - FLASH_1M_END_ADDR) mod 0x100000.
Proof.
  intros Hs Ha HL Hend Hsum. pose proof capacity_range as [Hc _]. split.
  - unfold second_part. rewrite (to_total _ Hs), lor_total by lia.
    unfold two_hi, FLASH_1M_END_ADDR in *.
    rewrite (u32_id (addr + len)), (u32_id (len - L)) by (unfold is_u32; lia).
    destruct (Z.leb_spec 0x8100000 addr); [|rewrite (proj2 (Z.leb_le _ _)) by lia].
    all: rewrite ?(Z.max_l addr), ?(Z.max_r addr) in * by lia.
    all: rewrite (proj2 (Z.eqb_neq _ _)), (u32_id (_ + _)), (proj2 (Z.leb_le _ _)) by (unfold is_u32; lia); done.
  - change 0xFFFFF with (Z.ones 20). rewrite Z.land_ones by lia. change (2 ^ 20) with 0x100000.
    unfold two_hi, FLASH_1M_END_ADDR in *. dlia.
Qed.
Lemma inner2_truth s : two_ok s → truth (inner2flashsize s) = true.
Proof.
  intros Hs. pose proof capacity_range as [Hc _]. rewrite (to_inner2 _ Hs). unfold truth.
  apply negb_true_iff, Z.eqb_neq. lia.
Qed.
Lemma two_ok_first s s1 : two_ok s → inside_fls s1 = inside_fls s → inner1flashsize s1 = inner1flashsize s →
  inner2flashsize s1 = inner2flashsize s → flashtotalsize s1 = flashtotalsize s → spi s1 = spi s →
  heap_ok s1 → fb_status (bus s1) = fb_status (bus s) → two_ok s1.
Proof.
  intros [(Hsem & Hle & _) ? ? ? Hp ?] E1 E2 E3 E4 E5 Hh E6. split; try congruence.
  - split; [congruence|]. split; [by rewrite E2|done].
  - intros x Hx. rewrite E6. by apply Hp.
Qed.
Lemma two_ok_bus s s1 : two_ok s → bus_only (set_hp (next_heap s) s) s1 → two_ok s1 ∧ spi s1 = spi s ∧
  ∀ a, mem s1 a = mem s a.
Proof.
  intros Hs (b & -> & Hst & Hm). split; [|done]. apply (two_ok_first s); try done.
  destruct (to_ready _ Hs) as (_ & _ & Hh). intros k. apply (Hh (S k)).
Qed.
Lemma two_ok_wrote s s1 o data : two_ok s → wrote s s1 o data → two_ok s1 ∧ spi s1 = spi s.
Proof. intros Hs (b & h & -> & Hh & Hst & Hm). split; [|done]. by apply (two_ok_first s). Qed.
Lemma two_ok_spi s t : two_ok s → spifls_ok t → two_ok (set_spi t s).
Proof. intros [] Ht. by split. Qed.

Lemma two_mem_hi s a : FLASH_1M_END_ADDR <= a → two_mem s a = ext_mem (spi s) (a - FLASH_1M_END_ADDR).
Proof. intros. unfold two_mem. by rewrite (proj2 (Z.ltb_ge _ _)). Qed.
Lemma two_mem_lo s a : a < FLASH_1M_END_ADDR → two_mem s a = mem s (a - 0x8000000).
Proof. intros. unfold two_mem. by rewrite (proj2 (Z.ltb_lt _ _)). Qed.

(** What the second flash answers to the rest of a read. *)
Lemma wp_read_second addr len err L buf s (Q : Z * option (list Z) → fls B (spifls T) → Prop) : two_ok s →
  0x8000000 <= addr → 0 <= L < len → addr + len <= two_hi → addr + L = Z.max addr FLASH_1M_END_ADDR → blen buf = len →
  (∀ s', two_ok s' → (∀ a, 0x8000000 <= a < two_hi → two_mem s' a = two_mem s a) →
     Q (TLS_FLS_STATUS_OK, Some (take (Z.to_nat L) buf ++ (two_mem s <$> seqZ (addr + L) (len - L)))) s') →
  wp (read_second addr len err L (Some buf)) Q s.
Proof.
  intros Hs Ha HL Hend Hsum Hl HQ. pose proof capacity_range as [Hc _].
  destruct (second_part_in s addr len L) as [E1 E2]; try done; try lia.
  unfold read_second. wp_steps. rewrite inner2_truth, E1, E2 by done. rewrite <- Hsum.
  assert ((addr + L - FLASH_1M_END_ADDR) mod 0x100000 = addr + L - FLASH_1M_END_ADDR) as ->
    by (apply Z.mod_small; unfold two_hi in *; lia).
  wp_step. eapply wp_of_opt.
  { unfold ptr_add. rewrite (proj2 (andb_true_iff _ _)); [done|lia]. }
  set (x := addr + L - FLASH_1M_END_ADDR) in *.
  assert (within x (len - L) = len - L) as Hw by (unfold within, two_hi in *; lia).
  assert (blen (drop (Z.to_nat L) buf) = len - L) as Hdl by (unfold blen in *; rewrite length_drop; lia).
  wp_step. apply wp_lift. cbn [InternalFlash.tls_spifls_read spifls_second].
  apply wp_spifls_read; rewrite ?Hw; try (unfold two_hi, FLASH_1M_END_ADDR in *; lia); [by apply to_spi|].
  intros t Ht. destruct (ext_step_ok _ _ _ (to_spi _ Hs) Ht) as [Ht' Hm]. apply wp_ret.
  rewrite splice_all by (rewrite blen_fmap_seqZ; lia).
  replace (ext_mem (spi s) <$> seqZ x (len - L)) with (two_mem s <$> seqZ (addr + L) (len - L)).
  - apply HQ; [by apply two_ok_spi|]. intros a Hr. unfold two_mem. case_if; [done|]. cbn [spi set_spi].
    apply Hm. unfold two_hi in *. lia.
  - apply byte_at_ext; rewrite !blen_fmap_seqZ by lia; [done|]. intros i Hi.
    rewrite !byte_at_fmap_seqZ by lia. rewrite two_mem_hi by lia. do 2 f_equal. unfold x. lia.
Qed.
(** What it does with the rest of a write. *)
Lemma wp_write_second addr len L buf s (Q : Z → fls B (spifls T) → Prop) : two_ok s →
  0x8000000 <= addr → 0 <= L < len → addr + len <= two_hi → addr + L = Z.max addr FLASH_1M_END_ADDR →
  blen buf = len → bytes_ok buf →
  (∀ s', two_ok s' → (∀ a, a < two_hi → two_mem s' a =
       if (addr + L <=? a) && (a <? addr + len) then default 0 (byte_at buf (a - addr)) else two_mem s a) →
     Q TLS_FLS_STATUS_OK s') →
  wp (write_second addr len buf 0 L) Q s.
Proof.
  intros Hs Ha HL Hend Hsum Hl Hok HQ. pose proof capacity_range as [Hc _].
  destruct (second_part_in s addr len L) as [E1 E2]; try done; try lia.
  unfold write_second, wp. rewrite inner2_truth, E1 by done. rewrite <- Hsum.
  unfold ptr_add. rewrite Z.add_0_l, (proj2 (andb_true_iff _ _)) by lia. rewrite <- Hsum in E2. rewrite E2.
  assert ((addr + L - FLASH_1M_END_ADDR) mod 0x100000 = addr + L - FLASH_1M_END_ADDR) as ->
    by (apply Z.mod_small; unfold two_hi in *; lia).
  set (x := addr + L - FLASH_1M_END_ADDR) in *.
  assert (within x (len - L) = len - L) as Hw by (unfold within, two_hi in *; lia).
  assert (blen (drop (Z.to_nat L) buf) = len - L) as Hdl by (unfold blen in *; rewrite length_drop; lia).
  apply (wp_lift spi set_spi). cbn [InternalFlash.tls_spifls_write spifls_second].
  apply wp_spifls_write; rewrite ?Hw; try (unfold two_hi, FLASH_1M_END_ADDR in *; lia);
    [by apply to_spi|by apply Forall_drop|].
  intros t Ht. destruct (ext_step_ok _ _ _ (to_spi _ Hs) Ht) as [Ht' Hm].
  apply HQ; [by apply two_ok_spi|]. intros a Hr.
  destruct (Z.ltb_spec a FLASH_1M_END_ADDR).
  - rewrite !two_mem_lo by done. rewrite out_range by lia. done.
  - rewrite !two_mem_hi by done. cbn [spi set_spi]. rewrite Hm by (unfold two_hi in *; lia). unfold written.
    replace (x <=? a - FLASH_1M_END_ADDR) with (addr + L <=? a) by lia.
    replace (a - FLASH_1M_END_ADDR <? x + (len - L)) with (a <? addr + len) by lia.
    case_if; [|done]. rewrite !byte_at_lookup, lookup_drop by lia. do 2 f_equal. unfold x. lia.
Qed.

(** *** The requests *)

(** Reads may run from the first into the second flash, writes too if they
    start in its last sector; none ends exactly where the second begins. *)
Definition two_op (op : fls_op) : Prop :=
  match op with
  | OpRead a n => 0x8002000 <= a ∧ 0 < n ∧ a + n <= two_hi ∧ a + n ≠ FLASH_1M_END_ADDR
  | OpWrite a data => 0x8002000 <= a ∧ 0 < blen data ∧ a + blen data <= two_hi ∧ bytes_ok data ∧
      (FLASH_1M_END_ADDR <= a ∨ a + blen data < FLASH_1M_END_ADDR ∨
       FLASH_1M_END_ADDR - 4096 <= a ∧ FLASH_1M_END_ADDR < a + blen data)
  | OpErase sec => 0x8002000 <= sec * 4096 ∧ sec * 4096 + 4096 <= two_hi
  end.

Lemma two_in_first s a n : two_ok s → 0x8002000 <= a → 0 < n → a + n < FLASH_1M_END_ADDR → in_first s a n.
Proof.
  intros Hs Ha Hn Hend. unfold FLASH_1M_END_ADDR in *. unfold in_first, is_u32, FLASH_1M_END_ADDR.
  rewrite store_offaddr, (to_inner1 _ Hs) by lia. repeat split; lia.
Qed.
Lemma two_first_facts a : 0x8002000 <= a < FLASH_1M_END_ADDR → is_u32 a ∧ flash_off a = offaddr a ∧ offaddr a = a - 0x8000000.
Proof.
  unfold FLASH_1M_END_ADDR. intros Ha. rewrite store_offaddr, flash_off_mod by lia. unfold is_u32.
  split; [lia|]. split; [dlia|done].
Qed.
Lemma u32_two a n : 0 <= a → 0 <= n → a + n <= two_hi → u32 (a + n) = a + n.
Proof.
  intros Ha Hn Hend. pose proof capacity_range. apply u32_id. unfold is_u32, two_hi, FLASH_1M_END_ADDR in *. lia.
Qed.

Lemma take_splice buf b n : n = blen b → take (Z.to_nat n) (splice buf 0 b) = b.
Proof. intros ->. unfold splice, blen. rewrite Nat2Z.id. apply (take_app_length b). Qed.
Lemma two_read_ok a n s : two_ok s → two_op (OpRead a n) →
  wp (driver_op (OpRead a n)) (λ r s', r = (0, two_mem s <$> seqZ a n) ∧ two_ok s' ∧
    ∀ x, 0x8002000 <= x < two_hi → two_mem s' x = two_mem s x) s.
Proof.
  intros Hs (Ha & Hn & Hend & Hne). cbn [driver_op]. apply wp_bind.
  set (buf := replicate (Z.to_nat n) 0). assert (blen buf = n) as Hl by (unfold buf; rewrite blen_replicate; lia).
  destruct (Z.lt_trichotomy (a + n) FLASH_1M_END_ADDR) as [Hlt|[?|Hgt]]; [|done|].
  { destruct (two_first_facts a ltac:(lia)) as (_ & _ & Ho).
    eapply wp_mono; [apply wp_tls_fls_read; [apply Hs|by apply two_in_first|lia]|].
    intros [err b] s' ([= -> ->] & Hb). apply wp_ret. cbn [default].
    destruct (two_ok_bus _ _ Hs Hb) as (Hs' & Hsp & Hm). split; [|split; [done|]].
    - rewrite splice_all by (unfold flash_bytes; rewrite blen_fmap_seqZ; lia). f_equal. unfold flash_bytes, id.
      apply byte_at_ext; rewrite !blen_fmap_seqZ by lia; [done|]. intros i Hi.
      rewrite !byte_at_fmap_seqZ by lia. rewrite two_mem_lo by lia. do 2 f_equal. lia.
    - intros x Hx. unfold two_mem. rewrite Hsp. by case_if. }
  destruct (Z.leb_spec FLASH_1M_END_ADDR a) as [Hge|Hlt].
  - replace (tls_fls_read a (Some buf) n) with (read_second (B := B) (T := spifls T) a n TLS_FLS_STATUS_EINVAL 0 (Some buf))
      by (unfold tls_fls_read; by rewrite (proj2 (Z.ltb_ge _ _))).
    apply wp_read_second; try done; try (unfold FLASH_1M_END_ADDR in *; lia).
    intros s' Hs' Hm. apply wp_ret. cbn [Z.to_nat take app]. rewrite Z.add_0_r, Z.sub_0_r.
    split; [done|]. split; [done|]. intros x Hx. apply Hm. lia.
  - destruct (two_first_facts a ltac:(lia)) as (Hu & Hfo & Ho). pose proof (to_inner1 _ Hs) as Hi1.
    assert (0 <= FLASH_1M_END_ADDR - a < n) as HL by lia.
    apply (wp_read_first _ _ _ (FLASH_1M_END_ADDR - a)); try done; rewrite ?Ho, ?Hi1;
      try (unfold FLASH_1M_END_ADDR in *; lia); [apply Hs|rewrite u32_two by lia; case_if; lia|].
    intros s1 Hs1. destruct (two_ok_bus _ _ Hs Hs1) as (Ht1 & Hsp & Hm1).
    set (b1 := flash_bytes s (a - 0x8000000) (FLASH_1M_END_ADDR - a)).
    assert (blen b1 = FLASH_1M_END_ADDR - a) as Hl1 by (apply blen_fmap_seqZ; lia).
    apply wp_read_second; try done; try (unfold FLASH_1M_END_ADDR in *; lia); [rewrite blen_splice; lia|].
    intros s' Hs' Hm. apply wp_ret. cbn [default].
    assert (∀ x, two_mem s1 x = two_mem s x) as Hm2 by (intros x; unfold two_mem; rewrite Hsp; by case_if).
    split; [|split; [done|]].
    + f_equal. unfold id. rewrite take_splice by lia.
      replace n with (FLASH_1M_END_ADDR - a + (n - (FLASH_1M_END_ADDR - a))) at 2 by lia.
      rewrite seqZ_app, fmap_app by lia. f_equal; [|by apply list_fmap_ext].
      apply byte_at_ext; unfold b1, flash_bytes; rewrite !blen_fmap_seqZ by lia; [done|]. intros i Hi.
      rewrite !byte_at_fmap_seqZ by lia. rewrite two_mem_lo by lia. do 2 f_equal. lia.
    + intros x Hx. rewrite Hm by lia. apply Hm2.
Qed.

Lemma write_above a buf n s : FLASH_1M_END_ADDR <= a →
  tls_fls_write a (Some buf) n s = write_second (B := B) (T := spifls T) a n buf 0 0 s.
Proof.
  intros Ha. unfold tls_fls_write, bind, gets. rewrite (proj2 (Z.ltb_ge _ _)) by done. unfold write_second.
  destruct (truth _); [|done]. destruct (second_part _ _ _ _) as [[a2 l2]|]; [|done].
  unfold of_opt. by destruct (ptr_add _ _).
Qed.
Lemma two_unprot s n : two_ok s → 2 <= n → unprotected s n.
Proof. intros Hs Hn x Hx. apply Hs. dlia. Qed.
Lemma two_write_ok a data s : two_ok s → two_op (OpWrite a data) →
  wp (driver_op (OpWrite a data)) (λ r s', r = (0, []) ∧ two_ok s' ∧
    ∀ x, 0x8002000 <= x < two_hi → two_mem s' x = upd_bytes (two_mem s) a data x) s.
Proof.
  intros Hs (Ha & Hn & Hend & Hok & Hcase). cbn [driver_op]. apply wp_bind. unfold upd_bytes.
  pose proof (to_ready _ Hs) as Hr. pose proof (to_inner1 _ Hs) as Hi1.
  destruct (Z.leb_spec FLASH_1M_END_ADDR a) as [Hge|Hbelow];
    [|destruct Hcase as [?|[Hlt|[Hlo Hgt]]]; [lia| |]].
  - eapply wp_same; [by apply write_above|]. apply wp_write_second; try done; try (unfold FLASH_1M_END_ADDR in *; lia).
    intros s' Hs' Hm. apply wp_ret. split; [done|]. split; [done|]. intros x Hx.
    rewrite Hm by lia. by rewrite Z.add_0_r.
  - destruct (two_first_facts a ltac:(lia)) as (_ & _ & Ho).
    eapply wp_mono; [apply wp_tls_fls_write; try done; [by apply two_in_first|]|].
    { intros x Hx. apply two_unprot; [done|]. rewrite Ho in Hx. dlia. }
    intros r s' (-> & Hw). apply wp_ret. destruct (two_ok_wrote _ _ _ _ Hs Hw) as [Hs' Hsp].
    split; [done|]. split; [done|]. intros x Hx. destruct Hw as (b & h & -> & _ & _ & Hm).
    destruct (Z.ltb_spec x FLASH_1M_END_ADDR).
    + rewrite !two_mem_lo by done. rewrite Hm by (unfold FLASH_1M_END_ADDR in *; lia).
      rewrite Ho, blen_slice by lia.
      replace (a - 0x8000000 <=? x - 0x8000000) with (a <=? x) by lia.
      replace (x - 0x8000000 <? a - 0x8000000 + blen data) with (x <? a + blen data) by lia.
      case_if; [|done]. f_equal. rewrite byte_at_slice by lia. f_equal. lia.
    + rewrite !two_mem_hi by done. unfold FLASH_1M_END_ADDR in *. by rewrite out_range by lia.
  - destruct (two_first_facts a ltac:(lia)) as (Hu & Hfo & Ho).
    destruct (write_first a data (blen data) (FLASH_1M_END_ADDR - a) s) as (boff & rest & s1 & Hb & Hw & He);
      try done; rewrite ?Ho, ?Hi1; try (unfold FLASH_1M_END_ADDR in *; lia).
    { rewrite u32_two by lia. case_if; lia. }
    { intros x Hx. apply two_unprot; [done|]. dlia. }
    assert (boff = 0 ∧ rest = FLASH_1M_END_ADDR - a) as [-> ->]
      by (rewrite Ho in Hb; unfold FLASH_1M_END_ADDR in *; dlia).
    destruct (two_ok_wrote _ _ _ _ Hs Hw) as [Hs1 Hsp]. eapply wp_same; [exact He|].
    apply wp_write_second; try done; try lia.
    intros s' Hs' Hm. apply wp_ret. split; [done|]. split; [done|]. intros x Hx. rewrite Hm by lia.
    destruct Hw as (b & h & -> & _ & _ & Hm1). destruct (Z.ltb_spec x FLASH_1M_END_ADDR).
    + rewrite (out_range (a + (FLASH_1M_END_ADDR - a))) by lia. rewrite !two_mem_lo by done.
      rewrite Hm1 by (unfold FLASH_1M_END_ADDR in *; lia). rewrite Ho, blen_slice by lia.
      replace (a - 0x8000000 <=? x - 0x8000000) with (a <=? x) by lia.
      rewrite (proj2 (Z.ltb_lt x _)), (proj2 (Z.ltb_lt (x - _) _)) by (unfold FLASH_1M_END_ADDR in *; lia).
      case_if; [|done]. rewrite byte_at_slice by (unfold FLASH_1M_END_ADDR in *; lia). do 2 f_equal. lia.
    + rewrite !(two_mem_hi _ x) by done. rewrite (proj2 (Z.leb_le _ _)), (proj2 (Z.leb_le a x)) by lia. done.
Qed.
Lemma two_erase_ok sec s : two_ok s → two_op (OpErase sec) →
  wp (driver_op (OpErase sec)) (λ r s', r = (0, []) ∧ two_ok s' ∧
    ∀ x, 0x8002000 <= x < two_hi → two_mem s' x = if x / 4096 =? sec then 255 else two_mem s x) s.
Proof.
  intros Hs [Hlo Hhi]. cbn [driver_op]. apply wp_bind.
  pose proof capacity_range as [Hc Hcm]. pose proof (to_inner1 _ Hs) as Hi1.
  destruct (Z.ltb_spec sec 0x8100) as [Hlt|Hge].
  - eapply wp_mono; [apply wp_tls_fls_erase; [apply Hs|lia|lia|apply two_unprot; [done|lia]]|].
    intros r s' (-> & b & -> & Hst & Hm). apply wp_ret. split; [done|]. split.
    { apply (two_ok_first s); try done. destruct (to_ready _ Hs) as (_ & _ & Hh). exact Hh. }
    intros x Hx. destruct (Z.ltb_spec x FLASH_1M_END_ADDR).
    + rewrite !two_mem_lo by done. unfold FLASH_1M_END_ADDR in *. unfold mem at 1. cbn [bus set_bus].
      rewrite Hm by lia. by replace ((x - 0x8000000) / 4096 =? sec - 0x8000) with (x / 4096 =? sec) by dlia.
    + rewrite !two_mem_hi by done. rewrite (proj2 (Z.eqb_neq _ _)); [done|]. unfold FLASH_1M_END_ADDR in *. dlia.
  - unfold tls_fls_erase. wp_steps. rewrite Hi1, (to_total _ Hs).
    change (INSIDE_FLS_BASE_ADDR / INSIDE_FLS_SECTOR_SIZE) with 0x8000. unfold INSIDE_FLS_SECTOR_SIZE.
    unfold two_hi, FLASH_1M_END_ADDR in *.
    rewrite (proj2 (Z.ltb_ge _ _)), (proj2 (Z.ltb_lt _ _)) by dlia.
    apply wp_lift. cbn [InternalFlash.tls_spifls_erase spifls_second].
    change 0xFF with (Z.ones 8). rewrite Z.land_ones by lia. change (2 ^ 8) with 256.
    assert (sec mod 256 = sec - 0x8100) as -> by dlia.
    apply wp_spifls_erase; [apply Hs|lia|lia|]. intros t Ht.
    destruct (ext_step_ok _ _ _ (to_spi _ Hs) Ht) as [Ht' Hm]. apply wp_ret. split; [done|].
    split; [by apply two_ok_spi|]. intros x Hx. destruct (Z.ltb_spec x FLASH_1M_END_ADDR).
    + rewrite !two_mem_lo by done. unfold FLASH_1M_END_ADDR in *. rewrite (proj2 (Z.eqb_neq _ _)); [done|]. dlia.
    + rewrite !two_mem_hi by done. cbn [spi set_spi]. unfold FLASH_1M_END_ADDR in *. rewrite Hm by lia. unfold erased.
      by replace ((x - 0x8100000) / 4096 =? sec - 0x8100) with (x / 4096 =? sec) by dlia.
Qed.
End two.

(** ** Both flashes started *)

Section two_init.
Context {B T : Type} `{FlashBusOk B} `{SpiMasterOk T}.
Implicit Type s : fls B (spifls T).

Lemma wp_getFlashDensity (Q : Z → B → Prop) b : Z.land (Z.shiftr (Z.land fb_id 0xFFFFFF) 16) 0xFF = 0x14 →
  (∀ b', fb_status b' = fb_status b → (∀ a, fb_mem b' a = fb_mem b a) → Q 0x100000 b') → wp getFlashDensity Q b.
Proof.
  intros Hd HQ. unfold getFlashDensity, m32_wr, m32_rd. wp_steps. fold FLS_CMD FLS_GO FLS_WIN.
  pose proof (wr_cmd 0x2C09F b) as (A1 & A2 & A3 & A4 & A5). set (b1 := bus_wr FLS_CMD _ b) in *.
  pose proof (go_rdid b1 A1) as (B1 & B2 & B3). set (b2 := bus_wr FLS_GO _ b1) in *.
  assert (bus_rd FLS_WIN b2 = fb_id) as -> by (rewrite <- B1; by apply (rd_win 0)).
  rewrite Hd. change ((0x14 =? 0x14) || (0x14 =? 0x13)) with true. apply wp_ret.
  change (Z.shiftl 1 0x14) with 0x100000. apply HQ; [congruence|]. intros a. by rewrite B3.
Qed.

(** A device that comes up: nothing installed, the first part a 1 MByte one. *)
Record off s : Prop := {
  of_inside : inside_fls s = None;
  of_heap : heap_ok s;
  of_density : Z.land (Z.shiftr (Z.land fb_id 0xFFFFFF) 16) 0xFF = 0x14;
  of_unprot x : 0x2000 <= x → fb_prot (fb_status (bus s)) x = false;
  of_spi : spi_fls (spi s) = None;
  of_chip : chip_ok (spi_bus (spi s));
  of_ready : chip_busy (spi_bus (spi s)) = O;
  of_spi_heap k : spi_hp (spi s) k ≠ None;
}.
Lemma wp_spifls_read_id s (Q : Z * Z → spifls T → Prop) t : spifls_ok t →
  (∀ t', spifls_ok t' → ext_mem t' = ext_mem t → Q (TLS_FLS_STATUS_OK, chip_id) t') → wp tls_spifls_read_id Q t.
Proof.
  intros [[l Hr] [] Hh] HQ. unfold tls_spifls_read_id. wp_steps. apply wp_on_master.
  eapply wp_mono; [by apply spi_rdid_ok|]. intros r t1 (-> & A1 & A2 & A3). apply wp_ret.
  rewrite Z.eqb_refl. cbn [negb]. rewrite read_id_word. apply HQ; [|exact A3].
  split; [by exists l|by split|done].
Qed.
(** [main] starts the second flash, then the driver of both. *)
Definition start_flashes : M (fls B (spifls T)) Z :=
  (on_spi (tls_spifls_init true) ;; tls_fls_init true)%C.
Lemma wp_start_flashes s : off s → capacity <= 0x100000 →
  wp start_flashes (λ r s', r = TLS_FLS_STATUS_OK ∧ two_ok s' ∧ ∀ x, two_mem s' x = two_mem s x) s.
Proof.
  intros [] Hcap. pose proof capacity_range as [Hc _]. pose proof chip_log_range as Hl.
  unfold start_flashes. wp_steps. apply wp_lift, wp_spifls_init; try done. intros t Ht Hm.
  unfold tls_fls_init. wp_steps. cbn [inside_fls set_spi]. rewrite of_inside0. wp_step.
  apply wp_alloc. change (hp (set_spi t s) O) with (hp s O). destruct (hp s O) eqn:Hhp; [|by destruct (of_heap0 O)].
  intros c _ _. cbn [negb]. wp_steps. apply wp_lift, wp_getFlashDensity; [done|]. intros b Hst Hbm.
  wp_steps. apply wp_lift. cbn [InternalFlash.tls_spifls_read_id spifls_second].
  apply (wp_spifls_read_id s); [done|]. intros t' Ht' Hm'. wp_steps. split; [done|].
  change (TLS_FLS_STATUS_OK =? TLS_FLS_STATUS_OK) with true. cbv iota. rewrite chip_id_log.
  assert (Z.land chip_log 0xFF = chip_log) as ->.
  { change 0xFF with (Z.ones 8). rewrite Z.land_ones by lia. apply Z.mod_small. lia. }
  assert (truth chip_log = true) as -> by (unfold truth; apply negb_true_iff, Z.eqb_neq; lia).
  rewrite Z.shiftl_1_l. fold capacity. rewrite !u32_id by (unfold is_u32; lia). split.
  - split; try done.
    + split; [done|]. split; [done|]. intros k. apply (of_heap0 (S k)).
    + intros x Hx. cbn. rewrite Hst. by apply of_unprot0.
  - intros x. unfold two_mem. cbn -[ext_mem]. case_if; [apply Hbm|].
    change (ext_mem t' (x - FLASH_1M_END_ADDR) = ext_mem (spi s) (x - FLASH_1M_END_ADDR)).
    rewrite Hm'. change (ext_mem t (x - FLASH_1M_END_ADDR) = ext_mem (spi s) (x - FLASH_1M_END_ADDR)). by rewrite Hm.
Qed.
End two_init.

(** ** The lock *)

Create HintDb quiet.
Section lock.
Context {T : Type} `{!SpiMaster T}.
Implicit Type s : spifls T.

(** Whatever the master answers, only the bus side changes. *)
Definition quiet {A} (m : M (spifls T) A) : Prop := ∀ s, wlp m (λ _ s', ∃ t, s' = set_spi_bus t s) s.
Lemma quiet_same s : ∃ t, s = set_spi_bus t s.
Proof. exists (spi_bus s). by destruct s. Qed.
Lemma quiet_ret {A} (a : A) : quiet (ret a).
Proof. intros s. apply wlp_ret, quiet_same. Qed.
Lemma quiet_stuck {A} : quiet (stuck (A := A)).
Proof. intros s. exact I. Qed.
Lemma quiet_gets {A} (f : _ → A) : quiet (gets f).
Proof. intros s. apply wlp_gets, quiet_same. Qed.
Lemma quiet_of_opt {A} (o : option A) : quiet (of_opt o).
Proof. intros s. apply wlp_of_opt. intros a _. apply quiet_same. Qed.
Lemma quiet_bind {A C} (m : M (spifls T) A) (k : A → M (spifls T) C) :
  quiet m → (∀ a, quiet (k a)) → quiet (bind m k).
Proof.
  intros Hm Hk s. eapply wlp_seq; [apply Hm|]. intros a s' [t ->].
  eapply wlp_mono; [apply Hk|]. intros c s'' [t' ->]. by exists t'.
Qed.
Lemma quiet_on_master {A} (m : M T A) : quiet (on_master m).
Proof. intros s. apply wlp_lift. intros a t _. by exists t. Qed.
Lemma quiet_if {A} (b : bool) (m m' : M (spifls T) A) : quiet m → quiet m' → quiet (if b then m else m').
Proof. by destruct b. Qed.
Local Hint Resolve quiet_ret quiet_stuck quiet_gets quiet_of_opt quiet_bind quiet_on_master quiet_if : quiet.

Lemma quiet_wait fuel stop : quiet (wait_loop fuel stop).
Proof.
  induction fuel as [|fuel IH]; cbn [wait_loop]; [apply quiet_stuck|].
  apply quiet_bind; [apply quiet_on_master|]. intros [err b]. eauto with quiet.
Qed.
Lemma quiet_modifying m : quiet m → quiet (modifying m).
Proof.
  intros Hm. unfold modifying, tls_spifls_drv_write_enable, tls_spifls_drv_wait_write_enable,
    tls_spifls_drv_wait_flash_ready. eauto 10 using quiet_wait with quiet.
Qed.
Lemma quiet_exspi f : quiet (exspi f).
Proof. unfold exspi. eauto with quiet. Qed.
Lemma quiet_read d addr buf n : quiet (drv_read d addr buf n).
Proof. destruct d. apply quiet_bind; [apply quiet_on_master|]. intros [err b]. apply quiet_ret. Qed.
Lemma quiet_erase d sec : quiet (drv_erase d sec).
Proof. destruct d. apply quiet_modifying. eauto using quiet_exspi with quiet. Qed.
Lemma quiet_page_write d page buf : quiet (drv_page_write d page buf).
Proof. destruct d. apply quiet_modifying. eauto using quiet_exspi with quiet. Qed.
Lemma quiet_field f d : quiet (drv_field f d).
Proof. destruct d. apply quiet_gets. Qed.
Local Hint Resolve quiet_read quiet_erase quiet_page_write quiet_field : quiet.
Lemma quiet_with_drv {A} (bad : Z → A) k : (∀ d, quiet (k d)) → quiet (with_drv bad k).
Proof.
  intros Hk. apply quiet_bind; [apply quiet_gets|]. intros [f|]; [|apply quiet_ret].
  destruct (current_drv f); [apply Hk|apply quiet_ret].
Qed.
Lemma quiet_page_loop n : ∀ d i page buf, quiet (page_loop n d i page buf).
Proof. induction n as [|n IH]; intros; cbn [page_loop]; eauto 6 with quiet. Qed.
Lemma quiet_spifls_page_write page obuf n : quiet (tls_spifls_page_write page obuf n).
Proof.
  apply quiet_with_drv. intros d. do 2 (apply quiet_bind; [apply quiet_field|]; intros ?).
  destruct obuf; eauto using quiet_page_loop with quiet.
Qed.
Lemma quiet_rewrite_sector d sec di cnt bp buf cache : quiet (rewrite_sector d sec di cnt bp buf cache).
Proof.
  unfold rewrite_sector. do 2 (apply quiet_bind; [apply quiet_field|]; intros ?).
  apply quiet_bind; [apply quiet_read|]. intros [err c']. eauto 10 using quiet_spifls_page_write with quiet.
Qed.

Lemma quiet_running {A} (m : M (spifls T) A) c s (Q : A → spifls T → Prop) : quiet m → running c s →
  (∀ a s', running c s' → Q a s') → wlp m Q s.
Proof. intros Hm [l Hr] HQ. eapply wlp_mono; [apply Hm|]. intros a s' [t ->]. apply HQ. by exists l. Qed.
Lemma wlp_acquire c s (Q : unit → spifls T → Prop) : running c s → (∀ s', running (c - 1) s' → Q tt s') → wlp lock_acquire Q s.
Proof.
  intros [l Hr] HQ. unfold lock_acquire. wlp_step. wlp_step. rewrite Hr. cbn [fls_lock]. case_if; [|exact I].
  apply wlp_modify, HQ. by exists l.
Qed.
Lemma wlp_release c s (Q : unit → spifls T → Prop) : running c s → (∀ s', running (c + 1) s' → Q tt s') → wlp lock_release Q s.
Proof. intros [l Hr] HQ. unfold lock_release. wlp_step. wlp_step. rewrite Hr. apply wlp_modify, HQ. by exists l. Qed.
Lemma wlp_with_drv {A} (bad : Z → A) k c s (Q : A → spifls T → Prop) : running c s → wlp (k EXSPI_FLS) Q s →
  wlp (with_drv bad k) Q s.
Proof. intros [l Hl] HQ. unfold with_drv. wlp_steps. by rewrite Hl. Qed.

(** A failure gives the lock back. *)
Lemma wlp_write_sectors n : ∀ d addr sa sn i bp wb buf cache c s, running c s →
  wlp (write_sectors n d addr sa sn i bp wb buf cache)
    (λ err s', running (if err =? TLS_FLS_STATUS_OK then c else c + 1) s') s.
Proof.
  induction n as [|n IH]; intros d addr sa sn i bp wb buf cache c s Hr; cbn [write_sectors]; [by apply wlp_ret|].
  apply wlp_bind. eapply quiet_running; [apply quiet_field|exact Hr|]. intros ss s1 Hr1.
  destruct (sector_span _ _ _ _ _) as [di cnt]. apply wlp_bind.
  eapply quiet_running; [apply quiet_rewrite_sector|exact Hr1|]. intros [err c'] s2 Hr2.
  case_if.
  - apply wlp_bind. eapply wlp_release; [exact Hr2|]. intros s3 Hr3. apply wlp_ret.
    by rewrite (proj2 (Z.eqb_neq _ _)).
  - by apply IH.
Qed.
Lemma running_hp c h s : running c s → running c (set_spi_hp h s).
Proof. intros [l Hl]. by exists l. Qed.
End lock.

(** ** Properties *)

(** C18: started over a part of the family, the driver behaves as an array of
    bytes of the part's size: initialisation finds the part, every request
    inside it succeeds however long the part stays busy, reads answer what the
    array holds, and the part ends as the array does. *)
Theorem spifls_refines_array {T} `{SpiMasterOk T} ops (s : spifls T) (m : Z → Z) :
  spi_fls s = None → chip_ok (spi_bus s) → chip_busy (spi_bus s) = O → (∀ k, spi_hp s k ≠ None) →
  Forall (valid_op (F := spifls T)) ops → (∀ x, 0 <= x < capacity → ext_mem s x = m x) →
  ∃ s', (let* r := tls_spifls_init true in let* rs := run_ops ops in ret (r, rs))%C s =
      Some ((TLS_FLS_STATUS_OK, (λ out, (0, out)) <$> (spec_ops ops m).1), s') ∧ spifls_ok s' ∧
    ∀ x, 0 <= x < capacity → ext_mem s' x = (spec_ops ops m).2 x.
Proof.
  intros Hn Hok Hb Hh Hv Hm.
  cut (wp (let* r := tls_spifls_init true in let* rs := run_ops ops in ret (r, rs))%C (λ a s',
    a = (TLS_FLS_STATUS_OK, (λ out, (0, out)) <$> (spec_ops ops m).1) ∧ spifls_ok s' ∧
    ∀ x, 0 <= x < capacity → ext_mem s' x = (spec_ops ops m).2 x) s).
  { intros (a & s' & Hrun & -> & ?)%wp_total. eauto. }
  apply wp_bind, wp_spifls_init; try done. intros s1 Hs1 Hm1. eapply wp_seq.
  - apply (run_ops_ok ops s1 m); [done|done|]. intros x Hx. change (ext_mem s1 x = m x). rewrite Hm1. by apply Hm.
  - intros rs s2 (-> & Hs2 & Hm2). by apply wp_ret.
Qed.

(** C17: the two flashes are one array: started as [main] starts them, the
    second of at most 1 MByte behind the SPI driver, any sequence of reads,
    writes and erases past the first 8 KByte that are not empty answers as an
    array over the addresses of both does, reads that run from one into the
    other and writes that start in the last sector of the first and run into the
    other included.  Left out are reads and writes that end exactly where the
    second begins, on which the driver fails ([boundary_requests_fail]), and
    writes that begin before the last sector of the first and run over its
    end. *)
Theorem two_flashes_array {B T} `{FlashBusOk B} `{SpiMasterOk T} ops (s : fls B (spifls T)) (m : Z → Z) :
  off s → capacity <= 0x100000 → Forall (two_op (T := T)) ops →
  (∀ x, 0x8002000 <= x < FLASH_1M_END_ADDR + capacity → two_mem s x = m x) →
  ∃ s', (let* r := start_flashes in let* rs := driver_ops ops in ret (r, rs))%C s =
      Some ((TLS_FLS_STATUS_OK, (λ out, (0, out)) <$> (spec_ops ops m).1), s') ∧ two_ok s' ∧
    ∀ x, 0x8002000 <= x < FLASH_1M_END_ADDR + capacity → two_mem s' x = (spec_ops ops m).2 x.
Proof.
  intros Hoff Hcap Hv Hm.
  cut (wp (let* r := start_flashes in let* rs := driver_ops ops in ret (r, rs))%C (λ a s',
    a = (TLS_FLS_STATUS_OK, (λ out, (0, out)) <$> (spec_ops ops m).1) ∧ two_rel s' (spec_ops ops m).2) s).
  { intros (a & s' & Hrun & -> & ? & ?)%wp_total. eauto. }
  eapply wp_seq; [by apply wp_start_flashes|]. intros r s1 (-> & Hs1 & Hm1). eapply wp_seq.
  - apply (run_all_ok driver_op two_op two_rel); [|split; [done|]|exact Hv].
    + clear - Hcap. intros op s m [Hs Hm] Hop. unfold two_rel. destruct op as [a n|a data|sec].
      all: eapply wp_mono; [by (apply two_read_ok || apply two_write_ok || apply two_erase_ok)|].
      all: intros r s' (-> & Hs' & Hm'); cbn [spec_op fst snd]; split; [|split; [done|]]; try done.
      * f_equal. apply list_fmap_ext. intros i x Hx%lookup_seqZ. apply Hm. destruct Hop as (? & ? & ? & _). lia.
      * intros x Hx. rewrite Hm' by done. by apply Hm.
      * intros x Hx. rewrite Hm' by done. unfold upd_bytes. case_if; [done|]. by apply Hm.
      * intros x Hx. rewrite Hm' by done. case_if; [done|]. by apply Hm.
    + intros x Hx. rewrite Hm1. by apply Hm.
  - intros rs s2 (-> & Hs2). by apply wp_ret.
Qed.

(** With a second flash a request that ends exactly where it begins is
    reported as EINVAL although it has been carried out: the data have been
    read, or (within the last sector) written, and the second flash is then
    asked for no bytes. *)
Theorem boundary_requests_fail {B T} `{FlashBusOk B} `{SpiMasterOk T} a n data buf (s : fls B (spifls T)) :
  two_ok s → capacity <= 0x100000 → 0x8002000 <= a → 0 < n → a + n = FLASH_1M_END_ADDR →
  blen buf = n → blen data = n → bytes_ok data →
  (∃ s', tls_fls_read a (Some buf) n s = Some ((TLS_FLS_STATUS_EINVAL, Some (two_mem s <$> seqZ a n)), s') ∧ two_ok s') ∧
  (n <= 4096 → ∃ s', tls_fls_write a (Some data) n s = Some (TLS_FLS_STATUS_EINVAL, s') ∧ two_ok s' ∧
     ∀ x, 0x8002000 <= x < two_hi (T := T) → two_mem s' x = upd_bytes (two_mem s) a data x).
Proof.
  intros Hs Hcap Ha Hn Hsum Hbl Hdl Hok. pose proof capacity_range as [Hc _].
  destruct (two_first_facts a ltac:(lia)) as (Hu & Hfo & Ho). pose proof (to_inner1 _ Hs) as Hi1.
  assert (u32 (a + n) = a + n) as Hu32 by (apply u32_two; unfold two_hi; lia).
  assert (second_part a n n (flashtotalsize s) = Some (FLASH_1M_END_ADDR, 0)) as Hsp.
  { destruct (second_part_in Hcap s a n n) as [E _]; try done; try (unfold two_hi; lia).
    rewrite E. f_equal. f_equal; lia. }
  assert (∀ (t : spifls T) (b : list Z), spifls_ok t → tls_spifls_read 0 (Some b) 0 t = Some ((TLS_FLS_STATUS_EINVAL, Some b), t)) as Hr0.
  { intros t b [[l Hr] [] _]. unfold tls_spifls_read, with_drv, bind, gets. rewrite Hr. cbn [current_drv drv_field]. unfold gets.
    change (0 =? 0) with true. by rewrite orb_true_r. }
  assert (∀ (t : spifls T) (b : list Z), spifls_ok t → tls_spifls_write 0 (Some b) 0 t = Some (TLS_FLS_STATUS_EINVAL, t)) as Hw0.
  { intros t b [[l Hr] [] _]. unfold tls_spifls_write, with_drv, bind, gets. rewrite Hr. cbn [current_drv drv_field]. unfold gets.
    change (0 =? 0) with true. by rewrite orb_true_r. }
  split.
  - cut (wp (tls_fls_read a (Some buf) n) (λ r s', r = (TLS_FLS_STATUS_EINVAL, Some (two_mem s <$> seqZ a n)) ∧ two_ok s') s).
    { intros (r & s' & Hrun & -> & ?)%wp_total. eauto. }
    apply (wp_read_first _ _ _ n); try done; rewrite ?Ho, ?Hi1; try (unfold FLASH_1M_END_ADDR in *; lia);
      [apply Hs|rewrite Hu32; case_if; lia|].
    intros s1 Hs1. destruct (two_ok_bus _ _ Hs Hs1) as (Ht1 & Hspi & _). unfold read_second. wp_steps.
    rewrite inner2_truth by done. rewrite (to_total _ Ht1), <- (to_total _ Hs), Hsp.
    rewrite splice_all by (unfold flash_bytes; rewrite blen_fmap_seqZ; lia).
    wp_step. eapply wp_of_opt.
    { unfold ptr_add. rewrite (proj2 (andb_true_iff _ _)); [done|]. unfold flash_bytes. rewrite blen_fmap_seqZ; lia. }
    wp_step. apply wp_lift. unfold wp at 1. cbn [InternalFlash.tls_spifls_read spifls_second].
    change (Z.land FLASH_1M_END_ADDR 0xFFFFF) with 0. rewrite Hr0 by apply Ht1. apply wp_ret.
    rewrite take_drop. split; [|apply two_ok_spi; [done|apply Ht1]]. do 2 f_equal.
    unfold flash_bytes. apply byte_at_ext; rewrite !blen_fmap_seqZ by lia; [done|]. intros i Hi.
    rewrite !byte_at_fmap_seqZ by lia. rewrite two_mem_lo by lia. do 2 f_equal. lia.
  - intros Hle. destruct (write_first a data n n s) as (boff & rest & s1 & Hb & Hw & He);
      try done; rewrite ?Ho, ?Hi1; try (unfold FLASH_1M_END_ADDR in *; lia); [apply Hs|rewrite Hu32; case_if; lia| |].
    { intros x Hx. apply two_unprot; [done|]. dlia. }
    assert (boff = 0 ∧ rest = n) as [-> ->] by (rewrite Ho in Hb; unfold FLASH_1M_END_ADDR in *; dlia).
    destruct (two_ok_wrote _ _ _ _ Hs Hw) as [Hs1 Hspi]. exists (set_spi (spi s1) s1).
    split; [|split; [apply two_ok_spi; [done|apply Hs1]|]].
    + rewrite He. unfold write_second. rewrite inner2_truth by done. rewrite (to_total _ Hs1), <- (to_total _ Hs), Hsp.
      unfold ptr_add. rewrite Z.add_0_l, (proj2 (andb_true_iff _ _)) by lia. unfold on_spi, lift.
      change (Z.land FLASH_1M_END_ADDR 0xFFFFF) with 0. cbn [InternalFlash.tls_spifls_write spifls_second].
      by rewrite Hw0 by apply Hs1.
    + intros x Hx. unfold upd_bytes. destruct Hw as (b & h & -> & _ & _ & Hm). cbn [spi set_hp set_bus].
      destruct (Z.ltb_spec x FLASH_1M_END_ADDR).
      * rewrite !two_mem_lo by done. change (mem (set_spi (spi s) (set_hp h (set_bus b s)))) with (mem (set_hp h (set_bus b s))).
        rewrite Hm by (unfold FLASH_1M_END_ADDR in *; lia). rewrite Ho, blen_slice by lia.
        replace (a - 0x8000000 <=? x - 0x8000000) with (a <=? x) by lia.
        replace (x - 0x8000000 <? a - 0x8000000 + n) with (x <? a + blen data) by lia.
        case_if; [|done]. rewrite byte_at_slice by lia. do 2 f_equal. lia.
      * rewrite !two_mem_hi by done. by rewrite out_range by lia.
Qed.

(** The lock of the module is given back by every read and erase, however
    the master behaves, and by a write that succeeds; a write that fails with
    an I/O error gives it back twice, after which two tasks can hold it. *)
Theorem spifls_lock_lost {T} `{!SpiMaster T} (s : spifls T) : running 1 s →
  (∀ addr obuf len r s', tls_spifls_read addr obuf len s = Some (r, s') → running 1 s') ∧
  (∀ sector r s', tls_spifls_erase sector s = Some (r, s') → running 1 s') ∧
  (∀ addr obuf len r s', tls_spifls_write addr obuf len s = Some (r, s') →
     (r = TLS_FLS_STATUS_OK → running 1 s') ∧
     (r = TLS_FLS_STATUS_EIO → running 2 s' ∧ ∃ s'', (lock_acquire ;; lock_acquire)%C s' = Some (tt, s''))).
Proof.
  intros Hr. split; [|split].
  - intros addr obuf len r s'. apply (wlp_run _ (λ _ s', running 1 s')). unfold tls_spifls_read. eapply wlp_with_drv; [exact Hr|].
    apply wlp_bind. eapply quiet_running; [apply quiet_field|exact Hr|]. intros total s1 H1.
    destruct obuf as [b|]; [|by apply wlp_ret]. case_if; [by apply wlp_ret|].
    apply wlp_bind. eapply wlp_acquire; [exact H1|]. intros s2 H2.
    apply wlp_bind. eapply quiet_running; [apply quiet_field|exact H2|]. intros total' s3 H3.
    apply wlp_bind. eapply quiet_running; [apply quiet_read|exact H3|]. intros [err b'] s4 H4.
    apply wlp_bind. eapply wlp_release; [exact H4|]. intros s5 H5. by apply wlp_ret.
  - intros sector r s'. apply (wlp_run _ (λ _ s', running 1 s')). unfold tls_spifls_erase. eapply wlp_with_drv; [exact Hr|].
    do 2 (apply wlp_bind; eapply quiet_running; [apply quiet_field|eassumption|]; intros ? ? ?).
    case_if; [by apply wlp_ret|]. apply wlp_bind. eapply wlp_acquire; [eassumption|]. intros s2 H2.
    apply wlp_bind. eapply quiet_running; [apply quiet_erase|exact H2|]. intros err s3 H3.
    apply wlp_bind. eapply wlp_release; [exact H3|]. intros s4 H4. by apply wlp_ret.
  - intros addr obuf len r s' Hrun. cut ((r = TLS_FLS_STATUS_OK → running 1 s') ∧ (r = TLS_FLS_STATUS_EIO → running 2 s')).
    { intros [H1 H2]. split; [done|]. intros Hio. specialize (H2 Hio). split; [done|].
      destruct H2 as [l Hl]. unfold lock_acquire, bind, gets, modify. rewrite Hl. cbn. by eexists. }
    revert Hrun. apply (wlp_run _ (λ r s', (r = TLS_FLS_STATUS_OK → running 1 s') ∧ (r = TLS_FLS_STATUS_EIO → running 2 s'))).
    unfold tls_spifls_write. eapply wlp_with_drv; [exact Hr|].
    apply wlp_bind. eapply quiet_running; [apply quiet_field|exact Hr|]. intros total s1 H1.
    destruct obuf as [b|]; [|by apply wlp_ret]. case_if; [by apply wlp_ret|].
    apply wlp_bind. eapply wlp_acquire; [exact H1|]. intros s2 H2.
    do 2 (apply wlp_bind; eapply quiet_running; [apply quiet_field|eassumption|]; intros ? ? ?).
    apply wlp_bind. apply wlp_lift. intros cache h _.
    destruct cache as [cache|].
    + eapply wlp_seq; [eapply wlp_write_sectors; by apply running_hp|]. intros err s4 Hw. cbv beta in Hw.
      apply wlp_bind. eapply wlp_release; [exact Hw|]. intros s5 H5. apply wlp_ret.
      split; intros ->; exact H5.
    + apply wlp_bind. eapply wlp_release; [by apply running_hp|]. intros s5 H5. by apply wlp_ret.
Qed.

Lemma second_part_above addr len : 0x8100000 <= addr → 0 <= len → addr + len <= 0x8300000 →
  second_part addr len 0 0x300000 = Some (addr, len).
Proof.
  intros Ha Hl Hend. unfold second_part. rewrite lor_total by lia. unfold FLASH_1M_END_ADDR.
  rewrite (proj2 (Z.leb_le _ _)), Z.sub_0_r, (u32_id len), (u32_id (addr + len)) by (unfold is_u32; lia).
  rewrite (proj2 (Z.eqb_neq _ _)), (proj2 (Z.leb_le _ _)) by lia. done.
Qed.
(** The driver takes 20 bits of an address and 8 of a sector number to the
    second flash: of a part of 2 MByte the second half cannot be reached, its
    addresses name the first half. *)
Theorem second_flash_aliases {B T} `{!FlashBus B} `{!SpiFls T} a buf len sector (s : fls B T) :
  inner1flashsize s = 0x100000 → inner2flashsize s = 0x200000 → flashtotalsize s = 0x300000 →
  FLASH_1M_END_ADDR <= a → 0 <= len → a + len <= 0x8200000 → 0x8100 <= sector < 0x8200 →
  tls_fls_read (a + 0x100000) buf len s = tls_fls_read a buf len s ∧
  tls_fls_write (a + 0x100000) buf len s = tls_fls_write a buf len s ∧
  tls_fls_erase (sector + 0x100) s = tls_fls_erase sector s.
Proof.
  intros Hi1 Hi2 Htot Ha Hl Hend Hsec. unfold FLASH_1M_END_ADDR in Ha.
  assert (Z.land (a + 0x100000) 0xFFFFF = Z.land a 0xFFFFF) as Hmask.
  { change 0xFFFFF with (Z.ones 20). rewrite !Z.land_ones by lia. change (2 ^ 20) with 0x100000. dlia. }
  split; [|split].
  - unfold tls_fls_read, bind, gets. rewrite !(proj2 (Z.ltb_ge _ _)) by (unfold FLASH_1M_END_ADDR; lia).
    rewrite Hi2, Htot, !second_part_above by lia. by rewrite Hmask.
  - unfold tls_fls_write, bind, gets. rewrite !(proj2 (Z.ltb_ge _ _)) by (unfold FLASH_1M_END_ADDR; lia).
    rewrite Hi2, Htot, !second_part_above by lia. by rewrite Hmask.
  - unfold tls_fls_erase, bind, gets. rewrite Hi1, Htot. unfold INSIDE_FLS_SECTOR_SIZE, INSIDE_FLS_BASE_ADDR.
    change (0x100000 / 4096 + 0x8000000 / 4096) with 0x8100. change (0x300000 / 4096 + 0x8000000 / 4096) with 0x8300.
    rewrite !(proj2 (Z.ltb_ge _ 0x8100)), !(proj2 (Z.ltb_lt _ 0x8300)) by lia.
    replace (Z.land (sector + 0x100) 0xFF) with (Z.land sector 0xFF); [done|].
    change 0xFF with (Z.ones 8). rewrite !Z.land_ones by lia. change (2 ^ 8) with 256. dlia.
Qed.

(** A length so large that the end of the request wraps is not cut at the end
    of the part. *)
Theorem spifls_request_wraps {T} `{SpiMasterOk T} addr len : 0 <= addr < capacity → len < 0x100000000 →
  0x100000000 <= addr + len → clip addr len capacity = len ∧ capacity < len.
Proof.
  intros Ha Hl Hw. pose proof capacity_range as [Hc _]. unfold clip.
  assert (u32 (addr + len) = addr + len - 0x100000000) as ->.
  { unfold u32, wrap. change (2 ^ 32) with 0x100000000. dlia. }
  case_if; lia.
Qed.

(** ** Witnesses *)

Definition spi_ops : list fls_op :=
  [OpWrite 0x1FFE [1; 2; 3; 4]; OpRead 0x1FFD 6; OpErase 2; OpRead 0x1FFD 6].
Lemma spifls_refines_array_witness : ∃ s',
  (let* r := tls_spifls_init true in let* rs := run_ops spi_ops in ret (r, rs))%C (spi_start 20) =
    Some ((0, [(0, []); (0, [1; 1; 2; 3; 4; 2]); (0, []); (0, [1; 1; 2; 255; 255; 255])]), s') ∧
  running 1 s'.
Proof.
  destruct (spifls_refines_array spi_ops (spi_start 20) (λ x, u8 (x / 4096))) as (s' & Hrun & [Hr _ _] & _).
  - reflexivity.
  - vm_compute. lia.
  - reflexivity.
  - discriminate.
  - repeat constructor; vm_compute; (discriminate || reflexivity).
  - done.
  - exists s'. split; [|exact Hr]. rewrite Hrun. do 2 f_equal. all: vm_compute; reflexivity.
Defined.

(** Both flashes of 1 MByte each, before [main] starts them. *)
Definition two_off : fls sim (spifls (spisim 20)) :=
  mk_fls (sim_part 0) (spi_start 20) (λ _, Some (λ _, 0xAA)) None 0 0 0 None 0.
(** A write over the boundary, seen by a read and an erase. *)
Definition two_ops : list fls_op :=
  [OpWrite 0x80FFFFE [1; 2; 3; 4]; OpRead 0x80FFFFD 6; OpErase 0x8100; OpRead 0x80FFFFD 6].
Lemma two_off_ok : off two_off.
Proof. split; try done. vm_compute. lia. Qed.
Lemma two_flashes_array_witness : ∃ s',
  (let* r := start_flashes in let* rs := driver_ops two_ops in ret (r, rs))%C two_off =
    Some ((0, [(0, []); (0, [255; 1; 2; 3; 4; 0]); (0, []); (0, [255; 1; 2; 255; 255; 255])]), s') ∧
  two_ok s'.
Proof.
  destruct (two_flashes_array two_ops two_off (two_mem two_off)) as (s' & Hrun & Hs & _).
  - apply two_off_ok.
  - vm_compute. discriminate.
  - assert (two_hi (T := spisim 20) = 0x8200000) as Hh by reflexivity.
    repeat apply Forall_cons_2; try apply Forall_nil_2; unfold two_op, blen, FLASH_1M_END_ADDR; rewrite ?Hh; cbn [length].
    all: repeat split; try lia. repeat constructor; done.
  - done.
  - exists s'. split; [|exact Hs]. rewrite Hrun. do 2 f_equal. all: vm_compute; reflexivity.
Defined.

(** The state after the start. *)
Definition two_on : fls sim (spifls (spisim 20)) :=
  mk_fls (sim_part 0)
    (mk_spifls (spi_part 20) (λ _, Some (λ _, 0xAA)) (Some (mk_tls_fls [EXSPI_FLS] (Some EXSPI_FLS) 1))
      (mk_drv 0x1440C8 0x100000 256 256 4096) true)
    (λ _, Some (λ _, 0xAA)) (Some 1) 0x100000 0x100000 0x200000 None 0.
Lemma two_on_ok : two_ok two_on.
Proof.
  split; [split; [reflexivity|split; [discriminate|intros k; discriminate]]|reflexivity|reflexivity|reflexivity
    |intros x _; reflexivity|].
  split; [exists [EXSPI_FLS]; reflexivity| |intros k; discriminate]. split; try reflexivity. vm_compute. lia.
Qed.
Lemma boundary_requests_fail_witness : ∃ s1 s2,
  tls_fls_read 0x80FFFFC (Some [0; 0; 0; 0]) 4 two_on = Some ((1, Some [255; 255; 255; 255]), s1) ∧
  tls_fls_write 0x80FFFFC (Some [1; 2; 3; 4]) 4 two_on = Some (1, s2) ∧ two_mem s2 0x80FFFFD = 2.
Proof.
  destruct (boundary_requests_fail 0x80FFFFC 4 [1; 2; 3; 4] [0; 0; 0; 0] two_on) as [(s1 & H1 & _) H2].
  - apply two_on_ok.
  - vm_compute. discriminate.
  - done.
  - done.
  - reflexivity.
  - reflexivity.
  - reflexivity.
  - repeat constructor; done.
  - destruct H2 as (s2 & H2 & _ & Hm); [done|]. exists s1, s2.
    split; [rewrite H1; f_equal; f_equal; f_equal; vm_compute; reflexivity|]. split; [exact H2|].
    rewrite Hm by (vm_compute; split; [discriminate|reflexivity]). vm_compute. reflexivity.
Defined.

(** A master whose reads fail. *)
Inductive dead := DEAD.
#[export] Instance dead_master : SpiMaster dead := {
  tls_spi_write l := ret 0;
  tls_spi_write_with_cmd l data := ret 0;
  tls_spi_read_with_cmd l buf n := ret (1, buf);
  tls_spi_setup mode cs clk := ret 0;
  patience := 0;
}.
Definition dead_fls : spifls dead :=
  mk_spifls DEAD (λ _, Some (λ _, 0)) (Some (mk_tls_fls [EXSPI_FLS] (Some EXSPI_FLS) 1))
    (mk_drv 0x1440C8 0x100000 256 256 4096) true.
Lemma spifls_lock_lost_witness : ∃ s' s'',
  tls_spifls_write 0 (Some [1]) 1 dead_fls = Some (TLS_FLS_STATUS_EIO, s') ∧
  (lock_acquire ;; lock_acquire)%C s' = Some (tt, s'').
Proof.
  destruct (tls_spifls_write 0 (Some [1]) 1 dead_fls) as [[r s']|] eqn:E; [|discriminate E].
  assert (r = TLS_FLS_STATUS_EIO) as -> by (revert E; vm_compute; by intros [= <- _]).
  destruct (spifls_lock_lost dead_fls) as (_ & _ & Hw); [by eexists|].
  destruct (Hw _ _ _ _ _ E) as [_ H2]. destruct H2 as [_ [s'' H2]]; [reflexivity|].
  exists s', s''. split; [reflexivity|exact H2].
Defined.

Lemma second_flash_aliases_witness : let s := mk_fls (sim_part 0) tt (λ _, None) (Some 1) 0x100000 0x200000 0x300000 None 0 in
  tls_fls_write 0x8200010 (Some [1]) 1 s = tls_fls_write 0x8100010 (Some [1]) 1 s ∧
  tls_fls_erase 0x8201 s = tls_fls_erase 0x8101 s.
Proof.
  intros s. destruct (second_flash_aliases 0x8100010 (Some [1]) 1 0x8101 s) as (_ & H1 & H2);
    [reflexivity|reflexivity|reflexivity|discriminate|discriminate|discriminate|split; [discriminate|reflexivity]|].
  split; [exact H1|exact H2].
Defined.
