(* ===== verification/ParamLayout.v ===== *)
(** * [src/Platform/Common/Params/wm_param.h], [src/Include/Platform/wm_params.h]:
    the layout of the parameter block

    [struct tls_sys_param] as the target's ABI lays it out: its members in
    declaration order with their size and alignment, their offsets computed. *)
From S2P Require Import Prelude.

(** ** Identifiers *)

Definition TLS_PARAM_ID_ALL := -1.
Definition TLS_PARAM_ID_SSID := 0.
Definition TLS_PARAM_ID_ENCRY := 1.
Definition TLS_PARAM_ID_KEY := 2.
Definition TLS_PARAM_ID_IP := 3.
Definition TLS_PARAM_ID_AUTOMODE := 4.
Definition TLS_PARAM_ID_DEFSOCKET := 5.
Definition TLS_PARAM_ID_BSSID := 6.
Definition TLS_PARAM_ID_CHANNEL := 7.
Definition TLS_PARAM_ID_CHANNEL_EN := 8.
Definition TLS_PARAM_ID_COUNTRY_REGION := 9.
Definition TLS_PARAM_ID_WPROTOCOL := 10.
Definition TLS_PARAM_ID_ADHOC_AUTOCREATE := 11.
Definition TLS_PARAM_ID_ROAMING := 12.
Definition TLS_PARAM_ID_AUTO_RETRY_CNT := 13.
Definition TLS_PARAM_ID_WBGR := 14.
Definition TLS_PARAM_ID_USRINTF := 15.
Definition TLS_PARAM_ID_AUTO_TRIGGER_LENGTH := 16.
Definition TLS_PARAM_ID_DEBUG_MODE := 17.
Definition TLS_PARAM_ID_HARDVERSION := 18.
Definition TLS_PARAM_ID_BRDSSID := 19.
Definition TLS_PARAM_ID_DNSNAME := 20.
Definition TLS_PARAM_ID_DEVNAME := 21.
Definition TLS_PARAM_ID_PSM := 22.
Definition TLS_PARAM_ID_ORAY_CLIENT := 23.
Definition TLS_PARAM_ID_UPNP := 24.
Definition TLS_PARAM_ID_UART := 26.
Definition TLS_PARAM_ID_WPS := 27.
Definition TLS_PARAM_ID_AUTO_TRIGGER_PERIOD := 28.
Definition TLS_PARAM_ID_ESCAPE_CHAR := 29.
Definition TLS_PARAM_ID_ESCAPE_PERIOD := 30.
Definition TLS_PARAM_ID_IO_MODE := 31.
Definition TLS_PARAM_ID_CMD_MODE := 32.
Definition TLS_PARAM_ID_PASSWORD := 33.
Definition TLS_PARAM_ID_CHANNEL_LIST := 34.
Definition TLS_PARAM_ID_WEBS_CONFIG := 35.
Definition TLS_PARAM_ID_ONESHOT_CFG := 36.
Definition TLS_PARAM_ID_SHA1 := 37.
Definition TLS_PARAM_ID_ORIGIN_KEY := 38.
Definition TLS_PARAM_ID_ORIGIN_SSID := 39.
Definition TLS_PARAM_ID_AUTO_RECONNECT := 40.
Definition TLS_PARAM_ID_QUICK_CONNECT := 41.
Definition TLS_PARAM_ID_KEY_CHANGE := 42.
Definition TLS_PARAM_ID_SSID_CHANGE := 43.
Definition TLS_PARAM_ID_SOFTAP_SSID := 44.
Definition TLS_PARAM_ID_SOFTAP_PSK := 45.
Definition TLS_PARAM_ID_SOFTAP_ENCRY := 46.
Definition TLS_PARAM_ID_SOFTAP_KEY := 47.
Definition TLS_PARAM_ID_SOFTAP_IP := 48.
Definition TLS_PARAM_ID_SOFTAP_CHANNEL := 49.
Definition TLS_PARAM_ID_SOFTAP_WBGR := 50.
Definition TLS_PARAM_ID_SNTP_SERVER1 := 51.
Definition TLS_PARAM_ID_SNTP_SERVER2 := 52.
Definition TLS_PARAM_ID_SNTP_SERVER3 := 53.
Definition TLS_PARAM_ID_TEM_OFFSET := 54.
Definition TLS_PARAM_ID_MAX := 55.

(** ** The members of [struct tls_sys_param] *)

Inductive field :=
  | F_hardware_version
  | F_bssid
  | F_ssid
  | F_channel_enable
  | F_channel
  | F_wireless_region
  | F_encry
  | F_wireless_protocol
  | F_auto_create_adhoc
  | F_auto_retrycnt
  | F_auto_roam
  | F_auto_powersave
  | F_ssid_broadcast_enable
  | F_channellist
  | F_key
  | F_wbgr
  | F_wps
  | F_ipcfg
  | F_local_dnsname
  | F_local_device_name
  | F_oray_client_setting
  | F_upnp_enable
  | F_always_online
  | F_user_port_mode
  | F_res_2
  | F_uart_cfg
  | F_auto_mode
  | F_res_3
  | F_transparent_trigger_length
  | F_transparent_trigger_period
  | F_remote_socket_cfg
  | F_debug_mode
  | F_res_4
  | F_EscapeChar
  | F_EscReserved
  | F_EscapePeriod
  | F_IoMode
  | F_CmdMode
  | F_PassWord
  | F_WebsCfg
  | F_oneshotflag
  | F_oneshotres
  | F_psk
  | F_original_key
  | F_original_ssid
  | F_auto_reconnect
  | F_res_5
  | F_quick_connect
  | F_key_changed
  | F_ssid_changed
  | F_apsta_ssid
  | F_apsta_psk
  | F_res_6
  | F_channel4softap
  | F_encry4softap
  | F_key4softap
  | F_ipcfg4softap
  | F_wbgr4softap
  | F_sntp_service1
  | F_sntp_service2
  | F_sntp_service3
  | F_params_tem.

#[export] Instance field_eq_dec : EqDecision field.
Proof. solve_decision. Defined.

(** Declaration order, size, alignment. *)
Definition sys_param_members : list (field * (Z * Z)) := [
  (F_hardware_version, (8, 1));
  (F_bssid, (8, 1));
  (F_ssid, (36, 4));
  (F_channel_enable, (1, 1));
  (F_channel, (1, 1));
  (F_wireless_region, (1, 1));
  (F_encry, (1, 1));
  (F_wireless_protocol, (1, 1));
  (F_auto_create_adhoc, (1, 1));
  (F_auto_retrycnt, (1, 1));
  (F_auto_roam, (1, 1));
  (F_auto_powersave, (1, 1));
  (F_ssid_broadcast_enable, (1, 1));
  (F_channellist, (2, 2));
  (F_key, (68, 1));
  (F_wbgr, (4, 1));
  (F_wps, (12, 1));
  (F_ipcfg, (24, 1));
  (F_local_dnsname, (32, 1));
  (F_local_device_name, (32, 1));
  (F_oray_client_setting, (68, 4));
  (F_upnp_enable, (1, 1));
  (F_always_online, (1, 1));
  (F_user_port_mode, (1, 1));
  (F_res_2, (1, 1));
  (F_uart_cfg, (8, 4));
  (F_auto_mode, (1, 1));
  (F_res_3, (1, 1));
  (F_transparent_trigger_length, (2, 2));
  (F_transparent_trigger_period, (2, 2));
  (F_remote_socket_cfg, (36, 2));
  (F_debug_mode, (4, 4));
  (F_res_4, (8, 4));
  (F_EscapeChar, (1, 1));
  (F_EscReserved, (1, 1));
  (F_EscapePeriod, (2, 2));
  (F_IoMode, (1, 1));
  (F_CmdMode, (1, 1));
  (F_PassWord, (6, 1));
  (F_WebsCfg, (4, 2));
  (F_oneshotflag, (1, 1));
  (F_oneshotres, (2, 1));
  (F_psk, (33, 1));
  (F_original_key, (68, 4));
  (F_original_ssid, (36, 4));
  (F_auto_reconnect, (1, 1));
  (F_res_5, (3, 1));
  (F_quick_connect, (2, 1));
  (F_key_changed, (1, 1));
  (F_ssid_changed, (1, 1));
  (F_apsta_ssid, (36, 4));
  (F_apsta_psk, (33, 1));
  (F_res_6, (1, 1));
  (F_channel4softap, (1, 1));
  (F_encry4softap, (1, 1));
  (F_key4softap, (68, 1));
  (F_ipcfg4softap, (24, 1));
  (F_wbgr4softap, (4, 1));
  (F_sntp_service1, (32, 1));
  (F_sntp_service2, (32, 1));
  (F_sntp_service3, (32, 1));
  (F_params_tem, (8, 4))].

Definition align_up (o a : Z) : Z := (o + a - 1) / a * a.
(** Each member at the next multiple of its alignment. *)
Fixpoint place (o : Z) (l : list (field * (Z * Z))) : list (field * (Z * Z)) :=
  match l with
  | [] => []
  | (f, (size, a)) :: l' => let o := align_up o a in (f, (o, size)) :: place (o + size) l'
  end.
Fixpoint find_field (f : field) (l : list (field * (Z * Z))) : Z * Z :=
  match l with
  | [] => (0, 0)
  | (g, p) :: l' => if decide (f = g) then p else find_field f l'
  end.
Definition layout_tbl : list (field * (Z * Z)) := Eval vm_compute in place 0 sys_param_members.
(** [offsetof(struct tls_sys_param, f)] and [sizeof] of the member. *)
Definition off (f : field) : Z := (find_field f layout_tbl).1.
Definition size (f : field) : Z := (find_field f layout_tbl).2.
(** [sizeof(struct tls_sys_param)]: the end of the last member, aligned. *)
Definition SYS_PARAM_SIZE : Z := Eval vm_compute in
  match rev layout_tbl with (_, (o, n)) :: _ => align_up (o + n) 4 | [] => 0 end.

(** ** Members are in bounds and do not overlap *)

Lemma layout_complete f : (f, (off f, size f)) ∈ layout_tbl.
Proof. destruct f; apply list_elem_of_In; vm_compute; tauto. Qed.
Lemma layout_forallb (P : field * (Z * Z) → bool) :
  forallb P layout_tbl = true → ∀ f, P (f, (off f, size f)) = true.
Proof. rewrite forallb_forall. intros H f. apply H, list_elem_of_In, layout_complete. Qed.

Lemma field_bounds f : 0 <= off f ∧ 0 < size f ∧ off f + size f <= SYS_PARAM_SIZE.
Proof.
  assert ((0 <=? off f) && (0 <? size f) && (off f + size f <=? SYS_PARAM_SIZE) = true)%bool as H.
  { apply (layout_forallb (λ p, (0 <=? p.2.1) && (0 <? p.2.2) && (p.2.1 + p.2.2 <=? SYS_PARAM_SIZE))%bool).
    vm_compute. reflexivity. }
  lia.
Qed.
Definition apart (p q : field * (Z * Z)) : bool :=
  bool_decide (p.1 = q.1) || (p.2.1 + p.2.2 <=? q.2.1) || (q.2.1 + q.2.2 <=? p.2.1).
Lemma field_disjoint f g : f ≠ g → off f + size f <= off g ∨ off g + size g <= off f.
Proof.
  intros Hne.
  assert (forallb (λ p, forallb (apart p) layout_tbl) layout_tbl = true) as H by (vm_compute; reflexivity).
  pose proof (layout_forallb _ (layout_forallb _ H f) g) as Hg. unfold apart in Hg. cbn [fst snd] in Hg.
  rewrite bool_decide_eq_false_2 in Hg by done. lia.
Qed.
