(* ===== verification/Params.v ===== *)
(** * [src/Platform/Common/Params/wm_param.c]: the parameter store

    The running parameters, their shadow of the flash record and the two flash
    partitions that hold the record in turn: reading and setting one member,
    writing the record with its modification count and CRC to the partition
    not in use, and choosing, restoring or recreating the record at start. *)
From Stdlib Require Import String Ascii.
From S2P Require Import Prelude Utils FlashStore ParamLayout.

Definition TLS_PARAM_STATUS_OK := 0.
Definition TLS_PARAM_STATUS_EINVALID := 1.
Definition TLS_PARAM_STATUS_EMEM := 2.
Definition TLS_PARAM_STATUS_EIO := 3.
Definition TLS_PARAM_STATUS_EPERM := 4.
Definition TLS_PARAM_STATUS_EINVALIDID := 5.
Definition TLS_PARAM_MAGIC := 0x4947414D.
Definition TLS_USER_MAGIC := 0x574D3031.

(** The addresses [tls_fls_layout_init] sets. *)
Record param_area := mk_area {
  PARAM1 : Z;
  PARAM2 : Z;
  PARAM_RESTORE : Z;
  PARAM_DEFAULT : Z;
}.

(** ** The member a request names

    One entry per [case] of the three [switch] statements: what the case does
    to the block, [None] when the copy leaves its object. *)

(** [MEMCPY(&dest->f, &src->f, sizeof(...))] or [dest->f = src->f]. *)
Definition copy_member (f : field) (src dest : list Z) : option (list Z) :=
  memcpy dest (off f) src (off f) (size f).
(** [strncpy(dest->f, src->f, strlen(src->f) + 1)]. *)
Definition copy_string (f : field) (src dest : list Z) : option (list Z) :=
  n ← strlen (drop (Z.to_nat (off f)) src); memcpy dest (off f) src (off f) (n + 1).
(** [MEMCPY(&param->f, argv, sizeof(...))] or [param->f = *argv]. *)
Definition set_member (f : field) (argv param : list Z) : option (list Z) :=
  memcpy param (off f) argv 0 (size f).
(** [strcpy(param->f, argv)] or [strncpy(param->f, argv, strlen(argv) + 1)]. *)
Definition set_string (f : field) (argv param : list Z) : option (list Z) :=
  n ← strlen argv; memcpy param (off f) argv 0 (n + 1).
(** [MEMCPY(argv, &src->f, sizeof(...))] or [*argv = src->f]. *)
Definition get_member (f : field) (src argv : list Z) : option (list Z) :=
  memcpy argv 0 src (off f) (size f).
(** [strcpy(argv, src->f)] or [strncpy(argv, src->f, strlen(src->f) + 1)]. *)
Definition get_string (f : field) (src argv : list Z) : option (list Z) :=
  n ← strlen (drop (Z.to_nat (off f)) src); memcpy argv 0 src (off f) (n + 1).

(** The [switch] of [param_to_flash] (the case of the trigger period has no
    [break] and runs into the next). *)
Definition flash_cases1 (src dest : list Z) : list (Z * option (list Z)) := [
  (TLS_PARAM_ID_ALL, memcpy dest 0 src 0 SYS_PARAM_SIZE);
  (TLS_PARAM_ID_SSID, copy_member F_ssid src dest);
  (TLS_PARAM_ID_ENCRY, copy_member F_encry src dest);
  (TLS_PARAM_ID_KEY, copy_member F_key src dest);
  (TLS_PARAM_ID_IP, copy_member F_ipcfg src dest);
  (TLS_PARAM_ID_AUTOMODE, copy_member F_auto_mode src dest);
  (TLS_PARAM_ID_DEFSOCKET, copy_member F_remote_socket_cfg src dest);
  (TLS_PARAM_ID_BSSID, copy_member F_bssid src dest);
  (TLS_PARAM_ID_CHANNEL, copy_member F_channel src dest);
  (TLS_PARAM_ID_CHANNEL_EN, copy_member F_channel_enable src dest);
  (TLS_PARAM_ID_COUNTRY_REGION, copy_member F_wireless_region src dest);
  (TLS_PARAM_ID_WPROTOCOL, copy_member F_wireless_protocol src dest);
  (TLS_PARAM_ID_ADHOC_AUTOCREATE, copy_member F_auto_create_adhoc src dest);
  (TLS_PARAM_ID_ROAMING, copy_member F_auto_roam src dest);
  (TLS_PARAM_ID_AUTO_RETRY_CNT, copy_member F_auto_retrycnt src dest);
  (TLS_PARAM_ID_WBGR, copy_member F_wbgr src dest);
  (TLS_PARAM_ID_USRINTF, copy_member F_user_port_mode src dest);
  (TLS_PARAM_ID_ESCAPE_CHAR, copy_member F_EscapeChar src dest);
  (TLS_PARAM_ID_ESCAPE_PERIOD, copy_member F_EscapePeriod src dest);
  (TLS_PARAM_ID_AUTO_TRIGGER_LENGTH, copy_member F_transparent_trigger_length src dest);
  (TLS_PARAM_ID_AUTO_TRIGGER_PERIOD, copy_member F_transparent_trigger_period src dest ≫= λ dest, copy_member F_debug_mode src dest);
  (TLS_PARAM_ID_DEBUG_MODE, copy_member F_debug_mode src dest);
  (TLS_PARAM_ID_HARDVERSION, copy_member F_hardware_version src dest)].
Definition flash_cases2 (src dest : list Z) : list (Z * option (list Z)) := [
  (TLS_PARAM_ID_BRDSSID, copy_member F_ssid_broadcast_enable src dest);
  (TLS_PARAM_ID_DNSNAME, copy_member F_local_dnsname src dest);
  (TLS_PARAM_ID_DEVNAME, copy_member F_local_device_name src dest);
  (TLS_PARAM_ID_PSM, copy_member F_auto_powersave src dest);
  (TLS_PARAM_ID_ORAY_CLIENT, copy_member F_oray_client_setting src dest);
  (TLS_PARAM_ID_UPNP, copy_member F_upnp_enable src dest);
  (TLS_PARAM_ID_UART, copy_member F_uart_cfg src dest);
  (TLS_PARAM_ID_CHANNEL_LIST, copy_member F_channellist src dest);
  (TLS_PARAM_ID_ONESHOT_CFG, copy_member F_oneshotflag src dest);
  (TLS_PARAM_ID_SHA1, copy_member F_psk src dest);
  (TLS_PARAM_ID_ORIGIN_KEY, copy_member F_original_key src dest);
  (TLS_PARAM_ID_ORIGIN_SSID, copy_member F_original_ssid src dest);
  (TLS_PARAM_ID_AUTO_RECONNECT, copy_member F_auto_reconnect src dest);
  (TLS_PARAM_ID_IO_MODE, copy_member F_IoMode src dest);
  (TLS_PARAM_ID_CMD_MODE, copy_member F_CmdMode src dest);
  (TLS_PARAM_ID_PASSWORD, copy_member F_PassWord src dest);
  (TLS_PARAM_ID_WEBS_CONFIG, copy_member F_WebsCfg src dest);
  (TLS_PARAM_ID_QUICK_CONNECT, copy_member F_quick_connect src dest);
  (TLS_PARAM_ID_KEY_CHANGE, copy_member F_key_changed src dest);
  (TLS_PARAM_ID_SSID_CHANGE, copy_member F_ssid_changed src dest);
  (TLS_PARAM_ID_SOFTAP_SSID, copy_member F_apsta_ssid src dest);
  (TLS_PARAM_ID_SOFTAP_PSK, copy_member F_apsta_psk src dest);
  (TLS_PARAM_ID_SOFTAP_ENCRY, copy_member F_encry4softap src dest);
  (TLS_PARAM_ID_SOFTAP_KEY, copy_member F_key4softap src dest);
  (TLS_PARAM_ID_SOFTAP_IP, copy_member F_ipcfg4softap src dest);
  (TLS_PARAM_ID_SOFTAP_CHANNEL, copy_member F_channel4softap src dest);
  (TLS_PARAM_ID_SOFTAP_WBGR, copy_member F_wbgr4softap src dest);
  (TLS_PARAM_ID_SNTP_SERVER1, copy_string F_sntp_service1 src dest);
  (TLS_PARAM_ID_SNTP_SERVER2, copy_string F_sntp_service2 src dest);
  (TLS_PARAM_ID_SNTP_SERVER3, copy_string F_sntp_service3 src dest);
  (TLS_PARAM_ID_TEM_OFFSET, copy_member F_params_tem src dest)].

(** The [switch] of [tls_param_set]. *)
Definition set_cases1 (argv param : list Z) : list (Z * option (list Z)) := [
  (TLS_PARAM_ID_ALL, memcpy param 0 argv 0 SYS_PARAM_SIZE);
  (TLS_PARAM_ID_SSID, set_member F_ssid argv param);
  (TLS_PARAM_ID_ENCRY, set_member F_encry argv param);
  (TLS_PARAM_ID_KEY, set_member F_key argv param);
  (TLS_PARAM_ID_IP, set_member F_ipcfg argv param);
  (TLS_PARAM_ID_AUTOMODE, set_member F_auto_mode argv param);
  (TLS_PARAM_ID_DEFSOCKET, set_member F_remote_socket_cfg argv param);
  (TLS_PARAM_ID_BSSID, set_member F_bssid argv param);
  (TLS_PARAM_ID_CHANNEL, set_member F_channel argv param);
  (TLS_PARAM_ID_CHANNEL_LIST, set_member F_channellist argv param);
  (TLS_PARAM_ID_CHANNEL_EN, set_member F_channel_enable argv param);
  (TLS_PARAM_ID_COUNTRY_REGION, set_member F_wireless_region argv param);
  (TLS_PARAM_ID_WPROTOCOL, set_member F_wireless_protocol argv param);
  (TLS_PARAM_ID_ADHOC_AUTOCREATE, set_member F_auto_create_adhoc argv param);
  (TLS_PARAM_ID_ROAMING, set_member F_auto_roam argv param);
  (TLS_PARAM_ID_AUTO_RETRY_CNT, set_member F_auto_retrycnt argv param);
  (TLS_PARAM_ID_WBGR, set_member F_wbgr argv param);
  (TLS_PARAM_ID_USRINTF, set_member F_user_port_mode argv param);
  (TLS_PARAM_ID_AUTO_TRIGGER_LENGTH, set_member F_transparent_trigger_length argv param);
  (TLS_PARAM_ID_AUTO_TRIGGER_PERIOD, set_member F_transparent_trigger_period argv param);
  (TLS_PARAM_ID_ESCAPE_CHAR, set_member F_EscapeChar argv param);
  (TLS_PARAM_ID_ESCAPE_PERIOD, set_member F_EscapePeriod argv param);
  (TLS_PARAM_ID_IO_MODE, set_member F_IoMode argv param);
  (TLS_PARAM_ID_CMD_MODE, set_member F_CmdMode argv param);
  (TLS_PARAM_ID_PASSWORD, set_member F_PassWord argv param);
  (TLS_PARAM_ID_WEBS_CONFIG, set_member F_WebsCfg argv param);
  (TLS_PARAM_ID_DEBUG_MODE, set_member F_debug_mode argv param);
  (TLS_PARAM_ID_HARDVERSION, set_member F_hardware_version argv param)].
Definition set_cases2 (argv param : list Z) : list (Z * option (list Z)) := [
  (TLS_PARAM_ID_BRDSSID, set_member F_ssid_broadcast_enable argv param);
  (TLS_PARAM_ID_DNSNAME, set_string F_local_dnsname argv param);
  (TLS_PARAM_ID_DEVNAME, set_string F_local_device_name argv param);
  (TLS_PARAM_ID_PSM, set_member F_auto_powersave argv param);
  (TLS_PARAM_ID_ORAY_CLIENT, set_member F_oray_client_setting argv param);
  (TLS_PARAM_ID_UPNP, set_member F_upnp_enable argv param);
  (TLS_PARAM_ID_UART, set_member F_uart_cfg argv param);
  (TLS_PARAM_ID_ONESHOT_CFG, set_member F_oneshotflag argv param);
  (TLS_PARAM_ID_SHA1, set_member F_psk argv param);
  (TLS_PARAM_ID_ORIGIN_KEY, set_member F_original_key argv param);
  (TLS_PARAM_ID_ORIGIN_SSID, set_member F_original_ssid argv param);
  (TLS_PARAM_ID_AUTO_RECONNECT, set_member F_auto_reconnect argv param);
  (TLS_PARAM_ID_QUICK_CONNECT, set_member F_quick_connect argv param);
  (TLS_PARAM_ID_KEY_CHANGE, set_member F_key_changed argv param);
  (TLS_PARAM_ID_SSID_CHANGE, set_member F_ssid_changed argv param);
  (TLS_PARAM_ID_SOFTAP_SSID, set_member F_apsta_ssid argv param);
  (TLS_PARAM_ID_SOFTAP_PSK, set_member F_apsta_psk argv param);
  (TLS_PARAM_ID_SOFTAP_ENCRY, set_member F_encry4softap argv param);
  (TLS_PARAM_ID_SOFTAP_KEY, set_member F_key4softap argv param);
  (TLS_PARAM_ID_SOFTAP_IP, set_member F_ipcfg4softap argv param);
  (TLS_PARAM_ID_SOFTAP_CHANNEL, set_member F_channel4softap argv param);
  (TLS_PARAM_ID_SOFTAP_WBGR, set_member F_wbgr4softap argv param);
  (TLS_PARAM_ID_SNTP_SERVER1, set_string F_sntp_service1 argv param);
  (TLS_PARAM_ID_SNTP_SERVER2, set_string F_sntp_service2 argv param);
  (TLS_PARAM_ID_SNTP_SERVER3, set_string F_sntp_service3 argv param);
  (TLS_PARAM_ID_TEM_OFFSET, set_member F_params_tem argv param)].

(** The [switch] of [tls_param_get]. *)
Definition get_cases1 (src argv : list Z) : list (Z * option (list Z)) := [
  (TLS_PARAM_ID_ALL, memcpy argv 0 src 0 SYS_PARAM_SIZE);
  (TLS_PARAM_ID_SSID, get_member F_ssid src argv);
  (TLS_PARAM_ID_ENCRY, get_member F_encry src argv);
  (TLS_PARAM_ID_KEY, get_member F_key src argv);
  (TLS_PARAM_ID_IP, get_member F_ipcfg src argv);
  (TLS_PARAM_ID_AUTOMODE, get_member F_auto_mode src argv);
  (TLS_PARAM_ID_DEFSOCKET, get_member F_remote_socket_cfg src argv);
  (TLS_PARAM_ID_BSSID, get_member F_bssid src argv);
  (TLS_PARAM_ID_CHANNEL, get_member F_channel src argv);
  (TLS_PARAM_ID_CHANNEL_LIST, get_member F_channellist src argv);
  (TLS_PARAM_ID_CHANNEL_EN, get_member F_channel_enable src argv);
  (TLS_PARAM_ID_COUNTRY_REGION, get_member F_wireless_region src argv);
  (TLS_PARAM_ID_WPROTOCOL, get_member F_wireless_protocol src argv);
  (TLS_PARAM_ID_ADHOC_AUTOCREATE, get_member F_auto_create_adhoc src argv);
  (TLS_PARAM_ID_ROAMING, get_member F_auto_roam src argv);
  (TLS_PARAM_ID_AUTO_RETRY_CNT, get_member F_auto_retrycnt src argv);
  (TLS_PARAM_ID_WBGR, get_member F_wbgr src argv);
  (TLS_PARAM_ID_USRINTF, get_member F_user_port_mode src argv);
  (TLS_PARAM_ID_AUTO_TRIGGER_LENGTH, get_member F_transparent_trigger_length src argv);
  (TLS_PARAM_ID_AUTO_TRIGGER_PERIOD, get_member F_transparent_trigger_period src argv);
  (TLS_PARAM_ID_ESCAPE_CHAR, get_member F_EscapeChar src argv);
  (TLS_PARAM_ID_ESCAPE_PERIOD, get_member F_EscapePeriod src argv);
  (TLS_PARAM_ID_IO_MODE, get_member F_IoMode src argv);
  (TLS_PARAM_ID_CMD_MODE, get_member F_CmdMode src argv);
  (TLS_PARAM_ID_PASSWORD, get_member F_PassWord src argv);
  (TLS_PARAM_ID_WEBS_CONFIG, get_member F_WebsCfg src argv);
  (TLS_PARAM_ID_DEBUG_MODE, get_member F_debug_mode src argv);
  (TLS_PARAM_ID_HARDVERSION, get_member F_hardware_version src argv)].
Definition get_cases2 (src argv : list Z) : list (Z * option (list Z)) := [
  (TLS_PARAM_ID_BRDSSID, get_member F_ssid_broadcast_enable src argv);
  (TLS_PARAM_ID_DNSNAME, get_string F_local_dnsname src argv);
  (TLS_PARAM_ID_DEVNAME, get_string F_local_device_name src argv);
  (TLS_PARAM_ID_PSM, get_member F_auto_powersave src argv);
  (TLS_PARAM_ID_ORAY_CLIENT, get_member F_oray_client_setting src argv);
  (TLS_PARAM_ID_UPNP, get_member F_upnp_enable src argv);
  (TLS_PARAM_ID_UART, get_member F_uart_cfg src argv);
  (TLS_PARAM_ID_ONESHOT_CFG, get_member F_oneshotflag src argv);
  (TLS_PARAM_ID_SHA1, get_member F_psk src argv);
  (TLS_PARAM_ID_ORIGIN_KEY, get_member F_original_key src argv);
  (TLS_PARAM_ID_ORIGIN_SSID, get_member F_original_ssid src argv);
  (TLS_PARAM_ID_AUTO_RECONNECT, get_member F_auto_reconnect src argv);
  (TLS_PARAM_ID_QUICK_CONNECT, get_member F_quick_connect src argv);
  (TLS_PARAM_ID_KEY_CHANGE, get_member F_key_changed src argv);
  (TLS_PARAM_ID_SSID_CHANGE, get_member F_ssid_changed src argv);
  (TLS_PARAM_ID_SOFTAP_SSID, get_member F_apsta_ssid src argv);
  (TLS_PARAM_ID_SOFTAP_PSK, get_member F_apsta_psk src argv);
  (TLS_PARAM_ID_SOFTAP_ENCRY, get_member F_encry4softap src argv);
  (TLS_PARAM_ID_SOFTAP_KEY, get_member F_key4softap src argv);
  (TLS_PARAM_ID_SOFTAP_IP, get_member F_ipcfg4softap src argv);
  (TLS_PARAM_ID_SOFTAP_CHANNEL, get_member F_channel4softap src argv);
  (TLS_PARAM_ID_SOFTAP_WBGR, get_member F_wbgr4softap src argv);
  (TLS_PARAM_ID_SNTP_SERVER1, get_string F_sntp_service1 src argv);
  (TLS_PARAM_ID_SNTP_SERVER2, get_string F_sntp_service2 src argv);
  (TLS_PARAM_ID_SNTP_SERVER3, get_string F_sntp_service3 src argv);
  (TLS_PARAM_ID_TEM_OFFSET, get_member F_params_tem src argv)].

(** What each [switch] makes of an identifier: the default is an error. *)
Definition flash_switch (id : Z) (src dest : list Z) : option (option (list Z)) :=
  switch id ((λ c, (c.1, Some c.2)) <$> flash_cases1 src dest ++ flash_cases2 src dest) None.
Definition set_switch (id : Z) (argv param : list Z) : option (option (list Z)) :=
  switch id ((λ c, (c.1, Some c.2)) <$> set_cases1 argv param ++ set_cases2 argv param) None.
Definition get_switch (id : Z) (src argv : list Z) : option (option (list Z)) :=
  switch id ((λ c, (c.1, Some c.2)) <$> get_cases1 src argv ++ get_cases2 src argv) None.

(** ** The flash record

    [struct tls_param_flash]: a 16-byte header, the parameters and the CRC. *)

Definition FLASH_REC_SIZE : Z := 16 + SYS_PARAM_SIZE + 4.
Definition u32_at (b : list Z) (o : Z) : Z := of_le (slice b o 4).
Definition u16_at (b : list Z) (o : Z) : Z := of_le (slice b o 2).
Definition rec_magic (r : list Z) : Z := u32_at r 0.
Definition rec_partition_num (r : list Z) : Z := u16_at r 4.
Definition rec_modify_count (r : list Z) : Z := u16_at r 6.
Definition rec_length (r : list Z) : Z := u16_at r 14.
Definition rec_parameters (r : list Z) : list Z := slice r 16 SYS_PARAM_SIZE.
Definition rec_crc32 (r : list Z) : Z := u32_at r (16 + SYS_PARAM_SIZE).

Definition set_parameters (p r : list Z) : list Z := splice r 16 p.

(** The header and CRC [param_to_flash] stores into the record. *)
Definition seal (modify_count partition_num : Z) (r : list Z) : option (list Z) :=
  let r := splice r 0 (le32 TLS_PARAM_MAGIC) in
  let r := splice r 14 (le16 FLASH_REC_SIZE) in
  let r := splice r 6 (le16 (if modify_count <? 0 then u16 (rec_modify_count r + 1)
                             else u16 modify_count)) in
  let r := splice r 4 (le16 (if partition_num <? 0 then Z.land (rec_partition_num r + 1) 1
                             else u16 partition_num)) in
  let r := splice r 8 (le32 0) in
  let r := splice r 12 (le16 0) in
  crc ← get_crc32 r (FLASH_REC_SIZE - 4);
  Some (splice r (16 + SYS_PARAM_SIZE) (le32 crc)).

(** ** State *)

Record pst (F : Type) := mk_pst {
  fl : F;
  php : heap;
  flash_param : list Z;
  sram_param : list Z;
  user_default_param : list Z;
  sys_param_lock : option Z;
  updp_mode : Z;
}.
Arguments mk_pst {F}.
Arguments fl {F}.
Arguments php {F}.
Arguments flash_param {F}.
Arguments sram_param {F}.
Arguments user_default_param {F}.
Arguments sys_param_lock {F}.
Arguments updp_mode {F}.

Section setters.
Context {F : Type}.
Implicit Type s : pst F.
Definition set_fl (x : F) s := mk_pst x (php s) (flash_param s) (sram_param s)
  (user_default_param s) (sys_param_lock s) (updp_mode s).
Definition set_php (x : heap) s := mk_pst (fl s) x (flash_param s) (sram_param s)
  (user_default_param s) (sys_param_lock s) (updp_mode s).
Definition set_flash_param (x : list Z) s := mk_pst (fl s) (php s) x (sram_param s)
  (user_default_param s) (sys_param_lock s) (updp_mode s).
Definition set_sram_param (x : list Z) s := mk_pst (fl s) (php s) (flash_param s) x
  (user_default_param s) (sys_param_lock s) (updp_mode s).
Definition set_user_default_param (x : list Z) s := mk_pst (fl s) (php s) (flash_param s)
  (sram_param s) x (sys_param_lock s) (updp_mode s).
Definition set_sys_param_lock (x : option Z) s := mk_pst (fl s) (php s) (flash_param s)
  (sram_param s) (user_default_param s) x (updp_mode s).
Definition set_updp_mode (x : Z) s := mk_pst (fl s) (php s) (flash_param s)
  (sram_param s) (user_default_param s) (sys_param_lock s) x.
End setters.

(** ** Factory defaults *)

(** The bytes of a C string literal, its terminator included. *)
Definition c_str (s : string) : list Z :=
  ((λ c, Z.of_N (N_of_ascii c)) <$> list_ascii_of_string s) ++ [0].

(** Stores of [tls_param_load_factory_default], in its order: an offset and
    the bytes stored there.  The offsets of members of members are those of
    the declarations in [wm_params.h]. *)
Definition ip_stores (o dhcp : Z) (ip netmask gateway dns1 dns2 : list Z) : list (Z * list Z) :=
  [(o, [dhcp]); (o + 4, ip); (o + 8, netmask); (o + 12, gateway); (o + 16, dns1); (o + 20, dns2)].
Definition default_stores : list (Z * list Z) :=
  [(off F_hardware_version, [72; 1; 0; 0; 0; 0; 0; 0]);
   (off F_wireless_region, [1]);
   (off F_channel, [1]);
   (off F_channellist, le16 0x3FFF);
   (off F_wbgr, [2]); (off F_wbgr + 1, [25]);
   (off F_ssid_broadcast_enable, [1]);
   (off F_encry, [0]);
   (off F_wireless_protocol, [1]);
   (off F_auto_retrycnt, [255]);
   (off F_auto_roam, [0]);
   (off F_auto_powersave, [0]);
   (off F_auto_reconnect, [0]);
   (off F_auto_mode, [0]);
   (off F_transparent_trigger_length, le16 512);
   (off F_uart_cfg, le32 115200); (off F_uart_cfg + 4, [0]); (off F_uart_cfg + 5, [0]);
   (off F_user_port_mode, [0])]
  ++ ip_stores (off F_ipcfg) 1 [192; 168; 1; 1] [255; 255; 255; 0] [192; 168; 1; 1]
       [192; 168; 1; 1] [192; 168; 1; 1] ++
  [(off F_local_dnsname, c_str "local.winnermicro");
   (off F_local_device_name, c_str "tln13sp01");
   (off F_remote_socket_cfg, [0]); (off F_remote_socket_cfg + 1, [1]);
   (off F_remote_socket_cfg + 2, le16 60000);
   (off F_remote_socket_cfg + 4, replicate 32 0);
   (off F_EscapeChar, [0x2B]);
   (off F_EscapePeriod, le16 200);
   (off F_WebsCfg, [1]); (off F_WebsCfg + 2, le16 80);
   (off F_debug_mode, le32 0);
   (off F_PassWord, replicate 6 48);
   (off F_channel4softap, [11]);
   (off F_encry4softap, [0])]
  ++ ip_stores (off F_ipcfg4softap) 1 [192; 168; 0; 1] [255; 255; 255; 0] [192; 168; 0; 1]
       [192; 168; 0; 1] [0; 0; 0; 0] ++
  [(off F_wbgr4softap, [0]); (off F_wbgr4softap + 1, [9]);
   (off F_sntp_service1, c_str "cn.ntp.org.cn");
   (off F_sntp_service2, c_str "ntp.sjtu.edu.cn");
   (off F_sntp_service3, c_str "us.pool.ntp.org")].

Definition apply_stores (l : list (Z * list Z)) (p : list Z) : list Z :=
  foldl (λ p st, splice p st.1 st.2) p l.
(** [memset(param, 0, sizeof( *param))] and the stores. *)
Definition factory_default : list Z :=
  apply_stores default_stores (replicate (Z.to_nat SYS_PARAM_SIZE) 0).

(** The stores of [tls_param_save_user] into [user_default_param], from the
    caller's [struct tls_user_param] (68 bytes: four flags, four addresses,
    the baud rate, the socket, the power-save flag and the password). *)
Definition user_stores (u : list Z) : list (Z * list Z) :=
  [(off F_wireless_protocol, slice u 0 1);
   (off F_auto_mode, slice u 1 1);
   (off F_uart_cfg, slice u 20 4);
   (off F_user_port_mode, slice u 3 1);
   (off F_ipcfg, slice u 2 1);
   (off F_auto_powersave, slice u 60 1);
   (off F_ipcfg + 4, slice u 4 4); (off F_ipcfg + 8, slice u 8 4);
   (off F_ipcfg + 12, slice u 12 4); (off F_ipcfg + 16, slice u 16 4);
   (off F_ipcfg + 20, slice u 16 4);
   (off F_remote_socket_cfg, slice u 24 1);
   (off F_remote_socket_cfg + 1, slice u 25 1);
   (off F_remote_socket_cfg + 2, slice u 26 2);
   (off F_remote_socket_cfg + 4, slice u 28 32);
   (off F_PassWord, slice u 61 6);
   (off F_hardware_version, [72; 1; 0; 0; 0; 0; 0; 0]);
   (off F_wireless_region, [1]);
   (off F_channel, [1]);
   (off F_channellist, le16 0x3FFF);
   (off F_wbgr, [0]); (off F_wbgr + 1, [9]);
   (off F_ssid_broadcast_enable, [1]);
   (off F_encry, [0]);
   (off F_auto_retrycnt, [255]);
   (off F_auto_roam, [0]);
   (off F_transparent_trigger_length, le16 512);
   (off F_uart_cfg + 4, [0]); (off F_uart_cfg + 5, [0]);
   (off F_local_dnsname, c_str "local.winnermicro");
   (off F_local_device_name, c_str "tln13sp01");
   (off F_EscapeChar, [0x2B]);
   (off F_EscapePeriod, le16 200);
   (off F_debug_mode, le32 0)].
Definition USER_PARAM_SIZE : Z := 68.

(** ** Operations *)

Section ops.
Context {F : Type} `{!FlashDev F}.
Variable area : param_area.
Local Open Scope c_scope.
Local Abbreviation MP := (M (pst F)).

Definition on_fl {A} (m : M F A) : MP A := lift fl set_fl m.
Definition palloc (n : Z) : MP (option (list Z)) := lift php set_php (malloc n).

(** [tls_os_sem_acquire(sys_param_lock, 0)] and the release. *)
Definition param_lock : MP unit :=
  let* l := gets sys_param_lock in
  match l with
  | Some c => if 0 <? c then modify (set_sys_param_lock (Some (c - 1))) else stuck
  | None => stuck
  end.
Definition param_unlock : MP unit :=
  let* l := gets sys_param_lock in
  match l with Some c => modify (set_sys_param_lock (Some (c + 1))) | None => stuck end.

Definition param_flash_verify (data_addr : Z) (data_buffer : list Z) (len : Z) : MP Z :=
  let* buffer := palloc len in
  match buffer with
  | None => ret 0
  | Some buffer =>
      let* ' (err, buffer) := on_fl (fls_read data_addr buffer len) in
      if negb (err =? 0) then ret 0
      else if bool_decide (slice buffer 0 len = slice data_buffer 0 len) then ret 1 else ret 0
  end.

Definition partition_addr (n : Z) : Z := if n =? 0 then PARAM1 area else PARAM2 area.

Definition param_to_flash (id modify_count partition_num : Z) : MP Z :=
  if (id <? TLS_PARAM_ID_ALL) || (TLS_PARAM_ID_MAX <=? id) then ret TLS_PARAM_STATUS_EINVALID
  else
    let* src := gets sram_param in
    let* r := gets flash_param in
    match flash_switch id src (rec_parameters r) with
    | None => ret TLS_PARAM_STATUS_EINVALIDID
    | Some dest =>
        let* dest := of_opt dest in
        let* r := of_opt (seal modify_count partition_num (set_parameters dest r)) in
        modify (set_flash_param r) ;;
        let addr := partition_addr (rec_partition_num r) in
        let* err := on_fl (fls_write addr r FLASH_REC_SIZE) in
        if negb (err =? 0) then ret TLS_PARAM_STATUS_EIO
        else
          let* v := param_flash_verify addr r FLASH_REC_SIZE in
          if v =? 1 then ret TLS_PARAM_STATUS_OK else ret TLS_PARAM_STATUS_EIO
    end.

(** [tls_param_load_factory_default]. *)
Definition tls_param_load_factory_default : MP unit := modify (set_sram_param factory_default).

(** The locals of the scan in [tls_param_init]: the record buffer, the number
    of damaged partitions, which ones, and whether the restore was tried. *)
Record scan := mk_scan {
  sc_flash : list Z;
  sc_damaged : Z;
  sc_is_damage : bool * bool;
  sc_tryrestore : bool;
}.
Definition damage (i : Z) (sc : scan) : scan :=
  mk_scan (sc_flash sc) (sc_damaged sc + 1)
    (if i =? 0 then (true, (sc_is_damage sc).2) else ((sc_is_damage sc).1, true))
    (sc_tryrestore sc).

Definition zero_rec : list Z := replicate (Z.to_nat FLASH_REC_SIZE) 0.
Definition zero_params : list Z := replicate (Z.to_nat SYS_PARAM_SIZE) 0.

(** The bytes the length field of a record calls its CRC. *)
Definition rec_crc_at_length (r : list Z) : option Z :=
  let o := rec_length r - 4 in
  if (0 <=? o) && (o + 4 <=? blen r) then Some (u32_at r o) else None.

(** The test and the load of one partition's record. *)
Definition scan_record (i : Z) (sc : scan) : MP scan :=
  let flash := sc_flash sc in
  if negb (rec_magic flash =? TLS_PARAM_MAGIC) then ret (damage i sc)
  else
    let* crc := of_opt (get_crc32 flash (rec_length flash - 4)) in
    let* stored := of_opt (rec_crc_at_length flash) in
    if negb (crc =? stored) then ret (damage i sc)
    else
      let* cur := gets flash_param in
      (if (rec_magic cur =? 0) || (rec_modify_count cur <? rec_modify_count flash) then
         let* cur := of_opt (
           if negb (rec_length flash =? FLASH_REC_SIZE)
           then memcpy cur 0 flash 0 (rec_length flash - 4)
           else memcpy cur 0 flash 0 FLASH_REC_SIZE) in
         modify (set_flash_param cur) ;;
         modify (set_sram_param (rec_parameters cur))
       else ret tt) ;;
      ret (mk_scan zero_rec (sc_damaged sc) (sc_is_damage sc) (sc_tryrestore sc)).

(** [for (i = 0; i < TLS_PARAM_PARTITION_NUM; i++)], which starts over once
    when both partitions are damaged: four rounds at most. *)
Fixpoint scan_loop (fuel : nat) (i : Z) (sc : scan) : MP scan :=
  if 2 <=? i then ret sc
  else match fuel with
  | O => stuck
  | S fuel' =>
      let* ' (_, flash) := on_fl (fls_read (partition_addr i) (sc_flash sc) FLASH_REC_SIZE) in
      let* sc := scan_record i
        (mk_scan flash (sc_damaged sc) (sc_is_damage sc) (sc_tryrestore sc)) in
      if negb (sc_tryrestore sc) && (2 <=? sc_damaged sc) then
        modify (set_flash_param zero_rec) ;;
        modify (set_sram_param zero_params) ;;
        on_fl (fls_erase (PARAM_RESTORE area / 4096)) ;;
        scan_loop fuel' 0 (mk_scan (sc_flash sc) 0 (false, false) true)
      else scan_loop fuel' (i + 1) sc
  end.

(** Restore the damaged partition, if one is. *)
Definition restore_damaged (is_damage : bool * bool) : MP Z :=
  let* err0 := (if is_damage.1 then param_to_flash TLS_PARAM_ID_ALL (-1) 0
                else ret TLS_PARAM_STATUS_OK) in
  if negb (err0 =? TLS_PARAM_STATUS_OK) then ret TLS_PARAM_STATUS_EIO
  else
    let* err1 := (if is_damage.2 then param_to_flash TLS_PARAM_ID_ALL (-1) 1
                  else ret TLS_PARAM_STATUS_OK) in
    if negb (err1 =? TLS_PARAM_STATUS_OK) then ret TLS_PARAM_STATUS_EIO
    else ret TLS_PARAM_STATUS_OK.

(** Both partitions are written from the factory defaults. *)
Definition recreate : MP Z :=
  tls_param_load_factory_default ;;
  let* err := param_to_flash TLS_PARAM_ID_ALL 1 0 in
  if negb (err =? TLS_PARAM_STATUS_OK) then ret TLS_PARAM_STATUS_EIO
  else
    let* err := param_to_flash TLS_PARAM_ID_ALL 1 1 in
    if negb (err =? TLS_PARAM_STATUS_OK) then ret TLS_PARAM_STATUS_EIO
    else ret TLS_PARAM_STATUS_OK.

(** [sem_ok]: [tls_os_sem_create] succeeds. *)
Definition tls_param_init (sem_ok : bool) : MP Z :=
  let* cur := gets flash_param in
  if rec_magic cur =? TLS_PARAM_MAGIC then ret TLS_PARAM_STATUS_EPERM
  else if negb sem_ok then ret TLS_PARAM_STATUS_EMEM
  else
    modify (set_sys_param_lock (Some 1)) ;;
    param_lock ;;
    modify (set_flash_param zero_rec) ;;
    modify (set_sram_param zero_params) ;;
    let* flash := palloc FLASH_REC_SIZE in
    let* err := match flash with
      | None => ret TLS_PARAM_STATUS_EMEM
      | Some _ =>
          let* sc := scan_loop 4 0 (mk_scan zero_rec 0 (false, false) false) in
          if 2 <=? sc_damaged sc then recreate else restore_damaged (sc_is_damage sc)
      end in
    param_unlock ;;
    ret err.

(** [tls_param_load_user(param)]: the status and the block; [magic] and
    [crc32] are the locals before they are read. *)
Definition tls_param_load_user (param magic crc32 : list Z) : MP (Z * list Z) :=
  let offset := PARAM_DEFAULT area in
  let* ' (_, magic) := on_fl (fls_read offset magic 4) in
  if negb (TLS_USER_MAGIC =? u32_at magic 0) then ret (TLS_PARAM_STATUS_EINVALID, param)
  else
    let offset := u32 (offset + 4) in
    let* ' (_, param) := on_fl (fls_read offset zero_params SYS_PARAM_SIZE) in
    let offset := u32 (offset + SYS_PARAM_SIZE) in
    let* ' (_, crc32) := on_fl (fls_read offset crc32 4) in
    let* crc := of_opt (get_crc32 param SYS_PARAM_SIZE) in
    if negb (u32_at crc32 0 =? crc) then ret (TLS_PARAM_STATUS_EINVALID, param)
    else ret (TLS_PARAM_STATUS_OK, param).

(** The block [tls_param_set] works on. *)
Definition tls_param_set (id : Z) (argv : option (list Z)) (to_flash : bool) : MP Z :=
  match argv with
  | Some argv =>
      if (id <? TLS_PARAM_ID_ALL) || (TLS_PARAM_ID_MAX <=? id) then ret TLS_PARAM_STATUS_EINVALID
      else
        let* updp := gets updp_mode in
        let* param := gets (if truth updp then user_default_param else sram_param) in
        param_lock ;;
        let* err := match set_switch id argv param with
          | None => ret TLS_PARAM_STATUS_EINVALIDID
          | Some p =>
              let* p := of_opt p in
              modify (if truth updp then set_user_default_param p else set_sram_param p) ;;
              if to_flash && negb (truth updp) then param_to_flash id (-1) (-1)
              else ret TLS_PARAM_STATUS_OK
          end in
        param_unlock ;;
        ret err
  | None => ret TLS_PARAM_STATUS_EINVALID
  end.

(** The status and the caller's buffer. *)
Definition tls_param_get (id : Z) (argv : list Z) (from_flash : bool) : MP (Z * list Z) :=
  if (id <? TLS_PARAM_ID_ALL) || (TLS_PARAM_ID_MAX <=? id) then
    ret (TLS_PARAM_STATUS_EINVALID, argv)
  else
    let* src := gets (λ s, if from_flash then rec_parameters (flash_param s) else sram_param s) in
    param_lock ;;
    let* r := match get_switch id src argv with
      | None => ret (TLS_PARAM_STATUS_EINVALIDID, argv)
      | Some a => let* a := of_opt a in ret (TLS_PARAM_STATUS_OK, a)
      end in
    param_unlock ;;
    ret r.

Definition tls_param_to_flash (id : Z) : MP Z :=
  param_lock ;;
  let* s := get in
  if (TLS_PARAM_ID_ALL =? id) && bool_decide (sram_param s = rec_parameters (flash_param s)) then
    param_unlock ;; ret 0
  else
    let* err := param_to_flash id (-1) (-1) in
    param_unlock ;; ret err.

Definition tls_param_to_default : MP Z :=
  tls_param_load_factory_default ;;
  let* err := param_to_flash TLS_PARAM_ID_ALL 1 0 in
  if truth err then ret err
  else
    let* err := param_to_flash TLS_PARAM_ID_ALL 1 1 in
    modify (λ s, set_flash_param (splice (flash_param s) 0 (le32 0)) s) ;;
    ret err.

Definition tls_param_save_user_default : MP Z :=
  let* p := gets user_default_param in
  let offset := PARAM_DEFAULT area in
  on_fl (fls_write offset (le32 TLS_USER_MAGIC) 4) ;;
  let offset := u32 (offset + 4) in
  on_fl (fls_write offset p SYS_PARAM_SIZE) ;;
  let offset := u32 (offset + SYS_PARAM_SIZE) in
  let* crc32 := of_opt (get_crc32 p SYS_PARAM_SIZE) in
  on_fl (fls_write offset (le32 crc32) 4) ;;
  ret TLS_PARAM_STATUS_OK.

Definition tls_param_save_user (user_param : list Z) : MP Z :=
  (if blen user_param <? USER_PARAM_SIZE then stuck else ret tt) ;;
  modify (λ s, set_user_default_param
    (apply_stores (user_stores user_param) (user_default_param s)) s) ;;
  tls_param_save_user_default ;;
  ret TLS_PARAM_STATUS_OK.

Definition tls_param_get_updp_mode : MP Z := gets updp_mode.
Definition tls_param_set_updp_mode (mode : Z) : MP unit := modify (set_updp_mode (u8 mode)).
End ops.

(** ** The record *)

Section record.
Implicit Types r p : list Z.

Lemma blen_le16 x : blen (le16 x) = 2.
Proof. done. Qed.
Lemma blen_le32' x : blen (le32 x) = 4.
Proof. done. Qed.
Lemma u32_at_le32 l o x : 0 <= o → o + 4 <= blen l → is_u32 x → u32_at (splice l o (le32 x)) o = x.
Proof. intros. unfold u32_at. rewrite slice_splice_same by done. by apply of_le_le32. Qed.
Lemma u16_at_le16 l o x : 0 <= o → o + 2 <= blen l → is_u16 x → u16_at (splice l o (le16 x)) o = x.
Proof. intros. unfold u16_at. rewrite slice_splice_same by done. by apply of_le_le16. Qed.

(** A record the start-up scan accepts. *)
Definition valid_rec r : Prop :=
  blen r = FLASH_REC_SIZE ∧ bytes_ok r ∧ rec_magic r = TLS_PARAM_MAGIC ∧
  rec_length r = FLASH_REC_SIZE ∧ get_crc32 r (FLASH_REC_SIZE - 4) = Some (rec_crc32 r).
(** A record it takes for damaged: no magic, or a CRC that does not match. *)
Definition damaged_rec r : Prop :=
  rec_magic r ≠ TLS_PARAM_MAGIC ∨
  (rec_length r = FLASH_REC_SIZE ∧ get_crc32 r (FLASH_REC_SIZE - 4) ≠ Some (rec_crc32 r)).

(** The counter and partition number a seal asks for. *)
Definition next_count (mc : Z) r : Z :=
  if mc <? 0 then u16 (rec_modify_count r + 1) else u16 mc.
Definition next_partition (pn : Z) r : Z :=
  if pn <? 0 then Z.land (rec_partition_num r + 1) 1 else u16 pn.

Lemma get_crc32_take r r' n : 0 <= n → n <= blen r → n <= blen r' →
  slice r 0 n = slice r' 0 n → get_crc32 r n = get_crc32 r' n.
Proof.
  intros Hn Hr Hr' Hs. unfold get_crc32, slice in *. rewrite !drop_0 in Hs. rewrite Hs.
  by replace ((0 <=? n) && (n <=? blen r))%bool with ((0 <=? n) && (n <=? blen r'))%bool by lia.
Qed.
Lemma get_crc32_total r n : 0 <= n <= blen r → ∃ c, get_crc32 r n = Some c ∧ is_u32 c.
Proof.
  intros. unfold get_crc32. case_if; [|lia]. eexists. split; [done|]. apply u32_range.
Qed.

Lemma land1_u16 x : is_u16 (Z.land x 1).
Proof. change 1 with (Z.ones 1). rewrite Z.land_ones by lia. ints. Qed.

Ltac rec_len := rewrite ?blen_splice by (rewrite ?blen_le16, ?blen_le32'; rec_len);
  rewrite ?blen_le16, ?blen_le32'; unfold FLASH_REC_SIZE, SYS_PARAM_SIZE in *; lia.
Ltac rec_slice :=
  unfold u32_at, u16_at;
  repeat first [rewrite slice_splice_same by rec_len | rewrite slice_splice_disj by rec_len].

Lemma bytes_ok_set_parameters p r : bytes_ok p → bytes_ok r → bytes_ok (set_parameters p r).
Proof. intros. by apply bytes_ok_splice. Qed.

(** Sealing makes a valid record of the parameters it is given. *)
Lemma seal_ok mc pn r : blen r = FLASH_REC_SIZE → bytes_ok r →
  ∃ r', seal mc pn r = Some r' ∧ valid_rec r' ∧ rec_parameters r' = rec_parameters r ∧
    rec_modify_count r' = next_count mc r ∧ rec_partition_num r' = next_partition pn r.
Proof.
  intros Hl Hok. unfold seal.
  set (c := if mc <? 0 then _ else _). set (r1 := splice (splice r 0 _) 14 _).
  assert (blen r1 = FLASH_REC_SIZE) as Hl1 by (unfold r1; rec_len).
  assert (rec_partition_num (splice r1 6 (le16 c)) = rec_partition_num r) as Hpn
    by (unfold rec_partition_num, r1; rec_slice; done).
  rewrite Hpn. fold (next_partition pn r).
  assert (c = next_count mc r) as ->.
  { unfold c, next_count, rec_modify_count, r1. by rec_slice. }
  assert (is_u16 (next_count mc r)) as Hc by (unfold next_count; case_if; apply u16_range).
  assert (is_u16 (next_partition pn r)) as Hp
    by (unfold next_partition; case_if; [apply land1_u16|apply u16_range]).
  set (r2 := splice (splice (splice (splice r1 6 _) 4 _) 8 _) 12 _).
  assert (blen r2 = FLASH_REC_SIZE) as Hl2 by (unfold r2; rec_len).
  destruct (get_crc32_total r2 (FLASH_REC_SIZE - 4)) as (crc & Hcrc & Hcu);
    [unfold FLASH_REC_SIZE, SYS_PARAM_SIZE in *; lia|].
  rewrite Hcrc. cbn [mbind option_bind]. eexists. split; [done|].
  split; [split_and!|split_and!].
  - rec_len.
  - apply bytes_ok_splice; [|apply bytes_ok_le32]. unfold r2, r1.
    repeat (apply bytes_ok_splice; [|apply bytes_ok_le16 || apply bytes_ok_le32]). done.
  - unfold rec_magic, r2, r1. rec_slice. by apply of_le_le32.
  - unfold rec_length, r2, r1. rec_slice. by apply of_le_le16.
  - unfold rec_crc32. rewrite u32_at_le32 by (done || rec_len). rewrite <- Hcrc.
    apply get_crc32_take; try rec_len. rewrite slice_splice_disj by rec_len. done.
  - unfold rec_parameters, r2, r1. by rec_slice.
  - unfold rec_modify_count, r2, r1. rec_slice. by apply of_le_le16.
  - unfold rec_partition_num, r2, r1. rec_slice. by apply of_le_le16.
Qed.

Lemma blen_rec_parameters r : blen r = FLASH_REC_SIZE → blen (rec_parameters r) = SYS_PARAM_SIZE.
Proof. intros Hl. apply blen_slice; unfold FLASH_REC_SIZE, SYS_PARAM_SIZE in *; lia. Qed.
Lemma set_parameters_ok p r : blen p = SYS_PARAM_SIZE → blen r = FLASH_REC_SIZE →
  blen (set_parameters p r) = FLASH_REC_SIZE ∧ rec_parameters (set_parameters p r) = p ∧
  next_count (-1) (set_parameters p r) = next_count (-1) r ∧
  rec_partition_num (set_parameters p r) = rec_partition_num r.
Proof.
  intros Hp Hl. unfold set_parameters, next_count, rec_parameters, rec_modify_count, rec_partition_num, u16_at.
  unfold FLASH_REC_SIZE, SYS_PARAM_SIZE in *.
  rewrite blen_splice, slice_splice_same, !slice_splice_disj by lia. done.
Qed.
End record.

Lemma factory_default_ok : blen factory_default = SYS_PARAM_SIZE ∧ bytes_ok factory_default.
Proof. split; [|apply bytes_ok_b]; vm_compute; reflexivity. Qed.
Lemma zero_rec_ok : blen zero_rec = FLASH_REC_SIZE ∧ bytes_ok zero_rec.
Proof. split; [|apply bytes_ok_b]; vm_compute; reflexivity. Qed.
(** Conversion never has to look inside the two constant blocks. *)
#[global] Strategy opaque [factory_default zero_rec zero_params].

(** ** Writing the record *)

Section write_record.
Context {F : Type} `{FlashDevOk F}.
Variable area : param_area.
Implicit Types (s : pst F) (f : F).

(** Two partitions and a restore sector inside the flash, all apart. *)
Definition area_ok : Prop :=
  fd_lo <= PARAM1 area ∧ PARAM1 area + FLASH_REC_SIZE <= fd_hi ∧
  fd_lo <= PARAM2 area ∧ PARAM2 area + FLASH_REC_SIZE <= fd_hi ∧
  (PARAM1 area + FLASH_REC_SIZE <= PARAM2 area ∨ PARAM2 area + FLASH_REC_SIZE <= PARAM1 area) ∧
  let r := PARAM_RESTORE area / 4096 in
  fd_lo <= r * 4096 ∧ r * 4096 + 4096 <= fd_hi ∧
  (PARAM1 area + FLASH_REC_SIZE <= r * 4096 ∨ r * 4096 + 4096 <= PARAM1 area) ∧
  (PARAM2 area + FLASH_REC_SIZE <= r * 4096 ∨ r * 4096 + 4096 <= PARAM2 area).

(** What a partition of the flash holds. *)
Definition part f (i : Z) : list Z := fd_bytes f (partition_addr area i) FLASH_REC_SIZE.

Lemma FLASH_REC_SIZE_eq : FLASH_REC_SIZE = 828. Proof. done. Qed.
Lemma partition_in_flash i : area_ok →
  fd_lo <= partition_addr area i ∧ partition_addr area i + FLASH_REC_SIZE <= fd_hi.
Proof. intros Ha. unfold partition_addr. unfold area_ok in Ha. case_if; lia. Qed.
Lemma partitions_apart i j : area_ok → (i =? 0) ≠ (j =? 0) →
  partition_addr area i + FLASH_REC_SIZE <= partition_addr area j ∨
  partition_addr area j + FLASH_REC_SIZE <= partition_addr area i.
Proof.
  intros Ha Hij. unfold partition_addr. unfold area_ok in Ha.
  destruct (i =? 0), (j =? 0); try done; lia.
Qed.
Lemma blen_part f i : blen (part f i) = FLASH_REC_SIZE.
Proof. by apply blen_fd. Qed.
Lemma bytes_ok_part f i : bytes_ok (part f i).
Proof. apply bytes_ok_fd. Qed.
Lemma part_eq f i j : (i =? 0) = (j =? 0) → part f i = part f j.
Proof. intros E. unfold part, partition_addr. by rewrite E. Qed.

(** The flash after a write of [r] to the partition [i]. *)
Definition part_written f f' (i : Z) (r : list Z) : Prop :=
  ∀ j, part f' j = if Bool.eqb (i =? 0) (j =? 0) then r else part f j.

Lemma part_written_intro f f' i r : area_ok → blen r = FLASH_REC_SIZE → bytes_ok r →
  (∀ x, fd_lo <= x < fd_hi → fd_mem f' x =
     if (partition_addr area i <=? x) && (x <? partition_addr area i + FLASH_REC_SIZE)
     then default 0 (byte_at r (x - partition_addr area i)) else fd_mem f x) →
  part_written f f' i r.
Proof.
  intros Ha Hl Hok Hm j. pose proof (partition_in_flash j Ha) as [Hj1 Hj2].
  unfold part. case_if.
  - apply Bool.eqb_prop in E.
    assert (partition_addr area j = partition_addr area i) as Hij
      by (unfold partition_addr; by rewrite E).
    rewrite <- Hl at 1. apply fd_bytes_eq. intros k Hk. rewrite Hm by lia.
    replace ((_ <=? _) && _)%bool with true by lia.
    replace (partition_addr area j + k - partition_addr area i) with k by lia.
    destruct (byte_at_is_Some r k Hk) as [v Hv]. by rewrite Hv.
  - apply Bool.eqb_false_iff in E. pose proof (partitions_apart i j Ha E) as Hap.
    apply fd_bytes_ext. intros x Hx. rewrite Hm by lia.
    by replace ((_ <=? _) && _)%bool with false by lia.
Qed.

Lemma wp_on_fl {A} (m : M F A) (P : A → F → Prop) (Q : A → pst F → Prop) s :
  wp m P (fl s) → (∀ a f', P a f' → Q a (set_fl f' s)) → wp (on_fl m) Q s.
Proof. intros Hm HQ. apply wp_lift. by eapply wp_mono. Qed.

Lemma wp_palloc n (Q : option (list Z) → pst F → Prop) s :
  php s O ≠ None → (∀ c, blen c = Z.max 0 n → bytes_ok c → Q (Some c) (set_php (λ k, php s (S k)) s)) →
  wp (palloc n) Q s.
Proof.
  intros Hh HQ. apply wp_lift. unfold malloc, wp. destruct (php s O) as [junk|]; [|done]. apply HQ.
  - unfold blen. rewrite length_fmap, length_seqZ. lia.
  - apply bytes_ok_fmap. intros i. apply u8_range.
Qed.

Lemma flash_mem_splice buf f i : blen buf = FLASH_REC_SIZE →
  splice buf 0 (fd_mem f <$> seqZ (partition_addr area i) FLASH_REC_SIZE) = part f i.
Proof. intros Hl. rewrite splice_all; [done|]. by rewrite blen_fmap_seqZ, Hl. Qed.

(** [param_to_flash]: the member is copied to the record, the record sealed,
    written to its partition and read back. *)
Lemma wp_param_to_flash id mc pn s dest (Q : Z → pst F → Prop) :
  area_ok → fd_ok (fl s) → php s O ≠ None → -1 <= id < TLS_PARAM_ID_MAX →
  blen (flash_param s) = FLASH_REC_SIZE → bytes_ok (flash_param s) →
  flash_switch id (sram_param s) (rec_parameters (flash_param s)) = Some (Some dest) →
  blen dest = SYS_PARAM_SIZE → bytes_ok dest →
  (∀ r f', let s' := set_fl f' (set_php (λ k, php s (S k)) (set_flash_param r s)) in
     valid_rec r → rec_parameters r = dest →
     rec_modify_count r = next_count mc (set_parameters dest (flash_param s)) →
     rec_partition_num r = next_partition pn (set_parameters dest (flash_param s)) →
     fd_ok f' → part_written (fl s) f' (rec_partition_num r) r →
     Q TLS_PARAM_STATUS_OK s') →
  wp (param_to_flash area id mc pn) Q s.
Proof.
  intros Ha Hf Hh Hid Hl Hok Hsw Hdl Hdok HQ. unfold param_to_flash, TLS_PARAM_ID_ALL.
  replace ((id <? -1) || (TLS_PARAM_ID_MAX <=? id))%bool with false by lia.
  wp_steps. rewrite Hsw.
  destruct (set_parameters_ok dest (flash_param s) Hdl Hl) as (Hl' & Hpar & _).
  destruct (seal_ok mc pn (set_parameters dest (flash_param s)) Hl') as (r & Hseal & Hv & Hp & Hc & Hn);
    [by apply bytes_ok_set_parameters|].
  wp_step. eapply wp_of_opt; [done|]. rewrite Hseal. wp_step. eapply wp_of_opt; [done|].
  wp_steps. set (a := partition_addr area (rec_partition_num r)).
  pose proof (partition_in_flash (rec_partition_num r) Ha) as [Hlo Hhi].
  destruct Hv as (Hrl & Hrok & Hv').
  eapply wp_on_fl; [apply fls_write_ok; try done; rewrite Hrl, FLASH_REC_SIZE_eq; lia|].
  intros e f1 (-> & Hf1 & Hm1).
  assert (part_written (fl s) f1 (rec_partition_num r) r) as Hpw by by apply part_written_intro.
  change (negb (0 =? 0)) with false. cbv iota. wp_step. unfold param_flash_verify.
  wp_step. apply wp_palloc; [done|]. intros c Hcl _. change (Z.max 0 FLASH_REC_SIZE) with 828 in Hcl.
  wp_step. eapply wp_on_fl; [apply fls_read_ok; try done; rewrite ?Hcl, FLASH_REC_SIZE_eq; lia|].
  intros b f2 (-> & Hf2 & Hm2). change (negb (0 =? 0)) with false. cbv iota.
  cbn [fl set_php set_fl set_flash_param]. unfold a.
  rewrite flash_mem_splice by (by rewrite FLASH_REC_SIZE_eq).
  rewrite Hpw, Bool.eqb_reflx. rewrite bool_decide_eq_true_2 by done.
  apply wp_ret. change (1 =? 1) with true. cbv iota. apply wp_ret.
  apply (HQ r f2); try done; [by rewrite Hp|].
  intros j. rewrite <- Hpw. apply fd_bytes_ext. intros x Hx. apply Hm2.
  pose proof (partition_in_flash j Ha). lia.
Qed.
End write_record.

(** ** The start-up scan *)

Section init.
Context {F : Type} `{FlashDevOk F}.
Variable area : param_area.
Hypothesis Harea : area_ok area.
Implicit Types (s : pst F) (f : F) (r : list Z).
Local Abbreviation part := (part area).

(** Loading a record that is newer than the one at hand. *)
Definition load r s : pst F :=
  if (rec_magic (flash_param s) =? 0) || (rec_modify_count (flash_param s) <? rec_modify_count r)
  then set_sram_param (rec_parameters r) (set_flash_param r s) else s.

Lemma scan_record_damaged i sc s : blen (sc_flash sc) = FLASH_REC_SIZE →
  damaged_rec (sc_flash sc) → scan_record i sc s = Some (damage i sc, s).
Proof.
  intros Hl [Hm|[Hlen Hcrc]]; unfold scan_record.
  - rewrite (proj2 (Z.eqb_neq _ _) Hm). done.
  - case_if; [done|]. unfold bind, of_opt. rewrite Hlen.
    destruct (get_crc32_total (sc_flash sc) (FLASH_REC_SIZE - 4)) as (c & Hc & _);
      [rewrite Hl, FLASH_REC_SIZE_eq; lia|].
    rewrite Hc in *. unfold rec_crc_at_length. rewrite Hlen, Hl, FLASH_REC_SIZE_eq.
    change ((0 <=? 828 - 4) && (828 - 4 + 4 <=? 828))%bool with true. cbv iota beta.
    change (u32_at (sc_flash sc) (828 - 4)) with (rec_crc32 (sc_flash sc)).
    destruct (Z.eqb_spec c (rec_crc32 (sc_flash sc))) as [->|]; [by destruct Hcrc|done].
Qed.

Lemma scan_record_valid i sc s : valid_rec (sc_flash sc) →
  blen (flash_param s) = FLASH_REC_SIZE →
  scan_record i sc s =
    Some (mk_scan zero_rec (sc_damaged sc) (sc_is_damage sc) (sc_tryrestore sc),
          load (sc_flash sc) s).
Proof.
  intros (Hl & Hok & Hm & Hlen & Hcrc) Hcur. unfold scan_record, load.
  rewrite Hm, Z.eqb_refl. cbn [negb]. cbv iota beta. unfold bind, of_opt. rewrite Hlen, Hcrc.
  unfold rec_crc_at_length. rewrite Hlen, Hl, FLASH_REC_SIZE_eq.
  change ((0 <=? 828 - 4) && (828 - 4 + 4 <=? 828))%bool with true. cbv iota beta.
  change (u32_at (sc_flash sc) (828 - 4)) with (rec_crc32 (sc_flash sc)).
  rewrite Z.eqb_refl. cbn [negb]. cbv iota beta. unfold gets. case_if; [|done].
  change (828 =? 828) with true. cbn [negb]. cbv iota beta. unfold bind.
  rewrite memcpy_Some by (rewrite ?Hcur, ?Hl, ?FLASH_REC_SIZE_eq; lia).
  rewrite slice_all by (rewrite Hl; done). rewrite splice_all by congruence. done.
Qed.

Definition same_parts f f' : Prop := fd_ok f' ∧ ∀ j, part f' j = part f j.
Lemma same_parts_trans f1 f2 f3 : same_parts f1 f2 → same_parts f2 f3 → same_parts f1 f3.
Proof. intros [_ H1] [? H2]. split; [done|]. intros j. by rewrite H2. Qed.

(** One round of the scan: the partition is read into the buffer. *)
Lemma wp_scan_round fuel i sc s Q : fd_ok (fl s) → blen (sc_flash sc) = FLASH_REC_SIZE → 0 <= i < 2 →
  (∀ f', same_parts (fl s) f' →
    wp (let* sc := scan_record i (mk_scan (part (fl s) i) (sc_damaged sc) (sc_is_damage sc)
                                   (sc_tryrestore sc)) in
        if negb (sc_tryrestore sc) && (2 <=? sc_damaged sc) then
          modify (set_flash_param zero_rec) ;;
          modify (set_sram_param zero_params) ;;
          on_fl (fls_erase (PARAM_RESTORE area / 4096)) ;;
          scan_loop area fuel 0 (mk_scan (sc_flash sc) 0 (false, false) true)
        else scan_loop area fuel (i + 1) sc)%C Q (set_fl f' s)) →
  wp (scan_loop area (S fuel) i sc) Q s.
Proof.
  intros Hf Hl Hi HQ. cbn [scan_loop]. replace (2 <=? i) with false by lia.
  pose proof (partition_in_flash area i Harea) as [Hlo Hhi]. wp_step.
  eapply wp_on_fl; [apply fls_read_ok; try done; rewrite ?Hl, FLASH_REC_SIZE_eq in *; lia|].
  intros b f' (-> & Hf' & Hm). rewrite flash_mem_splice by done. apply HQ. split; [done|].
  intros j. apply fd_bytes_ext. intros x Hx. apply Hm. pose proof (partition_in_flash area j Harea). lia.
Qed.

(** The scan when not both partitions are damaged. *)
Definition scan_result (d0 d1 : bool) (p0 p1 : list Z) s : pst F :=
  let s := if d0 then s else load p0 s in if d1 then s else load p1 s.

Definition sorted_part (d : bool) r : Prop := if d then damaged_rec r else valid_rec r.

Lemma load_fl r s f' : load r (set_fl f' s) = set_fl f' (load r s).
Proof. unfold load. cbn [flash_param set_fl]. by case_if. Qed.
Lemma load_blen r s : blen r = FLASH_REC_SIZE → blen (flash_param s) = FLASH_REC_SIZE →
  blen (flash_param (load r s)) = FLASH_REC_SIZE.
Proof. intros. unfold load. by case_if. Qed.
Lemma load_fl_eq r s : fl (load r s) = fl s.
Proof. unfold load. by case_if. Qed.

Lemma wp_scan_two fuel sc s d0 d1 (Q : scan → pst F → Prop) :
  fd_ok (fl s) → blen (sc_flash sc) = FLASH_REC_SIZE → blen (flash_param s) = FLASH_REC_SIZE →
  sc_damaged sc = 0 → sc_is_damage sc = (false, false) → negb (d0 && d1) || sc_tryrestore sc = true →
  sorted_part d0 (part (fl s) 0) → sorted_part d1 (part (fl s) 1) →
  (∀ f' sc', same_parts (fl s) f' → sc_damaged sc' = (if d0 then 1 else 0) + (if d1 then 1 else 0) →
     sc_is_damage sc' = (d0, d1) →
     Q sc' (set_fl f' (scan_result d0 d1 (part (fl s) 0) (part (fl s) 1) s))) →
  wp (scan_loop area (S (S fuel)) 0 sc) Q s.
Proof.
  intros Hf Hl Hfl Hd Hi Hnr H0 H1 HQ. destruct sc as [buf dam isd tr]. cbn [sc_damaged sc_is_damage sc_flash sc_tryrestore] in *. subst dam isd.
  apply wp_scan_round; [done|done|lia|]. intros f1 [Hf1 Hp1]. cbn [sc_damaged sc_is_damage sc_tryrestore].
  assert (∃ b0, blen b0 = FLASH_REC_SIZE ∧
    scan_record 0 (mk_scan (part (fl s) 0) 0 (false, false) tr) (set_fl f1 s) =
    Some (mk_scan b0 (if d0 then 1 else 0) (d0, false) tr,
          set_fl f1 (if d0 then s else load (part (fl s) 0) s))) as (b0 & Hb0 & Hrun0).
  { destruct d0.
    - eexists. split; [apply blen_part|]. by rewrite scan_record_damaged; [|apply blen_part|].
    - exists zero_rec. split; [done|]. rewrite scan_record_valid by done.
      cbn [sc_flash]. by rewrite load_fl. }
  eapply wp_run; [exact Hrun0|]. cbn [sc_damaged sc_tryrestore].
  replace (negb tr && (2 <=? (if d0 then 1 else 0)))%bool with false by (destruct d0, tr; done).
  set (s1 := if d0 then s else load (part (fl s) 0) s) in *.
  assert (fl s1 = fl s) as Hfl1 by (unfold s1; destruct d0; [done|apply load_fl_eq]).
  assert (blen (flash_param s1) = FLASH_REC_SIZE) as Hl1
    by (unfold s1; destruct d0; [done|apply load_blen; [apply blen_part|done]]).
  apply wp_scan_round; [done|done|lia|]. intros f2 [Hf2 Hp2]. cbn [sc_damaged sc_is_damage sc_tryrestore fl set_fl].
  rewrite Hp1.
  assert (∃ b1, scan_record (0 + 1) (mk_scan (part (fl s) 1) (if d0 then 1 else 0) (d0, false) tr)
      (set_fl f2 (set_fl f1 s1)) =
    Some (mk_scan b1 ((if d0 then 1 else 0) + (if d1 then 1 else 0)) (d0, d1) tr,
          set_fl f2 (if d1 then s1 else load (part (fl s) 1) s1))) as (b1 & Hrun1).
  { destruct d1.
    - eexists. rewrite scan_record_damaged; [done|apply blen_part|done].
    - exists zero_rec. rewrite scan_record_valid by done. cbn [sc_flash sc_damaged sc_is_damage sc_tryrestore].
      rewrite !load_fl, Z.add_0_r. done. }
  eapply wp_run; [exact Hrun1|]. cbn [sc_damaged sc_tryrestore].
  replace (negb tr && (2 <=? (if d0 then 1 else 0) + (if d1 then 1 else 0)))%bool with false
    by (destruct d0, d1, tr; done).
  destruct fuel; cbn [scan_loop]; apply wp_ret; apply HQ; try done;
    (split; [done|]; intros j; by rewrite Hp2, Hp1).
Qed.
End init.

(** ** What the three [switch] statements agree on *)

(** The members of fixed size and their identifiers. *)
Definition member_ids : list (Z * field) := [
  (TLS_PARAM_ID_SSID, F_ssid);
  (TLS_PARAM_ID_ENCRY, F_encry);
  (TLS_PARAM_ID_KEY, F_key);
  (TLS_PARAM_ID_IP, F_ipcfg);
  (TLS_PARAM_ID_AUTOMODE, F_auto_mode);
  (TLS_PARAM_ID_DEFSOCKET, F_remote_socket_cfg);
  (TLS_PARAM_ID_BSSID, F_bssid);
  (TLS_PARAM_ID_CHANNEL, F_channel);
  (TLS_PARAM_ID_CHANNEL_LIST, F_channellist);
  (TLS_PARAM_ID_CHANNEL_EN, F_channel_enable);
  (TLS_PARAM_ID_COUNTRY_REGION, F_wireless_region);
  (TLS_PARAM_ID_WPROTOCOL, F_wireless_protocol);
  (TLS_PARAM_ID_ADHOC_AUTOCREATE, F_auto_create_adhoc);
  (TLS_PARAM_ID_ROAMING, F_auto_roam);
  (TLS_PARAM_ID_AUTO_RETRY_CNT, F_auto_retrycnt);
  (TLS_PARAM_ID_WBGR, F_wbgr);
  (TLS_PARAM_ID_USRINTF, F_user_port_mode);
  (TLS_PARAM_ID_AUTO_TRIGGER_LENGTH, F_transparent_trigger_length);
  (TLS_PARAM_ID_AUTO_TRIGGER_PERIOD, F_transparent_trigger_period);
  (TLS_PARAM_ID_ESCAPE_CHAR, F_EscapeChar);
  (TLS_PARAM_ID_ESCAPE_PERIOD, F_EscapePeriod);
  (TLS_PARAM_ID_IO_MODE, F_IoMode);
  (TLS_PARAM_ID_CMD_MODE, F_CmdMode);
  (TLS_PARAM_ID_PASSWORD, F_PassWord);
  (TLS_PARAM_ID_WEBS_CONFIG, F_WebsCfg);
  (TLS_PARAM_ID_DEBUG_MODE, F_debug_mode);
  (TLS_PARAM_ID_HARDVERSION, F_hardware_version);
  (TLS_PARAM_ID_BRDSSID, F_ssid_broadcast_enable);
  (TLS_PARAM_ID_PSM, F_auto_powersave);
  (TLS_PARAM_ID_ORAY_CLIENT, F_oray_client_setting);
  (TLS_PARAM_ID_UPNP, F_upnp_enable);
  (TLS_PARAM_ID_UART, F_uart_cfg);
  (TLS_PARAM_ID_ONESHOT_CFG, F_oneshotflag);
  (TLS_PARAM_ID_SHA1, F_psk);
  (TLS_PARAM_ID_ORIGIN_KEY, F_original_key);
  (TLS_PARAM_ID_ORIGIN_SSID, F_original_ssid);
  (TLS_PARAM_ID_AUTO_RECONNECT, F_auto_reconnect);
  (TLS_PARAM_ID_QUICK_CONNECT, F_quick_connect);
  (TLS_PARAM_ID_KEY_CHANGE, F_key_changed);
  (TLS_PARAM_ID_SSID_CHANGE, F_ssid_changed);
  (TLS_PARAM_ID_SOFTAP_SSID, F_apsta_ssid);
  (TLS_PARAM_ID_SOFTAP_PSK, F_apsta_psk);
  (TLS_PARAM_ID_SOFTAP_ENCRY, F_encry4softap);
  (TLS_PARAM_ID_SOFTAP_KEY, F_key4softap);
  (TLS_PARAM_ID_SOFTAP_IP, F_ipcfg4softap);
  (TLS_PARAM_ID_SOFTAP_CHANNEL, F_channel4softap);
  (TLS_PARAM_ID_SOFTAP_WBGR, F_wbgr4softap);
  (TLS_PARAM_ID_TEM_OFFSET, F_params_tem)].
(** The members that hold a string. *)
Definition string_ids : list (Z * field) := [
  (TLS_PARAM_ID_DNSNAME, F_local_dnsname);
  (TLS_PARAM_ID_DEVNAME, F_local_device_name);
  (TLS_PARAM_ID_SNTP_SERVER1, F_sntp_service1);
  (TLS_PARAM_ID_SNTP_SERVER2, F_sntp_service2);
  (TLS_PARAM_ID_SNTP_SERVER3, F_sntp_service3)].

Lemma member_switches id f a b : (id, f) ∈ member_ids →
  set_switch id a b = Some (set_member f a b) ∧ get_switch id a b = Some (get_member f a b) ∧
  (id ≠ TLS_PARAM_ID_AUTO_TRIGGER_PERIOD → flash_switch id a b = Some (copy_member f a b)) ∧
  0 <= id < TLS_PARAM_ID_MAX.
Proof.
  intros Hin. revert id f Hin.
  assert (Forall (λ p : Z * field, set_switch p.1 a b = Some (set_member p.2 a b) ∧
    get_switch p.1 a b = Some (get_member p.2 a b) ∧
    (p.1 ≠ TLS_PARAM_ID_AUTO_TRIGGER_PERIOD → flash_switch p.1 a b = Some (copy_member p.2 a b)) ∧
    0 <= p.1 < TLS_PARAM_ID_MAX) member_ids) as Hall.
  { repeat (apply Forall_cons_2; [split; [reflexivity|split; [reflexivity|split;
      [try reflexivity; by intros []|vm_compute; split; [discriminate|reflexivity]]]]|]).
    apply Forall_nil_2. }
  intros id f Hin. rewrite List.Forall_forall in Hall. apply (Hall (id, f)). by apply list_elem_of_In.
Qed.

(** ** Reading and setting members *)

Section members.
Implicit Types p a : list Z.

Lemma set_member_Some f a p : blen p = SYS_PARAM_SIZE → size f <= blen a →
  set_member f a p = Some (splice p (off f) (slice a 0 (size f))).
Proof.
  intros Hp Ha. pose proof (field_bounds f). unfold set_member. by rewrite memcpy_Some by lia.
Qed.
Lemma copy_member_Some f src dest : blen src = SYS_PARAM_SIZE → blen dest = SYS_PARAM_SIZE →
  copy_member f src dest = Some (splice dest (off f) (slice src (off f) (size f))).
Proof.
  intros Hp Ha. pose proof (field_bounds f). unfold copy_member. by rewrite memcpy_Some by lia.
Qed.
Lemma get_member_Some f src a : blen src = SYS_PARAM_SIZE → size f <= blen a →
  get_member f src a = Some (splice a 0 (slice src (off f) (size f))).
Proof.
  intros Hp Ha. pose proof (field_bounds f). unfold get_member. by rewrite memcpy_Some by lia.
Qed.
(** A member of the block after another (or the same) is set. *)
Lemma member_after_set f g a p : blen p = SYS_PARAM_SIZE → size f <= blen a →
  slice (splice p (off f) (slice a 0 (size f))) (off g) (size g) =
    if decide (g = f) then slice a 0 (size f) else slice p (off g) (size g).
Proof.
  intros Hp Ha. pose proof (field_bounds f). pose proof (field_bounds g).
  assert (blen (slice a 0 (size f)) = size f) as Hl by (apply blen_slice; lia).
  destruct (decide (g = f)) as [->|Hne].
  - rewrite slice_splice_same by lia. done.
  - pose proof (field_disjoint g f Hne). by rewrite slice_splice_disj by lia.
Qed.
End members.

(** Both calls for a member of fixed size. *)
Lemma param_set_ram {F} `{!FlashDev F} area id f argv (s : pst F) :
  (id, f) ∈ member_ids → size f <= blen argv → blen (sram_param s) = SYS_PARAM_SIZE →
  sys_param_lock s = Some 1 → updp_mode s = 0 →
  tls_param_set area id (Some argv) false s = Some (TLS_PARAM_STATUS_OK,
    set_sram_param (splice (sram_param s) (off f) (slice argv 0 (size f))) s).
Proof.
  intros Hid Ha Hp Hlock Hupd.
  destruct (member_switches id f argv (sram_param s) Hid) as (Hset & _ & _ & Hrange).
  unfold tls_param_set, TLS_PARAM_ID_ALL.
  replace ((id <? -1) || (TLS_PARAM_ID_MAX <=? id))%bool with false by lia.
  unfold bind, gets. rewrite Hupd. change (truth 0) with false. cbv beta iota.
  rewrite Hset, set_member_Some by done.
  unfold param_lock, param_unlock, bind, gets, modify, of_opt. rewrite Hlock.
  change (0 <? 1) with true. destruct s; cbn in *. by subst.
Qed.
Lemma param_get_eq {F} id f argv (from_flash : bool) (s : pst F) : (id, f) ∈ member_ids → size f <= blen argv →
  let src := if from_flash then rec_parameters (flash_param s) else sram_param s in
  blen src = SYS_PARAM_SIZE → sys_param_lock s = Some 1 →
  tls_param_get id argv from_flash s =
    Some (TLS_PARAM_STATUS_OK, splice argv 0 (slice src (off f) (size f)), s).
Proof.
  intros Hid Ha src Hp Hlock. destruct (member_switches id f src argv Hid) as (_ & Hget & _ & Hrange).
  unfold tls_param_get, TLS_PARAM_ID_ALL.
  replace ((id <? -1) || (TLS_PARAM_ID_MAX <=? id))%bool with false by lia.
  unfold bind, gets. cbv beta iota. fold src. rewrite Hget, get_member_Some by done.
  unfold param_lock, param_unlock, bind, gets, modify, of_opt.
  rewrite Hlock. change (0 <? 1) with true. destruct s; cbn in *. by subst.
Qed.

(** C5: setting a member of fixed size makes every later read of it answer
    the value, changes no other member and no other state, and frees the
    lock: [tls_param_set] and [tls_param_get] implement independent
    variables, whatever the identifiers. *)
Theorem tls_param_set_get {F} `{!FlashDev F} area id f argv (s : pst F) :
  (id, f) ∈ member_ids → size f <= blen argv → blen (sram_param s) = SYS_PARAM_SIZE →
  sys_param_lock s = Some 1 → updp_mode s = 0 →
  ∃ s', tls_param_set area id (Some argv) false s = Some (TLS_PARAM_STATUS_OK, s') ∧
    s' = set_sram_param (sram_param s') s ∧ blen (sram_param s') = SYS_PARAM_SIZE ∧
    ∀ id' f' buf, (id', f') ∈ member_ids → size f' <= blen buf →
      tls_param_get id' buf false s' = Some (TLS_PARAM_STATUS_OK,
        splice buf 0 (if decide (f' = f) then slice argv 0 (size f)
                      else slice (sram_param s) (off f') (size f')), s').
Proof.
  intros Hid Ha Hp Hlock Hupd. pose proof (field_bounds f) as Hb.
  exists (set_sram_param (splice (sram_param s) (off f) (slice argv 0 (size f))) s).
  assert (blen (splice (sram_param s) (off f) (slice argv 0 (size f))) = SYS_PARAM_SIZE) as Hp'.
  { rewrite blen_splice; [done|lia|]. rewrite blen_slice; lia. }
  split; [by apply param_set_ram|]. do 2 (split; [done|]). intros id' f' buf Hid' Hbuf.
  rewrite <- (member_after_set f f' argv (sram_param s) Hp Ha). by apply (param_get_eq id' f').
Qed.

(** ** The store across updates and restarts *)

Section stored.
Context {F : Type} `{FlashDevOk F}.
Variable area : param_area.
Hypothesis Harea : area_ok area.
Implicit Types (s : pst F) (f : F) (r : list Z).
Local Abbreviation part := (part area).

Definition mem_left s : Prop := ∀ k, php s k ≠ None.
(** The partition a record is not in. *)
Definition other (n : Z) : Z := Z.land (n + 1) 1.

(** [stored s]: the store is initialised, its shadow is the record of one
    partition, and the other partition holds nothing newer. *)
Definition stored s : Prop :=
  let r := flash_param s in
  fd_ok (fl s) ∧ mem_left s ∧ sys_param_lock s = Some 1 ∧ updp_mode s = 0 ∧
  blen (sram_param s) = SYS_PARAM_SIZE ∧ bytes_ok (sram_param s) ∧
  valid_rec r ∧ (rec_partition_num r = 0 ∨ rec_partition_num r = 1) ∧
  part (fl s) (rec_partition_num r) = r ∧
  (damaged_rec (part (fl s) (other (rec_partition_num r))) ∨
   valid_rec (part (fl s) (other (rec_partition_num r))) ∧
   (rec_modify_count (part (fl s) (other (rec_partition_num r))) < rec_modify_count r ∨
    rec_modify_count (part (fl s) (other (rec_partition_num r))) = rec_modify_count r ∧
    rec_parameters (part (fl s) (other (rec_partition_num r))) = rec_parameters r)).

(** A restart with the flash [f]: the C start-up code clears the statics. *)
Definition reboot f (h : heap) (u : list Z) : pst F := mk_pst f h zero_rec zero_params u None 0.

Lemma count_range r : blen r = FLASH_REC_SIZE → bytes_ok r → is_u16 (rec_modify_count r).
Proof.
  intros Hl Hok. apply of_le_range2; [by apply bytes_ok_slice|].
  apply blen_slice; rewrite ?Hl, ?FLASH_REC_SIZE_eq; lia.
Qed.
Lemma load_zero r s : flash_param s = zero_rec →
  load r s = set_sram_param (rec_parameters r) (set_flash_param r s).
Proof. intros Hz. unfold load. rewrite Hz. by replace (rec_magic zero_rec =? 0) with true by done. Qed.
Lemma load_load r1 r2 s : valid_rec r1 → flash_param s = zero_rec →
  load r2 (load r1 s) =
    let r := if rec_modify_count r1 <? rec_modify_count r2 then r2 else r1 in
    set_sram_param (rec_parameters r) (set_flash_param r s).
Proof.
  intros (_ & _ & Hm & _) Hz. rewrite (load_zero r1 s Hz). unfold load.
  cbn [flash_param set_sram_param set_flash_param]. rewrite Hm.
  change (TLS_PARAM_MAGIC =? 0) with false. cbn [orb]. by case_if.
Qed.

(** [param_to_flash(TLS_PARAM_ID_ALL, ...)]: the record takes the running
    parameters. *)
Lemma wp_write_all mc pn s (Q : Z → pst F → Prop) :
  fd_ok (fl s) → mem_left s → blen (flash_param s) = FLASH_REC_SIZE → bytes_ok (flash_param s) →
  blen (sram_param s) = SYS_PARAM_SIZE → bytes_ok (sram_param s) →
  (∀ r f', let s' := set_fl f' (set_php (λ k, php s (S k)) (set_flash_param r s)) in
     valid_rec r → rec_parameters r = sram_param s →
     rec_modify_count r = next_count mc (set_parameters (sram_param s) (flash_param s)) →
     rec_partition_num r = next_partition pn (set_parameters (sram_param s) (flash_param s)) →
     fd_ok f' → part_written area (fl s) f' (rec_partition_num r) r →
     Q TLS_PARAM_STATUS_OK s') →
  wp (param_to_flash area TLS_PARAM_ID_ALL mc pn) Q s.
Proof.
  intros Hf Hh Hl Hok Hsl Hsok HQ. apply wp_param_to_flash with (dest := sram_param s); try done.
  assert (memcpy (rec_parameters (flash_param s)) 0 (sram_param s) 0 SYS_PARAM_SIZE = Some (sram_param s))
    as Hm.
  { assert (blen (rec_parameters (flash_param s)) = SYS_PARAM_SIZE) by by apply blen_rec_parameters.
    change SYS_PARAM_SIZE with 808 in *. rewrite memcpy_Some by lia.
    rewrite slice_all by done. by rewrite splice_all by congruence. }
  rewrite <- Hm. reflexivity.
Qed.

(** The frame of [tls_param_init]: the lock, the cleared blocks, the buffer. *)
Lemma wp_init_frame s (P : Z → pst F → Prop) (Q : Z → pst F → Prop) :
  rec_magic (flash_param s) ≠ TLS_PARAM_MAGIC → php s O ≠ None →
  let s1 := set_php (λ k, php s (S k)) (set_sram_param zero_params (set_flash_param zero_rec
              (set_sys_param_lock (Some 0) s))) in
  wp (let* sc := scan_loop area 4 0 (mk_scan zero_rec 0 (false, false) false) in
      if 2 <=? sc_damaged sc then recreate area else restore_damaged area (sc_is_damage sc))%C P s1 →
  (∀ e s', P e s' → sys_param_lock s' = Some 0 ∧ Q e (set_sys_param_lock (Some 1) s')) →
  wp (tls_param_init area true) Q s.
Proof.
  intros Hm Hh s1 Hrun HQ. unfold tls_param_init. wp_steps.
  rewrite (proj2 (Z.eqb_neq _ _) Hm). cbn [negb]. wp_steps. unfold param_lock. wp_steps.
  cbn [sys_param_lock set_sys_param_lock]. change (0 <? 1) with true. cbv iota. wp_steps.
  apply wp_palloc; [done|]. intros c _ _. wp_step.
  eapply wp_mono; [exact Hrun|]. intros e s' Hs'. destruct (HQ e s' Hs') as [Hlock HQ'].
  unfold param_unlock. wp_steps. rewrite Hlock. wp_steps. exact HQ'.
Qed.

(** Restart with both partitions valid: the one with the higher count. *)
Lemma wp_init_both f h u (Q : Z → pst F → Prop) :
  fd_ok f → (∀ k, h k ≠ None) → valid_rec (part f 0) → valid_rec (part f 1) →
  (let r := if rec_modify_count (part f 0) <? rec_modify_count (part f 1) then part f 1 else part f 0 in
   ∀ f' h', same_parts area f f' → (∀ k, h' k ≠ None) →
     Q TLS_PARAM_STATUS_OK (mk_pst f' h' r (rec_parameters r) u (Some 1) 0)) →
  wp (tls_param_init area true) Q (reboot f h u).
Proof.
  intros Hf Hh H0 H1 HQ.
  eapply wp_init_frame with (P := λ e s', e = 0 ∧ ∃ f', same_parts area f f' ∧ s' =
    set_fl f' (scan_result false false (part f 0) (part f 1)
      (mk_pst f (λ k, h (S k)) zero_rec zero_params u (Some 0) 0))); [done|by cbn|..].
  - wp_step. apply (wp_scan_two area Harea 2 _ _ false false); try done.
    intros f' sc' Hs' Hd Hi. cbn [fl set_php reboot] in *. rewrite Hd, Hi.
    change (2 <=? 0 + 0) with false. cbv iota. unfold restore_damaged. cbn [fst snd].
    wp_step. apply wp_ret. change (negb (TLS_PARAM_STATUS_OK =? TLS_PARAM_STATUS_OK)) with false. cbv iota.
    wp_step. apply wp_ret. apply wp_ret. split; [done|]. by exists f'.
  - intros e s' (-> & f' & Hs' & ->). unfold scan_result.
    rewrite load_load by done. cbv zeta. split; [done|].
    apply (HQ f' (λ k, h (S k)) Hs'). intros k. apply (Hh (S k)).
Qed.

(** Restart with one valid partition [i]: its parameters, and the other
    partition is written anew. *)
Lemma wp_init_one i f h u (Q : Z → pst F → Prop) : i = 0 ∨ i = 1 →
  fd_ok f → (∀ k, h k ≠ None) → valid_rec (part f i) → damaged_rec (part f (other i)) →
  (∀ f' h' r, fd_ok f' → (∀ k, h' k ≠ None) → valid_rec r →
     rec_parameters r = rec_parameters (part f i) → rec_partition_num r = other i →
     rec_modify_count r = u16 (rec_modify_count (part f i) + 1) →
     part f' i = part f i → part f' (other i) = r →
     Q TLS_PARAM_STATUS_OK (mk_pst f' h' r (rec_parameters r) u (Some 1) 0)) →
  wp (tls_param_init area true) Q (reboot f h u).
Proof.
  intros Hi Hf Hh Hv Hd HQ. set (r0 := part f i) in *.
  set (s0 := mk_pst f (λ k, h (S k)) zero_rec zero_params u (Some 0) 0).
  assert (sorted_part (negb (i =? 0)) (part f 0) ∧ sorted_part (i =? 0) (part f 1) ∧
    scan_result (negb (i =? 0)) (i =? 0) (part f 0) (part f 1) s0 =
      set_sram_param (rec_parameters r0) (set_flash_param r0 s0)) as (H0 & H1 & Hsc).
  { unfold r0, scan_result. destruct Hi as [-> | ->]; cbn; (split; [done|split; [done|]]);
      by rewrite load_zero by done. }
  eapply wp_init_frame with (P := λ e s', e = 0 ∧ ∃ f' r, fd_ok f' ∧ valid_rec r ∧
    rec_parameters r = rec_parameters r0 ∧ rec_partition_num r = other i ∧
    rec_modify_count r = u16 (rec_modify_count r0 + 1) ∧
    part f' i = r0 ∧ part f' (other i) = r ∧
    s' = mk_pst f' (λ k, h (S (S k))) r (rec_parameters r0) u (Some 0) 0); [done|by cbn|..].
  - wp_step. apply (wp_scan_two area Harea 2 _ _ (negb (i =? 0)) (i =? 0)); try done.
    { by destruct (i =? 0). }
    intros f1 sc' [Hf1 Hp1] Hdam Hisd. cbn [fl set_php reboot] in *. rewrite Hdam, Hisd.
    replace (2 <=? _) with false by (by destruct (i =? 0)). cbv iota.
    match goal with |- context [scan_result ?a ?b ?c ?d ?s] =>
      change (scan_result a b c d s) with (scan_result a b (part f 0) (part f 1) s0) end.
    rewrite Hsc.
    set (s1 := set_fl f1 _).
    assert (wp (param_to_flash area TLS_PARAM_ID_ALL (-1) (other i)) (λ e s', e = 0 ∧ ∃ f' r,
      fd_ok f' ∧ valid_rec r ∧ rec_parameters r = rec_parameters r0 ∧ rec_partition_num r = other i ∧
      rec_modify_count r = u16 (rec_modify_count r0 + 1) ∧ part f' i = r0 ∧ part f' (other i) = r ∧
      s' = mk_pst f' (λ k, h (S (S k))) r (rec_parameters r0) u (Some 0) 0) s1) as Hw.
    { assert (blen (rec_parameters r0) = SYS_PARAM_SIZE) as Hpl by (apply blen_rec_parameters, Hv).
      assert (bytes_ok (rec_parameters r0)) as Hpok by (apply bytes_ok_slice, Hv).
      apply wp_write_all; [done|intros k; apply (Hh (S k))|apply Hv|apply Hv|done|done|].
      intros r f' s' Hrv Hrp Hrc Hrn Hf' Hpw. split; [done|]. exists f', r.
      destruct (set_parameters_ok (rec_parameters r0) r0 Hpl (proj1 Hv)) as (_ & _ & Hnc & _).
      cbn [sram_param flash_param s1 set_fl set_sram_param set_flash_param] in Hrp, Hrc, Hrn.
      rewrite Hnc in Hrc. assert (rec_partition_num r = other i) as Hrn'.
      { rewrite Hrn. destruct Hi as [-> | ->]; reflexivity. }
      do 3 (split; [done|]). split; [done|]. split; [exact Hrc|].
      split; [|split; [|done]]; rewrite Hpw, Hrn'.
      - destruct Hi as [-> | ->]; cbn; apply Hp1.
      - by rewrite Bool.eqb_reflx. }
    unfold restore_damaged. cbn [fst snd]. destruct Hi as [-> | ->]; cbn [Z.eqb negb].
    + wp_step. apply wp_ret. change (negb (TLS_PARAM_STATUS_OK =? TLS_PARAM_STATUS_OK)) with false.
      cbv iota. wp_step. eapply wp_mono; [exact Hw|]. intros e s' (-> & Hs'). apply wp_ret. exact (conj eq_refl Hs').
    + wp_step. eapply wp_mono; [exact Hw|]. intros e s' (-> & Hs').
      change (negb (0 =? TLS_PARAM_STATUS_OK)) with false. cbv iota.
      wp_step. apply wp_ret. apply wp_ret. exact (conj eq_refl Hs').
  - intros e s' (-> & f' & r & Hf' & Hrv & Hrp & Hrn & Hrc & Hpi & Hpo & ->). split; [done|].
    cbn [set_sys_param_lock]. rewrite <- Hrp. apply HQ; try done. intros k. apply (Hh (S (S k))).
Qed.

Lemma other_other i : i = 0 ∨ i = 1 → other (other i) = i.
Proof. by intros [-> | ->]. Qed.
Lemma other_range i : i = 0 ∨ i = 1 → other i = 0 ∨ other i = 1.
Proof. intros [-> | ->]; [by right|by left]. Qed.
Lemma part_written_other f f' i r : i = 0 ∨ i = 1 → part_written area f f' i r →
  part f' i = r ∧ part f' (other i) = part f (other i).
Proof. intros Hi Hw. rewrite !Hw. by destruct Hi as [-> | ->]. Qed.

(** Setting a member for good: the running block and the record take the
    value, and the record goes to the partition not in use. *)
Lemma wp_set_flash id fd argv s (Q : Z → pst F → Prop) :
  stored s → (id, fd) ∈ member_ids → id ≠ TLS_PARAM_ID_AUTO_TRIGGER_PERIOD →
  size fd <= blen argv → bytes_ok argv →
  (∀ r f' h', valid_rec r → (∀ k, h' k ≠ None) →
     rec_parameters r = splice (rec_parameters (flash_param s)) (off fd) (slice argv 0 (size fd)) →
     rec_modify_count r = u16 (rec_modify_count (flash_param s) + 1) →
     rec_partition_num r = other (rec_partition_num (flash_param s)) →
     fd_ok f' → part_written area (fl s) f' (rec_partition_num r) r →
     Q TLS_PARAM_STATUS_OK (mk_pst f' h' r
       (splice (sram_param s) (off fd) (slice argv 0 (size fd))) (user_default_param s) (Some 1) 0)) →
  wp (tls_param_set area id (Some argv) true) Q s.
Proof.
  intros (Hf & Hh & Hlock & Hupd & Hsl & Hsok & Hv & _) Hid Hne Ha Hok HQ.
  pose proof (field_bounds fd) as Hb.
  destruct (member_switches id fd argv (sram_param s) Hid) as (Hset & _ & _ & Hrange).
  unfold tls_param_set, TLS_PARAM_ID_ALL.
  replace ((id <? -1) || (TLS_PARAM_ID_MAX <=? id))%bool with false by lia.
  wp_steps. rewrite Hupd. change (truth 0) with false. cbv iota.
  unfold param_lock. wp_steps. rewrite Hlock. change (0 <? 1) with true. cbv iota. wp_steps.
  rewrite Hset, set_member_Some by done.
  set (v := slice argv 0 (size fd)). set (p' := splice (sram_param s) (off fd) v).
  assert (blen v = size fd) as Hvl by (apply blen_slice; lia).
  assert (blen p' = SYS_PARAM_SIZE) as Hp' by (unfold p'; rewrite blen_splice; lia).
  assert (bytes_ok p') as Hpok by (apply bytes_ok_splice; [done|by apply bytes_ok_slice]).
  wp_step. eapply wp_of_opt; [done|]. wp_steps. change (true && negb false)%bool with true. cbv iota.
  destruct (member_switches id fd p' (rec_parameters (flash_param s)) Hid) as (_ & _ & Hfs & _).
  pose proof (blen_rec_parameters (flash_param s) (proj1 Hv)) as Hrl.
  set (dest := splice (rec_parameters (flash_param s)) (off fd) v).
  assert (copy_member fd p' (rec_parameters (flash_param s)) = Some dest) as Hcopy.
  { rewrite copy_member_Some by done. unfold p'. by rewrite slice_splice_same by lia. }
  assert (blen dest = SYS_PARAM_SIZE) as Hdl by (unfold dest; rewrite blen_splice; lia).
  apply wp_param_to_flash with (dest := dest); try done.
  - cbn. apply (Hh O).
  - lia.
  - apply Hv.
  - apply Hv.
  - cbn [sram_param flash_param set_sram_param set_sys_param_lock]. by rewrite Hfs, Hcopy.
  - apply bytes_ok_splice; [apply bytes_ok_slice, Hv|by apply bytes_ok_slice].
  - intros r f' s' Hrv Hrp Hrc Hrn Hf' Hpw.
    cbn [flash_param set_sram_param set_sys_param_lock] in Hrc, Hrn.
    destruct (set_parameters_ok dest (flash_param s) Hdl (proj1 Hv)) as (_ & _ & Hnc & Hpn).
    rewrite Hnc in Hrc. unfold next_partition in Hrn. rewrite Hpn in Hrn.
    unfold param_unlock. wp_steps. cbn [sys_param_lock s' set_fl set_php set_flash_param set_sram_param set_sys_param_lock].
    wp_steps. subst s'.
    match goal with |- Q _ ?x => replace x with
      (mk_pst f' (λ k, php s (S k)) r p' (user_default_param s) (Some 1) 0)
      by (destruct s; cbn in Hupd |- *; by subst) end.
    apply (HQ r f' (λ k, php s (S k))); done.
Qed.

Lemma wp_set_stored id fd argv s (Q : Z → pst F → Prop) :
  stored s → (id, fd) ∈ member_ids → id ≠ TLS_PARAM_ID_AUTO_TRIGGER_PERIOD →
  size fd <= blen argv → bytes_ok argv → rec_modify_count (flash_param s) < 65535 →
  let i := rec_partition_num (flash_param s) in
  (∀ s', stored s' → sram_param s' = splice (sram_param s) (off fd) (slice argv 0 (size fd)) →
     rec_parameters (flash_param s') = splice (rec_parameters (flash_param s)) (off fd) (slice argv 0 (size fd)) →
     rec_modify_count (flash_param s') = rec_modify_count (flash_param s) + 1 →
     rec_partition_num (flash_param s') = other i → part (fl s') i = flash_param s → Q TLS_PARAM_STATUS_OK s') →
  wp (tls_param_set area id (Some argv) true) Q s.
Proof.
  intros Hst Hid Hne Hsz Hok Hc i HQ. apply (wp_set_flash id fd argv s); try done.
  intros r f' h' Hrv Hh' Hrp Hrc Hrn Hf' Hw. fold i in Hrn.
  destruct Hst as (_ & _ & _ & _ & Hsl & Hsok & Hv & Hi & Hpart & _). fold i in Hi, Hpart.
  pose proof (count_range (flash_param s) (proj1 Hv) (proj1 (proj2 Hv))) as Hcr. unfold is_u16 in Hcr.
  pose proof (field_bounds fd) as Hb.
  rewrite u16_id in Hrc by (unfold is_u16; lia).
  assert (rec_partition_num r = 0 ∨ rec_partition_num r = 1) as Hri
    by (rewrite Hrn; by apply other_range).
  destruct (part_written_other _ _ _ _ Hri Hw) as [Hp1 Hp2].
  assert (part f' i = flash_param s) as Hpi
    by (rewrite <- (other_other i Hi), <- Hrn, Hp2, Hrn, other_other by done; exact Hpart).
  apply HQ; try done. unfold stored. cbn [flash_param fl sram_param sys_param_lock updp_mode].
  do 4 (split; [done|]).
  assert (blen (slice argv 0 (size fd)) = size fd) by (apply blen_slice; lia).
  split; [rewrite blen_splice; lia|]. split; [by apply bytes_ok_splice, bytes_ok_slice|].
  do 3 (split; [done|]). right. rewrite Hrn, other_other by done. rewrite Hpi. split; [done|]. left. lia.
Qed.

(** Restart from a flash that holds the newest record [r] in partition [i]
    and nothing newer in the other. *)
Lemma wp_restart i r f h u (Q : Z → pst F → Prop) : i = 0 ∨ i = 1 →
  fd_ok f → (∀ k, h k ≠ None) → valid_rec r → part f i = r →
  (damaged_rec (part f (other i)) ∨ valid_rec (part f (other i)) ∧
     (rec_modify_count (part f (other i)) < rec_modify_count r ∨
      rec_modify_count (part f (other i)) = rec_modify_count r ∧
      rec_parameters (part f (other i)) = rec_parameters r)) →
  (∀ s', sram_param s' = rec_parameters r → Q TLS_PARAM_STATUS_OK s') →
  wp (tls_param_init area true) Q (reboot f h u).
Proof.
  intros Hi Hf Hh Hv Hp Hother HQ. destruct Hother as [Hd|[Hv' Hc]].
  - apply (wp_init_one i); try done; [by rewrite Hp|].
    intros f' h' r' _ _ _ Hrp _ _ _ _. apply HQ. cbn. by rewrite Hrp, Hp.
  - apply wp_init_both; try done.
    1,2: destruct Hi as [-> | ->]; first [by rewrite Hp|done].
    intros r0 f' h' _ _. apply HQ. cbn [sram_param]. unfold r0. clear r0.
    destruct Hi as [-> | ->]; [change (other 0) with 1 in *|change (other 1) with 0 in *];
      rewrite Hp; case_if; destruct Hc as [Hc|[Hc Heq]]; try done; exfalso; lia.
Qed.

(** Both partitions valid, as an update leaves them: the store is up again. *)
Lemma wp_restart_newer i r f h u (Q : Z → pst F → Prop) : i = 0 ∨ i = 1 →
  fd_ok f → (∀ k, h k ≠ None) → valid_rec r → part f i = r → rec_partition_num r = i →
  valid_rec (part f (other i)) → rec_modify_count (part f (other i)) < rec_modify_count r →
  (∀ s', stored s' → sram_param s' = rec_parameters r → flash_param s' = r → Q TLS_PARAM_STATUS_OK s') →
  wp (tls_param_init area true) Q (reboot f h u).
Proof.
  intros Hi Hf Hh Hv Hp Hn Hv' Hc HQ. apply wp_init_both; [done|done|..].
  1,2: destruct Hi as [-> | ->]; first [by rewrite Hp|exact Hv'].
  intros r0 f' h' [Hf' Hsame] Hh'. assert (r0 = r) as ->.
  { unfold r0. destruct Hi as [-> | ->]; [change (other 0) with 1 in *|change (other 1) with 0 in *];
      rewrite Hp; case_if; try done; exfalso; lia. }
  apply HQ; [|done|done]. unfold stored. cbn [flash_param fl sram_param sys_param_lock updp_mode]. rewrite Hn, !Hsame.
  do 4 (split; [done|]). split; [apply blen_rec_parameters, Hv|]. split; [apply bytes_ok_slice, Hv|].
  do 3 (split; [done|]). right. split; [done|]. by left.
Qed.

(** An erase of the restore sector keeps both partitions. *)
Lemma erase_restore_parts f : fd_ok f →
  wp (fls_erase (PARAM_RESTORE area / 4096)) (λ _ f', same_parts area f f') f.
Proof.
  intros Hf. pose proof Harea as (_ & _ & _ & _ & _ & Hr1 & Hr2 & Hr3 & Hr4).
  eapply wp_mono; [by apply fls_erase_ok|]. intros e f' (_ & Hf' & Hm). split; [done|].
  intros j. apply fd_bytes_ext. intros x Hx. pose proof (partition_in_flash area j Harea).
  rewrite Hm by lia. unfold partition_addr in Hx.
  destruct (Z.eqb_spec (x / 4096) (PARAM_RESTORE area / 4096)) as [He|]; [exfalso|done].
  revert Hr3 Hr4. destruct (j =? 0); rewrite <- He; dlia.
Qed.

(** The first two rounds with both partitions damaged, and the retry. *)
Lemma wp_scan_blank f h u : let s := mk_pst f h zero_rec zero_params u (Some 0) 0 in
  fd_ok f → damaged_rec (part f 0) → damaged_rec (part f 1) →
  wp (scan_loop area 4 0 (mk_scan zero_rec 0 (false, false) false)) (λ sc s',
    sc_damaged sc = 2 ∧ ∃ f', same_parts area f f' ∧ s' = set_fl f' s) s.
Proof.
  intros s Hf H0 H1. apply wp_scan_round; [done|done|done|lia|]. intros f1 Hs1.
  cbn [sc_damaged sc_is_damage sc_tryrestore fl s].
  eapply wp_run; [apply scan_record_damaged; [apply blen_part|exact H0]|].
  cbn [damage sc_damaged sc_is_damage sc_tryrestore sc_flash]. change (negb false && (2 <=? 0 + 1))%bool with false.
  cbv iota. apply wp_scan_round; [done|apply Hs1|apply blen_part|lia|]. intros f2 Hs2.
  cbn [sc_damaged sc_is_damage sc_tryrestore fl set_fl] in *.
  assert (part f1 (0 + 1) = part f 1) as -> by apply Hs1.
  eapply wp_run; [apply scan_record_damaged; [apply blen_part|exact H1]|].
  cbn [damage sc_damaged sc_is_damage sc_tryrestore sc_flash]. change (negb false && (2 <=? 0 + 1 + 1))%bool with true.
  cbv iota. wp_steps.
  eapply wp_on_fl; [apply erase_restore_parts, Hs2|]. intros e f3 Hs3.
  pose proof (same_parts_trans area _ _ _ (same_parts_trans area _ _ _ Hs1 Hs2) Hs3) as [Hf3 Hp3].
  apply (wp_scan_two area Harea 0 _ _ true true); try done.
  - cbn [fl set_fl]. rewrite Hp3. exact H0.
  - cbn [fl set_fl]. rewrite Hp3. exact H1.
  - intros f4 sc' [Hf4 Hp4] Hd _. split; [done|]. exists f4. split; [|done].
    split; [done|]. intros j. cbn [fl set_fl] in Hp4. by rewrite Hp4.
Qed.

(** Start-up with no usable record: the defaults, in both partitions. *)
Lemma wp_init_blank f h u (Q : Z → pst F → Prop) :
  fd_ok f → (∀ k, h k ≠ None) → damaged_rec (part f 0) → damaged_rec (part f 1) →
  (∀ s', stored s' → sram_param s' = factory_default →
     valid_rec (part (fl s') 0) → valid_rec (part (fl s') 1) →
     rec_parameters (part (fl s') 0) = factory_default →
     rec_parameters (part (fl s') 1) = factory_default → Q TLS_PARAM_STATUS_OK s') →
  wp (tls_param_init area true) Q (reboot f h u).
Proof.
  intros Hf Hh H0 H1 HQ.
  destruct factory_default_ok as [Hfl Hfo].
  eapply wp_init_frame with (P := λ e s', e = 0 ∧ ∃ f' r1 r2, fd_ok f' ∧
    valid_rec r1 ∧ valid_rec r2 ∧ rec_parameters r1 = factory_default ∧
    rec_parameters r2 = factory_default ∧ rec_modify_count r1 = 1 ∧ rec_modify_count r2 = 1 ∧
    rec_partition_num r2 = 1 ∧ part f' 0 = r1 ∧ part f' 1 = r2 ∧
    s' = mk_pst f' (λ k, h (S (S (S k)))) r2 factory_default u (Some 0) 0); [done|by cbn|..].
  - eapply wp_seq; [by apply wp_scan_blank|].
    intros sc s1 (Hd & f1 & [Hf1 Hp1] & ->). rewrite Hd. change (2 <=? 2) with true. cbv iota.
    unfold recreate, tls_param_load_factory_default. wp_steps.
    destruct zero_rec_ok as [Hzl Hzo].
    apply wp_write_all; [exact Hf1|intros k; apply (Hh (S k))|exact Hzl|exact Hzo|exact Hfl|exact Hfo|].
    intros r1 f2 s2 Hv1 Hrp1 Hrc1 Hrn1 Hf2 Hw1.
    change (next_count 1 _) with 1 in Hrc1. change (next_partition 0 _) with 0 in Hrn1.
    change (negb (TLS_PARAM_STATUS_OK =? TLS_PARAM_STATUS_OK)) with false. cbv iota. wp_step.
    apply wp_write_all; [exact Hf2|intros k; apply (Hh (S (S k)))|apply Hv1|apply Hv1|exact Hfl|exact Hfo|].
    intros r2 f3 s3 Hv2 Hrp2 Hrc2 Hrn2 Hf3 Hw2.
    change (next_count 1 _) with 1 in Hrc2. change (next_partition 1 _) with 1 in Hrn2.
    change (negb (TLS_PARAM_STATUS_OK =? TLS_PARAM_STATUS_OK)) with false. cbv iota.
    apply wp_ret. split; [reflexivity|]. exists f3, r1, r2. rewrite Hrn1 in Hw1. rewrite Hrn2 in Hw2.
    cbn [sram_param set_fl set_php set_flash_param set_sram_param s2] in Hrp1, Hrp2.
    do 8 (split; [assumption|]). split; [rewrite Hw2; cbn; rewrite Hw1; reflexivity|].
    split; [rewrite Hw2; reflexivity|reflexivity].
  - intros e s' (-> & f' & r1 & r2 & Hf' & Hv1 & Hv2 & Hp1 & Hp2 & Hc1 & Hc2 & Hn & Hr1 & Hr2 & ->).
    split; [done|]. unfold set_sys_param_lock.
    cbn [fl php flash_param sram_param user_default_param sys_param_lock updp_mode].
    apply HQ; cbn [sram_param fl]; rewrite ?Hr1, ?Hr2; try assumption; [|reflexivity].
    unfold stored. cbn [flash_param fl sram_param sys_param_lock updp_mode].
    split; [assumption|]. split; [intros k; apply (Hh (S (S (S k))))|].
    split; [reflexivity|]. split; [reflexivity|]. split; [assumption|]. split; [assumption|].
    split; [assumption|]. split; [by right|]. rewrite Hn. split; [assumption|]. right.
    change (other 1) with 0. rewrite Hr1. split; [assumption|]. right. split; congruence.
Qed.
End stored.

(** Setting a member of fixed size when the count has reached its last value:
    the record is written with count 0. *)
Lemma wp_set_wrapped {F} `{FlashDevOk F} area id fd argv (s : pst F) :
  area_ok area → stored area s → (id, fd) ∈ member_ids → id ≠ TLS_PARAM_ID_AUTO_TRIGGER_PERIOD →
  size fd <= blen argv → bytes_ok argv → rec_modify_count (flash_param s) = 65535 →
  let old := flash_param s in
  let i := rec_partition_num old in
  wp (tls_param_set area id (Some argv) true) (λ e s', e = TLS_PARAM_STATUS_OK ∧ fd_ok (fl s') ∧
    rec_parameters (flash_param s') = splice (rec_parameters old) (off fd) (slice argv 0 (size fd)) ∧
    part area (fl s') i = old ∧ valid_rec (part area (fl s') (other i)) ∧
    rec_modify_count (part area (fl s') (other i)) = 0) s.
Proof.
  intros Ha Hst Hid Hne Hsz Hok Hc old i.
  pose proof Hst as (Hf & Hh & Hlock & Hupd & Hsl & Hsok & Hv & Hi & Hpart & _).
  apply (wp_set_flash area Ha id fd argv s); try done.
  intros r f' h' Hrv Hh' Hrp Hrc Hrn Hf' Hw. fold old i in Hrc, Hrn. fold old in Hc. rewrite Hc in Hrc.
  assert (rec_partition_num r = 0 ∨ rec_partition_num r = 1) as Hri
    by (rewrite Hrn; by apply other_range).
  destruct (part_written_other area _ _ _ _ Hri Hw) as [Hp1 Hp2]. rewrite Hrn in Hp1, Hp2.
  rewrite other_other in Hp2 by done. cbn [fl flash_param]. rewrite Hp1, Hp2. done.
Qed.
(** A start that ends well, as a run. *)
Lemma starts_with {F} (m : M (pst F) Z) (P : pst F → Prop) s0 :
  wp m (λ e s1, e = TLS_PARAM_STATUS_OK ∧ P s1) s0 → ∃ s1, m s0 = Some (TLS_PARAM_STATUS_OK, s1) ∧ P s1.
Proof. intros Hm. apply wp_total in Hm as (e & s1 & ? & -> & ?). eauto. Qed.

(** C2: an update of a stored parameter is atomic, until the count of updates
    wraps. [tls_param_set] to flash of a member of fixed size (all but
    AUTO_TRIGGER_PERIOD, which takes a second member along) puts the new value into the
    record and never touches the partition that holds the old record; a restart
    that finds the partition it was writing damaged comes up with all the old
    parameters.  While the count in the old record is below 65535 the store is
    initialised as before, and a restart comes up with all the new parameters;
    with the 65536th update, written with count 0, a restart comes up with all
    the old ones. *)
Theorem param_update_atomic {F} `{FlashDevOk F} area id fd argv (s : pst F) :
  area_ok area → stored area s → (id, fd) ∈ member_ids → id ≠ TLS_PARAM_ID_AUTO_TRIGGER_PERIOD →
  size fd <= blen argv → bytes_ok argv →
  let old := flash_param s in
  let i := rec_partition_num old in
  ∃ s', tls_param_set area id (Some argv) true s = Some (TLS_PARAM_STATUS_OK, s') ∧
    rec_parameters (flash_param s') =
      splice (rec_parameters old) (off fd) (slice argv 0 (size fd)) ∧
    part area (fl s') i = old ∧
    (rec_modify_count old < 65535 → stored area s') ∧
    (∀ f h u, fd_ok f → (∀ k, h k ≠ None) → part area f i = part area (fl s') i →
       damaged_rec (part area f (other i)) →
       ∃ s1, tls_param_init area true (reboot f h u) = Some (TLS_PARAM_STATUS_OK, s1) ∧
         sram_param s1 = rec_parameters old) ∧
    (∀ f h u, fd_ok f → (∀ k, h k ≠ None) → (∀ j, part area f j = part area (fl s') j) →
       ∃ s1, tls_param_init area true (reboot f h u) = Some (TLS_PARAM_STATUS_OK, s1) ∧
         sram_param s1 = if rec_modify_count old <? 65535 then rec_parameters (flash_param s') else rec_parameters old).
Proof.
  intros Ha Hst Hid Hne Hsz Hok old i.
  pose proof Hst as (Hf & Hh & Hlock & Hupd & Hsl & Hsok & Hv & Hi & Hpart & Hother). fold old i in Hv, Hi, Hpart, Hother.
  pose proof (count_range old (proj1 Hv) (proj1 (proj2 Hv))) as Hcr. unfold is_u16 in Hcr.
  pose proof (field_bounds fd) as Hb.
  assert (∀ s', part area (fl s') i = old → ∀ f h u, fd_ok f → (∀ k, h k ≠ None) → part area f i = part area (fl s') i →
       damaged_rec (part area f (other i)) →
       ∃ s1, tls_param_init area true (reboot f h u) = Some (TLS_PARAM_STATUS_OK, s1) ∧ sram_param s1 = rec_parameters old) as Hdam.
  { intros s' Hpi f h u Hff Hhh Hfp Hd. apply starts_with. apply (wp_restart area Ha i old); try done; [by rewrite Hfp|by left]. }
  destruct (Z.ltb_spec (rec_modify_count old) 65535) as [Hc|Hc].
  - assert (wp (tls_param_set area id (Some argv) true) (λ e s', e = TLS_PARAM_STATUS_OK ∧ stored area s' ∧
      rec_parameters (flash_param s') = splice (rec_parameters old) (off fd) (slice argv 0 (size fd)) ∧
      part area (fl s') i = old ∧ rec_partition_num (flash_param s') = other i) s) as Hset.
    { by apply (wp_set_stored area Ha id fd argv s). }
    apply wp_total in Hset as (e & s' & Hrun & -> & Hst' & Hrp & Hpi & Hrn). exists s'.
    do 4 (split; [done|]). split; [by apply Hdam|].
    pose proof Hst' as (Hf' & _ & _ & _ & _ & _ & Hv' & Hi' & Hpart' & Hother').
    intros f h u Hff Hhh Hfp. apply starts_with.
    apply (wp_restart area Ha (other i) (flash_param s')); try done; [by apply other_range| |].
    + rewrite Hfp, <- Hrn. exact Hpart'.
    + rewrite other_other, Hfp by done. rewrite Hrn, other_other in Hother' by done. exact Hother'.
  - assert (rec_modify_count (flash_param s) = 65535) as Hc1 by (fold old; lia).
    pose proof (wp_set_wrapped area id fd argv s Ha Hst Hid Hne Hsz Hok Hc1) as Hset.
    apply wp_total in Hset as (e & s' & Hrun & -> & Hf' & Hrp & Hpi & Hv' & Hc'). exists s'.
    do 3 (split; [done|]). split; [lia|]. split; [by apply Hdam|]. intros f h u Hff Hhh Hfp. apply starts_with. fold old i in Hpi, Hv', Hc', Hc1.
    apply (wp_restart area Ha i old); try done; [by rewrite Hfp|]. right. rewrite Hfp. split; [done|]. left. lia.
Qed.

(** The modification count is 16 bits and wraps: once it has reached
    65535, an update is written with count 0 and a restart takes the other,
    older record for the newest, so the update is lost. *)
Theorem modify_count_wrap {F} `{FlashDevOk F} area id fd argv (s : pst F) :
  area_ok area → stored area s → (id, fd) ∈ member_ids → id ≠ TLS_PARAM_ID_AUTO_TRIGGER_PERIOD →
  size fd <= blen argv → bytes_ok argv → rec_modify_count (flash_param s) = 65535 →
  ∃ s', tls_param_set area id (Some argv) true s = Some (TLS_PARAM_STATUS_OK, s') ∧
    rec_parameters (flash_param s') =
      splice (rec_parameters (flash_param s)) (off fd) (slice argv 0 (size fd)) ∧
    ∀ h u, (∀ k, h k ≠ None) →
      ∃ s1, tls_param_init area true (reboot (fl s') h u) = Some (TLS_PARAM_STATUS_OK, s1) ∧
        sram_param s1 = rec_parameters (flash_param s).
Proof.
  intros Ha Hst Hid Hne Hsz Hok Hc. pose proof Hst as (_ & _ & _ & _ & _ & _ & Hv & Hi & Hpart & _).
  pose proof (wp_set_wrapped area id fd argv s Ha Hst Hid Hne Hsz Hok Hc) as Hset.
  apply wp_total in Hset as (e & s' & Hrun & -> & Hf' & Hrp & Hpi & Hv' & Hc'). exists s'.
  do 2 (split; [done|]). intros h u Hhh. apply starts_with.
  apply (wp_restart area Ha (rec_partition_num (flash_param s)) (flash_param s)); try done. right. split; [done|]. left. rewrite Hc', Hc. lia.
Qed.

(** With no usable record in either partition, even after the restore
    sector is erased, start-up loads the factory defaults and leaves a valid
    record of them in both partitions. *)
Theorem tls_param_init_blank {F} `{FlashDevOk F} area f h u :
  area_ok area → fd_ok f → (∀ k, h k ≠ None) →
  damaged_rec (part area f 0) → damaged_rec (part area f 1) →
  ∃ s', tls_param_init area true (reboot f h u) = Some (TLS_PARAM_STATUS_OK, s') ∧
    stored area s' ∧ sram_param s' = factory_default ∧
    ∀ i, i = 0 ∨ i = 1 → valid_rec (part area (fl s') i) ∧
      rec_parameters (part area (fl s') i) = factory_default.
Proof.
  intros Ha Hf Hh H0 H1.
  assert (wp (tls_param_init area true) (λ e s', e = TLS_PARAM_STATUS_OK ∧ stored area s' ∧
    sram_param s' = factory_default ∧ ∀ i, i = 0 ∨ i = 1 → valid_rec (part area (fl s') i) ∧
      rec_parameters (part area (fl s') i) = factory_default) (reboot f h u)) as Hw.
  { apply wp_init_blank; try assumption. intros s' Hs Hsr Hv0 Hv1 Hp0 Hp1.
    split; [reflexivity|]. split; [assumption|]. split; [assumption|].
    intros i [-> | ->]; by split. }
  apply wp_total in Hw as (e & s' & Hrun & -> & Hs). by exists s'.
Qed.

(** ** Requests that fail, and requests that go wrong *)

(** An identifier out of range, one the build does not know (25, and 27
    with WPS switched off) or a null pointer is an error that changes nothing. *)
Theorem tls_param_set_errors {F} `{!FlashDev F} area id argv to_flash (s : pst F) :
  sys_param_lock s = Some 1 →
  (id < -1 ∨ 55 <= id ∨ argv = None →
     tls_param_set area id argv to_flash s = Some (TLS_PARAM_STATUS_EINVALID, s)) ∧
  (id = 25 ∨ id = 27 → argv ≠ None →
     tls_param_set area id argv to_flash s = Some (TLS_PARAM_STATUS_EINVALIDID, s)).
Proof.
  intros Hlock. unfold tls_param_set, TLS_PARAM_ID_ALL, TLS_PARAM_ID_MAX.
  destruct argv as [argv|]; [|split; [done|by intros _ []]]. split.
  - intros [Hid|[Hid|[=]]].
    + by replace ((id <? -1) || (55 <=? id))%bool with true by lia.
    + by replace ((id <? -1) || (55 <=? id))%bool with true by lia.
  - intros Hid _. replace ((id <? -1) || (55 <=? id))%bool with false by lia.
    unfold bind, gets, param_lock, param_unlock, bind, gets, modify. cbv beta iota. rewrite Hlock.
    change (0 <? 1) with true. cbv beta iota.
    assert (∀ p, set_switch id argv p = None) as -> by (by destruct Hid as [-> | ->]).
    destruct s; cbn in *. by subst.
Qed.

(** Writing the trigger period to flash writes the debug mode as well:
    the case has no [break] and runs into the next, so a debug mode that was
    set for this session only becomes permanent. *)
Theorem trigger_period_writes_debug_mode src dest :
  blen src = SYS_PARAM_SIZE → blen dest = SYS_PARAM_SIZE →
  ∃ dest', flash_switch TLS_PARAM_ID_AUTO_TRIGGER_PERIOD src dest = Some (Some dest') ∧
    slice dest' (off F_transparent_trigger_period) 2 = slice src (off F_transparent_trigger_period) 2 ∧
    slice dest' (off F_debug_mode) 4 = slice src (off F_debug_mode) 4.
Proof.
  intros Hs Hd. set (d1 := splice dest (off F_transparent_trigger_period)
    (slice src (off F_transparent_trigger_period) (size F_transparent_trigger_period))).
  change SYS_PARAM_SIZE with 808 in *.
  assert (∀ o n, 0 <= o → 0 <= n → o + n <= 808 → blen (slice src o n) = n) as Hsl
    by (intros; apply blen_slice; lia).
  change (off F_transparent_trigger_period) with 320 in *. change (off F_debug_mode) with 360 in *.
  change (size F_transparent_trigger_period) with 2 in *.
  assert (blen d1 = 808) as Hd1 by (unfold d1; rewrite blen_splice; rewrite ?Hsl; lia).
  exists (splice d1 360 (slice src 360 4)). split; [|split].
  - change (flash_switch TLS_PARAM_ID_AUTO_TRIGGER_PERIOD src dest) with
      (Some (copy_member F_transparent_trigger_period src dest ≫= λ dest, copy_member F_debug_mode src dest)).
    rewrite copy_member_Some by done. cbn [mbind option_bind]. by rewrite copy_member_Some by done.
  - rewrite slice_splice_disj by (rewrite ?Hsl; lia). unfold d1.
    by rewrite slice_splice_same by (rewrite ?Hsl; lia).
  - by rewrite slice_splice_same by (rewrite ?Hsl; lia).
Qed.

(** [tls_param_set] copies a DNS name up to its terminator, whatever its
    length: a name of 32 to 63 characters runs over the member and replaces
    the start of the device name stored after it. *)
Theorem dnsname_overruns_devname {F} `{!FlashDev F} area name (s : pst F) :
  Forall (λ c, c ≠ 0) name → 32 <= blen name < 64 →
  blen (sram_param s) = SYS_PARAM_SIZE → sys_param_lock s = Some 1 → updp_mode s = 0 →
  ∃ s', tls_param_set area TLS_PARAM_ID_DNSNAME (Some (name ++ [0])) false s =
      Some (TLS_PARAM_STATUS_OK, s') ∧
    slice (sram_param s') (off F_local_device_name) (blen name - 32 + 1) =
      drop (Z.to_nat 32) (name ++ [0]).
Proof.
  intros Hn Hl Hs Hlock Hupd. change SYS_PARAM_SIZE with 808 in Hs.
  set (p' := splice (sram_param s) 172 (name ++ [0])).
  assert (blen (name ++ [0]) = blen name + 1) as Hln by (rewrite blen_app; done).
  exists (set_sram_param p' s). split.
  - unfold tls_param_set, TLS_PARAM_ID_ALL, TLS_PARAM_ID_MAX.
    change ((TLS_PARAM_ID_DNSNAME <? -1) || (55 <=? TLS_PARAM_ID_DNSNAME))%bool with false.
    unfold bind, gets. rewrite Hupd. change (truth 0) with false. cbv beta iota.
    change (set_switch TLS_PARAM_ID_DNSNAME (name ++ [0]) (sram_param s)) with
      (Some (set_string F_local_dnsname (name ++ [0]) (sram_param s))).
    unfold set_string. rewrite strlen_app by done. cbn [mbind option_bind].
    change (off F_local_dnsname) with 172. rewrite memcpy_Some by lia.
    rewrite slice_all by lia. fold p'.
    unfold param_lock, param_unlock, bind, gets, modify, of_opt. rewrite Hlock.
    change (0 <? 1) with true. destruct s; cbn in *. by subst.
  - cbn [sram_param set_sram_param]. change (off F_local_device_name) with 204. unfold p'.
    assert (blen (drop (Z.to_nat 32) (name ++ [0])) = blen name - 32 + 1) as Hd
      by (unfold blen in *; rewrite length_drop; lia).
    assert (blen (splice (sram_param s) 172 (name ++ [0])) = 808) as Hp by (rewrite blen_splice; lia).
    apply byte_at_ext; rewrite blen_slice by lia; [done|]. intros i Hi.
    rewrite byte_at_slice, byte_at_splice by lia.
    replace ((172 <=? 204 + i) && (204 + i <? 172 + blen (name ++ [0])))%bool with true by lia.
    rewrite !byte_at_lookup by lia. rewrite lookup_drop. f_equal. lia.
Qed.

(** The start-up scan takes the length of a record from the flash: a
    record with the magic and a length past its end makes the CRC read outside
    the buffer (an undefined access) instead of being taken for damaged. *)
Theorem scan_trusts_length {F} (i : Z) sc (s : pst F) :
  rec_magic (sc_flash sc) = TLS_PARAM_MAGIC → blen (sc_flash sc) = FLASH_REC_SIZE →
  FLASH_REC_SIZE < rec_length (sc_flash sc) → scan_record i sc s = None.
Proof.
  intros Hm Hl Hlen. unfold scan_record. rewrite Hm, Z.eqb_refl. cbn [negb]. cbv iota.
  unfold bind, of_opt. destruct (get_crc32 _ _); [|done].
  unfold rec_crc_at_length.
  by replace ((0 <=? rec_length (sc_flash sc) - 4) &&
    (rec_length (sc_flash sc) - 4 + 4 <=? blen (sc_flash sc)))%bool with false by lia.
Qed.


(** ** The store on a device *)

Definition demo_area : param_area := mk_area 0x80FC000 0x80FD000 0x80FE000 0x80F0000.
Definition demo_heap : heap := λ _, Some (λ _, 0xAA).
(** The record of the factory defaults with a given count, for partition 1. *)
Definition demo_rec (count : Z) : list Z :=
  default [] (seal count 1 (set_parameters factory_default (replicate (Z.to_nat 828) 0))).
(** A flash with that record in partition 1 and partition 0 erased. *)
Definition demo_flash (r : list Z) : array := λ x,
  if (0x80FD000 <=? x) && (x <? 0x80FD000 + 828) then default 0 (byte_at r (x - 0x80FD000)) else 255.
Definition demo_state (r : list Z) : pst array :=
  mk_pst (demo_flash r) demo_heap r factory_default factory_default (Some 1) 0.
Definition blank_flash : array := λ _, 255.

Lemma demo_area_ok : area_ok demo_area.
Proof.
  unfold area_ok. rewrite FLASH_REC_SIZE_eq. change (PARAM_RESTORE demo_area / 4096) with 0x80FE.
  change (PARAM1 demo_area) with 0x80FC000. change (PARAM2 demo_area) with 0x80FD000.
  change fd_lo with 0x8000000. change fd_hi with 0x8200000. lia.
Qed.
Lemma demo_heap_ok k : demo_heap k ≠ None.
Proof. done. Qed.

Lemma demo_rec_ok n : 0 <= n → blen (demo_rec n) = FLASH_REC_SIZE ∧ valid_rec (demo_rec n) ∧
  rec_parameters (demo_rec n) = factory_default ∧
  rec_modify_count (demo_rec n) = u16 n ∧ rec_partition_num (demo_rec n) = 1.
Proof.
  intros Hn. unfold demo_rec. destruct factory_default_ok as [Hl Hok].
  set (z := replicate (Z.to_nat 828) 0).
  assert (blen z = FLASH_REC_SIZE ∧ bytes_ok z) as [Hzl Hz].
  { unfold z. split; [reflexivity|]. apply Forall_replicate. unfold is_u8. lia. }
  clearbody z.
  destruct (set_parameters_ok factory_default z Hl Hzl) as (H1 & H2 & _).
  destruct (seal_ok n 1 (set_parameters factory_default z) H1) as (r & Hs & Hv & Hp & Hc & Hpn);
    [by apply bytes_ok_set_parameters|].
  rewrite Hs. change (default [] (Some r)) with r. split; [apply Hv|]. split; [exact Hv|].
  split; [rewrite Hp; exact H2|]. split; [|exact Hpn].
  rewrite Hc. unfold next_count. by replace (n <? 0) with false by lia.
Qed.

Lemma demo_part r i : blen r = FLASH_REC_SIZE → bytes_ok r →
  (i = 1 → part demo_area (demo_flash r) i = r) ∧
  (i = 0 → part demo_area (demo_flash r) i = replicate 828 255).
Proof.
  intros Hl Hok. split; intros ->.
  - unfold part. rewrite <- Hl. apply fd_bytes_eq. intros k Hk.
    rewrite Hl, FLASH_REC_SIZE_eq in Hk. change (partition_addr demo_area 1) with 0x80FD000.
    change (fd_mem (demo_flash r) ?x) with (u8 (demo_flash r x)). unfold demo_flash.
    replace ((_ <=? _) && _)%bool with true by lia.
    replace (0x80FD000 + k - 0x80FD000) with k by lia.
    destruct (byte_at_is_Some r k) as [v Hv]; [rewrite Hl, FLASH_REC_SIZE_eq; lia|].
    rewrite Hv. cbn [default]. f_equal. symmetry. eapply u8_id, byte_at_ok; done.
  - reflexivity.
Qed.

Lemma blank_damaged : damaged_rec (replicate 828 255).
Proof. left. vm_compute. discriminate. Qed.

Lemma demo_stored n : 0 <= n → stored demo_area (demo_state (demo_rec n)).
Proof.
  intros Hn. destruct (demo_rec_ok n Hn) as (Hl & Hv & Hp & Hc & Hpn).
  pose proof (proj1 (proj2 Hv)) as Hok. destruct factory_default_ok as [Hfl Hfo].
  unfold stored, demo_state. cbn [flash_param fl php sys_param_lock updp_mode sram_param].
  rewrite Hpn.
  split; [exact I|]. split; [exact demo_heap_ok|]. do 2 (split; [reflexivity|]).
  split; [exact Hfl|]. split; [exact Hfo|]. split; [exact Hv|]. split; [right; reflexivity|].
  split; [apply (demo_part _ 1 Hl Hok); reflexivity|].
  left. change (other 1) with 0. rewrite (proj2 (demo_part _ 0 Hl Hok)) by reflexivity.
  apply blank_damaged.
Qed.

Lemma in_members id f : bool_decide ((id, f) ∈ member_ids) = true → (id, f) ∈ member_ids.
Proof. apply bool_decide_eq_true_1. Qed.

Lemma tls_param_set_get_witness :
  ∃ s', tls_param_set demo_area TLS_PARAM_ID_SSID (Some (replicate 36 65)) false
      (demo_state (demo_rec 7)) = Some (TLS_PARAM_STATUS_OK, s') ∧
    ∀ id' f' buf, (id', f') ∈ member_ids → size f' <= blen buf →
      tls_param_get id' buf false s' = Some (TLS_PARAM_STATUS_OK,
        splice buf 0 (if decide (f' = F_ssid) then slice (replicate 36 65) 0 36
                      else slice factory_default (off f') (size f')), s').
Proof.
  destruct (tls_param_set_get demo_area TLS_PARAM_ID_SSID F_ssid (replicate 36 65)
    (demo_state (demo_rec 7))) as (s' & H1 & _ & _ & H2).
  - apply in_members. vm_compute. reflexivity.
  - vm_compute. discriminate.
  - apply factory_default_ok.
  - reflexivity.
  - reflexivity.
  - exists s'. split; [exact H1|exact H2].
Defined.

Lemma param_update_atomic_witness :
  ∃ s', tls_param_set demo_area TLS_PARAM_ID_CHANNEL (Some [6]) true
      (demo_state (demo_rec 7)) = Some (TLS_PARAM_STATUS_OK, s') ∧
    rec_parameters (flash_param s') = splice (rec_parameters (demo_rec 7)) (off F_channel) [6] ∧
    ∃ s1, tls_param_init demo_area true (reboot (fl s') demo_heap []) =
        Some (TLS_PARAM_STATUS_OK, s1) ∧
      sram_param s1 = rec_parameters (flash_param s').
Proof.
  destruct (demo_rec_ok 7) as (_ & _ & _ & Hc & _); [lia|].
  destruct (param_update_atomic demo_area TLS_PARAM_ID_CHANNEL F_channel [6]
    (demo_state (demo_rec 7))) as (s' & H1 & H2 & _ & _ & _ & H3).
  - exact demo_area_ok.
  - apply demo_stored. lia.
  - apply in_members. vm_compute. reflexivity.
  - unfold TLS_PARAM_ID_CHANNEL, TLS_PARAM_ID_AUTO_TRIGGER_PERIOD. discriminate.
  - vm_compute. discriminate.
  - apply bytes_ok_b. vm_compute. reflexivity.
  - exists s'. split; [exact H1|]. split; [exact H2|].
    destruct (H3 (fl s') demo_heap []) as (s1 & H4 & H5); [exact I|exact demo_heap_ok|reflexivity|].
    exists s1. split; [exact H4|]. rewrite H5. cbn [demo_state flash_param]. rewrite Hc. reflexivity.
Defined.

Lemma modify_count_wrap_witness :
  ∃ s', tls_param_set demo_area TLS_PARAM_ID_CHANNEL (Some [6]) true
      (demo_state (demo_rec 65535)) = Some (TLS_PARAM_STATUS_OK, s') ∧
    ∃ s1, tls_param_init demo_area true (reboot (fl s') demo_heap []) =
        Some (TLS_PARAM_STATUS_OK, s1) ∧
      sram_param s1 = rec_parameters (demo_rec 65535).
Proof.
  destruct (demo_rec_ok 65535) as (_ & _ & _ & Hc & _); [lia|].
  destruct (modify_count_wrap demo_area TLS_PARAM_ID_CHANNEL F_channel [6]
    (demo_state (demo_rec 65535))) as (s' & H1 & _ & H2).
  - exact demo_area_ok.
  - apply demo_stored. lia.
  - apply in_members. vm_compute. reflexivity.
  - unfold TLS_PARAM_ID_CHANNEL, TLS_PARAM_ID_AUTO_TRIGGER_PERIOD. discriminate.
  - vm_compute. discriminate.
  - apply bytes_ok_b. vm_compute. reflexivity.
  - cbn [demo_state flash_param]. rewrite Hc. reflexivity.
  - exists s'. split; [exact H1|]. apply H2. exact demo_heap_ok.
Defined.

Lemma tls_param_init_blank_witness :
  ∃ s', tls_param_init demo_area true (reboot blank_flash demo_heap []) =
      Some (TLS_PARAM_STATUS_OK, s') ∧
    stored demo_area s' ∧ sram_param s' = factory_default.
Proof.
  destruct (tls_param_init_blank demo_area blank_flash demo_heap []) as (s' & H1 & H2 & H3 & _).
  - exact demo_area_ok.
  - exact I.
  - exact demo_heap_ok.
  - exact blank_damaged.
  - exact blank_damaged.
  - exists s'. split; [exact H1|]. split; [exact H2|exact H3].
Defined.

Lemma tls_param_set_errors_witness :
  tls_param_set demo_area 55 (Some [1]) true (demo_state (demo_rec 7)) =
    Some (TLS_PARAM_STATUS_EINVALID, demo_state (demo_rec 7)) ∧
  tls_param_set demo_area 25 (Some [1]) true (demo_state (demo_rec 7)) =
    Some (TLS_PARAM_STATUS_EINVALIDID, demo_state (demo_rec 7)).
Proof.
  destruct (tls_param_set_errors demo_area 55 (Some [1]) true (demo_state (demo_rec 7)))
    as [H1 _]; [reflexivity|].
  destruct (tls_param_set_errors demo_area 25 (Some [1]) true (demo_state (demo_rec 7)))
    as [_ H2]; [reflexivity|].
  split; [apply H1|apply H2]; [lia|lia|discriminate].
Defined.

Lemma trigger_period_writes_debug_mode_witness :
  ∃ dest', flash_switch TLS_PARAM_ID_AUTO_TRIGGER_PERIOD (replicate 808 1) (replicate 808 0) =
      Some (Some dest') ∧
    slice dest' (off F_transparent_trigger_period) 2 = [1; 1] ∧
    slice dest' (off F_debug_mode) 4 = [1; 1; 1; 1].
Proof.
  destruct (trigger_period_writes_debug_mode (replicate 808 1) (replicate 808 0))
    as (d & H1 & H2 & H3); [reflexivity|reflexivity|].
  exists d. split; [exact H1|]. split; [exact H2|exact H3].
Defined.

Lemma dnsname_overruns_devname_witness :
  ∃ s', tls_param_set demo_area TLS_PARAM_ID_DNSNAME (Some (replicate 40 97 ++ [0])) false
      (demo_state (demo_rec 7)) = Some (TLS_PARAM_STATUS_OK, s') ∧
    slice (sram_param s') (off F_local_device_name) 9 = replicate 8 97 ++ [0].
Proof.
  destruct (dnsname_overruns_devname demo_area (replicate 40 97) (demo_state (demo_rec 7)))
    as (s' & H1 & H2).
  - apply Forall_replicate. lia.
  - vm_compute. split; [discriminate|reflexivity].
  - apply factory_default_ok.
  - reflexivity.
  - reflexivity.
  - exists s'. split; [exact H1|exact H2].
Defined.

Lemma scan_trusts_length_witness :
  scan_record 0 (mk_scan (splice (demo_rec 7) 14 (le16 2000)) 0 (false, false) false)
    (demo_state (demo_rec 7)) = None.
Proof.
  apply (scan_trusts_length 0 (mk_scan (splice (demo_rec 7) 14 (le16 2000)) 0 (false, false) false));
    cbn [sc_flash]; vm_compute; reflexivity.
Defined.
