(* ===== verification/HwCrc.v ===== *)
(** * [src/Platform/Common/crypto/wm_crypto_hard.c]: the CRC of the crypto unit

    The three functions the firmware update computes its checksums with.  The
    unit itself is the class [CrcEngine]: what it leaves in its result
    register for a configuration word, a key and the bytes it fetches. *)
From S2P Require Import Prelude Utils.

Definition OUTPUT_REFLECT := 1.
Definition INPUT_REFLECT := 2.
Definition CRYPTO_METHOD_CRC := 6.
Definition CRYPTO_CRC_TYPE_8 := 0.
Definition CRYPTO_CRC_TYPE_16_MODBUS := 1.
Definition CRYPTO_CRC_TYPE_16_CCITT := 2.
Definition CRYPTO_CRC_TYPE_32 := 3.

(** [for (i = 1; i < ch + 1; i++) { if (ref & 1) value |= 1 << (ch - i); ref >>= 1; }] *)
Fixpoint Reflect_loop (n : nat) (i ref ch value : Z) : Z :=
  match n with
  | O => value
  | S n' =>
      let value := if truth (Z.land ref 1) then Z.lor value (Z.shiftl 1 (ch - i)) else value in
      Reflect_loop n' (i + 1) (Z.shiftr ref 1) ch value
  end.
Definition Reflect (ref ch : Z) : Z := Reflect_loop (Z.to_nat ch) 1 ref ch 0.

(** [psCrcContext_t] *)
Record psCrcContext := mk_crc { crc_state : Z; crc_type : Z; crc_mode : Z }.

Class CrcEngine := { crc_engine : Z → Z → list Z → Z }.

(** Configured for the 32-bit CRC with both reflections, the unit computes the
    usual CRC-32: its key is the register in unreflected order, its result the
    reflected register, and the length field gives the number of bytes. *)
Class CrcEngineOk `{!CrcEngine} := {
  crc_engine_32 cfg key k data :
    Z.land cfg 0x0FFF0000 = 0x1E60000 → Z.land cfg 0xFFFF = blen data → bytes_ok data →
    is_u32 k → (∀ i, 0 <= i < 32 → Z.testbit k i = Z.testbit key (31 - i)) →
    crc_engine cfg key data = foldl crc32_byte k data;
}.

Section crc.
Context `{!CrcEngine}.
Local Open Scope c_scope.

Definition tls_crypto_crc_init (key type mode : Z) : psCrcContext := mk_crc key type mode.

(** The state of the computation is the configuration register; the context
    is returned. *)
Definition tls_crypto_crc_update (ctx : psCrcContext) (inp : list Z) (len : Z)
    : M Z psCrcContext :=
  let* val := get in
  let sec_cfg := Z.lor (Z.lor (Z.lor (Z.lor (Z.land val 0xF0000000)
    (Z.shiftl CRYPTO_METHOD_CRC 16)) (u32 (Z.shiftl (crc_type ctx) 21)))
    (u32 (Z.shiftl (crc_mode ctx) 23))) (Z.land len 0xFFFF) in
  modify (λ _, sec_cfg) ;;
  let key :=
    if truth (Z.land (crc_mode ctx) OUTPUT_REFLECT) then
      let ch_crc := switch (crc_type ctx)
        [(CRYPTO_CRC_TYPE_8, 8); (CRYPTO_CRC_TYPE_16_MODBUS, 16);
         (CRYPTO_CRC_TYPE_16_CCITT, 16); (CRYPTO_CRC_TYPE_32, 32)] 16 in
      Reflect (crc_state ctx) ch_crc
    else crc_state ctx in
  if blen inp <? Z.land len 0xFFFF then stuck
  else ret (mk_crc (crc_engine sec_cfg key (slice inp 0 (Z.land len 0xFFFF)))
              (crc_type ctx) (crc_mode ctx)).

Definition tls_crypto_crc_final (ctx : psCrcContext) : Z := crc_state ctx.

(** The checksum of a sequence of blocks, as the callers compute it. *)
Fixpoint crc_blocks (ctx : psCrcContext) (blocks : list (list Z)) : M Z Z :=
  match blocks with
  | [] => ret (tls_crypto_crc_final ctx)
  | b :: blocks' =>
      let* ctx := tls_crypto_crc_update ctx b (blen b) in crc_blocks ctx blocks'
  end.
End crc.

(** ** What it computes *)

Lemma Reflect_loop_spec n : ∀ i ref ch value, 0 <= i → i + Z.of_nat n = ch + 1 →
  ∀ j, 0 <= j → Z.testbit (Reflect_loop n i ref ch value) j =
    (Z.testbit value j || ((j <=? ch - i) && Z.testbit ref (ch - i - j)))%bool.
Proof.
  induction n as [|n IH]; intros i ref ch value Hi Hn j Hj; cbn [Reflect_loop].
  { replace (j <=? ch - i) with false by lia. by rewrite orb_false_r. }
  rewrite IH by lia.
  assert (((j <=? ch - (i + 1)) && Z.testbit (Z.shiftr ref 1) (ch - (i + 1) - j))%bool =
          ((j <=? ch - (i + 1)) && Z.testbit ref (ch - i - j))%bool) as ->.
  { destruct (Z.leb_spec j (ch - (i + 1))); [|done]. cbn [andb].
    rewrite Z.shiftr_spec by lia. f_equal. lia. }
  assert (truth (Z.land ref 1) = Z.testbit ref 0) as Ht.
  { change 1 with (Z.ones 1). rewrite Z.land_ones by lia. change (2 ^ 1) with 2.
    rewrite Zmod_odd, Z.bit0_odd. by destruct (Z.odd ref). }
  rewrite Ht. destruct (decide (j = ch - i)) as [->|Hne].
  - replace (ch - i <=? ch - (i + 1)) with false by lia.
    replace (ch - i <=? ch - i) with true by lia. replace (ch - i - (ch - i)) with 0 by lia.
    rewrite orb_false_r. cbn [andb]. destruct (Z.testbit ref 0); [|by rewrite orb_false_r].
    rewrite Z.lor_spec, Z.shiftl_spec by lia. by replace (ch - i - (ch - i)) with 0 by lia.
  - replace (j <=? ch - (i + 1)) with (j <=? ch - i) by lia.
    destruct (Z.testbit ref 0); [|done]. rewrite Z.lor_spec, Z.shiftl_spec by lia.
    f_equal. replace (Z.testbit 1 (j - (ch - i))) with false; [apply orb_false_r|].
    destruct (Z.ltb_spec j (ch - i)); [by rewrite Z.testbit_neg_r by lia|].
    symmetry. apply (testbit_high 1 1); lia.
Qed.

Lemma Reflect_spec ref ch j : 0 <= ch → 0 <= j < ch →
  Z.testbit (Reflect ref ch) j = Z.testbit ref (ch - 1 - j).
Proof.
  intros Hch Hj. unfold Reflect. rewrite Reflect_loop_spec by lia. rewrite Z.bits_0. cbn [orb].
  by replace (j <=? ch - 1) with true by lia.
Qed.

Lemma lxor_u32 a b : is_u32 a → is_u32 b → is_u32 (Z.lxor a b).
Proof.
  intros Ha Hb. assert (Z.lxor a b = u32 (Z.lxor a b)) as ->; [|apply u32_range].
  apply Z.bits_inj'. intros k Hk. unfold u32, wrap.
  rewrite <- Z.land_ones, Z.land_spec, Z.lxor_spec by lia.
  destruct (Z.lt_ge_cases k 32); [by rewrite Z.ones_spec_low, andb_true_r by lia|].
  rewrite !(testbit_high _ 32) by (unfold is_u32 in *; lia). done.
Qed.
Lemma crc32_shift_range r : is_u32 r → is_u32 (crc32_shift r).
Proof.
  intros Hr. unfold crc32_shift. assert (is_u32 (Z.shiftr r 1)) as Hs.
  { rewrite Z.shiftr_div_pow2 by lia. unfold is_u32 in *. change (2 ^ 1) with 2. dlia. }
  destruct (Z.odd r); [|done]. by apply lxor_u32.
Qed.
Lemma crc32_byte_range r d : is_u32 r → is_u8 d → is_u32 (crc32_byte r d).
Proof.
  intros Hr Hd. unfold crc32_byte. generalize 8%nat as n.
  assert (is_u32 (Z.lxor r d)) as Hx by (apply lxor_u32; [done|unfold is_u32, is_u8 in *; lia]).
  induction n as [|n IH]; [done|]. cbn [Nat.iter nat_rect]. by apply crc32_shift_range.
Qed.
Lemma crc32_foldl_range data : ∀ r, is_u32 r → bytes_ok data → is_u32 (foldl crc32_byte r data).
Proof.
  induction data as [|d data IH]; intros r Hr Hd; [done|]. inversion Hd; subst. cbn.
  apply IH; [by apply crc32_byte_range|done].
Qed.

(** The configuration word of a 32-bit CRC with both reflections. *)
Lemma crc_config val len :
  let cfg := Z.lor (Z.lor (Z.lor (Z.lor (Z.land val 0xF0000000) (Z.shiftl CRYPTO_METHOD_CRC 16))
    (u32 (Z.shiftl CRYPTO_CRC_TYPE_32 21))) (u32 (Z.shiftl 3 23))) (Z.land len 0xFFFF) in
  Z.land cfg 0x0FFF0000 = 0x1E60000 ∧ Z.land cfg 0xFFFF = Z.land len 0xFFFF.
Proof.
  intros cfg. unfold cfg. rewrite !Z.land_lor_distr_l, <- !Z.land_assoc.
  change (Z.land 0xF0000000 0x0FFF0000) with 0. change (Z.land 0xF0000000 0xFFFF) with 0.
  change (Z.land 0xFFFF 0x0FFF0000) with 0. rewrite !Z.land_0_r. split; [done|].
  change (Z.land 0xFFFF 0xFFFF) with 0xFFFF.
  change (Z.lor (Z.lor (Z.lor 0 _) _) _) with 0. done.
Qed.

Section computes.
Context `{CrcEngineOk}.

Definition crc32_ctx (state : Z) : psCrcContext := mk_crc state CRYPTO_CRC_TYPE_32 3.

Lemma wp_crc_update state inp len s (Q : psCrcContext → Z → Prop) :
  is_u32 state → bytes_ok inp → 0 <= len < 65536 → len <= blen inp →
  (∀ s', Q (crc32_ctx (foldl crc32_byte state (slice inp 0 len))) s') →
  wp (tls_crypto_crc_update (crc32_ctx state) inp len) Q s.
Proof.
  intros Hst Hok Hlen Hin HQ. unfold tls_crypto_crc_update.
  assert (Z.land len 0xFFFF = len) as Hll.
  { change 0xFFFF with (Z.ones 16). rewrite Z.land_ones by lia. apply Z.mod_small. lia. }
  wp_steps. cbn [crc_type crc_mode crc_state crc32_ctx].
  destruct (crc_config s len) as [Hc1 Hc2]. cbv zeta in Hc1, Hc2. rewrite Hll in *.
  replace (blen inp <? len) with false by lia. apply wp_ret.
  rewrite (crc_engine_32 _ _ state); [apply HQ|exact Hc1| | |exact Hst|].
  - rewrite Hc2, blen_slice by lia. done.
  - by apply bytes_ok_slice.
  - intros i Hi. change (truth (Z.land 3 OUTPUT_REFLECT)) with true. cbv iota.
    change (switch CRYPTO_CRC_TYPE_32 _ _) with 32. rewrite Reflect_spec by lia. f_equal. lia.
Qed.
End computes.

(** The checksum the crypto unit accumulates block by block is the CRC-32
    of the whole, without the final complement: the context is carried from
    one block to the next through the reflection the driver applies to it. *)
Theorem crc_blocks_correct `{CrcEngineOk} blocks (s : Z) :
  Forall (λ b, bytes_ok b ∧ blen b < 65536) blocks →
  ∃ s', crc_blocks (tls_crypto_crc_init 0xFFFFFFFF CRYPTO_CRC_TYPE_32 3) blocks s =
    Some (Z.lxor (crc32_ref (concat blocks)) 0xFFFFFFFF, s').
Proof.
  intros Hb. unfold crc32_ref. rewrite Z.lxor_assoc, Z.lxor_nilpotent, Z.lxor_0_r.
  change (tls_crypto_crc_init _ _ _) with (crc32_ctx 0xFFFFFFFF).
  assert (is_u32 0xFFFFFFFF) as Hk by (unfold is_u32; lia).
  revert Hk. change 4294967295 with 0xFFFFFFFF. generalize 0xFFFFFFFF as k. revert s.
  induction Hb as [|b blocks [Hok Hlen] _ IH]; intros s k Hk; [by eexists|].
  cbn [crc_blocks concat]. rewrite foldl_app.
  assert (wp (tls_crypto_crc_update (crc32_ctx k) b (blen b))
    (λ c _, c = crc32_ctx (foldl crc32_byte k b)) s) as Hu.
  { apply wp_crc_update; try done; [pose proof (blen_nonneg b); lia|].
    intros s'. by rewrite slice_all by done. }
  apply wp_total in Hu as (c & s1 & Hrun & ->). unfold bind. rewrite Hrun.
  apply IH. by apply crc32_foldl_range.
Qed.

(** ** A unit *)

(** The unit in software. *)
Definition rev32 (x : Z) : Z := Reflect x 32.
#[export] Instance soft_crc : CrcEngine := {
  crc_engine cfg key data := foldl crc32_byte (u32 (rev32 key)) data;
}.
#[export] Instance soft_crc_ok : CrcEngineOk.
Proof.
  split. intros cfg key k data _ _ _ Hk Hbits. cbn. f_equal.
  apply Z.bits_inj'. intros j Hj. unfold u32, wrap. rewrite <- Z.land_ones, Z.land_spec by lia.
  destruct (Z.lt_ge_cases j 32).
  - rewrite Z.ones_spec_low, andb_true_r by lia. unfold rev32.
    rewrite Reflect_spec, Hbits by lia. f_equal; lia.
  - rewrite Z.ones_spec_high, andb_false_r by lia.
    by rewrite (testbit_high _ 32) by (unfold is_u32 in *; lia).
Qed.

Lemma crc_blocks_correct_witness :
  ∃ s', crc_blocks (tls_crypto_crc_init 0xFFFFFFFF CRYPTO_CRC_TYPE_32 3)
      [[49; 50; 51]; [52; 53; 54; 55]; [56; 57]] 0 = Some (0x340BC6D9, s').
Proof.
  destruct (crc_blocks_correct [[49; 50; 51]; [52; 53; 54; 55]; [56; 57]] 0) as [s' Hs'].
  - repeat constructor; unfold is_u8; lia.
  - exists s'. exact Hs'.
Defined.
