(* ===== verification/FlashLayout.v ===== *)
(** * [src/Platform/Common/fwup/wm_fwup.c]: the layout of the flash

    The image header, and [tls_fls_layout_init], which places the code, the
    update area, the user areas and the parameter sectors. *)
From S2P Require Import Prelude FlashStore ParamLayout Params.

(** ** The image header

    [T_BOOTER]: 56 bytes, little-endian. *)
Definition T_BOOTER_SIZE : Z := 56.
Definition magic_no (b : list Z) : Z := u32_at b 0.
Definition img_type (b : list Z) : Z := u16_at b 4.
Definition run_img_addr (b : list Z) : Z := u32_at b 8.
Definition run_img_len (b : list Z) : Z := u32_at b 12.
Definition upd_img_addr (b : list Z) : Z := u32_at b 20.
Definition upd_img_len (b : list Z) : Z := u32_at b 24.
Definition upd_checksum (b : list Z) : Z := u32_at b 28.
Definition upd_no (b : list Z) : Z := u32_at b 32.
Definition hd_checksum (b : list Z) : Z := u32_at b 52.

Definition IMG_TYPE_OLD_PLAIN := 0.
Definition IMG_TYPE_NEW_PLAIN := 3.
Definition CODE_RUN_HEADER_ADDR := 0x08010000.
Definition CODE_RUN_HEADER_AREA_LEN := 0x100.
Definition CODE_RUN_START_ADDR := 0x08010100.

(** ** The layout *)

Record flash_layout := mk_layout {
  CODE_RUN_AREA_LEN : Z;
  USER_ADDR_START : Z;
  TLS_FLASH_PARAM_DEFAULT : Z;
  USER_AREA_LEN : Z;
  USER_ADDR_END : Z;
  CODE_UPD_HEADER_ADDR : Z;
  TLS_FLASH_PARAM1_ADDR : Z;
  TLS_FLASH_PARAM2_ADDR : Z;
  TLS_FLASH_PARAM_RESTORE_ADDR : Z;
  CODE_UPD_START_ADDR : Z;
  CODE_UPD_AREA_LEN : Z;
  EX_USER_ADDR_START : Z;
  EX_USER_AREA_LEN : Z;
  EX_USER_ADDR_END : Z;
  TLS_FLASH_END_ADDR : Z;
}.

(** A 2 MByte flash that runs an image of the old type. *)
Definition layout_2M_old : flash_layout :=
  let run_len := 896 * 1024 - 256 in
  let user := CODE_RUN_START_ADDR + run_len in
  let user_len := 48 * 1024 in
  let upd_header := user + user_len in
  let param1 := upd_header + 0x1000 in
  let param2 := param1 + 0x1000 in
  let restore := param2 + 0x1000 in
  let upd := restore + 0x1000 in
  let upd_len := 704 * 1024 in
  let ex := upd + upd_len in
  let ex_len := 320 * 1024 in
  mk_layout run_len user user user_len (user + user_len - 1) upd_header param1 param2 restore
    upd upd_len ex ex_len (ex + ex_len - 1) (ex + ex_len - 1).

(** A 2 MByte flash otherwise. *)
Definition layout_2M_new : flash_layout :=
  let run_len := 960 * 1024 - 256 in
  let upd := CODE_RUN_START_ADDR + run_len in
  let upd_len := 768 * 1024 in
  let user := upd + upd_len in
  let user_len := 240 * 1024 in
  let upd_header := user + user_len in
  let param1 := upd_header + 0x1000 in
  let param2 := param1 + 0x1000 in
  let restore := param2 + 0x1000 in
  mk_layout run_len user user user_len (user + user_len - 1) upd_header param1 param2 restore
    upd upd_len 0 0 0 (restore + 0x1000 - 1).

(** Every other size. *)
Definition layout_1M : flash_layout :=
  let run_len := 512 * 1024 - 256 in
  let upd := CODE_RUN_START_ADDR + run_len in
  let upd_len := 384 * 1024 in
  let user := upd + upd_len in
  let user_len := 48 * 1024 in
  let upd_header := user + user_len in
  let param1 := upd_header + 0x1000 in
  let param2 := param1 + 0x1000 in
  let restore := param2 + 0x1000 in
  mk_layout run_len user user user_len (user + user_len - 1) upd_header param1 param2 restore
    upd upd_len 0 0 0 (restore + 0x1000 - 1).

Section init.
Context {F : Type} `{!FlashDev F}.
Local Open Scope c_scope.

(** [tbooter] is the uninitialised local the header is read into. *)
Definition tls_fls_layout_init (flashtotalsize : Z) (tbooter : list Z) : M F flash_layout :=
  let* ' (_, tbooter) := fls_read CODE_RUN_HEADER_ADDR tbooter T_BOOTER_SIZE in
  ret (if flashtotalsize =? 0x200000 then
         if IMG_TYPE_OLD_PLAIN =? img_type tbooter then layout_2M_old else layout_2M_new
       else layout_1M).
End init.

(** ** Properties *)

(** The addresses the parameter store uses. *)
Definition area_of (l : flash_layout) : param_area :=
  mk_area (TLS_FLASH_PARAM1_ADDR l) (TLS_FLASH_PARAM2_ADDR l) (TLS_FLASH_PARAM_RESTORE_ADDR l)
    (TLS_FLASH_PARAM_DEFAULT l).

(** The areas, as start and length. *)
Definition regions (l : flash_layout) : list (Z * Z) :=
  [(CODE_RUN_HEADER_ADDR, CODE_RUN_HEADER_AREA_LEN); (CODE_RUN_START_ADDR, CODE_RUN_AREA_LEN l);
   (CODE_UPD_START_ADDR l, CODE_UPD_AREA_LEN l); (USER_ADDR_START l, USER_AREA_LEN l);
   (CODE_UPD_HEADER_ADDR l, 0x1000); (TLS_FLASH_PARAM1_ADDR l, 0x1000);
   (TLS_FLASH_PARAM2_ADDR l, 0x1000); (TLS_FLASH_PARAM_RESTORE_ADDR l, 0x1000);
   (EX_USER_ADDR_START l, EX_USER_AREA_LEN l)].
Definition in_region (x : Z) (r : Z * Z) : bool := (r.1 <=? x) && (x <? r.1 + r.2).

Lemma layout_read {F} `{FlashDevOk F} (f : F) total tbooter :
  fd_ok f → fd_lo <= CODE_RUN_HEADER_ADDR → CODE_RUN_HEADER_ADDR + T_BOOTER_SIZE <= fd_hi →
  blen tbooter = T_BOOTER_SIZE →
  wp (tls_fls_layout_init total tbooter) (λ l f', fd_ok f' ∧
    (∀ x, fd_lo <= x < fd_hi → fd_mem f' x = fd_mem f x) ∧
    l = if total =? 0x200000
        then if img_type (fd_bytes f CODE_RUN_HEADER_ADDR T_BOOTER_SIZE) =? IMG_TYPE_OLD_PLAIN
             then layout_2M_old else layout_2M_new
        else layout_1M) f.
Proof.
  intros Hf Hlo Hhi Hl. unfold tls_fls_layout_init. wp_step.
  eapply wp_mono; [apply fls_read_ok; try done; rewrite ?Hl; unfold T_BOOTER_SIZE; lia|].
  intros r f' (-> & Hf' & Hm). cbv beta iota. apply wp_ret. split; [done|]. split; [done|].
  rewrite splice_all by (rewrite Hl; by apply blen_fmap_seqZ). by rewrite Z.eqb_sym.
Qed.

(** What one of the three layouts satisfies, by computation. *)
Definition layout_good (total : Z) (l : flash_layout) : Prop :=
  (∀ x, CODE_RUN_HEADER_ADDR <= x < 0x8000000 + total →
     length (List.filter (in_region x) (regions l)) = 1%nat) ∧
  TLS_FLASH_END_ADDR l = 0x8000000 + total - 1 ∧
  CODE_UPD_START_ADDR l mod 0x10000 = 0 ∧
  Forall (λ a, a mod 0x1000 = 0) [USER_ADDR_START l; CODE_UPD_HEADER_ADDR l;
    TLS_FLASH_PARAM1_ADDR l; TLS_FLASH_PARAM2_ADDR l; TLS_FLASH_PARAM_RESTORE_ADDR l] ∧
  CODE_RUN_HEADER_ADDR <= TLS_FLASH_PARAM1_ADDR l ∧
  TLS_FLASH_PARAM1_ADDR l + 0x1000 = TLS_FLASH_PARAM2_ADDR l ∧
  TLS_FLASH_PARAM2_ADDR l + 0x1000 = TLS_FLASH_PARAM_RESTORE_ADDR l ∧
  TLS_FLASH_PARAM_RESTORE_ADDR l + 0x1000 <= 0x8000000 + total.

Ltac layout_by_computation :=
  unfold layout_good; split;
  [ let x := fresh "x" in let Hx := fresh "Hx" in intros x Hx;
    unfold CODE_RUN_HEADER_ADDR in Hx;
    match goal with |- context [regions ?l] =>
      let r := eval vm_compute in (regions l) in change (regions l) with r end;
    unfold in_region; cbn [List.filter fst snd];
    repeat (case_if; try (exfalso; lia)); cbn [length]; reflexivity
  | repeat split; repeat constructor; vm_compute; (reflexivity || discriminate) ].

Lemma layout_2M_old_good : layout_good 0x200000 layout_2M_old.
Proof. layout_by_computation. Qed.
Lemma layout_2M_new_good : layout_good 0x200000 layout_2M_new.
Proof. layout_by_computation. Qed.
Lemma layout_1M_good : layout_good 0x100000 layout_1M.
Proof. layout_by_computation. Qed.

Lemma layout_area_ok {F} `{FlashDevOk F} total l : layout_good total l →
  fd_lo <= CODE_RUN_HEADER_ADDR → 0x8000000 + total <= fd_hi → area_ok (area_of l).
Proof.
  intros (_ & _ & _ & Hal & H1 & H2 & H3 & H4) Hlo Hhi.
  assert (TLS_FLASH_PARAM_RESTORE_ADDR l mod 0x1000 = 0) as Hr
    by (do 4 apply Forall_inv_tail in Hal; by apply Forall_inv in Hal).
  unfold area_ok. rewrite FLASH_REC_SIZE_eq. cbn [PARAM1 PARAM2 PARAM_RESTORE area_of].
  change 0x1000 with 4096 in *. cbv zeta. dlia.
Qed.

(** C20: whatever image is installed, on a 1 MByte and on a 2 MByte flash the
    areas [tls_fls_layout_init] lays out partition the flash past the boot
    loader: every address is in exactly one area, the areas the drivers erase
    start on a sector, the update area on a block, and the parameter store
    gets the two sectors and the restore sector its correctness asks for. *)
Theorem layout_partitions {F} `{FlashDevOk F} (f : F) total tbooter :
  fd_ok f → fd_lo <= CODE_RUN_HEADER_ADDR → 0x8000000 + total <= fd_hi →
  total = 0x100000 ∨ total = 0x200000 → blen tbooter = T_BOOTER_SIZE →
  ∃ l f', tls_fls_layout_init total tbooter f = Some (l, f') ∧
    (∀ x, CODE_RUN_HEADER_ADDR <= x < 0x8000000 + total →
       length (List.filter (in_region x) (regions l)) = 1%nat) ∧
    TLS_FLASH_END_ADDR l = 0x8000000 + total - 1 ∧
    CODE_UPD_START_ADDR l mod 0x10000 = 0 ∧
    Forall (λ a, a mod 0x1000 = 0) [USER_ADDR_START l; CODE_UPD_HEADER_ADDR l;
      TLS_FLASH_PARAM1_ADDR l; TLS_FLASH_PARAM2_ADDR l; TLS_FLASH_PARAM_RESTORE_ADDR l] ∧
    area_ok (area_of l).
Proof.
  intros Hf Hlo Hhi Htot Hl.
  assert (wp (tls_fls_layout_init total tbooter) (λ l _, layout_good total l) f) as Hw.
  { eapply wp_mono; [apply layout_read; try done; unfold CODE_RUN_HEADER_ADDR, T_BOOTER_SIZE in *; lia|].
    intros l f' (_ & _ & ->). destruct Htot as [-> | ->]; [exact layout_1M_good|].
    change (2097152 =? 2097152) with true. cbv iota.
    case_if; [exact layout_2M_old_good|exact layout_2M_new_good]. }
  apply wp_total in Hw as (l & f' & Hrun & Hgood). exists l, f'. split; [exact Hrun|].
  pose proof (layout_area_ok total l Hgood Hlo Hhi) as Harea.
  destruct Hgood as (H1 & H2 & H3 & H4 & _). auto.
Qed.

Lemma layout_partitions_witness :
  ∃ l f', tls_fls_layout_init 0x200000 (replicate 56 0) (λ _, 0) = Some (l, f') ∧
    area_ok (F := array) (area_of l).
Proof.
  destruct (layout_partitions (F := array) (λ _, 0) 0x200000 (replicate 56 0))
    as (l & f' & H1 & _ & _ & _ & _ & H2).
  - exact I.
  - unfold fd_lo, CODE_RUN_HEADER_ADDR. cbn. lia.
  - unfold fd_hi. cbn. lia.
  - by right.
  - reflexivity.
  - exists l, f'. split; [exact H1|exact H2].
Defined.
