(* ===== verification/Fwup.v ===== *)
(** * [src/Platform/Common/fwup/wm_fwup.c]: the firmware update

    A session is opened with [tls_fwup_enter]; the image is handed over in
    blocks by [tls_fwup_request_sync], which queues a request and waits for the
    update task.  The task checks the header that starts the image, collects
    the rest in a sector buffer, writes it to the update area, checks the whole
    against the checksum of the header and at last writes the update header,
    which makes the boot loader install the image. *)
From S2P Require Import Prelude Utils FlashStore ParamLayout Params HwCrc FlashLayout.

Definition TLS_FWUP_STATUS_OK := 0.
Definition TLS_FWUP_STATUS_EINVALID := 1.
Definition TLS_FWUP_STATUS_EMEM := 2.
Definition TLS_FWUP_STATUS_EPERM := 3.
Definition TLS_FWUP_STATUS_EBUSY := 4.
Definition TLS_FWUP_STATUS_ESESSIONID := 5.
Definition TLS_FWUP_STATUS_EIO := 6.
Definition TLS_FWUP_STATUS_ESIGNATURE := 7.
Definition TLS_FWUP_STATUS_ECRC := 8.
Definition TLS_FWUP_STATUS_EUNDEF := 9.
Definition TLS_FWUP_REQ_STATUS_SUCCESS := 2.
Definition TLS_FWUP_REQ_STATUS_BUSY := 1.
Definition TLS_FWUP_REQ_STATUS_FIO := 3.
Definition TLS_FWUP_REQ_STATUS_FSIGNATURE := 4.
Definition TLS_FWUP_REQ_STATUS_FMEM := 5.
Definition TLS_FWUP_REQ_STATUS_FCRC := 6.
Definition TLS_FWUP_REQ_STATUS_FCOMPLETE := 7.
Definition TLS_FWUP_STATE_UNDEF := 0xffff.
Definition TLS_FWUP_STATE_BUSY := 1.
Definition TLS_FWUP_STATE_COMPLETE := 2.
Definition TLS_FWUP_STATE_ERROR_IO := 4.
Definition TLS_FWUP_STATE_ERROR_SIGNATURE := 8.
Definition TLS_FWUP_STATE_ERROR_MEM := 16.
Definition TLS_FWUP_STATE_ERROR_CRC := 32.
Definition TLS_FWUP_STATE_ERROR := 60.
Definition TLS_FWUP_IMAGE_SRC_WEB := 3.
Definition SIGNATURE_WORD := 0xa0ffff9f.
Definition FLASH_BASE := 0x8000000.
Definition FLASH_1M_END := 0x8100000.
Definition SECTOR_SIZE := 0x1000.
Definition BLOCK_SIZE := 0x10000.
Definition PAGE_SIZE := 256.
Definition WIFI_AUTO_CNT_ON := 1.
Definition WIFI_AUTO_CNT_TMP_OFF := 3.

(** The calls into the Wi-Fi library, which is not part of the sources: the
    one-shot flag, the power-save switch and the automatic-connection mode. *)
Class Wifi (W : Type) := {
  tls_wifi_get_oneshot_flag : W → Z;
  tls_wifi_set_oneshot_flag : Z → W → W;
  tls_wifi_set_psflag : Z → W → W;
  tls_wifi_get_auto : Z → W → Z;
  tls_wifi_set_auto : Z → W → W;
}.

(** ** State *)

(** [struct tls_fwup_request]: the data from the pointer to the end of their
    buffer, and the length. *)
Record request := mk_req { data : list Z; data_len : Z }.

(** [struct tls_fwup] *)
Record fwup_t := mk_fwup {
  wait_list : list request;
  list_lock : Z;
  busy : bool;
  current_image_src : Z;
  current_state : Z; (* u16 *)
  current_session_id : Z;
  received_len : Z;
  total_len : Z;
  updated_len : Z;
  program_base : Z;
  program_offset : Z;
  received_number : Z;
}.

Section fwup_t_setters.
Implicit Type s : fwup_t.
Definition set_wait_list (x : list request) s := mk_fwup x (list_lock s) (busy s)
  (current_image_src s) (current_state s) (current_session_id s) (received_len s) (total_len
  s) (updated_len s) (program_base s) (program_offset s) (received_number s).
Definition set_list_lock (x : Z) s := mk_fwup (wait_list s) x (busy s) (current_image_src s)
  (current_state s) (current_session_id s) (received_len s) (total_len s) (updated_len s)
  (program_base s) (program_offset s) (received_number s).
Definition set_busy (x : bool) s := mk_fwup (wait_list s) (list_lock s) x (current_image_src
  s) (current_state s) (current_session_id s) (received_len s) (total_len s) (updated_len s)
  (program_base s) (program_offset s) (received_number s).
Definition set_current_image_src (x : Z) s := mk_fwup (wait_list s) (list_lock s) (busy s) x
  (current_state s) (current_session_id s) (received_len s) (total_len s) (updated_len s)
  (program_base s) (program_offset s) (received_number s).
Definition set_current_state (x : Z) s := mk_fwup (wait_list s) (list_lock s) (busy s)
  (current_image_src s) x (current_session_id s) (received_len s) (total_len s) (updated_len
  s) (program_base s) (program_offset s) (received_number s).
Definition set_current_session_id (x : Z) s := mk_fwup (wait_list s) (list_lock s) (busy s)
  (current_image_src s) (current_state s) x (received_len s) (total_len s) (updated_len s)
  (program_base s) (program_offset s) (received_number s).
Definition set_received_len (x : Z) s := mk_fwup (wait_list s) (list_lock s) (busy s)
  (current_image_src s) (current_state s) (current_session_id s) x (total_len s) (updated_len
  s) (program_base s) (program_offset s) (received_number s).
Definition set_total_len (x : Z) s := mk_fwup (wait_list s) (list_lock s) (busy s)
  (current_image_src s) (current_state s) (current_session_id s) (received_len s) x
  (updated_len s) (program_base s) (program_offset s) (received_number s).
Definition set_updated_len (x : Z) s := mk_fwup (wait_list s) (list_lock s) (busy s)
  (current_image_src s) (current_state s) (current_session_id s) (received_len s) (total_len
  s) x (program_base s) (program_offset s) (received_number s).
Definition set_program_base (x : Z) s := mk_fwup (wait_list s) (list_lock s) (busy s)
  (current_image_src s) (current_state s) (current_session_id s) (received_len s) (total_len
  s) (updated_len s) x (program_offset s) (received_number s).
Definition set_program_offset (x : Z) s := mk_fwup (wait_list s) (list_lock s) (busy s)
  (current_image_src s) (current_state s) (current_session_id s) (received_len s) (total_len
  s) (updated_len s) (program_base s) x (received_number s).
Definition set_received_number (x : Z) s := mk_fwup (wait_list s) (list_lock s) (busy s)
  (current_image_src s) (current_state s) (current_session_id s) (received_len s) (total_len
  s) (updated_len s) (program_base s) (program_offset s) x.
End fwup_t_setters.

(** The pointer [fwup]: null, the structure, or a block that was freed. *)
Inductive fwup_ptr :=
  | Null
  | Live (f : fwup_t)
  | Dangling.

(** The globals of the module, what it works on, and the locals of the task,
    which live from one request to the next. *)
Record fw_state (F : Type) (W : Type) := mk_fw {
  params : pst F; (* the parameter store, the flash and the allocator *)
  sec_cfg : Z; (* the register of the crypto unit *)
  wifi : W;
  fwup : fwup_ptr;
  fwup_msg_queue : Z; (* messages waiting *)
  fwupwritebuffer : option (list Z);
  oneshotback : Z;
  imgheader0 : list Z;
  imgheader1 : list Z;
  flashtotalsize : Z;
  layout : flash_layout;
  rands : list Z; (* what rand() answers next *)
  resets : Z; (* calls of tls_sys_reset *)
  booter : list Z; (* locals of the task *)
  org_checksum : Z;
  currentlen : Z;
  isacrossflash : bool;
}.
Arguments mk_fw {F} {W}.
Arguments params {F} {W}.
Arguments sec_cfg {F} {W}.
Arguments wifi {F} {W}.
Arguments fwup {F} {W}.
Arguments fwup_msg_queue {F} {W}.
Arguments fwupwritebuffer {F} {W}.
Arguments oneshotback {F} {W}.
Arguments imgheader0 {F} {W}.
Arguments imgheader1 {F} {W}.
Arguments flashtotalsize {F} {W}.
Arguments layout {F} {W}.
Arguments rands {F} {W}.
Arguments resets {F} {W}.
Arguments booter {F} {W}.
Arguments org_checksum {F} {W}.
Arguments currentlen {F} {W}.
Arguments isacrossflash {F} {W}.

Section fw_state_setters.
Context {F W : Type}.
Implicit Type s : fw_state F W.
Definition set_params (x : pst F) s := mk_fw x (sec_cfg s) (wifi s) (fwup s) (fwup_msg_queue
  s) (fwupwritebuffer s) (oneshotback s) (imgheader0 s) (imgheader1 s) (flashtotalsize s)
  (layout s) (rands s) (resets s) (booter s) (org_checksum s) (currentlen s) (isacrossflash
  s).
Definition set_sec_cfg (x : Z) s := mk_fw (params s) x (wifi s) (fwup s) (fwup_msg_queue s)
  (fwupwritebuffer s) (oneshotback s) (imgheader0 s) (imgheader1 s) (flashtotalsize s) (layout
  s) (rands s) (resets s) (booter s) (org_checksum s) (currentlen s) (isacrossflash s).
Definition set_wifi (x : W) s := mk_fw (params s) (sec_cfg s) x (fwup s) (fwup_msg_queue s)
  (fwupwritebuffer s) (oneshotback s) (imgheader0 s) (imgheader1 s) (flashtotalsize s) (layout
  s) (rands s) (resets s) (booter s) (org_checksum s) (currentlen s) (isacrossflash s).
Definition set_fwup (x : fwup_ptr) s := mk_fw (params s) (sec_cfg s) (wifi s) x
  (fwup_msg_queue s) (fwupwritebuffer s) (oneshotback s) (imgheader0 s) (imgheader1 s)
  (flashtotalsize s) (layout s) (rands s) (resets s) (booter s) (org_checksum s) (currentlen
  s) (isacrossflash s).
Definition set_fwup_msg_queue (x : Z) s := mk_fw (params s) (sec_cfg s) (wifi s) (fwup s) x
  (fwupwritebuffer s) (oneshotback s) (imgheader0 s) (imgheader1 s) (flashtotalsize s) (layout
  s) (rands s) (resets s) (booter s) (org_checksum s) (currentlen s) (isacrossflash s).
Definition set_fwupwritebuffer (x : option (list Z)) s := mk_fw (params s) (sec_cfg s) (wifi
  s) (fwup s) (fwup_msg_queue s) x (oneshotback s) (imgheader0 s) (imgheader1 s)
  (flashtotalsize s) (layout s) (rands s) (resets s) (booter s) (org_checksum s) (currentlen
  s) (isacrossflash s).
Definition set_oneshotback (x : Z) s := mk_fw (params s) (sec_cfg s) (wifi s) (fwup s)
  (fwup_msg_queue s) (fwupwritebuffer s) x (imgheader0 s) (imgheader1 s) (flashtotalsize s)
  (layout s) (rands s) (resets s) (booter s) (org_checksum s) (currentlen s) (isacrossflash
  s).
Definition set_imgheader0 (x : list Z) s := mk_fw (params s) (sec_cfg s) (wifi s) (fwup s)
  (fwup_msg_queue s) (fwupwritebuffer s) (oneshotback s) x (imgheader1 s) (flashtotalsize s)
  (layout s) (rands s) (resets s) (booter s) (org_checksum s) (currentlen s) (isacrossflash
  s).
Definition set_imgheader1 (x : list Z) s := mk_fw (params s) (sec_cfg s) (wifi s) (fwup s)
  (fwup_msg_queue s) (fwupwritebuffer s) (oneshotback s) (imgheader0 s) x (flashtotalsize s)
  (layout s) (rands s) (resets s) (booter s) (org_checksum s) (currentlen s) (isacrossflash
  s).
Definition set_flashtotalsize (x : Z) s := mk_fw (params s) (sec_cfg s) (wifi s) (fwup s)
  (fwup_msg_queue s) (fwupwritebuffer s) (oneshotback s) (imgheader0 s) (imgheader1 s) x
  (layout s) (rands s) (resets s) (booter s) (org_checksum s) (currentlen s) (isacrossflash
  s).
Definition set_layout (x : flash_layout) s := mk_fw (params s) (sec_cfg s) (wifi s) (fwup s)
  (fwup_msg_queue s) (fwupwritebuffer s) (oneshotback s) (imgheader0 s) (imgheader1 s)
  (flashtotalsize s) x (rands s) (resets s) (booter s) (org_checksum s) (currentlen s)
  (isacrossflash s).
Definition set_rands (x : list Z) s := mk_fw (params s) (sec_cfg s) (wifi s) (fwup s)
  (fwup_msg_queue s) (fwupwritebuffer s) (oneshotback s) (imgheader0 s) (imgheader1 s)
  (flashtotalsize s) (layout s) x (resets s) (booter s) (org_checksum s) (currentlen s)
  (isacrossflash s).
Definition set_resets (x : Z) s := mk_fw (params s) (sec_cfg s) (wifi s) (fwup s)
  (fwup_msg_queue s) (fwupwritebuffer s) (oneshotback s) (imgheader0 s) (imgheader1 s)
  (flashtotalsize s) (layout s) (rands s) x (booter s) (org_checksum s) (currentlen s)
  (isacrossflash s).
Definition set_booter (x : list Z) s := mk_fw (params s) (sec_cfg s) (wifi s) (fwup s)
  (fwup_msg_queue s) (fwupwritebuffer s) (oneshotback s) (imgheader0 s) (imgheader1 s)
  (flashtotalsize s) (layout s) (rands s) (resets s) x (org_checksum s) (currentlen s)
  (isacrossflash s).
Definition set_org_checksum (x : Z) s := mk_fw (params s) (sec_cfg s) (wifi s) (fwup s)
  (fwup_msg_queue s) (fwupwritebuffer s) (oneshotback s) (imgheader0 s) (imgheader1 s)
  (flashtotalsize s) (layout s) (rands s) (resets s) (booter s) x (currentlen s)
  (isacrossflash s).
Definition set_currentlen (x : Z) s := mk_fw (params s) (sec_cfg s) (wifi s) (fwup s)
  (fwup_msg_queue s) (fwupwritebuffer s) (oneshotback s) (imgheader0 s) (imgheader1 s)
  (flashtotalsize s) (layout s) (rands s) (resets s) (booter s) (org_checksum s) x
  (isacrossflash s).
Definition set_isacrossflash (x : bool) s := mk_fw (params s) (sec_cfg s) (wifi s) (fwup s)
  (fwup_msg_queue s) (fwupwritebuffer s) (oneshotback s) (imgheader0 s) (imgheader1 s)
  (flashtotalsize s) (layout s) (rands s) (resets s) (booter s) (org_checksum s) (currentlen
  s) x.
End fw_state_setters.

(** ** The image header *)

Section ops.
Context {F W : Type} `{!FlashDev F} `{!Wifi W} `{!CrcEngine}.
Local Open Scope c_scope.
Local Abbreviation MF := (M (fw_state F W)).

Definition on_flash {A} (m : M F A) : MF A :=
  lift (λ s, fl (params s)) (λ f s, set_params (set_fl f (params s)) s) m.
Definition on_params {A} (m : M (pst F) A) : MF A := lift params set_params m.
Definition on_crc {A} (m : M Z A) : MF A := lift sec_cfg set_sec_cfg m.
Definition on_wifi (g : W → W) : MF unit := modify (λ s, set_wifi (g (wifi s)) s).
(** [fwup->...]: reading and updating the structure. *)
Definition live : MF fwup_t :=
  let* p := gets fwup in match p with Live f => ret f | _ => stuck end.
Definition upd (g : fwup_t → fwup_t) : MF unit :=
  let* f := live in modify (set_fwup (Live (g f))).
Definition add_state (bits : Z) : MF unit :=
  upd (λ f, set_current_state (Z.lor (current_state f) bits) f).

Definition fwup_update_autoflag : MF unit :=
  let* auto_reconnect := gets (λ s, tls_wifi_get_auto 0xff (wifi s)) in
  if auto_reconnect =? WIFI_AUTO_CNT_TMP_OFF then on_wifi (tls_wifi_set_auto WIFI_AUTO_CNT_ON)
  else ret tt.

(** [for (i = 0; i < (sizeof(T_BOOTER)-4)/4; i++)]: the checksum, word by word. *)
Fixpoint crc_words (n : nat) (i : Z) (ctx : psCrcContext) (img_param : list Z)
    : MF psCrcContext :=
  match n with
  | O => ret ctx
  | S n' =>
      let value := u32_at img_param (4 * i) in
      let* ctx := on_crc (tls_crypto_crc_update ctx (le32 value) 4) in
      crc_words n' (i + 1) ctx img_param
  end.

(** The end of the area an update must keep clear of: that of the new image
    and of the running one, up to the next block. *)
Definition clear_of (runaddr run_len : Z) (running : list Z) : Z :=
  let value := u32 (runaddr + run_len) in
  let value := if value <? u32 (run_img_addr running + run_img_len running)
               then u32 (Z.lor (run_img_addr running) FLASH_BASE + run_img_len running)
               else value in
  if truth (value mod BLOCK_SIZE) then u32 (value / BLOCK_SIZE * BLOCK_SIZE + BLOCK_SIZE)
  else value.

Definition tls_fwup_img_header_check (img_param : list Z) : MF bool :=
  if negb (magic_no img_param =? SIGNATURE_WORD) then ret false
  else if negb (IMG_TYPE_OLD_PLAIN =? img_type img_param)
          && negb (IMG_TYPE_NEW_PLAIN =? img_type img_param) then ret false
  else
    let ctx := tls_crypto_crc_init 0xFFFFFFFF CRYPTO_CRC_TYPE_32 3 in
    let* ctx := crc_words 13 0 ctx img_param in
    let value := tls_crypto_crc_final ctx in
    let runaddr := Z.lor (run_img_addr img_param) FLASH_BASE in
    if (hd_checksum img_param =? value) && (runaddr <? FLASH_1M_END) then
      let* h := gets imgheader0 in
      let* ' (_, h) := on_flash (fls_read CODE_RUN_HEADER_ADDR h T_BOOTER_SIZE) in
      modify (set_imgheader0 h) ;;
      let* total := gets flashtotalsize in
      if negb (img_type h =? img_type img_param) then ret false
      else if truth (runaddr mod PAGE_SIZE) || (0 =? run_img_len img_param)
              || (FLASH_1M_END <=? u32 (runaddr + run_img_len img_param))
              || (runaddr <? CODE_RUN_START_ADDR) then ret false
      else
        let value := clear_of runaddr (run_img_len img_param) h in
        let updaddr := Z.lor (upd_img_addr img_param) FLASH_BASE in
        if (updaddr <? value) || truth (updaddr mod BLOCK_SIZE) || (0 =? upd_img_len img_param)
        then ret false
        else if Z.lor (u32 (total - BLOCK_SIZE)) FLASH_BASE
                <? u32 (updaddr + upd_img_len img_param) then ret false
        else ret true
    else ret false.

(** Called with the task's [booter]. *)
Definition tls_fwup_img_update_header : MF unit :=
  let* h0 := gets imgheader0 in
  let* ' (_, h0) := on_flash (fls_read CODE_RUN_HEADER_ADDR h0 T_BOOTER_SIZE) in
  modify (set_imgheader0 h0) ;;
  let* h1 := gets imgheader1 in
  let* addr := gets (λ s, CODE_UPD_HEADER_ADDR (layout s)) in
  let* ' (_, h1) := on_flash (fls_read addr h1 T_BOOTER_SIZE) in
  modify (set_imgheader1 h1) ;;
  let* ok := tls_fwup_img_header_check h1 in
  let* h0 := gets imgheader0 in
  let current := if ok && (upd_no h0 <? upd_no h1) then h1 else h0 in
  let* img := gets booter in
  let img := splice img 32 (le32 (u32 (upd_no current + 1))) in
  let ctx := tls_crypto_crc_init 0xFFFFFFFF CRYPTO_CRC_TYPE_32 3 in
  let* ctx := on_crc (tls_crypto_crc_update ctx img (T_BOOTER_SIZE - 4)) in
  let img := splice img 52 (le32 (tls_crypto_crc_final ctx)) in
  modify (set_booter img) ;;
  on_flash (fls_write addr img T_BOOTER_SIZE) ;;
  ret tt.

(** ** One request of the update task *)

(** Where a piece of the body of the loop goes next: to [request_finish] with
    a status, or on, with the pointer [buffer] and the length left. *)
Inductive outcome :=
  | Finish (status : Z)
  | Go (buffer : list Z) (len : Z).

(** Collecting the header. *)
Definition take_header (rq : request) : MF outcome :=
  let* f := live in
  if received_len f <? T_BOOTER_SIZE then
    let len := T_BOOTER_SIZE - received_len f in
    let len := if data_len rq <? len then data_len rq else len in
    let* img := gets booter in
    let* img := of_opt (memcpy img 0 (data rq) 0 T_BOOTER_SIZE) in
    modify (set_booter img) ;;
    let left := data_len rq - len in
    let buffer := drop (Z.to_nat len) (data rq) in
    upd (λ f, set_received_len (u32 (received_len f + len)) f) ;;
    let* f := live in
    if received_len f =? T_BOOTER_SIZE then
      let* ok := tls_fwup_img_header_check img in
      if negb ok then
        add_state TLS_FWUP_STATE_ERROR_IO ;; ret (Finish TLS_FWUP_REQ_STATUS_FIO)
      else if (IMG_TYPE_OLD_PLAIN =? img_type img) || (IMG_TYPE_NEW_PLAIN =? img_type img) then
        upd (set_program_base (Z.lor (upd_img_addr img) FLASH_BASE)) ;;
        upd (set_total_len (upd_img_len img)) ;;
        modify (set_org_checksum (upd_checksum img)) ;;
        modify (set_isacrossflash false) ;;
        modify (set_currentlen 0) ;;
        upd (set_updated_len 0) ;;
        ret (Go buffer left)
      else ret (Finish TLS_FWUP_REQ_STATUS_FCRC)
    else ret (Go buffer left)
  else ret (Go (data rq) (data_len rq)).

(** An image of the old type on a 2 MByte flash continues at the second
    MByte when it reaches the last block of the first. *)
Definition across_test : MF unit :=
  let* img := gets booter in
  let* total := gets flashtotalsize in
  let* f := live in
  if (IMG_TYPE_OLD_PLAIN =? img_type img) && (0x200000 =? total)
     && (program_base f <? FLASH_1M_END)
     && (FLASH_1M_END - BLOCK_SIZE <=? u32 (program_base f + updated_len f)) then
    modify (set_isacrossflash true) ;;
    upd (set_program_base FLASH_1M_END) ;;
    upd (set_program_offset 0)
  else ret tt.

(** The data go to the sector buffer [wb], which is written when it is full;
    [Some status] leaves for [request_finish]. *)
Definition store_data (wb buffer : list Z) (len : Z) : MF (option Z) :=
  let* cur := gets currentlen in
  if u32 (cur + len) <? SECTOR_SIZE then
    let* wb := of_opt (memcpy wb cur buffer 0 len) in
    modify (set_fwupwritebuffer (Some wb)) ;;
    modify (set_currentlen (u32 (cur + len))) ;;
    upd (λ f, set_updated_len (u32 (updated_len f + len)) f) ;;
    ret None
  else
    across_test ;;
    let* wb := of_opt (memcpy wb cur buffer 0 (SECTOR_SIZE - cur)) in
    modify (set_fwupwritebuffer (Some wb)) ;;
    let* f := live in
    let tmplen := program_offset f / SECTOR_SIZE * SECTOR_SIZE in
    let* err := on_flash (fls_write (u32 (program_base f + tmplen)) wb SECTOR_SIZE) in
    if negb (err =? 0) then
      add_state TLS_FWUP_STATE_ERROR_IO ;; ret (Some TLS_FWUP_REQ_STATUS_FIO)
    else
      let* wb := of_opt (memcpy wb 0 buffer (SECTOR_SIZE - cur) (u32 (cur + len) - SECTOR_SIZE)) in
      modify (set_fwupwritebuffer (Some wb)) ;;
      upd (λ f, set_program_offset (u32 (program_offset f + SECTOR_SIZE)) f) ;;
      upd (λ f, set_updated_len (u32 (updated_len f + len)) f) ;;
      modify (set_currentlen (u32 (cur + len) - SECTOR_SIZE)) ;;
      ret None.

(** [while (left > 0)]: the checksum of what the flash holds, through the
    sector buffer; the new offset and context, or [None] for a read error. *)
Fixpoint crc_loop (fuel : nat) (base offset left : Z) (ctx : psCrcContext)
    : MF (option (Z * psCrcContext)) :=
  if left =? 0 then ret (Some (offset, ctx))
  else match fuel with
  | O => stuck
  | S fuel' =>
      let len := if SECTOR_SIZE <? left then SECTOR_SIZE else left in
      let* wb := gets fwupwritebuffer in
      let* wb := of_opt wb in
      let* ' (err, wb) := on_flash (fls_read (u32 (base + offset)) wb len) in
      modify (set_fwupwritebuffer (Some wb)) ;;
      if negb (err =? 0) then ret None
      else
        let* ctx := on_crc (tls_crypto_crc_update ctx wb len) in
        crc_loop fuel' base (u32 (offset + len)) (left - len) ctx
  end.
Definition crc_rounds (left : Z) : nat := Z.to_nat (left / SECTOR_SIZE + 1).

(** The checksum of the image in the update area. *)
Definition image_crc : MF (option Z) :=
  let* across := gets isacrossflash in
  let* f := live in
  let left := if across then u32 (FLASH_1M_END - BLOCK_SIZE - program_base f) else total_len f in
  let ctx := tls_crypto_crc_init 0xFFFFFFFF CRYPTO_CRC_TYPE_32 3 in
  let* r := crc_loop (crc_rounds left) (program_base f) 0 left ctx in
  match r with
  | None => ret None
  | Some (offset, ctx) =>
      if across then
        let left := u32 (total_len f - offset) in
        upd (set_program_base FLASH_1M_END) ;;
        let* r := crc_loop (crc_rounds left) FLASH_1M_END 0 left ctx in
        match r with
        | None => ret None
        | Some (_, ctx) => ret (Some (tls_crypto_crc_final ctx))
        end
      else ret (Some (tls_crypto_crc_final ctx))
  end.

(** [if (fwup->updated_len >= fwup->total_len)]: the rest of the buffer is
    written, the image checked and the update header stored. *)
Definition finish_image : MF (option Z) :=
  let* f := live in
  if total_len f <=? updated_len f then
    let* err :=
      (if program_offset f <=? updated_len f then
         across_test ;;
         let* f := live in
         let* wb := gets fwupwritebuffer in
         let* wb := of_opt wb in
         let* cur := gets currentlen in
         on_flash (fls_write (u32 (program_base f + program_offset f)) wb cur)
       else ret 0) in
    if negb (err =? 0) then
      add_state TLS_FWUP_STATE_ERROR_IO ;; ret (Some TLS_FWUP_REQ_STATUS_FIO)
    else
      let* img := gets booter in
      upd (set_program_base (Z.lor (upd_img_addr img) FLASH_BASE)) ;;
      let* crc := image_crc in
      match crc with
      | None => add_state TLS_FWUP_STATE_ERROR_IO ;; ret (Some TLS_FWUP_REQ_STATUS_FIO)
      | Some image_checksum =>
          let* org := gets org_checksum in
          if negb (org =? image_checksum) then
            add_state TLS_FWUP_STATE_ERROR_CRC ;; ret (Some TLS_FWUP_REQ_STATUS_FCRC)
          else
            tls_fwup_img_update_header ;;
            add_state TLS_FWUP_STATE_COMPLETE ;;
            let* back := gets oneshotback in
            (if back =? 1 then on_wifi (tls_wifi_set_oneshot_flag back) else ret tt) ;;
            ret None
      end
  else ret None.

(** The status of a request once a session has failed. *)
Definition error_status (state : Z) : Z :=
  if truth (Z.land state TLS_FWUP_STATE_ERROR_IO) then TLS_FWUP_REQ_STATUS_FIO
  else if truth (Z.land state TLS_FWUP_STATE_ERROR_SIGNATURE) then TLS_FWUP_REQ_STATUS_FSIGNATURE
  else if truth (Z.land state TLS_FWUP_STATE_ERROR_MEM) then TLS_FWUP_REQ_STATUS_FMEM
  else if truth (Z.land state TLS_FWUP_STATE_ERROR_CRC) then TLS_FWUP_REQ_STATUS_FCRC
  else TLS_FWUP_REQ_STATUS_BUSY.

(** The body of the loop up to [request_finish].  A source past the last
    enumerator would leave [buffer] where the previous request had it. *)
Definition process_request (rq : request) : MF Z :=
  let* f := live in
  if truth (Z.land (current_state f) TLS_FWUP_STATE_ERROR) then
    ret (error_status (current_state f))
  else if truth (Z.land (current_state f) TLS_FWUP_STATE_COMPLETE) then
    ret TLS_FWUP_REQ_STATUS_FCOMPLETE
  else if negb (current_image_src f <=? TLS_FWUP_IMAGE_SRC_WEB) then stuck
  else
    let* o := take_header rq in
    match o with
    | Finish status => ret status
    | Go buffer len =>
        upd (λ f, set_received_len (u32 (received_len f + len)) f) ;;
        let* wb := gets fwupwritebuffer in
        match wb with
        | Some wb =>
            if 0 <? len then
              let* r := store_data wb buffer len in
              match r with
              | Some status => ret status
              | None =>
                  let* r := finish_image in
                  match r with
                  | Some status => ret status
                  | None => ret TLS_FWUP_REQ_STATUS_SUCCESS
                  end
              end
            else ret TLS_FWUP_REQ_STATUS_SUCCESS
        | None => ret TLS_FWUP_REQ_STATUS_SUCCESS
        end
    end.

(** [tls_sys_reset] starts the watchdog and returns. *)
Definition tls_sys_reset : MF unit := modify (λ s, set_resets (resets s + 1) s).

(** [request_finish:] *)
Definition request_finish : MF unit :=
  upd (λ f, set_wait_list (tail (wait_list f)) f) ;;
  let* f := live in
  (if bool_decide (wait_list f = []) then
     upd (λ f, set_current_state
       (Z.land (current_state f) (u16 (Z.lnot TLS_FWUP_STATE_BUSY))) f)
   else ret tt) ;;
  let* f := live in
  if total_len f <=? updated_len f then fwup_update_autoflag ;; tls_sys_reset else ret tt.

(** [dl_list_for_each_safe(request, ...)]: the statuses, in order. *)
Fixpoint scheduler_loop (l : list request) : MF (list Z) :=
  match l with
  | [] => ret []
  | rq :: l' =>
      let* status := process_request rq in
      request_finish ;;
      let* rest := scheduler_loop l' in ret (status :: rest)
  end.

(** [fwup_scheduler], from one wait for a message to the next. *)
Definition fwup_scheduler : MF (list Z) :=
  let* q := gets fwup_msg_queue in
  if q =? 0 then stuck
  else
    modify (set_fwup_msg_queue (q - 1)) ;;
    let* f := live in
    (if bool_decide (wait_list f = []) then ret tt else add_state TLS_FWUP_STATE_BUSY) ;;
    scheduler_loop (wait_list f).

(** ** The interface *)

(** [tls_fwup_init]: the three flags are the successes of
    [tls_os_sem_create], [tls_os_queue_create] and [tls_os_task_create].  The
    error paths free the structure and leave the pointer. *)
Definition tls_fwup_init (sem_ok queue_ok task_ok : bool) : MF Z :=
  let* p := gets fwup in
  match p with
  | Null =>
      let* block := on_params (palloc 68) in
      match block with
      | None => ret TLS_FWUP_STATUS_EMEM
      | Some _ =>
          if sem_ok && queue_ok && task_ok then
            modify (set_fwup (Live (mk_fwup [] 1 false 0 0 0 0 0 0 0 0 0))) ;;
            modify (set_fwup_msg_queue 0) ;;
            ret TLS_FWUP_STATUS_OK
          else modify (set_fwup Dangling) ;; ret TLS_FWUP_STATUS_EMEM
      end
  | _ => ret TLS_FWUP_STATUS_EBUSY
  end.

(** [do session_id = rand(); while (session_id == 0);] *)
Fixpoint draw (l : list Z) : option (Z * list Z) :=
  match l with
  | [] => None
  | x :: l' => if u32 x =? 0 then draw l' else Some (u32 x, l')
  end.

(** What opening and closing a session clear. *)
Definition clear_session (state : Z) (f : fwup_t) : fwup_t :=
  set_program_offset 0 (set_program_base 0 (set_updated_len 0 (set_total_len 0
    (set_received_len 0 (set_current_state state f))))).

(** The session number, or 0. *)
Definition tls_fwup_enter (image_src : Z) (sem_ok queue_ok task_ok : bool) : MF Z :=
  tls_fwup_init sem_ok queue_ok task_ok ;;
  let* p := gets fwup in
  match p with
  | Null => ret 0
  | Dangling => stuck
  | Live f =>
      if busy f then ret 0
      else
        let* l := gets rands in
        let* ' (session_id, l) := of_opt (draw l) in
        modify (set_rands l) ;;
        let* wb := gets fwupwritebuffer in
        let* wb := (match wb with
          | Some wb => ret (Some wb)
          | None => on_params (palloc SECTOR_SIZE)
          end) in
        match wb with
        | None => ret 0
        | Some wb =>
            modify (set_fwupwritebuffer (Some wb)) ;;
            upd (λ f, set_received_number (-1) (clear_session 0 (set_current_image_src image_src f))) ;;
            upd (λ f, set_busy true (set_current_session_id session_id f)) ;;
            let* back := gets (λ s, tls_wifi_get_oneshot_flag (wifi s)) in
            modify (set_oneshotback (u8 back)) ;;
            (if u8 back =? 1 then on_wifi (tls_wifi_set_oneshot_flag 0) else ret tt) ;;
            on_wifi (tls_wifi_set_psflag 0) ;;
            ret session_id
        end
  end.

(** The guards [tls_fwup_exit], [tls_fwup_reset] and [tls_fwup_clear_error]
    share. *)
Definition in_session (session_id : Z) (body : MF Z) : MF Z :=
  let* p := gets fwup in
  match p with
  | Null => ret TLS_FWUP_STATUS_EPERM
  | Dangling => stuck
  | Live f =>
      if negb (busy f) then ret TLS_FWUP_STATUS_EPERM
      else if negb (session_id =? current_session_id f) then ret TLS_FWUP_STATUS_ESESSIONID
      else if truth (Z.land (current_state f) TLS_FWUP_STATE_BUSY) then ret TLS_FWUP_STATUS_EBUSY
      else body
  end.

Definition tls_fwup_exit (session_id : Z) : MF Z :=
  in_session session_id (
    modify (set_fwupwritebuffer None) ;;
    upd (λ f, set_received_number (-1) (clear_session 0 f)) ;;
    upd (λ f, set_busy false (set_current_session_id 0 f)) ;;
    let* back := gets oneshotback in
    (if back =? 1 then on_wifi (tls_wifi_set_oneshot_flag back) else ret tt) ;;
    let* ' (_, enable) := on_params (tls_param_get TLS_PARAM_ID_PSM [0] true) in
    on_wifi (tls_wifi_set_psflag (default 0 (head enable))) ;;
    ret TLS_FWUP_STATUS_OK).

Definition tls_fwup_reset (session_id : Z) : MF Z :=
  in_session session_id (upd (clear_session 0) ;; ret TLS_FWUP_STATUS_OK).

Definition tls_fwup_clear_error (session_id : Z) : MF Z :=
  in_session session_id (
    upd (λ f, set_current_state
      (Z.land (current_state f) (u16 (Z.lnot TLS_FWUP_STATE_ERROR))) f) ;;
    ret TLS_FWUP_STATUS_OK).

Definition tls_fwup_get_current_session_id : MF Z :=
  let* p := gets fwup in
  match p with Null => ret 0 | Live f => ret (current_session_id f) | Dangling => stuck end.

Definition tls_fwup_set_update_numer (number : Z) : MF Z :=
  let* f := live in
  if 1 =? number - received_number f then
    upd (set_received_number number) ;; ret TLS_FWUP_STATUS_OK
  else ret TLS_FWUP_STATE_UNDEF.
Definition tls_fwup_get_current_update_numer : MF Z := let* f := live in ret (received_number f).
Definition tls_fwup_get_status : MF Z := let* f := live in ret (Z.b2z (busy f)).

Definition tls_fwup_set_crc_error (session_id : Z) : MF Z :=
  let* p := gets fwup in
  match p with
  | Null => ret TLS_FWUP_STATUS_EPERM
  | Dangling => stuck
  | Live f =>
      if negb (session_id =? current_session_id f) then ret TLS_FWUP_STATUS_ESESSIONID
      else add_state TLS_FWUP_STATE_ERROR_CRC ;; ret TLS_FWUP_STATUS_OK
  end.

Definition tls_fwup_current_state (session_id : Z) : MF Z :=
  let* p := gets fwup in
  match p with
  | Null => ret TLS_FWUP_STATE_UNDEF
  | Dangling => stuck
  | Live f =>
      if negb (session_id =? current_session_id f) then ret TLS_FWUP_STATE_UNDEF
      else ret (current_state f)
  end.

(** The request is appended; the task is woken when it is the first. *)
Definition tls_fwup_request_async (session_id : Z) (rq : option request) : MF Z :=
  let* p := gets fwup in
  match p with
  | Null => ret TLS_FWUP_STATUS_EPERM
  | Dangling => stuck
  | Live f =>
      if negb (session_id =? current_session_id f) then ret TLS_FWUP_STATUS_ESESSIONID
      else match rq with
      | None => ret TLS_FWUP_STATUS_EINVALID
      | Some rq =>
          if data_len rq =? 0 then ret TLS_FWUP_STATUS_EINVALID
          else
            let need_sched := bool_decide (wait_list f = []) in
            upd (λ f, set_wait_list (wait_list f ++ [rq]) f) ;;
            (if need_sched then modify (λ s, set_fwup_msg_queue (fwup_msg_queue s + 1) s)
             else ret tt) ;;
            ret TLS_FWUP_STATUS_OK
      end
  end.

(** The status a request ends with, as [tls_fwup_request_sync] reports it. *)
Definition sync_status (status : Z) : Z :=
  switch status
    [(TLS_FWUP_REQ_STATUS_SUCCESS, TLS_FWUP_STATUS_OK);
     (TLS_FWUP_REQ_STATUS_FIO, TLS_FWUP_STATUS_EIO);
     (TLS_FWUP_REQ_STATUS_FSIGNATURE, TLS_FWUP_STATUS_ESIGNATURE);
     (TLS_FWUP_REQ_STATUS_FMEM, TLS_FWUP_STATUS_EMEM);
     (TLS_FWUP_REQ_STATUS_FCRC, TLS_FWUP_STATUS_ECRC);
     (TLS_FWUP_REQ_STATUS_FCOMPLETE, TLS_FWUP_STATUS_EIO)]
    TLS_FWUP_STATUS_EUNDEF.

(** The caller blocks until the task has served its request, the last of the
    list. *)
Definition tls_fwup_request_sync (session_id : Z) (buf : option (list Z)) (len : Z)
    (sem_ok : bool) : MF Z :=
  let* p := gets fwup in
  match p with
  | Null => ret TLS_FWUP_STATUS_EPERM
  | Dangling => stuck
  | Live f =>
      if negb (session_id =? current_session_id f) then ret TLS_FWUP_STATUS_ESESSIONID
      else match buf with
      | None => ret TLS_FWUP_STATUS_EINVALID
      | Some buf =>
          if len =? 0 then ret TLS_FWUP_STATUS_EINVALID
          else if negb sem_ok then ret TLS_FWUP_STATUS_EMEM
          else
            on_wifi (tls_wifi_set_psflag 0) ;;
            let* err := tls_fwup_request_async session_id (Some (mk_req buf len)) in
            if err =? TLS_FWUP_STATUS_OK then
              let* statuses := fwup_scheduler in
              let* status := of_opt (head (reverse statuses)) in
              ret (sync_status status)
            else stuck
      end
  end.
End ops.

Lemma blen_last (l : list (list Z)) : blen (List.last l []) <= blen (concat l).
Proof.
  induction l as [|b [|b' l] IH]; [done|cbn; rewrite app_nil_r; lia|]. change (List.last (b :: b' :: l) []) with (List.last (b' :: l) []).
  change (concat (b :: b' :: l)) with (b ++ concat (b' :: l)). rewrite blen_app. pose proof (blen_nonneg b). lia.
Qed.

(** ** Reasoning about the module's state *)

Section reasoning.
Context {F W : Type} `{FlashDevOk F} `{!Wifi W} `{CrcEngineOk}.
Implicit Types (s : fw_state F W).

Definition flash s : F := fl (params s).
Definition set_flash (f : F) s := set_params (set_fl f (params s)) s.

Lemma wp_live f (Q : fwup_t → fw_state F W → Prop) s : fwup s = Live f → Q f s → wp live Q s.
Proof. intros Hf HQ. unfold live. wp_step. wp_step. rewrite Hf. by wp_step. Qed.
Lemma wp_upd f g (Q : unit → fw_state F W → Prop) s :
  fwup s = Live f → Q tt (set_fwup (Live (g f)) s) → wp (upd g) Q s.
Proof. intros Hf HQ. unfold upd. wp_step. apply (wp_live f); [done|]. by wp_step. Qed.
Lemma wp_on_flash {A} (m : M F A) (P : A → F → Prop) (Q : A → fw_state F W → Prop) s :
  wp m P (flash s) → (∀ a f, P a f → Q a (set_flash f s)) → wp (on_flash m) Q s.
Proof. intros Hm HQ. apply wp_lift. by eapply wp_mono. Qed.

(** The checksum register of a run of the crypto unit. *)
Definition crc_reg (state : Z) (b : list Z) : Z := foldl crc32_byte state b.
Lemma wp_on_crc state inp len (Q : psCrcContext → fw_state F W → Prop) s :
  is_u32 state → bytes_ok inp → 0 <= len < 65536 → len <= blen inp →
  (∀ c, Q (crc32_ctx (crc_reg state (slice inp 0 len))) (set_sec_cfg c s)) →
  wp (on_crc (tls_crypto_crc_update (crc32_ctx state) inp len)) Q s.
Proof. intros. apply wp_lift. apply wp_crc_update; try done. Qed.

(** Two states that differ in the registers of the crypto unit, the two
    header copies and the device's own state only. *)
Definition quiet s s' : Prop := ∃ c h0 h1 f,
  s' = set_sec_cfg c (set_imgheader0 h0 (set_imgheader1 h1 (set_flash f s))) ∧
  fd_ok f ∧ (∀ x, fd_lo <= x < fd_hi → fd_mem f x = fd_mem (flash s) x) ∧
  blen h0 = T_BOOTER_SIZE ∧ blen h1 = T_BOOTER_SIZE.

Definition headers_ok s : Prop :=
  blen (imgheader0 s) = T_BOOTER_SIZE ∧ blen (imgheader1 s) = T_BOOTER_SIZE.

Lemma quiet_refl s : fd_ok (flash s) → headers_ok s → quiet s s.
Proof.
  intros Hf [Hh0 Hh1]. exists (sec_cfg s), (imgheader0 s), (imgheader1 s), (flash s).
  split; [|done]. destruct s as [p]. by destruct p.
Qed.
Lemma quiet_trans s1 s2 s3 : quiet s1 s2 → quiet s2 s3 → quiet s1 s3.
Proof.
  intros (c & h0 & h1 & f & -> & Hf & Hm & Hl0 & Hl1) (c' & h0' & h1' & f' & -> & Hf' & Hm' & Hl0' & Hl1').
  exists c', h0', h1', f'. split; [done|]. split; [done|]. split; [|done].
  intros x Hx. rewrite Hm' by done. by apply Hm.
Qed.
Lemma quiet_sec s c : fd_ok (flash s) → headers_ok s → quiet s (set_sec_cfg c s).
Proof.
  intros Hf [Hh0 Hh1]. exists c, (imgheader0 s), (imgheader1 s), (flash s).
  split; [|done]. destruct s as [p]. by destruct p.
Qed.
Lemma quiet_headers s s' : quiet s s' → headers_ok s'.
Proof. by intros (c & h0 & h1 & f & -> & _ & _ & ? & ?). Qed.
Lemma quiet_ok s s' : quiet s s' → fd_ok (flash s').
Proof. by intros (c & h0 & h1 & f & -> & ? & _). Qed.

(** The bytes of the flash at an address. *)
Definition bytes_of (m : Z → Z) (a n : Z) : list Z := m <$> seqZ a n.
Lemma quiet_bytes s s' a n : quiet s s' → fd_lo <= a → a + n <= fd_hi →
  fd_bytes (flash s') a n = fd_bytes (flash s) a n.
Proof.
  intros (c & h0 & h1 & f & -> & _ & Hm & _) Ha Hn. apply fd_bytes_ext. intros x Hx.
  apply Hm. lia.
Qed.

(** ** The header check *)

Definition running s : list Z := fd_bytes (flash s) CODE_RUN_HEADER_ADDR T_BOOTER_SIZE.
Definition head_crc (h : list Z) : Z := crc_reg 0xFFFFFFFF (slice h 0 52).

(** The condition under which a header is accepted. *)
Definition header_accepted (h run : list Z) (total : Z) : bool :=
  let runaddr := Z.lor (run_img_addr h) FLASH_BASE in
  let updaddr := Z.lor (upd_img_addr h) FLASH_BASE in
  (magic_no h =? SIGNATURE_WORD) &&
  ((IMG_TYPE_OLD_PLAIN =? img_type h) || (IMG_TYPE_NEW_PLAIN =? img_type h)) &&
  (hd_checksum h =? head_crc h) && (runaddr <? FLASH_1M_END) &&
  (img_type run =? img_type h) &&
  negb (truth (runaddr mod PAGE_SIZE) || (0 =? run_img_len h)
        || (FLASH_1M_END <=? u32 (runaddr + run_img_len h)) || (runaddr <? CODE_RUN_START_ADDR)) &&
  negb ((updaddr <? clear_of runaddr (run_img_len h) run) || truth (updaddr mod BLOCK_SIZE)
        || (0 =? upd_img_len h)) &&
  negb (Z.lor (u32 (total - BLOCK_SIZE)) FLASH_BASE <? u32 (updaddr + upd_img_len h)).

Lemma wp_crc_words h n : ∀ i state (Q : psCrcContext → fw_state F W → Prop) s,
  0 <= i → 4 * (i + Z.of_nat n) <= blen h → bytes_ok h → is_u32 state →
  (∀ c, Q (crc32_ctx (crc_reg state (slice h (4 * i) (4 * Z.of_nat n)))) (set_sec_cfg c s)) →
  wp (crc_words n i (crc32_ctx state) h) Q s.
Proof.
  induction n as [|n IH]; intros i state Q s Hi Hn Hok Hst HQ; cbn [crc_words].
  { apply wp_ret. specialize (HQ (sec_cfg s)). by destruct s. }
  assert (blen (slice h (4 * i) 4) = 4) as Hl by (apply blen_slice; lia).
  assert (le32 (u32_at h (4 * i)) = slice h (4 * i) 4) as Hw.
  { unfold u32_at. apply le32_of_le; [by apply bytes_ok_slice|]. unfold blen in Hl. lia. }
  rewrite Hw. wp_step. apply wp_on_crc; try done; [by apply bytes_ok_slice|lia|].
  intros c. rewrite slice_all by done. set (b := slice h (4 * i) 4) in *.
  assert (bytes_ok b) as Hbok by by apply bytes_ok_slice.
  apply IH; try done; try lia; [by apply crc32_foldl_range|].
  intros c'. replace (crc_reg (crc_reg state b) (slice h (4 * (i + 1)) (4 * Z.of_nat n)))
    with (crc_reg state (slice h (4 * i) (4 * Z.of_nat (S n)))); [by apply HQ|].
  unfold crc_reg. rewrite <- foldl_app. f_equal.
  replace (4 * Z.of_nat (S n)) with (4 + 4 * Z.of_nat n) by lia.
  rewrite <- slice_app by lia. unfold b. do 2 f_equal. lia.
Qed.

Definition header_in_flash : Prop :=
  fd_lo <= CODE_RUN_HEADER_ADDR ∧ CODE_RUN_HEADER_ADDR + T_BOOTER_SIZE <= fd_hi.

(** Reading a header copy. *)
Lemma wp_read_header a h (Q : Z * list Z → fw_state F W → Prop) s :
  fd_ok (flash s) → fd_lo <= a → a + T_BOOTER_SIZE <= fd_hi → blen h = T_BOOTER_SIZE →
  (∀ f, fd_ok f → (∀ x, fd_lo <= x < fd_hi → fd_mem f x = fd_mem (flash s) x) →
     Q (0, fd_bytes (flash s) a T_BOOTER_SIZE) (set_flash f s)) →
  wp (on_flash (fls_read a h T_BOOTER_SIZE)) Q s.
Proof.
  intros Hf Ha Hhi Hl HQ. eapply wp_on_flash.
  - apply fls_read_ok; try done. rewrite Hl. by unfold T_BOOTER_SIZE.
  - intros r f (-> & Hf' & Hm). rewrite splice_all.
    + by apply HQ.
    + rewrite Hl. apply blen_fmap_seqZ. by unfold T_BOOTER_SIZE.
Qed.

Lemma wp_header_check h (Q : bool → fw_state F W → Prop) s :
  header_in_flash → fd_ok (flash s) → headers_ok s → blen h = T_BOOTER_SIZE → bytes_ok h →
  (∀ s', quiet s s' → imgheader0 s' = imgheader0 s ∨ imgheader0 s' = running s →
     Q (header_accepted h (running s) (flashtotalsize s)) s') →
  wp (tls_fwup_img_header_check h) Q s.
Proof.
  intros [Hlo Hhi] Hf Hh Hl Hok HQ. unfold tls_fwup_img_header_check.
  assert (∀ b s', quiet s s' → imgheader0 s' = imgheader0 s ∨ imgheader0 s' = running s →
    b = header_accepted h (running s) (flashtotalsize s) → wp (ret b) Q s') as Hret
    by (intros b s' Hs' Hi ->; by apply wp_ret, HQ).
  unfold header_accepted in Hret.
  destruct (magic_no h =? SIGNATURE_WORD);
    [|cbn [negb]; cbv iota; apply Hret; [by apply quiet_refl|by left|done]].
  cbn [negb]. cbv iota.
  destruct (IMG_TYPE_OLD_PLAIN =? img_type h) eqn:Eo, (IMG_TYPE_NEW_PLAIN =? img_type h) eqn:En;
    cbn [negb andb orb] in *; cbv iota.
  4: { apply Hret; [by apply quiet_refl|by left|done]. }
  all: wp_step; apply wp_crc_words; [lia|rewrite Hl; unfold T_BOOTER_SIZE; lia|done|by unfold is_u32|].
  all: intros c; change (4 * 0) with 0; change (4 * Z.of_nat 13) with 52; fold (head_crc h).
  all: pose proof (quiet_sec s c Hf Hh) as Hqc.
  all: change (tls_crypto_crc_final (crc32_ctx ?x)) with x.
  all: destruct (hd_checksum h =? head_crc h) eqn:Ec;
    [|cbn [andb]; cbv iota; apply Hret; [done|by left|]; rewrite ?andb_false_r; done].
  all: destruct (Z.lor (run_img_addr h) FLASH_BASE <? FLASH_1M_END) eqn:Er;
    [|cbn [andb]; cbv iota; apply Hret; [done|by left|]; rewrite ?andb_false_r; done].
  all: cbn [andb] in *; cbv iota; wp_step; wp_step; wp_step.
  all: apply wp_read_header; [done|done|done|by apply Hh|].
  all: intros f Hf' Hm; cbv beta iota; wp_step; wp_step; wp_step; wp_step.
  all: change (fd_bytes (flash (set_sec_cfg c s)) CODE_RUN_HEADER_ADDR T_BOOTER_SIZE) with (running s).
  all: cbn [flashtotalsize set_imgheader0 set_flash set_params set_sec_cfg].
  all: assert (quiet s (set_imgheader0 (running s) (set_flash f (set_sec_cfg c s)))) as Hq
    by (exists c, (running s), (imgheader1 s), f; split; [by destruct s|];
        split; [done|]; split; [done|]; split; [by apply blen_fd|apply Hh]).
  all: repeat match goal with |- wp (if negb ?b then _ else _) _ _ => destruct b; cbn [negb andb] in *; cbv iota end;
    try (apply Hret; [done|by right|]; rewrite ?andb_false_r; done).
  all: repeat match goal with |- wp (if ?b then _ else _) _ _ => destruct b; cbn [negb andb] in *; cbv iota end;
    apply Hret; try done; try (by right); rewrite ?andb_false_r; done.
Qed.

(** What the flash holds. *)
Definition holds (m : Z → Z) s : Prop := ∀ x, fd_lo <= x < fd_hi → fd_mem (flash s) x = m x.
Lemma holds_bytes m s a len : holds m s → fd_lo <= a → a + len <= fd_hi →
  fd_bytes (flash s) a len = bytes_of m a len.
Proof.
  intros Hm Ha Hl. apply list_fmap_ext. intros i x Hx. apply Hm. apply lookup_seqZ in Hx. lia.
Qed.
Lemma bytes_of_ext m m' a len : (∀ x, a <= x < a + len → m x = m' x) → bytes_of m a len = bytes_of m' a len.
Proof. intros Hm. apply list_fmap_ext. intros i x Hx. apply Hm. apply lookup_seqZ in Hx. lia. Qed.

(** ** Around one request *)

(** The end of a request: the list is empty again; the device is reset when
    the image is complete. *)
Lemma wp_request_finish rq f (Q : unit → fw_state F W → Prop) s :
  fwup s = Live f → wait_list f = [rq] →
  let f' := set_current_state (Z.land (current_state f) 0xFFFE) (set_wait_list [] f) in
  (total_len f <= updated_len f → ∀ w,
     Q tt (set_resets (resets s + 1) (set_wifi w (set_fwup (Live f') s)))) →
  (updated_len f < total_len f → Q tt (set_fwup (Live f') s)) →
  wp request_finish Q s.
Proof.
  intros Hfw Hl f' HQ1 HQ2. unfold request_finish. wp_step. apply (wp_upd _ _ _ _ Hfw).
  rewrite Hl. cbn [tail]. wp_step. eapply wp_live; [reflexivity|].
  rewrite bool_decide_eq_true_2 by done. wp_step. eapply wp_upd; [reflexivity|].
  wp_step. eapply wp_live; [reflexivity|].
  change (u16 (Z.lnot TLS_FWUP_STATE_BUSY)) with 0xFFFE.
  change (total_len _) with (total_len f). change (updated_len _) with (updated_len f).
  destruct (Z.leb_spec (total_len f) (updated_len f)).
  - unfold fwup_update_autoflag. wp_steps. case_if; wp_steps; [by apply HQ1|].
    specialize (HQ1 ltac:(done) (wifi s)). by destruct s.
  - apply wp_ret. by apply HQ2.
Qed.

(** [tls_fwup_request_sync] when no request is waiting: the task serves this
    one. *)
Lemma wp_request_sync sid c len f (Q : Z → fw_state F W → Prop) s :
  fwup s = Live f → wait_list f = [] → current_session_id f = sid → len ≠ 0 → fwup_msg_queue s = 0 →
  (∀ w, let s1 := set_fwup (Live (set_current_state (Z.lor (current_state f) 1)
                     (set_wait_list [mk_req c len] f))) (set_wifi w s) in
    wp (process_request (mk_req c len)) (λ status s2,
      wp request_finish (λ _ s3, Q (sync_status status) s3) s2) s1) →
  wp (tls_fwup_request_sync sid (Some c) len true) Q s.
Proof.
  intros Hfw Hwl Hsid Hlen Hqu HQ. unfold tls_fwup_request_sync, on_wifi. wp_steps. rewrite Hfw, Hsid, Z.eqb_refl.
  cbn [negb]. cbv iota. rewrite (proj2 (Z.eqb_neq _ _) Hlen). wp_steps.
  unfold tls_fwup_request_async. wp_steps. cbn [fwup set_wifi]. rewrite Hfw, Hsid, Z.eqb_refl.
  cbn [negb data_len]. cbv iota. rewrite (proj2 (Z.eqb_neq _ _) Hlen). wp_steps.
  eapply wp_upd; [exact Hfw|]. rewrite Hwl, bool_decide_eq_true_2 by done. wp_steps.
  change (TLS_FWUP_STATUS_OK =? TLS_FWUP_STATUS_OK) with true. cbv iota. wp_step.
  unfold fwup_scheduler. wp_steps. cbn [fwup_msg_queue set_fwup_msg_queue set_fwup set_wifi].
  rewrite Hqu. change (0 + 1 =? 0) with false. cbv iota. wp_steps. eapply wp_live; [reflexivity|].
  rewrite bool_decide_eq_false_2 by done. wp_step. eapply wp_upd; [reflexivity|].
  cbn [wait_list set_wait_list app scheduler_loop]. wp_step.
  set (w := tls_wifi_set_psflag 0 (wifi s)). specialize (HQ w). cbv zeta in HQ.
  match goal with |- wp _ _ ?sx => set (sx' := sx) end.
  assert (sx' = set_fwup (Live (set_current_state (Z.lor (current_state f) 1)
    (set_wait_list [mk_req c len] f))) (set_wifi w s)) as ->.
  { unfold sx', w. destruct s; cbn in *. by subst. }
  eapply wp_mono; [exact HQ|]. intros status s2 Hs2. wp_step. eapply wp_mono; [exact Hs2|].
  intros u s3 Hs3. wp_steps. eapply wp_of_opt; [reflexivity|]. by apply wp_ret.
Qed.

(** ** Receiving an image

    [base] is where the image goes, [image] all that is sent after the header,
    [n] its length, and [tot] the length the header announces, which the last
    block reaches and may pass; [m0] is the flash before the session, [k] the
    number of bytes received. *)
Variables (h image : list Z) (tot base : Z) (m0 : Z → Z) (total : Z) (lay : flash_layout).
Variables (src sid lock rn r0 : Z).
Let n : Z := blen image.

(** The structure while the session runs. *)
Definition session_fw (q : list request) (st r k off : Z) : fwup_t :=
  mk_fwup q lock true src st sid r tot k base off rn.

(** What the session does not change. *)
Definition fixed s : Prop :=
  headers_ok s ∧ flashtotalsize s = total ∧ layout s = lay ∧ resets s = r0 ∧
  fd_ok (flash s) ∧ booter s = h ∧ org_checksum s = upd_checksum h ∧ isacrossflash s = false.

(** [k] bytes are there: whole sectors in the flash, the rest in the buffer. *)
Definition collected (k : Z) s : Prop :=
  currentlen s = k mod SECTOR_SIZE ∧
  (∃ wb, fwupwritebuffer s = Some wb ∧ blen wb = SECTOR_SIZE ∧ bytes_ok wb ∧
     slice wb 0 (k mod SECTOR_SIZE) = slice image (k / SECTOR_SIZE * SECTOR_SIZE) (k mod SECTOR_SIZE)) ∧
  (∀ x, fd_lo <= x < fd_hi → fd_mem (flash s) x =
     if (base <=? x) && (x <? base + k / SECTOR_SIZE * SECTOR_SIZE)
     then default 0 (byte_at image (x - base)) else m0 x).

Hypothesis Htot : 0 < tot <= n.
Hypothesis Hbase : FLASH_BASE <= base.
Hypothesis Hlo : fd_lo <= base.
Hypothesis Hhi : base + n < fd_hi.
Hypothesis Himage : bytes_ok image.
Hypothesis Hcross : img_type h = IMG_TYPE_OLD_PLAIN → total ≠ 0x200000.

Lemma SECTOR_eq : SECTOR_SIZE = 4096. Proof. done. Qed.

Lemma wp_across (Q : unit → fw_state F W → Prop) s f :
  fwup s = Live f → fixed s → Q tt s → wp across_test Q s.
Proof.
  intros Hfw (_ & Ht & _ & _ & _ & Hb & _) HQ. unfold across_test. wp_steps.
  apply (wp_live f); [done|]. rewrite Ht, Hb.
  destruct (Z.eqb_spec IMG_TYPE_OLD_PLAIN (img_type h)) as [E|]; [|by apply wp_ret].
  destruct (Z.eqb_spec 0x200000 total) as [E'|]; [|by apply wp_ret].
  exfalso. by apply (Hcross (eq_sym E)).
Qed.

Lemma sector_split k : 0 <= k → 0 <= k mod SECTOR_SIZE < SECTOR_SIZE ∧
  k = k / SECTOR_SIZE * SECTOR_SIZE + k mod SECTOR_SIZE ∧ 0 <= k / SECTOR_SIZE * SECTOR_SIZE.
Proof. rewrite SECTOR_eq. intros. dlia. Qed.

(** Appending to what the buffer holds. *)
Lemma slice_extend (wb c : list Z) o a l : 0 <= o → 0 <= a → 0 <= l → a + l <= blen wb →
  l <= blen c → o + a + l <= blen image →
  slice wb 0 a = slice image o a → slice c 0 l = slice image (o + a) l →
  slice (splice wb a (slice c 0 l)) 0 (a + l) = slice image o (a + l).
Proof.
  intros Ho Ha Hl Hwb Hc Hi Hs1 Hs2. assert (blen (slice c 0 l) = l) as Hcl by (apply blen_slice; lia).
  replace (slice (splice wb a (slice c 0 l)) 0 (a + l)) with
    (slice (splice wb a (slice c 0 l)) 0 a ++ slice (splice wb a (slice c 0 l)) (0 + a) l)
    by (apply slice_app; lia).
  rewrite slice_splice_disj, slice_splice_same by (rewrite ?Hcl; lia).
  rewrite Hs1, Hs2. by apply slice_app.
Qed.

(** A block that leaves room in the sector buffer. *)
Lemma wp_store_small wb c rest k q st r (Q : option Z → fw_state F W → Prop) s :
  fwup s = Live (session_fw q st r k (k / SECTOR_SIZE * SECTOR_SIZE)) → fixed s → collected k s →
  fwupwritebuffer s = Some wb →
  0 <= k → 0 < blen c → k mod SECTOR_SIZE + blen c < SECTOR_SIZE → k + blen c <= n →
  c = slice image k (blen c) →
  (∀ s', fwup s' = Live (session_fw q st r (k + blen c) ((k + blen c) / SECTOR_SIZE * SECTOR_SIZE)) →
     fixed s' → collected (k + blen c) s' → fwup_msg_queue s' = fwup_msg_queue s →
     wifi s' = wifi s → Q None s') →
  wp (store_data wb (c ++ rest) (blen c)) Q s.
Proof.
  intros Hfw Hfix (Hcur & (wb' & Hwb' & Hwl & Hwok & Hws) & Hm) Hwb Hk Hc Hsmall Hn Hslice HQ.
  assert (wb' = wb) as -> by congruence. pose proof (sector_split k Hk) as (Hr & Hkk & Ho).
  assert (is_u32 (k + blen c)) as Hu.
  { unfold is_u32. pose proof fd_hi_u32. unfold FLASH_BASE in Hbase. lia. }
  assert (bytes_ok c) as Hcok by (rewrite Hslice; by apply bytes_ok_slice).
  unfold store_data. wp_steps. rewrite Hcur, u32_id by (unfold is_u32 in *; rewrite SECTOR_eq in *; lia).
  replace (k mod SECTOR_SIZE + blen c <? SECTOR_SIZE) with true by lia.
  assert (slice (c ++ rest) 0 (blen c) = c) as Hsl.
  { unfold slice, blen. rewrite drop_0, Nat2Z.id. by apply take_app_length. }
  wp_step. eapply wp_of_opt.
  { apply memcpy_Some; rewrite ?blen_app; pose proof (blen_nonneg rest); lia. }
  rewrite Hsl. wp_steps. eapply wp_upd; [exact Hfw|]. wp_step.
  cbn [set_updated_len session_fw updated_len]. rewrite u32_id by done.
  assert ((k + blen c) / SECTOR_SIZE = k / SECTOR_SIZE ∧
          (k + blen c) mod SECTOR_SIZE = k mod SECTOR_SIZE + blen c) as [Hd Hmod]
    by (rewrite SECTOR_eq in *; dlia).
  apply HQ; try done.
  - rewrite Hd. reflexivity.
  - split; [done|]. rewrite Hd, Hmod. split; [|exact Hm]. eexists. split; [done|].
    rewrite blen_splice by lia. split; [done|]. split.
    { by apply bytes_ok_splice. }
    pose proof (slice_extend wb (c ++ rest) (k / SECTOR_SIZE * SECTOR_SIZE) (k mod SECTOR_SIZE) (blen c)) as E.
    rewrite Hsl, blen_app, <- Hkk in E. fold n in E. pose proof (blen_nonneg rest). apply E; [lia..|exact Hws|exact Hslice].
Qed.

(** A block that fills the sector buffer: the sector is written and the rest
    of the block starts the next one. *)
Lemma wp_store_full wb c rest k q st r (Q : option Z → fw_state F W → Prop) s :
  fwup s = Live (session_fw q st r k (k / SECTOR_SIZE * SECTOR_SIZE)) → fixed s → collected k s →
  fwupwritebuffer s = Some wb →
  0 <= k → SECTOR_SIZE <= k mod SECTOR_SIZE + blen c → blen c <= SECTOR_SIZE → k + blen c <= n →
  c = slice image k (blen c) →
  (∀ s', fwup s' = Live (session_fw q st r (k + blen c) ((k + blen c) / SECTOR_SIZE * SECTOR_SIZE)) →
     fixed s' → collected (k + blen c) s' → fwup_msg_queue s' = fwup_msg_queue s →
     wifi s' = wifi s → Q None s') →
  wp (store_data wb (c ++ rest) (blen c)) Q s.
Proof.
  intros Hfw Hfix (Hcur & (wb' & Hwb' & Hwl & Hwok & Hws) & Hm) Hwb Hk Hbig Hcl Hn Hslice HQ.
  assert (wb' = wb) as -> by congruence. pose proof (sector_split k Hk) as (Hr & Hkk & Ho).
  pose proof fd_hi_u32 as Hu32. unfold FLASH_BASE in Hbase. pose proof (blen_nonneg rest) as Hrest.
  assert (bytes_ok c) as Hcok by (rewrite Hslice; by apply bytes_ok_slice).
  set (o := k / SECTOR_SIZE * SECTOR_SIZE) in *. set (a := k mod SECTOR_SIZE) in *.
  set (l := SECTOR_SIZE - a).
  assert (slice (c ++ rest) 0 l = slice c 0 l) as Hsl.
  { unfold slice, blen in *. rewrite !drop_0. apply take_app_le. lia. }
  assert (slice (c ++ rest) l (a + blen c - SECTOR_SIZE) = slice c l (a + blen c - SECTOR_SIZE)) as Hsl2.
  { unfold slice, blen in *. rewrite drop_app_le by lia. apply take_app_le. rewrite length_drop. lia. }
  assert (slice c 0 l = slice image (o + a) l) as Hc1.
  { rewrite Hslice, slice_slice by (fold n; lia). f_equal. lia. }
  pose proof (slice_extend wb (c ++ rest) o a l) as Hsec.
  rewrite Hsl, blen_app in Hsec. replace (a + l) with SECTOR_SIZE in Hsec by lia. fold n in Hsec.
  specialize (Hsec ltac:(lia) ltac:(lia) ltac:(lia) ltac:(lia) ltac:(lia) ltac:(lia) Hws Hc1).
  assert (blen (slice c 0 l) = l) as Hlc by (apply blen_slice; lia).
  set (wb1 := splice wb a (slice c 0 l)) in *.
  assert (blen wb1 = SECTOR_SIZE) as Hwl1 by (unfold wb1; rewrite blen_splice; lia).
  rewrite slice_all in Hsec by done.
  assert (bytes_ok wb1) as Hwok1 by (apply bytes_ok_splice; [done|by apply bytes_ok_slice]).
  unfold store_data. wp_steps. rewrite Hcur.
  rewrite u32_id by (unfold is_u32 in *; rewrite SECTOR_eq in *; lia).
  replace (a + blen c <? SECTOR_SIZE) with false by lia.
  wp_step. eapply wp_across; [exact Hfw|exact Hfix|].
  wp_step. eapply wp_of_opt; [apply memcpy_Some; rewrite ?blen_app; lia|].
  fold l. rewrite Hsl. fold wb1. wp_steps. eapply wp_live; [exact Hfw|].
  cbn [program_offset program_base session_fw].
  replace (o / SECTOR_SIZE * SECTOR_SIZE) with o by (unfold o; rewrite SECTOR_eq; dlia).
  rewrite u32_id by (unfold is_u32; lia). wp_step.
  destruct Hfix as (Hh & Ht & Hlay & Hres & Hfok & Hrest').
  eapply wp_on_flash; [apply fls_write_ok; try done; rewrite ?Hwl1, ?SECTOR_eq in *; try lia|].
  intros e f (-> & Hf & Hmf). change (negb (0 =? 0)) with false. cbv iota.
  wp_step. eapply wp_of_opt; [apply memcpy_Some; rewrite ?blen_app; lia|].
  fold l. rewrite Hsl2. wp_steps. eapply wp_upd; [exact Hfw|]. wp_step.
  eapply wp_upd; [reflexivity|]. wp_steps.
  cbn [set_updated_len set_program_offset session_fw updated_len program_offset].
  rewrite !u32_id by (unfold is_u32; rewrite SECTOR_eq in *; lia).
  assert ((k + blen c) / SECTOR_SIZE * SECTOR_SIZE = o + SECTOR_SIZE ∧
          (k + blen c) mod SECTOR_SIZE = a + blen c - SECTOR_SIZE) as [Hd Hmod]
    by (unfold o, a in *; rewrite SECTOR_eq in *; dlia).
  apply HQ; try done.
  - rewrite Hd. reflexivity.
  - split; [by rewrite Hmod|]. rewrite Hd, Hmod.
    assert (blen (slice c l (a + blen c - SECTOR_SIZE)) = a + blen c - SECTOR_SIZE) as Hlc2
      by (apply blen_slice; lia).
    split.
    + eexists. split; [done|]. rewrite blen_splice by lia. split; [done|]. split.
      * apply bytes_ok_splice; [done|]. by apply bytes_ok_slice.
      * rewrite slice_splice_same by lia. rewrite Hslice at 1. rewrite slice_slice by (fold n; lia).
        f_equal. lia.
    + intros x Hx. change (flash _) with f. rewrite Hmf by done.
      change (fd_mem (flash _) x) with (fd_mem (flash s) x). rewrite Hm by done.
      destruct (Z.leb_spec (base + o) x), (Z.ltb_spec x (base + o + SECTOR_SIZE)); cbn [andb].
      * replace ((base <=? x) && (x <? base + (o + SECTOR_SIZE)))%bool with true by lia.
        rewrite Hsec, byte_at_slice by lia. do 2 f_equal. lia.
      * replace ((base <=? x) && (x <? base + o))%bool with false by lia.
        by replace ((base <=? x) && (x <? base + (o + SECTOR_SIZE)))%bool with false by lia.
      * by replace (x <? base + (o + SECTOR_SIZE)) with (x <? base + o) by lia.
      * lia.
Qed.

(** ** Checking and activating the image *)

(** [quiet], and the sector buffer holds other bytes. *)
Definition quiet_buffer s s' : Prop := ∃ wb s1, quiet s s1 ∧
  s' = set_fwupwritebuffer (Some wb) s1 ∧ blen wb = SECTOR_SIZE ∧ bytes_ok wb.

Lemma quiet_set_buffer s1 s2 wb : quiet s1 s2 →
  quiet (set_fwupwritebuffer wb s1) (set_fwupwritebuffer wb s2).
Proof. intros (c & h0 & h1 & f & -> & ?). by exists c, h0, h1, f. Qed.
Lemma quiet_buffer_trans s1 s2 s3 : quiet_buffer s1 s2 → quiet_buffer s2 s3 → quiet_buffer s1 s3.
Proof.
  intros (wb & s & Hq & -> & _) (wb' & s' & Hq' & -> & Hl & Hok).
  exists wb', (set_fwupwritebuffer (fwupwritebuffer s1) s'). split.
  - eapply quiet_trans; [exact Hq|]. destruct Hq as (c & h0 & h1 & f & -> & _).
    destruct Hq' as (c' & h0' & h1' & f' & -> & Hq'). exists c', h0', h1', f'. done.
  - split; [|done]. by destruct s'.
Qed.

Lemma bytes_ok_read wb a len (m : Z → Z) : bytes_ok wb → (∀ i, is_u8 (m i)) →
  bytes_ok (splice wb 0 (m <$> seqZ a len)).
Proof. intros. apply bytes_ok_splice; [done|]. by apply bytes_ok_fmap. Qed.

Lemma wp_crc_loop fuel : ∀ a offset left state wb (Q : option (Z * psCrcContext) → fw_state F W → Prop) s,
  0 <= offset → 0 <= left <= SECTOR_SIZE * Z.of_nat fuel → fd_lo <= a → a + offset + left <= fd_hi →
  is_u32 state → fd_ok (flash s) → headers_ok s →
  fwupwritebuffer s = Some wb → blen wb = SECTOR_SIZE → bytes_ok wb →
  (∀ s', quiet_buffer s s' →
     Q (Some (offset + left, crc32_ctx (crc_reg state (fd_bytes (flash s) (a + offset) left)))) s') →
  wp (crc_loop fuel a offset left (crc32_ctx state)) Q s.
Proof.
  induction fuel as [|fuel IH]; intros a offset left state wb Q s Ho Hleft Hla Hha Hst Hf Hh Hwb Hwl Hwok HQ;
    cbn [crc_loop].
  all: destruct (Z.eqb_spec left 0) as [->|Hne];
    [apply wp_ret; rewrite Z.add_0_r in HQ; apply HQ; exists wb, s;
     split; [by apply quiet_refl|]; split; [|done]; destruct s; cbn in *; by subst|].
  { exfalso. lia. }
  pose proof fd_hi_u32 as Hu. pose proof fd_lo_pos as Hp. rewrite SECTOR_eq in *.
  set (len := if 4096 <? left then 4096 else left).
  assert (0 < len <= 4096 ∧ len <= left ∧ (len = 4096 ∨ len = left)) as (Hlen & Hlen' & Hmin)
    by (unfold len; case_if; lia).
  wp_steps. rewrite Hwb. eapply wp_of_opt; [done|]. wp_step.
  rewrite !u32_id by (unfold is_u32; lia).
  eapply wp_on_flash; [apply fls_read_ok; done || lia|]. intros r f (-> & Hf' & Hm).
  cbv beta iota. wp_steps. change (negb (0 =? 0)) with false. cbv iota. wp_step.
  set (b := fd_mem (flash s) <$> seqZ (a + offset) len).
  assert (blen b = len) as Hbl by (apply blen_fmap_seqZ; lia).
  assert (bytes_ok b) as Hbok by (apply bytes_ok_fmap, fd_mem_u8).
  assert (slice (splice wb 0 b) 0 len = b) as Hsl by (apply slice_splice_same; lia).
  assert (blen (splice wb 0 b) = 4096) as Hwl' by (rewrite blen_splice; lia).
  apply wp_on_crc; [done|by apply bytes_ok_splice|lia|lia|]. intros c. rewrite Hsl.
  set (s1 := set_sec_cfg c _).
  assert (quiet_buffer s s1) as Hq.
  { exists (splice wb 0 b), (set_sec_cfg c (set_flash f s)). split; [|split; [by destruct s|]].
    - destruct Hh as [Hh0 Hh1]. exists c, (imgheader0 s), (imgheader1 s), f. split; [by destruct s|]. done.
    - split; [done|]. by apply bytes_ok_splice. }
  apply (IH a (offset + len) (left - len) (crc_reg state b) (splice wb 0 b));
    [lia|lia|lia|lia|by apply crc32_foldl_range|done|done|done|done|by apply bytes_ok_splice|].
  - intros s' Hs'. replace (offset + len + (left - len)) with (offset + left) by lia.
    assert (fd_bytes (flash s1) (a + (offset + len)) (left - len) =
            fd_bytes (flash s) (a + offset + len) (left - len)) as ->.
    { rewrite Z.add_assoc. apply fd_bytes_ext. intros x Hx. apply Hm. lia. }
    unfold crc_reg. rewrite <- foldl_app.
    replace (b ++ fd_bytes (flash s) (a + offset + len) (left - len))
      with (fd_bytes (flash s) (a + offset) left).
    + apply HQ. by eapply quiet_buffer_trans.
    + unfold b, fd_bytes. rewrite <- fmap_app, <- seqZ_app by lia.
      by replace (len + (left - len)) with left by lia.
Qed.

Lemma crc_rounds_enough left : 0 <= left → left <= SECTOR_SIZE * Z.of_nat (crc_rounds left).
Proof. intros. unfold crc_rounds. rewrite SECTOR_eq. dlia. Qed.

Lemma wp_image_crc f wb (Q : option Z → fw_state F W → Prop) s :
  fwup s = Live f → program_base f = base → total_len f = tot → isacrossflash s = false →
  fd_ok (flash s) → headers_ok s → fwupwritebuffer s = Some wb → blen wb = SECTOR_SIZE → bytes_ok wb →
  (∀ s', quiet_buffer s s' → Q (Some (crc_reg 0xFFFFFFFF (fd_bytes (flash s) base tot))) s') →
  wp image_crc Q s.
Proof.
  intros Hfw Hb Ht Ha Hf Hh Hwb Hwl Hwok HQ. unfold image_crc. wp_steps.
  apply (wp_live f); [done|]. rewrite Ha, Hb, Ht. wp_step.
  pose proof (blen_nonneg image) as Hn0. fold n in Hn0.
  apply (wp_crc_loop _ _ _ _ 0xFFFFFFFF wb);
    [lia|split; [lia|apply crc_rounds_enough; lia]|done|lia|by unfold is_u32|done|done|done|done|done|].
  - intros s' Hs'. rewrite Z.add_0_r in *. cbv beta iota. apply wp_ret. by apply HQ.
Qed.

(** The header written when the image is complete. *)
Definition activated (no : Z) (hdr : list Z) : list Z :=
  let img := splice hdr 32 (le32 (u32 (no + 1))) in splice img 52 (le32 (head_crc img)).
(** The number of the image the boot loader would run now. *)
Definition current_no (run upd : list Z) (total : Z) : Z :=
  if header_accepted upd run total && (upd_no run <? upd_no upd) then upd_no upd else upd_no run.

Lemma head_crc_range hdr : bytes_ok hdr → is_u32 (head_crc hdr).
Proof. intros. apply crc32_foldl_range; [by unfold is_u32|by apply bytes_ok_slice]. Qed.
Lemma blen_activated no hdr : blen hdr = T_BOOTER_SIZE → blen (activated no hdr) = T_BOOTER_SIZE.
Proof.
  intros Hl. unfold activated, T_BOOTER_SIZE in *.
  rewrite !blen_splice; rewrite ?blen_splice; rewrite ?blen_le32'; lia.
Qed.
Lemma bytes_ok_activated no hdr : bytes_ok hdr → bytes_ok (activated no hdr).
Proof.
  intros. unfold activated. apply bytes_ok_splice; [|apply bytes_ok_le32].
  apply bytes_ok_splice; [done|apply bytes_ok_le32].
Qed.

Lemma wp_update_header (Q : unit → fw_state F W → Prop) s :
  header_in_flash → fd_ok (flash s) → headers_ok s → blen (booter s) = T_BOOTER_SIZE →
  bytes_ok (booter s) →
  fd_lo <= CODE_UPD_HEADER_ADDR (layout s) → CODE_UPD_HEADER_ADDR (layout s) + T_BOOTER_SIZE <= fd_hi →
  let upd_addr := CODE_UPD_HEADER_ADDR (layout s) in
  let new := activated (current_no (running s) (fd_bytes (flash s) upd_addr T_BOOTER_SIZE)
                          (flashtotalsize s)) (booter s) in
  (∀ s1 f, quiet s s1 → fd_ok f →
     (∀ x, fd_lo <= x < fd_hi → fd_mem f x =
        if (upd_addr <=? x) && (x <? upd_addr + T_BOOTER_SIZE) then default 0 (byte_at new (x - upd_addr))
        else fd_mem (flash s) x) →
     Q tt (set_flash f (set_booter new s1))) →
  wp tls_fwup_img_update_header Q s.
Proof.
  intros Hin Hf [Hh0 Hh1] Hbl Hbok Hul Huh upd_addr new HQ. pose proof Hin as [Hrl Hrh].
  unfold tls_fwup_img_update_header. wp_steps.
  apply wp_read_header; [done|done|done|done|]. intros f1 Hf1 Hm1. cbv beta iota. wp_steps.
  apply wp_read_header; [done|done|done|done|]. intros f2 Hf2 Hm2. cbv beta iota. wp_steps.
  fold (running s) upd_addr. set (upd_hdr := fd_bytes (flash s) upd_addr T_BOOTER_SIZE).
  change (layout _) with (layout s). fold upd_addr.
  assert (∀ x, fd_lo <= x < fd_hi → fd_mem f2 x = fd_mem (flash s) x) as Hm.
  { intros x Hx. rewrite Hm2 by done. by apply Hm1. }
  assert (fd_bytes (flash (set_imgheader0 (running s) (set_flash f1 s))) upd_addr T_BOOTER_SIZE
          = upd_hdr) as Hupd by (apply fd_bytes_ext; intros x Hx; apply Hm1; unfold upd_addr, T_BOOTER_SIZE in *; lia).
  rewrite Hupd. clear Hupd. set (s2 := set_imgheader1 _ _).
  assert (running s2 = running s) as Hrun.
  { apply fd_bytes_ext. intros x Hx. apply Hm. lia. }
  assert (blen upd_hdr = T_BOOTER_SIZE) as Hupl by by apply blen_fd.
  assert (quiet s s2) as Hq2.
  { exists (sec_cfg s), (running s), upd_hdr, f2. split; [by destruct s as [[]]|].
    split; [done|]. split; [done|]. split; [by apply blen_fd|done]. }
  apply wp_header_check; [done|done|by apply (quiet_headers s)|done|apply bytes_ok_fd|].
  intros s3 Hs3 Hi3. rewrite Hrun in *. change (flashtotalsize s2) with (flashtotalsize s). wp_steps.
  assert (imgheader0 s3 = running s) as -> by by destruct Hi3 as [-> | ->].
  assert (quiet s s3) as Hq3 by by eapply quiet_trans.
  assert (booter s3 = booter s) as -> by (by destruct Hq3 as (? & ? & ? & ? & -> & _)).
  set (acc := header_accepted _ _ _) in *.
  assert (upd_no (if acc && (upd_no (running s) <? upd_no upd_hdr) then upd_hdr else running s) =
    current_no (running s) upd_hdr (flashtotalsize s)) as ->.
  { unfold current_no. fold acc. by destruct (acc && _)%bool. }
  set (img := splice (booter s) 32 _).
  assert (bytes_ok img) as Himgok by (apply bytes_ok_splice; [done|apply bytes_ok_le32]).
  assert (blen img = T_BOOTER_SIZE) as Himgl
    by (unfold img, T_BOOTER_SIZE in *; rewrite blen_splice; rewrite ?blen_le32'; lia).
  apply wp_on_crc; [by unfold is_u32|done|unfold T_BOOTER_SIZE; lia|rewrite Himgl; unfold T_BOOTER_SIZE; lia|].
  intros c. wp_steps. change (tls_crypto_crc_final (crc32_ctx ?x)) with x.
  change (splice img 52 _) with new.
  eapply wp_on_flash.
  - apply fls_write_ok; [by apply (quiet_ok s s3)|done|done| |by apply bytes_ok_activated].
    unfold new. rewrite blen_activated by done. unfold T_BOOTER_SIZE. lia.
  - intros r f (-> & Hf' & Hm'). apply wp_ret.
    apply (HQ (set_sec_cfg c s3)); [|done|].
    + eapply quiet_trans; [exact Hq3|]. apply quiet_sec; [by apply (quiet_ok s)|by apply (quiet_headers s)].
    + intros x Hx. rewrite Hm' by done. case_if; [done|].
      destruct Hq3 as (c3 & h03 & h13 & f3 & -> & Hf3 & Hm3 & _). by apply Hm3.
Qed.

(** The two ways a block is stored, together. *)
Lemma wp_store_data c k q st r (Q : option Z → fw_state F W → Prop) s wb :
  fwup s = Live (session_fw q st r k (k / SECTOR_SIZE * SECTOR_SIZE)) → fixed s → collected k s →
  fwupwritebuffer s = Some wb → 0 <= k → 0 < blen c <= SECTOR_SIZE → k + blen c <= n →
  c = slice image k (blen c) →
  (∀ s', fwup s' = Live (session_fw q st r (k + blen c) ((k + blen c) / SECTOR_SIZE * SECTOR_SIZE)) →
     fixed s' → collected (k + blen c) s' → fwup_msg_queue s' = fwup_msg_queue s →
     wifi s' = wifi s → Q None s') →
  wp (store_data wb c (blen c)) Q s.
Proof.
  intros Hfw Hfix Hcol Hwb Hk Hc Hn Hslice HQ. rewrite <- (app_nil_r c) at 1.
  destruct (Z.lt_ge_cases (k mod SECTOR_SIZE + blen c) SECTOR_SIZE).
  - by apply (wp_store_small wb c [] k q st r); try done; try lia.
  - by apply (wp_store_full wb c [] k q st r); try done; try lia.
Qed.

Lemma wp_finish_partial q st r k off (Q : option Z → fw_state F W → Prop) s :
  fwup s = Live (session_fw q st r k off) → k < tot → Q None s → wp finish_image Q s.
Proof.
  intros Hfw Hk HQ. unfold finish_image. wp_step. apply (wp_live _ _ _ Hfw).
  cbn [total_len updated_len session_fw]. replace (tot <=? k) with false by lia. by apply wp_ret.
Qed.

(** The end of the image. *)
Hypothesis Hbase_h : base = Z.lor (upd_img_addr h) FLASH_BASE.
Hypothesis Hrun_in : header_in_flash.
Hypothesis Hrun_apart : CODE_RUN_HEADER_ADDR + T_BOOTER_SIZE <= base.
Hypothesis Hh_len : blen h = T_BOOTER_SIZE.
Hypothesis Hh_ok : bytes_ok h.
Let upd_addr : Z := CODE_UPD_HEADER_ADDR lay.
Hypothesis Hupd_in : fd_lo <= upd_addr ∧ upd_addr + T_BOOTER_SIZE <= fd_hi.
Hypothesis Hupd_apart : base + n <= upd_addr ∨ upd_addr + T_BOOTER_SIZE <= base.

(** The flash with the image in place. *)
Definition mem_image (x : Z) : Z :=
  if (base <=? x) && (x <? base + n) then default 0 (byte_at image (x - base)) else m0 x.
Definition new_header : list Z :=
  activated (current_no (bytes_of m0 CODE_RUN_HEADER_ADDR T_BOOTER_SIZE)
               (bytes_of m0 upd_addr T_BOOTER_SIZE) total) h.
(** ... and the header that activates it. *)
Definition mem_active (x : Z) : Z :=
  if (upd_addr <=? x) && (x <? upd_addr + T_BOOTER_SIZE)
  then default 0 (byte_at new_header (x - upd_addr)) else mem_image x.
Definition image_good : bool := upd_checksum h =? crc_reg 0xFFFFFFFF (slice image 0 tot).

(** What is known of the state when a request has ended the image. *)
Definition ended s' s : Prop :=
  resets s' = r0 ∧ fwup_msg_queue s' = fwup_msg_queue s ∧ fd_ok (flash s') ∧ headers_ok s' ∧
  layout s' = lay ∧ flashtotalsize s' = total.

Lemma bytes_of_image : bytes_of mem_image base n = image.
Proof.
  apply byte_at_ext; unfold bytes_of; rewrite blen_fmap_seqZ by lia; [done|].
  intros i Hi. rewrite byte_at_fmap_seqZ by done. unfold mem_image.
  replace ((base <=? base + i) && (base + i <? base + n))%bool with true by lia.
  replace (base + i - base) with i by lia.
  destruct (byte_at_is_Some image i Hi) as [v ->]. done.
Qed.
Lemma bytes_of_announced : bytes_of mem_image base tot = slice image 0 tot.
Proof.
  rewrite <- bytes_of_image. unfold bytes_of, slice. rewrite drop_0, <- fmap_take. f_equal.
  replace n with (tot + (n - tot)) by lia. rewrite seqZ_app by lia. rewrite take_app_length'; [done|]. by rewrite length_seqZ.
Qed.
(** The last write, which the checksum then reads back. *)
Lemma wp_finish_write s f wb (Q : Z → fw_state F W → Prop) :
  fwup s = Live f → program_base f = base → program_offset f = n / SECTOR_SIZE * SECTOR_SIZE →
  updated_len f = n → fixed s → collected n s → fwupwritebuffer s = Some wb →
  (n mod SECTOR_SIZE = 0 → holds mem_image s → Q 1 s) →
  (n mod SECTOR_SIZE ≠ 0 → ∀ f', fd_ok f' → holds mem_image (set_flash f' s) → Q 0 (set_flash f' s)) →
  wp (if program_offset f <=? updated_len f then
         across_test ;;
         let* f := live in
         let* wb := gets fwupwritebuffer in
         let* wb := of_opt wb in
         let* cur := gets currentlen in
         on_flash (fls_write (u32 (program_base f + program_offset f)) wb cur)
       else ret 0)%C Q s.
Proof.
  intros Hfw Hpb Hpo Hul Hfix (Hcur & (wb' & Hwb' & Hwl & Hwok & Hws) & Hm) Hwb HQ0 HQ.
  assert (wb' = wb) as -> by congruence. pose proof (sector_split n ltac:(lia)) as (Hr & Hkk & Ho).
  pose proof fd_hi_u32 as Hu32. unfold FLASH_BASE in Hbase.
  set (o := n / SECTOR_SIZE * SECTOR_SIZE) in *. set (a := n mod SECTOR_SIZE) in *.
  rewrite Hpo, Hul. replace (o <=? n) with true by lia.
  wp_step. eapply wp_across; [exact Hfw|exact Hfix|]. wp_step. apply (wp_live _ _ _ Hfw).
  wp_steps. rewrite Hwb. eapply wp_of_opt; [done|]. wp_steps. rewrite Hpb, Hpo, Hcur.
  rewrite u32_id by (unfold is_u32; lia).
  destruct Hfix as (Hh & Ht & Hlay & Hres & Hfok & Hrest').
  destruct (Z.eqb_spec a 0) as [Ha|Ha].
  - rewrite Ha. apply wp_lift. unfold wp.
    rewrite fls_write_empty by (done || (split; lia)).
    assert (holds mem_image s) as Hm'.
    { intros x Hx. rewrite Hm by done. unfold mem_image. by replace n with o by lia. }
    replace (set_params (set_fl (fl (params s)) (params s)) s) with s by (by destruct s as [[]]).
    by apply HQ0.
  - eapply wp_on_flash; [apply fls_write_ok; try done; lia|]. intros r f' (-> & Hf' & Hmf).
    apply HQ; [done|done|]. intros x Hx. change (flash (set_flash f' s)) with f'.
    rewrite Hmf, Hm by done. unfold mem_image.
    destruct (Z.leb_spec (base + o) x), (Z.ltb_spec x (base + o + a)); cbn [andb].
    + replace ((base <=? x) && (x <? base + n))%bool with true by lia.
      assert (byte_at (slice wb 0 a) (x - (base + o)) = byte_at wb (x - (base + o))) as <-
        by (rewrite byte_at_slice by lia; f_equal; lia).
      rewrite Hws, byte_at_slice by lia. do 2 f_equal. lia.
    + replace ((base <=? x) && (x <? base + o))%bool with false by lia.
      by replace ((base <=? x) && (x <? base + n))%bool with false by lia.
    + by replace (x <? base + n) with (x <? base + o) by lia.
    + lia.
Qed.

Lemma set_program_base_id q st r k off :
  set_program_base (Z.lor (upd_img_addr h) FLASH_BASE) (session_fw q st r k off) =
  session_fw q st r k off.
Proof. unfold set_program_base, session_fw. cbn. by rewrite <- Hbase_h. Qed.

Lemma quiet_holds m s s' : quiet s s' → holds m s → holds m s'.
Proof.
  intros (c & h0 & h1 & f & -> & _ & Hm & _) Hh x Hx. change (flash _) with f.
  rewrite Hm by done. by apply Hh.
Qed.
Lemma quiet_ended s s1 s' : quiet s1 s' → ended s1 s → ended s' s.
Proof.
  intros (c & h0 & h1 & f & -> & Hf & _ & Hl0 & Hl1) (Hr & Hq & _ & _ & Hl & Ht). done.
Qed.
Lemma quiet_fwup s s' : quiet s s' → fwup s' = fwup s ∧ booter s' = booter s ∧
  org_checksum s' = org_checksum s ∧ oneshotback s' = oneshotback s ∧ layout s' = layout s ∧
  flashtotalsize s' = flashtotalsize s.
Proof. by intros (c & h0 & h1 & f & -> & _). Qed.

Lemma final_header s : holds mem_image s → flashtotalsize s = total → layout s = lay → booter s = h →
  activated (current_no (running s) (fd_bytes (flash s) (CODE_UPD_HEADER_ADDR (layout s)) T_BOOTER_SIZE)
    (flashtotalsize s)) (booter s) = new_header.
Proof.
  intros Hm Ht Hl Hb. rewrite Ht, Hl, Hb. fold upd_addr. unfold new_header. do 2 f_equal.
  - unfold running. rewrite (holds_bytes mem_image) by (done || apply Hrun_in).
    apply bytes_of_ext. intros x Hx. unfold mem_image.
    by replace (base <=? x) with false by lia.
  - rewrite (holds_bytes mem_image) by (done || apply Hupd_in).
    apply bytes_of_ext. intros x Hx. unfold mem_image.
    by replace ((base <=? x) && (x <? base + n))%bool with false by lia.
Qed.

Lemma quiet_buffer_same s s' : quiet_buffer s s' → fwup s' = fwup s ∧ booter s' = booter s ∧
  org_checksum s' = org_checksum s ∧ oneshotback s' = oneshotback s ∧ layout s' = layout s ∧
  flashtotalsize s' = flashtotalsize s.
Proof. intros (wb & s1 & Hq & -> & _). by apply quiet_fwup in Hq. Qed.
Lemma quiet_buffer_holds m s s' : quiet_buffer s s' → holds m s → holds m s'.
Proof. intros (wb & s1 & Hq & -> & _) Hm. by apply (quiet_holds m s s1). Qed.
Lemma quiet_buffer_ended s s1 s' : quiet_buffer s1 s' → ended s1 s → ended s' s.
Proof. intros (wb & s2 & Hq & -> & _) He. by apply (quiet_ended s s1 s2). Qed.

(** The header is written and the session completed. *)
Lemma wp_activate q st r off s0 s (Q : option Z → fw_state F W → Prop) :
  fwup s = Live (session_fw q st r n off) → booter s = h → layout s = lay → flashtotalsize s = total →
  ended s s0 → holds mem_image s →
  (∀ s', fwup s' = Live (session_fw q (Z.lor st 2) r n off) → ended s' s0 → holds mem_active s' →
     Q None s') →
  wp (tls_fwup_img_update_header ;;
      add_state TLS_FWUP_STATE_COMPLETE ;;
      let* back := gets oneshotback in
      (if back =? 1 then on_wifi (tls_wifi_set_oneshot_flag back) else ret tt) ;;
      ret None)%C Q s.
Proof.
  intros Hfw Hb Hlay Ht He Hm HQ. pose proof He as (Hr & Hqu & Hf & Hh & _).
  wp_step. apply wp_update_header; rewrite ?Hlay, ?Hb; try done; try apply Hupd_in.
  rewrite <- Hlay, <- Hb, final_header by done. intros s4 f4 Hq4 Hf4 Hm4.
  pose proof (quiet_fwup _ _ Hq4) as (Hfw4 & _ & _ & _ & Hlay4 & Ht4).
  pose proof (quiet_ended s0 _ _ Hq4 He) as (Er & Eq & _ & Eh & El & Et).
  set (s5 := set_flash f4 _). wp_step. apply (wp_upd (session_fw q st r n off)); [by etrans|].
  wp_steps. set (s6 := set_fwup _ s5).
  assert (holds mem_active s6) as Hact.
  { intros x Hx. change (flash s6) with f4. rewrite Hm4 by done. rewrite Hlay. fold upd_addr.
    unfold mem_active. case_if; [done|]. by apply Hm. }
  assert (ended s6 s0) as He6 by done.
  case_if; wp_steps; apply HQ; done.
Qed.

Lemma wp_finish_full q st r (Q : option Z → fw_state F W → Prop) s :
  let off := n / SECTOR_SIZE * SECTOR_SIZE in
  fwup s = Live (session_fw q st r n off) → fixed s → collected n s →
  (n mod SECTOR_SIZE = 0 → ∀ s', fwup s' = Live (session_fw q (Z.lor st 4) r n off) →
     ended s' s → holds mem_image s' → Q (Some TLS_FWUP_REQ_STATUS_FIO) s') →
  (n mod SECTOR_SIZE ≠ 0 → image_good = false →
     ∀ s', fwup s' = Live (session_fw q (Z.lor st 32) r n off) →
     ended s' s → holds mem_image s' → Q (Some TLS_FWUP_REQ_STATUS_FCRC) s') →
  (n mod SECTOR_SIZE ≠ 0 → image_good = true →
     ∀ s', fwup s' = Live (session_fw q (Z.lor st 2) r n off) →
     ended s' s → holds mem_active s' → Q None s') →
  wp finish_image Q s.
Proof.
  intros off Hfw Hfix Hcol HQ0 HQ1 HQ2. pose proof Hfix as (Hh & Ht & Hlay & Hres & Hfok & Hb & Horg & Hacr).
  pose proof Hcol as (Hcur & (wb & Hwb & Hwl & Hwok & _) & _).
  unfold finish_image. wp_step. apply (wp_live _ _ _ Hfw).
  change (total_len _) with tot. change (updated_len (session_fw _ _ _ n _)) with n.
  replace (tot <=? n) with true by lia. wp_step.
  apply (wp_finish_write s _ wb _ Hfw eq_refl eq_refl eq_refl Hfix Hcol Hwb).
  - intros Hmod Hm. change (negb (1 =? 0)) with true. cbv iota. wp_step.
    apply (wp_upd _ _ _ _ Hfw). apply wp_ret. apply HQ0; done.
  - intros Hmod f' Hf' Hm'. set (s1 := set_flash f' s) in *.
    change (negb (0 =? 0)) with false. cbv iota. wp_steps.
    apply (wp_upd _ _ _ s1 Hfw). change (booter s1) with (booter s). rewrite Hb, set_program_base_id.
    wp_step. set (s2 := set_fwup _ s1).
    apply (wp_image_crc (session_fw q st r n off) wb); try done.
    intros s3 Hq3. pose proof (quiet_buffer_same _ _ Hq3) as (Hf3 & Hb3 & Ho3 & _ & Hlay3 & Ht3).
    assert (fd_bytes (flash s2) base tot = slice image 0 tot) as ->.
    { rewrite (holds_bytes mem_image) by (done || lia). apply bytes_of_announced. }
    cbv beta iota. wp_steps. rewrite Ho3. change (org_checksum s2) with (org_checksum s).
    rewrite Horg. fold image_good.
    assert (ended s3 s) as He3 by (by apply (quiet_buffer_ended s s2)).
    assert (holds mem_image s3) as Hm3 by (by apply (quiet_buffer_holds _ s2)).
    change (fwup s2) with (Live (session_fw q st r n off)) in Hf3.
    change (booter s2) with (booter s) in Hb3. rewrite Hb in Hb3.
    destruct image_good eqn:Hgood; cbn [negb]; cbv iota.
    + apply (wp_activate q st r off s s3); try done; [by rewrite Hlay3|by rewrite Ht3|].
      by apply HQ2.
    + wp_step. apply (wp_upd (session_fw q st r n off)); [done|]. apply wp_ret. by apply HQ1.
Qed.

(** ** One request *)

Lemma wp_process_data c q k r (Q : Z → fw_state F W → Prop) s :
  fwup s = Live (session_fw q 1 r k (k / SECTOR_SIZE * SECTOR_SIZE)) → fixed s → collected k s →
  src <= TLS_FWUP_IMAGE_SRC_WEB → T_BOOTER_SIZE <= r → is_u32 (r + blen c) →
  0 <= k → 0 < blen c <= SECTOR_SIZE → k + blen c < tot ∨ k + blen c = n → c = slice image k (blen c) →
  (k + blen c < tot → ∀ s', fwup s' = Live (session_fw q 1 (r + blen c) (k + blen c)
       ((k + blen c) / SECTOR_SIZE * SECTOR_SIZE)) →
     fixed s' → collected (k + blen c) s' → fwup_msg_queue s' = fwup_msg_queue s →
     Q TLS_FWUP_REQ_STATUS_SUCCESS s') →
  (k + blen c = n → ∀ status st s',
     fwup s' = Live (session_fw q st (r + blen c) n (n / SECTOR_SIZE * SECTOR_SIZE)) →
     ended s' s → (n mod SECTOR_SIZE = 0 → status = TLS_FWUP_REQ_STATUS_FIO ∧ st = 5 ∧ holds mem_image s') →
     (n mod SECTOR_SIZE ≠ 0 → image_good = false →
        status = TLS_FWUP_REQ_STATUS_FCRC ∧ st = 33 ∧ holds mem_image s') →
     (n mod SECTOR_SIZE ≠ 0 → image_good = true →
        status = TLS_FWUP_REQ_STATUS_SUCCESS ∧ st = 3 ∧ holds mem_active s') → Q status s') →
  wp (process_request (mk_req c (blen c))) Q s.
Proof.
  intros Hfw Hfix Hcol Hsrc Hr Hru Hk Hc Hn Hslice HQ1 HQ2. unfold process_request.
  wp_step. apply (wp_live _ _ _ Hfw). cbn [current_state session_fw current_image_src].
  change (truth (Z.land 1 TLS_FWUP_STATE_ERROR)) with false.
  change (truth (Z.land 1 TLS_FWUP_STATE_COMPLETE)) with false. cbv iota.
  replace (src <=? TLS_FWUP_IMAGE_SRC_WEB) with true by lia. cbn [negb]. cbv iota.
  wp_step. unfold take_header. wp_step. apply (wp_live _ _ _ Hfw). cbn [received_len session_fw].
  replace (r <? T_BOOTER_SIZE) with false by lia. apply wp_ret. cbn [data data_len].
  wp_step. apply (wp_upd _ _ _ _ Hfw).
  cbn [set_received_len session_fw received_len]. rewrite u32_id by done. wp_steps.
  set (s1 := set_fwup _ s). pose proof Hcol as (Hcur & (wb & Hwb & Hwl & Hwok & Hws) & Hm).
  change (fwupwritebuffer s1) with (fwupwritebuffer s). rewrite Hwb.
  replace (0 <? blen c) with true by lia. wp_step.
  apply (wp_store_data c k q 1 (r + blen c) _ s1 wb); try done; [lia|].
  intros s2 Hfw2 Hfix2 Hcol2 Hq2 _. wp_step.
  destruct Hn as [Hlt|He].
  - apply (wp_finish_partial _ _ _ _ _ _ _ Hfw2); [done|]. apply wp_ret. by apply HQ1.
  - rewrite He in Hfw2, Hcol2. specialize (HQ2 He).
    apply (wp_finish_full q 1 (r + blen c) _ s2 Hfw2 Hfix2 Hcol2).
    + intros Hmod s3 Hf3 He3 Hm3. apply wp_ret. apply (HQ2 _ _ s3 Hf3); [|done|done|done].
      destruct He3 as (? & E & ?). split; [done|]. split; [by rewrite E|done].
    + intros Hmod Hg s3 Hf3 He3 Hm3. apply wp_ret. apply (HQ2 _ _ s3 Hf3); [|done|done|congruence].
      destruct He3 as (? & E & ?). split; [done|]. split; [by rewrite E|done].
    + intros Hmod Hg s3 Hf3 He3 Hm3. apply wp_ret. apply (HQ2 _ _ s3 Hf3); [|done|congruence|done].
      destruct He3 as (? & E & ?). split; [done|]. split; [by rewrite E|done].
Qed.

(** ** A whole session *)

Local Open Scope c_scope.
(** A client that hands the image over block by block. *)
Fixpoint send_blocks (session : Z) (blocks : list (list Z)) : M (fw_state F W) (list Z) :=
  match blocks with
  | [] => ret []
  | b :: blocks' =>
      let* r := tls_fwup_request_sync session (Some b) (blen b) true in
      let* rs := send_blocks session blocks' in
      ret (r :: rs)
  end.
Local Close Scope c_scope.

Definition receiving (r k : Z) s : Prop :=
  fwup s = Live (session_fw [] 0 r k (k / SECTOR_SIZE * SECTOR_SIZE)) ∧ fixed s ∧ collected k s ∧
  fwup_msg_queue s = 0.

(** How the last block ends the session. *)
Definition finished (res : Z) s : Prop :=
  resets s = r0 + 1 ∧ fd_ok (flash s) ∧ ∃ st r,
  fwup s = Live (session_fw [] st r n (n / SECTOR_SIZE * SECTOR_SIZE)) ∧
  if n mod SECTOR_SIZE =? 0
  then res = TLS_FWUP_STATUS_EIO ∧ st = TLS_FWUP_STATE_ERROR_IO ∧ holds mem_image s
  else if image_good then res = TLS_FWUP_STATUS_OK ∧ st = TLS_FWUP_STATE_COMPLETE ∧ holds mem_active s
  else res = TLS_FWUP_STATUS_ECRC ∧ st = TLS_FWUP_STATE_ERROR_CRC ∧ holds mem_image s.

Lemma finish_last rq status st r (Q : Z → fw_state F W → Prop) s s1 :
  fwup s = Live (session_fw [rq] st r n (n / SECTOR_SIZE * SECTOR_SIZE)) → ended s s1 →
  (n mod SECTOR_SIZE = 0 → status = TLS_FWUP_REQ_STATUS_FIO ∧ st = 5 ∧ holds mem_image s) →
  (n mod SECTOR_SIZE ≠ 0 → image_good = false →
     status = TLS_FWUP_REQ_STATUS_FCRC ∧ st = 33 ∧ holds mem_image s) →
  (n mod SECTOR_SIZE ≠ 0 → image_good = true →
     status = TLS_FWUP_REQ_STATUS_SUCCESS ∧ st = 3 ∧ holds mem_active s) →
  (∀ s', finished (sync_status status) s' → Q (sync_status status) s') →
  wp request_finish (λ _ s', Q (sync_status status) s') s.
Proof.
  intros Hfw (Hr & _ & Hf & _) HA HB HC HQ.
  apply (wp_request_finish rq _ _ _ Hfw); [done| |cbn [updated_len total_len session_fw]; lia].
  intros _ w. apply HQ. unfold finished. split; [cbn; by rewrite Hr|]. split; [done|].
  exists (Z.land st 0xFFFE), r. split; [done|].
  destruct (Z.eqb_spec (n mod SECTOR_SIZE) 0) as [Hm|Hm]; [|destruct image_good eqn:Hg].
  - by destruct (HA Hm) as (-> & -> & ?).
  - by destruct (HC Hm eq_refl) as (-> & -> & ?).
  - by destruct (HB Hm eq_refl) as (-> & -> & ?).
Qed.

Hypothesis Hsrc : src <= TLS_FWUP_IMAGE_SRC_WEB.

(** The rest of the image. *)
Lemma wp_block r k b (Q : Z → fw_state F W → Prop) s :
  receiving r k s → r = T_BOOTER_SIZE + k → 0 <= k → 0 < blen b <= SECTOR_SIZE → k + blen b < tot ∨ k + blen b = n →
  b = slice image k (blen b) →
  (k + blen b < tot → ∀ s', receiving (r + blen b) (k + blen b) s' → Q TLS_FWUP_STATUS_OK s') →
  (k + blen b = n → ∀ res s', finished res s' → Q res s') →
  wp (tls_fwup_request_sync sid (Some b) (blen b) true) Q s.
Proof.
  intros (Hfw & Hfix & Hcol & Hqu) Hr Hk Hb Hn Hslice HQ1 HQ2.
  apply (wp_request_sync sid _ _ _ _ _ Hfw); [done|done|lia|done|]. intros w s1.
  assert (is_u32 (r + blen b)) as Hru.
  { pose proof fd_hi_u32. pose proof fd_lo_pos. unfold is_u32, FLASH_BASE, T_BOOTER_SIZE in *. lia. }
  apply (wp_process_data b [mk_req b (blen b)] k r); try done; [unfold T_BOOTER_SIZE in *; lia| |].
  - intros Hlt s2 Hfw2 Hfix2 Hcol2 Hqu2. eapply wp_request_finish; [exact Hfw2|done| |].
    + cbn [updated_len total_len session_fw]. lia.
    + intros _. apply HQ1; [done|]. split; [done|]. split; [done|]. split; [done|].
      cbn [fwup_msg_queue set_fwup]. by rewrite Hqu2.
  - intros He status st s2 Hfw2 Hend HA HB HC. eapply finish_last; try done. by apply HQ2.
Qed.

Lemma wp_blocks blocks : ∀ r k (Q : list Z → fw_state F W → Prop) s,
  receiving r k s → r = T_BOOTER_SIZE + k → 0 <= k → k + blen (concat blocks) = n → blocks ≠ [] →
  n - blen (List.last blocks []) < tot →
  concat blocks = slice image k (blen (concat blocks)) →
  Forall (λ b, 0 < blen b <= SECTOR_SIZE) blocks →
  (∀ res s', finished res s' →
     Q (replicate (pred (length blocks)) TLS_FWUP_STATUS_OK ++ [res]) s') →
  wp (send_blocks sid blocks) Q s.
Proof.
  induction blocks as [|b blocks IH]; intros r k Q s Hrec Hr Hk Hn Hne Hlast Hsl Hb HQ; [done|].
  inversion Hb as [|? ? Hb1 Hb2]; subst. cbn [send_blocks concat] in *. rewrite blen_app in *.
  pose proof (blen_nonneg (concat blocks)).
  assert (b = slice image k (blen b) ∧
    concat blocks = slice image (k + blen b) (blen (concat blocks))) as [Hs1 Hs2].
  { rewrite <- slice_app in Hsl by lia. apply app_inj_1 in Hsl; [done|].
    assert (blen (slice image k (blen b)) = blen b) as E by (apply blen_slice; fold n; lia).
    apply Nat2Z.inj. symmetry. exact E. }
  assert (k + blen b < tot ∨ k + blen b = n) as Hkb.
  { destruct blocks as [|b' blocks]; [right; change (blen (concat [])) with 0 in *; lia|left].
    change (List.last (b :: b' :: blocks) []) with (List.last (b' :: blocks) []) in Hlast. pose proof (blen_last (b' :: blocks)). lia. }
  wp_step. apply (wp_block (T_BOOTER_SIZE + k) k b); try done; try lia.
  - intros Hlt s1 Hrec1. wp_step.
    assert (blocks ≠ []) as Hne' by (intros ->; change (blen (concat [])) with 0 in Hn; lia).
    apply (IH (T_BOOTER_SIZE + k + blen b) (k + blen b)); try done; try lia; [by destruct blocks|].
    intros res s' Hfin. apply wp_ret. specialize (HQ res s' Hfin).
    destruct blocks; [done|]. exact HQ.
  - intros He res s1 Hfin. assert (blocks = []) as ->.
    { destruct blocks as [|b' blocks]; [done|]. inversion Hb2; subst. cbn [concat] in *.
      rewrite blen_app in *. pose proof (blen_nonneg (concat blocks)). lia. }
    wp_steps. cbn [send_blocks]. wp_steps. by apply HQ.
Qed.

(** A session just opened. *)
Definition opened s : Prop :=
  fwup s = Live (mk_fwup [] lock true src 0 sid 0 0 0 0 0 rn) ∧ fwup_msg_queue s = 0 ∧
  (∃ wb, fwupwritebuffer s = Some wb ∧ blen wb = SECTOR_SIZE ∧ bytes_ok wb) ∧
  headers_ok s ∧ blen (booter s) = T_BOOTER_SIZE ∧ fd_ok (flash s) ∧ layout s = lay ∧
  flashtotalsize s = total ∧ resets s = r0 ∧ holds m0 s.

Lemma opened_accept d s (Q : outcome → fw_state F W → Prop) st q :
  fwup s = Live (mk_fwup q lock true src st sid 0 0 0 0 0 rn) →
  (∃ wb, fwupwritebuffer s = Some wb ∧ blen wb = SECTOR_SIZE ∧ bytes_ok wb) →
  headers_ok s → blen (booter s) = T_BOOTER_SIZE → fd_ok (flash s) → layout s = lay →
  flashtotalsize s = total → resets s = r0 → holds m0 s →
  upd_img_len h = tot → header_accepted h (running s) total = true →
  (∀ s', fwup s' = Live (session_fw q st T_BOOTER_SIZE 0 0) → fixed s' → collected 0 s' →
     fwup_msg_queue s' = fwup_msg_queue s → Q (Go d (blen d)) s') →
  wp (take_header (mk_req (h ++ d) (blen (h ++ d)))) Q s.
Proof.
  intros Hfw (wb & Hwb & Hwl & Hwok) Hh Hb Hf Hlay Ht Hr Hm Hlen Hacc HQ.
  unfold take_header. wp_step. apply (wp_live _ _ _ Hfw). cbn [received_len data data_len].
  change (0 <? T_BOOTER_SIZE) with true. cbv iota. rewrite blen_app, Hh_len.
  pose proof (blen_nonneg d) as Hd. rewrite Z.sub_0_r.
  replace (if T_BOOTER_SIZE + blen d <? T_BOOTER_SIZE then T_BOOTER_SIZE + blen d else T_BOOTER_SIZE)
    with T_BOOTER_SIZE by (case_if; lia).
  wp_steps. assert (slice (h ++ d) 0 T_BOOTER_SIZE = h) as Hsl.
  { unfold slice. rewrite drop_0. apply take_app_length'. unfold blen in Hh_len. lia. }
  eapply wp_of_opt; [apply memcpy_Some; rewrite ?blen_app; unfold T_BOOTER_SIZE in *; lia|].
  rewrite Hsl, splice_all by congruence. wp_steps. eapply wp_upd; [exact Hfw|]. wp_step.
  eapply wp_live; [reflexivity|].
  change (received_len (set_received_len (u32 (0 + T_BOOTER_SIZE)) _)) with T_BOOTER_SIZE.
  rewrite Z.eqb_refl. wp_step. set (s1 := set_fwup _ (set_booter h s)).
  apply wp_header_check; try done.
  change (running s1) with (running s). change (flashtotalsize s1) with (flashtotalsize s).
  rewrite Ht, Hacc. intros s2 Hq2 _. cbn [negb]. cbv iota.
  assert ((IMG_TYPE_OLD_PLAIN =? img_type h) || (IMG_TYPE_NEW_PLAIN =? img_type h) = true)%bool as ->
    by (unfold header_accepted in Hacc; rewrite !andb_true_iff in Hacc; intuition).
  pose proof (quiet_fwup _ _ Hq2) as (Hfw2 & Hb2 & _ & _ & Hlay2 & Ht2).
  wp_step. eapply wp_upd; [by rewrite Hfw2|]. wp_step. eapply wp_upd; [reflexivity|]. wp_steps.
  eapply wp_upd; [reflexivity|]. wp_steps.
  replace (drop (Z.to_nat T_BOOTER_SIZE) (h ++ d)) with d
    by (rewrite drop_app_length'; [done|unfold blen in Hh_len; lia]).
  replace (T_BOOTER_SIZE + blen d - T_BOOTER_SIZE) with (blen d) by lia.
  assert (holds m0 s2) as Hm2 by (by apply (quiet_holds m0 s1)).
  destruct Hq2 as (c & h0 & h1 & f & -> & Hf2 & _ & Hl0 & Hl1). apply HQ.
  - cbn. unfold session_fw, set_updated_len, set_total_len, set_program_base. cbn.
    by rewrite <- Hbase_h, Hlen.
  - split; [done|]. done.
  - split; [done|]. split.
    + exists wb. split; [done|]. split; [done|]. split; [done|]. reflexivity.
    + intros x Hx. etrans; [exact (Hm2 x Hx)|]. change (0 / SECTOR_SIZE * SECTOR_SIZE) with 0.
      by replace ((base <=? x) && (x <? base + 0))%bool with false by lia.
  - done.
Qed.

(** The block with the header, and as much of the image as it holds. *)
Lemma wp_first d (Q : Z → fw_state F W → Prop) s :
  opened s → upd_img_len h = tot → header_accepted h (running s) total = true →
  blen d <= SECTOR_SIZE → blen d < tot ∨ blen d = n → d = slice image 0 (blen d) →
  (blen d < tot → ∀ s', receiving (T_BOOTER_SIZE + blen d) (blen d) s' → Q TLS_FWUP_STATUS_OK s') →
  (blen d = n → ∀ res s', finished res s' → Q res s') →
  wp (tls_fwup_request_sync sid (Some (h ++ d)) (blen (h ++ d)) true) Q s.
Proof.
  intros (Hfw & Hqu & Hwb & Hh & Hb & Hf & Hlay & Ht & Hr & Hm) Hlen Hacc Hd Hn Hsl HQ1 HQ2.
  pose proof (blen_nonneg d) as Hd0. pose proof fd_hi_u32. pose proof fd_lo_pos.
  assert (blen (h ++ d) = T_BOOTER_SIZE + blen d) as Hbl by (rewrite blen_app; lia).
  apply (wp_request_sync sid _ _ _ _ _ Hfw); [done|done|unfold T_BOOTER_SIZE in *; lia|done|].
  intros w s1. unfold process_request. wp_step. eapply wp_live; [reflexivity|].
  change (truth (Z.land _ TLS_FWUP_STATE_ERROR)) with false.
  change (truth (Z.land _ TLS_FWUP_STATE_COMPLETE)) with false. cbv iota.
  change (current_image_src _) with src.
  replace (src <=? TLS_FWUP_IMAGE_SRC_WEB) with true by lia. cbn [negb]. cbv iota. wp_step.
  eapply (opened_accept d); [reflexivity|done..|].
  intros s2 Hfw2 Hfix2 Hcol2 Hqu2. cbv iota beta. wp_step. eapply wp_upd; [exact Hfw2|].
  cbn [set_received_len session_fw received_len].
  rewrite u32_id by (unfold is_u32, FLASH_BASE, T_BOOTER_SIZE in *; lia). wp_steps.
  set (s3 := set_fwup _ s2). pose proof Hcol2 as (_ & (wb & Hwb2 & Hwl2 & Hwok2 & _) & _).
  change (fwupwritebuffer s3) with (fwupwritebuffer s2). rewrite Hwb2.
  destruct (Z.ltb_spec 0 (blen d)).
  - wp_step. apply (wp_store_data d 0 [mk_req (h ++ d) (blen (h ++ d))] (Z.lor 0 1) (T_BOOTER_SIZE + blen d) _ s3 wb); try done; [lia|].
    intros s4 Hfw4 Hfix4 Hcol4 Hq4 _. wp_step. rewrite Z.add_0_l in *.
    destruct Hn as [Hlt|He].
    + eapply wp_finish_partial; [exact Hfw4|done|]. apply wp_ret.
      eapply wp_request_finish; [exact Hfw4|done|cbn [updated_len total_len session_fw]; lia|].
      intros _. apply HQ1; [done|]. split; [done|]. split; [done|]. split; [done|].
      cbn [fwup_msg_queue set_fwup]. rewrite Hq4. exact (eq_trans Hqu2 Hqu).
    + rewrite He in Hfw4, Hcol4. apply (wp_finish_full _ _ _ _ s4 Hfw4 Hfix4 Hcol4).
      * intros Hmod s5 Hf5 He5 Hm5. apply wp_ret. eapply finish_last; try done. by apply HQ2.
      * intros Hmod Hg s5 Hf5 He5 Hm5. apply wp_ret.
        eapply finish_last; [exact Hf5|exact He5|done|done|congruence|]. by apply HQ2.
      * intros Hmod Hg s5 Hf5 He5 Hm5. apply wp_ret.
        eapply finish_last; [exact Hf5|exact He5|done|congruence|done|]. by apply HQ2.
  - assert (blen d = 0) as Hz by lia. apply wp_ret.
    eapply wp_request_finish; [reflexivity|done|intros Hle; change (tot <= 0) in Hle; lia|].
    intros _. apply HQ1; [lia|]. rewrite Hz. split; [done|]. split; [done|]. split; [done|].
    exact (eq_trans Hqu2 Hqu).
Qed.

Lemma wp_session d blocks (Q : list Z → fw_state F W → Prop) s :
  opened s → upd_img_len h = tot → header_accepted h (running s) total = true →
  image = d ++ concat blocks → blen d <= SECTOR_SIZE → n - blen (List.last (d :: blocks) []) < tot →
  Forall (λ b, 0 < blen b <= SECTOR_SIZE) blocks →
  (∀ res s', finished res s' → Q (replicate (length blocks) TLS_FWUP_STATUS_OK ++ [res]) s') →
  wp (send_blocks sid ((h ++ d) :: blocks)) Q s.
Proof.
  intros Ho Hlen Hacc Himg Hd Hlast Hb HQ. cbn [send_blocks].
  assert (n = blen d + blen (concat blocks)) as Hn by (unfold n; rewrite Himg; apply blen_app).
  pose proof (blen_nonneg d). pose proof (blen_nonneg (concat blocks)).
  assert (d = slice image 0 (blen d)) as Hd1.
  { rewrite Himg. unfold slice, blen. rewrite drop_0, Nat2Z.id. symmetry. apply take_app_length. }
  assert (concat blocks = slice image (blen d) (blen (concat blocks))) as Hd2.
  { rewrite Himg. unfold slice, blen. rewrite !Nat2Z.id, drop_app_length. symmetry. by apply take_ge. }
  assert (blen d < tot ∨ blen d = n) as Hdn.
  { destruct blocks as [|b blocks]; [right; change (blen (concat [])) with 0 in *; lia|left].
    change (List.last (d :: b :: blocks) []) with (List.last (b :: blocks) []) in Hlast. pose proof (blen_last (b :: blocks)). lia. }
  wp_step. apply (wp_first d); try done; try lia.
  - intros Hlt s1 Hrec. wp_step. apply (wp_blocks blocks (T_BOOTER_SIZE + blen d) (blen d)); try done; try lia.
    { intros ->. change (blen (concat [])) with 0 in *. lia. }
    { destruct blocks; [|exact Hlast]. change (blen (concat [])) with 0 in *. lia. }
    intros res s' Hfin. apply wp_ret. specialize (HQ res s' Hfin).
    destruct blocks as [|b blocks]; [change (blen (concat [])) with 0 in *; lia|]. exact HQ.
  - intros He res s1 Hfin. assert (blocks = []) as ->.
    { destruct blocks as [|b blocks]; [done|]. inversion Hb; subst. cbn [concat] in *.
      rewrite blen_app in *. pose proof (blen_nonneg (concat blocks)). lia. }
    cbn [send_blocks]. wp_steps. by apply HQ.
Qed.

Lemma bytes_of_active : bytes_of mem_active upd_addr T_BOOTER_SIZE = new_header.
Proof.
  assert (blen new_header = T_BOOTER_SIZE) as Hl by by apply blen_activated.
  apply byte_at_ext; unfold bytes_of; rewrite blen_fmap_seqZ by (unfold T_BOOTER_SIZE; lia); [done|].
  intros i Hi. rewrite byte_at_fmap_seqZ by done. unfold mem_active.
  replace ((upd_addr <=? upd_addr + i) && (upd_addr + i <? upd_addr + T_BOOTER_SIZE))%bool with true by lia.
  replace (upd_addr + i - upd_addr) with i by lia.
  destruct (byte_at_is_Some new_header i) as [v ->]; [by rewrite Hl|done].
Qed.
Lemma bytes_of_image_active : bytes_of mem_active base n = image.
Proof.
  etrans; [|exact bytes_of_image]. apply bytes_of_ext. intros x Hx. unfold mem_active.
  by replace ((upd_addr <=? x) && (x <? upd_addr + T_BOOTER_SIZE))%bool with false by lia.
Qed.
End reasoning.

(** ** Theorems *)

Section theorems.
Context {F W : Type} `{FlashDevOk F} `{!Wifi W} `{CrcEngineOk}.
Implicit Types (s : fw_state F W).

(** A session [tls_fwup_enter] has opened. *)
Definition session_open (sid : Z) s : Prop := ∃ src lock rn,
  src <= TLS_FWUP_IMAGE_SRC_WEB ∧ opened (fd_mem (flash s)) (flashtotalsize s) (layout s) src sid
    lock rn (resets s) s.

(** The place of an image of [n] bytes and of the update header: inside the
    flash, apart from each other and from the header of the running image. *)
Definition fits (base n upd : Z) : Prop :=
  fd_lo <= CODE_RUN_HEADER_ADDR ∧ CODE_RUN_HEADER_ADDR + T_BOOTER_SIZE <= base ∧ base + n < fd_hi ∧
  fd_lo <= upd ∧ upd + T_BOOTER_SIZE <= fd_hi ∧
  (base + n <= upd ∨ upd + T_BOOTER_SIZE <= base).

(** An image and its header, cut into blocks, the last of which may go on
    behind the image with [pad]. *)
Record delivery (h image pad : list Z) (d : list Z) (blocks : list (list Z)) s : Prop := {
  dl_header : blen h = T_BOOTER_SIZE ∧ bytes_ok h;
  dl_image : bytes_ok (image ++ pad) ∧ upd_img_len h = blen image;
  dl_accepted : header_accepted h (running s) (flashtotalsize s) = true;
  dl_across : img_type h = IMG_TYPE_OLD_PLAIN → flashtotalsize s ≠ 0x200000;
  dl_fits : fits (Z.lor (upd_img_addr h) FLASH_BASE) (blen (image ++ pad)) (CODE_UPD_HEADER_ADDR (layout s));
  dl_cut : image ++ pad = d ++ concat blocks;
  dl_sizes : blen d <= SECTOR_SIZE ∧ Forall (λ b, 0 < blen b <= SECTOR_SIZE) blocks;
  dl_last : blen pad < blen (List.last (d :: blocks) []);
}.

Lemma delivery_pos h image pad d blocks s : delivery h image pad d blocks s → 0 < blen image.
Proof.
  intros [[Hhl Hho] [_ Hil] Hacc _ _ _ _ _]. rewrite <- Hil. unfold header_accepted in Hacc.
  rewrite !andb_true_iff, !negb_true_iff, !orb_false_iff in Hacc. destruct Hacc as [[_ (_ & Hne)] _]. apply Z.eqb_neq in Hne.
  assert (is_u32 (upd_img_len h)) as Hu; [|unfold is_u32 in Hu; lia].
  apply of_le_range4; [by apply bytes_ok_slice|]. apply blen_slice; unfold T_BOOTER_SIZE in *; lia.
Qed.
Lemma image_of_padded (image pad : list Z) : slice (image ++ pad) 0 (blen image) = image.
Proof. unfold slice, blen. by rewrite drop_0, Nat2Z.id, take_app_length. Qed.

(** Handing the image over: every block but the last is taken, and the last
    ends the session in one of three ways. *)
Lemma delivered sid h image pad d blocks s : session_open sid s → delivery h image pad d blocks s →
  let base := Z.lor (upd_img_addr h) FLASH_BASE in
  ∃ res s' src lock rn,
    send_blocks sid ((h ++ d) :: blocks) s = Some (replicate (length blocks) TLS_FWUP_STATUS_OK ++ [res], s') ∧
    finished h (image ++ pad) (blen image) base (fd_mem (flash s)) (flashtotalsize s) (layout s) src sid lock rn (resets s) res s'.
Proof.
  intros (src & lock & rn & Hsrc & Ho) Hdl base. pose proof (delivery_pos _ _ _ _ _ _ Hdl) as Hpos.
  destruct Hdl as [[Hhl Hho] [Hio Hil] Hacc Hcr Hfit Hcut [Hd Hb] Hlast].
  destruct Hfit as (Hf1 & Hf2 & Hf3 & Hf4 & Hf5 & Hf6). fold base in Hf2, Hf3, Hf6.
  assert (blen (image ++ pad) = blen image + blen pad) as Hpl by apply blen_app. pose proof (blen_nonneg pad).
  assert (wp (send_blocks sid ((h ++ d) :: blocks)) (λ rs s', ∃ res,
    rs = replicate (length blocks) TLS_FWUP_STATUS_OK ++ [res] ∧
    finished h (image ++ pad) (blen image) base (fd_mem (flash s)) (flashtotalsize s) (layout s) src sid lock rn (resets s) res s') s)
    as Hw.
  { assert (FLASH_BASE <= base) by (unfold FLASH_BASE, CODE_RUN_HEADER_ADDR, T_BOOTER_SIZE in *; lia).
    unfold CODE_RUN_HEADER_ADDR, T_BOOTER_SIZE in *.
    apply (wp_session h (image ++ pad) (blen image) base (fd_mem (flash s)) (flashtotalsize s) (layout s) src sid lock rn (resets s))
      with (d := d); try done; try lia; unfold header_in_flash, CODE_RUN_HEADER_ADDR, T_BOOTER_SIZE; try lia.
    intros res s' Hfin. by exists res. }
  apply wp_total in Hw as (rs & s' & Hrun & res & -> & Hfin). by exists res, s', src, lock, rn.
Qed.

Lemma mem_image_outside image base m0 s : holds (mem_image image base m0) s →
  ∀ x, fd_lo <= x < fd_hi → ¬ base <= x < base + blen image → fd_mem (flash s) x = m0 x.
Proof.
  intros Hm x Hx Hx1. rewrite Hm by done. unfold mem_image.
  by replace ((base <=? x) && (x <? base + blen image))%bool with false by lia.
Qed.

(** The flash outside the image and the update header is the same. *)
Definition flash_kept (base n upd : Z) s s' : Prop := ∀ x, fd_lo <= x < fd_hi →
  ¬ base <= x < base + n → ¬ upd <= x < upd + T_BOOTER_SIZE → fd_mem (flash s') x = fd_mem (flash s) x.
(** Nothing outside the image has been written. *)
Definition only_image (base n : Z) s s' : Prop := ∀ x, fd_lo <= x < fd_hi →
  ¬ base <= x < base + n → fd_mem (flash s') x = fd_mem (flash s) x.

(** What a session that has ended well leaves. *)
Lemma finished_installed h image pad d blocks src sid lock rn res s s' : delivery h image pad d blocks s →
  blen (image ++ pad) mod SECTOR_SIZE ≠ 0 → upd_checksum h = crc_reg 0xFFFFFFFF image →
  let base := Z.lor (upd_img_addr h) FLASH_BASE in
  let upd := CODE_UPD_HEADER_ADDR (layout s) in
  finished h (image ++ pad) (blen image) base (fd_mem (flash s)) (flashtotalsize s) (layout s) src sid lock rn (resets s) res s' →
  res = TLS_FWUP_STATUS_OK ∧ fd_bytes (flash s') base (blen (image ++ pad)) = image ++ pad ∧
  fd_bytes (flash s') upd T_BOOTER_SIZE =
    activated (current_no (running s) (fd_bytes (flash s) upd T_BOOTER_SIZE) (flashtotalsize s)) h ∧
  flash_kept base (blen (image ++ pad)) upd s s' ∧
  tls_fwup_current_state sid s' = Some (TLS_FWUP_STATE_COMPLETE, s') ∧ resets s' = resets s + 1.
Proof.
  intros Hdl Hn Hcrc base upd (Hr & _ & st & r & Hfw & Hfin). pose proof (delivery_pos _ _ _ _ _ _ Hdl) as Hpos.
  pose proof Hdl as [[Hhl Hho] _ _ _ Hfit _ _ _]. destruct Hfit as (Hf1 & Hf2 & Hf3 & Hf4 & Hf5 & Hf6). fold base upd in Hf2, Hf3, Hf4, Hf5, Hf6.
  rewrite (proj2 (Z.eqb_neq _ _) Hn) in Hfin. unfold image_good in Hfin. rewrite image_of_padded, Hcrc, Z.eqb_refl in Hfin.
  assert (blen (image ++ pad) = blen image + blen pad) as Hpl by apply blen_app. pose proof (blen_nonneg pad).
  destruct Hfin as (-> & -> & Hm). assert (fd_lo <= base) as Hf7 by (unfold T_BOOTER_SIZE in *; lia). split; [done|].
  split; [erewrite holds_bytes; [|exact Hm|lia|lia]; eapply bytes_of_image_active with (tot := blen image); done || lia|].
  split; [erewrite holds_bytes; [|exact Hm|lia|lia]; eapply (bytes_of_active h (image ++ pad) base); done || lia|].
  split; [|split; [|done]].
  - intros x Hx Hx1 Hx2. rewrite Hm by done. unfold mem_active, mem_image. fold upd.
    replace ((upd <=? x) && (x <? upd + T_BOOTER_SIZE))%bool with false by lia.
    by replace ((base <=? x) && (x <? base + blen (image ++ pad)))%bool with false by lia.
  - unfold tls_fwup_current_state, bind, gets. rewrite Hfw. cbn. by rewrite Z.eqb_refl.
Qed.
End theorems.

(** C3: a firmware update installs the image, or refuses it for its length.
    A session has just been opened; the header is one the check accepts, with
    the length and checksum of the image, not of the old type on a flash of 2 MByte; the
    image has its place in the flash and is cut into any blocks of at most a
    sector, the header in the first, and the last may go on behind the image.
    If the bytes after the header are not a multiple of a sector, every
    [tls_fwup_request_sync] answers OK; at the end the update area holds them
    byte for byte, the update header is the one sent with the next number and a
    fresh checksum, no other byte of the flash has changed, and the device is
    reset once, by the last block.  If they are a multiple, the last block is
    refused with EIO, the session is in the error state, only the update area
    has been written, and the device is reset all the same. *)
Theorem fwup_installs {F W} `{FlashDevOk F} `{!Wifi W} `{CrcEngineOk} sid h image pad d blocks (s : fw_state F W) :
  session_open sid s → delivery h image pad d blocks s → upd_checksum h = crc_reg 0xFFFFFFFF image →
  let base := Z.lor (upd_img_addr h) FLASH_BASE in
  let upd := CODE_UPD_HEADER_ADDR (layout s) in
  let n := blen (image ++ pad) in
  let whole := n mod SECTOR_SIZE =? 0 in
  ∃ s', send_blocks sid ((h ++ d) :: blocks) s =
      Some (replicate (length blocks) TLS_FWUP_STATUS_OK ++ [if whole then TLS_FWUP_STATUS_EIO else TLS_FWUP_STATUS_OK], s') ∧
    resets s' = resets s + 1 ∧
    tls_fwup_current_state sid s' = Some (if whole then TLS_FWUP_STATE_ERROR_IO else TLS_FWUP_STATE_COMPLETE, s') ∧
    if whole then only_image base n s s'
    else fd_bytes (flash s') base n = image ++ pad ∧
      fd_bytes (flash s') upd T_BOOTER_SIZE =
        activated (current_no (running s) (fd_bytes (flash s) upd T_BOOTER_SIZE) (flashtotalsize s)) h ∧
      flash_kept base n upd s s'.
Proof.
  intros Ho Hdl Hcrc base upd n whole.
  destruct (delivered sid h image pad d blocks s Ho Hdl) as (res & s' & src & lock & rn & Hrun & Hfin). exists s'.
  unfold whole. destruct (Z.eqb_spec (n mod SECTOR_SIZE) 0) as [Hn|Hn].
  - destruct Hfin as (Hr & _ & st & r & Hfw & Hfin). fold n in Hfin. rewrite (proj2 (Z.eqb_eq _ _) Hn) in Hfin.
    destruct Hfin as (-> & -> & Hm). split; [exact Hrun|]. split; [exact Hr|]. split; [|exact (mem_image_outside _ _ _ _ Hm)].
    unfold tls_fwup_current_state, bind, gets. rewrite Hfw. cbn. by rewrite Z.eqb_refl.
  - destruct (finished_installed h image pad d blocks src sid lock rn res s s' Hdl Hn Hcrc Hfin) as (-> & Hi1 & Hi2 & Hi3 & Hi4 & Hi5).
    done.
Qed.

(** C19: an image whose checksum is not the one its header announces is never
    activated, whatever its length: the last block answers ECRC and the session
    is in the CRC error state, or EIO and in the I/O error state if the bytes
    after the header are a multiple of a sector; the update header and
    everything else outside the update area are as they were. *)
Theorem fwup_refuses_bad_image {F W} `{FlashDevOk F} `{!Wifi W} `{CrcEngineOk} sid h image pad d blocks
    (s : fw_state F W) :
  session_open sid s → delivery h image pad d blocks s → upd_checksum h ≠ crc_reg 0xFFFFFFFF image →
  let n := blen (image ++ pad) in
  let whole := n mod SECTOR_SIZE =? 0 in
  ∃ s', send_blocks sid ((h ++ d) :: blocks) s =
      Some (replicate (length blocks) TLS_FWUP_STATUS_OK ++ [if whole then TLS_FWUP_STATUS_EIO else TLS_FWUP_STATUS_ECRC], s') ∧
    only_image (Z.lor (upd_img_addr h) FLASH_BASE) n s s' ∧
    tls_fwup_current_state sid s' = Some (if whole then TLS_FWUP_STATE_ERROR_IO else TLS_FWUP_STATE_ERROR_CRC, s').
Proof.
  intros Ho Hdl Hcrc n whole. destruct (delivered sid h image pad d blocks s Ho Hdl) as
    (res & s' & src & lock & rn & Hrun & Hr & _ & st & r & Hfw & Hfin).
  unfold image_good in Hfin. rewrite image_of_padded, (proj2 (Z.eqb_neq _ _) Hcrc) in Hfin. fold n whole in Hfin.
  exists s'. destruct whole; destruct Hfin as (-> & -> & Hm);
    (split; [exact Hrun|]; split; [exact (mem_image_outside _ _ _ _ Hm)|];
     unfold tls_fwup_current_state, bind, gets; rewrite Hfw; cbn; by rewrite Z.eqb_refl).
Qed.

(** The bytes after the header, a multiple of the sector size, are refused
    whatever they hold: the last sector has been written when the code writes
    "the rest", and a write of no bytes is an error for the flash driver.  The
    device is reset all the same, without the update. *)
Theorem fwup_refuses_whole_sectors {F W} `{FlashDevOk F} `{!Wifi W} `{CrcEngineOk} sid h image pad d blocks
    (s : fw_state F W) :
  session_open sid s → delivery h image pad d blocks s → blen (image ++ pad) mod SECTOR_SIZE = 0 →
  ∃ s', send_blocks sid ((h ++ d) :: blocks) s =
      Some (replicate (length blocks) TLS_FWUP_STATUS_OK ++ [TLS_FWUP_STATUS_EIO], s') ∧
    only_image (Z.lor (upd_img_addr h) FLASH_BASE) (blen (image ++ pad)) s s' ∧ resets s' = resets s + 1.
Proof.
  intros Ho Hdl Hn. destruct (delivered sid h image pad d blocks s Ho Hdl) as
    (res & s' & src & lock & rn & Hrun & Hr & _ & st & r & Hfw & Hfin).
  rewrite (proj2 (Z.eqb_eq _ _) Hn) in Hfin. destruct Hfin as (-> & -> & Hm).
  exists s'. split; [exact Hrun|]. split; [exact (mem_image_outside _ _ _ _ Hm)|done].
Qed.

(** ** Requests that go wrong *)

Section wrong.
Context {F W : Type} `{FlashDevOk F} `{!Wifi W} `{CrcEngineOk}.
Implicit Types (s : fw_state F W).

(** The flash holds what it held. *)
Definition flash_same s s' : Prop := ∀ x, fd_lo <= x < fd_hi → fd_mem (flash s') x = fd_mem (flash s) x.
Lemma quiet_flash_same s s' : quiet s s' → flash_same s s'.
Proof. by intros (c & h0 & h1 & f & -> & _ & Hm & _). Qed.

Lemma wp_first_bad sid c len s (Q : Z → fw_state F W → Prop) :
  session_open sid s → header_in_flash → bytes_ok c → T_BOOTER_SIZE <= blen c → 0 < len < 0x10000000 →
  (len < T_BOOTER_SIZE ∨
   header_accepted (slice c 0 T_BOOTER_SIZE) (running s) (flashtotalsize s) = false) →
  (∀ s', resets s' = resets s + 1 → flash_same s s' →
     Q (if len <? T_BOOTER_SIZE then TLS_FWUP_STATUS_OK else TLS_FWUP_STATUS_EIO) s') →
  wp (tls_fwup_request_sync sid (Some c) len true) Q s.
Proof.
  intros (src & lock & rn & Hsrc & Hfw & Hqu & (wb & Hwb & _) & Hh & Hb & Hf & _) Hin Hcok Hcl Hlen Hbad HQ.
  apply (wp_request_sync sid _ _ _ _ _ Hfw); [done|done|lia|done|].
  intros w s1. unfold process_request. wp_step. eapply wp_live; [reflexivity|].
  change (truth (Z.land _ TLS_FWUP_STATE_ERROR)) with false.
  change (truth (Z.land _ TLS_FWUP_STATE_COMPLETE)) with false. cbv iota.
  change (current_image_src _) with src.
  replace (src <=? TLS_FWUP_IMAGE_SRC_WEB) with true by lia. cbn [negb]. cbv iota. wp_step.
  unfold take_header. wp_step. eapply wp_live; [reflexivity|].
  cbn [received_len set_current_state set_wait_list].
  change (0 <? T_BOOTER_SIZE) with true. cbv iota. cbn [data data_len]. wp_steps.
  change (booter s1) with (booter s).
  eapply wp_of_opt; [apply memcpy_Some; unfold T_BOOTER_SIZE in *; lia|].
  assert (blen (slice c 0 T_BOOTER_SIZE) = T_BOOTER_SIZE) as Hhl
    by (apply blen_slice; unfold T_BOOTER_SIZE in *; lia).
  rewrite splice_all by congruence. wp_steps. eapply wp_upd; [reflexivity|]. wp_step.
  eapply wp_live; [reflexivity|]. rewrite Z.sub_0_r, Z.add_0_l. cbn [received_len set_received_len].
  destruct (Z.ltb_spec len T_BOOTER_SIZE) as [Hlt|Hge].
  - rewrite u32_id by (unfold is_u32; lia). rewrite (proj2 (Z.eqb_neq len T_BOOTER_SIZE)) by lia.
    apply wp_ret. wp_step. eapply wp_upd; [reflexivity|]. wp_steps.
    cbn [fwupwritebuffer set_fwup set_booter set_wifi]. unfold s1.
    cbn [fwupwritebuffer set_fwup set_booter set_wifi]. rewrite Hwb.
    replace (0 <? len - len) with false by lia. apply wp_ret.
    eapply wp_request_finish; [reflexivity|done| |cbn; lia]. intros _ w'. by apply HQ.
  - destruct Hbad as [|Hbad]; [lia|]. change (u32 T_BOOTER_SIZE =? T_BOOTER_SIZE) with true. cbv iota.
    wp_step. set (s2 := set_fwup _ _).
    apply wp_header_check; try done; [by apply bytes_ok_slice|].
    change (running s2) with (running s). change (flashtotalsize s2) with (flashtotalsize s).
    rewrite Hbad. intros s3 Hq3 _. cbn [negb]. cbv iota. wp_step.
    pose proof (quiet_fwup _ _ Hq3) as (Hfw3 & _). eapply wp_upd; [by rewrite Hfw3|].
    wp_step. apply wp_ret.
    eapply wp_request_finish; [reflexivity|done| |cbn; lia]. intros _ w'. apply HQ.
    + destruct Hq3 as (c3 & h0 & h1 & f & -> & _). reflexivity.
    + intros x Hx. apply (quiet_flash_same s2 s3 Hq3 x Hx).
Qed.
End wrong.

(** The first block of a session resets the device, without an update,
    when it is shorter than the header or its header is refused: no length has
    been announced yet, and nothing received is "everything received".  A
    short block is even answered with success. *)
Theorem fwup_first_block_resets {F W} `{FlashDevOk F} `{!Wifi W} `{CrcEngineOk} sid c len (s : fw_state F W) :
  session_open sid s → header_in_flash → bytes_ok c → T_BOOTER_SIZE <= blen c → 0 < len < 0x10000000 →
  (len < T_BOOTER_SIZE ∨
   header_accepted (slice c 0 T_BOOTER_SIZE) (running s) (flashtotalsize s) = false) →
  ∃ s', tls_fwup_request_sync sid (Some c) len true s =
      Some (if len <? T_BOOTER_SIZE then TLS_FWUP_STATUS_OK else TLS_FWUP_STATUS_EIO, s') ∧
    resets s' = resets s + 1 ∧ flash_same s s'.
Proof.
  intros Ho Hin Hok Hl Hlen Hbad.
  assert (wp (tls_fwup_request_sync sid (Some c) len true) (λ r s',
    r = (if len <? T_BOOTER_SIZE then TLS_FWUP_STATUS_OK else TLS_FWUP_STATUS_EIO) ∧
    resets s' = resets s + 1 ∧ flash_same s s') s) as Hw by by apply wp_first_bad.
  apply wp_total in Hw as (r & s' & Hrun & -> & Hs'). by exists s'.
Qed.

Lemma land_busy st m : Z.land 1 m = 0 → Z.land (Z.lor st 1) m = Z.land st m.
Proof. intros Hm. by rewrite Z.land_lor_distr_l, Hm, Z.lor_0_r. Qed.
Lemma error_status_busy st : error_status (Z.lor st 1) = error_status st.
Proof. unfold error_status. by rewrite !land_busy. Qed.
Lemma busy_cleared st : is_u16 st → Z.testbit st 0 = false → Z.land (Z.lor st 1) 0xFFFE = st.
Proof.
  intros Hu H0. rewrite land_busy by done. apply Z.bits_inj'. intros k Hk. rewrite Z.land_spec.
  change 0xFFFE with (Z.shiftl (Z.ones 15) 1). rewrite Z.shiftl_spec by done.
  destruct (decide (k = 0)) as [->|]; [by rewrite H0|].
  destruct (Z.lt_ge_cases k 16); [by rewrite Z.ones_spec_low, andb_true_r by lia|].
  by rewrite (testbit_high st 16) by (unfold is_u16 in Hu; lia).
Qed.

(** What serving a request leaves in the structure [f]: its status goes to the
    waiting caller, and when everything announced has been received the device
    restarts. *)
Definition served_in {F W} (f : fwup_t) (s s' : fw_state F W) : Prop :=
  fwup s' = Live f ∧ params s' = params s ∧
  resets s' = resets s + (if total_len f <=? updated_len f then 1 else 0).

(** C29: an error is sticky. While one of the error bits of a session is set
    and no other request waits, every block is refused with the code of the error, nothing is written and
    the session is unchanged, until [tls_fwup_clear_error] is called, which
    clears exactly the error bits.  When as many bytes have been received as
    were announced, as after a refused header (nothing announced) or a wrong
    checksum (all received), each refused block also restarts the device. *)
Theorem fwup_error_sticky {F W} `{!FlashDev F} `{!Wifi W} `{!CrcEngine} sid c len f (s : fw_state F W) :
  fwup s = Live f → wait_list f = [] → busy f = true → current_session_id f = sid →
  fwup_msg_queue s = 0 → is_u16 (current_state f) → Z.testbit (current_state f) 0 = false →
  Z.land (current_state f) TLS_FWUP_STATE_ERROR ≠ 0 → len ≠ 0 →
  ∃ s', tls_fwup_request_sync sid (Some c) len true s =
      Some (sync_status (error_status (current_state f)), s') ∧ served_in f s s' ∧
    ∃ s2, tls_fwup_clear_error sid s' = Some (TLS_FWUP_STATUS_OK, s2) ∧
      fwup s2 = Live (set_current_state (Z.land (current_state f) 0xFFC3) f).
Proof.
  intros Hfw Hwl Hbusy Hsid Hqu Hu H0 Herr Hn.
  assert (wp (tls_fwup_request_sync sid (Some c) len true) (λ r s',
    r = sync_status (error_status (current_state f)) ∧ served_in f s s') s) as Hw.
  { apply (wp_request_sync sid _ _ _ _ _ Hfw Hwl Hsid Hn Hqu). intros w s1. unfold process_request.
    wp_step. eapply wp_live; [reflexivity|]. cbn [current_state set_current_state].
    rewrite land_busy by done. unfold truth. rewrite (proj2 (Z.eqb_neq _ 0) Herr). cbn [negb]. cbv iota.
    apply wp_ret.
    assert (set_current_state (Z.land (Z.lor (current_state f) 1) 0xFFFE) (set_wait_list [] f) = f) as Hsame.
    { rewrite busy_cleared by done. destruct f; cbn in *. by subst. }
    eapply wp_request_finish; [reflexivity|done| |];
      (intros Hle; cbn [total_len updated_len set_current_state set_wait_list] in Hle;
       try intros w'; rewrite error_status_busy; split; [done|]; unfold served_in;
       cbn [fwup params resets set_fwup set_wifi set_resets]).
    - split; [exact (f_equal Live Hsame)|]. split; [done|].
      by rewrite (proj2 (Z.leb_le _ _) Hle).
    - split; [exact (f_equal Live Hsame)|]. split; [done|].
      rewrite (proj2 (Z.leb_gt _ _) Hle). symmetry. apply Z.add_0_r. }
  apply wp_total in Hw as (r & s' & Hrun & -> & Hs'). exists s'. split; [done|]. split; [done|]. destruct Hs' as (Hf & _).
  unfold tls_fwup_clear_error, in_session, upd, live, bind, gets, modify. rewrite Hf. cbv beta iota.
  rewrite Hbusy, Hsid, Z.eqb_refl. cbn [negb]. cbv iota.
  assert (Z.land (current_state f) TLS_FWUP_STATE_BUSY = 0) as ->.
  { unfold TLS_FWUP_STATE_BUSY. change 1 with (Z.ones 1). rewrite Z.land_ones by lia.
    change (2 ^ 1) with 2. rewrite Zmod_odd, <- Z.bit0_odd, H0. done. }
  change (truth 0) with false. cbv beta iota. rewrite Hf.
  eexists. split; [reflexivity|]. reflexivity.
Qed.

(** ** Sessions *)

Lemma draw_spec l x l' : draw l = Some (x, l') → x ≠ 0 ∧ is_u32 x.
Proof.
  induction l as [|y l IH]; [done|]. cbn [draw]. case_if; [done|]. intros [= <- _].
  split; [done|apply u32_range].
Qed.

(** No session is open and no request is waiting: the module has not been set
    up yet, or the last session has been closed. *)
Definition free_module {F W} (s : fw_state F W) : Prop :=
  fwup s = Null ∨ ∃ f, fwup s = Live f ∧ busy f = false ∧ wait_list f = [] ∧ fwup_msg_queue s = 0.

(** What opening a session on a free module leaves. *)
Lemma wp_enter {F W} `{FlashDevOk F} `{!Wifi W} `{!CrcEngine} src x l (s : fw_state F W) :
  free_module s → src <= TLS_FWUP_IMAGE_SRC_WEB → (∀ k, php (params s) k ≠ None) →
  draw (rands s) = Some (x, l) → fwupwritebuffer s = None → headers_ok s →
  blen (booter s) = T_BOOTER_SIZE → fd_ok (flash s) →
  wp (tls_fwup_enter src true true true) (λ r s', r = x ∧
    (∃ f, fwup s' = Live f ∧ busy f = true ∧ current_session_id f = x) ∧
    session_open x s' ∧ flash s' = flash s ∧ layout s' = layout s ∧
    flashtotalsize s' = flashtotalsize s ∧ resets s' = resets s ∧
    flash_param (params s') = flash_param (params s) ∧ sys_param_lock (params s') = sys_param_lock (params s)) s.
Proof.
  intros Hfw Hsrc Hh Hd Hwb Hhd Hb Hf. unfold tls_fwup_enter. wp_step.
  assert (wp (tls_fwup_init true true true) (λ _ s1, ∃ f k,
    s1 = set_fwup (Live f) (set_fwup_msg_queue 0 (set_params (set_php k (params s)) s)) ∧
    busy f = false ∧ wait_list f = [] ∧ ∀ j, k j ≠ None) s) as Hi.
  { unfold tls_fwup_init. wp_steps. destruct Hfw as [Hfw|(f & Hfw & Hbusy & Hwl & Hqu)]; rewrite Hfw; wp_steps.
    - apply wp_lift. apply wp_palloc; [apply Hh|]. intros b0 _ _. cbn [andb]. cbv iota. wp_steps.
      exists (mk_fwup [] 1 false 0 0 0 0 0 0 0 0 0), (λ k, php (params s) (S k)). split; [done|]. by split_and!.
    - exists f, (php (params s)). split; [|by split_and!]. destruct s as [p]; destruct p; cbn in *. by subst. }
  eapply wp_mono; [exact Hi|]. intros _ s1 (f & k & -> & Hbusy & Hwl & Hk). wp_steps.
  cbn [fwup set_fwup]. rewrite Hbusy. wp_steps. cbn [rands set_fwup_msg_queue set_fwup set_params].
  eapply wp_of_opt; [exact Hd|]. cbv beta iota. wp_steps.
  cbn [fwupwritebuffer set_rands set_fwup_msg_queue set_fwup set_params]. rewrite Hwb.
  apply wp_lift. cbn [params set_rands set_fwup_msg_queue set_fwup set_params].
  apply wp_palloc; [apply Hk|]. intros wb Hwl' Hwok. wp_steps.
  eapply wp_upd; [reflexivity|]. wp_step. eapply wp_upd; [reflexivity|]. wp_steps.
  assert (∀ ob w k', session_open x (set_wifi w (set_oneshotback ob (set_fwup
    (Live (set_busy true (set_current_session_id x (set_received_number (-1) (clear_session 0 (set_current_image_src src f))))))
      (set_fwupwritebuffer (Some wb) (set_params (set_php k' (params s))
        (set_rands l (set_fwup_msg_queue 0 s)))))))) as Hopen.
  { intros ob w k'. exists src, (list_lock f), (-1). split; [done|]. unfold opened.
    cbn [fwup set_wifi set_oneshotback set_fwup]. split; [|split; [done|split; [by exists wb|done]]].
    unfold clear_session. destruct f; cbn in *. by subst. }
  unfold on_wifi. case_if; wp_steps;
    (split; [done|]; split; [by eexists|]; split; [apply Hopen|]; by split_and!).
Qed.

(** The calls on the module, each with what it is given. *)
Inductive fw_call :=
  | Enter (image_src : Z) (sem_ok queue_ok task_ok : bool)
  | Exit (session_id : Z)
  | Request (session_id : Z) (buf : option (list Z)) (len : Z) (sem_ok : bool)
  | Reset (session_id : Z)
  | ClearError (session_id : Z)
  | SetCrcError (session_id : Z)
  | SetNumber (number : Z).
(** The session a call names. *)
Definition names (c : fw_call) : option Z :=
  match c with
  | Exit y | Request y _ _ _ | Reset y | ClearError y | SetCrcError y => Some y
  | Enter _ _ _ _ | SetNumber _ => None
  end.

Section calls.
Context {F W : Type} `{!FlashDev F} `{!Wifi W} `{!CrcEngine}.
Implicit Types (s : fw_state F W).

Definition fw_call_run (c : fw_call) : M (fw_state F W) Z :=
  match c with
  | Enter src a b d => tls_fwup_enter src a b d
  | Exit y => tls_fwup_exit y
  | Request y buf n ok => tls_fwup_request_sync y buf n ok
  | Reset y => tls_fwup_reset y
  | ClearError y => tls_fwup_clear_error y
  | SetCrcError y => tls_fwup_set_crc_error y
  | SetNumber n => tls_fwup_set_update_numer n
  end.
Fixpoint fw_calls (l : list fw_call) : M (fw_state F W) (list Z) :=
  match l with
  | [] => ret []
  | c :: l' => bind (fw_call_run c) (λ r, bind (fw_calls l') (λ rs, ret (r :: rs)))
  end.

End calls.

(** *** What the calls leave alone *)

(** The requests waiting and the session, as far as [pick] looks at them, and
    the messages, as far as [msgs] does. *)
Section keys.
Context {F W A B : Type} `{!FlashDev F} `{!Wifi W} `{!CrcEngine} (pick : list request * bool * Z → A) (msgs : Z → B).
Implicit Types (s : fw_state F W).
Definition core (f : fwup_t) : list request * bool * Z := (wait_list f, busy f, current_session_id f).
Definition key s : option A * B :=
  (match fwup s with Live f => Some (pick (core f)) | _ => None end, msgs (fwup_msg_queue s)).
(** A computation that leaves them alone. *)
Definition frames {C} (m : M (fw_state F W) C) : Prop := ∀ s, wlp m (λ _ s', key s' = key s) s.

Lemma frames_ret {C} (a : C) : frames (ret a).
Proof. intros s. by apply wlp_ret. Qed.
Lemma frames_bind {C D} (m : M (fw_state F W) C) (k : C → M (fw_state F W) D) :
  frames m → (∀ a, frames (k a)) → frames (bind m k).
Proof.
  intros Hm Hk s. apply wlp_bind. eapply wlp_mono; [apply Hm|]. intros a s1 E.
  eapply wlp_mono; [apply Hk|]. intros b s2 E'. congruence.
Qed.
Lemma frames_gets {C} (f : fw_state F W → C) : frames (gets f).
Proof. intros s. by apply wlp_gets. Qed.
Lemma frames_modify f : (∀ s, key (f s) = key s) → frames (modify f).
Proof. intros Hf s. by apply wlp_modify. Qed.
Lemma frames_of_opt {C} (o : option C) : frames (of_opt o).
Proof. intros s. by apply wlp_of_opt. Qed.
Lemma frames_stuck {C} : frames (C := C) stuck.
Proof. done. Qed.
Lemma frames_lift {C T} (pr : fw_state F W → T) up (m : M T C) : (∀ t s, key (up t s) = key s) →
  frames (lift pr up m).
Proof. intros Hup s. apply wlp_lift. intros a t _. apply Hup. Qed.
Lemma frames_upd g : (∀ f, pick (core (g f)) = pick (core f)) → frames (upd g).
Proof.
  intros Hg s. unfold upd, live. wlp_steps. destruct (fwup s) as [|f|] eqn:E; [done| |done]. wlp_steps.
  unfold key. cbn [fwup set_fwup fwup_msg_queue]. by rewrite E, Hg.
Qed.
End keys.

(** A computation put together from ones that leave them alone. *)
Ltac frame := repeat
  (intros; lazymatch goal with
   | |- frames _ _ (ret _) => apply frames_ret
   | |- frames _ _ (bind _ _) => apply frames_bind
   | |- frames _ _ (gets _) => apply frames_gets
   | |- frames _ _ (of_opt _) => apply frames_of_opt
   | |- frames _ _ stuck => apply frames_stuck
   | |- frames _ _ (modify _) => apply frames_modify; reflexivity
   | |- frames _ _ (lift _ _ _) => apply frames_lift; reflexivity
   | |- frames _ _ (upd _) => apply frames_upd; intros; reflexivity
   | |- frames _ _ (match ?x with _ => _ end) => destruct x
   | |- frames _ _ _ => solve [auto with frames]
   end).
Create HintDb frames.

(** Serving a request leaves the list of requests, the session and the messages
    alone. *)
Section serving.
Context {F W A B : Type} `{!FlashDev F} `{!Wifi W} `{!CrcEngine} (pick : list request * bool * Z → A) (msgs : Z → B).
Local Abbreviation frames := (frames (F := F) (W := W) pick msgs).

Lemma frames_live : frames live.
Proof. unfold live. frame. Qed.
#[local] Hint Resolve frames_live : frames.
Lemma frames_crc_words n i c p : frames (crc_words n i c p).
Proof. revert i c. induction n; intros i c; cbn [crc_words]; unfold on_crc; frame. Qed.
#[local] Hint Resolve frames_crc_words : frames.
Lemma frames_header_check p : frames (tls_fwup_img_header_check p).
Proof. unfold tls_fwup_img_header_check, on_flash. frame. Qed.
#[local] Hint Resolve frames_header_check : frames.
Lemma frames_update_header : frames tls_fwup_img_update_header.
Proof. unfold tls_fwup_img_update_header, on_flash, on_crc. frame. Qed.
Lemma frames_take_header rq : frames (take_header rq).
Proof. unfold take_header, add_state. frame. Qed.
Lemma frames_across : frames across_test.
Proof. unfold across_test, on_flash. frame. Qed.
#[local] Hint Resolve frames_update_header frames_take_header frames_across : frames.
Lemma frames_store wb b n : frames (store_data wb b n).
Proof. unfold store_data, add_state, on_flash. frame. Qed.
Lemma frames_crc_loop k b o n c : frames (crc_loop k b o n c).
Proof. revert o n c. induction k; intros o n c; cbn [crc_loop]; unfold on_flash, on_crc; frame. Qed.
#[local] Hint Resolve frames_store frames_crc_loop : frames.
Lemma frames_image_crc : frames image_crc.
Proof. unfold image_crc, on_flash, on_crc, on_params. frame. Qed.
#[local] Hint Resolve frames_image_crc : frames.
Lemma frames_finish_image : frames finish_image.
Proof. unfold finish_image, add_state, on_flash, on_wifi. frame. Qed.
#[local] Hint Resolve frames_finish_image : frames.
Lemma frames_process rq : frames (process_request rq).
Proof. unfold process_request, add_state, on_params. frame. Qed.
End serving.
#[export] Hint Resolve frames_live frames_process : frames.

(** ** Requests that come while the task is busy *)

(** [scheduler_loop] over one request, while another task makes the call [m]
    after it has been served and before it is taken off the list. *)
Definition serve_during {F W A} `{!FlashDev F} `{!Wifi W} `{!CrcEngine} (rq : request) (m : M (fw_state F W) A) : M (fw_state F W) A :=
  bind (process_request rq) (λ _, bind m (λ a, bind request_finish (λ _, ret a))).
Lemma serve_alone {F W} `{!FlashDev F} `{!Wifi W} `{!CrcEngine} rq (s : fw_state F W) :
  snd <$> scheduler_loop [rq] s = snd <$> serve_during rq (ret tt) s.
Proof.
  unfold serve_during. cbn [scheduler_loop]. unfold bind, ret. destruct (process_request rq s) as [[a s1]|]; [|done].
  cbn. by destruct (request_finish s1) as [[[] s2]|].
Qed.
(** Requests wait, and nothing is on its way to wake the task. *)
Definition asleep {F W} (sid : Z) (l : list request) (s : fw_state F W) : Prop :=
  ∃ f, fwup s = Live f ∧ wait_list f = l ∧ current_session_id f = sid ∧ fwup_msg_queue s = 0.
Definition post_all {F W} `{!FlashDev F} `{!Wifi W} `{!CrcEngine} (sid : Z) : list request → M (fw_state F W) (list Z) :=
  fix post l := match l with
    | [] => ret []
    | rq :: l => bind (tls_fwup_request_async sid (Some rq)) (λ r, bind (post l) (λ rs, ret (r :: rs)))
    end.
Lemma wlp_asleep_post {F W} `{!FlashDev F} `{!Wifi W} `{!CrcEngine} sid l rq (s : fw_state F W) :
  asleep sid l s → l ≠ [] → data_len rq ≠ 0 →
  wlp (tls_fwup_request_async sid (Some rq)) (λ r s', r = TLS_FWUP_STATUS_OK ∧ asleep sid (l ++ [rq]) s') s.
Proof.
  intros (f & Hf & Hl & Hid & Hq) Hne Hn. unfold tls_fwup_request_async, upd, live. wlp_steps. rewrite Hf, Hid, Z.eqb_refl. cbn [negb].
  cbv iota. rewrite (proj2 (Z.eqb_neq _ 0) Hn), Hl, (bool_decide_eq_false_2 _ Hne). wlp_steps. rewrite Hf. wlp_steps.
  split; [done|]. eexists. split; [reflexivity|]. cbn. by rewrite Hl.
Qed.
Lemma wlp_asleep_posts {F W} `{!FlashDev F} `{!Wifi W} `{!CrcEngine} sid rqs : ∀ l (s : fw_state F W),
  asleep sid l s → l ≠ [] → Forall (λ rq, data_len rq ≠ 0) rqs →
  wlp (post_all sid rqs) (λ rs s', rs = replicate (length rqs) TLS_FWUP_STATUS_OK ∧ asleep sid (l ++ rqs) s') s.
Proof.
  induction rqs as [|rq rqs IH]; intros l s Hs Hl Hrqs; cbn [post_all].
  - apply wlp_ret. by rewrite app_nil_r.
  - apply Forall_cons_1 in Hrqs as [Hrq Hrqs]. apply wlp_bind. eapply wlp_mono; [by apply (wlp_asleep_post sid l)|]. intros r s1 [-> Hs1].
    apply wlp_bind. eapply wlp_mono; [apply (IH (l ++ [rq])); [done|by destruct l|done]|]. intros rs s2 [-> Hs2]. apply wlp_ret.
    split; [done|]. by rewrite <- app_assoc in Hs2.
Qed.
Lemma wlp_finish_asleep {F W} `{!FlashDev F} `{!Wifi W} `{!CrcEngine} sid rq l (s : fw_state F W) :
  asleep sid (rq :: l) s → wlp request_finish (λ _ s', asleep sid l s') s.
Proof.
  intros (f & Hf & Hl & Hid & Hq). unfold request_finish, upd, live. wlp_steps. rewrite Hf. wlp_steps. cbn [fwup set_fwup].
  rewrite Hl. cbn [tail].
  unfold fwup_update_autoflag, tls_sys_reset, on_wifi. wlp_steps.
  repeat (case_match; wlp_steps; cbn [fwup set_fwup]; wlp_steps); first [done | eexists; split; [reflexivity|]; by cbn].
Qed.

(** C36: a wake-up can be lost.  The task is woken by a message, sent with a
    request that finds the list empty.  A request handed over while the task
    serves the only one, which is still on the list, is accepted without a
    message; the task's loop, which has already looked for the next one, ends.
    That request is never served: it stays at the head of the list, and any
    requests after it are accepted behind it, again without a message. *)
Theorem fwup_lost_wakeup {F W} `{!FlashDev F} `{!Wifi W} `{!CrcEngine} sid rq rq2 rqs (s : fw_state F W) :
  asleep sid [rq] s → data_len rq2 ≠ 0 → Forall (λ rq, data_len rq ≠ 0) rqs →
  wlp (serve_during rq (tls_fwup_request_async sid (Some rq2))) (λ r s1, r = TLS_FWUP_STATUS_OK ∧ asleep sid [rq2] s1 ∧
    wlp (post_all sid rqs) (λ rs s2, rs = replicate (length rqs) TLS_FWUP_STATUS_OK ∧ asleep sid (rq2 :: rqs) s2 ∧
      fwup_scheduler s2 = None) s1) s.
Proof.
  intros Hs Hn Hrqs. unfold serve_during. apply wlp_bind.
  eapply wlp_mono; [apply (frames_process (λ c, (c.1.1, c.2)) id)|]. intros st s1 Hk.
  assert (asleep sid [rq] s1) as Hs1.
  { destruct Hs as (f & Hf & Hl & Hid & Hq). unfold key in Hk. rewrite Hf in Hk. unfold core in Hk. cbn in Hk.
    destruct (fwup s1) as [|f1|] eqn:E; [done| |done]. injection Hk as E1 E2 E3. exists f1. split_and!; congruence. }
  apply wlp_bind. eapply wlp_mono; [by apply (wlp_asleep_post sid [rq])|]. intros r s2 [-> Hs2].
  apply wlp_bind. eapply wlp_mono; [apply (wlp_finish_asleep sid rq [rq2]), Hs2|]. intros [] s3 Hs3. apply wlp_ret.
  do 2 (split; [done|]). eapply wlp_mono; [by apply (wlp_asleep_posts sid rqs [rq2])|]. intros rs s4 [-> Hs4].
  do 2 (split; [done|]). destruct Hs4 as (f & _ & _ & _ & Hq). unfold fwup_scheduler, bind, gets. by rewrite Hq.
Qed.

(** ** One session at a time *)

Section calls_keep.
Context {F W : Type} `{!FlashDev F} `{!Wifi W} `{!CrcEngine}.
Implicit Types (s : fw_state F W).

(** The session that is open. *)
Definition session s : option (bool * Z) :=
  match fwup s with Live f => Some (busy f, current_session_id f) | _ => None end.
Definition pick_session (c : list request * bool * Z) : bool * Z := (c.1.2, c.2).
Local Abbreviation frames := (frames (F := F) (W := W) pick_session (λ _, tt)).

Lemma frames_request_finish : frames request_finish.
Proof. unfold request_finish, fwup_update_autoflag, tls_sys_reset, on_wifi. frame. Qed.
#[local] Hint Resolve frames_request_finish : frames.
Lemma frames_scheduler l : frames (scheduler_loop l).
Proof. induction l; cbn [scheduler_loop]; frame. Qed.
#[local] Hint Resolve frames_scheduler : frames.
Lemma frames_request sid b n ok : frames (tls_fwup_request_sync sid b n ok).
Proof. unfold tls_fwup_request_sync, tls_fwup_request_async, fwup_scheduler, add_state, on_wifi. frame. Qed.
#[local] Hint Resolve frames_request : frames.

(** Opening another session while one is open. *)
Lemma enter_busy x src a b c s : session s = Some (true, x) → tls_fwup_enter src a b c s = Some (0, s).
Proof.
  unfold session. destruct (fwup s) as [|f|] eqn:E; [done| |done]. intros [= Hb _].
  unfold tls_fwup_enter, tls_fwup_init, bind, gets. rewrite E. cbv beta iota. cbn [ret]. rewrite E, Hb. reflexivity.
Qed.
(** A call with a wrong number. *)
Lemma call_foreign x y c s : session s = Some (true, x) → names c = Some y → y ≠ x →
  fw_call_run c s = Some (TLS_FWUP_STATUS_ESESSIONID, s).
Proof.
  unfold session. destruct (fwup s) as [|f|] eqn:E; [done| |done]. intros [= Hb Hid] Hn Hy%Z.eqb_neq.
  destruct c; cbn [names] in Hn; try done; injection Hn as ->;
    unfold fw_call_run, tls_fwup_request_sync, tls_fwup_exit, tls_fwup_reset, tls_fwup_clear_error,
      tls_fwup_set_crc_error, in_session, bind, gets; rewrite E; cbv beta iota;
    rewrite ?Hb, Hid, ?Hy; reflexivity.
Qed.
(** Every call but the one that closes the session leaves it open. *)
Lemma call_keeps x c s : session s = Some (true, x) → c ≠ Exit x →
  wlp (fw_call_run c) (λ _ s', session s' = Some (true, x)) s.
Proof.
  intros Hs Hc. assert (frames (fw_call_run c) → wlp (fw_call_run c) (λ _ s', session s' = Some (true, x)) s) as Hfr.
  { intros Hfr. eapply wlp_mono; [apply Hfr|]. intros r s' E. apply (f_equal fst) in E. change (session s' = session s) in E. congruence. }
  destruct c as [src a b d|y|y buf n ok|y|y|y|n]; try solve [apply Hfr; cbn [fw_call_run];
    unfold tls_fwup_reset, tls_fwup_clear_error, tls_fwup_set_crc_error, tls_fwup_set_update_numer, in_session, add_state; frame].
  - unfold wlp. cbn [fw_call_run]. by rewrite (enter_busy x).
  - unfold wlp. rewrite (call_foreign x y (Exit y)); [done|done|done|congruence].
Qed.
Lemma calls_keep x l s : session s = Some (true, x) → Forall (λ c, c ≠ Exit x) l →
  wlp (fw_calls l) (λ _ s', session s' = Some (true, x)) s.
Proof.
  revert s. induction l as [|c l IH]; intros s Hs Hl; cbn [fw_calls].
  - by apply wlp_ret.
  - apply Forall_cons_1 in Hl as [Hc Hl]. apply wlp_bind. eapply wlp_mono; [by apply (call_keeps x)|]. intros r s1 Hs1.
    apply wlp_bind. eapply wlp_mono; [by apply IH|]. intros rs s2 Hs2. by apply wlp_ret.
Qed.
End calls_keep.

(** C27: sessions are exclusive. Opening one on a module that is free (never
    set up, or its last session closed and no request waiting) answers a number
    that is not 0, and blocks may be handed over.  From then on, after any calls
    on the module that return (attempts to open, blocks, resets, errors set and
    cleared, calls with other numbers), as long as the session has not been
    closed under its number: opening another session answers 0, and every call
    that names another number is refused with ESESSIONID; both change nothing. *)
Theorem fwup_sessions_exclusive {F W} `{FlashDevOk F} `{!Wifi W} `{!CrcEngine} src x l (s : fw_state F W) :
  free_module s → src <= TLS_FWUP_IMAGE_SRC_WEB → (∀ k, php (params s) k ≠ None) →
  draw (rands s) = Some (x, l) → fwupwritebuffer s = None → headers_ok s →
  blen (booter s) = T_BOOTER_SIZE → fd_ok (flash s) →
  ∃ s1, tls_fwup_enter src true true true s = Some (x, s1) ∧ x ≠ 0 ∧ session_open x s1 ∧
    ∀ calls rs s2, Forall (λ c, c ≠ Exit x) calls → fw_calls calls s1 = Some (rs, s2) →
      (∀ src' a b c, tls_fwup_enter src' a b c s2 = Some (0, s2)) ∧
      ∀ y c, names c = Some y → y ≠ x → fw_call_run c s2 = Some (TLS_FWUP_STATUS_ESESSIONID, s2).
Proof.
  intros Hfw Hsrc Hh Hd Hwb Hhd Hb Hf. pose proof (draw_spec _ _ _ Hd) as [Hx _].
  pose proof (wp_enter src x l s Hfw Hsrc Hh Hd Hwb Hhd Hb Hf) as Hw.
  apply wp_total in Hw as (r & s1 & Hrun & -> & (f & Hf1 & Hb1 & Hid) & Hopen & _). exists s1. do 3 (split; [done|]).
  intros calls rs s2 Hc Hr. assert (session s2 = Some (true, x)) as Hs2.
  { assert (session s1 = Some (true, x)) as Hs1 by (unfold session; by rewrite Hf1, Hb1, Hid).
    exact (wlp_run _ _ _ _ _ (calls_keep x calls s1 Hs1 Hc) Hr). }
  split; [intros; by apply (enter_busy x)|]. intros y c Hn Hy. by apply (call_foreign x y).
Qed.

(** When [tls_fwup_init] cannot create the semaphore, the queue or the
    task it frees the structure but leaves the pointer to it: the next call of
    [tls_fwup_enter] reads freed memory (an undefined access). *)
Theorem fwup_init_dangling {F W} `{FlashDevOk F} `{!Wifi W} src sem_ok queue_ok task_ok (s : fw_state F W) :
  fwup s = Null → php (params s) O ≠ None → sem_ok && queue_ok && task_ok = false →
  ∃ s', tls_fwup_init sem_ok queue_ok task_ok s = Some (TLS_FWUP_STATUS_EMEM, s') ∧
    ∀ a b c, tls_fwup_enter src a b c s' = None.
Proof.
  intros Hfw Hh Hok.
  assert (wp (tls_fwup_init sem_ok queue_ok task_ok) (λ r s', r = TLS_FWUP_STATUS_EMEM ∧
    fwup s' = Dangling) s) as Hw.
  { unfold tls_fwup_init. wp_steps. rewrite Hfw. wp_steps. apply wp_lift. apply wp_palloc; [done|].
    intros b _ _. rewrite Hok. by wp_steps. }
  apply wp_total in Hw as (r & s' & Hrun & -> & Hf). exists s'. split; [done|]. intros a b c.
  unfold tls_fwup_enter, tls_fwup_init, bind, gets. rewrite Hf. cbv beta iota. cbn [ret]. by rewrite Hf.
Qed.

(** ** The header check *)

Lemma lor_ge a b : 0 <= a → 0 <= b → a <= Z.lor a b.
Proof.
  intros Ha Hb. apply Z.ldiff_le; [by apply Z.lor_nonneg|].
  by rewrite <- Z.ldiff_ldiff_l, Z.ldiff_diag, Z.ldiff_0_l.
Qed.
(** The rounded end lies past the new image, and past the running image if its
    header holds the address with the base. *)
Lemma clear_of_bound runaddr len run : 0 <= runaddr + len < FLASH_1M_END →
  0 <= run_img_addr run → 0 <= run_img_len run →
  Z.lor (run_img_addr run) FLASH_BASE + run_img_len run < 0xFFFF0000 →
  runaddr + len <= clear_of runaddr len run ∧
  (Z.lor (run_img_addr run) FLASH_BASE = run_img_addr run →
   run_img_addr run + run_img_len run <= clear_of runaddr len run).
Proof.
  intros Hr Ha Hl Hrun. unfold clear_of, FLASH_1M_END, BLOCK_SIZE in *.
  assert (run_img_addr run <= Z.lor (run_img_addr run) FLASH_BASE) as Hle by (apply lor_ge; [done|by unfold FLASH_BASE]).
  rewrite !(u32_id (_ + _)) by (unfold is_u32; lia).
  set (v := if _ <? _ then _ else _).
  assert (runaddr + len <= v ∧ (Z.lor (run_img_addr run) FLASH_BASE = run_img_addr run → run_img_addr run + run_img_len run <= v) ∧
    0 <= v < 0xFFFF0000) as (H1 & H2 & H3) by (unfold v; case_if; lia).
  change 0x10000 with 65536 in *. rewrite u32_id by (unfold is_u32; dlia).
  case_if; [|done]. split; [dlia|]. intros E1. specialize (H2 E1). dlia.
Qed.

(** C28: what an accepted header promises, the sums of addresses and lengths in
    it and in the header of the running image not wrapping: the header is intact
    and of the type of the running image; the new image runs in the first MByte
    past the boot loader; the update area is aligned to a block, lies past the
    end of the new image, and ends before the last block of the flash, which
    holds the parameters.  It lies past the end of the running image too if the
    header of that image holds its address with the base of the flash; if it
    holds it without, it need not ([header_check_misses_running]).  The check
    itself changes nothing in the flash. *)
Theorem header_check_sound {F W} `{FlashDevOk F} `{!Wifi W} `{CrcEngineOk} h (s : fw_state F W) s' :
  header_in_flash → fd_ok (flash s) → headers_ok s → blen h = T_BOOTER_SIZE → bytes_ok h →
  tls_fwup_img_header_check h s = Some (true, s') →
  let runaddr := Z.lor (run_img_addr h) FLASH_BASE in
  let updaddr := Z.lor (upd_img_addr h) FLASH_BASE in
  let running_addr := Z.lor (run_img_addr (running s)) FLASH_BASE in
  flashtotalsize s = 0x100000 ∨ flashtotalsize s = 0x200000 →
  runaddr + run_img_len h < 2 ^ 32 → updaddr + upd_img_len h < 2 ^ 32 →
  running_addr + run_img_len (running s) < 2 ^ 32 - BLOCK_SIZE →
  hd_checksum h = head_crc h ∧ img_type h = img_type (running s) ∧
  CODE_RUN_START_ADDR <= runaddr ∧ runaddr + run_img_len h < FLASH_1M_END ∧
  updaddr mod BLOCK_SIZE = 0 ∧ runaddr + run_img_len h <= updaddr ∧
  (running_addr = run_img_addr (running s) → running_addr + run_img_len (running s) <= updaddr) ∧
  updaddr + upd_img_len h <= FLASH_BASE + flashtotalsize s - BLOCK_SIZE ∧
  flash_same s s'.
Proof.
  intros Hin Hf Hh Hl Hok Hrun runaddr updaddr running_addr Htot Hw1 Hw2 Hr.
  assert (wp (tls_fwup_img_header_check h) (λ r s', r = header_accepted h (running s) (flashtotalsize s) ∧
    flash_same s s') s) as Hw.
  { apply wp_header_check; try done. intros s1 Hq _. split; [done|]. by apply quiet_flash_same. }
  apply wp_total in Hw as (r & s1 & Hrun' & -> & Hsame). rewrite Hrun in Hrun'. injection Hrun' as Hacc <-.
  symmetry in Hacc. unfold header_accepted in Hacc. fold runaddr updaddr in Hacc.
  rewrite !andb_true_iff, !negb_true_iff, !orb_false_iff in Hacc.
  destruct Hacc as [[[[[[[_ _] Hck] Hr1] Hty] [[[_ Hl0] Hr2] Hr3]] [[Hu1 Hu2] Hu3]] Hu4]. zbool.
  apply Z.eqb_neq in Hl0. unfold truth in Hu2. apply negb_false_iff, Z.eqb_eq in Hu2.
  assert (∀ b o, bytes_ok b → blen b = T_BOOTER_SIZE → 0 <= o → o + 4 <= 56 → is_u32 (u32_at b o)) as Hu.
  { intros b o Hb Hbl Ho Ho'. apply of_le_range4; [by apply bytes_ok_slice|].
    apply blen_slice; unfold T_BOOTER_SIZE in *; lia. }
  assert (bytes_ok (running s)) as Hgo by apply bytes_ok_fd.
  assert (blen (running s) = T_BOOTER_SIZE) as Hgl by (by apply blen_fd).
  pose proof (Hu _ 8 Hok Hl ltac:(lia) ltac:(lia)) as Hra. pose proof (Hu _ 20 Hok Hl ltac:(lia) ltac:(lia)) as Hua.
  pose proof (Hu _ 8 Hgo Hgl ltac:(lia) ltac:(lia)) as Hga. pose proof (Hu _ 12 Hgo Hgl ltac:(lia) ltac:(lia)) as Hgn.
  pose proof (Hu _ 12 Hok Hl ltac:(lia) ltac:(lia)) as Hrl. pose proof (Hu _ 24 Hok Hl ltac:(lia) ltac:(lia)) as Hul.
  fold (run_img_addr h) in Hra. fold (upd_img_addr h) in Hua. fold (run_img_addr (running s)) in Hga.
  fold (run_img_len (running s)) in Hgn. fold (run_img_len h) in Hrl. fold (upd_img_len h) in Hul. change (2 ^ 32) with 4294967296 in *.
  assert (0 <= runaddr) by (apply Z.lor_nonneg; split; [apply Hra|by unfold FLASH_BASE]).
  assert (0 <= updaddr) by (apply Z.lor_nonneg; split; [apply Hua|by unfold FLASH_BASE]).
  unfold is_u32 in *. rewrite u32_id in Hr2 by (unfold is_u32; lia).
  rewrite u32_id in Hu4 by (unfold is_u32; lia).
  destruct (clear_of_bound runaddr (run_img_len h) (running s)) as [Hc1 Hc2]; [lia|lia|lia|exact Hr|].
  assert (Z.lor (u32 (flashtotalsize s - BLOCK_SIZE)) FLASH_BASE =
          FLASH_BASE + flashtotalsize s - BLOCK_SIZE) as Hlim
    by (destruct Htot as [-> | ->]; reflexivity).
  rewrite Hlim in Hu4. repeat split; try done; try lia.
Qed.

(** ** A device to run the update on *)

#[export] Instance no_wifi : Wifi unit := {
  tls_wifi_get_oneshot_flag _ := 0;
  tls_wifi_set_oneshot_flag _ w := w;
  tls_wifi_set_psflag _ w := w;
  tls_wifi_get_auto m _ := m;
  tls_wifi_set_auto _ w := w;
}.

(** A header with a right checksum. *)
Definition make_header (type run_addr run_len upd_addr upd_len checksum : Z) : list Z :=
  let b := le32 SIGNATURE_WORD ++ le16 type ++ le16 0 ++ le32 run_addr ++ le32 run_len ++ le32 0 ++
    le32 upd_addr ++ le32 upd_len ++ le32 checksum ++ le32 0 ++ replicate 16 0 in
  b ++ le32 (crc_reg 0xFFFFFFFF b).
Definition demo_running : list Z := make_header 3 0x8010100 10000 0x8090000 5000 0.
Definition fwup_flash : array := λ x,
  if (CODE_RUN_HEADER_ADDR <=? x) && (x <? CODE_RUN_HEADER_ADDR + 56)
  then default 0 (byte_at demo_running (x - CODE_RUN_HEADER_ADDR)) else 255.
Definition demo_fwup (p : fwup_ptr) (wb : option (list Z)) : fw_state array unit :=
  mk_fw (mk_pst fwup_flash demo_heap [] [] [] (Some 1) 0) 0 tt p 0 wb 0 (replicate 56 0)
    (replicate 56 0) 0x100000 layout_1M [0; 7] 0 (replicate 56 0) 0 0 false.
Definition demo_session : fw_state array unit :=
  demo_fwup (Live (mk_fwup [] 1 true 3 0 7 0 0 0 0 0 (-1))) (Some (replicate (Z.to_nat 4096) 0)).
Definition small_image : list Z := replicate 100 65.
Definition small_header (checksum : Z) : list Z :=
  make_header 3 0x8010100 20000 0x8090000 100 checksum.

Lemma demo_session_open : session_open 7 demo_session.
Proof.
  exists 3, 1, (-1). split; [done|]. unfold opened, demo_session, demo_fwup, headers_ok.
  cbn [fwup fwup_msg_queue fwupwritebuffer imgheader0 imgheader1 booter].
  repeat (split; [reflexivity || exact I|]). split; [|].
  - exists (replicate (Z.to_nat 4096) 0). split; [reflexivity|]. split; [reflexivity|].
    apply Forall_replicate. unfold is_u8. lia.
  - repeat (split; [split; reflexivity || reflexivity || exact I|]). intros x _. reflexivity.
Qed.
Lemma demo_fits n : 0 <= n < 0x60000 → fits (F := array) 0x8090000 n (CODE_UPD_HEADER_ADDR layout_1M).
Proof.
  intros Hn. change (CODE_UPD_HEADER_ADDR layout_1M) with 0x80fc000.
  unfold fits, CODE_RUN_HEADER_ADDR, T_BOOTER_SIZE, fd_lo, fd_hi. cbn. lia.
Qed.
Definition small_pad : list Z := replicate 5 66.
Definition small_blocks : list (list Z) := [replicate 30 65; replicate 30 65 ++ small_pad].
Lemma demo_delivery checksum : is_u32 checksum →
  bool_decide (checksum = crc_reg 0xFFFFFFFF small_image ∨ checksum = 0) = true →
  delivery (small_header checksum) small_image small_pad (replicate 40 65) small_blocks demo_session.
Proof.
  intros _ Hc%bool_decide_eq_true_1.
  assert (blen (small_header checksum) = T_BOOTER_SIZE ∧ bytes_ok (small_header checksum) ∧
    upd_img_len (small_header checksum) = 100 ∧
    header_accepted (small_header checksum) (running demo_session) 0x100000 = true ∧
    img_type (small_header checksum) = 3 ∧
    Z.lor (upd_img_addr (small_header checksum)) FLASH_BASE = 0x8090000)
    as (H1 & H2 & H3 & H4 & H5 & H6).
  { destruct Hc as [-> | ->]; (split; [reflexivity|]; split; [apply bytes_ok_b; vm_compute; reflexivity|];
      split_and!; vm_compute; reflexivity). }
  split.
  - split; [exact H1|exact H2].
  - split; [apply bytes_ok_b; vm_compute; reflexivity|]. exact H3.
  - exact H4.
  - rewrite H5. discriminate.
  - rewrite H6. change (blen (small_image ++ small_pad)) with 105. apply demo_fits. lia.
  - reflexivity.
  - split; [vm_compute; discriminate|].
    repeat (apply Forall_cons_2; [vm_compute; split; [reflexivity|discriminate]|]). by apply Forall_nil_2.
  - vm_compute. reflexivity.
Qed.

Lemma fwup_installs_witness :
  ∃ s', send_blocks 7 ((small_header (crc_reg 0xFFFFFFFF small_image) ++ replicate 40 65) :: small_blocks) demo_session =
      Some ([0; 0; 0], s') ∧
    fd_bytes (flash s') 0x8090000 105 = small_image ++ small_pad ∧ resets s' = 1.
Proof.
  destruct (fwup_installs 7 (small_header (crc_reg 0xFFFFFFFF small_image)) small_image small_pad (replicate 40 65)
    small_blocks demo_session) as (s' & H1 & H2 & _ & H3 & _).
  - exact demo_session_open.
  - apply demo_delivery; vm_compute; done.
  - vm_compute. reflexivity.
  - exists s'. split; [exact H1|]. split; [exact H3|exact H2].
Defined.

Lemma fwup_refuses_bad_image_witness :
  ∃ s', send_blocks 7 ((small_header 0 ++ replicate 40 65) :: small_blocks) demo_session = Some ([0; 0; TLS_FWUP_STATUS_ECRC], s').
Proof.
  destruct (fwup_refuses_bad_image 7 (small_header 0) small_image small_pad (replicate 40 65) small_blocks demo_session)
    as (s' & H1 & _).
  - exact demo_session_open.
  - apply demo_delivery; vm_compute; done.
  - vm_compute. discriminate.
  - exists s'. exact H1.
Defined.

(** A whole sector. *)
Definition sector_image : list Z := replicate (Z.to_nat 4096) 65.
Definition sector_header : list Z :=
  make_header 3 0x8010100 20000 0x8090000 4096 (crc_reg 0xFFFFFFFF sector_image).
Lemma sector_delivery : delivery sector_header sector_image [] [] [sector_image] demo_session.
Proof.
  assert (Z.lor (upd_img_addr sector_header) FLASH_BASE = 0x8090000) as H6 by (vm_compute; reflexivity).
  split.
  - split; [vm_compute; reflexivity|]. apply bytes_ok_b. vm_compute. reflexivity.
  - split; [apply bytes_ok_b; vm_compute; reflexivity|]. vm_compute. reflexivity.
  - vm_compute. reflexivity.
  - intros E. vm_compute in E. discriminate E.
  - rewrite H6. change (blen (sector_image ++ [])) with 4096. apply demo_fits. lia.
  - vm_compute. reflexivity.
  - split; [vm_compute; discriminate|].
    apply Forall_cons_2; [vm_compute; split; [reflexivity|discriminate]|]. by apply Forall_nil_2.
  - vm_compute. reflexivity.
Qed.
Lemma fwup_refuses_whole_sectors_witness :
  ∃ s', send_blocks 7 ((sector_header ++ []) :: [sector_image]) demo_session =
      Some ([0; TLS_FWUP_STATUS_EIO], s') ∧ resets s' = 1.
Proof.
  destruct (fwup_refuses_whole_sectors 7 sector_header sector_image [] [] [sector_image] demo_session)
    as (s' & H1 & _ & H2).
  - exact demo_session_open.
  - exact sector_delivery.
  - vm_compute. reflexivity.
  - exists s'. split; [exact H1|exact H2].
Defined.

Lemma demo_header_in_flash : header_in_flash (F := array).
Proof. vm_compute. split; discriminate. Qed.

Lemma fwup_first_block_resets_witness :
  ∃ s', tls_fwup_request_sync 7 (Some (replicate 56 0)) 20 true demo_session = Some (0, s') ∧
    resets s' = 1.
Proof.
  destruct (fwup_first_block_resets 7 (replicate 56 0) 20 demo_session) as (s' & H1 & H2 & _).
  - exact demo_session_open.
  - exact demo_header_in_flash.
  - apply Forall_replicate. unfold is_u8. lia.
  - vm_compute. discriminate.
  - lia.
  - left. reflexivity.
  - exists s'. split; [exact H1|exact H2].
Defined.

Lemma fwup_error_sticky_witness :
  let f := mk_fwup [] 1 true 3 (Z.lor 4 32) 7 100 44 44 0x8090000 0 0 in
  ∃ s', tls_fwup_request_sync 7 (Some [1; 2; 3]) 3 true (demo_fwup (Live f) None) =
      Some (TLS_FWUP_STATUS_EIO, s') ∧ fwup s' = Live f ∧ resets s' = 1.
Proof.
  intros f. destruct (fwup_error_sticky 7 [1; 2; 3] 3 f (demo_fwup (Live f) None))
    as (s' & H1 & (H2 & _ & H3) & _); try reflexivity.
  - vm_compute. split; [discriminate|reflexivity].
  - vm_compute. discriminate.
  - discriminate.
  - exists s'. split; [exact H1|]. split; [exact H2|exact H3].
Defined.

Lemma fwup_sessions_exclusive_witness :
  ∃ s1 rs s2, tls_fwup_enter 3 true true true (demo_fwup Null None) = Some (7, s1) ∧
    fw_calls [Enter 0 true true true; Request 7 (Some (replicate 56 0)) 20 true; SetNumber 0; Exit 9; Reset 7] s1 = Some (rs, s2) ∧
    tls_fwup_enter 0 true true true s2 = Some (0, s2) ∧
    tls_fwup_exit 8 s2 = Some (TLS_FWUP_STATUS_ESESSIONID, s2).
Proof.
  destruct (fwup_sessions_exclusive 3 7 [] (demo_fwup Null None)) as (s1 & H1 & _ & _ & H3);
    try reflexivity.
  - by left.
  - exact demo_heap_ok.
  - split; reflexivity.
  - set (calls := [Enter 0 true true true; Request 7 (Some (replicate 56 0)) 20 true; SetNumber 0; Exit 9; Reset 7]) in *.
    destruct (fw_calls calls s1) as [[rs s2]|] eqn:E.
    + destruct (H3 calls rs s2) as [H4 H5]; [|exact E|].
      * unfold calls. repeat (apply Forall_cons_2; [discriminate|]). by apply Forall_nil_2.
      * exists s1, rs, s2. split; [exact H1|]. split; [done|]. split; [apply H4|]. apply (H5 8 (Exit 8)); [done|discriminate].
    + assert (match tls_fwup_enter 3 true true true (demo_fwup Null None) with
        | Some (_, s1) => match fw_calls calls s1 with Some _ => true | None => false end
        | None => false
        end = true) as Hs by (vm_compute; reflexivity).
      rewrite H1, E in Hs. discriminate Hs.
Defined.

(** While the task serves the only request another one comes. *)
Definition busy_session : fw_state array unit :=
  demo_fwup (Live (mk_fwup [mk_req [1; 2; 3] 3] 1 true 3 (Z.lor 4 1) 7 100 500 44 0x8090000 0 0)) None.
Lemma fwup_lost_wakeup_witness : ∃ s1 s2, serve_during (mk_req [1; 2; 3] 3) (tls_fwup_request_async 7 (Some (mk_req [4; 5] 2))) busy_session = Some (0, s1) ∧
  post_all 7 [mk_req [6] 1] s1 = Some ([0], s2) ∧ asleep 7 [mk_req [4; 5] 2; mk_req [6] 1] s2 ∧ fwup_scheduler s2 = None.
Proof.
  pose proof (fwup_lost_wakeup 7 (mk_req [1; 2; 3] 3) (mk_req [4; 5] 2) [mk_req [6] 1] busy_session) as Hlost. unfold wlp in Hlost.
  destruct (serve_during (mk_req [1; 2; 3] 3) (tls_fwup_request_async 7 (Some (mk_req [4; 5] 2))) busy_session) as [[r s1]|] eqn:E1.
  - destruct Hlost as (-> & Hs1 & Hpost).
    + eexists. split; [reflexivity|]. by split_and!.
    + discriminate.
    + by apply Forall_singleton.
    + assert (is_Some (fst <$> post_all 7 [mk_req [6] 1] s1)) as Hs.
      { injection E1 as <-. eexists. vm_compute. reflexivity. }
      destruct (post_all 7 [mk_req [6] 1] s1) as [[rs s2]|] eqn:E2; [|destruct Hs as [? [=]]].
      destruct Hpost as (-> & H1 & H2). exists s1, s2. split; [done|]. split; [done|]. split; [exact H1|exact H2].
  - assert (fst <$> serve_during (mk_req [1; 2; 3] 3) (tls_fwup_request_async 7 (Some (mk_req [4; 5] 2))) busy_session = Some 0) as E2
      by (vm_compute; reflexivity).
    rewrite E1 in E2. discriminate E2.
Defined.

Lemma fwup_init_dangling_witness :
  ∃ s', tls_fwup_init true false true (demo_fwup Null None) = Some (TLS_FWUP_STATUS_EMEM, s') ∧
    tls_fwup_enter 3 true true true s' = None.
Proof.
  destruct (fwup_init_dangling 3 true false true (demo_fwup Null None)) as (s' & H1 & H2);
    [reflexivity|discriminate|reflexivity|].
  exists s'. split; [exact H1|apply H2].
Defined.

Lemma header_check_sound_witness :
  match tls_fwup_img_header_check (small_header 0) demo_session with
  | Some (true, s') =>
      Z.lor (upd_img_addr (small_header 0)) FLASH_BASE + 100 <= FLASH_BASE + 0x100000 - BLOCK_SIZE
  | _ => False
  end.
Proof.
  destruct (tls_fwup_img_header_check (small_header 0) demo_session) as [[[] s']|] eqn:E.
  - destruct (header_check_sound (small_header 0) demo_session s') as (_ & _ & _ & _ & _ & _ & _ & H & _);
      [exact demo_header_in_flash|exact I|split; reflexivity|reflexivity
      |apply bytes_ok_b; vm_compute; reflexivity|exact E|by left|vm_compute; reflexivity
      |vm_compute; reflexivity|vm_compute; reflexivity|].
    exact H.
  - assert (fst <$> tls_fwup_img_header_check (small_header 0) demo_session = Some true) as E'
      by (vm_compute; reflexivity).
    rewrite E in E'. discriminate E'.
  - assert (fst <$> tls_fwup_img_header_check (small_header 0) demo_session = Some true) as E'
      by (vm_compute; reflexivity).
    rewrite E in E'. discriminate E'.
Defined.

(** The sums of the check wrap: a header whose update length reaches
    past the end of the address space, and so far past the end of the flash,
    is accepted. *)
Theorem header_check_wraps :
  let h := make_header 3 0x8010100 20000 0x8090000 0xF8000000 0 in
  fst <$> tls_fwup_img_header_check h demo_session = Some true ∧
  2 ^ 32 <= Z.lor (upd_img_addr h) FLASH_BASE + upd_img_len h.
Proof. split; [vm_compute; reflexivity|vm_compute; discriminate]. Qed.

(** The check compares the end of the new image, whose address has the base of
    the flash, with the end of the running image as its header holds it.  A
    running image whose header holds its address without the base is not seen:
    of this one, from 0x8010100 to 0x80a7c00, the last bytes lie in an update
    area that is accepted. *)
Theorem header_check_misses_running :
  let running_header := make_header 3 0x10100 0x97B00 0x8090000 5000 0 in
  let h := make_header 3 0x10100 20000 0x90000 0x10000 0 in
  let m : array := λ x, if (CODE_RUN_HEADER_ADDR <=? x) && (x <? CODE_RUN_HEADER_ADDR + 56)
    then default 0 (byte_at running_header (x - CODE_RUN_HEADER_ADDR)) else 255 in
  let s := set_params (set_fl m (params demo_session)) demo_session in
  fst <$> tls_fwup_img_header_check h s = Some true ∧ running s = running_header ∧
  Z.lor (upd_img_addr h) FLASH_BASE < Z.lor (run_img_addr (running s)) FLASH_BASE + run_img_len (running s).
Proof. split_and!; vm_compute; reflexivity. Qed.
