(* ===== verification/Timers.v ===== *)
(** * [src/Platform/Common/task]: software timers, mailboxes and message tasks

    A task sleeps in [tls_timeouts_mbox_fetch_p]: it takes the next message of
    its mailbox and, while it waits, runs the handlers of its timers.  The
    timers of a task are a list in order of expiry in which each node holds the
    time from the expiry of the node before it.  Other tasks ask for callbacks
    and timers with messages ([wm_wl_task.c]). *)
From Stdlib Require Sorted.
From S2P Require Import Prelude.

Definition HZ := 500.
Definition SYS_ARCH_TIMEOUT := 0xffffffff.
Definition TLS_OS_SUCCESS := 0.
Definition TLS_OS_ERROR := 1.
Definition TLS_TIMEO_ALL_COUONT := 9.
Definition TLS_MBOX_ALL_COUNT := 8.
Definition TLS_MSG_ALL_COUONT := 9.

(** [struct tls_timeo]; handlers are function pointers, 0 is [NULL]. *)
Record tls_timeo := mk_timeo { time : Z; h : Z; arg : Z }.
Definition set_time (x : Z) (t : tls_timeo) : tls_timeo := mk_timeo x (h t) (arg t).
#[export] Instance tls_timeo_eq_dec : EqDecision tls_timeo.
Proof. solve_decision. Defined.

(** [struct task_msg]: what a queue holds is a pointer, to a block of the heap
    that belongs to the message or to an entry of [wl_msg]. *)
Inductive task_msg :=
  | TASK_MSG_TIMEOUT (msecs handler argument : Z)
  | TASK_MSG_UNTIMEOUT (handler argument : Z)
  | TASK_MSG_CALLBACK (function ctx : Z)
  | TASK_MSG_CALLBACK_STATIC (msg_id : Z).

(** An entry of [wl_msg]: the [cbs] member of the union. *)
Record static_msg := mk_static { function : Z; ctx : Z; cnt : Z (* u8 *) }.
Definition set_cnt (x : Z) (m : static_msg) : static_msg := mk_static (function m) (ctx m) x.

(** [struct task_parameter], as far as this code reads it. *)
Record task_parameter := mk_task { mbox_size : Z; mbox_id : Z; timeo_id : Z }.

(** The operating system.  [os_ticks] is the number of ticks since the start;
    [tls_os_get_time] returns it modulo 2^32. *)
Class Os (W : Type) := {
  os_ticks : W → Z;
  tls_os_queue_create : Z → M W (Z * Z);
  tls_os_queue_send : Z → task_msg → M W Z;
  tls_os_queue_receive : Z → Z → M W (Z * option task_msg);
  tls_os_time_delay : Z → M W unit;
  tls_os_task_create : task_parameter → M W unit;
}.

(** Time does not run backwards; a receive that succeeds stores a message, and
    one with a limit fails only after the ticks it was given have passed (a
    limit of 0 waits for ever). *)
Class OsOk (W : Type) `{!Os W} := {
  receive_ok q n w r m w' : tls_os_queue_receive q n w = Some ((r, m), w') →
    os_ticks w <= os_ticks w' ∧
    (r = TLS_OS_SUCCESS → is_Some m) ∧
    (r ≠ TLS_OS_SUCCESS → n ≠ 0 ∧ os_ticks w + n <= os_ticks w');
}.

(** The globals [next_timeout], [task_mbox] and [wl_msg], the allocator and the
    operating system.  [fired] records the calls of timer handlers with the
    tick at which they were made; the code does not read it. *)
Record wl (W : Type) := mk_wl {
  next_timeout : list (list tls_timeo);
  task_mbox : list Z;
  wl_msg : list static_msg;
  wl_heap : heap;
  os : W;
  fired : list (Z * Z * Z);
}.
Arguments mk_wl {W}.
Arguments next_timeout {W}.
Arguments task_mbox {W}.
Arguments wl_msg {W}.
Arguments wl_heap {W}.
Arguments os {W}.
Arguments fired {W}.

Section setters.
Context {W : Type}.
Implicit Type s : wl W.
Definition set_next_timeout x s :=
  mk_wl x (task_mbox s) (wl_msg s) (wl_heap s) (os s) (fired s).
Definition set_task_mbox x s :=
  mk_wl (next_timeout s) x (wl_msg s) (wl_heap s) (os s) (fired s).
Definition set_wl_msg x s :=
  mk_wl (next_timeout s) (task_mbox s) x (wl_heap s) (os s) (fired s).
Definition set_wl_heap x s :=
  mk_wl (next_timeout s) (task_mbox s) (wl_msg s) x (os s) (fired s).
Definition set_os (x : W) s :=
  mk_wl (next_timeout s) (task_mbox s) (wl_msg s) (wl_heap s) x (fired s).
Definition set_fired x s :=
  mk_wl (next_timeout s) (task_mbox s) (wl_msg s) (wl_heap s) (os s) x.
End setters.

(** Calling a function pointer. *)
Class Calls (W : Type) := { call : Z → Z → M (wl W) unit }.

(** ** The list of timers *)

(** The [for] loop of [tls_timeout_p]: [timeout] goes behind the first node of
    the list or further down. *)
Fixpoint insert_after (l : list tls_timeo) (timeout : tls_timeo) : list tls_timeo :=
  match l with
  | [] => []
  | t :: rest =>
      let timeout := set_time (u32 (time timeout - time t)) timeout in
      match rest with
      | [] => [t; timeout]
      | n :: rest' =>
          if time timeout <? time n
          then t :: timeout :: set_time (u32 (time n - time timeout)) n :: rest'
          else t :: insert_after rest timeout
      end
  end.

Definition link_timeout (l : list tls_timeo) (timeout : tls_timeo) : list tls_timeo :=
  match l with
  | [] => [timeout]
  | t :: rest =>
      if time timeout <? time t
      then timeout :: set_time (u32 (time t - time timeout)) t :: rest
      else insert_after l timeout
  end.

Fixpoint unlink_timeout (l : list tls_timeo) (handler argument : Z) : list tls_timeo :=
  match l with
  | [] => []
  | t :: rest =>
      if (h t =? handler) && (arg t =? argument) then
        match rest with
        | [] => []
        | n :: rest' => set_time (u32 (time n + time t)) n :: rest'
        end
      else t :: unlink_timeout rest handler argument
  end.

(** A message came after [time_needed] milliseconds. *)
Definition elapse (l : list tls_timeo) (time_needed : Z) : list tls_timeo :=
  match l with
  | [] => []
  | t :: rest => set_time (if time_needed <? time t then u32 (time t - time_needed) else 0) t :: rest
  end.

Section ops.
Context {W : Type} `{!Os W} `{!Calls W}.
Local Open Scope c_scope.
Local Abbreviation MW := (M (wl W)).

Definition on_os {A} (m : M W A) : MW A := lift os set_os m.
Definition alloc (n : Z) : MW bool :=
  let* b := lift wl_heap set_wl_heap (malloc n) in
  ret (match b with Some _ => true | None => false end).
(** [next_timeout[timeo_assigned]] *)
Definition timeo (timeo_assigned : Z) : MW (list tls_timeo) :=
  let* ls := gets next_timeout in of_opt (ls !! Z.to_nat timeo_assigned).
Definition set_timeo (timeo_assigned : Z) (l : list tls_timeo) : MW unit :=
  modify (λ s, set_next_timeout (<[Z.to_nat timeo_assigned := l]> (next_timeout s)) s).

Definition tls_timeout_p (timeo_assigned msecs handler argument : Z) : MW unit :=
  let* ok := alloc 16 in
  if negb ok then ret tt
  else
    let* l := timeo timeo_assigned in
    set_timeo timeo_assigned (link_timeout l (mk_timeo msecs handler argument)).

Definition tls_untimeout_p (timeo_assigned handler argument : Z) : MW unit :=
  let* l := timeo timeo_assigned in
  set_timeo timeo_assigned (unlink_timeout l handler argument).

Definition tls_wl_timer_init : MW Z :=
  modify (set_next_timeout (replicate (Z.to_nat TLS_TIMEO_ALL_COUONT) [])) ;; ret 0.

(** ** Mailboxes *)

Definition tls_mbox_new (size : Z) : MW (Z * Z) :=
  let size := if size =? 0 then 10 else size in
  let* ' (status, mbox) := on_os (tls_os_queue_create size) in
  ret (if status =? TLS_OS_SUCCESS then TLS_OS_SUCCESS else TLS_OS_ERROR, mbox).

Definition tls_mbox_valid (mbox : Z) : bool := negb (mbox =? 0).

(** The ten tries ([msg] is never null here). *)
Fixpoint post_loop (n : nat) (mbox : Z) (msg : task_msg) : MW unit :=
  match n with
  | O => ret tt
  | S n' =>
      let* err := on_os (tls_os_queue_send mbox msg) in
      if err =? TLS_OS_SUCCESS then ret tt
      else on_os (tls_os_time_delay 5) ;; post_loop n' mbox msg
  end.
Definition tls_mbox_post (mbox : Z) (msg : task_msg) : MW unit := post_loop 10 mbox msg.

Definition tls_mbox_trypost (mbox : Z) (msg : task_msg) : MW Z :=
  let* err := on_os (tls_os_queue_send mbox msg) in
  ret (if err =? TLS_OS_SUCCESS then TLS_OS_SUCCESS else TLS_OS_ERROR).

(** The limit of the wait, in ticks. *)
Definition in_ticks (timeout : Z) : Z :=
  let in_timeout := u32 (timeout * HZ) / 1000 in
  if truth timeout && (in_timeout =? 0) then 1 else in_timeout.
(** The ticks between two readings of the clock. *)
Definition elapsed_ticks (tick_start tick_stop : Z) : Z :=
  if tick_start <=? tick_stop then tick_stop - tick_start
  else u32 (0xFFFFFFFF - tick_start + tick_stop).

Definition tls_os_get_time : MW Z := gets (λ s, u32 (os_ticks (os s))).

(** The result and the message stored, if one was. *)
Definition tls_arch_mbox_fetch (mbox timeout : Z) : MW (Z * option task_msg) :=
  let* tick_start := tls_os_get_time in
  let* ' (err, m) := on_os (tls_os_queue_receive mbox (in_ticks timeout)) in
  if negb (err =? TLS_OS_SUCCESS) then ret (SYS_ARCH_TIMEOUT, None)
  else
    let* tick_stop := tls_os_get_time in
    ret (u32 (elapsed_ticks tick_start tick_stop * 1000) / HZ, m).

(** ** Waiting for a message *)

Definition fire (handler argument : Z) : MW unit :=
  modify (λ s, set_fired (fired s ++ [(handler, argument, os_ticks (os s))]) s) ;;
  call handler argument.

(** [goto again] is the recursive call. *)
Fixpoint tls_timeouts_mbox_fetch_p (fuel : nat) (timeo_assigned mbox : Z)
    : MW (option task_msg) :=
  match fuel with
  | O => stuck
  | S fuel' =>
      let* l := timeo timeo_assigned in
      match l with
      | [] => let* ' (_, m) := tls_arch_mbox_fetch mbox 0 in ret m
      | t :: rest =>
          let* ' (time_needed, m) :=
            if 0 <? time t then tls_arch_mbox_fetch mbox (time t)
            else ret (SYS_ARCH_TIMEOUT, None) in
          if time_needed =? SYS_ARCH_TIMEOUT then
            set_timeo timeo_assigned rest ;;
            (if negb (h t =? 0) then fire (h t) (arg t) else ret tt) ;;
            tls_timeouts_mbox_fetch_p fuel' timeo_assigned mbox
          else set_timeo timeo_assigned (elapse l time_needed) ;; ret m
      end
  end.

(** ** Tasks *)

(** One round of the loop of [task_thread]; without a message it goes on with
    what the pointer [msg] happens to hold. *)
Definition task_round (fuel : nat) (p : task_parameter) : MW unit :=
  let* boxes := gets task_mbox in
  let* mbox := of_opt (boxes !! Z.to_nat (mbox_id p)) in
  let* m := tls_timeouts_mbox_fetch_p fuel (timeo_id p) mbox in
  match m with
  | None => stuck
  | Some (TASK_MSG_CALLBACK f c) => call f c
  | Some (TASK_MSG_CALLBACK_STATIC i) =>
      let* msgs := gets wl_msg in
      let* msg := of_opt (msgs !! Z.to_nat i) in
      let fun_ := function msg in
      let argu := ctx msg in
      modify (set_wl_msg (<[Z.to_nat i := set_cnt (u8 (cnt msg - 1)) msg]> msgs)) ;;
      call fun_ argu
  | Some (TASK_MSG_TIMEOUT msecs hd a) => tls_timeout_p (timeo_id p) msecs hd a
  | Some (TASK_MSG_UNTIMEOUT hd a) => tls_untimeout_p (timeo_id p) hd a
  end.

Fixpoint task_thread (rounds fuel : nat) (p : task_parameter) : MW unit :=
  match rounds with
  | O => ret tt
  | S rounds' => task_round fuel p ;; task_thread rounds' fuel p
  end.

Definition tls_wl_task_run (p : task_parameter) : MW Z :=
  let* ' (status, mbox) := tls_mbox_new (mbox_size p) in
  modify (λ s, set_task_mbox (<[Z.to_nat (mbox_id p) := mbox]> (task_mbox s)) s) ;;
  if negb (status =? TLS_OS_SUCCESS) then ret (-1)
  else on_os (tls_os_task_create p) ;; ret 0.

Definition mbox_of (p : task_parameter) : MW Z :=
  let* boxes := gets task_mbox in of_opt (boxes !! Z.to_nat (mbox_id p)).

Definition tls_wl_task_callback_static (p : task_parameter) (fn c : Z) (block : bool)
    (msg_id : Z) : MW Z :=
  let i := Z.to_nat msg_id in
  let* msgs := gets wl_msg in
  let* msg := of_opt (msgs !! i) in
  if 0 <? cnt msg then ret TLS_OS_ERROR
  else
    let* mbox := mbox_of p in
    if tls_mbox_valid mbox then
      modify (set_wl_msg (<[i := mk_static fn c (cnt msg)]> msgs)) ;;
      let* posted :=
        if block then tls_mbox_post mbox (TASK_MSG_CALLBACK_STATIC msg_id) ;; ret TLS_OS_SUCCESS
        else tls_mbox_trypost mbox (TASK_MSG_CALLBACK_STATIC msg_id) in
      if negb (posted =? TLS_OS_SUCCESS) then ret TLS_OS_ERROR
      else
        let* msgs := gets wl_msg in
        let* msg := of_opt (msgs !! i) in
        modify (set_wl_msg (<[i := set_cnt (u8 (cnt msg + 1)) msg]> msgs)) ;;
        ret TLS_OS_SUCCESS
    else ret TLS_OS_ERROR.

Definition tls_wl_task_callback (p : task_parameter) (fn c : Z) (block : bool) : MW Z :=
  let* mbox := mbox_of p in
  if tls_mbox_valid mbox then
    let* ok := alloc 24 in
    if negb ok then ret TLS_OS_ERROR
    else if block then tls_mbox_post mbox (TASK_MSG_CALLBACK fn c) ;; ret TLS_OS_SUCCESS
    else
      let* r := tls_mbox_trypost mbox (TASK_MSG_CALLBACK fn c) in
      ret (if negb (r =? TLS_OS_SUCCESS) then TLS_OS_ERROR else TLS_OS_SUCCESS)
  else ret TLS_OS_ERROR.

(** The body the two requests share: allocate, fill in, post. *)
Definition post_request (p : task_parameter) (msg : task_msg) : MW Z :=
  let* mbox := mbox_of p in
  if tls_mbox_valid mbox then
    let* ok := alloc 24 in
    if negb ok then ret TLS_OS_ERROR else tls_mbox_post mbox msg ;; ret TLS_OS_SUCCESS
  else ret TLS_OS_ERROR.
Definition tls_wl_task_add_timeout (p : task_parameter) (msecs hd a : Z) : MW Z :=
  post_request p (TASK_MSG_TIMEOUT msecs hd a).
Definition tls_wl_task_untimeout (p : task_parameter) (hd a : Z) : MW Z :=
  post_request p (TASK_MSG_UNTIMEOUT hd a).

(** Only the first entry is cleared ([sizeof(struct task_msg)]). *)
Definition tls_wl_task_init : MW Z :=
  modify (λ s, set_wl_msg (<[O := mk_static 0 0 0]> (wl_msg s)) s) ;; ret 0.
End ops.

(** ** The schedule

    What the list stands for: each timer with the time left until it expires,
    in order of expiry; timers that expire together in the order they were set. *)
Definition alarm : Type := Z * (Z * Z).

Fixpoint due (now : Z) (l : list tls_timeo) : list alarm :=
  match l with
  | [] => []
  | t :: rest => (now + time t, (h t, arg t)) :: due (now + time t) rest
  end.

Inductive timer_op :=
  | TSet (msecs handler argument : Z)
  | TCancel (handler argument : Z)
  | TElapse (msecs : Z).

Definition set_alarm (d : Z) (x : Z * Z) (a : list alarm) : list alarm :=
  filter (λ b, b.1 <= d) a ++ (d, x) :: filter (λ b, ¬ b.1 <= d) a.
#[global] Arguments set_alarm : simpl never.
Fixpoint cancel (x : Z * Z) (a : list alarm) : list alarm :=
  match a with
  | [] => []
  | (d, y) :: a' => if decide (y = x) then a' else (d, y) :: cancel x a'
  end.

(** A new alarm goes behind those that expire no later; cancelling removes the
    first that matches; time stops at the first alarm. *)
Definition spec_timer_op (op : timer_op) (ok : bool) (a : list alarm) : list alarm :=
  match op with
  | TSet d hd x => if ok then set_alarm d (hd, x) a else a
  | TCancel hd x => cancel (hd, x) a
  | TElapse e =>
      let e := match a with [] => 0 | b :: _ => Z.min e b.1 end in
      (λ b, (b.1 - e, b.2)) <$> a
  end.

(** The lists of the code: each time is one of a [u32], and so is the sum. *)
Definition wf_timers (l : list tls_timeo) : Prop :=
  Forall (λ t, 0 <= time t) l ∧ foldr (λ t n, time t + n) 0 l < 4294967296.

Lemma wf_timers_cons t l : wf_timers (t :: l) ↔
  0 <= time t ∧ Forall (λ t, 0 <= time t) l ∧ time t + foldr (λ t n, time t + n) 0 l < 4294967296.
Proof. unfold wf_timers. rewrite list.Forall_cons. cbn [foldr]. intuition. Qed.
Lemma total_nonneg l : Forall (λ t, 0 <= time t) l → 0 <= foldr (λ t n, time t + n) 0 l.
Proof. induction 1; cbn [foldr]; lia. Qed.
Lemma wf_tail t l : wf_timers (t :: l) → wf_timers l.
Proof.
  rewrite wf_timers_cons. intros (? & Hl & ?). split; [done|]. lia.
Qed.

Lemma due_shift now d l : due (now + d) l = (λ b, (b.1 + d, b.2)) <$> due now l.
Proof.
  revert now. induction l as [|t l IH]; intros now; [done|]. cbn [due fmap list_fmap fst snd].
  replace (now + d + time t) with (now + time t + d) by lia. by rewrite IH.
Qed.
(** The alarms are in order. *)
Lemma due_ge now l b : Forall (λ t, 0 <= time t) l → b ∈ due now l → now <= b.1.
Proof.
  intros Hl. revert now. induction Hl as [|t l Ht Hl IH]; intros now Hb; cbn [due] in Hb.
  { by apply elem_of_nil in Hb. }
  apply elem_of_cons in Hb as [->|Hb]; cbn; [lia|]. apply IH in Hb. lia.
Qed.
Lemma due_sorted now l : Forall (λ t, 0 <= time t) l →
  Sorted.StronglySorted (λ a b : alarm, a.1 <= b.1) (due now l).
Proof.
  intros Hl. revert now. induction Hl as [|t l Ht Hl IH]; intros now; constructor; [apply IH|].
  apply list.Forall_forall. intros b Hb. cbn. by apply due_ge in Hb.
Qed.

Lemma filter_none {A} (P : A → Prop) `{∀ x, Decision (P x)} (l : list A) :
  (∀ x, x ∈ l → ¬ P x) → filter P l = [].
Proof.
  induction l as [|x l IH]; intros Hl; [done|]. rewrite filter_cons, decide_False by (apply Hl; by left).
  apply IH. intros y Hy. apply Hl. by right.
Qed.
Lemma filter_every {A} (P : A → Prop) `{∀ x, Decision (P x)} (l : list A) :
  (∀ x, x ∈ l → P x) → filter P l = l.
Proof.
  induction l as [|x l IH]; intros Hl; [done|]. rewrite filter_cons, decide_True by (apply Hl; by left).
  f_equal. apply IH. intros y Hy. apply Hl. by right.
Qed.

Lemma set_time_id t : set_time (time t) t = t.
Proof. by destruct t. Qed.


Lemma set_alarm_cons d x b a : b.1 <= d → set_alarm d x (b :: a) = b :: set_alarm d x a.
Proof.
  intros Hb. unfold set_alarm. rewrite !filter_cons, decide_True by done.
  by rewrite decide_False by tauto.
Qed.
Lemma set_alarm_first d x a : (∀ b, b ∈ a → d < b.1) → set_alarm d x a = (d, x) :: a.
Proof.
  intros Ha. unfold set_alarm. rewrite filter_none, filter_every; [done| |].
  - intros b Hb. apply Ha in Hb. lia.
  - intros b Hb. apply Ha in Hb. lia.
Qed.
Lemma set_alarm_before d now t l : Forall (λ t, 0 <= time t) l → now + d < now + time t →
  ∀ x, set_alarm (now + d) x (due now (t :: l)) = (now + d, x) :: due now (t :: l).
Proof.
  intros Hl Hd x. apply set_alarm_first. intros b Hb. cbn [due] in Hb.
  apply elem_of_cons in Hb as [->|Hb]; [done|]. apply due_ge in Hb; [lia|done].
Qed.

(** *** Setting a timer *)

Local Abbreviation total l := (foldr (λ t n, time t + n) 0 l).

Lemma insert_after_ok l : ∀ now to, l ≠ [] → wf_timers l →
  (∀ t, head l = Some t → time t <= time to) → is_u32 (time to) →
  due now (insert_after l to) = set_alarm (now + time to) (h to, arg to) (due now l) ∧
  Forall (λ t, 0 <= time t) (insert_after l to) ∧
  total (insert_after l to) = Z.max (total l) (time to).
Proof.
  induction l as [|t l IH]; intros now to Hne Hwf Hle Hto; [done|]. specialize (Hle t eq_refl).
  apply wf_timers_cons in Hwf as (Ht & Hl & Htot).
  pose proof (total_nonneg l Hl) as Hn0. cbn [insert_after].
  assert (u32 (time to - time t) = time to - time t) as Hsub by (apply u32_id; unfold is_u32 in *; lia).
  rewrite Hsub. cbn [due]. rewrite set_alarm_cons by (cbn; lia).
  destruct l as [|n l].
  - cbn. rewrite set_alarm_first by (intros b Hb; by apply elem_of_nil in Hb).
    split; [do 3 f_equal; lia|]. split; [|cbn in Htot; lia]. repeat constructor; cbn; lia.
  - apply list.Forall_cons in Hl as [Hn Hl]. cbn [foldr] in Htot, Hn0.
    pose proof (total_nonneg l Hl). cbn [time set_time]. case_if.
    + replace (now + time to) with (now + time t + (time to - time t)) by lia.
      rewrite set_alarm_before by (done || lia).
      rewrite (u32_id (time n - _)) by (unfold is_u32 in *; lia). cbn [due set_time time h arg].
      replace (now + time t + (time to - time t) + (time n - (time to - time t)))
        with (now + time t + time n) by lia.
      split; [done|]. split; [repeat constructor; cbn; done || lia|]. cbn [foldr set_time time]. lia.
    + destruct (IH (now + time t) (set_time (time to - time t) to)) as (Hd & Hf & Hs); [done| | | |].
      * split; [by constructor|]. cbn [foldr]. lia.
      * intros t' [= <-]. cbn [set_time time]. lia.
      * unfold is_u32 in *. cbn [set_time time]. lia.
      * cbn [set_time time h arg] in Hd, Hs. cbn [due].
        replace (now + time t + (time to - time t)) with (now + time to) in Hd by lia.
        split; [by f_equal|]. split; [by constructor|].
        cbn [foldr]. rewrite Hs. cbn [foldr]. lia.
Qed.

Lemma link_timeout_ok l now to : wf_timers l → is_u32 (time to) →
  due now (link_timeout l to) = set_alarm (now + time to) (h to, arg to) (due now l) ∧
  wf_timers (link_timeout l to).
Proof.
  intros Hwf Hto. unfold wf_timers. destruct l as [|t l].
  { cbn. split; [done|]. unfold is_u32 in *. split; [repeat constructor; lia|lia]. }
  unfold link_timeout. case_if.
  - pose proof Hwf as (Ht & Hl & Htot)%wf_timers_cons. pose proof (total_nonneg l Hl).
    rewrite set_alarm_before by (done || lia). cbn [due set_time time h arg foldr].
    rewrite u32_id by (unfold is_u32 in *; lia).
    replace (now + time to + (time t - time to)) with (now + time t) by lia.
    split; [done|]. unfold is_u32 in *. split; [repeat constructor; cbn; done || lia|lia].
  - destruct (insert_after_ok (t :: l) now to) as (Hd & Hf & Hs); try done.
    { by intros t' [= <-]. }
    split; [done|]. split; [done|]. rewrite Hs. destruct Hwf. unfold is_u32 in *. lia.
Qed.

(** *** Cancelling and waiting *)

Lemma unlink_timeout_ok l : ∀ now hd x, wf_timers l →
  due now (unlink_timeout l hd x) = cancel (hd, x) (due now l) ∧
  Forall (λ t, 0 <= time t) (unlink_timeout l hd x) ∧ total (unlink_timeout l hd x) <= total l.
Proof.
  induction l as [|t l IH]; intros now hd x Hwf; [done|].
  pose proof Hwf as (Ht & Hl & Htot)%wf_timers_cons. pose proof (total_nonneg l Hl).
  cbn [unlink_timeout due cancel]. case_if.
  - rewrite decide_True by congruence. destruct l as [|n l]; [cbn in *; split; [done|split; [done|lia]]|].
    apply list.Forall_cons in Hl as [Hn Hl]. cbn [foldr] in *. pose proof (total_nonneg l Hl).
    cbn [due set_time time h arg foldr]. rewrite u32_id by (unfold is_u32; lia).
    replace (now + (time n + time t)) with (now + time t + time n) by lia.
    split; [done|]. split; [|lia]. constructor; [cbn; lia|done].
  - rewrite decide_False.
    2: { intros [= <- <-]. apply andb_false_iff in E. destruct E; zbool; done. }
    destruct (IH (now + time t) hd x) as (Hd & Hf & Hs); [by eapply wf_tail|].
    cbn [due foldr]. rewrite Hd. split; [done|]. split; [by constructor|lia].
Qed.

Lemma elapse_ok l e : wf_timers l → 0 <= e →
  due 0 (elapse l e) = spec_timer_op (TElapse e) true (due 0 l) ∧ wf_timers (elapse l e).
Proof.
  intros Hwf He. destruct l as [|t l]; [done|].
  pose proof Hwf as (Ht & Hl & Htot)%wf_timers_cons. pose proof (total_nonneg l Hl).
  set (e' := Z.min e (time t)).
  assert ((if e <? time t then u32 (time t - e) else 0) = time t - e') as Hx.
  { unfold e'. case_if; [rewrite u32_id by (unfold is_u32; lia)|]; lia. }
  cbn [elapse spec_timer_op due fmap list_fmap fst snd]. rewrite Hx.
  replace (0 + time t) with (time t) by lia. fold e'. cbn [set_time time h arg].
  replace (0 + (time t - e')) with (time t + - e') by lia. rewrite due_shift.
  split; [done|]. unfold wf_timers. cbn [foldr set_time time]. split; [|unfold e'; lia].
  constructor; [cbn; unfold e'; lia|done].
Qed.

(** ** Sequences of requests *)

Section requests.
Context {W : Type} `{!Os W} `{!Calls W}.
Local Open Scope c_scope.

(** The timers of one task. *)
Definition timers (s : wl W) (id : Z) : option (list tls_timeo) := next_timeout s !! Z.to_nat id.

Definition run_timer_op (id : Z) (op : timer_op) : M (wl W) unit :=
  match op with
  | TSet d hd x => tls_timeout_p id d hd x
  | TCancel hd x => tls_untimeout_p id hd x
  | TElapse e => let* l := timeo id in set_timeo id (elapse l e)
  end.
Fixpoint run_timer_ops (id : Z) (ops : list timer_op) : M (wl W) unit :=
  match ops with
  | [] => ret tt
  | op :: ops' => run_timer_op id op ;; run_timer_ops id ops'
  end.
Definition valid_timer_op (op : timer_op) : Prop :=
  match op with TSet d _ _ => is_u32 d | TCancel _ _ => True | TElapse e => 0 <= e end.

(** Setting a timer takes one answer of the allocator. *)
Definition op_heap (op : timer_op) (hp : heap) : heap :=
  match op with TSet _ _ _ => λ k, hp (S k) | _ => hp end.
Definition op_alloc (op : timer_op) (hp : heap) : bool := bool_decide (is_Some (hp O)).
Fixpoint spec_timer_ops (ops : list timer_op) (hp : heap) (a : list alarm) : list alarm :=
  match ops with
  | [] => a
  | op :: ops' => spec_timer_ops ops' (op_heap op hp) (spec_timer_op op (op_alloc op hp) a)
  end.

Lemma wp_timeo id l s (Q : list tls_timeo → wl W → Prop) :
  timers s id = Some l → Q l s → wp (timeo id) Q s.
Proof. intros Hl HQ. unfold timeo. wp_steps. by eapply wp_of_opt. Qed.
Lemma timers_set id l l' (s : wl W) : timers s id = Some l →
  let s' := set_next_timeout (<[Z.to_nat id := l']> (next_timeout s)) s in
  timers s' id = Some l' ∧ ∀ j, Z.to_nat j ≠ Z.to_nat id → timers s' j = timers s j.
Proof.
  intros Hl s'. split.
  - apply list_lookup_insert_eq. by eapply lookup_lt_Some.
  - intros j Hj. by apply list_lookup_insert_ne.
Qed.
Lemma wp_talloc n s (Q : bool → wl W → Prop) :
  Q (bool_decide (is_Some (wl_heap s O))) (set_wl_heap (λ k, wl_heap s (S k)) s) →
  wp (alloc n) Q s.
Proof.
  intros HQ. unfold alloc. apply wp_bind, wp_lift. unfold wp, malloc. apply wp_ret.
  destruct (wl_heap s O); exact HQ.
Qed.

Lemma run_timer_op_ok id op s l : timers s id = Some l → wf_timers l → valid_timer_op op →
  wp (run_timer_op id op) (λ _ s', ∃ l', timers s' id = Some l' ∧ wf_timers l' ∧
    due 0 l' = spec_timer_op op (op_alloc op (wl_heap s)) (due 0 l) ∧
    wl_heap s' = op_heap op (wl_heap s) ∧
    ∀ j, Z.to_nat j ≠ Z.to_nat id → timers s' j = timers s j) s.
Proof.
  intros Hl Hwf Hv. destruct op as [d hd x|hd x|e]; cbn [run_timer_op op_heap valid_timer_op] in *.
  - unfold tls_timeout_p. apply wp_bind, wp_talloc. unfold op_alloc.
    case_bool_decide as Ha; cbn [negb].
    + set (s1 := set_wl_heap _ s). apply wp_bind, (wp_timeo _ l); [done|]. unfold set_timeo. wp_steps.
      destruct (timers_set id l (link_timeout l (mk_timeo d hd x)) s1 Hl) as [H1 H2].
      destruct (link_timeout_ok l 0 (mk_timeo d hd x)) as [Hd Hw]; [done|done|]. eauto 10.
    + wp_steps. eauto 10.
  - unfold tls_untimeout_p. apply wp_bind, (wp_timeo _ l); [done|]. unfold set_timeo. wp_steps.
    destruct (timers_set id l (unlink_timeout l hd x) s Hl) as [H1 H2].
    destruct (unlink_timeout_ok l 0 hd x) as (Hd & Hf & Hs); [done|]. unfold wf_timers.
    destruct Hwf. eexists. split_and!; [exact H1|done|lia|exact Hd|done|exact H2].
  - apply wp_bind, (wp_timeo _ l); [done|]. unfold set_timeo. wp_steps.
    destruct (timers_set id l (elapse l e) s Hl) as [H1 H2].
    destruct (elapse_ok l e) as [Hd Hw]; [done|done|]. eauto 10.
Qed.

(** C7: the list of relative times is the schedule of alarms it stands for:
    through any sequence of timers set, cancelled and waited for, its nodes
    expire at the times of the abstract schedule, in order; no subtraction or
    addition of the relative times wraps, and the timers of the other tasks
    keep theirs. *)
Theorem timers_refine_schedule id ops s l :
  timers s id = Some l → wf_timers l → Forall valid_timer_op ops →
  wp (run_timer_ops id ops) (λ _ s', ∃ l', timers s' id = Some l' ∧ wf_timers l' ∧
    due 0 l' = spec_timer_ops ops (wl_heap s) (due 0 l) ∧
    Sorted.StronglySorted (λ a b : alarm, a.1 <= b.1) (due 0 l') ∧
    ∀ j, Z.to_nat j ≠ Z.to_nat id → timers s' j = timers s j) s.
Proof.
  intros Hl Hwf Hv. revert s l Hl Hwf. induction Hv as [|op ops Hop _ IH]; intros s l Hl Hwf.
  - apply wp_ret. exists l. split_and!; try done. apply due_sorted. apply Hwf.
  - cbn [run_timer_ops spec_timer_ops]. eapply wp_seq; [by eapply run_timer_op_ok|].
    intros _ s1 (l1 & Hl1 & Hwf1 & Hd1 & Hh1 & Hj1).
    eapply wp_mono; [by eapply IH|]. intros _ s2 (l2 & Hl2 & Hwf2 & Hd2 & Hs2 & Hj2).
    exists l2. rewrite Hd2, Hd1, Hh1. split_and!; try done; [by rewrite <- Hd1, <- Hh1, <- Hd2|].
    intros j Hj. by rewrite Hj2, Hj1.
Qed.
End requests.

(** ** Waiting for a message *)

(** The calls of the handlers of [l], made in order and none too early: a
    tick is two milliseconds. *)
Fixpoint fires_ok (now : Z) (l : list tls_timeo) (evs : list (Z * Z * Z)) : Prop :=
  match l with
  | [] => evs = []
  | t :: l' =>
      if h t =? 0 then fires_ok (now + time t / 2) l' evs
      else match evs with
           | [] => False
           | (hd, x, tick) :: evs' =>
               hd = h t ∧ x = arg t ∧ now + time t / 2 <= tick ∧
               fires_ok (now + time t / 2) l' evs'
           end
  end.

Lemma fires_ok_later l : ∀ now now' evs, now <= now' → fires_ok now' l evs → fires_ok now l evs.
Proof.
  induction l as [|t l IH]; intros now now' evs Hn; cbn [fires_ok]; [done|].
  destruct (h t =? 0); [apply IH; lia|]. destruct evs as [|[[hd x] tick] evs]; [done|].
  intros (-> & -> & Ht & Hr). split_and!; [done|done|lia|]. eapply IH; [|done]. lia.
Qed.

Lemma in_ticks_ok ms : 0 <= ms < 8589935 → ms / 2 <= in_ticks ms.
Proof.
  intros Hms. unfold in_ticks, HZ, truth. rewrite u32_id by (unfold is_u32; lia).
  case_if; dlia.
Qed.
Lemma in_ticks_zero : in_ticks 0 = 0.
Proof. done. Qed.
(** A longer time is taken modulo 2^32 / 500 milliseconds. *)
Lemma in_ticks_wraps ms : 8589935 <= ms < 4294967296 → 1 <= in_ticks ms ∧ 2 * in_ticks ms + 8589933 <= ms.
Proof.
  intros Hms. unfold in_ticks, HZ, truth. unfold u32, wrap. change (2 ^ 32) with 4294967296.
  case_if; dlia.
Qed.

Section fetch.
Context {W : Type} `{OsOk W} `{!Calls W}.

(** Handlers that return and set no timer. *)
Definition calls_ok : Prop := ∀ hd x s, wp (call hd x) (λ _ s',
  next_timeout s' = next_timeout s ∧ fired s' = fired s ∧ os_ticks (os s) <= os_ticks (os s')) s.
(** No receive blocks for ever. *)
Definition messages_come : Prop := ∀ q n w, is_Some (tls_os_queue_receive q n w).

(** The time from the tick [from] to the tick [now], as the code measures it. *)
Definition waited_ms (from now : Z) : Z := u32 (elapsed_ticks (u32 from) (u32 now) * 1000) / HZ.
Lemma waited_ms_exact from now : 0 <= from <= now → now < 2 ^ 32 → now - from < 4294967 → waited_ms from now = 2 * (now - from).
Proof.
  change (2 ^ 32) with 4294967296. intros Hf Hn Hd. unfold waited_ms, elapsed_ticks, HZ. rewrite !(u32_id from), !(u32_id now) by (unfold is_u32; lia).
  replace (from <=? now) with true by lia. rewrite u32_id by (unfold is_u32; lia). dlia.
Qed.

(** One wait: a message, or the time is up. *)
Lemma wp_mbox_fetch mbox ms s (Q : Z * option task_msg → wl W → Prop) :
  messages_come →
  (∀ w m n, os_ticks (os s) <= os_ticks w → 0 <= n < SYS_ARCH_TIMEOUT → n = waited_ms (os_ticks (os s)) (os_ticks w) →
    Q (n, Some m) (set_os w s)) →
  (∀ w, in_ticks ms ≠ 0 → os_ticks (os s) + in_ticks ms <= os_ticks w →
    Q (SYS_ARCH_TIMEOUT, None) (set_os w s)) →
  wp (tls_arch_mbox_fetch mbox ms) Q s.
Proof.
  intros Hc Hmsg Hto. unfold tls_arch_mbox_fetch, tls_os_get_time. wp_steps.
  apply wp_lift. destruct (Hc mbox (in_ticks ms) (os s)) as [[[r m] w] Hr].
  destruct (receive_ok _ _ _ _ _ _ Hr) as (Hw & Hok & Hno). unfold wp at 1. rewrite Hr.
  case_if.
  - wp_steps. destruct Hno; [done|]. by apply Hto.
  - destruct (Hok E) as [m' ->]. wp_steps. apply Hmsg; [done| |done].
    unfold SYS_ARCH_TIMEOUT, HZ. pose proof (u32_range (elapsed_ticks
      (u32 (os_ticks (os s))) (u32 (os_ticks (os (set_os w s)))) * 1000)) as Hu.
    unfold is_u32 in Hu. dlia.
Qed.

Lemma wp_fire hd x s (Q : unit → wl W → Prop) : calls_ok →
  (∀ s', next_timeout s' = next_timeout s → fired s' = fired s ++ [(hd, x, os_ticks (os s))] →
    os_ticks (os s) <= os_ticks (os s') → Q tt s') →
  wp (fire hd x) Q s.
Proof.
  intros Hc HQ. unfold fire. wp_steps. eapply wp_mono; [apply Hc|].
  intros [] s' (H1 & H2 & H3). by apply HQ.
Qed.

(** The timer that is up is taken off the list and its handler called. *)
Lemma fetch_fire fuel id mbox t l s (Q : option task_msg → wl W → Prop) :
  calls_ok → timers s id = Some (t :: l) →
  (∀ s' evs, timers s' id = Some l → fired s' = fired s ++ evs →
    evs = (if h t =? 0 then [] else [(h t, arg t, os_ticks (os s))]) →
    os_ticks (os s) <= os_ticks (os s') → wp (tls_timeouts_mbox_fetch_p fuel id mbox) Q s') →
  wp (bind (set_timeo id l) (λ _, bind (if negb (h t =? 0) then fire (h t) (arg t) else ret tt)
    (λ _, tls_timeouts_mbox_fetch_p fuel id mbox))) Q s.
Proof.
  intros Hc Hl HQ. unfold set_timeo. wp_steps.
  destruct (timers_set id _ l s Hl) as [Hl' _]. set (s1 := set_next_timeout _ s) in *.
  destruct (h t =? 0) eqn:Eh; cbn [negb].
  - apply wp_ret. apply (HQ s1 []); [done|by rewrite app_nil_r|done|cbn; lia].
  - apply wp_fire; [done|]. intros s' Hn Hf Ho.
    eapply HQ; [by unfold timers; rewrite Hn|exact Hf|done|done].
Qed.

(** What a call of [tls_timeouts_mbox_fetch_p] has done: the handlers of the first
    timers of the list have been called, as [fires_ok] says, and from the tick
    [from] on, with no call after it, it has waited for the message; that time
    is taken off the others. *)
Definition fetched id l (s s' : wl W) : Prop := ∃ k evs from,
  timers s' id = Some (elapse (drop k l) (waited_ms from (os_ticks (os s')))) ∧
  os_ticks (os s) <= from <= os_ticks (os s') ∧ Forall (λ ev : Z * Z * Z, ev.2 <= from) evs ∧
  fired s' = fired s ++ evs ∧ fires_ok (os_ticks (os s)) (take k l) evs.

(** C34: waiting for a message ends.  With timers of times below 2^32 / 500 ms
    whose handlers leave the timers of the task alone, and a queue that does not
    block for ever, it returns the next message after at most one round per
    timer.  The handlers it calls on the way are those of the first timers of
    the list, in the order of their expiry, none before its time; then it waits
    from some tick on for the message, and the milliseconds from that tick to
    the one at the end, as the code measures them (twice the ticks, until the
    32-bit counter or the product wraps: [waited_ms_exact]), are taken off the
    timers that are left. *)
Theorem fetch_fires_in_order fuel id mbox s l :
  calls_ok → messages_come → timers s id = Some l → wf_timers l →
  Forall (λ t, time t < 8589935) l → (length l < fuel)%nat →
  wp (tls_timeouts_mbox_fetch_p fuel id mbox) (λ m s', is_Some m ∧ fetched id l s s') s.
Proof.
  intros Hc Hm. revert s l. induction fuel as [|fuel IH]; intros s l Hl Hwf Hb Hf; [lia|].
  cbn [tls_timeouts_mbox_fetch_p]. apply wp_bind, (wp_timeo _ l); [done|].
  destruct l as [|t l].
  { apply wp_bind, wp_mbox_fetch; [done| |by intros w Hz; destruct Hz].
    intros w m n Hw _ _. wp_steps. split; [done|]. exists O, [], (os_ticks (os s)). rewrite app_nil_r. cbn [os set_os].
    split_and!; done || lia || by apply Forall_nil_2. }
  pose proof Hwf as (Ht & _ & _)%wf_timers_cons. apply list.Forall_cons in Hb as [Hbt Hb].
  assert (∀ s', fired s' = fired s → timers s' id = Some (t :: l) →
    os_ticks (os s) + time t / 2 <= os_ticks (os s') →
    wp (bind (set_timeo id l) (λ _, bind (if negb (h t =? 0) then fire (h t) (arg t) else ret tt)
      (λ _, tls_timeouts_mbox_fetch_p fuel id mbox))) (λ m s', is_Some m ∧ fetched id (t :: l) s s') s') as Hfire.
  { intros s1 Hf1 Hl1 Hw1. apply fetch_fire; [done..|].
    intros s2 ev Hl2 Hf2 Hev Hw2. eapply wp_mono; [eapply IH; try done; [by eapply wf_tail|cbn in Hf; lia]|].
    intros m s3 (Hsm & k & evs & from & Hl3 & He & Hev3 & Hf3 & Hfo). split; [done|].
    assert (0 <= time t / 2) by dlia.
    exists (S k), (ev ++ evs), from. split_and!; [done|lia|lia| |by rewrite Hf3, Hf2, Hf1, app_assoc|].
    { apply Forall_app_2; [|done]. subst ev. case_match; [by apply Forall_nil_2|]. apply Forall_singleton. cbn. lia. }
    subst ev. cbn [take firstn fires_ok]. destruct (h t =? 0); cbn [app].
    - eapply fires_ok_later; [|done]. lia.
    - split_and!; [done|done|lia|]. eapply fires_ok_later; [|done]. lia. }
  destruct (Z.ltb_spec 0 (time t)) as [Hp|Hz].
  - apply wp_bind, wp_mbox_fetch; [done| |].
    + intros w m n Hw Hn En. cbn [fst snd]. replace (n =? SYS_ARCH_TIMEOUT) with false by lia.
      unfold set_timeo. wp_steps. split; [done|]. exists O, [], (os_ticks (os s)). rewrite app_nil_r.
      destruct (timers_set id _ (elapse (t :: l) n) (set_os w s) Hl) as [Hl' _].
      cbn [os set_os set_next_timeout]. rewrite <- En. split_and!; done || lia || by apply Forall_nil_2.
    + intros w Hn Hw. cbn [fst snd]. rewrite Z.eqb_refl. apply Hfire; [done|done|].
      pose proof (in_ticks_ok (time t)). cbn [os set_os]. lia.
  - wp_steps. rewrite Z.eqb_refl. apply Hfire; [done|done|].
    dlia.
Qed.

(** A time of 8589935 ms (2 h 23 min) or more expires early: the limit of
    the wait is computed modulo 2^32, so a lone timer that long is called at
    least 8589933 ms before its time. *)
Theorem long_timeout_early id mbox s ms hd x w :
  calls_ok → messages_come → 8589935 <= ms < 4294967296 → hd ≠ 0 →
  timers s id = Some [mk_timeo ms hd x] →
  tls_os_queue_receive mbox (in_ticks ms) (os s) = Some ((TLS_OS_ERROR, None), w) →
  os_ticks w = os_ticks (os s) + in_ticks ms →
  wp (tls_timeouts_mbox_fetch_p 2 id mbox) (λ m s', ∃ tick,
    fired s' = fired s ++ [(hd, x, tick)] ∧ 2 * (tick - os_ticks (os s)) + 8589933 <= ms) s.
Proof.
  intros Hc Hm Hms Hh Hl Hr Hw. cbn [tls_timeouts_mbox_fetch_p].
  apply wp_bind, (wp_timeo _ _ _ _ Hl). cbn [time]. replace (0 <? ms) with true by lia.
  unfold tls_arch_mbox_fetch, tls_os_get_time at 1. wp_steps. apply wp_lift. unfold wp at 1. rewrite Hr.
  cbn [negb Z.eqb TLS_OS_ERROR TLS_OS_SUCCESS]. wp_steps. rewrite Z.eqb_refl.
  apply (fetch_fire 1 id mbox (mk_timeo ms hd x) []); [done|exact Hl|].
  intros s2 evs Hl2 Hf2 -> Hw2. cbn [h arg] in Hf2. replace (hd =? 0) with false in Hf2 by lia.
  cbn [tls_timeouts_mbox_fetch_p]. apply wp_bind, (wp_timeo _ _ _ _ Hl2).
  apply wp_bind, wp_mbox_fetch; [done| |by intros w' Hz; destruct Hz].
  intros w' m n _ _. wp_steps. eexists. split; [exact Hf2|]. cbn [os set_os].
  pose proof (in_ticks_wraps ms Hms). lia.
Qed.
End fetch.

(** ** Messages that are entries of [wl_msg] *)

Section static.
Context {W : Type} `{!Os W} `{!Calls W}.

(** A queue that refuses the message however long one waits. *)
Definition refuses (full : W → Prop) (mbox : Z) (msg : task_msg) : Prop :=
  ∀ w, full w →
    wp (tls_os_queue_send mbox msg) (λ r w', r ≠ TLS_OS_SUCCESS ∧ full w') w ∧
    wp (tls_os_time_delay 5) (λ _ w', full w') w.

Lemma post_loop_refused full n mbox msg s : refuses full mbox msg → full (os s) →
  wp (post_loop n mbox msg) (λ _ s', ∃ w, s' = set_os w s ∧ full w) s.
Proof.
  intros Hr. revert s. induction n as [|n IH]; intros s Hf; cbn [post_loop].
  { apply wp_ret. exists (os s). by destruct s. }
  destruct (Hr _ Hf) as [Hs _]. apply wp_bind, wp_lift. eapply wp_mono; [exact Hs|].
  intros r w [Hne Hw]. replace (r =? TLS_OS_SUCCESS) with false by (symmetry; by apply Z.eqb_neq).
  destruct (Hr _ Hw) as [_ Hd]. apply wp_bind, wp_lift. eapply wp_mono; [exact Hd|].
  intros u w' Hw'. eapply wp_mono; [by apply IH|]. intros v s' (w'' & -> & Hf'). by exists w''.
Qed.

(** A blocking callback request whose message the queue refuses ten times
    answers success although nothing was sent, and the message is lost for
    good: its counter stays at one, so that every later request with this
    message, from any task, is refused. *)
Theorem static_msg_lost full p mbox fn c id s msg :
  task_mbox s !! Z.to_nat (mbox_id p) = Some mbox → mbox ≠ 0 →
  wl_msg s !! Z.to_nat id = Some msg → cnt msg = 0 →
  refuses full mbox (TASK_MSG_CALLBACK_STATIC id) → full (os s) →
  wp (tls_wl_task_callback_static p fn c true id) (λ r s', r = TLS_OS_SUCCESS ∧ full (os s') ∧
    ∀ p' fn' c' block, tls_wl_task_callback_static p' fn' c' block id s' =
      Some (TLS_OS_ERROR, s')) s.
Proof.
  intros Hb Hne Hm Hcnt Hr Hf. unfold tls_wl_task_callback_static at 1. wp_steps.
  eapply wp_of_opt; [exact Hm|]. cbn beta. rewrite Hcnt. cbn [Z.ltb Z.compare].
  unfold mbox_of. wp_steps. eapply wp_of_opt; [exact Hb|]. cbn beta.
  unfold tls_mbox_valid. replace (mbox =? 0) with false by lia. cbn [negb]. wp_steps.
  eapply wp_mono; [by apply post_loop_refused|]. intros _ s' (w & -> & Hw). wp_steps.
  cbn [negb Z.eqb TLS_OS_SUCCESS]. wp_steps. cbn [wl_msg set_os set_wl_msg].
  pose proof (lookup_lt_Some _ _ _ Hm) as Hlt.
  eapply wp_of_opt; [by apply list_lookup_insert_eq|]. cbn beta. wp_steps.
  split; [done|]. split; [exact Hw|]. intros p' fn' c' block.
  unfold tls_wl_task_callback_static, bind, gets, of_opt, ret. cbn [wl_msg set_wl_msg set_os].
  rewrite list_lookup_insert_eq by (by rewrite length_insert). done.
Qed.
End static.

(** ** A system to run *)

(** A queue of bounded length, to which messages arrive by a script of gaps
    (in ticks) and messages. *)
Record sim := mk_sim {
  sim_ticks : Z;
  sim_queue : list task_msg;
  sim_room : nat;
  sim_script : nat → Z * task_msg;
}.

#[export] Instance sim_os : Os sim := {
  os_ticks := sim_ticks;
  tls_os_queue_create n := λ w, Some ((TLS_OS_SUCCESS, 1), w);
  tls_os_queue_send mbox msg := λ w,
    if (length (sim_queue w) <? sim_room w)%nat
    then Some (TLS_OS_SUCCESS, mk_sim (sim_ticks w) (sim_queue w ++ [msg]) (sim_room w) (sim_script w))
    else Some (TLS_OS_ERROR, w);
  tls_os_queue_receive mbox n := λ w,
    match sim_queue w with
    | m :: q => Some ((TLS_OS_SUCCESS, Some m), mk_sim (sim_ticks w) q (sim_room w) (sim_script w))
    | [] =>
        let (gap, m) := sim_script w O in
        if (n <=? 0) || (Z.max 0 gap <? n)
        then Some ((TLS_OS_SUCCESS, Some m), mk_sim (sim_ticks w + Z.max 0 gap) [] (sim_room w)
                     (λ k, sim_script w (S k)))
        else Some ((TLS_OS_ERROR, None), mk_sim (sim_ticks w + n) [] (sim_room w)
                     (λ k, match k with O => (gap - n, m) | S _ => sim_script w k end))
    end;
  tls_os_time_delay n := λ w, Some (tt, mk_sim (sim_ticks w + n) (sim_queue w) (sim_room w) (sim_script w));
  tls_os_task_create p := λ w, Some (tt, w);
}.
#[export] Instance sim_os_ok : OsOk sim.
Proof.
  split. intros q n w r m w'. cbn. destruct (sim_queue w); [|by intros [= <- <- <-]; cbn; split; [lia|eauto]].
  destruct (sim_script w 0) as [gap m']. case_if; intros [= <- <- <-]; cbn.
  - split; [lia|]. split; [eauto|done].
  - split; [lia|]. split; [done|]. intros _. lia.
Qed.

(** Handlers that return at once. *)
#[export] Instance sim_calls : Calls sim := { call hd x := ret tt }.
Lemma sim_calls_ok : calls_ok (W:=sim).
Proof. intros hd x s. by apply wp_ret. Qed.
Lemma sim_messages_come : messages_come (W:=sim).
Proof.
  intros q n w. cbn. destruct (sim_queue w); [|by eexists].
  destruct (sim_script w 0) as [gap m']. case_if; by eexists.
Qed.

(** A task whose mailbox gets its messages by the script; memory never runs out. *)
Definition sim_start (l : list tls_timeo) (room : nat) (script : nat → Z * task_msg) : wl sim :=
  mk_wl ([] :: l :: replicate 7 []) (1 :: replicate 7 0) (replicate 9 (mk_static 0 0 0))
    (λ _, Some (λ _, 0)) (mk_sim 1000 [] room script) [].
Definition after (gap : Z) : nat → Z * task_msg := λ k, (gap, TASK_MSG_CALLBACK 7 (Z.of_nat k)).

Lemma timers_refine_schedule_witness : ∃ s' l',
  run_timer_ops 1 [TSet 100 1 0; TSet 40 2 0; TSet 100 3 0; TElapse 10; TCancel 1 0]
    (sim_start [] 4 (after 5)) = Some (tt, s') ∧ timers s' 1 = Some l' ∧
  due 0 l' = [(30, (2, 0)); (90, (3, 0))].
Proof.
  pose proof (timers_refine_schedule 1
    [TSet 100 1 0; TSet 40 2 0; TSet 100 3 0; TElapse 10; TCancel 1 0]
    (sim_start [] 4 (after 5)) [] eq_refl) as H.
  apply wp_total in H as ([] & s' & Hr & l' & Hl & _ & Hd & _).
  - exists s', l'. split; [exact Hr|]. split; [exact Hl|]. rewrite Hd. vm_compute. reflexivity.
  - split; [constructor|cbn; lia].
  - repeat (constructor; [try done; unfold valid_timer_op, is_u32; lia|]). constructor.
Defined.

Lemma fetch_fires_in_order_witness : ∃ m s',
  tls_timeouts_mbox_fetch_p 4 1 1 (sim_start [mk_timeo 6 1 9; mk_timeo 0 2 8; mk_timeo 50 3 0] 4 (after 10))
    = Some (Some m, s') ∧ fired s' = [(1, 9, 1003); (2, 8, 1003)] ∧
  fetched 1 [mk_timeo 6 1 9; mk_timeo 0 2 8; mk_timeo 50 3 0]
    (sim_start [mk_timeo 6 1 9; mk_timeo 0 2 8; mk_timeo 50 3 0] 4 (after 10)) s'.
Proof.
  pose proof (fetch_fires_in_order 4 1 1
    (sim_start [mk_timeo 6 1 9; mk_timeo 0 2 8; mk_timeo 50 3 0] 4 (after 10))
    [mk_timeo 6 1 9; mk_timeo 0 2 8; mk_timeo 50 3 0] sim_calls_ok sim_messages_come eq_refl) as H.
  unfold wp in H.
  destruct (tls_timeouts_mbox_fetch_p 4 1 1 _) as [[m s']|] eqn:E; vm_compute in E; [|done].
  injection E as <- <-. destruct H as (_ & Hfe).
  - split; [repeat constructor; cbn; lia|cbn; lia].
  - repeat constructor; cbn; lia.
  - cbn; lia.
  - do 2 eexists. split; [reflexivity|]. split; [reflexivity|exact Hfe].
Defined.

Lemma long_timeout_early_witness : ∃ m s' tick,
  tls_timeouts_mbox_fetch_p 2 1 1 (sim_start [mk_timeo 8589935 1 9] 4 (after 10)) = Some (m, s') ∧
  fired s' = [(1, 9, tick)] ∧ tick = 1001.
Proof.
  pose proof (long_timeout_early 1 1 (sim_start [mk_timeo 8589935 1 9] 4 (after 10)) 8589935 1 9
    (mk_sim 1001 [] 4 (λ k, match k with O => (9, TASK_MSG_CALLBACK 7 0) | S _ => after 10 k end))
    sim_calls_ok sim_messages_come) as H.
  unfold wp in H.
  destruct (tls_timeouts_mbox_fetch_p 2 1 1 _) as [[m s']|] eqn:E; vm_compute in E; [|done].
  injection E as <- <-. destruct H as (tick & Hf & _); [lia|lia|reflexivity|reflexivity|reflexivity|].
  do 3 eexists. split; [reflexivity|]. split; [exact Hf|]. cbn in Hf. by injection Hf.
Defined.

Lemma static_msg_lost_witness : ∃ s',
  tls_wl_task_callback_static (mk_task 10 0 1) 5 6 true 3 (sim_start [] 0 (after 10)) =
    Some (TLS_OS_SUCCESS, s') ∧
  tls_wl_task_callback_static (mk_task 10 0 1) 5 6 false 3 s' = Some (TLS_OS_ERROR, s').
Proof.
  assert (refuses (λ w, sim_queue w = [] ∧ sim_room w = O) 1 (TASK_MSG_CALLBACK_STATIC 3)) as Hf.
  { intros w [Hq Hr]. unfold wp. cbn. rewrite Hq, Hr. done. }
  pose proof (static_msg_lost _ (mk_task 10 0 1) 1 5 6 3 (sim_start [] 0 (after 10))
    (mk_static 0 0 0) eq_refl ltac:(lia) eq_refl eq_refl Hf (conj eq_refl eq_refl)) as H.
  destruct (proj1 (wp_total _ _ _) H) as (r & s' & Hr & Hs & _ & Hd).
  exists s'. rewrite <- Hs. split; [exact Hr|]. apply Hd.
Defined.
