(* ===== verification/HwTimers.v ===== *)
(** * [src/Platform/Drivers/timer/wm_timer.c]: the six hardware timers

    Who owns a timer, how it is set up, and what its interrupt calls.  Timer 0
    is kept for delays; the others are handed out. *)
From S2P Require Import Prelude.
From stdpp Require Import gmap.
#[local] Open Scope Z_scope.

Definition TLS_TIMER_ID_1 := 1.
Definition TLS_TIMER_ID_MAX := 6.
Definition WM_TIMER_ID_INVALID := 0xFF.
Definition TIM0_USED_BY_DELAY := 0.
Definition TLS_TIMER_UNIT_US := 0.
Definition TLS_TIMER_UNIT_MS := 1.
Definition TIMER_US_UNIT_FLAG := 0.
Definition TIMER_MS_UNIT_FLAG := 1.
Definition TIMER0_INT := 26.
Definition W600_PLL_CLK_MHZ := 160.

(** The registers the driver uses; [HR_TIMER_PRD i] is [HR_TIMER0_PRD + 4 * i]. *)
Inductive treg := HR_CLK_DIV_CTL | HR_TIMER_CFG | HR_TIMER0_5_CSR | HR_TIMER_PRD (i : Z).
Class TimerRegs (R : Type) := {
  treg_rd : treg → R → Z * R;
  treg_wr : treg → Z → R → R;
}.

Definition TLS_TIMER_MS_UNIT (n : Z) : Z := Z.shiftl 1 (0 + 5 * n).
Definition TLS_TIMER_ONE_TIME (n : Z) : Z := Z.shiftl 1 (1 + 5 * n).
Definition TLS_TIMER_EN (n : Z) : Z := Z.shiftl 1 (2 + 5 * n).
Definition TLS_TIMER_INT_EN (n : Z) : Z := Z.shiftl 1 (3 + 5 * n).
Definition TLS_TIMER_INT_CLR (n : Z) : Z := Z.shiftl 1 (4 + 5 * n).

Record timer_irq_context := mk_tctx { tc_callback : option Z; tc_arg : Z }.
Record tls_timer_cfg := mk_tcfg {
  t_unit : Z;
  t_timeout : Z;
  t_is_repeat : bool;
  t_callback : option Z;
  t_arg : Z;
}.
Record hwtimers (R U : Type) := mk_hwt {
  timer_context : list timer_irq_context;
  wm_timer_bitmap : Z;
  tregs : R;
  tuser : U; (* what the callbacks work on *)
}.
Arguments mk_hwt {R U}.
Arguments timer_context {R U}.
Arguments wm_timer_bitmap {R U}.
Arguments tregs {R U}.
Arguments tuser {R U}.
Section setters.
Context {R U : Type}.
Implicit Type s : hwtimers R U.
Definition set_timer_context x s := mk_hwt x (wm_timer_bitmap s) (tregs s) (tuser s).
Definition set_wm_timer_bitmap x s := mk_hwt (timer_context s) x (tregs s) (tuser s).
Definition set_tregs (x : R) s := mk_hwt (timer_context s) (wm_timer_bitmap s) x (tuser s).
Definition set_tuser (x : U) s := mk_hwt (timer_context s) (wm_timer_bitmap s) (tregs s) x.
End setters.

(** The callbacks, the interrupt controller, and the looks at the register that
    a delay takes before it counts as one that does not return. *)
Class TimerEnv (R U : Type) := {
  call_timer : Z → Z → M (hwtimers R U) unit;
  tls_irq_enable : Z → M (hwtimers R U) unit;
  tls_irq_disable : Z → M (hwtimers R U) unit;
  timer_polls : nat;
}.

Section driver.
Context {R U : Type} `{!TimerRegs R, !TimerEnv R U}.
Local Notation C A := (M (hwtimers R U) A).
Local Open Scope c_scope.

Definition rd (g : treg) : C Z :=
  let* s := get in modify (set_tregs (treg_rd g (tregs s)).2) ;; ret (treg_rd g (tregs s)).1.
Definition wr (g : treg) (v : Z) : C unit := modify (λ s, set_tregs (treg_wr g v (tregs s)) s).

(** [BIT(x)]: a shift by the width of the word or more is undefined. *)
Definition BIT (x : Z) : C Z := if x <? 32 then ret (Z.shiftl 1 x) else stuck.
(** [sysclk.apbclk] of [tls_sys_clk_get]. *)
Definition apbclk : C Z :=
  let* value := rd HR_CLK_DIV_CTL in
  let div := Z.land (Z.shiftr value 4) 0x0F in
  if div =? 0 then stuck else ret (W600_PLL_CLK_MHZ / 4 / div).

Definition timer_clear_irq (timer_id : Z) : C unit :=
  let* v := rd HR_TIMER0_5_CSR in
  wr HR_TIMER0_5_CSR (Z.lor v (TLS_TIMER_INT_CLR timer_id)).
Definition context (i : Z) : C timer_irq_context := λ s, of_opt (timer_context s !! Z.to_nat i) s.
Definition set_context (i : Z) (c : timer_irq_context) : C unit :=
  modify (λ s, set_timer_context (<[Z.to_nat i := c]> (timer_context s)) s).
Definition timer_irq_callback (timer_id : Z) : C unit :=
  timer_clear_irq timer_id ;;
  let* c := context timer_id in
  match tc_callback c with Some f => call_timer f (tc_arg c) | None => ret tt end.
Definition TIM0_IRQHandler : C unit := timer_irq_callback 0.
Definition TIM1_IRQHandler : C unit := timer_irq_callback 1.
Definition TIM2_IRQHandler : C unit := timer_irq_callback 2.
Definition TIM3_IRQHandler : C unit := timer_irq_callback 3.
Definition TIM4_IRQHandler : C unit := timer_irq_callback 4.
Definition TIM5_IRQHandler : C unit := timer_irq_callback 5.

(** The first timer from [i] on whose bit is clear, within [k]. *)
Fixpoint free_timer (k : nat) (i : Z) : C Z :=
  match k with
  | O => ret i
  | S k =>
      let* map := gets wm_timer_bitmap in
      let* b := BIT i in
      if truth (Z.land map b) then free_timer k (i + 1) else ret i
  end.
Definition tls_timer_create (cfg : tls_timer_cfg) : C Z :=
  let* i := free_timer (Z.to_nat (TLS_TIMER_ID_MAX - TLS_TIMER_ID_1)) TLS_TIMER_ID_1 in
  if TLS_TIMER_ID_MAX =? i then ret WM_TIMER_ID_INVALID
  else
    let* b := BIT i in
    modify (λ s, set_wm_timer_bitmap (u8 (Z.lor (wm_timer_bitmap s) b)) s) ;;
    set_context i (mk_tctx (t_callback cfg) (t_arg cfg)) ;;
    let* clk := apbclk in
    wr HR_TIMER_CFG (u32 (clk - 1)) ;;
    let* csr := rd HR_TIMER0_5_CSR in
    let csr := if t_is_repeat cfg then Z.land csr (Z.lnot (TLS_TIMER_ONE_TIME i)) else Z.lor csr (TLS_TIMER_ONE_TIME i) in
    let csr := if TLS_TIMER_UNIT_MS =? t_unit cfg then Z.lor csr (TLS_TIMER_MS_UNIT i) else Z.land csr (Z.lnot (TLS_TIMER_MS_UNIT i)) in
    wr HR_TIMER0_5_CSR (Z.lor csr (TLS_TIMER_INT_CLR i)) ;;
    (if truth (t_timeout cfg) then wr (HR_TIMER_PRD i) (t_timeout cfg) else ret tt) ;;
    tls_irq_enable (TIMER0_INT + i) ;;
    ret i.

(** The guard of the operations below. *)
Definition created (timer_id : Z) : C bool :=
  let* map := gets wm_timer_bitmap in
  let* b := BIT timer_id in
  ret (truth (Z.land map b)).
Definition tls_timer_start (timer_id : Z) : C unit :=
  let* ok := created timer_id in
  if negb ok then ret tt
  else
    let* v := rd HR_TIMER0_5_CSR in
    wr HR_TIMER0_5_CSR (Z.lor (Z.lor v (TLS_TIMER_INT_EN timer_id)) (TLS_TIMER_EN timer_id)).
Definition tls_timer_stop (timer_id : Z) : C unit :=
  let* ok := created timer_id in
  if negb ok then ret tt
  else
    let* v := rd HR_TIMER0_5_CSR in
    wr HR_TIMER0_5_CSR (Z.lor v (TLS_TIMER_INT_CLR timer_id)) ;;
    let* v := rd HR_TIMER0_5_CSR in
    wr HR_TIMER0_5_CSR (Z.land v (Z.lnot (TLS_TIMER_EN timer_id))).
Definition tls_timer_change (timer_id newtime : Z) : C unit :=
  let* ok := created timer_id in
  if negb ok then ret tt
  else
    tls_timer_stop timer_id ;;
    (if truth newtime then wr (HR_TIMER_PRD timer_id) newtime else ret tt) ;;
    tls_timer_start timer_id.
Definition tls_timer_destroy (timer_id : Z) : C unit :=
  let* ok := created timer_id in
  if negb ok then ret tt
  else
    tls_timer_stop timer_id ;;
    set_context timer_id (mk_tctx None 0) ;;
    let* b := BIT timer_id in
    modify (λ s, set_wm_timer_bitmap (Z.land (wm_timer_bitmap s) (Z.lnot b)) s).

Fixpoint wait_timer (k : nat) : C unit :=
  match k with
  | O => stuck
  | S k =>
      let* v := rd HR_TIMER0_5_CSR in
      if truth (Z.land v (TLS_TIMER_INT_CLR TIM0_USED_BY_DELAY)) then ret tt else wait_timer k
  end.
Definition tls_delay_via_timer (timeout m_flag : Z) : C Z :=
  if 0 =? timeout then ret 0
  else
    tls_irq_disable (TIMER0_INT + TIM0_USED_BY_DELAY) ;;
    wr (HR_TIMER_PRD TIM0_USED_BY_DELAY) timeout ;;
    let* clk := apbclk in
    wr HR_TIMER_CFG (u32 (clk - 1)) ;;
    let* csr := rd HR_TIMER0_5_CSR in
    let csr :=
      if TIMER_MS_UNIT_FLAG =? m_flag then Z.lor csr (TLS_TIMER_MS_UNIT TIM0_USED_BY_DELAY)
      else if TIMER_US_UNIT_FLAG =? m_flag then Z.land csr (Z.lnot (TLS_TIMER_MS_UNIT TIM0_USED_BY_DELAY))
      else csr in
    let csr := foldl Z.lor csr [TLS_TIMER_ONE_TIME TIM0_USED_BY_DELAY; TLS_TIMER_INT_CLR TIM0_USED_BY_DELAY;
      TLS_TIMER_INT_EN TIM0_USED_BY_DELAY; TLS_TIMER_EN TIM0_USED_BY_DELAY] in
    wr HR_TIMER0_5_CSR csr ;;
    wait_timer timer_polls ;;
    wr HR_TIMER0_5_CSR (Z.lor csr (TLS_TIMER_INT_CLR TIM0_USED_BY_DELAY)) ;;
    tls_irq_enable (TIMER0_INT + TIM0_USED_BY_DELAY) ;;
    ret 0.
End driver.

(** * What the driver promises *)

(** The control register: the four control bits of a timer read as they were
    written; the fifth is the timer's pending interrupt, which a written one
    clears.  Timers may run out at any read, timer 0 when it has been looked at
    [t_left] times. *)
Class TimerRegsOk (R : Type) `{!TimerRegs R} := {
  t_ctl : R → Z → Z → bool;
  t_pend : R → Z → bool;
  t_prd : R → Z → Z;
  t_left : R → nat;
  rd_csr_ctl r i k : 0 <= i < 6 → 0 <= k < 4 → let '(v, r') := treg_rd HR_TIMER0_5_CSR r in
    Z.testbit v (k + 5 * i) = t_ctl r i k ∧ t_ctl r' i k = t_ctl r i k;
  rd_csr_pend r i : 0 <= i < 6 → let '(v, r') := treg_rd HR_TIMER0_5_CSR r in
    Z.testbit v (4 + 5 * i) = t_pend r' i ∧ (t_pend r i = true → t_pend r' i = true);
  rd_csr_prd r i : t_prd (treg_rd HR_TIMER0_5_CSR r).2 i = t_prd r i;
  rd_csr_due r : let r' := (treg_rd HR_TIMER0_5_CSR r).2 in
    t_ctl r 0 2 = true → t_pend r' 0 = true ∨ (t_left r' < t_left r)%nat;
  rd_clk r : let '(v, r') := treg_rd HR_CLK_DIV_CTL r in
    Z.land (Z.shiftr v 4) 0x0F ≠ 0 ∧ t_ctl r' = t_ctl r ∧ t_pend r' = t_pend r ∧ t_prd r' = t_prd r;
  wr_csr_ctl v r i k : 0 <= i < 6 → 0 <= k < 4 → t_ctl (treg_wr HR_TIMER0_5_CSR v r) i k = Z.testbit v (k + 5 * i);
  wr_csr_pend v r i : 0 <= i < 6 → t_pend (treg_wr HR_TIMER0_5_CSR v r) i = t_pend r i && negb (Z.testbit v (4 + 5 * i));
  wr_csr_prd v r i : t_prd (treg_wr HR_TIMER0_5_CSR v r) i = t_prd r i;
  wr_prd i v r j : let r' := treg_wr (HR_TIMER_PRD i) v r in
    t_ctl r' = t_ctl r ∧ t_pend r' = t_pend r ∧ t_prd r' j = if j =? i then v else t_prd r j;
  wr_cfg v r : let r' := treg_wr HR_TIMER_CFG v r in t_ctl r' = t_ctl r ∧ t_pend r' = t_pend r ∧ t_prd r' = t_prd r;
}.

(** A callback is noted and leaves the timers alone; a delay looks long enough. *)
Class TimerEnvOk (R U : Type) `{!TimerRegs R, !TimerRegsOk R, !TimerEnv R U} := {
  t_calls : U → list (Z * Z);
  call_timer_ok f a (s : hwtimers R U) : wp (call_timer f a) (λ _ s', ∃ u, s' = set_tuser u s ∧ t_calls u = t_calls (tuser s) ++ [(f, a)]) s;
  irq_enable_ok n (s : hwtimers R U) : wp (tls_irq_enable n) (λ _ s', s' = s) s;
  irq_disable_ok n (s : hwtimers R U) : wp (tls_irq_disable n) (λ _ s', s' = s) s;
  polls_enough (r : R) : (t_left r < timer_polls)%nat;
}.

(** ** The specification: who owns which timer *)

Record owner := mk_owner { o_cfg : tls_timer_cfg; o_running : bool; o_period : option Z }.
Definition run_owner b o := mk_owner (o_cfg o) b (o_period o).
Definition period_owner t o := mk_owner (o_cfg o) (o_running o) (if t =? 0 then o_period o else Some t).

Inductive tcall :=
  | Create (cfg : tls_timer_cfg)
  | Start (i : Z)
  | Stop (i : Z)
  | Change (i t : Z)
  | Destroy (i : Z)
  | Delay (t flag : Z)
  | Interrupt (i : Z).
(** The first timer nobody owns, 6 if there is none. *)
Fixpoint free_from (k : nat) (i : Z) (m : gmap Z owner) : Z :=
  match k with O => i | S k => match m !! i with None => i | Some _ => free_from k (i + 1) m end end.
(** The owners after a call, its answer and the callback it makes. *)
Definition spec_call (c : tcall) (m : gmap Z owner) : gmap Z owner * Z * list (Z * Z) :=
  match c with
  | Create cfg =>
      let i := free_from 5 1 m in
      if i =? 6 then (m, WM_TIMER_ID_INVALID, [])
      else (<[i := mk_owner cfg false (if t_timeout cfg =? 0 then None else Some (t_timeout cfg))]> m, i, [])
  | Start i => (alter (run_owner true) i m, 0, [])
  | Stop i => (alter (run_owner false) i m, 0, [])
  | Change i t => (alter (λ o, run_owner true (period_owner t o)) i m, 0, [])
  | Destroy i => (delete i m, 0, [])
  | Delay _ _ => (m, 0, [])
  | Interrupt i => (m, 0, match m !! i with Some o => match t_callback (o_cfg o) with Some f => [(f, t_arg (o_cfg o))] | None => [] end | None => [] end)
  end.
Fixpoint spec_calls (cs : list tcall) (m : gmap Z owner) : gmap Z owner * list Z * list (Z * Z) :=
  match cs with
  | [] => (m, [], [])
  | c :: cs => let '(m1, a, l) := spec_call c m in let '(m2, rs, l2) := spec_calls cs m1 in (m2, a :: rs, l ++ l2)
  end.
(** A number of a timer is below the width of a word; an interrupt is of one of
    the six. *)
Definition valid_call (c : tcall) : Prop :=
  match c with
  | Create _ | Delay _ _ => True
  | Start i | Stop i | Change i _ | Destroy i => 0 <= i < 32
  | Interrupt i => 0 <= i < 6
  end.

Section spec.
Context {R U : Type} `{!TimerRegs R, !TimerRegsOk R, !TimerEnv R U, !TimerEnvOk R U}.
Local Abbreviation St := (hwtimers R U).
Implicit Types (s : St) (r : R) (m : gmap Z owner).

Definition do_call (c : tcall) : M St Z :=
  match c with
  | Create cfg => tls_timer_create cfg
  | Start i => tls_timer_start i ;; ret 0
  | Stop i => tls_timer_stop i ;; ret 0
  | Change i t => tls_timer_change i t ;; ret 0
  | Destroy i => tls_timer_destroy i ;; ret 0
  | Delay t flag => tls_delay_via_timer t flag
  | Interrupt i => timer_irq_callback i ;; ret 0
  end%C.
Fixpoint do_calls (cs : list tcall) : M St (list Z) :=
  (match cs with
   | [] => ret []
   | c :: cs => let* a := do_call c in let* rs := do_calls cs in ret (a :: rs)
   end)%C.

(** The state of timer [i] for its owner. *)
Definition owns i (o : option owner) s : Prop :=
  let r := tregs s in
  match o with
  | None => Z.testbit (wm_timer_bitmap s) i = false ∧ timer_context s !! Z.to_nat i = Some (mk_tctx None 0)
  | Some o =>
      Z.testbit (wm_timer_bitmap s) i = true ∧
      timer_context s !! Z.to_nat i = Some (mk_tctx (t_callback (o_cfg o)) (t_arg (o_cfg o))) ∧
      t_ctl r i 0 = (TLS_TIMER_UNIT_MS =? t_unit (o_cfg o)) ∧ t_ctl r i 1 = negb (t_is_repeat (o_cfg o)) ∧
      (o_running o = true → t_ctl r i 3 = true) ∧
      (∀ p, o_period o = Some p → t_prd r i = p)
  end ∧ t_ctl r i 2 = default false (o_running <$> o).
Definition rep m s : Prop :=
  length (timer_context s) = 6%nat ∧ 0 <= wm_timer_bitmap s < 64 ∧
  (∀ i, 1 <= i < 6 → owns i (m !! i) s) ∧
  (∀ i, ¬ 1 <= i < 6 → m !! i = None) ∧
  Z.testbit (wm_timer_bitmap s) 0 = false ∧ timer_context s !! 0%nat = Some (mk_tctx None 0).

(** ** Bits *)

Lemma bit_index i j k b : 0 <= k < 5 → 0 <= b < 5 → (k + 5 * i =? b + 5 * j) = (k =? b) && (i =? j).
Proof. intros Hk Hb. destruct (Z.eqb_spec k b), (Z.eqb_spec i j); cbn [andb]; lia. Qed.
Ltac csr_bits := repeat first [rewrite Z.lor_spec | rewrite Z.land_spec | rewrite Z.lnot_spec by lia];
  unfold TLS_TIMER_MS_UNIT, TLS_TIMER_ONE_TIME, TLS_TIMER_EN, TLS_TIMER_INT_EN, TLS_TIMER_INT_CLR;
  rewrite ?testbit_one by lia; rewrite ?bit_index by lia.

(** What the writes make of the bits. *)
Definition start_csr i v := Z.lor (Z.lor v (TLS_TIMER_INT_EN i)) (TLS_TIMER_EN i).
Definition clear_csr i v := Z.lor v (TLS_TIMER_INT_CLR i).
Definition stop_csr i v := Z.land v (Z.lnot (TLS_TIMER_EN i)).
Lemma start_bits i v j k : 1 <= i < 6 → 0 <= j < 6 → 0 <= k < 5 →
  Z.testbit (start_csr i v) (k + 5 * j) = Z.testbit v (k + 5 * j) || ((j =? i) && ((k =? 3) || (k =? 2))).
Proof. intros Hi Hj Hk. unfold start_csr. csr_bits. by destruct (Z.testbit v _), (k =? 3), (k =? 2), (j =? i). Qed.
Lemma clear_bits i v j k : 0 <= i < 6 → 0 <= j < 6 → 0 <= k < 5 →
  Z.testbit (clear_csr i v) (k + 5 * j) = Z.testbit v (k + 5 * j) || ((k =? 4) && (j =? i)).
Proof. intros Hi Hj Hk. unfold clear_csr. by csr_bits. Qed.
Lemma stop_bits i v j k : 1 <= i < 6 → 0 <= j < 6 → 0 <= k < 5 →
  Z.testbit (stop_csr i v) (k + 5 * j) = Z.testbit v (k + 5 * j) && negb ((k =? 2) && (j =? i)).
Proof. intros Hi Hj Hk. unfold stop_csr. by csr_bits. Qed.

(** The control register is read, changed by [f], and written back. *)
Definition csr_set (g : Z → Z → bool → bool) r r' : Prop :=
  (∀ i k, 0 <= i < 6 → 0 <= k < 4 → t_ctl r' i k = g i k (t_ctl r i k)) ∧ ∀ i, t_prd r' i = t_prd r i.
Lemma csr_at g r r' i : csr_set g r r' → 0 <= i < 6 → t_ctl r' i 0 = g i 0 (t_ctl r i 0) ∧ t_ctl r' i 1 = g i 1 (t_ctl r i 1) ∧
  t_ctl r' i 2 = g i 2 (t_ctl r i 2) ∧ t_ctl r' i 3 = g i 3 (t_ctl r i 3) ∧ t_prd r' i = t_prd r i.
Proof. intros [Hc Hp] Hi. repeat (split; [apply Hc; lia|]). apply Hp. Qed.
Definition none_pending r : Prop := ∀ i, 0 <= i < 6 → t_pend r i = false.
Lemma wp_rd_csr (Q : Z → St → Prop) s :
  (∀ v r, csr_set (λ _ _ b, b) (tregs s) r → (∀ i k, 0 <= i < 6 → 0 <= k < 4 → Z.testbit v (k + 5 * i) = t_ctl (tregs s) i k) →
     (∀ i, 0 <= i < 6 → Z.testbit v (4 + 5 * i) = t_pend r i) → (t_ctl (tregs s) 0 2 = true → t_pend r 0 = true ∨ (t_left r < t_left (tregs s))%nat) →
     Q v (set_tregs r s)) → wp (rd HR_TIMER0_5_CSR) Q s.
Proof.
  intros HQ. unfold rd. wp_steps. pose proof (rd_csr_ctl (tregs s)) as H1. pose proof (rd_csr_pend (tregs s)) as H2.
  pose proof (rd_csr_prd (tregs s)) as H3. pose proof (rd_csr_due (tregs s)) as H4.
  destruct (treg_rd HR_TIMER0_5_CSR (tregs s)) as [v r]. cbn in *. apply HQ.
  - split; [|done]. intros i k Hi Hk. by apply H1.
  - intros i k Hi Hk. by apply H1.
  - intros i Hi. by apply H2.
  - done.
Qed.
Lemma wp_csr (f : Z → Z) g (Q : unit → St → Prop) s :
  (∀ v i k, 0 <= i < 6 → 0 <= k < 4 → Z.testbit (f v) (k + 5 * i) = g i k (Z.testbit v (k + 5 * i))) →
  (∀ v i, 0 <= i < 6 → Z.testbit v (4 + 5 * i) = true → Z.testbit (f v) (4 + 5 * i) = true) →
  (∀ r, csr_set g (tregs s) r → none_pending r → Q tt (set_tregs r s)) →
  wp (bind (rd HR_TIMER0_5_CSR) (λ v, wr HR_TIMER0_5_CSR (f v))) Q s.
Proof.
  intros Hg Hp HQ. apply wp_bind, wp_rd_csr. intros v r [Hc Hprd] Hv Hpend _. unfold wr. wp_step.
  change (set_tregs _ (set_tregs r s)) with (set_tregs (treg_wr HR_TIMER0_5_CSR (f v) r) s). apply HQ.
  - split; [|intros i; by rewrite wr_csr_prd]. intros i k Hi Hk. by rewrite wr_csr_ctl, Hg, Hv.
  - intros i Hi. rewrite wr_csr_pend by done. destruct (t_pend r i) eqn:E; [|done]. rewrite Hp; [done|done|]. by rewrite Hpend.
Qed.

Lemma wp_csr_then {A} (f : Z → Z) g (k : unit → M St A) (Q : A → St → Prop) s :
  (∀ v i k, 0 <= i < 6 → 0 <= k < 4 → Z.testbit (f v) (k + 5 * i) = g i k (Z.testbit v (k + 5 * i))) →
  (∀ v i, 0 <= i < 6 → Z.testbit v (4 + 5 * i) = true → Z.testbit (f v) (4 + 5 * i) = true) →
  (∀ r, csr_set g (tregs s) r → none_pending r → wp (k tt) Q (set_tregs r s)) →
  wp (bind (rd HR_TIMER0_5_CSR) (λ v, bind (wr HR_TIMER0_5_CSR (f v)) k)) Q s.
Proof.
  intros Hg Hp HQ. apply (wp_same _ (bind (bind (rd HR_TIMER0_5_CSR) (λ v, wr HR_TIMER0_5_CSR (f v))) k) _ s s); [done|].
  apply wp_bind, (wp_csr f g); [done|done|exact HQ].
Qed.

(** ** The owners of the other timers *)

(** Timer [i] apart, nothing has changed for an owner. *)
Definition others i s s' : Prop :=
  length (timer_context s') = length (timer_context s) ∧
  (∀ j, 0 <= j < 6 → j ≠ i → Z.testbit (wm_timer_bitmap s') j = Z.testbit (wm_timer_bitmap s) j ∧
     timer_context s' !! Z.to_nat j = timer_context s !! Z.to_nat j ∧ t_prd (tregs s') j = t_prd (tregs s) j ∧
     ∀ k, 0 <= k < 4 → t_ctl (tregs s') j k = t_ctl (tregs s) j k).
Lemma owns_others i j o s s' : others i s s' → 0 <= j < 6 → j ≠ i → owns j o s → owns j o s'.
Proof.
  intros [_ Ho] Hj Hne Hs. destruct (Ho j Hj Hne) as (Hb & Hc & Hp & Hk). unfold owns in *.
  rewrite Hb, Hc, Hp, !Hk by lia. exact Hs.
Qed.
Lemma rep_update m i o s s' : rep m s → 1 <= i < 6 → others i s s' → 0 <= wm_timer_bitmap s' < 64 → owns i o s' →
  rep (partial_alter (λ _, o) i m) s'.
Proof.
  intros (Hl & Hr & Hm & Hn & H0 & Hc0) Hi Ho Hr' Hoi. pose proof Ho as [Hl' Ho']. split; [congruence|]. split; [done|].
  split; [|split].
  - intros j Hj. destruct (decide (j = i)) as [->|Hne]; [by rewrite lookup_partial_alter_eq|].
    rewrite lookup_partial_alter_ne by done. apply (owns_others i j _ s); [done|lia|done|by apply Hm].
  - intros j Hj. rewrite lookup_partial_alter_ne by (intros ->; lia). by apply Hn.
  - destruct (Ho' 0 ltac:(lia) ltac:(lia)) as (-> & Hc & _). split; [done|]. by rewrite <- Hc0.
Qed.
Lemma csr_others i g s r : csr_set g (tregs s) r → (∀ j k b, j ≠ i → g j k b = b) → others i s (set_tregs r s).
Proof.
  intros [Hc Hp] Hg. split; [done|]. intros j Hj Hne. split; [done|]. split; [done|]. split; [apply Hp|]. intros k Hk.
  change (tregs (set_tregs r s)) with r. by rewrite Hc, Hg.
Qed.
Lemma others_trans i s1 s2 s3 : others i s1 s2 → others i s2 s3 → others i s1 s3.
Proof.
  intros [Hl1 H1] [Hl2 H2]. split; [congruence|]. intros j Hj Hne. destruct (H1 j Hj Hne) as (A1 & B1 & C1 & D1), (H2 j Hj Hne) as (A2 & B2 & C2 & D2).
  split; [congruence|]. split; [congruence|]. split; [congruence|]. intros k Hk. by rewrite D2, D1.
Qed.
Lemma rep_bits m s i : rep m s → 0 <= i → Z.testbit (wm_timer_bitmap s) i = bool_decide (is_Some (m !! i)).
Proof.
  intros (_ & Hr & Hm & Hn & H0 & _) Hi. destruct (decide (1 <= i < 6)) as [Hin|Hout].
  - pose proof (Hm i Hin) as Ho. destruct (m !! i) as [o|]; destruct Ho as [Ho _].
    + rewrite bool_decide_eq_true_2 by eauto. apply Ho.
    + rewrite bool_decide_eq_false_2 by (intros [? ?]; done). apply Ho.
  - rewrite (Hn i Hout), bool_decide_eq_false_2 by (intros [? ?]; done). destruct (decide (i = 0)) as [->|]; [done|].
    destruct (Z.eq_dec (wm_timer_bitmap s) 0) as [->|Hb]; [apply Z.bits_0|]. apply Z.bits_above_log2; [lia|].
    apply Z.log2_lt_pow2; [lia|]. assert (2 ^ 6 <= 2 ^ i) by (apply Z.pow_le_mono_r; lia). change (2 ^ 6) with 64 in *. lia.
Qed.
Lemma wp_created m i s (Q : bool → St → Prop) : rep m s → 0 <= i < 32 → Q (bool_decide (is_Some (m !! i))) s → wp (created i) Q s.
Proof.
  intros Hrep Hi HQ. unfold created, BIT. wp_steps. replace (i <? 32) with true by lia. wp_steps. rewrite truth_bit by lia.
  by rewrite (rep_bits m s) by (done || lia).
Qed.

(** ** The operations *)

Lemma alter_none (f : owner → owner) i m : m !! i = None → alter f i m = m.
Proof. intros Hi. apply map_eq. intros j. destruct (decide (j = i)) as [->|]; [by rewrite lookup_alter_eq, Hi|by rewrite lookup_alter_ne]. Qed.
Lemma alter_some (f : owner → owner) i o m : m !! i = Some o → alter f i m = partial_alter (λ _, Some (f o)) i m.
Proof.
  intros Hi. apply map_eq. intros j. destruct (decide (j = i)) as [->|].
  - by rewrite lookup_alter_eq, Hi, lookup_partial_alter_eq.
  - by rewrite lookup_alter_ne, lookup_partial_alter_ne.
Qed.
Lemma owned_range m i o s : rep m s → m !! i = Some o → 1 <= i < 6.
Proof. intros (_ & _ & _ & Hn & _) Hi. destruct (decide (1 <= i < 6)); [done|]. by rewrite Hn in Hi. Qed.
Lemma rep_owner m i o s : rep m s → m !! i = Some o → owns i (Some o) s.
Proof. intros Hrep Hi. pose proof (owned_range _ _ _ _ Hrep Hi). rewrite <- Hi. by apply Hrep. Qed.

(** What an operation on an owned timer [i] makes of the state. *)
Definition changed i f m s s' : Prop :=
  match m !! i with
  | Some o => rep (partial_alter (λ _, Some (f o)) i m) s' ∧ tuser s' = tuser s ∧ none_pending (tregs s')
  | None => s' = s
  end.
Lemma changed_rep i f m s s' : rep m s → changed i f m s s' →
  rep (alter f i m) s' ∧ tuser s' = tuser s ∧ (is_Some (m !! i) → none_pending (tregs s')).
Proof.
  intros Hrep. unfold changed. destruct (m !! i) as [o|] eqn:E.
  - intros (Hr & Hu & Hp). by rewrite (alter_some f i o).
  - intros ->. rewrite alter_none by done. split; [done|]. split; [done|]. by intros [? ?].
Qed.
Lemma wp_guarded m i f s (op : M St unit) : rep m s → 0 <= i < 32 →
  (∀ o, m !! i = Some o → 1 <= i < 6 → wp op (λ _ s', rep (partial_alter (λ _, Some (f o)) i m) s' ∧ tuser s' = tuser s ∧ none_pending (tregs s')) s) →
  wp (bind (created i) (λ ok, if negb ok then ret tt else op)) (λ _ s', changed i f m s s') s.
Proof.
  intros Hrep Hi Hop. apply wp_bind, (wp_created m); [done|done|]. unfold changed. destruct (m !! i) as [o|] eqn:E.
  - rewrite bool_decide_eq_true_2 by eauto. cbn [negb]. apply Hop; [done|by eapply owned_range].
  - rewrite bool_decide_eq_false_2 by (intros [? ?]; done). by apply wp_ret.
Qed.

Lemma wp_start m i s : rep m s → 0 <= i < 32 → wp (tls_timer_start i) (λ _ s', changed i (run_owner true) m s s') s.
Proof.
  intros Hrep Hi. apply wp_guarded; [done|done|]. clear Hi. intros o Ho Hin.
  apply (wp_csr (start_csr i) (λ j k b, b || ((j =? i) && ((k =? 3) || (k =? 2))))).
  - intros v j k Hj Hk. apply start_bits; lia.
  - intros v j Hj Hv. by rewrite start_bits, Hv by lia.
  - intros r Hset Hp. split; [|done]. apply (rep_update m i _ s); [done|done|..].
    + eapply csr_others; [exact Hset|]. intros j k b Hne%Z.eqb_neq. cbv beta. by rewrite Hne, orb_false_r.
    + apply Hrep.
    + destruct (csr_at _ _ _ i Hset ltac:(lia)) as (C0 & C1 & C2 & C3 & Cp). cbv beta in C0, C1, C2, C3. rewrite Z.eqb_refl in C0, C1, C2, C3.
      pose proof (rep_owner _ _ _ _ Hrep Ho) as [(Hb & Hc & Hms & Hone & Hie & Hprd) Hen].
      unfold owns. cbn [tregs set_tregs timer_context wm_timer_bitmap run_owner o_cfg o_running o_period].
      rewrite C0, C1, C2, C3, Cp, Hms, Hone. cbn [andb orb Z.eqb Pos.eqb]. by rewrite !orb_false_r, !orb_true_r.
Qed.
Lemma wp_stop m i s : rep m s → 0 <= i < 32 → wp (tls_timer_stop i) (λ _ s', changed i (run_owner false) m s s') s.
Proof.
  intros Hrep Hi. apply wp_guarded; [done|done|]. clear Hi. intros o Ho Hin.
  apply (wp_csr_then (clear_csr i) (λ _ k b, b || ((k =? 4) && false))).
  { intros v j k Hj Hk. rewrite clear_bits by lia. by replace (k =? 4) with false by lia. }
  { intros v j Hj Hv. by rewrite clear_bits, Hv by lia. }
  intros r1 Hset1 _. apply (wp_csr (stop_csr i) (λ j k b, b && negb ((k =? 2) && (j =? i)))).
  - intros v j k Hj Hk. apply stop_bits; lia.
  - intros v j Hj Hv. by rewrite stop_bits, Hv by lia.
  - intros r Hset Hp. change (set_tregs r (set_tregs r1 s)) with (set_tregs r s). change (tregs (set_tregs r1 s)) with r1 in Hset.
    assert (csr_set (λ j k b, b && negb ((k =? 2) && (j =? i))) (tregs s) r) as Hset2.
    { destruct Hset as [Hk2 Hp2], Hset1 as [Hk1 Hp1]. split; [|intros j; by rewrite Hp2]. intros j k Hj Hk.
      by rewrite Hk2, Hk1, andb_false_r, orb_false_r. }
    clear Hset Hset1. split; [|done]. apply (rep_update m i _ s); [done|done|..].
    + eapply csr_others; [exact Hset2|]. intros j k b Hne%Z.eqb_neq. cbv beta. by rewrite Hne, andb_false_r, andb_true_r.
    + apply Hrep.
    + destruct (csr_at _ _ _ i Hset2 ltac:(lia)) as (C0 & C1 & C2 & C3 & Cp). cbv beta in C0, C1, C2, C3.
      pose proof (rep_owner _ _ _ _ Hrep Ho) as [(Hb & Hc & Hms & Hone & Hie & Hprd) Hen].
      unfold owns. cbn [tregs set_tregs timer_context wm_timer_bitmap run_owner o_cfg o_running o_period].
      rewrite C0, C1, C2, C3, Cp, Hms, Hone, Z.eqb_refl. cbn [andb orb negb Z.eqb Pos.eqb]. by rewrite ?Z.eqb_refl, ?andb_true_r, ?andb_false_r.
Qed.
Lemma wp_period m i o t s (Q : unit → St → Prop) : rep m s → m !! i = Some o → none_pending (tregs s) →
  (∀ s', rep (partial_alter (λ _, Some (period_owner t o)) i m) s' → tuser s' = tuser s → none_pending (tregs s') → Q tt s') →
  wp (if truth t then wr (HR_TIMER_PRD i) t else ret tt) Q s.
Proof.
  intros Hrep Ho Hp HQ. pose proof (owned_range _ _ _ _ Hrep Ho) as Hin. pose proof (rep_owner _ _ _ _ Hrep Ho) as [(Hb & Hc & Hms & Hone & Hie & Hprd) Hen].
  unfold truth. destruct (Z.eqb_spec t 0) as [->|Ht]; cbn [negb].
  - apply wp_ret, HQ; [|done|done]. replace (partial_alter _ i m) with m; [done|].
    apply map_eq. intros j. destruct (decide (j = i)) as [->|]; [rewrite lookup_partial_alter_eq, Ho; by destruct o|by rewrite lookup_partial_alter_ne].
  - unfold wr. wp_step. pose proof (λ j, wr_prd i t (tregs s) j) as Hw. destruct (Hw 0) as (Hctl & Hpd & _). apply HQ; [|done|].
    + apply (rep_update m i _ s); [done|done|..].
      * split; [done|]. intros j Hj Hne. split; [done|]. split; [done|]. destruct (Hw j) as (_ & _ & E). cbn [tregs set_tregs].
        rewrite E, Hctl. by replace (j =? i) with false by lia.
      * apply Hrep.
      * unfold owns. cbn [tregs set_tregs timer_context wm_timer_bitmap period_owner o_cfg o_running o_period]. rewrite Hctl.
        destruct (Hw i) as (_ & _ & E). rewrite E, Z.eqb_refl. replace (t =? 0) with false by lia. split; [|done].
        do 5 (split; [done|]). by intros p [= <-].
    + intros j Hj. cbn [tregs set_tregs]. rewrite Hpd. by apply Hp.
Qed.

Lemma pa_pa (x y : option owner) i m : partial_alter (λ _, y) i (partial_alter (λ _, x) i m) = partial_alter (λ _, y) i m.
Proof. apply map_eq. intros j. destruct (decide (j = i)) as [->|]; by rewrite ?lookup_partial_alter_eq, ?lookup_partial_alter_ne. Qed.
Lemma wp_change m i t s : rep m s → 0 <= i < 32 →
  wp (tls_timer_change i t) (λ _ s', changed i (λ o, run_owner true (period_owner t o)) m s s') s.
Proof.
  intros Hrep Hi. apply wp_guarded; [done|done|]. intros o Ho Hin.
  apply wp_bind. eapply wp_mono; [by apply (wp_stop m)|]. intros [] s1 H1. unfold changed in H1. rewrite Ho in H1. destruct H1 as (Hr1 & Hu1 & Hp1).
  apply wp_bind. eapply (wp_period _ i (run_owner false o) t); [exact Hr1|by rewrite lookup_partial_alter_eq|exact Hp1|].
  intros s2 Hr2 Hu2 _. rewrite pa_pa in Hr2. eapply wp_mono; [by eapply wp_start|]. intros [] s3 H3. unfold changed in H3.
  rewrite lookup_partial_alter_eq, pa_pa in H3. destruct H3 as (Hr3 & Hu3 & Hp3). split; [exact Hr3|]. split; [congruence|done].
Qed.

Lemma below_64 x : 0 <= x < 64 ↔ Z.land x 63 = x.
Proof. change 63 with (Z.ones 6). rewrite Z.land_ones by done. split; [intros; by rewrite Z.mod_small|intros <-; by apply Z.mod_pos_bound]. Qed.
Lemma clear_bit_range x i : 0 <= x < 64 → 0 <= Z.land x (Z.lnot (Z.shiftl 1 i)) < 64.
Proof. rewrite !below_64. intros E. by rewrite <- Z.land_assoc, (Z.land_comm _ 63), Z.land_assoc, E. Qed.
Lemma set_bit_range x i : 0 <= x < 64 → 0 <= i < 6 → 0 <= Z.lor x (Z.shiftl 1 i) < 64.
Proof.
  intros Hx Hi. assert (0 <= Z.shiftl 1 i < 64) as Hs.
  { rewrite Z.shiftl_1_l. split; [by apply Z.pow_nonneg|]. change 64 with (2 ^ 6). apply Z.pow_lt_mono_r; lia. }
  rewrite below_64 in *. by rewrite Z.land_lor_distr_l, Hx, Hs.
Qed.
Lemma wp_destroy m i s : rep m s → 0 <= i < 32 → wp (tls_timer_destroy i) (λ _ s',
  rep (delete i m) s' ∧ tuser s' = tuser s ∧ (is_Some (m !! i) → none_pending (tregs s'))) s.
Proof.
  intros Hrep Hi. unfold tls_timer_destroy. apply wp_bind, (wp_created m); [done|done|]. destruct (m !! i) as [o|] eqn:Ho.
  2: { rewrite bool_decide_eq_false_2 by (intros [? ?]; done). apply wp_ret. rewrite delete_id by done.
       split; [done|]. split; [done|]. by intros [? ?]. }
  rewrite bool_decide_eq_true_2 by eauto. cbn [negb]. pose proof (owned_range _ _ _ _ Hrep Ho) as Hin.
  apply wp_bind. eapply wp_mono; [by apply (wp_stop m)|]. intros [] s1 H1. unfold changed in H1. rewrite Ho in H1. destruct H1 as (Hr1 & Hu1 & Hp1).
  unfold set_context, BIT. wp_steps. replace (i <? 32) with true by lia. wp_steps. split; [|done].
  set (m1 := partial_alter (λ _, Some (run_owner false o)) i m) in *.
  assert (m1 !! i = Some (run_owner false o)) as Hm1 by (unfold m1; by rewrite lookup_partial_alter_eq).
  pose proof (rep_owner _ _ _ _ Hr1 Hm1) as [_ Hen]. pose proof Hr1 as (Hl & Hb & _).
  replace (delete i m) with (partial_alter (λ _, None) i m1) by apply pa_pa.
  apply (rep_update m1 i None s1); [done|done|..].
  - split; [apply length_insert|]. intros j Hj Hne. cbn [timer_context wm_timer_bitmap tregs set_timer_context set_wm_timer_bitmap].
    rewrite list_lookup_insert_ne by lia. split; [|done]. rewrite Z.land_spec, Z.lnot_spec, testbit_one by lia.
    apply Z.eqb_neq in Hne. by rewrite Hne, andb_true_r.
  - by apply clear_bit_range.
  - split; [|exact Hen]. cbn [timer_context wm_timer_bitmap tregs set_timer_context set_wm_timer_bitmap].
    split; [rewrite Z.land_spec, Z.lnot_spec, testbit_one, Z.eqb_refl by lia; apply andb_false_r|]. apply list_lookup_insert_eq. lia.
Qed.

Lemma wp_free_timer m s k : ∀ i, rep m s → 1 <= i → i + Z.of_nat k <= 6 → wp (free_timer k i) (λ a s', a = free_from k i m ∧ s' = s) s.
Proof.
  induction k as [|k IH]; intros i Hrep Hi Hk; cbn [free_timer free_from]; [by apply wp_ret|].
  unfold BIT. wp_steps. replace (i <? 32) with true by lia. wp_steps. rewrite truth_bit, (rep_bits m s) by (done || lia).
  destruct (m !! i) as [o|]; [rewrite bool_decide_eq_true_2 by eauto|rewrite bool_decide_eq_false_2 by (intros [? ?]; done); by apply wp_ret].
  apply IH; [done|lia|lia].
Qed.
Lemma free_from_range k m : ∀ i, 1 <= i → let a := free_from k i m in i <= a <= i + Z.of_nat k ∧ (a < i + Z.of_nat k → m !! a = None).
Proof.
  induction k as [|k IH]; intros i Hi; cbn [free_from]; cbv zeta; [lia|].
  destruct (m !! i) as [o|] eqn:E; [|split; [lia|done]]. destruct (IH (i + 1) ltac:(lia)) as [H1 H2]. cbv zeta in *. split; [lia|].
  intros H. apply H2. lia.
Qed.
Lemma wp_timer_clk (Q : Z → St → Prop) s : (∀ v r, t_ctl r = t_ctl (tregs s) → t_prd r = t_prd (tregs s) → Q v (set_tregs r s)) → wp apbclk Q s.
Proof.
  intros HQ. unfold apbclk, rd. wp_steps. pose proof (rd_clk (tregs s)) as Hc. destruct (treg_rd HR_CLK_DIV_CTL (tregs s)) as [v r]. cbn in *.
  destruct Hc as (Hd & Hctl & _ & Hp). apply Z.eqb_neq in Hd. rewrite Hd. apply wp_ret. by apply HQ.
Qed.

(** The control bits of a new timer. *)
Definition create_csr cfg i v :=
  let csr := if t_is_repeat cfg then Z.land v (Z.lnot (TLS_TIMER_ONE_TIME i)) else Z.lor v (TLS_TIMER_ONE_TIME i) in
  let csr := if TLS_TIMER_UNIT_MS =? t_unit cfg then Z.lor csr (TLS_TIMER_MS_UNIT i) else Z.land csr (Z.lnot (TLS_TIMER_MS_UNIT i)) in
  Z.lor csr (TLS_TIMER_INT_CLR i).
Definition create_bit cfg i j k b : bool :=
  if j =? i then if k =? 0 then TLS_TIMER_UNIT_MS =? t_unit cfg else if k =? 1 then negb (t_is_repeat cfg) else b || (k =? 4) else b.
Lemma create_bits cfg i v j k : 1 <= i < 6 → 0 <= j < 6 → 0 <= k < 5 →
  Z.testbit (create_csr cfg i v) (k + 5 * j) = create_bit cfg i j k (Z.testbit v (k + 5 * j)).
Proof.
  intros Hi Hj Hk. unfold create_csr, create_bit. cbv zeta.
  assert (k = 0 ∨ k = 1 ∨ k = 2 ∨ k = 3 ∨ k = 4) as Hcase by lia.
  destruct (t_is_repeat cfg), (TLS_TIMER_UNIT_MS =? t_unit cfg); csr_bits; generalize (Z.testbit v (k + 5 * j)); intros b; clear -Hcase;
    destruct Hcase as [->|[->|[->|[->| ->]]]]; by destruct (j =? i), b.
Qed.

Lemma wp_create m cfg s : rep m s → wp (tls_timer_create cfg) (λ a s', let '(m', a', _) := spec_call (Create cfg) m in
  a = a' ∧ rep m' s' ∧ tuser s' = tuser s) s.
Proof.
  intros Hrep. unfold tls_timer_create. cbn [spec_call]. apply wp_bind. eapply wp_mono; [apply (wp_free_timer m); [done|done|done]|].
  intros a s1 [-> ->]. change (Z.to_nat (TLS_TIMER_ID_MAX - TLS_TIMER_ID_1)) with 5%nat. unfold TLS_TIMER_ID_MAX, TLS_TIMER_ID_1.
  destruct (free_from_range 5 m 1 ltac:(lia)) as [Hi Hfree]. cbv zeta in *. set (i := free_from 5 1 m) in *. rewrite (Z.eqb_sym 6 i).
  destruct (Z.eqb_spec i 6) as [_|Hne]; [by apply wp_ret|]. assert (1 <= i < 6) as Hin by lia. specialize (Hfree ltac:(lia)). clear Hne Hi. clearbody i.
  pose proof Hrep as (Hl & Hb & Hm & _). assert (0 <= i) as H0i by lia. assert (Z.to_nat i < length (timer_context s))%nat as Hli by lia. pose proof (Hm i Hin) as Ho. rewrite Hfree in Ho. destruct Ho as [[Hbit Hctx] Hen]. cbn in Hen.
  unfold BIT. wp_step. replace (i <? 32) with true by lia. unfold set_context. wp_steps.
  assert (0 <= Z.lor (wm_timer_bitmap s) (Z.shiftl 1 i) < 64) as Hb' by (apply set_bit_range; lia).
  rewrite u8_id by (unfold is_u8; lia). apply wp_timer_clk. intros clk r1 Hc1 Hp1. unfold wr at 1. wp_steps.
  cbn [tregs set_tregs set_timer_context set_wm_timer_bitmap] in Hc1, Hp1.
  set (r2 := treg_wr HR_TIMER_CFG (u32 (clk - 1)) r1). destruct (wr_cfg (u32 (clk - 1)) r1) as (Hc2 & _ & Hp2). fold r2 in Hc2, Hp2.
  match goal with |- wp _ _ ?x => set (s2 := x) end. apply (wp_csr_then (create_csr cfg i) (create_bit cfg i)).
  { intros v j k Hj Hk. apply create_bits; lia. }
  { intros v j Hj Hv. rewrite create_bits, Hv by lia. unfold create_bit. by destruct (j =? i). }
  intros r3 Hset Hnone. assert (csr_set (create_bit cfg i) (tregs s) r3) as Hset'.
  { change (tregs s2) with r2 in Hset. destruct Hset as [Hk Hp]. split; [intros j k Hj Hk'|intros j].
    - by rewrite Hk, Hc2, Hc1. - by rewrite Hp, Hp2, Hp1. }
  clear Hset. set (s3 := set_tregs r3 s2).
  assert (rep (partial_alter (λ _, Some (mk_owner cfg false None)) i m) s3) as Hrep3.
  { apply (rep_update m i _ s); [done|done|..].
    - split; [apply length_insert|]. intros j Hj Hne. destruct Hset' as [Hk Hp].
      cbn [s3 s2 timer_context wm_timer_bitmap tregs set_timer_context set_wm_timer_bitmap set_tregs].
      rewrite list_lookup_insert_ne, Z.lor_spec, testbit_one, Hp by lia. apply Z.eqb_neq in Hne. rewrite Hne, orb_false_r.
      do 3 (split; [done|]). intros k Hk'. rewrite Hk by done. unfold create_bit. by rewrite Hne.
    - exact Hb'.
    - destruct (csr_at _ _ _ i Hset' ltac:(lia)) as (C0 & C1 & C2 & C3 & Cp). unfold create_bit in C0, C1, C2, C3. rewrite Z.eqb_refl in C0, C1, C2, C3.
      unfold owns. cbn [s3 s2 timer_context wm_timer_bitmap tregs set_timer_context set_wm_timer_bitmap set_tregs o_cfg o_running o_period].
      rewrite C0, C1, C2, Hen, Z.lor_spec, testbit_one by exact H0i. rewrite Z.eqb_refl, orb_true_r. split; [|done]. split; [done|].
      split; [apply list_lookup_insert_eq; exact Hli|]. done. }
  apply wp_bind. eapply (wp_period _ i (mk_owner cfg false None) (t_timeout cfg)); [exact Hrep3|by rewrite lookup_partial_alter_eq|exact Hnone|].
  intros s4 Hrep4 Hu4 _. rewrite pa_pa in Hrep4. apply wp_bind. eapply wp_mono; [apply irq_enable_ok|]. intros _ s5 ->.
  apply wp_ret. split; [done|]. split; [exact Hrep4|]. by rewrite Hu4.
Qed.

(** What concerns timer 0 only. *)
Lemma rep_zero m s s' : rep m s → others 0 s s' → wm_timer_bitmap s' = wm_timer_bitmap s → timer_context s' = timer_context s → rep m s'.
Proof.
  intros (Hl & Hb & Hm & Hn & H0 & Hc0) Ho Eb Ec. unfold rep. rewrite Eb, Ec. split; [done|]. split; [done|]. split; [|done].
  intros i Hi. apply (owns_others 0 i _ s); [done|lia|lia|by apply Hm].
Qed.
Lemma wp_interrupt m i s : rep m s → 0 <= i < 6 → wp (timer_irq_callback i) (λ _ s',
  rep m s' ∧ none_pending (tregs s') ∧ t_calls (tuser s') = t_calls (tuser s) ++ (spec_call (Interrupt i) m).2) s.
Proof.
  intros Hrep Hi. unfold timer_irq_callback, timer_clear_irq. apply wp_bind, (wp_csr (clear_csr i) (λ _ k b, b || ((k =? 4) && false))).
  { intros v j k Hj Hk. rewrite clear_bits by lia. by replace (k =? 4) with false by lia. }
  { intros v j Hj Hv. by rewrite clear_bits, Hv by lia. }
  intros r Hset Hp. set (s1 := set_tregs r s). assert (rep m s1) as Hrep1.
  { apply (rep_zero m s); [done| |done|done]. eapply csr_others; [exact Hset|]. intros j k b _. cbv beta. by rewrite andb_false_r, orb_false_r. }
  unfold context. apply wp_bind. pose proof Hrep as (_ & _ & Hm & Hn & _ & Hc0).
  assert (timer_context s !! Z.to_nat i = Some (match m !! i with Some o => mk_tctx (t_callback (o_cfg o)) (t_arg (o_cfg o)) | None => mk_tctx None 0 end)) as Hc.
  { destruct (decide (i = 0)) as [->|]; [rewrite Hn by lia; exact Hc0|]. pose proof (Hm i ltac:(lia)) as Ho. destruct (m !! i); destruct Ho as [Ho _]; apply Ho. }
  eapply wp_of_opt; [exact Hc|]. cbn [spec_call snd]. destruct (m !! i) as [o|]; cbn [tc_callback tc_arg].
  - destruct (t_callback (o_cfg o)) as [f|]; [|apply wp_ret; by rewrite app_nil_r].
    eapply wp_mono; [apply call_timer_ok|]. intros [] s2 (u & -> & Hu). done.
  - apply wp_ret. by rewrite app_nil_r.
Qed.

(** The bits of the register while timer 0 delays. *)
Definition delay_csr flag v := foldl Z.lor
  (if TIMER_MS_UNIT_FLAG =? flag then Z.lor v (TLS_TIMER_MS_UNIT 0) else if TIMER_US_UNIT_FLAG =? flag then Z.land v (Z.lnot (TLS_TIMER_MS_UNIT 0)) else v)
  [TLS_TIMER_ONE_TIME 0; TLS_TIMER_INT_CLR 0; TLS_TIMER_INT_EN 0; TLS_TIMER_EN 0].
Lemma delay_bits flag v j k : 0 <= j < 6 → 0 <= k < 5 →
  Z.testbit (delay_csr flag v) (k + 5 * j) = if j =? 0 then if k =? 0 then Z.testbit (delay_csr flag v) 0 else true else Z.testbit v (k + 5 * j).
Proof.
  intros Hj Hk. destruct (Z.eqb_spec j 0) as [->|Hne].
  - destruct (Z.eqb_spec k 0) as [->|Hk0]; [done|]. unfold delay_csr. cbn [foldl]. csr_bits.
    assert (k = 1 ∨ k = 2 ∨ k = 3 ∨ k = 4) as Hcase by lia. clear -Hcase. destruct Hcase as [->|[->|[->| ->]]]; cbn [Z.eqb Pos.eqb andb]; by rewrite ?orb_true_r.
  - apply Z.eqb_neq in Hne. unfold delay_csr. cbn [foldl].
    destruct (TIMER_MS_UNIT_FLAG =? flag), (TIMER_US_UNIT_FLAG =? flag); csr_bits; rewrite Hne, !andb_false_r, ?orb_false_r; cbn [negb]; by rewrite ?andb_true_r.
Qed.
Lemma wp_wait_timer k : ∀ (Q : unit → St → Prop) s, t_ctl (tregs s) 0 2 = true → (t_left (tregs s) < k)%nat →
  (∀ r, csr_set (λ _ _ b, b) (tregs s) r → t_pend r 0 = true → Q tt (set_tregs r s)) → wp (wait_timer k) Q s.
Proof.
  induction k as [|k IH]; intros Q s Hen Hk HQ; [lia|]. cbn [wait_timer]. apply wp_bind, wp_rd_csr. intros v r Hset _ Hpend Hdue.
  unfold TLS_TIMER_INT_CLR, TIM0_USED_BY_DELAY. rewrite truth_bit, (Hpend 0) by lia. destruct (t_pend r 0) eqn:E; [by apply wp_ret, HQ|].
  destruct (Hdue Hen) as [?|Hlt]; [done|]. pose proof Hset as [Hk1 Hp1]. apply IH; [|cbn [tregs set_tregs]; lia|].
  - cbn [tregs set_tregs]. by rewrite Hk1.
  - intros r' [Hk2 Hp2] Hr'. change (set_tregs r' (set_tregs r s)) with (set_tregs r' s). apply HQ; [|done].
    cbn [tregs set_tregs] in *. split; [intros i j Hi Hj; by rewrite Hk2, Hk1|intros i; by rewrite Hp2].
Qed.
(** Writes that keep the control bits of the other timers. *)
Lemma write_others v s r : (∀ i k, 1 <= i < 6 → 0 <= k < 4 → Z.testbit v (k + 5 * i) = t_ctl (tregs s) i k) →
  (∀ i, i ≠ 0 → t_prd r i = t_prd (tregs s) i) → others 0 s (set_tregs (treg_wr HR_TIMER0_5_CSR v r) s).
Proof.
  intros Hv Hp. split; [done|]. intros j Hj Hne. split; [done|]. split; [done|]. cbn [tregs set_tregs].
  split; [rewrite wr_csr_prd; by apply Hp|]. intros k Hk. rewrite wr_csr_ctl by done. apply Hv; [lia|done].
Qed.
Lemma wp_delay m t flag s : rep m s → wp (tls_delay_via_timer t flag) (λ a s', a = 0 ∧ rep m s' ∧ tuser s' = tuser s) s.
Proof.
  intros Hrep. unfold tls_delay_via_timer. case_if; [by apply wp_ret|].
  apply wp_bind. eapply wp_mono; [apply irq_disable_ok|]. intros _ s1 ->. unfold wr at 1. wp_steps.
  destruct (wr_prd TIM0_USED_BY_DELAY t (tregs s) 0) as (Hc1 & _ & _). pose proof (λ j, proj2 (proj2 (wr_prd TIM0_USED_BY_DELAY t (tregs s) j))) as Hp1.
  set (r1 := treg_wr (HR_TIMER_PRD TIM0_USED_BY_DELAY) t (tregs s)) in *. apply wp_timer_clk. intros clk r2 Hc2 Hp2.
  cbn [tregs set_tregs] in Hc2, Hp2. unfold wr at 1. wp_steps. cbn [tregs set_tregs].
  destruct (wr_cfg (u32 (clk - 1)) r2) as (Hc3 & _ & Hp3). set (r3 := treg_wr HR_TIMER_CFG (u32 (clk - 1)) r2) in *.
  apply wp_rd_csr. intros v r4 [_ Hp4] Hv _ _. cbn [tregs set_tregs] in Hp4, Hv. set (csr := foldl Z.lor _ _).
  change csr with (delay_csr flag v). clear csr. unfold wr at 1. wp_steps.
  assert (∀ i k, 1 <= i < 6 → 0 <= k < 4 → Z.testbit (delay_csr flag v) (k + 5 * i) = t_ctl (tregs s) i k) as Hbits.
  { intros i k Hi Hk. rewrite delay_bits by lia. replace (i =? 0) with false by lia. by rewrite Hv, Hc3, Hc2, Hc1 by lia. }
  assert (∀ i, i ≠ 0 → t_prd r4 i = t_prd (tregs s) i) as Hprd.
  { intros i Hi. rewrite Hp4, Hp3, Hp2, Hp1. apply Z.eqb_neq in Hi. unfold TIM0_USED_BY_DELAY. by rewrite Hi. }
  apply wp_wait_timer; [|apply polls_enough|].
  { cbn [tregs set_tregs]. rewrite (wr_csr_ctl _ _ 0 2) by lia. by rewrite (delay_bits flag v 0 2) by lia. }
  intros r5 [_ Hp5] _. cbn [tregs set_tregs] in Hp5. unfold wr. wp_steps. eapply wp_mono; [apply irq_enable_ok|]. intros _ s6 ->. apply wp_ret.
  split; [done|]. split; [|done]. apply (rep_zero m s); [done| |done|done]. apply (write_others _ s r5).
  - intros i k Hi Hk. change (Z.lor _ _) with (clear_csr 0 (delay_csr flag v)). rewrite clear_bits by lia.
    replace (i =? 0) with false by lia. by rewrite andb_false_r, orb_false_r, Hbits.
  - intros i Hi. rewrite Hp5, wr_csr_prd. by apply Hprd.
Qed.

Lemma wp_do_call c m s : rep m s → valid_call c → wp (do_call c) (λ a s', let '(m', a', l) := spec_call c m in
  a = a' ∧ rep m' s' ∧ t_calls (tuser s') = t_calls (tuser s) ++ l) s.
Proof.
  intros Hrep Hc. destruct c as [cfg|i|i|i t|i|t flag|i]; cbn [do_call].
  - eapply wp_mono; [by apply (wp_create m)|]. intros a s'. cbn [spec_call]. cbv zeta. destruct (free_from 5 1 m =? 6); intros (-> & Hr & ->); by rewrite app_nil_r.
  - apply wp_bind. eapply wp_mono; [by apply (wp_start m)|]. intros [] s' H'%changed_rep; [|done]. destruct H' as (Hr & Hu & _).
    apply wp_ret. cbn [spec_call]. by rewrite Hu, app_nil_r.
  - apply wp_bind. eapply wp_mono; [by apply (wp_stop m)|]. intros [] s' H'%changed_rep; [|done]. destruct H' as (Hr & Hu & _).
    apply wp_ret. cbn [spec_call]. by rewrite Hu, app_nil_r.
  - apply wp_bind. eapply wp_mono; [by apply (wp_change m)|]. intros [] s' H'%changed_rep; [|done]. destruct H' as (Hr & Hu & _).
    apply wp_ret. cbn [spec_call]. by rewrite Hu, app_nil_r.
  - apply wp_bind. eapply wp_mono; [by apply (wp_destroy m)|]. intros [] s' (Hr & Hu & _). apply wp_ret. cbn [spec_call]. by rewrite Hu, app_nil_r.
  - eapply wp_mono; [by apply (wp_delay m)|]. intros a s' (-> & Hr & Hu). cbn [spec_call]. by rewrite Hu, app_nil_r.
  - apply wp_bind. eapply wp_mono; [by apply (wp_interrupt m)|]. intros [] s' (Hr & _ & Hl). apply wp_ret. done.
Qed.
End spec.

(** C22: the timers refine a table of owners.  Through any calls of the driver and
    interrupts, every call returns and answers what the table does: a new timer
    is the first of 1 to 5 that nobody owns, or 255; each timer keeps the unit,
    the mode and the period of its owner, and runs exactly if its owner last
    started it, whatever is done to the others and to the delay; and an
    interrupt calls the callback of the owner with its argument, or nothing. *)
Theorem timers_refine_owners {R U} `{!TimerRegs R, !TimerRegsOk R, !TimerEnv R U, !TimerEnvOk R U} cs m (s : hwtimers R U) :
  rep m s → Forall valid_call cs →
  wp (do_calls cs) (λ rs s', let '(m', rs', l) := spec_calls cs m in
    rs = rs' ∧ rep m' s' ∧ t_calls (tuser s') = t_calls (tuser s) ++ l) s.
Proof.
  intros Hrep Hcs. revert m s Hrep. induction Hcs as [|c cs Hc Hcs IH]; intros m s Hrep; cbn [do_calls spec_calls].
  - apply wp_ret. by rewrite app_nil_r.
  - apply wp_bind. eapply wp_mono; [by apply (wp_do_call c m)|]. intros a s1. destruct (spec_call c m) as [[m1 a'] l] eqn:E.
    intros (-> & Hrep1 & Hl1). apply wp_bind. eapply wp_mono; [by apply (IH m1)|]. intros rs s2.
    destruct (spec_calls cs m1) as [[m2 rs'] l2]. intros (-> & Hrep2 & Hl2). apply wp_ret. by rewrite Hl2, Hl1, app_assoc.
Qed.

(** An interrupt is lost.  The driver writes the control register back
    with the pending bits it has read, which clears them: whichever timer is
    started, stopped, changed, removed, or served by its handler, afterwards no
    interrupt of any timer is pending. *)
Theorem interrupts_lost {R U} `{!TimerRegs R, !TimerRegsOk R, !TimerEnv R U, !TimerEnvOk R U} m i o (s : hwtimers R U) :
  rep m s → m !! i = Some o → let lost _ s' := none_pending (tregs s') in
  wp (tls_timer_start i) lost s ∧ wp (tls_timer_stop i) lost s ∧ (∀ t, wp (tls_timer_change i t) lost s) ∧
  wp (tls_timer_destroy i) lost s ∧ wp (timer_irq_callback i) lost s.
Proof.
  intros Hrep Ho lost. pose proof (owned_range _ _ _ _ Hrep Ho) as Hi.
  assert (∀ f s', changed i f m s s' → none_pending (tregs s')) as Hch.
  { intros f s' H'. apply (changed_rep i f m s s' Hrep H'). by exists o. }
  split_and!; [| |intros t| |].
  - eapply wp_mono; [apply (wp_start m i s Hrep); lia|]. intros [] s'. apply Hch.
  - eapply wp_mono; [apply (wp_stop m i s Hrep); lia|]. intros [] s'. apply Hch.
  - eapply wp_mono; [apply (wp_change m i t s Hrep); lia|]. intros [] s'. apply Hch.
  - eapply wp_mono; [apply (wp_destroy m i s Hrep); lia|]. intros [] s' (_ & _ & Hp). apply Hp. by exists o.
  - eapply wp_mono; [apply (wp_interrupt m i s Hrep); lia|]. by intros [] s' (_ & Hp & _).
Qed.

(** * A device and a run *)

(** The register as one word, and the periods; timer 0 runs out at the first
    look when it is enabled. *)
Record tsim := mk_tsim { ts_csr : Z; ts_prd : Z → Z }.
Definition PEND_MASK : Z := foldr Z.lor 0 (TLS_TIMER_INT_CLR <$> seqZ 0 6).
Definition look (r : tsim) : tsim := if Z.testbit (ts_csr r) 2 then mk_tsim (Z.lor (ts_csr r) (TLS_TIMER_INT_CLR 0)) (ts_prd r) else r.
#[export] Instance tsim_regs : TimerRegs tsim := {
  treg_rd g r := match g with HR_TIMER0_5_CSR => (ts_csr (look r), look r) | HR_CLK_DIV_CTL => (0x42, r) | _ => (0, r) end;
  treg_wr g v r := match g with
    | HR_TIMER0_5_CSR => mk_tsim (Z.lor (Z.land v (Z.lnot PEND_MASK)) (Z.land (Z.land (ts_csr r) PEND_MASK) (Z.lnot v))) (ts_prd r)
    | HR_TIMER_PRD i => mk_tsim (ts_csr r) (λ j, if j =? i then v else ts_prd r j)
    | _ => r
    end;
}.
Lemma pend_mask_bits i k : 0 <= i < 6 → 0 <= k < 5 → Z.testbit PEND_MASK (k + 5 * i) = (k =? 4).
Proof.
  intros Hi Hk. assert (i = 0 ∨ i = 1 ∨ i = 2 ∨ i = 3 ∨ i = 4 ∨ i = 5) as Hci by lia. assert (k = 0 ∨ k = 1 ∨ k = 2 ∨ k = 3 ∨ k = 4) as Hck by lia.
  clear -Hci Hck. destruct Hci as [->|[->|[->|[->|[->| ->]]]]], Hck as [->|[->|[->|[->| ->]]]]; vm_compute; reflexivity.
Qed.
Lemma look_bits r i k : 0 <= i < 6 → 0 <= k < 5 →
  Z.testbit (ts_csr (look r)) (k + 5 * i) = Z.testbit (ts_csr r) (k + 5 * i) || (Z.testbit (ts_csr r) 2 && ((k =? 4) && (i =? 0))).
Proof.
  intros Hi Hk. unfold look. destruct (Z.testbit (ts_csr r) 2); cbn [ts_csr]; [|by rewrite orb_false_r].
  change (Z.lor (ts_csr r) (TLS_TIMER_INT_CLR 0)) with (clear_csr 0 (ts_csr r)). by rewrite clear_bits by lia.
Qed.
Lemma write_bits v r i k : 0 <= i < 6 → 0 <= k < 5 → Z.testbit (ts_csr (treg_wr HR_TIMER0_5_CSR v r)) (k + 5 * i) =
  if k =? 4 then Z.testbit (ts_csr r) (k + 5 * i) && negb (Z.testbit v (k + 5 * i)) else Z.testbit v (k + 5 * i).
Proof.
  intros Hi Hk. cbn [treg_wr tsim_regs ts_csr]. rewrite Z.lor_spec, !Z.land_spec, !Z.lnot_spec, pend_mask_bits by lia.
  destruct (k =? 4); cbn [negb]; by rewrite ?andb_false_r, ?andb_true_r, ?orb_false_r.
Qed.
#[export] Program Instance tsim_regs_ok : TimerRegsOk tsim := {
  t_ctl r i k := Z.testbit (ts_csr r) (k + 5 * i);
  t_pend r i := Z.testbit (ts_csr r) (4 + 5 * i);
  t_prd := ts_prd;
  t_left _ := 0%nat;
}.
Next Obligation.
  intros r i k Hi Hk. cbn [treg_rd tsim_regs]. rewrite look_bits by lia. replace (k =? 4) with false by lia. by rewrite andb_false_r, orb_false_r.
Qed.
Next Obligation. intros r i Hi. cbn [treg_rd tsim_regs]. split; [done|]. intros Hp. by rewrite look_bits, Hp by lia. Qed.
Next Obligation. intros r i. cbn. unfold look. by destruct (Z.testbit _ 2). Qed.
Next Obligation. intros r r' Hen. left. unfold r'. cbn [treg_rd tsim_regs snd]. rewrite look_bits by lia. change (Z.testbit (ts_csr r) 2 = true) in Hen. by rewrite Hen, orb_true_r. Qed.
Next Obligation. intros r. cbn. done. Qed.
Next Obligation.
  intros v r i k Hi Hk. pose proof (write_bits v r i k Hi ltac:(lia)) as E. replace (k =? 4) with false in E by lia. exact E.
Qed.
Next Obligation. intros v r i Hi. exact (write_bits v r i 4 Hi ltac:(lia)). Qed.
Next Obligation. done. Qed.
Next Obligation. done. Qed.
Next Obligation. done. Qed.

#[export] Instance tlog_env : TimerEnv tsim (list (Z * Z)) := {
  call_timer f a := modify (λ s, set_tuser (tuser s ++ [(f, a)]) s);
  tls_irq_enable _ := ret tt;
  tls_irq_disable _ := ret tt;
  timer_polls := 1;
}.
#[export] Instance tlog_env_ok : TimerEnvOk tsim (list (Z * Z)).
Proof. refine {| t_calls := id |}; [|done|done|intros r; cbn; lia]. intros f a s. by exists (tuser s ++ [(f, a)]). Defined.

(** Timers of three owners, one of which goes; a delay between. *)
Definition fresh_timers : hwtimers tsim (list (Z * Z)) := mk_hwt (replicate 6 (mk_tctx None 0)) 0 (mk_tsim 0 (λ _, 0)) [].
Lemma fresh_timers_rep : rep ∅ fresh_timers.
Proof.
  split; [done|]. split; [done|]. split.
  - intros i Hi. rewrite lookup_empty. assert (i = 1 ∨ i = 2 ∨ i = 3 ∨ i = 4 ∨ i = 5) as Hc by lia. clear Hi.
    unfold owns. destruct Hc as [->|[->|[->|[->| ->]]]]; vm_compute; done.
  - split; [intros i _; apply lookup_empty|done].
Qed.
Definition cfg_a := mk_tcfg TLS_TIMER_UNIT_MS 100 true (Some 11) 1.
Definition cfg_b := mk_tcfg TLS_TIMER_UNIT_US 250 false (Some 22) 2.
Definition timer_script : list tcall :=
  [Create cfg_a; Create cfg_b; Start 1; Start 2; Delay 5 TIMER_MS_UNIT_FLAG; Interrupt 2; Destroy 1; Interrupt 1; Create cfg_b; Change 1 40; Interrupt 1].
Lemma timers_refine_owners_witness : wp (do_calls timer_script) (λ rs s', rs = [1; 2; 0; 0; 0; 0; 0; 0; 1; 0; 0] ∧
  tuser s' = [(22, 2); (22, 2)]) fresh_timers.
Proof.
  eapply wp_mono; [apply (timers_refine_owners timer_script ∅ fresh_timers); [exact fresh_timers_rep|]|].
  - repeat (apply Forall_cons_2; [cbn; lia || exact I|]). apply Forall_nil_2.
  - intros rs s'. destruct (spec_calls timer_script ∅) as [[m' rs'] l] eqn:E.
    assert (rs' = [1; 2; 0; 0; 0; 0; 0; 0; 1; 0; 0] ∧ l = [(22, 2); (22, 2)]) as [-> ->].
    { assert ((spec_calls timer_script ∅).1.2 = [1; 2; 0; 0; 0; 0; 0; 0; 1; 0; 0]) as E1 by (vm_compute; reflexivity).
      assert ((spec_calls timer_script ∅).2 = [(22, 2); (22, 2)]) as E2 by (vm_compute; reflexivity). rewrite E in E1, E2. by split. }
    intros (-> & _ & Hl). split; [reflexivity|exact Hl].
Defined.

(** Two timers run, the second's interrupt is pending when the first is stopped. *)
Definition pending_timers : hwtimers tsim (list (Z * Z)) :=
  let s := exec (do_calls [Create cfg_a; Create cfg_b; Start 1; Start 2]) fresh_timers in
  set_tregs (mk_tsim (Z.lor (ts_csr (tregs s)) (TLS_TIMER_INT_CLR 2)) (ts_prd (tregs s))) s.
Lemma interrupts_lost_witness : t_pend (tregs pending_timers) 2 = true ∧
  wp (tls_timer_stop 1) (λ _ s', t_pend (tregs s') 2 = false) pending_timers.
Proof.
  split; [vm_compute; reflexivity|].
  set (m := <[1 := mk_owner cfg_a true (Some 100)]> (<[2 := mk_owner cfg_b true (Some 250)]> ∅) : gmap Z owner).
  assert (rep m pending_timers) as Hrep.
  { split; [vm_compute; reflexivity|]. split; [vm_compute; split; [discriminate|reflexivity]|]. split.
    - intros i Hi. assert (i = 1 ∨ i = 2 ∨ i = 3 ∨ i = 4 ∨ i = 5) as Hc by lia. clear Hi. destruct Hc as [->|[->|[->|[->| ->]]]];
        unfold owns; vm_compute; repeat split; try (intros p [= <-]); reflexivity.
    - split; [|split; vm_compute; reflexivity]. intros i Hi. unfold m. rewrite !lookup_insert_ne by lia. apply lookup_empty. }
  destruct (interrupts_lost m 1 (mk_owner cfg_a true (Some 100)) pending_timers Hrep) as (_ & Hstop & _); [vm_compute; reflexivity|].
  eapply wp_mono; [exact Hstop|]. intros [] s' Hp. apply Hp. lia.
Defined.
