(* ===== verification/Dma.v ===== *)
(** * [src/Platform/Drivers/dma/wm_dma.c]: the eight channels of the DMA engine

    Who has a channel, how it is started and stopped, and what its interrupt
    calls. *)
From S2P Require Import Prelude.
From stdpp Require Import gmap.
#[local] Open Scope Z_scope.

Definition TLS_DMA_FLAGS_CHANNEL_VALID := Z.shiftl 1 7.
Definition TLS_DMA_IRQ_BURST_DONE := Z.shiftl 1 0.
Definition TLS_DMA_IRQ_TRANSFER_DONE := Z.shiftl 1 1.
Definition TLS_DMA_IRQ_BOTH_DONE := Z.lor TLS_DMA_IRQ_BURST_DONE TLS_DMA_IRQ_TRANSFER_DONE.
Definition DMA_CHNL_CTRL_CHNL_ON := Z.shiftl 1 0.
Definition DMA_CHNL_CTRL_CHNL_OFF := Z.shiftl 1 1.
Definition DMA0_INT := 13.

(** The registers: two for all channels, eight for each. *)
Inductive dreg :=
  | DMA_INTMASK_REG
  | DMA_INTSRC_REG
  | DMA_SRCADDR_REG (ch : Z)
  | DMA_DESTADDR_REG (ch : Z)
  | DMA_SRCWRAPADDR_REG (ch : Z)
  | DMA_DESTWRAPADDR_REG (ch : Z)
  | DMA_WRAPSIZE_REG (ch : Z)
  | DMA_CHNLCTRL_REG (ch : Z)
  | DMA_MODE_REG (ch : Z)
  | DMA_CTRL_REG (ch : Z).
Class DmaRegs (R : Type) := {
  dreg_rd : dreg → R → Z * R;
  dreg_wr : dreg → Z → R → R;
}.

Record dma_irq_context := mk_dctx {
  dc_flags : Z;
  burst_done_pf : option Z;
  burst_done_priv : Z;
  transfer_done_pf : option Z;
  transfer_done_priv : Z;
}.
Definition set_dc_flags x c := mk_dctx x (burst_done_pf c) (burst_done_priv c) (transfer_done_pf c) (transfer_done_priv c).
Definition set_burst_done f a c := mk_dctx (dc_flags c) f a (transfer_done_pf c) (transfer_done_priv c).
Definition set_transfer_done f a c := mk_dctx (dc_flags c) (burst_done_pf c) (burst_done_priv c) f a.
Record tls_dma_descriptor := mk_desc { valid : Z; dma_ctrl : Z; src_addr : Z; dest_addr : Z }.

Record dmas (R U : Type) := mk_dmas {
  dma_context : list dma_irq_context;
  channels : list Z;
  dregs : R;
  duser : U; (* what the callbacks work on *)
}.
Arguments mk_dmas {R U}.
Arguments dma_context {R U}.
Arguments channels {R U}.
Arguments dregs {R U}.
Arguments duser {R U}.
Section setters.
Context {R U : Type}.
Implicit Type s : dmas R U.
Definition set_dma_context x s := mk_dmas x (channels s) (dregs s) (duser s).
Definition set_channels x s := mk_dmas (dma_context s) x (dregs s) (duser s).
Definition set_dregs (x : R) s := mk_dmas (dma_context s) (channels s) x (duser s).
Definition set_duser (x : U) s := mk_dmas (dma_context s) (channels s) (dregs s) x.
End setters.

(** Callbacks, the interrupt controller, a tick of the operating system, and
    the looks at a channel before waiting for it counts as not returning. *)
Class DmaEnv (R U : Type) := {
  call_dma : Z → Z → M (dmas R U) unit;
  dma_irq_enable : Z → M (dmas R U) unit;
  dma_time_delay : Z → M (dmas R U) unit;
  dma_polls : nat;
}.

Section driver.
Context {R U : Type} `{!DmaRegs R, !DmaEnv R U}.
Local Notation C A := (M (dmas R U) A).
Local Open Scope c_scope.

Definition rd (g : dreg) : C Z :=
  let* s := get in modify (set_dregs (dreg_rd g (dregs s)).2) ;; ret (dreg_rd g (dregs s)).1.
Definition wr (g : dreg) (v : Z) : C unit := modify (λ s, set_dregs (dreg_wr g v (dregs s)) s).
Definition context (ch : Z) : C dma_irq_context := λ s, of_opt (dma_context s !! Z.to_nat ch) s.
Definition on_context (ch : Z) (f : dma_irq_context → dma_irq_context) : C unit :=
  let* c := context ch in modify (λ s, set_dma_context (<[Z.to_nat ch := f c]> (dma_context s)) s).
Definition call (f : option Z) (a : Z) : C unit := match f with Some f => call_dma f a | None => ret tt end.

Definition tls_dma_irq_clr (ch flags : Z) : C unit := wr DMA_INTSRC_REG (u32 (Z.shiftl flags (2 * ch))).
(** The first of the channels from [ch] on, within [k], with a pending interrupt. *)
Fixpoint first_pending (k : nat) (int_src ch : Z) : Z :=
  match k with
  | O => ch
  | S k => if truth (Z.land int_src (Z.shiftl TLS_DMA_IRQ_BOTH_DONE (ch * 2))) then ch else first_pending k int_src (ch + 1)
  end.
Definition dma_irq_proc (p : Z) : C unit :=
  let ch := u8 p in
  let* int_src := rd DMA_INTSRC_REG in
  let ch := if 3 <? ch then first_pending 4 int_src 4 else ch in
  if ch =? 8 then ret tt
  else
    let* c := context ch in
    if truth (Z.land int_src (Z.shiftl TLS_DMA_IRQ_BOTH_DONE (ch * 2))) && (TLS_DMA_IRQ_BOTH_DONE =? dc_flags c) then
      tls_dma_irq_clr ch TLS_DMA_IRQ_BOTH_DONE ;;
      call (burst_done_pf c) (burst_done_priv c)
    else if truth (Z.land int_src (Z.shiftl TLS_DMA_IRQ_BURST_DONE (ch * 2))) && (TLS_DMA_IRQ_BURST_DONE =? dc_flags c) then
      tls_dma_irq_clr ch TLS_DMA_IRQ_BOTH_DONE ;;
      call (burst_done_pf c) (burst_done_priv c)
    else if truth (Z.land int_src (Z.shiftl TLS_DMA_IRQ_TRANSFER_DONE (ch * 2))) && (TLS_DMA_IRQ_TRANSFER_DONE =? dc_flags c) then
      tls_dma_irq_clr ch TLS_DMA_IRQ_BOTH_DONE ;;
      call (transfer_done_pf c) (transfer_done_priv c)
    else ret tt.
Definition DMA_Channel0_IRQHandler : C unit := dma_irq_proc 0.
Definition DMA_Channel1_IRQHandler : C unit := dma_irq_proc 1.
Definition DMA_Channel2_IRQHandler : C unit := dma_irq_proc 2.
Definition DMA_Channel3_IRQHandler : C unit := dma_irq_proc 3.
Definition DMA_Channel4_7_IRQHandler : C unit := dma_irq_proc 4.

Definition tls_dma_irq_register (ch : Z) (callback : option Z) (arg flags : Z) : C unit :=
  let* mask := rd DMA_INTMASK_REG in
  let mask := Z.lor mask (Z.shiftl TLS_DMA_IRQ_BOTH_DONE (2 * ch)) in
  let mask := Z.land mask (Z.lnot (Z.shiftl flags (2 * ch))) in
  wr DMA_INTMASK_REG (u32 mask) ;;
  on_context ch (set_dc_flags flags) ;;
  (if truth (Z.land flags TLS_DMA_IRQ_BURST_DONE) then on_context ch (set_burst_done callback arg) else ret tt) ;;
  (if truth (Z.land flags TLS_DMA_IRQ_TRANSFER_DONE) then on_context ch (set_transfer_done callback arg) else ret tt) ;;
  dma_irq_enable (DMA0_INT + (if 3 <? ch then 4 else ch)).

(** [timeout] has been counted; at 501 the wait is given up. *)
Fixpoint wait_complt (k : nat) (ch timeout : Z) : C Z :=
  let* v := rd (DMA_CHNLCTRL_REG ch) in
  if truth (Z.land v DMA_CHNL_CTRL_CHNL_ON) then
    match k with
    | O => stuck
    | S k =>
        dma_time_delay 1 ;;
        if 500 <? timeout + 1 then ret (-1) else wait_complt k ch (timeout + 1)
    end
  else ret 0.
Definition tls_dma_wait_complt (ch : Z) : C Z := wait_complt 501 ch 0.

(** [None] is the null pointer. *)
Definition tls_dma_start_by_wrap (ch : Z) (dma_desc : option tls_dma_descriptor) (auto_reload src_zize dest_zize : Z) : C Z :=
  if (7 <? ch) && bool_decide (dma_desc = None) then ret 1
  else
    let* d := of_opt dma_desc in
    wr (DMA_SRCWRAPADDR_REG ch) (src_addr d) ;;
    wr (DMA_DESTWRAPADDR_REG ch) (dest_addr d) ;;
    wr (DMA_WRAPSIZE_REG ch) (u32 (Z.lor (Z.shiftl dest_zize 16) src_zize)) ;;
    wr (DMA_CTRL_REG ch) (Z.lor (Z.shiftl (Z.land (dma_ctrl d) 0x1ffff) 1) (if truth auto_reload then 1 else 0)) ;;
    let* v := rd (DMA_CHNLCTRL_REG ch) in
    wr (DMA_CHNLCTRL_REG ch) (Z.lor v DMA_CHNL_CTRL_CHNL_ON) ;;
    ret 0.
Definition tls_dma_start (ch : Z) (dma_desc : option tls_dma_descriptor) (auto_reload : Z) : C Z :=
  if (7 <? ch) && bool_decide (dma_desc = None) then ret 1
  else
    let* d := of_opt dma_desc in
    wr (DMA_SRCADDR_REG ch) (src_addr d) ;;
    wr (DMA_DESTADDR_REG ch) (dest_addr d) ;;
    wr (DMA_CTRL_REG ch) (Z.lor (Z.shiftl (Z.land (dma_ctrl d) 0x7fffff) 1) (if truth auto_reload then 1 else 0)) ;;
    let* v := rd (DMA_CHNLCTRL_REG ch) in
    wr (DMA_CHNLCTRL_REG ch) (Z.lor v DMA_CHNL_CTRL_CHNL_ON) ;;
    ret 0.

Fixpoint wait_off (k : nat) (ch : Z) : C unit :=
  match k with
  | O => stuck
  | S k => let* v := rd (DMA_CHNLCTRL_REG ch) in if truth (Z.land v DMA_CHNL_CTRL_CHNL_ON) then wait_off k ch else ret tt
  end.
Definition tls_dma_stop (ch : Z) : C Z :=
  if 7 <? ch then ret 1
  else
    let* v := rd (DMA_CHNLCTRL_REG ch) in
    (if truth (Z.land v DMA_CHNL_CTRL_CHNL_ON) then
       let* v := rd (DMA_CHNLCTRL_REG ch) in
       wr (DMA_CHNLCTRL_REG ch) (Z.lor v DMA_CHNL_CTRL_CHNL_OFF) ;;
       wait_off dma_polls ch
     else ret tt) ;;
    ret 0.

Definition taken_flag (f : Z) : bool := truth (Z.land f TLS_DMA_FLAGS_CHANNEL_VALID).
(** The first channel from [i] on that is not taken, 8 when there is none. *)
Fixpoint free_channel (l : list Z) (i : Z) : Z :=
  match l with [] => i | f :: l => if taken_flag f then free_channel l (i + 1) else i end.
Definition tls_dma_request (ch flags : Z) : C Z :=
  let* l := gets channels in
  let* freeCh := (
    if ch =? 0 then let i := free_channel l 0 in ret (if 8 =? i then 0 else i)
    else if (0 <? ch) && (ch <? 8) then
      let* f := of_opt (l !! Z.to_nat ch) in ret (if taken_flag f then 0 else ch)
    else ret 0) in
  modify (λ s, set_channels (<[Z.to_nat freeCh := u8 (Z.lor flags TLS_DMA_FLAGS_CHANNEL_VALID)]> (channels s)) s) ;;
  wr (DMA_MODE_REG freeCh) flags ;;
  ret freeCh.
Definition tls_dma_free (ch : Z) : C unit :=
  if ch <? 8 then
    tls_dma_stop ch ;;
    wr (DMA_SRCADDR_REG ch) 0 ;;
    wr (DMA_DESTADDR_REG ch) 0 ;;
    wr (DMA_MODE_REG ch) 0 ;;
    wr (DMA_CTRL_REG ch) 0 ;;
    let* v := rd DMA_INTSRC_REG in
    wr DMA_INTSRC_REG (Z.lor v (Z.shiftl 0x03 (ch * 2))) ;;
    modify (λ s, set_channels (<[Z.to_nat ch := 0]> (channels s)) s)
  else ret tt.
Definition tls_dma_init : C unit :=
  wr DMA_INTMASK_REG 0xffff ;;
  wr DMA_INTSRC_REG 0xffff.
End driver.

(** * What the driver promises *)

(** A pending interrupt is cleared by the one written to it, and by nothing
    else; a channel told to stop is off after [d_left] more looks, and a
    channel that is off stays off until its control register is written. *)
Class DmaRegsOk (R : Type) `{!DmaRegs R} := {
  d_pend : R → Z → bool; (* the bits of [DMA_INTSRC_REG] *)
  d_mode : R → Z → Z;
  d_on : R → Z → bool;
  d_stopping : R → Z → bool;
  d_left : R → Z → nat;
  rd_pend g r k : d_pend r k = true → d_pend (dreg_rd g r).2 k = true;
  rd_mode g r ch : d_mode (dreg_rd g r).2 ch = d_mode r ch;
  rd_stays_off g r ch : d_on r ch = false → d_on (dreg_rd g r).2 ch = false;
  rd_intsrc r k : 0 <= k < 16 → let '(v, r') := dreg_rd DMA_INTSRC_REG r in Z.testbit v k = d_pend r' k;
  rd_chnlctrl ch r : let '(v, r') := dreg_rd (DMA_CHNLCTRL_REG ch) r in Z.testbit v 0 = d_on r' ch;
  rd_stopping ch r : d_stopping r ch = true → let r' := (dreg_rd (DMA_CHNLCTRL_REG ch) r).2 in
    d_on r' ch = false ∨ (d_stopping r' ch = true ∧ (d_left r' ch < d_left r ch)%nat);
  wr_intsrc v r k : 0 <= k < 16 → d_pend (dreg_wr DMA_INTSRC_REG v r) k = d_pend r k && negb (Z.testbit v k);
  wr_pend g v r k : g ≠ DMA_INTSRC_REG → d_pend (dreg_wr g v r) k = d_pend r k;
  wr_mode g v r ch : d_mode (dreg_wr g v r) ch = match g with DMA_MODE_REG c => if ch =? c then v else d_mode r ch | _ => d_mode r ch end;
  wr_stays_off g v r ch : (∀ c, g ≠ DMA_CHNLCTRL_REG c) → d_on r ch = false → d_on (dreg_wr g v r) ch = false;
  wr_stopping ch v r : Z.testbit v 1 = true → d_stopping (dreg_wr (DMA_CHNLCTRL_REG ch) v r) ch = true;
}.
(** A callback is noted and leaves the driver alone; a delay lets its ticks
    pass, whatever else happens meanwhile; a stop looks long enough. *)
Class DmaEnvOk (R U : Type) `{!DmaRegs R, !DmaRegsOk R, !DmaEnv R U} := {
  d_calls : U → list (Z * Z);
  call_dma_ok f a (s : dmas R U) : wp (call_dma f a) (λ _ s', ∃ u, s' = set_duser u s ∧ d_calls u = d_calls (duser s) ++ [(f, a)]) s;
  dma_irq_enable_ok n (s : dmas R U) : wp (dma_irq_enable n) (λ _ s', s' = s) s;
  d_ticks : U → Z;
  dma_time_delay_ok n (s : dmas R U) : wp (dma_time_delay n) (λ _ s', d_ticks (duser s') = d_ticks (duser s) + n) s;
  dma_polls_enough (r : R) ch : (d_left r ch < dma_polls)%nat;
}.

(** ** The specification: who has which channel *)

(** The channels that are taken, with the flags of the request. *)
Inductive dcall := Request (ch flags : Z) | Release (ch : Z).
Fixpoint lowest_free (k : nat) (i : Z) (m : gmap Z Z) : Z :=
  match k with O => i | S k => match m !! i with None => i | Some _ => lowest_free k (i + 1) m end end.
(** The channel a request gets.  When there is none it is channel 0, whoever
    has it. *)
Definition granted (ch : Z) (m : gmap Z Z) : Z :=
  if ch =? 0 then (let i := lowest_free 8 0 m in if i =? 8 then 0 else i)
  else if bool_decide (ch < 8 ∧ m !! ch = None) then ch else 0.
Definition spec_dcall (c : dcall) (m : gmap Z Z) : gmap Z Z * Z :=
  match c with
  | Request ch flags => (<[granted ch m := flags]> m, granted ch m)
  | Release ch => (delete ch m, 0)
  end.
Fixpoint spec_dcalls (cs : list dcall) (m : gmap Z Z) : gmap Z Z * list Z :=
  match cs with
  | [] => (m, [])
  | c :: cs => let '(m1, a) := spec_dcall c m in let '(m2, rs) := spec_dcalls cs m1 in (m2, a :: rs)
  end.
Definition valid_dcall (c : dcall) : Prop :=
  match c with Request ch flags => 0 <= ch < 256 ∧ 0 <= flags < 256 | Release ch => 0 <= ch < 256 end.

(** What the interrupt of handler [n] is about, with [p] pending: channel [n],
    for the last one the lowest of the channels from 4 on that has one. *)
Fixpoint lowest_pending (k : nat) (p : Z → bool) (ch : Z) : Z :=
  match k with O => ch | S k => if p (2 * ch) || p (2 * ch + 1) then ch else lowest_pending k p (ch + 1) end.
Definition irq_channel (p : Z → bool) (n : Z) : Z := if n <? 4 then n else lowest_pending 4 p 4.
(** The callback registered for what is pending, if its flags ask for exactly that. *)
Definition irq_callback (p : Z → bool) (ch : Z) (c : dma_irq_context) : option (option Z * Z) :=
  let burst := p (2 * ch) in
  let transfer := p (2 * ch + 1) in
  if dc_flags c =? 3 then (if burst || transfer then Some (burst_done_pf c, burst_done_priv c) else None)
  else if dc_flags c =? 1 then (if burst then Some (burst_done_pf c, burst_done_priv c) else None)
  else if dc_flags c =? 2 then (if transfer then Some (transfer_done_pf c, transfer_done_priv c) else None)
  else None.
(** The same from the table of callbacks. *)
Definition irq_called (p : Z → bool) (n : Z) (l : list dma_irq_context) : option (option Z * Z) :=
  let ch := irq_channel p n in
  if ch =? 8 then None else l !! Z.to_nat ch ≫= irq_callback p ch.
(** [flags] ask for an interrupt that channel [ch] has pending. *)
Definition asked (flags : Z) (p : Z → bool) (ch : Z) : bool := (Z.testbit flags 0 && p (2 * ch)) || (Z.testbit flags 1 && p (2 * ch + 1)).
(** The entry of a channel after a callback has been registered. *)
Definition registered (f : option Z) (a flags : Z) (c : dma_irq_context) : dma_irq_context :=
  mk_dctx flags
    (if Z.testbit flags 0 then f else burst_done_pf c) (if Z.testbit flags 0 then a else burst_done_priv c)
    (if Z.testbit flags 1 then f else transfer_done_pf c) (if Z.testbit flags 1 then a else transfer_done_priv c).

Section spec.
Context {R U : Type} `{!DmaRegs R, !DmaRegsOk R, !DmaEnv R U, !DmaEnvOk R U}.
Local Abbreviation St := (dmas R U).
Implicit Types (s : St) (r : R) (m : gmap Z Z).

Definition do_dcall (c : dcall) : M St Z :=
  match c with
  | Request ch flags => tls_dma_request ch flags
  | Release ch => tls_dma_free ch ;; ret 0
  end%C.
Fixpoint do_dcalls (cs : list dcall) : M St (list Z) :=
  (match cs with
   | [] => ret []
   | c :: cs => let* a := do_dcall c in let* rs := do_dcalls cs in ret (a :: rs)
   end)%C.
Definition holds (i : Z) (o : option Z) s : Prop :=
  ∃ f, channels s !! Z.to_nat i = Some f ∧
    match o with Some flags => taken_flag f = true ∧ d_mode (dregs s) i = flags | None => taken_flag f = false end.
Definition chan_rep m s : Prop :=
  length (channels s) = 8%nat ∧ (∀ i, 0 <= i < 8 → holds i (m !! i) s) ∧ ∀ i, ¬ 0 <= i < 8 → m !! i = None.

Lemma holds_taken i m s : chan_rep m s → 0 <= i < 8 →
  ∃ f, channels s !! Z.to_nat i = Some f ∧ taken_flag f = bool_decide (is_Some (m !! i)).
Proof.
  intros (_ & Hm & _) Hi. destruct (Hm i Hi) as (f & Hf & Ho). exists f. split; [done|]. destruct (m !! i) as [x|].
  - rewrite bool_decide_eq_true_2 by eauto. apply Ho.
  - rewrite bool_decide_eq_false_2 by (intros [? ?]; done). exact Ho.
Qed.
Lemma free_channel_lowest m s : chan_rep m s → free_channel (channels s) 0 = lowest_free 8 0 m.
Proof.
  intros Hrep. assert (∀ k i, 0 <= i → (Z.to_nat i + k = 8)%nat → free_channel (drop (Z.to_nat i) (channels s)) i = lowest_free k i m) as H.
  { induction k as [|k IH]; intros i Hi Hk; cbn [lowest_free].
    - rewrite drop_ge by (destruct Hrep as [-> _]; lia). done.
    - destruct (holds_taken i m s Hrep ltac:(lia)) as (f & Hf & Ht). rewrite (drop_S _ _ _ Hf). cbn [free_channel]. rewrite Ht.
      destruct (m !! i); cbn; [|done]. rewrite <- IH by lia. do 2 f_equal. lia. }
  apply (H 8%nat 0); lia.
Qed.
Lemma lowest_free_range k i m : i <= lowest_free k i m <= i + Z.of_nat k.
Proof. revert i. induction k as [|k IH]; intros i; cbn [lowest_free]; [lia|]. destruct (m !! i); [|lia]. specialize (IH (i + 1)). lia. Qed.
Lemma granted_range ch m : 0 <= ch → 0 <= granted ch m < 8.
Proof.
  intros Hc. unfold granted. pose proof (lowest_free_range 8 0 m). destruct (Z.eqb_spec ch 0).
  - cbv zeta. destruct (Z.eqb_spec (lowest_free 8 0 m) 8); lia.
  - destruct (decide (ch < 8 ∧ m !! ch = None)) as [H'|H']; [rewrite bool_decide_eq_true_2 by done|rewrite bool_decide_eq_false_2 by done]; lia.
Qed.
Lemma taken_set flags : taken_flag (u8 (Z.lor flags TLS_DMA_FLAGS_CHANNEL_VALID)) = true.
Proof.
  unfold taken_flag, TLS_DMA_FLAGS_CHANNEL_VALID. rewrite truth_bit by lia. unfold u8, wrap.
  rewrite Z.mod_pow2_bits_low, Z.lor_spec, testbit_one by lia. by rewrite orb_true_r.
Qed.

(** Channel [ch] gets owner [o], the others are as they were. *)
Lemma chan_update m ch o f s s' : chan_rep m s → 0 <= ch < 8 → channels s' = <[Z.to_nat ch := f]> (channels s) →
  (∀ i, i ≠ ch → d_mode (dregs s') i = d_mode (dregs s) i) →
  match o with Some flags => taken_flag f = true ∧ d_mode (dregs s') ch = flags | None => taken_flag f = false end →
  chan_rep (partial_alter (λ _, o) ch m) s'.
Proof.
  intros (Hl & Hm & Hn) Hc Hs Hmode Ho. unfold chan_rep, holds. rewrite Hs, length_insert. split; [done|]. split.
  - intros i Hi. destruct (decide (i = ch)) as [->|Hne].
    + rewrite lookup_partial_alter_eq, list_lookup_insert_eq by lia. by exists f.
    + rewrite lookup_partial_alter_ne, list_lookup_insert_ne, Hmode by (done || lia). exact (Hm i Hi).
  - intros i Hi. rewrite lookup_partial_alter_ne by (intros ->; lia). by apply Hn.
Qed.

Lemma wp_request m ch flags s : chan_rep m s → 0 <= ch < 256 →
  wp (tls_dma_request ch flags) (λ a s', a = granted ch m ∧ chan_rep (<[granted ch m := flags]> m) s' ∧ duser s' = duser s ∧
    dma_context s' = dma_context s) s.
Proof.
  intros Hrep Hc. pose proof (granted_range ch m ltac:(lia)) as Hr. unfold tls_dma_request, wr. apply wp_bind, wp_gets, wp_bind.
  apply (wp_mono _ (λ a s', a = granted ch m ∧ s' = s)).
  - unfold granted. destruct (Z.eqb_spec ch 0) as [_|Hne].
    + apply wp_ret. rewrite (free_channel_lowest m s Hrep), Z.eqb_sym. done.
    + replace ((0 <? ch) && (ch <? 8)) with (ch <? 8) by lia. destruct (Z.ltb_spec ch 8) as [Hlt|Hge].
      * destruct (holds_taken ch m s Hrep ltac:(lia)) as (f & Hf & Ht). apply wp_bind, (wp_of_opt _ f); [done|]. apply wp_ret. rewrite Ht.
        destruct (m !! ch) as [x|]; cbn; [|by rewrite bool_decide_eq_true_2 by done]. rewrite bool_decide_eq_false_2; [done|]. by intros [_ ?].
      * apply wp_ret. rewrite bool_decide_eq_false_2; [done|]. lia.
  - intros a s' [-> ->]. wp_steps. split; [done|]. split; [|done]. eapply (chan_update m _ (Some flags)); [exact Hrep|done|reflexivity|..].
    + intros i Hi. change (d_mode (dreg_wr (DMA_MODE_REG (granted ch m)) flags (dregs s)) i = d_mode (dregs s) i). rewrite wr_mode.
      by rewrite (proj2 (Z.eqb_neq _ _)).
    + split; [apply taken_set|]. change (d_mode (dreg_wr (DMA_MODE_REG (granted ch m)) flags (dregs s)) (granted ch m) = flags).
      by rewrite wr_mode, Z.eqb_refl.
Qed.

(** The registers after something that leaves the modes alone and [ch] off. *)
Definition left_off ch s s' : Prop :=
  ∃ r, s' = set_dregs r s ∧ (∀ i, d_mode r i = d_mode (dregs s) i) ∧ d_on r ch = false.
Lemma wp_wait_off k ch s s0 : (d_left (dregs s) ch < k)%nat → d_stopping (dregs s) ch = true ∨ d_on (dregs s) ch = false →
  (∃ r, s = set_dregs r s0 ∧ ∀ i, d_mode r i = d_mode (dregs s0) i) → wp (wait_off k ch) (λ _ s', left_off ch s0 s') s.
Proof.
  revert s. induction k as [|k IH]; intros s Hk Hs (r0 & -> & Hm); [lia|]. change (dregs (set_dregs r0 s0)) with r0 in *.
  cbn [wait_off]. unfold rd. wp_steps. change (dregs (set_dregs r0 s0)) with r0. pose proof (rd_chnlctrl ch r0) as Hv. pose proof (rd_stopping ch r0) as Hd.
  pose proof (rd_mode (DMA_CHNLCTRL_REG ch) r0) as Hm'. pose proof (rd_stays_off (DMA_CHNLCTRL_REG ch) r0 ch) as Hoff.
  destruct (dreg_rd (DMA_CHNLCTRL_REG ch) r0) as [v r]. cbn [fst snd] in *. unfold DMA_CHNL_CTRL_CHNL_ON. rewrite truth_bit, Hv by lia.
  assert (∀ i, d_mode r i = d_mode (dregs s0) i) as Hmr by (intros i; by rewrite Hm').
  destruct (d_on r ch) eqn:E.
  - destruct Hs as [Hs|Hs]; [|specialize (Hoff Hs); congruence]. destruct (Hd Hs) as [?|[Hs' Hlt]]; [congruence|].
    apply IH; [cbn; lia|by left|by exists r].
  - apply wp_ret. by exists r.
Qed.
Lemma wp_stop_channel ch s : 0 <= ch < 8 → wp (tls_dma_stop ch) (λ _ s', left_off ch s s') s.
Proof.
  intros Hc. unfold tls_dma_stop, rd, wr. replace (7 <? ch) with false by lia. wp_steps.
  pose proof (rd_chnlctrl ch (dregs s)) as Hv. pose proof (rd_mode (DMA_CHNLCTRL_REG ch) (dregs s)) as Hm.
  destruct (dreg_rd (DMA_CHNLCTRL_REG ch) (dregs s)) as [v r]. cbn [fst snd] in *. unfold DMA_CHNL_CTRL_CHNL_ON at 1. rewrite truth_bit, Hv by lia.
  destruct (d_on r ch) eqn:E; wp_steps.
  - change (dregs (set_dregs r s)) with r. pose proof (rd_mode (DMA_CHNLCTRL_REG ch) r) as Hm2.
    destruct (dreg_rd (DMA_CHNLCTRL_REG ch) r) as [v2 r2]. cbn [fst snd] in *.
    change (dregs (set_dregs r2 (set_dregs r s))) with r2. set (x := Z.lor v2 DMA_CHNL_CTRL_CHNL_OFF).
    set (r3 := dreg_wr (DMA_CHNLCTRL_REG ch) x r2). change (set_dregs r3 (set_dregs r2 (set_dregs r s))) with (set_dregs r3 s).
    eapply wp_mono; [apply (wp_wait_off _ ch (set_dregs r3 s) s)|].
    + apply dma_polls_enough.
    + left. change (d_stopping r3 ch = true). unfold r3, x. apply wr_stopping. rewrite Z.lor_spec. by apply orb_true_r.
    + exists r3. split; [done|]. intros i. unfold r3. by rewrite wr_mode, Hm2, Hm.
    + by intros [] s' Hs'; apply wp_ret.
  - by exists r.
Qed.

Lemma wp_free ch m s : chan_rep m s → 0 <= ch < 256 →
  wp (tls_dma_free ch) (λ _ s', chan_rep (delete ch m) s' ∧ duser s' = duser s ∧ dma_context s' = dma_context s ∧
    (ch < 8 → d_on (dregs s') ch = false ∧ d_mode (dregs s') ch = 0 ∧ ∀ k, 0 <= k < 16 → d_pend (dregs s') k = false)) s.
Proof.
  intros Hrep Hc. unfold tls_dma_free. destruct (Z.ltb_spec ch 8) as [Hlt|Hge].
  2: { apply wp_ret. rewrite delete_id by (apply Hrep; lia). split; [done|]. split; [done|]. split; [done|]. lia. }
  apply wp_bind. eapply wp_mono; [apply (wp_stop_channel ch s); lia|]. intros a s' (r & -> & Hm & Hoff). unfold rd, wr. wp_steps.
  cbn [dregs set_dregs].
  set (r4 := dreg_wr (DMA_CTRL_REG ch) 0 (dreg_wr (DMA_MODE_REG ch) 0 (dreg_wr (DMA_DESTADDR_REG ch) 0 (dreg_wr (DMA_SRCADDR_REG ch) 0 r)))).
  assert (d_on r4 ch = false) as Hoff4 by (unfold r4; repeat (apply wr_stays_off; [intros c; discriminate|]); exact Hoff).
  assert (∀ i, d_mode r4 i = if i =? ch then 0 else d_mode (dregs s) i) as Hm4.
  { intros i. unfold r4. rewrite !wr_mode. by rewrite Hm. }
  pose proof (rd_intsrc r4) as Hv. pose proof (rd_mode DMA_INTSRC_REG r4) as Hm5. pose proof (rd_stays_off DMA_INTSRC_REG r4 ch Hoff4) as Hoff5.
  destruct (dreg_rd DMA_INTSRC_REG r4) as [v r5]. cbn [fst snd] in *.
  set (w := Z.lor v (Z.shiftl 3 (ch * 2))). set (r6 := dreg_wr DMA_INTSRC_REG w r5). split; [|split; [done|split; [done|intros _]]].
  - change (delete ch m) with (partial_alter (λ _, None) ch m). eapply (chan_update m ch None); [exact Hrep|lia|reflexivity| |reflexivity].
    intros i Hi. change (d_mode r6 i = d_mode (dregs s) i). unfold r6. by rewrite wr_mode, Hm5, Hm4, (proj2 (Z.eqb_neq _ _)).
  - change (d_on r6 ch = false ∧ d_mode r6 ch = 0 ∧ ∀ k, 0 <= k < 16 → d_pend r6 k = false). split; [|split].
    + unfold r6. by apply wr_stays_off.
    + unfold r6. by rewrite wr_mode, Hm5, Hm4, Z.eqb_refl.
    + intros k Hk. unfold r6, w. rewrite wr_intsrc, Z.lor_spec, Hv by done. by destruct (d_pend r5 k).
Qed.

(** ** Interrupts *)

Lemma shift_burst x n : 0 <= n → truth (Z.land x (Z.shiftl TLS_DMA_IRQ_BURST_DONE n)) = Z.testbit x n.
Proof. apply truth_bit. Qed.
Lemma shift_transfer x n : 0 <= n → truth (Z.land x (Z.shiftl TLS_DMA_IRQ_TRANSFER_DONE n)) = Z.testbit x (n + 1).
Proof. intros Hn. unfold TLS_DMA_IRQ_TRANSFER_DONE. rewrite Z.shiftl_shiftl, Z.add_comm, truth_bit by lia. done. Qed.
Lemma shift_both x n : 0 <= n → truth (Z.land x (Z.shiftl TLS_DMA_IRQ_BOTH_DONE n)) = Z.testbit x n || Z.testbit x (n + 1).
Proof.
  intros Hn. rewrite <- shift_burst, <- shift_transfer by lia. unfold TLS_DMA_IRQ_BOTH_DONE. rewrite Z.shiftl_lor, Z.land_lor_distr_r.
  unfold truth. destruct (Z.eqb_spec (Z.land x (Z.shiftl TLS_DMA_IRQ_BURST_DONE n)) 0) as [->|Hb]; [by rewrite Z.lor_0_l|].
  cbn [negb orb]. apply negb_true_iff, Z.eqb_neq. intros H0. by apply Z.lor_eq_0_iff in H0 as [? _].
Qed.
Lemma both_bit n k : 0 <= n → 0 <= k → Z.testbit (Z.shiftl TLS_DMA_IRQ_BOTH_DONE n) k = (k =? n) || (k =? n + 1).
Proof.
  intros Hn Hk. unfold TLS_DMA_IRQ_BOTH_DONE, TLS_DMA_IRQ_BURST_DONE, TLS_DMA_IRQ_TRANSFER_DONE.
  rewrite Z.shiftl_lor, Z.lor_spec, !Z.shiftl_shiftl, !testbit_one by lia. f_equal; f_equal; lia.
Qed.

Definition pending r : Z → bool := d_pend (dreg_rd DMA_INTSRC_REG r).2.
Lemma first_pending_lowest v (p : Z → bool) k ch : (∀ j, 0 <= j < 16 → Z.testbit v j = p j) → 0 <= ch → ch + Z.of_nat k <= 8 →
  first_pending k v ch = lowest_pending k p ch.
Proof.
  intros Hv. revert ch. induction k as [|k IH]; intros ch Hc Hk; cbn [first_pending lowest_pending]; [done|].
  rewrite shift_both, !Hv by lia. replace (ch * 2) with (2 * ch) by lia. case (_ || _); [done|]. apply IH; lia.
Qed.
Lemma lowest_pending_range k (p : Z → bool) ch : ch <= lowest_pending k p ch <= ch + Z.of_nat k.
Proof. revert ch. induction k as [|k IH]; intros ch; cbn [lowest_pending]; [lia|]. case (_ || _); [lia|]. specialize (IH (ch + 1)). lia. Qed.

(** What the interrupt of channel [ch] comes to, with [cb] its callback. *)
Definition served ch (cb : option (option Z * Z)) s s' : Prop :=
  channels s' = channels s ∧ dma_context s' = dma_context s ∧
  (∀ k, 0 <= k < 16 → d_pend (dregs s') k = pending (dregs s) k && negb (bool_decide (is_Some cb) && (k / 2 =? ch))) ∧
  d_calls (duser s') = d_calls (duser s) ++ match cb with Some (Some f, a) => [(f, a)] | _ => [] end.
Lemma wp_clr_call ch f a s r : 0 <= ch < 8 → r = (dreg_rd DMA_INTSRC_REG (dregs s)).2 →
  wp (bind (tls_dma_irq_clr ch TLS_DMA_IRQ_BOTH_DONE) (λ _, call f a)) (λ _ s', served ch (Some (f, a)) s s') (set_dregs r s).
Proof.
  intros Hc ->. unfold tls_dma_irq_clr, wr. wp_steps. cbn [dregs set_dregs].
  assert (∀ k, 0 <= k < 16 → d_pend (dreg_wr DMA_INTSRC_REG (u32 (Z.shiftl TLS_DMA_IRQ_BOTH_DONE (2 * ch))) (dreg_rd DMA_INTSRC_REG (dregs s)).2) k =
    pending (dregs s) k && negb (k / 2 =? ch)) as Hp.
  { intros k Hk. rewrite wr_intsrc by done. unfold u32, wrap. rewrite Z.mod_pow2_bits_low, both_bit by lia. unfold pending. do 2 f_equal.
    destruct (Z.eqb_spec (k / 2) ch); [destruct (Z.eqb_spec k (2 * ch)); [done|]|]; cbn [orb]; dlia. }
  unfold served. destruct f as [f|]; cbn [call].
  - eapply wp_mono; [apply call_dma_ok|]. intros [] s' (u & -> & Hu). split; [done|]. split; [done|]. split; [exact Hp|exact Hu].
  - apply wp_ret. split; [done|]. split; [done|]. split; [exact Hp|]. by rewrite app_nil_r.
Qed.
Lemma unserved ch s : served ch None s (set_dregs (dreg_rd DMA_INTSRC_REG (dregs s)).2 s).
Proof. split; [done|]. split; [done|]. split; [|by rewrite app_nil_r]. intros k _. cbn. by rewrite andb_true_r. Qed.
Lemma wp_dma_irq n s : length (dma_context s) = 8%nat → 0 <= n <= 4 → wp (dma_irq_proc n)
  (λ _ s', served (irq_channel (pending (dregs s)) n) (irq_called (pending (dregs s)) n (dma_context s)) s s') s.
Proof.
  intros Hl Hn. unfold dma_irq_proc, rd. wp_steps. pose proof (unserved (irq_channel (pending (dregs s)) n) s) as Hno.
  assert (∀ j, 0 <= j < 16 → Z.testbit (dreg_rd DMA_INTSRC_REG (dregs s)).1 j = pending (dregs s) j) as Hv.
  { intros j Hj. pose proof (rd_intsrc (dregs s) j Hj) as H'. unfold pending. by destruct (dreg_rd _ _). }
  remember (dreg_rd DMA_INTSRC_REG (dregs s)).1 as v eqn:Ev. clear Ev. remember (pending (dregs s)) as p eqn:Ep.
  rewrite u8_id by ints. replace (if 3 <? n then first_pending 4 v 4 else n) with (irq_channel p n).
  2: { unfold irq_channel. destruct (Z.ltb_spec n 4), (Z.ltb_spec 3 n); [lia|done| |lia]. symmetry. apply first_pending_lowest; [done|lia|lia]. }
  assert (0 <= irq_channel p n <= 8) as Hc.
  { unfold irq_channel. pose proof (lowest_pending_range 4 p 4). destruct (n <? 4) eqn:?; lia. }
  unfold irq_called. cbv zeta. set (ch := irq_channel p n) in *. clearbody ch. destruct (Z.eqb_spec ch 8) as [->|Hne].
  - apply wp_ret. exact Hno.
  - destruct (lookup_lt_is_Some_2 (dma_context s) (Z.to_nat ch)) as [c Hcx]; [lia|]. apply wp_bind. unfold context. apply (wp_of_opt _ c); [exact Hcx|].
    rewrite Hcx. cbn [mbind option_bind]. rewrite shift_both, shift_burst, shift_transfer, !Hv by lia. replace (ch * 2) with (2 * ch) by lia.
    unfold irq_callback. cbv zeta. rewrite (Z.eqb_sym (dc_flags c) 3), (Z.eqb_sym (dc_flags c) 1), (Z.eqb_sym (dc_flags c) 2).
    change TLS_DMA_IRQ_BOTH_DONE with 3 at 1. change (TLS_DMA_IRQ_BURST_DONE =? dc_flags c) with (1 =? dc_flags c).
    change (TLS_DMA_IRQ_TRANSFER_DONE =? dc_flags c) with (2 =? dc_flags c). 
    destruct (Z.eqb_spec 3 (dc_flags c)) as [E|_]; [|destruct (Z.eqb_spec 1 (dc_flags c)) as [E|_]; [|destruct (Z.eqb_spec 2 (dc_flags c)) as [E|_]]].
    all: rewrite <- ?E, ?andb_false_r, ?andb_true_r; cbn [Z.eqb Pos.eqb]; rewrite ?andb_false_r; destruct (p (2 * ch)), (p (2 * ch + 1)); cbn [orb].
    all: first [apply wp_ret; exact Hno|apply wp_clr_call; [lia|reflexivity]].
Qed.

Lemma wp_on_context ch f c s : dma_context s !! Z.to_nat ch = Some c → ∀ Q : unit → St → Prop,
  Q tt (set_dma_context (<[Z.to_nat ch := f c]> (dma_context s)) s) → wp (on_context ch f) Q s.
Proof. intros Hc Q HQ. unfold on_context, context. apply wp_bind, (wp_of_opt _ c); [exact Hc|]. by apply wp_modify. Qed.
Lemma wp_register ch f a flags c s : 0 <= ch < 8 → dma_context s !! Z.to_nat ch = Some c →
  wp (tls_dma_irq_register ch f a flags) (λ _ s', channels s' = channels s ∧ duser s' = duser s ∧
    dma_context s' = <[Z.to_nat ch := registered f a flags c]> (dma_context s)) s.
Proof.
  intros Hc Hl. pose proof (lookup_lt_Some _ _ _ Hl) as Hlt. unfold tls_dma_irq_register, rd, wr. wp_steps.
  match goal with |- wp _ _ ?x => set (s1 := x) end. change (dma_context s !! Z.to_nat ch = Some c) with (dma_context s1 !! Z.to_nat ch = Some c) in Hl.
  apply (wp_on_context ch _ c); [exact Hl|]. apply wp_bind.
  set (c1 := set_dc_flags flags c). set (s2 := set_dma_context _ s1).
  assert (dma_context s2 !! Z.to_nat ch = Some c1) as Hl2 by (apply list_lookup_insert_eq; exact Hlt).
  apply (wp_mono _ (λ _ s', s' = set_dma_context (<[Z.to_nat ch := if Z.testbit flags 0 then set_burst_done f a c1 else c1]> (dma_context s1)) s2)).
  { unfold TLS_DMA_IRQ_BURST_DONE. rewrite truth_bit by lia. destruct (Z.testbit flags 0).
    - apply (wp_on_context ch _ c1); [exact Hl2|]. f_equal. apply list_insert_insert_eq.
    - by apply wp_ret. }
  intros [] s' ->. apply wp_bind. set (c2 := if Z.testbit flags 0 then _ else _). set (s3 := set_dma_context _ s2).
  assert (dma_context s3 !! Z.to_nat ch = Some c2) as Hl3 by (apply list_lookup_insert_eq; exact Hlt).
  apply (wp_mono _ (λ _ s', s' = set_dma_context (<[Z.to_nat ch := registered f a flags c]> (dma_context s1)) s3)).
  { unfold TLS_DMA_IRQ_TRANSFER_DONE. rewrite truth_bit by lia. unfold registered, c2. destruct (Z.testbit flags 1).
    - apply (wp_on_context ch _ c2); [exact Hl3|]. f_equal. unfold s3. cbn [dma_context set_dma_context]. rewrite list_insert_insert_eq.
      f_equal. unfold c2. by destruct (Z.testbit flags 0).
    - apply wp_ret. unfold s3, c2. by destruct (Z.testbit flags 0). }
  intros [] s' ->. eapply wp_mono; [apply dma_irq_enable_ok|]. by intros [] s' ->.
Qed.

Lemma registered_called f a flags c (p : Z → bool) ch : 1 <= flags <= 3 →
  irq_callback p ch (registered f a flags c) = if asked flags p ch then Some (f, a) else None.
Proof.
  intros Hf. assert (flags = 1 ∨ flags = 2 ∨ flags = 3) as [->|[->| ->]] by lia; unfold irq_callback, asked, registered; cbn;
    by destruct (p _); try destruct (p _).
Qed.
End spec.

(** C23: a channel has one owner.  For any sequence of requests and releases the
    driver gives the channels a table of owners gives: for 0 the lowest one
    nobody has, otherwise the one asked for if it is free, with the mode of the
    request; a release stops the channel and makes it free.  Where nothing is
    free, or the channel asked for is not, both give out channel 0 again: its
    owner loses it to the new one. *)
Theorem dma_refine_owners {R U} `{!DmaRegs R, !DmaRegsOk R, !DmaEnv R U, !DmaEnvOk R U} (cs : list dcall) m (s : dmas R U) :
  chan_rep m s → Forall valid_dcall cs → wp (do_dcalls cs) (λ rs s', let '(m', rs') := spec_dcalls cs m in
    rs = rs' ∧ chan_rep m' s' ∧ duser s' = duser s ∧ dma_context s' = dma_context s) s.
Proof.
  revert m s. induction cs as [|c cs IH]; intros m s Hrep Hv; cbn [do_dcalls spec_dcalls]; [by apply wp_ret|].
  inversion_clear Hv as [|? ? Hc Hcs]. apply wp_bind.
  apply (wp_mono _ (λ a s', a = (spec_dcall c m).2 ∧ chan_rep (spec_dcall c m).1 s' ∧ duser s' = duser s ∧ dma_context s' = dma_context s)).
  - destruct c as [ch flags|ch]; cbn [do_dcall spec_dcall fst snd].
    + apply wp_request; [done|apply Hc].
    + apply wp_bind. eapply wp_mono; [by apply (wp_free ch m)|]. intros [] s' (Hr & Hu & Hx & _). by apply wp_ret.
  - destruct (spec_dcall c m) as [m1 a']. cbn [fst snd]. intros a s1 (-> & Hrep1 & Hu1 & Hx1). apply wp_bind.
    eapply wp_mono; [by apply (IH m1)|]. intros rs s2. destruct (spec_dcalls cs m1) as [m2 rs']. intros (-> & Hrep2 & Hu2 & Hx2).
    apply wp_ret. split; [done|]. split; [done|]. split; congruence.
Qed.

(** A release clears the pending interrupts of all channels: the driver
    writes back the ones it has read. *)
Theorem dma_free_clears_all {R U} `{!DmaRegs R, !DmaRegsOk R, !DmaEnv R U, !DmaEnvOk R U} ch m (s : dmas R U) :
  chan_rep m s → 0 <= ch < 8 → wp (tls_dma_free ch) (λ _ s', d_on (dregs s') ch = false ∧ d_mode (dregs s') ch = 0 ∧
    ∀ k, 0 <= k < 16 → d_pend (dregs s') k = false) s.
Proof.
  intros Hrep Hc. eapply wp_mono; [apply (wp_free ch m s Hrep); lia|]. intros [] s' (_ & _ & _ & H). apply H. lia.
Qed.

(** C24: an interrupt calls what was registered for it.  After a
    callback has been registered for a channel, an interrupt handler that finds
    this channel pending (the last one takes the lowest of channels 4 to 7 that
    is) calls it with its argument exactly when what is pending was asked for,
    and then clears the channel's two interrupts and no other; otherwise it
    calls nothing and clears nothing.  Other channels are called as before. *)
Theorem dma_interrupt_calls {R U} `{!DmaRegs R, !DmaRegsOk R, !DmaEnv R U, !DmaEnvOk R U} ch f a flags (s : dmas R U) :
  length (dma_context s) = 8%nat → 0 <= ch < 8 → 1 <= flags <= 3 →
  wp (tls_dma_irq_register ch f a flags) (λ _ s1, channels s1 = channels s ∧ ∀ n, 0 <= n <= 4 →
    let p := pending (dregs s1) in
    let called := irq_called p n (dma_context s1) in
    wp (dma_irq_proc n) (λ _ s', served (irq_channel p n) called s1 s') s1 ∧
    called = if irq_channel p n =? ch then (if asked flags p ch then Some (f, a) else None) else irq_called p n (dma_context s)) s.
Proof.
  intros Hl Hc Hf. destruct (lookup_lt_is_Some_2 (dma_context s) (Z.to_nat ch)) as [c Hcx]; [lia|].
  eapply wp_mono; [by apply (wp_register ch f a flags c)|]. intros [] s1 (Hch & Hu & Hx). split; [exact Hch|]. intros n Hn p called. split.
  - apply wp_dma_irq; [|done]. by rewrite Hx, length_insert.
  - unfold called, irq_called. rewrite Hx. assert (0 <= irq_channel p n <= 8) as Hr.
    { unfold irq_channel. pose proof (lowest_pending_range 4 p 4). destruct (n <? 4) eqn:?; lia. }
    destruct (Z.eqb_spec (irq_channel p n) ch) as [->|Hne].
    + replace (ch =? 8) with false by lia. rewrite list_lookup_insert_eq by lia. cbn. by apply registered_called.
    + destruct (irq_channel p n =? 8) eqn:?; [done|]. by rewrite list_lookup_insert_ne by lia.
Qed.

(** A wait for a channel ends: the channel is off, or 501 ticks have passed. *)
Theorem dma_wait_bounded {R U} `{!DmaRegs R, !DmaRegsOk R, !DmaEnv R U, !DmaEnvOk R U} ch (s : dmas R U) :
  wp (tls_dma_wait_complt ch) (λ a s',
    (a = 0 ∧ d_on (dregs s') ch = false ∧ d_ticks (duser s') <= d_ticks (duser s) + 500) ∨
    (a = -1 ∧ d_ticks (duser s') = d_ticks (duser s) + 501)) s.
Proof.
  unfold tls_dma_wait_complt.
  assert (∀ k t s1, t + Z.of_nat k = 501 → 0 <= t <= 500 → d_ticks (duser s1) = d_ticks (duser s) + t → wp (wait_complt k ch t) (λ a s',
    (a = 0 ∧ d_on (dregs s') ch = false ∧ d_ticks (duser s') <= d_ticks (duser s) + 500) ∨
    (a = -1 ∧ d_ticks (duser s') = d_ticks (duser s) + 501)) s1) as H; [|apply H; lia].
  induction k as [|k IH]; intros t s1 Hk Ht Hs1; [lia|]. cbn [wait_complt]. unfold rd. wp_steps. pose proof (rd_chnlctrl ch (dregs s1)) as Hv.
  destruct (dreg_rd (DMA_CHNLCTRL_REG ch) (dregs s1)) as [v r]. cbn [fst snd]. unfold DMA_CHNL_CTRL_CHNL_ON. rewrite truth_bit, Hv by lia.
  destruct (d_on r ch) eqn:E.
  - apply wp_bind. eapply wp_mono; [apply dma_time_delay_ok|]. intros [] s2 Hs2. cbn [duser set_dregs] in Hs2.
    destruct (Z.ltb_spec 500 (t + 1)); [apply wp_ret; right; lia|]. apply IH; lia.
  - apply wp_ret. left. split; [done|]. split; [exact E|]. cbn. lia.
Qed.

(** * A device and a run *)

(** The pending interrupts as one word, the modes, and the channels that are on
    with the looks they take to stop. *)
Record dsim := mk_dsim { ds_src : Z; ds_mode : Z → Z; ds_on : Z → bool; ds_stop : Z → bool }.
Definition upd {A} (i : Z) (a : A) (f : Z → A) : Z → A := λ j, if j =? i then a else f j.
#[export] Instance dsim_regs : DmaRegs dsim := {
  dreg_rd g r := match g with
    | DMA_INTSRC_REG => (ds_src r, r)
    | DMA_CHNLCTRL_REG ch =>
        let on := ds_on r ch && negb (ds_stop r ch) in
        (if on then 1 else 0, mk_dsim (ds_src r) (ds_mode r) (upd ch on (ds_on r)) (ds_stop r))
    | _ => (0, r)
    end;
  dreg_wr g v r := match g with
    | DMA_INTSRC_REG => mk_dsim (Z.land (ds_src r) (Z.lnot v)) (ds_mode r) (ds_on r) (ds_stop r)
    | DMA_MODE_REG ch => mk_dsim (ds_src r) (upd ch v (ds_mode r)) (ds_on r) (ds_stop r)
    | DMA_CHNLCTRL_REG ch => mk_dsim (ds_src r) (ds_mode r) (upd ch (Z.testbit v 0) (ds_on r)) (upd ch (Z.testbit v 1) (ds_stop r))
    | _ => r
    end;
}.
#[export] Program Instance dsim_regs_ok : DmaRegsOk dsim := {
  d_pend r k := Z.testbit (ds_src r) k;
  d_mode := ds_mode;
  d_on := ds_on;
  d_stopping := ds_stop;
  d_left _ _ := O;
}.
Next Obligation. by intros []. Qed.
Next Obligation. by intros []. Qed.
Next Obligation. intros [] r c H; cbn; try done. unfold upd. destruct (Z.eqb_spec c ch) as [->|]; [by rewrite H|done]. Qed.
Next Obligation. done. Qed.
Next Obligation. intros ch r. cbn. unfold upd. rewrite Z.eqb_refl. by destruct (ds_on r ch), (ds_stop r ch). Qed.
Next Obligation. intros ch r H r'. left. unfold r'. cbn. unfold upd. rewrite Z.eqb_refl, H. apply andb_false_r. Qed.
Next Obligation. intros v r k Hk. cbn. by rewrite Z.land_spec, Z.lnot_spec by lia. Qed.
Next Obligation. by intros []. Qed.
Next Obligation. by intros []. Qed.
Next Obligation. intros [] v r c Hg H; try done. by destruct (Hg ch). Qed.
Next Obligation. intros ch v r H. cbn. unfold upd. by rewrite Z.eqb_refl. Qed.

#[export] Instance dlog_env : DmaEnv dsim (list (Z * Z) * Z) := {
  call_dma f a := modify (λ s, set_duser ((duser s).1 ++ [(f, a)], (duser s).2) s);
  dma_irq_enable _ := ret tt;
  dma_time_delay n := modify (λ s, set_duser ((duser s).1, (duser s).2 + n) s);
  dma_polls := 1;
}.
#[export] Instance dlog_env_ok : DmaEnvOk dsim (list (Z * Z) * Z).
Proof.
  refine {| d_calls := fst; d_ticks := snd |}; [|done|done|intros r ch; cbn; lia].
  intros f a s. by exists ((duser s).1 ++ [(f, a)], (duser s).2).
Defined.

Definition fresh_dmas : dmas dsim (list (Z * Z) * Z) :=
  mk_dmas (replicate 8 (mk_dctx 0 None 0 None 0)) (replicate 8 0) (mk_dsim 0 (λ _, 0) (λ _, false) (λ _, false)) ([], 0).
Lemma fresh_dmas_rep : chan_rep ∅ fresh_dmas.
Proof.
  split; [done|]. split; [|intros i _; apply lookup_empty]. intros i Hi. exists 0. split; [|by rewrite lookup_empty].
  cbn [channels fresh_dmas]. apply lookup_replicate_2. lia.
Qed.
(** Two for whoever asks, channel 3, channel 0 released and given out again, then channel 3 asked for
    a second time: its asker is given channel 0, which has an owner. *)
Definition dma_script : list dcall := [Request 0 5; Request 0 9; Request 3 13; Release 0; Request 0 17; Request 3 21].
Lemma dma_refine_owners_witness : wp (do_dcalls dma_script) (λ rs s', rs = [0; 1; 3; 0; 0; 0] ∧ d_mode (dregs s') 0 = 21) fresh_dmas.
Proof.
  eapply wp_mono; [apply (dma_refine_owners dma_script ∅ fresh_dmas); [exact fresh_dmas_rep|]|].
  - repeat (apply Forall_cons_2; [cbn; lia|]). apply Forall_nil_2.
  - intros rs s'. destruct (spec_dcalls dma_script ∅) as [m' rs'] eqn:E.
    assert (rs' = [0; 1; 3; 0; 0; 0]) as -> by (change (rs' = [0; 1; 3; 0; 0; 0]); assert ((spec_dcalls dma_script ∅).2 = [0; 1; 3; 0; 0; 0]) as E1 by (vm_compute; reflexivity); by rewrite E in E1).
    assert (m' !! 0 = Some 21) as Hm by (assert ((spec_dcalls dma_script ∅).1 !! 0 = Some 21) as E1 by (vm_compute; reflexivity); by rewrite E in E1).
    intros (-> & (_ & Hrep & _) & _). split; [reflexivity|]. destruct (Hrep 0) as (f & _ & Ho); [lia|]. rewrite Hm in Ho. apply Ho.
Defined.

(** Channels 5 and 6 have finished; 5 is the one a callback is registered for. *)
Definition finished_dmas : dmas dsim (list (Z * Z) * Z) := set_dregs (mk_dsim 0x2800 (λ _, 0) (λ _, false) (λ _, false)) fresh_dmas.
Lemma dma_interrupt_calls_witness : wp (bind (tls_dma_irq_register 5 (Some 77) 4 TLS_DMA_IRQ_TRANSFER_DONE) (λ _, DMA_Channel4_7_IRQHandler))
  (λ _ s', d_calls (duser s') = [(77, 4)] ∧ d_pend (dregs s') 11 = false ∧ d_pend (dregs s') 13 = true) finished_dmas.
Proof.
  apply wp_bind. set (Q := λ (_ : unit) (s1 : dmas dsim (list (Z * Z) * Z)), duser s1 = ([], 0) ∧ ds_src (dregs s1) = 0x2800).
  assert (wp (tls_dma_irq_register 5 (Some 77) 4 TLS_DMA_IRQ_TRANSFER_DONE) Q finished_dmas) as HQ by (vm_compute; split; reflexivity).
  pose proof (dma_interrupt_calls 5 (Some 77) 4 TLS_DMA_IRQ_TRANSFER_DONE finished_dmas eq_refl ltac:(lia) ltac:(vm_compute; split; discriminate)) as H.
  apply wp_total in HQ as (a & s1 & Hrun & Hu & Hs). apply wp_total. apply wp_total in H as (b & s2 & Hrun2 & _ & Hcalls).
  rewrite Hrun in Hrun2. injection Hrun2 as _ <-. exists a, s1. split; [exact Hrun|].
  destruct (Hcalls 4) as [Hserved Hc]; [lia|].
  assert (∀ k, pending (dregs s1) k = Z.testbit 0x2800 k) as Hp by (intros k; unfold pending; cbn; by rewrite Hs).
  assert (irq_channel (pending (dregs s1)) 4 = 5) as Hch by (unfold irq_channel; cbn [Z.ltb Z.compare Pos.compare Pos.compare_cont lowest_pending]; rewrite !Hp; reflexivity).
  rewrite Hch in Hserved, Hc. replace (asked TLS_DMA_IRQ_TRANSFER_DONE (pending (dregs s1)) 5) with true in Hc by (unfold asked; by rewrite !Hp).
  cbn [Z.eqb Pos.eqb] in Hc. rewrite Hc in Hserved. eapply wp_mono; [exact Hserved|]. intros [] s' (_ & _ & Hpend & Hl).
  rewrite Hl, Hu. split; [reflexivity|]. split; [rewrite Hpend, Hp by lia; reflexivity|rewrite Hpend, Hp by lia; reflexivity].
Defined.
