(* ===== verification/Efuse.v ===== *)
(** * [src/Platform/Drivers/efuse/wm_efuse.c]: the factory parameters

    The MAC address and the calibration of the radio, measured at production,
    are kept twice: at the start of the flash and in its security registers,
    each copy with a checksum.  [tls_ft_param_init] loads a copy that is intact
    and repairs the other. *)
From S2P Require Import Prelude Utils FlashStore ParamLayout Params HwCrc.

Definition FT_SIGNATURE_WORD := 0xa0ffff9f.
Definition FT_MAGICNUM_ADDR := 0x8000000.
Definition MAC_ADDR_LEN := 8.
Definition FT_GAIN_LEN := 84.
Definition TX_GAIN_LEN := 28 * 3.
Definition FT_PARAM_SIZE := 128.
Definition VCG_ADDR := FT_MAGICNUM_ADDR + FT_PARAM_SIZE + 4.
Definition VCG_LEN := 4.
Definition QFLASH_BASE_ADDR := 0x8000000 + 0x1000.
Definition QFLASH_CHIP_ID_BASE_ADDR := QFLASH_BASE_ADDR + 12 + 4.
Definition QFLASH_CHIP_ID_LEN := 16.
Definition CMD_MAC := 1.
Definition CMD_TX_DC := 2.
Definition CMD_RX_DC := 3.
Definition CMD_TX_IQ_GAIN := 4.
Definition CMD_RX_IQ_GAIN := 5.
Definition CMD_TX_IQ_PHASE := 6.
Definition CMD_RX_IQ_PHASE := 7.
Definition CMD_TX_GAIN := 8.
Definition TLS_EFUSE_STATUS_OK := 0.
Definition default_mac : list Z := [0x00; 0x25; 0x08; 0x09; 0x01; 0x0F].

(** [FT_PARAM_ST]: 128 bytes, little-endian. *)
Definition ft_magic (b : list Z) : Z := u32_at b 0.
Definition ft_checksum (b : list Z) : Z := u32_at b 4.
Definition FT_MAC := 12.
Definition FT_TX_DC := 20.
Definition FT_RX_DC := 24.
Definition FT_TX_IQ_GAIN := 28.
Definition FT_RX_IQ_GAIN := 32.
Definition FT_TX_IQ_PHASE := 36.
Definition FT_RX_IQ_PHASE := 40.
Definition FT_TX_GAIN := 44.

(** The calls of the internal flash driver that [FlashDev] does not have: the
    block protection and the security registers, [flashSRRW offset buf sz
    backbuf backlen rd], which returns the two buffers. *)
Class Otp (F : Type) := {
  otp_unlock : M F Z;
  otp_lock : M F Z;
  otp_srrw : Z → list Z → Z → list Z → Z → Z → M F (list Z * list Z);
}.

(** The first sectors can be read, and written when they are unlocked; the
    512 bytes of the security registers are read into a buffer, or rewritten
    from the start with the bytes of one. *)
Class OtpOk (F : Type) `{!FlashDev F} `{!Otp F} := {
  otp_ok : F → Prop;
  otp_open : F → bool;
  otp_mem : F → Z → Z;
  otp_sr : F → Z → Z;
  otp_mem_u8 f a : is_u8 (otp_mem f a);
  otp_sr_u8 f a : is_u8 (otp_sr f a);
  otp_read_ok a buf n f : otp_ok f → 0x8000000 <= a → a + n <= 0x8002000 → 0 < n <= blen buf →
    wp (fls_read a buf n) (λ r f', r = (0, splice buf 0 (otp_mem f <$> seqZ a n)) ∧
      otp_ok f' ∧ otp_open f' = otp_open f ∧ (∀ x, otp_mem f' x = otp_mem f x) ∧
      ∀ x, otp_sr f' x = otp_sr f x) f;
  otp_write_ok a buf n f : otp_ok f → otp_open f = true →
    0x8000000 <= a → a + n <= 0x8002000 → 0 < n <= blen buf → bytes_ok buf →
    wp (fls_write a buf n) (λ r f', r = 0 ∧ otp_ok f' ∧ otp_open f' = true ∧
      (∀ x, otp_mem f' x = if (a <=? x) && (x <? a + n) then default 0 (byte_at buf (x - a))
                           else otp_mem f x) ∧
      ∀ x, otp_sr f' x = otp_sr f x) f;
  otp_unlock_ok f : otp_ok f → wp otp_unlock (λ _ f', otp_ok f' ∧ otp_open f' = true ∧
    (∀ x, otp_mem f' x = otp_mem f x) ∧ ∀ x, otp_sr f' x = otp_sr f x) f;
  otp_lock_ok f : otp_ok f → wp otp_lock (λ _ f', otp_ok f' ∧
    (∀ x, otp_mem f' x = otp_mem f x) ∧ ∀ x, otp_sr f' x = otp_sr f x) f;
  otp_sr_read_ok buf n bb f : otp_ok f → 0 < n <= 512 → n <= blen buf → blen bb = 512 →
    wp (otp_srrw 0 buf n bb 512 1) (λ r f', r.1 = splice buf 0 (otp_sr f <$> seqZ 0 n) ∧
      blen r.2 = 512 ∧ otp_ok f' ∧ (∀ x, otp_mem f' x = otp_mem f x) ∧
      ∀ x, otp_sr f' x = otp_sr f x) f;
  otp_sr_write_ok buf n bb f : otp_ok f → 0 < n <= 512 → n <= blen buf → blen bb = 512 →
    bytes_ok buf →
    wp (otp_srrw 0 buf n bb 512 0) (λ r f', r.1 = buf ∧
      otp_ok f' ∧ (∀ x, otp_mem f' x = otp_mem f x) ∧
      ∀ x, otp_sr f' x = if (0 <=? x) && (x <? n) then default 0 (byte_at buf x) else otp_sr f x) f;
}.

(** The globals [gftParam] and [_chip_id], the flash, the allocator and the
    register of the crypto unit. *)
Record ft (F : Type) := mk_ft {
  ft_fl : F;
  ft_hp : heap;
  ft_cfg : Z;
  gftParam : list Z;
  chip_id : list Z;
}.
Arguments mk_ft {F}.
Arguments ft_fl {F}.
Arguments ft_hp {F}.
Arguments ft_cfg {F}.
Arguments gftParam {F}.
Arguments chip_id {F}.

Section setters.
Context {F : Type}.
Implicit Type s : ft F.
Definition set_ft_fl (x : F) s := mk_ft x (ft_hp s) (ft_cfg s) (gftParam s) (chip_id s).
Definition set_ft_hp x s := mk_ft (ft_fl s) x (ft_cfg s) (gftParam s) (chip_id s).
Definition set_ft_cfg x s := mk_ft (ft_fl s) (ft_hp s) x (gftParam s) (chip_id s).
Definition set_gft x s := mk_ft (ft_fl s) (ft_hp s) (ft_cfg s) x (chip_id s).
Definition set_chip_id x s := mk_ft (ft_fl s) (ft_hp s) (ft_cfg s) (gftParam s) x.
End setters.

Section ops.
Context {F : Type} `{!FlashDev F} `{!Otp F} `{!CrcEngine}.
Local Open Scope c_scope.
Local Abbreviation MF := (M (ft F)).

Definition on_fl {A} (m : M F A) : MF A := lift ft_fl set_ft_fl m.
Definition falloc (n : Z) : MF (option (list Z)) := lift ft_hp set_ft_hp (malloc n).

(** The checksum of what follows the first three words. *)
Definition ft_crc (b : list Z) : MF Z :=
  let ctx := tls_crypto_crc_init 0xFFFFFFFF CRYPTO_CRC_TYPE_32 (Z.lor INPUT_REFLECT OUTPUT_REFLECT) in
  let* ctx := lift ft_cfg set_ft_cfg
    (tls_crypto_crc_update ctx (drop 12 b) (FT_PARAM_SIZE - 12)) in
  ret (tls_crypto_crc_final ctx).

(** [flashSRRW(0, buf, sizeof(FT_PARAM_ST), pmem, 512, 0)] *)
Definition sr_write (buf pmem : list Z) : MF unit :=
  on_fl (otp_srrw 0 buf FT_PARAM_SIZE pmem 512 0) ;; ret tt.
(** [tls_fls_write] between [tls_flash_unlock] and [tls_flash_lock] *)
Definition unlocked_write (addr : Z) (buf : list Z) (len : Z) : MF unit :=
  on_fl otp_unlock ;;
  on_fl (fls_write addr buf len) ;;
  on_fl otp_lock ;;
  ret tt.

(** The loop body for the copy in [pft]: the entry of [usedcnt]. *)
Definition check_copy (pft : list Z) : MF Z :=
  if ft_magic pft =? FT_SIGNATURE_WORD then
    let* crcvalue := ft_crc pft in
    if negb (ft_checksum pft =? crcvalue) then ret (-1)
    else
      let* g := gets gftParam in
      (if negb (ft_magic g =? FT_SIGNATURE_WORD) then modify (set_gft pft) else ret tt) ;;
      ret 0
  else ret (-1).

Definition tls_ft_param_init : MF bool :=
  let* g := gets gftParam in
  if ft_magic g =? FT_SIGNATURE_WORD then ret true
  else
    let* pmem := falloc 512 in
    match pmem with
    | None => ret false
    | Some pmem =>
        let* pft := falloc FT_PARAM_SIZE in
        match pft with
        | None => ret false
        | Some pft =>
            let* ' (_, pft) := on_fl (fls_read FT_MAGICNUM_ADDR pft FT_PARAM_SIZE) in
            let* used0 := check_copy pft in
            let* ' (pft, pmem) := on_fl (otp_srrw 0 pft FT_PARAM_SIZE pmem 512 1) in
            let* used1 := check_copy pft in
            let* g := gets gftParam in
            (if used0 + used1 =? -2 then ret tt
             else if used0 <? 0 then unlocked_write FT_MAGICNUM_ADDR g FT_PARAM_SIZE
             else if used1 <? 0 then sr_write g pmem
             else if negb (ft_checksum g =? ft_checksum pft) then sr_write g pmem
             else ret tt) ;;
            ret true
        end
    end.

(** [*(unsigned int * )data = gftParam.<member>] and the other way round. *)
Definition get_word (o : Z) (data : list Z) : MF (Z * list Z) :=
  let* g := gets gftParam in
  let* data := of_opt (memcpy data 0 g o 4) in ret (0, data).
Definition gft_copy (o : Z) (data : list Z) (n : Z) : MF bool :=
  let* g := gets gftParam in
  let* g := of_opt (memcpy g o data 0 n) in modify (set_gft g) ;; ret true.

Definition tls_ft_param_get (opnum : Z) (data : list Z) (rdlen : Z) : MF (Z * list Z) :=
  switch opnum
    [(CMD_MAC,
        let* g := gets gftParam in
        let* m := of_opt (mapM (byte_at g) (seqZ FT_MAC 6)) in
        let* data :=
          if truth (Z.land (default 0 (m !! O)) 1) || (0 =? foldl Z.lor 0 m)
          then of_opt (memcpy data 0 default_mac 0 rdlen)
          else of_opt (memcpy data 0 g FT_MAC rdlen) in
        ret (0, data));
     (CMD_TX_DC, get_word FT_TX_DC data);
     (CMD_RX_DC, get_word FT_RX_DC data);
     (CMD_TX_IQ_GAIN, get_word FT_TX_IQ_GAIN data);
     (CMD_RX_IQ_GAIN, get_word FT_RX_IQ_GAIN data);
     (CMD_TX_IQ_PHASE, get_word FT_TX_IQ_PHASE data);
     (CMD_RX_IQ_PHASE, get_word FT_RX_IQ_PHASE data);
     (CMD_TX_GAIN,
        let* g := gets gftParam in
        let* data := of_opt (memcpy data 0 g FT_TX_GAIN
          (if rdlen <? FT_GAIN_LEN then rdlen else FT_GAIN_LEN)) in
        ret (0, data))]
    (ret (-1, data)).

(** The case of the switch: whether the identifier is known. *)
Definition ft_set_case (opnum : Z) (data : list Z) (len : Z) : MF bool :=
  switch opnum
    [(CMD_MAC, gft_copy FT_MAC data len);
     (CMD_TX_DC, gft_copy FT_TX_DC data 4);
     (CMD_RX_DC, gft_copy FT_RX_DC data 4);
     (CMD_TX_IQ_GAIN, gft_copy FT_TX_IQ_GAIN data 4);
     (CMD_RX_IQ_GAIN, gft_copy FT_RX_IQ_GAIN data 4);
     (CMD_TX_IQ_PHASE, gft_copy FT_TX_IQ_PHASE data 4);
     (CMD_RX_IQ_PHASE, gft_copy FT_RX_IQ_PHASE data 4);
     (CMD_TX_GAIN, gft_copy FT_TX_GAIN data (if FT_GAIN_LEN <=? len then FT_GAIN_LEN else len))]
    (ret false).

(** Mark the record as valid and compute its checksum. *)
Definition ft_seal : MF unit :=
  let* g := gets gftParam in
  let g := splice g 0 (le32 FT_SIGNATURE_WORD) in
  modify (set_gft g) ;;
  let* crc := ft_crc g in
  modify (set_gft (splice g 4 (le32 crc))).

Definition tls_ft_param_set (opnum : Z) (data : option (list Z)) (len : Z) : MF Z :=
  match data with
  | None => ret (-1)
  | Some data =>
      if len =? 0 then ret (-1)
      else
        let* known := ft_set_case opnum data len in
        if negb known then ret (-1)
        else
          ft_seal ;;
          let* g := gets gftParam in
          unlocked_write FT_MAGICNUM_ADDR g FT_PARAM_SIZE ;;
          let* pmem := falloc 512 in
          match pmem with
          | Some pmem => sr_write g pmem ;; ret 0
          | None => ret 0
          end
  end.

Definition tls_get_mac_addr (mac : list Z) : MF (Z * list Z) := tls_ft_param_get CMD_MAC mac 6.
Definition tls_set_mac_addr (mac : option (list Z)) : MF Z := tls_ft_param_set CMD_MAC mac 6.
Definition tls_get_tx_lo (txlo : list Z) : MF (Z * list Z) := tls_ft_param_get CMD_TX_DC txlo 4.
Definition tls_set_tx_lo (txlo : option (list Z)) : MF Z := tls_ft_param_set CMD_TX_DC txlo 4.
Definition tls_get_tx_iq_gain (g : list Z) : MF (Z * list Z) := tls_ft_param_get CMD_TX_IQ_GAIN g 4.
Definition tls_set_tx_iq_gain (g : option (list Z)) : MF Z := tls_ft_param_set CMD_TX_IQ_GAIN g 4.
Definition tls_get_rx_iq_gain (g : list Z) : MF (Z * list Z) := tls_ft_param_get CMD_RX_IQ_GAIN g 4.
Definition tls_set_rx_iq_gain (g : option (list Z)) : MF Z := tls_ft_param_set CMD_RX_IQ_GAIN g 4.
Definition tls_get_tx_iq_phase (p : list Z) : MF (Z * list Z) := tls_ft_param_get CMD_TX_IQ_PHASE p 4.
Definition tls_set_tx_iq_phase (p : option (list Z)) : MF Z := tls_ft_param_set CMD_TX_IQ_PHASE p 4.
Definition tls_get_rx_iq_phase (p : list Z) : MF (Z * list Z) := tls_ft_param_get CMD_RX_IQ_PHASE p 4.
Definition tls_set_rx_iq_phase (p : option (list Z)) : MF Z := tls_ft_param_set CMD_RX_IQ_PHASE p 4.
Definition tls_get_tx_gain (txgain : list Z) : MF (Z * list Z) :=
  let* ' (_, txgain) := tls_ft_param_get CMD_TX_GAIN txgain TX_GAIN_LEN in
  ret (TLS_EFUSE_STATUS_OK, txgain).
Definition tls_set_tx_gain (txgain : option (list Z)) : MF Z :=
  tls_ft_param_set CMD_TX_GAIN txgain TX_GAIN_LEN ;; ret TLS_EFUSE_STATUS_OK.

(** The two words behind the record, which have no second copy. *)
Definition word_op (addr len : Z) (buf : list Z) (flag : Z) : MF (Z * list Z) :=
  on_fl otp_unlock ;;
  let* buf :=
    if truth flag then on_fl (fls_write addr buf len) ;; ret buf
    else let* ' (_, buf) := on_fl (fls_read addr buf len) in ret buf in
  on_fl otp_lock ;;
  ret (TLS_EFUSE_STATUS_OK, buf).
Definition tls_freq_err_op (freqerr : list Z) (flag : Z) : MF (Z * list Z) :=
  word_op (FT_MAGICNUM_ADDR + FT_PARAM_SIZE) 4 freqerr flag.
Definition tls_rf_vcg_ctrl_op (vcg : list Z) (flag : Z) : MF (Z * list Z) :=
  word_op VCG_ADDR VCG_LEN vcg flag.

Definition tls_get_chipid (dest : list Z) : MF (Z * list Z) :=
  let* id := gets chip_id in
  let* ret_ :=
    if bool_decide (id = replicate 16 0xff) then
      let* ' (r, id) := on_fl (fls_read QFLASH_CHIP_ID_BASE_ADDR id QFLASH_CHIP_ID_LEN) in
      modify (set_chip_id id) ;; ret r
    else ret 0 in
  if 0 =? ret_ then
    let* id := gets chip_id in
    let* dest := of_opt (memcpy dest 0 id 0 QFLASH_CHIP_ID_LEN) in ret (ret_, dest)
  else ret (ret_, dest).
End ops.

(** ** What the operations do *)

(** The two copies. *)
Section laws.
Context {F : Type} `{OtpOk F} `{CrcEngineOk}.
Local Open Scope c_scope.

Definition ft_flash (f : F) : list Z := otp_mem f <$> seqZ FT_MAGICNUM_ADDR FT_PARAM_SIZE.
Definition ft_sr (f : F) : list Z := otp_sr f <$> seqZ 0 FT_PARAM_SIZE.

(** The checksum of a record, and whether it is intact. *)
Definition crc_of (b : list Z) : Z := foldl crc32_byte 0xFFFFFFFF (slice b 12 116).
Definition ft_valid (b : list Z) : bool :=
  (ft_magic b =? FT_SIGNATURE_WORD) && (ft_checksum b =? crc_of b).
Definition ft_rec (b : list Z) : Prop := blen b = FT_PARAM_SIZE ∧ bytes_ok b.

Lemma ft_flash_rec f : ft_rec (ft_flash f).
Proof. split; [by apply blen_fmap_seqZ|]. apply bytes_ok_fmap. apply otp_mem_u8. Qed.
Lemma ft_sr_rec f : ft_rec (ft_sr f).
Proof. split; [by apply blen_fmap_seqZ|]. apply bytes_ok_fmap. apply otp_sr_u8. Qed.

(** The device after an operation that changes neither copy. *)
Definition same_dev (f f' : F) : Prop :=
  otp_ok f' ∧ (∀ x, otp_mem f' x = otp_mem f x) ∧ ∀ x, otp_sr f' x = otp_sr f x.
Lemma same_copies f f' : same_dev f f' → ft_flash f' = ft_flash f ∧ ft_sr f' = ft_sr f.
Proof. intros (_ & Hm & Hs). split; apply list_fmap_ext; auto. Qed.

Lemma wp_on_ft {A} (m : M F A) (P : A → F → Prop) (Q : A → ft F → Prop) s :
  wp m P (ft_fl s) → (∀ a f, P a f → Q a (set_ft_fl f s)) → wp (on_fl m) Q s.
Proof. intros Hm HQ. apply wp_lift. by eapply wp_mono. Qed.
Lemma wp_falloc n (Q : option (list Z) → ft F → Prop) s : 0 <= n →
  (∀ b s', ft_hp s O ≠ None → blen b = n → ft_fl s' = ft_fl s → gftParam s' = gftParam s →
     (∀ k, ft_hp s' k = ft_hp s (S k)) → Q (Some b) s') →
  (∀ s', ft_hp s O = None → ft_fl s' = ft_fl s → gftParam s' = gftParam s → Q None s') →
  wp (falloc n) Q s.
Proof.
  intros Hn HS HN. apply wp_lift. unfold malloc, wp. destruct (ft_hp s O) as [junk|]; [|by apply HN].
  apply HS; [done| |done..]. by apply blen_fmap_seqZ.
Qed.

Lemma wp_ft_crc b s (Q : Z → ft F → Prop) : ft_rec b →
  (∀ c, Q (crc_of b) (set_ft_cfg c s)) → wp (ft_crc b) Q s.
Proof.
  intros [Hl Hok] HQ. unfold FT_PARAM_SIZE in Hl. unfold ft_crc. apply wp_bind, wp_lift.
  change (tls_crypto_crc_init _ _ _) with (crc32_ctx 0xFFFFFFFF).
  apply wp_crc_update; [by unfold is_u32|by apply Forall_drop|done| |].
  { unfold blen in *. rewrite length_drop. unfold FT_PARAM_SIZE. lia. }
  intros c. apply wp_ret. apply HQ.
Qed.

Lemma wp_check_copy b s (Q : Z → ft F → Prop) : ft_rec b →
  (∀ s', ft_fl s' = ft_fl s → ft_hp s' = ft_hp s →
     gftParam s' = (if ft_valid b && negb (ft_magic (gftParam s) =? FT_SIGNATURE_WORD)
                    then b else gftParam s) →
     Q (if ft_valid b then 0 else -1) s') →
  wp (check_copy b) Q s.
Proof.
  intros Hb HQ. unfold check_copy, ft_valid in *. destruct (ft_magic b =? FT_SIGNATURE_WORD).
  2: { apply wp_ret. by apply HQ. }
  apply wp_bind, wp_ft_crc; [done|]. intros c.
  destruct (ft_checksum b =? crc_of b); cbn [andb negb] in *; [|apply wp_ret; by apply HQ].
  wp_steps. cbn [gftParam set_ft_cfg].
  destruct (negb (ft_magic (gftParam s) =? FT_SIGNATURE_WORD)); wp_steps; by apply HQ.
Qed.

(** The bytes of a record where it has been written. *)
Lemma written_fmap (m m' : Z → Z) a n b : blen b = n →
  (∀ x, m' x = if (a <=? x) && (x <? a + n) then default 0 (byte_at b (x - a)) else m x) →
  m' <$> seqZ a n = b.
Proof.
  intros Hl Hm. pose proof (blen_nonneg b). apply byte_at_ext; [rewrite blen_fmap_seqZ by lia; done|].
  intros i Hi. rewrite blen_fmap_seqZ in Hi by lia. rewrite byte_at_fmap_seqZ by done.
  rewrite Hm. replace ((a <=? a + i) && (a + i <? a + n))%bool with true by lia.
  replace (a + i - a) with i by lia. destruct (byte_at_is_Some b i) as [x ->]; [lia|done].
Qed.

Lemma wp_unlocked_write b s (Q : unit → ft F → Prop) : ft_rec b → otp_ok (ft_fl s) →
  (∀ f, otp_ok f → ft_flash f = b → ft_sr f = ft_sr (ft_fl s) → Q tt (set_ft_fl f s)) →
  wp (unlocked_write FT_MAGICNUM_ADDR b FT_PARAM_SIZE) Q s.
Proof.
  intros [Hl Hok] Hf HQ. unfold unlocked_write.
  apply wp_bind. eapply wp_on_ft; [by apply otp_unlock_ok|]. intros _ f1 (K1 & Ho & Hm1 & Hs1).
  apply wp_bind. eapply wp_on_ft.
  { apply otp_write_ok; try done; unfold FT_MAGICNUM_ADDR, FT_PARAM_SIZE in *; lia. }
  intros _ f2 (_ & K2 & _ & Hm2 & Hs2). apply wp_bind.
  eapply wp_on_ft; [by apply otp_lock_ok|]. intros _ f3 (K3 & Hm3 & Hs3). apply wp_ret.
  apply HQ; [done| |].
  - eapply (written_fmap (otp_mem f1)); [done|]. intros x. rewrite Hm3. apply Hm2.
  - apply list_fmap_ext. intros i x _. by rewrite Hs3, Hs2, Hs1.
Qed.

Lemma wp_sr_write b pmem s (Q : unit → ft F → Prop) : ft_rec b → otp_ok (ft_fl s) →
  blen pmem = 512 →
  (∀ f, otp_ok f → ft_sr f = b → ft_flash f = ft_flash (ft_fl s) → Q tt (set_ft_fl f s)) →
  wp (sr_write b pmem) Q s.
Proof.
  intros [Hl Hok] Hf Hp HQ. unfold sr_write. apply wp_bind. eapply wp_on_ft.
  { apply otp_sr_write_ok; try done; rewrite Hl; done. }
  intros r f1 (_ & K1 & Hm1 & Hs1). apply wp_ret. apply HQ; [done| |].
  - eapply (written_fmap (otp_sr (ft_fl s))); [done|]. intros x. rewrite Hs1.
    by replace (x - 0) with x by lia.
  - apply list_fmap_ext. intros i x _. by rewrite Hm1.
Qed.

(** ** Start-up *)

(** The state at power-up. *)
Definition booted (s : ft F) : Prop :=
  otp_ok (ft_fl s) ∧ ft_magic (gftParam s) ≠ FT_SIGNATURE_WORD ∧ ft_rec (gftParam s) ∧
  ∀ k, ft_hp s k ≠ None.

(** What [tls_ft_param_init] makes of the copies [x] and [y]. *)
Definition recovered (x y g : list Z) (s' : ft F) : Prop :=
  otp_ok (ft_fl s') ∧ gftParam s' = (if ft_valid x then x else if ft_valid y then y else g) ∧
  ft_flash (ft_fl s') = (if ft_valid x then x else if ft_valid y then y else x) ∧
  ft_sr (ft_fl s') =
    (if ft_valid x && negb (ft_valid y && (ft_checksum x =? ft_checksum y)) then x else y).

(** The end of the start-up: the copy that is missing or behind is written. *)
Lemma wp_repair g pmem y used0 used1 s (P : ft F → Prop) :
  gftParam s = g → ft_rec g → otp_ok (ft_fl s) → blen pmem = 512 →
  (used0 + used1 = -2 → P s) →
  (used0 + used1 ≠ -2 → used0 < 0 → ∀ f, otp_ok f → ft_flash f = g → ft_sr f = ft_sr (ft_fl s) →
    P (set_ft_fl f s)) →
  (used0 + used1 ≠ -2 → 0 <= used0 → used1 < 0 ∨ ft_checksum g ≠ ft_checksum y →
    ∀ f, otp_ok f → ft_sr f = g → ft_flash f = ft_flash (ft_fl s) → P (set_ft_fl f s)) →
  (0 <= used0 → 0 <= used1 → ft_checksum g = ft_checksum y → P s) →
  wp (bind (if used0 + used1 =? -2 then ret tt
            else if used0 <? 0 then unlocked_write FT_MAGICNUM_ADDR g FT_PARAM_SIZE
            else if used1 <? 0 then sr_write g pmem
            else if negb (ft_checksum g =? ft_checksum y) then sr_write g pmem
            else ret tt) (λ _, ret true)) (λ r s', r = true ∧ P s') s.
Proof.
  intros Hg Hrec Hf Hp P1 P2 P3 P4.
  repeat case_if; apply wp_bind.
  - apply wp_ret, wp_ret. auto.
  - apply wp_unlocked_write; [done|done|]. intros f ???. apply wp_ret. auto.
  - apply wp_sr_write; [done..|]. intros f ???. apply wp_ret. split; [done|]. apply P3; auto; lia.
  - apply wp_sr_write; [done..|]. intros f ???. apply wp_ret. split; [done|]. apply P3; auto; lia.
  - apply wp_ret, wp_ret. split; [done|]. apply P4; lia.
Qed.

Lemma wp_ft_init s : booted s →
  wp tls_ft_param_init (λ r s', r = true ∧
    recovered (ft_flash (ft_fl s)) (ft_sr (ft_fl s)) (gftParam s) s') s.
Proof.
  intros (Hf & Hg & Hgr & Hh). unfold tls_ft_param_init. wp_steps.
  assert ((ft_magic (gftParam s) =? FT_SIGNATURE_WORD) = false) as Hgf by lia. rewrite Hgf.
  pose proof (ft_flash_rec (ft_fl s)) as Hx. pose proof (ft_sr_rec (ft_fl s)) as Hy.
  set (x := ft_flash (ft_fl s)) in *. set (y := ft_sr (ft_fl s)) in *.
  apply wp_bind, wp_falloc; [done| |intros s' Hn; by destruct (Hh O)].
  intros pmem s1 _ Hpm Hf1 Hg1 Hh1.
  apply wp_bind, wp_falloc; [done| |intros s' Hn; rewrite Hh1 in Hn; by destruct (Hh 1%nat)].
  intros pft s2 _ Hpf Hf2 Hg2 _. rewrite Hf1 in Hf2. rewrite Hg1 in Hg2. clear s1 Hf1 Hg1 Hh1.
  apply wp_bind. eapply wp_on_ft.
  { rewrite Hf2. apply otp_read_ok; [exact Hf|unfold FT_MAGICNUM_ADDR, FT_PARAM_SIZE in *; lia..]. }
  intros rp f1 (-> & K1 & _ & Hm1 & Hs1). cbv beta iota.
  destruct (same_copies (ft_fl s) f1) as [Hx1 Hy1]; [done|]. fold x in Hx1. fold y in Hy1.
  rewrite splice_all by (rewrite blen_fmap_seqZ; done).
  change (otp_mem (ft_fl s) <$> seqZ FT_MAGICNUM_ADDR FT_PARAM_SIZE) with x.
  apply wp_bind, wp_check_copy; [done|]. intros s3 Hf3 _ Hg3. cbn [ft_fl gftParam set_ft_fl] in Hf3, Hg3.
  rewrite Hg2, Hgf, andb_true_r in Hg3. apply wp_bind. eapply wp_on_ft.
  { rewrite Hf3. apply (otp_sr_read_ok x FT_PARAM_SIZE pmem); [exact K1|done|by rewrite (proj1 Hx)|exact Hpm]. }
  intros [b bb] f2 (Hb & Hbb & K2 & Hm2 & Hs2). cbn [fst snd] in Hb, Hbb. cbv beta iota.
  destruct (same_copies f1 f2) as [Hx2 Hy2]; [done|]. rewrite Hx1 in Hx2. rewrite Hy1 in Hy2.
  rewrite splice_all in Hb by (rewrite blen_fmap_seqZ by done; by rewrite (proj1 Hx)).
  change (otp_sr f1 <$> seqZ 0 FT_PARAM_SIZE) with (ft_sr f1) in Hb. rewrite Hy1 in Hb. subst b.
  apply wp_bind, wp_check_copy; [done|]. intros s4 Hf4 _ Hg4. cbn [ft_fl gftParam set_ft_fl] in Hf4, Hg4.
  rewrite Hg3 in Hg4. apply wp_bind, wp_gets. cbv beta. unfold recovered.
  assert (gftParam s4 = if ft_valid x then x else if ft_valid y then y else gftParam s) as HG.
  { rewrite Hg4. destruct (ft_valid x) eqn:Ex; [|by rewrite Hgf, andb_true_r].
    unfold ft_valid in Ex. zbool. rewrite (proj2 (Z.eqb_eq _ _) H2). by rewrite andb_false_r. }
  set (g := if ft_valid x then x else if ft_valid y then y else gftParam s) in *.
  assert (ft_rec g) as Hrec by (unfold g; destruct (ft_valid x), (ft_valid y); done).
  rewrite HG. apply wp_repair; [done|done|by rewrite Hf4|done|..].
  all: subst g; destruct (ft_valid x), (ft_valid y); cbn [andb negb]; try lia; rewrite ?Hf4.
  all: cbn [ft_fl gftParam set_ft_fl].
  all: repeat match goal with |- context [?a =? ?b] =>
    destruct (Z.eqb_spec a b); cbn [negb andb] end.
  all: intros; split_and!; try done; try congruence.
  all: exfalso; intuition (lia || congruence).
Qed.

(** ** Setting and getting *)

(** Where the value of an identifier is and how many bytes a call moves. *)
Definition ft_span (opnum len : Z) : option (Z * Z) :=
  switch opnum
    [(CMD_MAC, Some (FT_MAC, len)); (CMD_TX_DC, Some (FT_TX_DC, 4)); (CMD_RX_DC, Some (FT_RX_DC, 4));
     (CMD_TX_IQ_GAIN, Some (FT_TX_IQ_GAIN, 4)); (CMD_RX_IQ_GAIN, Some (FT_RX_IQ_GAIN, 4));
     (CMD_TX_IQ_PHASE, Some (FT_TX_IQ_PHASE, 4)); (CMD_RX_IQ_PHASE, Some (FT_RX_IQ_PHASE, 4));
     (CMD_TX_GAIN, Some (FT_TX_GAIN, if len <? FT_GAIN_LEN then len else FT_GAIN_LEN))]
    None.
(** An address [tls_ft_param_get] hands out: unicast and not zero. *)
Definition usable_mac (m : list Z) : bool :=
  negb (truth (Z.land (default 0 (m !! O)) 1) || (0 =? foldl Z.lor 0 m)).

Lemma ft_span_in opnum len o n : ft_span opnum len = Some (o, n) →
  opnum = CMD_MAC ∧ o = FT_MAC ∧ n = len ∨ FT_TX_DC <= o ∧ n <= 84 ∧ o + n <= FT_PARAM_SIZE ∧ opnum ≠ CMD_MAC.
Proof.
  unfold ft_span. unfold switch. unfold FT_PARAM_SIZE, FT_TX_DC, FT_MAC, FT_RX_DC, FT_TX_IQ_GAIN,
    FT_RX_IQ_GAIN, FT_TX_IQ_PHASE, FT_RX_IQ_PHASE, FT_TX_GAIN, FT_GAIN_LEN in *.
  unfold CMD_MAC, CMD_TX_DC, CMD_RX_DC, CMD_TX_IQ_GAIN, CMD_RX_IQ_GAIN, CMD_TX_IQ_PHASE,
    CMD_RX_IQ_PHASE, CMD_TX_GAIN.
  repeat case_if; intros [= <- <-]; lia.
Qed.

Lemma gft_copy_run o data n (s : ft F) : ft_rec (gftParam s) → 0 <= o → 0 <= n → o + n <= FT_PARAM_SIZE →
  n <= blen data →
  gft_copy o data n s = Some (true, set_gft (splice (gftParam s) o (slice data 0 n)) s).
Proof.
  intros [Hl _] ????. unfold gft_copy, bind, gets, of_opt. rewrite memcpy_Some by lia. done.
Qed.
Lemma ft_set_case_run opnum data len o n (s : ft F) : ft_span opnum len = Some (o, n) →
  ft_rec (gftParam s) → 0 <= n → o + n <= FT_PARAM_SIZE → n <= blen data →
  ft_set_case opnum data len s = Some (true, set_gft (splice (gftParam s) o (slice data 0 n)) s).
Proof.
  intros Hsp Hr Hn Ho Hd. unfold ft_span, ft_set_case, switch in *.
  repeat (destruct (opnum =? _); [
    injection Hsp as <- <-; try (apply gft_copy_run; done)|]); [|done].
  replace (FT_GAIN_LEN <=? len) with (negb (len <? FT_GAIN_LEN)) by lia.
  destruct (len <? FT_GAIN_LEN); apply gft_copy_run; done.
Qed.

Definition ft_sealed (g : list Z) : list Z :=
  let g := splice g 0 (le32 FT_SIGNATURE_WORD) in splice g 4 (le32 (crc_of g)).

Lemma ft_rec_splice g o b : ft_rec g → bytes_ok b → 0 <= o → o + blen b <= FT_PARAM_SIZE →
  ft_rec (splice g o b).
Proof.
  intros [Hl Hok] Hb Ho Hn. split; [|by apply bytes_ok_splice].
  unfold FT_PARAM_SIZE in *. rewrite blen_splice by lia. done.
Qed.
Lemma crc_of_u32 g : ft_rec g → is_u32 (crc_of g).
Proof. intros [_ Hok]. apply crc32_foldl_range; [by unfold is_u32|by apply bytes_ok_slice]. Qed.

Lemma ft_sealed_ok g : ft_rec g → ft_rec (ft_sealed g) ∧ ft_valid (ft_sealed g) = true ∧
  ∀ o n, 8 <= o → 0 <= n → o + n <= FT_PARAM_SIZE → slice (ft_sealed g) o n = slice g o n.
Proof.
  intros Hg. unfold ft_sealed. pose proof (blen_le32' FT_SIGNATURE_WORD) as Hb0.
  set (g1 := splice g 0 (le32 FT_SIGNATURE_WORD)).
  assert (ft_rec g1) as Hg1.
  { apply ft_rec_splice; [done|apply bytes_ok_le32|done|rewrite Hb0; unfold FT_PARAM_SIZE; lia]. }
  pose proof (blen_le32' (crc_of g1)) as Hb1. pose proof (proj1 Hg) as Hl. pose proof (proj1 Hg1) as Hl1.
  unfold FT_PARAM_SIZE in *.
  assert (∀ o n, 8 <= o → 0 <= n → o + n <= 128 →
    slice (splice g1 4 (le32 (crc_of g1))) o n = slice g o n) as Hsl.
  { intros o n Ho Hn Hon. rewrite slice_splice_disj by lia. unfold g1. by rewrite slice_splice_disj by lia. }
  split; [apply ft_rec_splice; [done|apply bytes_ok_le32|done|unfold FT_PARAM_SIZE; lia]|].
  split; [|exact Hsl]. unfold ft_valid. apply andb_true_iff. rewrite !Z.eqb_eq. split.
  - unfold ft_magic, u32_at. rewrite slice_splice_disj by lia.
    change (slice g1 0 4) with (slice (splice g 0 (le32 FT_SIGNATURE_WORD)) 0 4).
    rewrite slice_splice_same by lia. by apply of_le_le32.
  - unfold ft_checksum. rewrite u32_at_le32; [|done|lia|by apply crc_of_u32].
    unfold crc_of at 1 2. rewrite Hsl by lia. unfold g1. by rewrite slice_splice_disj by lia.
Qed.

Lemma wp_ft_seal s (Q : unit → ft F → Prop) : ft_rec (gftParam s) →
  (∀ s', gftParam s' = ft_sealed (gftParam s) → ft_fl s' = ft_fl s → ft_hp s' = ft_hp s → Q tt s') →
  wp ft_seal Q s.
Proof.
  intros Hg HQ. unfold ft_seal. wp_steps. apply wp_ft_crc.
  { apply ft_rec_splice; [done|apply bytes_ok_le32|done|]. by rewrite blen_le32'. }
  intros c. wp_steps. by apply HQ.
Qed.

(** Both copies are the record in memory. *)
Definition ft_stored (s : ft F) : Prop :=
  otp_ok (ft_fl s) ∧ ft_rec (gftParam s) ∧ ft_valid (gftParam s) = true ∧
  ft_flash (ft_fl s) = gftParam s ∧ ft_sr (ft_fl s) = gftParam s ∧ ∀ k, ft_hp s k ≠ None.

Lemma wp_ft_set opnum data len o n s : ft_stored s → ft_span opnum len = Some (o, n) →
  len ≠ 0 → 0 <= n → FT_MAC <= o → o + n <= FT_PARAM_SIZE → n <= blen data → bytes_ok data →
  wp (tls_ft_param_set opnum (Some data) len) (λ r s', r = 0 ∧ ft_stored s' ∧
    gftParam s' = ft_sealed (splice (gftParam s) o (slice data 0 n))) s.
Proof.
  intros (Hf & Hg & Hv & Hfl & Hsr & Hh) Hsp Hlen Hn Ho Hon Hd Hok. unfold tls_ft_param_set.
  replace (len =? 0) with false by lia. unfold FT_MAC in Ho.
  eapply wp_run; [eapply ft_set_case_run; done || lia|]. cbn [negb].
  set (g := splice (gftParam s) o (slice data 0 n)).
  assert (ft_rec g) as Hgr.
  { apply ft_rec_splice; [done|by apply bytes_ok_slice|lia|rewrite blen_slice; lia]. }
  destruct (ft_sealed_ok g Hgr) as (Hr & Hv' & _).
  apply wp_bind, wp_ft_seal; [done|]. intros s1 Hg1 Hf1 Hh1. cbn [gftParam set_gft ft_fl ft_hp] in *.
  wp_step. wp_step. rewrite Hg1. apply wp_bind, wp_unlocked_write; [done|by rewrite Hf1|].
  intros f2 K2 Hfl2 Hsr2. apply wp_bind, wp_falloc; [done| |].
  2: { intros s' Hn'. cbn in Hn'. rewrite Hh1 in Hn'. by destruct (Hh O). }
  intros pmem s3 _ Hp Hf3 Hg3 Hh3. cbn [ft_fl gftParam ft_hp set_ft_fl] in *.
  apply wp_bind, wp_sr_write; [done|by rewrite Hf3|done|].
  intros f4 K4 Hsr4 Hfl4. apply wp_ret. split; [done|]. cbn [gftParam set_ft_fl].
  rewrite Hg3, Hg1. split; [|done]. unfold ft_stored. cbn [gftParam set_ft_fl ft_fl ft_hp].
  rewrite Hg3, Hg1. split_and!; try done; [by rewrite Hfl4, Hf3|].
  intros k. rewrite Hh3, Hh1. apply Hh.
Qed.

Lemma mapM_byte_at g o n : 0 <= o → 0 <= n → o + n <= blen g →
  mapM (byte_at g) (seqZ o n) = Some (slice g o n).
Proof.
  intros Ho Hn Hon. apply mapM_Some. apply Forall2_same_length_lookup_2.
  { apply Nat2Z.inj. pose proof (blen_slice g o n Ho Hn Hon) as Hb. unfold blen in Hb.
    rewrite length_seqZ, Hb. lia. }
  intros i x y Hx Hy. apply lookup_seqZ in Hx as [-> Hi].
  rewrite <- (byte_at_slice g o n) by lia. rewrite byte_at_lookup by lia. by rewrite Nat2Z.id.
Qed.

(** What [tls_ft_param_get] returns. *)
Lemma ft_get_run opnum data len o n (s : ft F) : ft_rec (gftParam s) → ft_span opnum len = Some (o, n) →
  0 <= n → o + n <= FT_PARAM_SIZE → n <= blen data →
  (opnum = CMD_MAC → usable_mac (slice (gftParam s) FT_MAC 6) = true) →
  tls_ft_param_get opnum data len s =
    Some ((0, splice data 0 (slice (gftParam s) o n)), s).
Proof.
  intros [Hl Hok] Hsp Hn Hon Hd Hm. assert (0 <= o) as Ho.
  { pose proof (ft_span_in _ _ _ _ Hsp). unfold FT_TX_DC, FT_MAC in *. lia. }
  unfold ft_span, tls_ft_param_get, switch in *.
  destruct (opnum =? CMD_MAC) eqn:E.
  { injection Hsp as <- <-. apply Z.eqb_eq in E. specialize (Hm E). unfold FT_MAC, FT_PARAM_SIZE in *.
    unfold bind, gets, of_opt. rewrite mapM_byte_at by lia. unfold usable_mac in Hm.
    apply negb_true_iff in Hm. rewrite Hm. rewrite memcpy_Some by lia. done. }
  unfold get_word, bind, gets, of_opt.
  repeat (match goal with |- context [opnum =? ?k] => destruct (opnum =? k) end;
    [injection Hsp as <- <-; rewrite memcpy_Some by lia; done|]). done.
Qed.
End laws.

(** Starting up recovers the factory parameters.  The copy in flash is
    loaded if it is intact, else the copy in the security registers; the copy
    that is damaged, or carries another checksum, is rewritten; with neither
    intact nothing is loaded and nothing written. *)
Theorem ft_init_recovers {F} `{OtpOk F} `{CrcEngineOk} (s : ft F) : booted s →
  let x := ft_flash (ft_fl s) in let y := ft_sr (ft_fl s) in
  ∃ s', tls_ft_param_init s = Some (true, s') ∧ otp_ok (ft_fl s') ∧
    (ft_valid x = true → gftParam s' = x ∧ ft_flash (ft_fl s') = x ∧
       ft_valid (ft_sr (ft_fl s')) = true ∧ ft_checksum (ft_sr (ft_fl s')) = ft_checksum x) ∧
    (ft_valid x = false → ft_valid y = true → gftParam s' = y ∧ ft_flash (ft_fl s') = y ∧
       ft_sr (ft_fl s') = y) ∧
    (ft_valid x = false → ft_valid y = false → gftParam s' = gftParam s ∧
       ft_flash (ft_fl s') = x ∧ ft_sr (ft_fl s') = y).
Proof.
  intros Hs x y. destruct (proj1 (wp_total _ _ _) (wp_ft_init s Hs)) as (r & s' & Hr & -> & Hrec).
  exists s'. split; [done|]. unfold recovered in Hrec. fold x y in Hrec.
  destruct Hrec as (Hf & Hg & Hfl & Hsr). split; [done|].
  generalize dependent (ft_sr (ft_fl s')). generalize dependent (ft_flash (ft_fl s')).
  generalize dependent (gftParam s'). clear Hr. clearbody x y. intros g -> fl -> sr ->.
  destruct (ft_valid x) eqn:Ex, (ft_valid y) eqn:Ey; cbn [andb negb];
    (split; [|split]); intros; try done.
  destruct (Z.eqb_spec (ft_checksum x) (ft_checksum y)); done.
Qed.

(** C15: setting a factory parameter is atomic and lasts.  Afterwards both
    copies hold the new record, the value reads back and the others are kept;
    a restart comes up with the old parameters if the copy in flash was being
    written and is damaged, and with the new ones once it is written, whatever
    the security registers hold. *)
Theorem ft_set_survives {F} `{OtpOk F} `{CrcEngineOk} (s : ft F) opnum data len o n :
  ft_stored s → ft_span opnum len = Some (o, n) → len ≠ 0 → 0 <= n → o + n <= FT_PARAM_SIZE →
  n <= blen data → bytes_ok data →
  (opnum = CMD_MAC → len = 6 ∧ usable_mac (slice data 0 6) = true) →
  ∃ s', tls_ft_param_set opnum (Some data) len s = Some (0, s') ∧ ft_stored s' ∧
    (∀ d, n <= blen d →
       tls_ft_param_get opnum d len s' = Some ((0, splice d 0 (slice data 0 n)), s')) ∧
    (∀ o' n', 8 <= o' → 0 <= n' → o' + n' <= FT_PARAM_SIZE → o' + n' <= o ∨ o + n <= o' →
       slice (gftParam s') o' n' = slice (gftParam s) o' n') ∧
    (∀ s1, booted s1 → ft_valid (ft_flash (ft_fl s1)) = false → ft_sr (ft_fl s1) = gftParam s →
       ∃ s2, tls_ft_param_init s1 = Some (true, s2) ∧ gftParam s2 = gftParam s) ∧
    (∀ s1, booted s1 → ft_flash (ft_fl s1) = gftParam s' →
       ∃ s2, tls_ft_param_init s1 = Some (true, s2) ∧ gftParam s2 = gftParam s').
Proof.
  intros Hst Hsp Hlen Hn Hon Hd Hok Hmac.
  assert (FT_MAC <= o) as Ho.
  { apply ft_span_in in Hsp. unfold FT_MAC, FT_TX_DC in *. lia. }
  pose proof (wp_ft_set opnum data len o n s Hst Hsp Hlen Hn Ho Hon Hd Hok) as Hw.
  destruct (proj1 (wp_total _ _ _) Hw) as (r & s' & Hr & -> & Hst' & Hg'). clear Hw.
  exists s'. split; [done|]. split; [done|].
  pose proof Hst as (_ & Hgr & Hgv & _). pose proof Hst' as (_ & Hgr' & Hgv' & _).
  pose proof (proj1 Hgr) as Hl. unfold FT_MAC, FT_PARAM_SIZE in *.
  assert (blen (slice data 0 n) = n) as Hbn by (apply blen_slice; lia).
  assert (ft_rec (splice (gftParam s) o (slice data 0 n))) as Hsr.
  { apply ft_rec_splice; [done|by apply bytes_ok_slice|lia|unfold FT_PARAM_SIZE; lia]. }
  destruct (ft_sealed_ok _ Hsr) as (_ & _ & Hkeep). unfold FT_PARAM_SIZE in Hkeep.
  assert (slice (gftParam s') o n = slice data 0 n) as Hval.
  { rewrite Hg', Hkeep by lia. by apply slice_splice_same; lia. }
  split; [|split; [|split]].
  - intros d Hdd. erewrite ft_get_run; [by rewrite Hval|done|exact Hsp|done|done|done|].
    + intros Hop. destruct (Hmac Hop) as [-> Hu]. apply ft_span_in in Hsp.
      destruct Hsp as [(_ & Ho' & Hn6)|(_ & _ & _ & Hne)]; [|done].
      rewrite <- Ho', <- Hn6, Hval, Hn6. done.
  - intros o' n' Ho' Hn' Hon' Hd'. rewrite Hg', Hkeep by lia. by apply slice_splice_disj; lia.
  - intros s1 Hb Hx Hy. destruct (proj1 (wp_total _ _ _) (wp_ft_init s1 Hb))
      as (r & s2 & Hr2 & -> & _ & Hg2 & _). exists s2. split; [done|].
    rewrite Hx, Hy, Hgv in Hg2. done.
  - intros s1 Hb Hx. destruct (proj1 (wp_total _ _ _) (wp_ft_init s1 Hb))
      as (r & s2 & Hr2 & -> & _ & Hg2 & _). exists s2. split; [done|].
    rewrite Hx, Hgv' in Hg2. done.
Qed.

(** ** A device *)

(** Two arrays of bytes; a write while the flash is locked does nothing. *)
Record ftsim := mk_ftsim { fs_mem : Z → Z; fs_sr : Z → Z; fs_open : bool }.

#[export] Instance ftsim_dev : FlashDev ftsim := {
  fls_read a buf n := λ f, Some ((0, splice buf 0 ((λ x, u8 (fs_mem f x)) <$> seqZ a n)), f);
  fls_write a buf n := λ f, Some (0,
    if fs_open f then mk_ftsim (λ x, if (a <=? x) && (x <? a + n)
      then default 0 (byte_at buf (x - a)) else fs_mem f x) (fs_sr f) true else f);
  fls_erase sec := λ f, Some (0, f);
}.
#[export] Instance ftsim_otp : Otp ftsim := {
  otp_unlock := λ f, Some (0, mk_ftsim (fs_mem f) (fs_sr f) true);
  otp_lock := λ f, Some (0, mk_ftsim (fs_mem f) (fs_sr f) false);
  otp_srrw o buf n bb len rd := λ f,
    if truth rd then Some ((splice buf 0 ((λ x, u8 (fs_sr f x)) <$> seqZ o n), bb), f)
    else Some ((buf, bb), mk_ftsim (fs_mem f) (λ x, if (o <=? x) && (x <? o + n)
      then default 0 (byte_at buf (x - o)) else fs_sr f x) (fs_open f));
}.
#[export] Program Instance ftsim_ok : OtpOk ftsim := {
  otp_ok f := True;
  otp_open := fs_open;
  otp_mem f x := u8 (fs_mem f x);
  otp_sr f x := u8 (fs_sr f x);
}.
Next Obligation. intros. apply u8_range. Qed.
Next Obligation. intros. apply u8_range. Qed.
Next Obligation. done. Qed.
Next Obligation.
  intros a buf n f _ Ho Ha Hb Hn Hok. unfold wp. cbn. rewrite Ho. cbn.
  split; [done|]. split; [done|]. split; [done|]. split; [|done]. intros x. case_if; [|done].
  destruct (byte_at_is_Some buf (x - a)) as [v Hv]; [lia|]. rewrite Hv.
  eapply u8_id, byte_at_ok; done.
Qed.
Next Obligation. done. Qed.
Next Obligation. done. Qed.
Next Obligation. done. Qed.
Next Obligation.
  intros buf n bb f _ Hn Hb Hbb Hok. unfold wp. cbn. split; [done|]. split; [done|]. split; [done|].
  intros x. change (0 + n) with n. case_if; [|done]. destruct (byte_at_is_Some buf (x - 0)) as [v Hv]; [lia|].
  rewrite Hv. replace (x - 0) with x in Hv by lia. rewrite Hv. eapply u8_id, byte_at_ok; done.
Qed.

(** A module whose two copies are the record [b]. *)
Definition ft_demo (x y g : list Z) : ft ftsim :=
  mk_ft (mk_ftsim (λ a, default 255 (byte_at x (a - FT_MAGICNUM_ADDR))) (λ a, default 255 (byte_at y a)) false)
    (λ _, Some (λ _, 0)) 0 g (replicate 16 0xff).
Definition zero_ft : list Z := replicate 128 0.
Definition demo_ft : list Z := ft_sealed (splice zero_ft 12 [0x28; 0x6d; 0xcd; 1; 2; 3]).


Lemma held a b n : ft_rec b → n = FT_PARAM_SIZE →
  (λ x, u8 (default 255 (byte_at b (x - a)))) <$> seqZ a n = b.
Proof.
  intros [Hl Hok] ->. apply byte_at_ext; rewrite blen_fmap_seqZ by done; [done|].
  intros i Hi. rewrite byte_at_fmap_seqZ by done. replace (a + i - a) with i by lia.
  destruct (byte_at_is_Some b i) as [v Hv]; [lia|]. rewrite Hv. cbn [default].
  f_equal. eapply u8_id, byte_at_ok; done.
Qed.
Lemma demo_flash x y g : ft_rec x → ft_flash (ft_fl (ft_demo x y g)) = x.
Proof. intros Hx. by apply held. Qed.
Lemma demo_sr x y g : ft_rec y → ft_sr (ft_fl (ft_demo x y g)) = y.
Proof.
  intros Hy. rewrite <- (held 0 y FT_PARAM_SIZE Hy eq_refl) at 2. apply list_fmap_ext.
  intros i z _. cbn. by replace (z - 0) with z by lia.
Qed.
Lemma ft_rec_b b : (blen b =? FT_PARAM_SIZE) && forallb (λ x, (0 <=? x) && (x <? 256)) b = true → ft_rec b.
Proof. intros Hb. zbool. split; [done|]. by apply bytes_ok_b. Qed.
Lemma demo_booted x y : booted (ft_demo x y zero_ft).
Proof. split_and!; [done|done|by apply ft_rec_b|done]. Qed.

Lemma ft_init_recovers_witness : ∃ s',
  tls_ft_param_init (ft_demo (replicate 128 255) demo_ft zero_ft) = Some (true, s') ∧
  gftParam s' = demo_ft ∧ ft_flash (ft_fl s') = demo_ft ∧ ft_sr (ft_fl s') = demo_ft.
Proof.
  pose proof (ft_init_recovers (ft_demo (replicate 128 255) demo_ft zero_ft)
    (demo_booted _ _)) as Hi. cbv zeta in Hi.
  rewrite demo_flash in Hi by (by apply ft_rec_b). rewrite demo_sr in Hi by (by apply ft_rec_b).
  destruct Hi as (s' & Hr & _ & _ & Hy & _). exists s'. split; [exact Hr|].
  apply Hy; vm_compute; reflexivity.
Defined.

Lemma demo_ft_stored : ft_stored (ft_demo demo_ft demo_ft demo_ft).
Proof.
  assert (ft_rec demo_ft) as Hr by (by apply ft_rec_b). unfold ft_stored.
  split; [exact I|]. split; [exact Hr|]. split; [vm_compute; reflexivity|].
  split; [exact (demo_flash _ _ _ Hr)|]. split; [exact (demo_sr _ _ _ Hr)|]. intros k. discriminate.
Qed.

Lemma ft_set_survives_witness : ∃ s',
  tls_ft_param_set CMD_MAC (Some [0x28; 0x6d; 0xcd; 9; 8; 7]) 6 (ft_demo demo_ft demo_ft demo_ft)
    = Some (0, s') ∧
  tls_ft_param_get CMD_MAC (replicate 6 0) 6 s' = Some ((0, [0x28; 0x6d; 0xcd; 9; 8; 7]), s') ∧
  ∃ s2, tls_ft_param_init (ft_demo (gftParam s') (replicate 128 255) zero_ft) = Some (true, s2) ∧
    gftParam s2 = gftParam s'.
Proof.
  destruct (ft_set_survives (ft_demo demo_ft demo_ft demo_ft) CMD_MAC
    [0x28; 0x6d; 0xcd; 9; 8; 7] 6 FT_MAC 6) as (s' & Hs & Hst & Hg & _ & _ & Hr); try done.
  - exact demo_ft_stored.
  - by apply bytes_ok_b.
  - exists s'. split; [exact Hs|]. split; [rewrite Hg by (vm_compute; discriminate); reflexivity|].
    apply Hr; [apply demo_booted|]. apply demo_flash. apply Hst.
Defined.
