(* ===== verification/Network.v ===== *)
(** * The network under the servers

    What the DHCP and the DNS server use of lwIP 2.0.3 and of the Wi-Fi library:
    byte order ([include/lwip/def.h]; the processor is little-endian), and the
    calls of the stack as the class [NetEnv]. *)
From S2P Require Import Prelude.

Definition IP_ADDR_BROADCAST := 0xFFFFFFFF.
Definition IP_ADDR_ANY := 0.

(** The Wi-Fi library and lwIP: the stations that are associated (their number
    and the bytes stored, six for each), the module's own address, and the calls
    of the stack.  [pbuf_alloc] and [udp_new] may fail; [netif_is_up] is asked of
    the default interface; [udp_sendto] is given the bytes of the datagram. *)
Class NetEnv (W : Type) := {
  tls_wifi_get_authed_sta_info : W → Z * list Z;
  wpa_supplicant_get_mac : W → list Z;
  netif_is_up : W → bool;
  pbuf_alloc : Z → W → bool * W;
  udp_sendto : list Z → Z → Z → W → W;
  etharp_update_arp_entry : Z → list Z → Z → W → W;
  sys_timeout : Z → W → W;
  sys_untimeout : W → W;
  udp_new : W → Z * W;
  udp_bind : Z → Z → Z → W → W;
  udp_bind_multicast_netif : Z → Z → W → W;
  udp_recv : Z → W → W;
  udp_remove : Z → W → W;
}.

(** ** Byte order *)

Definition htonl (x : Z) : Z :=
  Z.lor (Z.lor (Z.lor (Z.shiftl (Z.land x 0xff) 24) (Z.shiftl (Z.land x 0xff00) 8))
    (Z.shiftr (Z.land x 0xff0000) 8)) (Z.shiftr (Z.land x 0xff000000) 24).
Definition ntohs (x : Z) : Z := Z.lor (Z.shiftl (Z.land x 0xff) 8) (Z.shiftr (Z.land x 0xff00) 8).
Definition ntohl := htonl.
Definition htons := ntohs.

(** ** Lemmas *)

Lemma htonl_testbit x n : 0 <= n →
  Z.testbit (htonl x) n = (n <? 32) && Z.testbit x (8 * (3 - n / 8) + n mod 8).
Proof.
  intros Hn. unfold htonl. rewrite !Z.lor_spec, !Z.shiftl_spec, !Z.shiftr_spec, !Z.land_spec by lia.
  destruct (Z.ltb_spec n 32) as [Hlt|Hge]; cbn [andb].
  - revert n Hlt Hn.
    assert (∀ n, 0 <= n < 32 → Z.testbit x (n - 24) && Z.testbit 255 (n - 24)
      || Z.testbit x (n - 8) && Z.testbit 65280 (n - 8) || Z.testbit x (n + 8) && Z.testbit 16711680 (n + 8)
      || Z.testbit x (n + 24) && Z.testbit 4278190080 (n + 24) = Z.testbit x (8 * (3 - n / 8) + n mod 8));
      [|intros; eauto].
    apply nat_below_32. intros i Hi.
    do 32 (destruct i as [|i]; [cbn -[Z.testbit]; cbn; rewrite ?andb_false_r, ?andb_true_r, ?orb_false_r; done|]).
    lia.
  - rewrite (testbit_high 255 8), (testbit_high 65280 16), (testbit_high 16711680 24),
      (testbit_high 4278190080 32) by lia. by rewrite !andb_false_r.
Qed.
Lemma htonl_range x : is_u32 (htonl x).
Proof.
  assert (htonl x = htonl x mod 2 ^ 32) as ->; [|apply Z.mod_pos_bound; lia].
  apply Z.bits_inj'. intros n Hn. destruct (Z.ltb_spec n 32).
  - by rewrite Z.mod_pow2_bits_low.
  - rewrite Z.mod_pow2_bits_high, htonl_testbit by lia. destruct (Z.ltb_spec n 32); [lia|done].
Qed.
Lemma ntohl_htonl x : is_u32 x → ntohl (htonl x) = x.
Proof.
  intros Hx. apply Z.bits_inj'. intros n Hn. unfold ntohl. rewrite htonl_testbit by done.
  destruct (Z.ltb_spec n 32) as [Hlt|Hge]; cbn [andb]; [|symmetry; apply (testbit_high x 32); [done|lia]].
  rewrite htonl_testbit by dlia.
  destruct (Z.ltb_spec (8 * (3 - n / 8) + n mod 8) 32); [|dlia]. cbn [andb]. f_equal. dlia.
Qed.
Lemma htonl_inj x y : is_u32 x → is_u32 y → htonl x = htonl y → x = y.
Proof. intros Hx Hy He. rewrite <- (ntohl_htonl x), <- (ntohl_htonl y) by done. unfold ntohl. by rewrite He. Qed.
Lemma ntohs_testbit x n : 0 <= n →
  Z.testbit (ntohs x) n = (n <? 16) && Z.testbit x (8 * (1 - n / 8) + n mod 8).
Proof.
  intros Hn. unfold ntohs. rewrite !Z.lor_spec, !Z.shiftl_spec, !Z.shiftr_spec, !Z.land_spec by lia.
  destruct (Z.ltb_spec n 16) as [Hlt|Hge]; cbn [andb].
  - assert (∀ n, 0 <= n < 32 → n < 16 → Z.testbit x (n - 8) && Z.testbit 255 (n - 8)
      || Z.testbit x (n + 8) && Z.testbit 65280 (n + 8) = Z.testbit x (8 * (1 - n / 8) + n mod 8)) as Hb;
      [|apply Hb; lia].
    apply (nat_below_32 (λ n, n < 16 → _)). intros i _ Hi.
    do 16 (destruct i as [|i]; [cbn; rewrite ?andb_false_r, ?andb_true_r, ?orb_false_r; done|]). lia.
  - rewrite (testbit_high 255 8), (testbit_high 65280 16) by lia. by rewrite !andb_false_r.
Qed.
Lemma ntohs_ntohs x : is_u16 x → is_u16 (ntohs x) ∧ ntohs (ntohs x) = x.
Proof.
  intros Hx. split.
  - assert (ntohs x = ntohs x mod 2 ^ 16) as ->; [|apply Z.mod_pos_bound; lia].
    apply Z.bits_inj'. intros n Hn. destruct (Z.ltb_spec n 16).
    + by rewrite Z.mod_pow2_bits_low.
    + rewrite Z.mod_pow2_bits_high, ntohs_testbit by lia. destruct (Z.ltb_spec n 16); [lia|done].
  - apply Z.bits_inj'. intros n Hn. rewrite ntohs_testbit by done.
    destruct (Z.ltb_spec n 16) as [Hlt|Hge]; cbn [andb]; [|symmetry; apply (testbit_high x 16); [done|lia]].
    rewrite ntohs_testbit by dlia.
    destruct (Z.ltb_spec (8 * (1 - n / 8) + n mod 8) 16); [|dlia]. cbn [andb]. f_equal. dlia.
Qed.

Lemma le32_four x : ∃ a b c d, le32 x = [a; b; c; d].
Proof. by eexists _, _, _, _. Qed.
