(* ===== verification/Dhcp.v ===== *)
(** * [src/Src/App/dhcpserver/dhcp_server.c]: the DHCP server of the soft AP

    Eight addresses, each with the station that has it or had it last.  A
    station asks for one with DISCOVER, is made an OFFER, answers with REQUEST
    and gets an ACK; [_ClientTableLookup] picks the entry for a message,
    [_DhcpClientSMEHandle] answers it and moves the entry's state,
    [_DhcpTickHandle] lets offers and leases run out.  The build has lwIP 2.0.3
    without IPv6: an address is one word in network byte order. *)
From stdpp Require Import relations.
From S2P Require Import Prelude Network.

Definition DHCPS_ERR_SUCCESS := 0.
Definition DHCPS_ERR_LINKDOWN := -1.
Definition DHCPS_ERR_PARAM := -2.
Definition DHCPS_ERR_MEM := -3.
Definition DHCPS_ERR_NOT_BIND := -4.
Definition DHCPS_ERR_NOT_FOUND := -5.
Definition DHCPS_ERR_INACTIVE := -6.
Definition DHCPS_HISTORY_CLIENT_NUM : nat := 8.
Definition DHCP_DEFAULT_LEASE_TIME := 7200.
Definition DHCP_TICK_TIME := 1000.
Definition DHCP_DEFFAULT_TIMEOUT := 10.
Definition DHCP_HWTYPE_ETHERNET := 1.
Definition DHCP_CLIENT_UDP_PORT := 68.
Definition DHCP_SERVER_UDP_PORT := 67.
Definition DHCP_MAGIC := 0x63825363.
Definition DHCP_OP_REQUEST := 1.
Definition DHCP_OP_REPLY := 2.
Definition DHCP_OPTION_ID_PAD := 0.
Definition DHCP_OPTION_ID_SUBNET_MASK := 1.
Definition DHCP_OPTION_ID_DEF_GW := 3.
Definition DHCP_OPTION_ID_DNS_SERVER := 6.
Definition DHCP_OPTION_ID_LEASE_TIME := 51.
Definition DHCP_OPTION_ID_MSG_TYPE := 53.
Definition DHCP_OPTION_ID_SERVER_ID := 54.
Definition DHCP_OPTION_ID_REQ_IP_ADDR := 50.
Definition DHCP_OPTION_ID_END := 255.
Definition DHCP_MSG_DISCOVER := 1.
Definition DHCP_MSG_OFFER := 2.
Definition DHCP_MSG_REQUEST := 3.
Definition DHCP_MSG_DECLINE := 4.
Definition DHCP_MSG_ACK := 5.
Definition DHCP_MSG_NAK := 6.
Definition DHCP_MSG_RELEASE := 7.
Definition DHCP_MSG_INFORM := 8.
Definition DHCP_MSG_SIZE := 548.
Definition DHCP_OPTIONS := 240. (* offset of [Options] *)
Definition ETHARP_FLAG_STATIC_ENTRY := 4.
Definition STA_MAC_BUF_LEN := 64.

(** ** State *)

Inductive DHCP_CLIENT_STATE :=
  | DHCP_CLIENT_STATE_IDLE
  | DHCP_CLIENT_STATE_SELECT
  | DHCP_CLIENT_STATE_REQUEST
  | DHCP_CLIENT_STATE_BIND.
#[export] Instance client_state_eq_dec : EqDecision DHCP_CLIENT_STATE.
Proof. solve_decision. Defined.

Record DHCP_CLIENT := mk_client {
  State : DHCP_CLIENT_STATE;
  Timeout : Z;
  IpAddr : Z;
  MacAddr : list Z;
  Lease : Z;
}.
Definition set_State x c := mk_client x (Timeout c) (IpAddr c) (MacAddr c) (Lease c).
Definition set_Timeout x c := mk_client (State c) x (IpAddr c) (MacAddr c) (Lease c).
Definition set_MacAddr x c := mk_client (State c) (Timeout c) (IpAddr c) x (Lease c).
Definition set_Lease x c := mk_client (State c) (Timeout c) (IpAddr c) (MacAddr c) x.

Record DHCP_SERVER := mk_server {
  Enable : bool;
  Socket : Z;
  ServerIpAddr : Z;
  StartIpAddr : Z;
  SubnetMask : Z;
  GateWay : Z;
  Dns1 : Z;
  Dns2 : Z;
  LeaseTime : Z;
  Clients : list DHCP_CLIENT;
}.

Definition no_mac : list Z := replicate 6 0.
Definition zero_client : DHCP_CLIENT := mk_client DHCP_CLIENT_STATE_IDLE 0 0 no_mac 0.
Definition zero_server : DHCP_SERVER :=
  mk_server false 0 0 0 0 0 0 0 0 (replicate DHCPS_HISTORY_CLIENT_NUM zero_client).
Definition set_Clients x v := mk_server (Enable v) (Socket v) (ServerIpAddr v) (StartIpAddr v)
  (SubnetMask v) (GateWay v) (Dns1 v) (Dns2 v) (LeaseTime v) x.
Definition set_Enable x v := mk_server x (Socket v) (ServerIpAddr v) (StartIpAddr v)
  (SubnetMask v) (GateWay v) (Dns1 v) (Dns2 v) (LeaseTime v) (Clients v).
Definition set_Socket x v := mk_server (Enable v) x (ServerIpAddr v) (StartIpAddr v)
  (SubnetMask v) (GateWay v) (Dns1 v) (Dns2 v) (LeaseTime v) (Clients v).
Definition set_Dns1 x v := mk_server (Enable v) (Socket v) (ServerIpAddr v) (StartIpAddr v)
  (SubnetMask v) (GateWay v) x (Dns2 v) (LeaseTime v) (Clients v).
Definition set_Dns2 x v := mk_server (Enable v) (Socket v) (ServerIpAddr v) (StartIpAddr v)
  (SubnetMask v) (GateWay v) (Dns1 v) x (LeaseTime v) (Clients v).

(** The globals [DhcpServer] and [DhcpMsg], the allocator and the rest;
    [sent] records the datagrams given to [udp_sendto] with their destination,
    the code does not read it. *)
Record dhcp (W : Type) := mk_dhcp {
  DhcpServer : DHCP_SERVER;
  DhcpMsg : list Z;
  dh_heap : heap;
  net : W;
  sent : list (Z * list Z);
}.
Arguments mk_dhcp {W}.
Arguments DhcpServer {W}.
Arguments DhcpMsg {W}.
Arguments dh_heap {W}.
Arguments net {W}.
Arguments sent {W}.

Section setters.
Context {W : Type}.
Implicit Type s : dhcp W.
Definition set_DhcpServer x s := mk_dhcp x (DhcpMsg s) (dh_heap s) (net s) (sent s).
Definition set_DhcpMsg x s := mk_dhcp (DhcpServer s) x (dh_heap s) (net s) (sent s).
Definition set_dh_heap x s := mk_dhcp (DhcpServer s) (DhcpMsg s) x (net s) (sent s).
Definition set_net (x : W) s := mk_dhcp (DhcpServer s) (DhcpMsg s) (dh_heap s) x (sent s).
Definition set_sent x s := mk_dhcp (DhcpServer s) (DhcpMsg s) (dh_heap s) (net s) x.
End setters.

(** ** The options of a message *)

Record options := mk_options {
  pMsgType : Z;
  pReqIpAddr : Z;
  pServerId : Z;
  opt_ret : Z;
}.

Section parse.
Local Open Scope stdpp_scope.

(** The loop of [_ParseDhcpOptions] from offset [p] of the message: the byte
    at [p] is read before [p] is compared with the end. *)
Fixpoint parse_loop (fuel : nat) (msg : list Z) (p : Z) (o : options) : option options :=
  match fuel with
  | O => None
  | S fuel' =>
      id ← byte_at msg p;
      if negb (id =? DHCP_OPTION_ID_END) && (p <? DHCP_MSG_SIZE) then
        if id =? DHCP_OPTION_ID_PAD then parse_loop fuel' msg (p + 1) o
        else
          len ← byte_at msg (p + 1);
          if id =? DHCP_OPTION_ID_MSG_TYPE then
            t ← byte_at msg (p + 2);
            parse_loop fuel' msg (p + 2 + len)
              (mk_options t (pReqIpAddr o) (pServerId o) (Z.lor (opt_ret o) 1))
          else if id =? DHCP_OPTION_ID_REQ_IP_ADDR then
            b ← memcpy (replicate 4 0) 0 msg (p + 2) 4;
            parse_loop fuel' msg (p + 2 + len)
              (mk_options (pMsgType o) (of_le b) (pServerId o) (Z.lor (opt_ret o) 2))
          else if id =? DHCP_OPTION_ID_SERVER_ID then
            b ← memcpy (replicate 4 0) 0 msg (p + 2) 4;
            parse_loop fuel' msg (p + 2 + len)
              (mk_options (pMsgType o) (pReqIpAddr o) (of_le b) (Z.lor (opt_ret o) 4))
          else parse_loop fuel' msg (p + 2 + len) o
      else Some o
  end.

Definition _ParseDhcpOptions (msg : list Z) (o : options) : option options :=
  parse_loop 310 msg DHCP_OPTIONS (mk_options (pMsgType o) (pReqIpAddr o) (pServerId o) 0).
End parse.

(** ** Choosing an entry *)

(** The pointers the loop of [_ClientTableLookup] collects. *)
Record found := mk_found {
  pFreeClient : option nat;
  pReqClient : option nat;
  pHistoryClient : option nat;
  pMyHistoryClient : option nat;
  pMyClient : option nat;
  IpUnavailable : bool;
}.

Definition first_of (old : option nat) (test : bool) (i : nat) : option nat :=
  match old with Some j => Some j | None => if test then Some i else None end.
Definition memcmp_eq (a b : list Z) : bool := bool_decide (a = b).

Definition scan_client (mac : list Z) (req : Z) (i : nat) (c : DHCP_CLIENT) (f : found) : found :=
  if decide (State c = DHCP_CLIENT_STATE_IDLE) then
    mk_found
      (first_of (pFreeClient f) (memcmp_eq (MacAddr c) no_mac) i)
      (first_of (pReqClient f) (IpAddr c =? req) i)
      (first_of (pHistoryClient f) (negb (memcmp_eq (MacAddr c) no_mac)) i)
      (first_of (pMyHistoryClient f) (memcmp_eq (MacAddr c) mac) i)
      (pMyClient f) (IpUnavailable f)
  else if memcmp_eq (MacAddr c) mac then
    mk_found (pFreeClient f) (pReqClient f) (pHistoryClient f) (pMyHistoryClient f) (Some i)
      (IpUnavailable f)
  else
    mk_found (pFreeClient f) (pReqClient f) (pHistoryClient f) (pMyHistoryClient f) (pMyClient f)
      (if IpAddr c =? req then true else IpUnavailable f).

Fixpoint scan_clients (mac : list Z) (req : Z) (i : nat) (cs : list DHCP_CLIENT) (f : found) : found :=
  match cs with
  | [] => f
  | c :: cs' => scan_clients mac req (S i) cs' (scan_client mac req i c f)
  end.

(** [if (pMyClient->State != DHCP_CLIENT_STATE_BIND) memset(pMyClient->MacAddr, 0, 6)] *)
Definition forget (c : DHCP_CLIENT) : DHCP_CLIENT :=
  if decide (State c = DHCP_CLIENT_STATE_BIND) then c else set_MacAddr no_mac c.
Definition idle (c : DHCP_CLIENT) : DHCP_CLIENT := set_State DHCP_CLIENT_STATE_IDLE c.

(** The table after the call and the entry returned. *)
Definition _ClientTableLookup (v : DHCP_SERVER) (mac : list Z) (MsgType req sid : Z)
    : list DHCP_CLIENT * option nat :=
  let cs := Clients v in
  let f := scan_clients mac req 0 cs (mk_found None None None None None false) in
  let mine := (sid =? 0) || (ServerIpAddr v =? sid) in
  let ' (cs, r) :=
    switch MsgType
      [(DHCP_MSG_DISCOVER,
          match pMyClient f with
          | Some m =>
              let cs := alter idle m cs in
              match pReqClient f with
              | Some q => (alter forget m cs, Some q)
              | None => (cs, Some m)
              end
          | None =>
              (cs, match pReqClient f with
                   | Some q => Some q
                   | None =>
                       match pMyHistoryClient f with
                       | Some m => Some m
                       | None => match pFreeClient f with Some r => Some r | None => pHistoryClient f end
                       end
                   end)
          end);
       (DHCP_MSG_REQUEST,
          match pMyClient f with
          | Some m =>
              if IpUnavailable f then (alter (λ c, idle (forget c)) m cs, None)
              else match pReqClient f with
                   | Some q => (alter (λ c, idle (forget c)) m cs, if mine then Some q else None)
                   | None => (cs, if mine then Some m else None)
                   end
          | None =>
              (cs, if IpUnavailable f then None else if mine then pReqClient f else None)
          end);
       (DHCP_MSG_RELEASE,
          (match pMyClient f with Some m => alter (λ c, idle (forget c)) m cs | None => cs end, None));
       (DHCP_MSG_DECLINE,
          (match pMyClient f with Some m => alter (λ c, idle (forget c)) m cs | None => cs end, None))]
      (cs, None) in
  (match r with Some i => alter (set_MacAddr mac) i cs | None => cs end, r).

(** ** Replies *)

(** A message being built, the index [Body] and [Len]. *)
Definition build : Type := list Z * Z * Z.
Definition put (b : list Z) (x : build) : build :=
  let ' (m, body, len) := x in (splice m body b, body + blen b, len + blen b).
Definition DHCP_SET_OPTION_SUBNET_MASK mask := put ([DHCP_OPTION_ID_SUBNET_MASK; 4] ++ le32 mask).
Definition DHCP_SET_OPTION_GW gw := put ([DHCP_OPTION_ID_DEF_GW; 4] ++ le32 gw).
Definition DHCP_SET_OPTION_DNS dns1 dns2 :=
  put ([DHCP_OPTION_ID_DNS_SERVER; 8] ++ le32 dns1 ++ le32 dns2).
Definition DHCP_SET_OPTION_SERVER_ID ip := put ([DHCP_OPTION_ID_SERVER_ID; 4] ++ le32 ip).
Definition DHCP_SET_OPTION_MSG_TYPE type := put [DHCP_OPTION_ID_MSG_TYPE; 1; type].
Definition DHCP_SET_OPTION_LEASE_TIME time :=
  put ([DHCP_OPTION_ID_LEASE_TIME; 4] ++ le32 (htonl time)).
Definition DHCP_SET_OPTION_END := put [DHCP_OPTION_ID_END].

(** The header of a reply. *)
Definition reply_header (xid yiaddr siaddr : Z) (mac : list Z) : list Z :=
  let m := replicate (Z.to_nat DHCP_MSG_SIZE) 0 in
  let m := splice m 0 [DHCP_OP_REPLY; DHCP_HWTYPE_ETHERNET; 6] in
  let m := splice m 4 (le32 (htonl xid)) in
  let m := splice m 16 (le32 yiaddr) in
  let m := splice m 20 (le32 siaddr) in
  let m := splice m 28 mac in
  splice m 236 (le32 (htonl DHCP_MAGIC)).

(** The options an offer and an acknowledgement carry. *)
Definition lease_options (v : DHCP_SERVER) (type : Z) (m : list Z) : build :=
  let x := (m, DHCP_OPTIONS, 240) in
  let x := DHCP_SET_OPTION_MSG_TYPE type x in
  let x := DHCP_SET_OPTION_LEASE_TIME DHCP_DEFAULT_LEASE_TIME x in
  let x := DHCP_SET_OPTION_SERVER_ID (ServerIpAddr v) x in
  let x := DHCP_SET_OPTION_SUBNET_MASK (SubnetMask v) x in
  let x := DHCP_SET_OPTION_GW (GateWay v) x in
  let x := DHCP_SET_OPTION_DNS (Dns1 v) (Dns2 v) x in
  DHCP_SET_OPTION_END x.

Section server.
Context {W : Type} `{!NetEnv W}.
Local Open Scope c_scope.
Local Abbreviation MD := (M (dhcp W)).

Definition on_net {A} (f : W → A * W) : MD A :=
  λ s, let ' (a, w) := f (net s) in Some (a, set_net w s).
Definition in_net (f : W → W) : MD unit := modify (λ s, set_net (f (net s)) s).
Definition upd_server (f : DHCP_SERVER → DHCP_SERVER) : MD unit :=
  modify (λ s, set_DhcpServer (f (DhcpServer s)) s).
Definition upd_clients (f : list DHCP_CLIENT → list DHCP_CLIENT) : MD unit :=
  upd_server (λ v, set_Clients (f (Clients v)) v).
Definition client (i : nat) : MD DHCP_CLIENT :=
  let* v := gets DhcpServer in of_opt (Clients v !! i).
Definition upd_client (i : nat) (f : DHCP_CLIENT → DHCP_CLIENT) : MD unit :=
  upd_clients (alter f i).
Definition sendto (packet : list Z) (addr port : Z) : MD unit :=
  modify (λ s, set_sent (sent s ++ [(addr, packet)]) s) ;; in_net (udp_sendto packet addr port).

(** The loop over the stations: [compare_ether_addr] is 0 on equal addresses. *)
Fixpoint find_sta (n : nat) (sta : Z) (buf mac : list Z) : option bool :=
  match n with
  | O => Some false
  | S n' =>
      if blen buf <? sta + 6 then None
      else if memcmp_eq mac (slice buf sta 6) then Some true
      else find_sta n' (sta + 6) buf mac
  end.
Definition _CheckMacIsValid (mac : list Z) : MD bool :=
  let* sta_buf := lift dh_heap set_dh_heap (malloc STA_MAC_BUF_LEN) in
  match sta_buf with
  | None => ret false
  | Some _ =>
      let* ' (sta_num, stas) := gets (λ s, tls_wifi_get_authed_sta_info (net s)) in
      let sta_buf := splice (replicate 64 0) 0 stas in
      of_opt (find_sta (Z.to_nat sta_num) 0 sta_buf mac)
  end.

Definition tick_client (i : nat) : MD unit :=
  let* c := client i in
  if decide (State c = DHCP_CLIENT_STATE_REQUEST) then
    if truth (Timeout c) then
      upd_client i (λ c, set_Timeout (Timeout c - 1) c) ;;
      if Timeout c - 1 =? 0 then
        upd_client i (λ c, idle (set_MacAddr no_mac c))
      else ret tt
    else ret tt
  else if decide (State c = DHCP_CLIENT_STATE_BIND) then
    (if truth (Lease c) then upd_client i (λ c, set_Lease (Lease c - 1) c) else ret tt) ;;
    if truth (Lease c) && (Lease c - 1 =? 0) then upd_client i idle
    else
      let* valid := _CheckMacIsValid (MacAddr c) in
      if negb valid then upd_client i idle else ret tt
  else ret tt.
Definition _DhcpTickHandle : MD unit :=
  let* v := gets DhcpServer in
  if negb (Enable v) then ret tt
  else
    for_loop DHCPS_HISTORY_CLIENT_NUM 0 (λ i, tick_client (Z.to_nat i)) ;;
    let* v := gets DhcpServer in
    if Enable v then in_net (sys_timeout DHCP_TICK_TIME) else ret tt.

Definition _DHCPNakGenAndSend (mac : list Z) (xid : Z) : MD unit :=
  let* ok := on_net (pbuf_alloc DHCP_MSG_SIZE) in
  if negb ok then ret tt
  else
    let* v := gets DhcpServer in
    let x := (reply_header xid 0 (ServerIpAddr v) mac, DHCP_OPTIONS, 240) in
    let x := DHCP_SET_OPTION_MSG_TYPE DHCP_MSG_NAK x in
    let ' (m, _, len) := DHCP_SET_OPTION_END x in
    modify (set_DhcpMsg m) ;;
    sendto (slice m 0 len) IP_ADDR_BROADCAST DHCP_CLIENT_UDP_PORT.

Definition IS_BROADCAST_SEND (x : Z) : bool := Z.shiftr x 15 =? 1.

(** [_DHCPAckGenAndSend] and [_DHCPOfferGenAndSend] differ in the type only. *)
Definition lease_reply (type : Z) (i : nat) (xid flags : Z) : MD unit :=
  let* ok := on_net (pbuf_alloc DHCP_MSG_SIZE) in
  if negb ok then ret tt
  else
    let* c := client i in
    let* v := gets DhcpServer in
    let ' (m, _, len) := lease_options v type (reply_header xid (IpAddr c) 0 (MacAddr c)) in
    modify (set_DhcpMsg m) ;;
    if IS_BROADCAST_SEND flags then sendto (slice m 0 len) IP_ADDR_BROADCAST DHCP_CLIENT_UDP_PORT
    else
      in_net (etharp_update_arp_entry (IpAddr c) (MacAddr c) ETHARP_FLAG_STATIC_ENTRY) ;;
      sendto (slice m 0 len) (IpAddr c) DHCP_CLIENT_UDP_PORT.
Definition _DHCPAckGenAndSend := lease_reply DHCP_MSG_ACK.
Definition _DHCPOfferGenAndSend := lease_reply DHCP_MSG_OFFER.

Definition clean_history (mac : list Z) (c : DHCP_CLIENT) : DHCP_CLIENT :=
  if decide (State c = DHCP_CLIENT_STATE_IDLE) then
    if memcmp_eq (MacAddr c) mac then set_MacAddr no_mac c else c
  else c.
Definition _CleanClientHistory (mac : list Z) : MD unit := upd_clients (fmap (clean_history mac)).

(** Bind the entry and acknowledge. *)
Definition bind_client (i : nat) (xid flags : Z) : MD unit :=
  _DHCPAckGenAndSend i xid flags ;;
  upd_client i (set_Lease DHCP_DEFAULT_LEASE_TIME) ;;
  upd_client i (set_State DHCP_CLIENT_STATE_BIND) ;;
  let* c := client i in
  _CleanClientHistory (MacAddr c).
(** The case [DHCP_CLIENT_STATE_SELECT]. *)
Definition offer_client (i : nat) (xid flags : Z) : MD unit :=
  _DHCPOfferGenAndSend i xid flags ;;
  upd_client i (set_Timeout DHCP_DEFFAULT_TIMEOUT) ;;
  upd_client i (set_State DHCP_CLIENT_STATE_REQUEST).

Definition _DhcpClientSMEHandle (i : nat) (MsgType xid flags : Z) : MD unit :=
  let* c := client i in
  match State c with
  | DHCP_CLIENT_STATE_IDLE =>
      if MsgType =? DHCP_MSG_DISCOVER then
        upd_client i (set_State DHCP_CLIENT_STATE_SELECT) ;; offer_client i xid flags
      else if MsgType =? DHCP_MSG_REQUEST then bind_client i xid flags
      else offer_client i xid flags
  | DHCP_CLIENT_STATE_SELECT => offer_client i xid flags
  | DHCP_CLIENT_STATE_REQUEST | DHCP_CLIENT_STATE_BIND => bind_client i xid flags
  end.

(** [GetIpByMac] and [GetMacByIp] return a pointer into the table. *)
Definition DHCPS_GetIpByMac (mac : list Z) : MD (option Z) :=
  let* v := gets DhcpServer in
  ret (IpAddr <$> List.find (λ c, memcmp_eq mac (MacAddr c)) (Clients v)).
Definition DHCPS_GetMacByIp (ipaddr : Z) : MD (option (list Z)) :=
  let* v := gets DhcpServer in
  ret (MacAddr <$> List.find (λ c, IpAddr c =? ipaddr) (Clients v)).

Definition DHCPS_SetDns (numdns dns : Z) : MD unit :=
  (if 0 =? numdns then upd_server (set_Dns1 dns) else ret tt) ;;
  (if 1 =? numdns then upd_server (set_Dns2 dns) else ret tt).

(** [P] is the datagram; the fields of the message are little-endian reads. *)
Definition DHCPS_RecvCb (P : list Z) : MD unit :=
  let msglen := Z.min DHCP_MSG_SIZE (blen P) in
  let m := splice (replicate (Z.to_nat DHCP_MSG_SIZE) 0) 0 (slice P 0 msglen) in
  modify (set_DhcpMsg m) ;;
  let* op := of_opt (byte_at m 0) in
  let* htype := of_opt (byte_at m 1) in
  if (msglen =? 0) || negb (op =? DHCP_OP_REQUEST)
     || negb (ntohl (of_le (slice m 236 4)) =? DHCP_MAGIC)
     || negb (htype =? DHCP_HWTYPE_ETHERNET) then ret tt
  else
    let chaddr := slice m 28 6 in
    let* own := gets (λ s, wpa_supplicant_get_mac (net s)) in
    if memcmp_eq own chaddr then ret tt
    else
      let* valid := _CheckMacIsValid chaddr in
      if negb valid then ret tt
      else
        let* o := of_opt (_ParseDhcpOptions m (mk_options 0xff 0 0 0)) in
        if Z.land (opt_ret o) 1 =? 0 then ret tt
        else if DHCP_MSG_INFORM =? pMsgType o then ret tt
        else
          let xid := ntohl (of_le (slice m 4 4)) in
          let flags := ntohs (of_le (slice m 10 2)) in
          let* v := gets DhcpServer in
          let ' (cs, r) := _ClientTableLookup v chaddr (pMsgType o) (pReqIpAddr o) (pServerId o) in
          upd_server (set_Clients cs) ;;
          match r with
          | None =>
              if negb (pMsgType o =? DHCP_MSG_RELEASE) && negb (pMsgType o =? DHCP_MSG_DECLINE)
              then _DHCPNakGenAndSend chaddr xid else ret tt
          | Some i => _DhcpClientSMEHandle i (pMsgType o) xid flags
          end.

Fixpoint delete_loop (i : nat) (cs : list DHCP_CLIENT) (mac : list Z) : MD Z :=
  match cs with
  | [] => ret DHCPS_ERR_NOT_FOUND
  | c :: cs' =>
      if negb (bool_decide (State c = DHCP_CLIENT_STATE_IDLE)) && memcmp_eq (MacAddr c) mac then
        if decide (State c = DHCP_CLIENT_STATE_BIND)
        then upd_client i idle ;; ret DHCPS_ERR_SUCCESS
        else ret DHCPS_ERR_NOT_BIND
      else delete_loop (S i) cs' mac
  end.
Definition DHCPS_ClientDelete (mac : option (list Z)) : MD Z :=
  let* v := gets DhcpServer in
  if negb (Enable v) then ret DHCPS_ERR_INACTIVE
  else match mac with
       | None => ret DHCPS_ERR_PARAM
       | Some mac => delete_loop 0 (Clients v) mac
       end.

(** [(x % n) ? (x % n) : 1]; a remainder by 0 is undefined. *)
Definition host_number (x n : Z) : option Z :=
  if n =? 0 then None else Some (if truth (x mod n) then x mod n else 1).
Definition init_client (start Mask : Z) (i : Z) : option DHCP_CLIENT :=
  let Val := ntohl start in
  let inv := u32 (Z.lnot Mask) in
  match host_number (u32 (Z.land Val inv + i)) inv with
  | None => None
  | Some tmp =>
      let Val := htonl (Z.lor (Z.land Val Mask) tmp) in
      Some (mk_client DHCP_CLIENT_STATE_IDLE 0 Val no_mac DHCP_DEFAULT_LEASE_TIME)
  end.

(** [up], [ip_addr] and [netmask]: the interface. *)
Definition DHCPS_Start (up : bool) (ip_addr netmask : Z) : MD Z :=
  if negb up then ret DHCPS_ERR_LINKDOWN
  else
    upd_server (λ _, zero_server) ;;
    let Val := ntohl ip_addr in
    let Mask := ntohl netmask in
    let inv := u32 (Z.lnot Mask) in
    let* tmp := of_opt (host_number (u32 (Z.land Val inv + 1)) inv) in
    let start := htonl (Z.lor (Z.land Val Mask) tmp) in
    upd_server (λ _, mk_server false 0 ip_addr start netmask ip_addr ip_addr 0
      DHCP_DEFAULT_LEASE_TIME (Clients zero_server)) ;;
    let* cs := of_opt (mapM (init_client start Mask) (seqZ 0 8)) in
    upd_clients (λ _, cs) ;;
    let* sock := on_net udp_new in
    upd_server (set_Socket sock) ;;
    if sock =? 0 then ret DHCPS_ERR_MEM
    else
      in_net (udp_bind sock IP_ADDR_ANY DHCP_SERVER_UDP_PORT) ;;
      in_net (udp_bind_multicast_netif sock ip_addr) ;;
      in_net (udp_recv sock) ;;
      in_net (sys_timeout DHCP_TICK_TIME) ;;
      upd_server (set_Enable true) ;;
      ret DHCPS_ERR_SUCCESS.

Definition DHCPS_Stop : MD unit :=
  upd_server (set_Enable false) ;;
  in_net sys_untimeout ;;
  let* v := gets DhcpServer in
  (if truth (Socket v) then in_net (udp_remove (Socket v)) else ret tt) ;;
  upd_server (λ _, zero_server).
End server.

(** ** The table *)

#[local] Abbreviation IDLE := DHCP_CLIENT_STATE_IDLE (only parsing).
#[local] Abbreviation BIND := DHCP_CLIENT_STATE_BIND (only parsing).

(** What is known of the entry at [o] after [n] entries have been looked at. *)
Definition idle_at (all : list DHCP_CLIENT) (n : nat) (P : DHCP_CLIENT → Prop) (o : option nat) : Prop :=
  match o with
  | Some i => (i < n)%nat ∧ ∃ c, all !! i = Some c ∧ State c = IDLE ∧ P c
  | None => ∀ i c, (i < n)%nat → all !! i = Some c → State c = IDLE → ¬ P c
  end.
Record scanned (all : list DHCP_CLIENT) (mac : list Z) (req : Z) (n : nat) (f : found) : Prop := {
  sc_free : idle_at all n (λ c, MacAddr c = no_mac) (pFreeClient f);
  sc_req : idle_at all n (λ c, IpAddr c = req) (pReqClient f);
  sc_history : idle_at all n (λ c, MacAddr c ≠ no_mac) (pHistoryClient f);
  sc_mine_history : idle_at all n (λ c, MacAddr c = mac) (pMyHistoryClient f);
  sc_mine : match pMyClient f with
            | Some i => (i < n)%nat ∧ ∃ c, all !! i = Some c ∧ State c ≠ IDLE ∧ MacAddr c = mac
            | None => ∀ i c, (i < n)%nat → all !! i = Some c → State c ≠ IDLE → MacAddr c ≠ mac
            end;
  sc_taken : IpUnavailable f = true ↔ ∃ i c, (i < n)%nat ∧ all !! i = Some c ∧
    State c ≠ IDLE ∧ MacAddr c ≠ mac ∧ IpAddr c = req;
}.

Lemma idle_at_step all n P o c test : all !! n = Some c → State c = IDLE → (test = true ↔ P c) →
  idle_at all n P o → idle_at all (S n) P (first_of o test n).
Proof.
  intros Hn Hc Ht Ho. destruct o as [i|]; cbn in *.
  { destruct Ho as [? ?]. split; [lia|done]. }
  destruct test; cbn.
  - split; [lia|]. exists c. naive_solver.
  - intros i c' Hi Hc' Hs HP. destruct (decide (i = n)) as [->|]; [|eapply Ho; eauto; lia].
    rewrite Hn in Hc'. injection Hc' as ->. apply Ht in HP. done.
Qed.
Lemma idle_at_skip all n P o c : all !! n = Some c → State c ≠ IDLE →
  idle_at all n P o → idle_at all (S n) P o.
Proof.
  intros Hn Hc Ho. destruct o as [i|]; cbn in *.
  { destruct Ho as [? ?]. split; [lia|done]. }
  intros i c' Hi Hc' Hs. destruct (decide (i = n)) as [->|]; [|eapply Ho; eauto; lia]. congruence.
Qed.
Lemma below_S {all : list DHCP_CLIENT} {n c} (P : nat → DHCP_CLIENT → Prop) : all !! n = Some c →
  (∀ i c', (i < S n)%nat → all !! i = Some c' → P i c') ↔
  P n c ∧ ∀ i c', (i < n)%nat → all !! i = Some c' → P i c'.
Proof.
  intros Hn. split.
  - intros Hall. split; [apply Hall; [lia|done]|]. intros i c' Hi. apply Hall. lia.
  - intros [HP Hall] i c' Hi Hc. destruct (decide (i = n)) as [->|]; [|apply Hall; [lia|done]].
    by simplify_eq.
Qed.

Lemma scan_client_ok all mac req n c f : all !! n = Some c → scanned all mac req n f →
  scanned all mac req (S n) (scan_client mac req n c f).
Proof.
  intros Hn [H1 H2 H3 H4 H5 H6]. unfold scan_client, memcmp_eq. destruct (decide _) as [Hs|Hs].
  - split; cbn; try (eapply idle_at_step; [done|done| |done]).
    + by rewrite bool_decide_eq_true.
    + by rewrite Z.eqb_eq.
    + by rewrite negb_true_iff, bool_decide_eq_false.
    + by rewrite bool_decide_eq_true.
    + destruct (pMyClient f) as [i|]; [naive_solver lia|].
      apply (below_S (λ i c, State c ≠ IDLE → MacAddr c ≠ mac) Hn). naive_solver.
    + rewrite H6. split; intros (i & c' & Hi & Hc & Ha & Hr); exists i, c'; [split; [lia|done]|].
      split; [|done]. destruct (decide (i = n)); [by simplify_eq|lia].
  - case_bool_decide as Hm.
    + split; cbn; try (by eapply idle_at_skip).
      * split; [lia|]. eauto.
      * rewrite H6. split; intros (i & c' & Hi & Hc & Ha & Hr); exists i, c'; [split; [lia|done]|].
        split; [|done]. destruct (decide (i = n)); [simplify_eq; naive_solver|lia].
    + split; cbn; try (by eapply idle_at_skip).
      * destruct (pMyClient f) as [i|]; [naive_solver lia|].
        apply (below_S (λ i c, State c ≠ IDLE → MacAddr c ≠ mac) Hn). naive_solver.
      * destruct (Z.eqb_spec (IpAddr c) req) as [Hq|Hq].
        { split; [|done]. intros _. exists n, c. split; [lia|done]. }
        rewrite H6. split; intros (i & c' & Hi & Hc & Ha & Hr); exists i, c'; [split; [lia|done]|].
        split; [|done]. destruct (decide (i = n)); [simplify_eq; naive_solver|lia].
Qed.

Lemma scan_clients_ok mac req cs : ∀ all n f, drop n all = cs → scanned all mac req n f →
  scanned all mac req (length all) (scan_clients mac req n cs f).
Proof.
  induction cs as [|c cs IH]; intros all n f Hd Hf; cbn [scan_clients].
  - apply (f_equal length) in Hd. rewrite length_drop in Hd. cbn in Hd.
    destruct Hf as [H1 H2 H3 H4 H5 H6].
    assert (∀ i c, all !! i = Some c → (i < n)%nat) as Hin.
    { intros i c Hi. apply lookup_lt_Some in Hi. lia. }
    assert (∀ P o, idle_at all n P o → idle_at all (length all) P o) as Hm.
    { intros P [i|]; cbn; [|naive_solver]. intros (? & c & Hc & ?). split; [by eapply lookup_lt_Some|eauto]. }
    split; try (by apply Hm).
    + destruct (pMyClient f); [|naive_solver]. destruct H5 as (? & c & Hc & ?).
      split; [by eapply lookup_lt_Some|eauto].
    + rewrite H6. split; intros (i & c & Hi & Hc & ?); exists i, c; (split; [|done]);
        [by eapply lookup_lt_Some|eauto].
  - assert (all !! n = Some c) as Hn.
    { rewrite <- (Nat.add_0_r n), <- lookup_drop, Hd. done. }
    apply IH; [|by apply scan_client_ok]. rewrite <- Nat.add_1_r, <- drop_drop, Hd. done.
Qed.

Lemma scan_ok mac req cs :
  scanned cs mac req (length cs) (scan_clients mac req 0 cs (mk_found None None None None None false)).
Proof.
  apply scan_clients_ok; [done|]. split; cbn; try (intros; lia). split; [done|].
  intros (i & c & Hi & _). lia.
Qed.

(** The invariant: the addresses differ, no two active entries have the same
    station, an offer and a lease are running. *)
Definition active (c : DHCP_CLIENT) : Prop := State c ≠ IDLE.
Definition entry_ok (c : DHCP_CLIENT) : Prop :=
  match State c with
  | DHCP_CLIENT_STATE_IDLE => True
  | DHCP_CLIENT_STATE_SELECT => False
  | DHCP_CLIENT_STATE_REQUEST => 0 < Timeout c <= 10
  | DHCP_CLIENT_STATE_BIND => 0 < Lease c <= 7200
  end.
Record table_ok (cs : list DHCP_CLIENT) : Prop := {
  tb_len : length cs = 8%nat;
  tb_addr : ∀ i j ci cj, cs !! i = Some ci → cs !! j = Some cj → IpAddr ci = IpAddr cj → i = j;
  tb_mac : ∀ i j ci cj, cs !! i = Some ci → cs !! j = Some cj → active ci → active cj →
    MacAddr ci = MacAddr cj → i = j;
  tb_entry : ∀ i c, cs !! i = Some c → entry_ok c;
}.

(** How an entry may change: to idle, by the time that is left, or, for the
    entry [r] chosen for the station [mac], to an active one of that station. *)
Definition entry_step (r : option nat) (mac : list Z) (j : nat) (c c' : DHCP_CLIENT) : Prop :=
  IpAddr c' = IpAddr c ∧
  (State c' = IDLE ∨ (active c ∧ entry_ok c' ∧ MacAddr c' = MacAddr c) ∨
   (r = Some j ∧ entry_ok c' ∧ MacAddr c' = mac)).

Lemma table_step r mac cs cs' : table_ok cs → length cs' = length cs →
  (∀ j c', cs' !! j = Some c' → ∃ c, cs !! j = Some c ∧ entry_step r mac j c c') →
  (∀ i j c', r = Some i → j ≠ i → cs' !! j = Some c' → active c' → MacAddr c' ≠ mac) →
  table_ok cs'.
Proof.
  intros [Hl Ha Hm He] Hl' Hstep Hmine. split.
  - by rewrite Hl'.
  - intros i j ci cj Hi Hj Hij.
    destruct (Hstep _ _ Hi) as (di & Hdi & Hia & _). destruct (Hstep _ _ Hj) as (dj & Hdj & Hja & _).
    eapply Ha; [done|done|]. congruence.
  - intros i j ci cj Hi Hj Aci Acj Hij. destruct (decide (i = j)) as [|Hne]; [done|]. exfalso.
    destruct (Hstep _ _ Hi) as (di & Hdi & _ & [Hs|[(Ai & _ & Mi)|(Ri & _ & Mi)]]); [done| |].
    + destruct (Hstep _ _ Hj) as (dj & Hdj & _ & [Hs|[(Aj & _ & Mj)|(Rj & _ & Mj)]]); [done| |].
      * apply Hne. eapply Hm; [done|done|done|done|]. congruence.
      * apply (Hmine j i ci); [done|done|done|done|]. congruence.
    + apply (Hmine i j cj); [done|congruence|done|done|]. congruence.
  - intros i c Hi. destruct (Hstep _ _ Hi) as (d & _ & _ & [Hs|[(_ & Hok & _)|(_ & Hok & _)]]);
      [|done|done]. unfold entry_ok. by rewrite Hs.
Qed.

(** ** The choice of an entry keeps the table *)

(** The entries a lookup leaves alone: unchanged or idle. *)
Definition quiet (c c' : DHCP_CLIENT) : Prop :=
  IpAddr c' = IpAddr c ∧ (c' = c ∨ State c' = IDLE).
Definition quiet_tab (cs cs' : list DHCP_CLIENT) : Prop := Forall2 quiet cs cs'.

Lemma entry_quiet_refl c : quiet c c.
Proof. split; [done|by left]. Qed.
Lemma quiet_tab_refl cs : quiet_tab cs cs.
Proof. apply Forall2_same_length_lookup_2; [done|]. intros i x y ??. simplify_eq. apply entry_quiet_refl. Qed.
Lemma quiet_tab_alter f i cs : (∀ c, cs !! i = Some c → quiet c (f c)) → quiet_tab cs (alter f i cs).
Proof.
  intros Hf. apply Forall2_same_length_lookup_2; [by rewrite length_alter|].
  intros j x y Hx Hy. destruct (decide (i = j)) as [->|Hne].
  - rewrite list_lookup_alter_eq, Hx in Hy. simplify_eq/=. by apply Hf.
  - rewrite list_lookup_alter_ne, Hx in Hy by done. simplify_eq/=. apply entry_quiet_refl.
Qed.
Lemma forget_fields c : State (forget c) = State c ∧ IpAddr (forget c) = IpAddr c.
Proof. unfold forget. by destruct (decide _). Qed.
Lemma quiet_idle_forget c : quiet c (idle (forget c)).
Proof. split; [apply forget_fields|by right]. Qed.

(** What [_ClientTableLookup] returns: the table differs from the old one by
    entries that became idle, and by the station written into the entry
    returned; if another entry of the station was active it no longer is. *)
Record looked_up (cs : list DHCP_CLIENT) (mac : list Z) (type : Z)
    (cs' : list DHCP_CLIENT) (r : option nat) : Prop := {
  lk_len : length cs' = length cs;
  lk_others : ∀ j c', cs' !! j = Some c' → r ≠ Some j → ∃ c, cs !! j = Some c ∧ quiet c c';
  lk_entry : ∀ i, r = Some i → ∃ c c', cs !! i = Some c ∧ cs' !! i = Some c' ∧
    IpAddr c' = IpAddr c ∧ MacAddr c' = mac ∧
    (State c' = IDLE ∨ (type = DHCP_MSG_REQUEST ∧ State c' = State c ∧ active c ∧ MacAddr c = mac));
  lk_mine : ∀ i j c', r = Some i → j ≠ i → cs' !! j = Some c' → active c' → MacAddr c' ≠ mac;
}.

(** A table [cs1] in which at most entries were made idle, and the station
    written into the entry [r]. *)
Lemma looked_up_intro cs mac type cs1 r : quiet_tab cs cs1 →
  (∀ i, r = Some i → ∃ c c1, cs !! i = Some c ∧ cs1 !! i = Some c1 ∧ IpAddr c1 = IpAddr c ∧
    (State c1 = IDLE ∨ (type = DHCP_MSG_REQUEST ∧ State c1 = State c ∧ active c ∧ MacAddr c = mac))) →
  (∀ i j c1, r = Some i → j ≠ i → cs1 !! j = Some c1 → active c1 → MacAddr c1 ≠ mac) →
  looked_up cs mac type (match r with Some i => alter (set_MacAddr mac) i cs1 | None => cs1 end) r.
Proof.
  intros Hq Hr Hm. pose proof (Forall2_length Hq) as Hlen. split.
  - destruct r; [rewrite length_alter|]; done.
  - intros j c' Hc' Hne. assert (cs1 !! j = Some c') as Hc1.
    { destruct r as [i|]; [|done]. rewrite list_lookup_alter_ne in Hc' by congruence. done. }
    destruct (Forall2_lookup_r _ _ _ _ _ Hq Hc1) as (c & Hc & Hqc). eauto.
  - intros i ->. destruct (Hr i eq_refl) as (c & c1 & Hc & Hc1 & Hip & Hs).
    exists c, (set_MacAddr mac c1). rewrite list_lookup_alter_eq, Hc1. done.
  - intros i j c' -> Hne Hc'. rewrite list_lookup_alter_ne in Hc' by congruence. by eapply Hm.
Qed.

Section lookup.
Variables (cs : list DHCP_CLIENT) (mac : list Z) (req : Z) (f : found).
Hypotheses (Hok : table_ok cs) (Hf : scanned cs mac req (length cs) f).

(** No active entry of the table has the station. *)
Definition gone (cs1 : list DHCP_CLIENT) : Prop :=
  ∀ j c1, cs1 !! j = Some c1 → active c1 → MacAddr c1 ≠ mac.

Lemma gone_none : pMyClient f = None → gone cs.
Proof.
  intros Hn j c Hj Ha. pose proof (sc_mine _ _ _ _ _ Hf) as Hm. rewrite Hn in Hm.
  eapply Hm; [by eapply lookup_lt_Some|done|done].
Qed.
Lemma gone_idle m cs1 : pMyClient f = Some m → quiet_tab cs cs1 →
  (∀ c1, cs1 !! m = Some c1 → State c1 = IDLE) → gone cs1.
Proof.
  intros Hn Hq Hi j c1 Hj Ha Hmac. pose proof (sc_mine _ _ _ _ _ Hf) as Hm. rewrite Hn in Hm.
  destruct Hm as (_ & c & Hc & Hac & Hcm).
  destruct (Forall2_lookup_r _ _ _ _ _ Hq Hj) as (d & Hd & _ & [->|Hs]); [|done].
  assert (j = m) as -> by (eapply (tb_mac _ Hok); [exact Hd|exact Hc|done|done|congruence]).
  apply Ha. by apply Hi.
Qed.

Lemma looked_up_idle cs1 i c type : quiet_tab cs cs1 → gone cs1 →
  cs !! i = Some c → (∀ c1, cs1 !! i = Some c1 → State c1 = IDLE) →
  looked_up cs mac type (alter (set_MacAddr mac) i cs1) (Some i).
Proof.
  intros Hq Hg Hc Hi. apply (looked_up_intro cs mac type cs1 (Some i)); [done| |].
  - intros i' [= <-]. destruct (Forall2_lookup_l _ _ _ _ _ Hq Hc) as (c1 & Hc1 & Hip & _).
    exists c, c1. split_and!; try done. left. by apply Hi.
  - intros i' j c1 _ _ Hj Ha. exact (Hg j c1 Hj Ha).
Qed.
Lemma looked_up_none cs1 type : quiet_tab cs cs1 → looked_up cs mac type cs1 None.
Proof. intros Hq. by apply (looked_up_intro cs mac type cs1 None). Qed.

(** The entry of the station, made idle. *)
Lemma alter_idle g m (Hg : ∀ c, quiet c (g c) ∧ State (g c) = IDLE) : pMyClient f = Some m →
  quiet_tab cs (alter g m cs) ∧ gone (alter g m cs) ∧
  ∀ c1, alter g m cs !! m = Some c1 → State c1 = IDLE.
Proof.
  intros Hm. assert (quiet_tab cs (alter g m cs)) as Hq.
  { apply quiet_tab_alter. intros c _. apply Hg. }
  assert (∀ c1, alter g m cs !! m = Some c1 → State c1 = IDLE) as Hi.
  { intros c1. rewrite list_lookup_alter_eq. destruct (cs !! m); [|done]. cbn. intros [= <-]. apply Hg. }
  split; [done|]. split; [|done]. by eapply gone_idle.
Qed.
Lemma idle_quiet c : quiet c (idle c) ∧ State (idle c) = IDLE.
Proof. split; [split; [done|by right]|done]. Qed.
Lemma idle_forget_quiet c : quiet c (idle (forget c)) ∧ State (idle (forget c)) = IDLE.
Proof. split; [apply quiet_idle_forget|done]. Qed.

Lemma idle_found P o i : idle_at cs (length cs) P o → o = Some i →
  ∃ c, cs !! i = Some c ∧ State c = IDLE ∧ P c.
Proof. intros Ho ->. apply Ho. Qed.
(** An idle entry, in a table in which entries became idle. *)
Lemma still_idle cs1 i c : quiet_tab cs cs1 → cs !! i = Some c → State c = IDLE →
  ∀ c1, cs1 !! i = Some c1 → State c1 = IDLE.
Proof.
  intros Hq Hc Hs c1 Hc1. destruct (Forall2_lookup_lr _ _ _ _ _ _ Hq Hc Hc1) as [_ [->|]]; done.
Qed.
End lookup.

Lemma lookup_ok v mac type req sid : table_ok (Clients v) →
  looked_up (Clients v) mac type (_ClientTableLookup v mac type req sid).1
    (_ClientTableLookup v mac type req sid).2.
Proof.
  intros Hok. unfold _ClientTableLookup. set (cs := Clients v) in *.
  pose proof (scan_ok mac req cs) as Hf. set (f := scan_clients _ _ _ _ _) in *.
  set (mine := ((sid =? 0) || (ServerIpAddr v =? sid))%bool).
  pose proof (quiet_tab_refl cs) as Hq0.
  clearbody mine. unfold switch.
  destruct (Z.eqb_spec type DHCP_MSG_DISCOVER) as [->|_];
    [|destruct (Z.eqb_spec type DHCP_MSG_REQUEST) as [->|_];
      [|destruct (type =? DHCP_MSG_RELEASE); [|destruct (type =? DHCP_MSG_DECLINE)]]]; cbn [fst snd].
  - destruct (pMyClient f) as [m|] eqn:Em.
    + destruct (alter_idle cs mac req f Hok Hf idle m idle_quiet Em) as (Hq & Hg & Hi).
      destruct (pReqClient f) as [q|] eqn:Eq; cbn [fst snd].
      * destruct (idle_found _ _ _ _ (sc_req _ _ _ _ _ Hf) Eq) as (c & Hc & Hs & _).
        assert (quiet_tab cs (alter forget m (alter idle m cs))) as Hq'.
        { rewrite list_alter_alter_eq. apply quiet_tab_alter. intros d _. cbn.
          split; [exact (proj2 (forget_fields (idle d)))|]. right.
          exact (proj1 (forget_fields (idle d))). }
        apply (looked_up_idle _ _ _ _ c); [done| |done|by eapply still_idle].
        eapply (gone_idle cs mac req f Hok Hf m); [done|done|]. intros c1.
        rewrite list_alter_alter_eq, list_lookup_alter_eq. destruct (cs !! m); [|done].
        cbn. intros [= <-]. apply (forget_fields (idle _)).
      * pose proof (sc_mine _ _ _ _ _ Hf) as Hm. rewrite Em in Hm. destruct Hm as (_ & c & Hc & _).
        by apply (looked_up_idle _ _ _ _ c).
    + pose proof (gone_none cs mac req f Hf Em) as Hg.
      destruct Hf as [Hfree Hreq Hhist Hmh _ _].
      destruct (pReqClient f) as [q|] eqn:E1;
        [destruct (idle_found _ _ _ q Hreq eq_refl) as (c & Hc & Hs & _);
         apply (looked_up_idle _ _ _ _ c); try done; by eapply still_idle|].
      destruct (pMyHistoryClient f) as [q|] eqn:E2;
        [destruct (idle_found _ _ _ q Hmh eq_refl) as (c & Hc & Hs & _);
         apply (looked_up_idle _ _ _ _ c); try done; by eapply still_idle|].
      destruct (pFreeClient f) as [q|] eqn:E3;
        [destruct (idle_found _ _ _ q Hfree eq_refl) as (c & Hc & Hs & _);
         apply (looked_up_idle _ _ _ _ c); try done; by eapply still_idle|].
      destruct (pHistoryClient f) as [q|] eqn:E4;
        [destruct (idle_found _ _ _ q Hhist eq_refl) as (c & Hc & Hs & _);
         apply (looked_up_idle _ _ _ _ c); try done; by eapply still_idle|].
      by apply looked_up_none.
  - destruct (pMyClient f) as [m|] eqn:Em.
    + destruct (alter_idle cs mac req f Hok Hf _ m idle_forget_quiet Em) as (Hq & Hg & Hi).
      destruct (IpUnavailable f); [by apply looked_up_none|].
      destruct (pReqClient f) as [q|] eqn:Eq.
      * destruct mine; cbn [fst snd]; [|by apply looked_up_none].
        destruct (idle_found _ _ _ _ (sc_req _ _ _ _ _ Hf) Eq) as (c & Hc & Hs & _).
        apply (looked_up_idle _ _ _ _ c); try done. by eapply still_idle.
      * destruct mine; cbn [fst snd]; [|by apply looked_up_none].
        pose proof (sc_mine _ _ _ _ _ Hf) as Hm. rewrite Em in Hm. destruct Hm as (_ & c & Hc & Ha & Hcm).
        apply (looked_up_intro cs mac _ cs (Some m)); [done| |].
        { intros i [= <-]. exists c, c. split_and!; try done. by right. }
        intros i j c1 [= <-] Hne Hj Hac Hmac. apply Hne. eapply (tb_mac _ Hok); [done|done|done|done|congruence].
    + pose proof (gone_none cs mac req f Hf Em) as Hg.
      destruct (IpUnavailable f); [by apply looked_up_none|]. destruct mine; [|by apply looked_up_none].
      destruct (pReqClient f) as [q|] eqn:Eq; cbn [fst snd]; [|by apply looked_up_none].
      destruct (idle_found _ _ _ _ (sc_req _ _ _ _ _ Hf) Eq) as (c & Hc & Hs & _).
      apply (looked_up_idle _ _ _ _ c); try done. by eapply still_idle.
  - apply looked_up_none. destruct (pMyClient f) as [m|] eqn:Em; [|done].
    by apply (alter_idle cs mac req f Hok Hf _ m idle_forget_quiet Em).
  - apply looked_up_none. destruct (pMyClient f) as [m|] eqn:Em; [|done].
    by apply (alter_idle cs mac req f Hok Hf _ m idle_forget_quiet Em).
  - by apply looked_up_none.
Qed.

(** ** The handlers keep the table *)

Definition offer_entry (c : DHCP_CLIENT) : DHCP_CLIENT :=
  set_State DHCP_CLIENT_STATE_REQUEST (set_Timeout DHCP_DEFFAULT_TIMEOUT c).
Definition bind_entry (c : DHCP_CLIENT) : DHCP_CLIENT :=
  set_State DHCP_CLIENT_STATE_BIND (set_Lease DHCP_DEFAULT_LEASE_TIME c).
(** The table [_DhcpClientSMEHandle] leaves, for the entry [c] at [i]. *)
Definition sme_binds (type : Z) (c : DHCP_CLIENT) : bool :=
  match State c with
  | DHCP_CLIENT_STATE_IDLE => (type =? DHCP_MSG_REQUEST) && negb (type =? DHCP_MSG_DISCOVER)
  | DHCP_CLIENT_STATE_SELECT => false
  | _ => true
  end.
Definition sme_table (type : Z) (i : nat) (c : DHCP_CLIENT) (cs : list DHCP_CLIENT) : list DHCP_CLIENT :=
  if sme_binds type c then clean_history (MacAddr c) <$> alter bind_entry i cs
  else alter offer_entry i cs.

(** The datagram of an offer or acknowledgement and where it is sent. *)
Definition lease_packet (v : DHCP_SERVER) (type : Z) (c : DHCP_CLIENT) (xid : Z) : list Z :=
  let ' (m, _, len) := lease_options v type (reply_header xid (IpAddr c) 0 (MacAddr c)) in slice m 0 len.
Definition reply_addr (c : DHCP_CLIENT) (flags : Z) : Z :=
  if IS_BROADCAST_SEND flags then IP_ADDR_BROADCAST else IpAddr c.

Section handlers.
Context {W : Type} `{!NetEnv W}.
Local Open Scope c_scope.

#[local] Abbreviation clients s := (Clients (DhcpServer s)).

Lemma wp_client i c (Q : DHCP_CLIENT → dhcp W → Prop) s :
  clients s !! i = Some c → Q c s → wp (client i) Q s.
Proof. intros Hc HQ. unfold client. wp_steps. by eapply wp_of_opt. Qed.

(** An offer or an acknowledgement: one datagram, if there is a buffer. *)
Lemma wp_lease_reply type i xid flags c (Q : unit → dhcp W → Prop) s :
  clients s !! i = Some c →
  (∀ s', DhcpServer s' = DhcpServer s → dh_heap s' = dh_heap s →
     sent s' = sent s ++ (if (pbuf_alloc DHCP_MSG_SIZE (net s)).1
       then [(reply_addr c flags, lease_packet (DhcpServer s) type c xid)] else []) → Q tt s') →
  wp (lease_reply type i xid flags) Q s.
Proof.
  intros Hc HQ. unfold lease_reply. apply wp_bind. unfold wp at 1, on_net.
  destruct (pbuf_alloc DHCP_MSG_SIZE (net s)) as [ok w] eqn:Ep. cbn [fst] in HQ.
  destruct ok; cbn [negb].
  2: { apply wp_ret. apply HQ; [done|done|]. by rewrite app_nil_r. }
  set (s1 := set_net w s). apply wp_bind, (wp_client _ c); [done|]. wp_steps.
  change (DhcpServer s1) with (DhcpServer s). unfold lease_packet in HQ.
  destruct (lease_options (DhcpServer s) type _) as [[m b] len]. wp_steps. unfold reply_addr in HQ.
  destruct (IS_BROADCAST_SEND flags); unfold sendto, in_net; wp_steps; by apply HQ.
Qed.

Lemma set_Clients_twice cs cs' v : set_Clients cs (set_Clients cs' v) = set_Clients cs v.
Proof. done. Qed.

Lemma wp_sme i type xid flags c (Q : unit → dhcp W → Prop) s :
  clients s !! i = Some c →
  (∀ s', DhcpServer s' = set_Clients (sme_table type i c (clients s)) (DhcpServer s) → dh_heap s' = dh_heap s →
     sent s' = sent s ++ (if (pbuf_alloc DHCP_MSG_SIZE (net s)).1
       then [(reply_addr c flags, lease_packet (DhcpServer s)
                (if sme_binds type c then DHCP_MSG_ACK else DHCP_MSG_OFFER) c xid)] else []) → Q tt s') →
  wp (_DhcpClientSMEHandle i type xid flags) Q s.
Proof.
  intros Hc HQ.
  assert (sme_binds type c = true → wp (bind_client i xid flags) Q s) as Hbind.
  { intros Hb. unfold sme_table in HQ. rewrite Hb in HQ. unfold bind_client.
    apply wp_bind, (wp_lease_reply _ _ _ _ c); [done|]. intros s1 Hs1 Hh1 Hp1.
    unfold upd_client, upd_clients, upd_server. wp_steps.
    eapply wp_client; [cbn; rewrite Hs1, list_alter_alter_eq, list_lookup_alter_eq, Hc; done|].
    cbn [compose MacAddr]. unfold _CleanClientHistory, upd_clients, upd_server. wp_steps.
    apply HQ; [|done|done]. cbn. rewrite Hs1. cbn. rewrite list_alter_alter_eq. done. }
  assert (∀ g s1, sme_binds type c = false → (∀ d, offer_entry (g d) = offer_entry d) →
    IpAddr (g c) = IpAddr c → MacAddr (g c) = MacAddr c →
    s1 = set_DhcpServer (set_Clients (alter g i (clients s)) (DhcpServer s)) s →
    wp (offer_client i xid flags) Q s1) as Hoffer.
  { intros g s1 Hb Hg Hgi Hgm ->. unfold sme_table in HQ. rewrite Hb in HQ. unfold offer_client.
    apply wp_bind, (wp_lease_reply _ _ _ _ (g c)).
    { cbn. by rewrite list_lookup_alter_eq, Hc. }
    intros s2 Hs2 Hh2 Hp2. unfold upd_client, upd_clients, upd_server. wp_steps. apply HQ.
    - cbn [DhcpServer set_DhcpServer]. rewrite Hs2. cbn [DhcpServer set_DhcpServer].
      rewrite !set_Clients_twice. cbn [Clients set_Clients]. rewrite !list_alter_alter_eq. f_equal.
      apply list_alter_ext; [|done]. intros d _. exact (Hg d).
    - done.
    - cbn. rewrite Hp2. cbn. unfold reply_addr, lease_packet. by rewrite Hgi, Hgm. }
  assert (s = set_DhcpServer (set_Clients (alter id i (clients s)) (DhcpServer s)) s) as Hid.
  { rewrite list_alter_id by done. by destruct s as [[] ? ? ? ?]. }
  unfold _DhcpClientSMEHandle. apply wp_bind, (wp_client _ c); [done|].
  unfold sme_binds in Hbind, Hoffer. destruct (State c) eqn:Es.
  - destruct (Z.eqb_spec type DHCP_MSG_DISCOVER) as [->|Hd].
    + unfold upd_client, upd_clients, upd_server. wp_steps. by apply (Hoffer (set_State DHCP_CLIENT_STATE_SELECT)).
    + destruct (Z.eqb_spec type DHCP_MSG_REQUEST) as [->|Hr]; [by apply Hbind|].
      by apply (Hoffer id s).
  - by apply (Hoffer id s).
  - by apply Hbind.
  - by apply Hbind.
Qed.
End handlers.

(** ** Every operation keeps the table *)

Lemma entry_step_quiet r mac j c c' : entry_ok c → quiet c c' → entry_step r mac j c c'.
Proof.
  intros Hc [Hip [->|Hs]]; (split; [done|]); [|by left].
  destruct (decide (State c = IDLE)); [by left|right; left; done].
Qed.
Lemma clean_history_fields mac c :
  State (clean_history mac c) = State c ∧ IpAddr (clean_history mac c) = IpAddr c ∧
  (active c → clean_history mac c = c).
Proof.
  unfold clean_history, active. destruct (decide _) as [Hs|Hs]; [|done].
  split_and!; [by destruct (memcmp_eq _ _)..|done].
Qed.
Lemma clean_history_quiet mac c c' : quiet c c' → quiet c (clean_history mac c').
Proof.
  destruct (clean_history_fields mac c') as (Hs & Hi & Ha). intros [Hip Hq]. split; [congruence|].
  destruct (decide (State c' = IDLE)); [right; congruence|]. rewrite Ha by done. done.
Qed.

Definition keeps (cs cs' : list DHCP_CLIENT) : Prop :=
  table_ok cs' ∧ IpAddr <$> cs' = IpAddr <$> cs.
Lemma keeps_intro r mac cs cs' : table_ok cs → length cs' = length cs →
  (∀ j c', cs' !! j = Some c' → ∃ c, cs !! j = Some c ∧ entry_step r mac j c c') →
  (∀ i j c', r = Some i → j ≠ i → cs' !! j = Some c' → active c' → MacAddr c' ≠ mac) →
  keeps cs cs'.
Proof.
  intros Hok Hl Hstep Hmine. split; [by eapply table_step|]. apply list_eq_same_length with (length cs').
  { by rewrite length_fmap. }
  { by rewrite length_fmap. }
  intros j x y _ Hx Hy. apply list_lookup_fmap_Some in Hx as (c' & -> & Hc').
  apply list_lookup_fmap_Some in Hy as (c & -> & Hc).
  destruct (Hstep _ _ Hc') as (d & Hd & Hip & _). congruence.
Qed.
Lemma keeps_quiet cs cs' : table_ok cs → quiet_tab cs cs' → keeps cs cs'.
Proof.
  intros Hok Hq. apply (keeps_intro None []); [done|symmetry; by apply (Forall2_length Hq)| |done].
  intros j c' Hj. destruct (Forall2_lookup_r _ _ _ _ _ Hq Hj) as (c & Hc & Hqc).
  exists c. split; [done|]. apply entry_step_quiet; [by eapply tb_entry|done].
Qed.
Lemma keeps_alter f i cs : table_ok cs →
  (∀ c, cs !! i = Some c → entry_ok c → entry_step None [] i c (f c)) → keeps cs (alter f i cs).
Proof.
  intros Hok Hf. apply (keeps_intro None []); [done|by rewrite length_alter| |done].
  intros j c' Hj. destruct (decide (i = j)) as [->|Hne].
  - rewrite list_lookup_alter_eq in Hj. destruct (cs !! j) as [c|] eqn:Ec; [|done].
    cbn in Hj. injection Hj as <-. exists c. split; [done|]. apply Hf; [done|]. by eapply tb_entry.
  - rewrite list_lookup_alter_ne in Hj by done. exists c'. split; [done|].
    apply entry_step_quiet; [by eapply tb_entry|apply entry_quiet_refl].
Qed.
Lemma keeps_trans cs1 cs2 cs3 : keeps cs1 cs2 → keeps cs2 cs3 → keeps cs1 cs3.
Proof. intros [? H1] [? H2]. split; [done|congruence]. Qed.

(** An entry is answered after a lookup. *)
Lemma keeps_sme cs mac type cs' i c' : table_ok cs → looked_up cs mac type cs' (Some i) →
  cs' !! i = Some c' → keeps cs (sme_table type i c' cs').
Proof.
  intros Hok [Hl Ho He Hm] Hc'. destruct (He i eq_refl) as (c & d & Hc & Hd & Hip & Hmac & _).
  assert (d = c') as -> by congruence.
  assert (∀ g, (∀ x, IpAddr (g x) = IpAddr x ∧ State (g x) = State x ∧ (active x → g x = x)) →
    ∀ f, IpAddr (f c') = IpAddr c' → entry_ok (f c') → active (f c') → MacAddr (f c') = mac →
    keeps cs (g <$> alter f i cs')) as Hgen.
  { intros g Hg f Hf1 Hf2 Hf3 Hf4.
    apply (keeps_intro (Some i) mac); [done|by rewrite length_fmap, length_alter| |].
    - intros j x Hx. apply list_lookup_fmap_Some in Hx as (y & -> & Hy). destruct (Hg y) as (G1 & G2 & G3).
      destruct (decide (i = j)) as [->|Hne].
      + rewrite list_lookup_alter_eq, Hd in Hy. cbn in Hy. injection Hy as <-. exists c. split; [done|].
        rewrite G3 by done. split; [congruence|]. right; right. done.
      + rewrite list_lookup_alter_ne in Hy by done.
        destruct (Ho j y Hy) as (d & Hdj & Hq1 & Hq2); [congruence|]. exists d. split; [done|].
        apply entry_step_quiet; [by eapply tb_entry|]. split; [congruence|].
        destruct (decide (State y = IDLE)); [right; congruence|]. rewrite G3 by done. done.
    - intros i' j x [= <-] Hne Hx Ha. apply list_lookup_fmap_Some in Hx as (y & -> & Hy).
      destruct (Hg y) as (G1 & G2 & G3). rewrite list_lookup_alter_ne in Hy by done.
      assert (active y) as Hay by (unfold active in *; congruence). rewrite G3 by done.
      by eapply Hm. }
  unfold sme_table. destruct (sme_binds type c').
  - apply (Hgen _ (λ x, ltac:(destruct (clean_history_fields (MacAddr c') x) as (?&?&?); done)));
      unfold active, entry_ok; cbn; (done || lia).
  - rewrite <- (list_fmap_id (alter _ _ _)). apply (Hgen id); try done; unfold active, entry_ok; cbn; (done || lia).
Qed.

Section keep.
Context {W : Type} `{!NetEnv W}.
Local Open Scope c_scope.
#[local] Abbreviation clients s := (Clients (DhcpServer s)).

Definition with_clients (cs : list DHCP_CLIENT) (s : dhcp W) : dhcp W :=
  set_DhcpServer (set_Clients cs (DhcpServer s)) s.
Lemma with_clients_twice cs cs' s : with_clients cs (with_clients cs' s) = with_clients cs s.
Proof. done. Qed.
Lemma wlp_upd_client i f (Q : unit → dhcp W → Prop) s :
  Q tt (with_clients (alter f i (clients s)) s) → wlp (upd_client i f) Q s.
Proof. done. Qed.
Lemma wlp_client i (Q : DHCP_CLIENT → dhcp W → Prop) s :
  (∀ c, clients s !! i = Some c → Q c s) → wlp (client i) Q s.
Proof. intros HQ. unfold client. wlp_steps. by apply wlp_of_opt. Qed.
Lemma wlp_CheckMac mac (Q : bool → dhcp W → Prop) s :
  (∀ b h, Q b (set_dh_heap h s)) → wlp (_CheckMacIsValid mac) Q s.
Proof.
  intros HQ. unfold _CheckMacIsValid. apply wlp_bind, wlp_lift. intros [b|] h _; [|by apply wlp_ret].
  wlp_steps. cbn. destruct (tls_wifi_get_authed_sta_info _) as [n st]. apply wlp_of_opt.
  intros v _. apply HQ.
Qed.

(** [k] ends in a state whose table is kept. *)
Definition keeping (s : dhcp W) {A} (_ : A) (s' : dhcp W) : Prop := keeps (clients s) (clients s').

Lemma keeping_refl {A} (a : A) s s' : table_ok (clients s) → clients s' = clients s → keeping s a s'.
Proof. intros Hok He. unfold keeping, keeps. by rewrite He. Qed.

Lemma tick_client_keeps i s : table_ok (clients s) → wlp (tick_client i) (keeping s) s.
Proof.
  intros Hok. unfold tick_client. apply wlp_bind, wlp_client. intros c Hc.
  pose proof (tb_entry _ Hok _ _ Hc) as Hec.
  assert (∀ f s', clients s' = alter f i (clients s) → entry_step None [] i c (f c) →
    keeping s tt s') as Hk.
  { intros f s' Hs' Hf. unfold keeping. rewrite Hs'. apply keeps_alter; [done|].
    intros d Hd _. by assert (d = c) as -> by congruence. }
  unfold entry_ok in Hec.
  destruct (decide (State c = DHCP_CLIENT_STATE_REQUEST)) as [Er|Er].
  { rewrite Er in Hec. unfold truth. case_if; cbn [negb]; [zbool|by apply wlp_ret, keeping_refl].
    wlp_steps. apply wlp_upd_client. case_if; zbool.
    - apply wlp_upd_client. rewrite with_clients_twice. cbn [Clients DhcpServer with_clients set_DhcpServer set_Clients].
      rewrite list_alter_alter_eq. eapply Hk; [done|]. split; [done|]. by left.
    - apply wlp_ret. eapply Hk; [done|]. split; [done|]. right; left. cbn.
      unfold active, entry_ok; cbn. rewrite Er. split_and!; (done || lia). }
  destruct (decide (State c = DHCP_CLIENT_STATE_BIND)) as [Eb|Eb];
    [|by apply wlp_ret, keeping_refl].
  rewrite Eb in Hec. assert (truth (Lease c) = true) as -> by (unfold truth; lia).
  wlp_steps. apply wlp_upd_client. cbn [andb]. set (s1 := with_clients _ s). case_if; zbool.
  - apply wlp_upd_client. unfold s1. rewrite with_clients_twice. cbn. rewrite list_alter_alter_eq.
    eapply Hk; [done|]. split; [done|]. by left.
  - wlp_steps. apply wlp_CheckMac. intros [] h; cbn [negb].
    + apply wlp_ret. eapply Hk; [done|]. split; [done|]. right; left.
      unfold active, entry_ok; cbn. rewrite Eb. split_and!; (done || lia).
    + apply wlp_upd_client. unfold s1. cbn. rewrite list_alter_alter_eq.
      eapply Hk; [done|]. split; [done|]. by left.
Qed.
Lemma tick_keeps s : table_ok (clients s) → wlp _DhcpTickHandle (keeping s) s.
Proof.
  intros Hok. unfold _DhcpTickHandle. wlp_steps. destruct (Enable _); cbn [negb];
    [|by apply wlp_ret, keeping_refl].
  wlp_steps. apply (wlp_for_loop (λ _ s', keeping s tt s')); [by apply keeping_refl| |].
  - intros j s1 _ Hs1. eapply wlp_mono; [apply tick_client_keeps, Hs1|]. intros [] s2. by apply keeps_trans.
  - intros s1 Hs1. wlp_steps. destruct (Enable _); [|by apply wlp_ret]. unfold in_net. by wlp_steps.
Qed.

Lemma nak_keeps mac xid s (Q : unit → dhcp W → Prop) :
  (∀ s', DhcpServer s' = DhcpServer s → Q tt s') → wlp (_DHCPNakGenAndSend mac xid) Q s.
Proof.
  intros HQ. unfold _DHCPNakGenAndSend. apply wlp_bind. unfold wlp at 1, on_net.
  destruct (pbuf_alloc _ _) as [[] w]; cbn [negb]; [|by apply wlp_ret, HQ].
  wlp_steps. destruct (DHCP_SET_OPTION_END _) as [[m b] len]. unfold sendto, in_net. wlp_steps. by apply HQ.
Qed.

Lemma recv_keeps P s : table_ok (clients s) → wlp (DHCPS_RecvCb P) (keeping s) s.
Proof.
  intros Hok. unfold DHCPS_RecvCb. wlp_steps. apply wlp_of_opt. intros op _. wlp_steps.
  apply wlp_of_opt. intros ht _. destruct (_ || _)%bool; [by apply wlp_ret, keeping_refl|]. wlp_steps.
  destruct (memcmp_eq _ _); [by apply wlp_ret, keeping_refl|]. wlp_steps. apply wlp_CheckMac.
  intros [] h; cbn [negb]; [|by apply wlp_ret, keeping_refl]. wlp_steps. apply wlp_of_opt. intros o _.
  destruct (_ =? 0); [by apply wlp_ret, keeping_refl|].
  destruct (_ =? _); [by apply wlp_ret, keeping_refl|]. wlp_steps. set (m := splice _ _ _).
  cbn [DhcpServer set_dh_heap set_DhcpMsg]. set (mac := slice m 28 6).
  pose proof (lookup_ok (DhcpServer s) mac (pMsgType o) (pReqIpAddr o) (pServerId o) Hok) as Hlk.
  destruct (_ClientTableLookup _ _ _ _ _) as [cs r]. cbn [fst snd] in Hlk.
  unfold upd_server. wlp_steps. destruct r as [i|].
  - destruct (lk_entry _ _ _ _ _ Hlk i eq_refl) as (c & c' & Hc & Hc' & _).
    apply wlp_wp, (wp_sme _ _ _ _ c'); [done|]. intros s' Hs' _ _. unfold keeping. rewrite Hs'.
    by apply (keeps_sme _ mac).
  - assert (keeps (clients s) cs) as Hk.
    { apply (keeps_intro None []); [done|by apply Hlk| |done].
      intros j c' Hj. destruct (lk_others _ _ _ _ _ Hlk j c' Hj) as (c & Hc & Hq); [done|].
      exists c. split; [done|]. apply entry_step_quiet; [by eapply tb_entry|done]. }
    destruct (_ && _)%bool; [|by apply wlp_ret]. apply nak_keeps. intros s' Hs'.
    unfold keeping. by rewrite Hs'.
Qed.

Lemma delete_loop_keeps cs : ∀ i mac s, table_ok (clients s) → wlp (delete_loop i cs mac) (keeping s) s.
Proof.
  induction cs as [|c cs IH]; intros i mac s Hok; cbn [delete_loop]; [by apply wlp_ret, keeping_refl|].
  destruct (_ && _)%bool; [|by apply IH]. destruct (decide _); [|by apply wlp_ret, keeping_refl].
  wlp_steps. apply wlp_upd_client, wlp_ret. apply keeps_quiet; [done|].
  apply quiet_tab_alter. intros d _. apply idle_quiet.
Qed.
Lemma delete_keeps mac s : table_ok (clients s) → wlp (DHCPS_ClientDelete mac) (keeping s) s.
Proof.
  intros Hok. unfold DHCPS_ClientDelete. wlp_steps. destruct (Enable _); cbn [negb];
    [|by apply wlp_ret, keeping_refl]. destruct mac; [|by apply wlp_ret, keeping_refl].
  by apply delete_loop_keeps.
Qed.

(** What can happen to a started server: a datagram, the timer, a call of the
    application, and anything at all in the allocator and the network. *)
Inductive dhcp_step : dhcp W → dhcp W → Prop :=
  | step_recv P s s' : DHCPS_RecvCb P s = Some (tt, s') → dhcp_step s s'
  | step_tick s s' : _DhcpTickHandle s = Some (tt, s') → dhcp_step s s'
  | step_delete mac e s s' : DHCPS_ClientDelete mac s = Some (e, s') → dhcp_step s s'
  | step_dns n d s s' : DHCPS_SetDns n d s = Some (tt, s') → dhcp_step s s'
  | step_world h w s : dhcp_step s (set_net w (set_dh_heap h s)).

Lemma dhcp_step_keeps s s' : table_ok (clients s) → dhcp_step s s' → keeps (clients s) (clients s').
Proof.
  intros Hok Hs. destruct Hs as [P s s' Hr|s s' Hr|mac e s s' Hr|n d s s' Hr|h w s].
  - by apply (wlp_run _ _ _ _ _ (recv_keeps P s Hok) Hr).
  - by apply (wlp_run _ _ _ _ _ (tick_keeps s Hok) Hr).
  - by apply (wlp_run _ _ _ _ _ (delete_keeps mac s Hok) Hr).
  - unfold DHCPS_SetDns, upd_server, bind, modify, ret in Hr.
    destruct (0 =? n), (1 =? n); injection Hr as <-; by apply (keeping_refl tt).
  - by apply (keeping_refl tt).
Qed.
Lemma dhcp_steps_keep s s' : table_ok (clients s) → rtc dhcp_step s s' → keeps (clients s) (clients s').
Proof.
  intros Hok Hs. induction Hs as [s|s1 s2 s3 H12 _ IH]; [done|].
  pose proof (dhcp_step_keeps _ _ Hok H12) as Hk. eapply keeps_trans; [exact Hk|]. apply IH, Hk.
Qed.
End keep.

(** ** The pool *)

Section pool.
Variables (k ip netmask : Z).
Hypotheses (Hk : 2 <= k < 32) (Hmask : ntohl netmask = 2 ^ 32 - 2 ^ k).
#[local] Abbreviation Mask := (ntohl netmask).
#[local] Abbreviation net := (ntohl ip / 2 ^ k * 2 ^ k).
#[local] Abbreviation host := (ntohl ip mod 2 ^ k).

(** Host [h] of the network, and the number the [n]-th address after [h] gets:
    numbers past the last host all become 1 or start over. *)
Definition host_addr (ip k h : Z) : Z := htonl (ntohl ip / 2 ^ k * 2 ^ k + h).
Definition wrap_host (k h : Z) : Z := if h mod (2 ^ k - 1) =? 0 then 1 else h mod (2 ^ k - 1).
Definition pool (ip k : Z) : list Z :=
  (λ i, host_addr ip k (wrap_host k (wrap_host k (ntohl ip mod 2 ^ k + 1) + i))) <$> seqZ 0 8.

Lemma pow_k : 4 <= 2 ^ k <= 2 ^ 31.
Proof. split; [change 4 with (2 ^ 2)|]; apply Z.pow_le_mono_r; lia. Qed.
Lemma not_mask : u32 (Z.lnot Mask) = 2 ^ k - 1.
Proof.
  pose proof pow_k. rewrite Hmask. replace (Z.lnot _) with (2 ^ k - 1 + (-1) * 2 ^ 32) by (unfold Z.lnot; lia).
  unfold u32, wrap. rewrite Z.mod_add by done. apply Z.mod_small. lia.
Qed.
Lemma mask_ones : Mask = u32 (Z.lnot (Z.ones k)).
Proof.
  pose proof pow_k. rewrite Hmask. replace (Z.lnot _) with (2 ^ 32 - 2 ^ k + (-1) * 2 ^ 32).
  - unfold u32, wrap. rewrite Z.mod_add by done. symmetry. apply Z.mod_small. lia.
  - rewrite Z.ones_equiv. unfold Z.lnot. lia.
Qed.
Lemma wrap_host_range h : 0 <= h → 1 <= wrap_host k h < 2 ^ k - 1.
Proof.
  intros Hh. pose proof pow_k. unfold wrap_host.
  pose proof (Z.mod_pos_bound h (2 ^ k - 1) ltac:(lia)). case_if; lia.
Qed.
Lemma host_number_ok h : 0 <= h → host_number h (2 ^ k - 1) = Some (wrap_host k h).
Proof.
  intros Hh. pose proof pow_k. unfold host_number, wrap_host, truth. case_if; [lia|].
  destruct (_ =? 0); done.
Qed.
Lemma net_lor (v h : Z) : is_u32 v → 0 <= h < 2 ^ k →
  Z.lor (Z.land v Mask) h = v / 2 ^ k * 2 ^ k + h.
Proof.
  intros Hv Hh. rewrite mask_ones, land_not_ones by (done || lia). apply Z.bits_inj'. intros n Hn.
  rewrite Z.lor_spec, <- Z.shiftl_mul_pow2, <- Z.shiftr_div_pow2 by lia.
  assert (Z.shiftl (Z.shiftr v k) k + h = Z.lor (Z.shiftl (Z.shiftr v k) k) h) as ->.
  { rewrite <- Z.lxor_lor; [symmetry; rewrite Z.add_nocarry_lxor; [done|]|]; apply Z.bits_inj'; intros m Hm;
      rewrite Z.land_spec, Z.bits_0; destruct (Z.lt_ge_cases m k);
      (rewrite Z.shiftl_spec_low by lia; done) || (rewrite (testbit_high h k) by lia; apply andb_false_r). }
  by rewrite Z.lor_spec.
Qed.
Lemma host_land v : is_u32 v → Z.land v (2 ^ k - 1) = v mod 2 ^ k.
Proof. intros Hv. rewrite <- Z.land_ones by lia. by rewrite Z.ones_equiv, Z.sub_1_r. Qed.
Lemma net_range v h : is_u32 v → 0 <= h < 2 ^ k → is_u32 (v / 2 ^ k * 2 ^ k + h).
Proof.
  intros Hv Hh. pose proof pow_k. unfold is_u32 in *.
  assert (v / 2 ^ k < 2 ^ (32 - k)) as Hq.
  { apply Z.div_lt_upper_bound; [lia|]. rewrite <- Z.pow_add_r by lia. replace (k + (32 - k)) with 32 by lia. lia. }
  pose proof (Z.div_pos v (2 ^ k) ltac:(lia) ltac:(lia)).
  assert (2 ^ (32 - k) * 2 ^ k = 2 ^ 32) as E by (rewrite <- Z.pow_add_r by lia; f_equal; lia).
  unfold_ints. change (2 ^ 32) with 4294967296 in E. nia.
Qed.
Lemma net_divmod v h : 0 <= h < 2 ^ k →
  (v / 2 ^ k * 2 ^ k + h) / 2 ^ k = v / 2 ^ k ∧ (v / 2 ^ k * 2 ^ k + h) mod 2 ^ k = h.
Proof.
  intros Hh. pose proof pow_k. rewrite Z.add_comm, Z.div_add, Z.mod_add by lia.
  rewrite Z.div_small, Z.mod_small by lia. done.
Qed.

Lemma init_client_ok h i : 0 <= h < 2 ^ k → 0 <= i < 8 →
  init_client (host_addr ip k h) Mask i =
  Some (mk_client IDLE 0 (host_addr ip k (wrap_host k (h + i))) no_mac DHCP_DEFAULT_LEASE_TIME).
Proof.
  intros Hh Hi. pose proof pow_k. pose proof (wrap_host_range (h + i) ltac:(lia)).
  pose proof (htonl_range ip) as Hip. pose proof (net_range (ntohl ip) h Hip Hh) as Hr.
  unfold init_client, host_addr. rewrite ntohl_htonl by done.
  rewrite not_mask, host_land by done. destruct (net_divmod (ntohl ip) h Hh) as [Hd ->].
  rewrite u32_id by (unfold is_u32; lia). rewrite host_number_ok by lia.
  rewrite net_lor by (done || lia). by rewrite Hd.
Qed.
Lemma start_addr : host_number (u32 (Z.land (ntohl ip) (u32 (Z.lnot Mask)) + 1)) (u32 (Z.lnot Mask))
    = Some (wrap_host k (host + 1)) ∧
  htonl (Z.lor (Z.land (ntohl ip) Mask) (wrap_host k (host + 1))) = host_addr ip k (wrap_host k (host + 1)).
Proof.
  pose proof pow_k. pose proof (htonl_range ip) as Hip.
  pose proof (Z.mod_pos_bound (ntohl ip) (2 ^ k) ltac:(lia)).
  pose proof (wrap_host_range (host + 1) ltac:(lia)).
  rewrite not_mask, host_land by done. rewrite u32_id by (unfold is_u32; lia). rewrite host_number_ok by lia.
  rewrite net_lor by (done || lia). done.
Qed.
Definition fresh_client (a : Z) : DHCP_CLIENT := mk_client IDLE 0 a no_mac DHCP_DEFAULT_LEASE_TIME.
Lemma init_clients_ok : mapM (init_client (host_addr ip k (wrap_host k (host + 1))) Mask) (seqZ 0 8)
  = Some (fresh_client <$> pool ip k).
Proof.
  pose proof pow_k. pose proof (Z.mod_pos_bound (ntohl ip) (2 ^ k) ltac:(lia)).
  pose proof (wrap_host_range (host + 1) ltac:(lia)).
  apply mapM_Some. unfold pool. rewrite <- list_fmap_compose.
  apply Forall2_fmap_r, Forall_Forall2_diag, list.Forall_forall. intros i Hi%elem_of_seqZ.
  apply init_client_ok; lia.
Qed.
End pool.

Lemma wrap_host_small k h : 0 < h < 2 ^ k - 1 → wrap_host k h = h.
Proof. intros Hh. unfold wrap_host. rewrite Z.mod_small by lia. case_if; lia. Qed.
(** Without a wrap the pool is the eight hosts after the server. *)
Lemma pool_straight k ip : 2 <= k < 32 → ntohl ip mod 2 ^ k + 8 < 2 ^ k - 1 →
  pool ip k = (λ i, host_addr ip k (ntohl ip mod 2 ^ k + 1 + i)) <$> seqZ 0 8.
Proof.
  intros Hk Hh. pose proof (Z.mod_pos_bound (ntohl ip) (2 ^ k) ltac:(apply Z.pow_pos_nonneg; lia)).
  apply list_fmap_ext. intros i x Hi. apply list_elem_of_lookup_2, elem_of_seqZ in Hi.
  by rewrite (wrap_host_small k (ntohl ip mod 2 ^ k + 1)), wrap_host_small by lia.
Qed.
Lemma host_addr_inj k ip h1 h2 : 2 <= k < 32 → 0 <= h1 < 2 ^ k → 0 <= h2 < 2 ^ k →
  host_addr ip k h1 = host_addr ip k h2 → h1 = h2.
Proof.
  intros Hk H1 H2 He. unfold host_addr in He. apply htonl_inj in He; [lia|..];
    apply net_range; (done || apply htonl_range).
Qed.
Lemma pool_NoDup k ip : 2 <= k < 32 → ntohl ip mod 2 ^ k + 8 < 2 ^ k - 1 → NoDup (pool ip k).
Proof.
  intros Hk Hh. pose proof (Z.mod_pos_bound (ntohl ip) (2 ^ k) ltac:(apply Z.pow_pos_nonneg; lia)).
  rewrite pool_straight by done. apply NoDup_fmap_2_strong; [|apply NoDup_seqZ].
  intros i j Hi%elem_of_seqZ Hj%elem_of_seqZ He. apply host_addr_inj in He; lia.
Qed.

(** ** Messages *)

(** Options as a client writes them, with padding between them. *)
Inductive dhcp_option := Pad | Opt (id : Z) (data : list Z).
Definition encode_option (x : dhcp_option) : list Z :=
  match x with Pad => [DHCP_OPTION_ID_PAD] | Opt id data => [id; blen data] ++ data end.
Definition encode_options (xs : list dhcp_option) : list Z :=
  concat (encode_option <$> xs) ++ [DHCP_OPTION_ID_END].
Definition option_ok (x : dhcp_option) : Prop :=
  match x with
  | Pad => True
  | Opt id data => id ≠ DHCP_OPTION_ID_PAD ∧ id ≠ DHCP_OPTION_ID_END ∧
      (id = DHCP_OPTION_ID_MSG_TYPE → blen data = 1) ∧
      (id = DHCP_OPTION_ID_REQ_IP_ADDR ∨ id = DHCP_OPTION_ID_SERVER_ID → blen data = 4)
  end.
Definition read_option (o : options) (x : dhcp_option) : options :=
  match x with
  | Pad => o
  | Opt id data =>
      switch id
        [(DHCP_OPTION_ID_MSG_TYPE,
            mk_options (hd 0 data) (pReqIpAddr o) (pServerId o) (Z.lor (opt_ret o) 1));
         (DHCP_OPTION_ID_REQ_IP_ADDR,
            mk_options (pMsgType o) (of_le data) (pServerId o) (Z.lor (opt_ret o) 2));
         (DHCP_OPTION_ID_SERVER_ID,
            mk_options (pMsgType o) (pReqIpAddr o) (of_le data) (Z.lor (opt_ret o) 4))] o
  end.

Lemma encode_pos x : (1 <= length (encode_option x))%nat.
Proof. destruct x; cbn; lia. Qed.
Lemma encode_options_len xs : (length xs < length (encode_options xs))%nat.
Proof.
  unfold encode_options. rewrite length_app. cbn. induction xs as [|x xs IH]; cbn; [lia|].
  rewrite length_app. pose proof (encode_pos x). lia.
Qed.
Lemma parse_loop_encode fuel rest : ∀ xs pre o msg, msg = pre ++ concat (encode_option <$> xs) ++ rest →
  Forall option_ok xs → blen msg = DHCP_MSG_SIZE →
  parse_loop (length xs + fuel) msg (blen pre) o =
  parse_loop fuel msg (blen pre + blen (concat (encode_option <$> xs))) (foldl read_option o xs).
Proof.
  induction xs as [|x xs IH]; intros pre o msg -> Hok Hl; cbn [length Nat.add parse_loop foldl].
  { cbn. by rewrite Z.add_0_r. }
  apply list.Forall_cons in Hok as [Hx Hxs]. 
  cbn [fmap list_fmap concat] in *. set (ys := concat (encode_option <$> xs)) in *.
  set (msg := pre ++ (encode_option x ++ ys) ++ rest) in *.
  assert (msg = (pre ++ encode_option x) ++ ys ++ rest) as Hmsg.
  { unfold msg. by rewrite <- !app_assoc. }
  set (end' := blen pre + blen (encode_option x ++ ys)).
  assert (∀ o p, p = blen (pre ++ encode_option x) →
    parse_loop (length xs + fuel) msg p o = parse_loop fuel msg end' (foldl read_option o xs)) as Hrec.
  { intros o' p ->. rewrite (IH _ o' msg) by done. f_equal. unfold end'. rewrite !blen_app. lia. }
  assert (blen pre + blen (encode_option x) <= DHCP_MSG_SIZE) as Hroom.
  { rewrite <- Hl, Hmsg. rewrite !blen_app. pose proof (blen_nonneg rest). pose proof (blen_nonneg ys). lia. }
  assert (∀ i b, 0 <= i → byte_at (encode_option x) i = Some b → byte_at msg (blen pre + i) = Some b) as Hb.
  { intros i b Hi He. rewrite Hmsg, <- app_assoc, byte_at_pre by done.
    pose proof (byte_at_Some _ _ _ He). rewrite byte_at_lookup in * by done.
    by rewrite lookup_app_l by (unfold blen in *; lia). }
  assert (byte_at msg (blen pre) = byte_at msg (blen pre + 0)) as -> by (f_equal; lia).
  assert (blen pre <? DHCP_MSG_SIZE = true) as Hlt
    by (pose proof (encode_pos x); unfold blen in *; lia).
  destruct x as [|id data]; cbn [read_option encode_option] in *.
  - rewrite (Hb 0 DHCP_OPTION_ID_PAD) by done. cbn [option_bind mbind]. rewrite Hlt. cbn.
    apply Hrec. by rewrite blen_app.
  - destruct Hx as (Hpad & Hend & Htype & Haddr).
    rewrite (Hb 0 id) by done. cbn [option_bind mbind]. rewrite Hlt.
    rewrite (proj2 (Z.eqb_neq _ _) Hend), (proj2 (Z.eqb_neq _ _) Hpad). cbn [negb andb].
    rewrite (Hb 1 (blen data)) by done. cbn [option_bind mbind].
    rewrite blen_app in Hroom. change (blen [id; blen data]) with 2 in Hroom.
    assert (∀ o, parse_loop (length xs + fuel) msg (blen pre + 2 + blen data) o =
      parse_loop fuel msg end' (foldl read_option o xs)) as Hnext.
    { intros o'. apply Hrec. rewrite !blen_app. change (blen [id; blen data]) with 2. lia. }
    assert (blen data = 4 → memcpy (replicate 4 0) 0 msg (blen pre + 2) 4 = Some data) as Hcpy.
    { intros Hd. pose proof (blen_nonneg pre).
      rewrite memcpy_Some by (rewrite ?blen_replicate, ?Hl; lia).
      rewrite Hmsg, <- app_assoc, slice_pre by done. cbn [app].
      assert (slice (id :: blen data :: data ++ ys ++ rest) 2 4 = data) as ->.
      { unfold slice. cbn [drop Z.to_nat Pos.to_nat Pos.iter_op Nat.add]. apply (take_app_length' data).
        unfold blen in Hd. lia. }
      f_equal. by apply splice_all. }
    unfold switch. case_if; [|case_if; [|case_if]]; cbn [option_bind mbind].
    + subst id. specialize (Htype eq_refl). destruct data as [|t [|]]; [done| |unfold blen in Htype; cbn in Htype; lia].
      rewrite (Hb 2 t) by done. apply Hnext.
    + rewrite Hcpy by auto. apply Hnext.
    + rewrite Hcpy by auto. apply Hnext.
    + apply Hnext.
Qed.
Lemma concat_len xs : (length xs <= length (concat (encode_option <$> xs)))%nat.
Proof. pose proof (encode_options_len xs) as H. unfold encode_options in H. rewrite length_app in H. cbn in H. lia. Qed.
Lemma parse_from hdr xs rest o msg : msg = hdr ++ concat (encode_option <$> xs) ++ rest →
  blen hdr = DHCP_OPTIONS → blen msg = DHCP_MSG_SIZE → Forall option_ok xs →
  ∃ fuel, _ParseDhcpOptions msg o =
    parse_loop (S fuel) msg (DHCP_OPTIONS + blen (concat (encode_option <$> xs)))
      (foldl read_option (mk_options (pMsgType o) (pReqIpAddr o) (pServerId o) 0) xs).
Proof.
  intros Hm Hh Hl Hok. pose proof (concat_len xs). pose proof (blen_nonneg rest).
  assert (blen hdr + blen (concat (encode_option <$> xs)) + blen rest = DHCP_MSG_SIZE)
    by (rewrite <- Hl, Hm, !blen_app; lia).
  exists (309 - length xs)%nat. unfold _ParseDhcpOptions. rewrite <- Hh.
  rewrite <- (parse_loop_encode (S (309 - length xs)) rest xs hdr) by done. f_equal.
  unfold DHCP_MSG_SIZE, DHCP_OPTIONS, blen in *. lia.
Qed.
Lemma parse_encode hdr xs rest o msg : msg = hdr ++ encode_options xs ++ rest → blen hdr = DHCP_OPTIONS →
  blen msg = DHCP_MSG_SIZE → Forall option_ok xs →
  _ParseDhcpOptions msg o =
  Some (foldl read_option (mk_options (pMsgType o) (pReqIpAddr o) (pServerId o) 0) xs).
Proof.
  intros Hm Hh Hl Hok. unfold encode_options in Hm. rewrite <- app_assoc in Hm.
  destruct (parse_from hdr xs _ o msg Hm Hh Hl Hok) as [fuel ->]. cbn [parse_loop].
  rewrite Hm at 1. rewrite <- Hh, app_assoc, <- blen_app.
  rewrite <- (Z.add_0_r (blen (_ ++ _))), byte_at_pre by done. done.
Qed.
(** Options that fill the message: the byte after it is read. *)
Lemma parse_overrun hdr xs o msg : msg = hdr ++ concat (encode_option <$> xs) → blen hdr = DHCP_OPTIONS →
  blen msg = DHCP_MSG_SIZE → Forall option_ok xs → _ParseDhcpOptions msg o = None.
Proof.
  intros Hm Hh Hl Hok. rewrite <- (app_nil_r (concat _)) in Hm.
  destruct (parse_from hdr xs [] o msg Hm Hh Hl Hok) as [fuel ->]. cbn [parse_loop].
  rewrite (byte_at_None msg (DHCP_OPTIONS + blen (concat (encode_option <$> xs)))); [done|]. rewrite Hm, app_nil_r, blen_app, Hh. lia.
Qed.

(** The message of a station, and the one the server answers with. *)
Definition message_header (op xid flags yiaddr : Z) (mac : list Z) : list Z :=
  [op; DHCP_HWTYPE_ETHERNET; 6; 0] ++ le32 (htonl xid) ++ [0; 0] ++ le16 (ntohs flags)
  ++ replicate 4 0 ++ le32 yiaddr ++ replicate 8 0 ++ mac ++ replicate 202 0 ++ le32 (htonl DHCP_MAGIC).
Definition client_message (xid flags : Z) (mac : list Z) (xs : list dhcp_option) : list Z :=
  message_header DHCP_OP_REQUEST xid flags 0 mac ++ encode_options xs.
Definition discover_message (xid flags : Z) (mac : list Z) : list Z :=
  client_message xid flags mac [Opt DHCP_OPTION_ID_MSG_TYPE [DHCP_MSG_DISCOVER]].
Definition request_message (xid flags : Z) (mac : list Z) (addr server : Z) : list Z :=
  client_message xid flags mac
    [Opt DHCP_OPTION_ID_MSG_TYPE [DHCP_MSG_REQUEST]; Opt DHCP_OPTION_ID_REQ_IP_ADDR (le32 addr);
     Opt DHCP_OPTION_ID_SERVER_ID (le32 server)].
Definition lease_message (v : DHCP_SERVER) (type : Z) (addr : Z) (mac : list Z) (xid : Z) : list Z :=
  message_header DHCP_OP_REPLY xid 0 addr mac ++
  encode_options
    [Opt DHCP_OPTION_ID_MSG_TYPE [type];
     Opt DHCP_OPTION_ID_LEASE_TIME (le32 (htonl DHCP_DEFAULT_LEASE_TIME));
     Opt DHCP_OPTION_ID_SERVER_ID (le32 (ServerIpAddr v));
     Opt DHCP_OPTION_ID_SUBNET_MASK (le32 (SubnetMask v));
     Opt DHCP_OPTION_ID_DEF_GW (le32 (GateWay v));
     Opt DHCP_OPTION_ID_DNS_SERVER (le32 (Dns1 v) ++ le32 (Dns2 v))].

Lemma length6 (l : list Z) : length l = 6%nat → ∃ a b c d e f, l = [a; b; c; d; e; f].
Proof.
  intros H. do 6 (destruct l as [|? l]; [done|]). destruct l; [|done]. by eexists _, _, _, _, _, _.
Qed.
Lemma lease_packet_message v type c xid : length (MacAddr c) = 6%nat →
  lease_packet v type c xid = lease_message v type (IpAddr c) (MacAddr c) xid.
Proof.
  intros (m0 & m1 & m2 & m3 & m4 & m5 & Hm)%length6.
  unfold lease_packet, lease_message, lease_options, reply_header, message_header, DHCP_SET_OPTION_SUBNET_MASK,
    DHCP_SET_OPTION_GW, DHCP_SET_OPTION_DNS, DHCP_SET_OPTION_SERVER_ID, DHCP_SET_OPTION_LEASE_TIME.
  rewrite Hm. change (le32 0) with (replicate 4 0). change (le16 (ntohs 0)) with [0; 0].
  destruct (le32_four (htonl xid)) as (x0 & x1 & x2 & x3 & ->).
  destruct (le32_four (IpAddr c)) as (y0 & y1 & y2 & y3 & ->).
  destruct (le32_four (ServerIpAddr v)) as (s0 & s1 & s2 & s3 & ->).
  destruct (le32_four (SubnetMask v)) as (k0 & k1 & k2 & k3 & ->).
  destruct (le32_four (GateWay v)) as (g0 & g1 & g2 & g3 & ->).
  destruct (le32_four (Dns1 v)) as (d0 & d1 & d2 & d3 & ->).
  destruct (le32_four (Dns2 v)) as (e0 & e1 & e2 & e3 & ->).
  vm_compute. reflexivity.
Qed.

(** ** The choice of an entry for a new station, and for one that was made an offer *)

Lemma lookup_discover v mac cs : Clients v = cs →
  (∀ i c, cs !! i = Some c → active c → MacAddr c ≠ mac) →
  (∀ i c, cs !! i = Some c → IpAddr c ≠ 0) →
  (∃ i c, cs !! i = Some c ∧ State c = IDLE) →
  ∃ i c, cs !! i = Some c ∧ State c = IDLE ∧
    _ClientTableLookup v mac DHCP_MSG_DISCOVER 0 0 = (alter (set_MacAddr mac) i cs, Some i).
Proof.
  intros <- Hgone Hip Hidle. unfold _ClientTableLookup, switch.
  pose proof (scan_ok mac 0 (Clients v)) as Hf. set (f := scan_clients _ _ _ _ _) in *.
  destruct Hf as [Hfree Hreq Hhist Hmh Hm _]. cbn [Z.eqb Pos.eqb].
  destruct (pMyClient f) as [m|]; [naive_solver|].
  destruct (pReqClient f) as [q|]; [destruct Hreq as (_ & c & Hc & _ & Hq); by apply Hip in Hc|].
  destruct (pMyHistoryClient f) as [q|]; [destruct Hmh as (_ & c & Hc & Hs & _); eauto|].
  destruct (pFreeClient f) as [q|]; [destruct Hfree as (_ & c & Hc & Hs & _); eauto|].
  destruct (pHistoryClient f) as [q|]; [destruct Hhist as (_ & c & Hc & Hs & _); eauto|].
  destruct Hidle as (i & c & Hc & Hs). pose proof (lookup_lt_Some _ _ _ Hc) as Hi. exfalso.
  destruct (decide (MacAddr c = no_mac)); [by apply (Hfree i c)|by apply (Hhist i c)].
Qed.
Lemma lookup_request v mac cs i c sid : Clients v = cs → table_ok cs → cs !! i = Some c → active c →
  MacAddr c = mac → sid = ServerIpAddr v →
  _ClientTableLookup v mac DHCP_MSG_REQUEST (IpAddr c) sid = (alter (set_MacAddr mac) i cs, Some i).
Proof.
  intros <- Hok Hc Ha Hmac ->. unfold _ClientTableLookup, switch. rewrite (Z.eqb_refl (ServerIpAddr v)), orb_true_r.
  pose proof (scan_ok mac (IpAddr c) (Clients v)) as Hf. set (f := scan_clients _ _ _ _ _) in *.
  destruct Hf as [_ Hreq _ _ Hm Ht]. cbn [Z.eqb Pos.eqb]. pose proof (lookup_lt_Some _ _ _ Hc) as Hi.
  destruct (pMyClient f) as [m|] eqn:Em; [|by apply (Hm i c) in Hc].
  destruct Hm as (_ & d & Hd & Had & Hdm).
  assert (m = i) as -> by (eapply (tb_mac _ Hok); [exact Hd|exact Hc|done|done|congruence]).
  destruct (IpUnavailable f).
  { destruct (proj1 Ht eq_refl) as (j & e & _ & He & _ & Hem & Hei).
    assert (j = i) as -> by (eapply (tb_addr _ Hok); [exact He|exact Hc|done]). congruence. }
  destruct (pReqClient f) as [q|]; [|done]. destruct Hreq as (_ & e & He & Hes & Hei).
  assert (q = i) as -> by (eapply (tb_addr _ Hok); [exact He|exact Hc|done]). exfalso. apply Ha. congruence.
Qed.

Section handshake.
Context {W : Type} `{!NetEnv W}.
Local Open Scope c_scope.
#[local] Abbreviation clients s := (Clients (DhcpServer s)).

(** The station [mac] is associated with the access point and is not the
    access point itself; memory and buffers are available. *)
Record served (mac : list Z) (s : dhcp W) : Prop := {
  sv_len : length mac = 6%nat;
  sv_other : ∀ w : W, wpa_supplicant_get_mac w ≠ mac;
  sv_assoc : ∀ w : W, let ' (n, stas) := tls_wifi_get_authed_sta_info w in
    find_sta (Z.to_nat n) 0 (splice (replicate 64 0) 0 stas) mac = Some true;
  sv_pbuf : ∀ w : W, (pbuf_alloc DHCP_MSG_SIZE w).1 = true;
  sv_heap : ∀ n, dh_heap s n ≠ None;
}.

Lemma wp_CheckMac mac (Q : bool → dhcp W → Prop) s : served mac s →
  Q true (set_dh_heap (λ n, dh_heap s (S n)) s) → wp (_CheckMacIsValid mac) Q s.
Proof.
  intros Hs HQ. pose proof (sv_heap _ _ Hs O) as Hh. unfold _CheckMacIsValid.
  apply wp_bind, wp_lift. unfold wp, malloc. destruct (dh_heap s O) as [b|]; [|done]. cbn.
  pose proof (sv_assoc _ _ Hs (net s)) as Ha. cbn in Ha |- *. unfold bind, gets. cbn.
  destruct (tls_wifi_get_authed_sta_info (net s)) as [n st]. unfold of_opt. rewrite Ha. exact HQ.
Qed.

Lemma header_facts op xid flags y mac rest : length mac = 6%nat →
  let m := message_header op xid flags y mac ++ rest in
  blen (message_header op xid flags y mac) = DHCP_OPTIONS ∧
  byte_at m 0 = Some op ∧ byte_at m 1 = Some DHCP_HWTYPE_ETHERNET ∧
  slice m 4 4 = le32 (htonl xid) ∧ slice m 10 2 = le16 (ntohs flags) ∧ slice m 28 6 = mac ∧
  slice m 236 4 = le32 (htonl DHCP_MAGIC).
Proof.
  intros (m0 & m1 & m2 & m3 & m4 & m5 & ->)%length6. cbv zeta. unfold message_header.
  destruct (le32_four (htonl xid)) as (x0 & x1 & x2 & x3 & ->).
  destruct (le32_four y) as (y0 & y1 & y2 & y3 & ->).
  destruct (le32_four (htonl DHCP_MAGIC)) as (g0 & g1 & g2 & g3 & ->). unfold le16.
  generalize (u8 (ntohs flags)) (u8 (Z.shiftr (ntohs flags) 8)). intros f0 f1.
  split_and!; reflexivity.
Qed.

Definition answer (mac : list Z) (o : options) (xid flags : Z) : M (dhcp W) unit :=
  let* v := gets DhcpServer in
  let ' (cs, r) := _ClientTableLookup v mac (pMsgType o) (pReqIpAddr o) (pServerId o) in
  upd_server (set_Clients cs) ;;
  match r with
  | None =>
      if negb (pMsgType o =? DHCP_MSG_RELEASE) && negb (pMsgType o =? DHCP_MSG_DECLINE)
      then _DHCPNakGenAndSend mac xid else ret tt
  | Some i => _DhcpClientSMEHandle i (pMsgType o) xid flags
  end.
(** A well-formed message of a served station is answered. *)
Lemma wp_recv_message xid flags mac xs o (Q : unit → dhcp W → Prop) s :
  served mac s → is_u32 xid → is_u16 flags → Forall option_ok xs → blen (encode_options xs) <= 308 →
  o = foldl read_option (mk_options 0xff 0 0 0) xs → Z.land (opt_ret o) 1 ≠ 0 →
  DHCP_MSG_INFORM ≠ pMsgType o →
  (∀ s', DhcpServer s' = DhcpServer s → sent s' = sent s → served mac s' →
     wp (answer mac o xid flags) Q s') →
  wp (DHCPS_RecvCb (client_message xid flags mac xs)) Q s.
Proof.
  intros Hs Hxid Hflags Hxs Hlen Ho Htype Hinf HQ. unfold DHCPS_RecvCb.
  set (P := client_message xid flags mac xs).
  set (rest := encode_options xs ++ replicate (Z.to_nat (308 - blen (encode_options xs))) 0).
  pose proof (header_facts DHCP_OP_REQUEST xid flags 0 mac rest (sv_len _ _ Hs))
    as (Hhdr & Hop & Hht & Hx & Hf & Hmac & Hmagic).
  set (hdr := message_header _ _ _ _ _) in *.
  assert (blen P = 240 + blen (encode_options xs)) as HP by (unfold P, client_message; rewrite blen_app; fold hdr; by rewrite Hhdr).
  assert (blen (hdr ++ rest) = DHCP_MSG_SIZE) as Hl.
  { unfold rest. rewrite !blen_app, Hhdr, blen_replicate, Z2Nat.id by lia. unfold DHCP_OPTIONS, DHCP_MSG_SIZE. lia. }
  assert (splice (replicate (Z.to_nat DHCP_MSG_SIZE) 0) 0 (slice P 0 (Z.min DHCP_MSG_SIZE (blen P)))
    = hdr ++ rest) as ->.
  { rewrite Z.min_r by (rewrite HP; unfold DHCP_MSG_SIZE; lia). rewrite slice_all by done.
    unfold splice. rewrite take_0, drop_replicate. unfold P at 1, client_message, rest. fold hdr. cbn [app].
    rewrite <- app_assoc. do 2 (apply (f_equal2 app); [done|]). apply (f_equal (λ n, replicate n 0)).
    unfold blen, DHCP_MSG_SIZE in *. lia. }
  set (m := hdr ++ rest) in *. rewrite Hop, Hht. wp_steps. eapply wp_of_opt; [done|]. wp_steps.
  eapply wp_of_opt; [done|]. rewrite Hmagic, HP, of_le_le32, ntohl_htonl by (done || apply htonl_range).
  rewrite !Z.eqb_refl. cbn [negb orb].
  pose proof (blen_nonneg (encode_options xs)).
  rewrite Z.min_r by (unfold DHCP_MSG_SIZE; lia). rewrite (proj2 (Z.eqb_neq _ 0)) by lia. cbn [orb].
  wp_steps. rewrite Hmac. unfold memcmp_eq. rewrite bool_decide_false by apply Hs. wp_steps.
  apply (wp_CheckMac mac); [by destruct Hs|]. cbn [negb]. wp_steps.
  eapply wp_of_opt.
  { apply (parse_encode hdr xs (replicate (Z.to_nat (308 - blen (encode_options xs))) 0)); [|done..].
    unfold m, rest. done. }
  cbn [pMsgType pReqIpAddr pServerId]. rewrite <- Ho. rewrite !(proj2 (Z.eqb_neq _ _)) by done.
  rewrite Hx, Hf, of_le_le32, ntohl_htonl by (done || apply htonl_range).
  destruct (ntohs_ntohs flags Hflags) as [Hfr Hff]. rewrite of_le_le16, Hff by done.
  apply HQ; [done|done|]. destruct Hs as [S1 S2 S3 S4 S5]. split; [done..|]. intros n. apply S5.
Qed.

(** The entry found is answered with one message. *)
Lemma wp_answer mac o xid flags cs i c (Q : unit → dhcp W → Prop) s : served mac s →
  _ClientTableLookup (DhcpServer s) mac (pMsgType o) (pReqIpAddr o) (pServerId o) = (cs, Some i) →
  cs !! i = Some c → MacAddr c = mac →
  (∀ s', DhcpServer s' = set_Clients (sme_table (pMsgType o) i c cs) (DhcpServer s) → served mac s' →
     sent s' = sent s ++ [(reply_addr c flags, lease_message (DhcpServer s)
       (if sme_binds (pMsgType o) c then DHCP_MSG_ACK else DHCP_MSG_OFFER) (IpAddr c) mac xid)] → Q tt s') →
  wp (answer mac o xid flags) Q s.
Proof.
  intros Hs Hlk Hc Hmac HQ. unfold answer. wp_steps. rewrite Hlk. unfold upd_server. wp_steps.
  apply (wp_sme _ _ _ _ c); [done|]. rewrite (sv_pbuf _ _ Hs). intros s' Hs' Hh Hp.
  apply HQ; [done| |].
  - destruct Hs as [S1 S2 S3 S4 S5]. split; [done..|]. by rewrite Hh.
  - rewrite Hp, lease_packet_message by (rewrite Hmac; apply Hs). by rewrite Hmac.
Qed.
End handshake.
(** ** Properties *)

Ltac options_ok :=
  repeat match goal with |- Forall _ _ => constructor end;
  lazymatch goal with
  | |- option_ok Pad => exact I
  | |- _ => split_and!; [done|done|by intros|by intros [?|?]]
  end.

Section properties.
Context {W : Type} `{!NetEnv W}.
Local Open Scope c_scope.
#[local] Abbreviation clients s := (Clients (DhcpServer s)).

Lemma start_inv k up ip netmask s s0 : 2 <= k < 32 → ntohl netmask = 2 ^ 32 - 2 ^ k →
  DHCPS_Start up ip netmask s = Some (DHCPS_ERR_SUCCESS, s0) →
  clients s0 = fresh_client <$> pool ip k ∧ ServerIpAddr (DhcpServer s0) = ip.
Proof.
  intros Hk Hm. unfold DHCPS_Start. destruct up; cbn [negb]; [|done].
  destruct (start_addr k ip netmask Hk Hm) as [Ht Ha].
  unfold bind at 1, upd_server at 1, modify at 1. unfold bind at 1, of_opt at 1. rewrite Ht, Ha.
  unfold bind at 1, upd_server at 1, modify at 1. unfold bind at 1, of_opt at 1.
  rewrite init_clients_ok by done. unfold bind, upd_clients, upd_server, modify, on_net, in_net, ret. cbn.
  destruct (udp_new (net s)) as [sock w]. cbn. destruct (sock =? 0); [done|]. by intros [= <-].
Qed.
Lemma fresh_table_ok l : length l = 8%nat → NoDup l → table_ok (fresh_client <$> l).
Proof.
  intros Hl Hnd. split; [by rewrite length_fmap| | |].
  - intros i j ci cj (a & -> & Ha)%list_lookup_fmap_Some (b & -> & Hb)%list_lookup_fmap_Some. cbn. intros ->.
    by eapply NoDup_lookup.
  - intros i j ci cj (a & -> & Ha)%list_lookup_fmap_Some _ [] %(λ f, f eq_refl).
  - intros i c (a & -> & Ha)%list_lookup_fmap_Some. done.
Qed.

(** C6: a server started on an interface whose address leaves room for
    eight more hosts (host number + 8 below the last of the network) keeps its
    table sound, whatever datagrams arrive whose options are read within their
    buffers, whenever the timer runs, whatever the application and the network
    do: the eight addresses stay those of the start and differ, so no address is
    leased twice; no station has two offers or leases; an offer has between 1
    and 10 ticks left and a lease between 1 and 7200. *)
Theorem leases_distinct k up ip netmask s s0 s1 : 2 <= k < 32 → ntohl netmask = 2 ^ 32 - 2 ^ k →
  ntohl ip mod 2 ^ k + 8 < 2 ^ k - 1 →
  DHCPS_Start up ip netmask s = Some (DHCPS_ERR_SUCCESS, s0) → rtc dhcp_step s0 s1 →
  table_ok (clients s1) ∧ IpAddr <$> clients s1 = pool ip k.
Proof.
  intros Hk Hm Hh Hs Hr. destruct (start_inv _ _ _ _ _ _ Hk Hm Hs) as [Hc _].
  assert (table_ok (clients s0)) as Hok by (rewrite Hc; apply fresh_table_ok; [done|by apply pool_NoDup]).
  destruct (dhcp_steps_keep _ _ Hok Hr) as [Hok1 Hip]. split; [done|].
  rewrite Hip, Hc, <- list_fmap_compose. apply list_fmap_id.
Qed.

(** The addresses of a started server.  If the server's host number leaves
    room for eight more they are the eight after it: different, in the
    server's network, neither its own address nor a broadcast.  If it is
    within seven to two of the last, two entries get the same address. *)
Theorem dhcp_pool k up ip netmask s s0 : 2 <= k < 32 → ntohl netmask = 2 ^ 32 - 2 ^ k →
  DHCPS_Start up ip netmask s = Some (DHCPS_ERR_SUCCESS, s0) →
  let h := ntohl ip mod 2 ^ k in let addrs := IpAddr <$> clients s0 in
  (h + 8 < 2 ^ k - 1 → NoDup addrs ∧
     ∀ i a, addrs !! i = Some a → a ≠ ip ∧ ntohl a / 2 ^ k = ntohl ip / 2 ^ k ∧
       ntohl a mod 2 ^ k = h + 1 + Z.of_nat i ∧ ntohl a mod 2 ^ k < 2 ^ k - 1) ∧
  (2 ^ k - 1 - 7 <= h <= 2 ^ k - 1 - 2 →
     ∃ i, (S i < 8)%nat ∧ addrs !! i = Some (host_addr ip k 1) ∧ addrs !! S i = Some (host_addr ip k 1)).
Proof.
  intros Hk Hm Hs. destruct (start_inv _ _ _ _ _ _ Hk Hm Hs) as [Hc _]. cbv zeta.
  assert (IpAddr <$> clients s0 = pool ip k) as ->.
  { rewrite Hc, <- list_fmap_compose. apply list_fmap_id. }
  pose proof (pow_k k Hk). pose proof (Z.mod_pos_bound (ntohl ip) (2 ^ k) ltac:(lia)) as Hmod. split.
  - intros Hh. split; [by apply pool_NoDup|]. rewrite pool_straight by done.
    intros i a (z & -> & Hz)%list_lookup_fmap_Some. apply lookup_seqZ in Hz as [-> Hz].
    assert (ntohl (host_addr ip k (ntohl ip mod 2 ^ k + 1 + (0 + Z.of_nat i))) =
      ntohl ip / 2 ^ k * 2 ^ k + (ntohl ip mod 2 ^ k + 1 + Z.of_nat i)) as Hn.
    { unfold host_addr. rewrite Z.add_0_l. apply ntohl_htonl, net_range; [done|apply htonl_range|lia]. }
    destruct (net_divmod k Hk (ntohl ip) (ntohl ip mod 2 ^ k + 1 + Z.of_nat i)) as [Hd Hr]; [lia|].
    rewrite <- Hn in Hd, Hr. split_and!; [|done|done|lia]. intros He. rewrite He in Hr. lia.
  - intros Hh. set (N := 2 ^ k - 1) in *. set (h := ntohl ip mod 2 ^ k) in *.
    assert (∀ i : nat, (i < 8)%nat → wrap_host k (h + 1 + Z.of_nat i) = 1 →
      pool ip k !! i = Some (host_addr ip k 1)) as Hi.
    { intros i Hi Hw. unfold pool. fold h. rewrite list_lookup_fmap, lookup_seqZ_lt by lia. cbn [fmap option_fmap option_map].
      rewrite (wrap_host_small k (h + 1)), Z.add_0_l, Hw by (unfold N in *; lia). done. }
    exists (Z.to_nat (N - (h + 1))). split; [lia|]. split; apply Hi; try lia; unfold wrap_host; fold N.
    + rewrite Z2Nat.id by lia. replace (h + 1 + (N - (h + 1))) with N by lia. by rewrite Z.mod_same by lia.
    + replace (h + 1 + Z.of_nat (S (Z.to_nat (N - (h + 1))))) with (1 + 1 * N) by lia.
      rewrite Z.mod_add, Z.mod_small by lia. done.
Qed.

(** The options of a message, in any order and with padding, are read
    back: the type, the address asked for and the server, the last of each,
    and which of them there are.  If they fill the 308 bytes without an end
    mark, the byte after the message is read. *)
Theorem dhcp_options_read hdr xs o pad : blen hdr = DHCP_OPTIONS → Forall option_ok xs →
  let start := mk_options (pMsgType o) (pReqIpAddr o) (pServerId o) 0 in
  (blen (encode_options xs ++ pad) = 308 →
   _ParseDhcpOptions (hdr ++ encode_options xs ++ pad) o = Some (foldl read_option start xs)) ∧
  (blen (concat (encode_option <$> xs)) = 308 →
   _ParseDhcpOptions (hdr ++ concat (encode_option <$> xs)) o = None).
Proof.
  intros Hh Hok. split; intros Hl.
  - apply (parse_encode hdr xs pad); [done|done| |done]. by rewrite blen_app, Hh, Hl.
  - apply (parse_overrun hdr xs); [done|done| |done]. by rewrite blen_app, Hh, Hl.
Qed.

(** C33: A station that is associated and has no offer or lease gets one: its
    DISCOVER is answered by an OFFER of the address of an idle entry, the
    REQUEST of that address from this server by an ACK of it, with the lease
    time, mask, gateway and name servers of the server, and the entry is then
    bound to the station for 7200 ticks.  Both answers are complete messages,
    and neither call reads or writes outside a buffer. *)
Theorem dhcp_handshake mac xid flags xid' flags' s : served mac s →
  is_u32 xid → is_u16 flags → is_u32 xid' → is_u16 flags' → is_u32 (ServerIpAddr (DhcpServer s)) →
  table_ok (clients s) → (∀ i c, clients s !! i = Some c → is_u32 (IpAddr c) ∧ IpAddr c ≠ 0) →
  (∀ i c, clients s !! i = Some c → active c → MacAddr c ≠ mac) →
  (∃ i c, clients s !! i = Some c ∧ State c = DHCP_CLIENT_STATE_IDLE) →
  ∃ i c s1 s2, clients s !! i = Some c ∧ State c = DHCP_CLIENT_STATE_IDLE ∧
    DHCPS_RecvCb (discover_message xid flags mac) s = Some (tt, s1) ∧
    sent s1 = sent s ++ [(reply_addr c flags, lease_message (DhcpServer s) DHCP_MSG_OFFER (IpAddr c) mac xid)] ∧
    DHCPS_RecvCb (request_message xid' flags' mac (IpAddr c) (ServerIpAddr (DhcpServer s))) s1 = Some (tt, s2) ∧
    sent s2 = sent s1 ++ [(reply_addr c flags', lease_message (DhcpServer s) DHCP_MSG_ACK (IpAddr c) mac xid')] ∧
    clients s2 !! i = Some (mk_client DHCP_CLIENT_STATE_BIND 10 (IpAddr c) mac 7200).
Proof.
  intros Hs Hx Hf Hx' Hf' Hsid Hok Hips Hgone Hidle.
  destruct (lookup_discover (DhcpServer s) mac (clients s) eq_refl Hgone (λ i c H, proj2 (Hips i c H)) Hidle)
    as (i & c & Hc & Hci & Hlk).
  pose proof (lookup_ok (DhcpServer s) mac DHCP_MSG_DISCOVER 0 0 Hok) as Hlo. rewrite Hlk in Hlo. cbn [fst snd] in Hlo.
  set (c1 := set_MacAddr mac c). set (c2 := offer_entry c1).
  set (cs1 := alter (set_MacAddr mac) i (clients s)) in *.
  assert (cs1 !! i = Some c1) as Hc1 by (unfold cs1; by rewrite list_lookup_alter_eq, Hc).
  assert (wp (DHCPS_RecvCb (discover_message xid flags mac)) (λ _ s1,
    sent s1 = sent s ++ [(reply_addr c flags, lease_message (DhcpServer s) DHCP_MSG_OFFER (IpAddr c) mac xid)] ∧
    DhcpServer s1 = set_Clients (alter offer_entry i cs1) (DhcpServer s) ∧ served mac s1) s) as Hdisc.
  { apply (wp_recv_message _ _ _ _ (mk_options DHCP_MSG_DISCOVER 0 0 1)); try done.
    { options_ok. }
    intros s' Hv' Hp' Hs'. apply (wp_answer _ _ _ _ cs1 i c1); [done|by rewrite Hv'|done|done|].
    intros s1 Hv1 Hs1 Hp1. rewrite Hp1, Hp', Hv1, Hv'. unfold sme_table, sme_binds. cbn. rewrite Hci. done. }
  apply wp_total in Hdisc as ([] & s1 & Hr1 & Hp1 & Hv1 & Hs1).
  assert (keeps (clients s) (clients s1)) as [Hok1 _].
  { rewrite Hv1. pose proof (keeps_sme _ _ _ _ _ c1 Hok Hlo Hc1) as Hkp.
    unfold sme_table, sme_binds in Hkp. cbn in Hkp. rewrite Hci in Hkp. done. }
  assert (clients s1 !! i = Some c2) as Hc2.
  { rewrite Hv1. cbn. by rewrite list_lookup_alter_eq, Hc1. }
  destruct (Hips i c Hc) as [Hip _].
  assert (wp (DHCPS_RecvCb (request_message xid' flags' mac (IpAddr c) (ServerIpAddr (DhcpServer s)))) (λ _ s2,
    sent s2 = sent s1 ++ [(reply_addr c flags', lease_message (DhcpServer s) DHCP_MSG_ACK (IpAddr c) mac xid')] ∧
    clients s2 !! i = Some (mk_client DHCP_CLIENT_STATE_BIND 10 (IpAddr c) mac 7200)) s1) as Hreq.
  { apply (wp_recv_message _ _ _ _ (mk_options DHCP_MSG_REQUEST (IpAddr c) (ServerIpAddr (DhcpServer s)) 7));
      try done.
    { options_ok. }
    { cbn -[of_le le32]. by rewrite !of_le_le32. }
    intros s' Hv' Hp' Hs'. apply (wp_answer _ _ _ _ (alter (set_MacAddr mac) i (clients s1)) i c2); [done| | |done|].
    - rewrite Hv'. apply (lookup_request _ _ _ i c2); try done. by rewrite Hv1.
    - by rewrite list_lookup_alter_eq, Hc2.
    - intros s2 Hv2 Hs2 Hp2. rewrite Hp2, Hp', Hv2, Hv'. split; [by rewrite Hv1|].
      unfold sme_table, sme_binds. cbn. rewrite list_lookup_fmap, !list_lookup_alter_eq, Hc2. done. }
  apply wp_total in Hreq as ([] & s2 & Hr2 & Hp2 & Hc3). by exists i, c, s1, s2.
Qed.
End properties.

(** ** Concrete runs *)

(** One station, an allocator and a stack that always deliver; the access point
    is 192.168.1.1/24. *)
Definition run_mac : list Z := [2; 0; 0; 0; 0; 1].
#[local] Instance run_net : NetEnv unit := {
  tls_wifi_get_authed_sta_info := λ _, (1, run_mac);
  wpa_supplicant_get_mac := λ _, [2; 0; 0; 0; 0; 9];
  netif_is_up := λ _, true;
  pbuf_alloc := λ _ w, (true, w);
  udp_sendto := λ _ _ _ w, w;
  etharp_update_arp_entry := λ _ _ _ w, w;
  sys_timeout := λ _ w, w;
  sys_untimeout := λ w, w;
  udp_new := λ w, (1, w);
  udp_bind := λ _ _ _ w, w;
  udp_bind_multicast_netif := λ _ _ w, w;
  udp_recv := λ _ w, w;
  udp_remove := λ _ w, w;
}.
Definition run_start : dhcp unit :=
  mk_dhcp zero_server (replicate 548 0) (λ _, Some (λ _, 0)) tt [].
Definition after {A} (m : M (dhcp unit) A) (s : dhcp unit) : dhcp unit :=
  match m s with Some (_, s') => s' | None => s end.
Definition run_ip : Z := 0x0101A8C0.
Definition run_mask : Z := 0x00FFFFFF.
Definition run_started : dhcp unit := after (DHCPS_Start true run_ip run_mask) run_start.
Definition run_offered : dhcp unit := after (DHCPS_RecvCb (discover_message 7 0 run_mac)) run_started.
Definition run_addr : Z := 0x0201A8C0. (* 192.168.1.2 *)
Definition run_bound : dhcp unit :=
  after (DHCPS_RecvCb (request_message 7 0 run_mac run_addr run_ip)) run_offered.
Definition run_ticked : dhcp unit := after _DhcpTickHandle run_bound.

Lemma run_started_ok : DHCPS_Start true run_ip run_mask run_start = Some (DHCPS_ERR_SUCCESS, run_started).
Proof. vm_compute. reflexivity. Qed.
Lemma run_steps_ok : rtc dhcp_step run_started run_ticked.
Proof.
  eapply rtc_l; [apply (step_recv (discover_message 7 0 run_mac)); vm_compute; reflexivity|].
  eapply rtc_l; [apply (step_recv (request_message 7 0 run_mac run_addr run_ip)); vm_compute; reflexivity|].
  eapply rtc_l; [apply step_tick; vm_compute; reflexivity|]. apply rtc_refl.
Qed.

Lemma leases_distinct_witness :
  Clients (DhcpServer run_ticked) !! O = Some (mk_client DHCP_CLIENT_STATE_BIND 10 run_addr run_mac 7199) ∧
  table_ok (Clients (DhcpServer run_ticked)) ∧ IpAddr <$> Clients (DhcpServer run_ticked) = pool run_ip 8.
Proof.
  split; [vm_compute; reflexivity|].
  refine (leases_distinct 8 true run_ip run_mask run_start run_started run_ticked
    (conj _ _) eq_refl _ run_started_ok run_steps_ok); [lia|lia|vm_compute; reflexivity].
Defined.

(** The access point at 192.168.1.250: the sixth and seventh address are both
    192.168.1.1. *)
Definition run_ip_high : Z := 0xFA01A8C0.
Definition run_started_high : dhcp unit := after (DHCPS_Start true run_ip_high run_mask) run_start.
Lemma dhcp_pool_witness :
  NoDup (IpAddr <$> Clients (DhcpServer run_started)) ∧
  ∃ i, (S i < 8)%nat ∧
    (IpAddr <$> Clients (DhcpServer run_started_high)) !! i = Some (host_addr run_ip_high 8 1) ∧
    (IpAddr <$> Clients (DhcpServer run_started_high)) !! S i = Some (host_addr run_ip_high 8 1).
Proof.
  split.
  - refine (proj1 (proj1 (dhcp_pool 8 true run_ip run_mask run_start run_started
      (conj _ _) eq_refl run_started_ok) _)); [lia|lia|vm_compute; reflexivity].
  - refine (proj2 (dhcp_pool 8 true run_ip_high run_mask run_start run_started_high
      (conj _ _) eq_refl _) (conj _ _)); try lia; vm_compute; (reflexivity || discriminate).
Defined.

Lemma dhcp_options_read_witness :
  _ParseDhcpOptions (replicate 240 0 ++ encode_options
      [Opt DHCP_OPTION_ID_MSG_TYPE [3]; Pad; Opt 12 [65; 66]; Opt DHCP_OPTION_ID_REQ_IP_ADDR [192; 168; 1; 2]]
      ++ replicate 293 0) (mk_options 0xff 0 0 0) = Some (mk_options 3 run_addr 0 3) ∧
  _ParseDhcpOptions (replicate 240 0 ++ concat (encode_option <$> replicate 308 Pad)) (mk_options 0xff 0 0 0) = None.
Proof.
  split.
  - refine (proj1 (dhcp_options_read (replicate 240 0)
      [Opt DHCP_OPTION_ID_MSG_TYPE [3]; Pad; Opt 12 [65; 66]; Opt DHCP_OPTION_ID_REQ_IP_ADDR [192; 168; 1; 2]]
      (mk_options 0xff 0 0 0) (replicate 293 0) eq_refl _) _); [options_ok|vm_compute; reflexivity].
  - refine (proj2 (dhcp_options_read (replicate 240 0) (replicate 308 Pad) (mk_options 0xff 0 0 0) [] eq_refl _) _).
    + by apply Forall_replicate.
    + vm_compute. reflexivity.
Defined.

Lemma run_served : served run_mac run_started.
Proof. split; try done; intros w; vm_compute; reflexivity. Qed.
Lemma run_table : table_ok (Clients (DhcpServer run_started)) ∧
  IpAddr <$> Clients (DhcpServer run_started) = pool run_ip 8.
Proof.
  assert (2 <= 8 < 32) as Hk by lia.
  destruct (start_inv 8 true run_ip run_mask run_start run_started Hk eq_refl run_started_ok) as [-> _].
  split; [|vm_compute; reflexivity]. apply fresh_table_ok; [done|apply pool_NoDup; [lia|vm_compute; reflexivity]].
Qed.
Lemma run_clients : Clients (DhcpServer run_started) = fresh_client <$>
  [0x0201A8C0; 0x0301A8C0; 0x0401A8C0; 0x0501A8C0; 0x0601A8C0; 0x0701A8C0; 0x0801A8C0; 0x0901A8C0].
Proof. vm_compute. reflexivity. Qed.
Lemma run_server : ServerIpAddr (DhcpServer run_started) = run_ip.
Proof. vm_compute. reflexivity. Qed.
Lemma run_idle i c : Clients (DhcpServer run_started) !! i = Some c →
  State c = DHCP_CLIENT_STATE_IDLE ∧ is_u32 (IpAddr c) ∧ IpAddr c ≠ 0.
Proof.
  rewrite run_clients. intros (a & -> & Ha)%list_lookup_fmap_Some. cbn. apply list_elem_of_lookup_2 in Ha.
  split; [done|]. unfold is_u32. repeat (apply elem_of_cons in Ha as [->|Ha]; [lia|]). by apply elem_of_nil in Ha.
Qed.
Lemma dhcp_handshake_witness : ∃ i c s1 s2,
  Clients (DhcpServer run_started) !! i = Some c ∧ State c = DHCP_CLIENT_STATE_IDLE ∧
  DHCPS_RecvCb (discover_message 7 0 run_mac) run_started = Some (tt, s1) ∧
  sent s1 = sent run_started ++
    [(reply_addr c 0, lease_message (DhcpServer run_started) DHCP_MSG_OFFER (IpAddr c) run_mac 7)] ∧
  DHCPS_RecvCb (request_message 8 0 run_mac (IpAddr c) run_ip) s1 = Some (tt, s2) ∧
  sent s2 = sent s1 ++
    [(reply_addr c 0, lease_message (DhcpServer run_started) DHCP_MSG_ACK (IpAddr c) run_mac 8)] ∧
  Clients (DhcpServer s2) !! i = Some (mk_client DHCP_CLIENT_STATE_BIND 10 (IpAddr c) run_mac 7200).
Proof.
  assert (∀ n, 0 <= n < 256 → is_u32 n ∧ is_u16 n) as Hn by (intros; unfold is_u32, is_u16; lia).
  rewrite <- run_server.
  refine (dhcp_handshake run_mac 7 0 8 0 run_started run_served (proj1 (Hn 7 _)) (proj2 (Hn 0 _))
    (proj1 (Hn 8 _)) (proj2 (Hn 0 _)) _ (proj1 run_table) (λ i c H, proj2 (run_idle i c H)) _ _); try lia.
  - rewrite run_server. unfold is_u32, run_ip. lia.
  - intros i c Hi Ha. destruct (Ha (proj1 (run_idle i c Hi))).
  - exists O, (fresh_client 0x0201A8C0). rewrite run_clients. done.
Defined.
