(* ===== verification/Dns.v ===== *)
(** * [src/Src/App/dnsserver/dns_server.c]: the name server of the soft AP

    The server knows one name, its own, and answers a question for it with its
    address.  A question for another name is answered with a name error when
    the default interface is down and not at all otherwise. *)
From S2P Require Import Prelude Utils Network.

Definition DNSS_ERR_SUCCESS := 0.
Definition DNSS_ERR_LINKDOWN := 1.
Definition DNSS_ERR_PARAM := 2.
Definition DNSS_ERR_MEM := 3.
Definition DNS_DEFAULT_TTL := 3600.
Definition DNS_SERVER_PORT := 53.
Definition DNS_RRTYPE_A := 1.
Definition DNS_RRCLASS_IN := 1.
Definition DNS_FLAG1_RESPONSE := 0x80.
Definition DNS_FLAG1_OPCODE_STANDARD := 0.
Definition DNS_FLAG2_ERR_NONE := 0.
Definition DNS_FLAG2_ERR_NAME := 3.
Definition DNS_NAME_OFFSET := 0xC000.
Definition sizeof_DNS_HEADER := 12.
Definition sizeof_DNS_QUERY := 4.
Definition sizeof_DNS_ANSWER := 8.
Definition DNS_NAME_SIZE := 32.

(** ** State *)

Record DNS_SERVER := mk_dns_server {
  Socket : Z;
  DnsName : list Z;
  HostIp : Z;
}.
Definition zero_dns : DNS_SERVER := mk_dns_server 0 (replicate 32 0) 0.
(** The structure as memory: pointers into [DnsName] may leave it. *)
Definition dns_mem (v : DNS_SERVER) : list Z := le32 (Socket v) ++ DnsName v ++ le32 (HostIp v).
Definition off_DnsName : Z := 4.

(** [DnsServer], the allocator and the network; [sent] records the datagrams
    with their destination, the code does not read it. *)
Record dns (W : Type) := mk_dns {
  DnsServer : DNS_SERVER;
  dns_heap : heap;
  net : W;
  sent : list (Z * Z * list Z);
}.
Arguments mk_dns {W}.
Arguments DnsServer {W}.
Arguments dns_heap {W}.
Arguments net {W}.
Arguments sent {W}.

Section setters.
Context {W : Type}.
Implicit Type s : dns W.
Definition set_DnsServer x s := mk_dns x (dns_heap s) (net s) (sent s).
Definition set_dns_heap x s := mk_dns (DnsServer s) x (net s) (sent s).
Definition set_net (x : W) s := mk_dns (DnsServer s) (dns_heap s) x (sent s).
Definition set_sent x s := mk_dns (DnsServer s) (dns_heap s) (net s) x.
End setters.

(** ** Comparing names *)

Section compare.
Local Open Scope stdpp_scope.
(** [mem] and [my]: the memory [MyDns] points into and where; [msg] and [q]:
    the same of [Query]. *)
Implicit Types mem msg : list Z.

(** [while (n > 0)]: [None] inside for the early return of 1. *)
Fixpoint cmp_label (n : nat) mem (my : Z) msg (q : Z) : option (option (Z * Z)) :=
  match n with
  | O => Some (Some (my, q))
  | S n' =>
      a ← byte_at mem my;
      b ← byte_at msg q;
      if negb (a =? b) then Some None else cmp_label n' mem (my + 1) msg (q + 1)
  end.

(** 0 if the byte before [MyDns] is 0, else 1. *)
Definition cmp_end mem (my : Z) : option Z :=
  a ← byte_at mem (my - 1); Some (if a =? 0 then 0 else 1).

Fixpoint cmp_loop (fuel : nat) mem (my : Z) msg (q : Z) : option Z :=
  match fuel with
  | O => None
  | S fuel' =>
      n ← byte_at msg q;
      if Z.land n 0xc0 =? 0xc0 then cmp_end mem my
      else
        r ← cmp_label (Z.to_nat n) mem my msg (q + 1);
        match r with
        | None => Some 1
        | Some (my, q) =>
            b ← byte_at msg q;
            if negb (b =? 0) then cmp_loop fuel' mem (my + 1) msg q else cmp_end mem (my + 1)
        end
  end.

Definition _DnsCompareName mem (my : Z) msg (q : Z) : option Z :=
  len ← strlen (drop (Z.to_nat q) msg);
  if 32 <? u32 (len - 1) then Some 1 else cmp_loop (S (length msg)) mem my msg q.
End compare.

(** ** Replies *)

Definition dns_header (id flag2 answers : Z) : list Z :=
  le16 id ++ [DNS_FLAG1_RESPONSE; flag2] ++ le16 (htons 1) ++ le16 answers ++ le16 0 ++ le16 0.
(** Bytes stored at [Body], inside the block, and [Body] and [Len] moved. *)
Definition emit (b : list Z) (x : list Z * Z) : option (list Z * Z) :=
  let ' (m, len) := x in
  match memcpy m len b 0 (blen b) with Some m => Some (m, len + blen b) | None => None end.
Definition round4 (n : Z) : Z := Z.shiftl (Z.shiftr n 2) 2.

Section server.
Context {W : Type} `{!NetEnv W}.
Local Open Scope c_scope.
Local Abbreviation MD := (M (dns W)).

Definition on_net {A} (f : W → A * W) : MD A :=
  λ s, let ' (a, w) := f (net s) in Some (a, set_net w s).
Definition in_net (f : W → W) : MD unit := modify (λ s, set_net (f (net s)) s).
Definition alloc (n : Z) : MD (option (list Z)) := lift dns_heap set_dns_heap (malloc n).
Definition upd_dns (f : DNS_SERVER → DNS_SERVER) : MD unit :=
  modify (λ s, set_DnsServer (f (DnsServer s)) s).

(** [len] bytes of the reply in a packet, sent. *)
Definition send_reply (addr port : Z) (reply : list Z) (len : Z) : MD unit :=
  let* ok := on_net (pbuf_alloc len) in
  if negb ok then ret tt
  else
    modify (λ s, set_sent (sent s ++ [(addr, port, slice reply 0 len)]) s) ;;
    in_net (udp_sendto (slice reply 0 len) addr port).

(** [query]: the four bytes of the question's type and class; the name is at
    offset [q] of [msg]. *)
Definition _DNSNameErrGenAndSend (addr port : Z) (query msg : list Z) (q id : Z) : MD unit :=
  let* n := of_opt (strlen (drop (Z.to_nat q) msg)) in
  let* p := alloc (round4 (sizeof_DNS_HEADER + (n + 1) + sizeof_DNS_QUERY + 3)) in
  match p with
  | None => ret tt
  | Some reply =>
      let* x := of_opt (emit (dns_header id DNS_FLAG2_ERR_NAME 0) (reply, 0)) in
      let* x := of_opt (emit (slice msg q (n + 1)) x) in
      let* ' (reply, len) := of_opt (emit query x) in
      send_reply addr port reply len
  end.

Definition _DNSAnswerGenAndSend (addr port : Z) (query msg : list Z) (q id : Z) : MD unit :=
  let* n := of_opt (strlen (drop (Z.to_nat q) msg)) in
  let* p := alloc (round4 (sizeof_DNS_HEADER + (n + 1) + sizeof_DNS_QUERY + 2 + sizeof_DNS_ANSWER
                           + 2 + 4 + 3)) in
  match p with
  | None => ret tt
  | Some reply =>
      let* x := of_opt (emit (dns_header id DNS_FLAG2_ERR_NONE (htons 1)) (reply, 0)) in
      let* x := of_opt (emit (slice msg q (n + 1)) x) in
      let* x := of_opt (emit query x) in
      let* x := of_opt (emit (le16 (htons (Z.lor DNS_NAME_OFFSET sizeof_DNS_HEADER))) x) in
      let* x := of_opt (emit (le16 (htons DNS_RRTYPE_A) ++ le16 (htons DNS_RRCLASS_IN)
                              ++ le32 (htonl DNS_DEFAULT_TTL)) x) in
      let* x := of_opt (emit (le16 (htons 4)) x) in
      let* v := gets DnsServer in
      let* ' (reply, len) := of_opt (emit (le32 (HostIp v)) x) in
      send_reply addr port reply len
  end.

(** [P] is the datagram. *)
Definition DNSS_RecvCb (P : list Z) (addr port : Z) : MD unit :=
  let* p := alloc (blen P) in
  match p with
  | None => ret tt
  | Some block =>
      let msg := splice block 0 P in
      let* flag1 := of_opt (byte_at msg 2) in
      if truth (Z.land flag1 DNS_FLAG1_RESPONSE)
         || negb (Z.land flag1 (Z.shiftl 0xf 3) =? DNS_FLAG1_OPCODE_STANDARD) then ret tt
      else
        let q := sizeof_DNS_HEADER in
        let* n := of_opt (strlen (drop (Z.to_nat q) msg)) in
        let* query := of_opt (memcpy (replicate 4 0) 0 msg (q + n + 1) sizeof_DNS_QUERY) in
        let type := of_le (slice query 0 2) in
        let class := of_le (slice query 2 2) in
        if negb (class =? htons DNS_RRCLASS_IN) && negb (type =? htons DNS_RRTYPE_A) then ret tt
        else
          let* v := gets DnsServer in
          let* c := of_opt (_DnsCompareName (dns_mem v) off_DnsName msg q) in
          let id := of_le (slice msg 0 2) in
          if negb (c =? 0) then
            let* up := gets (λ s, netif_is_up (net s)) in
            if negb up then _DNSNameErrGenAndSend addr port query msg q id else ret tt
          else _DNSAnswerGenAndSend addr port query msg q id
  end.

(** A name is the bytes its pointer points to. *)
Definition set_name (name : list Z) (n : Z) (v : DNS_SERVER) : option DNS_SERVER :=
  match memcpy (replicate 32 0) 0 name 0 n with
  | Some x => Some (mk_dns_server (Socket v) x (HostIp v))
  | None => None
  end.
Definition DNSS_Config (name : option (list Z)) : MD Z :=
  match name with
  | None => ret DNSS_ERR_PARAM
  | Some name =>
      let* n := of_opt (strlen name) in
      if 32 <? n then ret DNSS_ERR_PARAM
      else
        let* v := gets DnsServer in
        let* v := of_opt (set_name name n v) in
        upd_dns (λ _, v) ;;
        ret DNSS_ERR_SUCCESS
  end.

(** [netif]: whether the interface is up and its address. *)
Definition DNSS_Start (netif : option (bool * Z)) (name : list Z) : MD Z :=
  match netif with
  | None => ret DNSS_ERR_PARAM
  | Some (up, ip) =>
      let* n := of_opt (strlen name) in
      if 32 <? n then ret DNSS_ERR_PARAM
      else if negb up then ret DNSS_ERR_LINKDOWN
      else
        upd_dns (λ _, zero_dns) ;;
        let* v := of_opt (set_name name n zero_dns) in
        upd_dns (λ _, mk_dns_server 0 (DnsName v) ip) ;;
        let* sock := on_net udp_new in
        upd_dns (λ v, mk_dns_server sock (DnsName v) (HostIp v)) ;;
        if sock =? 0 then ret DNSS_ERR_MEM
        else
          in_net (udp_bind sock IP_ADDR_ANY DNS_SERVER_PORT) ;;
          in_net (udp_recv sock) ;;
          ret DNSS_ERR_SUCCESS
  end.

Definition DNSS_Stop : MD unit :=
  let* v := gets DnsServer in
  if truth (Socket v) then in_net (udp_remove (Socket v)) else ret tt.
End server.

(** ** Names *)

(** The labels of a name in a message, each after its length. *)
Definition labels (ls : list (list Z)) : list Z := concat ((λ l, blen l :: l) <$> ls).
Definition label_ok (l : list Z) : Prop := l ≠ [] ∧ blen l < 64 ∧ Forall (λ c, c ≠ 0) l.
(** The labels joined by a separator. *)
Fixpoint joined (sep : Z) (ls : list (list Z)) : list Z :=
  match ls with
  | [] => []
  | [l] => l
  | l :: ls' => l ++ sep :: joined sep ls'
  end.
(** Which names match: the labels in order with any one character between. *)
Fixpoint name_matches (my : list Z) (ls : list (list Z)) : bool :=
  match ls with
  | [] => false
  | [l] => bool_decide (my = l)
  | l :: ls' => bool_decide (take (length l) my = l) && name_matches (drop (S (length l)) my) ls'
  end.
(** A server whose name is [my]. *)
Definition named (my : list Z) (v : DNS_SERVER) : Prop :=
  Forall (λ c, c ≠ 0) my ∧ (length my <= 31)%nat ∧ DnsName v = my ++ replicate (32 - length my) 0.

Lemma joined_matches sep ls : ls ≠ [] → name_matches (joined sep ls) ls = true.
Proof.
  induction ls as [|l [|l' ls] IH]; [done| |]; intros _; cbn [joined name_matches].
  - by apply bool_decide_eq_true.
  - rewrite take_app_length, bool_decide_true by done.
    rewrite <- (Nat.add_1_r (length l)), drop_app_add. by apply IH.
Qed.
Lemma labels_cons l ls : labels (l :: ls) = (blen l :: l) ++ labels ls.
Proof. done. Qed.
Lemma label_pos l : label_ok l → 1 <= blen l.
Proof. intros (Hl & _). unfold blen. destruct l; [done|]. cbn. lia. Qed.
Lemma labels_nonzero ls : Forall label_ok ls → Forall (λ c, c ≠ 0) (labels ls).
Proof.
  induction 1 as [|l ls Hl Hls IH]; [constructor|]. rewrite labels_cons. apply Forall_app. split; [|done].
  constructor; [pose proof (label_pos l Hl); lia|apply Hl].
Qed.
Lemma land_c0 n : 0 <= n < 64 → Z.land n 0xc0 = 0.
Proof.
  intros Hn. assert (is_u8 n) as H8 by (unfold is_u8; lia). revert n H8 Hn.
  refine (u8_forall (λ n, 0 <= n < 64 → Z.land n 0xc0 = 0) _). apply list.Forall_forall.
  intros n _ Hn. apply Z.bits_inj'. intros k Hk. rewrite Z.land_spec, Z.bits_0.
  destruct (Z.lt_ge_cases k 6).
  - change 0xc0 with (Z.shiftl 3 6). rewrite Z.shiftl_spec_low by done. apply andb_false_r.
  - rewrite (testbit_high n 6) by lia. done.
Qed.

Lemma byte_at_next pre b l : byte_at (pre ++ b :: l) (blen pre) = Some b.
Proof. rewrite <- (Z.add_0_r (blen pre)), byte_at_pre by done. done. Qed.

Lemma labels_len ls : (length ls <= length (labels ls))%nat.
Proof. induction ls as [|l ls IH]; [done|]. rewrite labels_cons, length_app. cbn [length] in *. lia. Qed.

Section compare_ok.
Variables (v : DNS_SERVER) (my : list Z).
Hypothesis Hv : named my v.

Lemma name_byte k : (k < 32)%nat → byte_at (dns_mem v) (4 + Z.of_nat k) = Some (default 0 (my !! k)).
Proof.
  destruct Hv as (_ & Hl & Hn). intros Hk. unfold dns_mem. change 4 with (blen (le32 (Socket v))).
  rewrite byte_at_pre, byte_at_lookup, Nat2Z.id, Hn by lia.
  destruct (decide (k < length my)%nat) as [Hlt|Hge].
  - rewrite <- app_assoc, lookup_app_l by done. destruct (lookup_lt_is_Some_2 _ _ Hlt) as [x ->]. done.
  - rewrite (lookup_ge_None_2 my) by lia. rewrite lookup_app_l by (rewrite length_app, length_replicate; lia).
    rewrite lookup_app_r by lia. rewrite lookup_replicate_2 by lia. done.
Qed.
Lemma cmp_label_ok rest : ∀ l k pre msg, Forall (λ c, c ≠ 0) l → (k + length l <= 32)%nat →
  msg = pre ++ l ++ rest →
  cmp_label (length l) (dns_mem v) (4 + Z.of_nat k) msg (blen pre) =
  Some (if bool_decide (take (length l) (drop k my) = l)
        then Some (4 + Z.of_nat (k + length l), blen (pre ++ l)) else None).
Proof.
  induction l as [|c l IH]; intros k pre msg Hl Hk ->; cbn [length cmp_label].
  { rewrite bool_decide_true by done. by rewrite app_nil_r, Nat.add_0_r. }
  apply list.Forall_cons in Hl as [Hc Hl]. cbn [length] in Hk. rewrite name_byte by lia.
  cbn [mbind option_bind app]. rewrite byte_at_next. cbn [mbind option_bind].
  destruct (my !! k) as [x|] eqn:Ex; cbn [default id].
  - rewrite (drop_S _ _ _ Ex). cbn [take]. destruct (Z.eqb_spec x c) as [->|Hne]; cbn [negb].
    + replace (4 + Z.of_nat k + 1) with (4 + Z.of_nat (S k)) by lia.
      replace (blen pre + 1) with (blen (pre ++ [c])) by (rewrite blen_app; done).
      rewrite (IH (S k) (pre ++ [c])); [|done|lia|by rewrite <- app_assoc].
      rewrite <- app_assoc. replace (S k + length l)%nat with (k + S (length l))%nat by lia. cbn [app].
      f_equal. case_bool_decide as Hb.
      * rewrite bool_decide_true by congruence. done.
      * rewrite bool_decide_false by congruence. done.
    + rewrite bool_decide_false by congruence. done.
  - rewrite drop_ge by (by apply lookup_ge_None). rewrite bool_decide_false by (by rewrite take_nil).
    destruct (Z.eqb_spec 0 c); [congruence|done].
Qed.

Lemma cmp_loop_ok rest : ∀ ls k pre fuel msg, ls ≠ [] → Forall label_ok ls →
  (k + length (labels ls) <= 33)%nat → msg = pre ++ labels ls ++ 0 :: rest → (length ls <= fuel)%nat →
  cmp_loop fuel (dns_mem v) (4 + Z.of_nat k) msg (blen pre) =
  Some (if name_matches (drop k my) ls then 0 else 1).
Proof.
  destruct Hv as (Hmy & Hmyl & _).
  induction ls as [|l ls IH]; intros k pre fuel msg Hne Hls Hk Hmsg Hf; [done|].
  destruct fuel as [|fuel]; [cbn in Hf; lia|]. apply list.Forall_cons in Hls as [Hl Hls].
  pose proof (label_pos l Hl) as Hpos. destruct Hl as (_ & H64 & Hl).
  rewrite labels_cons in Hk, Hmsg. rewrite length_app in Hk. cbn [length] in Hk, Hf.
  assert (msg = (pre ++ [blen l]) ++ l ++ labels ls ++ 0 :: rest) as Hmsg' by (rewrite Hmsg; by rewrite <- !app_assoc).
  assert (byte_at msg (blen pre) = Some (blen l)) as Hn by (rewrite Hmsg; apply byte_at_next).
  cbn [cmp_loop]. rewrite Hn. cbn [mbind option_bind].
  rewrite land_c0 by lia. cbn [Z.eqb]. replace (blen pre + 1) with (blen (pre ++ [blen l])) by (rewrite blen_app; done).
  replace (Z.to_nat (blen l)) with (length l) by (unfold blen; lia).
  rewrite (cmp_label_ok (labels ls ++ 0 :: rest) l k _ msg) by (done || lia). cbn [mbind option_bind].
  case_bool_decide as Hb.
  2: { f_equal. destruct ls; cbn [name_matches]; [rewrite bool_decide_false; [done|]|by rewrite bool_decide_false].
       intros Hd. apply Hb. by rewrite Hd, firstn_all. }
  set (pre' := (pre ++ [blen l]) ++ l). assert (msg = pre' ++ labels ls ++ 0 :: rest) as Hmsg2
    by (unfold pre'; rewrite Hmsg'; by rewrite <- !app_assoc).
  assert (length l <= length (drop k my))%nat as Hlen.
  { rewrite <- Hb at 1. rewrite length_take. lia. }
  rewrite length_drop in Hlen. assert (1 <= length l)%nat by (unfold blen in Hpos; lia).
  destruct ls as [|l' ls].
  - assert (byte_at msg (blen pre') = Some 0) as -> by (rewrite Hmsg2; apply byte_at_next). cbn [mbind option_bind Z.eqb negb name_matches].
    unfold cmp_end. replace (4 + Z.of_nat (k + length l) + 1 - 1) with (4 + Z.of_nat (k + length l)) by lia.
    rewrite name_byte by lia. cbn [mbind option_bind]. destruct (my !! (k + length l)%nat) as [x|] eqn:Ex; cbn [default id].
    + rewrite bool_decide_false.
      2: { intros Hd. apply (f_equal length) in Hd. rewrite length_drop in Hd. apply lookup_lt_Some in Ex. lia. }
      pose proof (proj1 (Forall_lookup _ _) Hmy _ _ Ex) as Hx. cbn in Hx. destruct (Z.eqb_spec x 0); done.
    + rewrite bool_decide_true; [done|]. rewrite <- Hb. apply lookup_ge_None in Ex.
      symmetry. apply take_ge. rewrite length_drop. lia.
  - assert (byte_at msg (blen pre') = Some (blen l')) as -> by (rewrite Hmsg2, labels_cons; apply byte_at_next).
    cbn [mbind option_bind]. pose proof (label_pos l' (Forall_inv Hls)).
    rewrite (proj2 (Z.eqb_neq (blen l') 0)) by lia. cbn [negb].
    replace (4 + Z.of_nat (k + length l) + 1) with (4 + Z.of_nat (k + S (length l))) by lia.
    rewrite (IH (k + S (length l))%nat pre' fuel msg) by (done || (cbn [length] in *; lia)).
    rewrite <- drop_drop. change (name_matches (drop k my) (l :: l' :: ls)) with
      (bool_decide (take (length l) (drop k my) = l) && name_matches (drop (S (length l)) (drop k my)) (l' :: ls))%bool.
    by rewrite (bool_decide_true _ Hb).
Qed.

Lemma compare_names pre ls rest : ls ≠ [] → Forall label_ok ls → blen (labels ls) < 65536 →
  _DnsCompareName (dns_mem v) off_DnsName (pre ++ labels ls ++ 0 :: rest) (blen pre) =
  Some (if (blen (labels ls) <=? 33) && name_matches my ls then 0 else 1).
Proof.
  intros Hne Hls Hmax. unfold _DnsCompareName. rewrite drop_blen, strlen_app by by apply labels_nonzero.
  cbn [mbind option_bind].
  assert (2 <= blen (labels ls)) as Hpos.
  { destruct ls as [|l ls]; [done|]. pose proof (label_pos l (Forall_inv Hls)). rewrite labels_cons, blen_app.
    pose proof (blen_nonneg (labels ls)). unfold blen in *. cbn [length]. lia. }
  assert (32 <? u32 (blen (labels ls) - 1) = negb (blen (labels ls) <=? 33)) as ->.
  { rewrite u32_id by (unfold is_u32; lia). lia. }
  destruct (Z.leb_spec (blen (labels ls)) 33) as [H33|H33]; cbn [negb andb]; [|done].
  change off_DnsName with (4 + Z.of_nat 0).
  apply (cmp_loop_ok rest ls 0 pre); [done|done|unfold blen in H33; lia|done|].
  rewrite !length_app. pose proof (labels_len ls). lia.
Qed.
End compare_ok.

(** ** Replies *)

Lemma round4_ge n : n <= round4 (n + 3).
Proof.
  unfold round4. rewrite Z.shiftl_mul_pow2, Z.shiftr_div_pow2 by lia. change (2 ^ 2) with 4. dlia.
Qed.
Lemma emit_ok b d junk len : len = blen d → blen b <= blen junk →
  emit b (d ++ junk, len) = Some ((d ++ b) ++ drop (length b) junk, blen (d ++ b)).
Proof.
  intros -> Hb. unfold emit. pose proof (blen_nonneg d). pose proof (blen_nonneg b).
  rewrite memcpy_Some by (rewrite ?blen_app; lia). rewrite slice_all by done. f_equal. f_equal; [|by rewrite blen_app].
  unfold splice, blen. rewrite Nat2Z.id, take_app_length, <- app_assoc. f_equal. f_equal.
  rewrite drop_app_ge by lia. f_equal. lia.
Qed.

Section replies.
Context {W : Type} `{!NetEnv W}.
Local Open Scope c_scope.

Lemma wp_emit {A} n b d junk len (k : list Z * Z → M (dns W) A) Q s : len = blen d → blen b = n →
  n <= blen junk → (∀ junk', blen junk' = blen junk - n → wp (k ((d ++ b) ++ junk', blen (d ++ b))) Q s) →
  wp (bind (of_opt (emit b (d ++ junk, len))) k) Q s.
Proof.
  intros Hl <- Hb HQ. apply wp_bind. eapply wp_of_opt; [by apply emit_ok|]. apply HQ.
  unfold blen in *. rewrite length_drop. lia.
Qed.

(** Memory and packets are available. *)
Definition supplied (s : dns W) : Prop :=
  (∀ n, dns_heap s n ≠ None) ∧ (∀ n (w : W), (pbuf_alloc n w).1 = true).

Lemma wp_alloc_block {A} n (k : option (list Z) → M (dns W) A) Q s : supplied s → 0 <= n →
  (∀ block s', blen block = n → DnsServer s' = DnsServer s → net s' = net s → sent s' = sent s → supplied s' →
     wp (k (Some block)) Q s') →
  wp (bind (alloc n) k) Q s.
Proof.
  intros [Hh Hp] Hn HQ. apply wp_bind, wp_lift. pose proof (Hh O) as H0. unfold wp, malloc.
  destruct (dns_heap s O) as [junk|]; [|done]. cbn [fmap option_fmap option_map]. apply HQ; try done.
  - unfold blen. rewrite length_fmap, length_seqZ. lia.
  - split; [|done]. intros m. apply Hh.
Qed.
Lemma wp_send_reply addr port d junk len (Q : unit → dns W → Prop) s : supplied s → len = blen d →
  (∀ s', DnsServer s' = DnsServer s → sent s' = sent s ++ [(addr, port, d)] → Q tt s') →
  wp (send_reply addr port (d ++ junk) len) Q s.
Proof.
  intros [_ Hp] -> HQ. unfold send_reply. apply wp_bind. unfold wp at 1, on_net.
  specialize (Hp (blen d) (net s)). destruct (pbuf_alloc _ _) as [ok w]. cbn in Hp. subst ok. cbn [negb].
  unfold in_net. wp_steps. rewrite slice_front, slice_all by done. by apply HQ.
Qed.

(** The answer and the name error. *)
Definition dns_answer (id : Z) (name query : list Z) (ip : Z) : list Z :=
  le16 id ++ [0x80; 0; 0; 1; 0; 1; 0; 0; 0; 0] ++ name ++ query
  ++ [0xC0; 12; 0; 1; 0; 1; 0; 0; 0x0E; 0x10; 0; 4] ++ le32 ip.
Definition dns_name_error (id : Z) (name query : list Z) : list Z :=
  le16 id ++ [0x80; 3; 0; 1; 0; 0; 0; 0; 0; 0] ++ name ++ query.

(** The name [name], ended by its zero, at offset [q] of [msg]. *)
Definition name_at (msg : list Z) (q : Z) (name : list Z) : Prop :=
  strlen (drop (Z.to_nat q) msg) = Some (blen name - 1) ∧ slice msg q (blen name) = name ∧ 1 <= blen name.

Lemma wp_answer_sent addr port query msg q id name (Q : unit → dns W → Prop) s : supplied s →
  name_at msg q name → blen query = 4 →
  (∀ s', DnsServer s' = DnsServer s →
     sent s' = sent s ++ [(addr, port, dns_answer id name query (HostIp (DnsServer s)))] → Q tt s') →
  wp (_DNSAnswerGenAndSend addr port query msg q id) Q s.
Proof.
  intros Hs (Hn & Hname & Hpos) Hq HQ. unfold _DNSAnswerGenAndSend. apply wp_bind.
  eapply wp_of_opt; [exact Hn|]. rewrite Z.sub_add, Hname. unfold sizeof_DNS_HEADER, sizeof_DNS_QUERY, sizeof_DNS_ANSWER.
  set (L := round4 _). assert (12 + blen name + 20 <= L) as HL.
  { unfold L. replace (12 + blen name + 4 + 2 + 8 + 2 + 4 + 3) with (12 + blen name + 20 + 3) by lia. apply round4_ge. }
  apply wp_alloc_block; [done|lia|]. intros block s1 Hb Hv1 _ Hp1 Hs1.
  apply (wp_emit 12 _ [] block); [done|done|lia|]. intros j1 Hj1.
  apply (wp_emit (blen name)); [done|done|lia|]. intros j2 Hj2.
  apply (wp_emit 4); [done|done|lia|]. intros j3 Hj3.
  apply (wp_emit 2); [done|done|lia|]. intros j4 Hj4.
  apply (wp_emit 8); [done|done|lia|]. intros j5 Hj5.
  apply (wp_emit 2); [done|done|lia|]. intros j6 Hj6.
  apply wp_bind, wp_gets. apply (wp_emit 4); [done|done|lia|]. intros j7 Hj7. cbn beta iota.
  apply wp_send_reply; [done|done|]. intros s2 Hv2 Hp2. apply HQ; [congruence|].
  rewrite Hp2, Hp1, Hv1. unfold dns_answer. do 3 f_equal. cbn [app]. by rewrite <- !app_assoc.
Qed.
Lemma wp_name_error_sent addr port query msg q id name (Q : unit → dns W → Prop) s : supplied s →
  name_at msg q name → blen query = 4 →
  (∀ s', DnsServer s' = DnsServer s →
     sent s' = sent s ++ [(addr, port, dns_name_error id name query)] → Q tt s') →
  wp (_DNSNameErrGenAndSend addr port query msg q id) Q s.
Proof.
  intros Hs (Hn & Hname & Hpos) Hq HQ. unfold _DNSNameErrGenAndSend. apply wp_bind.
  eapply wp_of_opt; [exact Hn|]. rewrite Z.sub_add, Hname. unfold sizeof_DNS_HEADER, sizeof_DNS_QUERY.
  set (L := round4 _). assert (12 + blen name + 4 <= L) as HL by apply round4_ge.
  apply wp_alloc_block; [done|lia|]. intros block s1 Hb Hv1 _ Hp1 Hs1.
  apply (wp_emit 12 _ [] block); [done|done|lia|]. intros j1 Hj1.
  apply (wp_emit (blen name)); [done|done|lia|]. intros j2 Hj2.
  apply (wp_emit 4); [done|done|lia|]. intros j3 Hj3. cbn beta iota.
  apply wp_send_reply; [done|done|]. intros s2 Hv2 Hp2. apply HQ; [congruence|].
  rewrite Hp2, Hp1. unfold dns_name_error. do 3 f_equal.
Qed.
End replies.

(** ** Properties *)

(** On a query name of well-formed labels [_DnsCompareName] reads inside
    the name, the server's structure and the message only, and answers 0 exactly
    if the name has at most 32 characters and the labels are the server's name
    with any one character between them; a name joined by dots, or by anything
    else, matches its labels. *)
Theorem dns_compare v my pre ls rest sep : named my v → ls ≠ [] → Forall label_ok ls →
  blen (labels ls) < 65536 →
  _DnsCompareName (dns_mem v) off_DnsName (pre ++ labels ls ++ 0 :: rest) (blen pre) =
  Some (if (blen (labels ls) <=? 33) && name_matches my ls then 0 else 1) ∧
  name_matches (joined sep ls) ls = true.
Proof. intros Hv Hne Hls Hl. split; [by apply compare_names|by apply joined_matches]. Qed.

(** A standard query. *)
Definition dns_query (id f1 f2 : Z) (counts : list Z) (ls : list (list Z)) (type class : Z) (tail : list Z)
    : list Z :=
  (le16 id ++ [f1; f2] ++ counts) ++ labels ls ++ 0 :: le16 type ++ le16 class ++ tail.

Section answers.
Context {W : Type} `{!NetEnv W}.

(** C37: A standard query, of class Internet or for an address, is served
    without an access outside a buffer: for the server's own name one datagram
    goes to the one who asked, with the question and the server's address,
    whatever type was asked for; for another name a name error if the default
    interface is down and nothing otherwise. *)
Theorem dns_answers my id f1 f2 counts ls type class tail addr port (s : dns W) :
  supplied s → named my (DnsServer s) → ls ≠ [] → Forall label_ok ls →
  is_u16 id → is_u16 type → is_u16 class → blen counts = 8 →
  Z.land f1 0x80 = 0 → Z.land f1 0x78 = 0 → class = htons DNS_RRCLASS_IN ∨ type = htons DNS_RRTYPE_A →
  let P := dns_query id f1 f2 counts ls type class tail in
  let name := labels ls ++ [0] in
  let query := le16 type ++ le16 class in
  blen P < 65536 →
  wp (DNSS_RecvCb P addr port) (λ _ s', DnsServer s' = DnsServer s ∧
    sent s' = sent s ++
      (if (blen (labels ls) <=? 33) && name_matches my ls
       then [(addr, port, dns_answer id name query (HostIp (DnsServer s)))]
       else if netif_is_up (net s) then [] else [(addr, port, dns_name_error id name query)])) s.
Proof.
  intros Hs Hv Hne Hls Hid Hty Hcl Hcnt Hr Hop Hq P name query HP. unfold DNSS_RecvCb.
  set (hdr := le16 id ++ [f1; f2] ++ counts).
  assert (blen hdr = 12) as Hhdr by (unfold hdr; rewrite !blen_app, Hcnt; done).
  set (rest := le16 type ++ le16 class ++ tail).
  assert (P = hdr ++ labels ls ++ 0 :: rest) as HPe by done.
  apply wp_alloc_block; [done|apply blen_nonneg|]. intros block s1 Hb Hv1 Hn1 Hp1 Hs1.
  rewrite splice_all by done. clear block Hb.
  apply wp_bind. apply (wp_of_opt _ f1); [done|].
  change (Z.land f1 DNS_FLAG1_RESPONSE) with (Z.land f1 0x80).
  change (Z.land f1 (Z.shiftl 0xf 3)) with (Z.land f1 0x78). rewrite Hr, Hop. cbn [truth negb Z.eqb orb].
  assert (drop (Z.to_nat sizeof_DNS_HEADER) P = labels ls ++ 0 :: rest) as Hd.
  { rewrite HPe. change sizeof_DNS_HEADER with 12. rewrite <- Hhdr. apply drop_blen. }
  assert (strlen (drop (Z.to_nat sizeof_DNS_HEADER) P) = Some (blen (labels ls))) as Hlen.
  { rewrite Hd. apply strlen_app. by apply labels_nonzero. }
  apply wp_bind. eapply wp_of_opt; [exact Hlen|].
  assert (blen name = blen (labels ls) + 1) as Hname by (unfold name; by rewrite blen_app).
  assert (P = (hdr ++ name) ++ query ++ tail) as HPq.
  { rewrite HPe. unfold name, query, rest. rewrite <- !app_assoc. done. }
  assert (memcpy (replicate 4 0) 0 P (sizeof_DNS_HEADER + blen (labels ls) + 1) sizeof_DNS_QUERY = Some query) as Hmem.
  { pose proof (blen_nonneg (labels ls)). pose proof (blen_nonneg tail).
    rewrite memcpy_Some; try (unfold sizeof_DNS_HEADER, sizeof_DNS_QUERY; lia || done).
    - replace (sizeof_DNS_HEADER + blen (labels ls) + 1) with (blen (hdr ++ name) + 0)
        by (rewrite blen_app, Hhdr, Hname; unfold sizeof_DNS_HEADER; lia).
      rewrite HPq, slice_pre, slice_front, slice_all by done. by rewrite splice_all.
    - rewrite HPq, !blen_app, Hhdr, Hname. change (blen query) with 4.
      unfold sizeof_DNS_HEADER, sizeof_DNS_QUERY. lia. }
  apply wp_bind. eapply wp_of_opt; [exact Hmem|].
  change (slice query 0 2) with (le16 type). change (slice query 2 2) with (le16 class).
  rewrite !of_le_le16 by done.
  assert (negb (class =? htons DNS_RRCLASS_IN) && negb (type =? htons DNS_RRTYPE_A) = false)%bool as ->.
  { destruct Hq as [->| ->]; rewrite Z.eqb_refl; cbn [negb andb]; [done|apply andb_false_r]. }
  apply wp_bind, wp_gets, wp_bind.
  assert (blen (labels ls) < 65536) as Hsmall.
  { rewrite HPe, !blen_app in HP. pose proof (blen_nonneg (0 :: rest)). lia. }
  assert (_DnsCompareName (dns_mem (DnsServer s1)) off_DnsName P sizeof_DNS_HEADER =
    Some (if (blen (labels ls) <=? 33) && name_matches my ls then 0 else 1)) as Hcmp.
  { rewrite HPe. change sizeof_DNS_HEADER with 12. rewrite <- Hhdr. apply compare_names; [by rewrite Hv1|done..]. }
  eapply wp_of_opt; [exact Hcmp|].
  change (slice P 0 2) with (le16 id). rewrite of_le_le16 by done.
  assert (name_at P sizeof_DNS_HEADER name) as Hat.
  { split_and!; [rewrite Hlen, Hname; f_equal; lia| |pose proof (blen_nonneg (labels ls)); lia].
    replace sizeof_DNS_HEADER with (blen hdr + 0) by (rewrite Hhdr; done).
    rewrite HPq, <- app_assoc, slice_pre, slice_front, slice_all by done. done. }
  destruct (_ && _)%bool; cbn [Z.eqb negb].
  - apply (wp_answer_sent _ _ _ _ _ _ name); [done|done|done|]. intros s2 Hv2 Hp2.
    split; [congruence|]. by rewrite Hp2, Hp1, Hv1.
  - apply wp_bind, wp_gets. rewrite Hn1. destruct (netif_is_up (net s)); cbn [negb].
    + apply wp_ret. split; [done|]. by rewrite app_nil_r.
    + apply (wp_name_error_sent _ _ _ _ _ _ name); [done|done|done|]. intros s2 Hv2 Hp2.
      split; [congruence|]. by rewrite Hp2, Hp1.
Qed.
End answers.

(** ** Concrete runs *)

#[local] Instance dns_run_net : NetEnv unit := {
  tls_wifi_get_authed_sta_info := λ _, (0, []);
  wpa_supplicant_get_mac := λ _, [2; 0; 0; 0; 0; 9];
  netif_is_up := λ _, true;
  pbuf_alloc := λ _ w, (true, w);
  udp_sendto := λ _ _ _ w, w;
  etharp_update_arp_entry := λ _ _ _ w, w;
  sys_timeout := λ _ w, w;
  sys_untimeout := λ w, w;
  udp_new := λ w, (1, w);
  udp_bind := λ _ _ _ w, w;
  udp_bind_multicast_netif := λ _ _ w, w;
  udp_recv := λ _ w, w;
  udp_remove := λ _ w, w;
}.
Definition dns_run_start : dns unit := mk_dns zero_dns (λ _, Some (λ _, 0)) tt [].
(** "ap.me" and its labels. *)
Definition run_name : list Z := [97; 112; 46; 109; 101].
Definition run_labels : list (list Z) := [[97; 112]; [109; 101]].
Definition run_host : Z := 0x0101A8C0.
Definition dns_run_server : DNS_SERVER := mk_dns_server 1 (run_name ++ replicate 27 0) run_host.
Definition dns_run_started : dns unit := mk_dns dns_run_server (λ _, Some (λ _, 0)) tt [].

Lemma dns_run_start_ok :
  DNSS_Start (Some (true, run_host)) (run_name ++ [0]) dns_run_start = Some (DNSS_ERR_SUCCESS, dns_run_started).
Proof. vm_compute. reflexivity. Qed.
Lemma dns_run_named : named run_name dns_run_server.
Proof. split; [by repeat constructor|]. split; [cbn; lia|done]. Qed.
Lemma dns_run_labels : Forall label_ok run_labels.
Proof. repeat (constructor; [split_and!; [done|done|by repeat constructor]|]). constructor. Qed.
Lemma dns_run_supplied : supplied dns_run_started.
Proof. done. Qed.

Lemma dns_compare_witness :
  _DnsCompareName (dns_mem dns_run_server) off_DnsName ([] ++ labels run_labels ++ 0 :: [0; 1; 0; 1]) (blen [])
  = Some (if (blen (labels run_labels) <=? 33) && name_matches run_name run_labels then 0 else 1) ∧
  name_matches (joined 46 run_labels) run_labels = true.
Proof.
  exact (dns_compare dns_run_server run_name [] run_labels [0; 1; 0; 1] 46 dns_run_named
    ltac:(discriminate) dns_run_labels eq_refl).
Defined.

(** A question for the IPv6 address (type 28) of the server's name. *)
Lemma dns_answers_witness :
  wp (DNSS_RecvCb (dns_query 7 1 0 (replicate 8 0) run_labels (htons 28) (htons DNS_RRCLASS_IN) []) 99 1024)
    (λ _ s', DnsServer s' = DnsServer dns_run_started ∧ sent s' = sent dns_run_started ++
      (if (blen (labels run_labels) <=? 33) && name_matches run_name run_labels
       then [(99, 1024, dns_answer 7 (labels run_labels ++ [0])
                (le16 (htons 28) ++ le16 (htons DNS_RRCLASS_IN)) (HostIp (DnsServer dns_run_started)))]
       else if netif_is_up (net dns_run_started) then []
       else [(99, 1024, dns_name_error 7 (labels run_labels ++ [0])
                (le16 (htons 28) ++ le16 (htons DNS_RRCLASS_IN)))])) dns_run_started.
Proof.
  assert (∀ x, 0 <= x < 65536 → is_u16 x) as H16 by done.
  refine (dns_answers run_name 7 1 0 (replicate 8 0) run_labels (htons 28) (htons DNS_RRCLASS_IN) [] 99 1024
    dns_run_started dns_run_supplied dns_run_named _ dns_run_labels (H16 7 _) (H16 _ _) (H16 _ _)
    eq_refl eq_refl eq_refl (or_introl eq_refl) eq_refl); try done; (vm_compute; split; [discriminate|reflexivity]).
Defined.

(** A name of 32 characters is accepted, but has no terminator: the comparison
    runs into [HostIp] and the question for the name is not answered. *)
Lemma name_of_32_unanswered :
  DNSS_Start (Some (true, run_host)) (replicate 32 97 ++ [0]) dns_run_start =
    Some (DNSS_ERR_SUCCESS, mk_dns (mk_dns_server 1 (replicate 32 97) run_host) (λ _, Some (λ _, 0)) tt []) ∧
  _DnsCompareName (dns_mem (mk_dns_server 1 (replicate 32 97) run_host)) off_DnsName
    (labels [replicate 32 97] ++ [0; 0; 1; 0; 1]) 0 = Some 1.
Proof. split; vm_compute; reflexivity. Qed.
