(* ===== verification/Lsd.v ===== *)
(** * [src/Src/App/oneshotconfig/wm_oneshot_lsd.c]: one-shot configuration by packet lengths

    A module that is not in a network yet learns the network's name and password
    from a phone that is: the phone sends encrypted frames whose content the
    module cannot read and whose lengths it can.  Four frames of guide lengths
    fix the channel, the sender and the datum of the lengths; from then on every
    four frames carry two bytes, their number and a checksum. *)
From stdpp Require Import gmap.
From S2P Require Import Prelude Utils.

Definition LSD_GUIDE_DATUM := 1.
Definition LSD_DATA_OFFSET := 20.
Definition LSD_DATA_MAX := 256.
Definition LSD_ONESHOT_CONTINUE := 0.
Definition LSD_ONESHOT_CHAN_TEMP_LOCKED := 1.
Definition LSD_ONESHOT_CHAN_LOCKED_BW20 := 2.
Definition LSD_ONESHOT_CHAN_LOCKED_BW40 := 3.
Definition LSD_ONESHOT_COMPLETE := 4.
Definition LSD_ONESHOT_ERR := 5.
Definition IEEE80211_FCTL_FTYPE := 0x000c.
Definition IEEE80211_FCTL_TODS := 0x0100.
Definition IEEE80211_FCTL_FROMDS := 0x0200.
Definition IEEE80211_FCTL_RETRY := 0x0800.
Definition IEEE80211_FTYPE_DATA := 0x0008.
Definition IEEE80211_STYPE_QOS_DATA := 0x0080.

(** ** Frames *)

(** The header of a frame; the library hands over whole headers. *)
Record ieee80211_hdr := mk_hdr {
  frame_control : Z;
  duration_id : Z;
  addr1 : list Z;
  addr2 : list Z;
  addr3 : list Z;
  seq_ctrl : Z;
  addr4 : list Z;
}.
Definition ieee80211_has_tods (fc : Z) : Z := if truth (Z.land fc IEEE80211_FCTL_TODS) then 1 else 0.
Definition ieee80211_has_fromds (fc : Z) : bool := truth (Z.land fc IEEE80211_FCTL_FROMDS).
Definition ieee80211_has_a4 (fc : Z) : bool :=
  let tmp := Z.lor IEEE80211_FCTL_TODS IEEE80211_FCTL_FROMDS in Z.land fc tmp =? tmp.
Definition ieee80211_has_retry (fc : Z) : bool := truth (Z.land fc IEEE80211_FCTL_RETRY).
Definition ieee80211_is_data_qos (fc : Z) : bool :=
  Z.land fc (Z.lor IEEE80211_FCTL_FTYPE IEEE80211_STYPE_QOS_DATA)
  =? Z.lor IEEE80211_FTYPE_DATA IEEE80211_STYPE_QOS_DATA.
Definition ieee80211_get_SA (hdr : ieee80211_hdr) : list Z :=
  if ieee80211_has_a4 (frame_control hdr) then addr4 hdr
  else if ieee80211_has_fromds (frame_control hdr) then addr3 hdr
  else addr2 hdr.
Definition ieee80211_get_DA (hdr : ieee80211_hdr) : list Z :=
  if truth (ieee80211_has_tods (frame_control hdr)) then addr3 hdr else addr1 hdr.

(** ** State *)

(** A network of the scan. *)
Record tls_bss_info_t := mk_bss {
  bssid : list Z;
  ssid_len : Z;
  ssid : list Z;
}.

Record lsd_param_t := mk_param {
  p_ssid : list Z;
  p_pwd : list Z;
  p_bssid : list Z;
  p_user_data : list Z;
  p_ssid_len : Z;
  p_pwd_len : Z;
  p_user_len : Z;
  p_total_len : Z;
}.
Definition set_p_ssid x p :=
  mk_param x (p_pwd p) (p_bssid p) (p_user_data p) (p_ssid_len p) (p_pwd_len p) (p_user_len p)
    (p_total_len p).
Definition set_p_pwd x p :=
  mk_param (p_ssid p) x (p_bssid p) (p_user_data p) (p_ssid_len p) (p_pwd_len p) (p_user_len p)
    (p_total_len p).
Definition set_p_bssid x p :=
  mk_param (p_ssid p) (p_pwd p) x (p_user_data p) (p_ssid_len p) (p_pwd_len p) (p_user_len p)
    (p_total_len p).
Definition set_p_user_data x p :=
  mk_param (p_ssid p) (p_pwd p) (p_bssid p) x (p_ssid_len p) (p_pwd_len p) (p_user_len p) (p_total_len p).
Definition set_p_ssid_len x p :=
  mk_param (p_ssid p) (p_pwd p) (p_bssid p) (p_user_data p) x (p_pwd_len p) (p_user_len p) (p_total_len p).
Definition set_p_pwd_len x p :=
  mk_param (p_ssid p) (p_pwd p) (p_bssid p) (p_user_data p) (p_ssid_len p) x (p_user_len p) (p_total_len p).
Definition set_p_user_len x p :=
  mk_param (p_ssid p) (p_pwd p) (p_bssid p) (p_user_data p) (p_ssid_len p) (p_pwd_len p) x (p_total_len p).
Definition set_p_total_len x p :=
  mk_param (p_ssid p) (p_pwd p) (p_bssid p) (p_user_data p) (p_ssid_len p) (p_pwd_len p) (p_user_len p) x.

(** The variables of the file.  The arrays of two rows ([lsd_head], [lsd_byte])
    are kept row after row; [data] and [used] are the members of [lsd_data]. *)
Record lsd := mk_lsd {
  lsd_scan_bss : option (list tls_bss_info_t);
  lsd_last_num : list Z;
  lsd_head : list Z;
  lsd_byte : list Z;
  lsd_state : Z;
  lsd_data_datum : Z;
  lsd_head_cnt : list Z;
  lsd_head_bw20 : Z;
  lsd_byte_cnt : list Z;
  lsd_sync_cnt : Z;
  lsd_src_mac : list Z;
  lsd_data_cnt : Z;
  lsd_last_seq : list Z;
  lsd_temp_lock : Z;
  data : list Z;
  used : list Z;
  lsd_param : lsd_param_t;
  lsd_crc_value : Z;
}.
Definition set_lsd_scan_bss x s :=
  mk_lsd x (lsd_last_num s) (lsd_head s) (lsd_byte s) (lsd_state s) (lsd_data_datum s) (lsd_head_cnt s)
    (lsd_head_bw20 s) (lsd_byte_cnt s) (lsd_sync_cnt s) (lsd_src_mac s) (lsd_data_cnt s) (lsd_last_seq s)
    (lsd_temp_lock s) (data s) (used s) (lsd_param s) (lsd_crc_value s).
Definition set_lsd_last_num x s :=
  mk_lsd (lsd_scan_bss s) x (lsd_head s) (lsd_byte s) (lsd_state s) (lsd_data_datum s) (lsd_head_cnt s)
    (lsd_head_bw20 s) (lsd_byte_cnt s) (lsd_sync_cnt s) (lsd_src_mac s) (lsd_data_cnt s) (lsd_last_seq s)
    (lsd_temp_lock s) (data s) (used s) (lsd_param s) (lsd_crc_value s).
Definition set_lsd_head x s :=
  mk_lsd (lsd_scan_bss s) (lsd_last_num s) x (lsd_byte s) (lsd_state s) (lsd_data_datum s) (lsd_head_cnt s)
    (lsd_head_bw20 s) (lsd_byte_cnt s) (lsd_sync_cnt s) (lsd_src_mac s) (lsd_data_cnt s) (lsd_last_seq s)
    (lsd_temp_lock s) (data s) (used s) (lsd_param s) (lsd_crc_value s).
Definition set_lsd_byte x s :=
  mk_lsd (lsd_scan_bss s) (lsd_last_num s) (lsd_head s) x (lsd_state s) (lsd_data_datum s) (lsd_head_cnt s)
    (lsd_head_bw20 s) (lsd_byte_cnt s) (lsd_sync_cnt s) (lsd_src_mac s) (lsd_data_cnt s) (lsd_last_seq s)
    (lsd_temp_lock s) (data s) (used s) (lsd_param s) (lsd_crc_value s).
Definition set_lsd_state x s :=
  mk_lsd (lsd_scan_bss s) (lsd_last_num s) (lsd_head s) (lsd_byte s) x (lsd_data_datum s) (lsd_head_cnt s)
    (lsd_head_bw20 s) (lsd_byte_cnt s) (lsd_sync_cnt s) (lsd_src_mac s) (lsd_data_cnt s) (lsd_last_seq s)
    (lsd_temp_lock s) (data s) (used s) (lsd_param s) (lsd_crc_value s).
Definition set_lsd_data_datum x s :=
  mk_lsd (lsd_scan_bss s) (lsd_last_num s) (lsd_head s) (lsd_byte s) (lsd_state s) x (lsd_head_cnt s)
    (lsd_head_bw20 s) (lsd_byte_cnt s) (lsd_sync_cnt s) (lsd_src_mac s) (lsd_data_cnt s) (lsd_last_seq s)
    (lsd_temp_lock s) (data s) (used s) (lsd_param s) (lsd_crc_value s).
Definition set_lsd_head_cnt x s :=
  mk_lsd (lsd_scan_bss s) (lsd_last_num s) (lsd_head s) (lsd_byte s) (lsd_state s) (lsd_data_datum s) x
    (lsd_head_bw20 s) (lsd_byte_cnt s) (lsd_sync_cnt s) (lsd_src_mac s) (lsd_data_cnt s) (lsd_last_seq s)
    (lsd_temp_lock s) (data s) (used s) (lsd_param s) (lsd_crc_value s).
Definition set_lsd_head_bw20 x s :=
  mk_lsd (lsd_scan_bss s) (lsd_last_num s) (lsd_head s) (lsd_byte s) (lsd_state s) (lsd_data_datum s)
    (lsd_head_cnt s) x (lsd_byte_cnt s) (lsd_sync_cnt s) (lsd_src_mac s) (lsd_data_cnt s) (lsd_last_seq s)
    (lsd_temp_lock s) (data s) (used s) (lsd_param s) (lsd_crc_value s).
Definition set_lsd_byte_cnt x s :=
  mk_lsd (lsd_scan_bss s) (lsd_last_num s) (lsd_head s) (lsd_byte s) (lsd_state s) (lsd_data_datum s)
    (lsd_head_cnt s) (lsd_head_bw20 s) x (lsd_sync_cnt s) (lsd_src_mac s) (lsd_data_cnt s) (lsd_last_seq s)
    (lsd_temp_lock s) (data s) (used s) (lsd_param s) (lsd_crc_value s).
Definition set_lsd_sync_cnt x s :=
  mk_lsd (lsd_scan_bss s) (lsd_last_num s) (lsd_head s) (lsd_byte s) (lsd_state s) (lsd_data_datum s)
    (lsd_head_cnt s) (lsd_head_bw20 s) (lsd_byte_cnt s) x (lsd_src_mac s) (lsd_data_cnt s) (lsd_last_seq s)
    (lsd_temp_lock s) (data s) (used s) (lsd_param s) (lsd_crc_value s).
Definition set_lsd_src_mac x s :=
  mk_lsd (lsd_scan_bss s) (lsd_last_num s) (lsd_head s) (lsd_byte s) (lsd_state s) (lsd_data_datum s)
    (lsd_head_cnt s) (lsd_head_bw20 s) (lsd_byte_cnt s) (lsd_sync_cnt s) x (lsd_data_cnt s)
    (lsd_last_seq s) (lsd_temp_lock s) (data s) (used s) (lsd_param s) (lsd_crc_value s).
Definition set_lsd_data_cnt x s :=
  mk_lsd (lsd_scan_bss s) (lsd_last_num s) (lsd_head s) (lsd_byte s) (lsd_state s) (lsd_data_datum s)
    (lsd_head_cnt s) (lsd_head_bw20 s) (lsd_byte_cnt s) (lsd_sync_cnt s) (lsd_src_mac s) x (lsd_last_seq s)
    (lsd_temp_lock s) (data s) (used s) (lsd_param s) (lsd_crc_value s).
Definition set_lsd_last_seq x s :=
  mk_lsd (lsd_scan_bss s) (lsd_last_num s) (lsd_head s) (lsd_byte s) (lsd_state s) (lsd_data_datum s)
    (lsd_head_cnt s) (lsd_head_bw20 s) (lsd_byte_cnt s) (lsd_sync_cnt s) (lsd_src_mac s) (lsd_data_cnt s) x
    (lsd_temp_lock s) (data s) (used s) (lsd_param s) (lsd_crc_value s).
Definition set_lsd_temp_lock x s :=
  mk_lsd (lsd_scan_bss s) (lsd_last_num s) (lsd_head s) (lsd_byte s) (lsd_state s) (lsd_data_datum s)
    (lsd_head_cnt s) (lsd_head_bw20 s) (lsd_byte_cnt s) (lsd_sync_cnt s) (lsd_src_mac s) (lsd_data_cnt s)
    (lsd_last_seq s) x (data s) (used s) (lsd_param s) (lsd_crc_value s).
Definition set_data x s :=
  mk_lsd (lsd_scan_bss s) (lsd_last_num s) (lsd_head s) (lsd_byte s) (lsd_state s) (lsd_data_datum s)
    (lsd_head_cnt s) (lsd_head_bw20 s) (lsd_byte_cnt s) (lsd_sync_cnt s) (lsd_src_mac s) (lsd_data_cnt s)
    (lsd_last_seq s) (lsd_temp_lock s) x (used s) (lsd_param s) (lsd_crc_value s).
Definition set_used x s :=
  mk_lsd (lsd_scan_bss s) (lsd_last_num s) (lsd_head s) (lsd_byte s) (lsd_state s) (lsd_data_datum s)
    (lsd_head_cnt s) (lsd_head_bw20 s) (lsd_byte_cnt s) (lsd_sync_cnt s) (lsd_src_mac s) (lsd_data_cnt s)
    (lsd_last_seq s) (lsd_temp_lock s) (data s) x (lsd_param s) (lsd_crc_value s).
Definition set_lsd_param x s :=
  mk_lsd (lsd_scan_bss s) (lsd_last_num s) (lsd_head s) (lsd_byte s) (lsd_state s) (lsd_data_datum s)
    (lsd_head_cnt s) (lsd_head_bw20 s) (lsd_byte_cnt s) (lsd_sync_cnt s) (lsd_src_mac s) (lsd_data_cnt s)
    (lsd_last_seq s) (lsd_temp_lock s) (data s) (used s) x (lsd_crc_value s).
Definition set_lsd_crc_value x s :=
  mk_lsd (lsd_scan_bss s) (lsd_last_num s) (lsd_head s) (lsd_byte s) (lsd_state s) (lsd_data_datum s)
    (lsd_head_cnt s) (lsd_head_bw20 s) (lsd_byte_cnt s) (lsd_sync_cnt s) (lsd_src_mac s) (lsd_data_cnt s)
    (lsd_last_seq s) (lsd_temp_lock s) (data s) (used s) (lsd_param s) x.

Definition zero_param : lsd_param_t :=
  mk_param (replicate 33 0) (replicate 65 0) (replicate 6 0) (replicate 128 0) 0 0 0 0.

Definition lsd_dst_addr : list Z := [0x01; 0x00; 0x5e].
Definition lsd_crc_table : list Z :=
  [
    0x00; 0x91; 0xe3; 0x72; 0x07; 0x96; 0xe4; 0x75; 0x0e; 0x9f; 0xed; 0x7c; 0x09; 0x98; 0xea; 0x7b;
    0x1c; 0x8d; 0xff; 0x6e; 0x1b; 0x8a; 0xf8; 0x69; 0x12; 0x83; 0xf1; 0x60; 0x15; 0x84; 0xf6; 0x67;
    0x38; 0xa9; 0xdb; 0x4a; 0x3f; 0xae; 0xdc; 0x4d; 0x36; 0xa7; 0xd5; 0x44; 0x31; 0xa0; 0xd2; 0x43;
    0x24; 0xb5; 0xc7; 0x56; 0x23; 0xb2; 0xc0; 0x51; 0x2a; 0xbb; 0xc9; 0x58; 0x2d; 0xbc; 0xce; 0x5f;
    0x70; 0xe1; 0x93; 0x02; 0x77; 0xe6; 0x94; 0x05; 0x7e; 0xef; 0x9d; 0x0c; 0x79; 0xe8; 0x9a; 0x0b;
    0x6c; 0xfd; 0x8f; 0x1e; 0x6b; 0xfa; 0x88; 0x19; 0x62; 0xf3; 0x81; 0x10; 0x65; 0xf4; 0x86; 0x17;
    0x48; 0xd9; 0xab; 0x3a; 0x4f; 0xde; 0xac; 0x3d; 0x46; 0xd7; 0xa5; 0x34; 0x41; 0xd0; 0xa2; 0x33;
    0x54; 0xc5; 0xb7; 0x26; 0x53; 0xc2; 0xb0; 0x21; 0x5a; 0xcb; 0xb9; 0x28; 0x5d; 0xcc; 0xbe; 0x2f;
    0xe0; 0x71; 0x03; 0x92; 0xe7; 0x76; 0x04; 0x95; 0xee; 0x7f; 0x0d; 0x9c; 0xe9; 0x78; 0x0a; 0x9b;
    0xfc; 0x6d; 0x1f; 0x8e; 0xfb; 0x6a; 0x18; 0x89; 0xf2; 0x63; 0x11; 0x80; 0xf5; 0x64; 0x16; 0x87;
    0xd8; 0x49; 0x3b; 0xaa; 0xdf; 0x4e; 0x3c; 0xad; 0xd6; 0x47; 0x35; 0xa4; 0xd1; 0x40; 0x32; 0xa3;
    0xc4; 0x55; 0x27; 0xb6; 0xc3; 0x52; 0x20; 0xb1; 0xca; 0x5b; 0x29; 0xb8; 0xcd; 0x5c; 0x2e; 0xbf;
    0x90; 0x01; 0x73; 0xe2; 0x97; 0x06; 0x74; 0xe5; 0x9e; 0x0f; 0x7d; 0xec; 0x99; 0x08; 0x7a; 0xeb;
    0x8c; 0x1d; 0x6f; 0xfe; 0x8b; 0x1a; 0x68; 0xf9; 0x82; 0x13; 0x61; 0xf0; 0x85; 0x14; 0x66; 0xf7;
    0xa8; 0x39; 0x4b; 0xda; 0xaf; 0x3e; 0x4c; 0xdd; 0xa6; 0x37; 0x45; 0xd4; 0xa1; 0x30; 0x42; 0xd3;
    0xb4; 0x25; 0x57; 0xc6; 0xb3; 0x22; 0x50; 0xc1; 0xba; 0x2b; 0x59; 0xc8; 0xbd; 0x2c; 0x5e; 0xcf].

Section code.
Local Open Scope c_scope.
Local Abbreviation ML := (M lsd).

(** An array of the state, by index; the rows of an array of two rows have four
    elements. *)
Definition arr (f : lsd → list Z) (i : Z) : ML Z :=
  let* l := gets f in of_opt (byte_at l i).
Definition arr_set (f : lsd → list Z) (up : list Z → lsd → lsd) (i v : Z) : ML unit :=
  let* l := gets f in
  let* l := of_opt (store8 l i v) in
  modify (up l).
Definition at2 (tods i : Z) : Z := if (0 <=? i) && (i <? 4) then 4 * tods + i else -1.
Definition upd_param (f : lsd_param_t → lsd_param_t) : ML unit :=
  modify (λ s, set_lsd_param (f (lsd_param s)) s).

(** ** The checksum *)

Definition lsd_crc8_init (x : Z) : ML unit := modify (set_lsd_crc_value x).
Definition lsd_crc8_update (x : Z) : ML unit :=
  let* v := gets lsd_crc_value in
  let* t := of_opt (byte_at lsd_crc_table (Z.lxor x v)) in
  modify (set_lsd_crc_value t).
Definition lsd_crc8_get : ML Z := gets lsd_crc_value.
Definition lsd_crc8_calc (buf : list Z) (len : Z) : ML Z :=
  lsd_crc8_init 0 ;;
  for_loop (Z.to_nat len) 0 (λ i, let* b := of_opt (byte_at buf i) in lsd_crc8_update b) ;;
  lsd_crc8_get.

(** The first network of the scan that fits; [want]: whether the caller wants
    the name. *)
Fixpoint bss_loop (ssidCrc bssidCrc ssidLen : Z) (want : bool) (bss : list tls_bss_info_t) : ML Z :=
  match bss with
  | [] => ret (-1)
  | b :: bss' =>
      let next := bss_loop ssidCrc bssidCrc ssidLen want bss' in
      if negb (ssidLen =? ssid_len b) then next
      else
        let* c1 := lsd_crc8_calc (ssid b) (ssid_len b) in
        if negb (ssidCrc =? c1) then next
        else
          let* c2 := lsd_crc8_calc (bssid b) 6 in
          if negb (bssidCrc =? c2) then next
          else
            let* p := gets lsd_param in
            (if want then
               let* x := of_opt (memcpy (p_ssid p) 0 (ssid b) 0 (ssid_len b)) in upd_param (set_p_ssid x)
             else ret tt) ;;
            let* x := of_opt (memcpy (p_bssid p) 0 (bssid b) 0 6) in
            upd_param (set_p_bssid x) ;;
            ret 0
  end.
Definition lsd_ssid_bssid_crc_match (ssidCrc bssidCrc ssidLen : Z) (want : bool) : ML Z :=
  let* bss := gets lsd_scan_bss in
  match bss with
  | None => ret (-1)
  | Some bss => bss_loop ssidCrc bssidCrc ssidLen want bss
  end.

(** ** State 0: the guide *)

Definition is_zero_ether_addr (a : list Z) : bool := bool_decide (a = replicate 6 0).
Definition reset_head (SrcMac : list Z) : ML unit :=
  modify (set_lsd_src_mac SrcMac) ;;
  modify (set_lsd_head_cnt [0; 0]) ;;
  modify (set_lsd_head_bw20 0) ;;
  modify (set_lsd_sync_cnt 0) ;;
  modify (set_lsd_last_seq [0; 0]).
Definition new_source (SrcMac : list Z) : ML unit :=
  let* src := gets lsd_src_mac in
  if is_zero_ether_addr src then
    reset_head SrcMac ;; modify (set_lsd_temp_lock 0) ;; modify (set_lsd_head (replicate 8 0))
  else if negb (bool_decide (src = SrcMac)) then
    reset_head SrcMac ;; modify (set_lsd_head (replicate 8 0))
  else ret tt.
(** A frame sent again that was received the first time. *)
Definition duplicate (hdr : ieee80211_hdr) (tods : Z) : ML bool :=
  let* last := arr lsd_last_seq tods in
  ret (ieee80211_has_retry (frame_control hdr) && (last =? seq_ctrl hdr)).
Definition guide_step (tods frm_len : Z) : ML unit :=
  let* cnt := arr lsd_head_cnt tods in
  arr_set lsd_head set_lsd_head (at2 tods cnt) frm_len ;;
  if 0 <? cnt then
    let* cur := arr lsd_head (at2 tods cnt) in
    let* prev := arr lsd_head (at2 tods (cnt - 1)) in
    if negb (cur + 1 =? prev) && negb (cur - 3 =? prev) then
      modify (set_lsd_temp_lock 0) ;;
      arr_set lsd_head_cnt set_lsd_head_cnt tods 0 ;;
      modify (set_lsd_head_bw20 0) ;;
      arr_set lsd_head set_lsd_head (at2 tods 0) frm_len
    else modify (set_lsd_temp_lock 1)
  else ret tt.
Definition lock (tods : Z) : ML Z :=
  let* h0 := arr lsd_head (at2 tods 0) in
  let* h1 := arr lsd_head (at2 tods 1) in
  let* h2 := arr lsd_head (at2 tods 2) in
  let* h3 := arr lsd_head (at2 tods 3) in
  let guide_len := Z.min (Z.min (Z.min h0 h1) h2) h3 in
  modify (set_lsd_state 1) ;;
  modify (set_lsd_data_datum (u16 (guide_len - LSD_GUIDE_DATUM + LSD_DATA_OFFSET))) ;;
  let* bw20 := gets lsd_head_bw20 in
  if 4 <=? bw20 then modify (set_lsd_head_bw20 0) ;; ret LSD_ONESHOT_CHAN_LOCKED_BW20
  else ret LSD_ONESHOT_CHAN_LOCKED_BW40.
Definition recv_guide (hdr : ieee80211_hdr) (tods frm_len : Z) (SrcMac : list Z) : ML Z :=
  if (frm_len <? 60) || (86 <? frm_len) then ret LSD_ONESHOT_CONTINUE
  else
    new_source SrcMac ;;
    let* dup := duplicate hdr tods in
    if dup then ret LSD_ONESHOT_CONTINUE
    else
      arr_set lsd_last_seq set_lsd_last_seq tods (seq_ctrl hdr) ;;
      guide_step tods frm_len ;;
      let* cnt := arr lsd_head_cnt tods in
      arr_set lsd_head_cnt set_lsd_head_cnt tods (u8 (cnt + 1)) ;;
      (if Z.land (duration_id hdr) 1 =? 0
       then modify (λ s, set_lsd_head_bw20 (u8 (lsd_head_bw20 s + 1)) s) else ret tt) ;;
      let* cnt := arr lsd_head_cnt tods in
      (if 4 <=? cnt then
         modify (λ s, set_lsd_sync_cnt (u8 (lsd_sync_cnt s + 1)) s) ;;
         arr_set lsd_head_cnt set_lsd_head_cnt tods 0
       else ret tt) ;;
      let* sync := gets lsd_sync_cnt in
      if 1 <=? sync then lock tods
      else
        let* temp := gets lsd_temp_lock in
        if temp =? 1 then ret LSD_ONESHOT_CHAN_TEMP_LOCKED else ret LSD_ONESHOT_CONTINUE.

(** ** State 1: the data *)

Definition clear_data : ML unit :=
  modify (set_data (replicate 256 0)) ;; modify (set_used (replicate 256 0)).

(** The length of a frame as the next of its four. *)
Definition byte_step (hdr : ieee80211_hdr) (tods frm_len multicast5 : Z) : ML unit :=
  let* last := arr lsd_last_num tods in
  (if negb (last =? multicast5) then
     arr_set lsd_byte set_lsd_byte (at2 tods 0) 0 ;;
     arr_set lsd_byte set_lsd_byte (at2 tods 1) 0 ;;
     arr_set lsd_byte_cnt set_lsd_byte_cnt tods 0 ;;
     arr_set lsd_last_num set_lsd_last_num tods multicast5
   else ret tt) ;;
  let* datum := gets lsd_data_datum in
  let* cnt := arr lsd_byte_cnt tods in
  let b := u16 (frm_len - datum) in
  arr_set lsd_byte set_lsd_byte (at2 tods cnt) b ;;
  if ((cnt =? 0) && (256 <=? b)) || ((cnt =? 1) && negb (0x100 =? Z.land b 0x300))
     || ((cnt =? 2) && (256 <=? b)) || ((cnt =? 3) && negb (0x200 =? Z.land b 0x300))
  then arr_set lsd_byte_cnt set_lsd_byte_cnt tods 0
  else arr_set lsd_byte_cnt set_lsd_byte_cnt tods (u8 (cnt + 1)).
(** Two bytes from four frames; the result is whether the table is full. *)
Definition store_step (tods : Z) : ML bool :=
  let* b0 := arr lsd_byte (at2 tods 0) in
  let* b1 := arr lsd_byte (at2 tods 1) in
  let* b2 := arr lsd_byte (at2 tods 2) in
  let* b3 := arr lsd_byte (at2 tods 3) in
  let data1 := Z.land b0 0xff in
  let crc := Z.land b1 0xff in
  let data2 := Z.land b2 0xff in
  let seq := Z.land b3 0xff in
  let* u := arr used (Z.shiftl seq 1) in
  if u =? 0 then
    let* crcValue := lsd_crc8_calc [data1; data2; seq; crc] 3 in
    if crc =? crcValue then
      arr_set data set_data (Z.shiftl seq 1) data1 ;;
      arr_set used set_used (Z.shiftl seq 1) 1 ;;
      modify (λ s, set_lsd_data_cnt (u8 (lsd_data_cnt s + 1)) s) ;;
      arr_set data set_data (Z.shiftl seq 1 + 1) data2 ;;
      arr_set used set_used (Z.shiftl seq 1 + 1) 1 ;;
      modify (λ s, set_lsd_data_cnt (u8 (lsd_data_cnt s + 1)) s) ;;
      let* n := gets lsd_data_cnt in
      ret (LSD_DATA_MAX <=? n)
    else ret false
  else ret false.

(** Everything has been received. *)
Definition finish_user (totalLen : Z) : ML Z :=
  upd_param (set_p_ssid_len 0) ;;
  upd_param (set_p_pwd_len 0) ;;
  upd_param (set_p_user_len (u8 (totalLen - 2))) ;;
  let* p := gets lsd_param in
  if 128 <? p_user_len p then ret LSD_ONESHOT_ERR
  else
    let* d := gets data in
    let* x := of_opt (memcpy (p_user_data p) 0 d 3 (p_user_len p)) in
    upd_param (set_p_user_data x) ;;
    ret LSD_ONESHOT_COMPLETE.
(** The user's data from [off] on. *)
Definition take_user (len off : Z) : ML bool :=
  upd_param (set_p_user_len (u8 len)) ;;
  let* p := gets lsd_param in
  if 128 <? p_user_len p then ret false
  else
    let* d := gets data in
    let* x := of_opt (memcpy (p_user_data p) 0 d off (p_user_len p)) in
    upd_param (set_p_user_data x) ;;
    ret true.
Definition finish (totalLen pwdLen ssidLen : Z) : ML Z :=
  let* d := gets data in
  let* totalCrc := of_opt (byte_at d (totalLen + 1)) in
  let* c := lsd_crc8_calc d (totalLen + 1) in
  if negb (totalCrc =? c) then clear_data ;; ret LSD_ONESHOT_CONTINUE
  else if (ssidLen =? 0) && (pwdLen =? 0) then finish_user totalLen
  else
    let* bssidCrc := arr data 3 in
    let* p := gets lsd_param in
    let* ' (ssidCrc, ok) :=
      (if 0 <? pwdLen then
         let* x := of_opt (memcpy (p_pwd p) 0 d 4 pwdLen) in
         upd_param (set_p_pwd x) ;;
         let* x := of_opt (memcpy (p_ssid p) 0 d (5 + pwdLen) ssidLen) in
         upd_param (set_p_ssid x) ;;
         let* ssidCrc := arr data (5 + ssidLen + pwdLen) in
         let* ok := take_user (totalLen - pwdLen - ssidLen - 5) (6 + ssidLen + pwdLen) in
         ret (ssidCrc, ok)
       else
         let* x := of_opt (memcpy (p_ssid p) 0 d (4 + pwdLen) ssidLen) in
         upd_param (set_p_ssid x) ;;
         let* ssidCrc := arr data (4 + ssidLen + pwdLen) in
         let* ok := take_user (totalLen - ssidLen - 4) (5 + ssidLen) in
         ret (ssidCrc, ok)) in
    if negb ok then ret LSD_ONESHOT_ERR
    else
      upd_param (set_p_ssid_len ssidLen) ;;
      upd_param (set_p_pwd_len pwdLen) ;;
      upd_param (set_p_total_len totalLen) ;;
      lsd_ssid_bssid_crc_match ssidCrc bssidCrc ssidLen false ;;
      ret LSD_ONESHOT_COMPLETE.

(** The bytes of the password that are there, from [i] on; the result is the
    index of the first that is not. *)
Fixpoint copy_pwd (n : nat) (i : Z) : ML Z :=
  match n with
  | O => ret i
  | S n' =>
      let* u := arr used (4 + i) in
      if truth u then
        let* x := arr data (4 + i) in
        let* p := gets lsd_param in
        let* pwd := of_opt (store8 (p_pwd p) i x) in
        upd_param (set_p_pwd pwd) ;;
        copy_pwd n' (i + 1)
      else ret i
  end.
(** The part of the name that is missing may be known from the scan; [off] is
    the place of its checksum, [userLen] the length of the user's data. *)
Definition complete_early (totalLen pwdLen ssidLen off userLen : Z) : ML Z :=
  let* u := arr used off in
  if u =? 0 then ret LSD_ONESHOT_CONTINUE
  else
    let* ssidCrc := arr data off in
    if 0 <? userLen then ret LSD_ONESHOT_CONTINUE
    else
      let* u := arr used 3 in
      if u =? 0 then ret LSD_ONESHOT_CONTINUE
      else
        let* bssidCrc := arr data 3 in
        let* go :=
          (if 0 <? pwdLen then
             let* u := arr used (4 + pwdLen) in
             if u =? 0 then ret false
             else
               let* pwdCrc := arr data (4 + pwdLen) in
               let* i := copy_pwd (Z.to_nat pwdLen) 0 in
               if negb (i =? pwdLen) then ret false
               else
                 let* d := gets data in
                 let* c := lsd_crc8_calc (drop 4 d) pwdLen in
                 if negb (pwdCrc =? c) then
                   clear_data ;; upd_param (set_p_pwd (replicate 65 0)) ;; ret false
                 else ret true
           else ret true) in
        if negb go then ret LSD_ONESHOT_CONTINUE
        else
          let* r := lsd_ssid_bssid_crc_match ssidCrc bssidCrc ssidLen true in
          if r =? 0 then
            upd_param (set_p_ssid_len ssidLen) ;;
            upd_param (set_p_pwd_len pwdLen) ;;
            upd_param (set_p_total_len totalLen) ;;
            ret LSD_ONESHOT_COMPLETE
          else ret LSD_ONESHOT_CONTINUE.

(** After every frame: is there enough? *)
Definition check_data : ML Z :=
  let* u0 := arr used 0 in
  let* u1 := arr used 1 in
  let* u2 := arr used 2 in
  if truth u0 && truth u1 && truth u2 then
    let* totalLen := arr data 0 in
    let* pwdLen := arr data 1 in
    let* ssidLen := arr data 2 in
    if (32 <? ssidLen) || (64 <? pwdLen) then ret LSD_ONESHOT_ERR
    else if
      ((pwdLen =? 0) && (ssidLen =? 0) && (totalLen <=? 2))
      || ((0 <? ssidLen) && (0 <? pwdLen) && (totalLen <? pwdLen + ssidLen + 5))
      || ((0 <? ssidLen) && (pwdLen =? 0) && (totalLen <? pwdLen + ssidLen + 4))
      || ((ssidLen =? 0) && (0 <? pwdLen))
    then clear_data ;; ret LSD_ONESHOT_CONTINUE
    else
      let* n := gets lsd_data_cnt in
      if totalLen + 2 <=? n then finish totalLen pwdLen ssidLen
      else if 0 <? ssidLen then
        if 0 <? pwdLen
        then complete_early totalLen pwdLen ssidLen (5 + ssidLen + pwdLen)
               (u8 (totalLen - pwdLen - ssidLen - 5))
        else complete_early totalLen pwdLen ssidLen (4 + ssidLen + pwdLen) (u8 (totalLen - ssidLen - 4))
      else ret LSD_ONESHOT_CONTINUE
  else ret LSD_ONESHOT_CONTINUE.

Definition recv_data (hdr : ieee80211_hdr) (tods frm_len : Z) (SrcMac multicast : list Z) : ML Z :=
  let* datum := gets lsd_data_datum in
  if (1024 <=? frm_len) || (frm_len <? datum) then ret LSD_ONESHOT_CONTINUE
  else
    let* src := gets lsd_src_mac in
    if negb (bool_decide (src = SrcMac)) then ret LSD_ONESHOT_CONTINUE
    else
      let* dup := duplicate hdr tods in
      if dup then ret LSD_ONESHOT_CONTINUE
      else
        arr_set lsd_last_seq set_lsd_last_seq tods (seq_ctrl hdr) ;;
        let* m5 := of_opt (byte_at multicast 5) in
        byte_step hdr tods frm_len m5 ;;
        let* cnt := arr lsd_byte_cnt tods in
        let* full :=
          (if 4 <=? cnt then
             let* full := store_step tods in
             if full then ret true
             else arr_set lsd_byte_cnt set_lsd_byte_cnt tods 0 ;; ret false
           else ret false) in
        if full then ret LSD_ONESHOT_ERR else check_data.

Definition tls_lsd_recv (hdr : ieee80211_hdr) (data_len : Z) : ML Z :=
  let fc := frame_control hdr in
  let multicast := ieee80211_get_DA hdr in
  if truth (Z.land (duration_id hdr) 0x02) then ret LSD_ONESHOT_CONTINUE
  else if 0 =? ieee80211_has_tods fc then ret LSD_ONESHOT_CONTINUE
  else
    let frm_len := if ieee80211_is_data_qos fc then u16 (data_len - 2) else data_len in
    let tods := ieee80211_has_tods fc in
    let SrcMac := ieee80211_get_SA hdr in
    if negb (bool_decide (take 3 multicast = lsd_dst_addr)) && truth (duration_id hdr)
    then ret LSD_ONESHOT_CONTINUE
    else
      let* st := gets lsd_state in
      if st =? 0 then recv_guide hdr tods frm_len SrcMac
      else if st =? 1 then recv_data hdr tods frm_len SrcMac multicast
      else ret LSD_ONESHOT_CONTINUE.

Definition tls_lsd_init (scanBss : option (list tls_bss_info_t)) : ML unit :=
  modify (λ s, mk_lsd scanBss [0; 0] (replicate 8 0) (replicate 8 0) 0 0 [0; 0] 0 [0; 0] 0 (replicate 6 0) 0
    [0; 0] 0 (replicate 256 0) (replicate 256 0) zero_param (lsd_crc_value s)).
End code.

(** ** The checksum *)

Definition crc8_step (v x : Z) : Z := default 0 (byte_at lsd_crc_table (Z.lxor x v)).
Definition crc8_of (l : list Z) : Z := foldl crc8_step 0 l.

Lemma crc_table_entry i : is_u8 i → ∃ t, byte_at lsd_crc_table i = Some t ∧ is_u8 t.
Proof.
  intros Hi. assert (bytes_ok lsd_crc_table) as Hok by (apply bytes_ok_b; vm_compute; reflexivity).
  destruct (byte_at_is_Some lsd_crc_table i) as [t Ht].
  { change (blen lsd_crc_table) with 256. done. }
  exists t. split; [done|]. by eapply byte_at_ok.
Qed.
Lemma crc8_step_u8 v x : is_u8 v → is_u8 x → is_u8 (crc8_step v x).
Proof.
  intros Hv Hx. unfold crc8_step.
  destruct (crc_table_entry (Z.lxor x v)) as (t & -> & Ht); [by apply is_u8_lxor|done].
Qed.
Lemma crc8_foldl_u8 l v : is_u8 v → bytes_ok l → is_u8 (foldl crc8_step v l).
Proof.
  intros Hv Hl. revert v Hv. induction Hl as [|x l Hx Hl IH]; [done|]. intros v Hv. cbn. apply IH.
  by apply crc8_step_u8.
Qed.
Lemma crc8_of_u8 l : bytes_ok l → is_u8 (crc8_of l).
Proof. by apply crc8_foldl_u8. Qed.

Lemma crc_loop_ok n : ∀ i buf (Q : unit → lsd → Prop) s, bytes_ok buf → is_u8 (lsd_crc_value s) →
  0 <= i → i + Z.of_nat n <= blen buf →
  Q tt (set_lsd_crc_value (foldl crc8_step (lsd_crc_value s) (slice buf i (Z.of_nat n))) s) →
  wp (for_loop n i (λ i, bind (of_opt (byte_at buf i)) lsd_crc8_update)) Q s.
Proof.
  induction n as [|n IH]; intros i buf Q s Hok Hv Hi Hn HQ; cbn [for_loop].
  { apply wp_ret. by destruct s. }
  destruct (byte_at_is_Some buf i) as [b Hb]; [lia|]. pose proof (byte_at_ok _ _ _ Hok Hb) as Hbu.
  apply wp_bind, wp_bind. eapply wp_of_opt; [exact Hb|]. unfold lsd_crc8_update. wp_steps.
  destruct (crc_table_entry (Z.lxor b (lsd_crc_value s))) as (t & Ht & Htu); [by apply is_u8_lxor|].
  eapply wp_of_opt; [exact Ht|]. wp_steps. apply IH; [done|done|lia|lia|].
  assert (slice buf i (Z.of_nat (S n)) = b :: slice buf (i + 1) (Z.of_nat n)) as Hsl.
  { rewrite byte_at_lookup in Hb by done. unfold slice. rewrite !Nat2Z.id, (drop_S _ _ _ Hb). cbn [take].
    do 3 f_equal. lia. }
  rewrite Hsl in HQ. cbn [foldl] in HQ. unfold crc8_step at 2 in HQ. rewrite Ht in HQ. exact HQ.
Qed.
(** The checksum of the first [len] bytes. *)
Lemma wp_crc8 buf len (Q : Z → lsd → Prop) s : bytes_ok buf → 0 <= len <= blen buf →
  Q (crc8_of (slice buf 0 len)) (set_lsd_crc_value (crc8_of (slice buf 0 len)) s) →
  wp (lsd_crc8_calc buf len) Q s.
Proof.
  intros Hok Hl HQ. unfold lsd_crc8_calc, lsd_crc8_init, lsd_crc8_get. wp_steps.
  apply crc_loop_ok; [done|done|done|lia|]. rewrite Z2Nat.id by lia. wp_steps. exact HQ.
Qed.

(** ** The state *)

Definition bss_ok (b : tls_bss_info_t) : Prop :=
  blen (bssid b) = 6 ∧ blen (ssid b) = 32 ∧ 0 <= ssid_len b <= 32 ∧ bytes_ok (bssid b) ∧ bytes_ok (ssid b).
Record param_ok (p : lsd_param_t) : Prop := {
  po_ssid : blen (p_ssid p) = 33;
  po_pwd : blen (p_pwd p) = 65;
  po_bssid : blen (p_bssid p) = 6;
  po_user : blen (p_user_data p) = 128;
}.
(** The arrays have their sizes, the counters index them. *)
Record lsd_ok (s : lsd) : Prop := {
  ok_scan : ∀ l, lsd_scan_bss s = Some l → Forall bss_ok l;
  ok_num : blen (lsd_last_num s) = 2;
  ok_head : blen (lsd_head s) = 8;
  ok_byte : blen (lsd_byte s) = 8;
  ok_head_cnt : ∃ a b, lsd_head_cnt s = [a; b] ∧ 0 <= b < 4;
  ok_byte_cnt : ∃ a b, lsd_byte_cnt s = [a; b] ∧ 0 <= b < 4;
  ok_seq : blen (lsd_last_seq s) = 2;
  ok_data : blen (data s) = 256 ∧ bytes_ok (data s);
  ok_used : blen (used s) = 256;
  ok_cnt : is_u8 (lsd_data_cnt s);
  ok_param : param_ok (lsd_param s);
}.

Lemma store8_Some l i v : 0 <= i < blen l → store8 l i v = Some (splice l i [v]).
Proof.
  intros Hi. unfold store8. rewrite memcpy_Some by (done || (change (blen [v]) with 1; lia)). done.
Qed.
Lemma wp_arr (f : lsd → list Z) i v (Q : Z → lsd → Prop) s : byte_at (f s) i = Some v → Q v s →
  wp (arr f i) Q s.
Proof. intros Hv HQ. unfold arr. wp_steps. by eapply wp_of_opt. Qed.
Lemma wp_arr_in (f : lsd → list Z) i (Q : Z → lsd → Prop) s : 0 <= i < blen (f s) →
  (∀ v, byte_at (f s) i = Some v → Q v s) → wp (arr f i) Q s.
Proof. intros Hi HQ. destruct (byte_at_is_Some (f s) i Hi) as [v Hv]. eapply wp_arr; eauto. Qed.
Lemma wp_arr_set f up i v (Q : unit → lsd → Prop) s : 0 <= i < blen (f s) →
  Q tt (up (splice (f s) i [v]) s) → wp (arr_set f up i v) Q s.
Proof.
  intros Hi HQ. unfold arr_set. wp_steps. eapply wp_of_opt; [by apply store8_Some|]. by wp_steps.
Qed.

(** Invariance of the parts an operation does not change. *)
Ltac lsd_ok_step :=
  match goal with
  | H : lsd_ok ?s |- lsd_ok _ =>
      destruct H as [K1 K2 K3 K4 K5 K6 K7 K8 K9 K10 K11]; constructor; cbn;
      try exact K1; try exact K2; try exact K3; try exact K4; try exact K5; try exact K6; try exact K7;
      try exact K8; try exact K9; try exact K10; try exact K11
  end.
Lemma ok_crc v s : lsd_ok s → lsd_ok (set_lsd_crc_value v s).
Proof. intros. lsd_ok_step. Qed.
Lemma ok_param_set p s : lsd_ok s → param_ok p → lsd_ok (set_lsd_param p s).
Proof. intros. lsd_ok_step. done. Qed.
Lemma blen_splice1 l i x : 0 <= i < blen l → blen (splice l i [x]) = blen l.
Proof. intros Hi. apply blen_splice; [lia|]. change (blen [x]) with 1. lia. Qed.
Lemma bytes_ok_splice1 l i x : bytes_ok l → is_u8 x → bytes_ok (splice l i [x]).
Proof. intros Hl Hx. apply bytes_ok_splice; [done|constructor; [done|constructor]]. Qed.
Lemma ok_clear s : lsd_ok s → lsd_ok (set_used (replicate 256 0) (set_data (replicate 256 0) s)).
Proof. intros. lsd_ok_step; [|done]. split; [done|]. apply bytes_ok_b. vm_compute. reflexivity. Qed.

(** A step that keeps the state's shape and answers with a status. *)
Definition keeps_ok (r : Z) (s : lsd) : Prop := lsd_ok s ∧ 0 <= r <= 5.

Lemma wp_memcpy dst di src si n (Q : list Z → lsd → Prop) s :
  0 <= n → 0 <= di → di + n <= blen dst → 0 <= si → si + n <= blen src →
  (∀ r, r = splice dst di (slice src si n) → blen r = blen dst → Q r s) →
  wp (of_opt (memcpy dst di src si n)) Q s.
Proof.
  intros Hn Hd Hdn Hs Hsn HQ. eapply wp_of_opt; [by apply memcpy_Some|].
  apply HQ; [done|]. apply blen_splice; rewrite ?blen_slice; lia.
Qed.
Lemma wp_bss_loop c1 c2 len want bss (Q : Z → lsd → Prop) : ∀ s, Forall bss_ok bss → lsd_ok s →
  (∀ r s', lsd_ok s' → data s' = data s → used s' = used s → Q r s') →
  wp (bss_loop c1 c2 len want bss) Q s.
Proof.
  induction bss as [|b bss IH]; intros s Hb Hs HQ; cbn [bss_loop]; [by apply wp_ret, HQ|].
  apply list.Forall_cons in Hb as [(B1 & B2 & B3 & B4 & B5) Hb].
  destruct (negb _); [by apply IH|]. apply wp_bind, wp_crc8; [done|lia|].
  destruct (negb _); [by apply IH; [done|apply ok_crc|]|]. apply wp_bind, wp_crc8; [done|lia|].
  destruct (negb _); [by apply IH; [done|by do 2 apply ok_crc|]|].
  set (s2 := set_lsd_crc_value _ _). assert (lsd_ok s2) as Hs2 by (by do 2 apply ok_crc).
  pose proof (ok_param _ Hs2) as [P1 P2 P3 P4].
  wp_steps. destruct want; unfold upd_param; wp_steps.
  - apply wp_memcpy; [lia..|]. intros x _ Hx. wp_steps.
    apply wp_memcpy; [lia..|]. intros y _ Hy. wp_steps. apply HQ; [|done|done].
    apply ok_param_set; [apply ok_param_set; [done|]|]; split; cbn [p_ssid p_pwd p_bssid p_user_data set_p_ssid
      set_p_bssid lsd_param set_lsd_param]; congruence.
  - apply wp_memcpy; [lia..|]. intros y _ Hy. wp_steps. apply HQ; [|done|done].
    apply ok_param_set; [done|]. split; cbn [p_ssid p_pwd p_bssid p_user_data set_p_bssid]; congruence.
Qed.
Lemma wp_match c1 c2 len want (Q : Z → lsd → Prop) s : lsd_ok s →
  (∀ r s', lsd_ok s' → data s' = data s → used s' = used s → Q r s') →
  wp (lsd_ssid_bssid_crc_match c1 c2 len want) Q s.
Proof.
  intros Hs HQ. unfold lsd_ssid_bssid_crc_match. wp_steps. destruct (lsd_scan_bss s) as [bss|] eqn:Eb;
    [|by apply wp_ret, HQ]. apply wp_bss_loop; [by eapply ok_scan|done|done].
Qed.

(** *** The guide *)

Lemma wp_new_source mac (Q : unit → lsd → Prop) s : lsd_ok s →
  (∀ s', lsd_ok s' → Q tt s') → wp (new_source mac) Q s.
Proof.
  intros Hs HQ. unfold new_source, reset_head. wp_steps. destruct (is_zero_ether_addr _).
  - wp_steps. apply HQ. lsd_ok_step; [done|by exists 0, 0|done].
  - destruct (negb _); [|by apply wp_ret, HQ]. wp_steps. apply HQ. lsd_ok_step; [done|by exists 0, 0|done].
Qed.
Lemma wp_duplicate hdr (Q : bool → lsd → Prop) s : lsd_ok s → (∀ b, Q b s) → wp (duplicate hdr 1) Q s.
Proof.
  intros Hs HQ. unfold duplicate. apply wp_bind, wp_arr_in; [rewrite (ok_seq _ Hs); lia|]. intros v _. apply wp_ret, HQ.
Qed.
Lemma at2_1 i : 0 <= i < 4 → at2 1 i = 4 + i.
Proof. intros Hi. unfold at2. case_if; [lia|]. cbn in *. lia. Qed.
Lemma wp_guide_step len (Q : unit → lsd → Prop) s : lsd_ok s →
  (∀ s' a b, lsd_ok s' → lsd_head_cnt s' = [a; b] → 0 <= b < 4 → Q tt s') → wp (guide_step 1 len) Q s.
Proof.
  intros Hs HQ. destruct (ok_head_cnt _ Hs) as (a & b & Ec & Hb). pose proof (ok_head _ Hs) as Hh.
  unfold guide_step. apply wp_bind, (wp_arr _ _ b); [by rewrite Ec|]. rewrite at2_1 by done.
  apply wp_bind, wp_arr_set; [lia|]. set (s1 := set_lsd_head _ s).
  assert (lsd_ok s1) as Hs1 by (unfold s1; lsd_ok_step; by rewrite blen_splice1 by lia).
  assert (lsd_head_cnt s1 = [a; b]) as Ec1 by done. clearbody s1.
  destruct (Z.ltb_spec 0 b) as [Hpos|]; [|apply wp_ret; by eapply HQ].
  pose proof (ok_head _ Hs1) as Hh1. rewrite !at2_1 by lia.
  apply wp_bind, wp_arr_in; [lia|]. intros cur _. apply wp_bind, wp_arr_in; [lia|]. intros prev _.
  destruct (_ && _)%bool; wp_steps.
  - apply wp_arr_set; [change (lsd_head_cnt (set_lsd_temp_lock 0 s1)) with (lsd_head_cnt s1); by rewrite Ec1|].
    change (lsd_head_cnt (set_lsd_temp_lock 0 s1)) with (lsd_head_cnt s1). rewrite Ec1. wp_steps.
    apply wp_arr_set; [change (0 <= 4 + 0 < blen (lsd_head s1)); lia|].
    eapply (HQ _ a 0); [|done|lia]. clear Hs. lsd_ok_step; [|by exists a, 0].
    by rewrite blen_splice1 by lia.
  - eapply (HQ _ a b); [|done|done]. lsd_ok_step.
Qed.
Lemma wp_lock (Q : Z → lsd → Prop) s : lsd_ok s → (∀ r s', keeps_ok r s' → Q r s') → wp (lock 1) Q s.
Proof.
  intros Hs HQ. pose proof (ok_head _ Hs). unfold lock. rewrite !at2_1 by lia.
  do 4 (apply wp_bind, wp_arr_in; [lia|]; intros ? _). wp_steps. cbn [lsd_head_bw20 set_lsd_state set_lsd_data_datum].
  case_if; wp_steps; apply HQ; (split; [|done || (unfold LSD_ONESHOT_CHAN_LOCKED_BW20, LSD_ONESHOT_CHAN_LOCKED_BW40; lia)]);
    lsd_ok_step.
Qed.
Lemma wp_recv_guide hdr len mac s : lsd_ok s → wp (recv_guide hdr 1 len mac) keeps_ok s.
Proof.
  intros Hs. unfold recv_guide. destruct (_ || _)%bool; [by apply wp_ret|].
  apply wp_bind, wp_new_source; [done|]. intros s1 Hs1. apply wp_bind, wp_duplicate; [done|].
  intros [|]; [by apply wp_ret|]. apply wp_bind, wp_arr_set; [rewrite (ok_seq _ Hs1); lia|].
  set (s2 := set_lsd_last_seq _ s1). pose proof (ok_seq _ Hs1).
  assert (lsd_ok s2) as Hs2 by (unfold s2; lsd_ok_step; by rewrite blen_splice1 by lia).
  apply wp_bind, wp_guide_step; [done|]. intros s3 a b Hs3 Ec Hb.
  apply wp_bind, (wp_arr _ _ b); [by rewrite Ec|]. rewrite u8_id by (unfold is_u8; lia).
  apply wp_bind, wp_arr_set; [by rewrite Ec|]. rewrite Ec. change (splice [a; b] 1 [b + 1]) with [a; b + 1].
  set (s4 := set_lsd_head_cnt [a; b + 1] s3).
  apply wp_bind. match goal with |- wp ?m ?k s4 => assert (∀ s5, lsd_ok (set_lsd_head_cnt [0; 0] s5) →
    lsd_head_cnt s5 = [a; b + 1] → k tt s5) as Hk end.
  { intros s5 Hs5 Ec5. cbn beta. apply wp_bind, (wp_arr _ _ (b + 1)); [by rewrite Ec5|].
    assert (lsd_ok (set_lsd_head_cnt [a; 0] s5)) as Hs6.
    { lsd_ok_step. by exists a, 0. }
    assert (∀ s7, lsd_ok s7 → wp (bind (gets lsd_sync_cnt) (λ sync, if 1 <=? sync then lock 1 else
      bind (gets lsd_temp_lock) (λ temp, if temp =? 1 then ret LSD_ONESHOT_CHAN_TEMP_LOCKED
        else ret LSD_ONESHOT_CONTINUE))) keeps_ok s7) as Hend.
    { intros s7 Hs7. apply wp_bind, wp_gets. case_if; [by apply wp_lock|]. apply wp_bind, wp_gets.
      case_if; by apply wp_ret. }
    apply wp_bind. case_if.
    - apply wp_bind, wp_modify, wp_arr_set; [by cbn; rewrite Ec5|]. cbn [lsd_head_cnt set_lsd_sync_cnt]. rewrite Ec5.
      change (splice [a; b + 1] 1 [0]) with [a; 0]. apply Hend. clear Hs5. lsd_ok_step.
    - apply wp_ret, Hend. clear Hs6. lsd_ok_step. exists a, (b + 1). split; [done|lia]. }
  assert (lsd_ok (set_lsd_head_cnt [0; 0] s4)) as Hs4.
  { unfold s4. clear Hs2. lsd_ok_step. by exists 0, 0. }
  case_if; [apply wp_modify|apply wp_ret]; apply Hk; try done. clear Hs3 Hs2 Hs1 Hs. lsd_ok_step.
Qed.

(** *** The data *)

Lemma land255 x : Z.land x 255 = x mod 256.
Proof. change 255 with (Z.ones 8). by rewrite Z.land_ones. Qed.
Lemma land255_u8 x : is_u8 (Z.land x 255).
Proof. rewrite land255. unfold is_u8. apply Z.mod_pos_bound. lia. Qed.

(** The counter of the four moved on; nothing else of it is known. *)
Lemma ok_byte_cnt_set a b s : lsd_ok s → 0 <= b < 4 → lsd_ok (set_lsd_byte_cnt [a; b] s).
Proof. intros. lsd_ok_step. by exists a, b. Qed.

(** After [byte_step] the counter is [c], and 4 only if it was 3; then the
    length of this frame is the fourth. *)
Lemma wp_byte_step hdr len m5 (Q : unit → lsd → Prop) s : lsd_ok s →
  (∀ s' a c, lsd_ok s' → 0 <= c <= 4 →
     (c = 4 → (∃ x, lsd_byte_cnt s = [x; 3]) ∧ byte_at (lsd_byte s') 7 = Some (u16 (len - lsd_data_datum s))) →
     Q tt (set_lsd_byte_cnt [a; c] s')) →
  wp (byte_step hdr 1 len m5) Q s.
Proof.
  intros Hs HQ. unfold byte_step. apply wp_bind, wp_arr_in; [rewrite (ok_num _ Hs); lia|]. intros last _.
  rewrite !at2_1 by lia. destruct (ok_byte_cnt _ Hs) as (a & b & Eb & Hb).
  assert (∀ s1 b', lsd_ok s1 → lsd_byte_cnt s1 = [a; b'] → 0 <= b' < 4 → lsd_data_datum s1 = lsd_data_datum s →
    (b' = 3 → b = 3) →
    wp (bind (gets lsd_data_datum) (λ datum, bind (arr lsd_byte_cnt 1) (λ cnt,
      bind (arr_set lsd_byte set_lsd_byte (at2 1 cnt) (u16 (len - datum))) (λ _,
        if ((cnt =? 0) && (256 <=? u16 (len - datum)))
           || ((cnt =? 1) && negb (0x100 =? Z.land (u16 (len - datum)) 0x300))
           || ((cnt =? 2) && (256 <=? u16 (len - datum)))
           || ((cnt =? 3) && negb (0x200 =? Z.land (u16 (len - datum)) 0x300))
        then arr_set lsd_byte_cnt set_lsd_byte_cnt 1 0
        else arr_set lsd_byte_cnt set_lsd_byte_cnt 1 (u8 (cnt + 1)))))) Q s1) as Hrest.
  { intros s1 b' Hs1 Eb1 Hb1 Hd H3. apply wp_bind, wp_gets. rewrite Hd. apply wp_bind, (wp_arr _ _ b'); [by rewrite Eb1|].
    rewrite at2_1 by done. pose proof (ok_byte _ Hs1). set (w := u16 _).
    apply wp_bind, wp_arr_set; [lia|].
    set (s2 := set_lsd_byte _ s1).
    assert (lsd_ok s2) as Hs2 by (unfold s2; clear Hs; lsd_ok_step; by rewrite blen_splice1 by lia).
    assert (lsd_byte_cnt s2 = [a; b']) as Eb2 by done.
    destruct (_ || _)%bool; (apply wp_arr_set; [by rewrite Eb2|]); rewrite Eb2.
    - change (splice [a; b'] 1 [0]) with [a; 0]. apply HQ; [done|lia|lia].
    - rewrite u8_id by (unfold is_u8; lia). change (splice [a; b'] 1 [b' + 1]) with [a; b' + 1].
      apply HQ; [done|lia|]. intros Hc. assert (b' = 3) as -> by lia. rewrite (H3 eq_refl) in Eb.
      split; [by exists a|]. unfold s2. cbn [lsd_byte set_lsd_byte]. rewrite byte_at_splice by (change (blen [w]) with 1; lia).
      done. }
  case_if; [|by apply wp_ret, (Hrest s b)].
  pose proof (ok_byte _ Hs). pose proof (ok_num _ Hs).
  do 2 apply wp_bind. apply wp_arr_set; [lia|]. apply wp_bind, wp_arr_set.
  { cbn [lsd_byte set_lsd_byte]. rewrite blen_splice1; lia. }
  cbn [lsd_byte set_lsd_byte]. apply wp_bind, wp_arr_set; [by cbn; rewrite Eb|].
  cbn [lsd_byte_cnt set_lsd_byte]. rewrite Eb. change (splice [a; b] 1 [0]) with [a; 0].
  apply wp_arr_set; [cbn [lsd_last_num set_lsd_byte_cnt set_lsd_byte]; lia|].
  apply (Hrest _ 0); [|done|lia|done|lia].
  lsd_ok_step; [by rewrite blen_splice1 by lia| |by exists a, 0].
  rewrite blen_splice1; rewrite ?blen_splice1; lia.
Qed.

Lemma wp_store_step (Q : bool → lsd → Prop) s w a : lsd_ok (set_lsd_byte_cnt [0; 0] s) → lsd_byte_cnt s = [a; 4] →
  byte_at (lsd_byte s) 7 = Some w → Z.land w 0xff < 128 →
  (∀ r s', lsd_ok (set_lsd_byte_cnt [0; 0] s') → lsd_byte_cnt s' = [a; 4] → r = false → Q r s') →
  wp (store_step 1) Q s.
Proof.
  intros Hs Ec Hw Hseq HQ. pose proof (ok_byte _ Hs) as Hb. pose proof (ok_used _ Hs) as Hu.
  destruct (ok_data _ Hs) as [Hd Hdok]. pose proof (ok_cnt _ Hs) as Hcnt. cbn in Hb, Hu, Hd, Hdok, Hcnt.
  unfold store_step. rewrite !at2_1 by lia.
  do 3 (apply wp_bind, wp_arr_in; [lia|]; intros ? _). apply wp_bind, (wp_arr _ _ w); [done|].
  set (seq := Z.land w 255) in *. pose proof (land255_u8 w) as Hseq8. fold seq in Hseq8. unfold is_u8 in Hseq8.
  rewrite Z.shiftl_mul_pow2 by lia. change (2 ^ 1) with 2.
  apply wp_bind, wp_arr_in; [lia|]. intros u _. case_if; [|by apply wp_ret, HQ].
  apply wp_bind, wp_crc8; [|done|].
  { repeat (constructor; [apply land255_u8|]). constructor. }
  set (s1 := set_lsd_crc_value _ s).
  assert (lsd_ok (set_lsd_byte_cnt [0; 0] s1)) as Hs1 by (unfold s1; clear -Hs; lsd_ok_step).
  assert (lsd_byte_cnt s1 = [a; 4]) as Ec1 by done.
  case_if; [|by apply wp_ret, HQ].
  assert (data s1 = data s ∧ used s1 = used s) as [Ed Eu] by done. clearbody s1.
  apply wp_bind, wp_arr_set; [rewrite Ed; lia|]. apply wp_bind, wp_arr_set; [cbn [used set_data]; rewrite Eu; lia|].
  apply wp_bind, wp_modify. cbn [data used lsd_data_cnt set_data set_used set_lsd_data_cnt].
  apply wp_bind, wp_arr_set; [cbn [data set_data set_used set_lsd_data_cnt]; rewrite blen_splice1, Ed; rewrite ?Ed; lia|].
  apply wp_bind, wp_arr_set.
  { cbn [used set_data set_used set_lsd_data_cnt]. rewrite blen_splice1, Eu; rewrite ?Eu; lia. }
  apply wp_bind, wp_modify, wp_bind, wp_gets. cbn [data used lsd_data_cnt set_data set_used set_lsd_data_cnt].
  apply wp_ret, HQ; [|done|].
  - destruct (ok_data _ Hs1) as [Hd1 Hd1ok]. pose proof (ok_used _ Hs1) as Hu1. cbn in Hd1, Hd1ok, Hu1.
    clear Hs. lsd_ok_step; [| |apply u8_range].
    + rewrite !blen_splice1; rewrite ?blen_splice1; try lia.
      split; [done|]. do 2 (apply bytes_ok_splice1; [|apply land255_u8]). done.
    + rewrite !blen_splice1; rewrite ?blen_splice1; lia.
  - unfold LSD_DATA_MAX. apply Z.leb_gt. apply u8_range.
Qed.

Lemma wp_arr_used i (Q : Z → lsd → Prop) s : lsd_ok s → 0 <= i < 256 → (∀ v, Q v s) → wp (arr used i) Q s.
Proof. intros Hs Hi HQ. apply wp_arr_in; [rewrite (ok_used _ Hs); lia|auto]. Qed.
Lemma wp_arr_data i (Q : Z → lsd → Prop) s : lsd_ok s → 0 <= i < 256 → (∀ v, is_u8 v → Q v s) → wp (arr data i) Q s.
Proof.
  intros Hs Hi HQ. destruct (ok_data _ Hs) as [Hd Hok]. apply wp_arr_in; [lia|]. intros v Hv. apply HQ.
  by eapply byte_at_ok.
Qed.
Lemma ok_upd s p : lsd_ok s → blen (p_ssid p) = 33 → blen (p_pwd p) = 65 → blen (p_bssid p) = 6 →
  blen (p_user_data p) = 128 → lsd_ok (set_lsd_param p s).
Proof. intros. apply ok_param_set; done. Qed.
(** Changing a member of the parameters that is not an array. *)
Lemma wp_upd_param (f : lsd_param_t → lsd_param_t) (Q : unit → lsd → Prop) s : lsd_ok s →
  (∀ p, param_ok p → param_ok (f p)) →
  (∀ s', lsd_ok s' → lsd_param s' = f (lsd_param s) → data s' = data s → used s' = used s → Q tt s') →
  wp (upd_param f) Q s.
Proof.
  intros Hs Hf HQ. unfold upd_param. wp_steps. apply HQ; try done. apply ok_param_set; [done|].
  apply Hf, (ok_param _ Hs).
Qed.
Ltac param_ok_set := intros ? [? ? ? ?]; split; cbn [p_ssid p_pwd p_bssid p_user_data set_p_ssid set_p_pwd set_p_bssid
  set_p_user_data set_p_ssid_len set_p_pwd_len set_p_user_len set_p_total_len]; congruence.

Lemma wp_take_user len off (Q : bool → lsd → Prop) s : lsd_ok s → 0 <= off → 0 <= len → off + len <= 256 →
  (∀ r s', lsd_ok s' → Q r s') → wp (take_user len off) Q s.
Proof.
  intros Hs Hoff Hlen Hend HQ. unfold take_user.
  apply wp_bind, wp_upd_param; [done|param_ok_set|]. intros s1 Hs1 Hp1 _ _. apply wp_bind, wp_gets.
  case_if; [by apply wp_ret, HQ|]. apply wp_bind, wp_gets.
  pose proof (ok_param _ Hs1) as [? ? ? Hu]. destruct (ok_data _ Hs1) as [Hd _].
  assert (p_user_len (lsd_param s1) = u8 len) as El by (by rewrite Hp1). rewrite El in *. pose proof (u8_range len) as Hr.
  assert (u8 len <= len) by (unfold u8, wrap; apply Z.mod_le; lia). unfold is_u8 in Hr.
  apply wp_bind, wp_memcpy; [lia..|]. intros x _ Hx.
  apply wp_bind, wp_upd_param; [done|param_ok_set|]. intros s2 Hs2 _ _ _. by apply wp_ret, HQ.
Qed.
Lemma wp_finish_user total (Q : Z → lsd → Prop) s : lsd_ok s → 2 <= total <= 254 →
  (∀ r s', keeps_ok r s' → Q r s') → wp (finish_user total) Q s.
Proof.
  intros Hs Ht HQ. unfold finish_user.
  apply wp_bind, wp_upd_param; [done|param_ok_set|]. intros s1 Hs1 _ _ _.
  apply wp_bind, wp_upd_param; [done|param_ok_set|]. intros s2 Hs2 _ _ _.
  apply wp_bind, wp_upd_param; [done|param_ok_set|]. intros s3 Hs3 Hp3 _ _.
  apply wp_bind, wp_gets. case_if; [by apply wp_ret, HQ|]. apply wp_bind, wp_gets.
  pose proof (ok_param _ Hs3) as [? ? ? Hu]. destruct (ok_data _ Hs3) as [Hd _].
  assert (p_user_len (lsd_param s3) = total - 2) as El.
  { rewrite Hp3. cbn. apply u8_id. unfold is_u8. lia. }
  rewrite El in *. apply wp_bind, wp_memcpy; [lia..|]. intros x _ Hx.
  apply wp_bind, wp_upd_param; [done|param_ok_set|]. intros s4 Hs4 _ _ _. by apply wp_ret, HQ.
Qed.

Lemma wp_finish total pwd ssid (Q : Z → lsd → Prop) s : lsd_ok s → total <= 253 → 0 <= pwd <= 64 → 0 <= ssid <= 32 →
  (pwd = 0 ∧ ssid = 0 ∧ 2 < total) ∨ (0 < ssid ∧ 0 < pwd ∧ pwd + ssid + 5 <= total) ∨
    (0 < ssid ∧ pwd = 0 ∧ ssid + 4 <= total) →
  (∀ r s', keeps_ok r s' → Q r s') → wp (finish total pwd ssid) Q s.
Proof.
  intros Hs Ht Hp Hss Hcase HQ. unfold finish. destruct (ok_data _ Hs) as [Hd Hdok]. apply wp_bind, wp_gets.
  destruct (byte_at_is_Some (data s) (total + 1)) as [tc Htc]; [lia|].
  apply wp_bind. eapply wp_of_opt; [exact Htc|]. apply wp_bind, wp_crc8; [done|lia|].
  set (s1 := set_lsd_crc_value _ s). assert (lsd_ok s1) as Hs1 by by apply ok_crc.
  assert (data s1 = data s) as Ed1 by done. clearbody s1.
  case_if.
  { unfold clear_data. wp_steps. apply HQ. split; [by apply ok_clear|done]. }
  case_if; [apply wp_finish_user; [done|lia|done]|].
  apply wp_bind, wp_arr_data; [done|lia|]. intros bc _. apply wp_bind, wp_gets.
  pose proof (ok_param _ Hs1) as [P1 P2 P3 P4].
  apply wp_bind.
  match goal with |- wp ?m ?k s1 => assert (∀ sc ok s2, lsd_ok s2 → k (sc, ok) s2) as Hk end.
  { intros sc ok s2 Hs2. cbn beta iota. destruct ok; cbn [negb]; [|by apply wp_ret, HQ].
    apply wp_bind, wp_upd_param; [done|param_ok_set|]. intros s3 Hs3 _ _ _.
    apply wp_bind, wp_upd_param; [done|param_ok_set|]. intros s4 Hs4 _ _ _.
    apply wp_bind, wp_upd_param; [done|param_ok_set|]. intros s5 Hs5 _ _ _.
    apply wp_bind, wp_match; [done|]. intros r s6 Hs6 _ _. by apply wp_ret, HQ. }
  case_if; zbool.
  - apply wp_bind, wp_memcpy; [lia..|]. intros x _ Hx.
    apply wp_bind, wp_upd_param; [done|param_ok_set|]. intros s2 Hs2 _ _ _.
    apply wp_bind, wp_memcpy; [lia..|]. intros y _ Hy.
    apply wp_bind, wp_upd_param; [done|param_ok_set|]. intros s3 Hs3 _ _ _.
    apply wp_bind, wp_arr_data; [done|lia|]. intros sc _.
    apply wp_bind, wp_take_user; [done|lia|lia|lia|]. intros r s4 Hs4. by apply wp_ret, Hk.
  - apply wp_bind, wp_memcpy; [lia..|]. intros y _ Hy.
    apply wp_bind, wp_upd_param; [done|param_ok_set|]. intros s3 Hs3 _ _ _.
    apply wp_bind, wp_arr_data; [done|lia|]. intros sc _.
    apply wp_bind, wp_take_user; [done|lia|lia|lia|]. intros r s4 Hs4. by apply wp_ret, Hk.
Qed.

Lemma wp_copy_pwd n : ∀ i (Q : Z → lsd → Prop) s, lsd_ok s → 0 <= i → i + Z.of_nat n <= 64 →
  (∀ r s', lsd_ok s' → data s' = data s → used s' = used s → Q r s') → wp (copy_pwd n i) Q s.
Proof.
  induction n as [|n IH]; intros i Q s Hs Hi Hn HQ; cbn [copy_pwd]; [by apply wp_ret, HQ|].
  apply wp_bind, wp_arr_used; [done|lia|]. intros u. case_if; [|by apply wp_ret, HQ].
  apply wp_bind, wp_arr_data; [done|lia|]. intros x _. apply wp_bind, wp_gets.
  pose proof (ok_param _ Hs) as [P1 P2 P3 P4]. apply wp_bind. eapply wp_of_opt; [apply store8_Some; lia|].
  assert (blen (splice (p_pwd (lsd_param s)) i [x]) = blen (p_pwd (lsd_param s))) by (rewrite blen_splice1; lia).
  apply wp_bind, wp_upd_param; [done|param_ok_set|]. intros s2 Hs2 _ Hd2 Hu2.
  apply IH; [done|lia|lia|]. intros r s3 Hs3 Hd3 Hu3. apply HQ; congruence.
Qed.

Lemma wp_complete_early total pwd ssid off user (Q : Z → lsd → Prop) s : lsd_ok s → 0 <= pwd <= 64 →
  0 <= off < 256 → (∀ r s', keeps_ok r s' → Q r s') → wp (complete_early total pwd ssid off user) Q s.
Proof.
  intros Hs Hp Hoff HQ. unfold complete_early.
  apply wp_bind, wp_arr_used; [done|done|]. intros u. case_if; [by apply wp_ret, HQ|].
  apply wp_bind, wp_arr_data; [done|done|]. intros sc _. case_if; [by apply wp_ret, HQ|].
  apply wp_bind, wp_arr_used; [done|lia|]. intros u3. case_if; [by apply wp_ret, HQ|].
  apply wp_bind, wp_arr_data; [done|lia|]. intros bc _. apply wp_bind.
  match goal with |- wp ?m ?k s => assert (∀ go s1, lsd_ok s1 → k go s1) as Hk end.
  { intros go s1 Hs1. cbn beta. case_if; [by apply wp_ret, HQ|].
    apply wp_bind, wp_match; [done|]. intros r s2 Hs2 _ _. case_if; [|by apply wp_ret, HQ].
    apply wp_bind, wp_upd_param; [done|param_ok_set|]. intros s3 Hs3 _ _ _.
    apply wp_bind, wp_upd_param; [done|param_ok_set|]. intros s4 Hs4 _ _ _.
    apply wp_bind, wp_upd_param; [done|param_ok_set|]. intros s5 Hs5 _ _ _. by apply wp_ret, HQ. }
  case_if; [|by apply wp_ret, Hk].
  apply wp_bind, wp_arr_used; [done|lia|]. intros up. case_if; [by apply wp_ret, Hk|].
  apply wp_bind, wp_arr_data; [done|lia|]. intros pc _.
  apply wp_bind, wp_copy_pwd; [done|done|lia|]. intros i s1 Hs1 _ _. case_if; [by apply wp_ret, Hk|].
  destruct (ok_data _ Hs1) as [Hd Hdok]. apply wp_bind, wp_gets, wp_bind, wp_crc8.
  { by apply Forall_drop. }
  { unfold blen in *. rewrite length_drop. lia. }
  set (s2 := set_lsd_crc_value _ s1). assert (lsd_ok s2) as Hs2 by by apply ok_crc. clearbody s2.
  case_if; [|by apply wp_ret, Hk]. unfold clear_data. wp_steps.
  apply wp_upd_param; [by apply ok_clear|intros ? [? ? ? ?]; by split|]. intros s3 Hs3 _ _ _. by apply wp_ret, Hk.
Qed.

Lemma wp_check_data s : lsd_ok s → wp check_data keeps_ok s.
Proof.
  intros Hs. unfold check_data. do 3 (apply wp_bind, wp_arr_used; [done|lia|]; intros ?).
  case_if; [|by apply wp_ret]. apply wp_bind, wp_arr_data; [done|lia|]. intros total Ht.
  apply wp_bind, wp_arr_data; [done|lia|]. intros pwd Hp. apply wp_bind, wp_arr_data; [done|lia|]. intros ssid Hss.
  case_if; [by apply wp_ret|]. case_if.
  { unfold clear_data. wp_steps. split; [by apply ok_clear|done]. }
  apply wp_bind, wp_gets. pose proof (ok_cnt _ Hs) as Hn. unfold is_u8 in *.
  repeat match goal with H : (_ && _)%bool = false |- _ => apply andb_false_iff in H end. zbool.
  case_if.
  - apply wp_finish; [done|lia|lia|lia| |done].
    destruct (Z.eq_dec pwd 0), (Z.eq_dec ssid 0); lia.
  - case_if; [|by apply wp_ret]. case_if; (apply wp_complete_early; [done|lia|lia|done]).
Qed.

Lemma wp_recv_data hdr len mac multicast s : lsd_ok s → blen multicast = 6 →
  (∀ x, lsd_byte_cnt s = [x; 3] → Z.land (u16 (len - lsd_data_datum s)) 0xff < 128) →
  wp (recv_data hdr 1 len mac multicast) keeps_ok s.
Proof.
  intros Hs Hm Hseq. unfold recv_data. apply wp_bind, wp_gets. case_if; [by apply wp_ret|].
  apply wp_bind, wp_gets. case_if; [by apply wp_ret|].
  apply wp_bind, wp_duplicate; [done|]. intros [|]; [by apply wp_ret|].
  apply wp_bind, wp_arr_set; [rewrite (ok_seq _ Hs); lia|].
  set (s1 := set_lsd_last_seq _ s). pose proof (ok_seq _ Hs).
  assert (lsd_ok s1) as Hs1 by (unfold s1; lsd_ok_step; by rewrite blen_splice1 by lia).
  destruct (byte_at_is_Some multicast 5) as [m5 Hm5]; [lia|]. apply wp_bind. eapply wp_of_opt; [exact Hm5|].
  apply wp_bind, wp_byte_step; [done|]. intros s2 a c Hs2 Hc Hc4.
  apply wp_bind, (wp_arr _ _ c); [done|]. apply wp_bind.
  assert (∀ s3 b, lsd_ok (set_lsd_byte_cnt [0; 0] s3) → lsd_byte_cnt s3 = [a; b] → 0 <= b < 4 → lsd_ok s3) as Hcnt.
  { intros s3 b Hs3 E3 Hb. lsd_ok_step. by exists a, b. }
  case_if.
  - assert (c = 4) as -> by lia. destruct (Hc4 eq_refl) as [[x Hx] Hb7].
    apply wp_bind. eapply (wp_store_step _ _ _ a); [|done|exact Hb7| |].
    + clear -Hs2. lsd_ok_step. by exists 0, 0.
    + by eapply Hseq.
    + intros r s3 Hs3 Ec3 ->. apply wp_bind, wp_arr_set; [by rewrite Ec3|]. rewrite Ec3.
      change (splice [a; 4] 1 [0]) with [a; 0]. apply wp_ret, wp_check_data. clear Hs Hs1 Hs2.
      lsd_ok_step. by exists a, 0.
  - apply wp_ret, wp_check_data, ok_byte_cnt_set; [done|lia].
Qed.

Definition hdr_ok (hdr : ieee80211_hdr) : Prop :=
  blen (addr1 hdr) = 6 ∧ blen (addr2 hdr) = 6 ∧ blen (addr3 hdr) = 6 ∧ blen (addr4 hdr) = 6.
(** The length the machine works with. *)
Definition frame_len (hdr : ieee80211_hdr) (data_len : Z) : Z :=
  if ieee80211_is_data_qos (frame_control hdr) then u16 (data_len - 2) else data_len.

(** C38: [tls_lsd_recv] and [tls_lsd_init] keep the state well-formed and answer
    with one of the six statuses: a fourth length of a group whose low byte is
    below 128 keeps every access of the arrays in bounds, whatever the frame. *)
Theorem lsd_safe (s : lsd) :
  (∀ scan, (∀ l, scan = Some l → Forall bss_ok l) → wp (tls_lsd_init scan) (λ _ s', lsd_ok s') s) ∧
  (∀ hdr len, lsd_ok s → hdr_ok hdr →
     (∀ x, lsd_state s = 1 → lsd_byte_cnt s = [x; 3] →
        Z.land (u16 (frame_len hdr len - lsd_data_datum s)) 0xff < 128) →
     wp (tls_lsd_recv hdr len) keeps_ok s).
Proof.
  split.
  - intros scan Hscan. unfold tls_lsd_init. wp_steps.
    constructor; cbn [lsd_scan_bss lsd_last_num lsd_head lsd_byte lsd_head_cnt lsd_byte_cnt lsd_last_seq data used
      lsd_data_cnt lsd_param]; try done.
    + by exists 0, 0.
    + by exists 0, 0.
    + split; [done|]. apply bytes_ok_b. vm_compute. reflexivity.
  - intros hdr len Hs (A1 & A2 & A3 & A4) Hseq. unfold tls_lsd_recv. unfold frame_len in Hseq.
    case_if; [by apply wp_ret|]. unfold ieee80211_get_DA, ieee80211_has_tods in *.
    destruct (truth (Z.land (frame_control hdr) IEEE80211_FCTL_TODS)); [|by apply wp_ret].
    cbn [truth]. change (0 =? 1) with false. cbv iota.
    set (fl := if ieee80211_is_data_qos _ then _ else _) in *. clearbody fl.
    case_if; [by apply wp_ret|]. apply wp_bind, wp_gets. case_if; [by apply wp_recv_guide|].
    case_if; [|by apply wp_ret]. apply wp_recv_data; [done| |].
    + change (truth 1) with true. cbv iota. done.
    + intros x Hx. by eapply Hseq.
Qed.

(** ** What the sender means

    The configuration and the message that carries it: three lengths, the
    checksum of the access point's address, password and name with their
    checksums, the user's data, and the checksum of everything. *)
Record config := mk_config {
  c_ssid : list Z;
  c_pwd : list Z;
  c_bssid_crc : Z;
  c_user : list Z;
}.
Record config_ok (c : config) : Prop := {
  co_ssid : bytes_ok (c_ssid c) ∧ blen (c_ssid c) <= 32;
  co_pwd : bytes_ok (c_pwd c) ∧ blen (c_pwd c) <= 64;
  co_bssid : is_u8 (c_bssid_crc c);
  co_user : bytes_ok (c_user c) ∧ blen (c_user c) <= 128;
  co_some : c_ssid c = [] → c_pwd c = [] ∧ c_user c ≠ [];
}.
Definition with_crc (l : list Z) : list Z := l ++ [crc8_of l].
Definition body (c : config) : list Z :=
  match c_ssid c, c_pwd c with
  | [], _ => c_user c
  | ssid, [] => c_bssid_crc c :: with_crc ssid ++ c_user c
  | ssid, pwd => c_bssid_crc c :: with_crc pwd ++ with_crc ssid ++ c_user c
  end.
Definition total (c : config) : Z := blen (body c) + 2.
Definition payload (c : config) : list Z :=
  with_crc ([total c; blen (c_pwd c); blen (c_ssid c)] ++ body c).
Definition pay (c : config) (i : Z) : Z := default 0 (byte_at (payload c) i).
(** The number of pairs of bytes, and the four lengths of pair [q]. *)
Definition pairs (c : config) : Z := (total c + 3) / 2.
Definition group (c : config) (q : Z) : list Z :=
  let d1 := pay c (2 * q) in
  let d2 := pay c (2 * q + 1) in
  [d1; 0x100 + crc8_of [d1; d2; q]; d2; 0x200 + q].
(** The parameters hold the configuration. *)
Definition received (c : config) (p : lsd_param_t) : Prop :=
  p_ssid_len p = blen (c_ssid c) ∧ p_pwd_len p = blen (c_pwd c) ∧ p_user_len p = blen (c_user c) ∧
  slice (p_ssid p) 0 (p_ssid_len p) = c_ssid c ∧ slice (p_pwd p) 0 (p_pwd_len p) = c_pwd c ∧
  slice (p_user_data p) 0 (p_user_len p) = c_user c.

Lemma blen_with_crc l : blen (with_crc l) = blen l + 1.
Proof. unfold with_crc. rewrite blen_app. done. Qed.
Lemma bytes_ok_with_crc l : bytes_ok l → bytes_ok (with_crc l).
Proof. intros Hl. apply Forall_app. split; [done|]. constructor; [by apply crc8_of_u8|done]. Qed.
Lemma blen_0 l : blen l = 0 → l = [].
Proof. destruct l; [done|]. rewrite blen_cons. pose proof (blen_nonneg l). lia. Qed.
(** A part of a buffer, by what stands before it. *)
Lemma slice_mid a b r i n : i = blen a → n = blen b → slice (a ++ b ++ r) i n = b.
Proof.
  intros -> ->. replace (blen a) with (blen a + 0) by lia. rewrite slice_pre, slice_front by lia.
  by apply slice_all.
Qed.
Lemma byte_at_mid a x r i : i = blen a → byte_at (a ++ x :: r) i = Some x.
Proof. intros ->. replace (blen a) with (blen a + 0) by lia. by rewrite byte_at_pre. Qed.

Section message.
Context (c : config) (Hc : config_ok c).

(** The shape of the body. *)
Lemma body_cases :
  (c_ssid c = [] ∧ c_pwd c = [] ∧ c_user c ≠ [] ∧ body c = c_user c) ∨
  (c_ssid c ≠ [] ∧ c_pwd c = [] ∧ body c = c_bssid_crc c :: with_crc (c_ssid c) ++ c_user c) ∨
  (c_ssid c ≠ [] ∧ c_pwd c ≠ [] ∧
   body c = c_bssid_crc c :: with_crc (c_pwd c) ++ with_crc (c_ssid c) ++ c_user c).
Proof.
  unfold body. pose proof (co_some _ Hc) as H. destruct (c_ssid c) eqn:Es.
  - left. destruct H as [-> Hu]; done.
  - right. destruct (c_pwd c); [left|right]; by repeat split.
Qed.
Lemma body_ok : bytes_ok (body c).
Proof.
  destruct Hc as [[Hs _] [Hp _] Hb [Hu _] _].
  destruct body_cases as [(_ & _ & _ & ->)|[(_ & _ & ->)|(_ & _ & ->)]]; [done|..];
    (constructor; [done|]); rewrite ?Forall_app; repeat split; try done; by apply bytes_ok_with_crc.
Qed.
Lemma total_eq : total c =
  if blen (c_ssid c) =? 0 then blen (c_user c) + 2
  else if blen (c_pwd c) =? 0 then blen (c_ssid c) + blen (c_user c) + 4
  else blen (c_pwd c) + blen (c_ssid c) + blen (c_user c) + 5.
Proof.
  unfold total. pose proof (blen_nonneg (c_ssid c)). pose proof (blen_nonneg (c_pwd c)).
  destruct body_cases as [(-> & _ & _ & ->)|[(Hs & -> & ->)|(Hs & Hp & ->)]]; [done|..].
  - case_if; [by destruct Hs; apply blen_0|]. cbn [Z.eqb]. change (blen [] =? 0) with true. cbv iota.
    rewrite blen_cons, blen_app, blen_with_crc. lia.
  - case_if; [by destruct Hs; apply blen_0|]. case_if; [by destruct Hp; apply blen_0|].
    rewrite blen_cons, !blen_app, !blen_with_crc. lia.
Qed.
Lemma total_range : 3 <= total c <= 229.
Proof.
  rewrite total_eq. destruct Hc as [[_ Hs] [_ Hp] _ [_ Hu] Hsome].
  pose proof (blen_nonneg (c_ssid c)). pose proof (blen_nonneg (c_pwd c)). pose proof (blen_nonneg (c_user c)).
  case_if; [|case_if; lia]. apply blen_0 in E. apply Hsome in E as [_ Hne].
  assert (blen (c_user c) ≠ 0) by (by intros ?%blen_0). lia.
Qed.
Lemma blen_payload : blen (payload c) = total c + 2.
Proof. unfold payload. rewrite blen_with_crc, blen_app. unfold total. change (blen [_; _; _]) with 3. lia. Qed.
Lemma payload_ok : bytes_ok (payload c).
Proof.
  destruct Hc as [[_ Hs] [_ Hp] _ _ _]. pose proof total_range.
  pose proof (blen_nonneg (c_ssid c)). pose proof (blen_nonneg (c_pwd c)).
  apply bytes_ok_with_crc, Forall_app. split; [|apply body_ok].
  repeat (constructor; [unfold is_u8; lia|]). done.
Qed.
Lemma pay_u8 i : is_u8 (pay c i).
Proof.
  unfold pay. destruct (byte_at (payload c) i) eqn:E; [|done]. eapply byte_at_ok; [apply payload_ok|done].
Qed.
Lemma byte_at_payload i : 0 <= i < total c + 2 → byte_at (payload c) i = Some (pay c i).
Proof.
  intros Hi. unfold pay. destruct (byte_at_is_Some (payload c) i) as [x ->]; [by rewrite blen_payload|done].
Qed.
Lemma pay_of i x : byte_at (payload c) i = Some x → pay c i = x.
Proof. unfold pay. by intros ->. Qed.
Lemma pay_lengths : pay c 0 = total c ∧ pay c 1 = blen (c_pwd c) ∧ pay c 2 = blen (c_ssid c).
Proof. done. Qed.
(** The checksum of everything. *)
Lemma pay_total_crc : pay c (total c + 1) = crc8_of (slice (payload c) 0 (total c + 1)).
Proof.
  set (l := [total c; blen (c_pwd c); blen (c_ssid c)] ++ body c).
  assert (blen l = total c + 1) as Hl by (unfold l, total; rewrite blen_app; change (blen [_; _; _]) with 3; lia).
  change (payload c) with (l ++ [crc8_of l]). rewrite slice_front, slice_all by lia.
  apply pay_of. change (payload c) with (l ++ [crc8_of l]). by apply byte_at_mid.
Qed.
(** Where the parts stand. *)
Lemma parts_user : c_ssid c = [] → slice (payload c) 3 (blen (c_user c)) = c_user c.
Proof.
  intros Hs. assert (body c = c_user c) as Hb by (unfold body; by rewrite Hs).
  unfold payload, with_crc. rewrite Hb, <- app_assoc. by apply slice_mid.
Qed.
Lemma parts_bssid : c_ssid c ≠ [] → pay c 3 = c_bssid_crc c.
Proof.
  intros Hs. apply pay_of. unfold payload, with_crc. rewrite <- app_assoc.
  destruct body_cases as [(? & _)|[(_ & _ & ->)|(_ & _ & ->)]]; [done|by apply byte_at_mid..].
Qed.
Lemma parts_open : c_ssid c ≠ [] → c_pwd c = [] →
  slice (payload c) 4 (blen (c_ssid c)) = c_ssid c ∧
  pay c (4 + blen (c_ssid c)) = crc8_of (c_ssid c) ∧
  slice (payload c) (5 + blen (c_ssid c)) (blen (c_user c)) = c_user c.
Proof.
  intros Hs Hp. destruct body_cases as [(? & _)|[(_ & _ & Hb)|(_ & ? & _)]]; [done| |done].
  set (h := [total c; blen (c_pwd c); blen (c_ssid c); c_bssid_crc c]).
  assert (payload c = h ++ c_ssid c ++ [crc8_of (c_ssid c)] ++ c_user c ++ [crc8_of ([total c; blen (c_pwd c); blen (c_ssid c)] ++ body c)]) as E.
  { unfold payload. unfold with_crc at 1. rewrite Hb at 1. unfold with_crc, h. cbn [app]. by rewrite <- !app_assoc. }
  split; [rewrite E; by apply slice_mid|]. split.
  - apply pay_of. rewrite E, app_assoc. apply byte_at_mid. rewrite blen_app. done.
  - rewrite E, (app_assoc h), (app_assoc (h ++ _)). apply slice_mid; [|done]. rewrite !blen_app.
    change (blen h) with 4. change (blen [_]) with 1. lia.
Qed.
Lemma parts_pwd : c_pwd c ≠ [] →
  slice (payload c) 4 (blen (c_pwd c)) = c_pwd c ∧
  pay c (4 + blen (c_pwd c)) = crc8_of (c_pwd c) ∧
  slice (payload c) (5 + blen (c_pwd c)) (blen (c_ssid c)) = c_ssid c ∧
  pay c (5 + blen (c_ssid c) + blen (c_pwd c)) = crc8_of (c_ssid c) ∧
  slice (payload c) (6 + blen (c_ssid c) + blen (c_pwd c)) (blen (c_user c)) = c_user c.
Proof.
  intros Hp. destruct body_cases as [(_ & ? & _)|[(_ & ? & _)|(_ & _ & Hb)]]; [done|done|].
  set (h := [total c; blen (c_pwd c); blen (c_ssid c); c_bssid_crc c]).
  assert (payload c = h ++ c_pwd c ++ [crc8_of (c_pwd c)] ++ c_ssid c ++ [crc8_of (c_ssid c)] ++ c_user c ++
    [crc8_of ([total c; blen (c_pwd c); blen (c_ssid c)] ++ body c)]) as E.
  { unfold payload. unfold with_crc at 1. rewrite Hb at 1. unfold with_crc, h. cbn [app]. by rewrite <- !app_assoc. }
  split; [rewrite E; by apply slice_mid|]. split.
  { apply pay_of. rewrite E, app_assoc. apply byte_at_mid. rewrite blen_app. done. }
  rewrite (app_assoc h), (app_assoc (h ++ _)) in E. set (h2 := (h ++ c_pwd c) ++ _) in E.
  assert (blen h2 = 5 + blen (c_pwd c)) as Hh2.
  { unfold h2. rewrite !blen_app. change (blen h) with 4. change (blen [_]) with 1. lia. }
  split; [rewrite E; by apply slice_mid|]. split.
  - apply pay_of. rewrite E, app_assoc. apply byte_at_mid. rewrite blen_app. lia.
  - rewrite E, (app_assoc h2), (app_assoc (h2 ++ _)). apply slice_mid; [|done]. rewrite !blen_app.
    change (blen [_]) with 1. lia.
Qed.
End message.

(** ** The table of received bytes *)

(** The operations on a full table change the checksum and the parameters only. *)
Definition st (s : lsd) (v : Z) (p : lsd_param_t) : lsd := set_lsd_crc_value v (set_lsd_param p s).
Lemma st_id s : s = st s (lsd_crc_value s) (lsd_param s).
Proof. by destruct s. Qed.
Lemma wp_st {A} (m : M lsd A) Q s : wp m Q (st s (lsd_crc_value s) (lsd_param s)) → wp m Q s.
Proof. by rewrite <- st_id. Qed.
Lemma wp_upd_st f s v p (Q : unit → lsd → Prop) : Q tt (st s v (f p)) → wp (upd_param f) Q (st s v p).
Proof. intros HQ. unfold upd_param. by wp_steps. Qed.
Lemma wp_crc8_st buf len s v p (Q : Z → lsd → Prop) : bytes_ok buf → 0 <= len <= blen buf →
  (∀ v', v' = crc8_of (slice buf 0 len) → Q v' (st s v' p)) → wp (lsd_crc8_calc buf len) Q (st s v p).
Proof. intros Hok Hl HQ. apply wp_crc8; [done|done|]. by apply HQ. Qed.
Lemma wp_arr_st f i x s v p (Q : Z → lsd → Prop) : (∀ v p, f (st s v p) = f s) → byte_at (f s) i = Some x →
  Q x (st s v p) → wp (arr f i) Q (st s v p).
Proof. intros Hf Hx HQ. apply (wp_arr _ _ x); [by rewrite Hf|done]. Qed.

Section decode.
Context (c : config) (Hc : config_ok c).
Context (scan : option (list tls_bss_info_t)).
Context (Hscan : ∀ l, scan = Some l → Forall bss_ok l).
(** No other network of the scan has the checksums of the one that is meant. *)
Definition scan_agrees : Prop := ∀ l b, scan = Some l → b ∈ l → ssid_len b = blen (c_ssid c) →
  crc8_of (slice (ssid b) 0 (ssid_len b)) = crc8_of (c_ssid c) → crc8_of (bssid b) = c_bssid_crc c →
  slice (ssid b) 0 (ssid_len b) = c_ssid c.
Context (Hagree : scan_agrees).

(** The pairs in [seen] have been received. *)
Record got (seen : gset Z) (s : lsd) : Prop := {
  g_seen : ∀ q, q ∈ seen → 0 <= q < pairs c;
  g_data : blen (data s) = 256 ∧ bytes_ok (data s);
  g_used : blen (used s) = 256;
  g_in : ∀ i, 0 <= i < 256 → i / 2 ∈ seen → byte_at (data s) i = Some (pay c i) ∧ byte_at (used s) i = Some 1;
  g_out : ∀ i, 0 <= i < 256 → i / 2 ∉ seen → byte_at (used s) i = Some 0;
  g_cnt : lsd_data_cnt s = 2 * Z.of_nat (size seen);
  g_param : param_ok (lsd_param s);
  g_user : p_user_len (lsd_param s) = 0;
  g_scan : lsd_scan_bss s = scan;
}.
Lemma got_st seen s v p : got seen s → param_ok p → p_user_len p = 0 → got seen (st s v p).
Proof. intros [] Hp Hu. by constructor. Qed.
Lemma wp_used seen i v p (Q : Z → lsd → Prop) s : got seen s → 0 <= i < 256 →
  (i / 2 ∈ seen → Q 1 (st s v p)) → (i / 2 ∉ seen → Q 0 (st s v p)) → wp (arr used i) Q (st s v p).
Proof.
  intros G Hi H1 H0. destruct (decide (i / 2 ∈ seen)).
  - apply (wp_arr _ _ 1); [by apply (g_in _ _ G)|auto].
  - apply (wp_arr _ _ 0); [by apply (g_out _ _ G)|auto].
Qed.
Lemma wp_data seen i v p (Q : Z → lsd → Prop) s : got seen s → 0 <= i < 256 → i / 2 ∈ seen →
  Q (pay c i) (st s v p) → wp (arr data i) Q (st s v p).
Proof. intros G Hi Hin HQ. apply (wp_arr _ _ (pay c i)); [by apply (g_in _ _ G)|done]. Qed.
Lemma got_slice seen s o n : got seen s → 0 <= o → 0 <= n → o + n <= total c + 2 →
  (∀ i, o <= i < o + n → i / 2 ∈ seen) → slice (data s) o n = slice (payload c) o n.
Proof.
  intros G Ho Hn He Hin. pose proof (total_range c Hc). pose proof (blen_payload c) as Hp.
  destruct (g_data _ _ G) as [Hd _].
  apply byte_at_ext; rewrite !blen_slice by lia; [done|]. intros i Hi. rewrite !byte_at_slice by lia.
  destruct (g_in _ _ G (o + i)) as [-> _]; [lia|apply Hin; lia|]. symmetry. apply byte_at_payload. lia.
Qed.
Lemma splice0_slice dst b n : n = blen b → n <= blen dst → slice (splice dst 0 b) 0 n = b.
Proof. intros -> Hn. apply slice_splice_same; [done|lia|done]. Qed.

(** The search of the scan. *)
Lemma wp_bss_loop_st c1 c2 len (want : bool) bss s p (Q : Z → lsd → Prop) : ∀ v, Forall bss_ok bss → param_ok p →
  (∀ v, Q (-1) (st s v p)) →
  (∀ v b y, b ∈ bss → len = ssid_len b → c1 = crc8_of (slice (ssid b) 0 (ssid_len b)) → c2 = crc8_of (bssid b) →
     blen y = 6 →
     let p' := if want then set_p_ssid (splice (p_ssid p) 0 (slice (ssid b) 0 (ssid_len b))) p else p in
     Q 0 (st s v (set_p_bssid y p'))) →
  wp (bss_loop c1 c2 len want bss) Q (st s v p).
Proof.
  intros v Hb Hp Hno. revert v. induction Hb as [|b bss Hb Hbs IH]; intros v Hyes; cbn [bss_loop];
    [by apply wp_ret|].
  assert (∀ v, wp (bss_loop c1 c2 len want bss) Q (st s v p)) as Hnext.
  { intros v'. apply IH. intros v'' b' y Hin. apply Hyes. by right. }
  destruct Hb as (B1 & B2 & B3 & B4 & B5). case_if; [done|].
  apply wp_bind, wp_crc8_st; [done|lia|]. intros v1 Hv1. case_if; [done|].
  apply wp_bind, wp_crc8_st; [done|lia|]. intros v2 Hv2. case_if; [done|].
  rewrite slice_all in Hv2 by done. destruct Hp as [P1 P2 P3 P4]. apply wp_bind, wp_gets.
  change (lsd_param (st s v2 p)) with p.
  pose proof (Hyes v2 b (splice (p_bssid p) 0 (slice (bssid b) 0 6))) as HY.
  destruct want; wp_steps.
  - apply wp_memcpy; [lia..|]. intros x -> Hx. wp_steps. apply wp_upd_st. wp_steps.
    apply wp_memcpy; [lia..|]. intros y -> Hy. wp_steps. apply wp_upd_st. wp_steps. apply HY; [by left|done|congruence|congruence|lia].
  - apply wp_memcpy; [lia..|]. intros y -> Hy. wp_steps. apply wp_upd_st. wp_steps. apply HY; [by left|done|congruence|congruence|lia].
Qed.
Lemma wp_match_st seen (want : bool) s v p (Q : Z → lsd → Prop) : got seen s → param_ok p →
  (∀ v, Q (-1) (st s v p)) →
  (∀ v y x, blen x = 33 → slice x 0 (blen (c_ssid c)) = c_ssid c → blen y = 6 →
     Q 0 (st s v (set_p_bssid y (if want then set_p_ssid x p else p)))) →
  wp (lsd_ssid_bssid_crc_match (crc8_of (c_ssid c)) (c_bssid_crc c) (blen (c_ssid c)) want) Q (st s v p).
Proof.
  intros G Hp Hno Hyes. unfold lsd_ssid_bssid_crc_match. wp_steps.
  change (lsd_scan_bss (st s v p)) with (lsd_scan_bss s). rewrite (g_scan _ _ G).
  destruct scan as [bss|] eqn:Ebss; [|by apply wp_ret].
  apply wp_bss_loop_st; [by apply Hscan|done|done|]. intros v' b y Hb Hl H1 H2 Hy.
  assert (bss_ok b) as (B1 & B2 & B3 & _).
  { pose proof (Hscan _ eq_refl) as Hf. by eapply list.Forall_forall in Hf. }
  assert (slice (ssid b) 0 (ssid_len b) = c_ssid c) as Hs by (eapply Hagree; eauto).
  cbn zeta. rewrite Hs. apply Hyes; [| |done]; destruct Hp as [P1 _ _ _].
  - rewrite blen_splice; lia.
  - apply splice0_slice; lia.
Qed.

(** Taking the user's data. *)
Lemma wp_take_user_st seen s v p off (Q : bool → lsd → Prop) : got seen s → param_ok p → 0 <= off →
  off + blen (c_user c) <= 256 → slice (data s) off (blen (c_user c)) = c_user c →
  (∀ x, slice x 0 (blen (c_user c)) = c_user c → blen x = 128 →
     Q true (st s v (set_p_user_data x (set_p_user_len (blen (c_user c)) p)))) →
  wp (take_user (blen (c_user c)) off) Q (st s v p).
Proof.
  intros G [P1 P2 P3 P4] Ho He Hu HQ. pose proof (co_user _ Hc) as [_ Hlen]. pose proof (blen_nonneg (c_user c)).
  destruct (g_data _ _ G) as [Hd _]. unfold take_user. rewrite u8_id by (unfold is_u8; lia).
  apply wp_bind, wp_upd_st. wp_steps. cbn [p_user_len lsd_param st set_lsd_crc_value set_lsd_param set_p_user_len].
  case_if; [lia|]. wp_steps. change (data (st _ _ _)) with (data s).
  change (p_user_data (set_p_user_len _ p)) with (p_user_data p).
  apply wp_memcpy; [lia..|]. intros x -> Hx. wp_steps. apply wp_upd_st. wp_steps. rewrite Hu in *. apply HQ; [|lia].
  apply splice0_slice; lia.
Qed.

(** All bytes are there. *)
Definition done_with (r : Z) (s : lsd) : Prop := r = LSD_ONESHOT_COMPLETE ∧ received c (lsd_param s).
Lemma wp_finish_user_st seen s v p : got seen s → param_ok p → c_ssid c = [] →
  slice (data s) 3 (blen (c_user c)) = c_user c → wp (finish_user (total c)) done_with (st s v p).
Proof.
  intros G [P1 P2 P3 P4] Hs Hu. pose proof (co_user _ Hc) as [_ Hlen]. pose proof (blen_nonneg (c_user c)).
  destruct (co_some _ Hc Hs) as [Hp _]. destruct (g_data _ _ G) as [Hd _]. unfold finish_user.
  assert (total c - 2 = blen (c_user c)) as -> by (rewrite total_eq, Hs by done; change (blen [] =? 0) with true; cbv iota; lia).
  rewrite u8_id by (unfold is_u8; lia). do 3 (apply wp_bind, wp_upd_st). wp_steps.
  cbn [p_user_len lsd_param st set_lsd_crc_value set_lsd_param set_p_user_len]. case_if; [lia|]. wp_steps.
  change (data (st _ _ _)) with (data s). change (p_user_data (set_p_user_len _ _)) with (p_user_data p).
  apply wp_memcpy; [lia..|]. intros x -> Hx. wp_steps. apply wp_upd_st. wp_steps. rewrite Hu.
  split; [done|]. unfold received. cbn. rewrite Hs, Hp. repeat split; try done. apply splice0_slice; lia.
Qed.
(** The last steps of [finish] after the parts were copied. *)
Lemma wp_finish_end seen s v p : got seen s → param_ok p →
  slice (p_ssid p) 0 (blen (c_ssid c)) = c_ssid c → slice (p_pwd p) 0 (blen (c_pwd c)) = c_pwd c →
  ∀ x, slice x 0 (blen (c_user c)) = c_user c → blen x = 128 →
  wp (bind (upd_param (set_p_ssid_len (blen (c_ssid c)))) (λ _,
      bind (upd_param (set_p_pwd_len (blen (c_pwd c)))) (λ _,
      bind (upd_param (set_p_total_len (total c))) (λ _,
      bind (lsd_ssid_bssid_crc_match (crc8_of (c_ssid c)) (c_bssid_crc c) (blen (c_ssid c)) false) (λ _,
      ret LSD_ONESHOT_COMPLETE))))) done_with
    (st s v (set_p_user_data x (set_p_user_len (blen (c_user c)) p))).
Proof.
  intros G [P1 P2 P3 P4] Hs Hp x Hx Hx8. do 3 (apply wp_bind, wp_upd_st). apply wp_bind.
  eapply wp_match_st; [exact G|by constructor| |].
  - intros v'. wp_steps. by repeat split.
  - intros v' y x' _ _ _. wp_steps. by repeat split.
Qed.
Lemma blen_splice_0 dst b : blen b <= blen dst → blen (splice dst 0 b) = blen dst.
Proof. intros. apply blen_splice; lia. Qed.

Lemma wp_finish_all seen s : got seen s → (∀ i, 0 <= i < total c + 2 → i / 2 ∈ seen) →
  wp (finish (total c) (blen (c_pwd c)) (blen (c_ssid c))) done_with s.
Proof.
  intros G Hall. pose proof (total_range c Hc) as Ht. destruct (g_data _ _ G) as [Hd Hdok].
  destruct Hc as [[_ Hs] [_ Hp] Hb [_ Hu] _]. pose proof (blen_nonneg (c_ssid c)). pose proof (blen_nonneg (c_pwd c)).
  pose proof (blen_nonneg (c_user c)).
  assert (∀ o n, 0 <= o → 0 <= n → o + n <= total c + 2 → slice (data s) o n = slice (payload c) o n) as Hsl.
  { intros o n Ho Hn He. apply (got_slice seen); [done..|]. intros i Hi. apply Hall. lia. }
  unfold finish. apply wp_bind, wp_gets. apply wp_bind.
  apply (wp_of_opt _ (pay c (total c + 1))); [apply (g_in _ _ G); [lia|apply Hall; lia]|].
  apply wp_st, wp_bind, wp_crc8_st; [done|lia|]. intros v ->. rewrite Hsl by lia.
  rewrite pay_total_crc by done. rewrite Z.eqb_refl. cbn [negb]. generalize (crc8_of (slice (payload c) 0 (total c + 1))).
  intros v. pose proof (g_param _ _ G) as Hpo. generalize dependent (lsd_param s). intros p Hpo.
  pose proof Hpo as [P1 P2 P3 P4].
  pose proof (total_eq c Hc) as Htot.
  destruct (body_cases c Hc) as [(Es & Ep & _)|[(Es & Ep & _)|(Es & Ep & _)]].
  - rewrite Es, Ep. change (blen [] =? 0) with true. cbn [andb]. rewrite Es in Htot.
    change (blen [] =? 0) with true in Htot. cbv iota in Htot.
    apply (wp_finish_user_st seen); [done|done|done|]. rewrite Hsl by lia. by apply parts_user.
  - assert (blen (c_ssid c) ≠ 0) as Es0 by (by intros ?%blen_0). rewrite (proj2 (Z.eqb_neq _ _) Es0) in *. cbn [andb].
    assert (blen (c_pwd c) = 0) as Ep0 by (by rewrite Ep). rewrite Ep0, Z.eqb_refl in Htot.
    destruct (parts_open c Hc Es Ep) as (K1 & K2 & K3).
    apply wp_bind, (wp_data seen); [done|lia|apply Hall; lia|]. rewrite (parts_bssid c Hc Es). apply wp_bind, wp_gets.
    case_if; [lia|]. change (lsd_param (st s v p)) with p. wp_steps.
    replace (4 + blen (c_pwd c)) with 4 by lia. apply wp_memcpy; [lia..|]. intros x -> Hx. rewrite Hsl, K1 by lia. wp_steps.
    apply wp_upd_st. wp_steps. replace (4 + blen (c_ssid c) + blen (c_pwd c)) with (4 + blen (c_ssid c)) by lia.
    eapply (wp_data seen); [done|lia|apply Hall; lia|]. rewrite K2. wp_steps.
    replace (total c - blen (c_ssid c) - 4) with (blen (c_user c)) by lia.
    apply wp_bind. eapply (wp_take_user_st seen); [done| |lia|lia|rewrite Hsl by lia; done|].
    { constructor; cbn; rewrite ?blen_splice_0; lia. }
    intros x' Hx' Hx8. wp_steps. cbn [negb].
    eapply wp_finish_end; [exact G| | | |done|done].
    { constructor; cbn; rewrite ?blen_splice_0; lia. }
    + cbn. apply splice0_slice; lia.
    + cbn. rewrite Ep0. by rewrite Ep.
  - assert (blen (c_ssid c) ≠ 0) as Es0 by (by intros ?%blen_0). rewrite (proj2 (Z.eqb_neq _ _) Es0) in *. cbn [andb].
    assert (blen (c_pwd c) ≠ 0) as Ep0 by (by intros ?%blen_0). rewrite (proj2 (Z.eqb_neq _ _) Ep0) in *.
    destruct (parts_pwd c Hc Ep) as (K1 & K2 & K3 & K4 & K5).
    apply wp_bind, (wp_data seen); [done|lia|apply Hall; lia|]. rewrite (parts_bssid c Hc Es). apply wp_bind, wp_gets.
    case_if; [|lia]. change (lsd_param (st s v p)) with p. wp_steps.
    apply wp_memcpy; [lia..|]. intros x -> Hx. rewrite Hsl, K1 by lia. wp_steps. apply wp_upd_st. wp_steps.
    apply wp_memcpy; [lia..|]. intros y -> Hy. rewrite Hsl, K3 by lia. wp_steps. apply wp_upd_st. wp_steps.
    eapply (wp_data seen); [done|lia|apply Hall; lia|]. rewrite K4. wp_steps.
    replace (total c - blen (c_pwd c) - blen (c_ssid c) - 5) with (blen (c_user c)) by lia.
    assert (param_ok (set_p_ssid (splice (p_ssid p) 0 (c_ssid c)) (set_p_pwd (splice (p_pwd p) 0 (c_pwd c)) p))) as Hp'.
    { constructor; cbn; rewrite ?blen_splice_0; lia. }
    eapply (wp_take_user_st seen); [done|done|lia|lia|rewrite Hsl by lia; done|].
    intros x' Hx' Hx8. wp_steps. cbn [negb]. eapply wp_finish_end; [exact G|done| | |done|done];
      cbn; apply splice0_slice; lia.
Qed.

(** *** The early end *)

(** Either the reception goes on, with the same table, or it is complete. *)
Definition checked (s : lsd) (r : Z) (s' : lsd) : Prop :=
  (r = LSD_ONESHOT_CONTINUE ∧ ∃ v p, s' = st s v p ∧ param_ok p ∧ p_user_len p = 0) ∨ done_with r s'.
Lemma checked_go s v p : param_ok p → p_user_len p = 0 → checked s LSD_ONESHOT_CONTINUE (st s v p).
Proof. intros. left. split; [done|]. by exists v, p. Qed.

Lemma wp_copy_pwd_st seen n s v (Q : Z → lsd → Prop) : got seen s → ∀ i p, param_ok p → 0 <= i →
  i + Z.of_nat n <= 64 →
  (∀ r p', i <= r <= i + Z.of_nat n → param_ok p' → p_user_len p' = p_user_len p →
     (∀ j, 0 <= j < r → byte_at (p_pwd p') j = if j <? i then byte_at (p_pwd p) j else Some (pay c (4 + j))) →
     (∀ j, i <= j < r → (4 + j) / 2 ∈ seen) → Q r (st s v p')) →
  wp (copy_pwd n i) Q (st s v p).
Proof.
  intros G. induction n as [|n IH]; intros i p Hp Hi Hn HQ; cbn [copy_pwd].
  { apply wp_ret, HQ; [lia|done|done| |lia]. intros j Hj. case_if; [done|lia]. }
  apply wp_bind, (wp_used seen); [done|lia| |]; intros Hin.
  2:{ apply wp_ret, HQ; [lia|done|done| |lia]. intros j Hj. case_if; [done|lia]. }
  change (truth 1) with true. cbv iota. apply wp_bind, (wp_data seen); [done|lia|done|].
  apply wp_bind, wp_gets. change (lsd_param (st s v p)) with p. pose proof Hp as [P1 P2 P3 P4].
  apply wp_bind. eapply wp_of_opt; [apply store8_Some; lia|]. apply wp_bind, wp_upd_st.
  apply IH; [constructor; cbn; rewrite ?blen_splice1; lia|lia|lia|].
  intros r p' Hr Hp' Hu Hb Hs. apply HQ; [lia|done|done| |].
  2:{ intros j Hj. destruct (Z.eq_dec j i) as [->|]; [done|]. apply Hs. lia. }
  intros j Hj. rewrite Hb by done.
  cbn [p_pwd set_p_pwd]. rewrite byte_at_splice by (change (blen [_]) with 1; lia). change (blen [_]) with 1.
  destruct (Z.ltb_spec j (i + 1)), (Z.ltb_spec j i), (Z.leb_spec i j); try lia; cbn [andb]; try done.
  assert (j = i) as -> by lia. by rewrite Z.sub_diag.
Qed.

(** The password as [complete_early] takes it. *)
Lemma early_pwd seen s v p (Q : bool → lsd → Prop) : got seen s → param_ok p → p_user_len p = 0 → c_ssid c ≠ [] →
  (∀ v p, param_ok p → p_user_len p = 0 → Q false (st s v p)) →
  (∀ v p, param_ok p → p_user_len p = 0 → slice (p_pwd p) 0 (blen (c_pwd c)) = c_pwd c → Q true (st s v p)) →
  wp (if 0 <? blen (c_pwd c) then
        bind (arr used (4 + blen (c_pwd c))) (λ u,
          if u =? 0 then ret false
          else bind (arr data (4 + blen (c_pwd c))) (λ pwdCrc,
            bind (copy_pwd (Z.to_nat (blen (c_pwd c))) 0) (λ i,
              if negb (i =? blen (c_pwd c)) then ret false
              else bind (gets data) (λ d, bind (lsd_crc8_calc (drop 4 d) (blen (c_pwd c))) (λ x,
                if negb (pwdCrc =? x)
                then bind clear_data (λ _, bind (upd_param (set_p_pwd (replicate 65 0))) (λ _, ret false))
                else ret true)))))
      else ret true) Q (st s v p).
Proof.
  intros G Hp Hu Hs Hno Hyes. pose proof (co_pwd _ Hc) as [Hpok Hplen]. pose proof (blen_nonneg (c_pwd c)) as Hnn.
  case_if; [|].
  2:{ assert (blen (c_pwd c) = 0) as Hz by lia. apply wp_ret, Hyes; [done|done|]. rewrite Hz. by rewrite (blen_0 _ Hz). }
  apply wp_bind, (wp_used seen); [done|lia| |]; intros Hin; [|by apply wp_ret, Hno].
  change (1 =? 0) with false. cbv iota. apply wp_bind, (wp_data seen); [done|lia|done|].
  assert (c_pwd c ≠ []) as Hne by (intros E0; rewrite E0 in E; done).
  destruct (parts_pwd c Hc Hne) as (K1 & K2 & _).
  pose proof (total_eq c Hc) as Ht. pose proof (blen_nonneg (c_user c)). pose proof (blen_nonneg (c_ssid c)).
  rewrite (proj2 (Z.eqb_neq (blen (c_ssid c)) 0)) in Ht by (by intros ?%blen_0).
  rewrite (proj2 (Z.eqb_neq (blen (c_pwd c)) 0)) in Ht by lia.
  pose proof (total_range c Hc). pose proof (blen_payload c) as Hpl.
  assert (∀ j, 0 <= j < blen (c_pwd c) → byte_at (c_pwd c) j = Some (pay c (4 + j))) as Hpay.
  { intros j Hj. rewrite <- K1, byte_at_slice by lia. apply byte_at_payload. lia. }
  apply wp_bind. eapply wp_copy_pwd_st; [done|done|done|lia|]. intros r p' Hr Hp' Hu' Hb Hseen.
  rewrite Hu in Hu'. pose proof Hp' as [P1 P2 P3 P4].
  case_if; [by apply wp_ret, Hno|]. subst r.
  assert (slice (p_pwd p') 0 (blen (c_pwd c)) = c_pwd c) as Hpwd.
  { apply byte_at_ext; rewrite blen_slice by lia; [done|]. intros j Hj. rewrite byte_at_slice, Hb, Hpay by lia.
    case_if; [lia|done]. }
  apply wp_bind, wp_gets. change (data (st s v p')) with (data s). destruct (g_data _ _ G) as [Hd Hdok].
  assert (blen (drop 4 (data s)) = 252) as Hd4 by (unfold blen in *; rewrite length_drop; lia).
  apply wp_bind, wp_crc8_st; [by apply Forall_drop|lia|]. intros v' Hv'.
  case_if; [|by apply wp_ret, Hyes]. destruct E0. rewrite Hv', K2.
  change (slice (drop 4 (data s)) 0 (blen (c_pwd c))) with (slice (data s) 4 (blen (c_pwd c))).
  rewrite (got_slice seen), K1; [done|done|lia|lia|lia|]. intros j Hj.
  replace j with (4 + (j - 4)) by lia. apply Hseen. lia.
Qed.

(** [complete_early] with the arguments of [check_data]. *)
Definition ssid_crc_at : Z :=
  if 0 <? blen (c_pwd c) then 5 + blen (c_ssid c) + blen (c_pwd c) else 4 + blen (c_ssid c) + blen (c_pwd c).
Lemma pay_ssid_crc : c_ssid c ≠ [] → pay c ssid_crc_at = crc8_of (c_ssid c) ∧ 0 <= ssid_crc_at <= total c.
Proof.
  intros Hs. unfold ssid_crc_at. pose proof (total_eq c Hc) as Ht. pose proof (blen_nonneg (c_user c)).
  pose proof (blen_nonneg (c_ssid c)). pose proof (blen_nonneg (c_pwd c)).
  rewrite (proj2 (Z.eqb_neq (blen (c_ssid c)) 0)) in Ht by (by intros ?%blen_0).
  case_if.
  - rewrite (proj2 (Z.eqb_neq (blen (c_pwd c)) 0)) in Ht by lia. split; [|lia].
    apply (parts_pwd c Hc). intros E0. by rewrite E0 in E.
  - assert (blen (c_pwd c) = 0) as Hz by lia. rewrite Hz in *. rewrite Z.eqb_refl in Ht. split; [|lia].
    rewrite Z.add_0_r. apply (parts_open c Hc); [done|by apply blen_0].
Qed.
Lemma wp_complete_early_st seen s v p : got seen s → param_ok p → p_user_len p = 0 → c_ssid c ≠ [] →
  wp (complete_early (total c) (blen (c_pwd c)) (blen (c_ssid c)) ssid_crc_at (blen (c_user c))) (checked s)
    (st s v p).
Proof.
  intros G Hp Hu Hs. destruct (pay_ssid_crc Hs) as [K1 Hr]. pose proof (total_range c Hc). unfold complete_early.
  apply wp_bind, (wp_used seen); [done|lia| |]; intros Hin; [|by apply wp_ret, checked_go].
  change (1 =? 0) with false. cbv iota. apply wp_bind, (wp_data seen); [done|lia|done|]. rewrite K1.
  case_if; [by apply wp_ret, checked_go|].
  assert (c_user c = []) as Eu by (apply blen_0; pose proof (blen_nonneg (c_user c)); lia).
  apply wp_bind, (wp_used seen); [done|lia| |]; intros Hin3; [|by apply wp_ret, checked_go].
  change (1 =? 0) with false. cbv iota. apply wp_bind, (wp_data seen); [done|lia|done|].
  rewrite (parts_bssid c Hc Hs). apply wp_bind.
  apply (early_pwd seen); [done|done|done|done| |]; clear v p Hp Hu.
  - intros v p Hp Hu. cbn [negb]. by apply wp_ret, checked_go.
  - intros v p Hp Hu Hpwd. cbn [negb]. apply wp_bind. eapply wp_match_st; [done|done| |].
    + intros v'. change (-1 =? 0) with false. cbv iota. by apply wp_ret, checked_go.
    + intros v' y x _ Hx _. change (0 =? 0) with true. cbv iota. do 3 (apply wp_bind, wp_upd_st).
      apply wp_ret. right. split; [done|]. unfold received. cbn. rewrite Hu, Eu. by repeat split.
Qed.

(** All pairs, from their number. *)
Lemma seen_all seen s : got seen s → total c + 2 <= 2 * Z.of_nat (size seen) →
  ∀ i, 0 <= i < total c + 2 → i / 2 ∈ seen.
Proof.
  intros G Hn i Hi. set (all := list_to_set (C := gset Z) (seqZ 0 (pairs c))).
  assert (size all = Z.to_nat (pairs c)) as Hall.
  { unfold all. rewrite size_list_to_set by apply NoDup_seqZ. apply length_seqZ. }
  assert (seen ⊆ all) as Hsub.
  { intros q Hq%(g_seen _ _ G). apply elem_of_list_to_set, elem_of_seqZ. lia. }
  assert (seen = all) as ->.
  { apply set_subseteq_size_eq; [done|]. rewrite Hall. unfold pairs. dlia. }
  apply elem_of_list_to_set, elem_of_seqZ. unfold pairs. dlia.
Qed.
Lemma missing seen s : got seen s → 2 * Z.of_nat (size seen) < total c + 2 → ∃ q, 0 <= q < pairs c ∧ q ∉ seen.
Proof.
  intros G Hn. set (all := list_to_set (C := gset Z) (seqZ 0 (pairs c))).
  assert (size all = Z.to_nat (pairs c)) as Hall.
  { unfold all. rewrite size_list_to_set by apply NoDup_seqZ. apply length_seqZ. }
  destruct (set_choose_or_empty (all ∖ seen)) as [[q Hq]|He].
  - exists q. apply elem_of_difference in Hq as [Hq Hn']. split; [|done].
    apply elem_of_list_to_set, elem_of_seqZ in Hq. lia.
  - assert (all ⊆ seen) as Hsub by set_solver. apply subseteq_size in Hsub. unfold pairs in *. dlia.
Qed.
(** The lengths of a configuration pass the tests of [check_data]. *)
Lemma check_passes {A} (x y z : A) :
  (if (32 <? blen (c_ssid c)) || (64 <? blen (c_pwd c)) then x
   else if
     ((blen (c_pwd c) =? 0) && (blen (c_ssid c) =? 0) && (total c <=? 2))
     || ((0 <? blen (c_ssid c)) && (0 <? blen (c_pwd c)) && (total c <? blen (c_pwd c) + blen (c_ssid c) + 5))
     || ((0 <? blen (c_ssid c)) && (blen (c_pwd c) =? 0) && (total c <? blen (c_pwd c) + blen (c_ssid c) + 4))
     || ((blen (c_ssid c) =? 0) && (0 <? blen (c_pwd c))) then y else z) = z.
Proof.
  pose proof (total_range c Hc). pose proof (total_eq c Hc) as Ht. pose proof (blen_nonneg (c_user c)).
  pose proof (blen_nonneg (c_ssid c)). pose proof (blen_nonneg (c_pwd c)).
  assert (blen (c_ssid c) = 0 → blen (c_pwd c) = 0) as Hsp.
  { intros E%blen_0. destruct (co_some _ Hc E) as [-> _]. done. }
  destruct (co_ssid _ Hc) as [_ Hs], (co_pwd _ Hc) as [_ Hp].
  replace ((32 <? blen (c_ssid c)) || (64 <? blen (c_pwd c)))%bool with false by lia.
  destruct (Z.eqb_spec (blen (c_ssid c)) 0), (Z.eqb_spec (blen (c_pwd c)) 0); cbn [andb orb];
    match goal with |- (if ?b then _ else _) = _ => replace b with false by lia end; done.
Qed.
Lemma user_len_eq : c_ssid c ≠ [] →
  (if 0 <? blen (c_pwd c) then u8 (total c - blen (c_pwd c) - blen (c_ssid c) - 5)
   else u8 (total c - blen (c_ssid c) - 4)) = blen (c_user c).
Proof.
  intros Hs. pose proof (total_eq c Hc) as Ht. pose proof (blen_nonneg (c_user c)). destruct (co_user _ Hc) as [_ Hu].
  rewrite (proj2 (Z.eqb_neq (blen (c_ssid c)) 0)) in Ht by (by intros ?%blen_0).
  pose proof (blen_nonneg (c_pwd c)). case_if.
  - rewrite (proj2 (Z.eqb_neq (blen (c_pwd c)) 0)) in Ht by lia. rewrite u8_id; unfold is_u8; lia.
  - rewrite (proj2 (Z.eqb_eq (blen (c_pwd c)) 0)) in Ht by lia. rewrite u8_id; unfold is_u8; lia.
Qed.
(** The check after a frame. *)
Lemma wp_check_st seen s : got seen s →
  wp check_data (λ r s', checked s r s' ∧ (r = LSD_ONESHOT_CONTINUE → ∃ q, 0 <= q < pairs c ∧ q ∉ seen)) s.
Proof.
  intros G. apply wp_st. pose proof (g_param _ _ G) as Hp. pose proof (g_user _ _ G) as Hu.
  pose proof (total_range c Hc) as Ht.
  assert (∀ v p q, 0 <= q < pairs c → q ∉ seen → param_ok p → p_user_len p = 0 →
    checked s LSD_ONESHOT_CONTINUE (st s v p) ∧
      (LSD_ONESHOT_CONTINUE = LSD_ONESHOT_CONTINUE → ∃ q, 0 <= q < pairs c ∧ q ∉ seen)) as Hgo.
  { intros v p q Hq Hn Hp' Hu'. split; [by apply checked_go|]. intros _. by exists q. }
  assert (0 < pairs c ∧ 1 < pairs c) as [Hp0 Hp1] by (unfold pairs; dlia).
  generalize dependent (lsd_param s). generalize (lsd_crc_value s). intros v p Hp Hu. unfold check_data.
  apply wp_bind, (wp_used seen); [done|lia| |]; change (0 / 2) with 0; intros H0;
    (apply wp_bind, (wp_used seen); [done|lia| |]; change (1 / 2) with 0; intros H0'; [|]);
    (apply wp_bind, (wp_used seen); [done|lia| |]; change (2 / 2) with 1; intros H2);
    try contradiction; change (truth 0) with false; change (truth 1) with true; cbn [andb];
    try (apply wp_ret; first [by apply (Hgo v p 0)|by apply (Hgo v p 1)]).
  do 3 (apply wp_bind, (wp_data seen); [done|lia|done|]).
  destruct (pay_lengths c) as (-> & -> & ->). rewrite (check_passes _ _). apply wp_bind, wp_gets.
  change (lsd_data_cnt (st s v p)) with (lsd_data_cnt s). rewrite (g_cnt _ _ G). case_if.
  - eapply wp_mono; [eapply (wp_finish_all seen); [by apply got_st|by eapply seen_all]|].
    intros r s' Hr. split; [by right|]. destruct Hr as [-> _]. done.
  - destruct (missing seen s G E) as (q & Hq & Hn). case_if; [|apply wp_ret; by eapply Hgo].
    assert (c_ssid c ≠ []) as Hs by (intros E1; by rewrite E1 in E0).
    eapply wp_mono; [|intros r s' Hr; split; [exact Hr|by exists q]].
    pose proof (wp_complete_early_st seen s v p G Hp Hu Hs) as W. unfold ssid_crc_at in W.
    pose proof (user_len_eq Hs) as Hul. case_if; by rewrite Hul.
Qed.

(** *** Four frames *)

(** What the frames of a group are put together in. *)
Definition framing (s : lsd) : Z * Z * list Z * list Z * list Z * list Z * list Z :=
  (lsd_state s, lsd_data_datum s, lsd_src_mac s, lsd_last_seq s, lsd_last_num s, lsd_byte s, lsd_byte_cnt s).
Lemma pairs_range : 0 < pairs c <= 116.
Proof. pose proof (total_range c Hc). unfold pairs. dlia. Qed.
Lemma group_bytes q : 0 <= q < pairs c →
  (λ x, Z.land x 0xff) <$> group c q =
    [pay c (2 * q); crc8_of [pay c (2 * q); pay c (2 * q + 1); q]; pay c (2 * q + 1); q].
Proof.
  intros Hq. pose proof pairs_range. pose proof (pay_u8 c Hc (2 * q)) as H1. pose proof (pay_u8 c Hc (2 * q + 1)) as H2.
  assert (is_u8 (crc8_of [pay c (2 * q); pay c (2 * q + 1); q])) as H3.
  { apply crc8_of_u8. repeat (constructor; [done|]). constructor; [unfold is_u8; lia|done]. }
  unfold group. cbn [fmap list_fmap]. rewrite !land255. unfold is_u8 in *. repeat f_equal; dlia.
Qed.

Lemma got_store seen s q v : got seen s → 0 <= q < pairs c → q ∉ seen →
  got ({[q]} ∪ seen)
    (set_lsd_data_cnt (u8 (u8 (lsd_data_cnt s + 1) + 1))
      (set_used (splice (splice (used s) (2 * q) [1]) (2 * q + 1) [1])
        (set_data (splice (splice (data s) (2 * q) [pay c (2 * q)]) (2 * q + 1) [pay c (2 * q + 1)])
          (set_lsd_crc_value v s)))).
Proof.
  intros G Hq Hn. pose proof pairs_range. destruct (g_data _ _ G) as [Hd Hdok]. pose proof (g_used _ _ G) as Hu.
  assert (∀ l x y, blen l = 256 → blen (splice (splice l (2 * q) [x]) (2 * q + 1) [y]) = 256) as Hlen.
  { intros l x y Hl. rewrite !blen_splice1; rewrite ?blen_splice1; lia. }
  assert (∀ l x y i, blen l = 256 → 0 <= i < 256 → byte_at (splice (splice l (2 * q) [x]) (2 * q + 1) [y]) i =
    if i =? 2 * q then Some x else if i =? 2 * q + 1 then Some y else byte_at l i) as Hb.
  { intros l x y i Hl Hi. rewrite !byte_at_splice; rewrite ?blen_splice1 by lia; change (blen [_]) with 1; try lia.
    destruct (Z.eqb_spec i (2 * q)) as [->|]; [|destruct (Z.eqb_spec i (2 * q + 1)) as [->|]].
    - replace ((2 * q + 1 <=? 2 * q) && (2 * q <? 2 * q + 1 + 1))%bool with false by lia.
      replace ((2 * q <=? 2 * q) && (2 * q <? 2 * q + 1))%bool with true by lia. by rewrite Z.sub_diag.
    - replace ((2 * q + 1 <=? 2 * q + 1) && (2 * q + 1 <? 2 * q + 1 + 1))%bool with true by lia. by rewrite Z.sub_diag.
    - replace ((2 * q + 1 <=? i) && (i <? 2 * q + 1 + 1))%bool with false by lia.
      by replace ((2 * q <=? i) && (i <? 2 * q + 1))%bool with false by lia. }
  constructor; cbn.
  - intros q'. rewrite elem_of_union, elem_of_singleton. intros [->|Hin]; [done|by apply (g_seen _ _ G)].
  - split; [by apply Hlen|]. do 2 (apply bytes_ok_splice1; [|by apply pay_u8]). done.
  - by apply Hlen.
  - intros i Hi Hin. rewrite !Hb by done. destruct (Z.eqb_spec i (2 * q)) as [->|]; [done|].
    destruct (Z.eqb_spec i (2 * q + 1)) as [->|]; [done|]. apply (g_in _ _ G); [done|].
    apply elem_of_union in Hin as [Hin%elem_of_singleton|]; [subst q; dlia|done].
  - intros i Hi Hin. rewrite Hb by done. rewrite elem_of_union, elem_of_singleton in Hin.
    destruct (Z.eqb_spec i (2 * q)) as [->|]; [destruct Hin; left; dlia|].
    destruct (Z.eqb_spec i (2 * q + 1)) as [->|]; [destruct Hin; left; dlia|]. apply (g_out _ _ G); [done|naive_solver].
  - rewrite size_union, size_singleton by set_solver. rewrite (g_cnt _ _ G).
    assert (size seen < Z.to_nat (pairs c))%nat as Hsz.
    { rewrite <- (length_seqZ 0 (pairs c)), <- (size_list_to_set (C := gset Z)) by apply NoDup_seqZ.
      apply subset_size. split.
      - intros q' Hq'%(g_seen _ _ G). apply elem_of_list_to_set, elem_of_seqZ. lia.
      - intros Hsub. apply Hn, Hsub, elem_of_list_to_set, elem_of_seqZ. lia. }
    rewrite !u8_id; unfold is_u8; rewrite ?u8_id; unfold is_u8; lia.
  - apply (g_param _ _ G).
  - apply (g_user _ _ G).
  - apply (g_scan _ _ G).
Qed.

Lemma wp_store_got seen s q (Q : bool → lsd → Prop) : got seen s → 0 <= q < pairs c →
  slice (lsd_byte s) 4 4 = group c q → blen (lsd_byte s) = 8 →
  (∀ s', got ({[q]} ∪ seen) s' → framing s' = framing s → Q false s') → wp (store_step 1) Q s.
Proof.
  intros G Hq Hrow Hlen HQ. pose proof pairs_range. pose proof (group_bytes q Hq) as Hgb.
  assert (∀ i x, group c q !! Z.to_nat i = Some x → 0 <= i < 4 → byte_at (lsd_byte s) (4 + i) = Some x) as Hrow'.
  { intros i x Hx Hi. rewrite <- byte_at_slice with (n := 4), Hrow, byte_at_lookup by lia. done. }
  unfold store_step. rewrite !at2_1 by lia.
  do 4 (apply wp_bind; eapply wp_arr; [apply Hrow'; [reflexivity|lia]|]).
  unfold group in Hgb. cbn [fmap list_fmap] in Hgb. injection Hgb as -> -> -> ->.
  rewrite Z.shiftl_mul_pow2 by lia. change (2 ^ 1) with 2. rewrite (Z.mul_comm q 2).
  assert (2 * q / 2 = q) as Hdiv by dlia.
  pose proof (pay_u8 c Hc (2 * q)) as U1. pose proof (pay_u8 c Hc (2 * q + 1)) as U2.
  assert (is_u8 q) as U3 by (unfold is_u8; lia).
  apply wp_st, wp_bind, (wp_used seen); [done|lia| |]; rewrite Hdiv; intros Hin.
  { change (1 =? 0) with false. cbv iota. rewrite <- st_id. apply wp_ret, HQ; [|done].
    by replace ({[q]} ∪ seen) with seen by set_solver. }
  change (0 =? 0) with true. cbv iota. rewrite <- st_id.
  assert (is_u8 (crc8_of [pay c (2 * q); pay c (2 * q + 1); q])) as U4 by (apply crc8_of_u8; do 3 (constructor; [done|]); constructor).
  apply wp_bind, wp_crc8; [do 4 (constructor; [done|]); constructor|done|].
  change (slice [pay c (2 * q); pay c (2 * q + 1); q; crc8_of [pay c (2 * q); pay c (2 * q + 1); q]] 0 3)
    with [pay c (2 * q); pay c (2 * q + 1); q].
  rewrite Z.eqb_refl. destruct (g_data _ _ G) as [Hd _]. pose proof (g_used _ _ G) as Hu.
  generalize (crc8_of [pay c (2 * q); pay c (2 * q + 1); q]). intros v.
  apply wp_bind, wp_arr_set; [change (data (set_lsd_crc_value v s)) with (data s); lia|].
  apply wp_bind, wp_arr_set; [cbn; lia|]. apply wp_bind, wp_modify.
  apply wp_bind, wp_arr_set; [cbn; rewrite blen_splice1; lia|].
  apply wp_bind, wp_arr_set; [cbn; rewrite blen_splice1; lia|]. apply wp_bind, wp_modify, wp_bind, wp_gets.
  cbn [data used lsd_data_cnt set_data set_used set_lsd_data_cnt set_lsd_crc_value].
  match goal with |- wp (ret (LSD_DATA_MAX <=? u8 ?n)) _ _ => pose proof (u8_range n) as Hr end.
  unfold is_u8, LSD_DATA_MAX in *. rewrite (proj2 (Z.leb_gt _ _)) by lia.
  apply wp_ret, HQ; [|done]. exact (got_store seen s q v G Hq Hin).
Qed.

(** *** A frame of a group *)

(** Whether a length fits as number [k] of its four. *)
Definition fits (k v : Z) : bool :=
  negb (((k =? 0) && (256 <=? v)) || ((k =? 1) && negb (0x100 =? Z.land v 0x300))
        || ((k =? 2) && (256 <=? v)) || ((k =? 3) && negb (0x200 =? Z.land v 0x300))).
Definition framed (num row cnt : list Z) (s : lsd) : lsd :=
  set_lsd_byte_cnt cnt (set_lsd_byte row (set_lsd_last_num num s)).
Lemma got_framed seen num row cnt s : got seen s → got seen (framed num row cnt s).
Proof. intros []. by constructor. Qed.
(** The length that is expected next. *)
Definition expected (m : Z) (s : lsd) (b : Z) : Z :=
  if bool_decide (byte_at (lsd_last_num s) 1 = Some m) then b else 0.

Lemma wp_byte_step_st hdr len m s a b (Q : unit → lsd → Prop) :
  blen (lsd_last_num s) = 2 → blen (lsd_byte s) = 8 → lsd_byte_cnt s = [a; b] → 0 <= b < 4 →
  let k := expected m s b in
  let v := u16 (len - lsd_data_datum s) in
  (∀ num row, blen num = 2 → byte_at num 1 = Some m → blen row = 8 →
     slice row 4 (k + 1) = slice (lsd_byte s) 4 k ++ [v] →
     Q tt (framed num row [a; if fits k v then k + 1 else 0] s)) →
  wp (byte_step hdr 1 len m) Q s.
Proof.
  intros Hnum Hbyte Hcnt Hb k v HQ. unfold byte_step.
  destruct (byte_at_is_Some (lsd_last_num s) 1) as [n1 Hn1]; [lia|].
  apply wp_bind, (wp_arr _ _ n1); [done|]. rewrite !at2_1 by lia.
  assert (∀ num row0 cnt0, blen num = 2 → byte_at num 1 = Some m → blen row0 = 8 → cnt0 = [a; k] → 0 <= k < 4 →
    slice row0 4 k = slice (lsd_byte s) 4 k →
    wp (bind (gets lsd_data_datum) (λ datum, bind (arr lsd_byte_cnt 1) (λ cnt,
      bind (arr_set lsd_byte set_lsd_byte (at2 1 cnt) (u16 (len - datum))) (λ _,
        if ((cnt =? 0) && (256 <=? u16 (len - datum)))
           || ((cnt =? 1) && negb (0x100 =? Z.land (u16 (len - datum)) 0x300))
           || ((cnt =? 2) && (256 <=? u16 (len - datum)))
           || ((cnt =? 3) && negb (0x200 =? Z.land (u16 (len - datum)) 0x300))
        then arr_set lsd_byte_cnt set_lsd_byte_cnt 1 0
        else arr_set lsd_byte_cnt set_lsd_byte_cnt 1 (u8 (cnt + 1)))))) Q (framed num row0 cnt0 s)) as Hrest.
  { intros num row0 cnt0 Hn Hnm Hr0 -> Hk Hsl. apply wp_bind, wp_gets. change (lsd_data_datum (framed _ _ _ s)) with (lsd_data_datum s).
    apply wp_bind, (wp_arr _ _ k); [done|]. rewrite at2_1 by lia. fold v.
    apply wp_bind, wp_arr_set; [cbn; lia|].
    specialize (HQ num (splice row0 (4 + k) [v]) Hn Hnm). rewrite blen_splice1 in HQ by lia. specialize (HQ Hr0).
    assert (slice (splice row0 (4 + k) [v]) 4 (k + 1) = slice (lsd_byte s) 4 k ++ [v]) as Hs2.
    { rewrite <- slice_app, slice_splice_same, slice_splice_disj by (change (blen [v]) with 1; lia). by rewrite Hsl. }
    specialize (HQ Hs2). unfold fits in HQ.
    destruct (_ || _)%bool; (apply wp_arr_set; [done|]); [exact HQ|]. cbn [negb] in HQ.
    rewrite u8_id by (unfold is_u8; lia). exact HQ. }
  unfold k, expected in *. rewrite Hn1 in *. destruct (Z.eqb_spec n1 m) as [->|Hne]; cbn [negb].
  - rewrite bool_decide_true in * by done. apply wp_bind, wp_ret.
    replace s with (framed (lsd_last_num s) (lsd_byte s) (lsd_byte_cnt s) s) by by destruct s.
    by apply Hrest.
  - rewrite bool_decide_false in * by congruence.
    do 2 apply wp_bind. apply wp_arr_set; [lia|]. apply wp_bind, wp_arr_set.
    { cbn [lsd_byte set_lsd_byte]. rewrite blen_splice1; lia. }
    cbn [lsd_byte set_lsd_byte]. apply wp_bind, wp_arr_set; [by cbn; rewrite Hcnt|].
    cbn [lsd_byte_cnt set_lsd_byte]. rewrite Hcnt. change (splice [a; b] 1 [0]) with [a; 0].
    apply wp_arr_set; [cbn; lia|]. cbn [lsd_last_num set_lsd_byte set_lsd_byte_cnt].
    apply (Hrest (splice (lsd_last_num s) 1 [m]) (splice (splice (lsd_byte s) 4 [0]) 5 [0]) [a; 0]); try done.
    + rewrite blen_splice1; lia.
    + rewrite byte_at_splice by (change (blen [m]) with 1; lia). done.
    + rewrite !blen_splice1; rewrite ?blen_splice1; lia.
Qed.

(** The frames one after the other, until the configuration is complete. *)
Fixpoint lsd_run (frames : list (ieee80211_hdr * Z)) : M lsd Z :=
  match frames with
  | [] => ret LSD_ONESHOT_CONTINUE
  | (hdr, len) :: frames =>
      bind (tls_lsd_recv hdr len) (λ r,
        if (r =? LSD_ONESHOT_COMPLETE) || (r =? LSD_ONESHOT_ERR) then ret r else lsd_run frames)
  end.

(** *** The channel *)

Section channel.
Context (mac : list Z) (D : Z) (HD : 0 <= D <= 200).

(** The frames the machine takes: those of the sender, with a length in range. *)
Definition from_sender (hdr : ieee80211_hdr) : bool :=
  negb (truth (Z.land (duration_id hdr) 0x02)) && truth (ieee80211_has_tods (frame_control hdr)) &&
  (bool_decide (take 3 (ieee80211_get_DA hdr) = lsd_dst_addr) || negb (truth (duration_id hdr))) &&
  bool_decide (ieee80211_get_SA hdr = mac).
Definition heard_frame (hdr : ieee80211_hdr) (len : Z) : bool :=
  from_sender hdr && (D <=? frame_len hdr len) && (frame_len hdr len <? 1024).
(** What is heard of a sequence of frames: the last byte of the address and the
    length; [last] is the sequence number of the frame before. *)
Fixpoint heard (last : Z) (frames : list (ieee80211_hdr * Z)) : list (Z * Z) :=
  match frames with
  | [] => []
  | (hdr, len) :: frames =>
      if heard_frame hdr len && negb (ieee80211_has_retry (frame_control hdr) && (last =? seq_ctrl hdr))
      then (default 0 (byte_at (ieee80211_get_DA hdr) 5), frame_len hdr len - D)
             :: heard (seq_ctrl hdr) frames
      else heard last frames
  end.

Record rx (seen : gset Z) (last : Z) (s : lsd) : Prop := {
  rx_state : lsd_state s = 1;
  rx_datum : lsd_data_datum s = D;
  rx_mac : lsd_src_mac s = mac;
  rx_seq : blen (lsd_last_seq s) = 2 ∧ byte_at (lsd_last_seq s) 1 = Some last;
  rx_num : blen (lsd_last_num s) = 2;
  rx_byte : blen (lsd_byte s) = 8;
  rx_got : got seen s;
}.
(** The frames [pre] of a group with address [m] have been heard; if the group
    will be whole, they have been kept. *)
Definition at_pos (m : Z) (pre : list Z) (whole : Prop) (s : lsd) : Prop :=
  ∃ a b, lsd_byte_cnt s = [a; b] ∧ 0 <= b < 4 ∧ expected m s b <= blen pre ∧
    (whole → expected m s b = blen pre ∧ slice (lsd_byte s) 4 (blen pre) = pre).

Lemma recv_unheard hdr len s : lsd_state s = 1 → lsd_data_datum s = D → lsd_src_mac s = mac →
  heard_frame hdr len = false → tls_lsd_recv hdr len s = Some (LSD_ONESHOT_CONTINUE, s).
Proof.
  intros Hst Hd Hm Hh. unfold heard_frame, from_sender in Hh. unfold tls_lsd_recv. fold (frame_len hdr len).
  destruct (truth (Z.land (duration_id hdr) 2)); [done|].
  unfold ieee80211_has_tods in *. destruct (truth (Z.land (frame_control hdr) IEEE80211_FCTL_TODS)); [|done].
  change (0 =? 1) with false. change (truth 1) with true in *. cbn [negb andb] in Hh. cbv iota.
  destruct (bool_decide (take 3 (ieee80211_get_DA hdr) = lsd_dst_addr)), (truth (duration_id hdr)); cbn [negb andb orb] in *;
    try done; unfold bind, gets; rewrite Hst; change (1 =? 0) with false; change (1 =? 1) with true; cbv iota;
    unfold recv_data, bind, gets; rewrite Hd;
    (destruct (Z.leb_spec 1024 (frame_len hdr len)), (Z.ltb_spec (frame_len hdr len) D); [done..|]);
    rewrite (proj2 (Z.leb_le _ _)), (proj2 (Z.ltb_lt _ _)), !andb_true_r in Hh by lia; cbn [orb] in *; cbv beta iota;
    rewrite Hm; rewrite bool_decide_eq_false in Hh; by rewrite (bool_decide_false (mac = _)) by congruence.
Qed.
Lemma recv_sender_eq hdr len s : from_sender hdr = true → tls_lsd_recv hdr len s =
  (if lsd_state s =? 0 then recv_guide hdr 1 (frame_len hdr len) mac
   else if lsd_state s =? 1 then recv_data hdr 1 (frame_len hdr len) mac (ieee80211_get_DA hdr)
   else ret LSD_ONESHOT_CONTINUE) s.
Proof.
  intros Hh. unfold from_sender in Hh. unfold tls_lsd_recv. fold (frame_len hdr len).
  destruct (truth (Z.land (duration_id hdr) 2)); [done|].
  unfold ieee80211_has_tods in *. destruct (truth (Z.land (frame_control hdr) IEEE80211_FCTL_TODS)); [|done].
  change (0 =? 1) with false. change (truth 1) with true in *. cbn [negb andb] in Hh. cbv iota.
  apply andb_true_iff in Hh as [Hh Hsa]. rewrite bool_decide_eq_true in Hsa. subst mac.
  match goal with |- context [if ?b then ret _ else _] => replace b with false
    by (destruct (bool_decide _), (truth (duration_id hdr)); done) end.
  done.
Qed.
Lemma wp_recv_sender hdr len s (Q : Z → lsd → Prop) : from_sender hdr = true →
  wp (if lsd_state s =? 0 then recv_guide hdr 1 (frame_len hdr len) mac
      else if lsd_state s =? 1 then recv_data hdr 1 (frame_len hdr len) mac (ieee80211_get_DA hdr)
      else ret LSD_ONESHOT_CONTINUE) Q s → wp (tls_lsd_recv hdr len) Q s.
Proof. intros Hh HQ. unfold wp in *. by rewrite recv_sender_eq. Qed.

Lemma recv_again seen last hdr len s : rx seen last s → heard_frame hdr len = true →
  ieee80211_has_retry (frame_control hdr) && (last =? seq_ctrl hdr) = true →
  tls_lsd_recv hdr len s = Some (LSD_ONESHOT_CONTINUE, s).
Proof.
  intros R Hh. unfold heard_frame in Hh. do 2 apply andb_true_iff in Hh as [Hh ?]. zbool. intros Hdup.
  assert (wp (tls_lsd_recv hdr len) (λ r s', r = LSD_ONESHOT_CONTINUE ∧ s' = s) s) as W.
  { apply wp_recv_sender; [done|]. rewrite (rx_state _ _ _ R). change (1 =? 0) with false. change (1 =? 1) with true. cbv iota.
    unfold recv_data. apply wp_bind, wp_gets. rewrite (rx_datum _ _ _ R).
    rewrite (proj2 (Z.leb_gt _ _)), (proj2 (Z.ltb_ge _ _)) by done. cbn [orb].
    apply wp_bind, wp_gets. rewrite (rx_mac _ _ _ R), bool_decide_true by done. cbn [negb].
    destruct (rx_seq _ _ _ R) as [Hs2 Hsl]. unfold duplicate. apply wp_bind, wp_bind, (wp_arr _ _ last); [done|].
    apply wp_ret. by rewrite Hdup. }
  apply wp_total in W as (r & s' & E & -> & ->). exact E.
Qed.

(** A whole group's lengths fit. *)
Lemma fits_intro k v :
  (k = 0 ∧ v < 256) ∨ (k = 1 ∧ Z.land v 0x300 = 0x100) ∨ (k = 2 ∧ v < 256) ∨ (k = 3 ∧ Z.land v 0x300 = 0x200) →
  fits k v = true.
Proof.
  unfold fits. intros [[-> H]|[[-> H]|[[-> H]|[-> H]]]]; rewrite ?H; try done; by rewrite (proj2 (Z.leb_gt _ _)) by lia.
Qed.
Lemma group_fits q pre v post : 0 <= q < pairs c → group c q = pre ++ v :: post → fits (blen pre) v = true.
Proof.
  intros Hq E. pose proof pairs_range. pose proof (pay_u8 c Hc (2 * q)) as U1. pose proof (pay_u8 c Hc (2 * q + 1)) as U2.
  assert (is_u8 (crc8_of [pay c (2 * q); pay c (2 * q + 1); q])) as U3.
  { apply crc8_of_u8. do 2 (constructor; [done|]). constructor; [unfold is_u8; lia|constructor]. }
  assert (∀ x k, is_u8 x → Z.land (k * 256 + x) 0x300 = Z.land (k * 256) 0x300) as Hland.
  { intros x k Hx. change 0x300 with (Z.shiftl 3 8). apply Z.bits_inj'. intros n Hn. rewrite !Z.land_spec.
    rewrite Z.shiftl_spec by done. destruct (Z.ltb_spec n 8).
    - rewrite (Z.testbit_neg_r 3) by lia. by rewrite !andb_false_r.
    - f_equal. replace (k * 256) with (Z.shiftl k 8) by (rewrite Z.shiftl_mul_pow2 by lia; lia).
      rewrite <- (Z.mod_small x (2 ^ 8)) by exact Hx. rewrite Z.add_nocarry_lxor.
      + rewrite Z.lxor_spec, Z.mod_pow2_bits_high by lia. by rewrite xorb_false_r.
      + apply Z.bits_inj'. intros i Hi. rewrite Z.land_spec, Z.bits_0. destruct (Z.ltb_spec i 8).
        * by rewrite Z.shiftl_spec_low.
        * by rewrite Z.mod_pow2_bits_high, andb_false_r by lia. }
  unfold group in E.
  destruct pre as [|p0 [|p1 [|p2 [|p3 pre]]]]; cbn [app] in E; injection E; intros; subst; apply fits_intro.
  - left. by destruct U1.
  - right. left. split; [done|]. by apply (Hland _ 1).
  - right. right. left. by destruct U2.
  - do 3 right. split; [done|]. apply (Hland _ 2). unfold is_u8. lia.
  - by destruct pre.
Qed.

Lemma rx_framing seen seen' last s s' : rx seen last s → framing s' = framing s → got seen' s' → rx seen' last s'.
Proof. intros [] [= E1 E2 E3 E4 E5 E6 E7] G. constructor; rewrite ?E1, ?E2, ?E3, ?E4, ?E5, ?E6; done. Qed.
(** The start of a group: nothing is left of the group before. *)
Lemma at_start m whole s a b : lsd_byte_cnt s = [a; b] → 0 <= b < 4 → expected m s b <= 0 → at_pos m [] whole s.
Proof.
  intros Hc' Hb He. exists a, b. split; [done|]. split; [done|]. split; [done|]. intros _.
  unfold expected in *. change (blen []) with 0. split; [|done]. case_if; lia.
Qed.
(** After the frame: the check, from a state in which the position is known. *)
Lemma wp_check_rx seen last s : rx seen last s →
  wp check_data (λ r s', done_with r s' ∨
    (r = LSD_ONESHOT_CONTINUE ∧ rx seen last s' ∧ framing s' = framing s ∧ ∃ q, 0 <= q < pairs c ∧ q ∉ seen)) s.
Proof.
  intros R. eapply wp_mono; [apply (wp_check_st seen), R|]. intros r s' [[[-> (v & p & -> & Hp & Hu)]|Hd] Hm]; [|by left].
  right. split; [done|]. split; [|by auto]. apply (rx_framing seen _ _ s); [done|done|]. apply got_st; [apply R|done|done].
Qed.

(** What a frame of the group leaves behind. *)
Definition after_frame (seen : gset Z) (hdr : ieee80211_hdr) (m q : Z) (pre : list Z) (v : Z) (post : list Z)
    (r : Z) (s' : lsd) : Prop :=
  let whole := pre ++ v :: post = group c q in
  done_with r s' ∨
  (r = LSD_ONESHOT_CONTINUE ∧ ∃ seen', rx seen' (seq_ctrl hdr) s' ∧ seen ⊆ seen' ∧
    (∃ q, 0 <= q < pairs c ∧ q ∉ seen') ∧
    (post ≠ [] → at_pos m (pre ++ [v]) whole s') ∧
    (post = [] → (whole → q ∈ seen') ∧ ∀ m' whole', m' ≠ m ∨ whole → at_pos m' [] whole' s')).

Lemma wp_frame_step seen last s hdr m q pre v post len : rx seen last s → 0 <= q < pairs c →
  (pre ++ v :: post = group c q ∨ blen (pre ++ v :: post) <= 3) →
  at_pos m pre (pre ++ v :: post = group c q) s → v = u16 (len - D) → last = seq_ctrl hdr →
  wp (bind (byte_step hdr 1 len m) (λ _, bind (arr lsd_byte_cnt 1) (λ cnt,
      bind (if 4 <=? cnt
            then bind (store_step 1) (λ full, if full then ret true
                   else bind (arr_set lsd_byte_cnt set_lsd_byte_cnt 1 0) (λ _, ret false))
            else ret false)
        (λ full, if full then ret LSD_ONESHOT_ERR else check_data))))
    (after_frame seen hdr m q pre v post) s.
Proof.
  intros R Hq Hcodes (a & b & Hcnt & Hb & Hle & Hw) -> ->. set (v := u16 (len - D)) in *.
  set (whole := pre ++ v :: post = group c q) in *.
  pose proof (rx_num _ _ _ R) as Hnum. pose proof (rx_byte _ _ _ R) as Hbyte.
  apply wp_bind, (wp_byte_step_st _ _ _ _ a b); [done|done|done|done|]. cbn zeta. rewrite (rx_datum _ _ _ R). fold v.
  intros num row Hn Hnm Hrow Hsl. set (k := expected m s b) in *.
  assert (0 <= k < 4) as Hk by (unfold k, expected; case_if; lia).
  set (k' := if fits k v then k + 1 else 0). set (s1 := framed num row [a; k'] s).
  assert (rx seen (seq_ctrl hdr) s1) as R1.
  { destruct R as [R1 R2 R3 R4 R5 R6 R7]. constructor; try done. by apply got_framed. }
  assert (blen (pre ++ [v]) = blen pre + 1) as Hlen by (rewrite blen_app; done).
  assert (whole → k' = k + 1 ∧ slice row 4 (blen pre + 1) = pre ++ [v]) as Hwhole.
  { intros W. destruct (Hw W) as [Hkp Hpre]. unfold k'. rewrite Hkp in *. rewrite (group_fits q pre v post Hq) by done.
    split; [done|]. by rewrite Hsl, Hpre. }
  apply wp_bind, (wp_arr _ _ k'); [done|].
  assert (blen (pre ++ v :: post) = blen pre + blen post + 1) as Hlen4 by (rewrite blen_app, blen_cons; lia).
  assert (whole → blen pre + blen post = 3) as H4.
  { intros W. unfold whole in W. rewrite W in Hlen4. change (blen (group c q)) with 4 in Hlen4. lia. }
  pose proof (blen_nonneg pre). pose proof (blen_nonneg post).
  assert (k' <= k + 1) as Hk' by (unfold k'; case_if; lia).
  apply wp_bind. case_if.
  - assert (blen pre = 3 ∧ post = [] ∧ whole) as (Hpre & -> & W).
    { assert (whole) as W by (destruct Hcodes; [done|lia]). specialize (H4 W).
      split; [lia|]. split; [|done]. apply blen_0. lia. }
    destruct (Hwhole W) as [Hk1 Hrow1]. destruct (Hw W) as [Hkp _].
    apply wp_bind. apply (wp_store_got seen _ q); [apply R1|done| |done|].
    { change (lsd_byte s1) with row. rewrite Hpre in Hrow1. exact (eq_trans Hrow1 W). }
    intros s2 G2 E2. assert (k' = 4) as -> by lia.
    assert (lsd_byte_cnt s2 = [a; 4]) as Ec by (injection E2; done).
    apply wp_bind, wp_arr_set; [by rewrite Ec|]. rewrite Ec. change (splice [a; 4] 1 [0]) with [a; 0].
    apply wp_ret. set (s3 := set_lsd_byte_cnt [a; 0] s2).
    assert (rx ({[q]} ∪ seen) (seq_ctrl hdr) s3) as R3.
    { destruct (rx_framing _ _ _ _ _ R1 E2 G2). constructor; try done. by destruct G2. }
    eapply wp_mono; [by apply wp_check_rx|]. intros r s' [Hd|(-> & R' & E' & Hm)]; [by left|right].
    split; [done|]. exists ({[q]} ∪ seen). split; [done|]. split; [set_solver|]. split; [done|].
    split; [done|]. intros _. split; [set_solver|]. intros m' whole' _.
    assert (lsd_byte_cnt s' = [a; 0]) as Ec' by (by injection E').
    apply (at_start _ _ _ a 0); [done|done|]. unfold expected. case_if; lia.
  - apply wp_ret. eapply wp_mono; [by apply wp_check_rx|]. intros r s' [Hd|(-> & R' & E' & Hm)]; [by left|right].
    assert (lsd_byte_cnt s' = [a; k'] ∧ lsd_last_num s' = num ∧ lsd_byte s' = row) as (Ec' & En' & Er') by (by injection E').
    split; [done|]. exists seen. split; [done|]. split; [done|]. split; [done|].
    assert (0 <= k') as Hk0 by (unfold k'; case_if; lia). split.
    + intros _. exists a, k'. split; [done|]. split; [lia|]. unfold expected. rewrite En', bool_decide_true by done.
      rewrite Hlen. split; [lia|]. intros W. destruct (Hwhole W) as [Hk1 Hrow1]. destruct (Hw W) as [Hkp _].
      split; [lia|]. by rewrite Er'.
    + intros ->. change (blen []) with 0 in *.
      assert (¬ whole) as Hnw. { intros W. destruct (Hwhole W). destruct (Hw W). specialize (H4 W). lia. }
      split; [done|]. intros m' whole' [Hne|]; [|done]. apply (at_start _ _ _ a k'); [done|lia|].
      unfold expected. rewrite En', bool_decide_false by congruence. done.
Qed.

(** A frame that is heard. *)
Lemma wp_frame seen last s hdr len m q pre v post : rx seen last s → heard_frame hdr len = true →
  ieee80211_has_retry (frame_control hdr) && (last =? seq_ctrl hdr) = false →
  byte_at (ieee80211_get_DA hdr) 5 = Some m → v = frame_len hdr len - D → 0 <= q < pairs c →
  (pre ++ v :: post = group c q ∨ blen (pre ++ v :: post) <= 3) →
  at_pos m pre (pre ++ v :: post = group c q) s →
  wp (tls_lsd_recv hdr len) (after_frame seen hdr m q pre v post) s.
Proof.
  intros R Hh Hdup Hm Hv Hq Hcodes Hat. unfold heard_frame in Hh. do 2 apply andb_true_iff in Hh as [Hh ?]. zbool.
  apply wp_recv_sender; [done|]. rewrite (rx_state _ _ _ R). change (1 =? 0) with false. change (1 =? 1) with true. cbv iota.
  unfold recv_data. apply wp_bind, wp_gets. rewrite (rx_datum _ _ _ R).
  rewrite (proj2 (Z.leb_gt _ _)), (proj2 (Z.ltb_ge _ _)) by done. cbn [orb].
  apply wp_bind, wp_gets. rewrite (rx_mac _ _ _ R), bool_decide_true by done. cbn [negb].
  destruct (rx_seq _ _ _ R) as [Hs2 Hsl]. unfold duplicate. apply wp_bind, wp_bind, (wp_arr _ _ last); [done|].
  apply wp_ret. rewrite Hdup. apply wp_bind, wp_arr_set; [lia|].
  set (s1 := set_lsd_last_seq _ s).
  assert (rx seen (seq_ctrl hdr) s1) as R1.
  { destruct R as [R1 R2 R3 R4 R5 R6 R7]. constructor; try done.
    - change (lsd_last_seq s1) with (splice (lsd_last_seq s) 1 [seq_ctrl hdr]).
      split; [rewrite blen_splice1; lia|]. rewrite byte_at_splice by (change (blen [_]) with 1; lia). done.
    - by destruct R7. }
  apply wp_bind. eapply wp_of_opt; [exact Hm|].
  eapply (wp_frame_step seen _ _ _ m q pre v post); [exact R1|done|done|exact Hat| |done].
  subst v. symmetry. unfold u16, wrap. apply Z.mod_small. change (2 ^ 16) with 65536. lia.
Qed.

(** *** The guide *)

Definition rest (s : lsd) :=
  (lsd_last_num s, lsd_byte s, lsd_byte_cnt s, data s, used s, lsd_data_cnt s, lsd_param s, lsd_scan_bss s).
(** The lengths [hs] of the guide have been heard. *)
Record guiding (hs : list Z) (s : lsd) : Prop := {
  gd_state : lsd_state s = 0;
  gd_src : lsd_src_mac s = if blen hs =? 0 then replicate 6 0 else mac;
  gd_cnt : lsd_head_cnt s = [0; blen hs];
  gd_head : ∃ t, lsd_head s = [0; 0; 0; 0] ++ hs ++ t ∧ blen hs + blen t = 4;
  gd_sync : lsd_sync_cnt s = 0;
  gd_seq : blen (lsd_last_seq s) = 2;
}.
(** A length that follows those heard. *)
Definition follows (hs : list Z) (h : Z) : Prop := ∀ hs' h', hs = hs' ++ [h'] → h + 1 = h' ∨ h - 3 = h'.

Lemma wp_new_source_st hs s (Q : unit → lsd → Prop) : mac ≠ replicate 6 0 → guiding hs s → blen hs < 4 →
  (∀ s', guiding hs (set_lsd_src_mac (if blen hs =? 0 then replicate 6 0 else mac) s') → lsd_src_mac s' = mac →
     rest s' = rest s → Q tt s') →
  wp (new_source mac) Q s.
Proof.
  intros Hmac G Hlen HQ. pose proof G as [G1 G2 G3 (t & G4 & Gt) G5 G6]. unfold new_source. wp_steps. rewrite G2. destruct (Z.eqb_spec (blen hs) 0) as [E|E].
  - unfold is_zero_ether_addr. rewrite bool_decide_true by done. unfold reset_head. wp_steps.
    assert (hs = []) as -> by by apply blen_0. apply HQ; [|done|done]. constructor; try done.
    exists [0; 0; 0; 0]. done.
  - unfold is_zero_ether_addr. rewrite bool_decide_false, bool_decide_true by done. cbn [negb]. wp_steps.
    assert (lsd_src_mac s = mac) as Es by done.
    apply HQ; [|done|done]. replace (set_lsd_src_mac mac s) with s; [done|].
    rewrite <- Es. by destruct s.
Qed.

Lemma splice_at (a : list Z) x y t : splice (a ++ x :: t) (blen a) [y] = a ++ y :: t.
Proof.
  unfold splice, blen. rewrite Nat2Z.id, take_app_length. change (length [y]) with 1%nat.
  rewrite drop_app_ge by lia. replace (length a + 1 - length a)%nat with 1%nat by lia. done.
Qed.
Lemma wp_guide_step_st hs h s (Q : unit → lsd → Prop) t x : lsd_head s = [0; 0; 0; 0] ++ hs ++ x :: t →
  blen hs + blen t = 3 → lsd_head_cnt s = [0; blen hs] → follows hs h →
  (∀ b, Q tt (set_lsd_temp_lock b (set_lsd_head ([0; 0; 0; 0] ++ hs ++ h :: t) s))) →
  wp (guide_step 1 h) Q s.
Proof.
  intros Hh Hlen Hcnt Hf HQ. pose proof (blen_nonneg hs). pose proof (blen_nonneg t). unfold guide_step.
  apply wp_bind, (wp_arr _ _ (blen hs)); [by rewrite Hcnt|]. rewrite at2_1 by lia.
  assert (blen (lsd_head s) = 8) as H8 by (rewrite Hh, !blen_app, (blen_cons x t); change (blen [0; 0; 0; 0]) with 4; lia).
  apply wp_bind, wp_arr_set; [lia|].
  assert (splice (lsd_head s) (4 + blen hs) [h] = [0; 0; 0; 0] ++ hs ++ h :: t) as Hsp.
  { rewrite Hh, !app_assoc. replace (4 + blen hs) with (blen ([0; 0; 0; 0] ++ hs)) by (rewrite blen_app; reflexivity).
    apply splice_at. }
  rewrite Hsp. case_if.
  2:{ apply wp_ret. pose proof (HQ (lsd_temp_lock s)) as H1. by destruct s. }
  destruct hs as [|h' hs' _] using rev_ind; [done|]. rewrite blen_app in *. change (blen [h']) with 1 in *.
  pose proof (blen_nonneg hs'). rewrite at2_1 by lia. rewrite at2_1 by lia.
  apply wp_bind, (wp_arr _ _ h).
  { cbn [lsd_head set_lsd_head]. rewrite app_assoc. apply byte_at_mid. rewrite !blen_app. done. }
  apply wp_bind, (wp_arr _ _ h').
  { cbn [lsd_head set_lsd_head]. rewrite <- (app_assoc hs'), app_assoc. apply byte_at_mid. rewrite !blen_app.
    change (blen [0; 0; 0; 0]) with 4. lia. }
  replace (negb (h + 1 =? h') && negb (h - 3 =? h'))%bool with false.
  2:{ destruct (Hf hs' h'); [done|..]; lia. }
  apply wp_modify, HQ.
Qed.

Lemma blen_snoc l (x : Z) : blen (l ++ [x]) = blen l + 1.
Proof. by rewrite blen_app. Qed.

(** A frame of the guide that is not the last, and the last. *)
Definition guided (hs : list Z) (h : Z) (hdr : ieee80211_hdr) (s0 : lsd) (r : Z) (s' : lsd) : Prop :=
  r ≠ LSD_ONESHOT_COMPLETE ∧ r ≠ LSD_ONESHOT_ERR ∧ rest s' = rest s0 ∧
  (blen hs < 3 → guiding (hs ++ [h]) s') ∧
  (∀ a b c, hs = [a; b; c] → lsd_state s' = 1 ∧
     lsd_data_datum s' = u16 (Z.min (Z.min (Z.min a b) c) h - LSD_GUIDE_DATUM + LSD_DATA_OFFSET) ∧
     lsd_src_mac s' = mac ∧ blen (lsd_last_seq s') = 2 ∧ byte_at (lsd_last_seq s') 1 = Some (seq_ctrl hdr)).
(** The end of [recv_guide]. *)
Definition guide_tail (tods : Z) : M lsd Z :=
  bind (arr lsd_head_cnt tods) (λ cnt,
  bind (if 4 <=? cnt then
          bind (modify (λ s, set_lsd_sync_cnt (u8 (lsd_sync_cnt s + 1)) s)) (λ _,
          arr_set lsd_head_cnt set_lsd_head_cnt tods 0)
        else ret tt) (λ _,
  bind (gets lsd_sync_cnt) (λ sync,
  if 1 <=? sync then lock tods
  else bind (gets lsd_temp_lock) (λ temp,
       if temp =? 1 then ret LSD_ONESHOT_CHAN_TEMP_LOCKED else ret LSD_ONESHOT_CONTINUE)))).
Lemma wp_lock_st a b e d s (Q : Z → lsd → Prop) : lsd_head s = [0; 0; 0; 0; a; b; e; d] →
  (∀ r bw, r = LSD_ONESHOT_CHAN_LOCKED_BW20 ∨ r = LSD_ONESHOT_CHAN_LOCKED_BW40 →
     Q r (set_lsd_head_bw20 bw (set_lsd_data_datum
       (u16 (Z.min (Z.min (Z.min a b) e) d - LSD_GUIDE_DATUM + LSD_DATA_OFFSET)) (set_lsd_state 1 s)))) →
  wp (lock 1) Q s.
Proof.
  intros Hh HQ. unfold lock. rewrite !at2_1 by lia.
  do 4 (apply wp_bind; eapply wp_arr; [by rewrite Hh|]). wp_steps. case_if; wp_steps; [apply HQ; by left|].
  pose proof (HQ LSD_ONESHOT_CHAN_LOCKED_BW40 (lsd_head_bw20 s) (or_intror eq_refl)) as H. exact H.
Qed.
Lemma wp_guide_tail hs h hdr sq s0 s : lsd_state s = 0 → lsd_head_cnt s = [0; blen hs + 1] →
  (∃ t, lsd_head s = [0; 0; 0; 0] ++ (hs ++ [h]) ++ t ∧ blen (hs ++ [h]) + blen t = 4) → lsd_sync_cnt s = 0 →
  lsd_src_mac s = mac → lsd_last_seq s = sq → blen sq = 2 → byte_at sq 1 = Some (seq_ctrl hdr) → rest s = rest s0 →
  wp (guide_tail 1) (guided hs h hdr s0) s.
Proof.
  intros H1 H2 (t & H3 & Ht) H4 H5 H6 Hsq2 Hsq H7. pose proof (blen_nonneg hs). pose proof (blen_nonneg t).
  rewrite blen_snoc in Ht. unfold guide_tail. apply wp_bind, (wp_arr _ _ (blen hs + 1)); [by rewrite H2|].
  apply wp_bind. case_if.
  - assert (t = []) as -> by (apply blen_0; lia). change (blen []) with 0 in Ht.
    apply wp_bind, wp_modify, wp_arr_set; [cbn; by rewrite H2|]. cbn [lsd_head_cnt set_lsd_sync_cnt]. rewrite H2, H4.
    apply wp_bind, wp_gets. change (1 <=? _) with true. cbv iota.
    destruct hs as [|a [|b [|c' [|? ?]]]]; rewrite ?blen_cons in Ht; change (blen []) with 0 in Ht; try lia.
    2:{ pose proof (blen_nonneg l). lia. }
    apply (wp_lock_st a b c' h); [done|]. intros r bw Hr. split; [by destruct Hr as [->| ->]|].
    split; [by destruct Hr as [->| ->]|]. split; [done|]. split; [change (blen _) with 3; lia|].
    intros ? ? ? [= <- <- <-]. cbn. by rewrite H6.
  - apply wp_ret, wp_bind, wp_gets. rewrite H4. change (1 <=? 0) with false. cbv iota. apply wp_bind, wp_gets.
    assert (∀ r, r = LSD_ONESHOT_CHAN_TEMP_LOCKED ∨ r = LSD_ONESHOT_CONTINUE → guided hs h hdr s0 r s) as Hg.
    { intros r Hr. split; [by destruct Hr as [->| ->]|]. split; [by destruct Hr as [->| ->]|]. split; [done|]. split.
      - intros _. constructor; rewrite ?blen_snoc; [done| |done| |done|by rewrite H6].
        + rewrite H5. case_if; [lia|done].
        + exists t. split; [done|]. lia.
      - intros a b c' ->. change (blen [a; b; c']) with 3 in *. lia. }
    case_if; apply wp_ret, Hg; auto.
Qed.
Lemma wp_guide_frame hs h hdr s : mac ≠ replicate 6 0 → guiding hs s → blen hs < 4 → follows hs h → 60 <= h <= 86 →
  ieee80211_has_retry (frame_control hdr) = false → wp (recv_guide hdr 1 h mac) (guided hs h hdr s) s.
Proof.
  intros Hmac G Hlen Hf Hh Hr. unfold recv_guide. rewrite (proj2 (Z.ltb_ge h 60)), (proj2 (Z.ltb_ge 86 h)) by lia. cbn [orb].
  apply wp_bind, (wp_new_source_st hs); [done|done|done|]. intros s1 [G1 _ G3 (t & G4 & Gt) G5 G6] Hsrc Hrest. cbn in G1, G3, G4, G5, G6.
  unfold duplicate. apply wp_bind, wp_bind, wp_arr_in; [lia|]. intros l _. rewrite Hr. cbn [andb]. apply wp_ret.
  apply wp_bind, wp_arr_set; [lia|]. destruct t as [|x t]; [change (blen []) with 0 in Gt; lia|]. rewrite blen_cons in Gt.
  set (sq := splice (lsd_last_seq s1) 1 [seq_ctrl hdr]).
  assert (blen sq = 2 ∧ byte_at sq 1 = Some (seq_ctrl hdr)) as [Hsq2 Hsq].
  { unfold sq. split; [rewrite blen_splice1; lia|]. rewrite byte_at_splice by (change (blen [_]) with 1; lia). done. }
  apply wp_bind, (wp_guide_step_st hs _ _ _ t x); [exact G4|lia|exact G3|done|]. intros tl.
  set (hd := [0; 0; 0; 0] ++ hs ++ h :: t).
  apply wp_bind, (wp_arr _ _ (blen hs)); [cbn; by rewrite G3|]. pose proof (blen_nonneg hs).
  rewrite u8_id by (unfold is_u8; lia). apply wp_bind, wp_arr_set; [cbn; by rewrite G3|]. cbn [lsd_head_cnt set_lsd_temp_lock set_lsd_head set_lsd_last_seq].
  rewrite G3. change (splice [0; blen hs] 1 [blen hs + 1]) with [0; blen hs + 1].
  set (s2 := set_lsd_head_cnt _ _).
  change (wp (bind (if Z.land (duration_id hdr) 1 =? 0 then modify (λ s, set_lsd_head_bw20 (u8 (lsd_head_bw20 s + 1)) s)
    else ret tt) (λ _, guide_tail 1)) (guided hs h hdr s) s2).
  apply wp_bind. case_if; [apply wp_modify|apply wp_ret];
    (apply (wp_guide_tail _ _ _ sq); try done; exists t; cbn; rewrite <- app_assoc; split; [done|rewrite blen_snoc; lia]).
Qed.

(** *** A run *)

(** What is heard of a transmission: pieces of groups of four, each with the
    last byte of its address and the number of its pair.  Of a piece that is not
    whole at most three frames were heard, whatever they were. *)
Definition piece : Type := Z * Z * list Z.
Definition whole (p : piece) : Prop := let '(m, q, l) := p in l = group c q.
Definition piece_ok (p : piece) : Prop :=
  let '(m, q, l) := p in 0 <= q < pairs c ∧ l ≠ [] ∧ (l = group c q ∨ blen l <= 3).
(** A piece that is not whole is followed by one with another address. *)
Fixpoint pieces_ok (l : list piece) : Prop :=
  match l with
  | [] => True
  | p :: l' => piece_ok p ∧ (match l' with [] => True | p' :: _ => p'.1.1 ≠ p.1.1 ∨ whole p end) ∧ pieces_ok l'
  end.
Definition lengths (l : list piece) : list (Z * Z) := l ≫= λ p, pair p.1.1 <$> p.2.
Definition hdrs_ok (frames : list (ieee80211_hdr * Z)) : Prop := Forall (λ f, blen (ieee80211_get_DA f.1) = 6) frames.

Lemma run_pieces frames : ∀ last seen s m q pre l todo, rx seen last s → hdrs_ok frames →
  l ≠ [] → 0 <= q < pairs c → (pre ++ l = group c q ∨ blen (pre ++ l) <= 3) →
  at_pos m pre (pre ++ l = group c q) s →
  (match todo with [] => True | p' :: _ => p'.1.1 ≠ m ∨ pre ++ l = group c q end) → pieces_ok todo →
  heard last frames = (pair m <$> l) ++ lengths todo →
  (∀ q', 0 <= q' < pairs c → q' ∈ seen ∨ (pre ++ l = group c q ∧ q' = q) ∨ ∃ m', (m', q', group c q') ∈ todo) →
  wp (lsd_run frames) done_with s.
Proof.
  induction frames as [|[hdr len] frames IH]; intros last seen s m q pre l todo R Hf Hl Hq Hcodes Hat Hnext Htodo Hh Hcov.
  { destruct l; [done|discriminate Hh]. }
  apply list.Forall_cons in Hf as [H6 Hf]. cbn [heard] in Hh. cbn [lsd_run].
  destruct (heard_frame hdr len) eqn:Eh; cbn [andb] in Hh.
  2:{ eapply wp_run; [apply recv_unheard; [apply R..|done]|]. cbn. by eapply IH. }
  destruct (ieee80211_has_retry (frame_control hdr) && (last =? seq_ctrl hdr))%bool eqn:Ed; cbn [negb] in Hh.
  { eapply wp_run; [by eapply recv_again|]. cbn. by eapply IH. }
  destruct l as [|v post]; [done|]. destruct (byte_at_is_Some (ieee80211_get_DA hdr) 5) as [m5 Hm5].
  { cbn in H6. lia. }
  rewrite Hm5 in Hh. cbn in Hh. injection Hh as -> Hv Hh.
  apply wp_bind. eapply wp_mono; [eapply (wp_frame seen last s hdr len m q pre v post); eauto|].
  intros r s' [[-> Hd]|(-> & seen' & R' & Hsub & (q0 & Hq0 & Hmiss) & Hp & Hend)]; [by split|].
  cbn. destruct post as [|v2 post].
  - destruct (Hend eq_refl) as [Hin Hstart]. destruct todo as [|[[m' q'] l'] todo].
    + destruct Hmiss. destruct (Hcov q0 Hq0) as [?|[[W ->]|[? Hin']]]; [set_solver|by apply Hin|by apply not_elem_of_nil in Hin'].
    + destruct Htodo as ((Hq' & Hl' & Hc') & Hn' & Htodo). eapply (IH _ seen' s' m' q' [] l' todo); try done.
      * apply Hstart. done.
      * intros q1 Hq1. destruct (Hcov q1 Hq1) as [?|[[W ->]|[m1 Hin1]]]; [left; set_solver|left; by apply Hin|].
        apply elem_of_cons in Hin1 as [[= -> -> <-]|]; [right; left; done|]. right; right. by exists m1.
  - eapply (IH _ seen' s' m q (pre ++ [v]) (v2 :: post) todo); rewrite <- ?app_assoc; try done.
    + by apply Hp.
    + intros q1 Hq1. destruct (Hcov q1 Hq1) as [?|[[W ->]|?]]; [left; set_solver|right; by left|auto].
Qed.
End channel.

(** *** The whole *)

Lemma got_init v : got ∅ (mk_lsd scan [0; 0] (replicate 8 0) (replicate 8 0) 0 0 [0; 0] 0 [0; 0] 0 (replicate 6 0) 0
    [0; 0] 0 (replicate 256 0) (replicate 256 0) zero_param v).
Proof.
  constructor; cbn [data used lsd_data_cnt lsd_param lsd_scan_bss]; try done.
  - split; [done|]. apply bytes_ok_b. vm_compute. reflexivity.
  - intros i Hi _. rewrite byte_at_lookup by lia. apply lookup_replicate. split; [done|lia].
Qed.

(** The four lengths of the guide may start anywhere in their cycle. *)
Definition guide_lengths (x : Z) : list (list Z) :=
  [[x + 3; x + 2; x + 1; x]; [x + 2; x + 1; x; x + 3]; [x + 1; x; x + 3; x + 2]; [x; x + 3; x + 2; x + 1]].
Definition guides_ok (mac : list Z) (x : Z) (guides : list (ieee80211_hdr * Z)) : Prop :=
  Forall (λ f, from_sender mac f.1 = true ∧ ieee80211_has_retry (frame_control f.1) = false) guides ∧
  ((λ f, frame_len f.1 f.2) <$> guides) ∈ guide_lengths x.
Definition last_guide (guides : list (ieee80211_hdr * Z)) : Z :=
  match guides with [_; _; _; (hdr, _)] => seq_ctrl hdr | _ => 0 end.

(** Rest after the guide. *)
Lemma rx_of_guide mac D s s' sq : got ∅ s → rest s' = rest s → blen (lsd_last_num s) = 2 → blen (lsd_byte s) = 8 →
  lsd_state s' = 1 → lsd_data_datum s' = D → lsd_src_mac s' = mac → blen (lsd_last_seq s') = 2 →
  byte_at (lsd_last_seq s') 1 = Some sq → rx mac D ∅ sq s'.
Proof.
  intros [] [= E1 E2 E3 E4 E5 E6 E7 E8] Hn Hb H1 H2 H3 H4 H5. constructor; [done|done|done|done|by rewrite E1|by rewrite E2|].
  constructor; rewrite ?E4, ?E5, ?E6, ?E7, ?E8; done.
Qed.
Lemma run_guide_step mac hs hdr len frames s (Q : Z → lsd → Prop) : mac ≠ replicate 6 0 → guiding mac hs s → blen hs < 4 →
  follows hs (frame_len hdr len) → 60 <= frame_len hdr len <= 86 →
  from_sender mac hdr = true → ieee80211_has_retry (frame_control hdr) = false →
  (∀ r s', guided mac hs (frame_len hdr len) hdr s r s' → wp (lsd_run frames) Q s') →
  wp (lsd_run ((hdr, len) :: frames)) Q s.
Proof.
  intros Hmac G Hlen Hf Hr Hs Hretry HQ. cbn [lsd_run]. apply wp_bind, (wp_recv_sender mac); [done|].
  rewrite (gd_state _ _ _ G), Z.eqb_refl. eapply wp_mono; [by apply (wp_guide_frame mac hs)|].
  intros r s' Hg. pose proof Hg as (H4 & H5 & _).
  rewrite (proj2 (Z.eqb_neq _ _) H4), (proj2 (Z.eqb_neq _ _) H5). by eapply HQ.
Qed.
Lemma run_guides mac x guides frames s (Q : Z → lsd → Prop) : mac ≠ replicate 6 0 → 60 <= x <= 83 →
  guides_ok mac x guides → guiding mac [] s →
  (∀ s', rest s' = rest s → lsd_state s' = 1 → lsd_data_datum s' = x + 19 → lsd_src_mac s' = mac →
     blen (lsd_last_seq s') = 2 → byte_at (lsd_last_seq s') 1 = Some (last_guide guides) → wp (lsd_run frames) Q s') →
  wp (lsd_run (guides ++ frames)) Q s.
Proof.
  intros Hmac Hx [Hall Hlens] G HQ.
  destruct guides as [|[h1 l1] [|[h2 l2] [|[h3 l3] [|[h4 l4] [|]]]]]; cbn [fmap list_fmap fst snd] in Hlens;
    try (exfalso; unfold guide_lengths in Hlens; rewrite ?elem_of_cons in Hlens; set_solver).
  repeat match goal with H : Forall _ (_ :: _) |- _ => apply list.Forall_cons in H as [[? ?] H] end. cbn [fst] in *.
  set (a := frame_len h1 l1) in *. set (b := frame_len h2 l2) in *. set (d := frame_len h3 l3) in *.
  set (e := frame_len h4 l4) in *.
  assert (60 <= a <= 86 ∧ 60 <= b <= 86 ∧ 60 <= d <= 86 ∧ 60 <= e <= 86 ∧ (b + 1 = a ∨ b - 3 = a) ∧
    (d + 1 = b ∨ d - 3 = b) ∧ (e + 1 = d ∨ e - 3 = d) ∧ Z.min (Z.min (Z.min a b) d) e = x) as (Ra & Rb & Rd & Re & F2 & F3 & F4 & Hmin).
  { unfold guide_lengths in Hlens. rewrite !elem_of_cons, elem_of_nil in Hlens.
    destruct Hlens as [[= -> -> -> ->]|[[= -> -> -> ->]|[[= -> -> -> ->]|[[= -> -> -> ->]|[]]]]]; lia. }
  cbn [app].
  eapply (run_guide_step mac []); [done|done|done| |done|done|done|]. { intros [|? ?] ? Hl; discriminate Hl. }
  intros r1 s1 (_ & _ & E1 & G1 & _). specialize (G1 eq_refl).
  eapply (run_guide_step mac [a]); [done|exact G1|done| |done|done|done|].
  { intros hs' h' Hl. change [a] with ([] ++ [a]) in Hl. by apply app_inj_tail in Hl as [_ <-]. }
  intros r2 s2 (_ & _ & E2 & G2 & _). specialize (G2 eq_refl).
  eapply (run_guide_step mac [a; b]); [done|exact G2|done| |done|done|done|].
  { intros hs' h' Hl. change [a; b] with ([a] ++ [b]) in Hl. by apply app_inj_tail in Hl as [_ <-]. }
  intros r3 s3 (_ & _ & E3 & G3 & _). specialize (G3 eq_refl).
  eapply (run_guide_step mac [a; b; d]); [done|exact G3|done| |done|done|done|].
  { intros hs' h' Hl. change [a; b; d] with ([a; b] ++ [d]) in Hl. by apply app_inj_tail in Hl as [_ <-]. }
  intros r4 s4 (_ & _ & E4 & _ & G4). destruct (G4 _ _ _ eq_refl) as (L1 & L2 & L3 & L4 & L5).
  apply HQ; [congruence|done| |done|done|done]. rewrite L2. fold e. rewrite Hmin.
  unfold LSD_GUIDE_DATUM, LSD_DATA_OFFSET, u16, wrap. change (2 ^ 16) with 65536. rewrite Z.mod_small; lia.
Qed.
End decode.

(** C9: One-shot configuration works: after [tls_lsd_init], four guide lengths and
    then the lengths of the groups, of which some may be lost, repeated or
    received in part, in any order and among the frames of others, the
    machine ends with the configuration the sender meant, once each group has
    been received in full. *)
Theorem lsd_decodes (c : config) (scan : option (list tls_bss_info_t)) (mac : list Z) (x : Z) (s0 : lsd)
    (guides frames : list (ieee80211_hdr * Z)) (pieces : list piece) :
  config_ok c → (∀ l, scan = Some l → Forall bss_ok l) → scan_agrees c scan → mac ≠ replicate 6 0 →
  60 <= x <= 83 → guides_ok mac x guides → hdrs_ok frames → pieces_ok c pieces →
  heard mac (x + 19) (last_guide guides) frames = lengths pieces →
  (∀ q, 0 <= q < pairs c → ∃ m, (m, q, group c q) ∈ pieces) →
  wp (bind (tls_lsd_init scan) (λ _, lsd_run (guides ++ frames))) (done_with c) s0.
Proof.
  intros Hc Hscan Hagree Hmac Hx Hg Hf Hp Hheard Hcov. unfold tls_lsd_init. apply wp_bind, wp_modify.
  set (s1 := mk_lsd _ _ _ _ _ _ _ _ _ _ _ _ _ _ _ _ _ _). pose proof (got_init c scan (lsd_crc_value s0)) as G.
  fold s1 in G. apply (run_guides c Hc scan Hscan Hagree mac x); [done|done|done| |].
  { constructor; try done. by exists [0; 0; 0; 0]. }
  intros s2 E L1 L2 L3 L4 L5. pose proof (pairs_range c Hc) as Hpr.
  assert (rx c scan mac (x + 19) ∅ (last_guide guides) s2) as R by (by eapply rx_of_guide).
  destruct pieces as [|[[m q] l] todo].
  { destruct (Hcov 0) as [m Hin]; [lia|]. by apply not_elem_of_nil in Hin. }
  destruct Hp as ((Hq & Hl & Hcodes) & Hnext & Htodo).
  eapply (run_pieces c Hc scan Hscan Hagree mac (x + 19) ltac:(lia) frames _ ∅ s2 m q [] l todo); try done.
  - injection E as _ _ E3 _ _ _ _ _. apply (at_start _ _ _ 0 0); [done|lia|]. unfold expected. case_if; lia.
  - intros q' Hq'. destruct (Hcov q' Hq') as [m' Hin]. right. apply elem_of_cons in Hin as [[= -> -> <-]|]; [by left|right; eauto].
Qed.

(** *** A number of a pair out of range *)

Lemma bind_none {A B} (m : M lsd A) (k : A → M lsd B) s : wp m (λ a s', k a s' = None) s → bind m k s = None.
Proof. unfold wp, bind. by destruct (m s) as [[a s']|]. Qed.
Lemma arr_none (f : lsd → list Z) i s : blen (f s) <= i → arr f i s = None.
Proof. intros Hi. unfold arr, bind, gets, of_opt. by rewrite byte_at_None. Qed.
Lemma none_bind {A B} (m : M lsd A) (k : A → M lsd B) s : m s = None → bind m k s = None.
Proof. intros E. unfold bind. by rewrite E. Qed.
Lemma store_step_none s w : blen (lsd_byte s) = 8 → blen (used s) = 256 → byte_at (lsd_byte s) 7 = Some w →
  128 <= Z.land w 0xff → store_step 1 s = None.
Proof.
  intros Hb Hu Hw Hseq. unfold store_step. rewrite !at2_1 by lia.
  do 3 (apply bind_none, wp_arr_in; [lia|]; intros ? _). apply bind_none, (wp_arr _ _ w); [done|].
  apply none_bind, arr_none. rewrite Z.shiftl_mul_pow2 by lia. lia.
Qed.

(** The number of a pair is not checked against the tables: a fourth length of
    a group with a low byte of 128 or more, which any sender can transmit,
    reads beyond [used]. *)
Theorem lsd_seq_overrun (s : lsd) (hdr : ieee80211_hdr) (len : Z) (m a : Z) :
  lsd_ok s → lsd_state s = 1 → byte_at (ieee80211_get_DA hdr) 5 = Some m → 0 <= lsd_data_datum s →
  heard_frame (lsd_src_mac s) (lsd_data_datum s) hdr len = true →
  ieee80211_has_retry (frame_control hdr) = false →
  lsd_byte_cnt s = [a; 3] → byte_at (lsd_last_num s) 1 = Some m →
  Z.land (frame_len hdr len - lsd_data_datum s) 0x300 = 0x200 →
  128 <= Z.land (frame_len hdr len - lsd_data_datum s) 0xff →
  tls_lsd_recv hdr len s = None.
Proof.
  intros Hs Hst Hm HD Hh Hr Hcnt Hnum Hfit Hseq.
  unfold heard_frame in Hh. do 2 apply andb_true_iff in Hh as [Hh ?]. zbool.
  rewrite (recv_sender_eq _ _ _ _ Hh), Hst. change (1 =? 0) with false. change (1 =? 1) with true. cbv iota.
  unfold recv_data. apply bind_none, wp_gets.
  rewrite (proj2 (Z.leb_gt _ _)), (proj2 (Z.ltb_ge _ _)) by done. cbn [orb].
  apply bind_none, wp_gets. rewrite bool_decide_true by done. cbn [negb].
  apply bind_none, wp_bind, wp_arr_in; [rewrite (ok_seq _ Hs); lia|]. intros l _. rewrite Hr. cbn [andb]. apply wp_ret.
  apply bind_none, wp_arr_set; [rewrite (ok_seq _ Hs); lia|]. set (s1 := set_lsd_last_seq _ s).
  apply bind_none. eapply wp_of_opt; [exact Hm|].
  assert (u16 (frame_len hdr len - lsd_data_datum s) = frame_len hdr len - lsd_data_datum s) as Hu.
  { unfold u16, wrap. apply Z.mod_small. change (2 ^ 16) with 65536. lia. }
  apply bind_none, (wp_byte_step_st _ _ _ _ a 3); [apply Hs|apply Hs|done|lia|].
  change (lsd_data_datum s1) with (lsd_data_datum s). cbn zeta. rewrite Hu.
  assert (expected m s1 3 = 3) as He by (unfold expected; by rewrite bool_decide_true).
  rewrite He, fits_intro by (do 3 right; done). intros num row _ _ Hrow Hsl.
  apply bind_none, (wp_arr _ _ 4); [done|]. change (4 <=? 4) with true. cbv iota.
  do 2 apply none_bind. apply (store_step_none _ (frame_len hdr len - lsd_data_datum s)); [done|apply Hs| |done].
  change (lsd_byte (framed _ _ _ _)) with row.
  assert (byte_at (slice row 4 4) 3 = byte_at row 7) as <- by (by rewrite byte_at_slice by lia).
  change 4 with (3 + 1) at 2. rewrite Hsl. apply byte_at_mid.
  rewrite blen_slice; [done|lia|lia|]. change (lsd_byte s1) with (lsd_byte s). rewrite (ok_byte _ Hs). lia.
Qed.

(** *** Instances *)

Definition demo_mac : list Z := [2; 0; 0; 0; 0; 7].
Definition demo_hdr (m seq : Z) : ieee80211_hdr :=
  mk_hdr 0x0108 0 [0; 1; 2; 3; 4; 5] demo_mac [1; 0; 0x5e; 0; 0; m] seq (replicate 6 0).
Definition demo_config : config := mk_config [108; 115; 100] [49; 50; 51] 5 [7].
Definition demo_scan : list tls_bss_info_t := [mk_bss [1; 2; 3; 4; 5; 6] 2 ([104; 105] ++ replicate 30 0)].
Definition demo_guides : list (ieee80211_hdr * Z) :=
  [(demo_hdr 0 16, 62); (demo_hdr 0 32, 61); (demo_hdr 0 48, 60); (demo_hdr 0 64, 63)].
(** The pairs in another order, one of them first received in part. *)
Definition demo_pieces : list piece :=
  let g := group demo_config in
  [(7, 6, g 6); (4, 3, drop 1 (g 3)); (1, 0, g 0); (6, 5, g 5); (5, 4, g 4); (4, 3, g 3); (3, 2, g 2); (2, 1, g 1)].
(** Each frame is sent twice, and another station speaks between. *)
Definition demo_frames : list (ieee80211_hdr * Z) :=
  imap (λ i p, (i, p)) (lengths demo_pieces) ≫= λ '(i, (m, v)),
    let seq := 80 + 16 * Z.of_nat i in
    [(demo_hdr m seq, v + 79);
     (mk_hdr 0x0908 0 [0; 1; 2; 3; 4; 5] demo_mac [1; 0; 0x5e; 0; 0; m] seq (replicate 6 0), v + 79);
     (mk_hdr 0x0108 0 [0; 1; 2; 3; 4; 5] [2; 0; 0; 0; 0; 9] [1; 0; 0x5e; 0; 0; m] 0 (replicate 6 0), 100)].
Definition demo_lsd (cnt : list Z) : lsd :=
  mk_lsd None [0; 1] (replicate 8 0) (replicate 8 0) 1 79 [0; 0] 0 cnt 1 demo_mac 0
    [0; 0] 0 (replicate 256 0) (replicate 256 0) zero_param 0.
Lemma demo_lsd_ok b : 0 <= b < 4 → lsd_ok (demo_lsd [0; b]).
Proof.
  intros Hb. constructor; cbn [lsd_scan_bss lsd_last_num lsd_head lsd_byte lsd_head_cnt lsd_byte_cnt lsd_last_seq data used
    lsd_data_cnt lsd_param demo_lsd]; try done.
  - by exists 0, 0.
  - by exists 0, b.
  - split; [done|]. apply bytes_ok_b. vm_compute. reflexivity.
Qed.

Lemma lsd_safe_witness :
  wp (tls_lsd_init (Some demo_scan)) (λ _ s', lsd_ok s') (demo_lsd [0; 0]) ∧
  wp (tls_lsd_recv (demo_hdr 1 16) 718) keeps_ok (demo_lsd [0; 3]).
Proof.
  split.
  - apply (lsd_safe (demo_lsd [0; 0])). intros l [= <-]. constructor; [|constructor].
    split; [reflexivity|]. split; [reflexivity|]. split; [cbn; lia|].
    split; apply bytes_ok_b; vm_compute; reflexivity.
  - apply (lsd_safe (demo_lsd [0; 3])); [apply demo_lsd_ok; lia|by split|].
    intros x _ _. vm_compute. reflexivity.
Defined.
Lemma lsd_decodes_witness :
  wp (bind (tls_lsd_init (Some demo_scan)) (λ _, lsd_run (demo_guides ++ demo_frames))) (done_with demo_config)
    (demo_lsd [0; 2]).
Proof.
  apply (lsd_decodes demo_config (Some demo_scan) demo_mac 60 (demo_lsd [0; 2]) demo_guides demo_frames demo_pieces).
  - constructor; try done; (split; [apply bytes_ok_b; vm_compute; reflexivity|vm_compute; discriminate]).
  - intros l [= <-]. constructor; [|constructor].
    split; [reflexivity|]. split; [reflexivity|]. split; [cbn; lia|].
    split; apply bytes_ok_b; vm_compute; reflexivity.
  - intros l b [= <-] Hb Hlen. apply elem_of_cons in Hb as [->|Hb]; [discriminate Hlen|by apply not_elem_of_nil in Hb].
  - discriminate.
  - lia.
  - split; [repeat (constructor; [by split|]); constructor|]. right; left.
  - unfold hdrs_ok. apply (bool_decide_unpack _). vm_compute. exact I.
  - assert (pairs demo_config = 7) as Hp by reflexivity.
    unfold demo_pieces, pieces_ok, piece_ok, whole. rewrite Hp. cbn [fst].
    repeat match goal with |- _ ∧ _ => split end; try lia; try discriminate; try exact I;
      first [left; reflexivity|left; discriminate|right; vm_compute; discriminate].
  - vm_compute. reflexivity.
  - change (pairs demo_config) with 7. intros q Hq. unfold demo_pieces.
    assert (q = 0 ∨ q = 1 ∨ q = 2 ∨ q = 3 ∨ q = 4 ∨ q = 5 ∨ q = 6) as Hcase by lia.
    destruct Hcase as [->|[->|[->|[->|[->|[->| ->]]]]]];
      [exists 1|exists 2|exists 3|exists 4|exists 5|exists 6|exists 7]; repeat (first [left|right]).
Defined.

(** A third group after three frames of which the fourth names pair 200. *)
Lemma lsd_seq_overrun_witness : tls_lsd_recv (demo_hdr 1 16) (79 + 0x200 + 200) (demo_lsd [0; 3]) = None.
Proof.
  apply (lsd_seq_overrun (demo_lsd [0; 3]) (demo_hdr 1 16) (79 + 0x200 + 200) 1 0);
    [apply demo_lsd_ok; lia|first [reflexivity|vm_compute; reflexivity|vm_compute; discriminate]..].
Defined.

