(* ===== verification/Uart.v ===== *)
(** * [src/Platform/Drivers/uart/wm_uart.c]: the serial ports

    The three ports with their receive rings and transmit queues, the interrupt
    handlers, and the calls of a user.  The registers of a port are the class
    [UartRegs] with the laws [UartRegsOk] of its two FIFOs; what the driver
    calls outside (the callbacks registered with it, DMA, the interrupt
    controller) is the class [UartEnv]. *)
From S2P Require Import Prelude.

(** ** Constants of [wm_uart.h], [wm_regs.h], [wm_type_def.h] *)

Definition WM_SUCCESS := 0.
Definition WM_FAILED := -1.
Definition TLS_UART_RX_BUF_SIZE := 4096.
Definition TLS_UART_TX_BUF_SIZE := 4096.
Definition RX_CACHE_LIMIT := 128.
Definition TLS_UART_0 := 0.
Definition TLS_UART_1 := 1.
Definition TLS_UART_2 := 2.
Definition UART_BAUDRATE_B115200 := 115200.
Definition TLS_UART_PMODE_DISABLED := 0.
Definition TLS_UART_PMODE_ODD := 1.
Definition TLS_UART_PMODE_EVEN := 2.
Definition TLS_UART_CHSIZE_5BIT := Z.shiftl 0x00 0.
Definition TLS_UART_CHSIZE_6BIT := Z.shiftl 0x01 0.
Definition TLS_UART_CHSIZE_7BIT := Z.shiftl 0x02 0.
Definition TLS_UART_CHSIZE_8BIT := Z.shiftl 0x03 0.
Definition TLS_UART_FLOW_CTRL_NONE := 0.
Definition TLS_UART_FLOW_CTRL_HARDWARE := 1.
Definition TLS_UART_RX_DISABLE := 0.
Definition TLS_UART_RX_ENABLE := 1.
Definition TLS_UART_ONE_STOPBITS := 0.
Definition TLS_UART_TWO_STOPBITS := 1.
Definition TLS_UART_STATUS_OK := 0.
Definition TLS_UART_STATUS_ERROR := 1.
Definition ULCON_WL5 := 0x00.
Definition ULCON_WL6 := 0x01.
Definition ULCON_WL7 := 0x02.
Definition ULCON_WL8 := 0x03.
Definition ULCON_WL_MASK := 0x03.
Definition ULCON_STOP_2 := 0x04.
Definition ULCON_PMD_MASK := 0x18.
Definition ULCON_PMD_EN := 0x08.
Definition ULCON_PMD_ODD := 0x18.
Definition ULCON_PMD_EVEN := 0x08.
Definition ULCON_TX_EN := 0x40.
Definition ULCON_RX_EN := 0x80.
Definition UFC_TX_FIFO_RESET := 0x01.
Definition UFC_RX_FIFO_RESET := 0x02.
Definition UFC_TX_FIFO_LVL_16_BYTE := Z.shiftl 3 2.
Definition UFC_RX_FIFO_LVL_16_BYTE := Z.shiftl 3 4.
Definition UDMA_RX_FIFO_TIMEOUT := Z.shiftl 1 2.
Definition UDMA_RX_FIFO_TIMEOUT_SHIFT := 3.
Definition UIS_TX_FIFO_EMPTY := Z.shiftl 1 0.
Definition UIS_TX_FIFO := Z.shiftl 1 1.
Definition UIS_RX_FIFO := Z.shiftl 1 2.
Definition UIS_RX_FIFO_TIMEOUT := Z.shiftl 1 3.
Definition UIS_CTS_CHNG := Z.shiftl 1 4.
Definition UIS_BREAK := Z.shiftl 1 5.
Definition UIS_FRM_ERR := Z.shiftl 1 6.
Definition UIS_PARITY_ERR := Z.shiftl 1 7.
Definition UIS_OVERRUN := Z.shiftl 1 8.
Definition UFS_TX_FIFO_CNT_MASK := 0x3F.
Definition UFS_RX_FIFO_CNT_MASK := 0x3C0.
Definition UFS_CST_STS := Z.shiftl 1 12.
Definition UART_RX_INT_FLAG := foldr Z.lor 0
  [UIS_RX_FIFO; UIS_RX_FIFO_TIMEOUT; UIS_BREAK; UIS_OVERRUN; UIS_FRM_ERR; UIS_PARITY_ERR].
Definition UART_RX_ERR_INT_FLAG := foldr Z.lor 0 [UIS_BREAK; UIS_FRM_ERR; UIS_PARITY_ERR].
Definition UART_TX_INT_FLAG := foldr Z.lor 0 [UIS_TX_FIFO; UIS_TX_FIFO_EMPTY].
Definition UART0_INT := 23.
Definition UART1_INT := 24.
Definition UART2_INT := 41.
Definition DMA2_INT := 15.
Definition W600_PLL_CLK_MHZ := 160.
Definition TLS_DMA_SEL_UART_TX := 1.
Definition TLS_DMA_FLAGS_CHANNEL_SEL (n : Z) : Z := Z.shiftl n 2.
Definition TLS_DMA_FLAGS_HARD_MODE := Z.shiftl 1 0.
Definition TLS_DMA_DESC_CTRL_SRC_ADD_INC := Z.shiftl 1 0.
Definition TLS_DMA_DESC_CTRL_DATA_SIZE_BYTE := Z.shiftl 0 4.
Definition TLS_DMA_IRQ_TRANSFER_DONE := Z.shiftl 1 1.

(** ** Ring buffers *)

Definition CIRC_CNT (head tail size : Z) : Z := Z.land (u32 (head - tail)) (size - 1).
Definition CIRC_SPACE (head tail size : Z) : Z := CIRC_CNT tail (head + 1) size.

(** An empty [cbuf] stands for the pointer [NULL]. *)
Record tls_uart_circ_buf := mk_circ {
  cbuf : list Z;
  head : Z;
  tail : Z;
}.
Definition set_head x c := mk_circ (cbuf c) x (tail c).
Definition set_tail x c := mk_circ (cbuf c) (head c) x.
Definition ring_next (i n : Z) : Z := Z.land (u32 (i + n)) (TLS_UART_RX_BUF_SIZE - 1).
(** [recv->buf[recv->head] = ch] and the head moves on. *)
Definition ring_put (ch : Z) (c : tls_uart_circ_buf) : option tls_uart_circ_buf :=
  b ← store8 (cbuf c) (head c) ch; Some (mk_circ b (ring_next (head c) 1) (tail c)).

(** ** Registers *)

Inductive ureg := UR_LC | UR_FC | UR_DMAC | UR_FIFOC | UR_BD | UR_INTM | UR_INTS | UR_FIFOS | UR_TXW | UR_RXW.
#[export] Instance ureg_eq : EqDecision ureg.
Proof. solve_decision. Defined.

(** A read may change the port (the receive window takes a byte from the FIFO). *)
Class UartRegs (R : Type) := {
  reg_rd : ureg → R → Z * R;
  reg_wr : ureg → Z → R → R;
}.

(** The transmit FIFO has 32 places; a byte written to a full one is lost.  It
    may drain while the driver runs, by at most [u_slack] characters until the
    driver returns; the status tells the counts of both FIFOs.  Characters
    that arrive meanwhile count as arriving afterwards.  The interrupt mask
    reads as written. *)
Class UartRegsOk (R : Type) `{!UartRegs R} := {
  u_sent : R → list Z;    (* every byte the transmitter has taken *)
  u_txcnt : R → Z;
  u_slack : R → Z;
  u_rx : R → list Z;      (* the receive FIFO, oldest first *)
  u_ints : R → Z;
  u_intm : R → Z;
  u_txcnt_range r : 0 <= u_txcnt r <= 32;
  u_slack_nonneg r : 0 <= u_slack r;
  u_rx_len r : blen (u_rx r) <= 63;
  u_rx_ok r : bytes_ok (u_rx r);
  rd_ints r : (reg_rd UR_INTS r).1 = u_ints r;
  rd_intm r : (reg_rd UR_INTM r).1 = u_intm r;
  rd_fifos r : Z.land (reg_rd UR_FIFOS r).1 0x3F = u_txcnt (reg_rd UR_FIFOS r).2 ∧
    Z.land (Z.shiftr (reg_rd UR_FIFOS r).1 6) 0x3F = blen (u_rx r);
  rd_rxw r c cs : u_rx r = c :: cs → (reg_rd UR_RXW r).1 = c ∧ u_rx (reg_rd UR_RXW r).2 = cs;
  rd_rx g r : g ≠ UR_RXW → u_rx (reg_rd g r).2 = u_rx r;
  rd_tx g r : let r' := (reg_rd g r).2 in u_sent r' = u_sent r ∧
    0 <= u_txcnt r - u_txcnt r' <= u_slack r - u_slack r';
  rd_mask g r : u_intm (reg_rd g r).2 = u_intm r;
  wr_txw b r : is_u8 b → u_txcnt r < 32 → let r' := reg_wr UR_TXW b r in
    u_sent r' = u_sent r ++ [b] ∧ 0 <= u_txcnt r + 1 - u_txcnt r' <= u_slack r - u_slack r';
  wr_intm v r : u_intm (reg_wr UR_INTM v r) = v;
  wr_rx g v r : g ≠ UR_FIFOC → u_rx (reg_wr g v r) = u_rx r;
  wr_tx g v r : g ≠ UR_TXW → g ≠ UR_FIFOC → let r' := reg_wr g v r in
    u_sent r' = u_sent r ∧ 0 <= u_txcnt r - u_txcnt r' <= u_slack r - u_slack r';
  wr_fifoc v r : Z.testbit v 0 = true → Z.testbit v 1 = true →
    u_txcnt (reg_wr UR_FIFOC v r) = 0 ∧ u_rx (reg_wr UR_FIFOC v r) = [];
  wr_mask g v r : g ≠ UR_INTM → u_intm (reg_wr g v r) = u_intm r;
}.

(** ** Ports *)

Record tls_uart_options := mk_opts {
  baudrate : Z;
  charlength : Z;
  paritytype : Z;
  flow_ctrl : Z;
  stopbits : Z;
}.
(** What frees a message that has been sent: [uart_tx_finish_callback] or the
    callback of a user with its argument. *)
Inductive finish_ptr := FREE_BUF | USER_FREE (arg : Z).
Record tls_uart_tx_msg_t := mk_tx_msg {
  msg_buf : option (list Z);
  buflen : Z;
  offset : Z;
  finish_callback : finish_ptr;
}.
(** The callbacks of a port: the driver's own or a user's. *)
Inductive tx_cb := FREE_TX_SENT_DATA | USER_TX (id : Z).
Record tls_uart_port := mk_port {
  uart_no : Z;
  uart_irq_no : Z;
  plus_char_cnt : Z;
  opts : tls_uart_options;
  fcStatus : Z;
  rxstatus : Z;
  tx_fifofull : Z;
  regs_set : bool;
  icount_tx : Z;
  recv : tls_uart_circ_buf;
  tx_msg_pending_list : list tls_uart_tx_msg_t;
  tx_msg_to_be_freed_list : list tls_uart_tx_msg_t;
  hw_stopped : Z;
  tx_sem : option Z;
  rx_callback : option Z;
  tx_callback : option tx_cb;
  tx_dma_on : bool;
}.

Section port_setters.
Implicit Type p : tls_uart_port.
Definition set_uart_no x p := mk_port x (uart_irq_no p) (plus_char_cnt p) (opts p) (fcStatus p) (rxstatus p)
  (tx_fifofull p) (regs_set p) (icount_tx p) (recv p) (tx_msg_pending_list p) (tx_msg_to_be_freed_list p)
  (hw_stopped p) (tx_sem p) (rx_callback p) (tx_callback p) (tx_dma_on p).
Definition set_uart_irq_no x p := mk_port (uart_no p) x (plus_char_cnt p) (opts p) (fcStatus p) (rxstatus p)
  (tx_fifofull p) (regs_set p) (icount_tx p) (recv p) (tx_msg_pending_list p) (tx_msg_to_be_freed_list p)
  (hw_stopped p) (tx_sem p) (rx_callback p) (tx_callback p) (tx_dma_on p).
Definition set_plus_char_cnt x p := mk_port (uart_no p) (uart_irq_no p) x (opts p) (fcStatus p) (rxstatus p)
  (tx_fifofull p) (regs_set p) (icount_tx p) (recv p) (tx_msg_pending_list p) (tx_msg_to_be_freed_list p)
  (hw_stopped p) (tx_sem p) (rx_callback p) (tx_callback p) (tx_dma_on p).
Definition set_opts x p := mk_port (uart_no p) (uart_irq_no p) (plus_char_cnt p) x (fcStatus p) (rxstatus p)
  (tx_fifofull p) (regs_set p) (icount_tx p) (recv p) (tx_msg_pending_list p) (tx_msg_to_be_freed_list p)
  (hw_stopped p) (tx_sem p) (rx_callback p) (tx_callback p) (tx_dma_on p).
Definition set_fcStatus x p := mk_port (uart_no p) (uart_irq_no p) (plus_char_cnt p) (opts p) x (rxstatus p)
  (tx_fifofull p) (regs_set p) (icount_tx p) (recv p) (tx_msg_pending_list p) (tx_msg_to_be_freed_list p)
  (hw_stopped p) (tx_sem p) (rx_callback p) (tx_callback p) (tx_dma_on p).
Definition set_rxstatus x p := mk_port (uart_no p) (uart_irq_no p) (plus_char_cnt p) (opts p) (fcStatus p) x
  (tx_fifofull p) (regs_set p) (icount_tx p) (recv p) (tx_msg_pending_list p) (tx_msg_to_be_freed_list p)
  (hw_stopped p) (tx_sem p) (rx_callback p) (tx_callback p) (tx_dma_on p).
Definition set_tx_fifofull x p := mk_port (uart_no p) (uart_irq_no p) (plus_char_cnt p) (opts p) (fcStatus p)
  (rxstatus p) x (regs_set p) (icount_tx p) (recv p) (tx_msg_pending_list p) (tx_msg_to_be_freed_list p) (hw_stopped
  p) (tx_sem p) (rx_callback p) (tx_callback p) (tx_dma_on p).
Definition set_regs_set x p := mk_port (uart_no p) (uart_irq_no p) (plus_char_cnt p) (opts p) (fcStatus p) (rxstatus
  p) (tx_fifofull p) x (icount_tx p) (recv p) (tx_msg_pending_list p) (tx_msg_to_be_freed_list p) (hw_stopped p)
  (tx_sem p) (rx_callback p) (tx_callback p) (tx_dma_on p).
Definition set_icount_tx x p := mk_port (uart_no p) (uart_irq_no p) (plus_char_cnt p) (opts p) (fcStatus p)
  (rxstatus p) (tx_fifofull p) (regs_set p) x (recv p) (tx_msg_pending_list p) (tx_msg_to_be_freed_list p)
  (hw_stopped p) (tx_sem p) (rx_callback p) (tx_callback p) (tx_dma_on p).
Definition set_recv x p := mk_port (uart_no p) (uart_irq_no p) (plus_char_cnt p) (opts p) (fcStatus p) (rxstatus p)
  (tx_fifofull p) (regs_set p) (icount_tx p) x (tx_msg_pending_list p) (tx_msg_to_be_freed_list p) (hw_stopped p)
  (tx_sem p) (rx_callback p) (tx_callback p) (tx_dma_on p).
Definition set_tx_msg_pending_list x p := mk_port (uart_no p) (uart_irq_no p) (plus_char_cnt p) (opts p) (fcStatus
  p) (rxstatus p) (tx_fifofull p) (regs_set p) (icount_tx p) (recv p) x (tx_msg_to_be_freed_list p) (hw_stopped p)
  (tx_sem p) (rx_callback p) (tx_callback p) (tx_dma_on p).
Definition set_tx_msg_to_be_freed_list x p := mk_port (uart_no p) (uart_irq_no p) (plus_char_cnt p) (opts p)
  (fcStatus p) (rxstatus p) (tx_fifofull p) (regs_set p) (icount_tx p) (recv p) (tx_msg_pending_list p) x
  (hw_stopped p) (tx_sem p) (rx_callback p) (tx_callback p) (tx_dma_on p).
Definition set_hw_stopped x p := mk_port (uart_no p) (uart_irq_no p) (plus_char_cnt p) (opts p) (fcStatus p)
  (rxstatus p) (tx_fifofull p) (regs_set p) (icount_tx p) (recv p) (tx_msg_pending_list p) (tx_msg_to_be_freed_list
  p) x (tx_sem p) (rx_callback p) (tx_callback p) (tx_dma_on p).
Definition set_tx_sem x p := mk_port (uart_no p) (uart_irq_no p) (plus_char_cnt p) (opts p) (fcStatus p) (rxstatus
  p) (tx_fifofull p) (regs_set p) (icount_tx p) (recv p) (tx_msg_pending_list p) (tx_msg_to_be_freed_list p)
  (hw_stopped p) x (rx_callback p) (tx_callback p) (tx_dma_on p).
Definition set_rx_callback x p := mk_port (uart_no p) (uart_irq_no p) (plus_char_cnt p) (opts p) (fcStatus p)
  (rxstatus p) (tx_fifofull p) (regs_set p) (icount_tx p) (recv p) (tx_msg_pending_list p) (tx_msg_to_be_freed_list
  p) (hw_stopped p) (tx_sem p) x (tx_callback p) (tx_dma_on p).
Definition set_tx_callback x p := mk_port (uart_no p) (uart_irq_no p) (plus_char_cnt p) (opts p) (fcStatus p)
  (rxstatus p) (tx_fifofull p) (regs_set p) (icount_tx p) (recv p) (tx_msg_pending_list p) (tx_msg_to_be_freed_list
  p) (hw_stopped p) (tx_sem p) (rx_callback p) x (tx_dma_on p).
Definition set_tx_dma_on x p := mk_port (uart_no p) (uart_irq_no p) (plus_char_cnt p) (opts p) (fcStatus p)
  (rxstatus p) (tx_fifofull p) (regs_set p) (icount_tx p) (recv p) (tx_msg_pending_list p) (tx_msg_to_be_freed_list
  p) (hw_stopped p) (tx_sem p) (rx_callback p) (tx_callback p) x.
End port_setters.
Definition set_baudrate x o := mk_opts x (charlength o) (paritytype o) (flow_ctrl o) (stopbits o).
Definition set_charlength x o := mk_opts (baudrate o) x (paritytype o) (flow_ctrl o) (stopbits o).
Definition set_paritytype x o := mk_opts (baudrate o) (charlength o) x (flow_ctrl o) (stopbits o).
Definition set_opt_flow_ctrl x o := mk_opts (baudrate o) (charlength o) (paritytype o) x (stopbits o).
Definition set_stopbits x o := mk_opts (baudrate o) (charlength o) (paritytype o) (flow_ctrl o) x.
Definition upd_opts f p := set_opts (f (opts p)) p.
Definition set_offset x m := mk_tx_msg (msg_buf m) (buflen m) x (finish_callback m).

(** [memset(&uart_port[n], 0, ...)] *)
Definition zero_port : tls_uart_port :=
  mk_port 0 0 0 (mk_opts 0 0 0 0 0) 0 0 0 false 0 (mk_circ [] 0 0) [] [] 0 None None None false.

(** The module: [uart_port], the registers of each, the heap and what belongs
    to the users of the driver. *)
Record uarts (R U : Type) := mk_uarts {
  uart_port : list tls_uart_port;
  uart_hw : list R;
  u_heap : heap;
  user : U;
}.
Arguments mk_uarts {R U}.
Arguments uart_port {R U}.
Arguments uart_hw {R U}.
Arguments u_heap {R U}.
Arguments user {R U}.
Section setters.
Context {R U : Type}.
Implicit Type s : uarts R U.
Definition set_uart_port x s := mk_uarts x (uart_hw s) (u_heap s) (user s).
Definition set_uart_hw (x : list R) s := mk_uarts (uart_port s) x (u_heap s) (user s).
Definition set_u_heap x s := mk_uarts (uart_port s) (uart_hw s) x (user s).
Definition set_user (x : U) s := mk_uarts (uart_port s) (uart_hw s) (u_heap s) x.
End setters.

(** What the driver calls: functions registered with it, the operating system,
    the interrupt controller and the DMA driver, which may use the driver in
    turn.  [clk_div_ctl] is the register HR_CLK_DIV_CTL.  [loops] bounds the
    rounds of the loops without a bound of their own: one that is not over
    after as many rounds counts as one that does not return. *)
Class UartEnv (R U : Type) := {
  call_rx : Z → Z → M (uarts R U) unit;
  call_tx : Z → Z → M (uarts R U) unit;
  call_finish : Z → M (uarts R U) unit;
  os_sem_create : M (uarts R U) Z;
  os_sem_acquire : Z → M (uarts R U) unit;
  tls_irq_enable : Z → M (uarts R U) unit;
  tls_irq_disable : Z → M (uarts R U) unit;
  clk_div_ctl : uarts R U → Z;
  tls_dma_request : Z → Z → M (uarts R U) Z;
  tls_dma_irq_register : Z → Z → Z → Z → M (uarts R U) unit;
  tls_dma_start : Z → list Z → Z → Z → M (uarts R U) unit;
  dma_chnl_sel : Z → M (uarts R U) unit;
  dma_int_unmask : Z → M (uarts R U) unit;
  loops : nat;
}.

(** * The driver *)

Section driver.
Context {R U : Type} `{!UartRegs R, !UartEnv R U}.
Notation C A := (M (uarts R U) A).

(** [uart_port[n]] and a write to a member of it. *)
Definition port (n : Z) : C tls_uart_port := λ s, of_opt (uart_port s !! Z.to_nat n) s.
Definition on_port (n : Z) (f : tls_uart_port → tls_uart_port) : C unit :=
  (let* p := port n in modify (λ s, set_uart_port (<[Z.to_nat n := f p]> (uart_port s)) s))%C.
(** The registers of a port. *)
Definition rd (n : Z) (g : ureg) : C Z := (
  let* r := λ s, of_opt (uart_hw s !! Z.to_nat n) s in
  modify (λ s, set_uart_hw (<[Z.to_nat n := (reg_rd g r).2]> (uart_hw s)) s) ;;
  ret (reg_rd g r).1)%C.
Definition wr (n : Z) (g : ureg) (v : Z) : C unit := (
  let* r := λ s, of_opt (uart_hw s !! Z.to_nat n) s in
  modify (λ s, set_uart_hw (<[Z.to_nat n := reg_wr g (u32 v) r]> (uart_hw s)) s))%C.
(** [reg = f(reg)] *)
Definition rmw (n : Z) (g : ureg) (f : Z → Z) : C unit := (let* v := rd n g in wr n g (f v))%C.
(** [port] follows a pointer that may be [NULL]. *)
Definition deref (p : option Z) : C Z := of_opt p.
Definition tls_mem_alloc (n : Z) : C (option (list Z)) := lift u_heap set_u_heap (malloc n).

(** ** Set-up of the registers *)

Definition apbclk : C Z := (
  let* v := gets clk_div_ctl in
  let div := Z.land (Z.shiftr v 4) 0x0F in
  if div =? 0 then stuck else ret (u32 (W600_PLL_CLK_MHZ / 4 / div * 1000000)))%C.

Definition bd_value (apb baud : Z) : Z :=
  Z.lor (u32 (apb / u32 (16 * baud) - 1))
        (u32 (Z.shiftl (u32 (apb mod u32 (baud * 16) * 16) / u32 (baud * 16)) 16)).

Definition Uart0Init : C unit := (
  let* apb := apbclk in
  wr 0 UR_BD (bd_value apb 115200) ;;
  wr 0 UR_LC (Z.lor ULCON_WL8 ULCON_TX_EN) ;;
  wr 0 UR_FC 0 ;;
  wr 0 UR_DMAC 0 ;;
  wr 0 UR_FIFOC 0 ;;
  wr 0 UR_INTM 0xFF)%C.

Definition UartRegInit (uart_no : Z) : C unit := (
  let* apb := apbclk in
  (if TLS_UART_0 =? uart_no then
    wr 0 UR_BD (bd_value apb 115200) ;;
    wr 0 UR_LC (Z.lor ULCON_WL8 ULCON_TX_EN) ;;
    wr 0 UR_FC 0 ;;
    wr 0 UR_DMAC 0 ;;
    wr 0 UR_FIFOC 0 ;;
    wr 0 UR_INTM 0xFF
  else ret tt) ;;
  (if TLS_UART_1 =? uart_no then
    wr 1 UR_FIFOC (Z.lor (Z.shiftl 0x01 2) (Z.shiftl 0x02 4)) ;;
    wr 1 UR_DMAC (Z.lor (Z.shiftl 8 3) (Z.shiftl 1 2)) ;;
    wr 1 UR_INTM (Z.lnot (Z.shiftl 3 2))
  else ret tt) ;;
  if TLS_UART_2 =? uart_no then
    wr 2 UR_FIFOC (Z.lor (Z.shiftl 0x01 2) (Z.shiftl 0x02 4)) ;;
    wr 2 UR_DMAC (Z.lor (Z.shiftl 8 3) (Z.shiftl 1 2)) ;;
    wr 2 UR_INTM (Z.lnot (Z.shiftl 3 2))
  else ret tt)%C.

Definition baud_rates : list Z := [
  2000000; 1500000; 1250000; 1000000; 921600; 460800; 230400; 115200; 57600; 38400;
  19200; 9600; 4800; 2400; 1800; 1200; 600].

Definition tls_uart_check_baudrate (baudrate : Z) : Z :=
  if existsb (Z.eqb baudrate) baud_rates then 1 else -1.

Definition tls_uart_get_baud_rate (p : option Z) : C Z :=
  match p with
  | None => ret 0
  | Some n => (let* p := port n in ret (if regs_set p then baudrate (opts p) else 0))%C
  end.

Definition tls_uart_set_baud_rate_inside (n baudrate : Z) : C Z := (
  if tls_uart_check_baudrate baudrate <? 0 then ret WM_FAILED else
  let* apb := apbclk in
  wr n UR_BD (bd_value apb baudrate) ;;
  on_port n (upd_opts (set_baudrate baudrate)) ;;
  ret WM_SUCCESS)%C.

Definition tls_uart_set_parity_inside (p : option Z) (paritytype : Z) : C Z :=
  match p with
  | None => ret WM_FAILED
  | Some n => (
      on_port n (upd_opts (set_paritytype paritytype)) ;;
      if paritytype =? TLS_UART_PMODE_DISABLED then
        rmw n UR_LC (λ v, Z.land v (Z.lnot ULCON_PMD_EN)) ;; ret WM_SUCCESS
      else if paritytype =? TLS_UART_PMODE_EVEN then
        rmw n UR_LC (λ v, Z.land v (Z.lnot ULCON_PMD_MASK)) ;;
        rmw n UR_LC (λ v, Z.lor v ULCON_PMD_EVEN) ;; ret WM_SUCCESS
      else if paritytype =? TLS_UART_PMODE_ODD then
        rmw n UR_LC (λ v, Z.land v (Z.lnot ULCON_PMD_MASK)) ;;
        rmw n UR_LC (λ v, Z.lor v ULCON_PMD_ODD) ;; ret WM_SUCCESS
      else ret WM_FAILED)%C
  end.

Definition tls_uart_get_parity (n : Z) : C Z := (let* p := port n in ret (paritytype (opts p)))%C.

Definition tls_uart_set_data_bits (p : option Z) (charlength : Z) : C Z :=
  match p with
  | None => ret WM_FAILED
  | Some n => (
      on_port n (upd_opts (set_charlength charlength)) ;;
      rmw n UR_LC (λ v, Z.land v (Z.lnot ULCON_WL_MASK)) ;;
      if charlength =? TLS_UART_CHSIZE_5BIT then rmw n UR_LC (λ v, Z.lor v ULCON_WL5) ;; ret WM_SUCCESS
      else if charlength =? TLS_UART_CHSIZE_6BIT then rmw n UR_LC (λ v, Z.lor v ULCON_WL6) ;; ret WM_SUCCESS
      else if charlength =? TLS_UART_CHSIZE_7BIT then rmw n UR_LC (λ v, Z.lor v ULCON_WL7) ;; ret WM_SUCCESS
      else if charlength =? TLS_UART_CHSIZE_8BIT then rmw n UR_LC (λ v, Z.lor v ULCON_WL8) ;; ret WM_SUCCESS
      else ret WM_FAILED)%C
  end.

Definition tls_uart_get_data_bits (n : Z) : C Z := (let* p := port n in ret (charlength (opts p)))%C.

Definition tls_uart_set_stop_bits_inside (p : option Z) (stopbits : Z) : C Z :=
  match p with
  | None => ret WM_FAILED
  | Some n => (
      on_port n (upd_opts (set_stopbits stopbits)) ;;
      (if stopbits =? TLS_UART_TWO_STOPBITS then rmw n UR_LC (λ v, Z.lor v ULCON_STOP_2)
       else rmw n UR_LC (λ v, Z.land v (Z.lnot ULCON_STOP_2))) ;;
      ret WM_SUCCESS)%C
  end.

Definition tls_uart_get_stop_bits (n : Z) : C Z := (let* p := port n in ret (stopbits (opts p)))%C.

Definition tls_uart_set_flow_ctrl (p : option Z) (mode : Z) : C Z :=
  match p with
  | None => ret TLS_UART_STATUS_ERROR
  | Some n => (
      if mode =? TLS_UART_FLOW_CTRL_NONE then wr n UR_FC 0 ;; ret TLS_UART_STATUS_OK
      else if mode =? TLS_UART_FLOW_CTRL_HARDWARE then
        let* p := port n in
        (if TLS_UART_FLOW_CTRL_HARDWARE =? flow_ctrl (opts p)
         then wr n UR_FC (Z.lor (Z.shiftl 1 0) (Z.shiftl 6 2)) else ret tt) ;;
        ret TLS_UART_STATUS_OK
      else ret TLS_UART_STATUS_ERROR)%C
  end.

Definition tls_uart_rx_disable (n : Z) : C unit := rmw n UR_LC (λ v, Z.land v (Z.lnot ULCON_RX_EN)).
Definition tls_uart_rx_enable (n : Z) : C unit := rmw n UR_LC (λ v, Z.lor v ULCON_RX_EN).
Definition tls_uart_tx_enable (n : Z) : C unit := rmw n UR_LC (λ v, Z.lor v ULCON_TX_EN).
Definition tls_uart_tx_disable (n : Z) : C unit := rmw n UR_LC (λ v, Z.land v (Z.lnot ULCON_TX_EN)).

Definition tls_uart_config (p : option Z) (o : option tls_uart_options) : C Z :=
  match p, o with
  | Some n, Some o => (
      tls_uart_set_baud_rate_inside n (baudrate o) ;;
      tls_uart_set_parity_inside (Some n) (paritytype o) ;;
      tls_uart_set_data_bits (Some n) (charlength o) ;;
      tls_uart_set_stop_bits_inside (Some n) (stopbits o) ;;
      on_port n (upd_opts (set_opt_flow_ctrl (flow_ctrl o))) ;;
      tls_uart_set_flow_ctrl (Some n) (flow_ctrl o) ;;
      wr n UR_INTS 0xFFFFFFFF ;;
      wr n UR_INTM 0x0 ;;
      wr n UR_DMAC (Z.lor (Z.shiftl 4 UDMA_RX_FIFO_TIMEOUT_SHIFT) UDMA_RX_FIFO_TIMEOUT) ;;
      wr n UR_FIFOC (foldr Z.lor 0
        [UFC_TX_FIFO_LVL_16_BYTE; UFC_RX_FIFO_LVL_16_BYTE; UFC_TX_FIFO_RESET; UFC_RX_FIFO_RESET]) ;;
      rmw n UR_LC (λ v, Z.land v (Z.lnot (Z.lor ULCON_TX_EN ULCON_RX_EN))) ;;
      rmw n UR_LC (λ v, Z.lor v (Z.lor ULCON_RX_EN ULCON_TX_EN)) ;;
      ret WM_SUCCESS)%C
  | _, _ => ret WM_FAILED
  end.

(** ** Transmission *)

(** [while (port->regs->UR_FIFOS & 0x3F) ;] *)
Fixpoint wait_thr (k : nat) (n : Z) : C unit :=
  match k with
  | O => stuck
  | S k => (let* v := rd n UR_FIFOS in if truth (Z.land v 0x3F) then wait_thr k n else ret tt)%C
  end.

Definition tls_uart_poll_put_char (n ch : Z) : C Z := (
  (if ch =? 10 then wait_thr loops n ;; wr n UR_TXW 13 else ret tt) ;;
  wait_thr loops n ;;
  wr n UR_TXW (u8 ch) ;;
  ret ch)%C.

Definition tls_uart_poll_get_char (n : Z) : C Z := (
  let* v := rd n UR_FIFOS in
  if truth (Z.shiftr (Z.land v UFS_RX_FIFO_CNT_MASK) 6) then rd n UR_RXW else ret 0)%C.

Definition tls_uart_tx_remain_len (n : Z) : C Z := (
  let* p := port n in
  ret (TLS_UART_TX_BUF_SIZE - foldl (λ l m, u16 (l + buflen m)) 0 (tx_msg_pending_list p)))%C.

(** The blocks: the message, then its buffer. *)
Definition tls_uart_fill_buf (n : Z) (buf : list Z) (count : Z) : C Z := (
  let* msg := tls_mem_alloc 28 in
  match msg with
  | None => ret (-1)
  | Some _ =>
      let* b := tls_mem_alloc count in
      match b with
      | None => ret (-1)
      | Some b =>
          let* b := of_opt (memcpy b 0 buf 0 count) in
          on_port n (λ p, set_tx_msg_pending_list
            (tx_msg_pending_list p ++ [mk_tx_msg (Some b) count 0 FREE_BUF]) p) ;;
          ret 0
      end
  end)%C.

Definition run_finish (f : finish_ptr) : C unit :=
  match f with FREE_BUF => ret tt | USER_FREE arg => call_finish arg end.

Fixpoint free_loop (k : nat) (n : Z) : C Z :=
  match k with
  | O => stuck
  | S k => (
      let* p := port n in
      match tx_msg_to_be_freed_list p with
      | [] => ret 0
      | m :: ms =>
          on_port n (set_tx_msg_to_be_freed_list ms) ;;
          (match msg_buf m with Some _ => run_finish (finish_callback m) | None => ret tt end) ;;
          free_loop k n
      end)%C
  end.
Definition tls_uart_free_tx_sent_data (n : Z) : C Z := free_loop loops n.

Definition run_tx_callback (n : Z) : C unit := (
  let* p := port n in
  match tx_callback p with
  | None => ret tt
  | Some FREE_TX_SENT_DATA => tls_uart_free_tx_sent_data n ;; ret tt
  | Some (USER_TX id) => call_tx id n
  end)%C.

Definition port_sem_release (p : tls_uart_port) : tls_uart_port :=
  match tx_sem p with None => p | Some c => set_tx_sem (Some (c + 1)) p end.

(** The first message has sent one more character. *)
Definition sent_one (p : tls_uart_port) : tls_uart_port :=
  match tx_msg_pending_list p with
  | [] => p
  | m :: ms => set_icount_tx (u32 (icount_tx p + 1))
      (set_tx_msg_pending_list (set_offset (offset m + 1) m :: ms) p)
  end.

(** [while (tx_count-- > 0 && tx_msg->offset < tx_msg->buflen)]: the characters
    of the first message, with the counter and whether the FIFO was full. *)
Fixpoint send_loop (k : nat) (n tx_count : Z) : C (Z * bool) :=
  match k with
  | O => ret (tx_count - 1, false)
  | S k => (
      let* p := port n in
      match tx_msg_pending_list p with
      | [] => stuck
      | m :: _ =>
          if offset m <? buflen m then
            let* v := rd n UR_FIFOS in
            if Z.land v UFS_TX_FIFO_CNT_MASK =? tx_fifofull p then ret (tx_count - 1, true) else
            let* c := of_opt (msg_buf m ≫= λ b, byte_at b (offset m)) in
            wr n UR_TXW c ;;
            on_port n sent_one ;;
            send_loop k n (tx_count - 1)
          else ret (tx_count - 1, false)
      end)%C
  end.
Definition send_chars (n tx_count : Z) : C (Z * bool) := send_loop (Z.to_nat tx_count) n tx_count.

(** A message that has been sent goes to the other list; whether it has. *)
Definition retire (p : tls_uart_port) : tls_uart_port :=
  match tx_msg_pending_list p with
  | [] => p
  | m :: ms => set_tx_msg_to_be_freed_list (tx_msg_to_be_freed_list p ++ [m]) (set_tx_msg_pending_list ms p)
  end.
Definition finish_msg (n : Z) : C unit := (
  let* p := port n in
  match tx_msg_pending_list p with
  | [] => stuck
  | m :: _ => if offset m >=? buflen m then on_port n retire ;; run_tx_callback n else ret tt
  end)%C.

Definition tls_uart_tx_chars_start (n : Z) : C unit := (
  let* p := port n in
  match tx_msg_pending_list p with
  | [] => on_port n port_sem_release
  | _ :: _ => send_chars n 32 ;; finish_msg n
  end)%C.

Fixpoint tx_rounds (k : nat) (n tx_count : Z) (fifofull : bool) : C unit :=
  match k with
  | O => stuck
  | S k => (
      let* p := port n in
      match tx_msg_pending_list p with
      | [] => ret tt
      | _ :: _ =>
          if fifofull then ret tt else
          let* ' (tx_count, fifofull) := send_chars n tx_count in
          finish_msg n ;;
          tx_rounds k n tx_count fifofull
      end)%C
  end.
Definition tls_uart_tx_chars (n : Z) : C unit := (
  let* p := port n in
  match tx_msg_pending_list p with
  | [] => on_port n port_sem_release
  | _ :: _ => tx_rounds loops n 64 false
  end)%C.

Definition tls_uart_set_fc_status (uart_no status : Z) : C unit := (
  let n := if TLS_UART_0 =? uart_no then 0 else if TLS_UART_1 =? uart_no then 1 else 2 in
  on_port n (set_fcStatus status) ;;
  tls_uart_set_flow_ctrl (Some n) status ;;
  let* p := port n in
  if (TLS_UART_FLOW_CTRL_HARDWARE =? flow_ctrl (opts p)) && (0 =? status) && truth (hw_stopped p) then
    tls_uart_tx_enable n ;;
    tls_uart_tx_chars n ;;
    on_port n (set_hw_stopped 0)
  else ret tt)%C.

Definition uart_handle_cts_change (n status : Z) : C unit := (
  let* p := port n in
  if (1 =? fcStatus p) && (flow_ctrl (opts p) =? TLS_UART_FLOW_CTRL_HARDWARE) && (uart_no p =? TLS_UART_1) then
    if truth (hw_stopped p) then
      if truth status then
        on_port n (set_hw_stopped 0) ;;
        tls_uart_tx_enable n ;;
        tls_uart_tx_chars n
      else ret tt
    else if truth status then ret tt else
      on_port n (set_hw_stopped 1) ;;
      tls_uart_tx_disable n
  else ret tt)%C.

(** ** Reception *)

Definition tls_set_uart_rx_status (uart_no status : Z) : C unit := (
  if TLS_UART_1 =? uart_no then
    let* p := port 1 in
    if ((TLS_UART_RX_DISABLE =? rxstatus p) && (TLS_UART_RX_DISABLE =? status)) ||
       ((TLS_UART_RX_ENABLE =? rxstatus p) && (TLS_UART_RX_ENABLE =? status)) then ret tt
    else if TLS_UART_RX_DISABLE =? status then
      if (TLS_UART_FLOW_CTRL_HARDWARE =? flow_ctrl (opts p)) && (TLS_UART_FLOW_CTRL_HARDWARE =? fcStatus p) then
        rmw 1 UR_INTM (λ v, Z.lor v (Z.lor (Z.shiftl 0x1 2) (Z.shiftl 0x01 8))) ;;
        on_port 1 (set_rxstatus TLS_UART_RX_DISABLE)
      else ret tt
    else
      rmw 1 UR_INTM (λ v, Z.land v (Z.lnot (Z.lor (Z.shiftl 0x1 2) (Z.shiftl 0x01 8)))) ;;
      on_port 1 (set_rxstatus TLS_UART_RX_ENABLE)
  else ret tt)%C.

(** [recv->buf[recv->head] = ch] and the head moves on. *)
Definition ring_insert (n ch : Z) : C unit := (
  let* p := port n in
  let* c := of_opt (ring_put ch (recv p)) in
  on_port n (set_recv c))%C.

(** [uart_port[n].rx_callback(len)] *)
Definition run_rx_callback (n len : Z) : C unit := (
  let* p := port n in
  match rx_callback p with None => ret tt | Some id => call_rx id (u16 len) end)%C.

(** The characters of a port of which [k] are left, with the number of those
    put in the ring: the loop of [UART0_IRQHandler] and [UART2_IRQHandler]. *)
Fixpoint rx_loop (k : nat) (n intr_src rxlen : Z) : C Z :=
  match k with
  | O => ret rxlen
  | S k => (
      let* v := rd n UR_RXW in
      let ch := u8 v in
      if truth (Z.land intr_src UART_RX_ERR_INT_FLAG) then
        rmw n UR_INTS (λ v, Z.lor v UART_RX_ERR_INT_FLAG) ;;
        rx_loop k n intr_src rxlen
      else
        let* p := port n in
        if CIRC_SPACE (head (recv p)) (tail (recv p)) TLS_UART_RX_BUF_SIZE <=? 2 then
          if TLS_UART_FLOW_CTRL_HARDWARE =? fcStatus p then
            tls_set_uart_rx_status (uart_no p) TLS_UART_RX_DISABLE ;;
            ring_insert n ch ;;
            ret (rxlen + 1)
          else ret rxlen
        else
          ring_insert n ch ;;
          rx_loop k n intr_src (rxlen + 1))%C
  end.

(** The end of the three handlers. *)
Definition irq_tail (n intr_src : Z) : C unit := (
  (if truth (Z.land intr_src UART_TX_INT_FLAG) then tls_uart_tx_chars n else ret tt) ;;
  if truth (Z.land intr_src UIS_CTS_CHNG) then
    let* fifos := rd n UR_FIFOS in
    uart_handle_cts_change n (Z.land fifos UFS_CST_STS)
  else ret tt)%C.

(** The source of the interrupt, which is acknowledged. *)
Definition irq_source (n : Z) : C Z :=
  (let* intr_src := rd n UR_INTS in wr n UR_INTS intr_src ;; ret intr_src)%C.
(** Whether there is something to receive, and how much. *)
Definition rx_pending (n intr_src : Z) : C (option Z) := (
  if truth (Z.land intr_src UART_RX_INT_FLAG) then
    let* m := rd n UR_INTM in
    if 0 =? Z.land m UIS_RX_FIFO then
      let* v := rd n UR_FIFOS in ret (Some (Z.land (Z.shiftr v 6) 0x3F))
    else ret None
  else ret None)%C.
(** A DMA transfer of the port is restarted after an overrun. *)
Definition irq_overrun (n intr_src : Z) : C unit := (
  if truth (Z.land intr_src UIS_OVERRUN) then
    rmw n UR_INTS (λ v, Z.lor v UIS_OVERRUN) ;;
    let* p := port n in
    if tx_dma_on p then
      rmw n UR_DMAC (λ v, Z.land v (Z.lnot 0x01)) ;;
      rmw n UR_DMAC (λ v, Z.lor v 0x01)
    else ret tt
  else ret tt)%C.

Definition UART0_IRQHandler : C unit := (
  let* intr_src := irq_source 0 in
  let* cnt := rx_pending 0 intr_src in
  (match cnt with
   | Some rx_fifocnt =>
       let* rxlen := rx_loop (Z.to_nat rx_fifocnt) 0 intr_src 0 in
       run_rx_callback 0 rxlen
   | None => ret tt
   end) ;;
  irq_tail 0 intr_src)%C.

(** The loop of [UART1_IRQHandler]; the last character read is the result. *)
Fixpoint rx1_loop (k : nat) (intr_src ch : Z) : C Z :=
  match k with
  | O => ret ch
  | S k => (
      let* v := rd 1 UR_RXW in
      let ch := u8 v in
      (if truth (Z.land intr_src UART_RX_ERR_INT_FLAG)
       then rmw 1 UR_INTS (λ v, Z.lor v UART_RX_ERR_INT_FLAG)
       else ring_insert 1 ch) ;;
      rx1_loop k intr_src ch)%C
  end.

(** [buf[i] == '+' && buf[j] == '+'] *)
Definition two_plus (c : tls_uart_circ_buf) (i j : Z) : option bool :=
  a ← byte_at (cbuf c) i; if a =? 43 then b ← byte_at (cbuf c) j; Some (b =? 43) else Some false.

(** The [switch] over [recv->head - 1]. *)
Definition plus_before (c : tls_uart_circ_buf) : option bool :=
  let h := u32 (head c - 1) in
  if h =? 0 then two_plus c (TLS_UART_RX_BUF_SIZE - 1) (TLS_UART_RX_BUF_SIZE - 2)
  else if h =? 1 then two_plus c 0 (TLS_UART_RX_BUF_SIZE - 1)
  else two_plus c (u32 (head c - 2)) (u32 (head c - 3)).

(** The characters of port 1 and the detection of [+++]. *)
Definition rx1_chars (intr_src rx_fifocnt : Z) : C unit := (
  on_port 1 (set_plus_char_cnt 0) ;;
  let* p := port 1 in
  (if CIRC_SPACE (head (recv p)) (tail (recv p)) TLS_UART_RX_BUF_SIZE <=? RX_CACHE_LIMIT
   then on_port 1 (λ p, set_recv (set_tail (ring_next (tail (recv p)) RX_CACHE_LIMIT) (recv p)) p)
   else ret tt) ;;
  let* ch := rx1_loop (Z.to_nat rx_fifocnt) intr_src 0 in
  (if (u8 rx_fifocnt =? 3) && (ch =? 43) then
     let* p := port 1 in
     let* plus := of_opt (plus_before (recv p)) in
     if plus then on_port 1 (set_plus_char_cnt 3) else ret tt
   else ret tt) ;;
  run_rx_callback 1 rx_fifocnt)%C.

Definition UART1_IRQHandler : C unit := (
  let* intr_src := irq_source 1 in
  irq_overrun 1 intr_src ;;
  let* cnt := rx_pending 1 intr_src in
  (match cnt with Some rx_fifocnt => rx1_chars intr_src rx_fifocnt | None => ret tt end) ;;
  irq_tail 1 intr_src)%C.

Definition UART2_IRQHandler : C unit := (
  let* intr_src := irq_source 2 in
  irq_overrun 2 intr_src ;;
  let* cnt := rx_pending 2 intr_src in
  (match cnt with
   | Some rx_fifocnt =>
       let* rxlen := rx_loop (Z.to_nat rx_fifocnt) 2 intr_src 0 in
       if truth rxlen then run_rx_callback 2 rxlen else ret tt
   | None => ret tt
   end) ;;
  irq_tail 2 intr_src)%C.

(** ** The calls of a user *)

Definition uart_of (uart_no : Z) : option Z :=
  if (TLS_UART_0 =? uart_no) || (TLS_UART_1 =? uart_no) || (TLS_UART_2 =? uart_no) then Some uart_no else None.

Definition tls_uart_rx_callback_register (uart_no : Z) (callback : option Z) : C unit :=
  match uart_of uart_no with Some n => on_port n (set_rx_callback callback) | None => ret tt end.
Definition tls_uart_tx_callback_register (uart_no : Z) (callback : option tx_cb) : C unit :=
  match uart_of uart_no with Some n => on_port n (set_tx_callback callback) | None => ret tt end.

Definition default_opts : tls_uart_options :=
  mk_opts UART_BAUDRATE_B115200 TLS_UART_CHSIZE_8BIT TLS_UART_PMODE_DISABLED
    TLS_UART_FLOW_CTRL_NONE TLS_UART_ONE_STOPBITS.

Definition tls_uart_port_init (uart_no : Z) (o : option tls_uart_options) (modeChoose : Z) : C Z := (
  UartRegInit uart_no ;;
  match uart_of uart_no with
  | None => ret WM_FAILED
  | Some n =>
      on_port n (λ _, set_regs_set true zero_port) ;;
      (if n =? TLS_UART_2 then
         if modeChoose =? 1 then rmw n UR_LC (λ v, Z.lor v (Z.shiftl 1 24))
         else rmw n UR_LC (λ v, Z.land v (Z.lnot 0x1000000))
       else ret tt) ;;
      on_port n (set_uart_no uart_no) ;;
      let* r := tls_uart_config (Some n) (Some (default default_opts o)) in
      if negb (r =? WM_SUCCESS) then ret WM_FAILED else
      on_port n (set_rxstatus TLS_UART_RX_ENABLE) ;;
      on_port n (set_uart_irq_no (if uart_no =? TLS_UART_0 then UART0_INT
        else if uart_no =? TLS_UART_1 then UART1_INT else UART2_INT)) ;;
      let* p := port n in
      tls_irq_disable (uart_irq_no p) ;;
      let* p := port n in
      let* ok := match cbuf (recv p) with
        | [] => let* b := tls_mem_alloc TLS_UART_RX_BUF_SIZE in
            match b with
            | None => ret false
            | Some b =>
                let* b := of_opt (memset b 0 0 TLS_UART_RX_BUF_SIZE) in
                on_port n (λ p, set_recv (mk_circ b (head (recv p)) (tail (recv p))) p) ;; ret true
            end
        | _ => ret true
        end in
      if negb ok then ret WM_FAILED else
      on_port n (λ p, set_recv (set_head 0 (recv p)) p) ;;
      on_port n (λ p, set_recv (set_tail 0 (recv p)) p) ;;
      on_port n (set_tx_fifofull 16) ;;
      on_port n (set_tx_msg_pending_list []) ;;
      on_port n (set_tx_msg_to_be_freed_list []) ;;
      tls_uart_tx_callback_register uart_no (Some FREE_TX_SENT_DATA) ;;
      let* p := port n in
      tls_irq_enable (uart_irq_no p) ;;
      ret WM_SUCCESS
  end)%C.

(** The result and the caller's buffer; [None] for [NULL]. *)
Definition tls_uart_read (uart_no : Z) (buf : option (list Z)) (readsize : Z) : C (Z * option (list Z)) := (
  match buf with
  | None => ret (WM_FAILED, None)
  | Some b =>
      if readsize <? 1 then ret (WM_FAILED, Some b) else
      let* n := deref (uart_of uart_no) in
      let* p := port n in
      let data_cnt := CIRC_CNT (head (recv p)) (tail (recv p)) TLS_UART_RX_BUF_SIZE in
      if data_cnt >=? readsize then
        let buflen := readsize in
        let t := tail (recv p) in
        let* b := if u32 (t + buflen) >? TLS_UART_RX_BUF_SIZE then
            let bufcopylen := TLS_UART_RX_BUF_SIZE - t in
            let* b := of_opt (memcpy b 0 (cbuf (recv p)) t bufcopylen) in
            of_opt (memcpy b bufcopylen (cbuf (recv p)) 0 (buflen - bufcopylen))
          else of_opt (memcpy b 0 (cbuf (recv p)) t buflen) in
        on_port n (λ p, set_recv (set_tail (ring_next (tail (recv p)) buflen) (recv p)) p) ;;
        ret (buflen, Some b)
      else ret (0, Some b)
  end)%C.

Definition tls_uart_dma_write (buf : option (list Z)) (writesize cmpl_callback uart_no : Z) : C Z := (
  let* p := port uart_no in
  match buf with
  | None => ret WM_FAILED
  | Some b =>
      if (writesize <? 1) || (writesize >=? 4096) then ret WM_FAILED else
      if tx_dma_on p then ret WM_FAILED else
      dma_chnl_sel uart_no ;;
      let* dmaCh := tls_dma_request 2
        (Z.lor (TLS_DMA_FLAGS_CHANNEL_SEL TLS_DMA_SEL_UART_TX) TLS_DMA_FLAGS_HARD_MODE) in
      if negb (dmaCh =? 2) then ret WM_FAILED else
      rmw uart_no UR_DMAC (λ v, Z.land v (Z.lnot 0x01)) ;;
      tls_dma_irq_register dmaCh cmpl_callback uart_no TLS_DMA_IRQ_TRANSFER_DONE ;;
      tls_dma_start dmaCh b (foldr Z.lor 0 [TLS_DMA_DESC_CTRL_SRC_ADD_INC;
        TLS_DMA_DESC_CTRL_DATA_SIZE_BYTE; Z.shiftl writesize 7]) 0 ;;
      on_port uart_no (set_tx_dma_on true) ;;
      rmw uart_no UR_DMAC (λ v, Z.lor v 0x01) ;;
      dma_int_unmask 5 ;;
      tls_irq_enable DMA2_INT ;;
      ret WM_SUCCESS
  end)%C.

Definition tls_uart_write_async (uart_no : Z) (buf : option (list Z)) (writesize : Z) : C Z := (
  match buf with
  | None => ret WM_FAILED
  | Some b =>
      if writesize <? 1 then ret WM_FAILED else
      let* n := deref (uart_of uart_no) in
      let* r := tls_uart_fill_buf n b writesize in
      (if 0 =? r then tls_uart_tx_chars_start n else ret tt) ;;
      ret r
  end)%C.

Definition tls_uart_tx_length (uart_no : Z) : C Z := (let* p := port uart_no in ret (icount_tx p))%C.

Definition tls_uart_write (uart_no : Z) (buf : option (list Z)) (writesize : Z) : C Z := (
  let* n := deref (uart_of uart_no) in
  let* err := os_sem_create in
  if negb (u8 err =? 0) then ret WM_FAILED else
  on_port n (set_tx_sem (Some 0)) ;;
  let* r := tls_uart_write_async uart_no buf writesize in
  (if 0 =? r then os_sem_acquire n else ret tt) ;;
  on_port n (set_tx_sem None) ;;
  ret WM_SUCCESS)%C.

Definition tls_uart_set_parity (uart_no paritytype : Z) : C Z :=
  match uart_of uart_no with
  | Some n => tls_uart_set_parity_inside (Some n) paritytype
  | None => ret WM_FAILED
  end.
Definition tls_uart_set_baud_rate (uart_no baudrate : Z) : C Z :=
  match uart_of uart_no with
  | Some n => tls_uart_set_baud_rate_inside n baudrate
  | None => ret WM_FAILED
  end.
Definition tls_uart_set_stop_bits (uart_no stopbits : Z) : C Z :=
  match uart_of uart_no with
  | Some n => tls_uart_set_stop_bits_inside (Some n) stopbits
  | None => ret WM_FAILED
  end.
Definition tls_uart_dma_off (uart_no : Z) : C Z := (
  on_port uart_no (set_tx_dma_on false) ;;
  ret WM_SUCCESS)%C.
End driver.
