(* ===== verification/UartRun.v ===== *)
(** * The serial ports at work

    The receive rings as queues, the rules by which the driver of Uart.v is run
    on one port, and what its loops, handlers and calls do in these terms. *)
From S2P Require Import Prelude Uart.

(** * Ring buffers as queues *)

Definition ring_ok (c : tls_uart_circ_buf) : Prop :=
  blen (cbuf c) = TLS_UART_RX_BUF_SIZE ∧ bytes_ok (cbuf c) ∧
  0 <= head c < TLS_UART_RX_BUF_SIZE ∧ 0 <= tail c < TLS_UART_RX_BUF_SIZE.
Definition ring_cnt (c : tls_uart_circ_buf) : Z := (head c - tail c) mod TLS_UART_RX_BUF_SIZE.
(** The characters of the ring, oldest first. *)
Definition rqueue (c : tls_uart_circ_buf) : list Z :=
  (λ i, default 0 (byte_at (cbuf c) ((tail c + i) mod TLS_UART_RX_BUF_SIZE))) <$> seqZ 0 (ring_cnt c).

Lemma land_4095 x : Z.land x (TLS_UART_RX_BUF_SIZE - 1) = x mod TLS_UART_RX_BUF_SIZE.
Proof. apply (land_ones_mod x 12). lia. Qed.
Lemma CIRC_CNT_mod h t : CIRC_CNT h t TLS_UART_RX_BUF_SIZE = (h - t) mod TLS_UART_RX_BUF_SIZE.
Proof. unfold CIRC_CNT. rewrite land_4095. unfold TLS_UART_RX_BUF_SIZE. ints. Qed.
Lemma CIRC_CNT_ring c : CIRC_CNT (head c) (tail c) TLS_UART_RX_BUF_SIZE = ring_cnt c.
Proof. apply CIRC_CNT_mod. Qed.
Lemma CIRC_SPACE_ring c : CIRC_SPACE (head c) (tail c) TLS_UART_RX_BUF_SIZE = 4095 - ring_cnt c.
Proof. unfold CIRC_SPACE. rewrite CIRC_CNT_mod. unfold ring_cnt, TLS_UART_RX_BUF_SIZE. dlia. Qed.
Lemma ring_next_mod i n : ring_next i n = (i + n) mod TLS_UART_RX_BUF_SIZE.
Proof. unfold ring_next. rewrite land_4095. unfold TLS_UART_RX_BUF_SIZE. ints. Qed.
Lemma ring_next_0 h : 0 <= h < TLS_UART_RX_BUF_SIZE → ring_next h 0 = h.
Proof. rewrite ring_next_mod. unfold TLS_UART_RX_BUF_SIZE. intros. dlia. Qed.
Lemma ring_next_next h i j : ring_next (ring_next h i) j = ring_next h (i + j).
Proof. rewrite !ring_next_mod. unfold TLS_UART_RX_BUF_SIZE. dlia. Qed.
Lemma ring_cnt_range c : 0 <= ring_cnt c < 4096.
Proof. unfold ring_cnt, TLS_UART_RX_BUF_SIZE. dlia. Qed.
Lemma blen_queue c : blen (rqueue c) = ring_cnt c.
Proof. apply blen_fmap_seqZ. apply ring_cnt_range. Qed.
Lemma byte_at_queue c i : ring_ok c → 0 <= i < ring_cnt c →
  byte_at (rqueue c) i = byte_at (cbuf c) ((tail c + i) mod TLS_UART_RX_BUF_SIZE).
Proof.
  intros (Hb & _) Hi. unfold rqueue. rewrite byte_at_fmap_seqZ, Z.add_0_l by lia.
  destruct (byte_at_is_Some (cbuf c) ((tail c + i) mod TLS_UART_RX_BUF_SIZE)) as [x Hx].
  { rewrite Hb. unfold TLS_UART_RX_BUF_SIZE. dlia. }
  by rewrite Hx.
Qed.
Lemma queue_ok c : ring_ok c → bytes_ok (rqueue c).
Proof.
  intros (_ & Hb & _). unfold rqueue. apply bytes_ok_fmap. intros i.
  destruct (byte_at _ _) eqn:E; [by apply (byte_at_ok _ _ _ Hb E)|simpl; unfold is_u8; lia].
Qed.

Lemma byte_at_front l r i : i < blen l → byte_at (l ++ r) i = byte_at l i.
Proof.
  unfold blen. intros Hi. unfold byte_at. case_if; [done|]. apply lookup_app_l. lia.
Qed.
Lemma blen_nil : blen [] = 0.
Proof. done. Qed.
Lemma blen_1 (x : Z) : blen [x] = 1.
Proof. done. Qed.

Lemma splice_next b x y i : i = blen x → blen x + blen y <= blen b →
  splice (splice b 0 x) i y = splice b 0 (x ++ y).
Proof.
  intros -> Hb. pose proof (blen_nonneg x). pose proof (blen_nonneg y).
  assert (blen (splice b 0 x) = blen b) as E by (apply blen_splice; lia).
  apply byte_at_ext; rewrite !blen_splice by (rewrite ?blen_app, ?E; lia); [lia|].
  intros j Hj. rewrite !byte_at_splice by (rewrite ?blen_app, ?E; lia). rewrite blen_app, Z.sub_0_r.
  repeat case_if; try lia.
  - replace j with (blen x + (j - blen x)) at 2 by lia. by rewrite byte_at_pre by lia.
  - by rewrite byte_at_front by lia.
  - done.
Qed.

(** A character is put behind the others; the ring never holds more than 4095. *)
Lemma ring_put_ok ch c : ring_ok c → is_u8 ch → ∃ c', ring_put ch c = Some c' ∧ ring_ok c' ∧
  head c' = (head c + 1) mod TLS_UART_RX_BUF_SIZE ∧ tail c' = tail c ∧
  cbuf c' = splice (cbuf c) (head c) [ch] ∧
  rqueue c' = if blen (rqueue c) <? 4095 then rqueue c ++ [ch] else [].
Proof.
  intros Hc Hch. pose proof Hc as (Hb & Hok & Hh & Ht). pose proof (ring_cnt_range c) as Hcnt.
  unfold ring_put, store8. rewrite memcpy_Some by (rewrite ?Hb, ?blen_1; unfold TLS_UART_RX_BUF_SIZE in *; lia).
  change (slice [ch] 0 1) with [ch]. simpl. eexists. split; [done|].
  set (c' := mk_circ _ _ _). assert (blen (cbuf c') = TLS_UART_RX_BUF_SIZE) as Hb'.
  { simpl. rewrite blen_splice; [done|lia|]. rewrite Hb, blen_1. unfold TLS_UART_RX_BUF_SIZE in *. lia. }
  assert (ring_ok c') as Hc'.
  { split; [done|]. split; [by apply bytes_ok_splice; [|constructor]|]. simpl. rewrite ring_next_mod.
    split; [|done]. unfold TLS_UART_RX_BUF_SIZE. dlia. }
  split; [done|]. split; [by rewrite <- ring_next_mod|]. do 2 (split; [done|]).
  assert (ring_cnt c' = (ring_cnt c + 1) mod 4096) as Hn.
  { unfold ring_cnt. simpl. rewrite ring_next_mod. unfold TLS_UART_RX_BUF_SIZE. dlia. }
  rewrite blen_queue. case_if.
  - rewrite Z.mod_small in Hn by lia. apply byte_at_ext.
    { rewrite blen_app, !blen_queue, blen_1. lia. }
    rewrite blen_queue. intros i Hi. rewrite byte_at_queue by done. simpl. rewrite byte_at_splice
      by (rewrite ?Hb, ?blen_1; unfold TLS_UART_RX_BUF_SIZE in *; lia). rewrite blen_1.
    unfold ring_cnt in *. destruct (decide (i = ring_cnt c)) as [->|Hne]; unfold ring_cnt in *.
    + replace ((tail c + _) mod _) with (head c) by (unfold TLS_UART_RX_BUF_SIZE in *; dlia).
      case_if; [|lia]. rewrite Z.sub_diag. replace (_ mod _) with (blen (rqueue c) + 0)
        by (rewrite blen_queue; unfold ring_cnt; lia).
      by rewrite byte_at_pre by lia.
    + rewrite byte_at_front, byte_at_queue by (done || rewrite ?blen_queue; unfold ring_cnt; lia).
      case_if; [|done]. unfold TLS_UART_RX_BUF_SIZE in *. dlia.
  - unfold rqueue. rewrite Hn. by replace ((ring_cnt c + 1) mod 4096) with 0 by dlia.
Qed.

(** Moving the tail takes the oldest characters away. *)
Lemma ring_drop_ok k c : ring_ok c → 0 <= k <= blen (rqueue c) →
  let c' := set_tail (ring_next (tail c) k) c in ring_ok c' ∧ rqueue c' = drop (Z.to_nat k) (rqueue c).
Proof.
  intros Hc Hk. pose proof Hc as (Hb & Hok & Hh & Ht). rewrite blen_queue in Hk.
  pose proof (ring_cnt_range c) as Hcnt. intros c'.
  assert (tail c' = (tail c + k) mod TLS_UART_RX_BUF_SIZE) as Et by apply ring_next_mod.
  assert (ring_ok c') as Hc'.
  { do 3 (split; [done|]). rewrite Et. unfold TLS_UART_RX_BUF_SIZE. dlia. }
  assert (ring_cnt c' = ring_cnt c - k) as Hn.
  { unfold ring_cnt in *. rewrite Et. simpl. unfold TLS_UART_RX_BUF_SIZE in *. dlia. }
  split; [done|]. apply byte_at_ext.
  { rewrite (blen_queue c'). pose proof (blen_queue c) as E. unfold blen in *. rewrite length_drop, Hn. lia. }
  rewrite blen_queue. intros i Hi. rewrite byte_at_queue, (byte_at_lookup (drop _ _)), lookup_drop by (done || lia).
  replace (Z.to_nat k + Z.to_nat i)%nat with (Z.to_nat (k + i)) by lia.
  rewrite <- byte_at_lookup, byte_at_queue by (done || lia). simpl cbuf. f_equal. rewrite Et.
  unfold TLS_UART_RX_BUF_SIZE. dlia.
Qed.

(** The oldest characters, from the one or two stretches they occupy. *)
Lemma queue_straight c n : ring_ok c → 0 <= n <= ring_cnt c → tail c + n <= TLS_UART_RX_BUF_SIZE →
  slice (cbuf c) (tail c) n = take (Z.to_nat n) (rqueue c).
Proof.
  intros Hc Hn Ht. pose proof Hc as (Hb & _ & _ & Ht').
  assert (take (Z.to_nat n) (rqueue c) = slice (rqueue c) 0 n) as -> by (unfold slice; by rewrite drop_0).
  apply byte_at_ext; rewrite !blen_slice by (rewrite ?blen_queue; lia); [done|].
  intros i Hi. rewrite !byte_at_slice, byte_at_queue by (done || lia). f_equal. unfold TLS_UART_RX_BUF_SIZE in *. dlia.
Qed.
Lemma queue_wrapped c n : ring_ok c → 0 <= n <= ring_cnt c → TLS_UART_RX_BUF_SIZE < tail c + n →
  slice (cbuf c) (tail c) (TLS_UART_RX_BUF_SIZE - tail c) ++
    slice (cbuf c) 0 (n - (TLS_UART_RX_BUF_SIZE - tail c)) = take (Z.to_nat n) (rqueue c).
Proof.
  intros Hc Hn Ht. pose proof Hc as (Hb & _ & _ & Ht'). pose proof (ring_cnt_range c).
  set (k := TLS_UART_RX_BUF_SIZE - tail c) in *.
  rewrite (queue_straight c k) by (done || lia).
  assert (slice (cbuf c) 0 (n - k) = slice (rqueue c) k (n - k)) as ->.
  { apply byte_at_ext; rewrite !blen_slice by (rewrite ?blen_queue; unfold TLS_UART_RX_BUF_SIZE in *; lia); [done|].
    intros i Hi. rewrite !byte_at_slice, byte_at_queue by (done || lia). f_equal.
    unfold k, TLS_UART_RX_BUF_SIZE in *. dlia. }
  assert (∀ m, take (Z.to_nat m) (rqueue c) = slice (rqueue c) 0 m) as E
    by (intros; unfold slice; by rewrite drop_0).
  rewrite !E. replace (slice (rqueue c) k (n - k)) with (slice (rqueue c) (0 + k) (n - k)) by done.
  rewrite slice_app by lia. f_equal. lia.
Qed.

(** * Running the driver *)

(** Functions registered with the driver and the interrupt controller leave the
    ports alone; the divider of the clock is not 0. *)
Definition same_uarts {R U} (s s' : uarts R U) : Prop :=
  uart_port s' = uart_port s ∧ uart_hw s' = uart_hw s ∧ u_heap s' = u_heap s.
Class UartEnvOk (R U : Type) `{!UartEnv R U} := {
  call_rx_ok id n s : wp (call_rx id n) (λ _, same_uarts s) s;
  call_tx_ok id n s : wp (call_tx id n) (λ _, same_uarts s) s;
  call_finish_ok a s : wp (call_finish a) (λ _, same_uarts s) s;
  irq_enable_ok i s : wp (tls_irq_enable i) (λ _, same_uarts s) s;
  irq_disable_ok i s : wp (tls_irq_disable i) (λ _, same_uarts s) s;
  clk_div_ok s : Z.land (Z.shiftr (clk_div_ctl s) 4) 0x0F ≠ 0;
}.

Section running.
Context {R U : Type} `{!UartRegs R, !UartEnv R U}.
Notation St := (uarts R U).
Implicit Type s : St.
Implicit Type p : tls_uart_port.
Implicit Type r : R.

(** A state in which port [n] is [p] with the registers [r]. *)
Definition at_port (n : Z) p r s : St :=
  mk_uarts (<[Z.to_nat n := p]> (uart_port s)) (<[Z.to_nat n := r]> (uart_hw s)) (u_heap s) (user s).
Definition has_port (n : Z) s : Prop :=
  (Z.to_nat n < length (uart_port s))%nat ∧ (Z.to_nat n < length (uart_hw s))%nat.
Definition is_port (n : Z) s p r : Prop := uart_port s !! Z.to_nat n = Some p ∧ uart_hw s !! Z.to_nat n = Some r.

Lemma put_put n p r p' r' s : at_port n p' r' (at_port n p r s) = at_port n p' r' s.
Proof. unfold at_port. simpl. by rewrite !list_insert_insert_eq. Qed.
Lemma put_self n p r s : is_port n s p r → s = at_port n p r s.
Proof. intros [Hp Hr]. unfold at_port. rewrite !list_insert_id by done. by destruct s. Qed.
Lemma is_port_fits n p r s : is_port n s p r → has_port n s.
Proof. intros [?%lookup_lt_Some ?%lookup_lt_Some]. done. Qed.
Lemma is_port_put n p r s : has_port n s → is_port n (at_port n p r s) p r.
Proof. intros [? ?]. by split; apply list_lookup_insert_eq. Qed.
Lemma set_u_heap_put n p r s h : set_u_heap h (at_port n p r s) = at_port n p r (set_u_heap h s).
Proof. done. Qed.
Lemma same_put n p r s s' : same_uarts (at_port n p r s) s' → s' = at_port n p r (set_user (user s') s).
Proof. destruct s'. intros (H1 & H2 & H3). simpl in *. subst. done. Qed.

Section rules.
Context (n : Z) (s : St) (Hf : has_port n s).

Lemma wp_port Q p r : Q p (at_port n p r s) → wp (port n) Q (at_port n p r s).
Proof. intros HQ. unfold wp, port, of_opt. simpl. rewrite list_lookup_insert_eq by apply Hf. done. Qed.
Lemma wp_on_port f (Q : unit → St → Prop) p r : Q tt (at_port n (f p) r s) → wp (on_port n f) Q (at_port n p r s).
Proof.
  intros HQ. unfold on_port. apply wp_bind, wp_port, wp_modify. rewrite <- (put_put n p r) in HQ.
  revert HQ. unfold at_port. simpl. rewrite !list_insert_insert_eq. done.
Qed.
Lemma wp_rd g Q p r : Q (reg_rd g r).1 (at_port n p (reg_rd g r).2 s) → wp (rd n g) Q (at_port n p r s).
Proof.
  intros HQ. unfold rd, wp, bind, of_opt. simpl. rewrite list_lookup_insert_eq by apply Hf.
  unfold modify, ret, set_uart_hw, at_port in *. simpl. by rewrite list_insert_insert_eq.
Qed.
Lemma wp_wr g v Q p r : Q tt (at_port n p (reg_wr g (u32 v) r) s) → wp (wr n g v) Q (at_port n p r s).
Proof.
  intros HQ. unfold wr, wp, bind, of_opt. simpl. rewrite list_lookup_insert_eq by apply Hf.
  unfold modify, ret, set_uart_hw, at_port in *. simpl. by rewrite list_insert_insert_eq.
Qed.
Lemma wp_rmw g f Q p r : Q tt (at_port n p (reg_wr g (u32 (f (reg_rd g r).1)) (reg_rd g r).2) s) →
  wp (rmw n g f) Q (at_port n p r s).
Proof. intros HQ. unfold rmw. apply wp_bind, wp_rd, wp_wr, HQ. Qed.
End rules.

Lemma wp_mem_alloc n k p r s (Q : option (list Z) → St → Prop) :
  (∀ h b, (∀ l, b = Some l → blen l = k ∧ bytes_ok l) → Q b (at_port n p r (set_u_heap h s))) → 0 <= k →
  wp (tls_mem_alloc k) Q (at_port n p r s).
Proof.
  intros HQ Hk. unfold tls_mem_alloc. apply wp_lift. unfold wp, malloc. simpl. rewrite set_u_heap_put. apply HQ.
  intros l Hl. destruct (u_heap s O); simpl in Hl; [|done]. injection Hl as <-.
  split; [by apply blen_fmap_seqZ|]. apply bytes_ok_fmap. intros. apply u8_range.
Qed.
Lemma fits_heap n s h : has_port n s → has_port n (set_u_heap h s).
Proof. done. Qed.
Lemma fits_user n s u : has_port n s → has_port n (set_user u s).
Proof. done. Qed.
End running.
Create HintDb uart.
#[export] Hint Resolve fits_heap fits_user is_port_fits : uart.

(** Straight-line code of one port, whose state is [at_port n p r s]. *)
Ltac u_step :=
  lazymatch goal with
  | |- wp (bind _ _) _ _ => apply wp_bind
  | |- wp (ret _) _ _ => apply wp_ret
  | |- wp (port _) _ (at_port _ _ _ _) => apply wp_port; [by eauto with uart|]
  | |- wp (on_port _ _) _ (at_port _ _ _ _) => apply wp_on_port; [by eauto with uart|]
  | |- wp (rd _ _) _ (at_port _ _ _ _) => apply wp_rd; [by eauto with uart|]
  | |- wp (wr _ _ _) _ (at_port _ _ _ _) => apply wp_wr; [by eauto with uart|]
  | |- wp (rmw _ _ _) _ (at_port _ _ _ _) => apply wp_rmw; [by eauto with uart|]
  | |- wp (of_opt (Some _)) _ _ => eapply wp_of_opt; [reflexivity|]
  | |- wp (match ?o with Some _ => _ | None => _ end) _ _ => fail
  end; cbv beta.
Ltac u_steps := repeat u_step.

(** ** What is sent *)

(** A message waiting to be sent, and what it still has to send. *)
Definition msg_ok (m : tls_uart_tx_msg_t) : Prop :=
  ∃ b, msg_buf m = Some b ∧ bytes_ok b ∧ buflen m = blen b ∧ 0 <= offset m < buflen m.
Definition unsent (m : tls_uart_tx_msg_t) : list Z :=
  match msg_buf m with Some b => slice b (offset m) (buflen m - offset m) | None => [] end.
Definition todo (p : tls_uart_port) : list Z := tx_msg_pending_list p ≫= unsent.
Definition tx_inv (p : tls_uart_port) : Prop := Forall msg_ok (tx_msg_pending_list p) ∧ tx_fifofull p = 16.
(** What transmission leaves as it is. *)
Definition tx_frame (p : tls_uart_port) : tls_uart_port :=
  set_tx_msg_pending_list [] (set_tx_msg_to_be_freed_list [] (set_icount_tx 0 p)).
(** The messages of a port, waiting and sent. *)
Definition msgs (p : tls_uart_port) : nat :=
  length (tx_msg_pending_list p) + length (tx_msg_to_be_freed_list p).

Section transmit.
Context {R U : Type} `{!UartRegs R, !UartRegsOk R, !UartEnv R U, !UartEnvOk R U}.
Notation St := (uarts R U).
Implicit Type s : St.
Implicit Type p : tls_uart_port.
Implicit Type r : R.

(** From [r] to [r'] the bytes [out] went into the transmit FIFO, which had
    room; [sent_by] if nothing was received meanwhile. *)
Record line_by r r' (out : list Z) : Prop := {
  lb_sent : u_sent r' = u_sent r ++ out;
  lb_intm : u_intm r' = u_intm r;
  lb_cnt : u_txcnt r' <= u_txcnt r + blen out;
  lb_slack : u_txcnt r - u_slack r + blen out <= u_txcnt r' - u_slack r';
}.
Definition sent_by r r' (out : list Z) : Prop := line_by r r' out ∧ u_rx r' = u_rx r.
Lemma line_nothing r : line_by r r [].
Proof. split; rewrite ?app_nil_r, ?blen_nil; [done..|lia|lia]. Qed.
Lemma line_trans r r1 r2 o1 o2 : line_by r r1 o1 → line_by r1 r2 o2 → line_by r r2 (o1 ++ o2).
Proof.
  intros [H1 H3 H4 H5] [K1 K3 K4 K5]. split; [by rewrite K1, H1, app_assoc|congruence..| |];
    rewrite blen_app; lia.
Qed.
Lemma sent_nothing r : sent_by r r [].
Proof. by split; [apply line_nothing|]. Qed.
Lemma sent_trans r r1 r2 o1 o2 : sent_by r r1 o1 → sent_by r1 r2 o2 → sent_by r r2 (o1 ++ o2).
Proof. intros [H1 H2] [K1 K2]. split; [by eapply line_trans|congruence]. Qed.
Lemma line_rd g r : line_by r (reg_rd g r).2 [].
Proof.
  destruct (rd_tx g r) as [H1 H2]. split; rewrite ?app_nil_r, ?blen_nil; [done|apply rd_mask|lia..].
Qed.
Lemma line_wr g v r : g ≠ UR_TXW → g ≠ UR_FIFOC → g ≠ UR_INTM → line_by r (reg_wr g v r) [].
Proof.
  intros H1 H2 H3. destruct (wr_tx g v r H1 H2) as [H4 H5].
  split; rewrite ?app_nil_r, ?blen_nil; [done|by apply wr_mask|lia..].
Qed.
Lemma sent_rd g r : g ≠ UR_RXW → sent_by r (reg_rd g r).2 [].
Proof. intros Hg. split; [apply line_rd|by apply rd_rx]. Qed.
Lemma sent_wr g v r : g ≠ UR_TXW → g ≠ UR_FIFOC → g ≠ UR_INTM → sent_by r (reg_wr g v r) [].
Proof. intros H1 H2 H3. split; [by apply line_wr|by apply wr_rx]. Qed.
Lemma sent_rmw g v r : g ≠ UR_RXW → g ≠ UR_TXW → g ≠ UR_FIFOC → g ≠ UR_INTM →
  sent_by r (reg_wr g v (reg_rd g r).2) [].
Proof. intros. apply (sent_trans _ (reg_rd g r).2 _ [] []); [by apply sent_rd|by apply sent_wr]. Qed.
Lemma sent_txw b r : is_u8 b → u_txcnt r < 32 → sent_by r (reg_wr UR_TXW b r) [b].
Proof.
  intros Hb Hr. destruct (wr_txw b r Hb Hr) as [H4 H5]. split; [|by apply wr_rx].
  split; [done|by apply wr_mask|..]; rewrite blen_1; lia.
Qed.

Definition sending m ms ic p : tls_uart_port := set_icount_tx ic (set_tx_msg_pending_list (m :: ms) p).
Lemma sending_id m ms p : tx_msg_pending_list p = m :: ms →
  p = sending (set_offset (offset m + 0) m) ms (icount_tx p) p.
Proof. rewrite Z.add_0_r. destruct p, m. simpl. intros ->. done. Qed.

(** The inner loop sends up to [k] characters of the first message and stops
    before when the FIFO has 16. *)
Lemma wp_send_loop n s b ms (Hf : has_port n s) : bytes_ok b → ∀ k m c p r (Q : Z * bool → St → Prop),
  msg_buf m = Some b → buflen m = blen b →
  tx_msg_pending_list p = m :: ms → 0 <= offset m <= buflen m → tx_fifofull p = 16 → u_txcnt r <= 16 →
  (∀ j full ic r', 0 <= j <= Z.of_nat k → offset m + j <= buflen m →
    sent_by r r' (slice b (offset m) j) → u_txcnt r' <= 16 →
    (if full : bool then u_txcnt r' = 16 ∧ offset m + j < buflen m
     else offset m + j = buflen m ∨ j = Z.of_nat k) →
    Q (c - j - 1, full) (at_port n (sending (set_offset (offset m + j) m) ms ic p) r' s)) →
  wp (send_loop k n c) Q (at_port n p r s).
Proof.
  intros Hok k. induction k as [|k IH]; intros m c p r Q Hb Hl Hp Ho Hfull Hcnt HQ.
  - rewrite (sending_id m ms p Hp) at 1. apply wp_ret.
    replace (c - 1) with (c - 0 - 1) by lia. apply HQ; [lia..|apply sent_nothing|done|].
    right. lia.
  - cbn [send_loop]. do 2 u_step. rewrite Hp. case_if.
    + do 2 u_step. destruct (rd_fifos r) as [Hv _]. pose proof (sent_rd UR_FIFOS r ltac:(done)) as Hrd.
      set (r1 := (reg_rd UR_FIFOS r).2) in *.
      assert (u_txcnt r1 <= 16) by (pose proof (lb_cnt _ _ _ (proj1 Hrd)) as Hc; rewrite blen_nil in Hc; lia).
      change UFS_TX_FIFO_CNT_MASK with 0x3F. rewrite Hv, Hfull. case_if.
      * rewrite (sending_id m ms p Hp) at 1. apply wp_ret.
        replace (c - 1) with (c - 0 - 1) by lia. apply HQ; [lia..| |done|split; lia].
        by apply Hrd.
      * destruct (byte_at_is_Some b (offset m)) as [x Hx]; [lia|]. pose proof (byte_at_ok _ _ _ Hok Hx) as Hx8.
        rewrite Hb. simpl. rewrite Hx. do 6 u_step.
        rewrite u32_id by (unfold_ints; lia). pose proof (sent_txw x r1 Hx8 ltac:(lia)) as Hw.
        set (r2 := reg_wr UR_TXW x r1) in *. pose proof (sent_trans _ _ _ _ _ Hrd Hw) as H2.
        assert (sent_one p = sending (set_offset (offset m + 1) m) ms (u32 (icount_tx p + 1)) p) as ->.
        { unfold sent_one. by rewrite Hp. }
        apply (IH (set_offset (offset m + 1) m)); simpl; [done..|lia|done| |].
        { pose proof (lb_cnt _ _ _ (proj1 Hw)) as Hc. rewrite blen_1 in Hc. lia. }
        intros j full ic r' Hj Hoj Hs Hc' Hcase.
        replace (c - 1 - j - 1) with (c - (1 + j) - 1) by lia.
        change (sending _ ms ic (sending _ _ _ p)) with
          (sending (set_offset (offset m + 1 + j) m) ms ic p).
        replace (offset m + 1 + j) with (offset m + (1 + j)) in * by lia.
        apply HQ; [lia..| |done|destruct full; lia].
        rewrite <- slice_app by lia. replace (slice b (offset m) 1) with [x]; [by eapply sent_trans|].
        apply byte_at_ext; [rewrite blen_slice by lia; done|]. rewrite blen_1. intros i Hi.
        rewrite byte_at_slice by lia. replace i with 0 by lia. by rewrite Z.add_0_r, Hx.
    + rewrite (sending_id m ms p Hp) at 1. apply wp_ret.
      replace (c - 1) with (c - 0 - 1) by lia. apply HQ; [lia..|apply sent_nothing|done|lia].
Qed.

(** Some of what [p] had to send, [out], has been sent. *)
Record tx_done p r p' r' (out : list Z) : Prop := {
  td_sent : sent_by r r' out;
  td_cnt : u_txcnt r' <= 16;
  td_todo : todo p = out ++ todo p';
  td_inv : tx_inv p';
  td_frame : tx_frame p' = tx_frame p;
  td_msgs : (msgs p' ≤ msgs p)%nat;
}.
Lemma tx_done_trans p r p1 r1 p2 r2 o1 o2 :
  tx_done p r p1 r1 o1 → tx_done p1 r1 p2 r2 o2 → tx_done p r p2 r2 (o1 ++ o2).
Proof.
  intros [H1 H2 H3 H4 H5 H6] [K1 K2 K3 K4 K5 K6]. split; [by eapply sent_trans|done| |done|congruence|lia].
  by rewrite H3, K3, app_assoc.
Qed.

Lemma set_user_self s : set_user (user s) s = s.
Proof. by destruct s. Qed.

Lemma wp_run_finish f n p r s (Q : unit → St → Prop) :
  (∀ u, Q tt (at_port n p r (set_user u s))) → wp (run_finish f) Q (at_port n p r s).
Proof.
  intros HQ. destruct f; simpl.
  - apply wp_ret. rewrite <- (set_user_self s). apply HQ.
  - eapply wp_mono; [apply call_finish_ok|]. intros [] s' ->%same_put. apply HQ.
Qed.

Lemma wp_free_loop n s (Hf : has_port n s) k : ∀ u p r (Q : Z → St → Prop),
  (length (tx_msg_to_be_freed_list p) < k)%nat →
  (∀ u, Q 0 (at_port n (set_tx_msg_to_be_freed_list [] p) r (set_user u s))) →
  wp (free_loop k n) Q (at_port n p r (set_user u s)).
Proof.
  induction k as [|k IH]; intros u p r Q Hk HQ; [lia|]. cbn [free_loop]. do 2 u_step.
  destruct (tx_msg_to_be_freed_list p) as [|m ms] eqn:E.
  - apply wp_ret. replace p with (set_tx_msg_to_be_freed_list [] p) by (rewrite <- E; by destruct p). apply HQ.
  - simpl in Hk. do 3 u_step. destruct (msg_buf m).
    + apply wp_run_finish. intros u'. apply (IH u'); simpl; [lia|]. intros u''. apply HQ.
    + u_step. apply IH; simpl; [lia|]. intros u''. apply HQ.
Qed.

Lemma wp_run_tx_callback n s (Hf : has_port n s) p r (Q : unit → St → Prop) :
  (length (tx_msg_to_be_freed_list p) < loops)%nat →
  (∀ u fr, (length fr ≤ length (tx_msg_to_be_freed_list p))%nat →
    Q tt (at_port n (set_tx_msg_to_be_freed_list fr p) r (set_user u s))) →
  wp (run_tx_callback n) Q (at_port n p r s).
Proof.
  intros Hk HQ. unfold run_tx_callback. do 2 u_step.
  assert (∀ u, Q tt (at_port n p r (set_user u s))) as HQ'.
  { intros u. replace p with (set_tx_msg_to_be_freed_list (tx_msg_to_be_freed_list p) p) by (by destruct p).
    by apply HQ. }
  destruct (tx_callback p) as [[|id]|].
  - u_step. rewrite <- (set_user_self s) at 1. apply wp_free_loop; [done..|].
    intros u. apply wp_ret, HQ. simpl. lia.
  - eapply wp_mono; [apply call_tx_ok|]. intros [] s' ->%same_put. apply HQ'.
  - apply wp_ret. rewrite <- (set_user_self s). apply HQ'.
Qed.

(** One round: characters of the first message, and what follows its end. *)
Lemma wp_send_finish n s (Hf : has_port n s) m ms p r k c (Q : Z * bool → unit → St → Prop) :
  tx_inv p → u_txcnt r <= 16 → (msgs p < loops)%nat → tx_msg_pending_list p = m :: ms →
  (∀ u full p' r' out, tx_done p r p' r' out → blen out <= Z.of_nat k →
    (if full : bool then u_txcnt r' = 16
     else blen out = Z.of_nat k ∨ (1 <= blen out ∧ tx_msg_pending_list p' = ms)) →
    Q (c - blen out - 1, full) tt (at_port n p' r' (set_user u s))) →
  wp (send_loop k n c) (λ a, wp (finish_msg n) (Q a)) (at_port n p r s).
Proof.
  intros [Hm Hfull] Hcnt Hk Hp HQ. rewrite Hp in Hm. inversion Hm as [|? ? (b & Hb & Hok & Hl & Ho) Hms]; subst.
  apply (wp_send_loop n s b ms Hf Hok k m); [done..|lia|done|done|].
  intros j full ic r' Hj Hoj Hs Hc Hcase.
  assert (blen (slice b (offset m) j) = j) as Hbj by (apply blen_slice; lia).
  unfold finish_msg. do 2 u_step. cbn [tx_msg_pending_list sending set_icount_tx set_tx_msg_pending_list].
  cbn [offset buflen set_offset].
  assert (unsent m = slice b (offset m) j ++ slice b (offset m + j) (buflen m - (offset m + j))) as Hu.
  { unfold unsent. rewrite Hb, slice_app by lia. f_equal. lia. }
  unfold msgs in Hk. rewrite Hp in Hk. simpl in Hk. case_if.
  - assert (offset m + j = buflen m) as Hend by lia. do 2 u_step. apply wp_run_tx_callback; [done| |].
    { simpl. rewrite length_app. simpl. lia. }
    intros u fr Hfr. rewrite <- Hbj at 1. simpl in Hfr. rewrite length_app in Hfr. simpl in Hfr.
    apply HQ.
    + split; [done|done| |by split|done|unfold msgs; rewrite Hp; simpl; lia].
      unfold todo. rewrite Hp. simpl. rewrite Hu. replace (buflen m - (offset m + j)) with 0 by lia.
      unfold slice at 2. simpl. by rewrite app_nil_r.
    + lia.
    + destruct full; [lia|]. rewrite Hbj. right. simpl. split; [lia|done].
  - apply wp_ret. rewrite <- (set_user_self s), <- Hbj at 1. apply HQ.
    + split; [done|done| | |done|unfold msgs; rewrite Hp; simpl; lia].
      * unfold todo. rewrite Hp. simpl. rewrite Hu, <- app_assoc. f_equal. f_equal. unfold unsent. simpl. by rewrite Hb.
      * split; [|done]. simpl. constructor; [|done]. exists b. simpl. repeat split; [done..|lia|lia].
    + lia.
    + rewrite Hbj. destruct full; [tauto|]. left. lia.
Qed.

Lemma tx_inv_pending p m ms : tx_inv p → tx_msg_pending_list p = m :: ms → todo p ≠ [].
Proof.
  intros [Hm _] Hp. unfold todo. rewrite Hp in *. inversion Hm as [|? ? (b & Hb & _ & Hl & Ho) _]; subst.
  simpl. unfold unsent. rewrite Hb. intros [E _]%app_eq_nil.
  assert (blen (slice b (offset m) (buflen m - offset m)) = buflen m - offset m) as H by (apply blen_slice; lia).
  rewrite E, blen_nil in H. lia.
Qed.
Lemma todo_nil p : tx_msg_pending_list p = [] → todo p = [].
Proof. unfold todo. by intros ->. Qed.

(** [tls_uart_tx_chars_start] sends at most 32 characters of one message. *)
Lemma wp_tx_chars_start n s (Hf : has_port n s) p r (Q : unit → St → Prop) :
  tx_inv p → u_txcnt r <= 16 → (msgs p < loops)%nat →
  (tx_msg_pending_list p = [] → Q tt (at_port n (port_sem_release p) r s)) →
  (∀ u p' r' out, tx_done p r p' r' out → blen out <= 32 → Q tt (at_port n p' r' (set_user u s))) →
  wp (tls_uart_tx_chars_start n) Q (at_port n p r s).
Proof.
  intros Hi Hc Hk H0 HQ. unfold tls_uart_tx_chars_start. do 2 u_step.
  destruct (tx_msg_pending_list p) as [|m ms] eqn:Hp; [by apply wp_on_port, H0|].
  apply wp_bind. apply (wp_send_finish n s Hf m ms p r 32 32 (λ _, Q)); [done..|]. eauto.
Qed.

(** The characters left and those that leave meanwhile use up 64 at most. *)
Lemma wp_tx_rounds n s (Hf : has_port n s) k : ∀ u p r c full (Q : unit → St → Prop),
  tx_inv p → u_txcnt r <= 16 → (msgs p < loops)%nat →
  (if full : bool then (0 < k)%nat ∧ u_txcnt r = 16
   else (length (tx_msg_pending_list p) < k)%nat ∧ 2 * (16 - (u_txcnt r - u_slack r)) + 1 <= c) →
  (∀ u p' r' out, tx_done p r p' r' out → todo p' = [] ∨ 16 <= u_txcnt r + blen out →
    Q tt (at_port n p' r' (set_user u s))) →
  wp (tx_rounds k n c full) Q (at_port n p r (set_user u s)).
Proof.
  induction k as [|k IH]; intros u p r c full Q Hi Hc Hm Hk HQ; [destruct full; lia|].
  assert (tx_done p r p r []) as Hrefl by (split; [apply sent_nothing|done..]).
  cbn [tx_rounds]. do 2 u_step. destruct (tx_msg_pending_list p) as [|m ms] eqn:Hp.
  { apply wp_ret. eapply HQ; [done|]. left. by apply todo_nil. }
  destruct full.
  { apply wp_ret. eapply HQ; [done|]. right. rewrite blen_nil. lia. }
  destruct Hk as [Hk Hcc]. pose proof (u_slack_nonneg r) as Hs0. simpl in Hk. apply wp_bind. unfold send_chars.
  eapply wp_mono; [apply (wp_send_finish n _ (fits_user n s u Hf) m ms p r _ c
    (λ a _ s1, wp (tx_rounds k n a.1 a.2) Q s1)); [done..|]|].
  2:{ intros [c1 f1] s1 H. by apply wp_bind. }
  intros u1 full p1 r1 out Hd Ho Hcase. pose proof (td_sent _ _ _ _ _ Hd) as [[_ _ Hcn Hsl] _].
  pose proof (u_slack_nonneg r1). pose proof (td_cnt _ _ _ _ _ Hd). pose proof (blen_nonneg out).
  pose proof (td_msgs _ _ _ _ _ Hd). cbn [fst snd].
  change (set_user u1 (set_user u s)) with (set_user u1 s).
  apply IH; [apply Hd|done|lia| |].
  - destruct full; [lia|]. destruct Hcase as [?|[? ->]]; lia.
  - intros u2 p2 r2 out2 Hd2 Hor. apply (HQ u2 p2 r2 (out ++ out2)); [by eapply tx_done_trans|].
    rewrite blen_app. destruct Hor; [by left|right]. lia.
Qed.

Lemma wp_tx_chars n s (Hf : has_port n s) p r (Q : unit → St → Prop) :
  tx_inv p → u_txcnt r <= 16 → (msgs p < loops)%nat → u_slack r <= u_txcnt r + 15 →
  (tx_msg_pending_list p = [] → Q tt (at_port n (port_sem_release p) r s)) →
  (∀ u p' r' out, tx_msg_pending_list p ≠ [] → tx_done p r p' r' out →
    todo p' = [] ∨ 16 <= u_txcnt r + blen out → Q tt (at_port n p' r' (set_user u s))) →
  wp (tls_uart_tx_chars n) Q (at_port n p r s).
Proof.
  intros Hi Hc Hk Hs H0 HQ. unfold tls_uart_tx_chars. do 2 u_step.
  destruct (tx_msg_pending_list p) as [|m ms] eqn:Hp; [by apply wp_on_port, H0|].
  rewrite <- (set_user_self s) at 1. apply wp_tx_rounds; [done..| |].
  - rewrite Hp. unfold msgs in Hk. rewrite Hp in Hk. simpl in *. lia.
  - intros. by eapply HQ.
Qed.
End transmit.

(** ** What is received *)

(** The queue after the characters [cs] and those left in the FIFO, for ports 0
    and 2: once there are two places left, a port without flow control loses
    one character and leaves the others, one with flow control takes one more. *)
Fixpoint rx_take (hw : bool) (q cs : list Z) : list Z * list Z :=
  match cs with
  | [] => (q, [])
  | c :: cs =>
      if blen q <? 4093 then rx_take hw (q ++ [c]) cs
      else (if hw then if blen q <? 4095 then q ++ [c] else [] else q, cs)
  end.

Section receive.
Context {R U : Type} `{!UartRegs R, !UartRegsOk R, !UartEnv R U, !UartEnvOk R U}.
Notation St := (uarts R U).
Implicit Type s : St.
Implicit Type p : tls_uart_port.
Implicit Type r : R.

Lemma set_recv_self p : set_recv (recv p) p = p.
Proof. by destruct p. Qed.

Lemma wp_ring_insert n s (Hf : has_port n s) ch p r (Q : unit → St → Prop) : is_u8 ch → ring_ok (recv p) →
  (∀ c', ring_put ch (recv p) = Some c' → ring_ok c' →
    rqueue c' = (if blen (rqueue (recv p)) <? 4095 then rqueue (recv p) ++ [ch] else []) →
    head c' = ring_next (head (recv p)) 1 →
    Q tt (at_port n (set_recv c' p) r s)) →
  wp (ring_insert n ch) Q (at_port n p r s).
Proof.
  intros Hch Hr HQ. destruct (ring_put_ok ch (recv p) Hr Hch) as (c' & Hc & Hok & Hh & _ & _ & Hq).
  unfold ring_insert. do 3 u_step. eapply wp_of_opt; [exact Hc|]. apply wp_on_port; [done|].
  apply HQ; [done..|]. by rewrite ring_next_mod.
Qed.

(** A character comes out of the FIFO. *)
Lemma read_rxw r c cs : u_rx r = c :: cs →
  u8 (reg_rd UR_RXW r).1 = c ∧ is_u8 c ∧ u_rx (reg_rd UR_RXW r).2 = cs.
Proof.
  intros Hr. destruct (rd_rxw r c cs Hr) as [-> H2]. pose proof (u_rx_ok r) as Hok. rewrite Hr in Hok.
  inversion Hok; subst. split; [by apply u8_id|done].
Qed.

Definition rx_err (intr : Z) : bool := truth (Z.land intr UART_RX_ERR_INT_FLAG).

Lemma wp_rx_loop n s (Hf : has_port n s) intr rest cs : ∀ p r l (Q : Z → St → Prop),
  u_rx r = cs ++ rest → ring_ok (recv p) → uart_no p ≠ TLS_UART_1 →
  (∀ c' r' l', ring_ok c' → line_by r r' [] →
    (rqueue c', u_rx r') = (if rx_err intr then (rqueue (recv p), rest) else
      let '(q, more) := rx_take (fcStatus p =? 1) (rqueue (recv p)) cs in (q, more ++ rest)) →
    Q l' (at_port n (set_recv c' p) r' s)) →
  wp (rx_loop (length cs) n intr l) Q (at_port n p r s).
Proof.
  induction cs as [|c cs IH]; intros p r l Q Hrx Hok Hn HQ; simpl length; cbn [rx_loop].
  { apply wp_ret. rewrite <- (set_recv_self p). apply HQ; [done|apply line_nothing|].
    simpl in *. rewrite Hrx. by case_match. }
  destruct (read_rxw r c (cs ++ rest) Hrx) as (Hv & Hc & Hrx1). do 2 u_step. rewrite Hv.
  pose proof (line_rd UR_RXW r) as Hl1. fold (rx_err intr). destruct (rx_err intr).
  - do 2 u_step. match goal with |- wp _ _ (at_port _ _ ?x _) => set (r2 := x) end.
    assert (sent_by (reg_rd UR_RXW r).2 r2 []) as [Hl2 Hrx2] by by apply sent_rmw.
    apply IH; [congruence|done..|]. intros c' r' l' Hok' Hl' E. apply HQ; [done| |done].
    apply (line_trans _ _ _ [] [] (line_trans _ _ _ [] [] Hl1 Hl2) Hl').
  - do 2 u_step. rewrite CIRC_SPACE_ring. pose proof (blen_queue (recv p)) as Hbq. cbn [rx_take] in HQ.
    pose proof (ring_cnt_range (recv p)). replace (4095 - ring_cnt (recv p) <=? 2) with
      (negb (blen (rqueue (recv p)) <? 4093)) by lia.
    destruct (blen (rqueue (recv p)) <? 4093) eqn:Hlt; simpl negb; cbn iota.
    + u_step. apply wp_ring_insert; [done..|]. intros c1 _ Hok1 Hq1 _.
      replace (blen _ <? 4095) with true in Hq1 by lia.
      apply IH; [done..|]. intros c' r' l' Hok' Hl' E. apply HQ; [done| |].
      * apply (line_trans _ _ _ [] [] Hl1 Hl').
      * simpl in E. by rewrite <- Hq1.
    + replace (TLS_UART_FLOW_CTRL_HARDWARE =? fcStatus p) with (fcStatus p =? 1) by (apply Z.eqb_sym).
      destruct (fcStatus p =? 1).
      * u_step. unfold tls_set_uart_rx_status. rewrite (proj2 (Z.eqb_neq TLS_UART_1 (uart_no p))) by done.
        do 2 u_step. apply wp_ring_insert; [done..|]. intros c1 _ Hok1 Hq1 _. u_step.
        apply HQ; [done..|]. by rewrite Hq1, Hrx1.
      * u_step. rewrite <- (set_recv_self p). apply HQ; [done..|]. by rewrite Hrx1.
Qed.

Lemma last_next (c ch : Z) cs : List.last (c :: cs) ch = List.last cs c.
Proof.
  revert c ch. induction cs as [|d cs IH]; intros c ch; [done|].
  change (List.last (d :: cs) ch = List.last (d :: cs) c). by rewrite !IH.
Qed.

(** Port 1 takes all of them: there is room for more than the FIFO holds. *)
Lemma wp_rx1_loop s (Hf : has_port 1 s) intr rest cs : ∀ p r ch (Q : Z → St → Prop),
  u_rx r = cs ++ rest → ring_ok (recv p) → blen (rqueue (recv p)) + blen cs <= 4095 →
  (∀ c' r', ring_ok c' → line_by r r' [] → u_rx r' = rest →
    rqueue c' = (if rx_err intr then rqueue (recv p) else rqueue (recv p) ++ cs) →
    head c' = ring_next (head (recv p)) (if rx_err intr then 0 else blen cs) →
    Q (List.last cs ch) (at_port 1 (set_recv c' p) r' s)) →
  wp (rx1_loop (length cs) intr ch) Q (at_port 1 p r s).
Proof.
  induction cs as [|c cs IH]; intros p r ch Q Hrx Hok Hb HQ; simpl length; cbn [rx1_loop].
  { apply wp_ret. rewrite <- (set_recv_self p). apply HQ; [done|apply line_nothing|done| |].
    - rewrite app_nil_r. by case_match.
    - replace (if rx_err intr then 0 else blen []) with 0 by by destruct (rx_err intr).
      rewrite ring_next_0; [done|apply Hok]. }
  destruct (read_rxw r c (cs ++ rest) Hrx) as (Hv & Hc & Hrx1). do 2 u_step. rewrite Hv. u_step.
  pose proof (line_rd UR_RXW r) as Hl1. fold (rx_err intr).
  assert (blen (c :: cs) = 1 + blen cs) as Hcs by (unfold blen; simpl; lia).
  pose proof (blen_nonneg cs).
  rewrite last_next in HQ. destruct (rx_err intr).
  - u_step. match goal with |- wp _ _ (at_port _ _ ?x _) => set (r2 := x) end.
    assert (sent_by (reg_rd UR_RXW r).2 r2 []) as [Hl2 Hrx2] by by apply sent_rmw.
    apply IH; [congruence|done|lia|]. intros c' r' Hok' Hl' E Hq Hh. apply HQ; [done| |done..].
    apply (line_trans _ _ _ [] [] (line_trans _ _ _ [] [] Hl1 Hl2) Hl').
  - apply wp_ring_insert; [done..|]. intros c1 _ Hok1 Hq1 Hh1. replace (blen _ <? 4095) with true in Hq1 by lia.
    apply IH; [done..| |].
    { simpl. rewrite Hq1, blen_app, blen_1. lia. }
    intros c' r' Hok' Hl' E Hq Hh. apply HQ; [done| |done| |].
    + apply (line_trans _ _ _ [] [] Hl1 Hl').
    + simpl in Hq. by rewrite Hq, Hq1, <- app_assoc.
    + simpl in Hh. by rewrite Hh, Hh1, ring_next_next, Hcs.
Qed.
End receive.

(** ** The handlers *)

Section handlers.
Context {R U : Type} `{!UartRegs R, !UartRegsOk R, !UartEnv R U, !UartEnvOk R U}.
Notation St := (uarts R U).
Implicit Type s : St.
Implicit Type p : tls_uart_port.
Implicit Type r : R.

(** Waiters of a port are released, never the opposite. *)
Definition sem_le p p' : Prop :=
  match tx_sem p, tx_sem p' with
  | Some c, Some c' => c <= c'
  | None, None => True
  | _, _ => False
  end.
Definition sem_lt p p' : Prop :=
  match tx_sem p, tx_sem p' with Some c, Some c' => c < c' | None, None => True | _, _ => False end.

(** What the end of a handler leaves as it is, and what it does. *)
Definition tail_frame p : tls_uart_port := set_hw_stopped 0 (set_tx_sem None (tx_frame p)).
Record tail_done p r p' r' (out : list Z) : Prop := {
  ta_sent : sent_by r r' out;
  ta_cnt : u_txcnt r' <= 16;
  ta_todo : todo p = out ++ todo p';
  ta_inv : tx_inv p';
  ta_frame : tail_frame p' = tail_frame p;
  ta_msgs : (msgs p' ≤ msgs p)%nat;
  ta_sem : sem_le p p';
}.
Lemma sem_le_refl p : sem_le p p.
Proof. unfold sem_le. destruct (tx_sem p); lia || done. Qed.
Lemma tail_refl p r : tx_inv p → u_txcnt r <= 16 → tail_done p r p r [].
Proof. intros. split; try done; [apply sent_nothing|apply sem_le_refl]. Qed.
Lemma tail_trans p r p1 r1 p2 r2 o1 o2 :
  tail_done p r p1 r1 o1 → tail_done p1 r1 p2 r2 o2 → tail_done p r p2 r2 (o1 ++ o2).
Proof.
  intros [H1 H2 H3 H4 H5 H6 H7] [K1 K2 K3 K4 K5 K6 K7].
  split; [by eapply sent_trans|done| |done|congruence|lia|].
  - by rewrite H3, K3, app_assoc.
  - unfold sem_le in *. destruct (tx_sem p), (tx_sem p1), (tx_sem p2); lia || done.
Qed.
Lemma tail_of_tx p r p' r' out : tx_done p r p' r' out → tail_done p r p' r' out.
Proof.
  intros [H1 H2 H3 H4 H5 H6]. split; try done.
  - unfold tail_frame. by rewrite H5.
  - unfold sem_le. replace (tx_sem p') with (tx_sem p); [destruct (tx_sem p); lia || done|].
    change (tx_sem (tx_frame p) = tx_sem (tx_frame p')). by rewrite H5.
Qed.
Lemma tail_release p r : tx_inv p → u_txcnt r <= 16 →
  tail_done p r (port_sem_release p) r [] ∧ sem_lt p (port_sem_release p).
Proof.
  intros Hi Hc. unfold port_sem_release. destruct (tx_sem p) eqn:E.
  - split; [split; try done; [apply sent_nothing|]|]; unfold sem_le, sem_lt; rewrite E; simpl; lia.
  - split; [by apply tail_refl|]. unfold sem_lt. by rewrite E.
Qed.
Lemma tail_line p r r1 : tx_inv p → u_txcnt r <= 16 → sent_by r r1 [] → tail_done p r p r1 [].
Proof.
  intros Hi Hc H. split; try done; [|apply sem_le_refl].
  destruct H as [[_ _ H _] _]. rewrite blen_nil in H. lia.
Qed.

(** Progress of a transmission interrupt. *)
Definition tx_served p r p' (out : list Z) : Prop :=
  (todo p' = [] ∨ 16 <= u_txcnt r + blen out) ∧ (tx_msg_pending_list p = [] → sem_lt p p').

Lemma wp_tx_served n s (Hf : has_port n s) p r (Q : unit → St → Prop) :
  tx_inv p → u_txcnt r <= 16 → (msgs p < loops)%nat → u_slack r <= u_txcnt r + 15 →
  (∀ u p' r' out, tail_done p r p' r' out → tx_served p r p' out → Q tt (at_port n p' r' (set_user u s))) →
  wp (tls_uart_tx_chars n) Q (at_port n p r s).
Proof.
  intros Hi Hc Hk Hs HQ. apply wp_tx_chars; [done..| |].
  - intros Hp. destruct (tail_release p r Hi Hc) as [Ht Hl]. rewrite <- (set_user_self s).
    apply (HQ _ _ _ []); [done|]. split; [|done]. left. apply todo_nil.
    unfold port_sem_release. by destruct (tx_sem p).
  - intros u p' r' out Hp Hd Hor. apply (HQ _ _ _ out); [by apply tail_of_tx|]. by split.
Qed.

Lemma wp_cts_change n s (Hf : has_port n s) status p r (Q : unit → St → Prop) :
  tx_inv p → u_txcnt r <= 16 → (msgs p < loops)%nat → u_slack r <= u_txcnt r + 15 →
  (∀ u p' r' out, tail_done p r p' r' out → Q tt (at_port n p' r' (set_user u s))) →
  wp (uart_handle_cts_change n status) Q (at_port n p r s).
Proof.
  intros Hi Hc Hk Hs HQ. unfold uart_handle_cts_change. do 2 u_step.
  assert (Q tt (at_port n p r s)) as H0.
  { rewrite <- (set_user_self s). apply (HQ _ _ _ []). by apply tail_refl. }
  destruct (_ && _ && _)%bool; [|by u_step]. case_if.
  - case_if; [|by u_step]. do 2 u_step. unfold tls_uart_tx_enable. do 2 u_step.
    match goal with |- wp _ _ (at_port _ ?y ?x _) => set (r1 := x); set (p1 := y) end.
    assert (sent_by r r1 []) as H1 by by apply sent_rmw.
    assert (tail_done p r p1 r1 []) as Ht.
    { destruct (tail_line p r r1 Hi Hc H1) as [K1 K2 K3 K4 K5 K6 K7]. by split. }
    destruct H1 as [[_ _ H2 H3] _]. rewrite blen_nil in *. apply wp_tx_served; try done; [lia|lia|].
    intros u p' r' out Hd _. apply (HQ _ _ _ out). by apply (tail_trans _ _ _ _ _ _ [] _ Ht).
  - case_if; [by u_step|]. do 2 u_step. unfold tls_uart_tx_disable. u_step. rewrite <- (set_user_self s).
    match goal with |- context [at_port _ _ ?x _] => set (r1 := x) end.
    apply (HQ _ _ _ []). assert (sent_by r r1 []) as H1 by by apply sent_rmw.
    destruct (tail_line p r r1 Hi Hc H1) as [K1 K2 K3 K4 K5 K6 K7]. by split.
Qed.

Lemma wp_irq_tail n s (Hf : has_port n s) intr p r (Q : unit → St → Prop) :
  tx_inv p → u_txcnt r <= 16 → (msgs p < loops)%nat → u_slack r <= u_txcnt r + 15 →
  (∀ u p' r' out, tail_done p r p' r' out →
    (truth (Z.land intr UART_TX_INT_FLAG) = true → tx_served p r p' out) → Q tt (at_port n p' r' (set_user u s))) →
  wp (irq_tail n intr) Q (at_port n p r s).
Proof.
  intros Hi Hc Hk Hs HQ. unfold irq_tail. u_step.
  apply (wp_mono _ (λ _ s', ∃ u p' r' out, s' = at_port n p' r' (set_user u s) ∧ tail_done p r p' r' out ∧
    (truth (Z.land intr UART_TX_INT_FLAG) = true → tx_served p r p' out))).
  { destruct (truth (Z.land intr UART_TX_INT_FLAG)).
    - apply wp_tx_served; [done..|]. eauto 10.
    - u_step. eexists _, p, r, []. split; [by rewrite (set_user_self s)|]. split; [by apply tail_refl|done]. }
  intros _ s' (u & p1 & r1 & out & -> & Hd & Hserved). case_if; [|by u_step; apply (HQ _ _ _ out)].
  do 2 u_step. pose proof (sent_rd UR_FIFOS r1 ltac:(done)) as H1. destruct Hd as [K1 K2 K3 K4 K5 K6 K7].
  pose proof (tail_line p1 r1 _ K4 K2 H1) as Hl. pose proof (ta_cnt _ _ _ _ _ Hl) as Hc2.
  destruct H1 as [[_ _ H2 H3] _]. rewrite blen_nil in *. pose proof (lb_slack _ _ _ (proj1 K1)).
  pose proof (blen_nonneg out).
  apply wp_cts_change; try done; [lia|lia|].
  intros u' p' r' out' Hd'. apply (HQ _ _ _ (out ++ out')).
  - eapply tail_trans; [by split|]. apply (tail_trans _ _ _ _ _ _ [] _ Hl Hd').
  - intros HE. destruct (Hserved HE) as [Ho Hsem]. split.
    + rewrite blen_app. pose proof (blen_nonneg out'). destruct Ho as [Ho|Ho]; [left|right; lia].
      pose proof (ta_todo _ _ _ _ _ Hd') as Ht. rewrite Ho in Ht. by destruct out', (todo p').
    + intros Hp. specialize (Hsem Hp). pose proof (ta_sem _ _ _ _ _ Hd'). unfold sem_lt, sem_le in *.
      destruct (tx_sem p), (tx_sem p1), (tx_sem p'); lia || done.
Qed.

(** The beginning of a handler. *)
Definition rx_due (intr : Z) r : bool :=
  truth (Z.land intr UART_RX_INT_FLAG) && (0 =? Z.land (u_intm r) UIS_RX_FIFO).

Lemma wp_irq_source n s (Hf : has_port n s) p r (Q : Z → St → Prop) :
  (∀ r1, sent_by r r1 [] → Q (u_ints r) (at_port n p r1 s)) → wp (irq_source n) Q (at_port n p r s).
Proof. intros HQ. unfold irq_source. do 5 u_step. rewrite rd_ints. apply HQ. by apply sent_rmw. Qed.
Lemma wp_irq_overrun n s (Hf : has_port n s) intr p r (Q : unit → St → Prop) :
  (∀ r1, sent_by r r1 [] → Q tt (at_port n p r1 s)) → wp (irq_overrun n intr) Q (at_port n p r s).
Proof.
  intros HQ. unfold irq_overrun. case_if; [|u_step; apply HQ, sent_nothing]. do 4 u_step.
  case_if; [|u_step; apply HQ; by apply sent_rmw]. do 3 u_step. apply HQ.
  do 2 (eapply (sent_trans _ _ _ [] []); [|by apply sent_rmw]). by apply sent_rmw.
Qed.
Lemma wp_rx_pending n s (Hf : has_port n s) intr p r (Q : option Z → St → Prop) :
  (∀ r1, sent_by r r1 [] → Q (if rx_due intr r then Some (blen (u_rx r)) else None) (at_port n p r1 s)) →
  wp (rx_pending n intr) Q (at_port n p r s).
Proof.
  intros HQ. unfold rx_pending, rx_due in *. destruct (truth _); cbn [andb] in HQ; [|u_step; apply HQ, sent_nothing].
  do 2 u_step. rewrite rd_intm. pose proof (sent_rd UR_INTM r ltac:(done)) as H1.
  destruct (0 =? _); [|u_step; by apply HQ]. do 3 u_step.
  destruct (rd_fifos (reg_rd UR_INTM r).2) as [_ Hv]. rewrite Hv, rd_rx by done.
  apply HQ, (sent_trans _ _ _ [] [] H1). by apply sent_rd.
Qed.
Lemma wp_run_rx_callback n s (Hf : has_port n s) len p r (Q : unit → St → Prop) :
  (∀ u, Q tt (at_port n p r (set_user u s))) → wp (run_rx_callback n len) Q (at_port n p r s).
Proof.
  intros HQ. unfold run_rx_callback. do 2 u_step. destruct (rx_callback p).
  - eapply wp_mono; [apply call_rx_ok|]. intros [] s' ->%same_put. apply HQ.
  - u_step. rewrite <- (set_user_self s). apply HQ.
Qed.

(** A port that works: its ring, its messages, room in its FIFO; and the
    handlers of it end when they have enough rounds and fewer than 16 characters
    leave the FIFO while one runs. *)
Definition port_ok n p r : Prop :=
  uart_no p = n ∧ ring_ok (recv p) ∧ tx_inv p ∧ u_txcnt r <= 16.
Definition swift p r : Prop := (msgs p < loops)%nat ∧ u_slack r <= u_txcnt r + 15.

Definition irq_frame p : tls_uart_port := set_recv (mk_circ [] 0 0) (set_plus_char_cnt 0 (tail_frame p)).
Record irq_done p r p' r' (out q more : list Z) : Prop := {
  iq_line : line_by r r' out;
  iq_cnt : u_txcnt r' <= 16;
  iq_todo : todo p = out ++ todo p';
  iq_inv : tx_inv p';
  iq_frame : irq_frame p' = irq_frame p;
  iq_msgs : (msgs p' ≤ msgs p)%nat;
  iq_sem : sem_le p p';
  iq_ring : ring_ok (recv p');
  iq_queue : rqueue (recv p') = q;
  iq_rx : u_rx r' = more;
}.
Lemma tail_irq c' plus p r r1 p' r' out : let p1 := set_recv c' (set_plus_char_cnt plus p) in
  ring_ok c' → line_by r r1 [] → tail_done p1 r1 p' r' out →
  irq_done p r p' r' out (rqueue c') (u_rx r1) ∧ plus_char_cnt p' = plus.
Proof.
  intros p1 Hc Hl [K1 K2 K3 K4 K5 K6 K7].
  assert (recv p' = c') as Er by (change (recv (tail_frame p') = recv (tail_frame p1)); by rewrite K5).
  split; [|change (plus_char_cnt (tail_frame p') = plus_char_cnt (tail_frame p1)); by rewrite K5].
  split; [|done|done|done| |done|done|by rewrite Er|by rewrite Er|apply K1].
  - apply (line_trans _ _ _ [] _ Hl), K1.
  - unfold irq_frame. by rewrite K5.
Qed.

Lemma irq_port_ok n p r p' r' out q more : port_ok n p r → irq_done p r p' r' out q more → port_ok n p' r'.
Proof.
  intros (Hno & _) Hd. destruct Hd. split; [|done]. rewrite <- Hno.
  change (uart_no (irq_frame p') = uart_no (irq_frame p)). congruence.
Qed.

Definition rx_result (hw : bool) (intr : Z) p r : list Z * list Z :=
  if rx_due intr r then
    if rx_err intr then (rqueue (recv p), []) else rx_take hw (rqueue (recv p)) (u_rx r)
  else (rqueue (recv p), u_rx r).

Lemma blen_nat l : Z.to_nat (blen l) = length l.
Proof. unfold blen. lia. Qed.

(** Ports 0 and 2: the part before the end of the handler. *)
Lemma wp_rx_part n s (Hf : has_port n s) intr p r (k : Z → M St unit) (Q : unit → St → Prop) :
  port_ok n p r → n ≠ 1 →
  (∀ l p1 r1 (P : unit → St → Prop), (∀ u, P tt (at_port n p1 r1 (set_user u s))) → wp (k l) P (at_port n p1 r1 s)) →
  (∀ u c' r1, ring_ok c' → line_by r r1 [] →
    (rqueue c', u_rx r1) = rx_result (fcStatus p =? 1) intr p r →
    Q tt (at_port n (set_recv c' p) r1 (set_user u s))) →
  wp (let* cnt := rx_pending n intr in
      match cnt with
      | Some rx_fifocnt => let* rxlen := rx_loop (Z.to_nat rx_fifocnt) n intr 0 in k rxlen
      | None => ret tt
      end)%C Q (at_port n p r s).
Proof.
  intros (Hno & Hr & _) Hn Hk HQ. u_step. apply wp_rx_pending; [done|]. intros r1 [Hl1 Hx1].
  unfold rx_result in HQ. destruct (rx_due intr r).
  - u_step. rewrite blen_nat, <- Hx1. apply (wp_rx_loop n s Hf intr []).
    + by rewrite app_nil_r.
    + done.
    + unfold TLS_UART_1. congruence.
    + intros c' r' l' Hc Hl E. apply Hk. intros u. apply HQ; [done|apply (line_trans _ _ _ [] [] Hl1 Hl)|].
      rewrite E, Hx1. destruct (rx_err intr); [done|]. destruct (rx_take _ _ _). by rewrite app_nil_r.
  - u_step. rewrite <- (set_user_self s), <- (set_recv_self p). apply HQ; [done..|]. by rewrite Hx1.
Qed.

Lemma swift_line p r r1 : tx_inv p → u_txcnt r <= 16 → swift p r → line_by r r1 [] →
  u_txcnt r1 <= 16 ∧ swift p r1.
Proof. intros Hi Hc [H1 H2] [_ _ H3 H4]. rewrite blen_nil in *. repeat split; [lia|done|lia]. Qed.

Lemma bind_bind {S A B D} (m : M S A) (k : A → M S B) (f : B → M S D) (s : S) :
  bind (bind m k) f s = bind m (λ a, bind (k a) f) s.
Proof. unfold bind. by destruct (m s) as [[? ?]|]. Qed.

(** The handlers of ports 0 and 2 from the first look at the receive FIFO on;
    [k] is what they do with the number of characters. *)
Lemma wp_rx_tail n s (Hf : has_port n s) k p r r0 (Q : unit → St → Prop) : n ≠ 1 →
  port_ok n p r → swift p r → sent_by r r0 [] →
  (∀ l p1 r1 (P : unit → St → Prop), (∀ u, P tt (at_port n p1 r1 (set_user u s))) → wp (k l) P (at_port n p1 r1 s)) →
  (∀ u p' r' out q more, rx_result (fcStatus p =? 1) (u_ints r) p r = (q, more) →
    irq_done p r p' r' out q more →
    (truth (Z.land (u_ints r) UART_TX_INT_FLAG) = true → tx_served p r p' out) →
    Q tt (at_port n p' r' (set_user u s))) →
  wp (let* cnt := rx_pending n (u_ints r) in
      (match cnt with
       | Some rx_fifocnt => let* rxlen := rx_loop (Z.to_nat rx_fifocnt) n (u_ints r) 0 in k rxlen
       | None => ret tt
       end) ;; irq_tail n (u_ints r))%C Q (at_port n p r0 s).
Proof.
  intros Hn (Hno & Hr & Hi & Hc) Hsw [Hl0 Hx0] Hk HQ.
  destruct (swift_line p r r0 Hi Hc Hsw Hl0) as [Hc0 Hsw0]. eapply wp_same; [symmetry; apply bind_bind|]. u_step.
  apply wp_rx_part; [done|by split|done|done|]. intros u c' r1 Hc' Hl1 E.
  assert (rx_due (u_ints r) r0 = rx_due (u_ints r) r) as Hd by (unfold rx_due; by rewrite (lb_intm _ _ _ Hl0)).
  assert (rx_result (fcStatus p =? 1) (u_ints r) p r = (rqueue c', u_rx r1)) as Hres.
  { rewrite E. unfold rx_result. by rewrite Hd, Hx0. }
  pose proof (line_trans _ _ _ [] [] Hl0 Hl1) as Hl. simpl in Hl.
  destruct (swift_line p r r1 Hi Hc Hsw Hl) as [Hc1 Hsw1].
  apply wp_irq_tail; [by eauto with uart|done|done|apply Hsw1|apply Hsw1|].
  intros u' p' r' out Ht Hs.
  destruct (tail_irq c' (plus_char_cnt p) p r r1 p' r' out) as [Hd' _]; [done|done| |].
  { by replace (set_plus_char_cnt (plus_char_cnt p) p) with p by by destruct p. }
  apply (HQ _ _ _ out _ _ Hres Hd'). intros Htx. destruct (Hs Htx) as [Ho Hsem]. split; [|done].
  destruct Ho as [Ho|Ho]; [by left|right]. destruct Hl as [_ _ Hcn _]. rewrite blen_nil in Hcn. lia.
Qed.

Lemma wp_irq02 n s (Hf : has_port n s) p r (Q : unit → St → Prop) : n = 0 ∨ n = 2 →
  port_ok n p r → swift p r →
  (∀ u p' r' out q more, rx_result (fcStatus p =? 1) (u_ints r) p r = (q, more) →
    irq_done p r p' r' out q more →
    (truth (Z.land (u_ints r) UART_TX_INT_FLAG) = true → tx_served p r p' out) →
    Q tt (at_port n p' r' (set_user u s))) →
  wp (if n =? 0 then UART0_IRQHandler else UART2_IRQHandler) Q (at_port n p r s).
Proof.
  intros [-> | ->] Hok Hsw HQ; simpl Z.eqb; cbn iota.
  - unfold UART0_IRQHandler. u_step. apply wp_irq_source; [done|]. intros r1 H1.
    apply (wp_rx_tail 0 s Hf (λ l, run_rx_callback 0 l)); [done..| |done].
    intros. by apply wp_run_rx_callback.
  - unfold UART2_IRQHandler. u_step. apply wp_irq_source; [done|]. intros r1 H1.
    u_step. apply wp_irq_overrun; [done|]. intros r2 H2.
    apply (wp_rx_tail 2 s Hf (λ l, if truth l then run_rx_callback 2 l else ret tt)); [done..| | |done].
    + apply (sent_trans _ _ _ [] [] H1 H2).
    + intros l p1 r3 P HP. case_if; [by apply wp_run_rx_callback|u_step]. rewrite <- (set_user_self s). apply HP.
Qed.

(** ** Port 1 *)

(** The queue as the handler of port 1 leaves it: the 128 oldest characters go
    when not more than 128 places are free. *)
Definition make_room (q : list Z) : list Z := if 4095 - blen q <=? RX_CACHE_LIMIT then drop 128 q else q.
Definition rx1_result (intr : Z) p r : list Z * list Z :=
  if rx_due intr r then
    (make_room (rqueue (recv p)) ++ (if rx_err intr then [] else u_rx r), [])
  else (rqueue (recv p), u_rx r).

Lemma byte_at_head c i : ring_ok c → 0 < i <= ring_cnt c →
  byte_at (cbuf c) ((head c - i) mod TLS_UART_RX_BUF_SIZE) = byte_at (rqueue c) (blen (rqueue c) - i).
Proof.
  intros Hc Hi. rewrite blen_queue, byte_at_queue by (done || lia). f_equal.
  unfold ring_cnt, TLS_UART_RX_BUF_SIZE in *. dlia.
Qed.
Lemma two_plus_ok c i j a b : byte_at (cbuf c) i = Some a → byte_at (cbuf c) j = Some b →
  two_plus c i j = Some ((a =? 43) && (b =? 43)).
Proof. unfold two_plus. intros -> ->. simpl. by destruct (a =? 43). Qed.
(** The two places before the last character, if the head is not at 0. *)
Lemma plus_before_at c : ring_ok c → head c ≠ 0 → plus_before c =
  two_plus c ((head c - 2) mod TLS_UART_RX_BUF_SIZE) ((head c - 3) mod TLS_UART_RX_BUF_SIZE).
Proof.
  intros (_ & _ & Hh & _) H0. unfold plus_before, TLS_UART_RX_BUF_SIZE in *.
  assert (u32 (head c - 1) = head c - 1) as -> by ints. case_if.
  { by replace (head c) with 1 by lia. }
  case_if; [by replace (head c) with 2 by lia|]. f_equal; ints.
Qed.
Lemma plus_before_queue c q a b x : ring_ok c → head c ≠ 0 → rqueue c = q ++ [a; b; x] →
  plus_before c = Some ((b =? 43) && (a =? 43)).
Proof.
  intros Hc H0 Hq. rewrite plus_before_at by done.
  assert (blen (rqueue c) = blen q + 3) as Hl by (rewrite Hq, blen_app; done).
  pose proof (blen_nonneg q). pose proof (blen_queue c).
  apply two_plus_ok; rewrite byte_at_head by (done || lia); rewrite Hq, blen_app.
  - replace (blen q + _ - 2) with (blen q + 1) by (change (blen [a; b; x]) with 3; lia). by rewrite byte_at_pre.
  - replace (blen q + _ - 3) with (blen q + 0) by (change (blen [a; b; x]) with 3; lia). by rewrite byte_at_pre.
Qed.
Lemma plus_before_def c : ring_ok c → head c ≠ 0 → ∃ b, plus_before c = Some b.
Proof.
  intros Hc H0. rewrite plus_before_at by done. destruct Hc as (Hb & _).
  destruct (byte_at_is_Some (cbuf c) ((head c - 2) mod TLS_UART_RX_BUF_SIZE)) as [a Ha];
    [rewrite Hb; unfold TLS_UART_RX_BUF_SIZE; dlia|].
  destruct (byte_at_is_Some (cbuf c) ((head c - 3) mod TLS_UART_RX_BUF_SIZE)) as [b Hb'];
    [rewrite Hb; unfold TLS_UART_RX_BUF_SIZE; dlia|].
  rewrite (two_plus_ok _ _ _ a b) by done. eauto.
Qed.
(** With the head at 0 the characters are looked for in front of the buffer. *)
Lemma plus_before_0 c : ring_ok c → head c = 0 → plus_before c = None.
Proof.
  intros (Hb & _) H0. unfold plus_before, two_plus. rewrite H0.
  change (u32 (0 - 1) =? 0) with false. change (u32 (0 - 1) =? 1) with false. cbn iota.
  by rewrite (byte_at_None _ (u32 (0 - 2))) by (rewrite Hb; by apply Z.leb_le).
Qed.

Lemma make_room_len q : blen q <= 4095 → blen (make_room q) + 63 <= 4095.
Proof.
  intros Hq. unfold make_room, RX_CACHE_LIMIT. case_if; [|lia]. unfold blen in *. rewrite length_drop. lia.
Qed.

(** The characters taken by port 1, with the detection of [+++]. *)
Definition plus_result (intr : Z) p r : Z :=
  if rx_due intr r then if bool_decide (u_rx r = [43; 43; 43]) then 3 else 0 else plus_char_cnt p.
(** The head of the ring after them is not at 0 when three came, the last a plus. *)
Definition plus_safe (intr : Z) p r : Prop :=
  rx_due intr r = true → ∀ a b, u_rx r = [a; b; 43] → ring_next (head (recv p)) (if rx_err intr then 0 else 3) ≠ 0.

Lemma drop_128 c : ring_ok c → blen (rqueue c) <= 4095 ∧
  let c1 := if CIRC_SPACE (head c) (tail c) TLS_UART_RX_BUF_SIZE <=? RX_CACHE_LIMIT
            then set_tail (ring_next (tail c) RX_CACHE_LIMIT) c else c in
  ring_ok c1 ∧ rqueue c1 = make_room (rqueue c) ∧ head c1 = head c.
Proof.
  intros Hc. pose proof (ring_cnt_range c). rewrite blen_queue. split; [lia|]. rewrite CIRC_SPACE_ring.
  unfold make_room. rewrite blen_queue. unfold RX_CACHE_LIMIT in *. case_if; [|done].
  destruct (ring_drop_ok 128 c Hc) as [H1 H2]; [rewrite blen_queue; lia|]. done.
Qed.

Lemma wp_rx1_part s (Hf : has_port 1 s) intr p r r3 : ring_ok (recv p) → line_by r r3 [] → u_rx r3 = u_rx r →
  (∀ a b, u_rx r = [a; b; 43] → ring_next (head (recv p)) (if rx_err intr then 0 else 3) ≠ 0) →
  wp (rx1_chars intr (blen (u_rx r))) (λ _ s', ∃ u c' plus r4,
    s' = at_port 1 (set_recv c' (set_plus_char_cnt plus p)) r4 (set_user u s) ∧ ring_ok c' ∧ line_by r r4 [] ∧
    (make_room (rqueue (recv p)) ++ (if rx_err intr then [] else u_rx r), []) = (rqueue c', u_rx r4) ∧
    (rx_err intr = false → plus = if bool_decide (u_rx r = [43; 43; 43]) then 3 else 0)) (at_port 1 p r3 s).
Proof.
  intros Hr Hl3 Hx3 Hplus. unfold rx1_chars. do 5 u_step.
  change (recv (set_plus_char_cnt 0 p)) with (recv p).
  destruct (drop_128 (recv p) Hr) as [Hlen Hroom]. cbn zeta in Hroom.
  set (c1 := if CIRC_SPACE _ _ _ <=? RX_CACHE_LIMIT then _ else _) in Hroom. destruct Hroom as (Hc1 & Hq1 & Hh1).
  set (p1 := set_recv c1 (set_plus_char_cnt 0 p)).
  apply (wp_mono _ (λ _ s', s' = at_port 1 p1 r3 s)).
  { unfold p1, c1. case_if; u_step; [done|]. by destruct p. }
  intros [] s' ->. u_step. rewrite blen_nat, <- Hx3. pose proof (u_rx_len r3) as H63. pose proof (make_room_len _ Hlen).
  apply (wp_rx1_loop s Hf intr []); [by rewrite app_nil_r|done|simpl; rewrite Hq1; lia|].
  intros c2 r4 Hc2 Hl4 Hx4 Hq2 Hh2. pose proof (line_trans _ _ _ [] [] Hl3 Hl4) as Hl. simpl in Hl.
  assert (rqueue c2 = make_room (rqueue (recv p)) ++ (if rx_err intr then [] else u_rx r3)) as Hq.
  { rewrite Hq2. simpl. rewrite Hq1. destruct (rx_err intr); [by rewrite app_nil_r|done]. }
  rewrite Hx3 in *. simpl in Hh2. rewrite Hh1 in Hh2. u_step. set (p2 := set_recv c2 p1).
  apply (wp_mono _ (λ _ s', ∃ plus, s' = at_port 1 (set_recv c2 (set_plus_char_cnt plus p)) r4 s ∧
    (rx_err intr = false → plus = if bool_decide (u_rx r = [43; 43; 43]) then 3 else 0))).
  2:{ intros [] s' (plus & -> & Hp). apply wp_run_rx_callback; [done|]. intros u.
      exists u, c2, plus, r4. by rewrite <- Hq, Hx4. }
  rewrite u8_id by (unfold is_u8; pose proof (blen_nonneg (u_rx r)); lia). destruct (_ && _)%bool eqn:E3.
  - apply andb_prop in E3 as [H3 Hch]. apply Z.eqb_eq in H3, Hch.
    destruct (u_rx r) as [|a [|b [|x [|]]]] eqn:Ex; try (unfold blen in H3; simpl in H3; lia).
    simpl in Hch. subst x. specialize (Hplus a b eq_refl). change (blen [a; b; 43]) with 3 in Hh2.
    rewrite <- Hh2 in Hplus. do 3 u_step. change (recv p2) with c2. destruct (rx_err intr).
    + destruct (plus_before_def c2 Hc2 Hplus) as [bb ->]. u_step. destruct bb.
      * apply wp_on_port; [done|]. by exists 3.
      * u_step. by exists 0.
    + rewrite (plus_before_queue c2 _ a b 43 Hc2 Hplus Hq). u_step. destruct (_ && _)%bool eqn:Eab.
      * apply wp_on_port; [done|]. exists 3. split; [done|]. intros _. apply andb_prop in Eab as [?%Z.eqb_eq ?%Z.eqb_eq].
        subst. by rewrite bool_decide_true.
      * u_step. exists 0. split; [done|]. intros _. rewrite bool_decide_false; [done|]. by intros [= -> ->].
  - u_step. exists 0. split; [done|]. intros _. rewrite bool_decide_false; [done|]. intros Ex. by rewrite Ex in E3.
Qed.

Lemma wp_irq1 s (Hf : has_port 1 s) p r (Q : unit → St → Prop) :
  port_ok 1 p r → swift p r → plus_safe (u_ints r) p r →
  (∀ u p' r' out q more, rx1_result (u_ints r) p r = (q, more) →
    irq_done p r p' r' out q more →
    (rx_err (u_ints r) = false → plus_char_cnt p' = plus_result (u_ints r) p r) →
    (truth (Z.land (u_ints r) UART_TX_INT_FLAG) = true → tx_served p r p' out) →
    Q tt (at_port 1 p' r' (set_user u s))) →
  wp UART1_IRQHandler Q (at_port 1 p r s).
Proof.
  intros (Hno & Hr & Hi & Hc) Hsw Hplus HQ. unfold UART1_IRQHandler. u_step.
  apply wp_irq_source; [done|]. intros r1 H1. u_step. apply wp_irq_overrun; [done|]. intros r2 H2.
  u_step. apply wp_rx_pending; [done|]. intros r3 H3.
  pose proof (sent_trans _ _ _ [] [] H1 (sent_trans _ _ _ [] [] H2 H3)) as [Hl3 Hx3]. simpl in Hl3.
  pose proof (sent_trans _ _ _ [] [] H1 H2) as [Hl2 Hx2]. simpl in Hl2.
  replace (rx_due (u_ints r) r2) with (rx_due (u_ints r) r) by (unfold rx_due; by rewrite (lb_intm _ _ _ Hl2)).
  rewrite Hx2. u_step.
  apply (wp_mono _ (λ _ s', ∃ u c' plus r4, s' = at_port 1 (set_recv c' (set_plus_char_cnt plus p)) r4 (set_user u s) ∧
    ring_ok c' ∧ line_by r r4 [] ∧ rx1_result (u_ints r) p r = (rqueue c', u_rx r4) ∧
    (rx_err (u_ints r) = false → plus = plus_result (u_ints r) p r))).
  { unfold rx1_result, plus_result, plus_safe in *. destruct (rx_due (u_ints r) r); [specialize (Hplus eq_refl)|].
    - by apply (wp_rx1_part s Hf (u_ints r) p r r3).
    - u_step. eexists _, (recv p), (plus_char_cnt p), r3. split; [rewrite set_user_self; by destruct p|].
      by rewrite Hx3. }
  intros [] s' (u & c' & plus & r4 & -> & Hc' & Hl4 & Hres & Hp).
  destruct (swift_line p r r4 Hi Hc Hsw Hl4) as [Hc4 Hsw4].
  apply wp_irq_tail; [by eauto with uart|done|done|apply Hsw4|apply Hsw4|].
  intros u' p' r' out Ht Hs.
  destruct (tail_irq c' plus p r r4 p' r' out) as [Hd' Hp']; [done..|].
  apply (HQ _ _ _ out _ _ Hres Hd'); [intros He; by rewrite Hp', (Hp He)|].
  intros Htx. destruct (Hs Htx) as [Ho Hsem]. split; [|done].
  destruct Ho as [Ho|Ho]; [by left|right]. destruct Hl4 as [_ _ Hcn _]. rewrite blen_nil in Hcn. lia.
Qed.
End handlers.

(** ** The calls of a user *)

Definition irq_handler {R U : Type} `{!UartRegs R, !UartEnv R U} (n : Z) : M (uarts R U) unit :=
  if n =? 1 then UART1_IRQHandler else if n =? 0 then UART0_IRQHandler else UART2_IRQHandler.

Section calls.
Context {R U : Type} `{!UartRegs R, !UartRegsOk R, !UartEnv R U, !UartEnvOk R U}.
Notation St := (uarts R U).
Implicit Type s : St.
Implicit Type p : tls_uart_port.
Implicit Type r : R.

Lemma uart_of_port n : 0 <= n <= 2 → uart_of n = Some n.
Proof. intros Hn. unfold uart_of. assert (n = 0 ∨ n = 1 ∨ n = 2) as [-> | [-> | ->]] by lia; done. Qed.

(** A message is queued with a copy of what it sends, or nothing changes. *)
Definition queued (b : list Z) p : tls_uart_port :=
  set_tx_msg_pending_list (tx_msg_pending_list p ++ [mk_tx_msg (Some b) (blen b) 0 FREE_BUF]) p.
Lemma wp_fill_buf n s (Hf : has_port n s) buf count p r (Q : Z → St → Prop) : 0 <= count <= blen buf →
  (∀ h, Q (-1) (at_port n p r (set_u_heap h s))) → (∀ h, Q 0 (at_port n (queued (slice buf 0 count) p) r (set_u_heap h s))) →
  wp (tls_uart_fill_buf n buf count) Q (at_port n p r s).
Proof.
  intros Hc H1 H2. unfold tls_uart_fill_buf. u_step. apply wp_mem_alloc; [|lia]. intros h b _. destruct b; [|by u_step].
  u_step. apply wp_mem_alloc; [|lia]. intros h' b Hb.
  change (set_u_heap h' (set_u_heap h s)) with (set_u_heap h' s). destruct b as [b|]; [|by u_step].
  destruct (Hb b eq_refl) as [Hl _].
  assert (blen (slice buf 0 count) = count) as Hl' by (apply blen_slice; lia).
  u_step. eapply wp_of_opt; [apply memcpy_Some; lia|]. do 3 u_step.
  rewrite splice_all by lia. rewrite <- Hl' at 2. apply H2.
Qed.

Lemma queued_ok b p : bytes_ok b → 0 < blen b → tx_inv p → tx_inv (queued b p) ∧ todo (queued b p) = todo p ++ b.
Proof.
  intros Hb Hl [Hm Hf]. split; [split; [|done]|].
  - simpl. apply Forall_app. split; [done|]. repeat constructor. exists b. by repeat split.
  - unfold todo. simpl. rewrite bind_app. simpl. rewrite app_nil_r. f_equal. unfold unsent. simpl.
    rewrite Z.sub_0_r. by apply slice_all.
Qed.

(** [written] are the characters accepted, all or none. *)
Lemma wp_write_async n s (Hf : has_port n s) buf c p r (Q : Z → St → Prop) : 0 <= n <= 2 →
  0 < c <= blen buf → bytes_ok buf → tx_inv p → u_txcnt r <= 16 → (S (msgs p) < loops)%nat →
  (∀ u h p' r' x out written, (x = 0 ∧ written = slice buf 0 c) ∨ (x ≠ 0 ∧ written = []) →
    sent_by r r' out → u_txcnt r' <= 16 → todo p ++ written = out ++ todo p' → tx_inv p' →
    tail_frame p' = tail_frame p → (msgs p' ≤ S (msgs p))%nat → sem_le p p' →
    Q x (at_port n p' r' (set_user u (set_u_heap h s)))) →
  wp (tls_uart_write_async n (Some buf) c) Q (at_port n p r s).
Proof.
  intros Hn Hc Hbuf Hi Hcnt Hk HQ. unfold tls_uart_write_async. rewrite (proj2 (Z.ltb_ge c 1)) by lia.
  u_step. unfold deref. rewrite uart_of_port by done. u_step. u_step. apply wp_fill_buf; [done|lia| |].
  - intros h. simpl Z.eqb. do 3 u_step. rewrite <- (set_user_self (set_u_heap h s)).
    apply (HQ _ h p r _ [] []); try done; [by right|apply sent_nothing|by rewrite app_nil_r|lia|apply sem_le_refl].
  - intros h. simpl Z.eqb. cbn iota. u_step.
    set (b := slice buf 0 c). assert (blen b = c) as Hb by (apply blen_slice; lia).
    destruct (queued_ok b p) as [Hi' Ht]; [by apply bytes_ok_slice|lia|done|].
    assert (msgs (queued b p) = S (msgs p)) as Hm by (unfold msgs; simpl; rewrite length_app; simpl; lia).
    apply wp_tx_chars_start; [by eauto with uart|done|done|lia| |].
    + simpl. intros E. by destruct (tx_msg_pending_list p).
    + intros u p' r' out Hd _. u_step. apply tail_of_tx in Hd as [K1 K2 K3 K4 K5 K6 K7].
      apply (HQ u h p' r' 0 out b); [by left|done|done|by rewrite <- Ht|done|done|lia|done].
Qed.

(** The oldest characters, if there are as many. *)
Lemma wp_read n s (Hf : has_port n s) b k p r (Q : Z * option (list Z) → St → Prop) : 0 <= n <= 2 →
  0 < k <= blen b → ring_ok (recv p) →
  (blen (rqueue (recv p)) < k → Q (0, Some b) (at_port n p r s)) →
  (∀ c', k <= blen (rqueue (recv p)) → ring_ok c' → rqueue c' = drop (Z.to_nat k) (rqueue (recv p)) →
    Q (k, Some (splice b 0 (take (Z.to_nat k) (rqueue (recv p))))) (at_port n (set_recv c' p) r s)) →
  wp (tls_uart_read n (Some b) k) Q (at_port n p r s).
Proof.
  intros Hn Hk Hr H0 HQ. unfold tls_uart_read. rewrite (proj2 (Z.ltb_ge k 1)) by lia.
  u_step. unfold deref. rewrite uart_of_port by done. do 3 u_step.
  rewrite CIRC_CNT_ring, <- blen_queue. destruct (_ >=? k) eqn:Ek; [|u_step; apply H0; lia].
  assert (k <= blen (rqueue (recv p))) as Hkq by lia. clear Ek. pose proof Hr as (Hb & _ & _ & Ht).
  destruct (ring_drop_ok k (recv p)) as [Hc Hq]; [done|lia|]. pose proof (ring_cnt_range (recv p)) as Hcnt.
  pose proof (blen_queue (recv p)) as Hlen.
  assert (u32 (tail (recv p) + k) = tail (recv p) + k) as -> by (unfold TLS_UART_RX_BUF_SIZE in *; ints).
  assert (blen (take (Z.to_nat k) (rqueue (recv p))) = k) as Htake by (unfold blen in *; rewrite length_take; lia).
  u_step. set (bb := splice b 0 (take (Z.to_nat k) (rqueue (recv p)))).
  apply (wp_mono _ (λ x s', x = bb ∧ s' = at_port n p r s)).
  - destruct (_ >? _) eqn:Ew.
    + assert (TLS_UART_RX_BUF_SIZE < tail (recv p) + k) as Hw by lia. clear Ew.
      set (k1 := TLS_UART_RX_BUF_SIZE - tail (recv p)) in *.
      assert (blen (slice (cbuf (recv p)) (tail (recv p)) k1) = k1) as Hk1 by (apply blen_slice; lia).
      assert (blen (slice (cbuf (recv p)) 0 (k - k1)) = k - k1) as Hk2
        by (apply blen_slice; unfold TLS_UART_RX_BUF_SIZE in *; lia).
      u_step. eapply wp_of_opt; [apply memcpy_Some; lia|].
      eapply wp_of_opt; [apply memcpy_Some; rewrite ?blen_splice by lia; unfold TLS_UART_RX_BUF_SIZE in *; lia|].
      split; [|done]. unfold bb. rewrite <- (queue_wrapped (recv p) k) by (done || lia). fold k1.
      apply splice_next; lia.
    + eapply wp_of_opt; [apply memcpy_Some; lia|]. split; [|done].
      by rewrite queue_straight by (done || lia).
  - intros x s' [-> ->]. u_step. apply wp_on_port; [done|]. u_step. by apply HQ.
Qed.
End calls.

(** ** Set-up *)

(** The options of a port once it is configured with [o]: a baud rate which is
    not in the table leaves the old one. *)
Definition configured (o old : tls_uart_options) : tls_uart_options :=
  mk_opts (if tls_uart_check_baudrate (baudrate o) <? 0 then baudrate old else baudrate o)
    (charlength o) (paritytype o) (flow_ctrl o) (stopbits o).

Section set_up.
Context {R U : Type} `{!UartRegs R, !UartRegsOk R, !UartEnv R U, !UartEnvOk R U}.
Notation St := (uarts R U).
Implicit Type s : St.
Implicit Type p : tls_uart_port.
Implicit Type r : R.

(** The states in which port [n] is [p], with whatever registers. *)
Definition just n p s (s' : St) : Prop := ∃ r, s' = at_port n p r s.

Lemma wp_apbclk (Q : Z → St → Prop) s :
  Q (u32 (W600_PLL_CLK_MHZ / 4 / Z.land (Z.shiftr (clk_div_ctl s) 4) 0x0F * 1000000)) s → wp apbclk Q s.
Proof.
  intros HQ. unfold apbclk. apply wp_bind, wp_gets. rewrite (proj2 (Z.eqb_neq _ 0)) by apply clk_div_ok.
  by apply wp_ret.
Qed.

Section one_port.
Context (n : Z) (s : St) (Hf : has_port n s).

Lemma wp_set_baud baud p r : wp (tls_uart_set_baud_rate_inside n baud) (λ _, just n
  (upd_opts (λ o, if tls_uart_check_baudrate baud <? 0 then o else set_baudrate baud o) p) s) (at_port n p r s).
Proof.
  unfold tls_uart_set_baud_rate_inside, upd_opts. case_if.
  - u_step. exists r. by destruct p.
  - u_step. apply wp_apbclk. do 5 u_step. eexists. done.
Qed.
Lemma wp_set_parity t p r :
  wp (tls_uart_set_parity_inside (Some n) t) (λ _, just n (upd_opts (set_paritytype t) p) s) (at_port n p r s).
Proof. unfold tls_uart_set_parity_inside. do 2 u_step. repeat case_if; repeat u_step; eexists; done. Qed.
Lemma wp_set_data_bits l p r :
  wp (tls_uart_set_data_bits (Some n) l) (λ _, just n (upd_opts (set_charlength l) p) s) (at_port n p r s).
Proof. unfold tls_uart_set_data_bits. do 4 u_step. repeat case_if; repeat u_step; eexists; done. Qed.
Lemma wp_set_stop_bits b p r :
  wp (tls_uart_set_stop_bits_inside (Some n) b) (λ _, just n (upd_opts (set_stopbits b) p) s) (at_port n p r s).
Proof. unfold tls_uart_set_stop_bits_inside. do 3 u_step. case_if; repeat u_step; eexists; done. Qed.
Lemma wp_set_flow_ctrl m p r : wp (tls_uart_set_flow_ctrl (Some n) m) (λ _, just n p s) (at_port n p r s).
Proof. unfold tls_uart_set_flow_ctrl. repeat (case_if || u_step); eexists; done. Qed.

Lemma wp_config o p r (Q : Z → St → Prop) :
  (∀ r', u_txcnt r' = 0 → u_rx r' = [] → Q WM_SUCCESS (at_port n (upd_opts (configured o) p) r' s)) →
  wp (tls_uart_config (Some n) (Some o)) Q (at_port n p r s).
Proof.
  intros HQ. unfold tls_uart_config.
  eapply wp_seq; [apply wp_set_baud|]. intros _ s' (r1 & ->).
  eapply wp_seq; [apply wp_set_parity|]. intros _ s' (r2 & ->).
  eapply wp_seq; [apply wp_set_data_bits|]. intros _ s' (r3 & ->).
  eapply wp_seq; [apply wp_set_stop_bits|]. intros _ s' (r4 & ->). do 2 u_step.
  eapply wp_seq; [apply wp_set_flow_ctrl|]. intros _ s' (r5 & ->). do 8 u_step.
  match goal with |- wp _ _ (at_port _ ?y (reg_wr UR_FIFOC ?v ?x) _) =>
    destruct (wr_fifoc v x) as [H1 H2]; [done..|]; set (p1 := y); set (r6 := reg_wr UR_FIFOC v x) in * end.
  repeat u_step. match goal with |- Q _ (at_port _ _ ?x _) => set (r7 := x) end.
  assert (sent_by r6 r7 []) as [[_ _ H3 _] H4].
  { eapply (sent_trans _ _ _ [] []); [|by apply sent_rmw]. by apply sent_rmw. }
  assert (p1 = upd_opts (configured o) p) as ->.
  { unfold p1, upd_opts, configured. destruct p as [? ? ? [] ? ? ? ? ? ? ? ? ? ? ? ? ?]. simpl. by case_if. }
  apply HQ; [|congruence]. pose proof (u_txcnt_range r7). rewrite blen_nil in H3. lia.
Qed.

Lemma wp_UartRegInit p r : 0 <= n <= 2 → wp (UartRegInit n) (λ _, just n p s) (at_port n p r s).
Proof.
  intros Hn. unfold UartRegInit. u_step. apply wp_apbclk.
  assert (n = 0 ∨ n = 1 ∨ n = 2) as Hc by lia.
  destruct Hc as [E|[E|E]]; subst n; simpl Z.eqb; cbn iota; repeat u_step; eexists; done.
Qed.
End one_port.

Lemma memset_all b n v : 0 <= n → blen b = n → memset b 0 v n = Some (replicate (Z.to_nat n) v).
Proof.
  intros Hn Hb. unfold memset. rewrite memcpy_Some by (rewrite ?blen_replicate; lia).
  by rewrite slice_all, splice_all by (rewrite blen_replicate; lia).
Qed.
Lemma ring_empty b : blen b = TLS_UART_RX_BUF_SIZE → bytes_ok b →
  ring_ok (mk_circ b 0 0) ∧ rqueue (mk_circ b 0 0) = [].
Proof. intros. by split. Qed.

(** Initialising a port: it works and is empty, or there is no memory for its
    ring.  The options are those given, except an unsupported baud rate. *)
Lemma port_init_ok n o mode p r s : 0 <= n <= 2 → is_port n s p r →
  wp (tls_uart_port_init n o mode) (λ x s', x = WM_FAILED ∨ x = WM_SUCCESS ∧ ∃ p' r', is_port n s' p' r' ∧
    port_ok n p' r' ∧ rqueue (recv p') = [] ∧ msgs p' = 0%nat ∧ u_rx r' = [] ∧
    opts p' = configured (default default_opts o) (mk_opts 0 0 0 0 0)) s.
Proof.
  intros Hn Hp. pose proof (is_port_fits _ _ _ _ Hp) as Hf. rewrite (put_self n p r s Hp) at 1.
  unfold tls_uart_port_init. eapply wp_seq; [by apply wp_UartRegInit|]. intros _ s' (r1 & ->).
  rewrite uart_of_port by done. do 2 u_step.
  eapply (wp_seq _ _ (λ _, just n (set_regs_set true zero_port) s)).
  { repeat case_if; repeat u_step; eexists; done. }
  intros _ s' (r2 & ->). do 3 u_step. apply wp_config; [done|]. intros r3 Hc3 Hx3. simpl negb. cbn iota.
  do 7 u_step. eapply wp_mono; [apply irq_disable_ok|]. intros _ s' ->%same_put. do 3 u_step.
  cbn [recv cbuf set_uart_irq_no set_rxstatus upd_opts set_opts set_uart_no set_regs_set zero_port].
  set (p3 := set_uart_irq_no _ _). u_step. apply wp_mem_alloc; [|by unfold TLS_UART_RX_BUF_SIZE].
  intros h b Hb. destruct b as [b|]; [|u_step; cbn [negb]; u_step; by left]. destruct (Hb b eq_refl) as [Hl _].
  u_step. eapply wp_of_opt; [by apply memset_all|]. repeat u_step. cbn [negb]. unfold tls_uart_tx_callback_register.
  rewrite uart_of_port by done. repeat u_step.
  eapply wp_mono; [apply irq_enable_ok|]. intros _ s2 ->%same_put. u_step. right. split; [done|].
  eexists _, r3. split; [apply is_port_put; by eauto with uart|].
  destruct (ring_empty (replicate (Z.to_nat TLS_UART_RX_BUF_SIZE) 0)) as [Hring Hq].
  { by rewrite blen_replicate. }
  { apply Forall_replicate. unfold is_u8. lia. }
  split; [|done]. split; [done|]. split; [done|]. split; [|lia]. by split; [constructor|].
Qed.
End set_up.
