(* ===== verification/UartSpec.v ===== *)
(** * What the serial ports promise

    The streams of characters of a port through any run of it, what happens when
    a ring is full, that everything is sent, the baud rates; and a simulated
    line on which the theorems are tried. *)
From S2P Require Import Prelude Uart UartRun.

(** * Runs of a port *)

Section runs.
Context {R U : Type} `{!UartRegs R, !UartRegsOk R, !UartEnv R U, !UartEnvOk R U}.
Notation St := (uarts R U).
Implicit Type s : St.
Implicit Type p : tls_uart_port.
Implicit Type r : R.

(** No characters are lost by the handler for want of room. *)
Definition roomy n p r : Prop :=
  if n =? 1 then plus_safe (u_ints r) p r ∧ blen (rqueue (recv p)) < 4095 - RX_CACHE_LIMIT
  else blen (rqueue (recv p)) + blen (u_rx r) <= 4093.

(** What happens to port [n], with the characters written by its users, those
    that arrive and those its users read, and whether no characters are lost: a
    change of the line, an interrupt, a write that does not wait, a read, the
    receiver stopped or started. *)
Inductive uart_step (n : Z) : bool → list Z → list Z → list Z → St → St → Prop :=
  | us_line p r r' arrived s : is_port n s p r → u_sent r' = u_sent r → u_txcnt r' <= u_txcnt r →
      u_rx r' = u_rx r ++ arrived → uart_step n true [] arrived [] s (at_port n p r' s)
  | us_irq p r s s' : is_port n s p r → swift p r → rx_err (u_ints r) = false → roomy n p r →
      irq_handler n s = Some (tt, s') → uart_step n true [] [] [] s s'
  | us_irq_lossy p r s s' : is_port n s p r → swift p r → (n = 1 → plus_safe (u_ints r) p r) →
      irq_handler n s = Some (tt, s') → uart_step n false [] [] [] s s'
  | us_write p r s s' buf c x : is_port n s p r → (S (msgs p) < loops)%nat → 0 < c <= blen buf → bytes_ok buf →
      tls_uart_write_async n (Some buf) c s = Some (x, s') →
      uart_step n true (if x =? 0 then slice buf 0 c else []) [] [] s s'
  | us_read s s' b k x out : 0 < k <= blen b →
      tls_uart_read n (Some b) k s = Some ((x, Some out), s') → uart_step n true [] [] (slice out 0 x) s s'
  | us_rx_status s s' status : tls_set_uart_rx_status n status s = Some (tt, s') → uart_step n true [] [] [] s s'.

Inductive uart_run (n : Z) : bool → list Z → list Z → list Z → St → St → Prop :=
  | ur_refl s : uart_run n true [] [] [] s s
  | ur_step s s1 s2 b w a d b' w' a' d' : uart_run n b w a d s s1 → uart_step n b' w' a' d' s1 s2 →
      uart_run n (b && b') (w ++ w') (a ++ a') (d ++ d') s s2.

Lemma wp_exec {A} (m : M St A) Q s a s' : wp m Q s → m s = Some (a, s') → Q a s'.
Proof. unfold wp. intros H Hm. by rewrite Hm in H. Qed.

Lemma rx_take_room hw q cs : blen q + blen cs <= 4093 → rx_take hw q cs = (q ++ cs, []).
Proof.
  revert q. induction cs as [|c cs IH]; intros q Hq; simpl; [by rewrite app_nil_r|].
  assert (blen (c :: cs) = 1 + blen cs) by (unfold blen; simpl; lia). pose proof (blen_nonneg cs).
  case_if; [|lia]. rewrite IH by (rewrite blen_app, blen_1; lia). by rewrite <- app_assoc.
Qed.

(** What the handlers and the calls do to a working port. *)
Lemma wp_irq n s p r (Q : unit → St → Prop) : 0 <= n <= 2 → is_port n s p r → port_ok n p r → swift p r →
  rx_err (u_ints r) = false → roomy n p r ∨ rx_due (u_ints r) r = false →
  (∀ p' r' out q more s', is_port n s' p' r' → port_ok n p' r' → rqueue (recv p) ++ u_rx r = q ++ more →
    (rx_due (u_ints r) r = false → more = u_rx r) →
    irq_done p r p' r' out q more →
    (truth (Z.land (u_ints r) UART_TX_INT_FLAG) = true → tx_served p r p' out) → Q tt s') →
  wp (irq_handler n) Q s.
Proof.
  intros Hn Hp Hok Hsw He Hroom HQ. pose proof (is_port_fits _ _ _ _ Hp) as Hf. rewrite (put_self n p r s Hp).
  assert (∀ u p' r' out q more, irq_done p r p' r' out q more → rqueue (recv p) ++ u_rx r = q ++ more →
    (rx_due (u_ints r) r = false → more = u_rx r) →
    (truth (Z.land (u_ints r) UART_TX_INT_FLAG) = true → tx_served p r p' out) →
    Q tt (at_port n p' r' (set_user u s))) as HQ'.
  { intros u p' r' out q more Hd Hq Hm Hs. apply (HQ p' r' out q more); [|..|done|done]; [| |done|done].
    - apply is_port_put. by eauto with uart.
    - by eapply irq_port_ok. }
  unfold roomy, irq_handler in *. destruct (Z.eqb_spec n 1) as [->|Hn1].
  - apply wp_irq1; [done..| |].
    { destruct Hroom as [[? _]|Hd]; [done|]. intros Hd'. congruence. }
    intros u p' r' out q more Hres Hd _. apply (HQ' u p' r' out q more Hd); unfold rx1_result in Hres;
      destruct (rx_due (u_ints r) r); injection Hres as <- <-; [|done|done|done].
    destruct Hroom as [[_ Hr]|?]; [|done]. unfold make_room. rewrite He. case_if; [unfold RX_CACHE_LIMIT in *; lia|].
    by rewrite app_nil_r.
  - assert (n = 0 ∨ n = 2) as Hn' by lia. apply wp_irq02; [done..|].
    intros u p' r' out q more Hres Hd. apply (HQ' u p' r' out q more Hd); unfold rx_result in Hres;
      rewrite He in Hres; destruct (rx_due (u_ints r) r); [|by injection Hres as <- <-|done|by injection Hres as <- <-].
    destruct Hroom as [Hr|?]; [|done]. rewrite rx_take_room in Hres by done. injection Hres as <- <-. by rewrite app_nil_r.
Qed.

(** A handler may lose characters, but keeps the order of the rest. *)
Lemma rx_take_sublist hw q cs q' more : rx_take hw q cs = (q', more) → q' ++ more `sublist_of` q ++ cs.
Proof.
  revert q. induction cs as [|c cs IH]; intros q; cbn [rx_take]; [by intros [= <- <-]|].
  case_match; [|intros [= <- <-]].
  - intros Hr. replace (q ++ c :: cs) with ((q ++ [c]) ++ cs) by (by rewrite <- app_assoc). by apply IH.
  - destruct hw; [case_match|].
    + by rewrite <- app_assoc.
    + apply sublist_inserts_l. by apply sublist_cons.
    + apply sublist_app; [done|]. by apply sublist_cons.
Qed.
Lemma make_room_sublist q : make_room q `sublist_of` q.
Proof. unfold make_room. case_match; [apply sublist_drop|done]. Qed.
Lemma wp_irq_lossy n s p r (Q : unit → St → Prop) : 0 <= n <= 2 → is_port n s p r → port_ok n p r → swift p r →
  (n = 1 → plus_safe (u_ints r) p r) →
  (∀ p' r' out q more s', is_port n s' p' r' → port_ok n p' r' → q ++ more `sublist_of` rqueue (recv p) ++ u_rx r →
    irq_done p r p' r' out q more → Q tt s') →
  wp (irq_handler n) Q s.
Proof.
  intros Hn Hp Hok Hsw Hplus HQ. pose proof (is_port_fits _ _ _ _ Hp) as Hf. rewrite (put_self n p r s Hp).
  assert (∀ u p' r' out q more, irq_done p r p' r' out q more → q ++ more `sublist_of` rqueue (recv p) ++ u_rx r →
    Q tt (at_port n p' r' (set_user u s))) as HQ'.
  { intros u p' r' out q more Hd Hq. apply (HQ p' r' out q more); [|by eapply irq_port_ok|done|done].
    apply is_port_put. by eauto with uart. }
  unfold irq_handler. destruct (Z.eqb_spec n 1) as [->|Hn1].
  - apply wp_irq1; [done..|by apply Hplus|]. intros u p' r' out q more Hres Hd _ _. apply (HQ' u p' r' out q more Hd).
    unfold rx1_result in Hres. destruct (rx_due _ r); injection Hres as <- <-; [|done]. rewrite app_nil_r.
    apply sublist_app; [apply make_room_sublist|]. case_match; [apply sublist_nil_l|done].
  - assert (n = 0 ∨ n = 2) as Hn' by lia. apply wp_irq02; [done..|]. intros u p' r' out q more Hres Hd _.
    apply (HQ' u p' r' out q more Hd). unfold rx_result in Hres. destruct (rx_due _ r); [|by injection Hres as <- <-].
    destruct (rx_err _); [injection Hres as <- <-; rewrite app_nil_r; by apply sublist_inserts_r|by eapply rx_take_sublist].
Qed.

(** What a step makes of the characters of a port. *)
Record streams (b : bool) (w a d : list Z) p r p' r' : Prop := {
  st_tx : u_sent r' ++ todo p' = u_sent r ++ todo p ++ w;
  st_rx : d ++ rqueue (recv p') ++ u_rx r' `sublist_of` rqueue (recv p) ++ u_rx r ++ a;
  st_rx_all : b = true → d ++ rqueue (recv p') ++ u_rx r' = rqueue (recv p) ++ u_rx r ++ a;
}.
Lemma streams_clean w a d p r p' r' : u_sent r' ++ todo p' = u_sent r ++ todo p ++ w →
  d ++ rqueue (recv p') ++ u_rx r' = rqueue (recv p) ++ u_rx r ++ a → streams true w a d p r p' r'.
Proof. intros H1 H2. split; [done|by rewrite H2|done]. Qed.
Lemma streams_trans b w a d b' w' a' d' p r p1 r1 p2 r2 :
  streams b w a d p r p1 r1 → streams b' w' a' d' p1 r1 p2 r2 → streams (b && b') (w ++ w') (a ++ a') (d ++ d') p r p2 r2.
Proof.
  intros [H1 H2 H3] [K1 K2 K3]. split.
  - rewrite K1, app_assoc, H1. by rewrite <- !app_assoc.
  - rewrite <- (app_assoc d). transitivity (d ++ rqueue (recv p1) ++ u_rx r1 ++ a'); [by apply sublist_app|].
    rewrite !app_assoc. apply sublist_app; [|done]. by rewrite <- !app_assoc.
  - intros [Hb Hb']%andb_true_iff. rewrite <- (app_assoc d), K3, !app_assoc by done. rewrite <- (app_assoc d), H3 by done. by rewrite <- !app_assoc.
Qed.

Lemma uart_no_frame p p' n : tail_frame p' = tail_frame p → uart_no p = n → uart_no p' = n.
Proof. intros H <-. change (uart_no (tail_frame p') = uart_no (tail_frame p)). by rewrite H. Qed.
Lemma recv_frame p p' : tail_frame p' = tail_frame p → recv p' = recv p.
Proof. intros H. change (recv (tail_frame p') = recv (tail_frame p)). by rewrite H. Qed.

(** Stopping and starting the receiver. *)
Lemma wp_rx_status n status s p r (Q : unit → St → Prop) : is_port n s p r → port_ok n p r →
  (∀ p' r', is_port n (at_port n p' r' s) p' r' → port_ok n p' r' → streams true [] [] [] p r p' r' → Q tt (at_port n p' r' s)) →
  wp (tls_set_uart_rx_status n status) Q s.
Proof.
  intros Hp Hok HQ. pose proof (is_port_fits _ _ _ _ Hp) as Hf.
  assert (Q tt s) as Hsame.
  { rewrite (put_self n p r s Hp). apply HQ; [by apply is_port_put|done|]. apply streams_clean; by rewrite ?app_nil_r. }
  assert (∀ st v, Q tt (at_port n (set_rxstatus st p) (reg_wr UR_INTM v (reg_rd UR_INTM r).2) s)) as Hset.
  { intros st v. destruct (rd_tx UR_INTM r) as [H1 H2]. destruct (wr_tx UR_INTM v (reg_rd UR_INTM r).2) as [H3 H4]; [done..|].
    destruct Hok as (K1 & K2 & K3 & K4). apply HQ; [by apply is_port_put|split; [done|]; split; [done|]; split; [done|lia]|].
    apply streams_clean; rewrite ?app_nil_r; [by rewrite H3, H1|]. by rewrite wr_rx, rd_rx. }
  unfold tls_set_uart_rx_status. destruct (Z.eqb_spec TLS_UART_1 n) as [<-|]; [|by apply wp_ret].
  change (Z.to_nat TLS_UART_1) with 1%nat in *. rewrite (put_self _ p r s Hp). apply wp_bind, wp_port; [done|].
  rewrite <- (put_self _ p r s Hp). case_match; [by apply wp_ret|]. case_match; [case_match; [|by apply wp_ret]|];
    rewrite (put_self _ p r s Hp); apply wp_bind, wp_rmw; [done| |done|]; (apply wp_on_port; [done|]; apply Hset).
Qed.

Lemma step_streams n b w a d s s' p r : 0 <= n <= 2 → is_port n s p r → port_ok n p r → uart_step n b w a d s s' →
  ∃ p' r', is_port n s' p' r' ∧ port_ok n p' r' ∧ streams b w a d p r p' r'.
Proof.
  intros Hn Hp Hok Hstep. pose proof (is_port_fits _ _ _ _ Hp) as Hf.
  assert (∀ p' r', is_port n s p' r' → p' = p ∧ r' = r) as Huniq.
  { intros p' r' [H1 H2]. destruct Hp as [K1 K2]. by simplify_eq. }
  inversion Hstep as [p0 r0 r' cs s0 Hp0 H1 H2 H3|p0 r0 s0 s1 Hp0 Hsw He Hr Hx|p0 r0 s0 s1 Hp0 Hsw Hplus Hx
    |p0 r0 s0 s1 buf c x Hp0 Hm Hc Hb Hx|s0 s1 bf k x out Hk Hx|s0 s1 status Hx]; subst;
    try (destruct (Huniq _ _ Hp0) as [-> ->]); pose proof Hok as (Hno & Hring & Hi & Hcnt).
  - exists p, r'. split; [by apply is_port_put|]. split; [repeat split; try done; try apply Hring; try apply Hi; lia|].
    apply streams_clean; [by rewrite H1, app_nil_r|by rewrite H3].
  - revert Hx. apply (wp_exec _ (λ _ s', ∃ p' r', is_port n s' p' r' ∧ port_ok n p' r' ∧ streams true [] [] [] p r p' r')).
    apply (wp_irq n s p r); [done..|by left|]. intros p' r' out q more s2 Hp' Hok' Hq _ Hd _.
    exists p', r'. split; [done|]. split; [done|]. destruct Hd as [[Hl _ _ _] _ Ht _ _ _ _ _ Hq' Hx']. apply streams_clean.
    + by rewrite Hl, Ht, app_nil_r, <- app_assoc.
    + by rewrite Hq', Hx', app_nil_r.
  - revert Hx. apply (wp_exec _ (λ _ s', ∃ p' r', is_port n s' p' r' ∧ port_ok n p' r' ∧ streams false [] [] [] p r p' r')).
    apply (wp_irq_lossy n s p r); [done..|]. intros p' r' out q more s2 Hp' Hok' Hq Hd.
    exists p', r'. split; [done|]. split; [done|]. destruct Hd as [[Hl _ _ _] _ Ht _ _ _ _ _ Hq' Hx']. split; [| |done].
    + by rewrite Hl, Ht, app_nil_r, <- app_assoc.
    + by rewrite Hq', Hx', app_nil_r.
  - revert Hx. rewrite (put_self n p r s Hp).
    apply (wp_exec _ (λ x s', ∃ p' r', is_port n s' p' r' ∧ port_ok n p' r' ∧
      streams true (if x =? 0 then slice buf 0 c else []) [] [] p r p' r')).
    apply wp_write_async; [done..|]. intros u h p' r' y out written Hy [[Hl _ _ _] Hx'] Hcnt' Ht Hi' Hfr _ _.
    exists p', r'. split; [apply is_port_put; by eauto with uart|].
    split; [split; [by eapply uart_no_frame|]; by rewrite (recv_frame _ _ Hfr)|].
    assert ((if y =? 0 then slice buf 0 c else []) = written) as ->.
    { destruct Hy as [[-> ->]|[Hy ->]]; [done|]. by rewrite (proj2 (Z.eqb_neq y 0)). }
    apply streams_clean; [by rewrite Ht, Hl, <- app_assoc|by rewrite (recv_frame _ _ Hfr), Hx', app_nil_r].
  - rewrite (put_self n p r s Hp) in Hx.
    assert (wp (tls_uart_read n (Some bf) k) (λ x s', ∀ out, x.2 = Some out → ∃ p' r', is_port n s' p' r' ∧
      port_ok n p' r' ∧ streams true [] [] (slice out 0 x.1) p r p' r') (at_port n p r s)) as Hw;
      [|by apply (wp_exec _ _ _ _ _ Hw Hx)].
    apply wp_read; [done..| |].
    + intros _ o [= <-]. exists p, r. split; [by apply is_port_put|]. split; [done|]. by apply streams_clean; rewrite ?app_nil_r.
    + intros c' Hkq Hc' Hq' o [= <-]. eexists _, r. split; [by apply is_port_put|]. split; [done|].
      assert (blen (take (Z.to_nat k) (rqueue (recv p))) = k) as Hl by (unfold blen in *; rewrite length_take; lia).
      apply streams_clean; [by rewrite app_nil_r|]. cbn [fst recv set_recv]. rewrite slice_splice_same by lia.
      by rewrite Hq', app_nil_r, app_assoc, take_drop.
  - revert Hx. apply (wp_exec _ (λ _ s', ∃ p' r', is_port n s' p' r' ∧ port_ok n p' r' ∧ streams true [] [] [] p r p' r')).
    apply (wp_rx_status n status s p r); [done..|]. intros p' r' Hp' Hok' Hst. by exists p', r'.
Qed.

(** C14: characters are not repeated or reordered, and lost only where the
    handlers lose them.  A working port, through any sequence of reads and
    writes that do not wait ([tls_uart_read], [tls_uart_write_async]), stops and
    starts of the receiver, interrupts, arrivals and draining of its FIFO: what
    has entered the transmitter and what still waits is what there was before,
    then all that was accepted by the writes, in order; what was read, what the
    ring holds and what is in the receive FIFO is some of what there was before,
    then what arrived, in order.  It is all of it unless an interrupt came with
    a line error or found too little room in the ring (3967 characters in that
    of port 1, 4093 with those of the FIFO in the others).  An interrupt is
    served while fewer than 16 characters leave the FIFO, and that of port 1 not
    where the look for [+++] leaves the ring. *)
Theorem port_streams n b w a d s s' p r : 0 <= n <= 2 → is_port n s p r → port_ok n p r → uart_run n b w a d s s' →
  ∃ p' r', is_port n s' p' r' ∧ port_ok n p' r' ∧
    u_sent r' ++ todo p' = u_sent r ++ todo p ++ w ∧
    d ++ rqueue (recv p') ++ u_rx r' `sublist_of` rqueue (recv p) ++ u_rx r ++ a ∧
    (b = true → d ++ rqueue (recv p') ++ u_rx r' = rqueue (recv p) ++ u_rx r ++ a).
Proof.
  intros Hn Hp Hok Hrun.
  assert (∃ p' r', is_port n s' p' r' ∧ port_ok n p' r' ∧ streams b w a d p r p' r') as (p' & r' & H1 & H2 & [H3 H4 H5]);
    [|by eauto 7].
  induction Hrun as [s|s s1 s2 b w a d b' w' a' d' _ IH Hstep].
  - exists p, r. split; [done|]. split; [done|]. by apply streams_clean; rewrite ?app_nil_r.
  - destruct (IH Hp) as (p1 & r1 & Hp1 & Hok1 & Hs1).
    destruct (step_streams _ _ _ _ _ _ _ _ _ Hn Hp1 Hok1 Hstep) as (p2 & r2 & Hp2 & Hok2 & Hs2).
    exists p2, r2. split; [done|]. split; [done|]. by eapply streams_trans.
Qed.
End runs.

Section behaviour.
Context {R U : Type} `{!UartRegs R, !UartRegsOk R, !UartEnv R U, !UartEnvOk R U}.
Notation St := (uarts R U).
Implicit Type s : St.
Implicit Type p : tls_uart_port.
Implicit Type r : R.

(** Afterwards port [n] is a good one again, and [P] holds of it. *)
Definition port_after n (P : tls_uart_port → R → Prop) s : Prop := ∃ p r, is_port n s p r ∧ port_ok n p r ∧ P p r.
Lemma port_after_put n (P : tls_uart_port → R → Prop) s p r :
  has_port n s → port_ok n p r → P p r → port_after n P (at_port n p r s).
Proof. intros Hf Hok HP. exists p, r. split; [by apply is_port_put|done]. Qed.


(** The other handlers leave characters behind that do not fit, and lose one. *)
Lemma rx_take_full hw q cs : 4093 <= blen q → cs ≠ [] →
  rx_take hw q cs = (if hw then if blen q <? 4095 then q ++ take 1 cs else [] else q, drop 1 cs).
Proof. intros Hq Hcs. destruct cs as [|c cs]; [done|]. simpl. case_if; [lia|]. by rewrite take_0, drop_0. Qed.
Lemma rx_take_app hw q cs cs' : blen q + blen cs <= 4093 → rx_take hw q (cs ++ cs') = rx_take hw (q ++ cs) cs'.
Proof.
  revert q. induction cs as [|c cs IH]; intros q Hq; simpl; [by rewrite app_nil_r|].
  assert (blen (c :: cs) = 1 + blen cs) by (unfold blen; simpl; lia). pose proof (blen_nonneg cs).
  case_if; [|lia]. rewrite IH by (rewrite blen_app, blen_1; lia). by rewrite <- app_assoc.
Qed.

(** Ports 0 and 2 when characters come that do not fit: with [room] places
    to the limit of 4093, that many characters are taken, the next one is read
    from the FIFO and lost, and the others stay in the FIFO.  With flow control
    it is kept instead, since reception is thought to be disabled - which
    [tls_set_uart_rx_status] does for port 1 only - so the ring fills up to
    4095 characters, and one more makes it empty. *)
Theorem uart02_full n s p r : n = 0 ∨ n = 2 → is_port n s p r → port_ok n p r → swift p r →
  rx_due (u_ints r) r = true → rx_err (u_ints r) = false →
  let q := rqueue (recv p) in let room := Z.to_nat (4093 - blen q) in
  4093 < blen q + blen (u_rx r) → u_rx r ≠ [] →
  wp (if n =? 0 then UART0_IRQHandler else UART2_IRQHandler) (λ _, port_after n (λ p' r',
    u_rx r' = drop (S room) (u_rx r) ∧
    rqueue (recv p') = if fcStatus p =? 1
      then if blen q <? 4095 then q ++ take (S room) (u_rx r) else []
      else q ++ take room (u_rx r))) s.
Proof.
  intros Hn Hp Hok Hsw Hd He q room Hfull Hne. pose proof (is_port_fits _ _ _ _ Hp) as Hf.
  rewrite (put_self n p r s Hp). apply wp_irq02; [done..|]. intros u p' r' out q' more Hres Hdone _.
  apply port_after_put; [by eauto with uart|by eapply irq_port_ok|].
  unfold rx_result in Hres. rewrite Hd, He in Hres. fold q in Hres.
  rewrite (iq_rx _ _ _ _ _ _ _ Hdone), (iq_queue _ _ _ _ _ _ _ Hdone).
  assert (0 ≤ blen q ≤ 4095) as Hq by (unfold q; rewrite blen_queue; pose proof (ring_cnt_range (recv p)); lia).
  destruct (decide (4093 <= blen q)) as [Hbig|Hsmall].
  - rewrite rx_take_full in Hres by done. replace room with 0%nat by (unfold room; lia).
    injection Hres as <- <-. by rewrite take_0, app_nil_r.
  - rewrite <- (take_drop room (u_rx r)) in Hres.
    assert (blen (take room (u_rx r)) = 4093 - blen q) as Hl by (unfold blen in *; rewrite length_take; unfold room; lia).
    rewrite rx_take_app in Hres by lia. rewrite rx_take_full in Hres.
    2:{ rewrite blen_app. lia. }
    2:{ intros Hnil. apply (f_equal length) in Hnil. rewrite length_drop in Hnil.
      change (blen (u_rx r)) with (Z.of_nat (length (u_rx r))) in Hfull. cbn [length] in Hnil. unfold room in Hnil. lia. }
    injection Hres as <- <-. rewrite drop_drop, blen_app, Hl. replace (room + 1)%nat with (S room) by lia.
    split; [done|]. replace (blen q + _ <? 4095) with true by lia. replace (blen q <? 4095) with true by lia.
    case_if; [|done]. rewrite <- app_assoc. f_equal.
    rewrite take_take_drop. by replace (room + 1)%nat with (S room) by lia.
Qed.




(** ** What goes wrong *)

Lemma wp_none {A B} (m : M St A) (k : A → M St B) s : wp m (λ a s', k a s' = None) s → bind m k s = None.
Proof. unfold wp, bind. by destruct (m s) as [[a s']|]. Qed.
Lemma none_l {A B} (m : M St A) (k : A → M St B) s : m s = None → bind m k s = None.
Proof. unfold bind. by intros ->. Qed.

(** Three characters that end in a plus and leave the head of the ring at 0: the
    two before it are looked for in front of the buffer. *)
Theorem plus_outside_ring s p r a b : is_port 1 s p r → port_ok 1 p r →
  rx_due (u_ints r) r = true → rx_err (u_ints r) = false → u_rx r = [a; b; 43] →
  ring_next (head (recv p)) 3 = 0 → UART1_IRQHandler s = None.
Proof.
  intros Hp (_ & Hr & _) Hd He Hx Hh. pose proof (is_port_fits _ _ _ _ Hp) as Hf. rewrite (put_self 1 p r s Hp).
  unfold UART1_IRQHandler.
  apply wp_none, wp_irq_source; [done|]. intros r1 H1. apply wp_none, wp_irq_overrun; [done|]. intros r2 H2.
  pose proof (sent_trans _ _ _ [] [] H1 H2) as [Hl2 Hx2].
  apply wp_none, wp_rx_pending; [done|]. intros r3 [_ Hx3].
  replace (rx_due (u_ints r) r2) with true by (rewrite <- Hd; unfold rx_due; by rewrite (lb_intm _ _ _ Hl2)).
  rewrite Hx2, Hx in *. apply none_l. unfold rx1_chars.
  apply wp_none, wp_on_port; [done|]. apply wp_none, wp_port; [done|].
  change (recv (set_plus_char_cnt 0 p)) with (recv p).
  destruct (drop_128 (recv p) Hr) as [Hlen Hroom]. cbn zeta in Hroom.
  set (c1 := if CIRC_SPACE _ _ _ <=? RX_CACHE_LIMIT then _ else _) in Hroom. destruct Hroom as (Hc1 & Hq1 & Hh1).
  set (p1 := set_recv c1 (set_plus_char_cnt 0 p)).
  apply wp_none, (wp_mono _ (λ _ s', s' = at_port 1 p1 r3 s)).
  { unfold p1, c1. case_if; u_step; [done|]. by destruct p. }
  intros [] s' ->. pose proof (make_room_len _ Hlen) as Hm. change (Z.to_nat (blen [a; b; 43])) with (length [a; b; 43]).
  apply wp_none, (wp_rx1_loop s Hf (u_ints r) []); [by rewrite app_nil_r|done
    |simpl recv; rewrite Hq1; change (blen [a; b; 43]) with 3; lia|].
  intros c2 r4 Hc2 _ _ _ Hh2. rewrite He in Hh2. apply none_l.
  change (List.last [a; b; 43] 0) with 43. change ((u8 (blen [a; b; 43]) =? 3) && (43 =? 43)) with true. cbn iota.
  apply wp_none, wp_port; [done|]. apply none_l. cbn [recv set_recv]. rewrite plus_before_0; [done..|].
  rewrite Hh2. simpl recv. change (blen [a; b; 43]) with 3. by rewrite Hh1.
Qed.
End behaviour.

(** ** Baud rates *)

Lemma lor_shiftl_add a b n : 0 <= n → 0 <= a < 2 ^ n → Z.lor a (Z.shiftl b n) = a + b * 2 ^ n.
Proof.
  intros Hn Ha. rewrite Z.shiftl_mul_pow2 by done. assert (Z.land a (b * 2 ^ n) = 0) as H.
  { apply Z.bits_inj'. intros k Hk. rewrite Z.land_spec, Z.bits_0. destruct (Z.ltb_spec k n).
    - rewrite (Z.mul_pow2_bits_low b) by lia. apply andb_false_r.
    - by rewrite (testbit_high a n k) by lia. }
  pose proof (Z.add_lor_land a (b * 2 ^ n)). lia.
Qed.
Lemma lor_all x : is_u32 x → Z.lor 0xFFFFFFFF x = 0xFFFFFFFF.
Proof.
  intros Hx. apply Z.bits_inj'. intros k Hk. rewrite Z.lor_spec. change 0xFFFFFFFF with (Z.ones 32).
  destruct (Z.ltb_spec k 32); [by rewrite Z.ones_spec_low by lia|].
  rewrite (testbit_high x 32 k) by (unfold_ints; lia). apply orb_false_r.
Qed.

Lemma rate_range b : tls_uart_check_baudrate b = 1 → 600 <= b <= 2000000.
Proof.
  unfold tls_uart_check_baudrate. case_if; [|done]. intros _. apply existsb_exists in E as (x & Hx & ->%Z.eqb_eq).
  revert x Hx. apply List.Forall_forall. repeat constructor; lia.
Qed.

Lemma bd_value_ok apb b : is_u32 apb → 600 <= b <= 2000000 → 16 * b <= apb < 0x10000 * (16 * b) →
  bd_value apb b = (apb / (16 * b) - 1) + (apb mod (16 * b)) / b * 65536.
Proof.
  intros Ha Hb Hr. unfold bd_value. rewrite (Z.mul_comm b 16). assert (u32 (16 * b) = 16 * b) as -> by ints.
  assert (1 <= apb / (16 * b) < 0x10000) as Hq.
  { split; [apply Z.div_le_lower_bound; lia|apply Z.div_lt_upper_bound; lia]. }
  assert (0 <= apb mod (16 * b) < 16 * b) as Hm by (apply Z.mod_pos_bound; lia).
  rewrite (u32_id (apb / (16 * b) - 1)) by (unfold_ints; lia).
  rewrite (u32_id (apb mod _ * 16)) by (unfold_ints; lia).
  rewrite (Z.mul_comm 16 b), Z.div_mul_cancel_r, (Z.mul_comm b 16) by lia.
  assert (0 <= apb mod (16 * b) / b < 16) as Hf.
  { split; [apply Z.div_pos; lia|apply Z.div_lt_upper_bound; lia]. }
  rewrite u32_id by (rewrite Z.shiftl_mul_pow2 by lia; unfold_ints; lia).
  by rewrite lor_shiftl_add by lia.
Qed.

Section baud.
Context {R U : Type} `{!UartRegs R, !UartRegsOk R, !UartEnv R U, !UartEnvOk R U}.
Notation St := (uarts R U).

(** [v] divides a clock of [apb] by [i + 1] and [f] sixteenths. *)
Definition divides_to apb baud v : Prop :=
  ∃ i f, v = i + 65536 * f ∧ 0 <= i < 65535 ∧ 0 <= f < 16 ∧ 16 * (i + 1) + f = apb / baud.

(** The baud rate register.  For a rate of the table and a clock of at
    least 16 times the rate the register gets [i] in its low half and a fraction
    [f] of 16 above it such that [16 (i + 1) + f], the clocks of the bus in one
    bit, is the exact quotient rounded down; the rate is noted.  With a slower
    clock the register gets all ones and the call succeeds as well; a rate not
    in the table changes nothing and fails. *)
Theorem baud_rate_exact n baud (s : St) p r : 0 <= n <= 2 → is_port n s p r →
  let apb := 160 / 4 / Z.land (Z.shiftr (clk_div_ctl s) 4) 0x0F * 1000000 in
  wp (tls_uart_set_baud_rate n baud) (λ x s',
    if existsb (Z.eqb baud) baud_rates then x = WM_SUCCESS ∧ ∃ v,
      s' = at_port n (upd_opts (set_baudrate baud) p) (reg_wr UR_BD v r) s ∧
      if 16 * baud <=? apb then divides_to apb baud v
      else v = 0xFFFFFFFF
    else x = WM_FAILED ∧ s' = s) s.
Proof.
  intros Hn Hp apb. pose proof (is_port_fits _ _ _ _ Hp) as Hf.
  unfold tls_uart_set_baud_rate. rewrite uart_of_port by done. unfold tls_uart_set_baud_rate_inside.
  pose proof (rate_range baud) as Hrange. unfold tls_uart_check_baudrate in *.
  destruct (existsb (Z.eqb baud) baud_rates); [|by apply wp_ret]. specialize (Hrange eq_refl).
  change (1 <? 0) with false. cbn iota.
  u_step. apply wp_apbclk. change (W600_PLL_CLK_MHZ / 4) with (160 / 4). pose proof (clk_div_ok s) as Hdiv.
  assert (0 <= Z.land (Z.shiftr (clk_div_ctl s) 4) 0x0F < 16) as Hd.
  { change 0x0F with (Z.ones 4). rewrite Z.land_ones by lia. by apply Z.mod_pos_bound. }
  fold apb. assert (0 <= apb <= 40000000) as Hapb.
  { unfold apb. change (160 / 4) with 40. set (d := Z.land _ _) in *.
    assert (0 <= 40 / d <= 40) by (split; [apply Z.div_pos; lia|apply Z.div_le_upper_bound; lia]). lia. }
  rewrite u32_id by (unfold_ints; lia). match goal with |- wp ?m ?Q s =>
    cut (wp m Q (at_port n p r s)); [by rewrite <- (put_self n p r s Hp)|] end. do 5 u_step.
  split; [done|]. eexists. split; [done|]. case_if.
  - assert (bd_value apb baud = (apb / (16 * baud) - 1) + (apb mod (16 * baud)) / baud * 65536) as ->
      by (apply bd_value_ok; unfold_ints; lia).
    assert (1 <= apb / (16 * baud) < 0xFFFF) as Hq.
    { split; [apply Z.div_le_lower_bound; lia|apply Z.div_lt_upper_bound; lia]. }
    assert (0 <= apb mod (16 * baud) < 16 * baud) as Hm by (apply Z.mod_pos_bound; lia).
    assert (0 <= apb mod (16 * baud) / baud < 16) as Hfr.
    { split; [apply Z.div_pos; lia|apply Z.div_lt_upper_bound; lia]. }
    rewrite u32_id by (unfold_ints; lia).
    exists (apb / (16 * baud) - 1), (apb mod (16 * baud) / baud). split; [lia|]. split; [lia|]. split; [done|].
    rewrite (Z.div_mod apb (16 * baud)) at 3 by lia.
    replace (16 * baud * (apb / (16 * baud)) + apb mod (16 * baud)) with
      (apb mod (16 * baud) + 16 * (apb / (16 * baud)) * baud) by lia. rewrite Z.div_add by lia. lia.
  - unfold bd_value. assert (u32 (16 * baud) = 16 * baud) as -> by ints. rewrite Z.div_small by lia.
    change (u32 (0 - 1)) with 0xFFFFFFFF. by rewrite lor_all by apply u32_range.
Qed.
End baud.

(** * A line to run on *)

(** What has been sent, the FIFOs, the interrupt status and mask; [us_fast] of
    the characters to come leave the transmit FIFO at once. *)
Record usim := mk_usim {
  us_sent : list Z;
  us_cnt : Z;
  us_fast : nat;
  us_rx : list Z;
  us_ints : Z;
  us_intm : Z;
}.
Definition sim_cnt (r : usim) : Z := Z.max 0 (Z.min 32 (us_cnt r)).
Definition sim_rx (r : usim) : list Z := take 63 (u8 <$> us_rx r).
Definition sim_rd (g : ureg) (r : usim) : Z * usim :=
  match g with
  | UR_INTS => (us_ints r, r)
  | UR_INTM => (us_intm r, r)
  | UR_FIFOS => (sim_cnt r + 64 * blen (sim_rx r), r)
  | UR_RXW => (List.hd 0 (sim_rx r),
      mk_usim (us_sent r) (us_cnt r) (us_fast r) (List.tl (sim_rx r)) (us_ints r) (us_intm r))
  | _ => (0, r)
  end.
Definition sim_wr (g : ureg) (v : Z) (r : usim) : usim :=
  match g with
  | UR_TXW =>
      if sim_cnt r <? 32 then
        match us_fast r with
        | O => mk_usim (us_sent r ++ [v]) (sim_cnt r + 1) O (us_rx r) (us_ints r) (us_intm r)
        | S k => mk_usim (us_sent r ++ [v]) (sim_cnt r) k (us_rx r) (us_ints r) (us_intm r)
        end
      else r
  | UR_INTS => mk_usim (us_sent r) (us_cnt r) (us_fast r) (us_rx r) (Z.land (us_ints r) (Z.lnot v)) (us_intm r)
  | UR_INTM => mk_usim (us_sent r) (us_cnt r) (us_fast r) (us_rx r) (us_ints r) v
  | UR_FIFOC =>
      mk_usim (us_sent r) (if Z.testbit v 0 then 0 else us_cnt r) (us_fast r)
        (if Z.testbit v 1 then [] else us_rx r) (us_ints r) (us_intm r)
  | _ => r
  end.
#[export] Instance usim_regs : UartRegs usim := { reg_rd := sim_rd; reg_wr := sim_wr }.

Lemma sim_rx_ok r : bytes_ok (sim_rx r).
Proof. unfold sim_rx. apply Forall_take. apply bytes_ok_fmap. apply u8_range. Qed.
Lemma u8_bytes l : bytes_ok l → u8 <$> l = l.
Proof. induction 1 as [|x l Hx Hl IH]; [done|]. rewrite fmap_cons, u8_id, IH by done. done. Qed.
Lemma sim_rx_short l a b c d e : bytes_ok l → (length l ≤ 63)%nat → sim_rx (mk_usim a b c l d e) = l.
Proof. intros Hl Hn. unfold sim_rx. simpl. by rewrite u8_bytes, take_ge. Qed.
#[export] Program Instance usim_regs_ok : UartRegsOk usim := {
  u_sent := us_sent;
  u_txcnt := sim_cnt;
  u_slack r := Z.of_nat (us_fast r);
  u_rx := sim_rx;
  u_ints := us_ints;
  u_intm := us_intm;
}.
Next Obligation. intros r. unfold sim_cnt. lia. Qed.
Next Obligation. intros r. cbv beta. apply Nat2Z.is_nonneg. Qed.
Next Obligation. intros r. unfold blen, sim_rx. rewrite length_take. lia. Qed.
Next Obligation. apply sim_rx_ok. Qed.
Next Obligation. done. Qed.
Next Obligation. done. Qed.
Next Obligation.
  intros r. cbn [reg_rd usim_regs sim_rd fst snd]. assert (0 <= sim_cnt r <= 32) by (unfold sim_cnt; lia).
  assert (0 <= blen (sim_rx r) <= 63) by (split; [apply blen_nonneg|]; unfold blen, sim_rx; rewrite length_take; lia).
  change 0x3F with (Z.ones 6). rewrite !Z.land_ones, Z.shiftr_div_pow2 by lia. change (2 ^ 6) with 64. split; dlia.
Qed.
Next Obligation.
  intros r c cs Hr. cbn [reg_rd usim_regs sim_rd fst snd]. pose proof (sim_rx_ok r) as Hok.
  assert (length (sim_rx r) ≤ 63)%nat as Hl by (unfold sim_rx; rewrite length_take; lia).
  rewrite Hr in *. split; [done|]. apply sim_rx_short; [by inversion Hok|simpl in *; lia].
Qed.
Next Obligation. by intros [] r. Qed.
Next Obligation.
  intros g r. split; [by destruct g|]. unfold sim_cnt.
  destruct g; cbn [us_cnt us_fast reg_rd usim_regs sim_rd snd]; lia.
Qed.
Next Obligation. by intros [] r. Qed.
Next Obligation.
  intros b r _ Hr. cbn [reg_wr usim_regs sim_wr]. rewrite (proj2 (Z.ltb_lt _ _) Hr).
  destruct (us_fast r) eqn:E; (split; [done|]); unfold sim_cnt in *; cbn [us_cnt us_fast]; lia.
Qed.
Next Obligation. done. Qed.
Next Obligation.
  intros g v r Hg. destruct g; try done. simpl. case_if; [|done]. by destruct (us_fast r).
Qed.
Next Obligation.
  intros g v r H1 H2. split; [by destruct g|]. unfold sim_cnt.
  destruct g; try done; cbn [us_cnt us_fast reg_wr usim_regs sim_wr]; lia.
Qed.
Next Obligation. intros v r H1 H2. unfold sim_cnt, sim_rx. cbn [us_cnt us_rx reg_wr usim_regs sim_wr]. by rewrite H1, H2. Qed.
Next Obligation. intros g v r Hg. destruct g; try done. simpl. case_if; [|done]. by destruct (us_fast r). Qed.

(** Users whose callbacks do nothing, a clock of 40 MHz for the bus. *)
Definition silent_env R U : UartEnv R U := {|
  call_rx _ _ := ret tt;
  call_tx _ _ := ret tt;
  call_finish _ := ret tt;
  os_sem_create := ret 0;
  os_sem_acquire _ := ret tt;
  tls_irq_enable _ := ret tt;
  tls_irq_disable _ := ret tt;
  clk_div_ctl _ := 0x10;
  tls_dma_request ch _ := ret ch;
  tls_dma_irq_register _ _ _ _ := ret tt;
  tls_dma_start _ _ _ _ := ret tt;
  dma_chnl_sel _ := ret tt;
  dma_int_unmask _ := ret tt;
  loops := 100;
|}.
#[export] Instance quiet_env R : UartEnv R unit := silent_env R unit.
#[export] Instance quiet_env_ok R : UartEnvOk R unit.
Proof. by split. Qed.

(** Three ports, [p] at [n] with the line [r]. *)
Definition idle_line : usim := mk_usim [] 0 0 [] 0 0.
Definition demo_uart (n : Z) (p : tls_uart_port) (r : usim) : uarts usim unit :=
  at_port n p r (mk_uarts (replicate 3 zero_port) (replicate 3 idle_line) (λ _, Some (λ _, 0)) tt).
Definition demo_ring (l : list Z) (t : Z) : tls_uart_circ_buf :=
  mk_circ (l ++ replicate (4096 - length l) 0) (t + blen l) t.
Definition demo_port (n : Z) (c : tls_uart_circ_buf) (ms : list tls_uart_tx_msg_t) : tls_uart_port :=
  set_uart_no n (set_recv c (set_tx_fifofull 16 (set_tx_msg_pending_list ms zero_port))).

Section spin.
Context {U : Type} `{!UartEnv usim U, !UartEnvOk usim U}.
Notation St := (uarts usim U).
Implicit Type s : St.

Lemma wp_send_fast n s b ms (Hf : has_port n s) : bytes_ok b → ∀ k m c p (r : usim),
  (k ≤ us_fast r)%nat → sim_cnt r < 16 → msg_buf m = Some b → buflen m = blen b →
  tx_msg_pending_list p = m :: ms → 0 <= offset m → offset m + Z.of_nat k < buflen m → tx_fifofull p = 16 →
  wp (send_loop k n c) (λ a s', a = (c - Z.of_nat k - 1, false) ∧ ∃ p' r', s' = at_port n p' r' s ∧
    tx_msg_pending_list p' = set_offset (offset m + Z.of_nat k) m :: ms) (at_port n p r s).
Proof.
  intros Hok k. induction k as [|k IH]; intros m c p r Hk Hc Hb Hl Hp Ho Ho' Hfull.
  - apply wp_ret. split; [f_equal; lia|]. exists p, r. rewrite Hp, Z.add_0_r. split; [done|]. by destruct m.
  - cbn [send_loop]. do 2 u_step. rewrite Hp. rewrite (proj2 (Z.ltb_lt _ _)) by lia. do 2 u_step.
    destruct (rd_fifos r) as [Hv _]. change UFS_TX_FIFO_CNT_MASK with 0x3F. rewrite Hv, Hfull.
    change (u_txcnt (reg_rd UR_FIFOS r).2) with (sim_cnt r). rewrite (proj2 (Z.eqb_neq _ _)) by lia.
    destruct (byte_at_is_Some b (offset m)) as [x Hx]; [lia|]. rewrite Hb. simpl mbind. rewrite Hx. do 6 u_step.
    assert (sent_one p = sending (set_offset (offset m + 1) m) ms (u32 (icount_tx p + 1)) p) as ->.
    { unfold sent_one. by rewrite Hp. }
    eapply wp_mono; [apply (IH (set_offset (offset m + 1) m)); cbn [msg_buf buflen offset set_offset]; try done; try lia|].
    + destruct (us_fast r) eqn:E; [lia|]. cbn [reg_wr usim_regs sim_wr reg_rd sim_rd snd].
      rewrite (proj2 (Z.ltb_lt _ _)), E by lia. simpl. lia.
    + destruct (us_fast r) eqn:E; [lia|]. cbn [reg_wr usim_regs sim_wr reg_rd sim_rd snd].
      rewrite (proj2 (Z.ltb_lt _ _)), E by lia. unfold sim_cnt in *. cbn [us_cnt]. lia.
    + intros a s' (-> & p' & r' & -> & Hp'). split; [f_equal; lia|]. exists p', r'. split; [done|]. rewrite Hp'.
      unfold set_offset. simpl. do 2 f_equal. lia.
Qed.

Lemma rounds_spin n s (Hf : has_port n s) m ms k : ∀ c p r, c <= 0 → tx_msg_pending_list p = m :: ms →
  offset m < buflen m → tx_rounds k n c false (at_port n p r s) = None.
Proof.
  induction k as [|k IH]; intros c p r Hc Hp Ho; [done|]. cbn [tx_rounds].
  apply wp_none, wp_port; [done|]. rewrite Hp. apply wp_none. unfold send_chars.
  replace (Z.to_nat c) with 0%nat by lia. apply wp_ret, wp_none. unfold finish_msg. do 2 u_step. rewrite Hp.
  rewrite Z.geb_leb, (proj2 (Z.leb_gt _ _)) by lia. apply wp_ret, IH; [lia|done|done].
Qed.

(** A handler that never ends.  On a line that takes 64 characters as fast
    as they come, a message of more than 64 characters makes the loop of
    [tls_uart_tx_chars] go on for ever, however many rounds it is given: its
    count of 64 is used up, so no round sends anything, and the loop is left
    only when there is no message or the FIFO has been seen full. *)
Theorem tx_chars_spins n s p (r : usim) m ms : is_port n s p r → tx_fifofull p = 16 →
  sim_cnt r < 16 → (64 ≤ us_fast r)%nat → tx_msg_pending_list p = m :: ms → msg_ok m →
  offset m + 64 < buflen m → tls_uart_tx_chars n s = None.
Proof.
  intros Hp Hfull Hc Hr Hm (b & Hb & Hok & Hl & Ho) Hlong. pose proof (is_port_fits _ _ _ _ Hp) as Hf.
  rewrite (put_self n p r s Hp). unfold tls_uart_tx_chars. apply wp_none, wp_port; [done|]. rewrite Hm.
  destruct loops as [|k]; [done|]. cbn [tx_rounds].
  apply wp_none, wp_port; [done|]. rewrite Hm. apply wp_none. unfold send_chars.
  eapply wp_mono; [apply (wp_send_fast n s b ms Hf Hok (Z.to_nat 64) m 64 p r); try done; lia|].
  intros a s' (-> & p' & r' & -> & Hp'). apply wp_none. unfold finish_msg. do 2 u_step. rewrite Hp'.
  cbn [offset buflen set_offset]. rewrite Z.geb_leb, (proj2 (Z.leb_gt _ _)) by lia.
  apply wp_ret. eapply rounds_spin; [done|lia|done|]. simpl. lia.
Qed.
End spin.

(** * The theorems at work *)

Lemma ran_eq {S A} (m : M S A) s d a : ran m s = true → result d m s = a → m s = Some (a, exec m s).
Proof. unfold ran, result, exec. destruct (m s) as [[a' s']|]; [|done]. by intros _ ->. Qed.
Definition port_at {U} (n : Z) (s : uarts usim U) : tls_uart_port := default zero_port (uart_port s !! Z.to_nat n).
Definition line_at {U} (n : Z) (s : uarts usim U) : usim := default idle_line (uart_hw s !! Z.to_nat n).
Definition fits_b {U} (n : Z) (s : uarts usim U) : bool :=
  (Z.to_nat n <? length (uart_port s))%nat && (Z.to_nat n <? length (uart_hw s))%nat.
Lemma is_port_at {U} n (s : uarts usim U) : fits_b n s = true → is_port n s (port_at n s) (line_at n s).
Proof.
  unfold fits_b. intros [H1%Nat.ltb_lt H2%Nat.ltb_lt]%andb_prop. unfold is_port, port_at, line_at.
  apply lookup_lt_is_Some in H1 as [x ->], H2 as [y ->]. done.
Qed.

Lemma demo_ring_ok l t : (length l ≤ 4095)%nat → bytes_ok l → 0 <= t → t + blen l < 4096 → ring_ok (demo_ring l t).
Proof.
  intros Hn Hl Ht Hh. unfold demo_ring. split.
  - simpl. unfold blen. rewrite length_app, length_replicate. unfold TLS_UART_RX_BUF_SIZE. lia.
  - split; [apply Forall_app; split; [done|apply Forall_replicate; unfold is_u8; lia]|].
    simpl. pose proof (blen_nonneg l). unfold TLS_UART_RX_BUF_SIZE. lia.
Qed.
Lemma demo_is_port n p r : 0 <= n <= 2 → is_port n (demo_uart n p r) p r.
Proof.
  intros Hn. apply is_port_put. assert (n = 0 ∨ n = 1 ∨ n = 2) as [-> | [-> | ->]] by lia; split; simpl; lia.
Qed.
Lemma demo_port_ok n l t r ms : (length l ≤ 4095)%nat → bytes_ok l → 0 <= t → t + blen l < 4096 →
  Forall msg_ok ms → sim_cnt r <= 16 → port_ok n (demo_port n (demo_ring l t) ms) r.
Proof. intros. split; [done|]. split; [by apply demo_ring_ok|done]. Qed.

(** Three characters come to port 1, its handler runs, a user reads two and
    writes three. *)
Definition arrive (l : list Z) (r : usim) : usim :=
  mk_usim (us_sent r) (us_cnt r) (us_fast r) (us_rx r ++ l) UIS_RX_FIFO (us_intm r).
Definition start1 : uarts usim unit := demo_uart 1 (demo_port 1 (demo_ring [] 0) []) idle_line.
Definition after_line : uarts usim unit := at_port 1 (port_at 1 start1) (arrive [65; 66; 67] (line_at 1 start1)) start1.
Definition after_irq : uarts usim unit := exec (irq_handler 1) after_line.
Definition after_read : uarts usim unit := exec (tls_uart_read 1 (Some [0; 0]) 2) after_irq.
Definition after_write : uarts usim unit := exec (tls_uart_write_async 1 (Some [1; 2; 3]) 3) after_read.

Lemma demo_run : uart_run 1 true [1; 2; 3] [65; 66; 67] [65; 66] start1 after_write.
Proof.
  refine (ur_step 1 start1 after_read after_write true [] [65; 66; 67] [65; 66] true [1; 2; 3] [] [] _ _).
  { refine (ur_step 1 start1 after_irq after_read true [] [65; 66; 67] [] true [] [] [65; 66] _ _).
    { refine (ur_step 1 start1 after_line after_irq true [] [65; 66; 67] [] true [] [] [] _ _).
      { refine (ur_step 1 start1 start1 after_line true [] [] [] true [] [65; 66; 67] [] (ur_refl 1 start1) _).
        apply us_line with (line_at 1 start1); [by apply is_port_at|done..]. }
      apply us_irq with (port_at 1 after_line) (line_at 1 after_line); [by apply is_port_at| |done| |].
      - split; [by apply Nat.ltb_lt|by apply Z.leb_le].
      - split; [intros _ a b H; by vm_compute in H|by apply Z.ltb_lt].
      - by apply (ran_eq _ _ tt). }
    apply (us_read 1 after_irq after_read [0; 0] 2 2 [65; 66]); [by split|].
    apply (ran_eq _ _ (0, None)); by vm_compute. }
  apply (us_write 1 (port_at 1 after_read) (line_at 1 after_read) after_read after_write [1; 2; 3] 3 0);
    [by apply is_port_at|by apply Nat.ltb_lt|by split|by apply bytes_ok_b|].
  apply (ran_eq _ _ 1); by vm_compute.
Qed.
Lemma port_streams_witness : ∃ p' r', is_port 1 after_write p' r' ∧ port_ok 1 p' r' ∧
  u_sent r' ++ todo p' = [1; 2; 3] ∧ [65; 66] ++ rqueue (recv p') ++ u_rx r' = [65; 66; 67].
Proof.
  destruct (port_streams 1 true [1; 2; 3] [65; 66; 67] [65; 66] start1 after_write
    (demo_port 1 (demo_ring [] 0) []) idle_line) as (p' & r' & H1 & H2 & H3 & _ & H4);
    [by split|by apply demo_is_port| |exact demo_run|exists p', r'; split; [exact H1|]; split; [exact H2|]; split; [exact H3|by apply H4]].
  apply demo_port_ok; [simpl; lia|constructor|done|done|constructor|done].
Defined.

(** [+++] arrives. *)
Definition plus_line : usim := mk_usim [] 0 0 [43; 43; 43] UIS_RX_FIFO 0.

Lemma plus_outside_ring_witness :
  UART1_IRQHandler (demo_uart 1 (demo_port 1 (demo_ring [0; 0; 0] 4090) []) plus_line) = None.
Proof.
  apply (plus_outside_ring _ (demo_port 1 (demo_ring [0; 0; 0] 4090) []) plus_line 43 43);
    [by apply demo_is_port| |done..].
  apply demo_port_ok; [simpl; lia|by apply bytes_ok_b|done|done|constructor|done].
Defined.

(** The ring of port 0 is full and one more character comes, with flow control. *)
Definition full_ring : tls_uart_circ_buf := demo_ring (replicate 4095 7) 0.
Definition full_port : tls_uart_port := set_fcStatus 1 (demo_port 0 full_ring []).
Definition one_line : usim := mk_usim [] 0 0 [65] UIS_RX_FIFO 0.
Lemma full_ring_ok : ring_ok full_ring.
Proof.
  apply demo_ring_ok; [by rewrite length_replicate|apply Forall_replicate; unfold is_u8; lia|done|by rewrite blen_replicate].
Qed.
Lemma full_queue : blen (rqueue (recv full_port)) = 4095.
Proof. rewrite blen_queue. by vm_compute. Qed.
Lemma uart02_full_witness : wp UART0_IRQHandler (λ _ s', ∃ p' r', is_port 0 s' p' r' ∧ rqueue (recv p') = [])
  (demo_uart 0 full_port one_line).
Proof.
  eapply wp_mono; [apply (uart02_full 0 _ full_port one_line)|].
  - by left.
  - by apply demo_is_port.
  - split; [done|]. split; [apply full_ring_ok|]. split; [by split; [constructor|]|by apply Z.leb_le].
  - split; [by apply Nat.ltb_lt|by apply Z.leb_le].
  - done.
  - done.
  - rewrite full_queue. by apply Z.ltb_lt.
  - done.
  - intros [] s' (p' & r' & Hp' & _ & _ & Hq). exists p', r'. split; [done|]. by rewrite full_queue in Hq.
Defined.


(** 115200 baud from the bus clock of 40 MHz: 347 clocks a bit. *)
Lemma baud_rate_exact_witness : wp (tls_uart_set_baud_rate 1 115200) (λ x _, x = WM_SUCCESS)
  (demo_uart 1 (demo_port 1 (demo_ring [] 0) []) idle_line).
Proof.
  eapply wp_mono; [apply (baud_rate_exact 1 115200 _ (demo_port 1 (demo_ring [] 0) []) idle_line);
    [done|by apply demo_is_port]|].
  intros x s'. change (existsb (Z.eqb 115200) baud_rates) with true. by intros [-> _].
Defined.

(** A message of 65 characters on a line that takes 64 of them at once. *)
Definition long_msg : tls_uart_tx_msg_t := mk_tx_msg (Some (replicate 65 7)) 65 0 FREE_BUF.
Definition fast_line : usim := mk_usim [] 0 64 [] 0 0.
Lemma tx_chars_spins_witness :
  tls_uart_tx_chars 1 (demo_uart 1 (demo_port 1 (demo_ring [] 0) [long_msg]) fast_line) = None.
Proof.
  apply (tx_chars_spins 1 _ (demo_port 1 (demo_ring [] 0) [long_msg]) fast_line long_msg []);
    [by apply demo_is_port|done|done|simpl; lia|done| |done].
  exists (replicate 65 7). split; [done|]. split; [by apply bytes_ok_b|done].
Defined.

Lemma port_init_ok_witness : wp (tls_uart_port_init 1 None 0) (λ x _, x = WM_FAILED ∨ x = WM_SUCCESS)
  (demo_uart 1 zero_port idle_line).
Proof.
  eapply wp_mono; [apply (port_init_ok 1 None 0 zero_port idle_line); [done|by apply demo_is_port]|].
  intros x s' [-> | [-> _]]; auto.
Defined.
