(* ===== verification/SerialTask.v ===== *)
(** * [src/Src/App/wm_atcmd/wm_uart_task.c]: between the serial ports and the commands

    What the task of the host interface makes of the characters in the receive
    ring of a port: lines for the AT interpreter, data for a socket, blocks for
    a firmware update; and how messages get to the port.  The module works on
    the ports of [Uart]: its own globals are the users' part of their state. *)
From S2P Require Import Prelude Utils Uart.

Definition UART_ATCMD_MODE := 0.
Definition UART_RICMD_MODE := 1.
Definition UART_TRANS_MODE := 2.
Definition UART_ATDATA_MODE := 3.
Definition UART_ATSND_MODE := 4.
Definition HOSTIF_MODE_UART0 := 1.
Definition HOSTIF_MODE_UART1_LS := 2.
Definition HOSTIF_MODE_UART1_HS := 3.
Definition HOSTIF_UART1_AT_CMD := 3.
Definition HOSTIF_UART0_AT_CMD := 4.
Definition HOSTIF_UART1_RI_CMD := 5.
Definition HOSTIF_TX_MSG_TYPE_EVENT := 0.
Definition HOSTIF_TX_MSG_TYPE_CMDRSP := 1.
Definition HOSTIF_TX_MSG_TYPE_UDP := 2.
Definition HOSTIF_TX_MSG_TYPE_TCP := 3.
Definition TLS_MSG_ID_UART_SENT_FREE := 2.
Definition TLS_MSG_ID_UART0_RX := 3.
Definition TLS_MSG_ID_UART1_RX := 8.
Definition UART_NET_SEND_DATA_SIZE := 512.
Definition TLS_SOCKET_RECV_BUF_SIZE := 512.
Definition TLS_FWUP_BLK_SIZE := 512.
Definition TLS_FWUP_STATUS_OK := 0.
Definition ERR_MEM := -1.
Definition ERR_VAL := -6.
Definition INS_SYNC_CHAR := 0x01.
Definition INS_RICMD := 0x02.
Definition INS_DATA := 0x04.
Definition MAX_RICMD_LENGTH := 200.

(** ** State *)

(** [ricmd_info] is taken apart into [cbytes] and [length]. *)
Record tls_uart := mk_uart {
  port_ptr : option Z;      (* [uart_port], an index *)
  cmd_mode : Z;
  inputstate : Z;
  ri_cbytes : Z;
  ri_length : Z;
  sksnd_cnt : Z;
}.
Definition set_port_ptr x u := mk_uart x (cmd_mode u) (inputstate u) (ri_cbytes u) (ri_length u) (sksnd_cnt u).
Definition set_cmd_mode x u := mk_uart (port_ptr u) x (inputstate u) (ri_cbytes u) (ri_length u) (sksnd_cnt u).
Definition set_inputstate x u := mk_uart (port_ptr u) (cmd_mode u) x (ri_cbytes u) (ri_length u) (sksnd_cnt u).
Definition set_ri_cbytes x u := mk_uart (port_ptr u) (cmd_mode u) (inputstate u) x (ri_length u) (sksnd_cnt u).
Definition set_sksnd_cnt x u := mk_uart (port_ptr u) (cmd_mode u) (inputstate u) (ri_cbytes u) (ri_length u) x.
Definition zero_uart : tls_uart := mk_uart None 0 0 0 0 0.

(** The globals: [uart_st], [ricmd_buffer], the rings for what sockets receive,
    and everything the module calls. *)
Record tasks (H : Type) := mk_tasks {
  uart_st : list tls_uart;
  ricmd_buffer : list Z;
  sockrecvmit : list (option tls_uart_circ_buf);
  uart1_delaytime : Z;
  host : H;
}.
Arguments mk_tasks {H}.
Arguments uart_st {H}.
Arguments ricmd_buffer {H}.
Arguments sockrecvmit {H}.
Arguments uart1_delaytime {H}.
Arguments host {H}.
Section setters.
Context {H : Type}.
Implicit Type t : tasks H.
Definition set_uart_st x t := mk_tasks x (ricmd_buffer t) (sockrecvmit t) (uart1_delaytime t) (host t).
Definition set_ricmd_buffer x t := mk_tasks (uart_st t) x (sockrecvmit t) (uart1_delaytime t) (host t).
Definition set_sockrecvmit x t := mk_tasks (uart_st t) (ricmd_buffer t) x (uart1_delaytime t) (host t).
Definition set_uart1_delaytime x t := mk_tasks (uart_st t) (ricmd_buffer t) (sockrecvmit t) x (host t).
Definition set_host (x : H) t := mk_tasks (uart_st t) (ricmd_buffer t) (sockrecvmit t) (uart1_delaytime t) x.
End setters.

(** A chain of buffers of lwIP: the payloads and [tot_len] of the first. *)
Record pbuf := mk_pbuf { segs : list (list Z); tot_len : Z }.
(** [struct tls_hostif_tx_msg]: the members of the union that a type uses. *)
Inductive tx_union :=
  | msg_event (buf : list Z) (buflen : Z)
  | msg_tcp (p : pbuf) (sock : Z).
Record tls_hostif_tx_msg := mk_hostif_msg { msg_type : Z; msg_offset : Z; msg_u : tx_union }.
Definition set_msg_offset x m := mk_hostif_msg (msg_type m) x (msg_u m).
(** [struct uart_tx_msg]: the index in [uart_st] and the message. *)
Record uart_tx_msg := mk_uart_tx { tx_uart : Z; tx_msg : tls_hostif_tx_msg }.

(** What the module calls: the command interpreter, the task's queue and
    timers, sockets and the firmware update; [pbuf_freed] is the users' callback
    of a message whose buffer belongs to the stack. *)
Class TaskEnv (R H : Type) := {
  tls_hostif_cmd_handler : Z → list Z → Z → M (uarts R (tasks H)) Z;
  tls_hostif_process_cmdrsp : Z → list Z → Z → M (uarts R (tasks H)) Z;
  tls_hostif_send_data : Z → list Z → M (uarts R (tasks H)) Z;
  tls_cmd_get_default_socket : M (uarts R (tasks H)) Z;
  wl_task_callback_static : Z → M (uarts R (tasks H)) Z;
  wl_task_callback_tx : uart_tx_msg → M (uarts R (tasks H)) Z;
  wl_task_untimeout : Z → M (uarts R (tasks H)) unit;
  wl_task_add_timeout : Z → Z → M (uarts R (tasks H)) unit;
  os_time_delay : Z → M (uarts R (tasks H)) unit;
  fwup_get_current_session_id : M (uarts R (tasks H)) Z;
  fwup_set_update_numer : Z → M (uarts R (tasks H)) Z;
  fwup_request_sync : Z → list Z → Z → M (uarts R (tasks H)) Z;
  pbuf_freed : Z;
  rptmode : H → Z;
  stack : Z → Z;          (* what a local array holds before it is written *)
}.

(** What [tls_uart_init] registers with the host interface. *)
Inductive hook := SET_UART0_MODE | SEND_TX_MSG | GET_UART1_PORT | SET_UART1_MODE | SET_UART1_SOCK_PARAM | NET_STATUS.
(** [struct tls_param_uart] *)
Record tls_param_uart := mk_param_uart { pu_baudrate : Z; pu_parity : Z; pu_flow : Z; pu_stop_bits : Z; pu_charsize : Z }.
(** What the start-up of the module calls and reads. *)
Class TaskInit (R H : Type) := {
  tls_cmd_init_socket_cfg : M (uarts R (tasks H)) unit;
  register_hook : hook → M (uarts R (tasks H)) unit;
  get_param_uart : M (uarts R (tasks H)) tls_param_uart;
  tls_cmd_get_auto_mode : M (uarts R (tasks H)) Z;
  hostif_mode : H → Z;
}.
Definition TLS_MAX_NETCONN_NUM := 20.
(** The identifiers of the callbacks registered with the ports. *)
Definition CB_TASK_RX (i : Z) : Z := i.
Definition CB_TX_SENT : Z := 2.

(** ** Lines *)

(** [memchr(&b[p], c, n)]; the bytes up to the character found are read. *)
Fixpoint memchr_loop (n : nat) (b : list Z) (p c : Z) : option (option Z) :=
  match n with
  | O => Some None
  | S n => x ← byte_at b p; if x =? c then Some (Some p) else memchr_loop n b (p + 1) c
  end.
Definition memchr (b : list Z) (p c n : Z) : option (option Z) := memchr_loop (Z.to_nat n) b p c.

Definition find_atcmd_eol (b : list Z) (src len : Z) : option (option Z) :=
  p ← memchr b src 13 len;
  q ← memchr b src 10 len;
  Some match p, q with
  | Some p, Some q =>
      if 1 <? p - q then Some q
      else if 1 <? q - p then Some p
      else if p - q =? 1 then Some p
      else if q - p =? 1 then Some q
      else None
  | Some p, None => Some p
  | None, Some q => Some q
  | None, None => None
  end.

Definition modify_atcmd_tail (recv : tls_uart_circ_buf) (p : Z) : tls_uart_circ_buf :=
  let cmd_len := u32 (p - tail recv) in
  if 512 <? cmd_len then set_tail (head recv) recv
  else set_tail (ring_next (tail recv) cmd_len) recv.

(** The place of the end of the line and the ring after it. *)
Definition parse_atcmd_eol (recv : tls_uart_circ_buf) : option (option Z * tls_uart_circ_buf) :=
  ' (p, recv) ← (if tail recv <? head recv then
      p ← find_atcmd_eol (cbuf recv) (tail recv) (head recv - tail recv);
      Some (p, match p with Some p => modify_atcmd_tail recv p | None => recv end)
    else
      p ← find_atcmd_eol (cbuf recv) (tail recv) (TLS_UART_RX_BUF_SIZE - tail recv);
      match p with
      | Some p => Some (Some p, modify_atcmd_tail recv p)
      | None =>
          p ← find_atcmd_eol (cbuf recv) 0 (head recv);
          Some (p, match p with Some p => modify_atcmd_tail recv (p + TLS_UART_RX_BUF_SIZE) | None => recv end)
      end);
  c ← byte_at (cbuf recv) (tail recv);
  Some (p, if (c =? 13) || (c =? 10) then set_tail (ring_next (tail recv) 1) recv else recv).

(** [AT+] in either case at the tail; what is behind a character that does not
    fit is not looked at. *)
Definition at_plus (recv : tls_uart_circ_buf) : option bool :=
  a ← byte_at (cbuf recv) (tail recv);
  if (a =? 65) || (a =? 97) then
    t ← byte_at (cbuf recv) (ring_next (tail recv) 1);
    if (t =? 84) || (t =? 116) then
      p ← byte_at (cbuf recv) (ring_next (tail recv) 2);
      Some (p =? 43)
    else Some false
  else Some false.

(** The length of the command from [start] to [eol] and the block [buf] that
    takes it. *)
Definition cmd_length (start eol : Z) : Z :=
  if start <=? eol then eol - start else TLS_UART_RX_BUF_SIZE - start + eol.
Definition copy_cmd (b : list Z) (start eol : Z) (buf : list Z) : option (list Z) :=
  if start <=? eol then memcpy buf 0 b start (eol - start)
  else
    let tail_len := TLS_UART_RX_BUF_SIZE - start in
    buf ← memcpy buf 0 b start tail_len;
    memcpy buf tail_len b 0 eol.
(** The line in [buf] is ended by a line feed and a zero. *)
Definition end_line (buf : list Z) (cmd_len : Z) : option (list Z * Z) :=
  let eol c := (c =? 13) || (c =? 10) in
  let stop i := (b ← store8 buf i 10; store8 b (i + 1) 0) in
  x ← byte_at buf (u32 (cmd_len - 2));
  if eol x then b ← stop (cmd_len - 2); Some (b, cmd_len - 1)
  else
    y ← byte_at buf (u32 (cmd_len - 1));
    if eol y then b ← stop (cmd_len - 1); Some (b, cmd_len)
    else b ← stop cmd_len; Some (b, cmd_len + 1).

(** Rounds of the loop of [parse_atcmd_line]. *)
Definition line_rounds : nat := Z.to_nat TLS_UART_RX_BUF_SIZE.

(** *** The ring of a socket *)

Definition CIRC_SPACE_TO_END_FULL (head tail size : Z) : Z :=
  let end_ := size - 1 - head in
  let n := Z.land (end_ + tail) (size - 1) in
  if n <? end_ then n else end_ + 1.
(** [pbuf_copy_partial] of lwIP: [left] bytes are copied, [len] to go. *)
Fixpoint pbuf_copy (l : list (list Z)) (dest : list Z) (at_ left len offset : Z) : option (list Z) :=
  match l with
  | [] => Some dest
  | x :: l =>
      if len =? 0 then Some dest
      else if negb (offset =? 0) && (blen x <=? offset) then pbuf_copy l dest at_ left len (offset - blen x)
      else
        let n := if len <? blen x - offset then len else blen x - offset in
        dest ← memcpy dest (at_ + left) x offset n;
        pbuf_copy l dest at_ (left + n) (len - n) 0
  end.
Definition pbuf_copy_partial (p : pbuf) (dest : list Z) (at_ len offset : Z) : option (list Z) :=
  pbuf_copy (segs p) dest at_ 0 len offset.

(** The loop of [cache_tcp_recv]: the ring, [msg->offset] and whether the tail
    was given up.  Each round but a first one that finds the ring full copies
    something or ends the message, so [cache_rounds] are enough. *)
Definition cache_rounds : nat := 4.
Fixpoint cache_loop (k : nat) (p : pbuf) (offset buflen tail : Z) (overflow : bool) (c : tls_uart_circ_buf) : option (tls_uart_circ_buf * Z * bool) :=
  match k with
  | O => None
  | S k =>
      let copylen := u16 (CIRC_SPACE_TO_END_FULL (head c) tail TLS_SOCKET_RECV_BUF_SIZE) in
      if copylen =? 0 then cache_loop k p offset buflen 0 true c
      else
        let copylen := if buflen <? copylen then buflen else copylen in
        b ← pbuf_copy_partial p (cbuf c) (head c) copylen offset;
        let c := mk_circ b (Z.land (head c + copylen) (TLS_SOCKET_RECV_BUF_SIZE - 1)) (Uart.tail c) in
        let offset := u16 (offset + copylen) in
        if tot_len p <=? offset then Some (c, offset, overflow)
        else cache_loop k p offset (u16 (buflen - copylen)) tail overflow c
  end.
Definition cache_recv (p : pbuf) (msg_offset : Z) (c : tls_uart_circ_buf) : option tls_uart_circ_buf :=
  let offset := if TLS_SOCKET_RECV_BUF_SIZE <=? tot_len p then u16 (tot_len p - TLS_SOCKET_RECV_BUF_SIZE + 1) else msg_offset in
  ' (c, _, overflow) ← cache_loop cache_rounds p offset (u16 (tot_len p - offset)) (tail c) false c;
  Some (if overflow : bool then set_tail (head c + 1) c else c).

Section task.
Context {R H : Type} `{!UartRegs R, !UartEnv R (tasks H), !TaskEnv R H}.
Local Notation C A := (M (uarts R (tasks H)) A).
Local Open Scope c_scope.

(** [uart_st[i]] and its port. *)
Definition uart (i : Z) : C tls_uart := λ s, of_opt (uart_st (user s) !! Z.to_nat i) s.
Definition upd_user (f : tasks H → tasks H) : C unit := modify (λ s, set_user (f (user s)) s).
Definition on_uart (i : Z) (f : tls_uart → tls_uart) : C unit :=
  let* u := uart i in upd_user (λ t, set_uart_st (<[Z.to_nat i := f u]> (uart_st t)) t).
Definition port_of (i : Z) : C Z := let* u := uart i in deref (port_ptr u).
Definition set_ring (n : Z) (c : tls_uart_circ_buf) : C unit := on_port n (set_recv c).

(** [tls_uart0_task_rx_cb] and [tls_uart1_task_rx_cb]. *)
Definition task_rx_cb (i msg_id : Z) : C Z :=
  let* n := port_of i in
  let* u := uart i in
  let* p := port n in
  (if (UART_TRANS_MODE =? cmd_mode u) && (3 =? plus_char_cnt p) then
     on_uart i (set_cmd_mode UART_ATCMD_MODE) ;;
     tls_uart_set_fc_status (uart_no p) TLS_UART_FLOW_CTRL_NONE
   else ret tt) ;;
  let* r := wl_task_callback_static msg_id in
  if truth r then ret WM_FAILED else ret WM_SUCCESS.
Definition tls_uart0_task_rx_cb : C Z := task_rx_cb 0 TLS_MSG_ID_UART0_RX.
Definition tls_uart1_task_rx_cb : C Z := task_rx_cb 1 TLS_MSG_ID_UART1_RX.

Fixpoint parse_atcmd_loop (k : nat) (i n : Z) : C unit :=
  let* p := port n in
  let c := recv p in
  if CIRC_CNT (head c) (tail c) TLS_UART_RX_BUF_SIZE <? 3 then ret tt
  else
    match k with
    | O => stuck
    | S k =>
        let* at_ := of_opt (at_plus c) in
        if at_ : bool then
          let start := tail c in
          let* ' (ptr_eol, c1) := of_opt (parse_atcmd_eol (set_tail (ring_next start 3) c)) in
          match ptr_eol with
          | None =>
              set_ring n (if 512 <? CIRC_CNT (head c1) (tail c1) TLS_UART_RX_BUF_SIZE then set_tail (head c1) c1
                          else set_tail (ring_next (tail c1) (-3)) c1)
          | Some eol =>
              set_ring n c1 ;;
              let cmd_len := cmd_length start eol in
              let* b := tls_mem_alloc (cmd_len + 2) in
              match b with
              | None => ret tt
              | Some b =>
                  let* b := of_opt (copy_cmd (cbuf c1) start eol b) in
                  let* ' (b, cmd_len) := of_opt (end_line b cmd_len) in
                  let* p := port n in
                  tls_hostif_cmd_handler (if uart_no p =? TLS_UART_0 then HOSTIF_UART0_AT_CMD else HOSTIF_UART1_AT_CMD) b cmd_len ;;
                  let* p := port n in
                  let c := recv p in
                  if 0 <? CIRC_CNT (head c) (tail c) TLS_UART_RX_BUF_SIZE then
                    (if uart_no p =? TLS_UART_0 then tls_uart0_task_rx_cb else tls_uart1_task_rx_cb) ;; ret tt
                  else parse_atcmd_loop k i n
              end
          end
        else
          let* ' (ptr_eol, c1) := of_opt (parse_atcmd_eol c) in
          set_ring n (match ptr_eol with None => set_tail (head c1) c1 | Some _ => c1 end) ;;
          parse_atcmd_loop k i n
    end.
Definition parse_atcmd_line (i : Z) : C unit :=
  let* n := port_of i in parse_atcmd_loop line_rounds i n.

(** ** Data for a socket *)

(** One block is offered again while there is no memory for it, if the other
    side can be stopped meanwhile; [None] is the return on [ERR_VAL]. *)
Fixpoint send_block (k : nat) (i n skt : Z) (data : list Z) : C (option unit) :=
  match k with
  | O => stuck
  | S k =>
      let* err := tls_hostif_send_data skt data in
      if err =? ERR_VAL then
        let* p := port n in
        tls_set_uart_rx_status (uart_no p) TLS_UART_RX_DISABLE ;;
        wl_task_untimeout i ;;
        let* t := gets user in
        wl_task_add_timeout (uart1_delaytime t) i ;;
        ret None
      else if err =? ERR_MEM then
        let* p := port n in
        if (TLS_UART_FLOW_CTRL_HARDWARE =? fcStatus p) && (TLS_UART_FLOW_CTRL_HARDWARE =? flow_ctrl (opts p)) then
          os_time_delay 10 ;;
          send_block k i n skt data
        else ret (Some tt)
      else ret (Some tt)
  end.
(** [uart_net_send_data]: [buflen] bytes of the ring from [tail]. *)
Definition take_block (b data : list Z) (tail buflen : Z) : option (list Z) :=
  if TLS_UART_RX_BUF_SIZE <? tail + buflen then
    let bufcopylen := TLS_UART_RX_BUF_SIZE - tail in
    data ← memcpy data 0 b tail bufcopylen;
    memcpy data bufcopylen b 0 (buflen - bufcopylen)
  else memcpy data 0 b tail buflen.
Definition restart_timer (i : Z) : C unit :=
  wl_task_untimeout i ;;
  let* t := gets user in
  wl_task_add_timeout (uart1_delaytime t) i.
(** What follows the last block, with [count] characters left. *)
Definition net_send_end (i n count : Z) : C unit :=
  (if truth count then restart_timer i else ret tt) ;;
  let* p := port n in
  if (TLS_UART_FLOW_CTRL_HARDWARE =? fcStatus p) && (TLS_UART_FLOW_CTRL_HARDWARE =? flow_ctrl (opts p)) then
    let c := recv p in
    if TLS_UART_RX_BUF_SIZE / 2 <? CIRC_SPACE (head c) (tail c) TLS_UART_RX_BUF_SIZE then
      tls_set_uart_rx_status (uart_no p) TLS_UART_RX_ENABLE
    else restart_timer i
  else ret tt.
(** From [RESENDBUF]; [data] is the block, which is on the stack. *)
Fixpoint net_send_loop (k : nat) (i n : Z) (data : list Z) (tail count : Z) : C unit :=
  match k with
  | O => stuck
  | S k =>
      let '(buflen, count) :=
        if UART_NET_SEND_DATA_SIZE <=? count then (UART_NET_SEND_DATA_SIZE, count - UART_NET_SEND_DATA_SIZE)
        else (count, 0) in
      let* p := port n in
      let* data := of_opt (take_block (cbuf (recv p)) data tail buflen) in
      let* def_socket := tls_cmd_get_default_socket in
      let* r := (if truth def_socket then send_block loops i n def_socket (slice data 0 buflen) else ret (Some tt)) in
      match r with
      | None => ret tt
      | Some _ =>
          on_port n (λ p, set_recv (set_tail (ring_next (Uart.tail (recv p)) buflen) (recv p)) p) ;;
          if (UART_NET_SEND_DATA_SIZE <=? count) && negb (buflen =? count) then
            let* p := port n in
            net_send_loop k i n data (Uart.tail (recv p)) count
          else net_send_end i n count
      end
  end.
Definition uart_net_send (i tail count : Z) : C unit :=
  let* n := port_of i in
  net_send_loop (S (Z.to_nat (count / UART_NET_SEND_DATA_SIZE))) i n
    ((λ x, u8 (stack x)) <$> seqZ 0 UART_NET_SEND_DATA_SIZE) tail count.

(** ** Binary commands *)

Definition ricmd_handle_sync : Z := 0.
Definition data_loop : Z := 0.
(** The characters looked at; [c] is the index where one would expect the
    character. *)
Fixpoint cmd_loop_from (k : nat) (i n cbytes procbytes numbytes : Z) : C Z :=
  if procbytes <? numbytes then
    match k with
    | O => stuck
    | S k =>
        let* p := port n in
        let c := u8 (head (recv p)) in
        (if cbytes <? MAX_RICMD_LENGTH then
           let* t := gets user in
           let* b := of_opt (store8 (ricmd_buffer t) (8 + cbytes) c) in
           upd_user (set_ricmd_buffer b)
         else ret tt) ;;
        on_uart i (λ u, set_ri_cbytes (u32 (ri_cbytes u + 1)) u) ;;
        let* u := uart i in
        if ri_cbytes u =? ri_length u then
          let* t := gets user in
          tls_hostif_cmd_handler HOSTIF_UART1_RI_CMD (ricmd_buffer t) (ri_length u + 8) ;;
          on_uart i (set_ri_cbytes 0) ;;
          on_uart i (set_inputstate 0) ;;
          ret (procbytes + 1)
        else cmd_loop_from k i n cbytes (procbytes + 1) numbytes
    end
  else ret procbytes.
Definition cmd_loop (i n numbytes : Z) : C Z :=
  let* u := uart i in cmd_loop_from (Z.to_nat numbytes) i n (ri_cbytes u) 0 numbytes.
Fixpoint parse_ricmd_loop (k : nat) (i n : Z) : C unit :=
  let* p := port n in
  if head (recv p) =? tail (recv p) then ret tt
  else
    match k with
    | O => stuck
    | S k =>
        let skip_count := ricmd_handle_sync in
        let* u := uart i in
        if (skip_count =? 0) && negb (truth (Z.land (inputstate u) INS_SYNC_CHAR)) then ret tt
        else
          let* procbytes := (
            if truth (Z.land (inputstate u) INS_SYNC_CHAR) then
              let numbytes := CIRC_CNT (head (recv p)) (tail (recv p)) TLS_UART_RX_BUF_SIZE in
              if truth (Z.land (inputstate u) INS_RICMD) then cmd_loop i n numbytes
              else if truth (Z.land (inputstate u) INS_DATA) then ret data_loop
              else ret numbytes
            else ret skip_count) in
          on_port n (λ p, set_recv (set_head (ring_next (head (recv p)) procbytes) (recv p)) p) ;;
          parse_ricmd_loop k i n
    end.
Definition parse_ricmd_line (i : Z) : C unit :=
  let* n := port_of i in parse_ricmd_loop line_rounds i n.

(** ** Blocks for the firmware update *)

(** [struct tls_fwup_block]: [number], [sum], [data], [crc32], [pad]. *)
Definition UART_UPFW_DATA_SIZE : Z := 2 + 2 + TLS_FWUP_BLK_SIZE + 4 + 8.
Definition blk_number (b : list Z) : Z := of_le (slice b 0 2).
Definition blk_data (b : list Z) : list Z := slice b 4 TLS_FWUP_BLK_SIZE.
Definition blk_crc32 (b : list Z) : Z := of_le (slice b 516 4).

(** ["+OK=%d\r\n\r\n"] or ["+ERR=%d\r\n\r\n"]. *)
Definition fwup_rsp_text (status : Z) : list Z :=
  (if truth status then [43; 79; 75; 61] else [43; 69; 82; 82; 61]) ++ fmt_u status ++ [13; 10; 13; 10].
Definition uart_fwup_rsp (portno status : Z) : C Z :=
  let* b := tls_mem_alloc 16 in
  match b with
  | None => ret (-1)
  | Some b =>
      let text := fwup_rsp_text status in
      let* b := of_opt (memcpy b 0 (text ++ [0]) 0 (blen text + 1)) in
      tls_hostif_process_cmdrsp (if TLS_UART_0 =? portno then HOSTIF_MODE_UART0 else HOSTIF_MODE_UART1_LS) b (blen text) ;;
      ret 0
  end.

(** [*p++ = recv->buf[recv->tail++]], [k] times: the bytes and the new tail. *)
Fixpoint take_bytes (k : nat) (b : list Z) (tail : Z) : option (list Z * Z) :=
  match k with
  | O => Some ([], tail)
  | S k => c ← byte_at b tail; ' (l, t) ← take_bytes k b (ring_next tail 1); Some (c :: l, t)
  end.
Definition uart_fwup_send (i : Z) : C unit :=
  let* n := port_of i in
  let* p := port n in
  let c := recv p in
  if UART_UPFW_DATA_SIZE <=? CIRC_CNT (head c) (tail c) TLS_UART_RX_BUF_SIZE then
    on_uart i (set_cmd_mode UART_ATCMD_MODE) ;;
    let* b := tls_mem_alloc UART_UPFW_DATA_SIZE in
    match b with
    | None => set_ring n (set_tail (ring_next (tail c) UART_UPFW_DATA_SIZE) c)
    | Some _ =>
        let* ' (blk, t) := of_opt (take_bytes (Z.to_nat UART_UPFW_DATA_SIZE) (cbuf c) (tail c)) in
        set_ring n (set_tail t c) ;;
        let* session_id := fwup_get_current_session_id in
        if truth session_id then
          let* crc := of_opt (get_crc32 blk (UART_UPFW_DATA_SIZE - 12)) in
          if crc =? blk_crc32 blk then
            let* r := fwup_set_update_numer (blk_number blk) in
            if TLS_FWUP_STATUS_OK =? r then
              uart_fwup_rsp (uart_no p) 1 ;;
              fwup_request_sync session_id (blk_data blk) TLS_FWUP_BLK_SIZE ;;
              ret tt
            else uart_fwup_rsp (uart_no p) 0 ;; ret tt
          else uart_fwup_rsp (uart_no p) 0 ;; ret tt
        else ret tt
    end
  else ret tt.

(** ** Reception *)

(** The characters waiting. *)
Definition pending (n : Z) : C Z :=
  let* p := port n in ret (CIRC_CNT (head (recv p)) (tail (recv p)) TLS_UART_RX_BUF_SIZE).
Definition uart_rx_timeout_handler (i : Z) : C unit :=
  let* u := uart i in
  if cmd_mode u =? UART_TRANS_MODE then
    let* n := port_of i in
    let* data_cnt := pending n in
    if truth data_cnt then let* p := port n in uart_net_send i (tail (recv p)) data_cnt else ret tt
  else ret tt.

Definition OK_text : list Z := [43; 79; 75; 13; 10; 13; 10].
Definition uart_rx (i : Z) : C unit :=
  let* u := uart i in
  let* n := port_of i in
  let mode := cmd_mode u in
  if mode =? UART_TRANS_MODE then
    let* data_cnt := pending n in
    if UART_NET_SEND_DATA_SIZE <=? data_cnt then
      wl_task_untimeout i ;;
      let* p := port n in
      uart_net_send i (tail (recv p)) data_cnt
    else restart_timer i
  else if mode =? UART_ATCMD_MODE then
    let* p := port n in
    let* go := (
      if plus_char_cnt p =? 3 then
        wl_task_untimeout i ;;
        let* b := tls_mem_alloc (blen OK_text + 1) in
        match b with
        | None => ret false
        | Some b =>
            let* b := of_opt (memcpy b 0 (OK_text ++ [0]) 0 (blen OK_text + 1)) in
            on_port n (set_plus_char_cnt 0) ;;
            tls_hostif_process_cmdrsp HOSTIF_MODE_UART1_LS b (blen OK_text) ;;
            ret true
        end
      else ret true) in
    if go : bool then parse_atcmd_line i else ret tt
  else if mode =? UART_ATDATA_MODE then uart_fwup_send i
  else if mode =? UART_RICMD_MODE then parse_ricmd_line i
  else if mode =? UART_ATSND_MODE then
    let* data_cnt := pending n in
    if sksnd_cnt u <=? data_cnt then
      let* p := port n in
      uart_net_send i (tail (recv p)) (sksnd_cnt u) ;;
      on_uart i (set_cmd_mode UART_ATCMD_MODE)
    else ret tt
  else ret tt.

(** ** Transmission *)

(** [cache_tcp_recv]; the ring of socket [sock] is an entry of [sockrecvmit]. *)
Definition cache_tcp_recv (p : pbuf) (sock offset : Z) : C unit :=
  let* t := gets user in
  let* c := of_opt (if sock <? 1 then None else sockrecvmit t !! Z.to_nat (sock - 1) ≫= id) in
  let* c := of_opt (cache_recv p offset c) in
  upd_user (λ t, set_sockrecvmit (<[Z.to_nat (sock - 1) := Some c]> (sockrecvmit t)) t).

(** [uart_tx] for the message of a block that has been posted to the task. *)
Definition uart_tx (d : uart_tx_msg) : C unit :=
  let* u := uart (tx_uart d) in
  let* n := port_of (tx_uart d) in
  let m := tx_msg d in
  let type := msg_type m in
  if (type =? HOSTIF_TX_MSG_TYPE_EVENT) || (type =? HOSTIF_TX_MSG_TYPE_CMDRSP) then
    match msg_u m with
    | msg_event buf buflen => tls_uart_fill_buf n buf buflen ;; tls_uart_tx_chars_start n
    | _ => stuck
    end
  else if (type =? HOSTIF_TX_MSG_TYPE_UDP) || (type =? HOSTIF_TX_MSG_TYPE_TCP) then
    match msg_u m with
    | msg_tcp p sock =>
        let* t := gets user in
        if (cmd_mode u =? UART_TRANS_MODE) || truth (rptmode (host t)) then
          let* b := tls_mem_alloc 28 in
          match b with
          | None => ret tt
          | Some _ =>
              let* payload := of_opt (list.head (segs p)) in
              on_port n (λ q, set_tx_msg_pending_list
                (tx_msg_pending_list q ++ [mk_tx_msg (Some payload) (tot_len p) 0 (USER_FREE pbuf_freed)]) q) ;;
              tls_uart_tx_chars_start n
          end
        else cache_tcp_recv p sock (msg_offset m)
    | _ => stuck
    end
  else ret tt.

(** A message for [uart_st[i]] is posted, or dropped. *)
Definition post_tx (i : Z) (m : tls_hostif_tx_msg) : C unit :=
  let* b := tls_mem_alloc 8 in
  match b with
  | None => ret tt
  | Some _ => wl_task_callback_tx (mk_uart_tx i m) ;; ret tt
  end.
Definition uart_send_tx_msg (hostif_mode : Z) (m : option tls_hostif_tx_msg) (is_event : bool) : C unit :=
  match m with
  | None => ret tt
  | Some m =>
      if hostif_mode =? HOSTIF_MODE_UART0 then
        let* u := uart 0 in
        if bool_decide (port_ptr u = None) then ret tt else post_tx 0 m
      else if (hostif_mode =? HOSTIF_MODE_UART1_LS) || (hostif_mode =? HOSTIF_MODE_UART1_HS) then
        let* u := uart 1 in
        if bool_decide (port_ptr u = None) then ret tt
        else if is_event && (negb (hostif_mode =? HOSTIF_MODE_UART1_HS) || negb (cmd_mode u =? UART_RICMD_MODE)) then ret tt
        else post_tx 1 m
      else ret tt
  end.

(** ** Modes *)

Definition set_mode (i mode : Z) : C unit :=
  on_uart i (set_cmd_mode mode) ;;
  let* n := port_of i in
  let* p := port n in
  tls_uart_set_fc_status (uart_no p) (if UART_TRANS_MODE =? mode then TLS_UART_FLOW_CTRL_HARDWARE else TLS_UART_FLOW_CTRL_NONE).
Definition uart_set_uart0_mode (mode : Z) : C unit := set_mode 0 mode.
Definition uart_set_uart1_mode (mode : Z) : C unit := set_mode 1 mode.
Definition uart_set_uart1_sock_param (cnt : Z) : C unit := on_uart 1 (set_sksnd_cnt (u16 cnt)).
Definition uart_get_uart1_port : C (option Z) := let* u := uart 1 in ret (port_ptr u).
Definition uart_tx_sent_callback : C Z := wl_task_callback_static TLS_MSG_ID_UART_SENT_FREE.

(** ** Start-up *)

(** [uart_mode] of the port is not used by the driver. *)
Definition tls_uart_open (uart_no : Z) : C (option Z) :=
  if (uart_no =? TLS_UART_0) || (uart_no =? TLS_UART_1) then
    on_uart uart_no (λ _, set_port_ptr (Some uart_no) zero_uart) ;;
    tls_uart_rx_callback_register uart_no (Some (CB_TASK_RX uart_no)) ;;
    ret (Some uart_no)
  else ret None.

(** The port [uart_no] is set up and opened; [k] goes on with it. *)
Definition init_port {TI : TaskInit R H} (uart_no : Z) (o : option tls_uart_options) (k : Z → C unit) : C unit :=
  let* r := tls_uart_port_init uart_no o 0 in
  if negb (r =? WM_SUCCESS) then ret tt
  else
    tls_uart_tx_callback_register uart_no (Some (USER_TX CB_TX_SENT)) ;;
    let* u := tls_uart_open uart_no in
    match u with None => ret tt | Some i => k i end.
Definition opts_of_param (c : tls_param_uart) (charlength : Z) : tls_uart_options :=
  mk_opts (pu_baudrate c) charlength (pu_parity c) (pu_flow c) (pu_stop_bits c).

Definition tls_uart_init {TI : TaskInit R H} : C unit :=
  upd_user (set_uart_st [zero_uart; zero_uart]) ;;
  upd_user (λ t, set_sockrecvmit (replicate (Z.to_nat (TLS_MAX_NETCONN_NUM / 4)) None ++ drop (Z.to_nat (TLS_MAX_NETCONN_NUM / 4)) (sockrecvmit t)) t) ;;
  tls_cmd_init_socket_cfg ;;
  register_hook SET_UART0_MODE ;;
  init_port TLS_UART_0 None (λ i,
    on_uart i (set_cmd_mode UART_ATCMD_MODE) ;;
    register_hook SEND_TX_MSG ;;
    let* cfg := get_param_uart in
    (if truth (pu_baudrate cfg) then
       upd_user (set_uart1_delaytime (u32 (u32 (UART_NET_SEND_DATA_SIZE * (10 * 1000000 / pu_baudrate cfg)) / 1000 + 5)))
     else upd_user (set_uart1_delaytime 100)) ;;
    register_hook GET_UART1_PORT ;;
    register_hook SET_UART1_MODE ;;
    register_hook SET_UART1_SOCK_PARAM ;;
    let* t := gets user in
    if hostif_mode (host t) =? HOSTIF_MODE_UART1_HS then
      init_port TLS_UART_1 (Some (opts_of_param cfg TLS_UART_CHSIZE_8BIT)) (λ i,
        on_uart i (set_cmd_mode UART_RICMD_MODE) ;;
        register_hook NET_STATUS)
    else if hostif_mode (host t) =? HOSTIF_MODE_UART1_LS then
      init_port TLS_UART_1 (Some (opts_of_param cfg (if pu_charsize cfg =? 0 then TLS_UART_CHSIZE_8BIT else pu_charsize cfg))) (λ i,
        let* auto := tls_cmd_get_auto_mode in
        let* n := port_of i in
        let* p := port n in
        (if truth auto then
           on_uart i (set_cmd_mode UART_TRANS_MODE) ;;
           tls_uart_set_fc_status (uart_no p) TLS_UART_FLOW_CTRL_HARDWARE
         else
           on_uart i (set_cmd_mode UART_ATCMD_MODE) ;;
           tls_uart_set_fc_status (uart_no p) TLS_UART_FLOW_CTRL_NONE) ;;
        register_hook NET_STATUS)
    else register_hook NET_STATUS).
End task.
