(* ===== verification/SerialSpec.v ===== *)
(** * What the task between the serial ports and the commands promises

    The characters of a receive ring as lines: which commands the task passes
    on, and what becomes of the rest. *)
From S2P Require Import Prelude Utils Uart UartRun UartSpec SerialTask.

(** * Lines *)

Definition is_eol (c : Z) : bool := (c =? 13) || (c =? 10).
(** The lines of a text that are ended by a carriage return or a line feed, and
    what follows the last of these. *)
Fixpoint lines (q : list Z) : list (list Z) * list Z :=
  match q with
  | [] => ([], [])
  | c :: q =>
      let '(ls, r) := lines q in
      if is_eol c then ([] :: ls, r)
      else match ls with [] => ([], c :: r) | l :: ls => ((c :: l) :: ls, r) end
  end.
(** [AT+] in either case. *)
Definition at_prefix (l : list Z) : bool :=
  match l with
  | a :: t :: p :: _ => ((a =? 65) || (a =? 97)) && ((t =? 84) || (t =? 116)) && (p =? 43)
  | _ => false
  end.
Definition commands (q : list Z) : list (list Z) := filter (λ l, at_prefix l = true) (lines q).1.

Definition no_eol (l : list Z) : Prop := Forall (λ c, is_eol c = false) l.
(** Whole lines. *)
Definition whole (x : list Z) : Prop := (lines x).2 = [].

Lemma lines_line l e y : no_eol l → is_eol e = true → lines (l ++ e :: y) = (l :: (lines y).1, (lines y).2).
Proof.
  intros Hl He. induction Hl as [|c l Hc Hl IH]; cbn [app lines].
  - rewrite He. by destruct (lines y).
  - rewrite IH, Hc. done.
Qed.
Lemma lines_none l : no_eol l → lines l = ([], l).
Proof. intros Hl. induction Hl as [|c l Hc Hl IH]; cbn [lines]; [done|]. by rewrite IH, Hc. Qed.
Lemma lines_rest q : (lines q).1 = [] → q = (lines q).2 ∧ no_eol q.
Proof.
  induction q as [|c q IH]; cbn [lines]; [by split; [|constructor]|].
  destruct (lines q) as [ls r] eqn:E. destruct (is_eol c) eqn:Hc; [done|]. destruct ls; [|done]. intros _.
  destruct (IH eq_refl) as [-> Hn]. simpl. split; [done|]. by constructor.
Qed.
(** A text without lines, or its first line and the rest. *)
Lemma lines_cases q : no_eol q ∨ ∃ l e y, q = l ++ e :: y ∧ no_eol l ∧ is_eol e = true.
Proof.
  induction q as [|c q IH]; [left; constructor|]. destruct (is_eol c) eqn:Hc.
  - right. exists [], c, q. by split; [|split; [constructor|]].
  - destruct IH as [Hn|(l & e & y & -> & Hl & He)]; [left; by constructor|].
    right. exists (c :: l), e, y. split; [done|]. by split; [constructor|].
Qed.
Lemma lines_app x y : whole x → lines (x ++ y) = ((lines x).1 ++ (lines y).1, (lines y).2).
Proof.
  unfold whole. induction x as [|c x IH]; cbn [app lines]; [by destruct (lines y)|].
  destruct (lines x) as [ls r] eqn:E, (lines y) as [ls' r'], (is_eol c); cbn [fst snd] in *; intros Hw.
  - by rewrite IH.
  - destruct ls as [|l ls]; cbn [snd] in Hw; [done|]. by rewrite IH.
Qed.
Lemma whole_app x y : whole x → whole y → whole (x ++ y).
Proof. intros Hx Hy. unfold whole. by rewrite lines_app. Qed.
Lemma commands_app x y : whole x → commands (x ++ y) = commands x ++ commands y.
Proof. intros Hx. unfold commands. rewrite lines_app by done. apply list.filter_app. Qed.
Lemma at_prefix_app l y : no_eol l → ∀ e, is_eol e = true → at_prefix (l ++ e :: y) = at_prefix l.
Proof.
  intros Hl e He. unfold is_eol in He.
  destruct l as [|a [|b [|c l]]]; cbn; [destruct y as [|? [|]]..|]; lia.
Qed.
Lemma no_eol_app l l' : no_eol (l ++ l') ↔ no_eol l ∧ no_eol l'.
Proof. apply Forall_app. Qed.

(** * The end of a line *)

(** How far behind the end [e] of a line the code looks: the other character
    of a pair belongs to it. *)
Definition paired (e : Z) (y : list Z) : Z :=
  match y with e' :: _ => if is_eol e' && negb (e' =? e) then 1 else 0 | [] => 0 end.

Lemma memchr_none b p c n x : slice b p n = x → blen x = n → 0 <= p → c ∉ x → memchr b p c n = Some None.
Proof.
  unfold memchr. intros Hx Hn Hp Hc. assert (0 <= n) as H0 by (rewrite <- Hn; apply blen_nonneg).
  assert (∀ i, 0 <= i < n → ∃ z, byte_at b (p + i) = Some z ∧ z ≠ c) as Hb.
  { intros i Hi. destruct (byte_at_is_Some x i) as [z Hz]; [lia|]. exists z. split.
    - by rewrite <- Hz, <- Hx, byte_at_slice by lia.
    - intros ->. apply Hc. rewrite byte_at_lookup in Hz by lia. by eapply list_elem_of_lookup_2. }
  clear Hx Hn Hc. replace n with (Z.of_nat (Z.to_nat n)) in Hb by lia. revert p Hp Hb.
  induction (Z.to_nat n) as [|k IH]; intros p Hp Hb; cbn [memchr_loop]; [done|].
  destruct (Hb 0) as (z & Hz & Hne); [lia|]. rewrite Z.add_0_r in Hz. rewrite Hz. cbn.
  replace (z =? c) with false by lia. apply IH; [lia|]. intros i Hi. destruct (Hb (1 + i)) as (z' & ? & ?); [lia|].
  exists z'. by rewrite <- Z.add_assoc.
Qed.
Lemma memchr_loop_at b c l : c ∉ l → ∀ k p, (length l < k)%nat →
  (∀ i, 0 <= i <= blen l → byte_at b (p + i) = byte_at (l ++ [c]) i) → memchr_loop k b p c = Some (Some (p + blen l)).
Proof.
  induction l as [|z l IH]; intros Hc k p Hk Hb; (destruct k as [|k]; [simpl in Hk; lia|]); cbn [memchr_loop].
  - specialize (Hb 0). rewrite Z.add_0_r in Hb. rewrite Hb by done. change (byte_at ([] ++ [c]) 0) with (Some c). cbn. by rewrite Z.eqb_refl, Z.add_0_r.
  - rewrite not_elem_of_cons in Hc. destruct Hc as [Hne Hc]. pose proof (blen_nonneg l). rewrite blen_cons in *.
    pose proof (Hb 0 ltac:(lia)) as Hz. rewrite Z.add_0_r in Hz. rewrite Hz.
    change (byte_at ((z :: l) ++ [c]) 0) with (Some z). cbn. replace (z =? c) with false by lia.
    rewrite IH; [do 2 f_equal; lia|done|simpl in Hk; lia|]. intros i Hi. rewrite <- Z.add_assoc, Hb by lia.
    rewrite !byte_at_lookup by lia. by replace (Z.to_nat (1 + i)) with (S (Z.to_nat i)) by lia.
Qed.
Lemma memchr_at b p c n l y : slice b p n = l ++ c :: y → blen (l ++ c :: y) = n → 0 <= p → c ∉ l →
  memchr b p c n = Some (Some (p + blen l)).
Proof.
  intros Hx Hn Hp Hc. pose proof (blen_nonneg y). rewrite blen_app, blen_cons in Hn.
  apply memchr_loop_at; [done|unfold blen in *; lia|]. intros i Hi.
  rewrite <- (byte_at_slice b p n) by lia. rewrite Hx. change (c :: y) with ([c] ++ y). rewrite app_assoc.
  apply byte_at_front. rewrite blen_app, blen_1. lia.
Qed.

Lemma no_eol_elem l c : no_eol l → is_eol c = true → c ∉ l.
Proof. intros Hl Hc Hin. unfold no_eol in Hl. rewrite list.Forall_forall in Hl. specialize (Hl c Hin). congruence. Qed.
(** Without an end of line, and with one. *)
Lemma find_none b p n x : slice b p n = x → blen x = n → 0 <= p → no_eol x → find_atcmd_eol b p n = Some None.
Proof.
  intros Hx Hn Hp Hl. unfold find_atcmd_eol.
  rewrite (memchr_none b p 13 n x), (memchr_none b p 10 n x) by (done || by apply no_eol_elem). done.
Qed.
(** The other character that ends a line. *)
Lemma memchr_other b p c n l e y : slice b p n = l ++ e :: y → blen (l ++ e :: y) = n → 0 <= p →
  no_eol l → is_eol e = true → is_eol c = true → c ≠ e →
  ∃ r, memchr b p c n = Some r ∧
    match r with
    | None => paired e y = 0
    | Some q => p + blen l < q ∧ paired e y = (if q =? p + blen l + 1 then 1 else 0)
    end.
Proof.
  intros Hx Hn Hp Hl He Hc Hne. pose proof (no_eol_elem l c Hl Hc) as Hcl.
  assert (∀ z, is_eol z && negb (z =? e) = true → z = c) as Hother by (intros z; unfold is_eol in *; lia).
  destruct (decide (c ∈ y)) as [Hin|Hin].
  - apply list_elem_of_split_l in Hin. destruct Hin as (y1 & y2 & -> & Hy1).
    rewrite (memchr_at b p c n (l ++ e :: y1) y2); [|by rewrite Hx, <- app_assoc|by rewrite <- app_assoc|done|].
    2: { rewrite elem_of_app, elem_of_cons. tauto. }
    eexists. split; [done|]. rewrite blen_app, blen_cons. pose proof (blen_nonneg y1). split; [lia|].
    destruct y1 as [|z y1]; cbn [paired app].
    + change (blen []) with 0. rewrite Hc. replace (c =? e) with false by lia. cbn. case_if; lia.
    + rewrite blen_cons in *. pose proof (blen_nonneg y1). rewrite elem_of_cons in Hy1.
      destruct (is_eol z && negb (z =? e)) eqn:Hz; [apply Hother in Hz; subst z; tauto|]. case_if; lia.
  - rewrite (memchr_none b p c n (l ++ e :: y)); [|done|done|done|rewrite elem_of_app, elem_of_cons; tauto].
    exists None. split; [done|]. destruct y as [|z y]; [done|]. cbn. rewrite elem_of_cons in Hin.
    destruct (is_eol z && negb (z =? e)) eqn:Hz; [apply Hother in Hz; subst z; tauto|done].
Qed.
Lemma find_some b p n l e y : slice b p n = l ++ e :: y → blen (l ++ e :: y) = n → 0 <= p → no_eol l → is_eol e = true →
  find_atcmd_eol b p n = Some (Some (p + blen l + paired e y)).
Proof.
  intros Hx Hn Hp Hl He. unfold find_atcmd_eol.
  pose proof (memchr_at b p e n l y Hx Hn Hp (no_eol_elem l e Hl He)) as Hfirst.
  assert (e = 13 ∨ e = 10) as [->| ->] by (unfold is_eol in He; lia).
  - destruct (memchr_other b p 10 n l 13 y) as (r & Hr & Hcase); [done..|]. rewrite Hfirst, Hr. cbn [mbind option_bind].
    destruct r as [q|]; [|by rewrite Hcase, Z.add_0_r]. destruct Hcase as [Hq ->]. do 2 f_equal. repeat case_if; f_equal; lia.
  - destruct (memchr_other b p 13 n l 10 y) as (r & Hr & Hcase); [done..|]. rewrite Hfirst, Hr. cbn [mbind option_bind].
    destruct r as [q|]; [|by rewrite Hcase, Z.add_0_r]. destruct Hcase as [Hq ->]. do 2 f_equal. repeat case_if; f_equal; lia.
Qed.

(** ** On a ring *)

(** The ring without its [k] oldest characters. *)
Definition ring_skip (k : Z) (c : tls_uart_circ_buf) : tls_uart_circ_buf := set_tail (ring_next (tail c) k) c.
Lemma ring_skip_skip i j c : ring_skip j (ring_skip i c) = ring_skip (i + j) c.
Proof. unfold ring_skip. simpl. by rewrite ring_next_next. Qed.
Lemma ring_skip_0 c : ring_ok c → ring_skip 0 c = c.
Proof. intros (_ & _ & _ & Ht). unfold ring_skip. rewrite ring_next_0 by done. by destruct c. Qed.
Lemma ring_tail_at i c : ring_ok c → 0 <= i < ring_cnt c →
  byte_at (cbuf c) (ring_next (tail c) i) = byte_at (rqueue c) i.
Proof. intros Hc Hi. by rewrite ring_next_mod, byte_at_queue. Qed.

Lemma modify_tail k c : 0 <= k <= 512 → modify_atcmd_tail c (tail c + k) = ring_skip k c.
Proof.
  intros Hk. unfold modify_atcmd_tail. replace (tail c + k - tail c) with k by lia.
  rewrite u32_id by (unfold is_u32; lia). case_if; [lia|done].
Qed.

Lemma take_queue_all c n : n = ring_cnt c → take (Z.to_nat n) (rqueue c) = rqueue c.
Proof. intros ->. rewrite <- blen_queue. unfold blen. rewrite Nat2Z.id. apply take_ge. lia. Qed.
(** The one or two stretches the characters of a ring are in. *)
Lemma ring_parts c : ring_ok c → rqueue c ≠ [] → let k := TLS_UART_RX_BUF_SIZE - tail c in
  (tail c < head c ∧ slice (cbuf c) (tail c) (head c - tail c) = rqueue c ∧ ring_cnt c = head c - tail c) ∨
  (head c < tail c ∧ slice (cbuf c) (tail c) k = take (Z.to_nat k) (rqueue c) ∧
    slice (cbuf c) 0 (head c) = drop (Z.to_nat k) (rqueue c) ∧ ring_cnt c = k + head c).
Proof.
  intros Hc Hne k. pose proof Hc as (Hb & _ & Hh & Ht). pose proof (blen_queue c) as Hl.
  assert (0 < ring_cnt c) as Hpos by (destruct (rqueue c); [done|]; rewrite <- Hl, blen_cons; pose proof (blen_nonneg l); lia).
  unfold TLS_UART_RX_BUF_SIZE in *.
  destruct (decide (tail c < head c)) as [Hlt|Hge]; [left|right].
  - assert (ring_cnt c = head c - tail c) as E by (unfold ring_cnt, TLS_UART_RX_BUF_SIZE; dlia).
    split; [done|]. split; [|done]. rewrite queue_straight by (done || unfold TLS_UART_RX_BUF_SIZE; lia). by apply take_queue_all.
  - assert (head c ≠ tail c) by (intros E; unfold ring_cnt in Hpos; rewrite E, Z.sub_diag in Hpos; done).
    assert (ring_cnt c = k + head c) as E by (unfold k, ring_cnt, TLS_UART_RX_BUF_SIZE in *; dlia).
    split; [lia|]. assert (slice (cbuf c) (tail c) k = take (Z.to_nat k) (rqueue c)) as E1
      by (apply queue_straight; [done|lia|unfold k, TLS_UART_RX_BUF_SIZE; lia]).
    split; [done|]. split; [|done]. destruct (decide (head c = 0)) as [E0|Hne0].
    + rewrite E0. rewrite drop_ge; [done|]. unfold blen in Hl. lia.
    + pose proof (queue_wrapped c (ring_cnt c) Hc ltac:(lia)) as Hw. rewrite take_queue_all in Hw by done.
      change TLS_UART_RX_BUF_SIZE with 4096 in Hw. fold k in Hw. rewrite E1, E in Hw.
      replace (k + head c - k) with (head c) in Hw by lia. apply (app_inv_head (take (Z.to_nat k) (rqueue c))).
      rewrite take_drop. apply Hw. unfold k, TLS_UART_RX_BUF_SIZE in *. lia.
Qed.

(** The characters of a ring that hold no end of a line. *)
Lemma eol_none c : ring_ok c → rqueue c ≠ [] → no_eol (rqueue c) → parse_atcmd_eol c = Some (None, c).
Proof.
  intros Hc Hne Hn. pose proof Hc as (Hb & _ & Hh & Ht). pose proof (blen_queue c) as Hl. unfold parse_atcmd_eol.
  assert (find_atcmd_eol (cbuf c) (tail c) (if tail c <? head c then head c - tail c else TLS_UART_RX_BUF_SIZE - tail c) = Some None ∧
          (head c <= tail c → find_atcmd_eol (cbuf c) 0 (head c) = Some None)) as [H1 H2].
  { rewrite <- (take_drop (Z.to_nat (TLS_UART_RX_BUF_SIZE - tail c)) (rqueue c)) in Hn. apply no_eol_app in Hn.
    destruct (ring_parts c Hc Hne) as [(Hlt & Hs & _)|(Hlt & Hs1 & Hs2 & _)].
    - case_if; [|lia]. split; [|lia]. eapply find_none; [exact Hs|rewrite Hl; unfold ring_cnt, TLS_UART_RX_BUF_SIZE in *; dlia|lia|].
      rewrite <- (take_drop (Z.to_nat (TLS_UART_RX_BUF_SIZE - tail c)) (rqueue c)). by apply no_eol_app.
    - case_if; [lia|]. split; [|intros _]; (eapply find_none; [eassumption|rewrite <- ?Hs1, <- ?Hs2; rewrite blen_slice; lia|lia|tauto]). }
  assert (∃ z, byte_at (cbuf c) (tail c) = Some z ∧ is_eol z = false) as (z & Hz & Hez).
  { assert (0 < ring_cnt c) by (rewrite <- Hl; destruct (rqueue c); [done|rewrite blen_cons; pose proof (blen_nonneg l); lia]).
    rewrite <- (ring_next_0 (tail c)), ring_tail_at by (done || lia).
    destruct (rqueue c) as [|z q]; [done|]. exists z. split; [done|]. by apply Forall_inv in Hn. }
  unfold is_eol in Hez. destruct (tail c <? head c) eqn:E; rewrite H1; cbn [mbind option_bind].
  - rewrite Hz. cbn [mbind option_bind]. by rewrite Hez.
  - rewrite H2 by lia. cbn [mbind option_bind]. rewrite Hz. cbn [mbind option_bind]. by rewrite Hez.
Qed.
Lemma paired_cases e y : paired e y = 0 ∨ paired e y = 1 ∧ ∃ e' y', y = e' :: y' ∧ is_eol e' = true.
Proof.
  destruct y as [|e' y]; cbn; [by left|]. destruct (is_eol e') eqn:He; cbn; [|by left].
  destruct (e' =? e); cbn; [by left|]. right. split; [done|]. by exists e', y.
Qed.
Lemma paired_take e y n : paired e (take n y) = 0 ∨ paired e (take n y) = paired e y.
Proof. destruct n; [by left|]. destruct y; by right. Qed.

(** [j]: one character more belongs to the end of the line. *)
Definition one_more (j : Z) (y : list Z) : Prop := j = 0 ∨ j = 1 ∧ ∃ e' y', y = e' :: y' ∧ is_eol e' = true.
Lemma one_more_len j y : one_more j y → 0 <= j <= 1 ∧ j <= blen y.
Proof.
  intros [->|(-> & e' & y' & -> & _)]; [pose proof (blen_nonneg y); lia|].
  rewrite blen_cons. pose proof (blen_nonneg y'). lia.
Qed.
Lemma one_more_at l e y j : is_eol e = true → one_more j y → ∃ z, byte_at (l ++ e :: y) (blen l + j) = Some z ∧ is_eol z = true.
Proof.
  intros He [->|(-> & e' & y' & -> & He')]; [exists e|exists e']; (split; [|done]); by rewrite byte_at_pre.
Qed.

(** The last part of [parse_atcmd_eol]: over the character at the tail, if it
    ends a line. *)
Definition jump (p : option Z) (c : tls_uart_circ_buf) : option (option Z * tls_uart_circ_buf) :=
  z ← byte_at (cbuf c) (tail c);
  Some (p, if (z =? 13) || (z =? 10) then set_tail (ring_next (tail c) 1) c else c).

(** The end of the first line of the text [q] that is searched: the characters
    of the ring, or all 4096 when the ring is empty. *)
Section eol.
Context (c : tls_uart_circ_buf) (q l : list Z) (e : Z) (y : list Z).
Hypothesis (Hc : ring_ok c) (Hq : q = l ++ e :: y) (Hl : no_eol l) (He : is_eol e = true).
Let k := TLS_UART_RX_BUF_SIZE - tail c.

Definition found_at (j : Z) : Prop :=
  parse_atcmd_eol c = jump (Some ((tail c + blen l + j) mod TLS_UART_RX_BUF_SIZE)) (modify_atcmd_tail c (tail c + (blen l + j))).

Lemma eol_straight : tail c < head c → slice (cbuf c) (tail c) (head c - tail c) = q → ∃ j, one_more j y ∧ found_at j.
Proof.
  intros Hlt Hs. pose proof Hc as (Hb & _ & Hh & Ht). pose proof (paired_cases e y) as Hj. pose proof (one_more_len _ _ Hj).
  assert (blen q = head c - tail c) as Hn by (rewrite <- Hs; apply blen_slice; lia).
  exists (paired e y). split; [exact Hj|]. unfold found_at, parse_atcmd_eol. case_if; [|lia].
  rewrite Hq in Hs, Hn. rewrite (find_some _ _ _ _ _ _ Hs) by (done || lia). cbn [mbind option_bind].
  rewrite blen_app, blen_cons in Hn. pose proof (blen_nonneg l). rewrite Z.mod_small by lia. by rewrite <- Z.add_assoc.
Qed.
Lemma eol_wrapped : head c <= tail c → slice (cbuf c) (tail c) k = take (Z.to_nat k) q →
  slice (cbuf c) 0 (head c) = drop (Z.to_nat k) q → ∃ j, one_more j y ∧ found_at j.
Proof.
  intros Hlt Hs1 Hs2. pose proof Hc as (Hb & _ & Hh & Ht). pose proof (blen_nonneg l) as Hl0.
  assert (0 < k) by (unfold k; lia). unfold TLS_UART_RX_BUF_SIZE in *.
  assert (blen (slice (cbuf c) (tail c) k) = k ∧ blen (slice (cbuf c) 0 (head c)) = head c) as [Hk1 Hk2]
    by (unfold k; rewrite !blen_slice; lia).
  rewrite Hs1 in Hk1. rewrite Hs2 in Hk2. rewrite Hq in Hs1, Hs2, Hk1, Hk2. unfold found_at, parse_atcmd_eol, TLS_UART_RX_BUF_SIZE. fold k.
  destruct (decide (blen l < k)) as [Hlk|Hlk].
  - rewrite take_app_ge in Hs1, Hk1 by (unfold blen in *; lia).
    replace (Z.to_nat k - length l)%nat with (S (Z.to_nat (k - blen l - 1))) in * by (unfold blen in *; lia).
    cbn [take] in Hs1, Hk1. set (y1 := take (Z.to_nat (k - blen l - 1)) y) in *.
    assert (one_more (paired e y1) y) as Hj.
    { destruct (paired_take e y (Z.to_nat (k - blen l - 1))) as [E|E]; fold y1 in E; [by left|]. rewrite E. apply paired_cases. }
    pose proof (one_more_len _ _ (paired_cases e y1)). exists (paired e y1). split; [done|].
    case_if; [lia|]. rewrite (find_some _ _ _ _ _ _ Hs1) by (done || lia).
    cbn [mbind option_bind]. rewrite blen_app, blen_cons in Hk1. rewrite Z.mod_small by (unfold k in *; lia). by rewrite <- Z.add_assoc.
  - rewrite take_app_le in Hs1, Hk1 by (unfold blen in *; lia). rewrite drop_app_le in Hs2, Hk2 by (unfold blen in *; lia).
    assert (no_eol (take (Z.to_nat k) l) ∧ no_eol (drop (Z.to_nat k) l)) as [Ht1 Ht2] by (apply no_eol_app; by rewrite take_drop).
    assert (blen (drop (Z.to_nat k) l) = blen l - k) as El by (unfold blen in *; rewrite length_drop; lia).
    pose proof (paired_cases e y) as Hj. pose proof (one_more_len _ _ Hj). exists (paired e y). split; [done|].
    case_if; [lia|]. rewrite (find_none _ _ _ _ Hs1) by (done || lia). cbn [mbind option_bind].
    rewrite (find_some _ _ _ _ _ _ Hs2) by (done || lia). cbn [mbind option_bind]. rewrite El.
    rewrite blen_app, blen_cons, El in Hk2. unfold jump. replace ((tail c + blen l + paired e y) mod 4096) with (0 + (blen l - k) + paired e y)
      by (unfold k in *; rewrite <- (Z.mod_small _ 4096) at 1 by lia; rewrite <- (Z.mod_add _ 1 4096) by lia; f_equal; lia).
    by replace (0 + (blen l - k) + paired e y + 4096) with (tail c + (blen l + paired e y)) by (unfold k; lia).
Qed.
End eol.
Lemma eol_found c l e y : ring_ok c → rqueue c = l ++ e :: y → no_eol l → is_eol e = true → ∃ j, one_more j y ∧ found_at c l j.
Proof.
  intros Hc Hq Hl He. destruct (ring_parts c Hc) as [(? & ? & ?)|(? & ? & ? & ?)]; [by rewrite Hq; destruct l|..].
  - by apply (eol_straight c (rqueue c) l e y).
  - apply (eol_wrapped c (rqueue c) l e y); [done..|lia|done|done].
Qed.

(** Where a line of up to 511 characters ends, and the ring behind its end of
    one character or two. *)
Definition eol_at c l (j : Z) : Prop :=
  parse_atcmd_eol c = Some (Some ((tail c + blen l + j) mod TLS_UART_RX_BUF_SIZE), ring_skip (blen l + j + 1) c).
Lemma eol_short c l j z : blen l <= 511 → 0 <= j <= 1 → found_at c l j →
  byte_at (cbuf c) (ring_next (tail c) (blen l + j)) = Some z → is_eol z = true → eol_at c l j.
Proof.
  intros Hlen Hj Hf Hz Hez. unfold eol_at. rewrite Hf, modify_tail by (pose proof (blen_nonneg l); lia). unfold jump.
  change (tail (ring_skip (blen l + j) c)) with (ring_next (tail c) (blen l + j)). change (cbuf (ring_skip _ c)) with (cbuf c).
  rewrite Hz. cbn [mbind option_bind]. unfold is_eol in Hez. rewrite Hez. by rewrite <- (ring_skip_skip (blen l + j) 1).
Qed.
Lemma eol_some c l e y : ring_ok c → rqueue c = l ++ e :: y → no_eol l → is_eol e = true → blen l <= 511 →
  ∃ j, one_more j y ∧ eol_at c l j.
Proof.
  intros Hc Hq Hl He Hlen. destruct (eol_found c l e y) as (j & Hj & Hf); [done..|]. exists j. split; [done|].
  destruct (one_more_at l e y j He Hj) as (z & Hz & Hez). apply (eol_short c l j z); [done|by apply (one_more_len j y)|done| |done].
  pose proof (blen_queue c) as Hn. rewrite Hq, blen_app, blen_cons in Hn. pose proof (one_more_len j y Hj). pose proof (blen_nonneg l).
  rewrite ring_tail_at by (done || lia). by rewrite Hq.
Qed.

(** * A command cut out *)

Lemma at_plus_ok c : ring_ok c → 3 <= ring_cnt c → at_plus c = Some (at_prefix (rqueue c)).
Proof.
  intros Hc H3. pose proof (blen_queue c) as Hn. unfold at_plus. pose proof Hc as (_ & _ & _ & Ht).
  rewrite <- (ring_next_0 (tail c)) at 1 by done. rewrite !ring_tail_at by (done || lia).
  destruct (rqueue c) as [|a [|t [|p q]]]; unfold blen in Hn; cbn [length] in Hn; [lia..|].
  change (byte_at (a :: t :: p :: q) 0) with (Some a). change (byte_at (a :: t :: p :: q) 1) with (Some t).
  change (byte_at (a :: t :: p :: q) 2) with (Some p). cbn. by destruct ((a =? 65) || (a =? 97)), ((t =? 84) || (t =? 116)).
Qed.

(** The bytes from the tail to [n] places behind it. *)
Lemma copy_cmd_ok c n b : ring_ok c → 0 <= n <= ring_cnt c → blen b = n + 2 → let eol := (tail c + n) mod TLS_UART_RX_BUF_SIZE in
  cmd_length (tail c) eol = n ∧ copy_cmd (cbuf c) (tail c) eol b = Some (splice b 0 (take (Z.to_nat n) (rqueue c))).
Proof.
  intros Hc Hn Hb eol. pose proof Hc as (Hbuf & _ & _ & Ht). pose proof (ring_cnt_range c). unfold cmd_length, copy_cmd.
  assert (tail c + n < 4096 ∧ eol = tail c + n ∨ 4096 <= tail c + n ∧ eol = tail c + n - 4096) as [[Hlt ->]|[Hge ->]]
    by (unfold eol, TLS_UART_RX_BUF_SIZE in *; dlia); unfold TLS_UART_RX_BUF_SIZE in *.
  - case_if; [|lia]. split; [lia|]. rewrite memcpy_Some by lia. replace (tail c + n - tail c) with n by lia.
    by rewrite queue_straight by (done || unfold TLS_UART_RX_BUF_SIZE; lia).
  - case_if; [lia|]. split; [lia|]. set (k := 4096 - tail c). rewrite memcpy_Some by (unfold k; lia). cbn [mbind option_bind].
    assert (blen (slice (cbuf c) (tail c) k) = k) as Hk by (apply blen_slice; unfold k; lia).
    rewrite memcpy_Some by (rewrite ?blen_splice by (rewrite ?Hk; unfold k; lia); unfold k; lia).
    rewrite splice_next by (rewrite ?Hk, ?blen_slice by (unfold k; lia); unfold k; lia).
    do 2 f_equal. replace (tail c + n - 4096) with (n - k) by (unfold k; lia).
    destruct (decide (tail c + n = 4096)) as [Eq|Eq].
    + replace (n - k) with 0 by (unfold k; lia). replace (Z.to_nat n) with (Z.to_nat k) by (unfold k; lia).
      rewrite <- (queue_straight c k) by (done || unfold k, TLS_UART_RX_BUF_SIZE; lia). apply app_nil_r.
    + apply (queue_wrapped c n); [done..|unfold TLS_UART_RX_BUF_SIZE; lia].
Qed.

(** A block that holds [x] and is two bytes longer, as [x] and those. *)
Lemma splice_front b x : splice b 0 x = x ++ drop (length x) b.
Proof. done. Qed.
Lemma stop_at x u v r : (b ← store8 (x ++ u :: v :: r) (blen x) 10; store8 b (blen x + 1) 0) = Some (x ++ 10 :: 0 :: r).
Proof.
  rewrite store8_mid. cbn [mbind option_bind]. change (10 :: v :: r) with ([10] ++ v :: r). rewrite app_assoc.
  rewrite <- (blen_1 10), <- blen_app, store8_mid. by rewrite <- app_assoc.
Qed.
Lemma no_eol_at l i z : no_eol l → byte_at l i = Some z → is_eol z = false.
Proof.
  intros Hl Hz. pose proof (byte_at_Some _ _ _ Hz). rewrite byte_at_lookup in Hz by lia. exact (Forall_lookup_1 _ _ _ _ Hl Hz).
Qed.
(** The character at [i] does not end the line. *)
Lemma front_at l r i : no_eol l → 0 <= i < blen l → ∃ z, byte_at (l ++ r) i = Some z ∧ is_eol z = false.
Proof.
  intros Hl Hi. destruct (byte_at_is_Some l i Hi) as [z Hz]. exists z. rewrite byte_at_front by lia.
  split; [done|by eapply no_eol_at].
Qed.
Lemma end_line_ok l e j y b : no_eol l → 3 <= blen l <= 511 → is_eol e = true → one_more j y → blen b = blen l + j + 2 →
  ∃ r, blen r = j ∧
    end_line (splice b 0 (take (Z.to_nat (blen l + j)) (l ++ e :: y))) (blen l + j) = Some (l ++ 10 :: 0 :: r, blen l + 1).
Proof.
  intros Hl Hlen He Hj Hb. pose proof (one_more_len j y Hj). unfold is_eol in *.
  assert (∀ x, blen x = blen l + j → splice b 0 x = x ++ drop (length x) b ∧ length (drop (length x) b) = 2%nat) as Hs.
  { intros x Hx. split; [apply splice_front|]. rewrite length_drop. unfold blen in *. lia. }
  unfold end_line. rewrite !u32_id by (unfold is_u32; lia). destruct Hj as [->|(-> & e' & y' & -> & He')].
  - rewrite Z.add_0_r, blen_nat, take_app_length in *. destruct (Hs l eq_refl) as [-> Hd].
    destruct (drop (length l) b) as [|u [|v [|]]]; [done..| |done].
    destruct (front_at l [u; v] (blen l - 2) Hl) as (z & -> & Hz); [lia|].
    destruct (front_at l [u; v] (blen l - 1) Hl) as (z' & -> & Hz'); [lia|].
    cbn [mbind option_bind]. unfold is_eol in *. rewrite Hz. cbn [mbind option_bind]. rewrite Hz', stop_at. cbn [mbind option_bind].
    by exists [].
  - assert (take (Z.to_nat (blen l + 1)) (l ++ e :: e' :: y') = l ++ [e]) as ->.
    { rewrite take_app_ge by (unfold blen; lia). by replace (Z.to_nat (blen l + 1) - length l)%nat with 1%nat by (unfold blen; lia). }
    destruct (Hs (l ++ [e])) as [-> Hd]; [by rewrite blen_app|].
    destruct (drop (length (l ++ [e])) b) as [|u [|v [|]]]; [done..| |done]. rewrite <- app_assoc. cbn [app].
    destruct (front_at l (e :: u :: [v]) (blen l + 1 - 2) Hl) as (z & -> & Hz); [lia|].
    replace (blen l + 1 - 1) with (blen l) by lia.
    assert (byte_at (l ++ e :: u :: [v]) (blen l) = Some e) as -> by (rewrite <- (Z.add_0_r (blen l)); by rewrite byte_at_pre).
    cbn [mbind option_bind]. unfold is_eol in *. rewrite Hz. cbn [mbind option_bind].
    rewrite He, stop_at. cbn [mbind option_bind]. by exists [v].
Qed.

(** * The loop over the lines *)

(** From ring [c] whole lines [x] have been taken, [c'] is left. *)
Definition cut (x : list Z) (c c' : tls_uart_circ_buf) : Prop := rqueue c = x ++ rqueue c' ∧ whole x ∧ ring_ok c'.
Lemma cut_nothing c : ring_ok c → cut [] c c.
Proof. done. Qed.
Lemma cut_trans x y c1 c2 c3 : cut x c1 c2 → cut y c2 c3 → cut (x ++ y) c1 c3.
Proof. intros (H1 & Hx & _) (H2 & Hy & H3). split; [by rewrite H1, H2, app_assoc|]. by split; [apply whole_app|]. Qed.

(** What can be dealt with when it is looked at: lines of up to 511 characters,
    and behind them less than three characters or the beginning of a command,
    which must be more than [AT+]. *)
Definition rest_ok (r : list Z) : Prop := blen r < 3 ∨ at_prefix r = true ∧ 3 < blen r <= 515.
Definition calm (q : list Z) : Prop := Forall (λ l, blen l <= 511) (lines q).1 ∧ rest_ok (lines q).2.
Lemma calm_rest x y : whole x → calm (x ++ y) → calm y.
Proof. intros Hx. unfold calm. rewrite lines_app by done. intros [Hs Hr]. apply Forall_app in Hs. split; [apply Hs|exact Hr]. Qed.

(** The first line of a ring, off its queue. *)
Lemma line_whole l e j y : no_eol l → is_eol e = true → one_more j y →
  let x := l ++ e :: take (Z.to_nat j) y in
  l ++ e :: y = x ++ drop (Z.to_nat j) y ∧ whole x ∧ commands x = (if at_prefix l then [l] else []) ∧ blen x = blen l + j + 1.
Proof.
  intros Hl He Hj x. unfold whole, commands, x. rewrite <- app_assoc. cbn [app]. rewrite take_drop. split; [done|].
  rewrite lines_line by done. cbn [fst snd]. destruct Hj as [->|(-> & e' & y' & -> & He')].
  - change (take (Z.to_nat 0) y) with (@nil Z). cbn [lines fst snd]. split; [done|]. rewrite blen_app, blen_cons. change (blen []) with 0. split; [|lia].
    rewrite filter_cons. by destruct (at_prefix l).
  - change (take (Z.to_nat 1) (e' :: y')) with [e']. cbn [lines]. rewrite He'. split; [done|].
    rewrite blen_app, blen_cons, blen_1. split; [|lia]. cbn [fst snd]. rewrite !filter_cons. by destruct (at_prefix l).
Qed.
Lemma cut_line c l e y j : ring_ok c → rqueue c = l ++ e :: y → no_eol l → is_eol e = true → one_more j y →
  ∃ x, cut x c (ring_skip (blen l + j + 1) c) ∧ commands x = (if at_prefix l then [l] else []) ∧ blen x = blen l + j + 1.
Proof.
  intros Hc Hq Hl He Hj. destruct (line_whole l e j y Hl He Hj) as (Hx & Hw & Hcmd & Hlen).
  exists (l ++ e :: take (Z.to_nat j) y). split; [|done]. pose proof (blen_nonneg (drop (Z.to_nat j) y)).
  destruct (ring_drop_ok (blen l + j + 1) c Hc) as [Hc' Hq'].
  { rewrite Hq, Hx, blen_app, Hlen. pose proof (one_more_len j y Hj). pose proof (blen_nonneg l). lia. }
  split; [|done]. unfold ring_skip. rewrite Hq', Hq, Hx, <- Hlen, blen_nat. by rewrite drop_app_length.
Qed.

(** The block a command is copied to, when its end has been found [j]
    characters after the first that ends it. *)
Lemma command_copy c l e y j : ring_ok c → rqueue c = l ++ e :: y → no_eol l → is_eol e = true → 3 <= blen l <= 511 → one_more j y →
  let eol := (tail c + (blen l + j)) mod TLS_UART_RX_BUF_SIZE in
  cmd_length (tail c) eol = blen l + j ∧
  ∀ b, blen b = blen l + j + 2 → ∃ b1 r, copy_cmd (cbuf c) (tail c) eol b = Some b1 ∧ blen r = j ∧
    end_line b1 (blen l + j) = Some (l ++ 10 :: 0 :: r, blen l + 1).
Proof.
  intros Hc Hq Hl He Hlen Hj eol. pose proof (blen_queue c) as Hn. pose proof (one_more_len j y Hj).
  rewrite Hq, blen_app, blen_cons in Hn.
  destruct (copy_cmd_ok c (blen l + j) (replicate (Z.to_nat (blen l + j + 2)) 0) Hc) as [Hcl _]; [lia|rewrite blen_replicate; lia|].
  split; [exact Hcl|]. intros b Hb. destruct (copy_cmd_ok c (blen l + j) b Hc) as [_ Hcopy]; [lia|done|].
  destruct (end_line_ok l e j y b Hl) as (r & Hr & Hend); [lia|done..|]. rewrite Hq in Hcopy. by eexists _, r.
Qed.
(** A line that is a command: where it ends and the block it is copied to. *)
Lemma command_cut c l e y : ring_ok c → rqueue c = l ++ e :: y → no_eol l → is_eol e = true → blen l <= 511 → at_prefix l = true →
  ∃ j eol, one_more j y ∧
    parse_atcmd_eol (ring_skip 3 c) = Some (Some eol, ring_skip (blen l + j + 1) c) ∧
    cmd_length (tail c) eol = blen l + j ∧
    (∀ b, blen b = blen l + j + 2 → ∃ b1 r, copy_cmd (cbuf c) (tail c) eol b = Some b1 ∧ blen r = j ∧
       end_line b1 (blen l + j) = Some (l ++ 10 :: 0 :: r, blen l + 1)).
Proof.
  intros Hc Hq Hl He Hlen Hat. pose proof (blen_queue c) as Hn.
  pose proof (blen_nonneg y). pose proof Hq as Hq0. rewrite Hq, blen_app, blen_cons in Hn.
  destruct l as [|a [|t [|p l']]] eqn:El; [done..|]. rewrite <- El in *.
  assert (blen l = 3 + blen l' ∧ no_eol l') as [H3 Hl'].
  { rewrite El in Hl |- *. rewrite !blen_cons. split; [lia|]. by do 3 apply Forall_inv_tail in Hl. }
  pose proof (blen_nonneg l'). destruct (ring_drop_ok 3 c Hc) as [Hc3 Hq3]; [rewrite blen_queue; lia|].
  fold (ring_skip 3 c) in Hc3, Hq3. rewrite Hq, El in Hq3. change (drop (Z.to_nat 3) _) with (l' ++ e :: y) in Hq3.
  destruct (eol_some (ring_skip 3 c) l' e y) as (j & Hj & Heol); [done..|lia|].
  unfold eol_at in Heol. rewrite ring_skip_skip in Heol. replace (3 + (blen l' + j + 1)) with (blen l + j + 1) in Heol by lia.
  exists j, ((tail c + (blen l + j)) mod TLS_UART_RX_BUF_SIZE). split; [done|]. split.
  - rewrite Heol. do 3 f_equal. unfold ring_skip. cbn [tail set_tail]. rewrite ring_next_mod. unfold TLS_UART_RX_BUF_SIZE. dlia.
  - apply (command_copy c l e y); [done..|lia|done].
Qed.

Lemma commands_short q : blen q < 3 → commands q = [].
Proof.
  destruct q as [|a [|b [|c q]]]; rewrite ?blen_cons; try (pose proof (blen_nonneg q); lia); intros _;
    unfold commands; cbn [lines]; [done|..]; by repeat destruct (is_eol _).
Qed.
Lemma commands_none q : no_eol q → commands q = [].
Proof. intros Hq. unfold commands. by rewrite lines_none. Qed.
Lemma commands_line l e y : no_eol l → is_eol e = true → commands (l ++ e :: y) = (if at_prefix l then [l] else []) ++ commands y.
Proof. intros Hl He. unfold commands. rewrite lines_line by done. cbn [fst]. rewrite filter_cons. by destruct (at_prefix l). Qed.
(** The beginning of a command is looked at and left. *)
Lemma partial_kept c : ring_ok c → no_eol (rqueue c) → 3 < ring_cnt c <= 515 →
  parse_atcmd_eol (ring_skip 3 c) = Some (None, ring_skip 3 c) ∧ ring_cnt (ring_skip 3 c) <= 512 ∧
  ring_skip (-3) (ring_skip 3 c) = c.
Proof.
  intros Hc Hn Hlen. destruct (ring_drop_ok 3 c Hc) as [Hc3 Hq3]; [rewrite blen_queue; lia|]. fold (ring_skip 3 c) in Hc3, Hq3.
  pose proof (blen_queue c) as Hl. pose proof (blen_queue (ring_skip 3 c)) as Hl3. rewrite Hq3 in Hl3. unfold blen in *. rewrite length_drop in Hl3.
  split; [|split; [lia|by rewrite ring_skip_skip, ring_skip_0]]. apply eol_none; [done|..]; rewrite Hq3.
  - intros E. apply (f_equal length) in E. rewrite length_drop in E. simpl in E. lia.
  - rewrite <- (take_drop (Z.to_nat 3)) in Hn. apply no_eol_app in Hn. apply Hn.
Qed.

Section loop.
Context {R H : Type} `{!UartRegs R, !UartEnv R (tasks H), !TaskEnv R H}.
Local Abbreviation St := (uarts R (tasks H)).
Implicit Types (s : St) (p : tls_uart_port) (r : R) (c : tls_uart_circ_buf).

Definition mem_ok s : Prop := ∀ k, u_heap s k ≠ None.
Lemma wp_mem_some n k p r s (Q : option (list Z) → St → Prop) : mem_ok s → 0 <= k →
  (∀ h b, mem_ok (set_u_heap h s) → blen b = k → Q (Some b) (at_port n p r (set_u_heap h s))) →
  wp (tls_mem_alloc k) Q (at_port n p r s).
Proof.
  intros Hm Hk HQ. unfold tls_mem_alloc. apply wp_lift. unfold wp, malloc. cbn [u_heap at_port].
  pose proof (Hm O) as H0. destruct (u_heap s O) as [f|] eqn:E; [|done]. cbn. rewrite set_u_heap_put.
  apply HQ; [intros j; cbn; apply Hm|]. by apply blen_fmap_seqZ.
Qed.

(** What is done after a command: when characters are left the task is told,
    otherwise the loop is over. *)
Definition after_command n (Q : unit → St → Prop) s : Prop := ∃ p r, is_port n s p r ∧ ring_ok (recv p) ∧
  if 0 <? ring_cnt (recv p) then wp (if uart_no p =? TLS_UART_0 then tls_uart0_task_rx_cb else tls_uart1_task_rx_cb) (λ _, Q tt) s
  else Q tt s.
Definition cmd_type (uart_no : Z) : Z := if uart_no =? TLS_UART_0 then HOSTIF_UART0_AT_CMD else HOSTIF_UART1_AT_CMD.

Lemma wp_after_command n i k (Q : unit → St → Prop) s : after_command n Q s →
  wp (let* p := port n in
      let c := recv p in
      if 0 <? CIRC_CNT (head c) (tail c) TLS_UART_RX_BUF_SIZE then
        (if uart_no p =? TLS_UART_0 then tls_uart0_task_rx_cb else tls_uart1_task_rx_cb) ;; ret tt
      else parse_atcmd_loop k i n)%C Q s.
Proof.
  intros (p & r & Hp & Hc & HQ). pose proof (is_port_fits _ _ _ _ Hp) as Hf.
  rewrite (put_self _ _ _ _ Hp). u_steps. rewrite <- (put_self _ _ _ _ Hp). cbv zeta. rewrite CIRC_CNT_ring.
  destruct (0 <? ring_cnt (recv p)) eqn:E.
  - u_steps. eapply wp_mono; [exact HQ|]. intros ? s2 HQ2. by apply wp_ret.
  - rewrite (put_self _ _ _ _ Hp). destruct k; cbn [parse_atcmd_loop]; u_steps; rewrite CIRC_CNT_ring; (case_if; [|lia]);
      apply wp_ret; by rewrite <- (put_self _ _ _ _ Hp).
Qed.

(** A round that cuts out a command [l] of [m] characters and hands it over. *)
Lemma wp_command_round n i s (Hf : has_port n s) k p r eol c m l (Q : unit → St → Prop) : mem_ok s → 0 <= m →
  3 <= ring_cnt (recv p) → at_plus (recv p) = Some true → parse_atcmd_eol (ring_skip 3 (recv p)) = Some (Some eol, c) →
  cmd_length (tail (recv p)) eol = m →
  (∀ b, blen b = m + 2 → ∃ b1 rest, copy_cmd (cbuf c) (tail (recv p)) eol b = Some b1 ∧ end_line b1 m = Some (l ++ 10 :: 0 :: rest, blen l + 1)) →
  (∀ h rest, mem_ok (set_u_heap h s) →
     wp (tls_hostif_cmd_handler (cmd_type (uart_no p)) (l ++ 10 :: 0 :: rest) (blen l + 1)) (λ _, after_command n Q)
       (at_port n (set_recv c p) r (set_u_heap h s))) →
  wp (parse_atcmd_loop (S k) i n) Q (at_port n p r s).
Proof.
  intros Hm Hm0 H3 Hat Hparse Hcl Hcopy Hcmd. cbn [parse_atcmd_loop]. u_steps. cbv zeta. rewrite CIRC_CNT_ring. case_if; [lia|].
  u_steps. apply (wp_of_opt _ _ _ _ Hat). cbv beta iota zeta. u_steps. apply (wp_of_opt _ _ _ _ Hparse). cbv beta iota.
  unfold set_ring. u_steps. rewrite Hcl. apply wp_mem_some; [done|lia|]. intros h b Hm' Hb.
  destruct (Hcopy b Hb) as (b1 & rest & Hc1 & Hend). u_steps. apply (wp_of_opt _ _ _ _ Hc1). u_steps.
  apply (wp_of_opt _ _ _ _ Hend). cbv beta iota zeta. u_steps. eapply wp_mono; [by apply Hcmd|]. intros ? s'. apply wp_after_command.
Qed.

(** The loop over a calm ring: what is before the first command goes; the
    command, if there is one, is handed over with its line feed and a zero. *)
Lemma wp_parse_loop n i s (Hf : has_port n s) k : ∀ p r (Q : unit → St → Prop),
  ring_ok (recv p) → calm (rqueue (recv p)) → ring_cnt (recv p) < Z.of_nat k → mem_ok s →
  (∀ x c, cut x (recv p) c → commands (rqueue (recv p)) = [] → commands x = [] → Q tt (at_port n (set_recv c p) r s)) →
  (∀ x l c h rest, cut x (recv p) c → commands x = [l] → mem_ok (set_u_heap h s) →
     wp (tls_hostif_cmd_handler (cmd_type (uart_no p)) (l ++ 10 :: 0 :: rest) (blen l + 1)) (λ _, after_command n Q)
       (at_port n (set_recv c p) r (set_u_heap h s))) →
  wp (parse_atcmd_loop k i n) Q (at_port n p r s).
Proof.
  induction k as [|k IH]; intros p r Q Hc Hcalm Hk Hm Hnone Hcmd; [pose proof (ring_cnt_range (recv p)); lia|].
  pose proof (blen_queue (recv p)) as Hlen. destruct (decide (ring_cnt (recv p) < 3)) as [Hlt|Hge].
  { cbn [parse_atcmd_loop]. u_steps. rewrite CIRC_CNT_ring. case_if; [|lia].
    apply wp_ret. rewrite <- (set_recv_self p) at 1. apply (Hnone []); [done|apply commands_short; lia|done]. }
  assert (∀ b, at_prefix (rqueue (recv p)) = b → at_plus (recv p) = Some b) as Hplus by (intros b <-; apply at_plus_ok; [done|lia]).
  destruct (lines_cases (rqueue (recv p))) as [Hno|(l & e & y & Hq & Hl & He)].
  - destruct Hcalm as [_ Hrest]. rewrite lines_none in Hrest by done. cbn [snd] in Hrest. destruct Hrest as [Hr|[Hat Hr]]; [lia|].
    destruct (partial_kept (recv p) Hc Hno) as (Hparse & Hcnt & Hback); [lia|]. cbn [parse_atcmd_loop]. u_steps. rewrite CIRC_CNT_ring.
    case_if; [lia|]. u_steps. apply (wp_of_opt _ _ _ _ (Hplus _ Hat)). cbv beta iota zeta. u_steps. apply (wp_of_opt _ _ _ _ Hparse). cbv beta iota.
    rewrite CIRC_CNT_ring. case_if; [lia|]. unfold set_ring. u_steps.
    change (set_tail _ (ring_skip 3 (recv p))) with (ring_skip (-3) (ring_skip 3 (recv p))). rewrite Hback.
    apply (Hnone []); [done|by apply commands_none|done].
  - assert (at_prefix (rqueue (recv p)) = at_prefix l) as Eat by (rewrite Hq; by apply at_prefix_app). assert (blen l <= 511) as Hl511.
    { destruct Hcalm as [Hs _]. rewrite Hq, lines_line in Hs by done. by apply Forall_inv in Hs. }
    destruct (at_prefix l) eqn:Hat.
    + destruct (command_cut (recv p) l e y Hc Hq Hl He Hl511 Hat) as (j & eol & Hj & Hparse & Hcl & Hcopy).
      destruct (cut_line (recv p) l e y j Hc Hq Hl He Hj) as (x & Hx & Hcx & _). rewrite Hat in Hcx.
      pose proof (one_more_len j y Hj). pose proof (blen_nonneg l).
      apply (wp_command_round n i s Hf k p r eol (ring_skip (blen l + j + 1) (recv p)) (blen l + j) l); [done|lia|lia|by apply Hplus|done|done|..].
      * intros b Hb. destruct (Hcopy b Hb) as (b1 & rest & ? & _ & ?). by exists b1, rest.
      * intros h rest Hm'. by eapply Hcmd.
    + destruct (eol_some (recv p) l e y Hc Hq Hl He Hl511) as (j & Hj & Heol). unfold eol_at in Heol.
      destruct (cut_line (recv p) l e y j Hc Hq Hl He Hj) as (x & Hx & Hcx & Hlx). rewrite Hat in Hcx.
      pose proof Hx as (Hqx & Hwx & Hcx'). pose proof (one_more_len j y Hj). pose proof (blen_nonneg l).
      cbn [parse_atcmd_loop]. u_steps. rewrite CIRC_CNT_ring. case_if; [lia|]. u_steps.
      apply (wp_of_opt _ false); [by apply Hplus|]. cbv beta iota zeta. u_steps. apply (wp_of_opt _ _ _ _ Heol). cbv beta iota. unfold set_ring. u_steps. apply IH; cbn [recv set_recv uart_no]; [done|..].
      * rewrite Hqx in Hcalm. by eapply calm_rest.
      * apply (f_equal blen) in Hqx. rewrite blen_app, !blen_queue in Hqx. lia.
      * done.
      * intros x2 c2 Hx2 Hn2 Hcx2. apply (Hnone (x ++ x2)); [by eapply cut_trans| |].
        -- by rewrite Hqx, commands_app, Hcx, Hn2.
        -- by rewrite commands_app, Hcx.
      * intros x2 l2 c2 h rest Hx2 Hcx2 Hm2. apply (Hcmd (x ++ x2)); [by eapply cut_trans| |done]. by rewrite commands_app, Hcx.
Qed.

(** ** The task *)

(** What the functions the module calls leave alone. *)
Definition keeps s s' : Prop :=
  uart_port s' = uart_port s ∧ uart_hw s' = uart_hw s ∧ uart_st (user s') = uart_st (user s) ∧ (mem_ok s → mem_ok s').
End loop.

(** The command interpreter as the task sees it: [handled] is the commands it
    has been given, [posted] the messages to the task.  Nothing is asked of it
    for lines it does not accept; the others it returns from, in a good state,
    and they do not change the mode of a port. *)
Class TaskAtOk (R H : Type) `{!UartEnv R (tasks H), !TaskEnv R H} := {
  handled : H → list (Z * list Z);
  posted : H → list Z;
  good : H → Prop;
  accepts : list Z → Prop;
  cmd_handler_ok ty l rest (s : uarts R (tasks H)) : good (host (user s)) → accepts l →
    wp (tls_hostif_cmd_handler ty (l ++ 10 :: 0 :: rest) (blen l + 1)) (λ _ s', keeps s s' ∧ good (host (user s')) ∧
      handled (host (user s')) = handled (host (user s)) ++ [(ty, l)] ∧ posted (host (user s')) = posted (host (user s))) s;
  cmdrsp_ok ty b len (s : uarts R (tasks H)) : good (host (user s)) →
    wp (tls_hostif_process_cmdrsp ty b len) (λ _ s', keeps s s' ∧ good (host (user s')) ∧
      handled (host (user s')) = handled (host (user s)) ∧ posted (host (user s')) = posted (host (user s))) s;
  untimeout_ok i (s : uarts R (tasks H)) : good (host (user s)) →
    wp (wl_task_untimeout i) (λ _ s', keeps s s' ∧ good (host (user s')) ∧
      handled (host (user s')) = handled (host (user s)) ∧ posted (host (user s')) = posted (host (user s))) s;
  post_ok id (s : uarts R (tasks H)) : good (host (user s)) →
    wp (wl_task_callback_static id) (λ _ s', keeps s s' ∧ good (host (user s')) ∧
      handled (host (user s')) = handled (host (user s)) ∧ posted (host (user s')) = posted (host (user s)) ++ [id]) s;
}.

Section lines_of_commands.
Context {R H : Type} `{!UartRegs R, !UartEnv R (tasks H), !TaskEnv R H, !TaskAtOk R H}.
Local Abbreviation St := (uarts R (tasks H)).
Implicit Types (s : St) (p : tls_uart_port) (r : R) (c : tls_uart_circ_buf).

(** Port [n] is served in mode [m]. *)
Definition serves n m s : Prop := ∃ u, uart_st (user s) !! Z.to_nat n = Some u ∧ port_ptr u = Some n ∧ cmd_mode u = m.
(** Port [n], 0 or 1, with ring [c]. *)
Definition ring_at n c s : Prop := ∃ p r, is_port n s p r ∧ uart_no p = n ∧ recv p = c.
Definition task_ok n m c s : Prop :=
  (n = 0 ∨ n = 1) ∧ serves n m s ∧ ring_at n c s ∧ ring_ok c ∧ mem_ok s ∧ good (host (user s)).

Lemma keeps_is_port n s s' p r : keeps s s' → is_port n s p r → is_port n s' p r.
Proof. intros (H1 & H2 & _) [Hp Hr]. split; congruence. Qed.
Lemma keeps_serves n m s s' : keeps s s' → serves n m s → serves n m s'.
Proof. intros (_ & _ & H3 & _) (u & Hu & Hs). exists u. split; [congruence|done]. Qed.
Lemma keeps_task n m c s s' : keeps s s' → good (host (user s')) → task_ok n m c s → task_ok n m c s'.
Proof.
  intros Hk Hg (Hn & Hs & (p & r & Hp & Hno) & Hc & Hm & _). split; [done|]. split; [by eapply keeps_serves|].
  split; [exists p, r; split; [by eapply keeps_is_port|done]|]. split; [done|]. split; [by apply Hk|done].
Qed.
Lemma wp_uart n m s (Q : tls_uart → St → Prop) : serves n m s →
  (∀ u, port_ptr u = Some n → cmd_mode u = m → Q u s) → wp (uart n) Q s.
Proof. intros (u & Hu & Hp & Hm) HQ. unfold wp, uart, of_opt. rewrite Hu. by apply HQ. Qed.
Lemma wp_port_of n m s (Q : Z → St → Prop) : serves n m s → Q n s → wp (port_of n) Q s.
Proof. intros Hs HQ. apply wp_bind, (wp_uart n m _ _ Hs). intros u Hu _. unfold deref. by apply (wp_of_opt _ n). Qed.
(** The task of port [n] is told that there are characters. *)
Definition rx_id (n : Z) : Z := if n =? TLS_UART_0 then TLS_MSG_ID_UART0_RX else TLS_MSG_ID_UART1_RX.
Lemma wp_post_cb n c s (Q : St → Prop) : n = 0 ∨ n = 1 → serves n UART_ATCMD_MODE s → ring_at n c s →
  wp (wl_task_callback_static (rx_id n)) (λ _, Q) s →
  wp (if n =? TLS_UART_0 then tls_uart0_task_rx_cb else tls_uart1_task_rx_cb) (λ _, Q) s.
Proof.
  intros Hn Hs (p & r & Hp & _) HQ. assert (wp (task_rx_cb n (rx_id n)) (λ _, Q) s) as Hcb; [|by destruct Hn as [-> | ->]].
  unfold task_rx_cb. apply wp_bind, (wp_port_of n _ _ _ Hs), wp_bind, (wp_uart n _ _ _ Hs). intros u _ Hu.
  apply wp_bind. unfold port. apply (wp_of_opt _ p); [apply Hp|]. rewrite Hu. cbn [UART_TRANS_MODE UART_ATCMD_MODE Z.eqb andb].
  apply wp_bind, wp_ret, wp_bind. eapply wp_mono; [exact HQ|]. intros x s' HQ'. by destruct (truth x).
Qed.
Lemma wp_task_cb n c s (Q : St → Prop) : task_ok n UART_ATCMD_MODE c s →
  (∀ s', task_ok n UART_ATCMD_MODE c s' → handled (host (user s')) = handled (host (user s)) →
     posted (host (user s')) = posted (host (user s)) ++ [rx_id n] → Q s') →
  wp (if n =? TLS_UART_0 then tls_uart0_task_rx_cb else tls_uart1_task_rx_cb) (λ _, Q) s.
Proof.
  intros Hok HQ. pose proof Hok as (Hn & Hs & Hr & _ & _ & Hg). apply (wp_post_cb n c); [done..|].
  eapply wp_mono; [by apply post_ok|]. intros x s' (Hk & Hg' & Hh & Hpo). apply HQ; [by eapply keeps_task|done|done].
Qed.

(** What a run of the task does with a calm ring. *)
Definition served n c s (Q : St → Prop) : Prop := ∀ x c' s',
  cut x c c' → commands x = take 1 (commands (rqueue c)) → task_ok n UART_ATCMD_MODE c' s' →
  handled (host (user s')) = handled (host (user s)) ++ ((cmd_type n,.) <$> commands x) →
  posted (host (user s')) = posted (host (user s)) ++ (if negb (bool_decide (commands x = [])) && (0 <? ring_cnt c') then [rx_id n] else []) →
  Q s'.
Lemma task_put n m c p r s : task_ok n m c s → is_port n s p r → ∀ p', uart_no p' = n → ring_ok (recv p') → ∀ h, mem_ok (set_u_heap h s) →
  ∀ r', task_ok n m (recv p') (at_port n p' r' (set_u_heap h s)).
Proof.
  intros (Hn & Hs & _ & _ & _ & Hg) Hp p' Hno Hc h Hm r'. do 2 (split; [done|]).
  split; [exists p', r'; split; [apply is_port_put; by apply is_port_fits in Hp|done]|done].
Qed.
Lemma set_u_heap_self s : set_u_heap (u_heap s) s = s.
Proof. by destruct s. Qed.

Lemma wp_parse_line n c s (Q : St → Prop) : task_ok n UART_ATCMD_MODE c s → calm (rqueue c) → Forall accepts (commands (rqueue c)) →
  served n c s Q → wp (parse_atcmd_line n) (λ _, Q) s.
Proof.
  intros Hok Hcalm Hacc HQ. pose proof Hok as (Hn & Hs & (p & r & Hp & Hno & Hrec) & Hc & Hm & Hg).
  pose proof (is_port_fits _ _ _ _ Hp) as Hf. apply wp_bind, (wp_port_of n _ _ _ Hs). subst c. rewrite (put_self _ _ _ _ Hp).
  apply wp_parse_loop; [done|done|done| |done|..].
  - pose proof (ring_cnt_range (recv p)). unfold line_rounds, TLS_UART_RX_BUF_SIZE. lia.
  - intros x c Hx Hnone Hcx. apply (HQ x c); [done|by rewrite Hnone| |by rewrite Hcx, app_nil_r|by rewrite Hcx, app_nil_r].
    rewrite <- (set_u_heap_self s) at 1. apply (task_put n _ (recv p) p r s Hok Hp (set_recv c p)); [done|apply Hx|by rewrite set_u_heap_self].
  - intros x l c h rest Hx Hcx Hm'. pose proof Hx as (Hq & Hw & Hc'). rewrite Hq, commands_app, Hcx in Hacc by done. apply Forall_inv in Hacc.
    pose proof (task_put n _ (recv p) p r s Hok Hp (set_recv c p) Hno Hc' h Hm' r) as Hok'. rewrite Hno.
    eapply wp_mono; [by apply cmd_handler_ok; [apply Hok'|]|]. intros _ s1 (Hk & Hg1 & Hh1 & Hp1).
    pose proof (keeps_task _ _ _ _ _ Hk Hg1 Hok') as Hok1. pose proof Hok1 as (_ & _ & (p1 & r1 & Hport1 & Hno1 & Hrec1) & Hc1 & _).
    cbn [recv set_recv] in Hrec1, Hc1. exists p1, r1. split; [done|]. rewrite Hrec1, Hno1. split; [done|].
    assert (∀ s2, task_ok n UART_ATCMD_MODE c s2 → handled (host (user s2)) = handled (host (user s1)) →
      posted (host (user s2)) = posted (host (user s1)) ++ (if 0 <? ring_cnt c then [rx_id n] else []) → Q s2) as Hfin.
    { intros s2 Hok2 Hh2 Hp2. apply (HQ x c); [done|by rewrite Hq, commands_app, Hcx|done|by rewrite Hh2, Hh1, Hcx|].
      by rewrite Hp2, Hp1, Hcx. }
    destruct (0 <? ring_cnt c).
    + apply (wp_task_cb n _ _ _ Hok1). intros s2 Hok2 Hh2 Hp2. by apply Hfin.
    + apply Hfin; [done|done|by rewrite app_nil_r].
Qed.
(** One run of the task over a calm ring. *)
Lemma wp_serve n c s (Q : St → Prop) : task_ok n UART_ATCMD_MODE c s → calm (rqueue c) → Forall accepts (commands (rqueue c)) →
  served n c s Q → wp (uart_rx n) (λ _, Q) s.
Proof.
  intros Hok Hcalm Hacc HQ. pose proof Hok as (Hn & Hs & (p & r & Hp & Hno & Hrec) & Hc & Hm & Hg).
  unfold uart_rx. apply wp_bind, (wp_uart n _ _ _ Hs). intros u _ Hu. apply wp_bind, (wp_port_of n _ _ _ Hs). rewrite Hu.
  cbn [UART_TRANS_MODE UART_ATCMD_MODE Z.eqb]. apply wp_bind, (wp_of_opt _ p); [apply Hp|]. apply wp_bind.
  destruct (plus_char_cnt p =? 3); [|by apply wp_ret, (wp_parse_line n c)].
  apply wp_bind. eapply wp_mono; [by apply untimeout_ok|]. intros _ s1 (Hk1 & Hg1 & Hh1 & Hp1).
  pose proof (keeps_task _ _ _ _ _ Hk1 Hg1 Hok) as Hok1. pose proof (keeps_is_port _ _ _ _ _ Hk1 Hp) as Hport1.
  rewrite (put_self _ _ _ _ Hport1). apply wp_bind, wp_mem_some; [apply Hok1|done|]. intros h b Hm2 Hb.
  apply wp_bind. eapply wp_of_opt; [apply memcpy_Some; rewrite ?Hb; done|]. pose proof (is_port_fits _ _ _ _ Hport1).
  u_steps. pose proof (task_put n _ c p r s1 Hok1 Hport1 (set_plus_char_cnt 0 p) Hno) as Hok2. cbn [recv set_plus_char_cnt] in Hok2.
  rewrite Hrec in Hok2. specialize (Hok2 Hc h Hm2 r).
  eapply wp_mono; [apply cmdrsp_ok; by apply Hok2|]. intros _ s3 (Hk3 & Hg3 & Hh3 & Hp3). apply wp_ret.
  apply (wp_parse_line n c); [by eapply keeps_task|done|done|]. intros x c' s' Hx Hcx Hok' Hh' Hp'.
  apply (HQ x c'); [done|done|done|by rewrite Hh', Hh3, <- Hh1|by rewrite Hp', Hp3, <- Hp1].
Qed.

(** ** Runs *)

(** Characters arrive behind those of the ring. *)
Definition arrives n (cs : list Z) s s' : Prop := ∃ p r p' r',
  is_port n s p r ∧ s' = at_port n p' r' s ∧ ring_ok (recv p') ∧ rqueue (recv p') = rqueue (recv p) ++ cs ∧ uart_no p' = uart_no p.
(** The characters waiting at port [n]. *)
Definition waiting n s : list Z := match uart_port s !! Z.to_nat n with Some p => rqueue (recv p) | None => [] end.

(** Characters [a] arrive, in any portions, and the task runs any number of
    times, whenever what waits is calm. *)
Inductive serial_run n : list Z → St → St → Prop :=
  | run_nil s : serial_run n [] s s
  | run_arrive cs a s s1 s' : arrives n cs s s1 → serial_run n a s1 s' → serial_run n (cs ++ a) s s'
  | run_task a s s1 s' : calm (waiting n s) → Forall accepts (commands (waiting n s)) →
      uart_rx n s = Some (tt, s1) → serial_run n a s1 s' → serial_run n a s s'.

Lemma ring_waiting n c s : ring_at n c s → waiting n s = rqueue c.
Proof. intros (p & r & [Hp _] & _ & <-). unfold waiting. by rewrite Hp. Qed.
Lemma arrives_ok n m c cs s s' : task_ok n m c s → arrives n cs s s' → ∃ c', task_ok n m c' s' ∧ rqueue c' = rqueue c ++ cs ∧ user s' = user s.
Proof.
  intros Hok (p & r & p' & r' & Hp & -> & Hc' & Hq & Hno). pose proof Hok as (_ & _ & (p1 & r1 & [Hp1 _] & Hno1 & Hrec1) & _).
  assert (p1 = p) as -> by (destruct Hp; congruence). exists (recv p'). split; [|by rewrite Hq, Hrec1].
  rewrite <- (set_u_heap_self s) at 1. apply (task_put n m c p r s Hok Hp); [congruence|done|]. rewrite set_u_heap_self. apply Hok.
Qed.

Lemma serial_run_ok n a s s' : serial_run n a s s' → ∀ c, task_ok n UART_ATCMD_MODE c s →
  ∃ c' x, task_ok n UART_ATCMD_MODE c' s' ∧ rqueue c ++ a = x ++ rqueue c' ∧ whole x ∧
    handled (host (user s')) = handled (host (user s)) ++ ((cmd_type n,.) <$> commands x).
Proof.
  induction 1 as [s|cs a s s1 s' Ha Hrun IH|a s s1 s' Hcalm Hacc Hrx Hrun IH]; intros c Hok.
  - exists c, []. rewrite !app_nil_r. done.
  - destruct (arrives_ok _ _ _ _ _ _ Hok Ha) as (c1 & Hok1 & Hq1 & Hu). destruct (IH c1 Hok1) as (c' & x & Hok' & Hq & Hw & Hh).
    exists c', x. split; [done|]. split; [by rewrite <- Hq, Hq1, app_assoc|]. by rewrite Hh, Hu.
  - pose proof Hok as (_ & _ & Hring & _). rewrite (ring_waiting _ _ _ Hring) in Hcalm, Hacc.
    assert (wp (uart_rx n) (λ _ s1, ∃ x c1, cut x c c1 ∧ task_ok n UART_ATCMD_MODE c1 s1 ∧
      handled (host (user s1)) = handled (host (user s)) ++ ((cmd_type n,.) <$> commands x)) s) as Hwp
      by (apply (wp_serve n c); [done|done|done|]; intros x c1 s2 ? _ ? ? _; by exists x, c1).
    unfold wp in Hwp. rewrite Hrx in Hwp. destruct Hwp as (x & c1 & (Hq & Hw & _) & Hok1 & Hh1).
    destruct (IH c1 Hok1) as (c' & x' & Hok' & Hq' & Hw' & Hh'). exists c', (x ++ x'). split; [done|].
    split; [by rewrite Hq, <- app_assoc, Hq', app_assoc|]. split; [by apply whole_app|].
    by rewrite Hh', Hh1, commands_app, fmap_app, app_assoc by done.
Qed.
End lines_of_commands.

(** C11: the commands of a serial stream.  Characters arrive at a port in any
    portions and the task looks at them any number of times, each time when what
    waits is calm: whole lines of at most 511 characters, behind them less than
    three characters or more than [AT+] and at most 515 of an unfinished
    command, and commands the interpreter takes.  Then the interpreter gets the
    command lines of the stream, those that begin with [AT+] in either case, in
    their order, each once, without the characters that end them; the other
    lines go, and what is not a whole line yet is kept to the character. *)
Theorem serial_lines {R H} `{!UartRegs R, !UartEnv R (tasks H), !TaskEnv R H, !TaskAtOk R H} n c a (s s' : uarts R (tasks H)) :
  task_ok n UART_ATCMD_MODE c s → serial_run n a s s' →
  ∃ c', task_ok n UART_ATCMD_MODE c' s' ∧ (lines (rqueue c')).2 = (lines (rqueue c ++ a)).2 ∧
    ∃ got, handled (host (user s')) = handled (host (user s)) ++ ((cmd_type n,.) <$> got) ∧
      commands (rqueue c ++ a) = got ++ commands (rqueue c').
Proof.
  intros Hok Hrun. destruct (serial_run_ok n a s s' Hrun c Hok) as (c' & x & Hok' & Hq & Hw & Hh).
  exists c'. split; [done|]. rewrite Hq. split; [by rewrite lines_app|]. exists (commands x). by rewrite commands_app.
Qed.

(** C25: no command waits for ever.  When what waits is calm, lines of at
    most 511 characters and behind them less than three characters or more than
    [AT+] and at most 515 of an unfinished command, and the interpreter takes
    the commands, a run of the task returns; it hands over the first command
    waiting, if there is one, and when commands are left it tells the task to
    come again. *)
Theorem serial_progress {R H} `{!UartRegs R, !UartEnv R (tasks H), !TaskEnv R H, !TaskAtOk R H} n c (s : uarts R (tasks H)) :
  task_ok n UART_ATCMD_MODE c s → calm (rqueue c) → Forall accepts (commands (rqueue c)) →
  wp (uart_rx n) (λ _ s', ∃ c', task_ok n UART_ATCMD_MODE c' s' ∧ commands (rqueue c') = drop 1 (commands (rqueue c)) ∧
    handled (host (user s')) = handled (host (user s)) ++ ((cmd_type n,.) <$> take 1 (commands (rqueue c))) ∧
    (commands (rqueue c') ≠ [] → posted (host (user s')) = posted (host (user s)) ++ [rx_id n])) s.
Proof.
  intros Hok Hcalm Hacc. apply (wp_serve n c); [done|done|done|]. intros x c' s' (Hq & Hw & Hc') Hx Hok' Hh Hp. exists c'.
  assert (commands (rqueue c') = drop 1 (commands (rqueue c))) as E.
  { apply (app_inv_head (commands x)). rewrite <- commands_app, <- Hq, Hx by done. by rewrite take_drop. }
  split; [done|]. split; [done|]. split; [by rewrite Hh, Hx|]. intros Hne. rewrite Hp.
  rewrite bool_decide_eq_false_2 by (rewrite Hx; intros E1; rewrite E in Hne; by destruct (commands (rqueue c))).
  case_if; [done|]. pose proof (blen_queue c') as Hl. exfalso. apply Hne, commands_short. lia.
Qed.

(** * What goes wrong *)

Section wrong.
Context {R H : Type} `{!UartRegs R, !UartEnv R (tasks H), !TaskEnv R H, !TaskAtOk R H}.
Local Abbreviation St := (uarts R (tasks H)).
Implicit Types (s : St) (p : tls_uart_port) (r : R) (c : tls_uart_circ_buf).

Lemma uart_rx_loop n s p r : serves n UART_ATCMD_MODE s → is_port n s p r → plus_char_cnt p ≠ 3 →
  uart_rx n s = parse_atcmd_loop line_rounds n n s.
Proof.
  intros (u & Hu & Hptr & Hm) [Hp _] Hplus.
  assert (uart n s = Some (u, s)) as E1 by (unfold uart, of_opt; by rewrite Hu).
  assert (port_of n s = Some (n, s)) as E2 by (unfold port_of; rewrite (bind_run _ _ _ _ _ E1), Hptr; done).
  assert (port n s = Some (p, s)) as E3 by (unfold port, of_opt; by rewrite Hp).
  unfold uart_rx. rewrite (bind_run _ _ _ _ _ E1), (bind_run _ _ _ _ _ E2), Hm. cbn [UART_TRANS_MODE UART_ATCMD_MODE Z.eqb].
  rewrite (bind_run _ _ _ _ _ E3). replace (plus_char_cnt p =? 3) with false by lia. cbn [bind ret].
  unfold parse_atcmd_line. by rewrite (bind_run _ _ _ _ _ E2).
Qed.

(** A long line, in a ring whose next place holds the end of an older line. *)
Lemma parse_long c l e y z : ring_ok c → rqueue c = l ++ e :: y → no_eol l → is_eol e = true → 512 < blen l →
  byte_at (cbuf c) (head c) = Some z → is_eol z = true →
  ∃ q : Z, parse_atcmd_eol c = Some (Some q, set_tail (ring_next (head c) 1) c).
Proof.
  intros Hc Hq Hl He Hlen Hz Hez. destruct (eol_found c l e y) as (j & Hj & Hf); [done..|]. eexists. rewrite Hf.
  pose proof (blen_queue c) as Hn. rewrite Hq, blen_app, blen_cons in Hn. pose proof (ring_cnt_range c). pose proof (one_more_len j y Hj).
  unfold modify_atcmd_tail. rewrite u32_id by (unfold is_u32; lia). case_if; [|lia].
  unfold jump. cbn [tail cbuf set_tail]. rewrite Hz. cbn [mbind option_bind]. unfold is_eol in Hez. by rewrite Hez.
Qed.
Lemma loop_long n s p r k c l e y z : is_port n s p r → recv p = c → ring_ok c → rqueue c = l ++ e :: y → no_eol l → is_eol e = true → 512 < blen l →
  at_prefix l = false → byte_at (cbuf c) (head c) = Some z → is_eol z = true →
  parse_atcmd_loop (S k) n n s = parse_atcmd_loop k n n (at_port n (set_recv (set_tail (ring_next (head c) 1) c) p) r s).
Proof.
  intros Hp Hr Hc Hq Hl He Hlen Hat Hz Hez. destruct (parse_long c l e y z) as [q Hparse]; [done..|].
  pose proof (blen_queue c) as Hn. rewrite Hq, blen_app, blen_cons in Hn. pose proof (blen_nonneg y).
  assert (port n s = Some (p, s)) as E by (unfold port, of_opt; by rewrite (proj1 Hp)).
  cbn [parse_atcmd_loop]. rewrite (bind_run _ _ _ _ _ E), Hr, CIRC_CNT_ring. cbv zeta.
  replace (ring_cnt c <? 3) with false by lia. rewrite at_plus_ok by (done || lia). rewrite Hq, at_prefix_app, Hat by done.
  cbn [of_opt bind ret]. rewrite Hparse. cbn [of_opt bind ret]. unfold bind at 1. 
  assert (set_ring n (set_tail (ring_next (head c) 1) c) s = Some (tt, at_port n (set_recv (set_tail (ring_next (head c) 1) c) p) r s)) as ->; [|done].
  unfold set_ring, on_port. rewrite (bind_run _ _ _ _ _ E). unfold modify. f_equal. f_equal. unfold at_port, set_uart_port. f_equal.
  by rewrite list_insert_id by apply Hp.
Qed.
End wrong.

(** C40: the task can hang.  A line of more than 512 characters that is no
    command, in a ring whose next free place holds the end of an older line:
    the tail is put on the head to drop the line, and then over the old end of
    line, so that the ring counts as full of old characters; when these begin
    with a line as long, the same happens for ever.  (At its fuel, the number
    of places of the ring, the loop counts as one that does not return; more
    rounds would not help.) *)
Theorem long_line_hangs {R H} `{!UartRegs R, !UartEnv R (tasks H), !TaskEnv R H, !TaskAtOk R H} n c p r (s : uarts R (tasks H)) l e y l1 e1 y1 z :
  task_ok n UART_ATCMD_MODE c s → is_port n s p r → recv p = c → plus_char_cnt p ≠ 3 →
  rqueue c = l ++ e :: y → no_eol l → is_eol e = true → 512 < blen l → at_prefix l = false →
  byte_at (cbuf c) (head c) = Some z → is_eol z = true →
  rqueue (set_tail (ring_next (head c) 1) c) = l1 ++ e1 :: y1 → no_eol l1 → is_eol e1 = true → 512 < blen l1 → at_prefix l1 = false →
  uart_rx n s = None ∧ ∀ k, parse_atcmd_loop k n n s = None.
Proof.
  intros Hok Hp Hr Hplus Hq Hl He Hlen Hat Hz Hez Hq1 Hl1 He1 Hlen1 Hat1. rewrite (uart_rx_loop n s p r) by (done || apply Hok).
  assert (∀ k, parse_atcmd_loop k n n s = None) as Hall; [|done].
  pose proof Hok as (_ & _ & _ & Hc & _). set (c1 := set_tail (ring_next (head c) 1) c) in *.
  assert (ring_ok c1) as Hc1. { destruct Hc as (? & ? & ? & ?). do 3 (split; [done|]). cbn. rewrite ring_next_mod. unfold TLS_UART_RX_BUF_SIZE. dlia. }
  assert (∀ k s1, is_port n s1 (set_recv c1 p) r → parse_atcmd_loop k n n s1 = None) as Hspin.
  { induction k as [|k IH]; intros s1 Hp1.
    - unfold parse_atcmd_loop, port, bind, of_opt. rewrite (proj1 Hp1). cbn [recv set_recv]. rewrite CIRC_CNT_ring.
      pose proof (blen_queue c1) as Hn. rewrite Hq1, blen_app, blen_cons in Hn. pose proof (blen_nonneg y1). case_if; [lia|done].
    - rewrite (loop_long n s1 (set_recv c1 p) r k c1 l1 e1 y1 z) by done. apply IH.
      apply is_port_put. by eapply is_port_fits. }
  intros [|k].
  - unfold parse_atcmd_loop, port, bind, of_opt. rewrite (proj1 Hp), Hr, CIRC_CNT_ring.
    pose proof (blen_queue c) as Hn. rewrite Hq, blen_app, blen_cons in Hn. pose proof (blen_nonneg y). case_if; [lia|done].
  - rewrite (loop_long n s p r k c l e y z) by done. apply Hspin, is_port_put. by eapply is_port_fits.
Qed.

(** Everything in the memory of a ring, the oldest first: from its head around
    to it. *)
Definition old c : list Z := slice (cbuf c) (head c) (TLS_UART_RX_BUF_SIZE - head c) ++ slice (cbuf c) 0 (head c).
Lemma old_parts c (k := TLS_UART_RX_BUF_SIZE - head c) : ring_ok c →
  slice (cbuf c) (head c) k = take (Z.to_nat k) (old c) ∧ slice (cbuf c) 0 (head c) = drop (Z.to_nat k) (old c) ∧ blen (old c) = 4096 ∧
  ∀ i, 0 <= i < 4096 → byte_at (cbuf c) (ring_next (head c) i) = byte_at (old c) i.
Proof.
  intros (Hb & _ & Hh & _). unfold TLS_UART_RX_BUF_SIZE in *. unfold old, TLS_UART_RX_BUF_SIZE. fold k.
  assert (blen (slice (cbuf c) (head c) k) = k ∧ blen (slice (cbuf c) 0 (head c)) = head c) as [H1 H2] by (unfold k; rewrite !blen_slice; lia).
  assert (Z.to_nat k = length (slice (cbuf c) (head c) k)) as E by (unfold blen in H1; lia).
  split; [by rewrite E, take_app_length|]. split; [by rewrite E, drop_app_length|]. split; [rewrite blen_app; lia|].
  intros i Hi. rewrite ring_next_mod. unfold TLS_UART_RX_BUF_SIZE. destruct (decide (i < k)).
  - rewrite byte_at_front by lia. rewrite byte_at_slice by lia. f_equal. unfold k in *. dlia.
  - replace i with (blen (slice (cbuf c) (head c) k) + (i - k)) at 2 by lia. rewrite byte_at_pre by lia. rewrite byte_at_slice by (unfold k in *; lia).
    f_equal. unfold k in *. dlia.
Qed.
(** A ring that counts from [i] places behind its head. *)
Lemma old_queue c i : ring_ok c → 0 < i < 4096 → let c' := set_tail (ring_next (head c) i) c in
  ring_ok c' ∧ rqueue c' = drop (Z.to_nat i) (old c).
Proof.
  intros Hc Hi c'. pose proof Hc as (Hb & Hok & Hh & Ht). destruct (old_parts c Hc) as (_ & _ & Hl & Hat). unfold TLS_UART_RX_BUF_SIZE in *.
  assert (tail c' = (head c + i) mod 4096) as Et by apply ring_next_mod.
  assert (ring_ok c') as Hc' by (do 3 (split; [done|]); rewrite Et; unfold TLS_UART_RX_BUF_SIZE; dlia).
  assert (ring_cnt c' = 4096 - i) as Hn by (unfold ring_cnt; rewrite Et; change (head c') with (head c); unfold TLS_UART_RX_BUF_SIZE; dlia).
  split; [done|]. apply byte_at_ext.
  - rewrite blen_queue, Hn. unfold blen in *. rewrite length_drop. lia.
  - rewrite blen_queue. intros j Hj. rewrite byte_at_queue, Et by done. rewrite (byte_at_lookup (drop _ _)), lookup_drop by lia.
    replace (Z.to_nat i + Z.to_nat j)%nat with (Z.to_nat (i + j)) by lia. rewrite <- byte_at_lookup by lia.
    rewrite <- Hat by lia. rewrite ring_next_mod. f_equal. unfold TLS_UART_RX_BUF_SIZE. dlia.
Qed.
Lemma rqueue_tail c c' : ring_ok c → ring_ok c' → cbuf c' = cbuf c → tail c' = tail c → ring_cnt c' <= ring_cnt c →
  rqueue c' = take (Z.to_nat (ring_cnt c')) (rqueue c).
Proof.
  intros Hc Hc' Hb Ht Hn. pose proof (ring_cnt_range c') as Hr. pose proof (blen_queue c) as Hl.
  assert (∀ x, take (Z.to_nat x) (rqueue c) = slice (rqueue c) 0 x) as -> by (intros; unfold slice; by rewrite drop_0).
  apply byte_at_ext; rewrite blen_queue; [rewrite blen_slice; lia|]. intros i Hi.
  rewrite byte_at_slice, !byte_at_queue, Hb, Ht by (done || lia). done.
Qed.

Section bare.
Context (c : tls_uart_circ_buf) (at_ l : list Z) (e : Z) (y : list Z).
Hypothesis (Hc : ring_ok c) (Hq : rqueue c = at_) (H3 : blen at_ = 3) (Hat : at_prefix at_ = true).
Hypothesis (Hold : old c = l ++ e :: y) (Hl : no_eol l) (He : is_eol e = true) (Hlen : blen l <= 508).

Lemma bare_head : head c = ring_next (tail c) 3.
Proof.
  pose proof (blen_queue c) as Hn. rewrite Hq, H3 in Hn. destruct Hc as (_ & _ & Hh & Ht). rewrite ring_next_mod.
  unfold ring_cnt, TLS_UART_RX_BUF_SIZE in *. dlia.
Qed.
Lemma bare_found : ∃ j, one_more j y ∧ eol_at (ring_skip 3 c) l j.
Proof.
  pose proof bare_head as Hh. destruct (old_parts c Hc) as (Hp1 & Hp2 & Hn & Hb).
  destruct (ring_drop_ok 3 c Hc) as [Hc3 _]; [rewrite Hq, H3; lia|]. fold (ring_skip 3 c) in Hc3.
  assert (tail (ring_skip 3 c) = head c) as Ht by done || (unfold ring_skip; cbn [tail set_tail]; by rewrite Hh).
  destruct (eol_wrapped (ring_skip 3 c) (old c) l e y) as (j & Hj & Hf); [done|done|done|done|..].
  { rewrite Ht. cbn [head ring_skip set_tail]. lia. }
  { rewrite Ht. exact Hp1. }
  { rewrite Ht. exact Hp2. }
  exists j. split; [done|]. destruct (one_more_at l e y j He Hj) as (z & Hz & Hez). pose proof (one_more_len j y Hj).
  apply (eol_short _ l j z); [lia|lia|done| |done]. rewrite Ht. cbn [cbuf ring_skip set_tail]. rewrite Hold, blen_app, blen_cons in Hn.
  pose proof (blen_nonneg l). rewrite Hb by lia. by rewrite Hold.
Qed.

(** The same memory with the tail where the command begins, as a full ring. *)
Definition full_from : tls_uart_circ_buf := mk_circ (cbuf c) (ring_next (tail c) 4095) (tail c).
Lemma full_from_ok : ring_ok full_from ∧ rqueue full_from = at_ ++ take (Z.to_nat 4092) (old c).
Proof.
  pose proof bare_head as Hh. destruct (old_parts c Hc) as (_ & _ & Hn & Hb). pose proof Hc as (Hbuf & Hok & _ & Ht).
  assert (head full_from = (tail c + 4095) mod 4096) as Eh by apply ring_next_mod. unfold TLS_UART_RX_BUF_SIZE in *.
  assert (ring_ok full_from) as Hc' by (do 2 (split; [done|]); split; [rewrite Eh; unfold TLS_UART_RX_BUF_SIZE; dlia|done]).
  assert (ring_cnt full_from = 4095) as Hcnt by (unfold ring_cnt; rewrite Eh; cbn [tail full_from]; unfold TLS_UART_RX_BUF_SIZE; dlia).
  split; [done|]. assert (blen (take (Z.to_nat 4092) (old c)) = 4092) as Hl4 by (unfold blen in *; rewrite length_take; lia).
  assert (ring_cnt c = 3) as Hc3 by (rewrite <- blen_queue, Hq; done).
  apply byte_at_ext; [rewrite blen_queue, blen_app, Hcnt; lia|]. rewrite blen_queue, Hcnt. intros i Hi.
  rewrite <- ring_tail_at by (done || lia). cbn [cbuf tail full_from]. destruct (decide (i < 3)).
  - rewrite byte_at_front, ring_tail_at, Hq by (done || lia). done.
  - replace i with (blen at_ + (i - 3)) at 2 by lia. rewrite byte_at_pre by lia.
    assert (take (Z.to_nat 4092) (old c) = slice (old c) 0 4092) as -> by (unfold slice; by rewrite drop_0).
    rewrite byte_at_slice, <- Hb by lia. rewrite Hh, ring_next_next. do 2 f_equal. lia.
Qed.
Lemma full_from_line : rqueue full_from = (at_ ++ l) ++ e :: take (Z.to_nat (4091 - blen l)) y.
Proof.
  destruct full_from_ok as [_ ->]. pose proof (blen_nonneg l). rewrite Hold, take_app_ge, <- app_assoc by (unfold blen in *; lia).
  by replace (Z.to_nat 4092 - length l)%nat with (S (Z.to_nat (4091 - blen l))) by (unfold blen in *; lia).
Qed.
Lemma bare_no_eol : no_eol at_.
Proof.
  destruct at_ as [|a [|t [|x [|]]]]; unfold blen in H3; cbn [length] in H3; try lia. cbn in Hat.
  unfold no_eol, is_eol. repeat constructor; lia.
Qed.
End bare.

Lemma line_rounds_S : ∃ k, line_rounds = S k.
Proof. exists (Z.to_nat 4095). unfold line_rounds, TLS_UART_RX_BUF_SIZE. lia. Qed.

(** C0: old characters are taken for new.  When the task looks at a port at
    which exactly [AT+] has arrived, and the memory of the ring, from its head
    around to it, holds the end of a line near by: all 4096 places are searched,
    the interpreter gets a command of the new [AT+] and old characters, and
    afterwards the ring counts as full of what it held before, with the [AT+] at
    its end, which the task is told to look at. *)
Theorem bare_prefix {R H} `{!UartRegs R, !UartEnv R (tasks H), !TaskEnv R H, !TaskAtOk R H} n c p r (s : uarts R (tasks H)) l e y :
  task_ok n UART_ATCMD_MODE c s → is_port n s p r → plus_char_cnt p ≠ 3 → blen (rqueue c) = 3 → at_prefix (rqueue c) = true →
  old c = l ++ e :: y → no_eol l → is_eol e = true → blen l <= 508 → accepts (rqueue c ++ l) →
  wp (uart_rx n) (λ _ s', handled (host (user s')) = handled (host (user s)) ++ [(cmd_type n, rqueue c ++ l)] ∧
    ∃ j c', one_more j y ∧ task_ok n UART_ATCMD_MODE c' s' ∧ rqueue c' = drop (Z.to_nat j) y ∧
      posted (host (user s')) = posted (host (user s)) ++ [rx_id n]) s.
Proof.
  intros Hok Hp Hplus H3 Hat Hold Hl He Hlen Hacc. apply (wp_same _ _ _ _ _ (uart_rx_loop n s p r (proj1 (proj2 Hok)) Hp Hplus)).
  pose proof Hok as (Hn & Hs & (p0 & r0 & Hp0 & Hno & Hrec) & Hc & Hm & _). assert (p0 = p) as -> by (destruct Hp, Hp0; congruence).
  destruct line_rounds_S as [k ->]. pose proof (is_port_fits _ _ _ _ Hp) as Hf. pose proof (blen_nonneg l). pose proof (blen_queue c) as Hcnt.
  set (q := rqueue c) in *. destruct (bare_found c q l e y) as (j & Hj & Heol); [done..|]. unfold eol_at in Heol. pose proof (one_more_len j y Hj).
  assert (ring_skip (blen l + j + 1) (ring_skip 3 c) = set_tail (ring_next (head c) (blen l + j + 1)) c) as Eskip
    by (rewrite (bare_head c q e) by done; done).
  destruct (old_queue c (blen l + j + 1)) as [Hc' Hq']; [done|lia|]. rewrite <- Eskip in Hc', Hq'.
  assert (drop (Z.to_nat (blen l + j + 1)) (old c) = drop (Z.to_nat j) y) as Edrop.
  { rewrite Hold, drop_app_ge by (unfold blen; lia). by replace (Z.to_nat (blen l + j + 1) - length l)%nat with (S (Z.to_nat j)) by (unfold blen in *; lia). }
  rewrite Edrop in Hq'. set (c' := ring_skip (blen l + j + 1) (ring_skip 3 c)) in *.
  assert (blen y = 4095 - blen l) as Hy by (destruct (old_parts c Hc) as (_ & _ & Ho & _); rewrite Hold, blen_app, blen_cons in Ho; lia).
  set (y1 := take (Z.to_nat (4091 - blen l)) y).
  assert (one_more j y1) as Hj1.
  { destruct Hj as [->|(-> & e' & y' & -> & He')]; [by left|right]. split; [done|]. unfold y1. 
    replace (Z.to_nat (4091 - blen l)) with (S (Z.to_nat (4090 - blen l))) by lia. by exists e', (take (Z.to_nat (4090 - blen l)) y'). }
  destruct (command_copy (full_from c) (q ++ l) e y1 j) as [Hcl Hcopy].
  { by destruct (full_from_ok c q l e). } { by apply (full_from_line c q l e y). } { apply no_eol_app. split; [by apply (bare_no_eol c q e)|done]. }
  { done. } { rewrite blen_app. lia. } { done. }
  cbn [tail cbuf full_from] in Hcl, Hcopy. rewrite blen_app, H3 in Hcl, Hcopy.
  assert ((tail (ring_skip 3 c) + blen l + j) mod TLS_UART_RX_BUF_SIZE = (tail c + (3 + blen l + j)) mod TLS_UART_RX_BUF_SIZE) as Eeol
    by (unfold ring_skip; cbn [tail set_tail]; rewrite ring_next_mod; unfold TLS_UART_RX_BUF_SIZE; dlia).
  rewrite Eeol in Heol.
  rewrite (put_self _ _ _ _ Hp). apply (wp_command_round n n s Hf k p r ((tail c + (3 + blen l + j)) mod TLS_UART_RX_BUF_SIZE) c' (3 + blen l + j) (q ++ l)); rewrite ?Hrec;
    [done|lia|lia|rewrite at_plus_ok by (done || lia); by f_equal|exact Heol|done|..].
  { intros b Hb. destruct (Hcopy b Hb) as (b1 & rest & ? & _ & Hend). exists b1, rest. rewrite blen_app, H3. done. }
  intros h rest Hm'.
  cbn [uart_no set_recv]. rewrite Hno.
  pose proof (task_put n _ c p r s Hok Hp (set_recv c' p) Hno Hc' h Hm' r) as Hok'. fold (cmd_type n).
  eapply wp_mono; [by apply cmd_handler_ok; [apply Hok'|]|]. intros ? s1 (Hk & Hg1 & Hh1 & Hp1).
  pose proof (keeps_task _ _ _ _ _ Hk Hg1 Hok') as Hok1. pose proof Hok1 as (_ & _ & (p1 & r1 & Hport1 & Hno1 & Hrec1) & Hc1' & _).
  cbn [recv set_recv] in Hrec1, Hc1'. exists p1, r1. rewrite Hrec1, Hno1. split; [done|]. split; [done|].
  assert (0 < ring_cnt c') by (rewrite <- blen_queue, Hq'; unfold blen in *; rewrite length_drop; lia). case_if; [|lia].
  apply (wp_task_cb n _ _ _ Hok1). intros s2 Hok2 Hh2 Hp2. split; [by rewrite Hh2, Hh1|].
  exists j, c'. split; [done|]. split; [done|]. split; [done|]. by rewrite Hp2, Hp1.
Qed.

(** * The theorems at work *)

(** Characters put into a ring one by one. *)
Definition ring_push (l : list Z) c : tls_uart_circ_buf := foldl (λ c x, default c (ring_put x c)) c l.
Lemma ring_push_ok l : ∀ c, ring_ok c → bytes_ok l → blen (rqueue c) + blen l <= 4095 →
  ring_ok (ring_push l c) ∧ rqueue (ring_push l c) = rqueue c ++ l.
Proof.
  induction l as [|x l IH]; intros c Hc Hl Hn; [by rewrite app_nil_r|]. inversion Hl; subst. rewrite blen_cons in Hn.
  pose proof (blen_nonneg l). unfold ring_push. cbn [foldl]. destruct (ring_put_ok x c) as (c' & E & Hc' & _ & _ & _ & Hq'); [done..|].
  rewrite E. cbn [default id]. replace (blen (rqueue c) <? 4095) with true in Hq' by lia.
  destruct (IH c' Hc') as [Hc2 Hq2]; [done|rewrite Hq', blen_app, blen_1; lia|]. split; [done|].
  unfold ring_push in Hq2. by rewrite Hq2, Hq', <- app_assoc.
Qed.

(** What a logging interpreter, socket and firmware update have seen. *)
Record demo_host := mk_demo {
  d_handled : list (Z * list Z);
  d_posted : list Z;
  d_out : list (Z * list Z);
  d_received : Z;
  d_requests : list (list Z);
  d_answers : list (list Z);
}.
Definition no_host : demo_host := mk_demo [] [] [] (-1) [] [].
#[export] Instance demo_uart_env : UartEnv usim (tasks demo_host) := silent_env usim (tasks demo_host).
Definition log {A} (f : demo_host → demo_host) (a : A) : M (uarts usim (tasks demo_host)) A := λ s,
  Some (a, set_user (set_host (f (host (user s))) (user s)) s).
#[export] Instance demo_task : TaskEnv usim demo_host := {
  tls_hostif_cmd_handler ty b len := log (λ h, mk_demo (d_handled h ++ [(ty, slice b 0 (len - 1))]) (d_posted h) (d_out h) (d_received h) (d_requests h) (d_answers h)) 0;
  tls_hostif_process_cmdrsp ty b len := log (λ h, mk_demo (d_handled h) (d_posted h) (d_out h) (d_received h) (d_requests h) (d_answers h ++ [slice b 0 len])) 0;
  tls_hostif_send_data skt d := log (λ h, mk_demo (d_handled h) (d_posted h) (d_out h ++ [(0, d)]) (d_received h) (d_requests h) (d_answers h)) 0;
  tls_cmd_get_default_socket := ret 1;
  wl_task_callback_static id := log (λ h, mk_demo (d_handled h) (d_posted h ++ [id]) (d_out h) (d_received h) (d_requests h) (d_answers h)) 0;
  wl_task_callback_tx _ := ret 0;
  wl_task_untimeout _ := ret tt;
  wl_task_add_timeout _ _ := ret tt;
  os_time_delay _ := ret tt;
  fwup_get_current_session_id := ret 7;
  fwup_set_update_numer x := λ s, let h := host (user s) in
    if x =? d_received h + 1 then log (λ h, mk_demo (d_handled h) (d_posted h) (d_out h) x (d_requests h) (d_answers h)) TLS_FWUP_STATUS_OK s
    else Some (0xffff, s);
  fwup_request_sync sid d len := log (λ h, mk_demo (d_handled h) (d_posted h) (d_out h) (d_received h) (d_requests h ++ [d]) (d_answers h)) 0;
  pbuf_freed := 0;
  rptmode _ := 0;
  stack _ := 0;
}.
#[export] Instance demo_at_ok : TaskAtOk usim demo_host.
Proof.
  refine {| handled := d_handled; posted := d_posted; good _ := True; accepts _ := True |}; [|done..].
  intros ty l rest s _ _. split; [done|]. split; [done|]. split; [|done]. cbn. do 3 f_equal.
  replace (blen l + 1 - 1) with (blen l) by lia. rewrite slice_front by lia. by apply slice_all.
Defined.

(** Port 1 in mode [m] with ring [c], and [h] behind the task. *)
Definition serial_state {H} (m : Z) (c : tls_uart_circ_buf) (h : H) : uarts usim (tasks H) :=
  at_port 1 (demo_port 1 c []) idle_line (mk_uarts (replicate 3 zero_port) (replicate 3 idle_line) (λ _, Some (λ _, 0))
    (mk_tasks [mk_uart (Some 0) m 0 0 0 0; mk_uart (Some 1) m 0 0 0 0] [] [] 5 h)).
Lemma is_serial_state {H} m c (h : H) : is_port 1 (serial_state m c h) (demo_port 1 c []) idle_line.
Proof. unfold serial_state. apply is_port_put. split; simpl; lia. Qed.
Definition demo_serial m c := serial_state m c no_host.
Lemma demo_is_serial m c : is_port 1 (demo_serial m c) (demo_port 1 c []) idle_line.
Proof. apply is_serial_state. Qed.
Lemma demo_serial_ok c : ring_ok c → task_ok 1 UART_ATCMD_MODE c (demo_serial UART_ATCMD_MODE c).
Proof.
  intros Hc. split; [by right|]. split; [by eexists|]. split; [eexists _, _; split; [apply demo_is_serial|done]|]. done.
Qed.
(** [l] arrives at port 1. *)
Definition come {H} (l : list Z) (s : uarts usim (tasks H)) : uarts usim (tasks H) :=
  at_port 1 (set_recv (ring_push l (recv (port_at 1 s))) (port_at 1 s)) idle_line s.
Definition ring_okb c : bool :=
  (blen (cbuf c) =? 4096) && forallb (λ x, (0 <=? x) && (x <? 256)) (cbuf c) &&
  (0 <=? head c) && (head c <? 4096) && (0 <=? tail c) && (tail c <? 4096).
Lemma ring_okb_ok c : ring_okb c = true → ring_ok c.
Proof. unfold ring_okb. rewrite !andb_true_iff. intros [[[[[H1 H2] H3] H4] H5] H6]. split; [unfold TLS_UART_RX_BUF_SIZE; lia|]. split; [by apply bytes_ok_b|]. unfold TLS_UART_RX_BUF_SIZE. lia. Qed.
Definition fine {H} (s : uarts usim (tasks H)) : bool :=
  fits_b 1 s && (uart_no (port_at 1 s) =? 1) && ring_okb (recv (port_at 1 s)).
Lemma fine_ring {H} (s : uarts usim (tasks H)) : fine s = true → ring_at 1 (recv (port_at 1 s)) s ∧ ring_ok (recv (port_at 1 s)).
Proof.
  unfold fine. rewrite !andb_true_iff. intros [[H1 H2] H3]. split; [|by apply ring_okb_ok].
  exists (port_at 1 s), (line_at 1 s). split; [by apply is_port_at|]. split; [lia|done].
Qed.
Lemma demo_arrives {H} l (s : uarts usim (tasks H)) : fine s = true → bytes_ok l → blen (waiting 1 s) + blen l <= 4095 → arrives 1 l s (come l s).
Proof.
  intros Hs Hl Hn. destruct (fine_ring s Hs) as [Hring Hc]. rewrite (ring_waiting _ _ _ Hring) in Hn.
  destruct Hring as (p & r & Hp & Hno & Hrec). destruct (ring_push_ok l _ Hc Hl Hn) as [Hc' Hq'].
  exists p, r, (set_recv (ring_push l (recv (port_at 1 s))) (port_at 1 s)), idle_line. split; [done|]. split; [done|]. split; [exact Hc'|].
  split; [|unfold port_at; by rewrite (proj1 Hp)]. cbn [recv set_recv]. rewrite Hrec. exact Hq'.
Qed.

Definition calmb (q : list Z) : bool :=
  forallb (λ l, blen l <=? 511) (lines q).1 &&
  ((blen (lines q).2 <? 3) || (at_prefix (lines q).2 && (3 <? blen (lines q).2) && (blen (lines q).2 <=? 515))).
Lemma calmb_ok q : calmb q = true → calm q.
Proof.
  unfold calmb. rewrite andb_true_iff, forallb_forall. intros [H1 H2]. split.
  - apply list.Forall_forall. intros l Hl. apply Z.leb_le, H1. by apply list_elem_of_In.
  - unfold rest_ok. destruct (at_prefix _); lia.
Qed.
Lemma demo_calm (s : uarts usim (tasks demo_host)) : calmb (waiting 1 s) = true → calm (waiting 1 s) ∧ Forall accepts (commands (waiting 1 s)).
Proof. intros Hs. split; [by apply calmb_ok|]. by apply list.Forall_true. Qed.

(** "hi", CR, "AT+A", CR, LF, then "at+B=1", LF, "AT+C" arrives at port 1 and
    the task looks three times. *)
Definition text1 : list Z := [104; 105; 13; 65; 84; 43; 65; 13; 10].
Definition text2 : list Z := [97; 116; 43; 66; 61; 49; 10; 65; 84; 43; 67].
Definition serial0 := demo_serial UART_ATCMD_MODE (demo_ring [] 0).
Definition serial1 := come text1 serial0.
Definition serial2 := exec (uart_rx 1) serial1.
Definition serial3 := come text2 serial2.
Definition serial4 := exec (uart_rx 1) serial3.
Definition serial5 := exec (uart_rx 1) serial4.
Lemma serial_lines_witness : serial_run 1 (text1 ++ text2) serial0 serial5 ∧
  d_handled (host (user serial5)) = [(3, [65; 84; 43; 65]); (3, [97; 116; 43; 66; 61; 49])] ∧
  waiting 1 serial5 = [65; 84; 43; 67] ∧
  ∃ c', task_ok 1 UART_ATCMD_MODE c' serial5 ∧ (lines (rqueue c')).2 = [65; 84; 43; 67].
Proof.
  assert (task_ok 1 UART_ATCMD_MODE (demo_ring [] 0) serial0) as H0 by (apply demo_serial_ok, demo_ring_ok; [simpl; lia|constructor|done|done]).
  assert (serial_run 1 (text1 ++ text2) serial0 serial5) as Hrun.
  { rewrite <- (app_nil_r text2).
    assert (∀ l (s s1 : uarts usim (tasks demo_host)), s1 = come l s → fine s && (blen (waiting 1 s) + blen l <=? 4095) && forallb (λ x, (0 <=? x) && (x <? 256)) l = true → arrives 1 l s s1) as Hcome.
    { intros l s s1 ->. rewrite !andb_true_iff. intros [[? ?] ?]. apply demo_arrives; [assumption|by apply bytes_ok_b|lia]. }
    assert (∀ a (s s1 s' : uarts usim (tasks demo_host)), s1 = exec (uart_rx 1) s → calmb (waiting 1 s) && ran (uart_rx 1) s = true →
      serial_run 1 a s1 s' → serial_run 1 a s s') as Htask.
    { intros a s s1 s' ->. rewrite andb_true_iff. intros [Hs Hr] Hrun. destruct (demo_calm s Hs). apply (run_task 1 a s (exec (uart_rx 1) s)); [assumption..| |assumption].
      apply (ran_eq _ _ tt); [assumption|]. by destruct (result _ _ _). }
    apply (run_arrive 1 text1 _ serial0 serial1); [apply (Hcome text1 serial0 serial1); [unfold serial1; reflexivity|vm_compute; reflexivity]|].
    apply (Htask _ serial1 serial2 serial5); [unfold serial2; reflexivity|vm_compute; reflexivity|].
    apply (run_arrive 1 text2 [] serial2 serial3); [apply (Hcome text2 serial2 serial3); [unfold serial3; reflexivity|vm_compute; reflexivity]|].
    apply (Htask _ serial3 serial4 serial5); [unfold serial4; reflexivity|vm_compute; reflexivity|].
    apply (Htask _ serial4 serial5 serial5); [unfold serial5; reflexivity|vm_compute; reflexivity|]. apply run_nil. }
  split; [exact Hrun|]. split; [vm_compute; reflexivity|]. split; [vm_compute; reflexivity|].
  destruct (serial_lines 1 (demo_ring [] 0) _ _ _ H0 Hrun) as (c' & Hok & Hrest & _). exists c'. split; [exact Hok|].
  rewrite Hrest. vm_compute. reflexivity.
Defined.
Definition busy_ring := ring_push (text1 ++ text2) (demo_ring [] 0).
Lemma serial_progress_witness : wp (uart_rx 1) (λ _ s', d_handled (host (user s')) = [(3, [65; 84; 43; 65])] ∧ d_posted (host (user s')) = [8] ∧
  ∃ c', task_ok 1 UART_ATCMD_MODE c' s' ∧ commands (rqueue c') = [[97; 116; 43; 66; 61; 49]]) (demo_serial UART_ATCMD_MODE busy_ring).
Proof.
  assert (commands (rqueue busy_ring) = [[65; 84; 43; 65]; [97; 116; 43; 66; 61; 49]]) as Ecmd by (vm_compute; reflexivity).
  eapply wp_mono; [apply (serial_progress 1 busy_ring (demo_serial UART_ATCMD_MODE busy_ring))|].
  - apply demo_serial_ok, ring_okb_ok. vm_compute. reflexivity.
  - apply calmb_ok. vm_compute. reflexivity.
  - by apply list.Forall_true.
  - rewrite Ecmd. intros _ s' (c' & Hok & Hc & Hh & Hp). split; [exact Hh|]. split; [apply Hp; rewrite Hc; discriminate|].
    exists c'. split; [exact Hok|exact Hc].
Defined.

(** "Q=7" and a carriage return are left at the beginning of the memory, [AT+]
    has come at its end. *)
Definition stale_ring := mk_circ ([81; 61; 55; 13] ++ replicate (Z.to_nat 4089) 0 ++ [65; 84; 43]) 0 4093.
Lemma bare_prefix_witness : wp (uart_rx 1) (λ _ s', d_handled (host (user s')) = [(3, [65; 84; 43; 81; 61; 55])] ∧
  ∃ c', task_ok 1 UART_ATCMD_MODE c' s' ∧ 4000 < blen (rqueue c')) (demo_serial UART_ATCMD_MODE stale_ring).
Proof.
  assert (rqueue stale_ring = [65; 84; 43]) as Eq by (vm_compute; reflexivity).
  eapply wp_mono; [apply (bare_prefix 1 stale_ring (demo_port 1 stale_ring []) idle_line (demo_serial UART_ATCMD_MODE stale_ring)
    [81; 61; 55] 13 (replicate (Z.to_nat 4089) 0 ++ [65; 84; 43]))|].
  - apply demo_serial_ok, ring_okb_ok. vm_compute. reflexivity.
  - apply demo_is_serial.
  - discriminate.
  - rewrite Eq. reflexivity.
  - rewrite Eq. reflexivity.
  - vm_compute. reflexivity.
  - repeat constructor.
  - reflexivity.
  - apply Z.leb_le. reflexivity.
  - exact I.
  - rewrite Eq. intros _ s' (Hh & j & c' & Hj & Hok & Hq & _). split; [exact Hh|]. exists c'. split; [exact Hok|]. rewrite Hq.
    destruct Hj as [->|(-> & _)]; apply Z.ltb_lt; vm_compute; reflexivity.
Defined.

(** A stretch of 1999 characters without an end of line between two others. *)
Definition long_ring := mk_circ ([13] ++ replicate (Z.to_nat 1999) 120 ++ [13] ++ replicate (Z.to_nat 2095) 120) 0 1000.
Lemma long_line_hangs_witness : uart_rx 1 (demo_serial UART_ATCMD_MODE long_ring) = None.
Proof.
  apply (long_line_hangs 1 long_ring (demo_port 1 long_ring []) idle_line (demo_serial UART_ATCMD_MODE long_ring)
    (replicate (Z.to_nat 1000) 120) 13 (replicate (Z.to_nat 2095) 120) (replicate (Z.to_nat 1999) 120) 13 (replicate (Z.to_nat 2095) 120) 13).
  - apply demo_serial_ok, ring_okb_ok. vm_compute. reflexivity.
  - apply demo_is_serial.
  - reflexivity.
  - discriminate.
  - vm_compute. reflexivity.
  - by apply Forall_replicate.
  - reflexivity.
  - rewrite blen_replicate. lia.
  - vm_compute. reflexivity.
  - reflexivity.
  - reflexivity.
  - vm_compute. reflexivity.
  - by apply Forall_replicate.
  - reflexivity.
  - rewrite blen_replicate. lia.
  - vm_compute. reflexivity.
Defined.
