(* ===== verification/SerialData.v ===== *)
(** * What the task of the serial ports promises for data

    Blocks of a firmware image and the characters of the transparent mode, from
    the ring of a port to the firmware update and to the socket. *)
From S2P Require Import Prelude Utils Uart UartRun UartSpec SerialTask SerialSpec.

Section data.
Context {R H : Type} `{!UartRegs R, !UartEnv R (tasks H), !TaskEnv R H}.
Local Abbreviation St := (uarts R (tasks H)).
Implicit Types (s : St) (p : tls_uart_port) (r : R) (c : tls_uart_circ_buf).

(** Port [n], 0 or 1, with ring [c], served in mode [m]. *)
Definition data_ok n m c s : Prop := (n = 0 ∨ n = 1) ∧ serves n m s ∧ ring_at n c s ∧ ring_ok c ∧ mem_ok s.

Lemma keeps_data n m c s s' : keeps s s' → data_ok n m c s → data_ok n m c s'.
Proof.
  intros Hk (Hn & Hs & (p & r & Hp & Hno) & Hc & Hm). split; [done|]. split; [by eapply keeps_serves|].
  split; [exists p, r; split; [by eapply keeps_is_port|done]|]. split; [done|]. by apply Hk.
Qed.
Lemma wp_set_cmd_mode n m m' c s (Q : unit → St → Prop) : data_ok n m c s →
  (∀ s', data_ok n m' c s' → host (user s') = host (user s) → Q tt s') → wp (on_uart n (set_cmd_mode m')) Q s.
Proof.
  intros (Hn & (u & Hu & Hptr & Hm) & Hr & Hc & Hmem) HQ. unfold on_uart. apply wp_bind. unfold wp at 1, uart, of_opt. rewrite Hu.
  apply wp_modify, HQ; [|done]. split; [done|]. split; [|done]. exists (set_cmd_mode m' u). split; [|done].
  apply list_lookup_insert_eq. by eapply lookup_lt_Some.
Qed.
Lemma wp_set_ring n m c c' s (Q : unit → St → Prop) : data_ok n m c s → ring_ok c' →
  (∀ s', data_ok n m c' s' → user s' = user s → Q tt s') → wp (set_ring n c') Q s.
Proof.
  intros (Hn & Hs & (p & r & Hp & Hno & _) & _ & Hm) Hc' HQ. pose proof (is_port_fits _ _ _ _ Hp) as Hf.
  rewrite (put_self _ _ _ _ Hp). unfold set_ring. u_steps. apply HQ; [|done]. split; [done|]. split; [done|].
  split; [|done]. exists (set_recv c' p), r. split; [by apply is_port_put|done].
Qed.
Lemma wp_data_alloc n m c k s (Q : option (list Z) → St → Prop) : data_ok n m c s → 0 <= k →
  (∀ b s', data_ok n m c s' → user s' = user s → blen b = k → Q (Some b) s') → wp (tls_mem_alloc k) Q s.
Proof.
  intros (Hn & Hs & (p & r & Hp & Hno) & Hc & Hm) Hk HQ. pose proof (is_port_fits _ _ _ _ Hp) as Hf. rewrite (put_self _ _ _ _ Hp).
  apply wp_mem_some; [done|done|]. intros h b Hm' Hb. apply HQ; [|done|done]. split; [done|]. split; [done|].
  split; [|done]. exists p, r. split; [by apply is_port_put|done].
Qed.
Lemma data_port n m c s : data_ok n m c s → ∃ p, port n s = Some (p, s) ∧ recv p = c ∧ uart_no p = n.
Proof. intros (_ & _ & (p & r & [Hp _] & Hno & Hrec) & _). exists p. unfold port, of_opt. by rewrite Hp. Qed.
Lemma wp_data_port n m c s (Q : tls_uart_port → St → Prop) : data_ok n m c s → (∀ p, recv p = c → uart_no p = n → Q p s) → wp (port n) Q s.
Proof. intros Hok HQ. destruct (data_port n m c s Hok) as (p & E & Hr & Hno). unfold wp. rewrite E. by apply HQ. Qed.
Lemma take_bytes_ok k : ∀ c, ring_ok c → Z.of_nat k <= ring_cnt c →
  take_bytes k (cbuf c) (tail c) = Some (take k (rqueue c), ring_next (tail c) (Z.of_nat k)).
Proof.
  induction k as [|k IH]; intros c Hc Hk; cbn [take_bytes].
  - rewrite ring_next_0; [done|]. by destruct Hc as (_ & _ & _ & ?).
  - pose proof (blen_queue c) as Hn. pose proof Hc as (_ & _ & _ & Ht). destruct (ring_drop_ok 1 c Hc) as [Hc1 Hq1]; [lia|].
    destruct (rqueue c) as [|x q] eqn:Hq; [unfold blen in Hn; simpl in Hn; lia|].
    assert (byte_at (cbuf c) (tail c) = Some x) as -> by (rewrite <- (ring_next_0 (tail c)), ring_tail_at, Hq by (done || lia); done).
    cbn [mbind option_bind]. change (drop (Z.to_nat 1) (x :: q)) with q in Hq1. set (c1 := set_tail (ring_next (tail c) 1) c) in *.
    pose proof (blen_queue c1) as Hn1. rewrite Hq1 in Hn1. rewrite blen_cons in Hn.
    pose proof (IH c1 Hc1 ltac:(lia)) as E. rewrite Hq1 in E. cbn [cbuf tail set_tail c1] in E. rewrite E. cbn [mbind option_bind].
    rewrite ring_next_next. do 3 f_equal. lia.
Qed.
End data.

(** * Blocks of a firmware image *)

(** A block as it was sent: its checksum is that of what is before it. *)
Definition blk_good (b : list Z) : bool := crc32_ref (take 516 b) =? blk_crc32 b.

Section blocks.
Context {R H : Type} `{!UartRegs R, !UartEnv R (tasks H), !TaskEnv R H}.
Local Abbreviation St := (uarts R (tasks H)).
Implicit Types (s : St) (c : tls_uart_circ_buf).

(** What the task does with a block that it has taken off the ring. *)
Definition give_block n blk : M St unit := (let* session_id := fwup_get_current_session_id in
  if truth session_id then
    if blk_good blk then
      let* r := fwup_set_update_numer (blk_number blk) in
      if TLS_FWUP_STATUS_OK =? r then
        uart_fwup_rsp n 1 ;;
        fwup_request_sync session_id (blk_data blk) TLS_FWUP_BLK_SIZE ;;
        ret tt
      else uart_fwup_rsp n 0 ;; ret tt
    else uart_fwup_rsp n 0 ;; ret tt
  else ret tt)%C.

Lemma wp_take_block n c s (Q : unit → St → Prop) : data_ok n UART_ATDATA_MODE c s → UART_UPFW_DATA_SIZE <= ring_cnt c →
  (∀ blk s', blk = take (Z.to_nat UART_UPFW_DATA_SIZE) (rqueue c) → data_ok n UART_ATCMD_MODE (ring_skip UART_UPFW_DATA_SIZE c) s' →
     host (user s') = host (user s) → wp (give_block n blk) Q s') →
  wp (uart_rx n) Q s.
Proof.
  intros Hok Hcnt HQ. pose proof Hok as (Hn & Hs & _ & Hc & _). set (blk := take (Z.to_nat UART_UPFW_DATA_SIZE) (rqueue c)) in *.
  assert (0 <= UART_UPFW_DATA_SIZE) as H0 by done. pose proof (blen_queue c) as Hq.
  assert (blen blk = UART_UPFW_DATA_SIZE ∧ bytes_ok blk) as [Hblk Hbytes]
    by (split; [unfold blk, blen in *; rewrite length_take; lia|apply Forall_take; by apply queue_ok]).
  unfold uart_rx. apply wp_bind, (wp_uart n _ _ _ Hs). intros u _ Hu. apply wp_bind, (wp_port_of n _ _ _ Hs). rewrite Hu.
  cbn [UART_TRANS_MODE UART_ATCMD_MODE UART_ATDATA_MODE Z.eqb Pos.eqb]. unfold uart_fwup_send.
  apply wp_bind, (wp_port_of n _ _ _ Hs), wp_bind, (wp_data_port n _ _ _ _ Hok). intros p Hrec Hno. cbv zeta. rewrite Hrec, CIRC_CNT_ring.
  case_if; [|lia]. apply wp_bind, (wp_set_cmd_mode n _ _ _ _ _ Hok). intros s1 Hok1 Hh1.
  apply wp_bind, (wp_data_alloc n _ _ _ _ _ Hok1); [done|]. intros b s2 Hok2 Hu2 _.
  apply wp_bind. eapply wp_of_opt; [apply take_bytes_ok; [done|lia]|]. rewrite Z2Nat.id by done. fold blk. cbv beta iota.
  apply wp_bind, (wp_set_ring n _ _ _ _ _ Hok2); [by apply (ring_drop_ok UART_UPFW_DATA_SIZE c Hc); lia|]. intros s3 Hok3 Hu3.
  assert (get_crc32 blk (UART_UPFW_DATA_SIZE - 12) = Some (crc32_ref (take 516 blk))) as Hcrc.
  { unfold get_crc32. case_if; [|rewrite Hblk in *; unfold UART_UPFW_DATA_SIZE, TLS_FWUP_BLK_SIZE in *; lia].
    cbv zeta. rewrite final_crc32 by (by apply Forall_take). done. }
  rewrite Hcrc, Hno. fold (blk_good blk). apply (HQ blk s3); [done|done|by rewrite Hu3, Hu2].
Qed.

Lemma wp_answer_block n m c st s (Q : Z → St → Prop) : data_ok n m c s → st = 0 ∨ st = 1 →
  (∀ ty b s', data_ok n m c s' → user s' = user s → slice b 0 (blen (fwup_rsp_text st)) = fwup_rsp_text st →
     wp (tls_hostif_process_cmdrsp ty b (blen (fwup_rsp_text st))) (λ _, Q 0) s') →
  wp (uart_fwup_rsp n st) Q s.
Proof.
  intros Hok Hst HQ. assert (blen (fwup_rsp_text st) + 1 <= 16) as Hl by (by destruct Hst as [->| ->]).
  unfold uart_fwup_rsp. apply wp_bind, (wp_data_alloc n m c); [done|done|]. intros b s1 Hok1 Hu1 Hb. cbv zeta. apply wp_bind.
  pose proof (blen_nonneg (fwup_rsp_text st)).
  eapply wp_of_opt; [apply memcpy_Some; rewrite ?blen_app, ?blen_1; lia|]. apply wp_bind.
  eapply wp_mono; [apply HQ; [done|done|]|by intros; apply wp_ret].
  rewrite (slice_all (fwup_rsp_text st ++ [0])) by (rewrite blen_app, blen_1; lia).
  rewrite splice_front, <- app_assoc, slice_front by lia. by apply slice_all.
Qed.
End blocks.

(** What the firmware update and the host see. *)
Record fw_view := mk_view { v_session : Z; v_received : Z; v_requests : list (list Z); v_answers : list (list Z) }.
Definition add_answer a v := mk_view (v_session v) (v_received v) (v_requests v) (v_answers v ++ [a]).
Definition add_request d v := mk_view (v_session v) (v_received v) (v_requests v ++ [d]) (v_answers v).
Definition set_received x v := mk_view (v_session v) x (v_requests v) (v_answers v).

(** The calls of the firmware update: [tls_fwup_set_update_numer] takes the
    number after the last one only; the host gets the answers. *)
Class TaskFwupOk (R H : Type) `{!UartEnv R (tasks H), !TaskEnv R H} := {
  view : H → fw_view;
  fw_session_ok (s : uarts R (tasks H)) : wp fwup_get_current_session_id (λ r s', keeps s s' ∧ r = v_session (view (host (user s))) ∧
    view (host (user s')) = view (host (user s))) s;
  fw_number_ok x (s : uarts R (tasks H)) : let v := view (host (user s)) in
    wp (fwup_set_update_numer x) (λ r s', keeps s s' ∧
      if x =? v_received v + 1 then r = TLS_FWUP_STATUS_OK ∧ view (host (user s')) = set_received x v
      else r ≠ TLS_FWUP_STATUS_OK ∧ view (host (user s')) = v) s;
  fw_request_ok sid d len (s : uarts R (tasks H)) :
    wp (fwup_request_sync sid d len) (λ _ s', keeps s s' ∧ view (host (user s')) = add_request d (view (host (user s)))) s;
  fw_answer_ok ty b len (s : uarts R (tasks H)) :
    wp (tls_hostif_process_cmdrsp ty b len) (λ _ s', keeps s s' ∧ view (host (user s')) = add_answer (slice b 0 len) (view (host (user s)))) s;
}.

(** What a block changes. *)
Definition fw_take (b : list Z) (v : fw_view) : fw_view :=
  if v_session v =? 0 then v
  else if blk_good b && (blk_number b =? v_received v + 1) then
    add_request (blk_data b) (add_answer (fwup_rsp_text 1) (set_received (blk_number b) v))
  else add_answer (fwup_rsp_text 0) v.

Section fwup.
Context {R H : Type} `{!UartRegs R, !UartEnv R (tasks H), !TaskEnv R H, !TaskFwupOk R H}.
Local Abbreviation St := (uarts R (tasks H)).
Implicit Types (s : St) (c : tls_uart_circ_buf).

Lemma wp_fwup_rsp n m c st s (Q : Z → St → Prop) : data_ok n m c s → st = 0 ∨ st = 1 →
  (∀ s', data_ok n m c s' → view (host (user s')) = add_answer (fwup_rsp_text st) (view (host (user s))) → Q 0 s') →
  wp (uart_fwup_rsp n st) Q s.
Proof.
  intros Hok Hst HQ. apply (wp_answer_block n m c); [done|done|]. intros ty b s1 Hok1 Hu1 Hb.
  eapply wp_mono; [apply fw_answer_ok|]. intros _ s2 [Hk2 Hv2]. apply HQ; [by eapply keeps_data|]. by rewrite Hv2, Hu1, Hb.
Qed.

Lemma wp_fwup_block n c s (Q : unit → St → Prop) : data_ok n UART_ATDATA_MODE c s → UART_UPFW_DATA_SIZE <= ring_cnt c →
  (∀ s', data_ok n UART_ATCMD_MODE (ring_skip UART_UPFW_DATA_SIZE c) s' →
     view (host (user s')) = fw_take (take (Z.to_nat UART_UPFW_DATA_SIZE) (rqueue c)) (view (host (user s))) → Q tt s') →
  wp (uart_rx n) Q s.
Proof.
  intros Hok Hcnt HQ. apply (wp_take_block n c); [done|done|]. intros blk s3 Hblk Hok3 Hh3. rewrite <- Hblk in HQ.
  set (c' := ring_skip UART_UPFW_DATA_SIZE c) in *. assert (view (host (user s3)) = view (host (user s))) as Hv3 by (by rewrite Hh3).
  set (v := view (host (user s))) in *. unfold fw_take in HQ. unfold give_block.
  apply wp_bind. eapply wp_mono; [apply fw_session_ok|]. intros sid s4 (Hk4 & -> & Hv4). rewrite Hv3 in *.
  pose proof (keeps_data _ _ _ _ _ Hk4 Hok3) as Hok4. unfold truth at 1. destruct (v_session v =? 0); cbn [negb].
  { apply wp_ret. by apply HQ. }
  destruct (blk_good blk); cbn [andb] in HQ.
  2: { apply wp_bind, (wp_fwup_rsp n _ _ _ _ _ Hok4); [by left|]. intros s5 Hok5 Hv5. apply wp_ret, HQ; [done|]. by rewrite Hv5, Hv4. }
  apply wp_bind. eapply wp_mono; [apply fw_number_ok|]. intros r s5 [Hk5 Hr5]. rewrite Hv4 in Hr5.
  pose proof (keeps_data _ _ _ _ _ Hk5 Hok4) as Hok5. destruct (blk_number blk =? v_received v + 1); destruct Hr5 as [Hr5 Hv5].
  - rewrite Hr5, Z.eqb_refl. apply wp_bind, (wp_fwup_rsp n _ _ _ _ _ Hok5); [by right|]. intros s6 Hok6 Hv6.
    apply wp_bind. eapply wp_mono; [apply fw_request_ok|]. intros _ s7 [Hk7 Hv7].
    apply wp_ret, HQ; [by eapply keeps_data|]. by rewrite Hv7, Hv6, Hv5.
  - replace (TLS_FWUP_STATUS_OK =? r) with false by lia. apply wp_bind, (wp_fwup_rsp n _ _ _ _ _ Hok5); [by left|]. intros s6 Hok6 Hv6.
    apply wp_ret, HQ; [done|]. by rewrite Hv6, Hv5.
Qed.
End fwup.

(** A firmware image as a list of blocks, numbered from 0. *)
Definition image_ok (img : list (list Z)) : Prop := ∀ i b, img !! i = Some b → blk_good b = true ∧ blk_number b = Z.of_nat i.
(** Blocks as they come in: those whose checksum is right are of the image. *)
Definition sound_channel (img bs : list (list Z)) : Prop :=
  Forall (λ b, blk_good b = true → img !! Z.to_nat (blk_number b) = Some b) bs.
Definition fw_fold (v : fw_view) (bs : list (list Z)) : fw_view := foldl (λ v b, fw_take b v) v bs.

(** A block is taken when it is the next one. *)
Lemma fw_take_image img b v k : image_ok img → (blk_good b = true → img !! Z.to_nat (blk_number b) = Some b) →
  v_session v ≠ 0 → v_received v = Z.of_nat k - 1 →
  img !! k = Some b ∧ fw_take b v = add_request (blk_data b) (add_answer (fwup_rsp_text 1) (set_received (Z.of_nat k) v)) ∨
  img !! k ≠ Some b ∧ fw_take b v = add_answer (fwup_rsp_text 0) v.
Proof.
  intros Himg Hb Hs Hr. unfold fw_take. replace (v_session v =? 0) with false by lia. rewrite Hr.
  replace (Z.of_nat k - 1 + 1) with (Z.of_nat k) by lia. destruct (blk_good b && (blk_number b =? Z.of_nat k)) eqn:Hnext.
  - apply andb_true_iff in Hnext as [Hg Hnum]. apply Z.eqb_eq in Hnum. rewrite Hnum. left. split; [|done].
    by rewrite <- (Nat2Z.id k), <- Hnum, Hb.
  - right. split; [|done]. intros Hk. destruct (Himg k b Hk) as [Hg Hnum]. by rewrite Hg, Hnum, Z.eqb_refl in Hnext.
Qed.
(** How many blocks of the image are there after [bs] when there were [i]. *)
Definition got (img bs : list (list Z)) (i : nat) : nat := foldl (λ i b, if decide (img !! i = Some b) then S i else i) i bs.
Lemma got_range img bs : ∀ i, (i ≤ length img)%nat → (i ≤ got img bs i ≤ length img)%nat.
Proof.
  induction bs as [|b bs IH]; intros i Hi; [done|]. unfold got. cbn [foldl]. fold (got img bs (if decide (img !! i = Some b) then S i else i)).
  case_decide as Hb; [|by apply IH]. apply lookup_lt_Some in Hb. pose proof (IH (S i) Hb). lia.
Qed.
Lemma got_all img bs : ∀ i, (i ≤ length img)%nat → drop i img `sublist_of` bs → got img bs i = length img.
Proof.
  induction bs as [|b bs IH]; intros i Hi Hsub.
  - apply sublist_nil_r, (f_equal length) in Hsub. rewrite length_drop in Hsub. change (got img [] i) with i. simpl in Hsub. lia.
  - unfold got. cbn [foldl]. case_decide as Hb; (apply IH; [by try (apply lookup_lt_Some in Hb)|]).
    + rewrite (drop_S _ _ _ Hb) in Hsub. apply sublist_cons_l in Hsub as (l1 & l2 & E & Hsub).
      destruct l1 as [|x l1]; simplify_list_eq; [done|]. etrans; [exact Hsub|]. by apply sublist_inserts_l, sublist_cons.
    + destruct (drop i img) as [|x l] eqn:E; [apply sublist_nil_l|]. apply sublist_cons_l in Hsub as (l1 & l2 & E2 & Hsub).
      destruct l1 as [|z l1]; simplify_list_eq; [|apply sublist_cons_l; by exists l1, l2].
      exfalso. apply Hb. by rewrite <- (Nat.add_0_r i), <- lookup_drop, E.
Qed.
Lemma fw_fold_image img bs : image_ok img → sound_channel img bs → ∀ v k, v_session v ≠ 0 → v_received v = Z.of_nat k - 1 →
  let v' := fw_fold v bs in v_requests v' = v_requests v ++ (blk_data <$> take (got img bs k - k) (drop k img)) ∧
    length (v_answers v') = (length (v_answers v) + length bs)%nat.
Proof.
  intros Himg Hch. induction Hch as [|b bs Hb Hch IH]; intros v k Hs Hr.
  - by rewrite Nat.sub_diag, take_0, app_nil_r, Nat.add_0_r.
  - change (fw_fold v (b :: bs)) with (fw_fold (fw_take b v) bs). cbn [length]. unfold got. cbn [foldl].
    destruct (fw_take_image img b v k Himg Hb Hs Hr) as [[Hk ->]|[Hk ->]]; [rewrite decide_True by done|rewrite decide_False by done].
    + pose proof (lookup_lt_Some _ _ _ Hk). fold (got img bs (S k)). pose proof (got_range img bs (S k)).
      edestruct (IH (add_request (blk_data b) (add_answer (fwup_rsp_text 1) (set_received (Z.of_nat k) v))) (S k)) as [-> ->]; [done|cbn; lia|].
      cbn [add_request add_answer set_received v_requests v_answers]. rewrite <- app_assoc, length_app, (drop_S _ _ _ Hk).
      replace (got img bs (S k) - k)%nat with (S (got img bs (S k) - S k)) by lia. split; [done|]. cbn [length]. lia.
    + edestruct (IH (add_answer (fwup_rsp_text 0) v) k) as [-> ->]; [done|done|].
      split; [done|]. cbn [add_answer v_answers]. rewrite length_app. cbn [length]. lia.
Qed.

Section fwup_run.
Context {R H : Type} `{!UartRegs R, !UartEnv R (tasks H), !TaskEnv R H}.
Local Abbreviation St := (uarts R (tasks H)).
Implicit Types (s : St) (c : tls_uart_circ_buf).

(** The host sends blocks.  Before each a command puts the port, whose ring is
    empty, into the mode for data; the block arrives and the task looks at the
    port.  The commands leave [f] of the host alone. *)
Inductive block_run {V} (f : H → V) n : list (list Z) → St → St → Prop :=
  | fw_end s : block_run f n [] s s
  | fw_block b bs s s1 s2 s3 s' c : data_ok n UART_ATDATA_MODE c s1 → rqueue c = [] → f (host (user s1)) = f (host (user s)) →
      arrives n b s1 s2 → uart_rx n s2 = Some (tt, s3) → block_run f n bs s3 s' → block_run f n (b :: bs) s s'.

Lemma arrives_data n m c cs s s' : data_ok n m c s → arrives n cs s s' →
  ∃ c', data_ok n m c' s' ∧ rqueue c' = rqueue c ++ cs ∧ user s' = user s.
Proof.
  intros (Hn & Hs & (p1 & r1 & [Hp1 _] & Hno1 & Hrec1) & _ & Hm) (p & r & p' & r' & Hp & -> & Hc' & Hq & Hno).
  assert (p1 = p) as -> by (destruct Hp; congruence). exists (recv p'). split; [|by rewrite Hq, Hrec1].
  split; [done|]. split; [done|]. split; [|done]. exists p', r'. split; [apply is_port_put; by eapply is_port_fits|]. split; [congruence|done].
Qed.
Definition fw_run `{!TaskFwupOk R H} n bs s s' : Prop := block_run view n bs s s'.
Lemma fw_run_view `{!TaskFwupOk R H} n bs s s' : Forall (λ b, blen b = UART_UPFW_DATA_SIZE) bs → fw_run n bs s s' →
  view (host (user s')) = fw_fold (view (host (user s))) bs.
Proof.
  intros Hbs Hrun. induction Hrun as [s|b bs s s1 s2 s3 s' c Hok Hempty Hv Ha Hrx Hrun IH]; [done|].
  inversion Hbs as [|? ? Hb Hbs']; subst. rewrite IH by done. destruct (arrives_data _ _ _ _ _ _ Hok Ha) as (c2 & Hok2 & Hq2 & Hu2).
  rewrite Hempty in Hq2. cbn [app] in Hq2. pose proof (blen_queue c2) as Hl. rewrite Hq2, Hb in Hl.
  assert (wp (uart_rx n) (λ _ s3, view (host (user s3)) = fw_take b (view (host (user s)))) s2) as Hwp.
  { apply (wp_fwup_block n c2); [done|lia|]. intros s4 _ Hv4. rewrite Hv4, Hq2, Hu2, Hv, <- Hb. unfold blen. by rewrite Nat2Z.id, take_ge. }
  unfold wp in Hwp. rewrite Hrx in Hwp. unfold fw_fold. cbn [foldl]. by rewrite Hwp.
Qed.
End fwup_run.

(** C12: a firmware image over a serial port.  However the blocks come in -
    damaged, repeated, out of order, with some missing - as long as a checksum
    that is right belongs to a block of the image: the firmware update gets the
    data of the first [k] blocks in order, each once, and every block is
    answered; if among those that come in are the blocks of the image in their
    order, that is the whole image. *)
Theorem fwup_over_serial {R H} `{!UartRegs R, !UartEnv R (tasks H), !TaskEnv R H, !TaskFwupOk R H} n img bs (s s' : uarts R (tasks H)) :
  image_ok img → sound_channel img bs → Forall (λ b, blen b = UART_UPFW_DATA_SIZE) bs →
  v_session (view (host (user s))) ≠ 0 → v_received (view (host (user s))) = -1 → fw_run n bs s s' →
  ∃ k, (k ≤ length img)%nat ∧
    v_requests (view (host (user s'))) = v_requests (view (host (user s))) ++ (blk_data <$> take k img) ∧
    length (v_answers (view (host (user s')))) = (length (v_answers (view (host (user s)))) + length bs)%nat ∧
    (img `sublist_of` bs → k = length img).
Proof.
  intros Himg Hch Hbs Hs Hr Hrun. rewrite (fw_run_view n bs s s' Hbs Hrun).
  destruct (fw_fold_image img bs Himg Hch (view (host (user s))) 0 Hs Hr) as [-> ->].
  exists (got img bs 0). rewrite Nat.sub_0_r. split; [apply (got_range img bs 0); lia|]. do 2 (split; [done|]).
  intros Hsub. apply got_all; [lia|done].
Qed.

(** * The transparent mode *)

(** A socket is open.  What it was offered and how it answered is a log,
    [net_log]; the other calls add nothing to it. *)
Class TaskNetOk (R H : Type) `{!UartEnv R (tasks H), !TaskEnv R H} := {
  net_log : H → list (Z * list Z);
  net_socket_ok (s : uarts R (tasks H)) : wp tls_cmd_get_default_socket (λ r s', keeps s s' ∧ r ≠ 0 ∧ net_log (host (user s')) = net_log (host (user s))) s;
  net_send_ok skt d (s : uarts R (tasks H)) : wp (tls_hostif_send_data skt d) (λ r s', keeps s s' ∧
    net_log (host (user s')) = net_log (host (user s)) ++ [(r, d)]) s;
  net_untimeout_ok i (s : uarts R (tasks H)) : wp (wl_task_untimeout i) (λ _ s', keeps s s' ∧ net_log (host (user s')) = net_log (host (user s))) s;
  net_timeout_ok d i (s : uarts R (tasks H)) : wp (wl_task_add_timeout d i) (λ _ s', keeps s s' ∧ net_log (host (user s')) = net_log (host (user s))) s;
  net_delay_ok d (s : uarts R (tasks H)) : wp (os_time_delay d) (λ _ s', keeps s s' ∧ net_log (host (user s')) = net_log (host (user s))) s;
}.

(** The blocks of a log with these answers, one after the other. *)
Definition blocks_with (ok : Z → bool) (l : list (Z * list Z)) : list Z := concat ((λ x : Z * list Z, if ok x.1 then x.2 else []) <$> l).
(** The answers after which the task is done with a block: all but these two. *)
Definition done_with (r : Z) : bool := negb ((r =? ERR_VAL) || (r =? ERR_MEM)).
(** What the socket has taken. *)
Definition given : list (Z * list Z) → list Z := blocks_with (Z.eqb 0).
Lemma blocks_with_app ok l l' : blocks_with ok (l ++ l') = blocks_with ok l ++ blocks_with ok l'.
Proof. unfold blocks_with. by rewrite fmap_app, concat_app. Qed.
Lemma given_all l : Forall (λ x : Z * list Z, x.1 = 0 ∨ x.1 = ERR_VAL ∨ x.1 = ERR_MEM) l → given l = blocks_with done_with l.
Proof.
  induction 1 as [|[r d] l Hr _ IH]; [done|]. change ((r, d) :: l) with ([(r, d)] ++ l). unfold given in *. rewrite !blocks_with_app, IH.
  f_equal. unfold blocks_with, done_with. cbn in *. by destruct Hr as [-> | [-> | ->]].
Qed.

Section net.
Context {R H : Type} `{!UartRegs R, !UartEnv R (tasks H), !TaskEnv R H, !TaskNetOk R H}.
Local Abbreviation St := (uarts R (tasks H)).
Implicit Types (s : St) (p : tls_uart_port) (c : tls_uart_circ_buf).
(** The log at the start. *)
Variable log0 : list (Z * list Z).

(** The other side of the line can be stopped. *)
Definition flow p : Prop := fcStatus p = TLS_UART_FLOW_CTRL_HARDWARE ∧ flow_ctrl (opts p) = TLS_UART_FLOW_CTRL_HARDWARE.
Definition flowing n s : Prop := ∃ p r, is_port n s p r ∧ flow p.
(** Port [n] in the transparent mode, with ring [c]; the blocks the task is done
    with since the start and what waits, one after the other. *)
Definition net_ok n c s : Prop := data_ok n UART_TRANS_MODE c s ∧ flowing n s.
Definition stream n s c (text : list Z) : Prop := net_ok n c s ∧
  ∃ l, net_log (host (user s)) = log0 ++ l ∧ blocks_with done_with l ++ rqueue c = text.
Definition streams n text s : Prop := ∃ c, stream n s c text.

Lemma keeps_stream n c text s s' : keeps s s' → net_log (host (user s')) = net_log (host (user s)) → stream n s c text → stream n s' c text.
Proof.
  intros Hk Ho [[Hok (p & r & Hp & Hfl)] Ht]. split; [|by rewrite Ho]. split; [by eapply keeps_data|].
  exists p, r. split; [by eapply keeps_is_port|done].
Qed.
Lemma wlp_quiet {A} n c text (m : M St A) s : stream n s c text →
  wp m (λ _ s', keeps s s' ∧ net_log (host (user s')) = net_log (host (user s))) s → wlp m (λ _ s', stream n s' c text) s.
Proof. intros Hs Hm. apply wlp_wp. eapply wp_mono; [exact Hm|]. intros a s' [Hk Ho]. by eapply keeps_stream. Qed.
Lemma wlp_port n c text s (Q : tls_uart_port → St → Prop) : stream n s c text → (∀ p, recv p = c → uart_no p = n → flow p → Q p s) → wlp (port n) Q s.
Proof.
  intros [[(_ & _ & (p & r & [Hp _] & Hno & Hrec) & _) (p' & r' & [Hp' _] & Hfl)] _] HQ. apply wlp_of_opt. intros p1 E.
  assert (p1 = p ∧ p' = p) as [-> ->] by (split; congruence). by apply HQ.
Qed.
(** A change of the port that leaves its flow control alone, and one of its
    registers. *)
Lemma wlp_put n c c' s f (Q : unit → St → Prop) : net_ok n c s → ring_ok c' →
  (∀ p, recv p = c → recv (f p) = c' ∧ uart_no (f p) = uart_no p ∧ (flow p → flow (f p))) →
  (∀ s', net_ok n c' s' → net_log (host (user s')) = net_log (host (user s)) → Q tt s') → wlp (on_port n f) Q s.
Proof.
  intros [(Hn & Hs & (p & r & Hp & Hno & Hrec) & _ & Hm) (p' & r' & Hp' & Hfl)] Hc' Hf HQ. pose proof (is_port_fits _ _ _ _ Hp) as Hfit.
  assert (p' = p) as -> by (destruct Hp, Hp'; congruence). destruct (Hf p Hrec) as (H1 & H2 & H3).
  apply wlp_wp. rewrite (put_self _ _ _ _ Hp). apply wp_on_port; [done|]. pose proof (is_port_put n (f p) r s Hfit) as Hp1.
  apply HQ; [|done]. split; [|by exists (f p), r; split; [|apply H3]].
  split; [done|]. split; [done|]. split; [|done]. exists (f p), r. split; [done|]. split; congruence.
Qed.
Lemma wlp_rmw n c text s g f (Q : unit → St → Prop) : stream n s c text → (∀ s', stream n s' c text → Q tt s') → wlp (rmw n g f) Q s.
Proof.
  intros [[(Hn & Hs & (p & r & Hp & Hno & Hrec) & Hc & Hm) (p' & r' & Hp' & Hfl)] Ht] HQ. pose proof (is_port_fits _ _ _ _ Hp) as Hfit.
  assert (p' = p) as -> by (destruct Hp, Hp'; congruence). apply wlp_wp. rewrite (put_self _ _ _ _ Hp). apply wp_rmw; [done|]. apply HQ.
  split; [|exact Ht]. set (r1 := reg_wr _ _ _). pose proof (is_port_put n p r1 s Hfit) as Hp1. split; [|by exists p, r1].
  split; [done|]. split; [done|]. split; [|done]. by exists p, r1.
Qed.
Lemma wlp_keep_put n c text s f (Q : unit → St → Prop) : stream n s c text →
  (∀ p, recv (f p) = recv p ∧ uart_no (f p) = uart_no p ∧ (flow p → flow (f p))) →
  (∀ s', stream n s' c text → Q tt s') → wlp (on_port n f) Q s.
Proof.
  intros [Hok Ht] Hf HQ. apply (wlp_put n c c); [done|apply Hok| |].
  - intros p Hrec. destruct (Hf p) as (-> & ? & ?). done.
  - intros s' Hok' Ho. apply HQ. split; [done|]. by rewrite Ho.
Qed.
Lemma wlp_rx_status n c text s status (Q : unit → St → Prop) : stream n s c text → (∀ s', stream n s' c text → Q tt s') →
  wlp (tls_set_uart_rx_status n status) Q s.
Proof.
  intros Hs HQ. unfold tls_set_uart_rx_status. destruct (TLS_UART_1 =? n) eqn:En; [|by apply wlp_ret, HQ].
  assert (n = 1) as -> by (unfold TLS_UART_1 in En; lia). apply wlp_bind, (wlp_port 1 _ _ _ _ Hs). intros p _ _ _.
  case_match; [by apply wlp_ret, HQ|]. case_match; [case_match; [|by apply wlp_ret, HQ]|];
    apply wlp_bind, (wlp_rmw 1 _ _ _ _ _ _ Hs); intros s1 Hs1; by apply (wlp_keep_put 1 _ _ _ _ _ Hs1).
Qed.
Lemma wlp_restart n c text i s (Q : unit → St → Prop) : stream n s c text → (∀ s', stream n s' c text → Q tt s') → wlp (restart_timer i) Q s.
Proof.
  intros Hs HQ. unfold restart_timer. eapply wlp_seq; [apply (wlp_quiet _ _ _ _ _ Hs), net_untimeout_ok|]. intros ? s1 Hs1.
  apply wlp_bind, wlp_gets. eapply wlp_mono; [apply (wlp_quiet _ _ _ _ _ Hs1), net_timeout_ok|]. intros [] s2. apply HQ.
Qed.

(** The task is done with a block, or the function returns with it in the
    ring. *)
Lemma wlp_send_block n c text d k : ∀ s (Q : option unit → St → Prop), stream n s c text →
  (∀ s' l l', net_ok n c s' → net_log (host (user s')) = log0 ++ l ++ l' → blocks_with done_with l ++ rqueue c = text →
     blocks_with done_with l' = d → Q (Some tt) s') →
  (∀ s', stream n s' c text → Q None s') →
  ∀ skt, wlp (send_block k n n skt d) Q s.
Proof.
  induction k as [|k IH]; intros s Q [Hok (l & Hl & Ht)] Hsome Hnone skt; cbn [send_block]; [done|].
  apply wlp_bind, wlp_wp. eapply wp_mono; [apply net_send_ok|]. intros r s1 [Hk1 Ho1]. rewrite Hl in Ho1.
  assert (net_ok n c s1) as Hok1.
  { destruct Hok as [Hok (p & rr & Hp & Hfl)]. split; [by eapply keeps_data|]. exists p, rr. split; [by eapply keeps_is_port|done]. }
  assert (done_with r = false → stream n s1 c text) as Hkept.
  { intros Hr. split; [done|]. exists (l ++ [(r, d)]). split; [by rewrite Ho1, app_assoc|]. rewrite blocks_with_app.
    replace (blocks_with done_with [(r, d)]) with (@nil Z) by (unfold blocks_with; cbn; by rewrite Hr). by rewrite app_nil_r. }
  assert (done_with r = negb ((r =? ERR_VAL) || (r =? ERR_MEM))) as Hr by done.
  destruct (r =? ERR_VAL); cbn [orb negb] in Hr.
  - apply wlp_bind, (wlp_port n _ _ _ _ (Hkept Hr)). intros p _ -> _. apply wlp_bind, (wlp_rx_status n _ _ _ _ _ (Hkept Hr)). intros s2 Hs2.
    eapply wlp_seq; [apply (wlp_quiet _ _ _ _ _ Hs2), net_untimeout_ok|]. intros ? s3 Hs3. apply wlp_bind, wlp_gets.
    eapply wlp_seq; [apply (wlp_quiet _ _ _ _ _ Hs3), net_timeout_ok|]. intros ? s4 Hs4. by apply wlp_ret, Hnone.
  - destruct (r =? ERR_MEM); cbn [negb] in Hr.
    + apply wlp_bind, (wlp_port n _ _ _ _ (Hkept Hr)). intros p _ _ [-> ->]. cbn [TLS_UART_FLOW_CTRL_HARDWARE Z.eqb Pos.eqb andb].
      eapply wlp_seq; [apply (wlp_quiet _ _ _ _ _ (Hkept Hr)), net_delay_ok|]. intros ? s2 Hs2. by apply IH.
    + apply wlp_ret, (Hsome s1 l [(r, d)] Hok1 (eq_trans Ho1 (eq_sym (app_assoc _ _ _))) Ht).
      unfold blocks_with. cbn. rewrite Hr. apply app_nil_r.
Qed.
Lemma take_block_ok c m d : ring_ok c → 0 <= m <= ring_cnt c → m <= blen d →
  take_block (cbuf c) d (tail c) m = Some (splice d 0 (take (Z.to_nat m) (rqueue c))).
Proof.
  intros Hc Hm Hd. pose proof Hc as (Hb & _ & _ & Ht). pose proof (ring_cnt_range c). unfold take_block. case_if.
  - unfold TLS_UART_RX_BUF_SIZE in *. set (k := 4096 - tail c). rewrite memcpy_Some by (unfold k; lia). cbn [mbind option_bind].
    assert (blen (slice (cbuf c) (tail c) k) = k) as Hk by (apply blen_slice; unfold k; lia).
    rewrite memcpy_Some by (rewrite ?blen_splice by (rewrite ?Hk; unfold k; lia); unfold k; lia).
    rewrite splice_next by (rewrite ?Hk, ?blen_slice by (unfold k; lia); unfold k; lia). do 2 f_equal.
    apply queue_wrapped; [done..|unfold TLS_UART_RX_BUF_SIZE; lia].
  - rewrite memcpy_Some by lia. by rewrite queue_straight by (done || lia).
Qed.

Lemma wlp_net_end n c text count s (Q : unit → St → Prop) : stream n s c text → (∀ s', stream n s' c text → Q tt s') →
  wlp (net_send_end n n count) Q s.
Proof.
  intros Hs HQ. unfold net_send_end. apply wlp_bind.
  assert (∀ s1, stream n s1 c text → wlp (let* p := port n in
    if (TLS_UART_FLOW_CTRL_HARDWARE =? fcStatus p) && (TLS_UART_FLOW_CTRL_HARDWARE =? flow_ctrl (opts p)) then
      let c := recv p in
      if TLS_UART_RX_BUF_SIZE / 2 <? CIRC_SPACE (head c) (tail c) TLS_UART_RX_BUF_SIZE then
        tls_set_uart_rx_status (uart_no p) TLS_UART_RX_ENABLE
      else restart_timer n
    else ret tt)%C Q s1) as Hend.
  { intros s1 Hs1. apply wlp_bind, (wlp_port n _ _ _ _ Hs1). intros p _ -> _. case_match; [|by apply wlp_ret, HQ]. cbv zeta.
    case_match; [by apply (wlp_rx_status n _ _ _ _ _ Hs1)|by apply (wlp_restart n _ _ _ _ _ Hs1)]. }
  destruct (truth count); [|by apply wlp_ret, Hend]. apply (wlp_restart n _ _ _ _ _ Hs). exact Hend.
Qed.
Lemma wlp_net_loop n text k : ∀ c s d count (Q : unit → St → Prop), stream n s c text → 0 <= count <= ring_cnt c → blen d = UART_NET_SEND_DATA_SIZE →
  (∀ s', streams n text s' → Q tt s') → wlp (net_send_loop k n n d (tail c) count) Q s.
Proof.
  induction k as [|k IH]; intros c s d count Q Hs Hcnt Hd HQ; cbn [net_send_loop]; [done|].
  assert (∀ m rest, 0 <= m <= UART_NET_SEND_DATA_SIZE → m <= ring_cnt c → 0 <= rest <= ring_cnt c - m →
    wlp (let* p := port n in
      let* data := of_opt (take_block (cbuf (recv p)) d (tail c) m) in
      let* def_socket := tls_cmd_get_default_socket in
      let* r := (if truth def_socket then send_block loops n n def_socket (slice data 0 m) else ret (Some tt)) in
      match r with
      | None => ret tt
      | Some _ =>
          on_port n (λ p, set_recv (set_tail (ring_next (Uart.tail (recv p)) m) (recv p)) p) ;;
          if (UART_NET_SEND_DATA_SIZE <=? rest) && negb (m =? rest) then
            let* p := port n in net_send_loop k n n data (Uart.tail (recv p)) rest
          else net_send_end n n rest
      end)%C Q s) as Hround.
  2: { case_if; apply Hround; unfold UART_NET_SEND_DATA_SIZE in *; lia. }
  intros m rest Hm Hmc Hrest. pose proof Hs as [[(_ & _ & _ & Hc & _) _] _]. apply wlp_bind, (wlp_port n _ _ _ _ Hs). intros p -> _ _.
  apply wlp_bind. rewrite take_block_ok by (done || lia). apply wlp_of_opt. intros b [= <-].
  pose proof (blen_queue c) as Hl. assert (blen (take (Z.to_nat m) (rqueue c)) = m) as Hlm by (unfold blen in *; rewrite length_take; lia).
  assert (slice (splice d 0 (take (Z.to_nat m) (rqueue c))) 0 m = take (Z.to_nat m) (rqueue c)) as -> by (apply slice_splice_same; lia).
  apply wlp_bind, wlp_wp. eapply wp_mono; [apply net_socket_ok|]. intros skt s1 (Hk1 & Hne & Ho1).
  replace (truth skt) with true by (unfold truth; lia). pose proof (keeps_stream _ _ _ _ _ Hk1 Ho1 Hs) as Hs1.
  apply wlp_bind, (wlp_send_block n c text _ loops _ _ Hs1).
  2: { intros s2 Hs2. apply wlp_ret, HQ. by exists c. }
  intros s2 l l' Hok2 Ho2 Ht2 Hd2. destruct (ring_drop_ok m c Hc) as [Hc' Hq']; [lia|]. set (c' := set_tail (ring_next (tail c) m) c) in *.
  apply wlp_bind, (wlp_put n c c' _ _ _ Hok2 Hc'); [by intros p0 ->|]. intros s3 Hok3 Ho3.
  assert (stream n s3 c' text) as Hs3
    by (split; [done|]; exists (l ++ l'); split; [congruence|]; by rewrite Hq', blocks_with_app, Hd2, <- app_assoc, take_drop).
  destruct (_ && _).
  - apply wlp_bind, (wlp_port n _ _ _ _ Hs3). intros p0 -> _ _. apply IH; [done| |by rewrite blen_splice by lia|done].
    rewrite <- blen_queue, Hq'. unfold blen in *. rewrite length_drop. lia.
  - apply (wlp_net_end n c' text _ _ _ Hs3). intros s4 Hs4. apply HQ. by exists c'.
Qed.
Lemma wlp_net_send n c text count s (Q : unit → St → Prop) : stream n s c text → 0 <= count <= ring_cnt c →
  (∀ s', streams n text s' → Q tt s') → wlp (uart_net_send n (tail c) count) Q s.
Proof.
  intros Hs Hc HQ. apply wlp_bind, wlp_wp. pose proof Hs as [[(_ & Hserv & _) _] _]. apply (wp_port_of n _ _ _ Hserv).
  by apply (wlp_net_loop n text _ c); [done|done|apply blen_fmap_seqZ|].
Qed.

(** The task and the timer, while port [n] is in the transparent mode. *)
Lemma wlp_pending n c text s (Q : Z → St → Prop) : stream n s c text → Q (ring_cnt c) s → wlp (pending n) Q s.
Proof. intros Hs HQ. apply wlp_bind, (wlp_port n _ _ _ _ Hs). intros p -> _ _. apply wlp_ret. by rewrite CIRC_CNT_ring. Qed.
Lemma wlp_rx_trans n text s : streams n text s → wlp (uart_rx n) (λ _ s', streams n text s') s.
Proof.
  intros [c Hs]. pose proof Hs as [[(_ & Hserv & _) _] _]. pose proof (ring_cnt_range c). unfold uart_rx.
  apply wlp_bind, wlp_wp, (wp_uart n _ _ _ Hserv). intros u _ ->. apply wlp_bind, wlp_wp, (wp_port_of n _ _ _ Hserv).
  cbn [UART_TRANS_MODE Z.eqb Pos.eqb]. apply wlp_bind, (wlp_pending n _ _ _ _ Hs). case_match.
  - eapply wlp_seq; [apply (wlp_quiet _ _ _ _ _ Hs), net_untimeout_ok|]. intros ? s1 Hs1.
    apply wlp_bind, (wlp_port n _ _ _ _ Hs1). intros p -> _ _. by apply (wlp_net_send n c text); [|lia|].
  - apply (wlp_restart n _ _ _ _ _ Hs). intros s1 Hs1. by exists c.
Qed.
Lemma wlp_timeout_trans n text s : streams n text s → wlp (uart_rx_timeout_handler n) (λ _ s', streams n text s') s.
Proof.
  intros [c Hs]. pose proof Hs as [[(_ & Hserv & _) _] _]. pose proof (ring_cnt_range c). unfold uart_rx_timeout_handler.
  apply wlp_bind, wlp_wp, (wp_uart n _ _ _ Hserv). intros u _ ->. cbn [UART_TRANS_MODE Z.eqb Pos.eqb].
  apply wlp_bind, wlp_wp, (wp_port_of n _ _ _ Hserv). apply wlp_bind, (wlp_pending n _ _ _ _ Hs).
  destruct (truth _); [|apply wlp_ret; by exists c]. apply wlp_bind, (wlp_port n _ _ _ _ Hs). intros p -> _ _.
  by apply (wlp_net_send n c text); [|lia|].
Qed.

(** Characters arrive, the task looks, the timer expires, in any order. *)
Inductive net_run n : list Z → St → St → Prop :=
  | net_end s : net_run n [] s s
  | net_arrive cs a s s1 s' : arrives n cs s s1 → flowing n s1 → net_run n a s1 s' → net_run n (cs ++ a) s s'
  | net_task a s s1 s' : uart_rx n s = Some (tt, s1) → net_run n a s1 s' → net_run n a s s'
  | net_timer a s s1 s' : uart_rx_timeout_handler n s = Some (tt, s1) → net_run n a s1 s' → net_run n a s s'.
Lemma net_run_ok n a s s' : net_run n a s s' → ∀ text, streams n text s → streams n (text ++ a) s'.
Proof.
  induction 1 as [s|cs a s s1 s' Ha Hfl Hrun IH|a s s1 s' Hrx Hrun IH|a s s1 s' Hrx Hrun IH]; intros text Hs.
  - by rewrite app_nil_r.
  - rewrite app_assoc. apply IH. destruct Hs as (c & [Hok _] & Ht). destruct (arrives_data _ _ _ _ _ _ Hok Ha) as (c' & Hok' & Hq' & Hu').
    exists c'. split; [by split|]. rewrite Hu', Hq'. destruct Ht as (l & Hl & <-). exists l. by rewrite app_assoc.
  - apply IH. exact (wlp_run _ _ _ _ _ (wlp_rx_trans n text s Hs) Hrx).
  - apply IH. exact (wlp_run _ _ _ _ _ (wlp_timeout_trans n text s Hs) Hrx).
Qed.
End net.

(** C13: what becomes of the characters in the transparent mode.  On a port with
    flow control, while a socket is open: whatever arrives in whatever portions,
    however often the task and its timer run, as long as they return, and
    whatever the socket answers: the blocks the task is done with and what
    waits in the ring are what waited before and then all that arrived, in
    order.  The task keeps a block that is answered with ERR_VAL or ERR_MEM and
    is done with it after any other answer.  So nothing is lost if there are no
    other errors: what the socket has taken, and what waits, is all; a block
    answered with another error (no connection, a wrong argument) is lost. *)
Theorem transparent_stream {R H} `{!UartRegs R, !UartEnv R (tasks H), !TaskEnv R H, !TaskNetOk R H} n c a (s s' : uarts R (tasks H)) :
  net_ok n c s → net_run n a s s' →
  ∃ c' new, net_ok n c' s' ∧ net_log (host (user s')) = net_log (host (user s)) ++ new ∧
    blocks_with done_with new ++ rqueue c' = rqueue c ++ a ∧
    (Forall (λ x, x.1 = 0 ∨ x.1 = ERR_VAL ∨ x.1 = ERR_MEM) new → given new ++ rqueue c' = rqueue c ++ a).
Proof.
  intros Hok Hrun. destruct (net_run_ok (net_log (host (user s))) n a s s' Hrun (rqueue c)) as (c' & Hok' & new & Hl & Ht).
  - exists c. split; [done|]. exists []. by rewrite app_nil_r.
  - exists c', new. do 3 (split; [done|]). intros Hnew. by rewrite given_all.
Qed.

(** * The theorems at work *)

#[export] Instance demo_fwup_ok : TaskFwupOk usim demo_host.
Proof.
  refine {| view h := mk_view 7 (d_received h) (d_requests h) (d_answers h) |}; [done| |done|done].
  intros x s v. unfold wp. cbn. destruct (x =? d_received (host (user s)) + 1) eqn:E; by repeat split.
Defined.
#[export] Instance demo_net_ok : TaskNetOk usim demo_host.
Proof. refine {| net_log := d_out |}; done. Defined.

(** Port 1 in the mode for data with its ring empty. *)
Definition data_state {H} (h : H) : uarts usim (tasks H) := serial_state UART_ATDATA_MODE (demo_ring [] 0) h.
Lemma data_state_ok {H} (h : H) : data_ok 1 UART_ATDATA_MODE (demo_ring [] 0) (data_state h).
Proof.
  split; [by right|]. split; [by eexists|]. split; [eexists _, _; split; [apply is_serial_state|done]|].
  split; [|done]. apply demo_ring_ok; [simpl; lia|constructor|done|done].
Qed.
(** Any blocks can come in as long as the task returns. *)
Lemma demo_block_run {H V} `{!UartEnv usim (tasks H), !TaskEnv usim H} (f : H → V) (P : H → Prop) bs :
  Forall (λ b, blen b = UART_UPFW_DATA_SIZE ∧ bytes_ok b) bs →
  (∀ c b (s : uarts usim (tasks H)), b ∈ bs → data_ok 1 UART_ATDATA_MODE c s → rqueue c = b → P (host (user s)) →
     wp (uart_rx 1) (λ _ s', P (host (user s'))) s) →
  ∀ s : uarts usim (tasks H), P (host (user s)) → ∃ s', block_run f 1 bs s s'.
Proof.
  intros Hbs Hrx. induction Hbs as [|b bs [Hb Hok] Hbs IH]; intros s HP; [exists s; apply fw_end|].
  set (s1 := data_state (host (user s))). assert (arrives 1 b s1 (come b s1)) as Ha.
  { apply demo_arrives; [vm_compute; reflexivity|done|]. rewrite (ring_waiting 1 (demo_ring [] 0)) by apply data_state_ok.
    change (blen (rqueue (demo_ring [] 0))) with 0. rewrite Hb. unfold UART_UPFW_DATA_SIZE, TLS_FWUP_BLK_SIZE. lia. }
  destruct (arrives_data 1 _ _ _ _ _ (data_state_ok (host (user s))) Ha) as (c2 & Hok2 & Hq2 & Hu2).
  pose proof (Hrx c2 b (come b s1) (list_elem_of_here _ _) Hok2 Hq2) as Hwp. rewrite Hu2 in Hwp.
  apply wp_total in Hwp as ([] & s3 & E & HP3); [|exact HP].
  destruct (IH (λ c x s Hx, Hrx c x s (list_elem_of_further _ _ _ Hx)) s3 HP3) as [s' Hrun]. exists s'.
  apply (fw_block f 1 b bs s s1 (come b s1) s3 s' (demo_ring [] 0)); [apply data_state_ok|reflexivity|reflexivity|exact Ha|exact E|exact Hrun].
Qed.
Lemma demo_fw_run bs (s : uarts usim (tasks demo_host)) : Forall (λ b, blen b = UART_UPFW_DATA_SIZE ∧ bytes_ok b) bs → ∃ s', fw_run 1 bs s s'.
Proof.
  intros Hbs. apply (demo_block_run view (λ _, True)); [exact Hbs| |exact I]. intros c b s1 Hin Hok Hq _.
  eapply wp_mono; [apply (wp_fwup_block 1 c _ (λ _ _, True)); [exact Hok| |intros; exact I]|intros; exact I].
  rewrite list.Forall_forall in Hbs. rewrite <- blen_queue, Hq, (proj1 (Hbs b Hin)). apply Z.le_refl.
Qed.

(** Block [n] of two as a host sends it. *)
Definition sealed (n : Z) (data : list Z) : list Z := let b := le16 n ++ le16 2 ++ data in b ++ le32 (crc32_ref b) ++ replicate 8 255.
Definition demo_block (n x : Z) : list Z := sealed n (replicate (Z.to_nat TLS_FWUP_BLK_SIZE) x).
Definition demo_image := [demo_block 0 17; demo_block 1 34].
(** The second block, the first, the second with a byte changed, the first
    again, the second. *)
Definition demo_blocks := [demo_block 1 34; demo_block 0 17; <[100%nat := 0]> (demo_block 1 34); demo_block 0 17; demo_block 1 34].
Lemma fwup_over_serial_witness : ∃ s', fw_run 1 demo_blocks (data_state no_host) s' ∧
  v_requests (view (host (user s'))) = [replicate 512 17; replicate 512 34] ∧ length (v_answers (view (host (user s')))) = 5%nat.
Proof.
  assert (Forall (λ b, blen b = UART_UPFW_DATA_SIZE ∧ bytes_ok b) demo_blocks) as Hbs
    by (repeat apply Forall_cons_2; [..|apply Forall_nil_2]; (split; [vm_compute; reflexivity|apply bytes_ok_b; vm_compute; reflexivity])).
  destruct (demo_fw_run demo_blocks (data_state no_host) Hbs) as [s' Hrun]. exists s'. split; [exact Hrun|].
  destruct (fwup_over_serial 1 demo_image demo_blocks (data_state no_host) s') as (k & Hk & Hq & Ha & Hsub).
  - intros [|[|i]] b; cbn [lookup list_lookup demo_image]; intros [= <-]; vm_compute; by split.
  - repeat apply Forall_cons_2; [..|apply Forall_nil_2]; vm_compute; reflexivity || (intros H; discriminate H).
  - eapply list.Forall_impl; [exact Hbs|]. by intros b [Hb _].
  - discriminate.
  - reflexivity.
  - exact Hrun.
  - rewrite Hq, Ha. split; [|reflexivity]. rewrite Hsub; [vm_compute; reflexivity|].
    apply sublist_cons. apply sublist_skip. do 2 apply sublist_cons. apply sublist_skip. apply sublist_nil.
Defined.

(** Port 1 in the transparent mode, with flow control. *)
Definition trans_port (c : tls_uart_circ_buf) : tls_uart_port :=
  set_fcStatus 1 (upd_opts (set_opt_flow_ctrl 1) (demo_port 1 c [])).
Definition trans0 : uarts usim (tasks demo_host) := at_port 1 (trans_port (demo_ring [] 0)) idle_line (demo_serial UART_TRANS_MODE (demo_ring [] 0)).
(** 600 characters arrive, the task looks, then the timer expires. *)
Definition trans_text : list Z := replicate (Z.to_nat 599) 120 ++ [121].
Definition trans1 := come trans_text trans0.
Definition trans2 := exec (uart_rx 1) trans1.
Definition trans3 := exec (uart_rx_timeout_handler 1) trans2.
Lemma trans0_ok : net_ok 1 (demo_ring [] 0) trans0.
Proof.
  assert (is_port 1 trans0 (trans_port (demo_ring [] 0)) idle_line) as Hp by (unfold trans0; apply is_port_put; split; simpl; lia).
  split; [|exists (trans_port (demo_ring [] 0)), idle_line; done]. split; [by right|]. split; [by eexists|].
  split; [by exists (trans_port (demo_ring [] 0)), idle_line|]. split; [|done]. apply demo_ring_ok; [simpl; lia|constructor|done|done].
Qed.
Lemma transparent_stream_witness : net_run 1 trans_text trans0 trans3 ∧ blen (given (d_out (host (user trans2)))) = 512 ∧
  given (d_out (host (user trans3))) = trans_text ∧ ∃ c', net_ok 1 c' trans3.
Proof.
  assert (net_run 1 trans_text trans0 trans3) as Hrun.
  { rewrite <- (app_nil_r trans_text). apply (net_arrive 1 trans_text [] trans0 trans1).
    - unfold trans1. apply demo_arrives; [vm_compute; reflexivity|apply bytes_ok_b; vm_compute; reflexivity|apply Z.leb_le; vm_compute; reflexivity].
    - exists (port_at 1 trans1), (line_at 1 trans1). split; [apply is_port_at; vm_compute; reflexivity|]. split; vm_compute; reflexivity.
    - apply (net_task 1 [] trans1 trans2); [unfold trans2; apply (ran_eq _ _ tt); vm_compute; reflexivity|].
      apply (net_timer 1 [] trans2 trans3); [unfold trans3; apply (ran_eq _ _ tt); vm_compute; reflexivity|]. apply net_end. }
  split; [exact Hrun|]. split; [vm_compute; reflexivity|]. split; [vm_compute; reflexivity|].
  destruct (transparent_stream 1 (demo_ring [] 0) trans_text trans0 trans3 trans0_ok Hrun) as (c' & new & Hok & _). by exists c'.
Defined.
