(* ===== verification/AtToken.v ===== *)
(** * [src/Src/App/wm_atcmd/wm_cmdp_hostif.c]: the syntax of AT commands

    How a line is cut into a name, an operator and arguments, how quotes are
    taken off an argument, and the table of the commands with the operators
    each of them takes. *)
From Stdlib Require Import String Ascii.
From S2P Require Import Prelude Utils.
From stdpp Require Import list.
#[local] Open Scope Z_scope.

(** ** Constants *)

Definition CMD_ERR_OK := 0.
Definition CMD_ERR_INV_FMT := 1.
Definition CMD_ERR_UNSUPP := 2.
Definition CMD_ERR_OPS := 3.
Definition CMD_ERR_INV_PARAMS := 4.
Definition CMD_ERR_NOT_ALLOW := 5.
Definition CMD_ERR_MEM := 6.
Definition CMD_ERR_FLASH := 7.
Definition CMD_ERR_SKT_SND := 62.
Definition CMD_ERR_SKT_RPT := 63.
Definition ATCMD_OP_NULL := 1.
Definition ATCMD_OP_EQ := 2.
Definition ATCMD_OP_EP := 4.
Definition ATCMD_OP_QU := 8.
Definition ATCMD_MAX_ARG := 10.
Definition ATCMD_NAME_MAX_LEN := 10.

(** ** Strings in a buffer

    A pointer into the line is the offset of its byte.  Reading past the end of
    the buffer is undefined. *)

Definition at_ptr (buf : list Z) (p : Z) : list Z := drop (Z.to_nat p) buf.
(** [strchr] for a character that is not 0. *)
Fixpoint strchr_from (s : list Z) (c i : Z) : option (option Z) :=
  match s with
  | [] => None
  | x :: s' => if x =? c then Some (Some i) else if x =? 0 then Some None else strchr_from s' c (i + 1)
  end.
Definition strchr (buf : list Z) (p c : Z) : option (option Z) := strchr_from (at_ptr buf p) c p.
(** The string at the head of a buffer. *)
Fixpoint c_string (s : list Z) : option (list Z) :=
  match s with
  | [] => None
  | x :: s' => if x =? 0 then Some [] else t ← c_string s'; Some (x :: t)
  end.

(** ** A command *)

Record tls_atcmd_token_t := mk_tok {
  name : list Z;             (* [ATCMD_NAME_MAX_LEN] characters *)
  op : Z;
  arg : list (option Z);     (* [ATCMD_MAX_ARG] pointers into the line *)
  arg_found : Z;
  cmd_mode : Z;
}.
Definition set_tok_name x t := mk_tok x (op t) (arg t) (arg_found t) (cmd_mode t).
Definition set_op x t := mk_tok (name t) x (arg t) (arg_found t) (cmd_mode t).
Definition set_arg_found x t := mk_tok (name t) (op t) (arg t) x (cmd_mode t).
Definition set_cmd_mode x t := mk_tok (name t) (op t) (arg t) (arg_found t) x.
(** [tok->arg[i] = p] *)
Definition set_arg (i p : Z) (t : tls_atcmd_token_t) : option tls_atcmd_token_t :=
  if (0 <=? i) && (i <? ATCMD_MAX_ARG)
  then Some (mk_tok (name t) (op t) (<[Z.to_nat i := Some p]> (arg t)) (arg_found t) (cmd_mode t)) else None.
(** [memset(tok, 0, sizeof(struct tls_atcmd_token_t))] *)
Definition zero_tok : tls_atcmd_token_t :=
  mk_tok (replicate (Z.to_nat ATCMD_NAME_MAX_LEN) 0) 0 (replicate (Z.to_nat ATCMD_MAX_ARG) None) 0 0.

(** The loop looks for a comma behind a quote that no backslash escapes. *)
Fixpoint comma_loop (k : nat) (buf : list Z) (p n prec : Z) : option (option Z) :=
  match k with
  | O => Some None
  | S k' =>
      curc ← byte_at buf (p + n);
      if (curc =? 44) && (prec =? 34) then
        if n <? 3 then Some (Some (p + n))
        else
          c ← byte_at buf (p + n - 2);
          if negb (c =? 92) then Some (Some (p + n)) else comma_loop k' buf p (n + 1) curc
      else comma_loop k' buf p (n + 1) curc
  end.
Definition get_first_comma (buf : list Z) (p len : Z) : option (option Z) :=
  if len <=? 0 then Some None
  else
    c ← byte_at buf p;
    if c =? 34 then comma_loop (Z.to_nat (len - 1)) buf p 1 0
    else strchr buf p 44.

(** [MEMCPY(tok->name, buf, c-buf); *(tok->name + (c-buf)) = 0] *)
Definition copy_name (tok : tls_atcmd_token_t) (buf : list Z) (p c : Z) : option tls_atcmd_token_t :=
  n ← memcpy (name tok) 0 buf p (c - p);
  n ← store8 n (c - p) 0;
  Some (set_tok_name n tok).

(** The loop over the arguments: each round ends it or finds one more, and
    there is no room for more than nine, so ten rounds are enough. *)
Fixpoint arg_loop (fuel : nat) (tok : tls_atcmd_token_t) (buf : list Z) (p end_line remain_len : Z)
  : option (Z * tls_atcmd_token_t * list Z) :=
  match fuel with
  | O => None
  | S fuel =>
      if remain_len <=? 0 then Some (0, tok, buf)
      else
        comma ← get_first_comma buf p remain_len;
        match comma with
        | None =>
            if ATCMD_MAX_ARG - 1 <=? arg_found tok then Some (- CMD_ERR_INV_PARAMS, tok, buf)
            else
              buf ← store8 buf end_line 0;
              let tok := if negb (end_line =? p) then set_arg_found (arg_found tok + 1) tok else tok in
              tok ← set_arg (arg_found tok) (end_line + 1) tok;
              let remain_len := remain_len - (end_line - p) in
              Some (if 1 <? remain_len then - CMD_ERR_NOT_ALLOW else 0, tok, buf)
        | Some comma =>
            if ATCMD_MAX_ARG - 1 <=? arg_found tok then Some (- CMD_ERR_INV_PARAMS, tok, buf)
            else
              buf ← store8 buf comma 0;
              let tok := set_arg_found (arg_found tok + 1) tok in
              tok ← set_arg (arg_found tok) (comma + 1) tok;
              arg_loop fuel tok buf (comma + 1) end_line (remain_len - (comma - p + 1))
        end
  end.

(** The return value, the token and the line, whose separators become
    terminators. *)
Definition tls_atcmd_parse (tok : tls_atcmd_token_t) (buf : list Z) (p len : Z)
  : option (Z * tls_atcmd_token_t * list Z) :=
  if len =? 0 then
    n ← store8 (name tok) 0 0;
    Some (-1, set_arg_found 0 (set_tok_name n tok), buf)
  else
    c ← strchr buf p 61;
    match c with
    | None =>
        c ← strchr buf p 10;
        match c with
        | None => Some (- CMD_ERR_INV_FMT, tok, buf)
        | Some c =>
            if ATCMD_NAME_MAX_LEN - 1 <? c - p then Some (- CMD_ERR_UNSUPP, tok, buf)
            else
              tok ← copy_name tok buf p c;
              Some (0, set_arg_found 0 (set_op ATCMD_OP_NULL tok), buf)
        end
    | Some c =>
        if ATCMD_NAME_MAX_LEN - 1 <? c - p then Some (- CMD_ERR_UNSUPP, tok, buf)
        else
          tok ← copy_name tok buf p c;
          let buf_start := p in
          let p := c + 1 in
          ch ← byte_at buf p;
          let '(o, p) := switch ch [(33, (ATCMD_OP_EP, p + 1)); (63, (ATCMD_OP_QU, p + 1))] (ATCMD_OP_EQ, p) in
          let tok := set_op o tok in
          tok ← set_arg 0 p tok;
          let tok := set_arg_found 0 tok in
          if truth (Z.land (op tok) 0x9) then Some (0, tok, buf)
          else
            let remain_len := s32 (u32 (len - (p - buf_start))) in
            end_line ← strchr buf p 10;
            match end_line with
            | None => Some (- CMD_ERR_INV_FMT, tok, buf)
            | Some end_line => arg_loop (Z.to_nat ATCMD_MAX_ARG) tok buf p end_line remain_len
            end
    end.

(** ** Quotes *)

(** [memcpy] one place down, a byte at a time upwards. *)
Definition move_down (buf : list Z) (d n : Z) : option (list Z) := memcpy buf d buf (d + 1) n.
Fixpoint unescape_loop (fuel : nat) (buf : list Z) (p i len : Z) : option (list Z * Z) :=
  if i <? len then
    match fuel with
    | O => None
    | S fuel =>
        c ← byte_at buf (p + i);
        if c =? 92 then
          let len := u8 (len - 1) in
          buf ← move_down buf (p + i) (len - i);
          unescape_loop fuel buf p (i + 1) len
        else unescape_loop fuel buf p (i + 1) len
    end
  else Some (buf, len).
(** The return value, [*keyInfo] and the line; the length is a byte. *)
Definition atcmd_filter_quotation (buf : list Z) (p : Z) : option (Z * Z * list Z) :=
  len ← strlen (at_ptr buf p);
  let len := u8 len in
  c ← byte_at buf p;
  if c =? 34 then
    let p := p + 1 in
    let len := u8 (len - 1) in
    a ← byte_at buf (p + len - 1);
    if negb (a =? 34) then Some (1, p, buf)
    else
      b ← byte_at buf (p + len);
      if negb (b =? 0) then Some (1, p, buf)
      else
        buf ← store8 buf (p + len - 1) 0;
        let len := u8 (len - 1) in
        r ← unescape_loop 256 buf p 0 len;
        let '(buf, len) := r in
        buf ← store8 buf (p + len) 0;
        Some (0, p, buf)
  else Some (0, p, buf).

(** ** The commands *)

(** The bytes of a literal, without its terminator. *)
Definition str (s : string) : list Z := (λ c, Z.of_N (N_of_ascii c)) <$> list_ascii_of_string s.

Record tls_cmd_t := mk_cmd { at_name : string; op_flag : Z; at_arg_len : Z }.
Definition at_ri_cmd_tbl : list tls_cmd_t := [
  mk_cmd "Z" 0x11 0; mk_cmd "E" 0x1 0; mk_cmd "ENTS" 0x22 4; mk_cmd "RSTF" 0x11 0; mk_cmd "PMTF" 0x11 0;
  mk_cmd "IOC" 0x11 0; mk_cmd "WJOIN" 0x11 0; mk_cmd "WLEAV" 0x13 1; mk_cmd "WSCAN" 0x11 0; mk_cmd "LKSTT" 0x19 0;
  mk_cmd "ENTM" 0x1 0; mk_cmd "SKCT" 0x22 4; mk_cmd "SKSTT" 0x22 1; mk_cmd "SKCLS" 0x22 1; mk_cmd "SKSDF" 0x22 1;
  mk_cmd "SKSND" 0x02 2; mk_cmd "SKRCV" 0x02 2; mk_cmd "SKRPTM" 0xA 1; mk_cmd "SKSRCIP" 0x18 0; mk_cmd "SKGHBN" 0x22 1;
  mk_cmd "WPRT" 0x7F 1; mk_cmd "SSID" 0x7F 1; mk_cmd "KEY" 0x7F 3; mk_cmd "ENCRY" 0x7F 1; mk_cmd "BSSID" 0x7F 1;
  mk_cmd "BRDSSID" 0x7F 1; mk_cmd "CNTPARAM" 0x19 0; mk_cmd "CHL" 0x7F 1; mk_cmd "CHLL" 0x7F 1; mk_cmd "WREG" 0x7F 1;
  mk_cmd "WBGR" 0x7F 2; mk_cmd "WATC" 0x7F 1; mk_cmd "WPSM" 0x7F 1; mk_cmd "WARC" 0x7F 1; mk_cmd "WARM" 0x7F 1;
  mk_cmd "NIP" 0x7F 1; mk_cmd "ATM" 0x7F 1; mk_cmd "ATRM" 0x7F 4; mk_cmd "AOLM" 0x7F 0; mk_cmd "PORTM" 0x7F 1;
  mk_cmd "UART" 0x7F 4; mk_cmd "ATLT" 0x7F 1; mk_cmd "DNS" 0x7F 1; mk_cmd "DDNS" 0x7F 0; mk_cmd "UPNP" 0x7F 0;
  mk_cmd "DNAME" 0x7F 0; mk_cmd "ATPT" 0x7F 1; mk_cmd "&DBG" 0x22 1; mk_cmd "ESPC" 0xF 1; mk_cmd "ESPT" 0xF 1;
  mk_cmd "WEBS" 0x7F 1; mk_cmd "IOM" 0x7F 1; mk_cmd "CMDM" 0x7F 1; mk_cmd "PASS" 0x7F 1; mk_cmd "ONESHOT" 0x7F 1;
  mk_cmd "ONEMODE" 0x7F 1; mk_cmd "&UPDP" 0x22 1; mk_cmd "HTTPC" 0x22 2; mk_cmd "FWUP" 0x22 1; mk_cmd "TEM" 0x7F 1;
  mk_cmd "QMAC" 0x19 0; mk_cmd "QVER" 0x19 0; mk_cmd "&UPDM" 0x22 1; mk_cmd "&UPDD" 0x22 1; mk_cmd "&REGR" 0x22 2;
  mk_cmd "&REGW" 0x22 2; mk_cmd "&RFR" 0x22 2; mk_cmd "&RFW" 0x22 2; mk_cmd "&FLSR" 0x22 2; mk_cmd "&FLSW" 0x22 2;
  mk_cmd "&TXG" 0xF 1; mk_cmd "&TXGS" 0xF 1; mk_cmd "&TXGG" 0xF 1; mk_cmd "&MAC" 0xF 1; mk_cmd "&HWV" 0x9 0;
  mk_cmd "&SPIF" 0x2 1; mk_cmd "&LPCHL" 0xB 1; mk_cmd "&LPTSTR" 0x2 5; mk_cmd "&LPTSTP" 0x1 0; mk_cmd "&LPTSTT" 0xF 0;
  mk_cmd "&LPRSTR" 0x2 1; mk_cmd "&LPRSTP" 0x1 0; mk_cmd "&LPRSTT" 0x1 0; mk_cmd "&LPPSTR" 0x3 2; mk_cmd "&LPPSTP" 0x2 1;
  mk_cmd "&LPRFPS" 0x1 0; mk_cmd "&LPCHRS" 0x2 1; mk_cmd "&LPTBD" 0x2 7; mk_cmd "&LPSTPT" 0x1 0; mk_cmd "&LPCHLR" 0x2 1;
  mk_cmd "&LPSTPR" 0x1 0; mk_cmd "&LPRAGC" 0x1 0; mk_cmd "&LPRSR" 0x9 0; mk_cmd "SLIST" 0x19 0; mk_cmd "APLKSTT" 0x19 0;
  mk_cmd "APSSID" 0x7F 1; mk_cmd "APMAC" 0x19 0; mk_cmd "APENCRY" 0x7F 1; mk_cmd "APKEY" 0x7F 3; mk_cmd "APCHL" 0x7F 1;
  mk_cmd "APWBGR" 0x7F 2; mk_cmd "APNIP" 0x7F 1; mk_cmd "PING" 0x2 4; mk_cmd "CUSTDATA" 0x19 0; mk_cmd "WIDTH" 0x2 2;
  mk_cmd "&RXSIN" 0x2 2; mk_cmd "TXLO" 0x7F 1; mk_cmd "TXIQ" 0x7F 2; mk_cmd "FREQ" 0x7F 1; mk_cmd "VCG" 0x7F 1].
(** The search of [tls_hostif_atcmd_exec]. *)
Definition find_cmd (n : list Z) : option tls_cmd_t :=
  find (λ c, bool_decide (str (at_name c) = n)) at_ri_cmd_tbl.

(** The return value, [*set_opt] and [*update_flash], 0 before. *)
Definition hostif_check_atcmd_opt (op arg_found opt_flag arg_len : Z) : Z * Z * Z :=
  let r := Z.land opt_flag op in
  if r =? 0 then (- CMD_ERR_UNSUPP, 0, 0)
  else if (r =? ATCMD_OP_EQ) || (r =? ATCMD_OP_EP) then
    if arg_found <? arg_len then (- CMD_ERR_UNSUPP, 0, 0)
    else (0, 1, if op =? ATCMD_OP_EP then 1 else 0)
  else (0, 0, 0).

(** A step of a computation that cannot fail here. *)
Lemma bind_ret {A B} (x : A) (f : A → option B) : (Some x ≫= f) = f x.
Proof. done. Qed.
Ltac o_step := rewrite bind_ret; cbv beta.

(** * Quotes: the argument is what was quoted *)

(** What a host writes for the text [s]. *)
Fixpoint escape (s : list Z) : list Z :=
  match s with
  | [] => []
  | c :: s' => if (c =? 34) || (c =? 92) then 92 :: c :: escape s' else c :: escape s'
  end.
Definition quote (s : list Z) : list Z := 34 :: escape s ++ [34].
Definition no_nul (s : list Z) : Prop := Forall (λ c, c ≠ 0) s.

Section strings.
Implicit Types s l pre rest : list Z.

Lemma at_ptr_app pre l k : 0 <= k → at_ptr (pre ++ l) (blen pre + k) = at_ptr l k.
Proof. intros Hk. unfold at_ptr, blen. rewrite drop_app_ge by lia. f_equal. lia. Qed.
Lemma at_ptr_pre pre l : at_ptr (pre ++ l) (blen pre) = l.
Proof. apply drop_blen. Qed.
Lemma byte_at_pre0 pre c l : byte_at (pre ++ c :: l) (blen pre) = Some c.
Proof. pose proof (byte_at_app_r pre (c :: l) 0) as H. by rewrite Z.add_0_r in H. Qed.

Lemma strchr_from_here s l c i : Forall (λ x, x ≠ 0 ∧ x ≠ c) s →
  strchr_from (s ++ c :: l) c i = Some (Some (i + blen s)).
Proof.
  revert i. induction s as [|x s IH]; intros i; simpl.
  { intros _. case_if; [|lia]. unfold blen. simpl. by rewrite Z.add_0_r. }
  intros [Hx Hs]%Forall_cons_1. case_if; [lia|]. case_if; [lia|]. rewrite IH by done.
  rewrite blen_cons. do 2 f_equal. lia.
Qed.
Lemma strchr_from_none s l c i : c ≠ 0 → Forall (λ x, x ≠ 0 ∧ x ≠ c) s →
  strchr_from (s ++ 0 :: l) c i = Some None.
Proof.
  intros Hc. revert i. induction s as [|x s IH]; intros i; cbn [strchr_from app].
  { intros _. case_if; [lia|done]. }
  intros [Hx Hs]%Forall_cons_1. case_if; [lia|]. case_if; [lia|]. by apply IH.
Qed.
Lemma c_string_app s l : no_nul s → c_string (s ++ 0 :: l) = Some s.
Proof.
  induction s as [|x s IH]; intros H; simpl; [done|]. apply Forall_cons_1 in H as [Hx Hs].
  case_if; [lia|]. by rewrite IH.
Qed.
Lemma strlen_no_nul s l : no_nul s → strlen (s ++ 0 :: l) = Some (blen s).
Proof. apply strlen_app. Qed.

Lemma store8_pre pre x l y : store8 (pre ++ x :: l) (blen pre) y = Some (pre ++ y :: l).
Proof. apply store8_mid. Qed.
Lemma move_down_pre pre x s l : move_down (pre ++ x :: s ++ l) (blen pre) (blen s) =
  Some (pre ++ s ++ drop (length s) (x :: s ++ l)).
Proof.
  unfold move_down. pose proof (blen_nonneg pre). pose proof (blen_nonneg s). pose proof (blen_nonneg l).
  rewrite memcpy_Some by (rewrite ?blen_app, ?blen_cons, ?blen_app; lia). f_equal.
  replace (slice _ _ _) with s.
  2:{ symmetry. rewrite slice_pre by lia. unfold slice. change (Z.to_nat 1) with 1%nat. cbn [drop].
    unfold blen. rewrite Nat2Z.id, drop_0, take_app_le, take_ge by lia. done. }
  unfold splice. unfold blen. rewrite Nat2Z.id. rewrite take_app_length. f_equal. f_equal.
  rewrite drop_app_ge by lia. f_equal. lia.
Qed.

Lemma no_nul_escape s : no_nul s → no_nul (escape s).
Proof.
  induction s as [|c s IH]; simpl; [done|]. intros [Hc Hs]%Forall_cons_1.
  case_if; repeat (apply Forall_cons_2; [lia|]); by apply IH.
Qed.
Lemma blen_escape_ge s : blen s <= blen (escape s).
Proof. induction s as [|c s IH]; simpl; [lia|]. case_if; rewrite !blen_cons; lia. Qed.

(** Moving [s] down by one leaves a copy of its last byte. *)
Lemma drop_one_left x s l : s ≠ [] → ∃ y, drop (length s) (x :: s ++ l) = y :: l.
Proof.
  revert x. induction s as [|c s IH]; intros x Hs; [done|]. cbn [length app drop].
  destruct s as [|d s]; [by exists c|]. destruct (IH c) as [y Hy]; [done|]. by exists y.
Qed.

(** The loop takes the backslashes off what is left of the text. *)
Lemma unescape_ok s : ∀ fuel pre fin tail i len, (length s < fuel)%nat →
  i = blen fin → len = blen fin + blen (escape s) → len <= 255 →
  ∃ junk, unescape_loop fuel (pre ++ fin ++ escape s ++ tail) (blen pre) i len =
    Some (pre ++ fin ++ s ++ junk ++ tail, blen fin + blen s) ∧ blen junk = blen (escape s) - blen s.
Proof.
  induction s as [|c s IH]; intros fuel pre fin tail i len Hfuel -> -> Hlen; cbn [escape] in *.
  { exists []. split; [|done]. destruct fuel; cbn [unescape_loop]; change (blen []) with 0; rewrite Z.add_0_r, Z.ltb_irrefl; done. }
  destruct fuel as [|fuel]; cbn [length] in Hfuel; [lia|]. pose proof (blen_nonneg fin). pose proof (blen_nonneg (escape s)).
  assert (blen (fin ++ [c]) = blen fin + 1) as Hf1 by (by rewrite blen_app).
  set (esc := (c =? 34) || (c =? 92)) in *. cbn [unescape_loop].
  destruct esc eqn:Hesc; rewrite !blen_cons in *.
  - replace (blen fin <? _) with true by lia. rewrite app_assoc, <- blen_app. cbn [app].
    rewrite byte_at_pre0. o_step. replace (92 =? 92) with true by done. cbn iota.
    rewrite u8_id by (unfold_ints; lia).
    replace (_ - 1 - blen fin) with (blen (c :: escape s)) by (rewrite blen_cons; lia).
    rewrite (app_comm_cons (escape s) tail c), move_down_pre. o_step.
    destruct (drop_one_left 92 (c :: escape s) tail) as [y Hy]; [done|]. rewrite Hy, <- app_assoc.
    destruct (IH fuel pre (fin ++ [c]) (y :: tail) (blen fin + 1) (blen fin + (blen (escape s) + 1 + 1) - 1))
      as (junk & Hrun & Hj); [lia..|]. rewrite <- !app_assoc in Hrun. cbn [app] in Hrun |- *. rewrite Hrun, Hf1.
    exists (junk ++ [y]). rewrite <- app_assoc, blen_app. change (blen [y]) with 1. cbn [app].
    split; [do 2 f_equal; lia|lia].
  - replace (blen fin <? _) with true by lia. rewrite app_assoc, <- blen_app. cbn [app].
    rewrite byte_at_pre0. o_step. replace (c =? 92) with false by (unfold esc in Hesc; lia). cbn iota.
    rewrite <- app_assoc.
    destruct (IH fuel pre (fin ++ [c]) tail (blen fin + 1) (blen fin + (blen (escape s) + 1)))
      as (junk & Hrun & Hj); [lia..|]. rewrite <- !app_assoc in Hrun. cbn [app] in Hrun |- *. rewrite Hrun, Hf1.
    exists junk. split; [do 2 f_equal; lia|lia].
Qed.
End strings.

Section filter.
Implicit Types s l pre rest : list Z.

Lemma app_mid pre x l : pre ++ x :: l = (pre ++ [x]) ++ l.
Proof. by rewrite <- app_assoc. Qed.
Lemma quote_eq s l : quote s ++ l = 34 :: escape s ++ 34 :: l.
Proof. unfold quote. by rewrite <- app_comm_cons, <- app_mid. Qed.
Lemma blen_quote s : blen (quote s) = blen (escape s) + 2.
Proof. unfold quote. rewrite blen_cons, blen_app. change (blen [34]) with 1. lia. Qed.
Lemma no_nul_quote s : no_nul s → no_nul (quote s).
Proof.
  intros Hs. apply Forall_cons_2; [done|]. apply Forall_app. split; [by apply no_nul_escape|]. by apply Forall_cons_2.
Qed.
(** Taking the quotes off leaves the text, and the line behind it alone. *)
Lemma filter_quote s pre rest : no_nul s → blen (quote s) <= 255 →
  ∃ junk, atcmd_filter_quotation (pre ++ quote s ++ 0 :: rest) (blen pre) =
    Some (0, blen pre + 1, pre ++ 34 :: s ++ 0 :: junk ++ rest) ∧ blen junk = blen (escape s) - blen s + 1.
Proof.
  intros Hs Hlen. pose proof (blen_escape_ge s). pose proof (blen_nonneg s). rewrite blen_quote in Hlen.
  unfold atcmd_filter_quotation. rewrite at_ptr_pre, strlen_no_nul by by apply no_nul_quote.
  o_step. rewrite blen_quote. assert (∀ k, 0 <= k <= 2 → u8 (blen (escape s) + k) = blen (escape s) + k) as Hu by (intros; apply u8_id; unfold is_u8; lia).
  rewrite Hu by lia. rewrite quote_eq.
  rewrite byte_at_pre0. o_step.
  replace (34 =? 34) with true by done. cbn iota.
  replace (blen (escape s) + 2 - 1) with (blen (escape s) + 1) by lia. rewrite Hu by lia.
  replace (blen (escape s) + 1 - 1) with (blen (escape s) + 0) by lia. rewrite Hu by lia. rewrite (app_mid pre 34). set (q := pre ++ [34]).
  assert (blen pre + 1 = blen q) as -> by (unfold q; by rewrite blen_app).
  replace (blen q + (blen (escape s) + 1) - 1) with (blen (q ++ escape s)) by (rewrite blen_app; lia).
  rewrite (app_assoc q), byte_at_pre0. o_step. replace (negb (34 =? 34)) with false by done. cbn iota.
  replace (blen q + (blen (escape s) + 1)) with (blen (q ++ escape s) + Z.of_nat 1) by (rewrite blen_app; lia).
  rewrite byte_at_app_r. replace ((34 :: 0 :: rest) !! 1%nat) with (Some 0) by done. o_step. replace (negb (0 =? 0)) with false by done. cbn iota.
  rewrite store8_pre. o_step. rewrite <- app_assoc.
  destruct (unescape_ok s 256 q [] (0 :: 0 :: rest) 0 (blen (escape s) + 0)) as (junk & Hrun & Hj);
    [unfold blen in *; lia|done|change (blen []) with 0; lia|lia|].
  rewrite !app_nil_l in Hrun. rewrite Hrun. o_step. replace (blen [] + blen s) with (blen s) by done.
  assert (∃ y j, junk ++ [0] = y :: j) as (y & j & Hyj) by (destruct junk; simpl; eauto).
  exists (j ++ [0]). rewrite (app_mid junk), Hyj.
  assert (blen j = blen junk) by (apply (f_equal length) in Hyj; rewrite length_app in Hyj; simpl in Hyj; unfold blen; lia).
  rewrite <- (blen_app q s), (app_assoc q s), <- app_comm_cons, store8_pre. o_step.
  split; [|rewrite blen_app; replace (blen [0]) with 1 by done; lia].
  do 2 f_equal. unfold q. by rewrite <- !app_assoc.
Qed.
Lemma filter_plain l pre rest : no_nul l → head (l ++ [0]) ≠ Some 34 →
  atcmd_filter_quotation (pre ++ l ++ 0 :: rest) (blen pre) = Some (0, blen pre, pre ++ l ++ 0 :: rest).
Proof.
  intros Hl Hh. unfold atcmd_filter_quotation. rewrite at_ptr_pre, strlen_no_nul by done. o_step.
  assert (∃ c l', l ++ 0 :: rest = c :: l' ∧ c ≠ 34) as (c & l' & -> & Hc).
  { destruct l as [|c l]; [by exists 0, rest|]. exists c, (l ++ 0 :: rest). split; [done|]. intros ->. by apply Hh. }
  rewrite byte_at_pre0. o_step. by replace (c =? 34) with false by lia.
Qed.
End filter.

(** * Lines: a line is cut into the arguments it was made of *)

(** An argument: characters that mean nothing to the parser, or a quoted text.
    A quoted text that ends in a backslash is only recognised at the end. *)
Definition plain (a : list Z) : Prop := Forall (λ c, c ≠ 0 ∧ c ≠ 10 ∧ c ≠ 44) a ∧ head a ≠ Some 34.
Definition one_line (s : list Z) : Prop := Forall (λ c, c ≠ 0 ∧ c ≠ 10) s.
Definition arg_ok (a : list Z) : Prop := plain a ∨ ∃ s, a = quote s ∧ one_line s.
Definition sep_ok (a : list Z) : Prop := plain a ∨ ∃ s, a = quote s ∧ one_line s ∧ last s ≠ Some 92.
Fixpoint args_ok (l : list (list Z)) : Prop :=
  match l with
  | [] => True
  | [a] => arg_ok a ∧ a ≠ []
  | a :: l' => sep_ok a ∧ args_ok l'
  end.
(** The text of the arguments, and what the parser makes of it. *)
Fixpoint join_args (l : list (list Z)) : list Z :=
  match l with
  | [] => []
  | [a] => a
  | a :: l' => a ++ 44 :: join_args l'
  end.
Fixpoint cut (l : list (list Z)) : list Z :=
  match l with [] => [] | a :: l' => a ++ 0 :: cut l' end.

Section commas.
Variables (buf : list Z) (p : Z).

(** A quote read last is one that a backslash escapes. *)
Definition escaped (n prec : Z) : Prop := prec = 34 → 3 <= n ∧ byte_at buf (p + n - 2) = Some 92.

Lemma comma_step k n prec c : byte_at buf (p + n) = Some c → escaped n prec →
  comma_loop (S k) buf p n prec = comma_loop k buf p (n + 1) c.
Proof.
  intros Hc He. cbn [comma_loop]. rewrite Hc. o_step. case_if; [|done].
  destruct He as [Hn Hb]; [done|]. replace (n <? 3) with false by lia. rewrite Hb. o_step. done.
Qed.
Lemma comma_escape s : ∀ pre l n prec k, buf = pre ++ escape s ++ l → p + n = blen pre → 1 <= n → escaped n prec →
  ∃ prec', comma_loop (length (escape s) + k) buf p n prec = comma_loop k buf p (n + blen (escape s)) prec' ∧
    escaped (n + blen (escape s)) prec'.
Proof.
  induction s as [|c s IH]; intros pre l n prec k Hbuf Hp Hn He; cbn [escape] in *.
  { exists prec. cbn [length]. replace (n + blen []) with n by (unfold blen; simpl; lia). done. }
  destruct ((c =? 34) || (c =? 92)) eqn:Hesc.
  - cbn [length Nat.add]. assert (byte_at buf (p + n) = Some 92) as H1 by (rewrite Hp, Hbuf; apply byte_at_pre0).
    assert (byte_at buf (p + (n + 1)) = Some c) as H2.
    { replace (p + (n + 1)) with (blen pre + Z.of_nat 1) by lia. rewrite Hbuf. by rewrite byte_at_app_r. }
    rewrite (comma_step _ n prec 92) by done.
    rewrite (comma_step _ (n + 1) 92 c) by done.
    destruct (IH (pre ++ [92; c]) l (n + 1 + 1) c k) as (prec' & Hrun & Hp').
    + rewrite Hbuf. by rewrite <- app_assoc.
    + rewrite blen_app. change (blen [92; c]) with 2. lia.
    + lia.
    + intros _. split; [lia|]. by replace (p + (n + 1 + 1) - 2) with (p + n) by lia.
    + exists prec'. rewrite !blen_cons. by replace (n + (blen (escape s) + 1 + 1)) with (n + 1 + 1 + blen (escape s)) by lia.
  - cbn [length Nat.add]. assert (byte_at buf (p + n) = Some c) as H1 by (rewrite Hp, Hbuf; apply byte_at_pre0).
    rewrite (comma_step _ n prec c) by done.
    destruct (IH (pre ++ [c]) l (n + 1) c k) as (prec' & Hrun & Hp').
    + rewrite Hbuf. by rewrite <- app_assoc.
    + rewrite blen_app. change (blen [c]) with 1. lia.
    + lia.
    + intros ->. by rewrite orb_true_l in Hesc.
    + exists prec'. rewrite !blen_cons. by replace (n + (blen (escape s) + 1)) with (n + 1 + blen (escape s)) by lia.
Qed.
End commas.

(** Behind the quotes of a text the loop has seen its closing quote. *)
Lemma comma_quote pre s l k : comma_loop (length (escape s) + 1 + k) (pre ++ quote s ++ l) (blen pre) 1 0 =
  comma_loop k (pre ++ quote s ++ l) (blen pre) (blen (quote s)) 34.
Proof.
  set (buf := pre ++ quote s ++ l).
  destruct (comma_escape buf (blen pre) s (pre ++ [34]) (34 :: l) 1 0 (1 + k)) as (prec' & Hrun & He).
  - unfold buf. rewrite quote_eq. by rewrite <- app_assoc.
  - by rewrite blen_app.
  - lia.
  - done.
  - rewrite <- Nat.add_assoc, Hrun. cbn [Nat.add]. rewrite (comma_step _ _ _ _ _ 34); [|unfold buf|done].
    { rewrite blen_quote. f_equal. lia. }
    rewrite quote_eq, app_mid, app_assoc. replace (blen pre + (1 + blen (escape s))) with (blen ((pre ++ [34]) ++ escape s)).
    { apply byte_at_pre0. }
    rewrite !blen_app. change (blen [34]) with 1. lia.
Qed.
Lemma last_escape s : last (escape s) = last s.
Proof.
  induction s as [|c s IH]; [done|]. cbn [escape]. destruct s as [|d s]; [by case_if|].
  assert (∃ x t, escape (d :: s) = x :: t) as (x & t & Hx) by (cbn [escape]; case_if; eauto).
  rewrite Hx in *. case_if; exact IH.
Qed.
(** The byte in front of the closing quote. *)
Lemma before_quote pre s l c : last s = Some c → byte_at (pre ++ quote s ++ l) (blen pre + blen (quote s) - 2) = Some c.
Proof.
  rewrite <- last_escape. intros [t Ht]%last_Some. rewrite blen_quote, quote_eq, Ht, <- app_assoc. cbn [app].
  rewrite (app_mid pre), (app_assoc _ t). replace (_ - 2) with (blen ((pre ++ [34]) ++ t)).
  { apply byte_at_pre0. }
  rewrite !blen_app. change (blen [34]) with 1. change (blen [c]) with 1. lia.
Qed.

Section first_comma.
Implicit Types a s l pre : list Z.

Lemma plain_head a pre l : plain a → a ≠ [] ∨ head l ≠ Some 34 → l ≠ [] →
  ∃ c, byte_at (pre ++ a ++ l) (blen pre) = Some c ∧ c ≠ 34.
Proof.
  intros [_ Ha] Hl Hne. destruct a as [|c a]; simpl in Ha |- *.
  - destruct Hl as [?|Hl]; [done|]. destruct l as [|c l]; [done|]. exists c. rewrite byte_at_pre0. split; [done|]. by intros ->.
  - exists c. rewrite byte_at_pre0. split; [done|]. by intros ->.
Qed.
Lemma plain_comma a pre l len : plain a → 0 < len → get_first_comma (pre ++ a ++ 44 :: l) (blen pre) len = Some (Some (blen pre + blen a)).
Proof.
  intros Ha Hlen. unfold get_first_comma. replace (len <=? 0) with false by lia.
  destruct (plain_head a pre (44 :: l)) as (c & Hc & Hq); [done|by right|done|]. rewrite Hc. o_step.
  replace (c =? 34) with false by lia. unfold strchr. rewrite at_ptr_pre. apply strchr_from_here.
  destruct Ha as [Ha _]. eapply Forall_impl; [exact Ha|]. by intros x (? & ? & ?).
Qed.
Lemma plain_end a pre l len : plain a → 0 < len → get_first_comma (pre ++ a ++ 10 :: 0 :: l) (blen pre) len = Some None.
Proof.
  intros Ha Hlen. unfold get_first_comma. replace (len <=? 0) with false by lia.
  destruct (plain_head a pre (10 :: 0 :: l)) as (c & Hc & Hq); [done|by right|done|]. rewrite Hc. o_step.
  replace (c =? 34) with false by lia. unfold strchr. rewrite at_ptr_pre, app_mid. apply strchr_from_none; [done|].
  apply Forall_app. split; [|by apply Forall_cons_2]. destruct Ha as [Ha _]. eapply Forall_impl; [exact Ha|]. by intros x (? & ? & ?).
Qed.

Lemma quote_first_comma pre s l k : get_first_comma (pre ++ quote s ++ l) (blen pre) (blen (quote s) + Z.of_nat k) =
  comma_loop k (pre ++ quote s ++ l) (blen pre) (blen (quote s)) 34.
Proof.
  pose proof (blen_nonneg (escape s)). unfold get_first_comma. rewrite blen_quote at 1. replace (_ <=? 0) with false by lia.
  rewrite quote_eq at 1. rewrite byte_at_pre0. o_step. replace (34 =? 34) with true by done. cbn iota.
  rewrite <- comma_quote. f_equal. rewrite blen_quote. unfold blen in *. lia.
Qed.
Lemma quote_byte pre s c l : byte_at (pre ++ quote s ++ c :: l) (blen pre + blen (quote s)) = Some c.
Proof. rewrite app_assoc, <- blen_app. apply byte_at_pre0. Qed.

(** The comma behind an argument is found. *)
Lemma comma_found a pre l len : sep_ok a → blen a < len →
  get_first_comma (pre ++ a ++ 44 :: l) (blen pre) len = Some (Some (blen pre + blen a)).
Proof.
  pose proof (blen_nonneg a). intros [Ha|(s & -> & Hs & Hlast)] Hlen; [apply plain_comma; [done|lia]|].
  replace len with (blen (quote s) + Z.of_nat (S (Z.to_nat (len - blen (quote s) - 1)))) by lia.
  rewrite quote_first_comma. cbn [comma_loop]. rewrite quote_byte. o_step.
  change ((44 =? 44) && (34 =? 34)) with true. cbn iota. case_if; [done|].
  destruct s as [|x s'] eqn:Hs'; [by vm_compute in E|]. rewrite <- Hs' in *.
  destruct (last s) as [c|] eqn:Hc; [|by apply last_None in Hc; subst]. rewrite (before_quote _ _ _ _ Hc). o_step.
  case_if; [done|]. by subst c.
Qed.
(** Nothing is found behind the last argument. *)
Lemma comma_at_end a pre l : arg_ok a → get_first_comma (pre ++ a ++ 10 :: 0 :: l) (blen pre) (blen a + 1) = Some None.
Proof.
  pose proof (blen_nonneg a). intros [Ha|(s & -> & Hs)]; [apply plain_end; [done|lia]|].
  change 1 with (Z.of_nat 1). rewrite quote_first_comma. cbn [comma_loop]. rewrite quote_byte. by o_step.
Qed.
(** A backslash at the end of a quoted text hides the comma behind it. *)
Lemma comma_hidden s pre a l : one_line s → last s = Some 92 → Forall (λ c, c ≠ 34) a →
  get_first_comma (pre ++ quote s ++ 44 :: a ++ 10 :: 0 :: l) (blen pre) (blen (quote s) + 1 + blen a + 1) = Some None.
Proof.
  intros Hs Hlast Ha. set (buf := pre ++ _).
  replace (blen (quote s) + 1 + blen a + 1) with (blen (quote s) + Z.of_nat (S (length a + 1))) by (unfold blen; lia).
  unfold buf. rewrite quote_first_comma. cbn [comma_loop]. rewrite quote_byte. o_step.
  change ((44 =? 44) && (34 =? 34)) with true. cbn iota.
  assert (2 < blen (quote s)) as Hl.
  { rewrite blen_quote. pose proof (blen_escape_ge s) as Hge. pose proof Hlast as [t Ht]%last_Some.
    rewrite Ht, blen_app in Hge at 1. change (blen [92]) with 1 in Hge. pose proof (blen_nonneg t). lia. }
  replace (blen (quote s) <? 3) with false by lia. rewrite (before_quote _ _ _ _ Hlast). o_step.
  change (negb (92 =? 92)) with false. cbn iota.
  set (n := blen (quote s) + 1).
  assert (∀ b k pre', (pre' ++ b ++ 10 :: 0 :: l) = buf → blen pre' = blen pre + k → Forall (λ c, c ≠ 34) b →
    ∀ prec, prec ≠ 34 → comma_loop (length b + 1) buf (blen pre) k prec = Some None) as Hrest.
  { induction b as [|c b IH]; intros k pre' Hbuf Hk Hb prec Hprec.
    - cbn [length Nat.add comma_loop]. rewrite <- Hk, <- Hbuf. rewrite app_nil_l, byte_at_pre0. by o_step.
    - apply Forall_cons_1 in Hb as [Hc Hb]. cbn [length Nat.add].
      rewrite (comma_step _ _ _ _ _ c); [|by rewrite <- Hk, <- Hbuf; apply byte_at_pre0|by intros ->].
      apply (IH (k + 1) (pre' ++ [c])); [by rewrite <- app_assoc|rewrite blen_app; change (blen [c]) with 1; lia|done|done]. }
  apply (Hrest a n (pre ++ quote s ++ [44])); [|rewrite !blen_app; change (blen [44]) with 1; unfold n; lia|done|done].
  unfold buf. by rewrite <- !app_assoc.
Qed.
End first_comma.

(** The token after the arguments [l], the first of which stands at [p]. *)
Fixpoint take_args (l : list (list Z)) (p : Z) (tok : tls_atcmd_token_t) : tls_atcmd_token_t :=
  match l with
  | [] => tok
  | a :: l' => take_args l' (p + blen a + 1)
      (mk_tok (name tok) (op tok) (<[Z.to_nat (arg_found tok + 1) := Some (p + blen a + 1)]> (arg tok))
        (arg_found tok + 1) (cmd_mode tok))
  end.
(** Where argument [i] begins. *)
Definition arg_start (l : list (list Z)) (i : nat) : Z := blen (cut (take i l)).

Section lines.
Implicit Types l : list (list Z).
Implicit Types a pre rest : list Z.

Lemma take_args_same l : ∀ p tok, let t := take_args l p tok in
  name t = name tok ∧ op t = op tok ∧ cmd_mode t = cmd_mode tok ∧ arg_found t = arg_found tok + Z.of_nat (length l) ∧
  length (arg t) = length (arg tok).
Proof.
  induction l as [|a l IH]; intros p tok; cbn [take_args length].
  - repeat split. lia.
  - destruct (IH (p + blen a + 1) (mk_tok (name tok) (op tok)
      (<[Z.to_nat (arg_found tok + 1) := Some (p + blen a + 1)]> (arg tok)) (arg_found tok + 1) (cmd_mode tok)))
      as (-> & -> & -> & -> & ->). cbn [name op cmd_mode arg_found arg]. rewrite length_insert. repeat split. lia.
Qed.
Lemma take_args_before l : ∀ p tok i, 0 <= arg_found tok → (i <= Z.to_nat (arg_found tok))%nat →
  arg (take_args l p tok) !! i = arg tok !! i.
Proof.
  induction l as [|a l IH]; intros p tok i Hf Hi; cbn [take_args]; [done|].
  rewrite IH by (cbn [arg_found]; lia). cbn [arg]. rewrite list_lookup_insert_ne by lia. done.
Qed.
Lemma take_args_at l : ∀ p tok i, 0 <= arg_found tok → arg_found tok + Z.of_nat (length l) < Z.of_nat (length (arg tok)) →
  (i < length l)%nat →
  arg (take_args l p tok) !! (Z.to_nat (arg_found tok) + S i)%nat = Some (Some (p + arg_start l (S i))).
Proof.
  induction l as [|a l IH]; intros p tok i Hf Hl Hi; cbn [length] in *; [lia|]. cbn [take_args].
  set (tok1 := mk_tok _ _ _ _ _).
  assert (arg_start (a :: l) (S i) = blen a + 1 + arg_start l i) as ->.
  { unfold arg_start. cbn [take cut]. rewrite blen_app, blen_cons. lia. }
  destruct i as [|i].
  - rewrite take_args_before by (cbn [arg_found tok1]; lia). cbn [arg tok1].
    replace (Z.to_nat (arg_found tok) + 1)%nat with (Z.to_nat (arg_found tok + 1)) by lia.
    rewrite list_lookup_insert_eq by lia. unfold arg_start. rewrite take_0. change (blen (cut [])) with 0. do 2 f_equal. lia.
  - replace (Z.to_nat (arg_found tok) + S (S i))%nat with (Z.to_nat (arg_found tok1) + S i)%nat by (cbn [arg_found tok1]; lia).
    rewrite IH by (cbn [arg_found arg tok1]; rewrite ?length_insert; lia). do 2 f_equal. lia.
Qed.

Lemma set_arg_ok i p t : 0 <= i < 10 → set_arg i p t =
  Some (mk_tok (name t) (op t) (<[Z.to_nat i := Some p]> (arg t)) (arg_found t) (cmd_mode t)).
Proof. intros Hi. unfold set_arg, ATCMD_MAX_ARG. by replace ((0 <=? i) && (i <? 10)) with true by lia. Qed.

Lemma arg_loop_ok l : ∀ fuel tok pre rest, l ≠ [] → args_ok l → (length l <= fuel)%nat →
  0 <= arg_found tok → arg_found tok + Z.of_nat (length l) <= 9 →
  arg_loop fuel tok (pre ++ join_args l ++ 10 :: 0 :: rest) (blen pre) (blen pre + blen (join_args l)) (blen (join_args l) + 1) =
    Some (0, take_args l (blen pre) tok, pre ++ cut l ++ 0 :: rest).
Proof.
  induction l as [|a l IH]; intros fuel tok pre rest Hne Hok Hfuel Hf Hn; [done|].
  destruct fuel as [|fuel]; cbn [length] in Hfuel, Hn; [lia|]. cbn [arg_loop].
  pose proof (blen_nonneg (join_args (a :: l))). replace (blen (join_args (a :: l)) + 1 <=? 0) with false by lia.
  destruct l as [|b l].
  - destruct Hok as [Ha Hae]. cbn [join_args]. rewrite comma_at_end by done. o_step.
    unfold ATCMD_MAX_ARG. replace (10 - 1 <=? arg_found tok) with false by (cbn [length] in Hn; lia).
    rewrite app_assoc, <- blen_app, store8_pre. o_step.
    assert (0 < blen a) as Hpos by (destruct a; [done|rewrite blen_cons; pose proof (blen_nonneg a); lia]).
    rewrite blen_app. replace (negb (blen pre + blen a =? blen pre)) with true by lia. cbn iota.
    rewrite set_arg_ok by (cbn [arg_found set_arg_found length] in *; lia). o_step.
    replace (1 <? _) with false by lia. cbn [take_args cut].
    f_equal. f_equal. by rewrite <- !app_assoc.
  - destruct Hok as [Ha Hok]. change (join_args (a :: b :: l)) with (a ++ 44 :: join_args (b :: l)). rewrite <- app_assoc, <- app_comm_cons.
    rewrite comma_found; [|done|].
    2:{ rewrite blen_app, blen_cons. pose proof (blen_nonneg (join_args (b :: l))). lia. }
    o_step. unfold ATCMD_MAX_ARG. replace (10 - 1 <=? arg_found tok) with false by (cbn [length] in Hn; lia).
    rewrite app_assoc, <- blen_app, store8_pre. o_step.
    rewrite set_arg_ok by (cbn [arg_found set_arg_found length] in *; lia). o_step.
    specialize (IH fuel (mk_tok (name tok) (op tok) (<[Z.to_nat (arg_found tok + 1) := Some (blen pre + blen a + 1)]> (arg tok))
      (arg_found tok + 1) (cmd_mode tok)) (pre ++ a ++ [0]) rest).
    assert (blen (pre ++ a ++ [0]) = blen pre + blen a + 1) as Hl by (rewrite !blen_app; change (blen [0]) with 1; lia).
    rewrite Hl in IH. change (cut (a :: b :: l)) with (a ++ 0 :: cut (b :: l)).
    replace (pre ++ (a ++ 0 :: cut (b :: l)) ++ 0 :: rest) with ((pre ++ a ++ [0]) ++ cut (b :: l) ++ 0 :: rest)
      by (by rewrite <- !app_assoc, <- app_comm_cons).
    etrans; [|apply IH; [done|done|lia|cbn [arg_found]; lia|cbn [arg_found length] in *; lia]].
    cbn [name op arg arg_found cmd_mode set_arg_found]. rewrite !blen_app, blen_cons. f_equal; try lia.
    by rewrite <- !app_assoc.
Qed.
End lines.

Lemma one_line_escape s : one_line s → one_line (escape s).
Proof.
  induction s as [|c s IH]; intros Hs; [by constructor|]. apply Forall_cons_1 in Hs as [? ?]. cbn [escape].
  case_if; repeat (apply Forall_cons_2; [done|]); by apply IH.
Qed.

(** The line of a command with arguments, [e] for an exclamation mark. *)
Definition cmd_line (n : list Z) (e : bool) (l : list (list Z)) : list Z :=
  n ++ 61 :: (if e then [33] else []) ++ join_args l ++ [10].
(** A name that fits the token. *)
Definition name_ok (n : list Z) : Prop := Forall (λ c, c ≠ 0 ∧ c ≠ 10 ∧ c ≠ 61) n ∧ blen n <= 9.
Definition tok_ok (t : tls_atcmd_token_t) : Prop := blen (name t) = 10 ∧ length (arg t) = 10%nat.

Lemma name_ok_no_nul n : name_ok n → no_nul n.
Proof. intros [Hn _]. eapply Forall_impl; [exact Hn|]. by intros x (? & _). Qed.
Lemma copy_name_ok tok pre n l : tok_ok tok → blen n <= 9 →
  ∃ x, copy_name tok (pre ++ n ++ l) (blen pre) (blen pre + blen n) = Some (set_tok_name x tok) ∧ blen x = 10 ∧
    (no_nul n → c_string x = Some n).
Proof.
  intros [Hn _] Hl. pose proof (blen_nonneg pre). pose proof (blen_nonneg n). pose proof (blen_nonneg l). unfold copy_name.
  replace (blen pre + blen n - blen pre) with (blen n) by lia.
  rewrite memcpy_Some by (rewrite ?blen_app; lia). o_step.
  assert (slice (pre ++ n ++ l) (blen pre) (blen n) = n) as ->.
  { rewrite <- (Z.add_0_r (blen pre)), slice_pre by lia. rewrite slice_front by lia. by apply slice_all. }
  set (x := splice _ _ _). assert (blen x = 10) as Hx by (unfold x; rewrite blen_splice; lia).
  assert (∃ t, x = n ++ t) as [t Ht].
  { unfold x, splice. cbn [Z.to_nat take app]. rewrite take_0. by eexists. }
  rewrite Ht in *. rewrite blen_app in Hx. destruct t as [|c t]; [unfold blen in *; simpl in *; lia|].
  rewrite store8_pre. o_step. exists (n ++ 0 :: t). split; [done|]. split; [rewrite blen_app, blen_cons in *; lia|].
  intros. by apply c_string_app.
Qed.
Lemma tok_ok_after t x o f p i : tok_ok t → blen x = 10 → tok_ok (mk_tok x o (<[i := p]> (arg t)) f (cmd_mode t)).
Proof. intros [_ Ha] Hx. split; [done|]. cbn [arg]. by rewrite length_insert. Qed.

(** The line up to the arguments [body], [e] for an exclamation mark. *)
Definition line_pre (n : list Z) (e : bool) : list Z := n ++ 61 :: (if e then [33] else []).
Lemma blen_line_pre n e : blen n + 1 <= blen (line_pre n e) <= blen n + 2.
Proof. unfold line_pre. rewrite blen_app, blen_cons. destruct e; [change (blen [33]) with 1|change (blen []) with 0]; lia. Qed.

(** The operator in front of the arguments. *)
Lemma op_switch pre n e body l p : (e = false → head body ≠ Some 33 ∧ head body ≠ Some 63) → p = blen (pre ++ n) + 1 →
  ∃ c, byte_at (pre ++ line_pre n e ++ body ++ 10 :: l) p = Some c ∧
    switch c [(33, (ATCMD_OP_EP, p + 1)); (63, (ATCMD_OP_QU, p + 1))] (ATCMD_OP_EQ, p) =
      (if e then ATCMD_OP_EP else ATCMD_OP_EQ, blen (pre ++ line_pre n e)).
Proof.
  intros He ->. replace (blen (pre ++ n) + 1) with (blen (pre ++ n ++ [61])) by (rewrite !blen_app; change (blen [61]) with 1; lia).
  assert (pre ++ line_pre n e ++ body ++ 10 :: l = (pre ++ n ++ [61]) ++ (if e then [33] else []) ++ body ++ 10 :: l) as ->
    by (unfold line_pre; by rewrite <- !app_assoc).
  destruct e.
  - exists 33. cbn [app]. rewrite byte_at_pre0. split; [done|]. cbn [switch]. replace (33 =? 33) with true by done. f_equal.
    unfold line_pre. rewrite !blen_app. rewrite ?blen_app, ?blen_cons. change (blen []) with 0. change (blen [61]) with 1. change (blen [33]) with 1. lia.
  - destruct He as [H1 H2]; [done|]. rewrite app_nil_l.
    assert (∃ c t, body ++ 10 :: l = c :: t ∧ c ≠ 33 ∧ c ≠ 63) as (c & t & -> & ? & ?).
    { destruct body as [|c t]; [by exists 10, l|]. exists c, (t ++ 10 :: l). split; [done|]. simpl in H1, H2. split; congruence. }
    exists c. rewrite byte_at_pre0. split; [done|]. cbn [switch]. replace (c =? 33) with false by lia.
    by replace (c =? 63) with false by lia.
Qed.

(** The parser up to the loop over the arguments. *)
Lemma parse_head tok pre rest n e body : tok_ok tok → name_ok n → one_line body →
  (e = false → head body ≠ Some 33 ∧ head body ≠ Some 63) → let pre' := pre ++ line_pre n e in
  blen (line_pre n e) + blen body + 1 < 2 ^ 31 →
  ∃ x, blen x = 10 ∧ c_string x = Some n ∧
    tls_atcmd_parse tok (pre ++ line_pre n e ++ body ++ 10 :: 0 :: rest) (blen pre) (blen (line_pre n e) + blen body + 1) =
      arg_loop 10 (mk_tok x (if e then ATCMD_OP_EP else ATCMD_OP_EQ) (<[0%nat := Some (blen pre')]> (arg tok)) 0 (cmd_mode tok))
        (pre' ++ body ++ 10 :: 0 :: rest) (blen pre') (blen pre' + blen body) (blen body + 1).
Proof.
  intros Htok Hn Hbody He pre' Hlen. pose proof (name_ok_no_nul n Hn) as Hnn. destruct Hn as [Hnc Hn9].
  pose proof (blen_nonneg body). pose proof (blen_nonneg n). pose proof (blen_line_pre n e).
  unfold tls_atcmd_parse. replace (_ =? 0) with false by lia.
  assert (pre ++ line_pre n e ++ body ++ 10 :: 0 :: rest =
    pre ++ n ++ 61 :: (if e then [33] else []) ++ body ++ 10 :: 0 :: rest) as Hb0
    by (unfold line_pre; rewrite <- !app_assoc, <- app_comm_cons; by rewrite <- ?app_assoc).
  set (buf := pre ++ line_pre n e ++ _) in *.
  assert (strchr buf (blen pre) 61 = Some (Some (blen pre + blen n))) as ->.
  { unfold strchr. rewrite Hb0, at_ptr_pre. apply strchr_from_here. eapply Forall_impl; [exact Hnc|]. by intros x (? & ? & ?). }
  o_step. unfold ATCMD_NAME_MAX_LEN. replace (10 - 1 <? blen pre + blen n - blen pre) with false by lia.
  destruct (copy_name_ok tok pre n (61 :: (if e then [33] else []) ++ body ++ 10 :: 0 :: rest) Htok Hn9) as (x & Hcopy & Hx & Hxs).
  rewrite <- Hb0 in Hcopy. rewrite Hcopy. o_step.
  destruct (op_switch pre n e body (0 :: rest) (blen pre + blen n + 1) He ltac:(rewrite blen_app; lia)) as (c & Hc & Hsw).
  fold buf in Hc. rewrite Hc. o_step. rewrite Hsw. cbn iota. rewrite set_arg_ok by lia. o_step.
  cbn [set_tok_name set_op set_arg_found name op arg cmd_mode arg_found].
  replace (truth (Z.land (if e then ATCMD_OP_EP else ATCMD_OP_EQ) 9)) with false by (by destruct e). cbn iota.
  fold pre'. assert (blen pre' = blen pre + blen (line_pre n e)) as Hp' by (unfold pre'; by rewrite blen_app).
  assert (buf = pre' ++ body ++ 10 :: 0 :: rest) as -> by (unfold buf, pre'; by rewrite <- app_assoc).
  replace (s32 _) with (blen body + 1)
    by (rewrite u32_id by (unfold is_u32; lia); rewrite s32_id by (unfold is_s32; lia); lia).
  unfold strchr. rewrite at_ptr_pre, strchr_from_here by done. o_step. exists x. split; [done|]. split; [by apply Hxs|done].
Qed.
Lemma one_line_join l : args_ok l → one_line (join_args l).
Proof.
  induction l as [|a l IH]; intros Hl; [by constructor|].
  assert (∀ b, arg_ok b → one_line b) as Hb.
  { intros b [[Hb _]|(s & -> & Hs)].
    - eapply Forall_impl; [exact Hb|]. by intros x (? & ? & ?).
    - apply Forall_cons_2; [done|]. apply Forall_app. split; [by apply one_line_escape|by apply Forall_cons_2]. }
  destruct l as [|b l]; [by apply Hb, Hl|]. destruct Hl as [Ha Hl]. cbn [join_args]. apply Forall_app. split.
  - apply Hb. destruct Ha as [?|(s & ? & ? & _)]; [by left|right; by eauto].
  - apply Forall_cons_2; [done|]. by apply IH.
Qed.

Lemma parse_line_ok tok pre rest n e l : tok_ok tok → name_ok n → args_ok l → l ≠ [] → (length l <= 9)%nat →
  (e = false → head (join_args l) ≠ Some 33 ∧ head (join_args l) ≠ Some 63) → blen (cmd_line n e l) < 2 ^ 31 →
  let pre' := pre ++ n ++ 61 :: (if e then [33] else []) in
  ∃ t, tls_atcmd_parse tok (pre ++ cmd_line n e l ++ 0 :: rest) (blen pre) (blen (cmd_line n e l)) =
      Some (0, t, pre' ++ cut l ++ 0 :: rest) ∧
    c_string (name t) = Some n ∧ op t = (if e then ATCMD_OP_EP else ATCMD_OP_EQ) ∧ cmd_mode t = cmd_mode tok ∧
    arg_found t = Z.of_nat (length l) ∧ ∀ i, (i < length l)%nat → arg t !! i = Some (Some (blen pre' + arg_start l i)).
Proof.
  intros Htok Hn Hl Hne H9 He Hlen pre'. change pre' with (pre ++ line_pre n e).
  assert (cmd_line n e l = line_pre n e ++ join_args l ++ [10]) as Hcl by (unfold cmd_line, line_pre; by rewrite <- app_assoc).
  assert (blen (cmd_line n e l) = blen (line_pre n e) + blen (join_args l) + 1) as HL
    by (rewrite Hcl, !blen_app; change (blen [10]) with 1; lia).
  destruct (parse_head tok pre rest n e (join_args l) Htok Hn (one_line_join l Hl) He ltac:(lia)) as (x & Hx & Hxs & Hrun).
  rewrite HL. replace (cmd_line n e l ++ 0 :: rest) with (line_pre n e ++ join_args l ++ 10 :: 0 :: rest)
    by (rewrite Hcl; by rewrite <- !app_assoc).
  rewrite Hrun, arg_loop_ok; [|done|done|lia|cbn [arg_found]; lia|cbn [arg_found]; lia].
  eexists. split; [done|]. edestruct take_args_same as (-> & -> & -> & -> & _). cbn [name op cmd_mode arg_found].
  do 3 (split; [done|]). split; [lia|]. destruct Htok as [_ Harg]. intros [|i] Hi.
  - rewrite take_args_before by (cbn [arg_found]; lia). cbn [arg]. change (Z.to_nat 0) with 0%nat.
    rewrite list_lookup_insert_eq by lia. unfold arg_start. rewrite take_0. change (blen (cut [])) with 0. by rewrite Z.add_0_r.
  - set (t0 := mk_tok _ _ _ _ _). pose proof (take_args_at l (blen (pre ++ line_pre n e)) t0 i) as Hat.
    cbn [arg_found arg t0] in Hat. rewrite length_insert in Hat. apply Hat; lia.
Qed.

(** C26: a line made of a name, the equal sign and arguments is cut into just
    these: the name, the operator, the number of the arguments, and pointers
    to each of them, now a string of its own in the line.  Arguments are
    characters other than comma and line end, not beginning with a quote, or
    quoted texts of any characters but the line end, of which only the last may
    end in a backslash ([backslash_joins_args]); at most nine of them, the last
    one not empty. *)
Theorem atcmd_parse_line tok pre rest n e l : tok_ok tok → name_ok n → args_ok l → l ≠ [] → (length l <= 9)%nat →
  (e = false → head (join_args l) ≠ Some 33 ∧ head (join_args l) ≠ Some 63) → blen (cmd_line n e l) < 2 ^ 31 →
  let pre' := pre ++ n ++ 61 :: (if e then [33] else []) in
  ∃ t, tls_atcmd_parse tok (pre ++ cmd_line n e l ++ 0 :: rest) (blen pre) (blen (cmd_line n e l)) =
      Some (0, t, pre' ++ cut l ++ 0 :: rest) ∧
    c_string (name t) = Some n ∧ op t = (if e then ATCMD_OP_EP else ATCMD_OP_EQ) ∧ cmd_mode t = cmd_mode tok ∧
    arg_found t = Z.of_nat (length l) ∧ ∀ i, (i < length l)%nat → arg t !! i = Some (Some (blen pre' + arg_start l i)).
Proof. apply parse_line_ok. Qed.

(** A command without arguments: the name alone, or with [=?] behind it. *)
Lemma atcmd_parse_name tok pre rest n : tok_ok tok → name_ok n → 
  ∃ t, tls_atcmd_parse tok (pre ++ n ++ 10 :: 0 :: rest) (blen pre) (blen n + 1) = Some (0, t, pre ++ n ++ 10 :: 0 :: rest) ∧
    c_string (name t) = Some n ∧ op t = ATCMD_OP_NULL ∧ cmd_mode t = cmd_mode tok ∧ arg_found t = 0.
Proof.
  intros Htok Hn. pose proof (name_ok_no_nul n Hn) as Hnn. destruct Hn as [Hnc Hn9]. pose proof (blen_nonneg n).
  unfold tls_atcmd_parse. replace (blen n + 1 =? 0) with false by lia. set (buf := pre ++ _).
  assert (strchr buf (blen pre) 61 = Some None) as ->.
  { unfold strchr, buf. rewrite at_ptr_pre, app_mid. apply strchr_from_none; [done|]. apply Forall_app.
    split; [|by apply Forall_cons_2]. eapply Forall_impl; [exact Hnc|]. by intros x (? & ? & ?). }
  o_step. assert (strchr buf (blen pre) 10 = Some (Some (blen pre + blen n))) as ->.
  { unfold strchr, buf. rewrite at_ptr_pre. apply strchr_from_here. eapply Forall_impl; [exact Hnc|]. by intros x (? & ? & ?). }
  o_step. unfold ATCMD_NAME_MAX_LEN. replace (10 - 1 <? blen pre + blen n - blen pre) with false by lia.
  destruct (copy_name_ok tok pre n (10 :: 0 :: rest) Htok Hn9) as (x & Hcopy & Hx & Hxs).
  fold buf in Hcopy. rewrite Hcopy. o_step. eexists. split; [done|]. split; [by apply Hxs|]. done.
Qed.

(** A backslash at the end of a quoted text.  The host escapes it, so the
    closing quote has a backslash in front of it, and the parser takes the
    quote for an escaped one: the comma behind it is not seen, and the two
    arguments arrive as one. *)
Theorem backslash_joins_args tok pre rest n s a : tok_ok tok → name_ok n → one_line s → last s = Some 92 → plain a →
  Forall (λ c, c ≠ 34) a → blen (cmd_line n false [quote s; a]) < 2 ^ 31 →
  let pre' := pre ++ n ++ [61] in
  ∃ t, tls_atcmd_parse tok (pre ++ cmd_line n false [quote s; a] ++ 0 :: rest) (blen pre) (blen (cmd_line n false [quote s; a])) =
      Some (0, t, pre' ++ (quote s ++ 44 :: a) ++ 0 :: 0 :: rest) ∧ arg_found t = 1 ∧ arg t !! 0%nat = Some (Some (blen pre')).
Proof.
  intros Htok Hn Hs Hlast Ha Haq Hlen pre'. change pre' with (pre ++ line_pre n false).
  assert (cmd_line n false [quote s; a] = line_pre n false ++ (quote s ++ 44 :: a) ++ [10]) as Hcl
    by (unfold cmd_line, line_pre; by rewrite <- app_assoc).
  assert (blen (cmd_line n false [quote s; a]) = blen (line_pre n false) + blen (quote s ++ 44 :: a) + 1) as HL
    by (rewrite Hcl, !blen_app; change (blen [10]) with 1; lia).
  assert (one_line (quote s ++ 44 :: a)) as Hbody.
  { apply Forall_app. split.
    - apply Forall_cons_2; [done|]. apply Forall_app. split; [by apply one_line_escape|by apply Forall_cons_2].
    - apply Forall_cons_2; [done|]. eapply Forall_impl; [exact (proj1 Ha)|]. by intros y (? & ? & ?). }
  destruct (parse_head tok pre rest n false _ Htok Hn Hbody ltac:(done) ltac:(lia)) as (x & Hx & _ & Hrun).
  rewrite HL. replace (cmd_line n false [quote s; a] ++ 0 :: rest)
    with (line_pre n false ++ (quote s ++ 44 :: a) ++ 10 :: 0 :: rest) by (rewrite Hcl; by rewrite <- !app_assoc).
  rewrite Hrun. set (q := pre ++ line_pre n false). set (body := quote s ++ 44 :: a) in *.
  assert (0 < blen body) by (unfold body; rewrite blen_app, blen_quote; pose proof (blen_nonneg (escape s)); pose proof (blen_nonneg (44 :: a)); lia).
  cbn [arg_loop]. replace (blen body + 1 <=? 0) with false by lia.
  replace (q ++ body ++ 10 :: 0 :: rest) with (q ++ quote s ++ 44 :: a ++ 10 :: 0 :: rest)
    by (unfold body; by rewrite <- !app_assoc).
  replace (blen body + 1) with (blen (quote s) + 1 + blen a + 1) by (unfold body; rewrite blen_app, blen_cons; lia).
  rewrite comma_hidden by done. o_step. cbn [arg_found]. replace (ATCMD_MAX_ARG - 1 <=? 0) with false by done. cbn iota.
  replace (q ++ quote s ++ 44 :: a ++ 10 :: 0 :: rest) with ((q ++ body) ++ 10 :: 0 :: rest)
    by (unfold body; by rewrite <- !app_assoc).
  replace (blen q + blen body) with (blen (q ++ body)) by by rewrite blen_app.
  rewrite store8_pre. o_step. replace (negb _) with true by (rewrite blen_app; lia). cbn iota.
  rewrite set_arg_ok by (cbn; lia). o_step. eexists.
  replace (1 <? _) with false by (unfold body; rewrite !blen_app, blen_cons; lia).
  split; [by rewrite <- app_assoc|]. split; [done|]. destruct Htok as [_ Harg]. cbn [arg set_arg_found arg_found].
  rewrite list_lookup_insert_ne by done. by rewrite list_lookup_insert_eq by lia.
Qed.

(** * Any line at all is parsed within its bounds *)

(** Membership in a list of constants. *)
Ltac in_codes := by apply (bool_decide_unpack _).

Section safety.
Implicit Types buf : list Z.

Lemma at_ptr_step buf p c : 0 <= p → byte_at buf p = Some c → at_ptr buf p = c :: at_ptr buf (p + 1).
Proof.
  intros Hp. rewrite byte_at_lookup by done. intros Hc. unfold at_ptr. rewrite Z2Nat.inj_add by lia.
  rewrite Nat.add_1_r. by apply drop_S.
Qed.
(** The search ends at the terminator at the latest. *)
Lemma strchr_safe buf e c : c ≠ 0 → byte_at buf e = Some 0 → ∀ p, 0 <= p <= e →
  ∃ r, strchr buf p c = Some r ∧ ∀ q, r = Some q → p <= q < e.
Proof.
  intros Hc He p Hp. remember (Z.to_nat (e - p)) as k eqn:Hk. revert p Hk Hp. unfold strchr.
  induction k as [|k IH]; intros p Hk Hp.
  - replace p with e by lia. rewrite (at_ptr_step buf e 0) by (done || lia). cbn [strchr_from].
    replace (0 =? c) with false by lia. exists None. split; [done|]. done.
  - pose proof (byte_at_Some _ _ _ He). destruct (byte_at_is_Some buf p) as [x Hx]; [lia|].
    rewrite (at_ptr_step buf p x) by (done || lia). cbn [strchr_from]. case_if; [eexists; split; [done|]; intros q [= <-]; lia|].
    case_if; [by exists None|]. destruct (IH (p + 1)) as (r & -> & Hr); [lia..|]. exists r. split; [done|].
    intros q ->. specialize (Hr q eq_refl). lia.
Qed.
Lemma comma_loop_safe buf e : ∀ k p n prec, 0 <= p → 1 <= n → p + n + Z.of_nat k <= e → e < blen buf →
  ∃ r, comma_loop k buf p n prec = Some r ∧ ∀ q, r = Some q → p <= q < e.
Proof.
  induction k as [|k IH]; intros p n prec Hp Hn Hk He; cbn [comma_loop]; [by exists None|].
  destruct (byte_at_is_Some buf (p + n)) as [x Hx]; [lia|]. rewrite Hx. o_step.
  case_if; [|apply IH; lia]. case_if; [eexists; split; [done|]; intros q [= <-]; lia|].
  destruct (byte_at_is_Some buf (p + n - 2)) as [y Hy]; [lia|]. rewrite Hy. o_step.
  case_if; [eexists; split; [done|]; intros q [= <-]; lia|apply IH; lia].
Qed.
Lemma first_comma_safe buf e p : byte_at buf e = Some 0 → 0 <= p <= e →
  ∃ r, get_first_comma buf p (e - p) = Some r ∧ ∀ q, r = Some q → p <= q < e.
Proof.
  intros He Hp. pose proof (byte_at_Some _ _ _ He). unfold get_first_comma. case_if; [by exists None|].
  destruct (byte_at_is_Some buf p) as [x Hx]; [lia|]. rewrite Hx. o_step. case_if; [apply comma_loop_safe; lia|by apply strchr_safe].
Qed.
Lemma c_string_safe buf e q : byte_at buf e = Some 0 → 0 <= q <= e → ∃ s, c_string (at_ptr buf q) = Some s ∧ blen s <= e - q.
Proof.
  intros He. remember (Z.to_nat (e - q)) as k eqn:Hk. revert q Hk. induction k as [|k IH]; intros q Hk Hq.
  - replace q with e by lia. rewrite (at_ptr_step buf e 0) by (done || lia). exists []. split; [done|]. change (blen []) with 0. lia.
  - pose proof (byte_at_Some _ _ _ He). destruct (byte_at_is_Some buf q) as [x Hx]; [lia|].
    rewrite (at_ptr_step buf q x) by (done || lia). cbn [c_string]. destruct (x =? 0).
    { exists []. split; [done|]. change (blen []) with 0. lia. }
    destruct (IH (q + 1)) as (s & -> & Hs); [lia..|]. exists (x :: s). split; [done|]. rewrite blen_cons. lia.
Qed.
Lemma c_string_prefix n t : ∃ s, c_string (n ++ 0 :: t) = Some s ∧ blen s <= blen n.
Proof.
  induction n as [|x n (s & Hs & Hl)]; [by exists []|]. cbn [c_string app]. case_if; [exists []; split; [done|apply blen_nonneg]|].
  rewrite Hs. exists (x :: s). split; [done|]. rewrite !blen_cons. lia.
Qed.

Lemma store0_safe buf i e : byte_at buf e = Some 0 → 0 <= i < e →
  ∃ buf', store8 buf i 0 = Some buf' ∧ blen buf' = blen buf ∧ byte_at buf' e = Some 0.
Proof.
  intros He Hi. pose proof (byte_at_Some _ _ _ He). unfold store8. change (blen [0]) with 1.
  rewrite memcpy_Some by (try change (blen [0]) with 1; lia). eexists. split; [done|].
  assert (slice [0] 0 1 = [0]) as -> by done. split; [apply blen_splice; change (blen [0]) with 1; lia|].
  rewrite byte_at_splice by (change (blen [0]) with 1; lia). by replace ((i <=? e) && (e <? i + blen [0])) with false by (change (blen [0]) with 1; lia).
Qed.

(** Every argument found so far, and the next, begins in the line. *)
Definition ptrs_ok (b e : Z) (t : tls_atcmd_token_t) : Prop :=
  length (arg t) = 10%nat ∧ 0 <= arg_found t <= 9 ∧
  ∀ i, (i <= Z.to_nat (arg_found t))%nat → ∃ q, arg t !! i = Some (Some q) ∧ b <= q <= e.
Lemma ptrs_ok_next b e t q : ptrs_ok b e t → arg_found t < 9 → b <= q <= e →
  ptrs_ok b e (mk_tok (name t) (op t) (<[Z.to_nat (arg_found t + 1) := Some q]> (arg t)) (arg_found t + 1) (cmd_mode t)).
Proof.
  intros (Hl & Hf & Hp) H9 Hq. split; [by cbn [arg]; rewrite length_insert|]. cbn [arg arg_found]. split; [lia|].
  intros i Hi. destruct (decide (i = Z.to_nat (arg_found t + 1))) as [->|Hne].
  - exists q. rewrite list_lookup_insert_eq by lia. done.
  - rewrite list_lookup_insert_ne by done. apply Hp. lia.
Qed.
Lemma ptrs_ok_again b e t q : ptrs_ok b e t → b <= q <= e →
  ptrs_ok b e (mk_tok (name t) (op t) (<[Z.to_nat (arg_found t) := Some q]> (arg t)) (arg_found t) (cmd_mode t)).
Proof.
  intros (Hl & Hf & Hp) Hq. split; [by cbn [arg]; rewrite length_insert|]. cbn [arg arg_found]. split; [lia|].
  intros i Hi. destruct (decide (i = Z.to_nat (arg_found t))) as [->|Hne].
  - exists q. rewrite list_lookup_insert_eq by lia. done.
  - rewrite list_lookup_insert_ne by done. by apply Hp.
Qed.

(** The codes of the parser. *)
Definition parse_codes : list Z := [0; -1; - CMD_ERR_INV_FMT; - CMD_ERR_UNSUPP; - CMD_ERR_INV_PARAMS; - CMD_ERR_NOT_ALLOW].
(** What it leaves: a line of the same length that ends in its terminator, and
    a token with a string for every argument. *)
Definition parsed (b e : Z) buf (r : Z) (t : tls_atcmd_token_t) (buf' : list Z) : Prop :=
  r ∈ parse_codes ∧ blen buf' = blen buf ∧ byte_at buf' e = Some 0 ∧
  (r = 0 → (∃ n, c_string (name t) = Some n ∧ blen n <= 9) ∧ 0 <= arg_found t <= 9 ∧
    ∀ i, (i < Z.to_nat (arg_found t))%nat → ∃ q s, arg t !! i = Some (Some q) ∧ b <= q <= e ∧ c_string (at_ptr buf' q) = Some s).

Lemma parsed_ok b e buf r t buf' : r ∈ parse_codes → 0 <= b → blen buf' = blen buf → byte_at buf' e = Some 0 →
  (∃ n, c_string (name t) = Some n ∧ blen n <= 9) → ptrs_ok b e t → parsed b e buf r t buf'.
Proof.
  intros Hr Hb Hl He Hn (_ & Hf & Hp). do 3 (split; [done|]). intros _. do 2 (split; [done|]). intros i Hi.
  destruct (Hp i) as (q & Hq & Hqr); [lia|]. destruct (c_string_safe buf' e q) as (s & Hs & _); [done|lia|]. by exists q, s.
Qed.
Lemma arg_loop_safe b e end_line : 0 <= b → b <= end_line < e → ∀ fuel buf tok p, byte_at buf e = Some 0 → b <= p <= e →
  ptrs_ok b e tok → (∃ n, c_string (name tok) = Some n ∧ blen n <= 9) → 9 - arg_found tok < Z.of_nat fuel →
  ∃ r t buf', arg_loop fuel tok buf p end_line (e - p) = Some (r, t, buf') ∧ parsed b e buf r t buf'.
Proof.
  intros Hb Hend. induction fuel as [|fuel IH]; intros buf tok p He Hp Hok Hn Hfuel.
  { destruct Hok as (_ & ? & _). lia. }
  cbn [arg_loop]. case_if.
  { eexists _, _, _. split; [done|]. by apply parsed_ok; [in_codes|..]. }
  destruct (first_comma_safe buf e p He) as (r & -> & Hr); [lia|]. o_step. unfold ATCMD_MAX_ARG.
  destruct r as [comma|].
  - specialize (Hr comma eq_refl). case_if.
    { eexists _, _, _. split; [done|]. apply parsed_ok; [in_codes|done..]. }
    destruct (store0_safe buf comma e) as (buf' & -> & Hl & He'); [done|lia|]. o_step. cbn [arg_found set_arg_found].
    pose proof Hok as (_ & Hf & _). rewrite set_arg_ok by lia. o_step. cbn [name op arg arg_found cmd_mode].
    replace (e - p - _) with (e - (comma + 1)) by lia.
    destruct (IH buf' (mk_tok (name tok) (op tok) (<[Z.to_nat (arg_found tok + 1) := Some (comma + 1)]> (arg tok))
      (arg_found tok + 1) (cmd_mode tok)) (comma + 1)) as (r & t & buf2 & Hrun & Hpar); try done.
    + lia.
    + apply ptrs_ok_next; [done|lia..].
    + cbn [arg_found]. lia.
    + exists r, t, buf2. split; [exact Hrun|]. destruct Hpar as (? & Hl2 & ? & ?). rewrite Hl in Hl2. done.
  - case_if.
    { eexists _, _, _. split; [done|]. apply parsed_ok; [in_codes|done..]. }
    destruct (store0_safe buf end_line e) as (buf' & -> & Hl & He'); [done|lia|]. o_step.
    pose proof Hok as (_ & Hf & _). set (tok' := if negb (end_line =? p) then _ else _).
    assert (set_arg (arg_found tok') (end_line + 1) tok' = Some (mk_tok (name tok') (op tok')
      (<[Z.to_nat (arg_found tok') := Some (end_line + 1)]> (arg tok')) (arg_found tok') (cmd_mode tok'))) as ->.
    { apply set_arg_ok. unfold tok'. destruct (negb _); cbn [arg_found set_arg_found]; lia. }
    o_step. eexists _, _, _. split; [done|]. apply parsed_ok; [case_if; in_codes|lia|done..| |].
    + unfold tok'. by destruct (negb _).
    + unfold tok'. destruct (negb _); cbn [name op arg arg_found cmd_mode set_arg_found].
      * apply ptrs_ok_next; [done|lia..].
      * apply ptrs_ok_again; [done|lia].
Qed.
End safety.

Lemma copy_name_safe tok buf p c : blen (name tok) = 10 → 0 <= p <= c → c - p <= 9 → c < blen buf →
  ∃ x, copy_name tok buf p c = Some (set_tok_name x tok) ∧ blen x = 10 ∧ ∃ n, c_string x = Some n ∧ blen n <= 9.
Proof.
  intros Hn Hp Hc Hb. unfold copy_name. rewrite memcpy_Some by lia. o_step. set (x := splice _ _ _).
  set (s := slice buf p (c - p)) in *. assert (blen s = c - p) as Hs by (apply blen_slice; lia).
  assert (blen x = 10) as Hx by (unfold x; rewrite blen_splice; lia).
  assert (∃ t, x = s ++ t) as [t Ht] by (unfold x, splice; cbn [Z.to_nat]; rewrite take_0; by eexists).
  rewrite Ht in *. rewrite blen_app in Hx. destruct t as [|y t]; [change (blen []) with 0 in Hx; lia|].
  rewrite <- Hs, store8_pre. o_step. exists (s ++ 0 :: t). split; [done|]. rewrite blen_cons in Hx. split; [rewrite blen_app, blen_cons; lia|].
  destruct (c_string_prefix s t) as (n & -> & Hl). exists n. split; [done|lia].
Qed.

(** C39: whatever a line holds, the parser stays within it and within the
    token, ends, and answers one of its codes; when it accepts, the name and
    each argument are strings that end within the line. *)
Theorem atcmd_parse_safe tok buf p len : tok_ok tok → 0 <= p → 0 <= len < 2 ^ 31 →
  byte_at buf (p + len) = Some 0 →
  ∃ r t buf', tls_atcmd_parse tok buf p len = Some (r, t, buf') ∧ parsed p (p + len) buf r t buf'.
Proof.
  intros [Hn Ha] Hp Hlen He. pose proof (byte_at_Some _ _ _ He) as Heb. set (e := p + len) in *. unfold tls_atcmd_parse.
  assert (∀ r t, r ≠ 0 → r ∈ parse_codes → parsed p e buf r t buf) as Hbad by (intros; do 3 (split; [done|]); by intros ->).
  case_if.
  { unfold store8. rewrite memcpy_Some by (try change (blen [0]) with 1; lia). o_step. eexists _, _, _. split; [done|].
    apply Hbad; [done|in_codes]. }
  destruct (strchr_safe buf e 61) with (p := p) as (c & -> & Hc); [done..|lia|]. o_step. unfold ATCMD_NAME_MAX_LEN.
  destruct c as [c|].
  - specialize (Hc c eq_refl). case_if; [eexists _, _, _; split; [done|]; apply Hbad; [done|in_codes]|].
    destruct (copy_name_safe tok buf p c) as (x & -> & Hx & Hxs); [done|lia..|]. o_step.
    destruct (byte_at_is_Some buf (c + 1)) as [ch Hch]; [lia|]. rewrite Hch. o_step.
    assert (∃ o p', switch ch [(33, (ATCMD_OP_EP, c + 1 + 1)); (63, (ATCMD_OP_QU, c + 1 + 1))] (ATCMD_OP_EQ, c + 1) = (o, p') ∧
      p <= p' <= e) as (o & p' & -> & Hp').
    { assert (ch ≠ 0 → c + 2 <= e) as Hnz.
      { intros Hz. destruct (decide (c + 1 = e)) as [Heq|]; [rewrite Heq in Hch; congruence|lia]. }
      cbn [switch]. case_if; [eexists _, _; split; [done|lia]|]. case_if; eexists _, _; (split; [done|lia]). }
    rewrite set_arg_ok by lia. o_step. cbn [name op arg cmd_mode arg_found set_tok_name set_op set_arg_found].
    assert (ptrs_ok p e (mk_tok x o (<[Z.to_nat 0 := Some p']> (arg tok)) 0 (cmd_mode tok))) as Hok.
    { split; [by cbn [arg]; rewrite length_insert|]. cbn [arg arg_found]. split; [lia|]. intros i Hi.
      replace i with 0%nat by lia. exists p'. change (Z.to_nat 0) with 0%nat. rewrite list_lookup_insert_eq by lia. done. }
    destruct (truth _). { eexists _, _, _. split; [done|]. by apply parsed_ok; [in_codes|..]. }
    destruct (strchr_safe buf e 10) with (p := p') as (end_line & -> & Hend); [done..|lia|]. o_step.
    destruct end_line as [end_line|]; [|eexists _, _, _; split; [done|]; apply Hbad; [done|in_codes]].
    specialize (Hend end_line eq_refl). replace (s32 _) with (e - p').
    2:{ rewrite u32_id by (unfold is_u32; lia). rewrite s32_id by (unfold is_s32; lia). lia. }
    apply arg_loop_safe; try done; lia.
  - destruct (strchr_safe buf e 10) with (p := p) as (q & -> & Hq); [done..|lia|]. o_step.
    destruct q as [q|]; [|eexists _, _, _; split; [done|]; apply Hbad; [done|in_codes]].
    specialize (Hq q eq_refl). case_if; [eexists _, _, _; split; [done|]; apply Hbad; [done|in_codes]|].
    destruct (copy_name_safe tok buf p q) as (x & -> & Hx & Hxs); [done|lia..|]. o_step. eexists _, _, _. split; [done|].
    split; [in_codes|]. do 2 (split; [done|]). intros _. split; [done|].
    cbn [arg_found set_arg_found]. split; [lia|]. intros i Hi. lia.
Qed.

(** * Quotes that go wrong *)

(** The loop runs over what it finds until the buffer ends. *)
Lemma unescape_overrun : ∀ k fuel buf p i len, blen buf - (p + i) = Z.of_nat k → 0 <= p → 0 <= i →
  Forall (λ c, c ≠ 92) buf → blen buf - p < len → unescape_loop fuel buf p i len = None.
Proof.
  induction k as [|k IH]; intros fuel buf p i len Hk Hp Hi Hb Hlen; (destruct fuel as [|fuel]; cbn [unescape_loop];
    replace (i <? len) with true by lia; [done|]).
  - by rewrite byte_at_None by lia.
  - destruct (byte_at_is_Some buf (p + i)) as [c Hc]; [lia|]. rewrite Hc. o_step.
    rewrite byte_at_lookup in Hc by lia. pose proof (Forall_lookup_1 _ _ _ _ Hb Hc) as Hne. cbv beta in Hne.
    replace (c =? 92) with false by lia. apply IH; lia || done.
Qed.

(** An argument that is a quote and nothing else.  It is taken for its own
    closing quote, the length, a byte, goes below 0 to 255, and the loop runs
    that far: out of the line, for any line that ends within 250 bytes. *)
Theorem lone_quote_overruns pre rest : Forall (λ c, c ≠ 92) pre → Forall (λ c, c ≠ 92) rest → blen rest < 250 →
  atcmd_filter_quotation (pre ++ 34 :: 0 :: rest) (blen pre) = None.
Proof.
  intros Hpre Hrest Hlen. pose proof (blen_nonneg pre). pose proof (blen_nonneg rest). unfold atcmd_filter_quotation.
  rewrite at_ptr_pre. assert (strlen (34 :: 0 :: rest) = Some 1) as -> by done. o_step.
  rewrite byte_at_pre0. o_step. change (u8 1) with 1. replace (34 =? 34) with true by done. cbn iota.
  change (u8 (1 - 1)) with 0. rewrite !Z.add_0_r. replace (blen pre + 1 - 1) with (blen pre) by lia. rewrite byte_at_pre0. o_step.
  replace (negb (34 =? 34)) with false by done. cbn iota.
  replace (byte_at _ (blen pre + 1)) with (Some 0) by (symmetry; change 1 with (Z.of_nat 1); by rewrite byte_at_app_r).
  o_step. replace (negb (0 =? 0)) with false by done. cbn iota. rewrite store8_pre. o_step. change (u8 (0 - 1)) with 255.
  rewrite (unescape_overrun (Z.to_nat (1 + blen rest)) 256); [done|..].
  - rewrite blen_app, !blen_cons. lia.
  - lia.
  - lia.
  - apply Forall_app. split; [done|]. by repeat apply Forall_cons_2.
  - rewrite blen_app, !blen_cons. lia.
Qed.

(** * The table *)

(** Every command of the table is found by its name: no two commands
    have the same name, and every name fits the token. *)
Lemma commands_found c : c ∈ at_ri_cmd_tbl → find_cmd (str (at_name c)) = Some c ∧ name_ok (str (at_name c)) ∧
  at_name c ≠ EmptyString.
Proof.
  revert c. apply Forall_forall. unfold name_ok.
  assert (forallb (λ c, match find_cmd (str (at_name c)) with Some d => (at_name d =? at_name c)%string &&
      (op_flag d =? op_flag c) && (at_arg_len d =? at_arg_len c) | None => false end &&
    forallb (λ x, negb (x =? 0) && negb (x =? 10) && negb (x =? 61)) (str (at_name c)) && (blen (str (at_name c)) <=? 9) &&
    negb (at_name c =? EmptyString)%string) at_ri_cmd_tbl = true) as H by (by vm_compute).
  apply Forall_forall. intros c Hc. rewrite forallb_forall in H. apply list_elem_of_In in Hc. specialize (H c Hc).
  apply andb_true_iff in H as [H Hn]. apply andb_true_iff in H as [H Hl]. apply andb_true_iff in H as [H Hf].
  split; [|split; [split|]].
  - destruct (find_cmd _) as [d|]; [|done]. apply andb_true_iff in H as [H Ha]. apply andb_true_iff in H as [Hd Ho].
    apply String.eqb_eq in Hd. destruct c, d. cbn in *. f_equal. f_equal; [done|lia|lia].
  - rewrite forallb_forall in Hf. apply List.Forall_forall. intros x Hx. specialize (Hf x Hx). lia.
  - lia.
  - intros He. by rewrite He in Hn.
Qed.

(** What the operators of a command allow. *)
Lemma check_opt_ok op0 found flag n : op0 = ATCMD_OP_NULL ∨ op0 = ATCMD_OP_EQ ∨ op0 = ATCMD_OP_EP ∨ op0 = ATCMD_OP_QU →
  hostif_check_atcmd_opt op0 found flag n =
    if Z.land flag op0 =? 0 then (- CMD_ERR_UNSUPP, 0, 0)
    else if (op0 =? ATCMD_OP_EQ) || (op0 =? ATCMD_OP_EP) then
      if found <? n then (- CMD_ERR_UNSUPP, 0, 0) else (0, 1, if op0 =? ATCMD_OP_EP then 1 else 0)
    else (0, 0, 0).
Proof.
  intros Hop. unfold hostif_check_atcmd_opt. case_if; [done|].
  assert (Z.land flag op0 = op0) as ->; [|done].
  assert (∃ k, 0 <= k ∧ op0 = 2 ^ k) as (k & Hk & ->) by
    (destruct Hop as [-> |[-> |[-> | ->]]]; [exists 0|exists 1|exists 2|exists 3]; done).
  apply Z.bits_inj'. intros j Hj. rewrite Z.land_spec, Z.pow2_bits_eqb by done. destruct (k =? j) eqn:Hkj; [|apply andb_false_r].
  rewrite andb_true_r. apply Z.eqb_eq in Hkj as <-. destruct (Z.testbit flag k) eqn:Hb; [done|]. exfalso. apply E.
  apply Z.bits_inj'. intros j' Hj'. rewrite Z.land_spec, Z.pow2_bits_eqb, Z.bits_0 by done. destruct (k =? j') eqn:Hkj; [|apply andb_false_r].
  apply Z.eqb_eq in Hkj as <-. by rewrite Hb.
Qed.

(** * Runs on concrete data *)

Lemma demo_name (s : string) : forallb (λ x, negb (x =? 0) && negb (x =? 10) && negb (x =? 61)) (str s) = true →
  blen (str s) <=? 9 = true → name_ok (str s).
Proof.
  intros Hf Hl. split; [|lia]. rewrite forallb_forall in Hf. apply List.Forall_forall. intros x Hx. specialize (Hf x Hx). lia.
Qed.
Lemma demo_one_line (s : string) : forallb (λ x, negb (x =? 0) && negb (x =? 10)) (str s) = true → one_line (str s).
Proof. intros Hf. rewrite forallb_forall in Hf. apply List.Forall_forall. intros x Hx. specialize (Hf x Hx). lia. Qed.
Lemma demo_plain (s : string) : forallb (λ x, negb (x =? 0) && negb (x =? 10) && negb (x =? 44)) (str s) = true →
  bool_decide (head (str s) ≠ Some 34) = true → plain (str s).
Proof.
  intros Hf Hh. split; [|by apply bool_decide_eq_true in Hh]. rewrite forallb_forall in Hf. apply List.Forall_forall.
  intros x Hx. specialize (Hf x Hx). lia.
Qed.
Lemma zero_tok_ok : tok_ok zero_tok.
Proof. done. Qed.

(** A network name with a comma in it, and a number. *)
Definition demo_args : list (list Z) := [quote (str "my net, here"); str "5"].
Lemma demo_args_ok : args_ok demo_args.
Proof.
  split; [right; exists (str "my net, here"); split; [done|split; [by apply demo_one_line|done]]|].
  split; [left; by apply demo_plain|done].
Qed.
Lemma atcmd_parse_line_witness :
  ∃ t, tls_atcmd_parse zero_tok (str "AT+" ++ cmd_line (str "KEY") true demo_args ++ [0]) 3
      (blen (cmd_line (str "KEY") true demo_args)) = Some (0, t, (str "AT+KEY=!") ++ cut demo_args ++ [0]) ∧
    arg_found t = 2 ∧ op t = ATCMD_OP_EP.
Proof.
  destruct (atcmd_parse_line zero_tok (str "AT+") [] (str "KEY") true demo_args) as (t & Hrun & _ & Hop & _ & Hf & _);
    [done|by apply demo_name|apply demo_args_ok|done|by apply Nat.leb_le|done|by apply Z.ltb_lt|].
  by exists t.
Defined.
Lemma backslash_joins_args_witness :
  ∃ t, tls_atcmd_parse zero_tok (cmd_line (str "KEY") false [quote [92]; str "5"] ++ [0]) 0
      (blen (cmd_line (str "KEY") false [quote [92]; str "5"])) = Some (0, t, str "KEY=" ++ (quote [92] ++ 44 :: str "5") ++ [0; 0]) ∧
    arg_found t = 1.
Proof.
  destruct (backslash_joins_args zero_tok [] [] (str "KEY") [92] (str "5")) as (t & Hrun & Hf & _);
    [done|by apply demo_name|by repeat constructor|done|by apply demo_plain|by repeat constructor|by apply Z.ltb_lt|].
  by exists t.
Defined.
Lemma atcmd_parse_safe_witness : ∃ r t buf', tls_atcmd_parse zero_tok [44; 61; 61; 34; 0] 0 4 = Some (r, t, buf') ∧
  parsed 0 4 [44; 61; 61; 34; 0] r t buf'.
Proof. apply (atcmd_parse_safe zero_tok [44; 61; 61; 34; 0] 0 4); [done|lia|split; [lia|by apply Z.ltb_lt]|done]. Defined.
Lemma lone_quote_overruns_witness : atcmd_filter_quotation (str "SSID=" ++ [34; 0; 0]) 5 = None.
Proof. apply (lone_quote_overruns (str "SSID=") [0]); [by repeat constructor|by repeat constructor|by apply Z.ltb_lt]. Defined.
