(* ===== verification/AtCmdp.v ===== *)
(** * [src/Src/App/wm_atcmd/wm_cmdp.c]: the parameters behind the commands

    What a command sets or asks for goes through these functions to the
    parameter store: each packs its arguments into the structure the store
    keeps, or takes the structure apart. *)
From Stdlib Require Import String.
From S2P Require Import Prelude Utils FlashStore ParamLayout Params Uart AtToken.
From stdpp Require Import list.
#[local] Open Scope Z_scope.

(** ** State *)

Definition IEEE80211_MODE_INFRA := 1.
Definition IEEE80211_MODE_IBSS := 2.
Definition IEEE80211_MODE_AP := 4.

(** The members of [struct tls_hostif] the commands of the model use. *)
Record tls_hostif := mk_hostif {
  uart_atlt : Z;
  uart_atpt : Z;
  uart_insdisp : Z;
  escape_char : Z;
  rptmode : Z;
}.
Definition set_uart_atlt x h := mk_hostif x (uart_atpt h) (uart_insdisp h) (escape_char h) (rptmode h).
Definition set_uart_atpt x h := mk_hostif (uart_atlt h) x (uart_insdisp h) (escape_char h) (rptmode h).
Definition set_uart_insdisp x h := mk_hostif (uart_atlt h) (uart_atpt h) x (escape_char h) (rptmode h).
Definition set_escape_char x h := mk_hostif (uart_atlt h) (uart_atpt h) (uart_insdisp h) x (rptmode h).
Definition set_rptmode x h := mk_hostif (uart_atlt h) (uart_atpt h) (uart_insdisp h) (escape_char h) x.

Record tls_socket_cfg := mk_skt {
  proto : Z;
  client : Z;
  port_num : Z;
  host : list Z;       (* 32 bytes *)
  host_len : Z;
  ip_addr : list Z;    (* 4 bytes *)
  timeout : Z;
}.

(** [prm] is the parameter store, [net] the network interface with the Wi-Fi
    library and the line to the host, [stk] the contents of the local variables
    to come that are read before they are written in full, [uart1] the options
    of the port that the callback registered with
    [tls_cmd_register_get_uart1_port] yields, if there is one; [line], [cmd],
    [cmdrsp] and [rsp] are the buffers of the command being carried out. *)
Record at_st (F N : Type) := mk_at {
  prm : pst F;
  net : N;
  stk : nat → Z → Z;
  uart1 : option tls_uart_options;
  hif : tls_hostif;
  socket_cfg : tls_socket_cfg;
  line : list Z;
  cmd : list Z;
  cmdrsp : list Z;
  rsp : list Z;
}.
Arguments mk_at {F N}.
Arguments prm {F N}.
Arguments net {F N}.
Arguments stk {F N}.
Arguments uart1 {F N}.
Arguments hif {F N}.
Arguments socket_cfg {F N}.
Arguments line {F N}.
Arguments cmd {F N}.
Arguments cmdrsp {F N}.
Arguments rsp {F N}.

Section setters.
Context {F N : Type}.
Implicit Type s : at_st F N.
Definition set_prm x s := mk_at x (net s) (stk s) (uart1 s) (hif s) (socket_cfg s) (line s) (cmd s) (cmdrsp s) (rsp s) : at_st F N.
Definition set_net x s := mk_at (prm s) x (stk s) (uart1 s) (hif s) (socket_cfg s) (line s) (cmd s) (cmdrsp s) (rsp s) : at_st F N.
Definition set_stk x s := mk_at (prm s) (net s) x (uart1 s) (hif s) (socket_cfg s) (line s) (cmd s) (cmdrsp s) (rsp s) : at_st F N.
Definition set_uart1 x s := mk_at (prm s) (net s) (stk s) x (hif s) (socket_cfg s) (line s) (cmd s) (cmdrsp s) (rsp s) : at_st F N.
Definition set_hif x s := mk_at (prm s) (net s) (stk s) (uart1 s) x (socket_cfg s) (line s) (cmd s) (cmdrsp s) (rsp s) : at_st F N.
Definition set_socket_cfg x s := mk_at (prm s) (net s) (stk s) (uart1 s) (hif s) x (line s) (cmd s) (cmdrsp s) (rsp s) : at_st F N.
Definition set_line x s := mk_at (prm s) (net s) (stk s) (uart1 s) (hif s) (socket_cfg s) x (cmd s) (cmdrsp s) (rsp s) : at_st F N.
Definition set_cmd x s := mk_at (prm s) (net s) (stk s) (uart1 s) (hif s) (socket_cfg s) (line s) x (cmdrsp s) (rsp s) : at_st F N.
Definition set_cmdrsp x s := mk_at (prm s) (net s) (stk s) (uart1 s) (hif s) (socket_cfg s) (line s) (cmd s) x (rsp s) : at_st F N.
Definition set_rsp x s := mk_at (prm s) (net s) (stk s) (uart1 s) (hif s) (socket_cfg s) (line s) (cmd s) (cmdrsp s) x : at_st F N.
End setters.

(** What the commands call outside the modelled parts: the DHCP client and the
    interface of the stack, the Wi-Fi library's part of the one-shot
    configuration, the timer behind a reset, and the line to the host, with the
    room in its transmit buffer and the passing of time. *)
Class AtNet (N : Type) := {
  dhcp_start : N → N;
  dhcp_stop : N → N;
  netif_set_addr : list Z → list Z → list Z → list Z → N → N;
  get_oneshot_flag : N → Z;
  set_oneshot_flag : Z → N → N;
  get_oneshot_config_mode : N → Z;
  set_oneshot_config_mode : Z → N → N;
  start_reset_timer : N → N;
  fwup_mode : N → Z;
  tx_remain_len : Z → N → Z;
  time_delay : Z → N → N;
  uart_send_tx_msg : Z → list Z → N → N;
}.

(** ** Packing and unpacking *)

Section cmdp.
Context {F N : Type} `{!FlashDev F} `{!AtNet N}.
Variable area : param_area.
Local Open Scope c_scope.
Local Abbreviation MA := (M (at_st F N)).

Definition on_prm {A} (m : M (pst F) A) : MA A := lift prm set_prm m.
Definition on_net (f : N → N) : MA unit := modify (λ s, set_net (f (net s)) s).
Definition on_hif (f : tls_hostif → tls_hostif) : MA unit := modify (λ s, set_hif (f (hif s)) s).
(** A local variable of [n] bytes holds what the stack held. *)
Definition local (n : Z) : MA (list Z) := λ s,
  Some ((λ i, u8 (stk s O i)) <$> seqZ 0 n, set_stk (λ k, stk s (S k)) s).
(** [tls_param_set(id, &x, (bool)update_flash)]; the status is not looked at. *)
Definition pset (id : Z) (x : list Z) (update_flash : Z) : MA Z :=
  on_prm (tls_param_set area id (Some x) (truth update_flash)).
Definition pget (id : Z) (x : list Z) (from_flash : bool) : MA (list Z) :=
  let* ' (_, x) := on_prm (tls_param_get id x from_flash) in ret x.
(** Members of structures. *)
Definition put (x : list Z) (o : Z) (b : list Z) : MA (list Z) := of_opt (memcpy x o b 0 (blen b)).
Definition copy (x : list Z) (o : Z) (y : list Z) (p n : Z) : MA (list Z) := of_opt (memcpy x o y p n).
Definition byte (x : list Z) (o : Z) : MA Z := of_opt (byte_at x o).

Definition tls_cmd_get_auto_mode : MA Z :=
  let* auto_mode_set := local 1 in
  let* auto_mode_set := pget TLS_PARAM_ID_AUTOMODE auto_mode_set false in byte auto_mode_set 0.
Definition tls_cmd_reset_sys : MA unit :=
  let* n := gets net in
  if 0 =? fwup_mode n then on_net start_reset_timer else ret tt.
Definition tls_cmd_pmtf : MA Z := on_prm (tls_param_to_flash area TLS_PARAM_ID_ALL).
Definition tls_cmd_reset_flash : MA Z := on_prm (tls_param_to_default area).

(** The string at the head of a buffer is copied with its terminator. *)
Definition strcpy (dst src : list Z) : option (list Z) := n ← strlen src; memcpy dst 0 src 0 (n + 1).

Definition tls_cmd_init_socket_cfg : MA unit :=
  let* r := local 36 in
  let* r := pget TLS_PARAM_ID_DEFSOCKET r false in
  let* pr := byte r 0 in
  let* cs := byte r 1 in
  let cl := if truth cs then 0 else 1 in
  modify (λ s, let c := socket_cfg s in
    set_socket_cfg (mk_skt pr cl (u16_at r 2) (host c) (host_len c) (ip_addr c) (timeout c)) s) ;;
  let h := at_ptr r 4 in
  let* n := of_opt (strlen h) in
  let* c := gets socket_cfg in
  if truth cl then
    if truth n then
      let* h' := of_opt (memcpy (host c) 0 h 0 n) in
      let* ip := of_opt (string_to_ipaddr h) in
      modify (set_socket_cfg (mk_skt pr cl (port_num c) h' (host_len c) (default (ip_addr c) ip) (timeout c)))
    else ret tt
  else if pr =? 0 then
    let* ' (e, d) := of_opt (strtodec h) in
    let t := if e <? 0 then 0 else default 0 d in
    modify (set_socket_cfg (mk_skt pr cl (port_num c) (host c) (host_len c) (ip_addr c) (u32 t)))
  else ret tt.

Definition tls_cmd_set_wireless_mode (mode update_flash : Z) : MA Z :=
  let wmode := switch mode [(0, Some IEEE80211_MODE_INFRA); (1, Some IEEE80211_MODE_IBSS);
    (2, Some IEEE80211_MODE_AP); (3, Some (Z.lor IEEE80211_MODE_INFRA IEEE80211_MODE_AP))] None in
  match wmode with
  | None => ret (-1)
  | Some wmode => pset TLS_PARAM_ID_WPROTOCOL [wmode] update_flash ;; ret 0
  end.
(** Functions that answer through a pointer take what it points to and return
    it with the status. *)
Definition tls_cmd_get_wireless_mode (mode : list Z) : MA (Z * list Z) :=
  let* wmode := pget TLS_PARAM_ID_WPROTOCOL [0] true in
  let* wmode := byte wmode 0 in
  let r := switch wmode [(IEEE80211_MODE_INFRA, Some 0); (IEEE80211_MODE_IBSS, Some 1);
    (IEEE80211_MODE_AP, Some 2); (Z.lor IEEE80211_MODE_INFRA IEEE80211_MODE_AP, Some 3)] None in
  match r with
  | Some m => let* mode := put mode 0 [m] in ret (0, mode)
  | None => ret (CMD_ERR_NOT_ALLOW, mode)
  end.

(** [struct tls_cmd_ssid_t] is a length and 32 bytes, [struct tls_param_ssid]
    32 bytes and a word. *)
Definition tls_cmd_set_ssid (ssid : list Z) (update_flash : Z) : MA Z :=
  let* params_ssid := local 36 in
  let* ssid_len := byte ssid 0 in
  if 32 <? ssid_len then ret (-1)
  else
    let* params_ssid := put params_ssid 32 (le32 ssid_len) in
    let* params_ssid := copy params_ssid 0 ssid 1 ssid_len in
    pset TLS_PARAM_ID_SSID params_ssid update_flash ;;
    ret 0.
(** [tls_cmd_get_ssid], and [tls_cmd_get_softap_ssid] with its arguments. *)
Definition get_ssid (id : Z) (from_flash : bool) (ssid : list Z) : MA (Z * list Z) :=
  let* params_ssid := local 36 in
  let* params_ssid := pget id params_ssid from_flash in
  let ssid_len := u32_at params_ssid 32 in
  if 32 <? ssid_len then let* ssid := put ssid 0 [0] in ret (0, ssid)
  else
    let* ssid := put ssid 0 [u8 ssid_len] in
    let* ssid := copy ssid 1 params_ssid 0 (u8 ssid_len) in
    ret (0, ssid).
Definition tls_cmd_get_ssid : list Z → MA (Z * list Z) := get_ssid TLS_PARAM_ID_SSID false.

(** [struct tls_cmd_key_t]: format, index, length and 64 bytes.  The local
    [param_key] serves as the three structures in turn. *)
Definition fill_param_key (param_key key : list Z) : MA (list Z) :=
  let* param_key := copy param_key 0 key 3 64 in
  let* param_key := copy param_key 66 key 0 1 in
  let* param_key := copy param_key 65 key 1 1 in
  copy param_key 64 key 2 1.
Definition tls_cmd_set_key (key : list Z) (update_flash : Z) : MA Z :=
  let* param_key := local 68 in
  let* param_key := fill_param_key param_key key in
  pset TLS_PARAM_ID_KEY param_key update_flash ;;
  let* orig_key := copy param_key 0 key 3 64 in
  let* key_len := byte key 2 in
  let* orig_key := put orig_key 64 (le32 key_len) in
  pset TLS_PARAM_ID_ORIGIN_KEY orig_key update_flash ;;
  let* sha1_key := put orig_key 0 (replicate 33 0) in
  pset TLS_PARAM_ID_SHA1 sha1_key 1 ;;
  ret 0.
(** The block for [param_key] has the size of another structure. *)
Definition tls_cmd_get_key (key : list Z) : MA (Z * list Z) :=
  let* param_key := on_prm (palloc 67) in
  match param_key with
  | None => ret (-1, key)
  | Some _ =>
      let* orig_key := on_prm (palloc 68) in
      match orig_key with
      | None => ret (-1, key)
      | Some _ =>
          let* param_key := pget TLS_PARAM_ID_KEY (replicate 67 0) true in
          let* key := copy key 1 param_key 65 1 in
          let* key := copy key 0 param_key 66 1 in
          let* orig_key := pget TLS_PARAM_ID_ORIGIN_KEY (replicate 68 0) true in
          let* key := copy key 3 orig_key 0 64 in
          let* key := put key 2 [u8 (u32_at orig_key 64)] in
          ret (0, key)
      end
  end.

(** [tls_cmd_set_encrypt] and [tls_cmd_set_softap_encrypt]: no encryption
    clears the key. *)
Definition set_encrypt (key_id encry_id encrypt update_flash : Z) : MA Z :=
  (if encrypt =? 0 then
     let* param_key := local 68 in
     let* param_key := put param_key 0 (replicate 67 0) in
     pset key_id param_key update_flash ;; ret tt
   else ret tt) ;;
  pset encry_id [encrypt] update_flash ;;
  ret 0.
Definition tls_cmd_set_encrypt : Z → Z → MA Z := set_encrypt TLS_PARAM_ID_KEY TLS_PARAM_ID_ENCRY.
Definition tls_cmd_get_encrypt (encrypt : list Z) : MA (Z * list Z) :=
  let* encrypt := pget TLS_PARAM_ID_ENCRY encrypt false in ret (0, encrypt).

(** [is_zero_ether_addr] of six bytes of a buffer. *)
Definition is_zero_addr_at (a : list Z) (o : Z) : MA bool :=
  let* b := of_opt (memcpy (replicate 6 0) 0 a o 6) in ret (forallb (Z.eqb 0) b).
(** [struct tls_cmd_bssid_t]: the address and a flag. *)
Definition tls_cmd_set_bssid (bssid : list Z) (update_flash : Z) : MA Z :=
  let* param_bssid := local 8 in
  let* err := is_zero_addr_at bssid 0 in
  if err : bool then ret (-1)
  else
    let* param_bssid := copy param_bssid 0 bssid 6 1 in
    let* param_bssid := copy param_bssid 2 bssid 0 6 in
    pset TLS_PARAM_ID_BSSID param_bssid update_flash ;;
    ret 0.
Definition tls_cmd_get_bssid (bssid : list Z) : MA (Z * list Z) :=
  let* param_bssid := local 8 in
  let* param_bssid := pget TLS_PARAM_ID_BSSID param_bssid false in
  let* bssid := copy bssid 0 param_bssid 2 6 in
  let* bssid := copy bssid 6 param_bssid 0 1 in
  ret (0, bssid).

Definition tls_cmd_get_original_ssid (original_ssid : list Z) : MA (Z * list Z) :=
  let* x := pget TLS_PARAM_ID_ORIGIN_SSID original_ssid true in
  if 32 <? u32_at x 32 then
    let* x := put x 32 (le32 0) in let* x := put x 0 [0] in ret (0, x)
  else ret (0, x).
Definition tls_cmd_get_original_key (original_key : list Z) : MA (Z * list Z) :=
  let* x := pget TLS_PARAM_ID_ORIGIN_KEY original_key true in ret (0, x).

Definition tls_cmd_set_hide_ssid (ssid_set update_flash : Z) : MA Z :=
  pset TLS_PARAM_ID_BRDSSID [ssid_set] update_flash ;; ret 0.
Definition tls_cmd_get_hide_ssid (ssid_set : list Z) : MA (Z * list Z) :=
  let* x := pget TLS_PARAM_ID_BRDSSID ssid_set false in ret (0, x).

Definition tls_cmd_set_channel (channel channel_en update_flash : Z) : MA Z :=
  if 14 <? channel then ret (-1)
  else
    pset TLS_PARAM_ID_CHANNEL [channel] update_flash ;;
    pset TLS_PARAM_ID_CHANNEL_EN [channel_en] update_flash ;;
    ret 0.
Definition tls_cmd_get_channel (channel channel_en : list Z) : MA (Z * list Z * list Z) :=
  let* channel := pget TLS_PARAM_ID_CHANNEL channel false in
  let* channel_en := pget TLS_PARAM_ID_CHANNEL_EN channel_en false in
  let* en := byte channel_en 0 in
  let* channel := if 0 =? en then put channel 0 [1] else ret channel in
  ret (0, channel, channel_en).
Definition tls_cmd_set_channellist (channellist update_flash : Z) : MA Z :=
  pset TLS_PARAM_ID_CHANNEL_LIST (le16 channellist) update_flash ;; ret 0.
Definition tls_cmd_get_channellist (channellist : list Z) : MA (Z * list Z) :=
  let* x := pget TLS_PARAM_ID_CHANNEL_LIST channellist true in ret (0, x).
Definition tls_cmd_set_region (region update_flash : Z) : MA Z :=
  pset TLS_PARAM_ID_COUNTRY_REGION (le16 region) update_flash ;; ret 0.
Definition tls_cmd_get_region (region : list Z) : MA (Z * list Z) :=
  let* x := pget TLS_PARAM_ID_COUNTRY_REGION region false in ret (0, x).

(** [struct tls_cmd_wl_hw_mode_t]: mode and highest rate.  [set_hw_mode] is
    [tls_cmd_set_hw_mode] and [tls_cmd_set_softap_hw_mode], which differ in the
    highest mode. *)
Definition set_hw_mode (id max_mode : Z) (hw_mode : list Z) (update_flash : Z) : MA Z :=
  let* bgr := local 4 in
  let* mode := byte hw_mode 0 in
  let* max_rate := byte hw_mode 1 in
  if max_mode <? mode then ret (-1)
  else if (mode =? 1) && (3 <? max_rate) then ret (-1)
  else
    let* bgr := put bgr 0 [mode] in
    let* bgr := put bgr 1 [max_rate] in
    pset id bgr update_flash ;;
    ret 0.
Definition tls_cmd_set_hw_mode : list Z → Z → MA Z := set_hw_mode TLS_PARAM_ID_WBGR 2.
Definition get_hw_mode (id : Z) (hw_mode : list Z) : MA (Z * list Z) :=
  let* bgr := local 4 in
  let* bgr := pget id bgr false in
  let* hw_mode := copy hw_mode 0 bgr 0 2 in
  ret (0, hw_mode).
Definition tls_cmd_get_hw_mode : list Z → MA (Z * list Z) := get_hw_mode TLS_PARAM_ID_WBGR.

Definition tls_cmd_set_adhoc_create_mode (mode update_flash : Z) : MA Z :=
  pset TLS_PARAM_ID_ADHOC_AUTOCREATE [mode] update_flash ;; ret 0.
Definition tls_cmd_get_adhoc_create_mode (mode : list Z) : MA (Z * list Z) :=
  let* x := pget TLS_PARAM_ID_ADHOC_AUTOCREATE mode false in ret (0, x).
Definition tls_cmd_set_wl_ps_mode (enable update_flash : Z) : MA Z :=
  pset TLS_PARAM_ID_PSM [enable] update_flash ;; ret 0.
Definition tls_cmd_get_wl_ps_mode (enable : list Z) : MA (Z * list Z) :=
  let* x := pget TLS_PARAM_ID_PSM enable true in ret (0, x).
Definition tls_cmd_set_roaming_mode (enable update_flash : Z) : MA Z :=
  pset TLS_PARAM_ID_ROAMING [enable] update_flash ;; ret 0.
Definition tls_cmd_get_roaming_mode (enable : list Z) : MA (Z * list Z) :=
  let* x := pget TLS_PARAM_ID_ROAMING enable false in ret (0, x).

(** [struct tls_cmd_ip_params_t]: four addresses of four bytes and a type. *)
Definition get_ip_info (id : Z) (params : list Z) : MA (list Z * list Z) :=
  let* ip_param := local 24 in
  let* ip_param := pget id ip_param false in
  let* params := copy params 0 ip_param 4 4 in
  let* params := copy params 4 ip_param 8 4 in
  let* params := copy params 8 ip_param 12 4 in
  let* params := copy params 12 ip_param 16 4 in
  ret (ip_param, params).
Definition tls_cmd_get_ip_info (params : list Z) : MA (Z * list Z) :=
  let* ' (ip_param, params) := get_ip_info TLS_PARAM_ID_IP params in
  let* dhcp_enable := byte ip_param 0 in
  let* params := put params 16 [if truth dhcp_enable then 0 else 1] in
  ret (0, params).
(** The second name server is copied from itself. *)
Definition set_param_ip (id dhcp_enable : Z) (params : list Z) (update_flash : Z) : MA Z :=
  let* param_ip := local 24 in
  let* param_ip := put param_ip 0 [dhcp_enable] in
  let* param_ip := copy param_ip 16 params 12 4 in
  let* param_ip := copy param_ip 20 param_ip 20 4 in
  let* param_ip := copy param_ip 12 params 8 4 in
  let* param_ip := copy param_ip 4 params 0 4 in
  let* param_ip := copy param_ip 8 params 4 4 in
  pset id param_ip update_flash ;;
  ret 0.
Definition tls_cmd_set_ip_info (params : list Z) (update_flash : Z) : MA Z :=
  let* updp := on_prm tls_param_get_updp_mode in
  let* type := byte params 16 in
  (if updp =? 0 then
     if type =? 0 then on_net dhcp_start
     else
       on_net dhcp_stop ;;
       on_net (netif_set_addr (slice params 0 4) (slice params 12 4) (slice params 4 4) (slice params 8 4))
   else ret tt) ;;
  set_param_ip TLS_PARAM_ID_IP (if truth type then 0 else 1) params update_flash.

Definition tls_cmd_set_work_mode (mode update_flash : Z) : MA Z :=
  match switch mode [(0, Some 1); (1, Some 0)] None with
  | None => ret (-1)
  | Some auto_mode =>
      pset TLS_PARAM_ID_AUTOMODE [auto_mode] update_flash ;;
      pset TLS_PARAM_ID_AUTO_RECONNECT [auto_mode] update_flash ;;
      ret 0
  end.
Definition tls_cmd_get_work_mode (mode : list Z) : MA (Z * list Z) :=
  let* auto_mode := local 1 in
  let* auto_mode := pget TLS_PARAM_ID_AUTOMODE auto_mode false in
  let* auto_mode := byte auto_mode 0 in
  let* mode := put mode 0 [if 0 =? auto_mode then 1 else 0] in
  ret (0, mode).
Definition tls_cmd_get_hostif_mode (mode : list Z) : MA (Z * list Z) :=
  let* x := pget TLS_PARAM_ID_USRINTF mode true in ret (0, x).
Definition tls_cmd_set_hostif_mode (mode update_flash : Z) : MA Z :=
  pset TLS_PARAM_ID_USRINTF [mode] update_flash ;; ret 0.

(** [struct tls_cmd_socket_t]: timeout, address, protocol, client, port, 32
    bytes of host name and its length. *)
Definition tls_cmd_set_default_socket_params (params : list Z) (update_flash : Z) : MA Z :=
  let* p := local 36 in
  let* updp := on_prm tls_param_get_updp_mode in
  let* pr := byte params 8 in
  let* cl := byte params 9 in
  let* hl := byte params 44 in
  let host_name := at_ptr params 12 in
  (if updp =? 0 then
     let* c := gets socket_cfg in
     let* h := of_opt (strcpy (host c) host_name) in
     modify (set_socket_cfg (mk_skt pr cl (u16_at params 10) h hl (slice params 4 4) (u32_at params 0)))
   else ret tt) ;;
  let* p := put p 1 [if truth cl then 0 else 1] in
  let* p := put p 0 [pr] in
  let* p := copy p 2 params 10 2 in
  let* h := of_opt (strcpy (at_ptr p 4) host_name) in
  let* p := put p 4 h in
  pset TLS_PARAM_ID_DEFSOCKET p update_flash ;;
  ret 0.
Definition tls_cmd_get_default_socket_params (params : list Z) : MA (Z * list Z) :=
  let* c := gets socket_cfg in
  let* params := put params 8 [proto c; client c] in
  let* params := put params 10 (le16 (port_num c)) in
  let* params := put params 44 [u8 (host_len c)] in
  let* h := of_opt (strcpy (slice params 12 32) (host c)) in
  let* params := put params 12 h in
  let* params := put params 4 (ip_addr c) in
  let* params := put params 0 (le32 (timeout c)) in
  ret (0, params).

(** [struct tls_cmd_uart_params_t]: five words, baud rate, stop bits, parity,
    flow control, character length. *)
Definition tls_cmd_get_uart_params (params : list Z) : MA (Z * list Z) :=
  let* u := local 8 in
  let* u := pget TLS_PARAM_ID_UART u false in
  let* stop_bits := byte u 4 in
  let* parity := byte u 5 in
  let* flow := byte u 6 in
  let* charsize := byte u 7 in
  let* params := copy params 0 u 0 4 in
  let* params := put params 12 (le32 flow) in
  let* params := put params 8 (le32 parity) in
  let* params := put params 4 (le32 (switch stop_bits [(TLS_UART_ONE_STOPBITS, 0); (TLS_UART_TWO_STOPBITS, 2)] 0)) in
  let* params := put params 16 (le32 (switch charsize [(TLS_UART_CHSIZE_8BIT, 0); (TLS_UART_CHSIZE_7BIT, 1)] 0)) in
  ret (0, params).
Definition tls_cmd_set_uart_params (params : list Z) (update_flash : Z) : MA Z :=
  let* uart_params := local 8 in
  let baud_rate := u32_at params 0 in
  let stop_bit := u32_at params 4 in
  let parity := u32_at params 8 in
  let flow := u32_at params 12 in
  if tls_uart_check_baudrate baud_rate <? 0 then ret CMD_ERR_INV_PARAMS
  else
    match switch (u32_at params 16) [(0, Some TLS_UART_CHSIZE_8BIT); (1, Some TLS_UART_CHSIZE_7BIT)] None with
    | None => ret CMD_ERR_INV_PARAMS
    | Some charsize =>
        if 1 <? flow then ret CMD_ERR_INV_PARAMS
        else if 2 <? parity then ret CMD_ERR_INV_PARAMS
        else
          match switch stop_bit [(0, Some TLS_UART_ONE_STOPBITS); (2, Some TLS_UART_TWO_STOPBITS)] None with
          | None => ret CMD_ERR_INV_PARAMS
          | Some stop_bit =>
              let* uart1_port := gets uart1 in
              match uart1_port with
              | None => ret CMD_ERR_NOT_ALLOW
              | Some _ =>
                  let* updp := on_prm tls_param_get_updp_mode in
                  (if updp =? 0
                   then modify (set_uart1 (Some (mk_opts baud_rate charsize parity flow stop_bit)))
                   else ret tt) ;;
                  let* uart_params := put uart_params 0 (le32 baud_rate) in
                  let* uart_params := put uart_params 6 [u8 flow] in
                  let* uart_params := put uart_params 5 [u8 parity] in
                  let* uart_params := put uart_params 4 [u8 stop_bit] in
                  let* uart_params := put uart_params 7 [u8 charsize] in
                  let* err := pset TLS_PARAM_ID_UART uart_params update_flash in
                  ret (if truth err then CMD_ERR_FLASH else 0)
              end
          end
    end.

Definition tls_cmd_get_atlt (length : list Z) : MA (Z * list Z) :=
  let* h := gets hif in
  let* length := put length 0 (le16 (uart_atlt h)) in ret (0, length).
Definition tls_cmd_set_atlt (length update_flash : Z) : MA Z :=
  if (length <? 32) || (1024 <? length) then ret (-1)
  else
    on_hif (set_uart_atlt length) ;;
    pset TLS_PARAM_ID_AUTO_TRIGGER_LENGTH (le16 length) update_flash ;;
    ret 0.
Definition tls_cmd_get_atpt (period : list Z) : MA (Z * list Z) :=
  let* period := pget TLS_PARAM_ID_AUTO_TRIGGER_PERIOD period false in
  on_hif (set_uart_atpt (u16_at period 0)) ;;
  ret (0, period).
Definition tls_cmd_set_atpt (period update_flash : Z) : MA Z :=
  if 10000 <? period then ret (-1)
  else
    on_hif (set_uart_atpt period) ;;
    pset TLS_PARAM_ID_AUTO_TRIGGER_PERIOD (le16 period) update_flash ;;
    ret 0.
Definition tls_cmd_set_dnsname (dnsname : list Z) (update_flash : Z) : MA Z :=
  pset TLS_PARAM_ID_DNSNAME dnsname update_flash ;; ret 0.
Definition tls_cmd_get_dnsname (dnsname : list Z) : MA (Z * list Z) :=
  let* x := pget TLS_PARAM_ID_DNSNAME dnsname false in ret (0, x).
Definition tls_cmd_get_espc (escapechar : list Z) : MA (Z * list Z) :=
  let* x := pget TLS_PARAM_ID_ESCAPE_CHAR escapechar false in ret (0, x).
Definition tls_cmd_set_espc (escapechar update_flash : Z) : MA Z :=
  on_hif (set_escape_char escapechar) ;;
  pset TLS_PARAM_ID_ESCAPE_CHAR [escapechar] update_flash ;;
  ret 0.
Definition tls_cmd_get_espt (escapeperiod : list Z) : MA (Z * list Z) :=
  let* x := pget TLS_PARAM_ID_ESCAPE_PERIOD escapeperiod false in ret (0, x).
Definition tls_cmd_set_espt (escapeperiod update_flash : Z) : MA Z :=
  pset TLS_PARAM_ID_ESCAPE_PERIOD (le16 escapeperiod) update_flash ;; ret 0.
Definition tls_cmd_get_iom (iomode : list Z) : MA (Z * list Z) :=
  let* x := pget TLS_PARAM_ID_IO_MODE iomode false in ret (0, x).
Definition tls_cmd_set_iom (iomode update_flash : Z) : MA Z :=
  pset TLS_PARAM_ID_IO_MODE [iomode] update_flash ;; ret 0.
Definition tls_cmd_get_cmdm (cmdmode : list Z) : MA (Z * list Z) :=
  let* x := pget TLS_PARAM_ID_CMD_MODE cmdmode false in ret (0, x).
Definition tls_cmd_set_cmdm (cmdmode update_flash : Z) : MA Z :=
  pset TLS_PARAM_ID_CMD_MODE [cmdmode] update_flash ;; ret 0.
Definition tls_cmd_set_oneshot (oneshotflag update_flash : Z) : MA Z :=
  on_net (set_oneshot_flag oneshotflag) ;; ret 0.
Definition tls_cmd_get_oneshot (oneshotflag : list Z) : MA (Z * list Z) :=
  let* n := gets net in
  let* x := put oneshotflag 0 [u8 (get_oneshot_flag n)] in ret (0, x).
Definition tls_cmd_get_pass (password : list Z) : MA (Z * list Z) :=
  let* x := pget TLS_PARAM_ID_PASSWORD password false in ret (0, x).
Definition tls_cmd_set_pass (password : list Z) (update_flash : Z) : MA Z :=
  pset TLS_PARAM_ID_PASSWORD password update_flash ;; ret 0.
Definition tls_cmd_get_warc (autoretrycnt : list Z) : MA (Z * list Z) :=
  let* x := pget TLS_PARAM_ID_AUTO_RETRY_CNT autoretrycnt true in ret (0, x).
Definition tls_cmd_set_warc (autoretrycnt update_flash : Z) : MA Z :=
  pset TLS_PARAM_ID_AUTO_RETRY_CNT [autoretrycnt] update_flash ;; ret 0.
Definition tls_cmd_set_webs (webcfg : list Z) (update_flash : Z) : MA Z :=
  pset TLS_PARAM_ID_WEBS_CONFIG webcfg update_flash ;; ret 0.
Definition tls_cmd_get_webs (webcfg : list Z) : MA (Z * list Z) :=
  let* x := pget TLS_PARAM_ID_WEBS_CONFIG webcfg false in ret (0, x).
Definition tls_cmd_set_dbg (dbg : Z) : MA Z := ret 0.

(** ** The access point *)

Definition tls_cmd_set_softap_ssid (ssid : list Z) (update_flash : Z) : MA Z :=
  let* params_ssid := local 36 in
  let* apsta_psk := local 33 in
  let* ssid_len := byte ssid 0 in
  if 32 <? ssid_len then ret (-1)
  else
    let* params_ssid := put params_ssid 32 (le32 ssid_len) in
    let* params_ssid := copy params_ssid 0 ssid 1 ssid_len in
    pset TLS_PARAM_ID_SOFTAP_SSID params_ssid update_flash ;;
    let* apsta_psk := put apsta_psk 0 (replicate 33 0) in
    pset TLS_PARAM_ID_SOFTAP_PSK apsta_psk update_flash ;;
    ret 0.
Definition tls_cmd_get_softap_ssid : list Z → MA (Z * list Z) := get_ssid TLS_PARAM_ID_SOFTAP_SSID true.
Definition tls_cmd_set_softap_key (key : list Z) (update_flash : Z) : MA Z :=
  let* param_key := local 68 in
  let* param_key := fill_param_key param_key key in
  pset TLS_PARAM_ID_SOFTAP_KEY param_key update_flash ;;
  let* sha1_key := put param_key 0 (replicate 33 0) in
  pset TLS_PARAM_ID_SOFTAP_PSK sha1_key 1 ;;
  ret 0.
Definition tls_cmd_get_softap_key (key : list Z) : MA (Z * list Z) :=
  let* param_key := on_prm (palloc 67) in
  match param_key with
  | None => ret (-1, key)
  | Some _ =>
      let* param_key := pget TLS_PARAM_ID_SOFTAP_KEY (replicate 67 0) true in
      let* key := copy key 1 param_key 65 1 in
      let* key := copy key 2 param_key 64 1 in
      let* key := copy key 0 param_key 66 1 in
      let* key := copy key 3 param_key 0 64 in
      ret (0, key)
  end.
Definition tls_cmd_set_softap_encrypt : Z → Z → MA Z := set_encrypt TLS_PARAM_ID_SOFTAP_KEY TLS_PARAM_ID_SOFTAP_ENCRY.
Definition tls_cmd_get_softap_encrypt (encrypt : list Z) : MA (Z * list Z) :=
  let* x := pget TLS_PARAM_ID_SOFTAP_ENCRY encrypt false in ret (0, x).
Definition tls_cmd_get_softap_channel (channel : list Z) : MA (Z * list Z) :=
  let* x := pget TLS_PARAM_ID_SOFTAP_CHANNEL channel false in ret (0, x).
Definition tls_cmd_set_softap_channel (channel update_flash : Z) : MA Z :=
  if 14 <? channel then ret (-1)
  else pset TLS_PARAM_ID_SOFTAP_CHANNEL [channel] update_flash ;; ret 0.
Definition tls_cmd_set_softap_hw_mode : list Z → Z → MA Z := set_hw_mode TLS_PARAM_ID_SOFTAP_WBGR 1.
Definition tls_cmd_get_softap_hw_mode : list Z → MA (Z * list Z) := get_hw_mode TLS_PARAM_ID_SOFTAP_WBGR.
Definition tls_cmd_get_softap_ip_info (params : list Z) : MA (Z * list Z) :=
  let* ' (ip_param, params) := get_ip_info TLS_PARAM_ID_SOFTAP_IP params in
  let* params := copy params 16 ip_param 0 1 in
  ret (0, params).
Definition tls_cmd_set_softap_ip_info (params : list Z) (update_flash : Z) : MA Z :=
  let* type := byte params 16 in
  set_param_ip TLS_PARAM_ID_SOFTAP_IP type params update_flash.
End cmdp.
