(* ===== verification/AtExec.v ===== *)
(** * [src/Src/App/wm_atcmd/wm_cmdp_hostif.c]: the commands

    From a line of the host to the line that answers it: [at_parse_func] reads
    the arguments of a token into the union [cmd], the procedure of the command
    carries it out and fills the union [cmdrsp], [at_format_func] prints it.
    The unions are byte blocks; a member is an offset. *)
From Stdlib Require Import String.
From S2P Require Import Prelude Utils FlashStore ParamLayout Params Uart AtToken AtCmdp.
From stdpp Require Import list.
#[local] Open Scope Z_scope.

Definition HOSTIF_MODE_UART0 := 1.
Definition HOSTIF_MODE_UART1_LS := 2.
Definition HOSTIF_UART1_AT_CMD := 3.
Definition HOSTIF_UART0_AT_CMD := 4.
Definition CMD_MODE_UART0_ATCMD := 2.
Definition CMD_MODE_UART1_ATCMD := 3.
Definition CMD_RSP_BUF_SIZE := 600.
(** [sizeof] the two unions and the token. *)
Definition CMD_SIZE := 84.
Definition CMDRSP_SIZE := 321.
Definition TOK_SIZE := 64.

(** [strcmp("...", at_name) == 0 || ...] *)
Definition one_of (at_name : string) (l : list string) : bool := existsb (String.eqb at_name) l.

(** The commands whose bodies are not modelled: their part of
    [at_parse_func], their procedures and their part of [at_format_func]. *)
Class AtOther (F N : Type) := {
  other_parse : string → tls_atcmd_token_t → M (at_st F N) Z;
  other_proc : string → Z → Z → M (at_st F N) Z;
  other_format : string → Z → Z → M (at_st F N) (Z * Z);
}.

(** Rounds of the wait for room in the transmit buffer. *)
Definition room_polls : nat := 1000.

Section exec.
Context {F N : Type} `{!FlashDev F} `{!AtNet N} `{!AtOther F N}.
Variable area : param_area.
Local Open Scope c_scope.
Local Abbreviation MA := (M (at_st F N)).

(** ** Arguments *)

Definition arg_ptr (tok : tls_atcmd_token_t) (i : nat) : MA Z := of_opt (arg tok !! i ≫= id).
Definition arg_str (tok : tls_atcmd_token_t) (i : nat) : MA (list Z) :=
  let* p := arg_ptr tok i in gets (λ s, at_ptr (line s) p).
Definition INV_PARAMS : Z := - CMD_ERR_INV_PARAMS.
(** [ret = f(arg, &params); if(ret) return -CMD_ERR_INV_PARAMS;] and what
    follows, for the converters of [utils.c]. *)
Definition with_num (f : list Z → option (Z * option Z)) (tok : tls_atcmd_token_t) (i : nat) (k : Z → MA Z) : MA Z :=
  let* b := arg_str tok i in
  let* ' (r, v) := of_opt (f b) in
  if truth r then ret INV_PARAMS else let* v := of_opt v in k (u32 v).
Definition with_uint := with_num string_to_uint.
Definition with_dec := with_num strtodec.
Definition with_hex := with_num strtohex.
Definition with_hexstr := with_num (λ b, '(r, v) ← hexstr_to_unit b; Some (r, Some v)).
(** The same for [atcmd_filter_quotation], which answers a pointer. *)
Definition with_text (tok : tls_atcmd_token_t) (i : nat) (k : Z → MA Z) : MA Z :=
  let* p := arg_ptr tok i in
  let* l := gets line in
  let* ' (r, q, l) := of_opt (atcmd_filter_quotation l p) in
  modify (set_line l) ;;
  if truth r then ret INV_PARAMS else k q.
(** and for an address in quotes. *)
Definition with_addr (tok : tls_atcmd_token_t) (i : nat) (k : list Z → MA Z) : MA Z :=
  with_text tok i (λ q,
    let* l := gets line in
    let* r := of_opt (string_to_ipaddr (at_ptr l q)) in
    match r with None => ret INV_PARAMS | Some ip => k ip end).

(** Members of the unions. *)
Definition cmd_put (o : Z) (b : list Z) : MA unit :=
  let* c := gets cmd in let* c := put c o b in modify (set_cmd c).
Definition cmd_byte (o : Z) : MA Z := let* c := gets cmd in byte c o.
Definition cmd_u16 (o : Z) : MA Z := let* c := gets cmd in ret (u16_at c o).
Definition rsp_put (o : Z) (b : list Z) : MA unit :=
  let* c := gets cmdrsp in let* c := put c o b in modify (set_cmdrsp c).
Definition rsp_byte (o : Z) : MA Z := let* c := gets cmdrsp in byte c o.
Definition rsp_u16 (o : Z) : MA Z := let* c := gets cmdrsp in ret (u16_at c o).

(** ** [at_parse_func] *)

Definition num_args (tok : tls_atcmd_token_t) (l : list Z) : bool := existsb (Z.eqb (arg_found tok)) l.

(** The text at a pointer goes to offset [o + 1] and its length, a byte, to [o]. *)
Definition take_text (o q : Z) : MA unit :=
  let* l := gets line in
  let* n := of_opt (strlen (at_ptr l q)) in
  cmd_put o [u8 n] ;;
  let* c := gets cmd in
  let* c := of_opt (memcpy c (o + 1) (at_ptr l q) 0 (u8 n)) in
  modify (set_cmd c).
Definition parse_text (tok : tls_atcmd_token_t) : MA Z :=
  if 1 <? arg_found tok then ret INV_PARAMS
  else if arg_found tok =? 1 then with_text tok 0 (λ q, take_text 0 q ;; ret 0)
  else ret 0.
Definition parse_u8 (tok : tls_atcmd_token_t) : MA Z :=
  if 1 <? arg_found tok then ret INV_PARAMS
  else if arg_found tok =? 1 then with_uint tok 0 (λ v, cmd_put 0 [u8 v] ;; ret 0)
  else ret 0.
Definition parse_u16 (tok : tls_atcmd_token_t) : MA Z :=
  if 1 <? arg_found tok then ret INV_PARAMS
  else if arg_found tok =? 1 then with_uint tok 0 (λ v, cmd_put 0 (le16 v) ;; ret 0)
  else ret 0.
Definition parse_key (tok : tls_atcmd_token_t) : MA Z :=
  if negb (num_args tok [0; 3]) then ret INV_PARAMS
  else if arg_found tok =? 3 then
    with_dec tok 0 (λ v, cmd_put 0 [u8 v] ;;
    with_dec tok 1 (λ v, cmd_put 1 [u8 v] ;;
    with_text tok 2 (λ q, take_text 2 q ;; ret 0)))
  else ret 0.
(** Two characters of the address a round. *)
Fixpoint mac_loop (n : nat) (p i j : Z) : MA Z :=
  match n with
  | O => ret 0
  | S n =>
      let* l := gets line in
      let* h := byte l (p + i) in
      let* lo := byte l (p + i + 1) in
      let h := hex_to_digit h in
      let lo := hex_to_digit lo in
      if (h <? 0) || (lo <? 0) then ret INV_PARAMS
      else cmd_put (1 + j) [u8 (Z.lor (Z.shiftl h 4) lo)] ;; mac_loop n p (i + 2) (j + 1)
  end.
Definition parse_bssid (tok : tls_atcmd_token_t) : MA Z :=
  if 2 <? arg_found tok then ret INV_PARAMS
  else if 1 <=? arg_found tok then
    with_uint tok 0 (λ v,
      let enable := u8 v in
      cmd_put 0 [enable] ;;
      if (enable =? 0) && (arg_found tok =? 2) || (enable =? 1) && (arg_found tok =? 1) then ret INV_PARAMS
      else if arg_found tok =? 2 then
        let* p := arg_ptr tok 1 in
        let* e := arg_ptr tok 2 in
        if e - p - 1 =? 12 then mac_loop 6 p 0 0 else ret INV_PARAMS
      else ret 0)
  else ret 0.
Definition parse_chl (tok : tls_atcmd_token_t) : MA Z :=
  if 2 <? arg_found tok then ret INV_PARAMS
  else if 0 <? arg_found tok then
    with_uint tok 0 (λ v,
      let enable := u8 v in
      cmd_put 0 [enable] ;;
      if (enable =? 0) && (1 <? arg_found tok) then ret INV_PARAMS
      else if enable =? 0 then cmd_put 1 [1] ;; ret 0
      else with_uint tok 1 (λ v, cmd_put 1 [u8 v] ;; ret 0))
  else ret 0.
Definition parse_chll (tok : tls_atcmd_token_t) : MA Z :=
  if 1 <? arg_found tok then ret INV_PARAMS
  else if arg_found tok =? 1 then with_hex tok 0 (λ v, cmd_put 0 (le16 v) ;; ret 0)
  else ret 0.
Definition parse_wbgr (tok : tls_atcmd_token_t) : MA Z :=
  if negb (num_args tok [0; 2]) then ret INV_PARAMS
  else if arg_found tok =? 2 then
    with_uint tok 0 (λ v, cmd_put 0 [u8 v] ;;
    with_uint tok 1 (λ v, cmd_put 1 [u8 v] ;; ret 0))
  else ret 0.
Definition parse_nip (tok : tls_atcmd_token_t) : MA Z :=
  if negb (num_args tok [0; 1; 5]) then ret INV_PARAMS
  else if 0 <? arg_found tok then
    with_uint tok 0 (λ v,
      let type := u8 v in
      cmd_put 0 [type] ;;
      if (arg_found tok =? 1) && negb (type =? 0) || (arg_found tok =? 5) && negb (type =? 1) then ret INV_PARAMS
      else if arg_found tok =? 1 then ret 0
      else
        with_addr tok 1 (λ ip, cmd_put 1 ip ;;
        with_addr tok 2 (λ nm, cmd_put 5 nm ;;
        with_addr tok 3 (λ gw, cmd_put 9 gw ;;
        with_addr tok 4 (λ dns, cmd_put 13 dns ;; ret 0)))))
  else ret 0.
Definition parse_none (tok : tls_atcmd_token_t) : MA Z :=
  if truth (arg_found tok) then ret INV_PARAMS else ret 0.

(** [ATRM] fills a local [socket] (timeout, address, protocol, client, port, 32
    bytes of name and its length, 48 bytes) and copies its members. *)
Definition atrm_port (tok : tls_atcmd_token_t) (socket : list Z) : MA Z :=
  with_uint tok 3 (λ v,
    if 65535 <? v then ret INV_PARAMS
    else
      let* socket := put socket 10 (le16 v) in
      let* hl := byte socket 44 in
      cmd_put 0 (slice socket 0 12) ;;
      let* c := gets cmd in
      let* c := of_opt (memcpy c 12 socket 12 hl) in
      modify (set_cmd c) ;;
      cmd_put 44 [hl] ;;
      ret 0).
Definition atrm_host (tok : tls_atcmd_token_t) (q : Z) (socket : list Z) : MA Z :=
  let* l := gets line in
  let tmp := at_ptr l q in
  let* n := of_opt (strlen tmp) in
  let* socket := put socket 44 [u8 n] in
  let* pr := byte socket 8 in
  let* cl := byte socket 9 in
  if 32 <? u8 n then ret INV_PARAMS
  else if truth cl then
    let* r := of_opt (string_to_ipaddr tmp) in
    let* socket := match r with Some ip => put socket 4 ip | None => ret socket end in
    let* h := of_opt (strcpy (at_ptr socket 12) tmp) in
    let* socket := put socket 12 h in
    atrm_port tok socket
  else if pr =? 0 then
    let* ' (r, v) := of_opt (string_to_uint tmp) in
    if truth r then ret INV_PARAMS
    else
      let* v := of_opt v in
      if 10000000 <? v then ret INV_PARAMS
      else
        let* socket := put socket 0 (le32 v) in
        let* h := of_opt (strcpy (at_ptr socket 12) tmp) in
        let* socket := put socket 12 h in
        atrm_port tok socket
  else atrm_port tok socket.
Definition parse_atrm (tok : tls_atcmd_token_t) : MA Z :=
  if negb (num_args tok [0; 4]) then ret INV_PARAMS
  else if arg_found tok =? 4 then
    let socket := replicate 48 0 in
    with_uint tok 0 (λ v,
      if 1 <? v then ret INV_PARAMS
      else
        let* socket := put socket 8 [u8 v] in
        with_uint tok 1 (λ v,
          if 1 <? v then ret INV_PARAMS
          else
            let* socket := put socket 9 [if truth (u8 v) then 0 else 1] in
            with_text tok 2 (λ q, atrm_host tok q socket)))
  else ret 0.
Definition parse_uart (tok : tls_atcmd_token_t) : MA Z :=
  if negb (num_args tok [0; 4; 5]) then ret INV_PARAMS
  else if 4 <=? arg_found tok then
    with_uint tok 0 (λ v, cmd_put 0 (slice (le32 v) 0 3) ;;
    with_uint tok 1 (λ v, cmd_put 3 [u8 v] ;;
    with_uint tok 2 (λ v, cmd_put 4 [u8 v] ;;
    with_uint tok 3 (λ v, cmd_put 5 [u8 v] ;;
    if arg_found tok =? 5 then with_uint tok 4 (λ v, cmd_put 6 [u8 v] ;; ret 0)
    else cmd_put 6 [0] ;; ret 0))))
  else ret 0.
Definition parse_dbg (tok : tls_atcmd_token_t) : MA Z :=
  if negb (arg_found tok =? 1) then ret INV_PARAMS
  else with_uint tok 0 (λ v, cmd_put 0 (le32 v) ;; ret 0).
Definition parse_espc (tok : tls_atcmd_token_t) : MA Z :=
  if 1 <? arg_found tok then ret INV_PARAMS
  else if arg_found tok =? 1 then with_hex tok 0 (λ v, cmd_put 0 [u8 v] ;; ret 0)
  else ret 0.
Definition parse_webs (tok : tls_atcmd_token_t) : MA Z :=
  if 2 <? arg_found tok then ret INV_PARAMS
  else
    let rest :=
      if 2 <=? arg_found tok then with_dec tok 1 (λ v, cmd_put 1 (le16 v) ;; ret 0) else ret 0 in
    if 1 <=? arg_found tok then
      with_dec tok 0 (λ v, cmd_put 0 [u8 v] ;; cmd_put 1 (le16 80) ;; rest)
    else rest.
(** Reading a register or the flash: an address and a number of words. *)
Definition parse_regr (tok : tls_atcmd_token_t) : MA Z :=
  if negb (arg_found tok =? 2) then ret (- CMD_ERR_OPS)
  else
    with_hexstr tok 0 (λ v, cmd_put 0 (le32 v) ;;
    with_hexstr tok 1 (λ v, cmd_put 4 [u8 v] ;; ret 0)).
Fixpoint words_loop (n : nat) (tok : tls_atcmd_token_t) (i : nat) : MA Z :=
  match n with
  | O => ret 0
  | S n => with_hexstr tok (i + 1) (λ v, cmd_put (5 + 4 * Z.of_nat i) (le32 v) ;; words_loop n tok (i + 1))
  end.
Definition parse_regw (tok : tls_atcmd_token_t) : MA Z :=
  if (arg_found tok <? 2) || (9 <? arg_found tok) then ret (- CMD_ERR_OPS)
  else
    with_hexstr tok 0 (λ v,
      cmd_put 0 (le32 v) ;;
      cmd_put 4 [u8 (arg_found tok - 1)] ;;
      words_loop (Z.to_nat (arg_found tok - 1)) tok 0).

Definition at_parse_func (at_name : string) (tok : tls_atcmd_token_t) : MA Z :=
  if one_of at_name ["QMAC"; "QVER"; "&HWV"; "&LPTSTP"; "&LPTSTT"; "&LPRSTP"; "&LPRSTT"; "&LPRFPS"; "&LPSTPT";
       "&LPSTPR"; "&LPRAGC"; "&LPRSR"; "CUSTDATA"; "APMAC"; "APLKSTT"; "SLIST"]%string then ret 0
  else if one_of at_name ["Z"; "E"; "RSTF"; "PMTF"; "IOC"; "LKSTT"; "CNTPARAM"]%string then ret 0
  else if one_of at_name ["SSID"; "DNS"; "PASS"; "APSSID"]%string then parse_text tok
  else if one_of at_name ["WPRT"; "ENCRY"; "BRDSSID"; "WATC"; "WPSM"; "WARC"; "WARM"; "ATM"; "PORTM"; "IOM"; "CMDM";
       "ONESHOT"; "&UPDP"; "ONEMODE"; "APENCRY"]%string then parse_u8 tok
  else if one_of at_name ["KEY"; "APKEY"]%string then parse_key tok
  else if one_of at_name ["BSSID"]%string then parse_bssid tok
  else if one_of at_name ["CHL"; "APCHL"]%string then parse_chl tok
  else if one_of at_name ["CHLL"]%string then parse_chll tok
  else if one_of at_name ["WREG"; "ATLT"; "ATPT"; "ESPT"; "WLEAV"]%string then parse_u16 tok
  else if one_of at_name ["WBGR"; "APWBGR"]%string then parse_wbgr tok
  else if one_of at_name ["NIP"; "APNIP"]%string then parse_nip tok
  else if one_of at_name ["ATRM"]%string then parse_atrm tok
  else if one_of at_name ["AOLM"; "DDNS"; "UPNP"; "DNAME"]%string then parse_none tok
  else if one_of at_name ["UART"]%string then parse_uart tok
  else if one_of at_name ["&DBG"]%string then parse_dbg tok
  else if one_of at_name ["ESPC"]%string then parse_espc tok
  else if one_of at_name ["WEBS"]%string then parse_webs tok
  else if one_of at_name ["SKRPTM"]%string then parse_u8 tok
  else if one_of at_name ["&REGR"; "&FLSR"]%string then parse_regr tok
  else if one_of at_name ["&REGW"; "&FLSW"]%string then parse_regw tok
  else other_parse at_name tok.

(** ** The procedures *)

(** [return ret ? -CMD_ERR_OPS : 0] *)
Definition ops (ret' : Z) : Z := if truth ret' then - CMD_ERR_OPS else 0.
(** A function answers into [cmdrsp] from offset [o] on. *)
Definition rsp_from (o : Z) (f : list Z → MA (Z * list Z)) : MA Z :=
  let* c := gets cmdrsp in
  let* ' (r, x) := f (at_ptr c o) in
  modify (set_cmdrsp (splice c o x)) ;; ret r.
(** The procedures that set or get one number: the bound on the number as
    [cmd] holds it, the functions of [wm_cmdp.c]. *)
Definition num_proc (bad : Z → bool) (set : Z → Z → MA Z) (getf : list Z → MA (Z * list Z)) (set_opt update_flash : Z) : MA Z :=
  if truth set_opt then
    let* v := cmd_byte 0 in
    if bad v then ret INV_PARAMS else let* r := set v update_flash in ret (ops r)
  else let* r := rsp_from 0 getf in ret (ops r).
Definition num16_proc (bad : Z → bool) (set : Z → Z → MA Z) (getf : list Z → MA (Z * list Z)) (set_opt update_flash : Z) : MA Z :=
  if truth set_opt then
    let* v := cmd_u16 0 in
    if bad v then ret INV_PARAMS else let* r := set v update_flash in ret (ops r)
  else let* r := rsp_from 0 getf in ret (ops r).

Definition e_proc (set_opt update_flash : Z) : MA Z :=
  on_hif (λ h, set_uart_insdisp (if truth (uart_insdisp h) then 0 else 1) h) ;; ret 0.
Definition z_proc (set_opt update_flash : Z) : MA Z := tls_cmd_reset_sys ;; ret 0.
Definition rstf_proc (set_opt update_flash : Z) : MA Z := let* r := tls_cmd_reset_flash area in ret (ops r).
Definition pmtf_proc (set_opt update_flash : Z) : MA Z := let* r := tls_cmd_pmtf area in ret (ops r).
(** [ioc_proc], [aolm_proc], [ddns_proc], [upnp_proc], [dname_proc] *)
Definition no_proc (set_opt update_flash : Z) : MA Z := ret 0.
Definition skrptm_proc (set_opt update_flash : Z) : MA Z :=
  if truth set_opt then
    let* v := cmd_byte 0 in
    if 1 <? v then ret INV_PARAMS else on_hif (set_rptmode v) ;; ret 0
  else let* h := gets hif in rsp_put 0 [u8 (rptmode h)] ;; ret 0.
Definition wprt_proc := num_proc (λ v, 3 <? v) (tls_cmd_set_wireless_mode area) tls_cmd_get_wireless_mode.
Definition encry_proc := num_proc (λ v, 8 <? v) (tls_cmd_set_encrypt area) tls_cmd_get_encrypt.
Definition brdssid_proc := num_proc (λ v, 1 <? v) (tls_cmd_set_hide_ssid area) tls_cmd_get_hide_ssid.
Definition watc_proc := num_proc (λ v, 1 <? v) (tls_cmd_set_adhoc_create_mode area) tls_cmd_get_adhoc_create_mode.
Definition wpsm_proc := num_proc (λ v, 1 <? v) (tls_cmd_set_wl_ps_mode area) tls_cmd_get_wl_ps_mode.
Definition warc_proc := num_proc (λ v, 255 <? v) (tls_cmd_set_warc area) tls_cmd_get_warc.
Definition warm_proc := num_proc (λ v, 1 <? v) (tls_cmd_set_roaming_mode area) tls_cmd_get_roaming_mode.
Definition atm_proc := num_proc (λ v, 1 <? v) (tls_cmd_set_work_mode area) tls_cmd_get_work_mode.
Definition portm_proc := num_proc (λ v, 3 <? v) (tls_cmd_set_hostif_mode area) tls_cmd_get_hostif_mode.
Definition espc_proc := num_proc (λ v, 255 <? v) (tls_cmd_set_espc area) tls_cmd_get_espc.
Definition iom_proc := num_proc (λ v, 2 <? v) (tls_cmd_set_iom area) tls_cmd_get_iom.
Definition cmdm_proc := num_proc (λ v, 1 <? v) (tls_cmd_set_cmdm area) tls_cmd_get_cmdm.
Definition oneshot_proc := num_proc (λ v, 2 <? v) tls_cmd_set_oneshot tls_cmd_get_oneshot.
Definition softap_encry_proc := num_proc (λ v, 8 <? v) (tls_cmd_set_softap_encrypt area) tls_cmd_get_softap_encrypt.
Definition atlt_proc := num16_proc (λ v, (1024 <? v) || (v <? 32)) (tls_cmd_set_atlt area) tls_cmd_get_atlt.
Definition espt_proc := num16_proc (λ v, (10000 <? v) || (v <? 100)) (tls_cmd_set_espt area) tls_cmd_get_espt.
(** The bound is on another member of the union, a byte. *)
Definition atpt_proc (set_opt update_flash : Z) : MA Z :=
  if truth set_opt then
    let* v := cmd_byte 0 in
    if 10000 <? v then ret INV_PARAMS
    else let* period := cmd_u16 0 in let* r := tls_cmd_set_atpt area period update_flash in ret (ops r)
  else let* r := rsp_from 0 tls_cmd_get_atpt in ret (ops r).
(** The status is not looked at. *)
Definition wreg_proc (set_opt update_flash : Z) : MA Z :=
  if truth set_opt then
    let* v := cmd_u16 0 in tls_cmd_set_region area v update_flash ;; ret 0
  else rsp_from 0 tls_cmd_get_region ;; ret 0.
Definition chll_proc (set_opt update_flash : Z) : MA Z :=
  if truth set_opt then
    let* v := cmd_u16 0 in
    if truth (Z.land v (u32 (Z.lnot 0x3fff))) || (v =? 0) then ret INV_PARAMS
    else tls_cmd_set_channellist area v update_flash ;; ret 0
  else rsp_from 0 tls_cmd_get_channellist ;; ret 0.
Definition oneshotmode_proc (set_opt update_flash : Z) : MA Z :=
  if truth set_opt then
    let* v := cmd_byte 0 in
    if 2 <? v then ret INV_PARAMS else on_net (set_oneshot_config_mode v) ;; ret 0
  else let* n := gets net in rsp_put 0 [u8 (get_oneshot_config_mode n)] ;; ret 0.

(** [ssid_proc] and [softap_ssid_proc] *)
Definition text_proc (set : list Z → Z → MA Z) (getf : list Z → MA (Z * list Z)) (set_opt update_flash : Z) : MA Z :=
  let ssid := replicate 33 0 in
  if truth set_opt then
    let* n := cmd_byte 0 in
    if (32 <? n) || (n =? 0) then ret INV_PARAMS
    else
      let* ssid := put ssid 0 [n] in
      let* c := gets cmd in
      let* ssid := copy ssid 1 c 1 n in
      let* r := set ssid update_flash in ret (ops r)
  else
    let* ' (r, ssid) := getf ssid in
    (if truth r then ret tt
     else
       let* n := byte ssid 0 in
       rsp_put 0 [n] ;; rsp_put 1 (slice ssid 1 n)) ;;
    ret (ops r).
Definition ssid_proc := text_proc (tls_cmd_set_ssid area) tls_cmd_get_ssid.
Definition softap_ssid_proc := text_proc (tls_cmd_set_softap_ssid area) tls_cmd_get_softap_ssid.
(** [key_proc] and [softap_key_proc]; the local [key] is not cleared. *)
Definition gen_key_proc (set : list Z → Z → MA Z) (getf : list Z → MA (Z * list Z)) (set_opt update_flash : Z) : MA Z :=
  let* key := local 67 in
  if truth set_opt then
    let* c := gets cmd in
    let* format := byte c 0 in
    let* index := byte c 1 in
    let* key_len := byte c 2 in
    if (1 <? format) || (4 <? index) || (64 <? key_len) then ret INV_PARAMS
    else
      let* key := put key 0 [format; index] in
      let* key := copy key 3 c 3 key_len in
      let* key := put key 2 [key_len] in
      let* r := set key update_flash in ret (ops r)
  else
    let* ' (r, key) := getf key in
    (if truth r then ret tt
     else
       let* n := byte key 2 in
       rsp_put 0 (slice key 0 3) ;; rsp_put 3 (slice key 3 n)) ;;
    ret (ops r).
Definition key_proc := gen_key_proc (tls_cmd_set_key area) tls_cmd_get_key.
Definition softap_key_proc := gen_key_proc (tls_cmd_set_softap_key area) tls_cmd_get_softap_key.
(** Without an address the local [bssid] holds what the stack held. *)
Definition bssid_proc (set_opt update_flash : Z) : MA Z :=
  let* bssid := local 7 in
  if truth set_opt then
    let* enable := cmd_byte 0 in
    if 1 <? enable then ret INV_PARAMS
    else
      let* bssid := put bssid 6 [enable] in
      let* c := gets cmd in
      let* bssid := if enable =? 1 then copy bssid 0 c 1 6 else ret bssid in
      let* r := tls_cmd_set_bssid area bssid update_flash in ret (ops r)
  else
    let* ' (r, bssid) := tls_cmd_get_bssid bssid in
    let* enable := byte bssid 6 in
    rsp_put 0 [enable] ;; rsp_put 1 (slice bssid 0 6) ;;
    ret (ops r).
Definition cntparam_proc (set_opt update_flash : Z) : MA Z :=
  let original_ssid := replicate 36 0 in
  let original_key := replicate 68 0 in
  let bssid := replicate 7 0 in
  let* ' (_, bssid) := tls_cmd_get_bssid bssid in
  let* ' (_, original_key) := tls_cmd_get_original_key original_key in
  let* enable := byte bssid 6 in
  let key_length := u32_at original_key 64 in
  if truth enable then
    rsp_put 0 [enable] ;; rsp_put 1 (slice bssid 0 6) ;; rsp_put 7 [u8 key_length] ;;
    let* c := gets cmdrsp in
    let* c := copy c 8 original_key 0 key_length in
    modify (set_cmdrsp c) ;; ret 0
  else
    let* ' (_, original_ssid) := tls_cmd_get_original_ssid original_ssid in
    let ssid_len := u32_at original_ssid 32 in
    rsp_put 0 [enable; u8 ssid_len] ;;
    let* c := gets cmdrsp in
    let* c := copy c 3 original_ssid 0 ssid_len in
    let* c := put c 2 [u8 key_length] in
    let* c := copy c (3 + u8 ssid_len) original_key 0 key_length in
    modify (set_cmdrsp c) ;; ret 0.
Definition bad_channel (enable channel : Z) : bool :=
  (1 <? enable) || (enable =? 1) && ((14 <? channel) || (channel <? 1)).
Definition chl_proc (set_opt update_flash : Z) : MA Z :=
  if truth set_opt then
    let* enable := cmd_byte 0 in
    let* channel := cmd_byte 1 in
    if bad_channel enable channel then ret INV_PARAMS
    else
      (if enable =? 0 then cmd_put 1 [1] else ret tt) ;;
      let* channel := cmd_byte 1 in
      let* r := tls_cmd_set_channel area channel enable update_flash in ret (ops r)
  else
    let* c := gets cmdrsp in
    let* ' (r, channel, enable) := tls_cmd_get_channel (slice c 1 1) (slice c 0 1) in
    rsp_put 1 channel ;; rsp_put 0 enable ;; ret (ops r).
Definition softap_chl_proc (set_opt update_flash : Z) : MA Z :=
  if truth set_opt then
    let* enable := cmd_byte 0 in
    let* channel := cmd_byte 1 in
    if bad_channel enable channel then ret INV_PARAMS
    else
      (if enable =? 0 then cmd_put 1 [1] else ret tt) ;;
      let* channel := cmd_byte 1 in
      let* r := tls_cmd_set_softap_channel area channel update_flash in ret (ops r)
  else
    let* r := rsp_from 1 tls_cmd_get_softap_channel in
    rsp_put 0 [1] ;; ret (ops r).
(** [wbgr_proc] and [softap_wbgr_proc] *)
Definition gen_wbgr_proc (set : list Z → Z → MA Z) (getf : list Z → MA (Z * list Z)) (set_opt update_flash : Z) : MA Z :=
  let hw_mode := replicate 2 0 in
  if truth set_opt then
    let* mode := cmd_byte 0 in
    let* rate := cmd_byte 1 in
    if (3 <? mode) || (28 <? rate) then ret INV_PARAMS
    else
      let limit_rate := if mode =? 1 then 3 else if mode =? 2 then 28 else 11 in
      let* hw_mode := put hw_mode 0 [mode; if limit_rate <? rate then limit_rate else rate] in
      let* r := set hw_mode update_flash in ret (ops r)
  else
    let* ' (r, hw_mode) := getf hw_mode in
    rsp_put 0 (slice hw_mode 0 2) ;; ret (ops r).
Definition wbgr_proc := gen_wbgr_proc (tls_cmd_set_hw_mode area) tls_cmd_get_hw_mode.
Definition softap_wbgr_proc := gen_wbgr_proc (tls_cmd_set_softap_hw_mode area) tls_cmd_get_softap_hw_mode.
(** [nip_proc] and [softap_nip_proc]: the union has the type first, the
    structure last. *)
Definition gen_nip_proc (set : list Z → Z → MA Z) (getf : list Z → MA (Z * list Z)) (set_opt update_flash : Z) : MA Z :=
  let* ip_info := local 17 in
  if truth set_opt then
    let* type := cmd_byte 0 in
    if 1 <? type then ret INV_PARAMS
    else
      let* ip_info := put ip_info 16 [type] in
      let* c := gets cmd in
      let* ip_info := copy ip_info 0 c 1 16 in
      let* r := set ip_info update_flash in ret (ops r)
  else
    let* ' (r, ip_info) := getf ip_info in
    rsp_put 0 (slice ip_info 16 1) ;; rsp_put 1 (slice ip_info 0 16) ;; ret (ops r).
Definition nip_proc := gen_nip_proc (tls_cmd_set_ip_info area) tls_cmd_get_ip_info.
Definition softap_nip_proc := gen_nip_proc (tls_cmd_set_softap_ip_info area) tls_cmd_get_softap_ip_info.
(** The union is taken for a [struct tls_cmd_socket_t]. *)
Definition atrm_proc (set_opt update_flash : Z) : MA Z :=
  if truth set_opt then
    let* c := gets cmd in tls_cmd_set_default_socket_params area c update_flash ;; ret 0
  else rsp_from 0 tls_cmd_get_default_socket_params ;; ret 0.
Definition uart_proc (set_opt update_flash : Z) : MA Z :=
  let uart_cfg := replicate 20 0 in
  if truth set_opt then
    let* c := gets cmd in
    let* char_len := byte c 3 in
    let* stopbit := byte c 4 in
    let* parity := byte c 5 in
    let* flow := byte c 6 in
    let* u := copy uart_cfg 0 c 0 3 in
    let* u := put u 16 (le32 char_len) in
    let* u := put u 4 (le32 stopbit) in
    let* u := put u 8 (le32 parity) in
    let* u := put u 12 (le32 flow) in
    let* r := tls_cmd_set_uart_params area u update_flash in ret (ops r)
  else
    let* ' (r, u) := tls_cmd_get_uart_params uart_cfg in
    rsp_put 0 (slice u 0 3) ;;
    rsp_put 3 [u8 (u32_at u 16)] ;; rsp_put 6 [u8 (u32_at u 12)] ;;
    rsp_put 5 [u8 (u32_at u 8)] ;; rsp_put 4 [u8 (u32_at u 4)] ;;
    ret (ops r).
Definition dns_proc (set_opt update_flash : Z) : MA Z :=
  if truth set_opt then
    let* n := cmd_byte 0 in
    if (31 <? n) || (n =? 0) then ret INV_PARAMS
    else
      cmd_put (1 + n) [0] ;;
      let* c := gets cmd in
      let* r := tls_cmd_set_dnsname area (at_ptr c 1) update_flash in ret (ops r)
  else
    let* r := rsp_from 1 tls_cmd_get_dnsname in
    let* c := gets cmdrsp in
    let* n := of_opt (strlen (at_ptr c 1)) in
    rsp_put 0 [u8 n] ;; ret (ops r).
Definition dbg_proc (set_opt update_flash : Z) : MA Z :=
  if truth set_opt then let* c := gets cmd in tls_cmd_set_dbg (u32_at c 0) ;; ret 0 else ret 0.
Definition webs_proc (set_opt update_flash : Z) : MA Z :=
  let* cfg := local 4 in
  if truth set_opt then
    let* autorun := cmd_byte 0 in
    let* portnum := cmd_u16 1 in
    if (1 <? autorun) || (portnum <? 1) || (65535 <? portnum) then ret INV_PARAMS
    else
      let* cfg := put cfg 0 [autorun] in
      let* cfg := put cfg 2 (le16 portnum) in
      let* r := tls_cmd_set_webs area cfg update_flash in ret (ops r)
  else
    let* ' (r, cfg) := tls_cmd_get_webs cfg in
    rsp_put 0 (slice cfg 0 1) ;; rsp_put 1 (slice cfg 2 2) ;; ret (ops r).
Definition pass_proc (set_opt update_flash : Z) : MA Z :=
  if truth set_opt then
    let* n := cmd_byte 0 in
    if negb (n =? 6) then ret INV_PARAMS
    else
      let* c := gets cmd in
      let* r := tls_cmd_set_pass area (at_ptr c 1) update_flash in ret (ops r)
  else
    let* r := rsp_from 1 tls_cmd_get_pass in
    rsp_put 0 [6] ;; ret (ops r).
Definition updp_proc (set_opt update_flash : Z) : MA Z :=
  if truth set_opt then
    let* mode := cmd_byte 0 in
    if 1 <? mode then ret INV_PARAMS
    else if mode =? 1 then
      on_prm (tls_param_set_updp_mode mode) ;;
      let* magic := local 4 in
      let* crc32 := local 4 in
      on_prm (let* p := gets user_default_param in
              let* ' (_, p) := tls_param_load_user area p magic crc32 in
              modify (set_user_default_param p)) ;;
      ret 0
    else
      on_prm (tls_param_set_updp_mode 0) ;;
      on_prm (tls_param_save_user_default area) ;;
      ret 0
  else ret 0.
Definition flsr_proc (set_opt update_flash : Z) : MA Z :=
  let* c := gets cmd in
  let addr := u32_at c 0 in
  let* len := byte c 4 in
  if (8 <? len) || (len <? 1) then ret INV_PARAMS
  else
    let* ' (r, buff) := on_prm (on_fl (fls_read addr (replicate 32 0) (4 * len))) in
    if truth r then ret INV_PARAMS
    else rsp_put 1 (slice buff 0 (4 * len)) ;; rsp_put 0 [len] ;; ret 0.
(** The words of [cmd] are the bytes of the buffer. *)
Definition flsw_proc (set_opt update_flash : Z) : MA Z :=
  let* c := gets cmd in
  let addr := u32_at c 0 in
  let* num := byte c 4 in
  let* buff := copy (replicate 32 0) 0 c 5 (4 * num) in
  let* r := on_prm (on_fl (fls_write addr buff (4 * num))) in
  ret (if truth r then INV_PARAMS else 0).

(** The column of procedures of [at_ri_cmd_tbl]. *)
Definition procs : list (string * (Z → Z → MA Z)) := [
  ("Z", z_proc); ("E", e_proc); ("RSTF", rstf_proc); ("PMTF", pmtf_proc); ("IOC", no_proc); ("SKRPTM", skrptm_proc);
  ("WPRT", wprt_proc); ("SSID", ssid_proc); ("KEY", key_proc); ("ENCRY", encry_proc); ("BSSID", bssid_proc);
  ("BRDSSID", brdssid_proc); ("CNTPARAM", cntparam_proc); ("CHL", chl_proc); ("CHLL", chll_proc); ("WREG", wreg_proc);
  ("WBGR", wbgr_proc); ("WATC", watc_proc); ("WPSM", wpsm_proc); ("WARC", warc_proc); ("WARM", warm_proc);
  ("NIP", nip_proc); ("ATM", atm_proc); ("ATRM", atrm_proc); ("AOLM", no_proc); ("PORTM", portm_proc);
  ("UART", uart_proc); ("ATLT", atlt_proc); ("DNS", dns_proc); ("DDNS", no_proc); ("UPNP", no_proc);
  ("DNAME", no_proc); ("ATPT", atpt_proc); ("&DBG", dbg_proc); ("ESPC", espc_proc); ("ESPT", espt_proc);
  ("WEBS", webs_proc); ("IOM", iom_proc); ("CMDM", cmdm_proc); ("PASS", pass_proc); ("ONESHOT", oneshot_proc);
  ("ONEMODE", oneshotmode_proc); ("&UPDP", updp_proc); ("&FLSR", flsr_proc); ("&FLSW", flsw_proc);
  ("APSSID", softap_ssid_proc); ("APENCRY", softap_encry_proc); ("APKEY", softap_key_proc); ("APCHL", softap_chl_proc);
  ("APWBGR", softap_wbgr_proc); ("APNIP", softap_nip_proc)]%string.
Definition proc_func (at_name : string) : Z → Z → MA Z :=
  match find (λ p, String.eqb at_name p.1) procs with
  | Some p => p.2
  | None => other_proc at_name
  end.

(** ** [at_format_func] *)

(** [sprintf(res_resp + o, ...)] of a text: its length. *)
Definition print (o : Z) (b : list Z) : MA Z :=
  let* r := gets rsp in
  let* r := put r o (b ++ [0]) in
  modify (set_rsp r) ;; ret (blen b).
Definition atcmd_ok_resp : MA Z := print 0 (str "+OK").
Definition atcmd_err_resp (err_code : Z) : MA Z := print 0 (str "+ERR=-" ++ fmt_u err_code).
(** [sprintf]'s [%d] of an [int]. *)
Definition fmt_int (n : Z) : list Z := if n <? 0 then 45 :: fmt_u (- n) else fmt_u n.
(** The answer to a set is [+OK]. *)
Definition ok_or (set_opt : Z) (b : MA (list Z)) : MA (Z * Z) :=
  if truth set_opt then let* n := atcmd_ok_resp in ret (0, n)
  else let* b := b in let* n := print 0 (str "+OK=" ++ b) in ret (0, n).
(** [%s] at offset [o] of the union. *)
Definition rsp_text (o : Z) : MA (list Z) := let* c := gets cmdrsp in of_opt (c_string (at_ptr c o)).
(** Bytes copied behind what is printed, without a terminator. *)
Definition append (o : Z) (b : list Z) : MA Z :=
  let* r := gets rsp in let* r := put r o b in modify (set_rsp r) ;; ret (o + blen b).
Definition rsp_bytes (o n : Z) : MA (list Z) := let* c := gets cmdrsp in of_opt (memcpy (replicate (Z.to_nat n) 0) 0 c o n).
Definition fmt_key (set_opt : Z) : MA (Z * Z) :=
  if truth set_opt then let* n := atcmd_ok_resp in ret (0, n)
  else
    let* format := rsp_byte 0 in
    let* index := rsp_byte 1 in
    let* key_len := rsp_byte 2 in
    let* n := print 0 (str "+OK=" ++ fmt_u format ++ [44] ++ fmt_u index ++ [44]) in
    let* b := rsp_bytes 3 key_len in
    let* n := append n b in
    ret (0, n).
(** A length [at_format_func] does not set: the value before. *)
Definition fmt_cntparam (set_opt res_len : Z) : MA (Z * Z) :=
  if truth set_opt then ret (0, res_len)
  else
    let* enable := rsp_byte 0 in
    if truth enable then
      let* m := rsp_bytes 1 6 in
      let* n := print 0 (str "+OK=" ++ fmt_u enable ++ [44] ++ (m ≫= fmt_02x) ++ [44]) in
      let* key_len := rsp_byte 7 in
      let* b := rsp_bytes 8 key_len in
      let* n := append n b in ret (0, n)
    else
      let* n := print 0 (str "+OK=" ++ fmt_u enable ++ [44]) in
      let* ssid_len := rsp_byte 1 in
      let* key_len := rsp_byte 2 in
      let* ssid := rsp_bytes 3 ssid_len in
      let* k := print n ssid in
      let n := n + k in
      let* k := print n [44] in
      let n := n + k in
      let* b := rsp_bytes (3 + ssid_len) key_len in
      let* n := append n b in ret (0, n).
Definition fmt_4 (b : list Z) : list Z :=
  match b with [a; b; c; d] => fmt_u a ++ [46] ++ fmt_u b ++ [46] ++ fmt_u c ++ [46] ++ fmt_u d | _ => [] end.
Definition fmt_atrm : MA (list Z) :=
  let* pr := rsp_byte 8 in
  let* cl := rsp_byte 9 in
  let* c := gets cmdrsp in
  let* h := if truth cl then let* t := rsp_text 12 in ret (34 :: t ++ [34])
            else ret (if pr =? 0 then fmt_int (s32 (u32_at c 0)) else []) in
  let* port := rsp_u16 10 in
  ret (fmt_u pr ++ [44] ++ fmt_u (if truth cl then 0 else 1) ++ [44] ++ h ++ [44] ++ fmt_u port).
Definition fmt_words (n : Z) : MA (list Z) :=
  let* c := gets cmdrsp in
  ret (tail (seqZ 0 n ≫= λ i, 44 :: fmt_x 8 (u32_at c (1 + 4 * i)))).

Definition at_format_func (at_name : string) (set_opt update_flash res_len : Z) : MA (Z * Z) :=
  if one_of at_name ["Z"; "E"; "ENTS"; "RSTF"; "PMTF"; "IOC"; "WLEAV"; "AOLM"; "DDNS"; "UPNP"; "DNAME"; "&DBG"; "&UPDP"]%string
  then let* n := atcmd_ok_resp in ret (0, n)
  else if one_of at_name ["DNS"; "PASS"]%string then ok_or set_opt (let* t := rsp_text 1 in ret (34 :: t ++ [34]))
  else if one_of at_name ["SSID"; "APSSID"]%string then ok_or set_opt (rsp_text 1)
  else if one_of at_name ["WPRT"; "ENCRY"; "BRDSSID"; "WATC"; "WPSM"; "WARC"; "WARM"; "ATM"; "PORTM"; "IOM"; "CMDM";
       "ONESHOT"; "ONEMODE"; "APENCRY"]%string then ok_or set_opt (let* v := rsp_byte 0 in ret (fmt_u v))
  else if one_of at_name ["KEY"; "APKEY"]%string then fmt_key set_opt
  else if one_of at_name ["BSSID"]%string then
    ok_or set_opt (
      let* enable := rsp_byte 0 in
      let* m := rsp_bytes 1 6 in
      ret (if truth enable then fmt_u enable ++ [44] ++ (m ≫= fmt_02x) else fmt_u enable))
  else if one_of at_name ["CNTPARAM"]%string then fmt_cntparam set_opt res_len
  else if one_of at_name ["CHL"; "APCHL"]%string then
    ok_or set_opt (
      let* enable := rsp_byte 0 in
      let* channel := rsp_byte 1 in
      ret (if truth enable then fmt_u enable ++ [44] ++ fmt_u channel else fmt_u enable))
  else if one_of at_name ["CHLL"]%string then ok_or set_opt (let* v := rsp_u16 0 in ret (fmt_x 4 v))
  else if one_of at_name ["WREG"; "ATLT"; "ATPT"; "ESPT"]%string then ok_or set_opt (let* v := rsp_u16 0 in ret (fmt_u v))
  else if one_of at_name ["WBGR"; "APWBGR"]%string then
    ok_or set_opt (let* mode := rsp_byte 0 in let* rate := rsp_byte 1 in ret (fmt_u mode ++ [44] ++ fmt_u rate))
  else if one_of at_name ["NIP"; "APNIP"]%string then
    ok_or set_opt (
      let* type := rsp_byte 0 in
      let* c := gets cmdrsp in
      ret (fmt_u type ++ [44] ++ fmt_4 (slice c 1 4) ++ [44] ++ fmt_4 (slice c 5 4) ++ [44] ++
           fmt_4 (slice c 9 4) ++ [44] ++ fmt_4 (slice c 13 4)))
  else if one_of at_name ["ATRM"]%string then ok_or set_opt fmt_atrm
  else if one_of at_name ["UART"]%string then
    ok_or set_opt (
      let* c := gets cmdrsp in
      let* char_len := rsp_byte 3 in
      let* stopbit := rsp_byte 4 in
      let* parity := rsp_byte 5 in
      let* flow := rsp_byte 6 in
      ret (fmt_u (of_le (slice c 0 3)) ++ [44] ++ fmt_u char_len ++ [44] ++ fmt_u stopbit ++ [44] ++
           fmt_u parity ++ [44] ++ fmt_u flow))
  else if one_of at_name ["ESPC"]%string then ok_or set_opt (let* v := rsp_byte 0 in ret (str "0x" ++ fmt_02x v))
  else if one_of at_name ["WEBS"]%string then
    ok_or set_opt (
      let* autorun := rsp_byte 0 in
      let* portnum := rsp_u16 1 in
      ret (if autorun =? 1 then fmt_u autorun ++ [44] ++ fmt_u portnum else fmt_u autorun))
  else if one_of at_name ["SKRPTM"]%string then ok_or set_opt (let* v := rsp_byte 0 in ret (fmt_u v ++ [10]))
  else if one_of at_name ["&FLSW"]%string then let* n := atcmd_ok_resp in ret (0, n)
  else if one_of at_name ["&FLSR"]%string then
    let* n := rsp_byte 0 in
    let* b := fmt_words n in
    let* n := print 0 (str "+OK=" ++ b) in ret (0, n)
  else other_format at_name set_opt res_len.

(** ** A command *)

Definition atcmd_nop_proc (tok : tls_atcmd_token_t) : MA (Z * Z) :=
  let* n := if negb (truth (arg_found tok)) && (op tok =? ATCMD_OP_NULL) then atcmd_ok_resp
            else atcmd_err_resp CMD_ERR_OPS in
  ret (0, n).
(** The label [err]. *)
Definition exec_err (err : Z) : MA (Z * Z) := let* n := print 0 (str "+ERR=" ++ fmt_int err) in ret (err, n).
(** The return value and [*res_len]. *)
Definition tls_hostif_atcmd_exec (tok : tls_atcmd_token_t) (res_len : Z) : MA (Z * Z) :=
  let* n := of_opt (c_string (name tok)) in
  if blen n =? 0 then atcmd_nop_proc tok
  else
    match find_cmd n with
    | None => exec_err (- CMD_ERR_UNSUPP)
    | Some match_ =>
        let* c := on_prm (palloc CMD_SIZE) in
        if bool_decide (c = None) then exec_err (- CMD_ERR_MEM) else
        let* c := on_prm (palloc CMDRSP_SIZE) in
        if bool_decide (c = None) then exec_err (- CMD_ERR_MEM) else
        let '(err, set_opt, update_flash) :=
          hostif_check_atcmd_opt (op tok) (arg_found tok) (op_flag match_) (at_arg_len match_) in
        if truth err then exec_err err
        else
          modify (set_cmd (replicate (Z.to_nat CMD_SIZE) 0)) ;;
          let* err := at_parse_func (at_name match_) tok in
          if truth err then exec_err err
          else
            modify (set_cmdrsp (replicate (Z.to_nat CMDRSP_SIZE) 0)) ;;
            let* err := proc_func (at_name match_) set_opt update_flash in
            if truth err then exec_err err
            else
              let* ' (err, n) := at_format_func (at_name match_) set_opt update_flash res_len in
              if truth err && negb (err =? - CMD_ERR_SKT_RPT) then exec_err err
              else ret (err, n)
    end.

(** The wait of [tls_hostif_process_cmdrsp] for room in the transmit buffer. *)
Fixpoint wait_room (polls : nat) (uart_no buflen remain_len : Z) : MA unit :=
  if remain_len <? buflen then
    match polls with
    | O => stuck
    | S polls =>
        let* n := gets net in
        on_net (time_delay 2) ;;
        wait_room polls uart_no buflen (tx_remain_len uart_no n)
    end
  else ret tt.
(** [tls_hostif_process_cmdrsp] for the two serial ports; the message takes a
    block, the answer goes with it. *)
Definition tls_hostif_process_cmdrsp (hostif_type cmdrsp_size : Z) : MA Z :=
  if cmdrsp_size =? 0 then ret (-1)
  else
    let* tx_msg := on_prm (palloc 36) in
    if bool_decide (tx_msg = None) then ret (-1)
    else
      let buflen := u16 cmdrsp_size in
      wait_room room_polls (if hostif_type =? HOSTIF_MODE_UART0 then 0 else 1) buflen 0 ;;
      let* r := gets rsp in
      on_net (uart_send_tx_msg hostif_type (slice r 0 buflen)) ;;
      ret 0.
(** The echo of a line, which goes out without a wait. *)
Definition tls_hostif_atcmd_loopback (hostif_type : Z) (buf : list Z) : MA Z :=
  let* tx_msg := on_prm (palloc 36) in
  if bool_decide (tx_msg = None) then ret (-1)
  else on_net (uart_send_tx_msg hostif_type buf) ;; ret 0.

Definition toupper (c : Z) : Z := if (97 <=? c) && (c <=? 122) then c - 32 else c.
(** The first [n] characters of the name. *)
Definition upper_name (n : Z) (tok : tls_atcmd_token_t) : tls_atcmd_token_t :=
  set_tok_name ((toupper <$> take (Z.to_nat n) (name tok)) ++ drop (Z.to_nat n) (name tok)) tok.

(** [tls_hostif_cmd_handler] for a line of a serial port, which the caller has
    stored in [line]: the return value. *)
Definition tls_hostif_cmd_handler (hostif_cmd_type length : Z) : MA Z :=
  let* t := on_prm (palloc TOK_SIZE) in
  if bool_decide (t = None) then ret (-1)
  else
    let hostif_type := if hostif_cmd_type =? HOSTIF_UART1_AT_CMD then HOSTIF_MODE_UART1_LS else HOSTIF_MODE_UART0 in
    let* h := gets hif in
    let* go := (if truth (uart_insdisp h) then
        let* b := on_prm (palloc (length + 1)) in
        match b with
        | None => ret false
        | Some b =>
            let* l := gets line in
            let* b := copy b 0 l 0 length in
            let* b := put b (length - 1) [13] in
            let* b := put b length [10] in
            tls_hostif_atcmd_loopback hostif_type b ;;
            ret true
        end
      else ret true) in
    if negb go then ret (-1)
    else
      let* r := on_prm (palloc CMD_RSP_BUF_SIZE) in
      match r with
      | None => ret (-1)
      | Some r =>
          modify (set_rsp r) ;;
          let tok := set_cmd_mode (if hostif_cmd_type =? HOSTIF_UART0_AT_CMD then CMD_MODE_UART0_ATCMD else CMD_MODE_UART1_ATCMD) zero_tok in
          let* l := gets line in
          let* ' (err, tok, l) := of_opt (tls_atcmd_parse tok l 3 (u32 (length - 3))) in
          modify (set_line l) ;;
          let* n := (if truth err then print 0 (str "+ERR=" ++ fmt_int err ++ [13; 10])
            else
              let* name_len := of_opt (strlen (name tok)) in
              let tok := upper_name name_len tok in
              let* ' (err, n) := tls_hostif_atcmd_exec tok CMD_RSP_BUF_SIZE in
              if negb (err =? - CMD_ERR_SKT_RPT) && negb (err =? - CMD_ERR_SKT_SND) then
                append n [13; 10; 13; 10; 0] ;; ret (n + 4)
              else ret n) in
          tls_hostif_process_cmdrsp hostif_type n
      end.
End exec.
