(* ===== verification/AtSpec.v ===== *)
(** * What the commands promise

    A line of the host from end to end: it is parsed, carried out on the
    parameter store and answered.  Commands that set or ask for a number or a
    name, what is refused, what survives a restart, and the commands that run
    over their buffers. *)
From Stdlib Require Import String.
From S2P Require Import Prelude Utils FlashStore Params Uart AtToken AtCmdp AtExec.
From stdpp Require Import list.
From S2P Require Import ParamLayout.
#[local] Open Scope Z_scope.

(** What is asked of the line to the host: sooner or later there is room for an
    answer. *)
Class AtNetOk (N : Type) `{!AtNet N} :=
  room_soon p n : ∃ k, (k < room_polls)%nat ∧ CMD_RSP_BUF_SIZE <= tx_remain_len p (Nat.iter k (time_delay 2) n).

(** * Lines *)

(** A command without arguments, or with arguments and an exclamation mark or
    none; the line of the serial port that holds it. *)
Definition command (n : list Z) (a : option (bool * list (list Z))) : list Z :=
  match a with None => n | Some (e, l) => line_pre n e ++ join_args l end.
Definition at_text (n : list Z) a : list Z := str "AT+" ++ command n a.
Definition command_ok (a : option (bool * list (list Z))) : Prop :=
  match a with
  | None => True
  | Some (e, l) => args_ok l ∧ l ≠ [] ∧ (length l <= 9)%nat ∧ (e = false → head (join_args l) ≠ Some 33 ∧ head (join_args l) ≠ Some 63)
  end.
Definition command_op (a : option (bool * list (list Z))) : Z :=
  match a with None => ATCMD_OP_NULL | Some (true, _) => ATCMD_OP_EP | Some (false, _) => ATCMD_OP_EQ end.
Definition command_count (a : option (bool * list (list Z))) : Z :=
  match a with None => 0 | Some (_, l) => Z.of_nat (length l) end.
(** The line and the pointers of the token once it is parsed. *)
Definition parsed_line n a rest : list Z :=
  str "AT+" ++ match a with None => n ++ 10 :: 0 :: rest | Some (e, l) => line_pre n e ++ cut l ++ 0 :: rest end.
Definition start_tok (ty : Z) : tls_atcmd_token_t :=
  set_cmd_mode (if ty =? HOSTIF_UART0_AT_CMD then CMD_MODE_UART0_ATCMD else CMD_MODE_UART1_ATCMD) zero_tok.

Definition parsed_tok n a (t : tls_atcmd_token_t) : Prop :=
  c_string (name t) = Some n ∧ op t = command_op a ∧ arg_found t = command_count a ∧
  ∀ e l i, a = Some (e, l) → (i < length l)%nat → arg t !! i = Some (Some (3 + blen (line_pre n e) + arg_start l i)).

Lemma line_parsed ty n a rest : name_ok n → command_ok a → blen (at_text n a) + 1 < 2 ^ 31 →
  ∃ t, tls_atcmd_parse (start_tok ty) (at_text n a ++ 10 :: 0 :: rest) 3 (u32 (blen (at_text n a) + 1 - 3)) =
    Some (0, t, parsed_line n a rest) ∧ parsed_tok n a t.
Proof.
  intros Hn Ha Hlen. assert (tok_ok (start_tok ty)) as Htok by (split; reflexivity).
  unfold at_text in *. rewrite blen_app in *. change (blen (str "AT+")) with 3 in *.
  pose proof (blen_nonneg (command n a)). rewrite u32_id by (unfold is_u32; lia).
  replace (3 + blen (command n a) + 1 - 3) with (blen (command n a) + 1) by lia.
  rewrite <- app_assoc. change 3 with (blen (str "AT+")) at 1.
  destruct a as [[e l]|]; cbn [command] in *.
  - destruct Ha as (Hargs & Hne & H9 & He).
    assert (cmd_line n e l = line_pre n e ++ join_args l ++ [10]) as Hcl by (unfold cmd_line, line_pre; by rewrite <- app_assoc).
    assert (blen (line_pre n e ++ join_args l) + 1 = blen (cmd_line n e l)) as Hl
      by (rewrite Hcl, !blen_app; change (blen [10]) with 1; lia).
    destruct (parse_line_ok (start_tok ty) (str "AT+") rest n e l) as (t & Hrun & Hname & Hop & _ & Hf & Harg); try done; [lia|].
    exists t. rewrite Hl. replace ((line_pre n e ++ join_args l) ++ 10 :: 0 :: rest) with (cmd_line n e l ++ 0 :: rest)
      by (rewrite Hcl, <- !app_assoc; done).
    rewrite Hrun. split; [by rewrite <- app_assoc|]. split; [done|]. split; [by rewrite Hop; destruct e|]. split; [done|].
    intros e' l' i [= <- <-] Hi. rewrite Harg by done. by rewrite blen_app.
  - destruct (atcmd_parse_name (start_tok ty) (str "AT+") rest n) as (t & Hrun & Hname & Hop & _ & Hf); [done|done|].
    exists t. rewrite Hrun. split; [done|]. by split; [|split; [|split]].
Qed.

(** Letters of the name in either case. *)
Definition upper (n : list Z) : list Z := toupper <$> n.
Lemma toupper_zero c : toupper c = 0 ↔ c = 0.
Proof. unfold toupper. case_if; lia. Qed.
Lemma c_string_split x n : c_string x = Some n → no_nul n ∧ ∃ t, x = n ++ 0 :: t.
Proof.
  revert n. induction x as [|c x IH]; intros n Hx; cbn [c_string] in Hx; [done|].
  destruct (c =? 0) eqn:Hc; zbool.
  - injection Hx as <-. subst. split; [by constructor|]. by exists x.
  - destruct (c_string x) as [y|]; [|done]. injection Hx as <-. destruct (IH y eq_refl) as (Hy & t & ->).
    split; [by apply Forall_cons_2|]. by exists t.
Qed.
Lemma no_nul_upper n : no_nul n → no_nul (upper n).
Proof. intros Hn. apply Forall_fmap. eapply Forall_impl; [exact Hn|]. intros c Hc. cbn. by rewrite toupper_zero. Qed.
(** What the handler makes of the token. *)
Lemma upper_name_ok n a t : parsed_tok n a t →
  strlen (name t) = Some (blen n) ∧ parsed_tok (upper n) a (upper_name (blen n) t) ∧ blen (upper n) = blen n.
Proof.
  intros (Hn & Hop & Hf & Harg). destruct (c_string_split _ _ Hn) as (Hnn & x & Hx).
  assert (blen (upper n) = blen n) as Hl by (unfold upper, blen; by rewrite length_fmap).
  split; [rewrite Hx; by apply strlen_no_nul|]. split; [|done]. split; [|split; [done|split; [done|]]].
  - unfold upper_name, blen. rewrite Nat2Z.id. cbn [name set_tok_name]. rewrite Hx, take_app_length, drop_app_length.
    apply c_string_app. by apply no_nul_upper.
  - intros e l i He Hi. cbn [arg upper_name set_tok_name]. rewrite (Harg e l i He Hi).
    by replace (blen (line_pre (upper n) e)) with (blen (line_pre n e)) by (unfold line_pre; rewrite !blen_app; lia).
Qed.

(** * The handler around a command *)

Section handler.
Context {F N : Type} `{FlashDevOk F} `{!AtNet N} `{!AtNetOk N} `{!AtOther F N}.
Variable area : param_area.
Implicit Types (s : at_st F N) (p : pst F) (tok t : tls_atcmd_token_t).
Local Open Scope c_scope.

(** The host sends a line: the port stores it and calls the handler. *)
Definition at_line (ty : Z) n a rest : M (at_st F N) Z :=
  modify (set_line (at_text n a ++ 10 :: 0 :: rest)) ;; tls_hostif_cmd_handler area ty (blen (at_text n a) + 1).

(** The store is up, the echo off. *)
Definition ready s : Prop := stored area (prm s) ∧ uart_insdisp (hif s) = 0.
Definition host_port (ty : Z) : Z := if ty =? HOSTIF_UART1_AT_CMD then HOSTIF_MODE_UART1_LS else HOSTIF_MODE_UART0.
(** The answer [text] goes to the host, after a wait for room. *)
Definition answers (ty : Z) (text : list Z) s s' : Prop :=
  ∃ k, net s' = uart_send_tx_msg (host_port ty) (text ++ [13; 10; 13; 10]) (Nat.iter k (time_delay 2) (net s)).

Lemma stored_php h p : stored area p → (∀ k, h k ≠ None) → stored area (set_php h p).
Proof. intros (? & ? & Hp) Hh. split; [done|split; [done|exact Hp]]. Qed.
Lemma stored_mem p : stored area p → mem_left p.
Proof. by intros (_ & ? & _). Qed.

(** Nothing but the answer: the parameters in memory and in flash are as they
    were. *)
Definition unchanged s s' : Prop := ∃ h, (∀ k, h k ≠ None) ∧ prm s' = set_php h (prm s) ∧ hif s' = hif s.
Lemma unchanged_ready s s' : ready s → unchanged s s' → ready s'.
Proof. intros [Hst He] (h & Hh & Hp & Hhif). split; [rewrite Hp; by apply stored_php|by rewrite Hhif]. Qed.
Lemma unchanged_trans s1 s2 s3 : unchanged s1 s2 → unchanged s2 s3 → unchanged s1 s3.
Proof. intros (h & Hh & Hp & Hf) (h' & Hh' & Hp' & Hf'). exists h'. split; [done|]. split; [by rewrite Hp', Hp|by rewrite Hf', Hf]. Qed.
Lemma unchanged_prm s q s' : prm s = q → unchanged s s' → ∃ h, (∀ k, h k ≠ None) ∧ prm s' = set_php h q.
Proof. intros <- (h & Hh & Hp & _). by exists h. Qed.

(** An allocation while there is memory. *)
Lemma at_palloc n (Q : option (list Z) → at_st F N → Prop) s : mem_left (prm s) → 0 <= n →
  (∀ c h, (∀ k, h k ≠ None) → blen c = n → bytes_ok c → Q (Some c) (set_prm (set_php h (prm s)) s)) → wp (on_prm (palloc n)) Q s.
Proof.
  intros Hm Hn HQ. apply wp_lift, wp_palloc; [apply Hm|]. intros c Hc Hok. apply HQ; [|lia|done]. intros k. apply Hm.
Qed.

Lemma at_wait_room : ∀ polls uart len r s (Q : unit → at_st F N → Prop),
  (len <= r ∨ ∃ k, (k < polls)%nat ∧ len <= tx_remain_len uart (Nat.iter k (time_delay 2) (net s))) →
  (∀ k s', s' = set_net (Nat.iter k (time_delay 2) (net s)) s → Q tt s') → wp (wait_room polls uart len r) Q s.
Proof.
  induction polls as [|polls IH]; intros uart len r s Q Hroom HQ; cbn [wait_room]; case_if.
  - destruct Hroom as [?|(? & ? & _)]; lia.
  - apply wp_ret, (HQ O). by destruct s.
  - wp_step. wp_step. wp_step. unfold on_net. wp_step. apply IH.
    + destruct Hroom as [?|([|k] & Hk & Hlen)]; [lia|by left|right]. exists k. split; [lia|]. cbn [net set_net].
      by rewrite Nat.iter_succ_r in Hlen.
    + intros k s' ->. apply (HQ (S k)). cbn [net set_net]. by rewrite Nat.iter_succ_r.
  - apply wp_ret, (HQ O). by destruct s.
Qed.

(** [text] stands at the head of the answer. *)
Definition printed (text : list Z) s : Prop := blen (rsp s) = CMD_RSP_BUF_SIZE ∧ ∃ x, rsp s = text ++ x.
(** A command has ended with this text, of a length the return value says. *)
Definition says (text : list Z) (e m : Z) s : Prop :=
  printed text s ∧ m = blen text ∧ blen text <= 595 ∧ e ≠ - CMD_ERR_SKT_RPT ∧ e ≠ - CMD_ERR_SKT_SND.

(** Text behind what is printed. *)
Lemma wp_print_at text b (f : Z → at_st F N → Prop) (m : M (at_st F N) Z) s : blen text + blen b <= CMD_RSP_BUF_SIZE →
  printed text s →
  (∀ r, blen r = CMD_RSP_BUF_SIZE → (∃ x, r = text ++ b ++ x) → wp m f (set_rsp r s)) →
  wp (let* r := gets rsp in let* r := put r (blen text) b in modify (set_rsp r) ;; m) f s.
Proof.
  intros Hl (Hr & x & Hx) Hf. pose proof (blen_nonneg text). pose proof (blen_nonneg b).
  wp_step. wp_step. wp_step. eapply wp_of_opt; [by rewrite memcpy_Some by lia|]. wp_step. wp_step. apply Hf.
  - rewrite slice_all by done. rewrite blen_splice; lia.
  - rewrite slice_all by done. unfold splice. rewrite Hx.
    replace (Z.to_nat (blen text)) with (length text) by (unfold blen; lia).
    rewrite take_app_length. by eexists.
Qed.
Lemma wp_append text b o Q s : o = blen text → blen text + blen b <= CMD_RSP_BUF_SIZE → printed text s →
  (∀ r, printed (text ++ b) (set_rsp r s) → Q (o + blen b) (set_rsp r s)) → wp (append o b) Q s.
Proof.
  intros -> Hl Hp HQ. apply (wp_print_at text); [done|done|]. intros r Hr [x ->]. apply wp_ret, HQ.
  split; [done|]. exists x. cbn [rsp set_rsp]. by rewrite app_assoc.
Qed.
Lemma wp_print b Q s : blen b < CMD_RSP_BUF_SIZE → blen (rsp s) = CMD_RSP_BUF_SIZE →
  (∀ r, printed b (set_rsp r s) → Q (blen b) (set_rsp r s)) → wp (print 0 b) Q s.
Proof.
  intros Hl Hr HQ. change 0 with (blen []). apply (wp_print_at []);
    [rewrite blen_app; change (blen [0]) with 1; change (blen []) with 0; lia|split; [done|by exists (rsp s)]|].
  intros r Hr' [x ->]. apply wp_ret, HQ. split; [done|]. exists ([0] ++ x). cbn [rsp set_rsp app]. by rewrite <- app_assoc.
Qed.

(** The answer goes out. *)
Definition send_answer (ty e m : Z) : M (at_st F N) Z :=
  let* m := (if negb (e =? - CMD_ERR_SKT_RPT) && negb (e =? - CMD_ERR_SKT_SND) then
               append m [13; 10; 13; 10; 0] ;; ret (m + 4) else ret m) in
  tls_hostif_process_cmdrsp (host_port ty) m.
Lemma wp_send_answer ty text e m (Q : Z → at_st F N → Prop) s : says text e m s → mem_left (prm s) →
  (∀ s' h, (∀ k, h k ≠ None) → prm s' = set_php h (prm s) → answers ty text s s' → hif s' = hif s → Q 0 s') →
  wp (send_answer ty e m) Q s.
Proof.
  intros (Hp & -> & Hl & He1 & He2) Hm HQ. pose proof (blen_nonneg text). unfold send_answer.
  replace (negb (e =? - CMD_ERR_SKT_RPT) && negb (e =? - CMD_ERR_SKT_SND))%bool with true by lia.
  wp_step. wp_step. apply (wp_append text); [done|change (blen _) with 5 in |- * at 2; unfold CMD_RSP_BUF_SIZE; lia|done|].
  intros r [Hr [x Hx]]. cbn [rsp set_rsp] in Hr, Hx. wp_step. unfold tls_hostif_process_cmdrsp. replace (blen text + 4 =? 0) with false by lia.
  wp_step. apply at_palloc; [done|done|]. intros c h Hh _ _. rewrite bool_decide_eq_false_2 by done.
  wp_step. rewrite u16_id by (unfold is_u16; lia). apply at_wait_room.
  - right. cbn [net set_rsp set_prm]. destruct (room_soon (if host_port ty =? HOSTIF_MODE_UART0 then 0 else 1) (net s)) as (k & Hk & Hr').
    exists k. split; [done|]. unfold CMD_RSP_BUF_SIZE in Hr'. lia.
  - intros k s' ->. wp_steps. unfold on_net. wp_steps. apply (HQ _ h); [done|done| |done].
    exists k. cbn [net set_net set_prm set_rsp rsp]. f_equal. rewrite Hx.
    change [13; 10; 13; 10; 0] with ([13; 10; 13; 10] ++ [0]). rewrite (app_assoc text), <- app_assoc.
    rewrite slice_front by (rewrite blen_app; change (blen [13; 10; 13; 10]) with 4; lia).
    apply slice_all. by rewrite blen_app.
Qed.

Lemma palloc_run n s : mem_left (prm s) → 0 <= n → ∃ c h, (∀ k, h k ≠ None) ∧ blen c = n ∧
  on_prm (palloc n) s = Some (Some c, set_prm (set_php h (prm s)) s).
Proof.
  intros Hm Hn. assert (wp (on_prm (palloc n)) (λ c s', ∃ b h, (∀ k, h k ≠ None) ∧ blen b = n ∧ c = Some b ∧
    s' = set_prm (set_php h (prm s)) s) s) as Hw by (apply at_palloc; naive_solver).
  apply wp_total in Hw as (c & s' & Hrun & b & h & Hh & Hb & -> & ->). by exists b, h.
Qed.

(** The state when the command is looked up, and what happens to a line. *)
Definition started n a rest (h : heap) r s : at_st F N :=
  set_line (parsed_line n a rest) (set_rsp r (set_prm (set_php h (prm s)) s)).
Lemma line_runs ty n a rest s : mem_left (prm s) → uart_insdisp (hif s) = 0 →
  name_ok n → command_ok a → blen (at_text n a) + 1 < 2 ^ 31 →
  ∃ t h r, (∀ k, h k ≠ None) ∧ blen r = CMD_RSP_BUF_SIZE ∧ parsed_tok (upper n) a t ∧
    at_line ty n a rest s =
      (let* ' (e, m) := tls_hostif_atcmd_exec area t CMD_RSP_BUF_SIZE in send_answer ty e m) (started n a rest h r s).
Proof.
  intros Hm Hecho Hn Ha Hlen. destruct (line_parsed ty n a rest Hn Ha Hlen) as (t & Hparse & Htok).
  destruct (upper_name_ok n a t Htok) as (Hnl & Htok' & _).
  unfold at_line. erewrite bind_run by reflexivity. set (s1 := set_line _ s).
  unfold tls_hostif_cmd_handler.
  destruct (palloc_run TOK_SIZE s1 Hm ltac:(done)) as (c1 & h1 & Hh1 & _ & Hp1). erewrite bind_run by exact Hp1.
  rewrite bool_decide_eq_false_2 by done. erewrite bind_run by reflexivity. cbn [hif set_prm s1 set_line]. rewrite Hecho.
  change (truth 0) with false. cbn iota. erewrite bind_run by reflexivity. change (negb true) with false. cbn iota.
  destruct (palloc_run CMD_RSP_BUF_SIZE (set_prm (set_php h1 (prm s)) s1) Hh1 ltac:(done)) as (r & h & Hh & Hr & Hp2).
  erewrite bind_run by exact Hp2. cbn iota. erewrite bind_run by reflexivity. erewrite bind_run by reflexivity.
  cbn [line set_rsp set_prm s1 set_line]. unfold start_tok in Hparse. rewrite Hparse.
  erewrite bind_run by reflexivity. cbn iota. erewrite bind_run by reflexivity.
  exists (upper_name (blen n) t), h, r. do 3 (split; [done|]).
  set (s2 := started n a rest h r s).
  replace (set_line _ _) with s2 by (by destruct s). change (truth 0) with false. cbn iota.
  unfold bind at 1. unfold bind at 1. rewrite Hnl. unfold of_opt at 1.
  unfold send_answer, host_port, bind. by destruct (tls_hostif_atcmd_exec _ _ _ s2) as [[[e m] s']|].
Qed.

(** The rule for a line: what the command has to do. *)
Lemma wp_line ty n a rest (Q : Z → at_st F N → Prop) s : ready s → name_ok n → command_ok a → blen (at_text n a) + 1 < 2 ^ 31 →
  (∀ t h r, parsed_tok (upper n) a t → (∀ k, h k ≠ None) → blen r = CMD_RSP_BUF_SIZE →
     wp (tls_hostif_atcmd_exec area t CMD_RSP_BUF_SIZE) (λ '(e, m) s1, ∃ text, says text e m s1 ∧ mem_left (prm s1) ∧
       ∀ s' h', (∀ k, h' k ≠ None) → prm s' = set_php h' (prm s1) → answers ty text s1 s' → hif s' = hif s1 → Q 0 s')
       (started n a rest h r s)) →
  wp (at_line ty n a rest) Q s.
Proof.
  intros [Hst Hecho] Hn Ha Hlen Hexec. pose proof (stored_mem _ Hst) as Hm.
  destruct (line_runs ty n a rest s Hm Hecho Hn Ha Hlen) as (t & h & r & Hh & Hr & Ht & Hrun).
  apply (wp_same _ _ _ _ _ Hrun), wp_bind. eapply wp_mono; [by apply Hexec|].
  intros [e m] s1 (text & Hsays & Hm1 & HQ). by apply (wp_send_answer ty text).
Qed.

(** ** What is refused before the command is called *)

Lemma says_error e s (Q : Z * Z → at_st F N → Prop) : blen (rsp s) = CMD_RSP_BUF_SIZE → -100 < e < 0 → e ≠ - CMD_ERR_SKT_RPT → e ≠ - CMD_ERR_SKT_SND →
  (∀ r m, says (str "+ERR=" ++ fmt_int e) e m (set_rsp r s) → Q (e, m) (set_rsp r s)) → wp (exec_err e) Q s.
Proof.
  intros Hr He He1 He2 HQ. unfold exec_err. wp_step.
  assert (blen (str "+ERR=" ++ fmt_int e) <= 595).
  { rewrite blen_app. change (blen (str "+ERR=")) with 5. 
    assert (∀ k : nat, (k < 100)%nat → blen (fmt_int (- Z.of_nat k)) <= 500) as Hk.
    { intros k Hk. do 100 (destruct k as [|k]; [by vm_compute|]). lia. }
    specialize (Hk (Z.to_nat (- e)) ltac:(lia)). replace (- Z.of_nat (Z.to_nat (- e))) with e in Hk by lia. lia. }
  apply wp_print; [unfold CMD_RSP_BUF_SIZE; lia|done|]. intros r Hp. wp_step. apply HQ. done.
Qed.

Lemma command_op_cases a : command_op a = ATCMD_OP_NULL ∨ command_op a = ATCMD_OP_EQ ∨ command_op a = ATCMD_OP_EP ∨ command_op a = ATCMD_OP_QU.
Proof. destruct a as [[[] l]|]; cbn; auto. Qed.
(** Operator and number of arguments suit a command. *)
Definition suits (a : option (bool * list (list Z))) (c : tls_cmd_t) : Prop :=
  Z.land (op_flag c) (command_op a) ≠ 0 ∧ (a ≠ None → at_arg_len c <= command_count a).
Definition setting (a : option (bool * list (list Z))) : Z := if a is Some _ then 1 else 0.
Definition to_flash (a : option (bool * list (list Z))) : Z := if a is Some (true, _) then 1 else 0.
Lemma check_suits a c : suits a c → hostif_check_atcmd_opt (command_op a) (command_count a) (op_flag c) (at_arg_len c) = (0, setting a, to_flash a).
Proof.
  intros [Hf Hc]. rewrite check_opt_ok by apply command_op_cases. replace (_ =? 0) with false by lia.
  destruct a as [[[] l]|]; [| |done]; specialize (Hc ltac:(done)); cbn [command_op setting to_flash];
    by replace (_ <? _) with false by lia.
Qed.
Lemma check_refuses a c : ¬ suits a c → hostif_check_atcmd_opt (command_op a) (command_count a) (op_flag c) (at_arg_len c) = (- CMD_ERR_UNSUPP, 0, 0).
Proof.
  intros Hs. rewrite check_opt_ok by apply command_op_cases. case_if; [done|]. unfold suits in Hs.
  destruct a as [[[] l]|]; cbn [command_op command_count] in *; [| |exfalso; apply Hs; by split];
    (replace (_ <? _) with true; [done|]); symmetry; apply Z.ltb_lt; apply Z.nle_gt; intros ?; apply Hs; by split.
Qed.

(** A command found is parsed, carried out and answered. *)
Definition carry_out nm t (so uf res_len : Z) : M (at_st F N) (Z * Z) :=
  let* err := at_parse_func nm t in
  if truth err then exec_err err
  else
    modify (set_cmdrsp (replicate (Z.to_nat CMDRSP_SIZE) 0)) ;;
    let* err := proc_func area nm so uf in
    if truth err then exec_err err
    else
      let* ' (err, n) := at_format_func nm so uf res_len in
      if truth err && negb (err =? - CMD_ERR_SKT_RPT) then exec_err err
      else ret (err, n).
Definition cleared (h : heap) s : at_st F N := set_cmd (replicate (Z.to_nat CMD_SIZE) 0) (set_prm (set_php h (prm s)) s).
Lemma exec_runs n a t c res_len s : parsed_tok n a t → n ≠ [] → find_cmd n = Some c → suits a c → mem_left (prm s) →
  ∃ h, (∀ k, h k ≠ None) ∧ tls_hostif_atcmd_exec area t res_len s = carry_out (at_name c) t (setting a) (to_flash a) res_len (cleared h s).
Proof.
  intros (Hn & Hop & Hf & _) Hne Hc Hs Hm. unfold tls_hostif_atcmd_exec. rewrite Hn, Hop, Hf. erewrite bind_run by reflexivity.
  replace (blen n =? 0) with false by (destruct n; [done|rewrite blen_cons; pose proof (blen_nonneg n); lia]). rewrite Hc.
  destruct (palloc_run CMD_SIZE s Hm ltac:(done)) as (c1 & h1 & Hh1 & _ & Hp1). erewrite bind_run by exact Hp1.
  rewrite bool_decide_eq_false_2 by done.
  destruct (palloc_run CMDRSP_SIZE (set_prm (set_php h1 (prm s)) s) Hh1 ltac:(done)) as (c2 & h & Hh & _ & Hp2).
  erewrite bind_run by exact Hp2. rewrite bool_decide_eq_false_2 by done. rewrite check_suits by done. change (truth 0) with false. cbn iota.
  erewrite bind_run by reflexivity. exists h. split; [done|]. unfold carry_out, cleared. by destruct s.
Qed.
Lemma exec_refuses n a t res_len s : parsed_tok n a t → n ≠ [] → (∀ c, find_cmd n = Some c → ¬ suits a c) → mem_left (prm s) →
  ∃ h, (∀ k, h k ≠ None) ∧ tls_hostif_atcmd_exec area t res_len s = exec_err (- CMD_ERR_UNSUPP) (set_prm (set_php h (prm s)) s).
Proof.
  intros (Hn & Hop & Hf & _) Hne Hno Hm. unfold tls_hostif_atcmd_exec. rewrite Hn, Hop, Hf. erewrite bind_run by reflexivity.
  replace (blen n =? 0) with false by (destruct n; [done|rewrite blen_cons; pose proof (blen_nonneg n); lia]).
  destruct (find_cmd n) as [c|]; [|exists (php (prm s)); split; [done|by destruct s as [[]]]].
  destruct (palloc_run CMD_SIZE s Hm ltac:(done)) as (c1 & h1 & Hh1 & _ & Hp1). erewrite bind_run by exact Hp1.
  rewrite bool_decide_eq_false_2 by done.
  destruct (palloc_run CMDRSP_SIZE (set_prm (set_php h1 (prm s)) s) Hh1 ltac:(done)) as (c2 & h & Hh & _ & Hp2).
  erewrite bind_run by exact Hp2. rewrite bool_decide_eq_false_2, check_refuses by (done || by apply Hno).
  exists h. by split.
Qed.

(** The rules for a command of the table: what there is when its arguments are
    read, and what there has to be when its answer is printed. *)
Definition at_start n a rest s (t : tls_atcmd_token_t) s1 : Prop :=
  parsed_tok (upper n) a t ∧ line s1 = parsed_line n a rest ∧ cmd s1 = replicate (Z.to_nat CMD_SIZE) 0 ∧
  blen (rsp s1) = CMD_RSP_BUF_SIZE ∧ unchanged s s1 ∧ net s1 = net s ∧ stk s1 = stk s ∧ stored area (prm s1).
Lemma command_runs ty n a rest c s : ready s → find_cmd (upper n) = Some c → name_ok n → n ≠ [] → suits a c → command_ok a →
  blen (at_text n a) + 1 < 2 ^ 31 →
  ∃ t s1, at_start n a rest s t s1 ∧ at_line ty n a rest s =
    (let* ' (e, m) := carry_out (at_name c) t (setting a) (to_flash a) CMD_RSP_BUF_SIZE in send_answer ty e m) s1.
Proof.
  intros [Hst Hecho] Hc Hn Hne Hs Ha Hlen. pose proof (stored_mem _ Hst) as Hm.
  destruct (line_runs ty n a rest s Hm Hecho Hn Ha Hlen) as (t & h & r & Hh & Hr & Ht & ->).
  destruct (exec_runs (upper n) a t c CMD_RSP_BUF_SIZE (started n a rest h r s) Ht) as (h1 & Hh1 & Hrun); [by destruct n|done..|].
  exists t, (cleared h1 (started n a rest h r s)). split.
  - do 4 (split; [done|]). split; [by exists h1|]. do 2 (split; [done|]). repeat (apply stored_php; [|done]). done.
  - unfold bind. by rewrite Hrun.
Qed.
Lemma wp_command ty n a rest c (Q : Z → at_st F N → Prop) s : ready s → find_cmd (upper n) = Some c → name_ok n → n ≠ [] → suits a c →
  command_ok a → blen (at_text n a) + 1 < 2 ^ 31 →
  (∀ t s1, at_start n a rest s t s1 → wp (carry_out (at_name c) t (setting a) (to_flash a) CMD_RSP_BUF_SIZE)
     (λ '(e, m) s2, ∃ text, says text e m s2 ∧ mem_left (prm s2) ∧ net s2 = net s ∧
       ∀ s', unchanged s2 s' → answers ty text s s' → Q 0 s') s1) →
  wp (at_line ty n a rest) Q s.
Proof.
  intros Hs Hc Hn Hne Hsuit Ha Hlen HQ. destruct (command_runs ty n a rest c s) as (t & s1 & Hstart & Hrun); [done..|].
  apply (wp_same _ _ _ _ _ Hrun), wp_bind. eapply wp_mono; [by apply HQ|].
  intros [e m] s2 (text & Hsays & Hm & Hnet & HQ'). apply (wp_send_answer ty text); [done|done|].
  intros s' h Hh Hp [k Hk] Hhif. apply HQ'; [by exists h|]. exists k. by rewrite Hk, Hnet.
Qed.
Lemma command_stuck ty n a rest c s : ready s → find_cmd (upper n) = Some c → name_ok n → n ≠ [] → suits a c → command_ok a →
  blen (at_text n a) + 1 < 2 ^ 31 →
  (∀ t s1, at_start n a rest s t s1 → carry_out (at_name c) t (setting a) (to_flash a) CMD_RSP_BUF_SIZE s1 = None) →
  at_line ty n a rest s = None.
Proof.
  intros Hs Hc Hn Hne Hsuit Ha Hlen Hno. destruct (command_runs ty n a rest c s) as (t & s1 & Hstart & ->); [done..|].
  unfold bind. by rewrite (Hno t s1 Hstart).
Qed.
End handler.

(** C32: what is not a command is refused with [+ERR=-2] and changes nothing:
    names that are not in the table, in upper or lower case, operators the
    command of that name does not have, and too few arguments. *)
Theorem at_refused {F N} `{FlashDevOk F} `{!AtNet N} `{!AtNetOk N} `{!AtOther F N} area (s : at_st F N) ty n a rest :
  ready area s → name_ok n → n ≠ [] → command_ok a → blen (at_text n a) + 1 < 2 ^ 31 →
  (∀ c, find_cmd (upper n) = Some c → ¬ suits a c) →
  wp (at_line area ty n a rest) (λ r s', r = 0 ∧ answers ty (str "+ERR=-2") s s' ∧ unchanged s s') s.
Proof.
  intros Hs Hn Hne Ha Hlen Hno. pose proof (stored_mem area _ (proj1 Hs)) as Hm. apply wp_line; [done..|].
  intros t h r Ht Hh Hr. set (s1 := started n a rest h r s).
  destruct (exec_refuses area (upper n) a t CMD_RSP_BUF_SIZE s1 Ht) as (h1 & Hh1 & Hrun); [by destruct n|done|done|].
  apply (wp_same _ _ _ _ _ Hrun), says_error; [done..|]. intros r' m Hsays. exists (str "+ERR=-2"). do 2 (split; [done|]).
  intros s2 h2 Hh2 Hp2 Hans Hhif. split; [done|]. split; [exact Hans|]. exists h2. by split.
Qed.

(** * Parameters behind a command *)

Section params.
Context {F N : Type} `{FlashDevOk F} `{!AtNet N} `{!AtNetOk N} `{!AtOther F N}.
Variable area : param_area.
Hypothesis Harea : area_ok area.
Implicit Types (s : at_st F N) (p : pst F) (t : tls_atcmd_token_t).
Local Open Scope c_scope.

(** Member [fd] takes the value [v], in flash too if [to_fl], where the other
    partition keeps the record before. *)
Definition updated fd (v : list Z) (to_fl : bool) p p' : Prop :=
  sram_param p' = splice (sram_param p) (off fd) v ∧
  rec_parameters (flash_param p') = (if to_fl then splice (rec_parameters (flash_param p)) (off fd) v else rec_parameters (flash_param p)) ∧
  rec_modify_count (flash_param p') = rec_modify_count (flash_param p) + (if to_fl then 1 else 0) ∧
  (to_fl = true → part area (fl p') (other (rec_partition_num (flash_param p'))) = flash_param p).
(** A parameter as a query sees it. *)
Definition current (from_flash : bool) fd p : list Z :=
  slice (if from_flash then rec_parameters (flash_param p) else sram_param p) (off fd) (size fd).

Lemma stored_sram x p : stored area p → blen x = SYS_PARAM_SIZE → bytes_ok x → stored area (set_sram_param x p).
Proof. intros (? & ? & ? & ? & _ & _ & Hp) Hx Hok. do 6 (split; [done|]). exact Hp. Qed.
Lemma stored_blen (from_flash : bool) p : stored area p → 
  blen (if from_flash then rec_parameters (flash_param p) else sram_param p) = SYS_PARAM_SIZE.
Proof. intros (_ & _ & _ & _ & Hl & _ & Hv & _). destruct from_flash; [|done]. apply blen_rec_parameters, Hv. Qed.

Lemma at_pset id fd x uf (Q : Z → at_st F N → Prop) s : stored area (prm s) → (id, fd) ∈ member_ids →
  id ≠ TLS_PARAM_ID_AUTO_TRIGGER_PERIOD → size fd <= blen x → bytes_ok x →
  (truth uf = true → rec_modify_count (flash_param (prm s)) < 65535) →
  (∀ p, stored area p → updated fd (slice x 0 (size fd)) (truth uf) (prm s) p → Q TLS_PARAM_STATUS_OK (set_prm p s)) →
  wp (pset area id x uf) Q s.
Proof.
  intros Hst Hid Hne Hx Hok Hc HQ. unfold pset. apply wp_lift. destruct (truth uf).
  - apply wp_set_stored with (fd := fd); try done; [by apply Hc|]. intros p Hp Hs Hr Hn Hpn Hpart.
    apply HQ; [done|]. do 3 (split; [done|]). intros _. rewrite Hpn, other_other by apply Hst. exact Hpart.
  - pose proof (stored_blen false _ Hst) as Hl. cbn iota in Hl. pose proof (field_bounds fd). unfold wp.
    pose proof Hst as (_ & _ & Hlock & Hupd & _ & Hsok & _).
    rewrite (param_set_ram area id fd) by done. apply HQ; [|do 2 (split; [done|]); split; [cbn [flash_param set_sram_param]; lia|done]].
    apply stored_sram; [done| |by apply bytes_ok_splice, bytes_ok_slice]. rewrite blen_splice; [done|lia|]. rewrite blen_slice; lia.
Qed.
Lemma at_pget id fd x (from_flash : bool) (Q : list Z → at_st F N → Prop) s : stored area (prm s) → (id, fd) ∈ member_ids → size fd <= blen x →
  Q (splice x 0 (current from_flash fd (prm s))) s → wp (pget id x from_flash) Q s.
Proof.
  intros Hst Hid Hx HQ. unfold pget. wp_step. apply wp_lift. unfold wp at 1.
  rewrite (param_get_eq id fd); [|done|done|by apply stored_blen|apply Hst]. wp_step. by destruct s.
Qed.
(** After a set the member is what was set, and no other changed. *)
Lemma current_updated fd v to_fl g (from_flash : bool) p p' : stored area p → blen v = size fd → updated fd v to_fl p p' →
  (from_flash = true → g = fd → to_fl = true) →
  current from_flash g p' = if decide (g = fd) then v else current from_flash g p.
Proof.
  intros Hst Hv (Hs & Hr & _) Hfl. unfold current. rewrite <- (slice_all v (size fd)) by done. destruct from_flash.
  - rewrite Hr. pose proof (stored_blen true _ Hst). destruct to_fl.
    + rewrite <- (slice_all v (size fd)) at 1 by done. apply member_after_set; [done|lia].
    + rewrite decide_False; [done|]. intros ->. by specialize (Hfl eq_refl eq_refl).
  - rewrite Hs. pose proof (stored_blen false _ Hst). rewrite <- (slice_all v (size fd)) at 1 by done. apply member_after_set; [done|lia].
Qed.

(** ** Arguments *)

Lemma cut_split l i (b : list Z) : l !! i = Some b → ∃ x, cut l = cut (take i l) ++ b ++ 0 :: x.
Proof.
  revert i. induction l as [|a l IH]; intros [|i] Hi; simplify_eq/=; [by eexists|].
  destruct (IH i Hi) as [x ->]. exists x. by rewrite <- app_assoc.
Qed.
(** The pointer to argument [i] points to its text. *)
Lemma arg_text n e l rest i b t : parsed_tok (upper n) (Some (e, l)) t → l !! i = Some b →
  ∃ pre x, arg t !! i = Some (Some (blen pre)) ∧ parsed_line n (Some (e, l)) rest = pre ++ b ++ 0 :: x.
Proof.
  intros (_ & _ & _ & Harg) Hi. rewrite (Harg e l i eq_refl) by by apply lookup_lt_Some in Hi.
  destruct (cut_split l i b Hi) as [x Hx]. exists (str "AT+" ++ line_pre n e ++ cut (take i l)), (x ++ 0 :: rest). split.
  - rewrite !blen_app. change (blen (str "AT+")) with 3. unfold arg_start, line_pre. rewrite !blen_app.
    replace (blen (upper n)) with (blen n) by (unfold upper, blen; by rewrite length_fmap). do 2 f_equal. lia.
  - unfold parsed_line. rewrite Hx. repeat (rewrite <- app_assoc; cbn [app]). done.
Qed.
Lemma with_uint_run v pre x t i (k : Z → M (at_st F N) Z) s : 0 <= v < 2 ^ 31 → arg t !! i = Some (Some (blen pre)) →
  line s = pre ++ fmt_u v ++ 0 :: x → with_uint t i k s = k v s.
Proof.
  intros Hv Ha Hl. unfold with_uint, with_num, arg_str, arg_ptr. rewrite Ha.
  unfold bind, of_opt, gets. cbn [mbind option_bind id]. rewrite Hl, at_ptr_pre, string_to_uint_fmt_u by done.
  change (truth 0) with false. cbn iota. by rewrite u32_id by (unfold is_u32; lia).
Qed.

(** ** Commands that set or ask for a number *)

(** Its name, its parameter, the largest number it takes, whether a query reads
    the record of the flash, and the parameter that the number 0 clears. *)
Record num_cmd := mk_num { nc_name : string; nc_id : Z; nc_field : field; nc_hi : Z; nc_flash : bool; nc_key : option (Z * field) }.
Definition num_cmds : list num_cmd := [
  mk_num "ENCRY" TLS_PARAM_ID_ENCRY F_encry 8 false (Some (TLS_PARAM_ID_KEY, F_key));
  mk_num "BRDSSID" TLS_PARAM_ID_BRDSSID F_ssid_broadcast_enable 1 false None;
  mk_num "WATC" TLS_PARAM_ID_ADHOC_AUTOCREATE F_auto_create_adhoc 1 false None;
  mk_num "WPSM" TLS_PARAM_ID_PSM F_auto_powersave 1 true None;
  mk_num "WARC" TLS_PARAM_ID_AUTO_RETRY_CNT F_auto_retrycnt 255 true None;
  mk_num "WARM" TLS_PARAM_ID_ROAMING F_auto_roam 1 false None;
  mk_num "PORTM" TLS_PARAM_ID_USRINTF F_user_port_mode 3 true None;
  mk_num "IOM" TLS_PARAM_ID_IO_MODE F_IoMode 2 false None;
  mk_num "CMDM" TLS_PARAM_ID_CMD_MODE F_CmdMode 1 false None;
  mk_num "APENCRY" TLS_PARAM_ID_SOFTAP_ENCRY F_encry4softap 8 false (Some (TLS_PARAM_ID_SOFTAP_KEY, F_key4softap))]%string.

Lemma num_cmds_range c : c ∈ num_cmds → 0 <= nc_hi c < 256.
Proof. revert c. apply Forall_forall. repeat (apply Forall_cons_2; [by vm_compute|]). by apply Forall_nil_2. Qed.
(** The parameter that setting the number [x] clears. *)
Definition clears c (x : Z) : option (Z * field) := if x =? 0 then nc_key c else None.
(** The number [x] is set.  With no encryption the key goes first: all its bytes
    but the last, which the code does not write, are 0. *)
Definition num_set c (x : Z) (to_fl : bool) p p' : Prop :=
  match clears c x with
  | None => updated (nc_field c) [x] to_fl p p'
  | Some (_, key) => ∃ b q, stored area q ∧ updated key (replicate 67 0 ++ [b]) to_fl p q ∧ updated (nc_field c) [x] to_fl q p'
  end.
(** The records it takes in the flash. *)
Definition num_writes c (x : Z) : Z := if clears c x then 2 else 1.
Lemma num_set_last c x to_fl p p' : stored area p → num_set c x to_fl p p' → (to_fl = true → rec_modify_count (flash_param p) + num_writes c x <= 65535) →
  ∃ q, stored area q ∧ updated (nc_field c) [x] to_fl q p' ∧ (to_fl = true → rec_modify_count (flash_param q) < 65535).
Proof.
  unfold num_set, num_writes. destruct (clears c x) as [[kid key]|].
  - intros _ (b & q & Hq & (_ & _ & Hn & _) & Hup) Hc. exists q. split; [done|]. split; [done|]. intros ->. specialize (Hc eq_refl). lia.
  - intros Hp Hup Hc. exists p. split; [done|]. split; [done|]. intros ->. specialize (Hc eq_refl). lia.
Qed.

(** The code that clears it. *)
Definition clear_key c (x uf : Z) : M (at_st F N) unit :=
  match clears c x with
  | Some (kid, _) =>
      let* k := local 68 in
      let* k := put k 0 (replicate 67 0) in
      pset area kid k uf ;; ret tt
  | None => ret tt
  end.
(** The code of these commands. *)
Definition num_code (c : num_cmd) : Prop :=
  (nc_id c, nc_field c) ∈ member_ids ∧ nc_id c ≠ TLS_PARAM_ID_AUTO_TRIGGER_PERIOD ∧ size (nc_field c) = 1 ∧
  find_cmd (str (nc_name c)) = Some (mk_cmd (nc_name c) 0x7F 1) ∧ (∀ t, at_parse_func (nc_name c) t = parse_u8 t) ∧
  (∀ so uf m, at_format_func (nc_name c) so uf m = ok_or so (let* v := rsp_byte 0 in ret (fmt_u v)) :> M (at_st F N) _) ∧
  (∀ x kid key, clears c x = Some (kid, key) → (kid, key) ∈ member_ids ∧ kid ≠ TLS_PARAM_ID_AUTO_TRIGGER_PERIOD ∧ size key = 68) ∧
  ∃ bad set, proc_func area (nc_name c) = num_proc bad set (λ x, let* x := pget (nc_id c) x (nc_flash c) in ret (0, x)) ∧
    (∀ v, bad v = (nc_hi c <? v)) ∧ ∀ v uf s, set v uf s = (clear_key c v uf ;; pset area (nc_id c) [v] uf ;; ret 0) s.
Lemma num_cmds_code c : c ∈ num_cmds → num_code c.
Proof.
  revert c. apply Forall_forall. unfold num_cmds.
  repeat (apply Forall_cons_2; [split; [by apply in_members|do 5 (split; [done|]); split; [|do 2 eexists; split; [reflexivity|]; split; [done|]]]|]).
  all: try by apply Forall_nil_2.
  all: try (intros x kid key; unfold clears; cbn [nc_key]; destruct (x =? 0); [|done]; intros [=]; subst;
    split; [by apply in_members|by split]).
  all: intros v uf s; unfold clear_key, clears; cbn [nc_key]; try by destruct (v =? 0).
  all: unfold tls_cmd_set_encrypt, tls_cmd_set_softap_encrypt, set_encrypt; by destruct (v =? 0).
Qed.

Lemma wp_clear_key c x uf (Q : unit → at_st F N → Prop) s : num_code c → stored area (prm s) → is_u8 x →
  (truth uf = true → rec_modify_count (flash_param (prm s)) + num_writes c x <= 65535) →
  (∀ s1, hif s1 = hif s → net s1 = net s → cmd s1 = cmd s → rsp s1 = rsp s → stored area (prm s1) →
     (truth uf = true → rec_modify_count (flash_param (prm s1)) < 65535) →
     (∀ p', updated (nc_field c) [x] (truth uf) (prm s1) p' → num_set c x (truth uf) (prm s) p') → Q tt s1) →
  wp (clear_key c x uf) Q s.
Proof.
  intros (_ & _ & _ & _ & _ & _ & Hkey & _) Hst Hx Hc HQ. unfold clear_key, num_writes, num_set in *.
  destruct (clears c x) as [[kid key]|] eqn:Ek.
  - destruct (Hkey x kid key Ek) as (Hid & Hne & Hsz). unfold local, put.
    eapply wp_run; [reflexivity|]. set (k := _ <$> seqZ 0 68). set (s0 := set_stk _ s).
    assert (blen k = 68) as Hk by reflexivity. assert (bytes_ok k) as Hkok by (apply bytes_ok_fmap; intros i; apply u8_range).
    wp_step. eapply wp_of_opt; [apply memcpy_Some; rewrite ?Hk; change (blen (replicate 67 0)) with 67; lia|].
    change (slice (replicate 67 0) 0 (blen (replicate 67 0))) with (replicate 67 0). wp_step.
    assert (∃ b, splice k 0 (replicate 67 0) = replicate 67 0 ++ [b]) as [b Hb].
    { clearbody k. clear -Hk. unfold blen in Hk. do 68 (destruct k as [|? k]; [cbn in Hk; lia|]). destruct k; [|cbn in Hk; lia]. by eexists. }
    rewrite Hb. apply at_pset with (fd := key); [exact Hst|exact Hid|exact Hne|rewrite Hsz; reflexivity| | |].
    { rewrite <- Hb. apply bytes_ok_splice; [done|]. apply bytes_ok_b. reflexivity. }
    { intros He. specialize (Hc He). cbn [prm set_stk s0]. lia. }
    intros q Hq Hup. rewrite slice_all in Hup by (rewrite Hsz; reflexivity). wp_step. apply HQ; [reflexivity..|exact Hq| |].
    + intros He. specialize (Hc He). destruct Hup as (_ & _ & Hn & _). cbn [prm set_prm set_stk s0] in *. rewrite He in Hn. lia.
    + intros p' Hup'. exists b, q. split; [done|]. split; [exact Hup|exact Hup'].
  - wp_step. apply HQ; try done. intros He. specialize (Hc He). lia.
Qed.

(** Texts that the parser leaves alone. *)
Lemma plain_fmt_u v : 0 <= v < 2 ^ 31 → plain (fmt_u v) ∧ fmt_u v ≠ [] ∧ blen (fmt_u v) <= 10 ∧
  head (fmt_u v) ≠ Some 33 ∧ head (fmt_u v) ≠ Some 63.
Proof.
  intros Hv. change (2 ^ 31) with 2147483648 in Hv.
  destruct (fmt_u_spec v) as (Hd & Hne & Hlen & _); [change (10 ^ 10) with 10000000000; lia|].
  assert (∀ x, head (fmt_u v) = Some x → is_digit x) as Hh by (destruct Hd; [done|intros ? [= <-]; done]).
  split; [split|split; [done|split; [unfold blen; lia|]]].
  - eapply Forall_impl; [exact Hd|]. unfold is_digit. intros x ?. lia.
  - intros Hx%Hh. by destruct Hx.
  - split; intros Hx%Hh; by destruct Hx.
Qed.
Lemma find_cmd_name n c : find_cmd (upper n) = Some c → upper n = str (at_name c) ∧ name_ok n ∧ n ≠ [].
Proof.
  intros Hc. destruct (find_some _ _ Hc) as [Hin%list_elem_of_In Hn%bool_decide_eq_true].
  destruct (commands_found c Hin) as (_ & [Hok Hl] & Hne). rewrite Hn in *. split; [done|]. 
  assert (blen (upper n) = blen n) as Hbl by (unfold upper, blen; by rewrite length_fmap). split; [split; [|lia]|].
  - unfold upper in Hok. rewrite Forall_fmap in Hok. eapply Forall_impl; [exact Hok|]. intros x. cbn. unfold toupper. case_if; lia.
  - intros ->. apply Hne. by destruct (at_name c).
Qed.
Lemma byte_front x l : byte_at (x :: l) 0 = Some x.
Proof. done. Qed.

Lemma parse_u8_run v pre x t s : 0 <= v < 2 ^ 31 → arg_found t = 1 → arg t !! 0%nat = Some (Some (blen pre)) →
  line s = pre ++ fmt_u v ++ 0 :: x → cmd s = replicate (Z.to_nat CMD_SIZE) 0 →
  parse_u8 t s = Some (0, set_cmd (u8 v :: replicate 83 0) s).
Proof.
  intros Hv Hf Ha Hl Hc. unfold parse_u8. rewrite Hf. change (1 <? 1) with false. change (1 =? 1) with true. cbn iota.
  rewrite (with_uint_run v pre x) by done. unfold cmd_put, put, bind, gets, of_opt, modify, ret. rewrite Hc.
  by rewrite memcpy_Some by done.
Qed.
(** [+OK] after a set. *)
Lemma wp_ok_set so b (Q : Z * Z → at_st F N → Prop) s : truth so = true → blen (rsp s) = CMD_RSP_BUF_SIZE →
  (∀ r m, says (str "+OK") 0 m (set_rsp r s) → Q (0, m) (set_rsp r s)) → wp (ok_or so b) Q s.
Proof.
  intros Hso Hr HQ. unfold ok_or. rewrite Hso. unfold atcmd_ok_resp. wp_step. apply wp_print; [done|done|]. intros r Hp. wp_step. by apply HQ.
Qed.
(** and the answer after a query. *)
Lemma wp_ok_query b (P : list Z → at_st F N → Prop) (Q : Z * Z → at_st F N → Prop) s : wp b P s →
  (∀ x s1, P x s1 → blen (rsp s1) = CMD_RSP_BUF_SIZE ∧ blen x <= 591 ∧
     ∀ r m, says (str "+OK=" ++ x) 0 m (set_rsp r s1) → Q (0, m) (set_rsp r s1)) → wp (ok_or 0 b) Q s.
Proof.
  intros Hb HQ. unfold ok_or. change (truth 0) with false. cbn iota. eapply wp_seq; [exact Hb|]. intros x s1 Hx.
  destruct (HQ x s1 Hx) as (Hr & Hl & HQ'). assert (blen (str "+OK=" ++ x) <= 595) by (rewrite blen_app; change (blen (str "+OK=")) with 4; lia).
  wp_step. apply wp_print; [unfold CMD_RSP_BUF_SIZE; lia|done|]. intros r Hp. wp_step. by apply HQ'.
Qed.

(** A number is set. *)
Lemma wp_number_set c e v pre x t m (Q : Z * Z → at_st F N → Prop) s : num_code c → 0 <= v < 2 ^ 31 →
  arg_found t = 1 → arg t !! 0%nat = Some (Some (blen pre)) → line s = pre ++ fmt_u v ++ 0 :: x →
  cmd s = replicate (Z.to_nat CMD_SIZE) 0 → blen (rsp s) = CMD_RSP_BUF_SIZE → stored area (prm s) →
  (truth e = true → nc_hi c <? u8 v = false → rec_modify_count (flash_param (prm s)) + num_writes c (u8 v) <= 65535) →
  (∀ s1 q, hif s1 = hif s → net s1 = net s → prm s1 = q → stored area q →
     (if nc_hi c <? u8 v then q = prm s else num_set c (u8 v) (truth e) (prm s) q) → 
     ∀ err n, says (if nc_hi c <? u8 v then str "+ERR=-4" else str "+OK") err n s1 → Q (err, n) s1) →
  wp (carry_out area (nc_name c) t 1 e m) Q s.
Proof.
  intros Hcode Hv Hf Ha Hl Hc Hr Hst Hcount HQ. pose proof Hcode as (Hid & Hne & Hsz & _ & Hparse & Hfmt & _ & bad & set & Hproc & Hbad & Hset).
  unfold carry_out. rewrite Hparse. eapply wp_run; [by eapply parse_u8_run|]. change (truth 0) with false. cbn iota.
  wp_step. wp_step. wp_step. rewrite Hproc. unfold num_proc. change (truth 1) with true. cbn iota. wp_step. unfold cmd_byte. wp_step. wp_step. 
  eapply wp_of_opt; [apply byte_front|]. rewrite Hbad. destruct (nc_hi c <? u8 v) eqn:Hhi.
  - wp_step. change (truth INV_PARAMS) with true. cbn iota. apply says_error; [done..|]. intros r n Hsays. by eapply HQ.
  - wp_step. eapply wp_same; [apply Hset|]. wp_step.
    apply wp_clear_key; [exact Hcode|exact Hst|apply u8_range|intros He; by apply Hcount|]. intros s1 Hh1 Hn1 Hc1 Hr1 Hst1 Hcount1 Hnum.
    wp_step. apply at_pset with (fd := nc_field c); [exact Hst1|exact Hid|exact Hne|by rewrite Hsz| |exact Hcount1|].
    { apply Forall_cons_2; [apply u8_range|done]. }
    intros p Hp Hup. wp_steps. rewrite Hfmt. change (truth (ops 0)) with false. cbn iota. wp_step. apply wp_ok_set; [done|by cbn; rewrite Hr1|].
    intros r n Hsays. change (truth 0) with false. cbn [andb]. wp_step. rewrite slice_all in Hup by by rewrite Hsz.
    eapply HQ; [exact Hh1|exact Hn1|reflexivity|exact Hp|by apply Hnum|exact Hsays].
Qed.

(** The number a query answers. *)
Definition num_value c p : Z := default 0 (head (current (nc_flash c) (nc_field c) p)).
Lemma current_one c p : num_code c → stored area p → current (nc_flash c) (nc_field c) p = [num_value c p] ∧ is_u8 (num_value c p).
Proof.
  intros (_ & _ & Hsz & _) Hst. pose proof (field_bounds (nc_field c)) as Hb. pose proof (stored_blen (nc_flash c) p Hst) as Hl.
  assert (bytes_ok (current (nc_flash c) (nc_field c) p)) as Hok.
  { apply bytes_ok_slice. destruct Hst as (_ & _ & _ & _ & _ & ? & (_ & ? & _) & _). destruct (nc_flash c); [by apply bytes_ok_slice|done]. }
  assert (blen (current (nc_flash c) (nc_field c) p) = 1) as H1 by (unfold current; rewrite blen_slice; lia).
  unfold num_value. destruct (current _ _ p) as [|y [|z l]]; [done| |unfold blen in H1; cbn [length] in H1; lia].
  split; [done|]. by apply Forall_cons_1 in Hok as [? _].
Qed.
(** A number is asked for. *)
Lemma wp_number_query c e t m (Q : Z * Z → at_st F N → Prop) s : num_code c → arg_found t = 0 →
  blen (rsp s) = CMD_RSP_BUF_SIZE → stored area (prm s) →
  (∀ s1 n, prm s1 = prm s → hif s1 = hif s → net s1 = net s → says (str "+OK=" ++ fmt_u (num_value c (prm s))) 0 n s1 → Q (0, n) s1) →
  wp (carry_out area (nc_name c) t 0 e m) Q s.
Proof.
  intros Hcode Hf Hr Hst HQ. pose proof Hcode as (Hid & Hne & Hsz & _ & Hparse & Hfmt & _ & bad & set & Hproc & _).
  destruct (current_one c _ Hcode Hst) as [Hcur Hval].
  unfold carry_out. rewrite Hparse. unfold parse_u8. rewrite Hf. change (1 <? 0) with false. change (0 =? 1) with false. cbn iota.
  wp_step. wp_step. change (truth 0) with false. cbn iota. wp_step. wp_step. wp_step. rewrite Hproc. unfold num_proc. change (truth 0) with false. cbn iota.
  wp_step. unfold rsp_from. wp_step. wp_step. wp_step. wp_step. cbn [cmdrsp set_cmdrsp].
  apply (at_pget _ (nc_field c)); [done|done|rewrite Hsz; done|]. cbn [prm set_cmdrsp]. rewrite Hcur. wp_steps. change (truth (ops 0)) with false.
  cbn iota. wp_step. rewrite Hfmt. apply (wp_ok_query _ (λ x s1, x = fmt_u (num_value c (prm s)) ∧ s1 = set_cmdrsp (num_value c (prm s) :: replicate 320 0) s)).
  - unfold rsp_byte. wp_step. wp_step. wp_step. eapply wp_of_opt; [apply byte_front|]. wp_step. split; [done|]. reflexivity.
  - intros x s1 [-> ->]. split; [done|]. destruct (plain_fmt_u (num_value c (prm s))) as (_ & _ & ? & _); [change (2 ^ 31) with 2147483648; unfold is_u8 in Hval; lia|].
    split; [lia|]. intros r n Hsays. change (truth 0) with false. cbn [andb]. wp_step. by apply HQ.
Qed.
End params.

(** * Commands with a number *)

Section numbers.
Context {F N : Type} `{FlashDevOk F} `{!AtNet N} `{!AtNetOk N} `{!AtOther F N}.
Variable area : param_area.
Hypothesis Harea : area_ok area.
Implicit Types (s : at_st F N).

Lemma at_text_len n a : name_ok n → blen (command n a) <= 1000 → blen (at_text n a) + 1 < 2 ^ 31.
Proof. intros _ Hc. unfold at_text. rewrite blen_app. change (blen (str "AT+")) with 3. change (2 ^ 31) with 2147483648. lia. Qed.

(** A line that sets a number, in range or not. *)
Lemma wp_set_line ty c n e v rest (Q : Z → at_st F N → Prop) s : num_code area c → upper n = str (nc_name c) → 0 <= v < 2 ^ 31 →
  ready area s → (e = true → nc_hi c <? u8 v = false → rec_modify_count (flash_param (prm s)) + num_writes c (u8 v) <= 65535) →
  (∀ s', ready area s' →
     (if nc_hi c <? u8 v then answers ty (str "+ERR=-4") s s' ∧ unchanged s s'
      else answers ty (str "+OK") s s' ∧ num_set area c (u8 v) e (prm s) (prm s')) → Q 0 s') →
  wp (at_line area ty n (Some (e, [fmt_u v])) rest) Q s.
Proof.
  intros Hcode Hup Hv Hs Hcount HQ. pose proof Hcode as (_ & _ & _ & Hfind & _). rewrite <- Hup in Hfind.
  destruct (find_cmd_name n _ Hfind) as (_ & Hn & Hne). destruct (plain_fmt_u v Hv) as (Hplain & Hvne & Hvl & Hh1 & Hh2).
  pose proof (blen_line_pre n e). apply (wp_command area ty n _ rest _ _ s Hs Hfind); [done|done|by destruct e|..].
  { split; [split; [by left|done]|]. split; [done|]. split; [cbn; lia|by intros _]. }
  { apply at_text_len; [done|]. cbn [command join_args]. rewrite blen_app. destruct Hn. lia. }
  intros t s1 (Ht & Hl & Hc & Hr & Hun & Hnet1 & _ & Hst). cbn [at_name setting].
  destruct (arg_text n e [fmt_u v] rest 0 _ t Ht eq_refl) as (pre & x & Harg & Hline). rewrite Hline in Hl. destruct Ht as (_ & _ & Hf & _).
  destruct Hun as (h1 & Hh1' & Hp1 & Hhif1).
  apply (wp_number_set area Harea c _ v pre x t); try done; [by destruct e; [rewrite Hp1; intros _; apply Hcount|]|].
  intros s2 q Hhif Hnet Hq Hstq Hres err m Hsays. eexists. split; [exact Hsays|]. split; [rewrite Hq; by apply (stored_mem area)|].
  split; [by rewrite Hnet|]. intros s' (h' & Hh' & Hp' & Hhif') Hans.
  apply HQ; [split; [rewrite Hp', Hq; by apply stored_php|rewrite Hhif', Hhif, Hhif1; apply Hs]|].
  destruct (nc_hi c <? u8 v); (split; [done|]).
  - exists h'. split; [done|]. split; [by rewrite Hp', Hq, Hres, Hp1|by rewrite Hhif', Hhif].
  - rewrite Hp', Hq. replace (truth (to_flash (Some (e, [fmt_u v])))) with e in Hres by (by destruct e). rewrite Hp1 in Hres. exact Hres.
Qed.
(** A line that asks for it. *)
Lemma wp_query_line ty c n rest (Q : Z → at_st F N → Prop) s : num_code area c → upper n = str (nc_name c) → ready area s →
  (∀ s', answers ty (str "+OK=" ++ fmt_u (num_value c (prm s))) s s' → unchanged s s' → Q 0 s') →
  wp (at_line area ty n None rest) Q s.
Proof.
  intros Hcode Hup Hs HQ. pose proof Hcode as (_ & _ & _ & Hfind & _). rewrite <- Hup in Hfind.
  destruct (find_cmd_name n _ Hfind) as (_ & Hn & Hne). apply (wp_command area ty n _ rest _ _ s Hs Hfind); [done|done|done|done|..].
  { apply at_text_len; [done|]. cbn [command]. destruct Hn. lia. }
  intros t s1 ((_ & _ & Hf & _) & _ & _ & Hr & Hun & Hnet1 & _ & Hst). apply wp_number_query; [done|done|done|done|].
  intros s2 m Hp Hhif Hnet Hsays. eexists. split; [exact Hsays|]. split; [by rewrite Hp; apply (stored_mem area)|].
  split; [by rewrite Hnet|]. pose proof Hun as (h1 & _ & Hp1 & _). intros s' Hun' Hans. apply HQ; [by rewrite Hp1 in Hans|].
  eapply unchanged_trans; [exact Hun|]. destruct Hun' as (h' & Hh' & Hp' & Hhif').
  exists h'. split; [done|]. split; [by rewrite Hp', Hp|by rewrite Hhif', Hhif].
Qed.
End numbers.

(** C21: the ten commands for a number, from the line of the host to the answer.
    The number goes through a byte: [v] modulo 256 is checked and set, in
    memory, and with [=!] in flash too (as long as the count of records there
    does not wrap); more than the largest number of the command is answered with
    [+ERR=-4] and changes nothing.  The number 0 of ENCRY and APENCRY also
    clears the key, but for its last byte.  A query answers the current value. *)
Theorem at_number {F N} `{FlashDevOk F} `{!AtNet N} `{!AtNetOk N} `{!AtOther F N} area (s : at_st F N) ty c n e v rest :
  area_ok area → c ∈ num_cmds → upper n = str (nc_name c) → 0 <= v < 2 ^ 31 → ready area s →
  (e = true → nc_hi c <? u8 v = false → rec_modify_count (flash_param (prm s)) + num_writes c (u8 v) <= 65535) →
  wp (at_line area ty n (Some (e, [fmt_u v])) rest) (λ r s', r = 0 ∧ ready area s' ∧
    if nc_hi c <? u8 v then answers ty (str "+ERR=-4") s s' ∧ unchanged s s'
    else answers ty (str "+OK") s s' ∧ num_set area c (u8 v) e (prm s) (prm s')) s ∧
  wp (at_line area ty n None rest) (λ r s', r = 0 ∧ answers ty (str "+OK=" ++ fmt_u (num_value c (prm s))) s s' ∧ unchanged s s') s.
Proof.
  intros Ha Hc Hn Hv Hs Hcount. pose proof (num_cmds_code (F := F) (N := N) area c Hc) as Hcode. split.
  - by apply (wp_set_line area Ha ty c).
  - by apply (wp_query_line area ty c).
Qed.

(** C8: a number that a host sets for good, with [=!] and one of the ten
    commands, in their range, is what a query answers after a restart from the
    flash as the command left it, as long as the count of records in the flash
    does not wrap. *)
Theorem at_number_lasts {F N} `{FlashDevOk F} `{!AtNet N} `{!AtNetOk N} `{!AtOther F N} area (s : at_st F N) ty c n v rest :
  area_ok area → c ∈ num_cmds → upper n = str (nc_name c) → 0 <= v <= nc_hi c → ready area s →
  rec_modify_count (flash_param (prm s)) + num_writes c v <= 65535 →
  wp (at_line area ty n (Some (true, [fmt_u v])) rest) (λ r s', r = 0 ∧
    ∀ h u s1, (∀ k, h k ≠ None) → prm s1 = reboot (fl (prm s')) h u → uart_insdisp (hif s1) = 0 →
      wp (on_prm (tls_param_init area true)) (λ r1 s2, r1 = TLS_PARAM_STATUS_OK ∧
        wp (at_line area ty n None rest) (λ r3 s3, r3 = 0 ∧ answers ty (str "+OK=" ++ fmt_u v) s2 s3) s2) s1) s.
Proof.
  intros Ha Hc Hn Hv Hs Hcount. pose proof (num_cmds_code (F := F) (N := N) area c Hc) as Hcode.
  assert (0 <= nc_hi c < 256) as Hr by (by apply num_cmds_range).
  assert (u8 v = v) as Hv8 by (apply u8_id; unfold is_u8; lia). change (2 ^ 31) with 2147483648 in *.
  apply (wp_set_line area Ha ty c); [done|done|change (2 ^ 31) with 2147483648; lia|done|by rewrite Hv8|].
  intros s' Hs'. rewrite Hv8. replace (nc_hi c <? v) with false by lia. intros [_ Hset]. split; [done|].
  destruct Hs as [Hst0 _]. destruct (num_set_last area c v true _ _ Hst0 Hset ltac:(done)) as (q & Hst & (Hup1 & Hup2 & Hup3 & Hup4) & Hqc).
  specialize (Hqc eq_refl).
  intros h u s1 Hh Hp1 He1. apply wp_lift. rewrite Hp1.
  destruct Hs' as [(Hf & _ & _ & _ & _ & _ & Hrv & Hri & Hrp & _) _].
  eapply wp_restart_newer; [exact Ha|exact Hri|exact Hf|exact Hh|exact Hrv|exact Hrp|reflexivity|..].
  { rewrite Hup4 by done. apply Hst. }
  { rewrite Hup4 by done. lia. }
  intros p Hp Hsr Hfl. split; [done|]. 
  assert (num_value c p = v) as Hval.
  { destruct Hcode as (_ & _ & Hsz & _). pose proof (field_bounds (nc_field c)). pose proof (stored_blen area true _ Hst) as Hl. cbn iota in Hl.
    unfold num_value, current. replace (if nc_flash c then _ else _) with (splice (rec_parameters (flash_param q)) (off (nc_field c)) [v])
      by (destruct (nc_flash c); rewrite ?Hsr, Hfl || rewrite Hsr; congruence).
    rewrite slice_splice_same; [done|lia|rewrite blen_cons; change (blen []) with 0; lia|done]. }
  rewrite <- Hval.
  apply (wp_query_line area ty c n rest _ (set_prm p s1)); try done. 
Qed.

(** * Texts *)

Section texts.
Context {F N : Type} `{FlashDevOk F} `{!AtNet N} `{!AtNetOk N} `{!AtOther F N}.
Variable area : param_area.
Hypothesis Harea : area_ok area.
Implicit Types (s : at_st F N) (p : pst F) (t : tls_atcmd_token_t).
Local Open Scope c_scope.

(** The argument [b] of a line stands for the text [x], in quotes or without. *)
Definition text_arg (b x : list Z) : Prop := b = x ∧ plain x ∧ x ≠ [] ∨ b = quote x ∧ one_line x.
Lemma one_line_no_nul x : one_line x → no_nul x.
Proof. intros Hx. eapply Forall_impl; [exact Hx|]. by intros y [? _]. Qed.
Lemma text_arg_ok b x : text_arg b x → arg_ok b ∧ b ≠ [] ∧ no_nul x.
Proof.
  intros [(-> & Hp & Hx)|[-> Hx]].
  - split; [by left|split; [done|]]. eapply Forall_impl; [exact (proj1 Hp)|]. by intros y [? _].
  - split; [right; by exists x|split; [done|by apply one_line_no_nul]].
Qed.
Lemma with_text_run b x pre y t i (k : Z → M (at_st F N) Z) s : text_arg b x → blen b <= 255 → arg t !! i = Some (Some (blen pre)) →
  line s = pre ++ b ++ 0 :: y → ∃ q l z, at_ptr l q = x ++ 0 :: z ∧ with_text t i k s = k q (set_line l s).
Proof.
  intros Hb Hlen Ha Hl. pose proof (text_arg_ok b x Hb) as (_ & _ & Hx). unfold with_text, arg_ptr. rewrite Ha. destruct Hb as [(-> & Hp & Hne)|[-> Hq]].
  - exists (blen pre), (pre ++ x ++ 0 :: y), y. split; [apply at_ptr_pre|].
    unfold bind, of_opt, gets, modify. cbn [mbind option_bind id]. rewrite Hl, filter_plain; [done|done|]. 
    destruct x; [done|]. by apply Hp.
  - destruct (filter_quote x pre y Hx Hlen) as (junk & Hf & _). exists (blen pre + 1), (pre ++ 34 :: x ++ 0 :: junk ++ y), (junk ++ y).
    split; [by rewrite at_ptr_app|]. unfold bind, of_opt, gets, modify. cbn [mbind option_bind id]. by rewrite Hl, Hf.
Qed.

Lemma splice_counted x k : blen x <= k →
  splice (splice (replicate (Z.to_nat (k + 1)) 0) 0 [blen x]) 1 x = blen x :: x ++ replicate (Z.to_nat (k - blen x)) 0.
Proof.
  intros Hk. pose proof (blen_nonneg x). replace (Z.to_nat (k + 1)) with (S (Z.to_nat k)) by lia. unfold splice.
  change (Z.to_nat 0) with 0%nat. change (Z.to_nat 1) with 1%nat. cbn [replicate take drop length Nat.add app]. rewrite take_0, drop_0, app_nil_l.
  do 2 f_equal. rewrite drop_replicate. f_equal.
  unfold blen. lia.
Qed.
(** The text and its length go to the union, as far as there is room. *)
Lemma take_text_run x q z s : no_nul x → at_ptr (line s) q = x ++ 0 :: z → blen x <= 255 → cmd s = replicate (Z.to_nat CMD_SIZE) 0 →
  take_text 0 q s = if blen x <=? 83 then Some (tt, set_cmd (blen x :: x ++ replicate (Z.to_nat (83 - blen x)) 0) s) else None.
Proof.
  intros Hx Hq Hl Hc. pose proof (blen_nonneg x). unfold take_text, cmd_put, put, bind, gets, of_opt, modify. cbv beta iota.
  rewrite Hq, strlen_no_nul by done. cbv beta iota. rewrite Hc, (u8_id (blen x)) by (unfold is_u8; lia). 
  rewrite memcpy_Some by done. cbv beta iota. cbn [cmd set_cmd]. unfold memcpy.
  change (slice [blen x] 0 (blen [blen x])) with [blen x].
  rewrite (slice_front x) by lia. rewrite (slice_all x) by done. rewrite blen_app, blen_cons. pose proof (blen_nonneg z).
  change (blen (splice (replicate (Z.to_nat CMD_SIZE) 0) 0 [blen x])) with 84.
  destruct (blen x <=? 83) eqn:E; zbool.
  - replace ((_ && _)%bool) with true by lia. cbv beta iota. cbn [set_cmd prm net stk uart1 hif socket_cfg line cmd cmdrsp rsp].
    do 2 f_equal. unfold set_cmd. f_equal. by apply (splice_counted x 83).
  - by replace ((_ && _)%bool) with false by lia.
Qed.

(** The commands with one text. *)
Definition text_cmds : list string := ["SSID"; "DNS"; "PASS"; "APSSID"]%string.
Lemma text_cmds_code nm : nm ∈ text_cmds → find_cmd (str nm) = Some (mk_cmd nm 0x7F 1) ∧
  ∀ t, at_parse_func nm t = parse_text t :> M (at_st F N) Z.
Proof. revert nm. apply Forall_forall. repeat (apply Forall_cons_2; [done|]). by apply Forall_nil_2. Qed.
Lemma text_line_ok b x e : text_arg b x → (e = false → head b ≠ Some 33 ∧ head b ≠ Some 63) → command_ok (Some (e, [b])).
Proof. intros Hb He. destruct (text_arg_ok b x Hb) as (? & ? & _). split; [done|]. split; [done|]. split; [cbn; lia|done]. Qed.

(** The text has arrived in the union, if it fits. *)
Lemma parse_text_run n e b x t s0 rest s : at_start area n (Some (e, [b])) rest s0 t s → text_arg b x → blen b <= 255 → blen x <= 255 →
  ∃ l, parse_text t s = if blen x <=? 83 then Some (0, set_cmd (blen x :: x ++ replicate (Z.to_nat (83 - blen x)) 0) (set_line l s)) else None.
Proof.
  intros (Ht & Hl & Hc & _) Hb Hbl Hxl. destruct (arg_text n e [b] rest 0 _ t Ht eq_refl) as (pre & y & Harg & Hline). rewrite Hline in Hl.
  destruct Ht as (_ & _ & Hf & _). pose proof (text_arg_ok b x Hb) as (_ & _ & Hx).
  unfold parse_text. rewrite Hf. change (1 <? command_count (Some (e, [b]))) with false. change (command_count (Some (e, [b])) =? 1) with true. cbn iota.
  destruct (with_text_run b x pre y t 0 (λ q, take_text 0 q ;; ret 0) s Hb Hbl Harg Hl) as (q & l & z & Hq & ->).
  exists l. unfold bind. rewrite (take_text_run x q z) by done. by case_if.
Qed.

(** ** The name of the network *)

(** A parameter of 36 bytes that holds the name [x]. *)
Definition holds_name (x P : list Z) : Prop := blen P = 36 ∧ slice P 0 (blen x) = x ∧ u32_at P 32 = blen x.
Lemma slice_counted a x y : slice (a :: x ++ y) 1 (blen x) = x.
Proof. change (a :: x ++ y) with ([a] ++ x ++ y). change 1 with (blen [a] + 0). rewrite slice_pre by done. rewrite slice_front by done. by apply slice_all. Qed.
Lemma bytes_ok_local n s : bytes_ok ((λ i, u8 (stk s O i)) <$> seqZ 0 n).
Proof. apply bytes_ok_fmap. intros i. apply u8_range. Qed.
Lemma holds_name_built loc x : blen loc = 36 → blen x <= 32 → holds_name x (splice (splice loc 32 (le32 (blen x))) 0 x).
Proof.
  intros Hl Hx. pose proof (blen_nonneg x). pose proof (blen_le32' (blen x)) as H4.
  assert (blen (splice loc 32 (le32 (blen x))) = 36) as Hl' by (rewrite blen_splice; lia). split; [rewrite blen_splice; lia|].
  split; [rewrite slice_splice_same; [done|lia|lia|done]|]. unfold u32_at. rewrite slice_splice_disj by lia.
  rewrite slice_splice_same by lia. apply of_le_le32. unfold is_u32. lia.
Qed.

(** [tls_cmd_set_ssid] with a name of [blen x] characters. *)
Lemma wp_set_ssid x y uf (Q : Z → at_st F N → Prop) s : stored area (prm s) → blen x <= 32 → bytes_ok x →
  (truth uf = true → rec_modify_count (flash_param (prm s)) < 65535) →
  (∀ p P s', stored area p → holds_name x P → updated area F_ssid P (truth uf) (prm s) p → prm s' = p → hif s' = hif s → net s' = net s →
     rsp s' = rsp s → Q 0 s') → wp (tls_cmd_set_ssid area (blen x :: x ++ y) uf) Q s.
Proof.
  intros Hst Hx Hok Hc HQ. unfold tls_cmd_set_ssid. wp_step. unfold local, wp at 1. cbv beta. set (loc := _ <$> seqZ 0 36).
  assert (blen loc = 36) as Hloc by (unfold loc; by rewrite blen_fmap_seqZ). pose proof (blen_nonneg x). pose proof (blen_nonneg y).
  wp_step. eapply wp_of_opt; [apply byte_front|]. replace (32 <? blen x) with false by lia. pose proof (blen_le32' (blen x)) as H4.
  wp_step. eapply wp_of_opt; [by rewrite memcpy_Some by lia|]. rewrite (slice_all (le32 _)) by done.
  wp_step. eapply wp_of_opt; [rewrite memcpy_Some; [done|lia|lia|rewrite blen_splice; lia|lia|rewrite blen_cons, blen_app; lia]|].
  rewrite slice_counted. pose proof (holds_name_built loc x Hloc Hx) as Hname. set (P := splice _ 0 x) in *. pose proof Hname as (HP & _).
  wp_step. apply (at_pset area Harea _ F_ssid); [done|by apply in_members|done|by rewrite HP| |done|].
  { repeat apply bytes_ok_splice; [apply bytes_ok_local|apply bytes_ok_le32|done]. }
  intros p Hp Hup. wp_step. rewrite slice_all in Hup by by rewrite HP. by eapply HQ.
Qed.

(** The procedure of [SSID], for a text of any length that fits the union. *)
Lemma wp_ssid_proc x uf (Q : Z → at_st F N → Prop) s : stored area (prm s) → 0 < blen x <= 83 → bytes_ok x →
  cmd s = blen x :: x ++ replicate (Z.to_nat (83 - blen x)) 0 →
  (truth uf = true → rec_modify_count (flash_param (prm s)) < 65535) →
  (if 32 <? blen x then Q INV_PARAMS s else ∀ P s', stored area (prm s') → holds_name x P → updated area F_ssid P (truth uf) (prm s) (prm s') →
     hif s' = hif s → net s' = net s → rsp s' = rsp s → Q 0 s') → wp (ssid_proc area 1 uf) Q s.
Proof.
  intros Hst Hx Hok Hc Hcount HQ. unfold ssid_proc, text_proc. change (truth 1) with true. cbn iota. unfold cmd_byte. wp_step. wp_step. wp_step.
  rewrite Hc. eapply wp_of_opt; [apply byte_front|]. replace (blen x =? 0) with false by lia. rewrite orb_false_r.
  destruct (32 <? blen x) eqn:E; zbool; [by wp_step|]. set (c := blen x :: _) in *.
  assert (blen c = 84) as Hcl by (unfold c; rewrite blen_cons, blen_app, blen_replicate; lia).
  wp_step. eapply wp_of_opt; [by rewrite memcpy_Some by done|]. rewrite (slice_all [blen x]) by done.
  wp_step. wp_step. rewrite Hc. wp_step. eapply wp_of_opt; [rewrite memcpy_Some; [done|lia|lia|change (blen (splice _ _ _)) with 33; lia|lia|lia]|].
  unfold c at 1. rewrite slice_counted. change 33%nat with (Z.to_nat (32 + 1)). rewrite splice_counted by lia.
  wp_step. apply wp_set_ssid; [done|lia|done|done|]. intros p P s' Hp Hname Hup Hps Hhif Hnet Hrsp. wp_step. change (ops 0) with 0.
  apply (HQ P); try done; by rewrite Hps.
Qed.

(** A query for the name. *)
Lemma wp_get_ssid x P (Q : Z * list Z → at_st F N → Prop) s : stored area (prm s) → holds_name x P → blen x <= 32 → current false F_ssid (prm s) = P →
  Q (0, blen x :: x ++ replicate (Z.to_nat (32 - blen x)) 0) (set_stk (λ k, stk s (S k)) s) → wp (tls_cmd_get_ssid (replicate 33 0)) Q s.
Proof.
  intros Hst (HP & Hs & Hu) Hx Hcur HQ. unfold tls_cmd_get_ssid, get_ssid. wp_step. unfold local, wp at 1. cbv beta. set (loc := _ <$> seqZ 0 36).
  assert (blen loc = 36) as Hloc by (unfold loc; by rewrite blen_fmap_seqZ). pose proof (blen_nonneg x).
  wp_step. apply (at_pget area _ F_ssid); [done|by apply in_members|by rewrite Hloc|]. cbn [prm set_stk]. rewrite Hcur, splice_all by congruence.
  rewrite Hu. replace (32 <? blen x) with false by lia. rewrite u8_id by (unfold is_u8; lia).
  wp_step. eapply wp_of_opt; [by rewrite memcpy_Some by done|]. rewrite (slice_all [blen x]) by done.
  wp_step. eapply wp_of_opt; [rewrite memcpy_Some; [done|lia|lia|change (blen (splice _ _ _)) with 33; lia|lia|lia]|].
  rewrite Hs. change 33%nat with (Z.to_nat (32 + 1)). rewrite splice_counted by lia. by wp_step.
Qed.
Lemma c_string_padded x k : no_nul x → (0 < k)%nat → c_string (x ++ replicate k 0) = Some x.
Proof. intros Hx Hk. destruct k; [lia|]. by apply c_string_app. Qed.
Lemma wp_ssid_query x P t e m (Q : Z * Z → at_st F N → Prop) s : stored area (prm s) → holds_name x P → blen x <= 32 → no_nul x →
  current false F_ssid (prm s) = P → arg_found t = 0 → blen (rsp s) = CMD_RSP_BUF_SIZE →
  (∀ s1 n, prm s1 = prm s → hif s1 = hif s → net s1 = net s → says (str "+OK=" ++ x) 0 n s1 → Q (0, n) s1) →
  wp (carry_out area "SSID" t 0 e m) Q s.
Proof.
  intros Hst Hname Hx Hnn Hcur Hf Hr HQ. pose proof (blen_nonneg x). unfold carry_out. change (at_parse_func "SSID" t) with (parse_text t : M (at_st F N) Z).
  unfold parse_text. rewrite Hf. change (1 <? 0) with false. change (0 =? 1) with false. cbn iota. wp_step. wp_step. change (truth 0) with false. cbn iota.
  wp_step. wp_step. wp_step. change (proc_func area "SSID" 0 e) with (ssid_proc area 0 e : M (at_st F N) Z). unfold ssid_proc, text_proc.
  change (truth 0) with false. cbn iota. wp_step. apply (wp_get_ssid x P); [done|done|done|done|]. wp_step. change (truth 0) with false. cbn iota.
  wp_step. eapply wp_of_opt; [apply byte_front|]. unfold rsp_put. wp_step. wp_step. wp_step. wp_step. eapply wp_of_opt; [by rewrite memcpy_Some by done|].
  rewrite (slice_all [blen x]) by done. wp_step. wp_step. wp_step. wp_step. cbn [cmdrsp set_cmdrsp set_stk].
  rewrite slice_counted. eapply wp_of_opt; [rewrite memcpy_Some; [done|lia|lia|change (blen (splice _ _ _)) with 321; lia|lia|lia]|].
  rewrite (slice_all x) by done. change (Z.to_nat CMDRSP_SIZE) with (Z.to_nat (320 + 1)). rewrite splice_counted by lia.
  wp_step. wp_step. change (truth (ops 0)) with false. cbn iota. wp_step.
  set (s3 := set_cmdrsp _ _). change (at_format_func "SSID" 0 e m) with (ok_or 0 (rsp_text 1) : M (at_st F N) (Z * Z)).
  apply (wp_ok_query _ (λ b s1, b = x ∧ s1 = s3)).
  - unfold rsp_text. wp_step. wp_step. eapply wp_of_opt; [|done]. cbn [s3 cmdrsp set_cmdrsp at_ptr]. change (Z.to_nat 1) with 1%nat. cbn [drop].
    apply c_string_padded; [done|lia].
  - intros b s1 [-> ->]. split; [done|]. split; [lia|]. intros r n Hsays. change (truth 0) with false. cbn [andb]. wp_step. by apply HQ.
Qed.

(** Lines that set and ask for the name. *)
Lemma find_ssid n : upper n = str "SSID" → find_cmd (upper n) = Some (mk_cmd "SSID" 0x7F 1) ∧ name_ok n ∧ n ≠ [].
Proof. intros Hn. assert (find_cmd (upper n) = Some (mk_cmd "SSID" 0x7F 1)) as Hf by by rewrite Hn. split; [done|]. by destruct (find_cmd_name n _ Hf). Qed.
Lemma wp_ssid_set_line ty n e b x rest (Q : Z → at_st F N → Prop) s : ready area s → upper n = str "SSID" → text_arg b x →
  (e = false → head b ≠ Some 33 ∧ head b ≠ Some 63) → bytes_ok x → 0 < blen x <= 83 → blen b <= 255 →
  (e = true → rec_modify_count (flash_param (prm s)) < 65535) →
  (∀ s1, ready area s1 → (if 32 <? blen x then answers ty (str "+ERR=-4") s s1 ∧ unchanged s s1
     else answers ty (str "+OK") s s1 ∧ holds_name x (current false F_ssid (prm s1))) → Q 0 s1) →
  wp (at_line area ty n (Some (e, [b])) rest) Q s.
Proof.
  intros Hs Hn Hb He Hok Hx Hbl Hcount HQ. destruct (find_ssid n Hn) as (Hfind & Hname & Hne). pose proof (blen_line_pre n e).
  apply (wp_command area ty n _ rest _ _ s Hs Hfind); [done|done|by destruct e|by eapply text_line_ok|..].
  { apply at_text_len; [done|]. cbn [command join_args]. rewrite blen_app. destruct Hname. lia. }
  intros t s1 Hstart. pose proof Hstart as (_ & _ & _ & Hr & Hun & Hnet1 & _ & Hst). cbn [at_name setting]. unfold carry_out.
  change (at_parse_func "SSID" t) with (parse_text t : M (at_st F N) Z).
  destruct (parse_text_run n e b x t s rest s1 Hstart Hb Hbl ltac:(lia)) as (l & Hrun). replace (blen x <=? 83) with true in Hrun by lia.
  eapply wp_run; [exact Hrun|]. change (truth 0) with false. cbn iota. wp_step. wp_step. wp_step.
  change (proc_func area "SSID" 1 ?f) with (ssid_proc area 1 f : M (at_st F N) Z). pose proof Hun as (h1 & Hh1 & Hp1 & Hhif1).
  apply (wp_ssid_proc x); [done|done|done|done|cbn [prm set_cmdrsp set_cmd set_line]; rewrite Hp1; by destruct e; [intros _; apply Hcount|]|].
  destruct (32 <? blen x) eqn:E; zbool.
  - change (truth INV_PARAMS) with true. cbn iota. apply says_error; [done..|]. intros r m Hsays. eexists. split; [exact Hsays|].
    split; [by apply (stored_mem area)|]. split; [done|]. intros s2 Hun2 Hans.
    assert (unchanged s s2) as Hun' by (eapply unchanged_trans; [exact Hun|exact Hun2]). apply HQ; [by eapply unchanged_ready|done].
  - intros P s2 Hst2 HP Hup Hhif Hnet Hrsp. change (truth 0) with false. cbn iota. wp_step.
    change (at_format_func "SSID" 1 ?f ?m) with (ok_or 1 (rsp_text 1) : M (at_st F N) (Z * Z)).
    apply wp_ok_set; [done|by rewrite Hrsp|]. intros r m Hsays. change (truth 0) with false. cbn [andb]. wp_step.
    eexists. split; [exact Hsays|]. split; [by apply (stored_mem area)|]. split; [exact (eq_trans Hnet Hnet1)|].
    intros s3 Hun3 Hans. pose proof Hun3 as (h3 & _ & Hp3 & _). apply HQ.
    + eapply unchanged_ready; [|exact Hun3]. split; [done|]. cbn [hif set_rsp]. rewrite Hhif. cbn [hif set_cmdrsp set_cmd set_line]. rewrite Hhif1. apply Hs.
    + split; [done|]. replace (current false F_ssid (prm s3)) with P; [done|]. transitivity (current false F_ssid (prm s2)); [|by rewrite Hp3].
      symmetry. rewrite (current_updated area F_ssid P (truth (to_flash (Some (e, [b])))) F_ssid false _ _ Hst); [by rewrite decide_True|apply HP|exact Hup|done].
Qed.
Lemma wp_ssid_query_line ty n x rest (Q : Z → at_st F N → Prop) s : ready area s → upper n = str "SSID" → no_nul x → blen x <= 32 →
  holds_name x (current false F_ssid (prm s)) →
  (∀ s1, answers ty (str "+OK=" ++ x) s s1 → unchanged s s1 → Q 0 s1) → wp (at_line area ty n None rest) Q s.
Proof.
  intros Hs Hn Hnn Hx HP HQ. destruct (find_ssid n Hn) as (Hfind & Hname & Hne).
  apply (wp_command area ty n _ rest _ _ s Hs Hfind); [done|done|done|done|..].
  { apply at_text_len; [done|]. cbn [command]. destruct Hname. lia. }
  intros t s1 ((_ & _ & Hf & _) & _ & _ & Hr & Hun & Hnet & _ & Hst). cbn [at_name setting to_flash]. pose proof Hun as (h & _ & Hp & _).
  apply (wp_ssid_query x (current false F_ssid (prm s))); [done|done|done|done|by rewrite Hp|done|done|].
  intros s2 m Hp2 Hhif2 Hnet2 Hsays. eexists. split; [exact Hsays|]. split; [by rewrite Hp2; apply (stored_mem area)|].
  split; [by rewrite Hnet2|]. intros s3 (h3 & Hh3 & Hp3 & Hhif3) Hans. apply HQ; [done|].
  eapply unchanged_trans; [exact Hun|]. exists h3. split; [done|]. split; [by rewrite Hp3, Hp2|by rewrite Hhif3, Hhif2].
Qed.
End texts.

(** A text of 84 to 255 characters in a command that takes one, [SSID],
    [DNS], [PASS] or [APSSID], runs over the union the arguments are read into:
    the length is only looked at once the text has been copied. *)
Theorem long_text_overruns {F N} `{FlashDevOk F} `{!AtNet N} `{!AtNetOk N} `{!AtOther F N} area (s : at_st F N) ty nm n e b x rest :
  ready area s → nm ∈ text_cmds → upper n = str nm → text_arg b x → (e = false → head b ≠ Some 33 ∧ head b ≠ Some 63) →
  84 <= blen x → blen b <= 255 → at_line area ty n (Some (e, [b])) rest s = None.
Proof.
  intros Hs Hnm Hn Hb He Hx Hbl. destruct (text_cmds_code (F := F) (N := N) nm Hnm) as [Hfind Hparse]. rewrite <- Hn in Hfind.
  destruct (find_cmd_name n _ Hfind) as (_ & Hname & Hne). pose proof (blen_line_pre n e).
  assert (blen x <= blen b) as Hxb by (destruct Hb as [(-> & _)|[-> _]]; [lia|rewrite blen_quote; pose proof (blen_escape_ge x); lia]).
  apply (command_stuck area ty n _ rest _ s Hs Hfind); [done|done|by destruct e|by eapply text_line_ok|..].
  { apply at_text_len; [done|]. cbn [command join_args]. rewrite blen_app. destruct Hname. lia. }
  intros t s1 Hstart. cbn [at_name]. unfold carry_out. rewrite Hparse.
  destruct (parse_text_run area n e b x t s rest s1 Hstart Hb Hbl ltac:(lia)) as (l & Hrun). unfold bind. rewrite Hrun.
  by replace (blen x <=? 83) with false by lia.
Qed.

(** C16: the name of the network, from what a host writes to what a host reads.
    Any text of 1 to 32 characters, in quotes or as it is, is answered with
    [+OK], and a query answers it as it was; a longer text that the union can
    hold is answered with [+ERR=-4] and changes nothing. *)
Theorem at_ssid {F N} `{FlashDevOk F} `{!AtNet N} `{!AtNetOk N} `{!AtOther F N} area (s : at_st F N) ty ty' n n' e b x rest rest' :
  area_ok area → ready area s → upper n = str "SSID" → upper n' = str "SSID" → text_arg b x →
  (e = false → head b ≠ Some 33 ∧ head b ≠ Some 63) → bytes_ok x → 0 < blen x <= 83 → blen b <= 255 →
  (e = true → rec_modify_count (flash_param (prm s)) < 65535) →
  wp (at_line area ty n (Some (e, [b])) rest) (λ r s1, r = 0 ∧ ready area s1 ∧
    if 32 <? blen x then answers ty (str "+ERR=-4") s s1 ∧ unchanged s s1
    else answers ty (str "+OK") s s1 ∧
      wp (at_line area ty' n' None rest') (λ r s2, r = 0 ∧ answers ty' (str "+OK=" ++ x) s1 s2 ∧ unchanged s1 s2) s1) s.
Proof.
  intros Ha Hs Hn Hn' Hb He Hok Hx Hbl Hcount. apply (wp_ssid_set_line area Ha ty n e b x); try done.
  intros s1 Hs1 Hres. do 2 (split; [done|]). destruct (32 <? blen x) eqn:E; zbool; [done|]. destruct Hres as [Hans Hname]. split; [done|].
  destruct (text_arg_ok b x Hb) as (_ & _ & Hnn). by apply (wp_ssid_query_line area ty' n' x).
Qed.

(** * Keys *)

Section keys.
Context {F N : Type} `{FlashDevOk F} `{!AtNet N} `{!AtNetOk N} `{!AtOther F N}.
Variable area : param_area.
Implicit Types (s : at_st F N).
Local Open Scope c_scope.

(** A buffer too small for the parameter. *)
Lemma pget_stuck id fd x (from_flash : bool) s : stored area (prm s) → (id, fd) ∈ member_ids → blen x < size fd →
  pget id x from_flash s = None.
Proof.
  intros Hst Hid Hx. unfold pget, on_prm, lift, bind, tls_param_get, gets, TLS_PARAM_ID_ALL.
  set (src := if from_flash then rec_parameters (flash_param (prm s)) else sram_param (prm s)). destruct (member_switches id fd src x Hid) as (_ & Hget & _ & Hr).
  replace ((id <? -1) || (TLS_PARAM_ID_MAX <=? id))%bool with false by lia. cbv beta iota. fold src.
  unfold param_lock, bind, gets, modify. destruct Hst as (_ & _ & Hlock & _). rewrite Hlock. change (0 <? 1) with true. cbv beta iota.
  change (if from_flash then _ else _) with src. rewrite Hget. unfold get_member, memcpy, of_opt. pose proof (field_bounds fd). by replace ((_ && _)%bool) with false by lia.
Qed.
Lemma get_key_stuck key s : stored area (prm s) → tls_cmd_get_key key s = None.
Proof.
  intros Hst. pose proof (stored_mem area _ Hst) as Hm. unfold tls_cmd_get_key.
  destruct (palloc_run 67 s Hm ltac:(done)) as (c & h & Hh & _ & Hp). erewrite bind_run by exact Hp. cbn iota.
  destruct (palloc_run 68 (set_prm (set_php h (prm s)) s) Hh ltac:(done)) as (c2 & h2 & Hh2 & _ & Hp2).
  erewrite bind_run by exact Hp2. cbn iota. unfold bind. rewrite (pget_stuck _ F_key); [done| |by apply in_members|done].
  by repeat (apply stored_php; [|done]).
Qed.
Lemma get_softap_key_stuck key s : stored area (prm s) → tls_cmd_get_softap_key key s = None.
Proof.
  intros Hst. pose proof (stored_mem area _ Hst) as Hm. unfold tls_cmd_get_softap_key.
  destruct (palloc_run 67 s Hm ltac:(done)) as (c & h & Hh & _ & Hp). erewrite bind_run by exact Hp. cbn iota.
  unfold bind. rewrite (pget_stuck _ F_key4softap); [done| |by apply in_members|done]. by apply stored_php.
Qed.
Lemma key_cmds_code nm : nm ∈ ["KEY"; "APKEY"]%string → find_cmd (str nm) = Some (mk_cmd nm 0x7F 3) ∧
  (∀ t, at_parse_func nm t = parse_key t :> M (at_st F N) Z) ∧ ∃ set getf, proc_func area nm = gen_key_proc set getf ∧
    ∀ key s, stored area (prm s) → getf key s = None.
Proof.
  revert nm. apply Forall_forall. apply Forall_cons_2; [|apply Forall_cons_2; [|by apply Forall_nil_2]].
  all: do 2 (split; [done|]); do 2 eexists; split; [reflexivity|]; intros key s Hst.
  - by apply get_key_stuck.
  - by apply get_softap_key_stuck.
Qed.
End keys.

(** A query for a key, [AT+KEY] or [AT+APKEY], runs over the block it
    allocates: the block has the size of the structure of the command, 67
    bytes, and the parameter 68. *)
Theorem key_query_overruns {F N} `{FlashDevOk F} `{!AtNet N} `{!AtNetOk N} `{!AtOther F N} area (s : at_st F N) ty nm n rest :
  ready area s → nm ∈ ["KEY"; "APKEY"]%string → upper n = str nm → at_line area ty n None rest s = None.
Proof.
  intros Hs Hnm Hn. destruct (key_cmds_code (F := F) (N := N) area nm Hnm) as (Hfind & Hparse & set & getf & Hproc & Hget). rewrite <- Hn in Hfind.
  destruct (find_cmd_name n _ Hfind) as (_ & Hname & Hne). apply (command_stuck area ty n _ rest _ s Hs Hfind); [done|done|done|done|..].
  { apply at_text_len; [done|]. cbn [command]. destruct Hname. lia. }
  intros t s1 ((_ & _ & Hf & _) & _ & _ & _ & _ & _ & _ & Hst). cbn [at_name setting to_flash]. unfold carry_out. rewrite Hparse.
  unfold parse_key, num_args. rewrite Hf. cbn [command_count existsb]. change (negb ((0 =? 0) || _)) with false. change (0 =? 3) with false. cbn iota.
  erewrite bind_run by reflexivity. change (truth 0) with false. cbn iota. erewrite bind_run by reflexivity. rewrite Hproc.
  assert (∀ s2, stored area (prm s2) → gen_key_proc set getf 0 0 s2 = None) as Hnone.
  { intros s2 Hst2. unfold gen_key_proc. erewrite bind_run by reflexivity. change (truth 0) with false. cbn iota. unfold bind. by rewrite Hget. }
  unfold bind. by rewrite Hnone.
Qed.

(** * The address of the access point *)

Section bssid.
Context {F N : Type} `{FlashDevOk F} `{!AtNet N} `{!AtNetOk N} `{!AtOther F N}.
Variable area : param_area.
Hypothesis Harea : area_ok area.
Implicit Types (s : at_st F N).
Local Open Scope c_scope.

(** The first six bytes of the next local variable. *)
Definition junk s : list Z := (λ i, u8 (stk s O i)) <$> seqZ 0 6.
Lemma blen_junk s : blen (junk s) = 6.
Proof. unfold junk. by rewrite blen_fmap_seqZ. Qed.
Lemma local7 s : (λ i, u8 (stk s O i)) <$> seqZ 0 7 = junk s ++ [u8 (stk s O 6)].
Proof. reflexivity. Qed.

Lemma parse_bssid_off n e rest t s0 s : at_start area n (Some (e, [str "0"])) rest s0 t s →
  parse_bssid t s = Some (0, set_cmd (replicate (Z.to_nat CMD_SIZE) 0) s).
Proof.
  intros (Ht & Hl & Hc & _). destruct (arg_text n e [str "0"] rest 0 _ t Ht eq_refl) as (pre & x & Harg & Hline). rewrite Hline in Hl.
  destruct Ht as (_ & _ & Hf & _). unfold parse_bssid. rewrite Hf. change (command_count _) with 1.
  change (2 <? 1) with false. change (1 <=? 1) with true. cbn iota. rewrite (with_uint_run 0 pre x) by done.
  unfold cmd_put, put, bind, gets, of_opt, modify. rewrite Hc. reflexivity.
Qed.
(** Without an address there is what the stack held. *)
Lemma wp_bssid_off uf (Q : Z → at_st F N → Prop) s : stored area (prm s) → cmd s = replicate (Z.to_nat CMD_SIZE) 0 →
  (truth uf = true → rec_modify_count (flash_param (prm s)) < 65535) →
  (if forallb (Z.eqb 0) (junk s) then ∀ s', prm s' = prm s → hif s' = hif s → net s' = net s → rsp s' = rsp s → Q (- CMD_ERR_OPS) s'
   else ∀ P s', stored area (prm s') → updated area F_bssid P (truth uf) (prm s) (prm s') → blen P = 8 → slice P 2 6 = junk s →
     hif s' = hif s → net s' = net s → rsp s' = rsp s → Q 0 s') → wp (bssid_proc area 1 uf) Q s.
Proof.
  intros Hst Hc Hcount HQ. unfold bssid_proc. change (truth 1) with true. cbn iota. wp_step. unfold local at 1, wp at 1. cbv beta. rewrite local7.
  pose proof (blen_junk s) as H6. unfold cmd_byte. wp_step. wp_step. wp_step. cbn [cmd set_stk]. rewrite Hc. eapply wp_of_opt; [apply byte_front|].
  change (1 <? 0) with false. cbn iota. wp_step. set (b := junk s ++ _). assert (blen b = 7) as Hb by (unfold b; rewrite blen_app, H6; done).
  eapply wp_of_opt; [rewrite memcpy_Some; [done|done|done|rewrite Hb; done|done|done]|]. 
  assert (slice (splice b 6 (slice [0] 0 (blen [0]))) 0 6 = junk s) as Hj.
  { rewrite slice_splice_disj by (try rewrite Hb; try done; left; done). unfold b. rewrite slice_front by lia. by apply slice_all. }
  set (b' := splice b 6 _) in *. assert (blen b' = 7) as Hb' by (unfold b'; rewrite blen_splice; rewrite ?Hb; done).
  wp_step. wp_step. change (0 =? 1) with false. cbn iota. wp_step. wp_step. wp_step. unfold tls_cmd_set_bssid. wp_step. unfold local, wp at 1. cbv beta.
  set (loc := _ <$> seqZ 0 8). assert (blen loc = 8) as Hloc by (unfold loc; by rewrite blen_fmap_seqZ).
  wp_step. unfold is_zero_addr_at. wp_step. eapply wp_of_opt; [rewrite memcpy_Some; [done|done|done|done|done|lia]|]. rewrite Hj.
  rewrite splice_all by (rewrite H6; done). wp_step. destruct (forallb (Z.eqb 0) (junk s)).
  - wp_step. wp_step. change (ops (-1)) with (- CMD_ERR_OPS). by apply HQ.
  - wp_step. eapply wp_of_opt; [rewrite memcpy_Some; [done|lia|lia|lia|lia|lia]|]. set (loc1 := splice loc 0 _).
    assert (blen (slice b' 6 1) = 1) as H1 by (rewrite blen_slice; lia).
    assert (blen loc1 = 8) as Hloc1 by (unfold loc1; rewrite blen_splice; rewrite ?H1; lia).
    wp_step. eapply wp_of_opt; [rewrite memcpy_Some; [done|lia|lia|lia|lia|lia]|]. rewrite Hj. set (P := splice loc1 2 (junk s)).
    assert (blen P = 8) as HP by (unfold P; rewrite blen_splice; lia).
    wp_step. apply (at_pset area Harea _ F_bssid); [done|by apply in_members|done|by rewrite HP| |done|].
    { assert (bytes_ok (junk s)) as Hjok by (apply bytes_ok_fmap; intros; apply u8_range).
      assert (bytes_ok b) as Hbok by (apply Forall_app; split; [done|by apply Forall_cons_2; [apply u8_range|]]).
      apply bytes_ok_splice; [|done]. apply bytes_ok_splice; [apply bytes_ok_fmap; intros; apply u8_range|].
      by apply bytes_ok_slice, bytes_ok_splice, bytes_ok_slice; [|apply Forall_cons_2]. }
    intros p Hp Hup. rewrite slice_all in Hup by by rewrite HP. wp_step. wp_step. change (ops 0) with 0. apply (HQ P); done.
Qed.
End bssid.

(** [AT+BSSID=0] reads an address that nobody has given: the procedure
    keeps it in a local variable it does not clear.  If the stack happened to
    hold six zeros there the command is refused with [+ERR=-3], else it is
    answered with [+OK] and what was on the stack becomes the parameter. *)
Theorem bssid_off_reads_junk {F N} `{FlashDevOk F} `{!AtNet N} `{!AtNetOk N} `{!AtOther F N} area (s : at_st F N) ty n e rest :
  area_ok area → ready area s → upper n = str "BSSID" → (e = true → rec_modify_count (flash_param (prm s)) < 65535) →
  wp (at_line area ty n (Some (e, [str "0"])) rest) (λ r s', r = 0 ∧ ready area s' ∧
    if forallb (Z.eqb 0) (junk s) then answers ty (str "+ERR=-3") s s' ∧ unchanged s s'
    else answers ty (str "+OK") s s' ∧ slice (current false F_bssid (prm s')) 2 6 = junk s) s.
Proof.
  intros Ha Hs Hn Hcount. assert (find_cmd (upper n) = Some (mk_cmd "BSSID" 0x7F 1)) as Hfind by by rewrite Hn.
  destruct (find_cmd_name n _ Hfind) as (_ & Hname & Hne). pose proof (blen_line_pre n e).
  apply (wp_command area ty n _ rest _ _ s Hs Hfind); [done|done|by destruct e|..].
  { split; [split; [left; by apply demo_plain|done]|]. split; [done|]. by split; [cbn; lia|]. }
  { apply at_text_len; [done|]. cbn [command join_args]. rewrite blen_app. change (blen (str "0")) with 1. destruct Hname. lia. }
  intros t s1 Hstart. pose proof Hstart as (_ & _ & Hc & Hr & Hun & Hnet1 & Hstk & Hst). pose proof Hun as (h1 & Hh1 & Hp1 & Hhif1).
  assert (junk s1 = junk s) as Hj by (unfold junk; by rewrite Hstk). cbn [at_name setting]. unfold carry_out.
  change (at_parse_func "BSSID" t) with (parse_bssid t : M (at_st F N) Z). eapply wp_run; [by eapply parse_bssid_off|].
  change (truth 0) with false. cbn iota. wp_step. wp_step. wp_step.
  change (proc_func area "BSSID" 1 ?f) with (bssid_proc area 1 f : M (at_st F N) Z).
  apply (wp_bssid_off area Ha); [done|done|cbn [prm set_cmdrsp set_cmd]; rewrite Hp1; by destruct e; [intros _; apply Hcount|]|].
  change (junk (set_cmdrsp _ _)) with (junk s1). rewrite Hj. destruct (forallb (Z.eqb 0) (junk s)).
  - intros s2 Hp2 Hhif2 Hnet2 Hr2. change (truth (- CMD_ERR_OPS)) with true. cbn iota. apply says_error; [by rewrite Hr2|done..|].
    intros r m Hsays. eexists. split; [exact Hsays|]. split; [cbn [prm set_rsp]; rewrite Hp2; by apply (stored_mem area)|].
    split; [exact (eq_trans Hnet2 Hnet1)|]. intros s3 (h3 & Hh3 & Hp3 & Hhif3) Hans. split; [done|].
    assert (unchanged s s3) as Hun' by (eapply unchanged_trans; [exact Hun|]; exists h3; split; [done|]; split; [by rewrite Hp3; cbn; rewrite Hp2|by rewrite Hhif3; cbn; rewrite Hhif2]).
    split; [by eapply unchanged_ready|done].
  - intros P s2 Hst2 Hup HP Hslice Hhif2 Hnet2 Hr2. change (truth 0) with false. cbn iota. wp_step.
    apply wp_ok_set; [done|by rewrite Hr2|]. intros r m Hsays. change (truth 0) with false. cbn [andb]. wp_step.
    eexists. split; [exact Hsays|]. split; [by apply (stored_mem area)|]. split; [exact (eq_trans Hnet2 Hnet1)|].
    intros s3 Hun3 Hans. pose proof Hun3 as (h3 & _ & Hp3 & _). split; [done|]. split; [|split; [done|]].
    + eapply unchanged_ready; [|exact Hun3]. split; [done|]. cbn [hif set_rsp]. rewrite Hhif2. cbn [hif set_cmdrsp set_cmd]. rewrite Hhif1. apply Hs.
    + rewrite <- Hslice. f_equal. transitivity (current false F_bssid (prm s2)); [by rewrite Hp3|].
      rewrite (current_updated area F_bssid P (truth (to_flash (Some (e, [str "0"])))) F_bssid false _ _ Hst); [by rewrite decide_True|by rewrite HP|exact Hup|done].
Qed.

(** * Runs on concrete data *)

(** A host that reads everything at once; of the commands that are not
    modelled nothing happens. *)
Definition host_net : AtNet (list (list Z)) := {|
  dhcp_start n := n; dhcp_stop n := n; netif_set_addr _ _ _ _ n := n; get_oneshot_flag _ := 0; set_oneshot_flag _ n := n;
  get_oneshot_config_mode _ := 0; set_oneshot_config_mode _ n := n; start_reset_timer n := n; fwup_mode _ := 0;
  tx_remain_len _ _ := 4096; time_delay _ n := n; uart_send_tx_msg _ m n := n ++ [m] |}.
#[local] Existing Instance host_net.
Definition no_other : AtOther array (list (list Z)) := {|
  other_parse _ _ := ret 0; other_proc _ _ _ := ret 0; other_format _ _ n := ret (0, n) |}.
#[local] Existing Instance no_other.
Lemma host_net_ok : AtNetOk (list (list Z)).
Proof. intros p n. exists O. split; [apply Nat.ltb_lt; reflexivity|done]. Qed.
#[local] Existing Instance host_net_ok.
Definition demo_at : at_st array (list (list Z)) := mk_at (demo_state (demo_rec 1)) [] (λ k i, 7 + i) None (mk_hostif 0 0 0 0 0)
  (mk_skt 0 0 0 (replicate 32 0) 0 (replicate 4 0) 0) [] [] [] [].
Lemma at_demo_ready : ready demo_area demo_at.
Proof. split; [by apply demo_stored|done]. Qed.

(** What went to the host. *)
Lemma host_reads ty x s s' : net s = [] → answers (F := array) ty x s s' → net s' = [x ++ [13; 10; 13; 10]].
Proof. intros Hn [k Hk]. rewrite Hn in Hk. induction k; [done|]. by apply IHk. Qed.

Lemma at_refused_witness : wp (at_line demo_area HOSTIF_UART1_AT_CMD (str "foo") None []) (λ r s', r = 0 ∧ net s' = [str "+ERR=-2" ++ [13; 10; 13; 10]]) demo_at ∧
  wp (at_line demo_area HOSTIF_UART1_AT_CMD (str "Key") (Some (false, [str "5"])) []) (λ r s', r = 0 ∧ unchanged demo_at s') demo_at.
Proof.
  split.
  - eapply wp_mono; [apply (at_refused demo_area demo_at HOSTIF_UART1_AT_CMD (str "foo") None [])|];
      [apply at_demo_ready|by apply demo_name|done|done|by apply Z.ltb_lt|done|].
    intros r s' (-> & Ha & _). split; [done|]. by apply host_reads in Ha.
  - eapply wp_mono; [apply (at_refused demo_area demo_at HOSTIF_UART1_AT_CMD (str "Key") (Some (false, [str "5"])) [])|];
      [apply at_demo_ready|by apply demo_name|done| |by apply Z.ltb_lt| |].
    + split; [split; [left; by apply demo_plain|done]|]. split; [done|]. split; [by apply Nat.leb_le|]. done.
    + intros c [= <-] [_ Hc]. by destruct (Hc ltac:(done)).
    + by intros r s' (-> & _ & Hun).
Defined.
Definition wpsm : num_cmd := mk_num "WPSM" TLS_PARAM_ID_PSM F_auto_powersave 1 true None.
Lemma wpsm_in : wpsm ∈ num_cmds.
Proof. by do 3 right; left. Qed.
Definition encry : num_cmd := mk_num "ENCRY" TLS_PARAM_ID_ENCRY F_encry 8 false (Some (TLS_PARAM_ID_KEY, F_key)).
Lemma encry_in : encry ∈ num_cmds.
Proof. left. Qed.
Lemma demo_room c x : rec_modify_count (flash_param (prm demo_at)) + num_writes c x <= 65535.
Proof.
  assert (rec_modify_count (flash_param (prm demo_at)) <= 65000) as Hc by (apply Z.leb_le; by vm_compute).
  unfold num_writes. case_match; lia.
Qed.
(** 257 is taken for 1, 2 is refused; with 256, taken for 0, the key goes. *)
Lemma at_number_witness :
  wp (at_line demo_area HOSTIF_UART1_AT_CMD (str "wpsm") (Some (true, [fmt_u 257])) []) (λ r s', r = 0 ∧
    net s' = [str "+OK" ++ [13; 10; 13; 10]] ∧ updated demo_area F_auto_powersave [1] true (prm demo_at) (prm s')) demo_at ∧
  wp (at_line demo_area HOSTIF_UART1_AT_CMD (str "WPSM") (Some (false, [fmt_u 2])) []) (λ r s', r = 0 ∧ net s' = [str "+ERR=-4" ++ [13; 10; 13; 10]]) demo_at ∧
  wp (at_line demo_area HOSTIF_UART1_AT_CMD (str "Encry") (Some (true, [fmt_u 256])) []) (λ r s', r = 0 ∧
    ∃ b q, updated demo_area F_key (replicate 67 0 ++ [b]) true (prm demo_at) q ∧ updated demo_area F_encry [0] true q (prm s')) demo_at.
Proof.
  split; [|split].
  - destruct (at_number demo_area demo_at HOSTIF_UART1_AT_CMD wpsm (str "wpsm") true 257 []) as [Hset _];
      [apply demo_area_ok|apply wpsm_in|reflexivity|by split|apply at_demo_ready|intros _ _; apply demo_room|].
    eapply wp_mono; [exact Hset|]. intros r s' (-> & _ & Hup). change (nc_hi wpsm <? u8 257) with false in Hup. destruct Hup as [Ha Hup].
    split; [reflexivity|]. split; [exact (host_reads _ _ demo_at _ eq_refl Ha)|exact Hup].
  - destruct (at_number demo_area demo_at HOSTIF_UART1_AT_CMD wpsm (str "WPSM") false 2 []) as [Hset _];
      [apply demo_area_ok|apply wpsm_in|reflexivity|by split|apply at_demo_ready|intros [=]|].
    eapply wp_mono; [exact Hset|]. intros r s' (-> & _ & Hup). change (nc_hi wpsm <? u8 2) with true in Hup. destruct Hup as [Ha _].
    split; [reflexivity|exact (host_reads _ _ demo_at _ eq_refl Ha)].
  - destruct (at_number demo_area demo_at HOSTIF_UART1_AT_CMD encry (str "Encry") true 256 []) as [Hset _];
      [apply demo_area_ok|apply encry_in|reflexivity|by split|apply at_demo_ready|intros _ _; apply demo_room|].
    eapply wp_mono; [exact Hset|]. intros r s' (-> & _ & Hup). change (nc_hi encry <? u8 256) with false in Hup. destruct Hup as [_ (b & q & _ & Hk & Hup)].
    split; [reflexivity|]. exists b, q. split; [exact Hk|exact Hup].
Defined.
Lemma at_number_lasts_witness :
  wp (at_line demo_area HOSTIF_UART1_AT_CMD (str "WPSM") (Some (true, [fmt_u 1])) []) (λ r s', r = 0 ∧
    wp (on_prm (tls_param_init demo_area true)) (λ r1 s2, r1 = TLS_PARAM_STATUS_OK ∧
      wp (at_line demo_area HOSTIF_UART1_AT_CMD (str "WPSM") None []) (λ r3 s3, r3 = 0 ∧ answers HOSTIF_UART1_AT_CMD (str "+OK=1") s2 s3) s2)
      (set_prm (reboot (fl (prm s')) demo_heap []) demo_at)) demo_at.
Proof.
  eapply wp_mono; [apply (at_number_lasts demo_area demo_at HOSTIF_UART1_AT_CMD wpsm (str "WPSM") 1 []);
    [apply demo_area_ok|apply wpsm_in|reflexivity|by split|apply at_demo_ready|apply demo_room]|].
  intros r s' [-> Hlasts]. split; [reflexivity|].
  exact (Hlasts demo_heap [] (set_prm (reboot (fl (prm s')) demo_heap []) demo_at) demo_heap_ok eq_refl eq_refl).
Defined.
(** A name with a comma and quotes in it. *)
Definition demo_name_text : list Z := str "my net, " ++ [34] ++ str "here" ++ [34].
Lemma demo_text : text_arg (quote demo_name_text) demo_name_text.
Proof. right. split; [done|]. by repeat (apply Forall_cons_2; [done|]). Qed.
Lemma at_ssid_witness :
  wp (at_line demo_area HOSTIF_UART1_AT_CMD (str "ssid") (Some (false, [quote demo_name_text])) []) (λ r s1, r = 0 ∧
    wp (at_line demo_area HOSTIF_UART0_AT_CMD (str "SSID") None []) (λ r s2, r = 0 ∧
      answers HOSTIF_UART0_AT_CMD (str "+OK=" ++ demo_name_text) s1 s2) s1) demo_at.
Proof.
  eapply wp_mono; [apply (at_ssid demo_area demo_at HOSTIF_UART1_AT_CMD HOSTIF_UART0_AT_CMD (str "ssid") (str "SSID") false (quote demo_name_text) demo_name_text [] []);
    [apply demo_area_ok|apply at_demo_ready|done|done|apply demo_text|by split|by apply bytes_ok_b|by split|by apply Z.leb_le|done]|].
  intros r s1 (-> & _ & Hs1). change (32 <? blen demo_name_text) with false in Hs1. destruct Hs1 as [_ Hq]. split; [reflexivity|].
  eapply wp_mono; [exact Hq|]. intros r s2 (-> & Ha & _). by split.
Defined.
Lemma long_text_overruns_witness :
  at_line demo_area HOSTIF_UART1_AT_CMD (str "Dns") (Some (false, [replicate 84 65])) [] demo_at = None.
Proof.
  apply (long_text_overruns demo_area demo_at HOSTIF_UART1_AT_CMD "DNS"%string (str "Dns") false (replicate 84 65) (replicate 84 65) []);
    [apply at_demo_ready|by right; left|done| |by split|by apply Z.leb_le|by apply Z.leb_le].
  left. split; [done|]. split; [|done]. split; [|done]. by repeat (apply Forall_cons_2; [done|]).
Defined.
Lemma key_query_overruns_witness : at_line demo_area HOSTIF_UART1_AT_CMD (str "key") None [] demo_at = None.
Proof. apply (key_query_overruns demo_area demo_at HOSTIF_UART1_AT_CMD "KEY"%string (str "key") []); [apply at_demo_ready|by left|done]. Defined.
(** The stack of the state holds 7, 8, 9, ... *)
Lemma bssid_off_reads_junk_witness :
  wp (at_line demo_area HOSTIF_UART1_AT_CMD (str "BSSID") (Some (false, [str "0"])) []) (λ r s', r = 0 ∧
    slice (current false F_bssid (prm s')) 2 6 = [7; 8; 9; 10; 11; 12]) demo_at.
Proof.
  eapply wp_mono; [apply (bssid_off_reads_junk demo_area demo_at HOSTIF_UART1_AT_CMD (str "BSSID") false []);
    [apply demo_area_ok|apply at_demo_ready|done|done]|].
  intros r s' (-> & _ & Hres). change (forallb (Z.eqb 0) (junk demo_at)) with false in Hres. destruct Hres as [_ Hj]. split; [reflexivity|exact Hj].
Defined.
