(* ===== verification/SerialFwup.v ===== *)
(** * A firmware image from the serial line to the flash

    The task of the serial ports over the firmware update: what becomes of the
    blocks of an image that a host sends. *)
From S2P Require Import Prelude Utils FlashStore HwCrc FlashLayout Fwup.
From S2P Require Import Uart UartRun UartSpec SerialTask SerialSpec SerialData.
#[local] Open Scope Z_scope.

(** * A delivery block by block *)

Section stages.
Context {F W : Type} `{FlashDevOk F} `{!Wifi W} `{CrcEngineOk}.
Context (sid : Z) (h image pad d : list Z) (blocks : list (list Z)) (s0 : fw_state F W).
Implicit Types (s : fw_state F W).
Local Abbreviation base := (Z.lor (upd_img_addr h) FLASH_BASE).
Local Abbreviation mem0 := (fd_mem (flash s0)).
Local Abbreviation total := (flashtotalsize s0).
Local Abbreviation lay := (layout s0).

(** The bytes of the image in the first block and [j] more. *)
Definition taken (j : nat) : Z := blen (d ++ concat (take j blocks)).

(** The session that was opened in [s0] has taken the first [i] blocks, and the
    number [rn] was the last it was given. *)
Definition stage (rn : Z) (i : nat) s : Prop := ∃ src lock, src <= TLS_FWUP_IMAGE_SRC_WEB ∧
  match i with
  | O => opened mem0 total lay src sid lock rn (resets s0) s
  | S j =>
      if decide (j = length blocks) then ∃ res, finished h (image ++ pad) (blen image) base mem0 total lay src sid lock rn (resets s0) res s
      else receiving h (image ++ pad) (blen image) base mem0 total lay src sid lock rn (resets s0) (T_BOOTER_SIZE + taken j) (taken j) s
  end.

Lemma stage_live rn i s : stage rn i s → ∃ f, fwup s = Live f ∧ current_session_id f = sid ∧ received_number f = rn ∧
  ∀ rn', stage rn' i (set_fwup (Live (Fwup.set_received_number rn' f)) s).
Proof.
  intros (src & lock & Hsrc & Hi). destruct i as [|j].
  - destruct Hi as (Hfw & Hrest). eexists. split; [exact Hfw|]. split; [done|]. split; [done|]. intros rn'. by exists src, lock.
  - unfold stage. case_decide.
    + destruct Hi as (res & Hr & Hf & st & r & Hfw & Hrest). eexists. split; [exact Hfw|]. split; [done|]. split; [done|].
      intros rn'. exists src, lock. split; [done|]. exists res. split; [done|]. split; [done|]. by exists st, r.
    + destruct Hi as (Hfw & Hrest). eexists. split; [exact Hfw|]. split; [done|]. split; [done|]. intros rn'. by exists src, lock.
Qed.

(** The session, before and between blocks. *)
Lemma wp_stage_session rn i s : stage rn i s → wp Fwup.tls_fwup_get_current_session_id (λ r s', r = sid ∧ s' = s) s.
Proof.
  intros (f & Hfw & Hid & _)%stage_live. unfold Fwup.tls_fwup_get_current_session_id. apply wp_bind, wp_gets. rewrite Hfw.
  by apply wp_ret.
Qed.
Lemma wp_stage_number rn i x s : stage rn i s → wp (Fwup.tls_fwup_set_update_numer x) (λ r s',
  if x =? rn + 1 then r = Fwup.TLS_FWUP_STATUS_OK ∧ stage x i s' else r ≠ Fwup.TLS_FWUP_STATUS_OK ∧ s' = s) s.
Proof.
  intros (f & Hfw & _ & Hrn & Hset)%stage_live. unfold Fwup.tls_fwup_set_update_numer.
  apply wp_bind, (wp_live _ _ _ Hfw). rewrite Hrn. replace (1 =? x - rn) with (x =? rn + 1) by lia. case_if.
  - apply wp_bind, (wp_upd _ _ _ _ Hfw), wp_ret. split; [done|]. apply Hset.
  - by apply wp_ret.
Qed.

Hypothesis Hdl : delivery h image pad d blocks s0.
Let Hpos : 0 < blen image := delivery_pos _ _ _ _ _ _ Hdl.

Lemma taken_S j b : blocks !! j = Some b → taken (S j) = taken j + blen b.
Proof. intros Hb. unfold taken. rewrite (take_S_r _ _ _ Hb), concat_app. cbn [concat]. by rewrite app_nil_r, app_assoc, blen_app. Qed.
Lemma taken_rest j : taken j + blen (concat (drop j blocks)) = blen (image ++ pad).
Proof.
  rewrite (dl_cut _ _ _ _ _ _ Hdl). unfold taken. rewrite !blen_app, <- Z.add_assoc, <- blen_app, <- concat_app. by rewrite take_drop.
Qed.
Lemma taken_last : taken (length blocks) = blen (image ++ pad).
Proof. pose proof (taken_rest (length blocks)) as E. rewrite drop_all in E. change (blen (concat [])) with 0 in E. lia. Qed.
Lemma last_drop (l : list (list Z)) j : (j < length l)%nat → List.last (drop j l) [] = List.last l [].
Proof.
  revert j. induction l as [|b l IH]; intros [|j] Hj; cbn [length drop] in *; [lia|lia|done|]. rewrite IH by lia.
  destruct l; [cbn in Hj; lia|done].
Qed.
(** Before the last block some of the image is missing. *)
Lemma taken_before j : (j < length blocks)%nat → taken j < blen image.
Proof.
  intros Hj. pose proof (taken_rest j) as E. rewrite blen_app in E. pose proof (dl_last _ _ _ _ _ _ Hdl) as Hl.
  pose proof (blen_last (drop j blocks)) as Hle. rewrite last_drop in Hle by done.
  destruct blocks as [|b bs]; [cbn in Hj; lia|]. change (List.last (d :: b :: bs) []) with (List.last (b :: bs) []) in Hl. lia.
Qed.
Lemma block_slice j b : blocks !! j = Some b → b = slice (image ++ pad) (taken j) (blen b).
Proof.
  intros Hb. rewrite (dl_cut _ _ _ _ _ _ Hdl), <- (take_drop_middle _ _ _ Hb), concat_app, app_assoc. cbn [concat].
  unfold slice, taken, blen. by rewrite !Nat2Z.id, drop_app_length, take_app_length.
Qed.

Lemma taken_step j : (j < length blocks)%nat ∧ taken j < blen image ∨ j = length blocks ∧ taken j = blen (image ++ pad) ∨ (length blocks < j)%nat.
Proof.
  destruct (lt_eq_lt_dec j (length blocks)) as [[Hj|Hj]|Hj]; [left; split; [done|by apply taken_before]|right; left|by right; right].
  split; [done|]. subst. apply taken_last.
Qed.

(** The next block. *)
Lemma wp_stage_next rn i b s : stage rn i s → ((h ++ d) :: blocks) !! i = Some b →
  wp (Fwup.tls_fwup_request_sync sid (Some b) (blen b) true) (λ _ s', stage rn (S i) s') s.
Proof.
  intros (src & lock & Hsrc & Hi) Hb. pose proof Hdl as [[Hhl Hho] [Hio Hil] Hacc Hcr Hfit Hcut [Hd Hbs] _].
  destruct Hfit as (Hf1 & Hf2 & Hf3 & Hf4 & Hf5 & Hf6).
  assert (FLASH_BASE <= base) by (unfold FLASH_BASE, CODE_RUN_HEADER_ADDR, T_BOOTER_SIZE in *; lia).
  assert (blen (image ++ pad) = blen image + blen pad) as Hpl by apply blen_app. pose proof (blen_nonneg pad).
  assert (header_in_flash (F := F)) as Hin by (unfold header_in_flash, CODE_RUN_HEADER_ADDR, T_BOOTER_SIZE in *; lia).
  pose proof (blen_nonneg d). unfold CODE_RUN_HEADER_ADDR, T_BOOTER_SIZE in Hf1, Hf2.
  pose proof (taken_step i) as Hstep.
  destruct i as [|j]; cbn [lookup list_lookup] in Hb.
  - injection Hb as <-. assert (running s = running s0) as Hrun.
    { destruct Hi as (_ & _ & _ & _ & _ & _ & _ & _ & _ & Hm). unfold running.
      rewrite !(holds_bytes mem0) by (done || apply Hin). done. }
    assert (taken 0 = blen d) as Htk by (unfold taken; by rewrite take_0, app_nil_r). rewrite Htk in Hstep.
    apply (wp_first h (image ++ pad) (blen image) base mem0 total lay src sid lock rn (resets s0)) with (d := d); try done; try lia.
    + by rewrite Hrun.
    + rewrite Hcut. unfold slice, blen. by rewrite drop_0, Nat2Z.id, take_app_length.
    + intros Hlt s' Hs'. exists src, lock. split; [done|]. cbn. rewrite decide_False; [by rewrite Htk|]. lia.
    + intros He res s' Hs'. exists src, lock. split; [done|]. cbn. rewrite decide_True; [by exists res|]. lia.
  - cbn in Hi. pose proof (lookup_lt_Some _ _ _ Hb). rewrite decide_False in Hi by lia.
    pose proof (list.Forall_lookup_1 _ _ _ _ Hbs Hb) as [Hb0 Hb1]. pose proof (taken_S _ _ Hb) as HS. rewrite HS in Hstep.
    assert (0 <= taken j) by apply blen_nonneg.
    apply (wp_block h (image ++ pad) (blen image) base mem0 total lay src sid lock rn (resets s0)) with (r := T_BOOTER_SIZE + taken j) (k := taken j);
      try done; try lia.
    + by apply block_slice.
    + intros Hlt s' Hs'. exists src, lock. split; [done|]. cbn. rewrite decide_False; [by rewrite HS, Z.add_assoc|]. lia.
    + intros He res s' Hs'. exists src, lock. split; [done|]. cbn. rewrite decide_True; [by exists res|]. lia.
Qed.
End stages.

(** * The task over the firmware update *)

(** Behind the task: the firmware update, and the answers for the host. *)
Record fw_host (F W : Type) := mk_host { fwst : fw_state F W; said : list (list Z) }.
Arguments mk_host {F W}.
Arguments fwst {F W}.
Arguments said {F W}.
Definition set_fwst {F W} (x : fw_state F W) (h : fw_host F W) : fw_host F W := mk_host x (said h).
Definition on_fw {R F W A} (m : M (fw_state F W) A) : M (uarts R (tasks (fw_host F W))) A :=
  lift (λ s, fwst (SerialTask.host (user s))) (λ w s, set_user (set_host (set_fwst w (SerialTask.host (user s))) (user s)) s) m.

Class FwTask (R F W : Type) `{!FlashDev F, !Wifi W, !CrcEngine, !UartEnv R (tasks (fw_host F W)), !TaskEnv R (fw_host F W)} := {
  fwt_session : fwup_get_current_session_id = on_fw (R := R) Fwup.tls_fwup_get_current_session_id;
  fwt_number x : fwup_set_update_numer x = on_fw (R := R) (Fwup.tls_fwup_set_update_numer x);
  fwt_request sid d len : fwup_request_sync sid d len = on_fw (R := R) (Fwup.tls_fwup_request_sync sid (Some d) len true);
  fwt_answer ty b len (s : uarts R (tasks (fw_host F W))) : let t := user s in let h := SerialTask.host t in
    tls_hostif_process_cmdrsp ty b len s = Some (0, set_user (set_host (mk_host (fwst h) (said h ++ [slice b 0 len])) t) s);
}.

Section update.
Context {R F W : Type} `{FlashDevOk F} `{!Wifi W} `{CrcEngineOk}.
Context `{!UartRegs R, !UartEnv R (tasks (fw_host F W)), !TaskEnv R (fw_host F W), !FwTask R F W}.
Local Abbreviation St := (uarts R (tasks (fw_host F W))).
Implicit Types (s : St) (c : tls_uart_circ_buf).
Local Abbreviation fw_of s := (fwst (SerialTask.host (user s))).
Local Abbreviation said_of s := (said (SerialTask.host (user s))).

Lemma wp_on_fw {A} (m : M (fw_state F W) A) (P : A → fw_state F W → Prop) n mo c s (Q : A → St → Prop) : data_ok n mo c s →
  wp m P (fw_of s) → (∀ a s', data_ok n mo c s' → P a (fw_of s') → said_of s' = said_of s → Q a s') → wp (on_fw m) Q s.
Proof. intros Hok Hm HQ. unfold on_fw. apply wp_lift. eapply wp_mono; [exact Hm|]. intros a w HP. by apply HQ. Qed.
Lemma wp_said n mo c st s (Q : Z → St → Prop) : data_ok n mo c s → st = 0 ∨ st = 1 →
  (∀ s', data_ok n mo c s' → fw_of s' = fw_of s → said_of s' = said_of s ++ [fwup_rsp_text st] → Q 0 s') → wp (uart_fwup_rsp n st) Q s.
Proof.
  intros Hok Hst HQ. apply (wp_answer_block n mo c); [done|done|]. intros ty b s1 Hok1 Hu1 Hb.
  unfold wp. rewrite fwt_answer, Hb. apply HQ; [done|cbn; by rewrite Hu1|cbn; by rewrite Hu1].
Qed.

Context (sid : Z) (h image pad d : list Z) (blocks : list (list Z)) (s0 : fw_state F W).
Hypothesis Hsid : sid ≠ 0.
Hypothesis Hdl : delivery h image pad d blocks s0.
Local Abbreviation staged i w := (stage sid h image pad d blocks s0 (Z.of_nat i - 1) i w).

(** One block: taken when it is the next of the image, and answered. *)
Lemma wp_update_block n c img i b s : data_ok n UART_ATDATA_MODE c s → rqueue c = b → blen b = UART_UPFW_DATA_SIZE →
  image_ok img → (blk_good b = true → img !! Z.to_nat (blk_number b) = Some b) → blk_data <$> img = (h ++ d) :: blocks →
  staged i (fw_of s) →
  wp (uart_rx n) (λ _ s', staged (if decide (img !! i = Some b) then S i else i) (fw_of s') ∧
    said_of s' = said_of s ++ [fwup_rsp_text (if decide (img !! i = Some b) then 1 else 0)]) s.
Proof.
  intros Hok Hq Hlen Himg Hch Hdata Hst. apply (wp_take_block n c); [done|rewrite <- blen_queue, Hq, Hlen; lia|].
  intros blk s1 Hblk Hok1 Hh1. rewrite Hq, <- Hlen in Hblk. unfold blen in Hblk. rewrite Nat2Z.id, take_ge in Hblk by lia. subst blk.
  unfold give_block. rewrite fwt_session. rewrite <- Hh1 in Hst |- *.
  apply wp_bind. eapply wp_on_fw; [exact Hok1|eapply wp_stage_session; exact Hst|]. intros r s2 Hok2 [-> Hf2] Hs2. rewrite <- Hs2. rewrite <- Hf2 in Hst.
  unfold truth. replace (negb (sid =? 0)) with true by lia.
  assert (img !! i = Some b ↔ blk_good b = true ∧ blk_number b = Z.of_nat i) as Hnext.
  { split; [apply Himg|]. intros [Hg Hnum]. rewrite <- (Nat2Z.id i), <- Hnum. by apply Hch. }
  destruct (blk_good b) eqn:Hg.
  2: { rewrite !decide_False by (intros [? _]%Hnext; done). apply wp_bind, (wp_said n _ _ _ _ _ Hok2); [by left|].
       intros s3 _ Hf3 Hs3. apply wp_ret. by rewrite Hf3. }
  rewrite fwt_number. apply wp_bind. eapply wp_on_fw; [exact Hok2|eapply wp_stage_number; exact Hst|]. intros r s3 Hok3 Hr Hs3.
  rewrite <- Hs3. replace (Z.of_nat i - 1 + 1) with (Z.of_nat i) in Hr by lia. destruct (Z.eqb_spec (blk_number b) (Z.of_nat i)) as [Hnum|Hnum].
  - destruct Hr as [-> Hst3]. assert (img !! i = Some b) as Hi by (by apply Hnext). rewrite !decide_True by done.
    cbn [Z.eqb]. apply wp_bind, (wp_said n _ _ _ _ _ Hok3); [by right|]. intros s4 Hok4 Hf4 Hs4.
    rewrite fwt_request. assert (((h ++ d) :: blocks) !! i = Some (blk_data b)) as Hbi by (by rewrite <- Hdata, list_lookup_fmap, Hi).
    assert (blen (blk_data b) = TLS_FWUP_BLK_SIZE) as Hbl by (apply blen_slice; rewrite ?Hlen; done).
    apply wp_bind. eapply wp_on_fw; [exact Hok4|rewrite Hf4, <- Hbl; eapply wp_stage_next; [exact Hdl|exact Hst3|exact Hbi]|].
    intros r s5 _ Hst5 Hs5. apply wp_ret. split; [|by rewrite Hs5]. rewrite Hnum in Hst5. by replace (Z.of_nat (S i) - 1) with (Z.of_nat i) by lia.
  - destruct Hr as [Hr Hf3]. rewrite !decide_False by (intros [_ ?]%Hnext; done).
    replace (TLS_FWUP_STATUS_OK =? r) with false by (unfold Fwup.TLS_FWUP_STATUS_OK, TLS_FWUP_STATUS_OK in *; lia).
    apply wp_bind, (wp_said n _ _ _ _ _ Hok3); [by left|]. intros s4 _ Hf4 Hs4. apply wp_ret. rewrite Hf4, Hf3. done.
Qed.
End update.

(** * An image over the line *)

Section whole.
Context {R F W : Type} `{FlashDevOk F} `{!Wifi W} `{CrcEngineOk}.
Context `{!UartRegs R, !UartEnv R (tasks (fw_host F W)), !TaskEnv R (fw_host F W), !FwTask R F W}.
Local Abbreviation St := (uarts R (tasks (fw_host F W))).
Implicit Types (s : St) (w : fw_state F W).

(** What was sent is in the area of the image, its header with the next number
    and a fresh checksum in the place for the boot loader, the rest of the flash
    is as it was, the session is complete and the device has been reset once. *)
Definition installed (sid : Z) (h sent : list Z) w w' : Prop :=
  let base := Z.lor (upd_img_addr h) FLASH_BASE in
  let upd := CODE_UPD_HEADER_ADDR (layout w) in
  fd_bytes (flash w') base (blen sent) = sent ∧
  fd_bytes (flash w') upd T_BOOTER_SIZE =
    activated (current_no (running w) (fd_bytes (flash w) upd T_BOOTER_SIZE) (flashtotalsize w)) h ∧
  flash_kept base (blen sent) upd w w' ∧
  tls_fwup_current_state sid w' = Some (TLS_FWUP_STATE_COMPLETE, w') ∧ resets w' = resets w + 1.
(** Nothing is activated: the device runs, and only the area of the image has
    been written. *)
Definition not_activated (h sent : list Z) w w' : Prop :=
  resets w' = resets w ∧ only_image (Z.lor (upd_img_addr h) FLASH_BASE) (blen sent) w w'.

Lemma stage_done sid h image pad d blocks w0 rn w : delivery h image pad d blocks w0 → blen (image ++ pad) mod SECTOR_SIZE ≠ 0 →
  upd_checksum h = crc_reg 0xFFFFFFFF image → stage sid h image pad d blocks w0 rn (S (length blocks)) w →
  installed sid h (image ++ pad) w0 w.
Proof.
  intros Hdl Hn Hcrc (src & lock & _ & Hst). rewrite decide_True in Hst by done. destruct Hst as [res Hfin].
  by destruct (finished_installed _ _ _ _ _ _ _ _ _ _ _ _ Hdl Hn Hcrc Hfin).
Qed.
Lemma stage_before sid h image pad d blocks w0 rn i w : delivery h image pad d blocks w0 → (i ≤ length blocks)%nat →
  stage sid h image pad d blocks w0 rn i w → not_activated h (image ++ pad) w0 w.
Proof.
  intros Hdl Hi (src & lock & _ & Hst). destruct i as [|j].
  - destruct Hst as (_ & _ & _ & _ & _ & _ & _ & _ & Hr & Hm). split; [done|]. intros x Hx _. by apply Hm.
  - rewrite decide_False in Hst by lia. destruct Hst as (_ & (_ & _ & _ & Hr & _) & (_ & _ & Hm) & _). split; [done|].
    intros x Hx Hout. rewrite Hm by done. case_match eqn:E; [|done]. exfalso. apply Hout.
    pose proof (taken_rest h image pad d blocks w0 Hdl j). pose proof (blen_nonneg (concat (drop j blocks))). unfold SECTOR_SIZE in E. dlia.
Qed.
(** Blocks of 512 bytes, the first with the header: what follows the header is
    no multiple of a sector. *)
Lemma sent_length h image pad d blocks img w0 : delivery h image pad d blocks w0 → blk_data <$> img = (h ++ d) :: blocks →
  Forall (λ b, blen b = UART_UPFW_DATA_SIZE) img → blen (image ++ pad) mod SECTOR_SIZE ≠ 0.
Proof.
  intros Hdl Hdata Himg. assert (blen (concat (blk_data <$> img)) = TLS_FWUP_BLK_SIZE * Z.of_nat (length img)) as Hl.
  { clear -Himg. induction Himg as [|b img Hb Himg IH]; [done|]. rewrite fmap_cons. cbn [concat length].
    rewrite blen_app, IH. assert (blen (blk_data b) = TLS_FWUP_BLK_SIZE) as -> by (apply blen_slice; rewrite ?Hb; done). lia. }
  rewrite Hdata in Hl. cbn [concat] in Hl. rewrite <- app_assoc, <- (dl_cut _ _ _ _ _ _ Hdl), blen_app, (proj1 (dl_header _ _ _ _ _ _ Hdl)) in Hl.
  revert Hl. generalize (blen (image ++ pad)) (Z.of_nat (length img)). intros n k. unfold T_BOOTER_SIZE, TLS_FWUP_BLK_SIZE, SECTOR_SIZE. intros. dlia.
Qed.

Lemma run_stage n img bs sid h image pad d blocks w0 : sid ≠ 0 → delivery h image pad d blocks w0 → image_ok img → blk_data <$> img = (h ++ d) :: blocks →
  sound_channel img bs → Forall (λ b, blen b = UART_UPFW_DATA_SIZE) bs → ∀ i s s', block_run id n bs s s' →
  let w := fwst (SerialTask.host (user s)) in let w' := fwst (SerialTask.host (user s')) in
  stage sid h image pad d blocks w0 (Z.of_nat i - 1) i w →
  stage sid h image pad d blocks w0 (Z.of_nat (got img bs i) - 1) (got img bs i) w' ∧
  length (said (SerialTask.host (user s'))) = (length (said (SerialTask.host (user s))) + length bs)%nat.
Proof.
  intros Hsid Hdl Himg Hdata Hch Hlen i s s' Hrun. cbv zeta. revert i Hch Hlen.
  induction Hrun as [s|b bs s s1 s2 s3 s' c Hok Hempty Hv Ha Hrx Hrun IH]; intros i Hch Hlen Hst; [by rewrite Nat.add_0_r|].
  inversion Hch as [|? ? Hc1 Hc2]; inversion Hlen as [|? ? Hl1 Hl2]; subst.
  destruct (arrives_data _ _ _ _ _ _ Hok Ha) as (c2 & Hok2 & Hq2 & Hu2). rewrite Hempty in Hq2. cbn [app] in Hq2.
  change (SerialTask.host (user s1) = SerialTask.host (user s)) in Hv. rewrite <- Hv, <- Hu2 in Hst |- *.
  pose proof (wp_update_block sid h image pad d blocks w0 Hsid Hdl n c2 img i b s2 Hok2 Hq2 Hl1 Himg Hc1 Hdata Hst) as Hwp.
  unfold wp in Hwp. rewrite Hrx in Hwp. destruct Hwp as [Hst3 Hs3].
  destruct (IH (if decide (img !! i = Some b) then S i else i) Hc2 Hl2 Hst3) as [Hst' Hs']. split; [exact Hst'|].
  rewrite Hs', Hs3, length_app. cbn [length]. lia.
Qed.
End whole.

(** C4: a firmware image over a serial port is installed. A session has just been
    opened, and a host sends blocks of 512 bytes of data, one at a time to an
    empty ring in the mode for data, which may be damaged, repeated, out of order
    or missing, as long as a checksum that is right belongs to a block of the
    image; the header in the first is one the update accepts, with the checksum of
    the image, and the last block is filled up behind the image. Every block is
    answered. If the blocks of the image are among them in their order, the image
    and the filling of the last block are in the flash at the end, byte for byte,
    its header is activated, no other byte has changed, and the device is reset
    once, whatever came in between; and as long as a block is missing, nothing is
    activated and nothing outside the area of the image and the filling is
    written. *)
Theorem serial_update {R F W} `{FlashDevOk F} `{!Wifi W} `{CrcEngineOk} `{!UartRegs R, !UartEnv R (tasks (fw_host F W)), !TaskEnv R (fw_host F W), !FwTask R F W}
    n sid h image pad d blocks img bs f (s s' : uarts R (tasks (fw_host F W))) :
  let w := fwst (SerialTask.host (user s)) in let w' := fwst (SerialTask.host (user s')) in
  session_open sid w → sid ≠ 0 → fwup w = Live f → received_number f = -1 → delivery h image pad d blocks w →
  upd_checksum h = crc_reg 0xFFFFFFFF image →
  image_ok img → Forall (λ b, blen b = UART_UPFW_DATA_SIZE) img → blk_data <$> img = (h ++ d) :: blocks →
  sound_channel img bs → Forall (λ b, blen b = UART_UPFW_DATA_SIZE) bs → block_run id n bs s s' →
  length (said (SerialTask.host (user s'))) = (length (said (SerialTask.host (user s))) + length bs)%nat ∧
  (installed sid h (image ++ pad) w w' ∨ ¬ img `sublist_of` bs ∧ not_activated h (image ++ pad) w w').
Proof.
  intros w w' (src & lock & rn & Hsrc & Ho) Hsid Hf Hrn Hdl Hcrc Himg Hil Hdata Hch Hlen Hrun.
  pose proof (sent_length h image pad d blocks img w Hdl Hdata Hil) as Hn.
  assert (rn = -1) as -> by (destruct Ho as [Hfw _]; fold w in Hf; rewrite Hfw in Hf; by injection Hf as <-).
  destruct (run_stage n img bs sid h image pad d blocks w Hsid Hdl Himg Hdata Hch Hlen 0 s s' Hrun) as [Hst Hs]; [by exists src, lock|].
  split; [exact Hs|]. assert (length img = S (length blocks)) as Hli by (by rewrite <- (length_fmap blk_data), Hdata).
  pose proof (got_range img bs 0 ltac:(lia)) as Hr. destruct (decide (got img bs 0 = length img)) as [E|E].
  - left. rewrite E, Hli in Hst. by eapply stage_done.
  - right. split; [intros Hsub; apply E, got_all; [lia|done]|]. eapply stage_before; [exact Hdl| |exact Hst]. lia.
Qed.

(** * A run on concrete data *)

Local Abbreviation demo_fwhost := (fw_host array unit).
#[local] Instance fw_uart_env : UartEnv usim (tasks demo_fwhost) := silent_env usim (tasks demo_fwhost).
#[local] Instance fw_task_env : TaskEnv usim demo_fwhost := {
  tls_hostif_cmd_handler _ _ _ := ret 0;
  tls_hostif_process_cmdrsp ty b len := λ s, let t := user s in let h := SerialTask.host t in
    Some (0, set_user (set_host (mk_host (fwst h) (said h ++ [slice b 0 len])) t) s);
  tls_hostif_send_data _ _ := ret 0;
  tls_cmd_get_default_socket := ret 0;
  wl_task_callback_static _ := ret 0;
  wl_task_callback_tx _ := ret 0;
  wl_task_untimeout _ := ret tt;
  wl_task_add_timeout _ _ := ret tt;
  os_time_delay _ := ret tt;
  fwup_get_current_session_id := on_fw Fwup.tls_fwup_get_current_session_id;
  fwup_set_update_numer x := on_fw (Fwup.tls_fwup_set_update_numer x);
  fwup_request_sync sid d len := on_fw (Fwup.tls_fwup_request_sync sid (Some d) len true);
  pbuf_freed := 0;
  rptmode _ := 0;
  stack _ := 0;
}.
#[local] Instance fw_task : FwTask usim array unit.
Proof. split; reflexivity. Defined.

(** An image of 960 bytes: with its header it fills two blocks but for 8 bytes. *)
Definition line_image : list Z := replicate (Z.to_nat 960) 65.
Definition line_pad : list Z := replicate 8 255.
Definition line_header : list Z := make_header 3 0x8010100 20000 0x8090000 960 (crc_reg 0xFFFFFFFF line_image).
Definition line_first : list Z := replicate (Z.to_nat 456) 65.
Definition line_second : list Z := replicate (Z.to_nat 504) 65 ++ line_pad.
Lemma line_delivery : delivery line_header line_image line_pad line_first [line_second] demo_session.
Proof.
  split.
  - split; [vm_compute; reflexivity|apply bytes_ok_b; vm_compute; reflexivity].
  - split; [apply bytes_ok_b; vm_compute; reflexivity|vm_compute; reflexivity].
  - vm_compute. reflexivity.
  - discriminate.
  - replace (Z.lor (upd_img_addr line_header) FLASH_BASE) with 0x8090000 by (vm_compute; reflexivity).
    replace (blen (line_image ++ line_pad)) with 968 by (vm_compute; reflexivity). apply demo_fits. lia.
  - vm_compute. reflexivity.
  - split; [vm_compute; discriminate|]. apply Forall_singleton. vm_compute. split; [reflexivity|discriminate].
  - vm_compute. reflexivity.
Qed.
Definition line_blocks : list (list Z) := [sealed 0 (line_header ++ line_first); sealed 1 line_second].
(** The first block damaged, the second too early, the first, the first again,
    the second. *)
Definition line_sent : list (list Z) :=
  [<[100%nat := 0]> (sealed 0 (line_header ++ line_first)); sealed 1 line_second; sealed 0 (line_header ++ line_first);
   sealed 0 (line_header ++ line_first); sealed 1 line_second].
Lemma line_image_ok : image_ok line_blocks.
Proof.
  intros [|[|i]] b Hb; [| |discriminate Hb]; apply (inj Some) in Hb; rewrite <- Hb; (split; [vm_compute; reflexivity|vm_compute; reflexivity]).
Qed.
Lemma line_sound : sound_channel line_blocks line_sent.
Proof. repeat apply Forall_cons_2; [..|apply Forall_nil_2]; vm_compute; reflexivity || (intros H; discriminate H). Qed.
Lemma line_bytes : Forall (λ b, blen b = UART_UPFW_DATA_SIZE ∧ bytes_ok b) line_sent.
Proof. repeat apply Forall_cons_2; [..|apply Forall_nil_2]; (split; [vm_compute; reflexivity|apply bytes_ok_b; vm_compute; reflexivity]). Qed.
Lemma line_data : blk_data <$> line_blocks = (line_header ++ line_first) :: [line_second].
Proof. vm_compute. reflexivity. Qed.
Definition line_state : uarts usim (tasks demo_fwhost) := data_state (mk_host demo_session []).
Lemma line_run : ∃ s', block_run id 1 line_sent line_state s'.
Proof.
  apply (demo_block_run id (λ h, ∃ i, stage 7 line_header line_image line_pad line_first [line_second] demo_session (Z.of_nat i - 1) i (fwst h))).
  - exact line_bytes.
  - intros c b s Hin Hok Hq [i Hst]. eapply wp_mono; [eapply (wp_update_block 7 line_header line_image line_pad line_first [line_second] demo_session)|].
    + discriminate.
    + exact line_delivery.
    + exact Hok.
    + exact Hq.
    + pose proof line_bytes as Hb. rewrite list.Forall_forall in Hb. apply (Hb b Hin).
    + exact line_image_ok.
    + pose proof line_sound as Hb. unfold sound_channel in Hb. rewrite list.Forall_forall in Hb. exact (Hb b Hin).
    + exact line_data.
    + exact Hst.
    + intros _ s' [Hst' _]. eexists. exact Hst'.
  - exists 0%nat. destruct demo_session_open as (src & lock & rn & Hsrc & Ho). exists src, lock. split; [exact Hsrc|].
    destruct Ho as [Hfw Hrest]. injection Hfw as <- <- <-. split; [reflexivity|exact Hrest].
Qed.
Lemma serial_update_witness : ∃ s', block_run id 1 line_sent line_state s' ∧ length (said (SerialTask.host (user s'))) = 5%nat ∧
  fd_bytes (flash (fwst (SerialTask.host (user s')))) 0x8090000 968 = line_image ++ line_pad ∧ resets (fwst (SerialTask.host (user s'))) = 1.
Proof.
  destruct line_run as [s' Hrun]. exists s'. split; [exact Hrun|].
  destruct (serial_update 1 7 line_header line_image line_pad line_first [line_second] line_blocks line_sent
    (mk_fwup [] 1 true 3 0 7 0 0 0 0 0 (-1)) line_state s') as [Hs Hres].
  - exact demo_session_open.
  - discriminate.
  - reflexivity.
  - reflexivity.
  - exact line_delivery.
  - vm_compute. reflexivity.
  - exact line_image_ok.
  - repeat apply Forall_cons_2; [..|apply Forall_nil_2]; vm_compute; reflexivity.
  - exact line_data.
  - exact line_sound.
  - eapply list.Forall_impl; [exact line_bytes|]. by intros b [Hb _].
  - exact Hrun.
  - split; [exact Hs|]. destruct Hres as [(Himg & _ & _ & _ & Hr)|[Hno _]].
    + split; [|exact Hr]. replace (Z.lor (upd_img_addr line_header) FLASH_BASE) with 0x8090000 in Himg by (vm_compute; reflexivity).
      replace (blen (line_image ++ line_pad)) with 968 in Himg by (vm_compute; reflexivity). exact Himg.
    + exfalso. apply Hno. unfold line_blocks, line_sent. do 2 apply sublist_cons. apply sublist_skip. apply sublist_cons. apply sublist_skip. apply sublist_nil.
Defined.
