(* ===== verification/SerialAt.v ===== *)
(** * From the serial line to the parameters

    The task of the serial ports over the AT interpreter: what a command that
    arrives as characters does to the parameters and to the host. *)
From Stdlib Require Import String.
From S2P Require Import Prelude Utils FlashStore ParamLayout Params AtToken AtCmdp AtExec AtSpec.
From S2P Require Import Uart UartRun UartSpec SerialTask SerialSpec SerialData.
#[local] Open Scope Z_scope.

Definition on_host {R F N A} (m : M (at_st F N) A) : M (uarts R (tasks (at_st F N))) A :=
  lift (λ s, SerialTask.host (user s)) (λ h s, set_user (set_host h (user s)) s) m.

(** The interpreter of the AT commands behind the task: a line is stored and
    handled; a message to the task is the operating system's. *)
Class AtTask (R F N : Type) `{!FlashDev F, !AtNet N, !AtOther F N, !UartEnv R (tasks (at_st F N)), !TaskEnv R (at_st F N)} (area : param_area) := {
  post_net : Z → N → N;
  at_handler ty b len : SerialTask.tls_hostif_cmd_handler ty b len =
    on_host (bind (modify (set_line b)) (λ _, AtExec.tls_hostif_cmd_handler area ty len));
  at_post id : wl_task_callback_static id = on_host (bind (on_net (post_net id)) (λ _, ret 0));
}.

Section compose.
Context {R F N : Type} `{FlashDevOk F, !AtNet N, !AtNetOk N, !AtOther F N, !UartRegs R, !UartEnv R (tasks (at_st F N)), !TaskEnv R (at_st F N)}.
Context (area : param_area) `{!AtTask R F N area}.
Local Abbreviation St := (uarts R (tasks (at_st F N))).
Implicit Types (s : St) (h : at_st F N) (c : tls_uart_circ_buf).

(** The state of the interpreter behind [s] is [h], or [h] with the task told
    that port [n] has more. *)
Definition behind n h s : Prop :=
  SerialTask.host (user s) = h ∨ SerialTask.host (user s) = set_net (post_net (rx_id n) (net h)) h.
Definition with_host h s : St := set_user (set_host h (user s)) s.
Lemma with_host_ok n m c h s : data_ok n m c s → data_ok n m c (with_host h s).
Proof. done. Qed.

Lemma wp_on_host {A} (m : M (at_st F N) A) (Q : A → St → Prop) s :
  wp m (λ a h, Q a (with_host h s)) (SerialTask.host (user s)) → wp (on_host m) Q s.
Proof. intros Hm. unfold on_host. apply wp_lift. exact Hm. Qed.

(** The first command waiting at port [n], when it is [AT+] with name [nm] and
    arguments [a], is carried out. *)
Lemma wp_serial_command n c p r nm a ls (P : at_st F N → Prop) s :
  data_ok n UART_ATCMD_MODE c s → is_port n s p r → plus_char_cnt p ≠ 3 → calm (rqueue c) →
  commands (rqueue c) = at_text nm a :: ls →
  (∀ rest, wp (at_line area (cmd_type n) nm a rest) (λ _, P) (SerialTask.host (user s))) →
  wp (uart_rx n) (λ _ s', ∃ c' h, data_ok n UART_ATCMD_MODE c' s' ∧ commands (rqueue c') = ls ∧ P h ∧ behind n h s') s.
Proof.
  intros Hok Hp Hplus Hcalm Hcmd HP. pose proof Hok as (Hn & Hs & (p0 & r0 & Hp0 & Hno & Hrec) & Hc & Hm).
  assert (p0 = p) as -> by (destruct Hp, Hp0; congruence). pose proof (is_port_fits _ _ _ _ Hp) as Hf.
  apply (wp_same _ _ _ _ _ (uart_rx_loop n s p r Hs Hp Hplus)). subst c. rewrite (put_self _ _ _ _ Hp).
  apply wp_parse_loop; [done|done|done| |done|..].
  - pose proof (ring_cnt_range (recv p)). unfold line_rounds, TLS_UART_RX_BUF_SIZE. lia.
  - intros x c _ Hnone _. by rewrite Hnone in Hcmd.
  - intros x l c h rest (Hq & Hw & Hc') Hcx Hm'. rewrite Hq, commands_app, Hcx in Hcmd by done. injection Hcmd as -> Hls.
    rewrite at_handler, Hno. apply wp_on_host. eapply wp_mono; [apply HP|]. intros ? h1 HP1.
    set (s1 := at_port n (set_recv c p) r (set_u_heap h s)). pose proof (is_port_put n (set_recv c p) r s Hf) as Hp1.
    assert (data_ok n UART_ATCMD_MODE c s1) as Hok1.
    { split; [done|]. split; [done|]. split; [exists (set_recv c p), r; done|done]. }
    exists (set_recv c p), r. split; [done|]. split; [done|]. cbn [recv set_recv uart_no].
    assert (∀ s2, data_ok n UART_ATCMD_MODE c s2 → behind n h1 s2 → ∃ c' h, data_ok n UART_ATCMD_MODE c' s2 ∧ commands (rqueue c') = ls ∧ P h ∧ behind n h s2) as Hfin
      by (intros s2 ? ?; by exists c, h1).
    case_if; [|apply Hfin; [done|by left]]. rewrite Hno. apply (wp_post_cb n c); [done|apply Hok1|apply Hok1|].
    rewrite at_post. apply wp_on_host, wp_bind, wp_modify, wp_ret, Hfin; [done|by right].
Qed.
End compose.

(** C10: from the serial line to the flash.  Characters wait at a port, whole
    lines of at most 511 characters with less than three characters or an
    unfinished command behind ([calm]); the first command among them is [AT+]
    with the name of one of the ten commands for a number, in upper or lower
    case, [=] or [=!], and a number.  One run of the task takes it and the lines
    before it off the ring and sets the number, modulo 256, in memory, with [=!]
    in flash too (as long as the count of records there does not wrap), clearing
    the key for the number 0 of ENCRY and APENCRY; or it refuses the number as
    too large.  The host of that port gets the answer, and the commands behind
    wait for the next run. *)
Theorem serial_number {R F N} `{FlashDevOk F, !AtNet N, !AtNetOk N, !AtOther F N, !UartRegs R, !UartEnv R (tasks (at_st F N)), !TaskEnv R (at_st F N)}
    (area : param_area) `{!AtTask R F N area} n c p r cmd nm e v ls (s : uarts R (tasks (at_st F N))) : let h := SerialTask.host (user s) in
  area_ok area → cmd ∈ num_cmds → upper nm = str (nc_name cmd) → 0 <= v < 2 ^ 31 → ready area h →
  (e = true → nc_hi cmd <? u8 v = false → rec_modify_count (flash_param (prm h)) + num_writes cmd (u8 v) <= 65535) →
  data_ok n UART_ATCMD_MODE c s → is_port n s p r → plus_char_cnt p ≠ 3 → calm (rqueue c) →
  commands (rqueue c) = at_text nm (Some (e, [fmt_u v])) :: ls →
  wp (uart_rx n) (λ _ s', ∃ c' h', data_ok n UART_ATCMD_MODE c' s' ∧ commands (rqueue c') = ls ∧ behind (R := R) area n h' s' ∧ ready area h' ∧
    if nc_hi cmd <? u8 v then answers (cmd_type n) (str "+ERR=-4") h h' ∧ unchanged h h'
    else answers (cmd_type n) (str "+OK") h h' ∧ num_set area cmd (u8 v) e (prm h) (prm h')) s.
Proof.
  intros h Ha Hc Hup Hv Hready Hcount Hok Hp Hplus Hcalm Hcmd.
  eapply wp_mono; [apply (wp_serial_command area n c p r nm _ ls (λ h', ready area h' ∧
    if nc_hi cmd <? u8 v then answers (cmd_type n) (str "+ERR=-4") h h' ∧ unchanged h h'
    else answers (cmd_type n) (str "+OK") h h' ∧ num_set area cmd (u8 v) e (prm h) (prm h')) s Hok Hp Hplus Hcalm Hcmd)|].
  - intros rest. apply (wp_set_line area Ha (cmd_type n) cmd); [by apply num_cmds_code|done..].
  - intros _ s' (c' & h' & Hok' & Hls & (Hr & Hans) & Hb). by exists c', h'.
Qed.

(** * A run on concrete data *)

#[local] Existing Instance host_net.
#[local] Existing Instance no_other.
#[local] Existing Instance host_net_ok.
Local Abbreviation demo_interp := (at_st array (list (list Z))).
#[local] Instance at_uart_env : UartEnv usim (tasks demo_interp) := silent_env usim (tasks demo_interp).
#[local] Instance at_task_env : TaskEnv usim demo_interp := {
  tls_hostif_cmd_handler ty b len := on_host (bind (modify (set_line b)) (λ _, AtExec.tls_hostif_cmd_handler demo_area ty len));
  tls_hostif_process_cmdrsp _ _ _ := ret 0;
  tls_hostif_send_data _ _ := ret 0;
  tls_cmd_get_default_socket := ret 0;
  wl_task_callback_static _ := on_host (bind (on_net id) (λ _, ret 0));
  wl_task_callback_tx _ := ret 0;
  wl_task_untimeout _ := ret tt;
  wl_task_add_timeout _ _ := ret tt;
  os_time_delay _ := ret tt;
  fwup_get_current_session_id := ret 0;
  fwup_set_update_numer _ := ret 0;
  fwup_request_sync _ _ _ := ret 0;
  pbuf_freed := 0;
  SerialTask.rptmode _ := 0;
  stack _ := 0;
}.
#[local] Instance at_task_ok : AtTask usim array (list (list Z)) demo_area.
Proof. refine {| post_net _ := id |}; reflexivity. Defined.

(** A line of noise, then "AT+wpsm=!257" and a carriage return, then half a
    command. *)
Definition number_ring : tls_uart_circ_buf := ring_push (str "noise" ++ [13; 10] ++ str "AT+wpsm=!257" ++ [13; 10] ++ str "AT+q") (demo_ring [] 4090).
Definition number_state : uarts usim (tasks demo_interp) :=
  at_port 1 (demo_port 1 number_ring []) idle_line (mk_uarts (replicate 3 zero_port) (replicate 3 idle_line) (λ _, Some (λ _, 0))
    (mk_tasks [mk_uart (Some 0) 0 0 0 0 0; mk_uart (Some 1) UART_ATCMD_MODE 0 0 0 0] [] [] 5 demo_at)).
Lemma number_port : is_port 1 number_state (demo_port 1 number_ring []) idle_line.
Proof. unfold number_state. apply is_port_put. split; simpl; lia. Qed.
Lemma serial_number_witness : wp (uart_rx 1) (λ _ s', net (SerialTask.host (user s')) = [str "+OK" ++ [13; 10; 13; 10]] ∧
  ∃ c' (h' : demo_interp), data_ok 1 UART_ATCMD_MODE c' s' ∧ commands (rqueue c') = [] ∧ updated demo_area F_auto_powersave [1] true (prm demo_at) (prm h')) number_state.
Proof.
  assert (ring_ok number_ring) as Hc by (apply ring_okb_ok; vm_compute; reflexivity).
  eapply wp_mono; [apply (serial_number demo_area 1 number_ring (demo_port 1 number_ring []) idle_line wpsm (str "wpsm") true 257 [] number_state)|].
  - apply demo_area_ok.
  - apply wpsm_in.
  - reflexivity.
  - split; [discriminate|reflexivity].
  - apply at_demo_ready.
  - intros _ _. apply demo_room.
  - split; [by right|]. split; [eexists; split; [reflexivity|split; reflexivity]|].
    split; [exists (demo_port 1 number_ring []), idle_line; split; [apply number_port|split; reflexivity]|]. split; [exact Hc|]. intros k. discriminate.
  - apply number_port.
  - discriminate.
  - apply calmb_ok. vm_compute. reflexivity.
  - vm_compute. reflexivity.
  - intros _ s' (c' & h' & Hok & Hcmd & Hb & _ & Hres). change (nc_hi wpsm <? u8 257) with false in Hres. destruct Hres as [Ha Hup].
    pose proof (host_reads _ _ demo_at _ eq_refl Ha) as Hn. split; [destruct Hb as [-> | ->]; exact Hn|].
    exists c', h'. split; [exact Hok|]. split; [exact Hcmd|exact Hup].
Defined.
